(* ===== verification/_CoqProject ===== *)
-Q . S2P
Prelude.v
Effects.v
Collections.v
PyFloat.v
PyData.v
Csv.v
PyFormat.v
Bytes.v
Base64.v
G711.v
Pcm.v
JobQueue.v
JobLiveness.v
RunModel.v
Repository.v
RunWorker.v
Observer.v
AudioSocket.v
CallSession.v
CallInvariants.v
AudioServer.v
Timeline.v
RtpEvidence.v
ResponseEvidence.v
SilenceEvidence.v
TypedTimeline.v
Incidents.v
Digest.v
AudioSession.v
Json.v
Registry.v
SignalChecks.v
PyUrl.v
RecordingStorage.v
Wave.v
AmiRtcp.v
AmiCollector.v
RunStores.v
ObservedRuns.v
AudioAccess.v
Harness.v
RunLifeCycle.v
RunExecution.v
Trends.v
Providers.v
LiveDemo.v
ProcessConfig.v
ObservedAudio.v
AudioLedger.v
PyStats.v
Scoring.v
Treatments.v
SyntheticCaller.v
Visqol.v
IsoTime.v
ObservationWire.v
StageEvidence.v
Loopback.v
CallRecording.v
CallBridge.v
Commands.v
RunQueries.v
