(* ===== verification/Prelude.v ===== *)
(** * VoxBench verification library

    VoxBench measures realtime voice agents: a control plane queues runs and
    commits their results, an AudioSocket bridge carries the audio of a call
    between Asterisk and a realtime provider, observers collect RTP and media
    evidence, the run API stores the evidence and derives timelines and
    incidents from it, and verification code scores recordings.  This library
    models that Python code (paths below are under src/voxbench/) and proves
    what makes it correct.

    ** Files and the code they model

    Foundations:
    - Prelude: exceptions, the [result] monad, loops that may raise, list and
      integer lemmas, the hint database [voxbench].
    - Effects: the state monad with exceptions, transactions and rollback, and
      the lemmas on invariants and frames ([preserves], [stable]).
    - Collections: insertion-ordered dictionaries, grouping and stable sorting;
      lexicographic sort keys.
    - PyFloat, PyData, PyFormat, PyStats, PyUrl, Bytes, Base64, Csv, Digest:
      the parts of Python's standard library that the code uses: binary64
      floats on rationals, strings as code points, UUIDs, datetimes, JSON
      values, formatting, statistics, URLs, bytes and 16-bit samples, base64,
      CSV, SHA-256 and HMAC.

    The control plane (control_plane/):
    - JobQueue: job_queue.py over the table of models.py.  A call is one
      transaction on the finite maps of the rows of runs and run_jobs; [env]
      holds the clock, the fresh UUID, the rows other transactions lock and a
      database failure.  JobLiveness: the queue under any clients makes progress.
    - RunModel: StoredRun and its summaries, the request validators
      (run_api.py, engine_harness/models.py).
    - Repository, RunStores: the in-memory and Postgres run repositories of
      run_api.py, whose commits settle a job of the queue in the same
      transaction, and the interface [RunStore] with its laws
      [RunStoreLaws] that the handlers are proved against.
    - RunWorker: run_worker.py against the interface [WorkerOps] and the laws
      [FencedStore]; the heartbeat thread and the supervisor.
    - ObservedRuns, RunLifeCycle, ObservedAudio, AudioLedger: the handlers that
      create, feed, complete and fail observed runs, over any lawful store; the
      life cycle of a run, refused calls, and the WAV files that are written.
    - RunExecution: the handlers that execute a run through the harness.
    - RunQueries, Trends: the reads, lists, live preview, web socket rounds and
      cross-session trends.
    - Timeline, RtpEvidence, ResponseEvidence, SilenceEvidence, StageEvidence:
      the evidence functions of run_api.py and what they find; TypedTimeline
      and Incidents: the typed events, intervals, series and incidents that
      to_timeline assembles.
    - AudioSession, AudioAccess: audio_session.py and the endpoint of
      recordings: signed cookies, login, authorization.
    - ProcessConfig: the factories of app.py, storage_config.py and
      repository_config.py over the environment of the process.

    The bridge and its observer (telephony/, observability/, live_demo/):
    - Observer: observability/observer.py: RTP decoding, capture health, the
      observer's pending observations and flush, PCM measurements.
      ObservationWire: its JSON payloads, its HTTP client and the reading of
      the request models on the other side.  IsoTime: the timestamps in them,
      with the calendar that says which instant a text denotes.
    - AudioSocket, CallSession, CallInvariants, AudioServer, Loopback:
      telephony/audiosocket.py (and classify_provider_error of
      realtime_providers/providers.py): framing, level control, the playback
      buffer and the provenance of packets; the realtime call session as a
      state that the producer, the pump and the reader task share; the
      connection handlers; the loopback session.
    - CallRecording: a loopback call from the bridge over the wire to the API
      and its WAV files.
    - AmiRtcp, AmiCollector: telephony/ami_rtcp.py, over a connection that is
      closed or lost at any point.
    - Providers, LiveDemo: realtime_providers/ with the retries of a
      connection; the simulated bridge and its handler.
    - CallBridge: live_demo/observed_run.py and the session factories of
      cli/main.py.

    Media, storage, verification, configuration:
    - G711, Pcm, Wave: media/g711.py, media/pcm.py and wave files.
    - Harness, RecordingStorage: engine_harness/: the stage plan, recordings,
      spans and metrics of a run; the sinks and the bounded remote reader.
    - SignalChecks, Scoring, Treatments, Visqol, SyntheticCaller: verification/
      and synthetic_caller/: the invariants of the stages, full-reference
      scoring, aggregation and regression, the ViSQOL adapter, generated calls.
    - Registry, Json: registry/: merging, resolution, canonical JSON and hash.
    - Commands: the other commands of cli/main.py with their exit codes.

    ** How the parts interact

    The queue, the repository and the worker share one database: the worker
    claims a job (JobQueue), executes it (Harness) and commits the run and the
    job together (Repository), fenced by the lease token.  A call is set up by
    CallBridge, which asks the run API for a run; the bridge (CallSession or
    Loopback) hands audio, packets and events to the Observer, whose batches
    travel as ObservationWire describes to the handlers of ObservedRuns, which
    store them through RunStore; Timeline, TypedTimeline and Incidents read the
    stored run again.  Theorems about a client use the lemmas or the interface
    of the component it calls.

    ** What the theorems show

    - Queue: any history of calls keeps the table well formed and follows the
      life cycle of a job; leases are fenced, bounded and fair in queue order;
      every job is settled after boundedly many claims; a call that raises
      changes nothing.
    - Repository and worker: a saved run reads back; a leased result is
      committed at most once and only under the lease; the outcome that the
      worker reports is true of the store; an executed run settles.
    - Run API: stored runs follow their life cycle whatever fails (an ended run
      is fixed but for the SIP events and RTP statistics it still takes); a
      refused call changes nothing; the WAV file of a stage is the audio that was sent;
      an ended run reads back as it was answered.
    - Observation: flush loses nothing under failures and concurrency, a batch
      reaches the API as it was observed, at the instants it was observed at,
      and a whole loopback call is recorded.
    - Bridge: the packet loop accounts for every byte and queues exactly the
      packets; cancels are sent for responses in progress only; start and stop events
      are bracketed whatever the tasks interleave; a started call is accounted
      for; the connection handler reports one failure and closes the session.
    - Evidence: evidence functions meet their declarative specifications;
      every reference of an incident resolves; literals are valid.
    - Access and configuration: remote audio needs a token or a valid cookie;
      a read gives the whole object a URI names, within its limit; a
      configuration resolves along its chain of parents and gets exactly the
      defaults of its manifests; the services of a process fit together.
    - Media and scores: the chunked resampler equals its reference for ratios
      up to three (and does not beyond); recordings match the plan; scores are
      within the contract or carry a safe reason; aggregation accounts for
      every sample; the comparison command is a gate on regressions.

    ** Conventions, bounds and fuel

    Timestamps are instants in microseconds, and aware.  A Python [str] has
    code points up to U+00FF.  Floats are exact rationals rounded as binary64;
    [math.log10] and [math.sin] are parameters where they are used.
    Concurrency is an explicit sequence: at each await, or between two
    statements of a thread, the model runs an arbitrary list of the calls
    others make.  The handlers of the run API have no await inside and are one
    step each; a background flush of the loopback session is one step at its
    start.  Loops that are not structural take fuel that is computed from the
    input ([produce_fuel], the number of buffered bytes, the length of the
    connection, the number of registered configurations), and the lemma next
    to each shows that it never runs out.

    Third-party code (the Postgres driver's JSON encoding, the provider's and
    the object store's answers, Pydantic's and jsonschema's validation, the
    ViSQOL program, HTTP exchanges) is a parameter, with its documented
    behaviour as a hypothesis where a theorem needs it.

    ** Not modelled

    The routing and response serialisation of FastAPI, the option parsing and
    texts of the command line and the loops of its servers around the modelled
    handlers; the Alembic scripts (generated table definitions, whose columns
    and constraints are part of JobQueue and Repository) and the schema export,
    which only call libraries; the Pipecat adapter, which only builds an object
    of that library; OpenTelemetry's exporter.  A cancelled task of the bridge
    is modelled by its outcome, not by the await it is cancelled at, and the
    cancellation of an AMI collection is not modelled.  The web
    interface is TypeScript.  Tests and documentation were read for the
    intended behaviour. *)
From stdpp Require Export base tactics list sets gmap strings pretty.
From Stdlib Require Export ZArith Lia.
From Stdlib Require Import Sorting.Permutation Sorting.Sorted.

#[global] Set Default Goal Selector "!".

Open Scope Z_scope.

(** ** Exceptions and the result monad *)

(** The Python exception classes the modelled code raises or catches. *)
Inductive exn_class : Type :=
  | ValueError
  | TypeError
  | KeyError
  | AttributeError
  | IndexError
  | RuntimeError
  | ZeroDivisionError
  | OverflowError
  | StructError
  | AssertionError
  | ConnectionError
  | ConfigNotFoundError
  | ConfigValidationError
  | ManifestNotFoundError
  | SchemaError
  | AmiConnectionError
  | AmiAuthenticationError
  | AmiProtocolError
  | SQLAlchemyError
  | IntegrityError
  | RunJobQueueError
  | RunRepositoryError
  | AudioSessionConfigurationError
  | AudioSessionLoginError
  | OSError
  | EOFError
  | CsvError
  | BadParameter
  | WaveError
  | StatisticsError
  | ProviderStreamEndedError
  | ProviderSessionError
  | HTTPException
  | TimeoutError
  | RemoteRecordingIdentityError
  | RemoteRecordingTooLargeError
  | RemoteRecordingUnavailableError
  | RemoteRecordingBusyError
  | RemoteRecordingTimeoutError
  | RemoteRecordingInvalidContentError
  | StorageConfigurationError
  | RepositoryConfigurationError
  | ProviderConnectionError
  | OtherError.

#[export] Instance exn_class_eq_dec : EqDecision exn_class.
Proof. solve_decision. Defined.

(** A Python computation that returns a value or raises. *)
Inductive result (A : Type) : Type :=
  | Ok (a : A)
  | Raise (cls : exn_class) (arg : string).
Arguments Ok {A} a.
Arguments Raise {A} cls arg.

#[export] Instance result_ret : MRet result := fun A a => Ok a.
#[export] Instance result_bind : MBind result := fun A B f m =>
  match m with
  | Ok a => f a
  | Raise c s => Raise c s
  end.
#[export] Instance result_fmap : FMap result := fun A B f m =>
  match m with
  | Ok a => Ok (f a)
  | Raise c s => Raise c s
  end.

Definition is_ok {A} (m : result A) : bool :=
  match m with Ok _ => true | Raise _ _ => false end.

(** [if not b: raise cls(arg)] *)
Definition guard_else (b : bool) (cls : exn_class) (arg : string) : result unit :=
  if b then Ok tt else Raise cls arg.

Definition from_option_err {A} (o : option A) (cls : exn_class) (arg : string) : result A :=
  match o with Some a => Ok a | None => Raise cls arg end.

(** Left-to-right evaluation of a list comprehension whose body may raise. *)
Fixpoint mapM_res {A B} (f : A -> result B) (l : list A) : result (list B) :=
  match l with
  | [] => Ok []
  | x :: l' => y ← f x; ys ← mapM_res f l'; Ok (y :: ys)
  end.

(** A [for] loop over [l] that threads a state and may raise. *)
Fixpoint foldM_res {A S} (f : S -> A -> result S) (s : S) (l : list A) : result S :=
  match l with
  | [] => Ok s
  | x :: l' => s' ← f s x; foldM_res f s' l'
  end.

Lemma bind_ok_inv {A B} (m : result A) (f : A -> result B) b :
  (m ≫= f) = Ok b -> exists a, m = Ok a /\ f a = Ok b.
Proof. destruct m as [a|]; cbn; intros H; [eauto | discriminate]. Qed.

Lemma guard_else_ok b c s u : guard_else b c s = Ok u <-> b = true.
Proof. destruct b, u; cbn; split; congruence. Qed.

Lemma mapM_res_ok {A B} (f : A -> result B) l ys :
  mapM_res f l = Ok ys <-> Forall2 (fun x y => f x = Ok y) l ys.
Proof.
  revert ys; induction l as [|x l IH]; intros ys; cbn.
  - split; [intros [= <-]; constructor | inversion 1; reflexivity].
  - split.
    + intros H. apply bind_ok_inv in H as (y & Hy & H).
      apply bind_ok_inv in H as (ys' & Hys & H).
      injection H as <-. constructor; [done | by apply IH].
    + inversion 1; subst. rewrite H2; cbn.
      match goal with H : Forall2 _ l _ |- _ => apply IH in H; rewrite H end.
      reflexivity.
Qed.

Lemma forallb_weaken {A} (p q : A -> bool) l :
  (forall x, p x = true -> q x = true) -> forallb p l = true -> forallb q l = true.
Proof. rewrite !forallb_forall. eauto. Qed.

Lemma fold_left_inv {A S} (P : S -> Prop) (f : S -> A -> S) l s :
  P s -> (forall s x, P s -> P (f s x)) -> P (fold_left f l s).
Proof. intros Hs Hf. revert s Hs. induction l as [|x l IH]; intros s Hs; [done|]. cbn [fold_left]. auto. Qed.

Lemma foldM_res_app {A S} (f : S -> A -> result S) s l1 l2 :
  foldM_res f s (l1 ++ l2) = (foldM_res f s l1 ≫= fun s' => foldM_res f s' l2).
Proof.
  revert s; induction l1 as [|x l1 IH]; intros s; cbn; [done|].
  destruct (f s x); cbn; [apply IH | done].
Qed.

(** An invariant of the loop body is an invariant of the loop. *)
Lemma foldM_res_inv {A S} (P : S -> Prop) (f : S -> A -> result S) l s s' :
  (forall s x s', x ∈ l -> P s -> f s x = Ok s' -> P s') ->
  P s -> foldM_res f s l = Ok s' -> P s'.
Proof.
  revert s; induction l as [|x l IH]; intros s Hstep Hs H; cbn in H.
  - congruence.
  - apply bind_ok_inv in H as (s1 & H1 & H2).
    eapply IH; [| |exact H2].
    + intros; eapply Hstep; eauto using list_elem_of_further.
    + eapply Hstep; eauto using list_elem_of_here.
Qed.

(** ** Development tactics *)

(** Decompose successful monadic computations in the hypotheses. *)
Ltac simpl_res :=
  repeat match goal with
  | H : Ok _ = Ok _ |- _ => injection H as H; subst
  | H : Raise _ _ = Ok _ |- _ => discriminate H
  | H : Ok _ = Raise _ _ |- _ => discriminate H
  | H : (_ ≫= _) = Ok _ |- _ =>
      let a := fresh "a" in let H1 := fresh "H" in
      apply bind_ok_inv in H as (a & H1 & H)
  | H : guard_else _ _ _ = Ok _ |- _ => apply guard_else_ok in H
  end.

(** Boolean conditions of the code to propositions. *)
Ltac bool_to_prop :=
  repeat match goal with
  | H : _ && _ = true |- _ => apply andb_true_iff in H as [? H]
  | H : _ || _ = false |- _ => apply orb_false_iff in H as [? H]
  | H : negb _ = true |- _ => apply negb_true_iff in H
  | H : negb _ = false |- _ => apply negb_false_iff in H
  | H : (_ <=? _)%Z = true |- _ => apply Z.leb_le in H
  | H : (_ <=? _)%Z = false |- _ => apply Z.leb_gt in H
  | H : (_ <? _)%Z = true |- _ => apply Z.ltb_lt in H
  | H : (_ <? _)%Z = false |- _ => apply Z.ltb_ge in H
  | H : (_ =? _)%Z = true |- _ => apply Z.eqb_eq in H
  | H : (_ =? _)%Z = false |- _ => apply Z.eqb_neq in H
  | H : bool_decide _ = true |- _ => apply bool_decide_eq_true in H
  | H : bool_decide _ = false |- _ => apply bool_decide_eq_false in H
  end.

Ltac case_bool b := let E := fresh "E" in destruct b eqn:E; bool_to_prop.

(** Split on every [match]/[if] scrutinee of the goal or a hypothesis. *)
Ltac split_matches :=
  repeat match goal with
  | |- context [match ?x with _ => _ end] => let E := fresh "E" in destruct x eqn:E
  | H : context [match ?x with _ => _ end] |- _ => let E := fresh "E" in destruct x eqn:E
  end.

(** ** Lists as Python uses them *)

(** [enumerate(l)], counting from [i]. *)
Fixpoint enumerate_from {A} (i : Z) (l : list A) : list (Z * A) :=
  match l with
  | [] => []
  | x :: l' => (i, x) :: enumerate_from (i + 1) l'
  end.
Abbreviation enumerate := (enumerate_from 0).

(** [itertools.pairwise(l)]. *)
Fixpoint pairwise {A} (l : list A) : list (A * A) :=
  match l with
  | x :: ((y :: _) as l') => (x, y) :: pairwise l'
  | _ => []
  end.

(** [next((x for x in l if p(x)), None)]. *)
Definition next_match {A} (p : A -> bool) (l : list A) : option A := List.find p l.

(** [sum(1 for x in l if p(x))]. *)
Fixpoint countb {A} (p : A -> bool) (l : list A) : Z :=
  match l with
  | [] => 0
  | x :: l' => (if p x then 1 else 0) + countb p l'
  end.

Definition filterb {A} (p : A -> bool) (l : list A) : list A := List.filter p l.

Definition len {A} (l : list A) : Z := Z.of_nat (length l).

Lemma len_nonneg {A} (l : list A) : 0 <= len l.
Proof. unfold len; lia. Qed.

Lemma len_app {A} (l1 l2 : list A) : len (l1 ++ l2) = len l1 + len l2.
Proof. unfold len; rewrite length_app; lia. Qed.

Lemma len_cons {A} (x : A) l : len (x :: l) = 1 + len l.
Proof. unfold len; cbn [length]; lia. Qed.

Lemma countb_app {A} (p : A -> bool) l1 l2 : countb p (l1 ++ l2) = countb p l1 + countb p l2.
Proof. induction l1 as [|x l1 IH]; cbn; [done|]. rewrite IH; lia. Qed.

Lemma countb_bounds {A} (p : A -> bool) l : 0 <= countb p l <= len l.
Proof.
  induction l as [|x l IH]; cbn; [unfold len; cbn; lia|].
  rewrite len_cons. destruct (p x); lia.
Qed.

Lemma countb_filter {A} (p : A -> bool) l : countb p l = len (filterb p l).
Proof.
  induction l as [|x l IH]; cbn; [done|]. destruct (p x); rewrite IH, ?len_cons; unfold filterb; lia.
Qed.

Lemma next_match_some {A} (p : A -> bool) l x :
  next_match p l = Some x -> x ∈ l /\ p x = true.
Proof. intros H. apply List.find_some in H as [H1 H2]. by rewrite list_elem_of_In. Qed.

Lemma next_match_none {A} (p : A -> bool) l x :
  next_match p l = None -> x ∈ l -> p x = false.
Proof. intros H Hx. eapply List.find_none; [exact H | by apply list_elem_of_In]. Qed.

Lemma elem_of_filterb {A} (p : A -> bool) l x : x ∈ filterb p l <-> x ∈ l /\ p x = true.
Proof. unfold filterb. rewrite !list_elem_of_In. apply List.filter_In. Qed.

Lemma enumerate_from_length {A} i (l : list A) : length (enumerate_from i l) = length l.
Proof. revert i; induction l as [|x l IH]; intros i; cbn; [done | by rewrite IH]. Qed.

Lemma enumerate_from_app {A} i (l1 l2 : list A) :
  enumerate_from i (l1 ++ l2) = enumerate_from i l1 ++ enumerate_from (i + len l1) l2.
Proof.
  revert i; induction l1 as [|x l1 IH]; intros i; cbn.
  - by replace (i + len []) with i by (unfold len; cbn; lia).
  - rewrite IH, len_cons. do 3 f_equal. lia.
Qed.

Lemma enumerate_from_fst_lt {A} i (l : list A) j x :
  (j, x) ∈ enumerate_from i l -> i <= j < i + len l.
Proof.
  revert i; induction l as [|y l IH]; intros i H; cbn in H; [set_solver|].
  rewrite len_cons. apply elem_of_cons in H as [[= -> ->]|H].
  - pose proof (len_nonneg l); lia.
  - specialize (IH _ H); lia.
Qed.

Lemma elem_of_enumerate {A} i (l : list A) j x : (j, x) ∈ enumerate_from i l -> x ∈ l.
Proof.
  revert i. induction l as [|y l IH]; intros i; cbn [enumerate_from]; [by intros ?%not_elem_of_nil|].
  intros [[= _ ->]|H]%elem_of_cons; [left|right; eauto].
Qed.

Lemma enumerate_covers {A} i (l : list A) x : x ∈ l -> exists j, (j, x) ∈ enumerate_from i l.
Proof.
  revert i. induction l as [|y l IH]; intros i; [by intros ?%not_elem_of_nil|]. cbn [enumerate_from].
  intros [->|[j Hj]%(IH (i + 1))]%elem_of_cons; [exists i; left|exists j; by right].
Qed.

Lemma enumerate_from_NoDup {A} i (l : list A) : NoDup (enumerate_from i l).*1.
Proof.
  revert i; induction l as [|x l IH]; intros i; cbn; constructor; [|apply IH].
  intros ([j y] & Hj & Hin)%list_elem_of_fmap. cbn in Hj; subst.
  apply enumerate_from_fst_lt in Hin; lia.
Qed.

Lemma elem_of_pairwise {A} (l : list A) x y : (x, y) ∈ pairwise l -> x ∈ l /\ y ∈ l.
Proof.
  induction l as [|a [|b l] IH]; intros H; [set_solver..|].
  change (pairwise (a :: b :: l)) with ((a, b) :: pairwise (b :: l)) in H.
  apply elem_of_cons in H as [[= -> ->]|H]; [set_solver|].
  specialize (IH H); set_solver.
Qed.

Lemma pairwise_length {A} (x : A) l : length (pairwise (x :: l)) = length l.
Proof.
  revert x; induction l as [|y l IH]; intros x; [done|].
  change (pairwise (x :: y :: l)) with ((x, y) :: pairwise (y :: l)). cbn [length]. by rewrite IH.
Qed.

Lemma seqZ_snoc n : 0 <= n -> seqZ 0 (n + 1) = seqZ 0 n ++ [n].
Proof.
  intros Hn. by rewrite seqZ_app by lia.
Qed.

(** ** Automation shared by the components *)

Create HintDb voxbench.
#[export] Hint Resolve len_nonneg countb_bounds enumerate_from_NoDup : voxbench.
#[export] Hint Rewrite @len_app @len_cons @enumerate_from_length : voxbench.
