(* ===== verification/Effects.v ===== *)
(** * State-passing computations that may raise

    The monad of the stateful components: a computation reads and replaces an
    explicit state and returns a value or raises a Python exception, keeping
    the state it reached.  [transaction] restores the state on an exception, as
    the [begin()] context of a database session does. *)
From S2P Require Import Prelude.

Definition st (S A : Type) : Type := S -> result A * S.

#[export] Instance st_ret {S} : MRet (st S) := fun A a s => (Ok a, s).
#[export] Instance st_bind {S} : MBind (st S) := fun A B f m s =>
  match m s with
  | (Ok a, s') => f a s'
  | (Raise c e, s') => (Raise c e, s')
  end.
#[export] Instance st_fmap {S} : FMap (st S) := fun A B f m s =>
  match m s with
  | (Ok a, s') => (Ok (f a), s')
  | (Raise c e, s') => (Raise c e, s')
  end.

Definition get_state {S} : st S S := fun s => (Ok s, s).
Definition put_state {S} (s : S) : st S unit := fun _ => (Ok tt, s).
Definition modify {S} (f : S -> S) : st S unit := fun s => (Ok tt, f s).
Definition throw {S A} (c : exn_class) (e : string) : st S A := fun s => (Raise c e, s).
Definition lift {S A} (m : result A) : st S A := fun s => (m, s).

(** [try: m except ...: h]: the handler sees the exception and the state. *)
Definition catch {S A} (m : st S A) (h : exn_class -> string -> st S A) : st S A := fun s =>
  match m s with
  | (Ok a, s') => (Ok a, s')
  | (Raise c e, s') => h c e s'
  end.

(** [with session_factory.begin(): m]: an exception rolls the state back. *)
Definition transaction {S A} (m : st S A) : st S A := fun s =>
  match m s with
  | (Ok a, s') => (Ok a, s')
  | (Raise c e, _) => (Raise c e, s)
  end.

(** A [for] loop over [l] in the monad. *)
Fixpoint for_each {S A} (f : A -> st S unit) (l : list A) : st S unit :=
  match l with
  | [] => mret tt
  | x :: l' => f x ≫= fun _ => for_each f l'
  end.

Section laws.
Context {S : Type}.

Lemma st_bind_ok {A B} (m : st S A) (f : A -> st S B) s b s' :
  (m ≫= f) s = (Ok b, s') -> exists a s1, m s = (Ok a, s1) /\ f a s1 = (Ok b, s').
Proof.
  unfold mbind, st_bind. destruct (m s) as [[a|c e] s1]; intros H; [eauto | done].
Qed.

(** One step of a computation whose first part is known. *)
Lemma st_bind_eq {A B} (m : st S A) (f : A -> st S B) s a s1 :
  m s = (Ok a, s1) -> (m ≫= f) s = f a s1.
Proof. unfold mbind, st_bind. by intros ->. Qed.

Lemma st_bind_cases {A B} (m : st S A) (f : A -> st S B) s r :
  (m ≫= f) s = r ->
  (exists a s1, m s = (Ok a, s1) /\ f a s1 = r) \/
  (exists c e s1, m s = (Raise c e, s1) /\ r = (Raise c e, s1)).
Proof.
  unfold mbind, st_bind. destruct (m s) as [[a|c e] s1]; intros H; eauto 10.
Qed.

Lemma lift_ok {A} (m : result A) (s : S) a s' : lift m s = (Ok a, s') -> m = Ok a /\ s' = s.
Proof. unfold lift. intros [= -> ->]; done. Qed.

Lemma transaction_ok {A} (m : st S A) s a s' :
  transaction m s = (Ok a, s') -> m s = (Ok a, s').
Proof. unfold transaction. destruct (m s) as [[?|? ?] ?]; intros [= -> ->]; done. Qed.

Lemma transaction_raise {A} (m : st S A) s c e s' :
  transaction m s = (Raise c e, s') -> s' = s.
Proof. unfold transaction. destruct (m s) as [[?|? ?] ?]; congruence. Qed.

(** A transaction either commits its body or leaves the state alone. *)
Lemma transaction_atomic {A} (m : st S A) s :
  snd (transaction m s) = snd (m s) \/ snd (transaction m s) = s.
Proof. unfold transaction. destruct (m s) as [[?|? ?] ?]; auto. Qed.

Lemma for_each_inv {A} (P : S -> Prop) (f : A -> st S unit) l s :
  (forall x s, x ∈ l -> P s -> P (snd (f x s))) -> P s -> P (snd (for_each f l s)).
Proof.
  revert s; induction l as [|x l IH]; intros s Hf Hs; cbn; [done|].
  unfold mbind, st_bind. pose proof (Hf x s ltac:(set_solver) Hs) as H1.
  destruct (f x s) as [[[]|c e] s1]; cbn in *; [|done].
  apply IH; [|done]. intros; apply Hf; [set_solver | done].
Qed.
End laws.

(** Computations that leave the state alone whenever they raise. *)
Definition clean {S A} (m : st S A) : Prop :=
  forall s c e s', m s = (Raise c e, s') -> s' = s.

Section clean.
Context {S : Type}.

Lemma clean_lift {A} (m : result A) : clean (lift (S := S) m).
Proof. intros s c e s' [= _ ->]; done. Qed.

Lemma clean_lift_bind {A B} (m : result A) (f : A -> st S B) :
  (forall a, m = Ok a -> clean (f a)) -> clean (lift m ≫= f).
Proof.
  intros Hf s c e s'. unfold mbind, st_bind, lift.
  destruct m as [a|c' e'] eqn:E; [by apply Hf | by intros [= _ _ ->]].
Qed.

Lemma clean_fmap {A B} (f : A -> B) (m : st S A) : clean m -> clean (f <$> m).
Proof.
  intros Hm s c e s'. unfold fmap, st_fmap.
  destruct (m s) as [[a|c' e'] s1] eqn:E; [done|]. intros [= <- <- <-]. by eapply Hm.
Qed.

Lemma clean_transaction {A} (m : st S A) : clean (transaction m).
Proof. intros s c e s'. apply transaction_raise. Qed.

Lemma clean_catch {A} (m : st S A) h :
  clean m -> (forall c e, clean (h c e)) -> clean (catch m h).
Proof.
  intros Hm Hh s c e s'. unfold catch.
  destruct (m s) as [[a|c' e'] s1] eqn:E; [done|].
  intros H. apply Hm in E as ->. by eapply Hh.
Qed.

Lemma clean_throw {A} c e : clean (throw (S := S) (A := A) c e).
Proof. intros s c' e' s' [= _ _ ->]; done. Qed.
End clean.

#[export] Hint Resolve clean_lift clean_lift_bind clean_fmap clean_transaction clean_catch
  clean_throw : voxbench.

(** The classes of the exceptions a computation may raise. *)
Definition raises {S A} (P : exn_class -> Prop) (m : st S A) : Prop :=
  forall s c e s', m s = (Raise c e, s') -> P c.
Definition raises_res {A} (P : exn_class -> Prop) (m : result A) : Prop :=
  forall c e, m = Raise c e -> P c.

Section raises.
Context {S : Type} (P : exn_class -> Prop).

Lemma raises_mret {A} (a : A) : raises (S := S) P (mret a).
Proof. intros s c e s' [=]. Qed.

Lemma raises_get : raises (S := S) P get_state.
Proof. intros s c e s' [=]. Qed.

Lemma raises_put (s0 : S) : raises P (put_state s0).
Proof. intros s c e s' [=]. Qed.

Lemma raises_throw {A} c e : P c -> raises (S := S) (A := A) P (throw c e).
Proof. intros Hc s c' e' s' [= <- _ _]. done. Qed.

Lemma raises_lift {A} (m : result A) : raises_res P m -> raises (S := S) P (lift m).
Proof. intros Hm s c e s' [= Hr _]. by eapply Hm. Qed.

Lemma raises_bind {A B} (m : st S A) (f : A -> st S B) :
  raises P m -> (forall a, raises P (f a)) -> raises P (m ≫= f).
Proof.
  intros Hm Hf s c e s' H. apply st_bind_cases in H as [(a & s1 & _ & H)|(c' & e' & s1 & H & [= <- <- <-])].
  - by eapply Hf.
  - by eapply Hm.
Qed.

Lemma raises_fmap {A B} (f : A -> B) (m : st S A) : raises P m -> raises P (f <$> m).
Proof.
  intros Hm s c e s'. unfold fmap, st_fmap. destruct (m s) as [[?|? ?] ?] eqn:E; [done|].
  intros [= <- <- <-]. by eapply Hm.
Qed.

Lemma raises_guard b c e : P c -> raises_res P (guard_else b c e).
Proof. intros Hc c' e'. destruct b; [done|]. by intros [= <- _]. Qed.

Lemma raises_from_option {A} (o : option A) c e : P c -> raises_res P (from_option_err o c e).
Proof. intros Hc c' e'. destruct o; [done|]. by intros [= <- _]. Qed.

Lemma raises_res_bind {A B} (m : result A) (f : A -> result B) :
  raises_res P m -> (forall a, raises_res P (f a)) -> raises_res P (m ≫= f).
Proof. intros Hm Hf c e. destruct m as [a|c' e']; cbn; [apply Hf|]. intros [= <- <-]. by eapply Hm. Qed.

Lemma raises_ok {A} (a : A) : raises_res P (Ok a).
Proof. intros c e [=]. Qed.
End raises.

#[export] Hint Resolve raises_mret raises_get raises_put raises_throw raises_lift raises_bind
  raises_fmap raises_guard raises_from_option raises_res_bind raises_ok : voxbench.

(** Computations that never return. *)
Definition diverts {S A} (m : st S A) : Prop := forall s, is_ok (fst (m s)) = false.

Section diverts.
Context {S : Type}.

Lemma diverts_throw {A} c e : diverts (throw (S := S) (A := A) c e).
Proof. done. Qed.

Lemma diverts_bind_l {A B} (m : st S A) (f : A -> st S B) : diverts m -> diverts (m ≫= f).
Proof.
  intros Hm s. specialize (Hm s). unfold mbind, st_bind. by destruct (m s) as [[?|? ?] ?].
Qed.

Lemma diverts_bind_r {A B} (m : st S A) (f : A -> st S B) :
  (forall a, diverts (f a)) -> diverts (m ≫= f).
Proof. intros Hf s. unfold mbind, st_bind. destruct (m s) as [[?|? ?] ?]; [apply Hf | done]. Qed.

Lemma diverts_fmap {A B} (f : A -> B) (m : st S A) : diverts m -> diverts (f <$> m).
Proof.
  intros Hm s. specialize (Hm s). unfold fmap, st_fmap. by destruct (m s) as [[?|? ?] ?].
Qed.

Lemma diverts_transaction {A} (m : st S A) : diverts m -> diverts (transaction m).
Proof. intros Hm s. specialize (Hm s). unfold transaction. by destruct (m s) as [[?|? ?] ?]. Qed.

Lemma diverts_catch {A} (m : st S A) h :
  diverts m -> (forall c e, diverts (h c e)) -> diverts (catch m h).
Proof.
  intros Hm Hh s. specialize (Hm s). unfold catch. destruct (m s) as [[?|? ?] ?]; [done|].
  apply Hh.
Qed.
End diverts.

(** Computations that keep a property of the state, also when they raise. *)
Definition preserves {S A} (P : S -> Prop) (m : st S A) : Prop := forall s, P s -> P (snd (m s)).

Section preserves.
Context {S : Type} (P : S -> Prop).

Lemma preserves_mret {A} (a : A) : preserves P (mret a).
Proof. by intros s. Qed.

Lemma preserves_throw {A} c e : preserves P (throw (A := A) c e).
Proof. by intros s. Qed.

Lemma preserves_lift {A} (m : result A) : preserves P (lift m).
Proof. by intros s. Qed.

Lemma preserves_bind {A B} (m : st S A) (f : A -> st S B) :
  preserves P m -> (forall a, preserves P (f a)) -> preserves P (m ≫= f).
Proof.
  intros Hm Hf s Hs. specialize (Hm s Hs). unfold mbind, st_bind.
  destruct (m s) as [[a|c e] s1]; [by apply Hf | done].
Qed.

Lemma preserves_lift_bind {A B} (m : result A) (f : A -> st S B) :
  (forall a, m = Ok a -> preserves P (f a)) -> preserves P (lift m ≫= f).
Proof. intros Hf s Hs. unfold mbind, st_bind, lift. destruct m as [a|c e]; [by apply Hf | done]. Qed.

Lemma preserves_modify f : (forall s, P s -> P (f s)) -> preserves P (modify f).
Proof. intros Hf s Hs. by apply Hf. Qed.

Lemma preserves_catch {A} (m : st S A) h :
  preserves P m -> (forall c e, preserves P (h c e)) -> preserves P (catch m h).
Proof.
  intros Hm Hh s Hs. specialize (Hm s Hs). unfold catch.
  destruct (m s) as [[a|c e] s1]; [done | by apply Hh].
Qed.

Lemma preserves_for_each {A} (f : A -> st S unit) l :
  (forall x, preserves P (f x)) -> preserves P (for_each f l).
Proof. intros Hf s Hs. apply for_each_inv; [|done]. intros x s1 _. apply Hf. Qed.
End preserves.

(** Computations that keep what [view] reads of the state. *)
Definition stable {S A X} (view : S -> X) (m : st S A) : Prop := forall s, view (snd (m s)) = view s.

Section stable.
Context {S X : Type} (view : S -> X).

Lemma stable_mret {A} (a : A) : stable view (mret a).
Proof. by intros s. Qed.

Lemma stable_throw {A} c e : stable view (throw (A := A) c e).
Proof. by intros s. Qed.

Lemma stable_lift {A} (m : result A) : stable view (lift m).
Proof. by intros s. Qed.

Lemma stable_modify f : (forall s, view (f s) = view s) -> stable view (modify f).
Proof. intros H s. apply H. Qed.

Lemma stable_bind {A B} (m : st S A) (f : A -> st S B) :
  stable view m -> (forall a, stable view (f a)) -> stable view (m ≫= f).
Proof.
  intros Hm Hf s. specialize (Hm s). unfold mbind, st_bind.
  destruct (m s) as [[a|c e] s1]; [|done]. cbn in Hm. rewrite <- Hm. apply Hf.
Qed.

Lemma stable_for_each {A} (f : A -> st S unit) l :
  (forall x, stable view (f x)) -> stable view (for_each f l).
Proof.
  intros Hf. induction l as [|x l IH]; [apply stable_mret|]. by apply stable_bind.
Qed.
End stable.

Create HintDb stable.
#[export] Hint Resolve stable_mret stable_throw stable_lift stable_bind stable_for_each : stable.

(** How a computation ends from states with [P]: with [Q], or with an
    exception of a class in [E]. *)
Definition ends {S A} (P : S -> Prop) (m : st S A) (Q : A -> S -> Prop) (E : exn_class -> Prop) : Prop :=
  forall s, P s -> match m s with (Ok a, s') => Q a s' | (Raise c _, _) => E c end.

Section ends.
Context {S : Type}.

Lemma ends_bind {A B} (P : S -> Prop) (R : A -> S -> Prop) (Q : B -> S -> Prop) E (m : st S A) (f : A -> st S B) :
  ends P m R E -> (forall a, ends (R a) (f a) Q E) -> ends P (m ≫= f) Q E.
Proof.
  intros Hm Hf s Hs. specialize (Hm s Hs). unfold mbind, st_bind.
  destruct (m s) as [[a|c e] s1]; [by apply Hf | done].
Qed.

Lemma ends_mret {A} (P : S -> Prop) (a : A) (Q : A -> S -> Prop) E :
  (forall s, P s -> Q a s) -> ends P (mret a) Q E.
Proof. intros H s Hs. by apply H. Qed.

Lemma ends_lift {A} (P : S -> Prop) (m : result A) (Q : A -> S -> Prop) E :
  raises_res E m -> (forall a s, m = Ok a -> P s -> Q a s) -> ends P (lift m) Q E.
Proof. intros Hr H s Hs. unfold lift. destruct m as [a|c e]; [by apply H | by eapply Hr]. Qed.

Lemma ends_modify (P : S -> Prop) f (Q : unit -> S -> Prop) E :
  (forall s, P s -> Q tt (f s)) -> ends P (modify f) Q E.
Proof. intros H s Hs. by apply H. Qed.

Lemma ends_pre {A} (P P' : S -> Prop) (m : st S A) Q E :
  (forall s, P s -> P' s) -> ends P' m Q E -> ends P m Q E.
Proof. intros H Hm s Hs. by apply Hm, H. Qed.

(** A computation that keeps [P] whatever happens and only raises in [E]. *)
Lemma ends_preserves {A} (P : S -> Prop) (m : st S A) E :
  preserves P m -> raises E m -> ends P m (fun _ => P) E.
Proof.
  intros Hp Hr s Hs. specialize (Hp s Hs). destruct (m s) as [[a|c e] s1] eqn:Em; [done|]. by eapply Hr.
Qed.
End ends.

(** Decompose a successful monadic computation. *)
Ltac simpl_st :=
  repeat match goal with
  | H : (_ ≫= _) _ = (Ok _, _) |- _ =>
      let a := fresh "a" in let s := fresh "s" in let H1 := fresh "H" in
      apply st_bind_ok in H as (a & s & H1 & H)
  | H : lift _ _ = (Ok _, _) |- _ => apply lift_ok in H as [H ->]
  | H : get_state _ = (Ok _, _) |- _ => unfold get_state in H; injection H as H; subst
  | H : mret _ _ = (Ok _, _) |- _ => unfold mret, st_ret in H; injection H as H; subst
  | H : throw _ _ _ = (Ok _, _) |- _ => discriminate H
  | H : transaction _ _ = (Ok _, _) |- _ => apply transaction_ok in H
  | H : put_state _ _ = (Ok _, _) |- _ => unfold put_state in H; injection H as H; subst
  end.
