(* ===== verification/Collections.v ===== *)
(** * Python dictionaries, grouping and sorting

    Insertion-ordered dictionaries ([dict], with [d[k] = v] updating in place
    and appending new keys), the [setdefault(k, []).append(x)] grouping idiom
    and the stable sort [sorted(l, key=...)], each with the laws the
    components use. *)
From S2P Require Import Prelude.
From Stdlib Require Import Sorting.Permutation Sorting.Sorted.

(** ** Insertion-ordered dictionaries *)
Section dict.
Context {K V : Type} `{EqDecision K}.

Fixpoint dict_get (k : K) (d : list (K * V)) : option V :=
  match d with
  | [] => None
  | (k', v) :: d' => if decide (k = k') then Some v else dict_get k d'
  end.

Fixpoint dict_set (k : K) (v : V) (d : list (K * V)) : list (K * V) :=
  match d with
  | [] => [(k, v)]
  | (k', v') :: d' => if decide (k = k') then (k', v) :: d' else (k', v') :: dict_set k v d'
  end.

Definition dict_mem (k : K) (d : list (K * V)) : bool :=
  match dict_get k d with Some _ => true | None => false end.

Definition dict_keys (d : list (K * V)) : list K := d.*1.
Definition dict_values (d : list (K * V)) : list V := d.*2.

(** [{k: v for k, v in l}]: later bindings win, first position kept. *)
Definition dict_of_list (l : list (K * V)) : list (K * V) :=
  fold_left (fun d kv => dict_set kv.1 kv.2 d) l [].

Definition dict_get_default (k : K) (dflt : V) (d : list (K * V)) : V :=
  match dict_get k d with Some v => v | None => dflt end.

Lemma dict_get_set_eq k v d : dict_get k (dict_set k v d) = Some v.
Proof.
  induction d as [|[k' v'] d IH]; cbn; [by rewrite decide_True|].
  destruct (decide (k = k')); cbn; [by rewrite decide_True | by rewrite decide_False].
Qed.

Lemma dict_get_set_ne k k' v d : k <> k' -> dict_get k (dict_set k' v d) = dict_get k d.
Proof.
  intros Hne. induction d as [|[k1 v1] d IH]; cbn; [by rewrite decide_False|].
  destruct (decide (k' = k1)) as [->|]; cbn; [by rewrite !decide_False by done|].
  by destruct (decide (k = k1)).
Qed.

Lemma dict_get_set k k' v d :
  dict_get k (dict_set k' v d) = if decide (k = k') then Some v else dict_get k d.
Proof.
  destruct (decide (k = k')) as [->|]; [apply dict_get_set_eq | by apply dict_get_set_ne].
Qed.

Lemma dict_get_None k d : dict_get k d = None <-> k ∉ dict_keys d.
Proof.
  induction d as [|[k' v] d IH]; cbn; [split; [intros _; set_solver | done]|].
  destruct (decide (k = k')); [set_solver | rewrite IH; set_solver].
Qed.

Lemma dict_get_Some_elem k v d : dict_get k d = Some v -> (k, v) ∈ d.
Proof.
  induction d as [|[k' v'] d IH]; cbn; [done|].
  destruct (decide (k = k')) as [->|]; [intros [= ->]|]; set_solver.
Qed.

Lemma dict_elem_get k v d : NoDup (dict_keys d) -> (k, v) ∈ d -> dict_get k d = Some v.
Proof.
  induction d as [|[k' v'] d IH]; cbn; [set_solver|].
  intros [Hn Hd]%NoDup_cons [[= -> ->]|Hin]%elem_of_cons; [by rewrite decide_True|].
  rewrite decide_False; [auto|]. intros ->. apply Hn. apply list_elem_of_fmap.
  by exists (k', v).
Qed.

Lemma dict_set_keys k v d :
  dict_keys (dict_set k v d) =
  dict_keys d ++ (if decide (k ∈ dict_keys d) then [] else [k]).
Proof.
  induction d as [|[k' v'] d IH]; cbn; [by rewrite decide_False by set_solver|].
  destruct (decide (k = k')) as [->|Hne]; cbn.
  - rewrite decide_True by set_solver. by rewrite app_nil_r.
  - unfold dict_keys in *. rewrite IH. f_equal. f_equal.
    destruct (decide (k ∈ d.*1)), (decide (k ∈ k' :: d.*1)); set_solver.
Qed.

Lemma dict_set_NoDup k v d : NoDup (dict_keys d) -> NoDup (dict_keys (dict_set k v d)).
Proof.
  intros Hd. rewrite dict_set_keys. destruct (decide (k ∈ dict_keys d)).
  - by rewrite app_nil_r.
  - apply NoDup_app; split_and!; [done | set_solver | apply NoDup_singleton].
Qed.

Lemma dict_set_elem_keys k v d k' :
  k' ∈ dict_keys (dict_set k v d) <-> k' = k \/ k' ∈ dict_keys d.
Proof. rewrite dict_set_keys. case_decide; set_solver. Qed.

Lemma dict_of_list_snoc l kv :
  dict_of_list (l ++ [kv]) = dict_set kv.1 kv.2 (dict_of_list l).
Proof. unfold dict_of_list. by rewrite fold_left_app. Qed.

Lemma dict_of_list_NoDup l : NoDup (dict_keys (dict_of_list l)).
Proof.
  induction l as [|kv l IH] using rev_ind; [constructor|].
  rewrite dict_of_list_snoc. by apply dict_set_NoDup.
Qed.

(** The comprehension's lookup is the last binding of the key. *)
Lemma dict_of_list_get k l :
  dict_get k (dict_of_list l) =
  snd <$> List.find (fun kv => bool_decide (k = kv.1)) (reverse l).
Proof.
  induction l as [|kv l IH] using rev_ind; [done|].
  rewrite dict_of_list_snoc, dict_get_set, reverse_snoc. cbn.
  destruct (decide (k = kv.1)); [by rewrite bool_decide_true | by rewrite bool_decide_false].
Qed.

Lemma dict_of_list_elem k v l : dict_get k (dict_of_list l) = Some v -> (k, v) ∈ l.
Proof.
  induction l as [|[k' v'] l IH] using rev_ind; [done|].
  rewrite dict_of_list_snoc, dict_get_set, elem_of_app. cbn [fst snd]. destruct (decide _) as [->|_].
  - intros [= ->]. right. left.
  - intros H. left. by apply IH.
Qed.

Lemma dict_of_list_keys k l : k ∈ dict_keys (dict_of_list l) <-> k ∈ l.*1.
Proof.
  induction l as [|kv l IH] using rev_ind; [done|].
  rewrite dict_of_list_snoc, dict_set_elem_keys, fmap_app, elem_of_app, IH. set_solver.
Qed.

(** Bindings of distinct keys are all kept. *)
Lemma dict_of_list_unique k v l : NoDup l.*1 -> (k, v) ∈ l -> dict_get k (dict_of_list l) = Some v.
Proof.
  induction l as [|[k' v'] l IH] using rev_ind; [set_solver|].
  rewrite fmap_app, dict_of_list_snoc, dict_get_set, elem_of_app. cbn [fst snd fmap list_fmap].
  intros (Hnd & Hdis & _)%NoDup_app [Hin|Hin].
  - destruct (decide (k = k')) as [->|]; [|by apply IH]. destruct (Hdis k'); [|left]. apply list_elem_of_fmap. by exists (k', v).
  - apply list_elem_of_singleton in Hin as [= -> ->]. by rewrite decide_True.
Qed.
End dict.

#[export] Hint Resolve dict_set_NoDup dict_of_list_NoDup : voxbench.
#[export] Hint Rewrite @dict_get_set_eq : voxbench.

(** ** Grouping: [groups.setdefault(key(x), []).append(x)] for [x] in order *)
Section grouping.
Context {K A : Type} `{EqDecision K} (key : A -> K).

Definition group_append (g : list (K * list A)) (x : A) : list (K * list A) :=
  dict_set (key x) (dict_get_default (key x) [] g ++ [x]) g.

Definition group_by (l : list A) : list (K * list A) := fold_left group_append l [].

Lemma group_by_snoc l x : group_by (l ++ [x]) = group_append (group_by l) x.
Proof. unfold group_by. by rewrite fold_left_app. Qed.

Lemma group_by_NoDup l : NoDup (dict_keys (group_by l)).
Proof.
  induction l as [|x l IH] using rev_ind; [constructor|].
  rewrite group_by_snoc. by apply dict_set_NoDup.
Qed.

(** A group holds exactly the elements of its key, in their order. *)
Lemma group_by_get_default k l :
  dict_get_default k [] (group_by l) = filterb (fun x => bool_decide (key x = k)) l.
Proof.
  induction l as [|x l IH] using rev_ind; [done|].
  rewrite group_by_snoc. unfold group_append, filterb in *.
  rewrite List.filter_app. cbn. unfold dict_get_default in *. rewrite dict_get_set.
  destruct (decide (k = key x)) as [->|Hne].
  - rewrite bool_decide_true by done. by rewrite IH.
  - rewrite bool_decide_false by done. by rewrite app_nil_r.
Qed.

Lemma group_by_nonempty l k g : (k, g) ∈ group_by l -> g <> [].
Proof.
  revert k g; induction l as [|x l IH] using rev_ind; intros k g; [cbn; set_solver|].
  rewrite group_by_snoc. unfold group_append. intros H.
  apply dict_elem_get in H; [|eauto using dict_set_NoDup, group_by_NoDup].
  rewrite dict_get_set in H. destruct (decide (k = key x)).
  - injection H as <-. by destruct (dict_get_default _ _ _).
  - apply dict_get_Some_elem in H. eauto.
Qed.

Lemma group_by_elem l k g :
  (k, g) ∈ group_by l -> g = filterb (fun x => bool_decide (key x = k)) l.
Proof.
  intros H. apply dict_elem_get in H; [|apply group_by_NoDup].
  rewrite <- group_by_get_default. unfold dict_get_default. by rewrite H.
Qed.

Lemma group_by_member l k g x : (k, g) ∈ group_by l -> x ∈ g -> x ∈ l /\ key x = k.
Proof.
  intros Hg Hx. apply group_by_elem in Hg as ->.
  apply elem_of_filterb in Hx as [? ?%bool_decide_eq_true]. done.
Qed.

Lemma group_by_covers l x : x ∈ l -> exists g, (key x, g) ∈ group_by l /\ x ∈ g.
Proof.
  intros Hx.
  assert (x ∈ dict_get_default (key x) [] (group_by l)) as H.
  { rewrite group_by_get_default. apply elem_of_filterb. by rewrite bool_decide_true. }
  unfold dict_get_default in H. destruct (dict_get (key x) (group_by l)) as [g|] eqn:E;
    [|set_solver]. exists g. split; [by apply dict_get_Some_elem | done].
Qed.

Lemma dict_set_values_perm k (ys zs : list A) (g : list (K * list A)) :
  NoDup (dict_keys g) -> dict_get_default k [] g = ys ->
  Permutation (concat (dict_values (dict_set k (ys ++ zs) g))) (concat (dict_values g) ++ zs).
Proof.
  unfold dict_get_default, dict_values.
  induction g as [|[k' v] g IH]; cbn; intros Hd Hy.
  - subst. cbn. by rewrite app_nil_r.
  - apply NoDup_cons in Hd as [Hn Hd]. destruct (decide (k = k')) as [->|Hne]; cbn.
    + subst. rewrite <- !app_assoc. apply Permutation_app_head, Permutation_app_comm.
    + rewrite IH by done. by rewrite app_assoc.
Qed.

(** Grouping partitions the elements: nothing is lost or duplicated. *)
Lemma group_by_perm l : Permutation (concat (dict_values (group_by l))) l.
Proof.
  induction l as [|x l IH] using rev_ind; [done|].
  rewrite group_by_snoc. unfold group_append.
  rewrite dict_set_values_perm by eauto using group_by_NoDup. by rewrite IH.
Qed.
End grouping.

(** ** Stable sorting: [sorted(l, key=...)] with [le] the order on keys *)
Section sorting.
Context {A : Type} (le : A -> A -> bool).

Fixpoint insert_sorted (x : A) (l : list A) : list A :=
  match l with
  | [] => [x]
  | y :: l' => if le x y then x :: l else y :: insert_sorted x l'
  end.

Definition sorted_by (l : list A) : list A := foldr insert_sorted [] l.

Lemma insert_sorted_perm x l : Permutation (insert_sorted x l) (x :: l).
Proof.
  induction l as [|y l IH]; cbn; [done|]. destruct (le x y); [done|].
  rewrite IH. apply perm_swap.
Qed.

Lemma sorted_by_perm l : Permutation (sorted_by l) l.
Proof. induction l as [|x l IH]; cbn; [done|]. by rewrite insert_sorted_perm, IH. Qed.

Lemma elem_of_sorted_by x l : x ∈ sorted_by l <-> x ∈ l.
Proof. by rewrite sorted_by_perm. Qed.

Lemma sorted_by_length l : length (sorted_by l) = length l.
Proof. by rewrite sorted_by_perm. Qed.

Lemma insert_sorted_least x l : Forall (fun y => le x y) l -> insert_sorted x l = x :: l.
Proof. intros Hl. destruct Hl as [|y l Hy _]; cbn; [done|]. apply Is_true_true in Hy. by rewrite Hy. Qed.

Lemma sorted_by_id l : StronglySorted le l -> sorted_by l = l.
Proof.
  induction 1 as [|x l _ IH Hx]; [done|].
  change (insert_sorted x (sorted_by l) = x :: l). by rewrite IH, insert_sorted_least.
Qed.

(** [le] is only required to be a total preorder on the elements at hand
    (a Python comparison need not be total on every value: NaN). *)
Context (P : A -> Prop)
  (le_total : forall x y, P x -> P y -> le x y = true \/ le y x = true)
  (le_trans : forall x y z, P x -> P y -> P z ->
     le x y = true -> le y z = true -> le x z = true).

Lemma insert_sorted_sorted x l :
  P x -> Forall P l -> StronglySorted le l -> StronglySorted le (insert_sorted x l).
Proof using le_total le_trans.
  intros Hx Hl Hs. induction l as [|y l IH]; cbn; [by repeat constructor|].
  apply Forall_cons in Hl as [Hy Hl]. inversion Hs as [|? ? Hs' Hall]; subst.
  destruct (le x y) eqn:E.
  - constructor; [done|]. constructor; [by rewrite E|].
    rewrite Forall_forall in *. intros z Hz. specialize (Hall z Hz).
    apply Is_true_true. eapply le_trans; [..|exact E|]; eauto. by apply Is_true_true.
  - constructor; [auto|]. apply Forall_forall. intros z Hz.
    rewrite insert_sorted_perm in Hz. apply elem_of_cons in Hz as [->|Hz].
    + destruct (le_total x y) as [H|H]; [done..| |]; [congruence | by rewrite H].
    + rewrite Forall_forall in Hall. by apply Hall.
Qed.

Lemma sorted_by_sorted l : Forall P l -> StronglySorted le (sorted_by l).
Proof using le_total le_trans.
  induction l as [|x l IH]; cbn; intros Hl; [constructor|].
  apply Forall_cons in Hl as [Hx Hl]. apply insert_sorted_sorted; [done| |auto].
  by rewrite sorted_by_perm.
Qed.
End sorting.

(** ** Lexicographic keys *)

(** [le] is a total preorder on the elements that satisfy [P]. *)
Definition preorder_on {A} (P : A -> Prop) (le : A -> A -> bool) : Prop :=
  (forall x y, P x -> P y -> le x y = true \/ le y x = true)
  /\ (forall x y z, P x -> P y -> P z -> le x y = true -> le y z = true -> le x z = true).

Lemma sorted_by_preorder {A} (P : A -> Prop) (le : A -> A -> bool) l :
  preorder_on P le -> Forall P l -> StronglySorted le (sorted_by le l).
Proof. intros [Ht Htr]. by apply sorted_by_sorted. Qed.

(** Compare by the key order [kle], then by the rest. *)
Definition lexicographic {A} (kle rest : A -> A -> bool) (x y : A) : bool :=
  if kle x y && kle y x then rest x y else kle x y && negb (kle y x).

Lemma lexicographic_preorder {A} (P : A -> Prop) (kle rest : A -> A -> bool) :
  preorder_on P kle -> preorder_on P rest -> preorder_on P (lexicographic kle rest).
Proof.
  intros [Kt Ktr] [Rt Rtr]. unfold lexicographic. split.
  - intros x y Hx Hy. destruct (Kt x y Hx Hy) as [E|E]; rewrite E;
      destruct (kle y x) eqn:E1, (kle x y) eqn:E2; cbn; auto; congruence.
  - intros x y z Hx Hy Hz H1 H2.
    assert (kle x y = true /\ kle y z = true) as [Hxy Hyz].
    { destruct (kle x y), (kle y x), (kle y z), (kle z y); done. }
    rewrite Hxy, Hyz in *. rewrite (Ktr x y z) by done. cbn [andb] in *.
    destruct (kle z x) eqn:Hzx; [|done].
    rewrite (Ktr y z x), (Ktr z x y) in * by done. by apply (Rtr x y z).
Qed.

Lemma lexicographic_ext {A} (P : A -> Prop) (le le' : A -> A -> bool) :
  (forall x y, le x y = le' x y) -> preorder_on P le -> preorder_on P le'.
Proof.
  intros E [Ht Htr]. split; intros *; rewrite <- !E; [apply Ht|apply Htr].
Qed.

(** The first key of a lexicographic order. *)
Lemma lexicographic_key {A} (kle rest : A -> A -> bool) x y :
  lexicographic kle rest x y = true -> kle x y = true.
Proof. unfold lexicographic. by destruct (kle x y), (kle y x). Qed.

Lemma StronglySorted_weaken {A} (R R' : A -> A -> Prop) l :
  (forall x y, R x y -> R' x y) -> StronglySorted R l -> StronglySorted R' l.
Proof.
  intros H. induction 1 as [|x l _ IH Hx]; constructor; [done|].
  rewrite Forall_forall in *. auto.
Qed.

Lemma StronglySorted_filterb {A} (R : A -> A -> Prop) (p : A -> bool) l :
  StronglySorted R l -> StronglySorted R (filterb p l).
Proof.
  induction 1 as [|x l Hs IH Hx]; [constructor|]. cbn [filterb List.filter].
  destruct (p x); [|done]. constructor; [done|]. rewrite Forall_forall in *.
  intros y Hy. apply Hx. by apply elem_of_filterb in Hy as [? _].
Qed.
