(* ===== verification/PyFloat.v ===== *)
(** * Python floats: IEEE-754 binary64 over exact rationals

    A finite float is the rational it denotes; every operation is the exact
    rational operation followed by [rnd], rounding to nearest, ties to even,
    with 53 significant bits and the least exponent -1074.  Infinities and NaN
    are separate constructors.  The sign of zero is not represented: no
    modelled code observes it. *)
From S2P Require Import Prelude.
From Stdlib Require Import QArith Qabs Qpower Qround Lqa.

Declare Scope float_scope.
Delimit Scope float_scope with float.

Open Scope Q_scope.

#[local] Instance Qeq_default : SetoidTactics.DefaultRelation Qeq := {}.

(** ** Round half to even *)

Definition rne (q : Q) : Z :=
  let n := Qnum q in
  let d := Zpos (Qden q) in
  let f := (n / d)%Z in
  let r := (n mod d)%Z in
  match (2 * r ?= d)%Z with
  | Lt => f
  | Gt => (f + 1)%Z
  | Eq => if Z.even f then f else (f + 1)%Z
  end.

Lemma Qle_div_iff (z : Z) (q : Q) :
  inject_Z z <= q <-> (z * Zpos (Qden q) <= Qnum q)%Z.
Proof. unfold Qle; cbn. rewrite Z.mul_1_r. reflexivity. Qed.

(** The defining property of [rne]: within one half, ties on the even side. *)
Lemma rne_spec q :
  let m := rne q in
  inject_Z m - (1#2) <= q /\ q <= inject_Z m + (1#2) /\
  (q == inject_Z m - (1#2) -> Z.even m = true) /\
  (q == inject_Z m + (1#2) -> Z.even m = true).
Proof.
  destruct q as [n d]. unfold rne; cbn [Qnum Qden].
  pose proof (Z.div_mod n (Zpos d) ltac:(lia)) as Hdm.
  pose proof (Z.mod_pos_bound n (Zpos d) ltac:(lia)) as Hb.
  set (f := (n / Zpos d)%Z) in *. set (r := (n mod Zpos d)%Z) in *.
  destruct (2 * r ?= Zpos d)%Z eqn:E; cbn zeta.
  - apply Z.compare_eq in E. destruct (Z.even f) eqn:Ev.
    all: assert (Z.even (f + 1) = negb (Z.even f)) as Ev' by (rewrite Z.even_add; by destruct (Z.even f)).
    all: unfold Qminus, Qle, Qeq, Qplus, Qopp, inject_Z; cbn [Qnum Qden].
    all: rewrite ?Pos2Z.inj_mul.
    all: repeat split; intros; try lia; rewrite ?Ev', ?Ev; try done.
  - rewrite Z.compare_lt_iff in E. unfold Qminus, Qle, Qeq, Qplus, Qopp, inject_Z; cbn [Qnum Qden].
    rewrite ?Pos2Z.inj_mul. repeat split; intros; lia.
  - rewrite Z.compare_gt_iff in E. unfold Qminus, Qle, Qeq, Qplus, Qopp, inject_Z; cbn [Qnum Qden].
    rewrite ?Pos2Z.inj_mul. repeat split; intros; lia.
Qed.

Lemma inject_Z_succ z : inject_Z (z + 1) == inject_Z z + 1.
Proof. rewrite inject_Z_plus. reflexivity. Qed.

Lemma rne_mono x y : x <= y -> (rne x <= rne y)%Z.
Proof.
  intros Hxy. destruct (Z.le_gt_cases (rne x) (rne y)) as [|H]; [done|exfalso].
  pose proof (rne_spec x) as (X1 & X2 & X3 & X4).
  pose proof (rne_spec y) as (Y1 & Y2 & Y3 & Y4).
  assert (inject_Z (rne y) + 1 <= inject_Z (rne x)) as Hq.
  { rewrite <- inject_Z_succ, <- Zle_Qle. lia. }
  assert (x == inject_Z (rne x) - (1#2)) as Hx by lra.
  assert (y == inject_Z (rne y) + (1#2)) as Hy by lra.
  assert (inject_Z (rne x) == inject_Z (rne y + 1)) as He.
  { rewrite inject_Z_succ. lra. }
  apply (proj1 (inject_Z_injective _ _)) in He.
  specialize (X3 Hx). specialize (Y4 Hy). rewrite He, Z.even_add, Y4 in X3. done.
Qed.

#[export] Instance rne_proper : Proper (Qeq ==> eq) rne.
Proof. intros x y H. apply Z.le_antisymm; apply rne_mono; lra. Qed.

Lemma rne_inject z : rne (inject_Z z) = z.
Proof.
  unfold rne; cbn [inject_Z Qnum Qden]. rewrite Z.div_1_r, Z.mod_1_r. done.
Qed.

Lemma rne_opp q : rne (- q) = (- rne q)%Z.
Proof.
  pose proof (rne_spec q) as (X1 & X2 & X3 & X4).
  pose proof (rne_spec (- q)) as (Y1 & Y2 & Y3 & Y4).
  set (a := rne q) in *. set (b := rne (- q)) in *.
  assert (inject_Z (a + b) <= 1) by (rewrite inject_Z_plus; lra).
  assert (- (1) <= inject_Z (a + b)) by (rewrite inject_Z_plus; lra).
  assert (-1 <= a + b <= 1)%Z as Hab.
  { split.
    - rewrite Zle_Qle. assumption.
    - rewrite Zle_Qle. assumption. }
  destruct (decide (a + b = 0)%Z); [lia|exfalso].
  assert (Z.even a = true /\ Z.even b = true) as [Ha Hb].
  { assert (inject_Z a + inject_Z b == 1 \/ inject_Z a + inject_Z b == - (1)) as [He|He].
    { rewrite <- inject_Z_plus.
      assert (a + b = 1 \/ a + b = -1)%Z as [-> | ->] by lia; [left | right]; reflexivity. }
    - rewrite X3, Y3 by lra. done.
    - rewrite X4, Y4 by lra. done. }
  assert (Z.even (a + b) = true) as Hev by (rewrite Z.even_add, Ha, Hb; done).
  assert (a + b = 1 \/ a + b = -1)%Z as [He|He] by lia; rewrite He in Hev; done.
Qed.

Lemma rne_le_int q z : q <= inject_Z z -> (rne q <= z)%Z.
Proof. intros H. rewrite <- (rne_inject z). by apply rne_mono. Qed.

Lemma rne_ge_int q z : inject_Z z <= q -> (z <= rne q)%Z.
Proof. intros H. rewrite <- (rne_inject z). by apply rne_mono. Qed.

(** ** Binary exponents *)

(** [ilog2 q] is the integer [e] with [2^e <= q < 2^(e+1)], for [0 < q]. *)
Definition ilog2 (q : Q) : Z :=
  let e := (Z.log2 (Qnum q) - Z.log2 (Zpos (Qden q)))%Z in
  if Qle_bool (2 ^ e) q then e else (e - 1)%Z.

Lemma pow2_pos k : 0 < 2 ^ k.
Proof. apply Qpower_0_lt. reflexivity. Qed.

Lemma pow2_nz k : ~ 2 ^ k == 0.
Proof. pose proof (pow2_pos k). lra. Qed.

Lemma pow2_add j k : 2 ^ (j + k) == 2 ^ j * 2 ^ k.
Proof. apply Qpower_plus. discriminate. Qed.

Lemma pow2_Z n : (0 <= n)%Z -> 2 ^ n == inject_Z (2 ^ n).
Proof. intros H. change 2 with (inject_Z 2). by rewrite Zpower_Qpower. Qed.

Lemma pow2_succ k : 2 ^ (k + 1) == 2 * 2 ^ k.
Proof. rewrite pow2_add. change (2 ^ 1) with 2. lra. Qed.

Lemma pow2_le j k : (j <= k)%Z -> 2 ^ j <= 2 ^ k.
Proof. intros H. apply Qpower_le_compat_l; [done | discriminate]. Qed.

Lemma pow2_lt_inv j k : 2 ^ j < 2 ^ k -> (j < k)%Z.
Proof.
  intros H. destruct (Z.lt_ge_cases j k) as [|Hge]; [done|].
  apply pow2_le in Hge. lra.
Qed.

Lemma pow2_sub_inv k : 2 ^ k * 2 ^ (- k) == 1.
Proof. rewrite <- pow2_add. rewrite Z.add_opp_diag_r. reflexivity. Qed.

Lemma ilog2_spec q : 0 < q -> 2 ^ ilog2 q <= q /\ q < 2 ^ (ilog2 q + 1).
Proof.
  intros Hq. assert (0 < Qnum q)%Z as Hn by (unfold Qlt in Hq; cbn in Hq; lia).
  pose proof (Z.log2_spec (Qnum q) Hn) as [Hn1 Hn2].
  pose proof (Z.log2_spec (Zpos (Qden q)) ltac:(lia)) as [Hd1 Hd2].
  pose proof (Z.log2_nonneg (Qnum q)) as Ha. pose proof (Z.log2_nonneg (Zpos (Qden q))) as Hb.
  unfold ilog2. set (a := Z.log2 (Qnum q)) in *. set (b := Z.log2 (Zpos (Qden q))) in *.
  assert (inject_Z (Qnum q) == q * inject_Z (Zpos (Qden q))) as Hqd.
  { unfold Qeq, inject_Z; cbn. lia. }
  assert (2 ^ a <= inject_Z (Qnum q) /\ inject_Z (Qnum q) < 2 ^ (a + 1)) as [A1 A2].
  { rewrite !pow2_Z, <- Zle_Qle, <- Zlt_Qlt by lia. lia. }
  assert (2 ^ b <= inject_Z (Zpos (Qden q)) /\ inject_Z (Zpos (Qden q)) < 2 ^ (b + 1)) as [B1 B2].
  { rewrite !pow2_Z, <- Zle_Qle, <- Zlt_Qlt by lia. lia. }
  rewrite Hqd in A1, A2.
  assert (q < 2 ^ (a - b + 1)) as Hup.
  { assert (2 ^ (a + 1) == 2 ^ (a - b + 1) * 2 ^ b) as E by (rewrite <- pow2_add; apply Qpower_comp; lia || reflexivity).
    rewrite E in A2. pose proof (pow2_pos b). pose proof (pow2_pos (a - b + 1)). nra. }
  assert (2 ^ (a - b - 1) <= q) as Hlo.
  { assert (2 ^ a == 2 ^ (a - b - 1) * 2 ^ (b + 1)) as E.
    { rewrite <- pow2_add. replace (a - b - 1 + (b + 1))%Z with a by lia. reflexivity. }
    rewrite E in A1. pose proof (pow2_pos (b + 1)). nra. }
  destruct (Qle_bool (2 ^ (a - b)) q) eqn:E.
  - apply Qle_bool_iff in E. split; assumption.
  - assert (q < 2 ^ (a - b)) as Hlt.
    { apply Qnot_le_lt. intros H. apply Qle_bool_iff in H. congruence. }
    split; [assumption|]. replace (a - b - 1 + 1)%Z with (a - b)%Z by lia. assumption.
Qed.

Lemma ilog2_unique q e : 0 < q -> 2 ^ e <= q -> q < 2 ^ (e + 1) -> ilog2 q = e.
Proof.
  intros Hq H1 H2. apply ilog2_spec in Hq as [H3 H4].
  assert (ilog2 q < e + 1)%Z by (apply pow2_lt_inv; lra).
  assert (e < ilog2 q + 1)%Z by (apply pow2_lt_inv; lra). lia.
Qed.

Lemma ilog2_mono x y : 0 < x -> x <= y -> (ilog2 x <= ilog2 y)%Z.
Proof.
  intros Hx Hxy. pose proof (ilog2_spec x Hx) as [H1 _].
  pose proof (ilog2_spec y ltac:(lra)) as [_ H2].
  assert (ilog2 x < ilog2 y + 1)%Z by (apply pow2_lt_inv; lra). lia.
Qed.

(** ** Rounding to 53 bits *)

Definition fprec : Z := 53.
Definition emin : Z := -1074.

(** Exponent of the unit in the last place of [q <> 0]. *)
Definition fexp (q : Q) : Z := Z.max (ilog2 (Qabs q) - (fprec - 1)) emin.

Definition rnd (q : Q) : Q :=
  if Qeq_bool q 0 then 0
  else let k := fexp q in Qred (inject_Z (rne (q * 2 ^ (- k))) * 2 ^ k).

(** The numbers with at most 53 significant bits. *)
Definition representable (q : Q) : Prop :=
  exists m e : Z, (emin <= e)%Z /\ (Z.abs m < 2 ^ fprec)%Z /\ q == inject_Z m * 2 ^ e.

Lemma Qabs_pos_nz q : ~ q == 0 -> 0 < Qabs q.
Proof. intros H. apply Qabs_case; intros; lra. Qed.

Lemma ilog2_proper x y : 0 < x -> x == y -> ilog2 x = ilog2 y.
Proof. intros Hx Hy. apply Z.le_antisymm; apply ilog2_mono; lra. Qed.

Lemma fexp_proper x y : ~ x == 0 -> x == y -> fexp x = fexp y.
Proof.
  intros Hx Hy. unfold fexp. f_equal. f_equal. apply ilog2_proper; [by apply Qabs_pos_nz|].
  by rewrite Hy.
Qed.

Lemma fexp_pos q : 0 < q -> fexp q = Z.max (ilog2 q - (fprec - 1)) emin.
Proof.
  intros H. unfold fexp. do 2 f_equal. symmetry. apply ilog2_proper; [done|].
  symmetry. apply Qabs_pos. lra.
Qed.

Lemma fexp_opp x : fexp (- x) = fexp x.
Proof.
  unfold fexp. destruct x as [n d]; cbn. by rewrite Z.abs_opp.
Qed.

Lemma rnd_zero q : q == 0 -> rnd q = 0.
Proof. intros H. unfold rnd. by rewrite (proj2 (Qeq_bool_iff q 0) H). Qed.

Lemma rnd_nonzero q :
  ~ q == 0 -> rnd q = Qred (inject_Z (rne (q * 2 ^ (- fexp q))) * 2 ^ fexp q).
Proof.
  intros H. unfold rnd. destruct (Qeq_bool q 0) eqn:E; [|done].
  apply Qeq_bool_iff in E. contradiction.
Qed.

Lemma rnd_value q :
  ~ q == 0 -> rnd q == inject_Z (rne (q * 2 ^ (- fexp q))) * 2 ^ fexp q.
Proof. intros H. rewrite rnd_nonzero by done. apply Qred_correct. Qed.

Lemma rnd_comp x y : x == y -> rnd x = rnd y.
Proof.
  intros Hxy. destruct (Qeq_dec x 0) as [Hx|Hx].
  - rewrite !rnd_zero; [done | by rewrite <- Hxy | done].
  - rewrite !rnd_nonzero by (rewrite <- ?Hxy; done). apply Qred_complete.
    rewrite (fexp_proper x y) by done. by rewrite Hxy.
Qed.

#[export] Instance rnd_proper : Proper (Qeq ==> Qeq) rnd.
Proof. intros x y H. by rewrite (rnd_comp x y H). Qed.

Lemma rnd_opp q : rnd (- q) == - rnd q.
Proof.
  destruct (Qeq_dec q 0) as [H|H].
  - rewrite !rnd_zero by lra. reflexivity.
  - rewrite !rnd_value by lra. rewrite fexp_opp.
    setoid_replace (- q * 2 ^ (- fexp q)) with (- (q * 2 ^ (- fexp q))) by ring.
    rewrite rne_opp, inject_Z_opp. ring.
Qed.

Lemma rnd_nonneg q : 0 <= q -> 0 <= rnd q.
Proof.
  intros Hq. destruct (Qeq_dec q 0) as [H|H]; [by rewrite rnd_zero by done|].
  rewrite rnd_value by done.
  apply Qmult_le_0_compat; [|apply Qlt_le_weak, pow2_pos].
  change 0 with (inject_Z 0). rewrite <- Zle_Qle. apply rne_ge_int.
  apply Qmult_le_0_compat; [lra | apply Qlt_le_weak, pow2_pos].
Qed.

(** A significand in the normal range keeps its binade's bounds. *)
Lemma rnd_binade_upper q :
  0 < q -> rnd q <= 2 ^ (fexp q + fprec).
Proof.
  intros Hq. rewrite rnd_value by lra. pose proof (pow2_pos (fexp q)).
  rewrite Z.add_comm, pow2_add. apply Qmult_le_compat_r; [|lra].
  unfold fprec. rewrite (pow2_Z 53), <- Zle_Qle by lia. apply rne_le_int.
  rewrite <- (pow2_Z 53) by lia.
  assert (q <= 2 ^ (53 + fexp q)) as Hu.
  { pose proof (ilog2_spec q Hq) as [_ H2]. eapply Qle_trans; [apply Qlt_le_weak, H2|].
    apply pow2_le. rewrite fexp_pos by done. unfold fprec. lia. }
  rewrite pow2_add in Hu. pose proof (pow2_sub_inv (fexp q)). pose proof (pow2_pos (- fexp q)).
  setoid_replace (2 ^ 53) with (2 ^ 53 * 2 ^ fexp q * 2 ^ (- fexp q)).
  - apply Qmult_le_compat_r; lra.
  - rewrite <- Qmult_assoc, H0. ring.
Qed.

Lemma rnd_binade_lower q :
  0 < q -> (emin < fexp q)%Z -> 2 ^ (fexp q + (fprec - 1)) <= rnd q.
Proof.
  intros Hq Hk. rewrite rnd_value by lra. pose proof (pow2_pos (fexp q)).
  rewrite Z.add_comm, pow2_add. apply Qmult_le_compat_r; [|lra].
  unfold fprec. change (53 - 1)%Z with 52%Z. rewrite (pow2_Z 52), <- Zle_Qle by lia.
  apply rne_ge_int. rewrite <- (pow2_Z 52) by lia.
  assert (2 ^ (52 + fexp q) <= q) as Hl.
  { pose proof (ilog2_spec q Hq) as [H2 _]. eapply Qle_trans; [|exact H2].
    apply pow2_le. rewrite fexp_pos in Hk |- * by done. unfold fprec in *. lia. }
  rewrite pow2_add in Hl. pose proof (pow2_sub_inv (fexp q)). pose proof (pow2_pos (- fexp q)).
  setoid_replace (2 ^ 52) with (2 ^ 52 * 2 ^ fexp q * 2 ^ (- fexp q)).
  - apply Qmult_le_compat_r; lra.
  - rewrite <- Qmult_assoc, H0. ring.
Qed.

Lemma fexp_mono x y : 0 < x -> x <= y -> (fexp x <= fexp y)%Z.
Proof.
  intros Hx Hxy. rewrite !fexp_pos by lra.
  pose proof (ilog2_mono x y Hx Hxy). lia.
Qed.

Lemma rnd_mono_pos x y : 0 < x -> x <= y -> rnd x <= rnd y.
Proof.
  intros Hx Hxy. pose proof (fexp_mono x y Hx Hxy) as Hk.
  destruct (Z.eq_dec (fexp x) (fexp y)) as [E|E].
  - rewrite !rnd_value by lra. rewrite E.
    apply Qmult_le_compat_r; [|apply Qlt_le_weak, pow2_pos].
    rewrite <- Zle_Qle. apply rne_mono. apply Qmult_le_compat_r; [lra|].
    apply Qlt_le_weak, pow2_pos.
  - eapply Qle_trans; [by apply rnd_binade_upper|].
    eapply Qle_trans; [|apply rnd_binade_lower; [lra|]].
    + apply pow2_le. unfold fprec. lia.
    + unfold fexp in *. lia.
Qed.

(** Rounding preserves the order. *)
Lemma rnd_mono x y : x <= y -> rnd x <= rnd y.
Proof.
  intros Hxy. destruct (Qlt_le_dec 0 x) as [Hx|Hx]; [by apply rnd_mono_pos|].
  destruct (Qlt_le_dec y 0) as [Hy|Hy].
  - assert (rnd (- y) <= rnd (- x)) as H by (apply rnd_mono_pos; lra).
    rewrite !rnd_opp in H. lra.
  - assert (0 <= rnd (- x)) as H by (apply rnd_nonneg; lra). rewrite rnd_opp in H.
    pose proof (rnd_nonneg y Hy). lra.
Qed.

(** Values that fit are not changed. *)
Lemma rnd_exact q : representable q -> rnd q == q.
Proof.
  intros (m & e & He & Hm & Hq). destruct (Qeq_dec q 0) as [H0|H0].
  { rewrite rnd_zero by done. by rewrite H0. }
  assert (fexp q <= e)%Z as Hk.
  { assert (ilog2 (Qabs q) < fprec + e)%Z; [|unfold fexp; lia].
    apply pow2_lt_inv. pose proof (ilog2_spec _ (Qabs_pos_nz q H0)) as [H1 _].
    eapply Qle_lt_trans; [exact H1|]. rewrite Hq, Qabs_Qmult.
    rewrite (Qabs_pos (2 ^ e)) by apply Qlt_le_weak, pow2_pos. rewrite pow2_add.
    apply Qmult_lt_compat_r; [apply pow2_pos|].
    unfold fprec in *. rewrite (pow2_Z 53) by lia.
    change (Qabs (inject_Z m)) with (inject_Z (Z.abs m)). rewrite <- Zlt_Qlt. lia. }
  rewrite rnd_value by done. generalize dependent (fexp q). intros k Hk.
  setoid_replace (q * 2 ^ (- k)) with (inject_Z (m * 2 ^ (e - k))).
  - rewrite rne_inject, inject_Z_mult, <- pow2_Z by lia.
    rewrite Hq, <- Qmult_assoc, <- pow2_add.
    replace (e - k + k)%Z with e by lia. reflexivity.
  - rewrite inject_Z_mult, <- pow2_Z by lia. rewrite Hq, <- Qmult_assoc, <- pow2_add.
    reflexivity.
Qed.

Lemma representable_int z : (Z.abs z < 2 ^ fprec)%Z -> representable (inject_Z z).
Proof.
  intros H. exists z, 0%Z. unfold emin. split; [lia|]. split; [done|]. cbn. ring.
Qed.

Lemma rnd_int z : (Z.abs z < 2 ^ fprec)%Z -> rnd (inject_Z z) == inject_Z z.
Proof. intros. by apply rnd_exact, representable_int. Qed.

Lemma rnd_representable_pos q : 0 < q -> representable (rnd q).
Proof.
  intros H. set (k := fexp q).
  pose proof (rnd_binade_upper q ltac:(lra)) as Hu.
  pose proof (rnd_value q ltac:(lra)) as Hv. fold k in Hv, Hu.
  set (m := rne (q * 2 ^ (- k))) in *.
  assert (0 <= m)%Z as Hm0.
  { apply rne_ge_int. apply Qmult_le_0_compat; [lra | apply Qlt_le_weak, pow2_pos]. }
  assert (m <= 2 ^ fprec)%Z as Hm.
  { rewrite Hv, (Z.add_comm k), pow2_add in Hu.
    apply Qmult_lt_0_le_reg_r in Hu; [|apply pow2_pos].
    unfold fprec in *. rewrite (pow2_Z 53), <- Zle_Qle in Hu by lia. exact Hu. }
  assert (emin <= k)%Z by (unfold k, fexp; lia).
  destruct (Z.eq_dec m (2 ^ fprec)) as [E|E].
  - exists (2 ^ 52)%Z, (k + 1)%Z. split; [lia|]. split; [unfold fprec; lia|].
    rewrite Hv, E, pow2_succ. unfold fprec.
    change (2 ^ 53)%Z with (2 ^ 52 * 2)%Z. rewrite inject_Z_mult. ring.
  - exists m, k. split; [done|]. split; [lia | exact Hv].
Qed.

Lemma representable_opp q : representable q -> representable (- q).
Proof.
  intros (m & e & He & Hm & Hq). exists (- m)%Z, e. split; [done|]. split; [lia|].
  rewrite Hq, inject_Z_opp. ring.
Qed.

Lemma representable_comp x y : x == y -> representable x -> representable y.
Proof. intros H (m & e & He & Hm & Hq). exists m, e. rewrite <- H. auto. Qed.

Lemma rnd_representable q : representable (rnd q).
Proof.
  destruct (Q_dec q 0) as [[H|H]|H].
  - apply (representable_comp (- rnd (- q))); [rewrite rnd_opp; ring|].
    apply representable_opp, rnd_representable_pos. lra.
  - by apply rnd_representable_pos.
  - rewrite rnd_zero by done. exists 0%Z, 0%Z. unfold emin, fprec. repeat split; lia.
Qed.

Lemma rnd_idemp q : rnd (rnd q) == rnd q.
Proof. apply rnd_exact, rnd_representable. Qed.

(** ** The float type and its operations *)

Inductive float : Type :=
  | Fin (q : Q)
  | PInf
  | NInf
  | NaN.

#[export] Instance Q_eq_dec : EqDecision Q.
Proof. intros [a b] [c d]. refine (cast_if_and (decide (a = c)) (decide (b = d))); abstract congruence. Defined.

#[export] Instance float_eq_dec : EqDecision float.
Proof. solve_decision. Defined.

Definition fmax_bound : Q := 2 ^ 1024.

(** The float nearest to an exact rational result. *)
Definition fl (q : Q) : float :=
  let r := rnd q in
  if Qle_bool fmax_bound r then PInf
  else if Qle_bool r (- fmax_bound) then NInf
  else Fin r.

(** A decimal literal [n * 10^-d], and an integer known to fit. *)
Definition flit (n : Z) (d : positive) : float := fl (n # d).
Definition fz (z : Z) : float := fl (inject_Z z).
Definition fzero : float := Fin 0.

Definition fopp (x : float) : float :=
  match x with Fin q => Fin (- q) | PInf => NInf | NInf => PInf | NaN => NaN end.

Definition fabs (x : float) : float :=
  match x with Fin q => Fin (Qabs q) | PInf => PInf | NInf => PInf | NaN => NaN end.

Definition fadd (x y : float) : float :=
  match x, y with
  | Fin a, Fin b => fl (a + b)
  | NaN, _ | _, NaN => NaN
  | PInf, NInf | NInf, PInf => NaN
  | PInf, _ | _, PInf => PInf
  | NInf, _ | _, NInf => NInf
  end.

Definition fsub (x y : float) : float := fadd x (fopp y).

Definition fsign (x : float) : comparison :=
  match x with Fin q => Qcompare q 0 | PInf => Gt | NInf => Lt | NaN => Eq end.

Definition fmul (x y : float) : float :=
  match x, y with
  | Fin a, Fin b => fl (a * b)
  | NaN, _ | _, NaN => NaN
  | _, _ =>
      match fsign x, fsign y with
      | Eq, _ | _, Eq => NaN
      | Gt, Gt | Lt, Lt => PInf
      | _, _ => NInf
      end
  end.

(** [x / y]: Python raises on a zero divisor. *)
Definition fdiv (x y : float) : result float :=
  match x, y with
  | _, Fin b =>
      if Qeq_bool b 0 then Raise ZeroDivisionError "float division by zero"
      else match x with
           | Fin a => Ok (fl (a / b))
           | NaN => Ok NaN
           | PInf => Ok (if Qle_bool 0 b then PInf else NInf)
           | NInf => Ok (if Qle_bool 0 b then NInf else PInf)
           end
  | Fin _, (PInf | NInf) => Ok (Fin 0)
  | _, _ => Ok NaN
  end.

(** [a / b] on integers: the correctly rounded quotient. *)
Definition int_truediv (a b : Z) : result float :=
  if (b =? 0)%Z then Raise ZeroDivisionError "division by zero"
  else match fl (inject_Z a / inject_Z b) with
       | Fin q => Ok (Fin q)
       | _ => Raise OverflowError "integer division result too large for a float"
       end.

(** [float(n)]. *)
Definition float_of_int (z : Z) : result float :=
  match fl (inject_Z z) with
  | Fin q => Ok (Fin q)
  | _ => Raise OverflowError "int too large to convert to float"
  end.

Definition is_finite (x : float) : bool := match x with Fin _ => true | _ => false end.
Definition is_nan (x : float) : bool := match x with NaN => true | _ => false end.

(** Comparisons: every comparison with NaN is false. *)
Definition fleb (x y : float) : bool :=
  match x, y with
  | NaN, _ | _, NaN => false
  | NInf, _ | _, PInf => true
  | PInf, _ | _, NInf => false
  | Fin a, Fin b => Qle_bool a b
  end.
Definition feqb (x y : float) : bool := fleb x y && fleb y x.
Definition fltb (x y : float) : bool := fleb x y && negb (fleb y x).

(** Python's [max(a, b)] and [min(a, b)] keep the first operand on ties. *)
Definition pymax (a b : float) : float := if fltb a b then b else a.
Definition pymin (a b : float) : float := if fltb b a then b else a.

(** [max(l, default=d)]. *)
Definition pymax_list (d : float) (l : list float) : float :=
  match l with [] => d | x :: l' => fold_left pymax l' x end.
Definition pymin_list (d : float) (l : list float) : float :=
  match l with [] => d | x :: l' => fold_left pymin l' x end.

(** [round(x)] to an integer, [int(x)] and [round(x, 3)]. *)
Definition py_round (x : float) : result Z :=
  match x with
  | Fin q => Ok (rne q)
  | NaN => Raise ValueError "cannot convert float NaN to integer"
  | _ => Raise OverflowError "cannot convert float infinity to integer"
  end.

Definition py_int (x : float) : result Z :=
  match x with
  | Fin q => Ok (Z.quot (Qnum q) (Zpos (Qden q)))
  | NaN => Raise ValueError "cannot convert float NaN to integer"
  | _ => Raise OverflowError "cannot convert float infinity to integer"
  end.

Definition py_round3 (x : float) : float :=
  match x with
  | Fin q => fl (inject_Z (rne (q * 1000)) / 1000)
  | _ => x
  end.

(** The correctly rounded square root of a non-negative rational. *)
Definition sqrt_rne (q : Q) : Z :=
  let f := Z.sqrt (Qfloor q) in
  let h := (inject_Z f + (1#2)) * (inject_Z f + (1#2)) in
  match Qcompare q h with
  | Lt => f
  | Gt => (f + 1)%Z
  | Eq => if Z.even f then f else (f + 1)%Z
  end.

Definition rnd_sqrt (q : Q) : Q :=
  if Qeq_bool q 0 then 0
  else let k := Z.max (ilog2 q / 2 - (fprec - 1)) emin in
       Qred (inject_Z (sqrt_rne (q * 2 ^ (- (2 * k)))) * 2 ^ k).

(** [math.sqrt]. *)
Definition fsqrt (x : float) : result float :=
  match x with
  | Fin q => if Qle_bool 0 q then Ok (Fin (rnd_sqrt q)) else Raise ValueError "math domain error"
  | PInf => Ok PInf
  | NInf => Raise ValueError "math domain error"
  | NaN => Ok NaN
  end.

(** [sum] of floats: the compensated summation of Python 3.12; [None] is the
    integer zero of an empty sum. *)
Fixpoint sum_loop (total c : float) (l : list float) : float :=
  match l with
  | [] => match c with
          | Fin q => if Qeq_bool q 0 then total else fadd total c
          | _ => total
          end
  | x :: l' =>
      let t := fadd total x in
      let c' := if fleb (fabs x) (fabs total) then fadd c (fadd (fsub total t) x)
                else fadd c (fadd (fsub x t) total) in
      sum_loop t c' l'
  end.
Definition py_sum (l : list float) : option float :=
  match l with [] => None | x :: l' => Some (sum_loop x fzero l') end.

(** ** Laws of comparison and of the operations *)

Lemma fleb_nan_l x : fleb NaN x = false.
Proof. by destruct x. Qed.
Lemma fleb_nan_r x : fleb x NaN = false.
Proof. by destruct x. Qed.

Lemma fleb_fin a b : fleb (Fin a) (Fin b) = true <-> a <= b.
Proof. apply Qle_bool_iff. Qed.

Lemma fltb_fin a b : fltb (Fin a) (Fin b) = true <-> a < b.
Proof.
  unfold fltb; cbn. rewrite andb_true_iff, negb_true_iff, Qle_bool_iff. split.
  - intros [H1 H2]. apply Qnot_le_lt. intros H3. apply Qle_bool_iff in H3. congruence.
  - intros H. split; [lra|]. apply not_true_iff_false. rewrite Qle_bool_iff. lra.
Qed.

Lemma fltb_fin_false a b : fltb (Fin a) (Fin b) = false <-> b <= a.
Proof.
  rewrite <- not_true_iff_false, fltb_fin. split; intros H; [by apply Qnot_lt_le | lra].
Qed.

Lemma fleb_fin_false a b : fleb (Fin a) (Fin b) = false <-> b < a.
Proof.
  rewrite <- not_true_iff_false, fleb_fin. split; intros H; [by apply Qnot_le_lt | lra].
Qed.

Lemma fleb_refl x : x <> NaN -> fleb x x = true.
Proof. destruct x; cbn; intros; try done. apply Qle_bool_iff. lra. Qed.

Lemma fleb_trans x y z : fleb x y = true -> fleb y z = true -> fleb x z = true.
Proof.
  destruct x, y, z; cbn; try done. rewrite !Qle_bool_iff. lra.
Qed.

Lemma fleb_total x y : x <> NaN -> y <> NaN -> fleb x y = true \/ fleb y x = true.
Proof.
  destruct x as [a| | |], y as [b| | |]; cbn; intros; try done; auto.
  rewrite !Qle_bool_iff. destruct (Qlt_le_dec a b); [left|right]; lra.
Qed.

Lemma fltb_fleb x y : fltb x y = true -> fleb x y = true.
Proof. unfold fltb. by intros [? _]%andb_true_iff. Qed.

Lemma fltb_irrefl x : fltb x x = false.
Proof. unfold fltb. by destruct (fleb x x). Qed.

Lemma fltb_not_fleb x y : fltb x y = true -> fleb y x = false.
Proof. unfold fltb. by intros [_ ?%negb_true_iff]%andb_true_iff. Qed.

Lemma fleb_not_fltb x y : fleb x y = true -> fltb y x = false.
Proof. unfold fltb. intros ->. by rewrite andb_false_r. Qed.

Lemma not_fleb_fltb x y : x <> NaN -> y <> NaN -> fleb x y = false -> fltb y x = true.
Proof.
  intros Hx Hy H. destruct (fleb_total x y Hx Hy) as [H'|H']; [congruence|].
  unfold fltb. by rewrite H', H.
Qed.

Lemma fltb_trans_l x y z : fltb x y = true -> fleb y z = true -> fltb x z = true.
Proof.
  intros H1 H2. unfold fltb in *. apply andb_true_iff in H1 as [H1 H3].
  rewrite (fleb_trans _ _ _ H1 H2). cbn. apply negb_true_iff in H3. apply negb_true_iff.
  destruct (fleb z x) eqn:E; [|done]. rewrite (fleb_trans _ _ _ H2 E) in H3. done.
Qed.

Lemma pymax_le_l a b : a <> NaN -> fleb a (pymax a b) = true.
Proof.
  intros H. unfold pymax. destruct (fltb a b) eqn:E; [by apply fltb_fleb | by apply fleb_refl].
Qed.

Lemma pymax_le_r a b : a <> NaN -> b <> NaN -> fleb b (pymax a b) = true.
Proof.
  intros Ha Hb. unfold pymax. destruct (fltb a b) eqn:E; [by apply fleb_refl|].
  destruct (fleb_total b a Hb Ha) as [H|H]; [done|].
  destruct (fleb b a) eqn:E2; [done|]. unfold fltb in E. rewrite H, E2 in E. done.
Qed.

Lemma pymax_not_nan a b : a <> NaN -> pymax a b <> NaN.
Proof.
  intros Ha. unfold pymax. destruct (fltb a b) eqn:E; [|done].
  intros ->. unfold fltb in E. by rewrite fleb_nan_r in E.
Qed.

Lemma pymin_not_nan a b : a <> NaN -> pymin a b <> NaN.
Proof.
  intros Ha. unfold pymin. destruct (fltb b a) eqn:E; [|done].
  intros ->. unfold fltb in E. by rewrite fleb_nan_l in E.
Qed.

Lemma pymin_le_l a b : a <> NaN -> fleb (pymin a b) a = true.
Proof.
  intros H. unfold pymin. destruct (fltb b a) eqn:E; [by apply fltb_fleb | by apply fleb_refl].
Qed.

Lemma pymin_le_r a b : a <> NaN -> b <> NaN -> fleb (pymin a b) b = true.
Proof.
  intros Ha Hb. unfold pymin. destruct (fltb b a) eqn:E; [by apply fleb_refl|].
  destruct (fleb_total a b Ha Hb) as [H|H]; [done|].
  destruct (fleb a b) eqn:E2; [done|]. unfold fltb in E. rewrite H, E2 in E. done.
Qed.

Lemma fl_not_nan q : fl q <> NaN.
Proof. unfold fl. destruct (Qle_bool _ _); [done|]. by destruct (Qle_bool _ _). Qed.

Lemma fmax_bound_pos : 0 < fmax_bound.
Proof. apply pow2_pos. Qed.

(** Rounding to a float preserves the order, infinities included. *)
Lemma fl_mono a b : a <= b -> fleb (fl a) (fl b) = true.
Proof.
  intros H. apply rnd_mono in H. unfold fl. pose proof fmax_bound_pos.
  destruct (Qle_bool fmax_bound (rnd a)) eqn:A1.
  - apply Qle_bool_iff in A1. rewrite (proj2 (Qle_bool_iff _ _)) by lra. done.
  - destruct (Qle_bool fmax_bound (rnd b)) eqn:B1; [by destruct (Qle_bool (rnd a) _)|].
    destruct (Qle_bool (rnd a) (- fmax_bound)) eqn:A2; [by destruct (Qle_bool (rnd b) _)|].
    destruct (Qle_bool (rnd b) (- fmax_bound)) eqn:B2; [|by apply Qle_bool_iff].
    apply Qle_bool_iff in B2. rewrite (proj2 (Qle_bool_iff _ _)) in A2 by lra. done.
Qed.

Lemma fl_exact q : representable q -> - fmax_bound < q < fmax_bound -> exists r, fl q = Fin r /\ r == q.
Proof.
  intros Hq [H1 H2]. pose proof (rnd_exact q Hq) as He. unfold fl.
  destruct (Qle_bool fmax_bound (rnd q)) eqn:E1; [apply Qle_bool_iff in E1; lra|].
  destruct (Qle_bool (rnd q) (- fmax_bound)) eqn:E2; [apply Qle_bool_iff in E2; lra|].
  eauto.
Qed.

Lemma fl_fin q r : fl q = Fin r -> r = rnd q.
Proof. unfold fl. destruct (Qle_bool _ _); [done|]. destruct (Qle_bool _ _); congruence. Qed.

Lemma fl_bounded_int q lo hi :
  (Z.abs lo < 2 ^ fprec)%Z -> (Z.abs hi < 2 ^ fprec)%Z ->
  inject_Z lo <= q <= inject_Z hi ->
  exists r, fl q = Fin r /\ inject_Z lo <= r <= inject_Z hi.
Proof.
  intros Hlo Hhi [H1 H2]. apply rnd_mono in H1, H2.
  rewrite (rnd_int lo) in H1 by done. rewrite (rnd_int hi) in H2 by done.
  assert (forall z, (Z.abs z < 2 ^ fprec)%Z -> - fmax_bound < inject_Z z < fmax_bound) as Hb.
  { intros z Hz. unfold fmax_bound. rewrite (pow2_Z 1024), <- inject_Z_opp, <- !Zlt_Qlt by lia.
    assert (2 ^ fprec < 2 ^ 1024)%Z by (apply Z.pow_lt_mono_r; unfold fprec; lia). lia. }
  apply Hb in Hlo, Hhi. unfold fl.
  destruct (Qle_bool fmax_bound (rnd q)) eqn:E1; [apply Qle_bool_iff in E1; lra|].
  destruct (Qle_bool (rnd q) (- fmax_bound)) eqn:E2; [apply Qle_bool_iff in E2; lra|].
  eauto.
Qed.

(** A difference that rounds to a positive float is positive. *)
Lemma fsub_pos_lt x y : fltb (Fin 0) (fsub y x) = true -> x <> NaN -> y <> NaN -> fltb x y = true.
Proof.
  destruct x as [a| | |], y as [b| | |]; try done. unfold fsub, fopp. cbn [fadd].
  intros H _ _. apply fltb_fin. apply Qnot_le_lt. intros Hle.
  assert (b + - a <= 0) as Hm by lra. apply fl_mono in Hm.
  assert (fleb (fl 0) (Fin 0) = true) as H0 by reflexivity.
  pose proof (fleb_trans _ _ _ Hm H0) as Hf. apply fltb_not_fleb in H. congruence.
Qed.

(** ** Equal values *)

(** Two floats of the same value, NaN being one value. *)
Definition feqv (x y : float) : Prop :=
  match x, y with
  | Fin a, Fin b => a == b
  | PInf, PInf | NInf, NInf | NaN, NaN => True
  | _, _ => False
  end.

#[export] Instance feqv_equivalence : Equivalence feqv.
Proof.
  split.
  - intros []; cbn; reflexivity.
  - intros [] []; cbn; done.
  - intros [] [] []; cbn; try done. by intros -> ->.
Qed.

#[export] Instance fleb_proper : Proper (feqv ==> feqv ==> eq) fleb.
Proof.
  intros [a| | |] [b| | |] Hx [c| | |] [d| | |] Hy; cbn in *; try done.
  apply eq_true_iff_eq. rewrite !Qle_bool_iff. lra.
Qed.

#[export] Instance fltb_proper : Proper (feqv ==> feqv ==> eq) fltb.
Proof. intros x x' Hx y y' Hy. unfold fltb. by rewrite Hx, Hy. Qed.

#[export] Instance fopp_proper : Proper (feqv ==> feqv) fopp.
Proof. intros [] [] Hx; cbn in *; try done. by rewrite Hx. Qed.

Lemma fleb_opp x y : fleb (fopp x) (fopp y) = fleb y x.
Proof. destruct x, y; cbn; try done. apply eq_true_iff_eq. rewrite !Qle_bool_iff. lra. Qed.

Lemma fltb_opp x y : fltb (fopp x) (fopp y) = fltb y x.
Proof. unfold fltb. by rewrite !fleb_opp. Qed.

Lemma fopp_opp x : feqv (fopp (fopp x)) x.
Proof. destruct x; cbn; try done. lra. Qed.

Lemma Qle_bool_false a b : Qle_bool a b = false <-> b < a.
Proof. apply fleb_fin_false. Qed.

(** Rounding is symmetric, so a subtraction with its operands swapped has the
    opposite value. *)
Lemma fl_opp q : feqv (fl (- q)) (fopp (fl q)).
Proof.
  unfold fl. pose proof (rnd_opp q) as H. pose proof fmax_bound_pos as Hm.
  set (m := fmax_bound) in *. clearbody m.
  destruct (Qle_bool m (rnd (- q))) eqn:E1, (Qle_bool m (rnd q)) eqn:E2,
    (Qle_bool (rnd (- q)) (- m)) eqn:E3, (Qle_bool (rnd q) (- m)) eqn:E4;
    rewrite ?Qle_bool_iff, ?Qle_bool_false in *; cbn; try done; lra.
Qed.

Lemma fl_comp a b : a == b -> fl a = fl b.
Proof. intros H. unfold fl. by rewrite (rnd_comp _ _ H). Qed.

Lemma fsub_swap x y : feqv (fsub x y) (fopp (fsub y x)).
Proof.
  destruct x as [a| | |], y as [b| | |]; cbn; try done.
  rewrite <- fl_opp. rewrite (fl_comp (a + - b) (- (b + - a))) by ring. reflexivity.
Qed.

#[export] Hint Resolve fl_not_nan pymax_not_nan pymin_not_nan pymax_le_l pymax_le_r
  pymin_le_l pymin_le_r fleb_refl fltb_fleb : voxbench.

Close Scope Q_scope.

(** ** Ratios of counts *)

Local Open Scope Q_scope.

Lemma fdiv_fin x b : Qeq_bool b 0 = false -> exists z, fdiv x (Fin b) = Ok z.
Proof. intros H. unfold fdiv. destruct x; rewrite H; by eexists. Qed.

Lemma fz_exact k : (Z.abs k < 2 ^ fprec)%Z -> exists q, fz k = Fin q /\ q == inject_Z k.
Proof.
  intros Hk. destruct (fl_bounded_int (inject_Z k) k k Hk Hk) as (r & Hr & H1 & H2);
    [split; apply Qle_refl|]. exists r. split; [exact Hr | lra].
Qed.

Lemma float_of_int_fz v : (Z.abs v < 2 ^ fprec)%Z -> float_of_int v = Ok (fz v).
Proof.
  intros H. destruct (fz_exact v H) as (q & Hq & _). unfold float_of_int. unfold fz in *. by rewrite Hq.
Qed.

Lemma int_ratio_bounds c n : (0 <= c <= n)%Z -> (0 < n)%Z ->
  exists q, int_truediv c n = Ok (Fin q) /\ 0 <= q <= 1.
Proof.
  intros Hc Hn. unfold int_truediv. rewrite (proj2 (Z.eqb_neq n 0)) by lia.
  assert (inject_Z 0 <= inject_Z c / inject_Z n <= inject_Z 1) as Hq.
  { assert (0 < inject_Z n) by (change 0 with (inject_Z 0); rewrite <- Zlt_Qlt; lia).
    split; [apply Qle_shift_div_l | apply Qle_shift_div_r]; try done;
      rewrite <- inject_Z_mult, <- Zle_Qle; lia. }
  assert (Z.abs 0 < 2 ^ fprec)%Z as H0 by (unfold fprec; lia).
  assert (Z.abs 1 < 2 ^ fprec)%Z as H1 by (unfold fprec; lia).
  destruct (fl_bounded_int _ 0 1 H0 H1 Hq) as (q & -> & Hb). by exists q.
Qed.

Lemma fmul_unit_bounds q k : 0 <= q <= 1 -> (0 <= k < 2 ^ fprec)%Z ->
  exists x, fmul (Fin q) (fz k) = Fin x /\ 0 <= x <= inject_Z k.
Proof.
  intros Hq Hk. destruct (fz_exact k) as (r & -> & Hr); [lia|]. cbn [fmul].
  assert (0 <= inject_Z k) as Hk0 by (change 0 with (inject_Z 0); rewrite <- Zle_Qle; lia).
  assert (inject_Z 0 <= q * r <= inject_Z k) as Hm.
  { change (inject_Z 0) with 0. rewrite Hr. split; nra. }
  assert (Z.abs 0 < 2 ^ fprec)%Z as H0 by (unfold fprec; lia).
  assert (Z.abs k < 2 ^ fprec)%Z as H1 by lia.
  destruct (fl_bounded_int _ 0 k H0 H1 Hm) as (x & -> & Hb). by exists x.
Qed.

Lemma fmul_signed_bounds q k : -1 <= q <= 1 -> (0 <= k < 2 ^ fprec)%Z ->
  exists x, fmul (fz k) (Fin q) = Fin x /\ inject_Z (- k) <= x <= inject_Z k.
Proof.
  intros Hq Hk. destruct (fz_exact k) as (r & -> & Hr); [lia|]. cbn [fmul].
  assert (0 <= inject_Z k) as Hk0 by (change 0 with (inject_Z 0); rewrite <- Zle_Qle; lia).
  assert (inject_Z (- k) <= r * q <= inject_Z k) as Hm by (rewrite inject_Z_opp, Hr; split; nra).
  destruct (fl_bounded_int _ (- k) k ltac:(lia) ltac:(lia) Hm) as (x & -> & Hb). by exists x.
Qed.
