(* ===== verification/PyData.v ===== *)
(** * Python strings, UUIDs, datetimes and JSON values

    A [str] is a [string] whose characters stand for the code points
    U+0000..U+00FF; the character classes follow Python's on that range.
    UUIDs are 128-bit integers with the text forms of [uuid.UUID], datetimes
    carry a wall clock in microseconds and an optional UTC offset, and JSON
    values keep the distinction between integers, floats and booleans. *)
From S2P Require Import Prelude Collections PyFloat.
From Stdlib Require Export Strings.Ascii.

Open Scope Z_scope.

(** ** Characters *)

Definition code (c : Ascii.ascii) : Z := Z.of_N (Ascii.N_of_ascii c).
Definition chr (z : Z) : Ascii.ascii := Ascii.ascii_of_N (Z.to_N z).

Definition chars (s : string) : list Ascii.ascii := String.list_ascii_of_string s.
Definition str (l : list Ascii.ascii) : string := String.string_of_list_ascii l.

Lemma chars_str l : chars (str l) = l.
Proof. apply String.list_ascii_of_string_of_list_ascii. Qed.
Lemma str_chars s : str (chars s) = s.
Proof. apply String.string_of_list_ascii_of_string. Qed.

Definition in_range (lo hi : Z) (c : Ascii.ascii) : bool := (lo <=? code c) && (code c <=? hi).

Definition is_digit_char (c : Ascii.ascii) : bool := in_range 48 57 c.
Definition is_ascii_alnum (c : Ascii.ascii) : bool :=
  is_digit_char c || in_range 65 90 c || in_range 97 122 c.
Definition is_ascii_char (c : Ascii.ascii) : bool := code c <? 128.
(** [str.isspace] on one character. *)
Definition is_space (c : Ascii.ascii) : bool :=
  in_range 9 13 c || in_range 28 32 c || (code c =? 133) || (code c =? 160).
Definition lower_char (c : Ascii.ascii) : Ascii.ascii :=
  if in_range 65 90 c || (in_range 192 222 c && negb (code c =? 215))
  then chr (code c + 32) else c.

Definition char_eqb (a b : Ascii.ascii) : bool := Ascii.eqb a b.
Definition char_in (l : list Ascii.ascii) (c : Ascii.ascii) : bool := existsb (Ascii.eqb c) l.

(** ** String methods *)

Definition strlen (s : string) : Z := len (chars s).
Definition is_ascii (s : string) : bool := forallb is_ascii_char (chars s).
Definition lower (s : string) : string := str (map lower_char (chars s)).

Fixpoint lstrip_by (p : Ascii.ascii -> bool) (l : list Ascii.ascii) : list Ascii.ascii :=
  match l with
  | [] => []
  | c :: l' => if p c then lstrip_by p l' else l
  end.
Definition rstrip_by p l := rev (lstrip_by p (rev l)).
Definition strip_by p l := rstrip_by p (lstrip_by p l).
Definition strip (s : string) : string := str (strip_by is_space (chars s)).

Fixpoint prefix_of (p l : list Ascii.ascii) : bool :=
  match p, l with
  | [], _ => true
  | a :: p', b :: l' => Ascii.eqb a b && prefix_of p' l'
  | _, [] => false
  end.
Definition startswith (s p : string) : bool := prefix_of (chars p) (chars s).
Definition endswith (s p : string) : bool := prefix_of (rev (chars p)) (rev (chars s)).

(** [pat in s]. *)
Fixpoint infix_of (p l : list Ascii.ascii) : bool :=
  prefix_of p l || match l with [] => false | _ :: l' => infix_of p l' end.
Definition contains (s p : string) : bool := infix_of (chars p) (chars s).

(** [s.replace(pat, '')] for a non-empty [pat], left to right. *)
Fixpoint remove_sub (fuel : nat) (p l : list Ascii.ascii) : list Ascii.ascii :=
  match fuel with
  | O => l
  | S n =>
      match l with
      | [] => []
      | c :: l' => if prefix_of p l then remove_sub n p (drop (length p) l)
                   else c :: remove_sub n p l'
      end
  end.
Definition replace_empty (p : string) (l : list Ascii.ascii) : list Ascii.ascii :=
  remove_sub (length l) (chars p) l.

Lemma lstrip_by_id p l : forallb (fun c => negb (p c)) l = true -> lstrip_by p l = l.
Proof. destruct l as [|c l]; cbn; [done|]. by destruct (p c). Qed.

Lemma forallb_rev {A} (p : A -> bool) l : forallb p (rev l) = forallb p l.
Proof.
  induction l as [|x l IH]; cbn; [done|]. rewrite forallb_app, IH; cbn.
  by rewrite andb_true_r, andb_comm.
Qed.

Lemma strip_by_id p l : forallb (fun c => negb (p c)) l = true -> strip_by p l = l.
Proof.
  intros H. unfold strip_by, rstrip_by. rewrite (lstrip_by_id p l H).
  rewrite lstrip_by_id by (by rewrite forallb_rev). apply rev_involutive.
Qed.

Lemma lstrip_by_head p l : lstrip_by p l = [] \/ exists c l', lstrip_by p l = c :: l' /\ p c = false.
Proof. induction l as [|c l IH]; cbn; [auto|]. destruct (p c) eqn:E; [done | eauto]. Qed.

Lemma lstrip_by_idem p l : lstrip_by p (lstrip_by p l) = lstrip_by p l.
Proof.
  destruct (lstrip_by_head p l) as [->|(c & l' & -> & Hc)]; cbn; [done|]. by rewrite Hc.
Qed.

Lemma rstrip_by_snoc p l c : p c = false -> rstrip_by p (l ++ [c]) = l ++ [c].
Proof.
  intros Hc. unfold rstrip_by. rewrite rev_app_distr. cbn. rewrite Hc.
  cbn. by rewrite rev_involutive.
Qed.

Lemma rstrip_by_cons p c l : p c = false -> exists l', rstrip_by p (c :: l) = c :: l'.
Proof.
  intros Hc. unfold rstrip_by. cbn. induction (rev l) as [|d l' IH]; cbn.
  - rewrite Hc. by exists [].
  - destruct (p d); [done|]. cbn. rewrite rev_app_distr. cbn. by eexists.
Qed.

Lemma strip_by_idem p l : strip_by p (strip_by p l) = strip_by p l.
Proof.
  unfold strip_by. destruct (lstrip_by_head p l) as [->|(c & l' & -> & Hc)]; [done|].
  destruct (rstrip_by_cons p c l' Hc) as [l2 H2]. rewrite H2. cbn [lstrip_by]. rewrite Hc.
  rewrite <- H2. unfold rstrip_by. by rewrite rev_involutive, lstrip_by_idem.
Qed.

Lemma strip_idem s : strip (strip s) = strip s.
Proof. unfold strip. by rewrite chars_str, strip_by_idem. Qed.

(** A pattern with a character that does not occur is never found. *)
Lemma prefix_of_in p l c : prefix_of p l = true -> c ∈ p -> c ∈ l.
Proof.
  revert l; induction p as [|a p IH]; intros l Hl Hc; [by apply not_elem_of_nil in Hc|].
  destruct l as [|b l]; [done|]. cbn in Hl.
  apply andb_true_iff in Hl as [->%Ascii.eqb_eq Hp].
  apply elem_of_cons in Hc as [->|Hc]; apply elem_of_cons; eauto.
Qed.

Lemma remove_sub_id n p l c : c ∈ p -> c ∉ l -> remove_sub n p l = l.
Proof.
  intros Hp. revert l; induction n as [|n IH]; intros l Hl; cbn; [done|].
  destruct l as [|a l]; [done|].
  destruct (prefix_of p (a :: l)) eqn:E.
  - exfalso. apply Hl. eapply prefix_of_in; eauto.
  - f_equal. apply IH. set_solver.
Qed.

Lemma chars_append a b : chars (a +:+ b) = chars a ++ chars b.
Proof.
  unfold chars. induction a as [|c a IH]; [done|].
  change (String c a +:+ b) with (String c (a +:+ b)). cbn [String.list_ascii_of_string app]. by rewrite IH.
Qed.

(** A property of all characters, by computation. *)
Lemma ascii_cases (P : Ascii.ascii -> bool) :
  forallb P (map (fun n => Ascii.ascii_of_nat n) (seq 0 256)) = true -> forall c, P c = true.
Proof.
  intros H c. rewrite forallb_forall in H. apply H. apply in_map_iff.
  exists (Ascii.nat_of_ascii c). split; [apply Ascii.ascii_nat_embedding|].
  apply in_seq. pose proof (Ascii.nat_ascii_bounded c). lia.
Qed.

(** ** Comparison *)

(** Lexicographic comparison of strings by code point. *)
Definition str_leb (a b : string) : bool := String.leb a b.

Lemma str_leb_total a b : str_leb a b = true \/ str_leb b a = true.
Proof. unfold str_leb. destruct (String.leb_total a b); auto. Qed.

Lemma str_leb_cases a b : str_leb a b = true <-> String.compare a b <> Gt.
Proof. unfold str_leb, String.leb. destruct (String.compare a b); split; congruence. Qed.

Lemma str_leb_trans a b c : str_leb a b = true -> str_leb b c = true -> str_leb a c = true.
Proof.
  unfold str_leb, String.leb. revert b c; induction a as [|x a IH]; intros [|y b] [|z c]; cbn; try done.
  unfold Ascii.compare.
  destruct (N.compare_spec (Ascii.N_of_ascii x) (Ascii.N_of_ascii y)),
    (N.compare_spec (Ascii.N_of_ascii y) (Ascii.N_of_ascii z)),
    (N.compare_spec (Ascii.N_of_ascii x) (Ascii.N_of_ascii z)); try done; try lia.
  apply IH.
Qed.

Lemma str_leb_refl a : str_leb a a = true.
Proof. destruct (str_leb_total a a); done. Qed.

Lemma str_leb_antisym a b : str_leb a b = true -> str_leb b a = true -> a = b.
Proof. apply String.leb_antisym. Qed.

(** ** Hexadecimal text *)

Definition hex_digit (z : Z) : Ascii.ascii := if z <? 10 then chr (48 + z) else chr (87 + z).

Definition hex_value (c : Ascii.ascii) : option Z :=
  if is_digit_char c then Some (code c - 48)
  else if in_range 97 102 c then Some (code c - 87)
  else if in_range 65 70 c then Some (code c - 55)
  else None.

(** The [w] low hexadecimal digits of [n], most significant first. *)
Fixpoint hex_fixed (w : nat) (n : Z) : list Ascii.ascii :=
  match w with
  | O => []
  | S w' => hex_fixed w' (n / 16) ++ [hex_digit (n mod 16)]
  end.

(** Digits with single underscores between them, as [int(s, 16)] reads them;
    [prev] says that the previous character was a digit. *)
Fixpoint read_hex (prev : bool) (acc : Z) (l : list Ascii.ascii) : option Z :=
  match l with
  | [] => if prev then Some acc else None
  | c :: l' =>
      if Ascii.eqb c "_"%char then if prev then read_hex false acc l' else None
      else match hex_value c with
           | Some d => read_hex true (16 * acc + d) l'
           | None => None
           end
  end.

(** An optional [0x] prefix, which one underscore may follow. *)
Definition read_hex_prefixed (l : list Ascii.ascii) : option Z :=
  match l with
  | z :: x :: l' =>
      if Ascii.eqb z "0" && char_in ["x"; "X"]%char x then
        match l' with
        | u :: l'' => if Ascii.eqb u "_" then read_hex false 0 l'' else read_hex false 0 l'
        | [] => None
        end
      else read_hex false 0 l
  | _ => read_hex false 0 l
  end.

(** [int(s, 16)]. *)
Definition int16 (l : list Ascii.ascii) : option Z :=
  match strip_by is_space l with
  | [] => None
  | c :: l' =>
      if Ascii.eqb c "-" then Z.opp <$> read_hex_prefixed l'
      else if Ascii.eqb c "+" then read_hex_prefixed l'
      else read_hex_prefixed (c :: l')
  end.

(** ** UUIDs *)

Abbreviation uuid := Z (only parsing).

Definition uuid_ok (u : uuid) : Prop := 0 <= u < 2 ^ 128.

(** [UUID(s)]. *)
Definition parse_uuid (s : string) : option uuid :=
  let l := replace_empty "uuid:" (replace_empty "urn:" (chars s)) in
  let l := replace_empty "-" (strip_by (char_in ["{"; "}"]%char) l) in
  if (len l =? 32) then
    match int16 l with
    | Some z => if (0 <=? z) && (z <? 2 ^ 128) then Some z else None
    | None => None
    end
  else None.

(** [str(u)]. *)
Definition uuid_str (u : uuid) : string :=
  let h := hex_fixed 32 u in
  str (take 8 h ++ ["-"%char] ++ take 4 (drop 8 h) ++ ["-"%char] ++ take 4 (drop 12 h)
       ++ ["-"%char] ++ take 4 (drop 16 h) ++ ["-"%char] ++ drop 20 h).

Lemma remove_sub_single c l n :
  (length l <= n)%nat -> remove_sub n [c] l = filterb (fun a => negb (Ascii.eqb c a)) l.
Proof.
  revert n; induction l as [|a l IH]; intros [|n] Hn; cbn in *; try done; try lia.
  rewrite andb_true_r. destruct (Ascii.eqb c a); cbn; rewrite IH by lia; done.
Qed.

Lemma replace_empty_id p l c : c ∈ chars p -> c ∉ l -> replace_empty p l = l.
Proof. intros. by eapply remove_sub_id. Qed.

Definition is_hex (c : Ascii.ascii) : Prop := is_Some (hex_value c).

Lemma is_hex_not c d : is_hex c -> hex_value d = None -> Ascii.eqb c d = false.
Proof. intros [x Hx] Hd. apply Ascii.eqb_neq. intros ->. congruence. Qed.

Lemma is_hex_not_space c : is_hex c -> is_space c = false.
Proof.
  intros [x Hx]. unfold hex_value, is_digit_char, is_space, in_range in *.
  repeat case_match; bool_to_prop; try done;
    repeat match goal with |- context [(?a <=? ?b)%Z] => destruct (Z.leb_spec a b) end;
    repeat match goal with |- context [(?a =? ?b)%Z] => destruct (Z.eqb_spec a b) end;
    cbn; try done; lia.
Qed.

Lemma hex_digit_value d : 0 <= d < 16 -> hex_value (hex_digit d) = Some d.
Proof.
  intros H. assert (forallb (fun d => bool_decide (hex_value (hex_digit d) = Some d))
    (seqZ 0 16) = true) as Ha by (vm_compute; reflexivity).
  rewrite forallb_forall in Ha. specialize (Ha d). apply bool_decide_eq_true in Ha; [done|].
  apply list_elem_of_In, elem_of_seqZ. lia.
Qed.

Lemma hex_fixed_length w n : length (hex_fixed w n) = w.
Proof. revert n; induction w as [|w IH]; intros n; cbn; [done|]. rewrite length_app, IH; cbn; lia. Qed.

Lemma hex_fixed_hex w n : Forall is_hex (hex_fixed w n).
Proof.
  revert n; induction w as [|w IH]; intros n; cbn; [constructor|].
  apply Forall_app; split; [apply IH|]. constructor; [|constructor].
  eexists. apply hex_digit_value. apply Z.mod_pos_bound. lia.
Qed.

Lemma read_hex_fixed w n p acc l :
  0 <= n -> read_hex p acc (hex_fixed w n ++ l) =
  read_hex (p || (0 <? Z.of_nat w)) (acc * 16 ^ Z.of_nat w + n mod 16 ^ Z.of_nat w) l.
Proof.
  revert n p acc l; induction w as [|w IH]; intros n p acc l Hn; cbn [hex_fixed].
  - cbn. rewrite orb_false_r, Z.mod_1_r. f_equal. lia.
  - rewrite <- app_assoc, IH by (apply Z.div_pos; lia). cbn [app read_hex].
    pose proof (Z.mod_pos_bound n 16 ltac:(lia)) as Hm.
    rewrite (is_hex_not (hex_digit (n mod 16)) "_") by (try (eexists; by apply hex_digit_value); done).
    rewrite hex_digit_value by done.
    replace (0 <? Z.of_nat (S w)) with true by (symmetry; apply Z.ltb_lt; lia).
    rewrite orb_true_r. f_equal.
    replace (Z.of_nat (S w)) with (Z.of_nat w + 1) by lia.
    rewrite Z.pow_add_r by lia. rewrite Z.pow_1_r.
    rewrite (Z.mul_comm (16 ^ Z.of_nat w) 16).
    rewrite (Z.rem_mul_r n 16 (16 ^ Z.of_nat w)) by lia. nia.
Qed.

Lemma chars_app_notin c (l : list Ascii.ascii) : hex_value c = None -> Forall is_hex l -> c ∉ l.
Proof.
  intros Hc Hl Hin. rewrite Forall_forall in Hl. destruct (Hl c Hin) as [x Hx]. congruence.
Qed.

Lemma filterb_hex c l :
  hex_value c = None -> Forall is_hex l -> filterb (fun a => negb (Ascii.eqb c a)) l = l.
Proof.
  intros Hc Hl. induction Hl as [|a l Ha Hl IH]; cbn; [done|].
  rewrite Ascii.eqb_sym, (is_hex_not a c) by done. cbn. by f_equal.
Qed.

Lemma int16_hex_fixed w n :
  0 <= n < 16 ^ Z.of_nat w -> (0 < w)%nat -> int16 (hex_fixed w n) = Some n.
Proof.
  intros Hn Hw. pose proof (hex_fixed_hex w n) as Hh.
  pose proof (read_hex_fixed w n false 0 [] ltac:(lia)) as Hr.
  rewrite app_nil_r in Hr. replace (0 <? Z.of_nat w) with true in Hr by (symmetry; apply Z.ltb_lt; lia).
  rewrite Z.mod_small in Hr by lia. cbn [orb read_hex] in Hr.
  unfold int16. rewrite strip_by_id.
  2:{ apply forallb_forall. intros c Hc. rewrite Forall_forall in Hh.
      rewrite is_hex_not_space; [done|]. apply Hh. by apply list_elem_of_In. }
  destruct (hex_fixed w n) as [|a l] eqn:E.
  { apply (f_equal length) in E. rewrite hex_fixed_length in E. cbn in E. lia. }
  apply Forall_cons in Hh as [Ha Hh].
  rewrite (is_hex_not a "-"), (is_hex_not a "+") by done.
  unfold read_hex_prefixed. destruct l as [|b l]; [by rewrite Hr|].
  apply Forall_cons in Hh as [Hb Hh].
  unfold char_in; cbn [existsb].
  rewrite (is_hex_not b "x"), (is_hex_not b "X") by done. rewrite andb_false_r. rewrite Hr.
  by f_equal.
Qed.

(** [UUID(str(u)) == u]. *)
Lemma parse_uuid_str u : uuid_ok u -> parse_uuid (uuid_str u) = Some u.
Proof.
  intros Hu. unfold parse_uuid, uuid_str. set (h := hex_fixed 32 u).
  pose proof (hex_fixed_hex 32 u : Forall is_hex h) as Hh.
  rewrite chars_str.
  set (t := take 8 h ++ _).
  assert (forall c, hex_value c = None -> c <> "-"%char -> c ∉ t) as Ht.
  { intros c Hc Hne. unfold t. rewrite !elem_of_app, !list_elem_of_singleton.
    assert (forall l, Forall is_hex l -> c ∉ l) as Hn by (intros; by apply chars_app_notin).
    pose proof (Hn (take 8 h)). pose proof (Hn (take 4 (drop 8 h))).
    pose proof (Hn (take 4 (drop 12 h))). pose proof (Hn (take 4 (drop 16 h))).
    pose proof (Hn (drop 20 h)). intuition auto using Forall_take, Forall_drop. }
  assert (replace_empty "urn:" t = t) as ->.
  { apply (replace_empty_id _ _ ":"%char); [|by apply Ht]. cbn. set_solver. }
  assert (replace_empty "uuid:" t = t) as ->.
  { apply (replace_empty_id _ _ ":"%char); [|by apply Ht]. cbn. set_solver. }
  rewrite strip_by_id.
  2:{ apply forallb_forall. intros c Hc. apply list_elem_of_In in Hc. unfold char_in; cbn.
      destruct (Ascii.eqb_spec c "{") as [->|_]; [exfalso; by apply (Ht "{"%char)|].
      destruct (Ascii.eqb_spec c "}") as [->|_]; [exfalso; by apply (Ht "}"%char)|]. done. }
  assert (replace_empty "-" t = h) as ->.
  { unfold replace_empty. change (chars "-") with ["-"%char]. rewrite remove_sub_single by done.
    unfold t, filterb. rewrite !List.filter_app.
    assert (forall l, Forall is_hex l -> List.filter (fun a => negb (Ascii.eqb "-" a)) l = l) as Hf
      by (intros; by apply filterb_hex).
        rewrite (Hf (take 8 h)), (Hf (take 4 (drop 8 h))), (Hf (take 4 (drop 12 h))),
      (Hf (take 4 (drop 16 h))), (Hf (drop 20 h)) by auto using Forall_take, Forall_drop. cbn [List.filter].
    rewrite Ascii.eqb_refl; cbn [negb app].
    replace (drop 20 h) with (drop 4 (drop 16 h)) by (by rewrite drop_drop). rewrite take_drop. done. }
  unfold len, h. rewrite hex_fixed_length. cbn [Z.eqb Z.of_nat].
  change (Z.of_nat 32 =? 32) with true. cbn iota.
  rewrite int16_hex_fixed by (unfold uuid_ok in Hu; lia).
  unfold uuid_ok in Hu. rewrite (proj2 (Z.leb_le 0 u)), (proj2 (Z.ltb_lt u _)) by lia. done.
Qed.

Lemma parse_uuid_ok s u : parse_uuid s = Some u -> uuid_ok u.
Proof.
  unfold parse_uuid, uuid_ok. repeat case_match; try done. intros [= <-]. bool_to_prop. lia.
Qed.

(** ** Datetimes and durations *)

(** An aware UTC datetime, in microseconds since the epoch. *)
Abbreviation instant := Z (only parsing).

(** A [datetime]: its wall clock and, when it is aware, its UTC offset (both
    in microseconds). *)
Record datetime := Datetime { dt_wall : Z; dt_offset : option Z }.

#[export] Instance datetime_eq_dec : EqDecision datetime.
Proof. solve_decision. Defined.

(** [datetime.min] and [datetime.max]. *)
Definition dt_min : Z := -62135596800000000.
Definition dt_max : Z := 253402300799999999.

Definition dt_in_range (t : Z) : bool := (dt_min <=? t) && (t <=? dt_max).

(** The result of datetime arithmetic, which raises outside the range. *)
Definition dt_checked (t : Z) : result instant :=
  if dt_in_range t then Ok t else Raise OverflowError "date value out of range".

(** [value.replace(tzinfo=UTC)] for a naive value, [value.astimezone(UTC)]
    for an aware one. *)
Definition as_utc (d : datetime) : result instant :=
  match dt_offset d with
  | None => Ok (dt_wall d)
  | Some off => dt_checked (dt_wall d - off)
  end.

(** [timedelta(seconds=n)] in microseconds. *)
Definition seconds (n : Z) : Z := n * 1000000.

Definition dt_add (t : instant) (delta : Z) : result instant := dt_checked (t + delta).

(** [timedelta.total_seconds()], the correctly rounded quotient. *)
Definition total_seconds (micros : Z) : float := fl (QArith_base.Qmake micros 1000000).

(** An aware UTC datetime read back from an instant. *)
Definition utc_datetime (t : instant) : datetime := Datetime t (Some 0).

Lemma dt_checked_ok t t' : dt_checked t = Ok t' -> t' = t /\ dt_min <= t <= dt_max.
Proof.
  unfold dt_checked, dt_in_range. case_match; [|done]. intros [= <-]. bool_to_prop. lia.
Qed.

Lemma as_utc_utc_datetime t : dt_min <= t <= dt_max -> as_utc (utc_datetime t) = Ok t.
Proof.
  intros H. unfold as_utc, dt_checked, dt_in_range; cbn. rewrite Z.sub_0_r.
  rewrite (proj2 (Z.leb_le dt_min t)), (proj2 (Z.leb_le t dt_max)) by lia. done.
Qed.

#[global] Arguments uuid_str : simpl never.
#[global] Arguments parse_uuid : simpl never.
#[global] Arguments as_utc : simpl never.
#[global] Arguments total_seconds : simpl never.

(** Range conditions on concrete UUIDs. *)
Ltac solve_uuid := split; vm_compute; done.
Ltac solve_uuids := repeat (apply Forall_cons; split; [solve_uuid|]); apply Forall_nil; done.

(** ** JSON values *)

(** A value as [json.loads] returns it; an object is an insertion-ordered
    dictionary. *)
Inductive json : Type :=
  | JNull
  | JBool (b : bool)
  | JInt (z : Z)
  | JFloat (x : float)
  | JStr (s : string)
  | JArr (l : list json)
  | JObj (d : list (string * json)).

Abbreviation jdict := (list (string * json)).

(** [d.get(k)] on an object, [None] standing for an absent key. *)
Definition jget (k : string) (d : jdict) : option json := dict_get k d.

(** [isinstance(v, str)]. *)
Definition jstr (v : option json) : option string :=
  match v with Some (JStr s) => Some s | _ => None end.

(** ** Decimal text *)

(** [str.isdigit] on one character: superscript digits are digits too. *)
Definition is_digit_like (c : Ascii.ascii) : bool :=
  is_digit_char c || (code c =? 178) || (code c =? 179) || (code c =? 185).
Definition isdigit (s : string) : bool :=
  match chars s with [] => false | l => forallb is_digit_like l end.

Definition decimal_value (l : list Ascii.ascii) : Z := fold_left (fun acc c => 10 * acc + (code c - 48)) l 0.

(** [int(s)] of a string of digits: a superscript is not a decimal digit, and
    texts of more than 4300 digits are refused. *)
Definition int_of_digits (s : string) : result Z :=
  if forallb is_digit_char (chars s) then
    if 4300 <? len (chars s) then Raise ValueError "Exceeds the limit (4300 digits) for integer string conversion"
    else Ok (decimal_value (chars s))
  else Raise ValueError "invalid literal for int() with base 10".

Lemma decimal_value_snoc l c : decimal_value (l ++ [c]) = 10 * decimal_value l + (code c - 48).
Proof. unfold decimal_value. by rewrite fold_left_app. Qed.

Lemma pretty_N_char_digit x :
  (x < 10)%N -> is_digit_char (pretty_N_char x) = true /\ code (pretty_N_char x) - 48 = Z.of_N x.
Proof.
  intros H. destruct x as [|p]; [done|]. do 4 (destruct p as [p|p|]; [lia || idtac|lia || idtac|done]); lia.
Qed.

Lemma pretty_N_go_digits k x s : (x < 10 ^ N.of_nat k)%N ->
  exists l, chars (pretty_N_go x s) = l ++ chars s /\ forallb is_digit_char l = true
    /\ decimal_value l = Z.of_N x /\ (length l <= k)%nat.
Proof.
  revert x s. induction k as [|k IH]; intros x s Hx.
  - assert (x = 0%N) as -> by (cbn in Hx; lia). rewrite pretty_N_go_0. by exists [].
  - destruct (N.eq_dec x 0) as [->|Hne]; [rewrite pretty_N_go_0; exists []; cbn; split_and!; done || lia|].
    rewrite pretty_N_go_step by lia.
    destruct (IH (x `div` 10)%N (String (pretty_N_char (x `mod` 10)) s)) as (l & Hl & Hd & Hv & Hk).
    { apply N.Div0.div_lt_upper_bound. rewrite Nat2N.inj_succ, N.pow_succ_r' in Hx. lia. }
    destruct (pretty_N_char_digit (x `mod` 10)) as [Hc1 Hc2]; [by apply N.mod_lt|].
    exists (l ++ [pretty_N_char (x `mod` 10)]). split; [by rewrite Hl, <- app_assoc|].
    split; [rewrite forallb_app, Hd; cbn; by rewrite Hc1|].
    split; [rewrite decimal_value_snoc, Hv, Hc2; pose proof (N.div_mod x 10); lia|].
    rewrite length_app. cbn. lia.
Qed.

(** The text of a non-negative integer reads back. *)
Lemma pretty_digits k z : 0 <= z < 10 ^ Z.of_nat (S k) ->
  forallb is_digit_char (chars (pretty z)) = true /\ decimal_value (chars (pretty z)) = z
  /\ chars (pretty z) <> [] /\ (length (chars (pretty z)) <= S k)%nat.
Proof.
  intros Hz. destruct (Z.eq_dec z 0) as [->|Hne].
  { change (chars (pretty 0)) with ["0"%char]. split_and!; try done. cbn. lia. }
  destruct z as [|p|p]; [done| |lia].
  change (chars (pretty (Z.pos p))) with (chars (pretty_N_go (N.pos p) "")).
  destruct (pretty_N_go_digits (S k) (N.pos p) "") as (l & -> & Hd & Hv & Hk).
  { apply N2Z.inj_lt. rewrite N2Z.inj_pow, nat_N_Z. apply Hz. }
  cbn [chars String.list_ascii_of_string]. rewrite app_nil_r. split_and!; try done. by intros ->.
Qed.

(** ** [str.split] and [str.join] on one character *)

Fixpoint split_char (c : Ascii.ascii) (l : list Ascii.ascii) : list (list Ascii.ascii) :=
  match l with
  | [] => [[]]
  | a :: l' =>
      if Ascii.eqb a c then [] :: split_char c l'
      else match split_char c l' with
           | [] => [[a]]
           | part :: parts => (a :: part) :: parts
           end
  end.

Fixpoint join_char (c : Ascii.ascii) (parts : list (list Ascii.ascii)) : list Ascii.ascii :=
  match parts with
  | [] => []
  | [part] => part
  | part :: parts => part ++ c :: join_char c parts
  end.

Lemma split_char_notin c l : c ∉ l -> split_char c l = [l].
Proof.
  induction l as [|a l IH]; [done|]. rewrite not_elem_of_cons. intros [Hn Hl]. cbn.
  destruct (Ascii.eqb_spec a c); [congruence|]. by rewrite IH.
Qed.

Lemma split_char_app c l1 l2 : c ∉ l1 -> split_char c (l1 ++ c :: l2) = l1 :: split_char c l2.
Proof.
  induction l1 as [|a l1 IH]; cbn; [by rewrite Ascii.eqb_refl|].
  rewrite not_elem_of_cons. intros [Hn Hl]. destruct (Ascii.eqb_spec a c); [congruence|]. by rewrite IH.
Qed.

Lemma split_char_cons c l : exists part parts, split_char c l = part :: parts.
Proof. destruct l as [|a l]; cbn; [eauto|]. destruct (Ascii.eqb a c); [eauto|]. destruct (split_char c l); eauto. Qed.

Lemma join_split_char c l : join_char c (split_char c l) = l.
Proof.
  induction l as [|a l IH]; [done|]. cbn [split_char].
  destruct (split_char_cons c l) as (part & parts & E). rewrite E in *.
  destruct (Ascii.eqb_spec a c) as [->|Hn]; cbn [join_char] in *; [by rewrite IH|].
  destruct parts; by rewrite <- IH.
Qed.
