(* ===== verification/Csv.v ===== *)
(** * Reading CSV tables

    What [csv.DictReader] makes of a text file opened with [newline=""]: the
    lines of the file with their ends, the state machine of the module for its
    default dialect, and the rows as dictionaries.  A character is at most
    U+00FF, as everywhere in the development. *)
From S2P Require Import Prelude Collections PyData.

Open Scope Z_scope.

(** ** Lines *)

Definition LF : Ascii.ascii := chr 10.
Definition CR : Ascii.ascii := chr 13.

(** The lines of a text with their ends: a line feed, a carriage return or
    both; [cur] is the line so far. *)
Fixpoint text_lines (cur l : list Ascii.ascii) : list (list Ascii.ascii) :=
  match l with
  | [] => match cur with [] => [] | _ => [cur] end
  | c :: l' =>
      if Ascii.eqb c LF then (cur ++ [LF]) :: text_lines [] l'
      else if Ascii.eqb c CR then
        match l' with
        | d :: l'' => if Ascii.eqb d LF then (cur ++ [CR; LF]) :: text_lines [] l'' else (cur ++ [CR]) :: text_lines [] l'
        | [] => [cur ++ [CR]]
        end
      else text_lines (cur ++ [c]) l'
  end.

(** ** The state machine *)

Inductive csv_state := START_RECORD | START_FIELD | IN_FIELD | IN_QUOTED_FIELD | QUOTE_IN_QUOTED_FIELD | EAT_CRNL.

#[export] Instance csv_state_eq_dec : EqDecision csv_state.
Proof. solve_decision. Defined.

(** The state, the characters of the field so far and the fields before it. *)
Record csv_reader := MkCsv { c_state : csv_state; c_field : list Ascii.ascii; c_fields : list string }.

Definition new_record : csv_reader := MkCsv START_RECORD [] [].

Definition field_size_limit : Z := 131072.

Definition add_char (r : csv_reader) (state : csv_state) (c : Ascii.ascii) : result csv_reader :=
  if field_size_limit <=? len (c_field r) then Raise CsvError "field larger than field limit (131072)"
  else Ok (MkCsv state (c_field r ++ [c]) (c_fields r)).

Definition save_field (r : csv_reader) (state : csv_state) : csv_reader := MkCsv state [] (c_fields r ++ [str (c_field r)]).

Definition in_state (r : csv_reader) (state : csv_state) : csv_reader := MkCsv state (c_field r) (c_fields r).

Definition is_newline (c : Ascii.ascii) : bool := Ascii.eqb c LF || Ascii.eqb c CR.
Definition quote_mark : Ascii.ascii := chr 34.
Definition comma : Ascii.ascii := chr 44.

Definition start_field (r : csv_reader) (c : Ascii.ascii) : result csv_reader :=
  if is_newline c then Ok (save_field r EAT_CRNL)
  else if Ascii.eqb c quote_mark then Ok (in_state r IN_QUOTED_FIELD)
  else if Ascii.eqb c comma then Ok (save_field r START_FIELD)
  else add_char r IN_FIELD c.

(** One character of a line. *)
Definition csv_char (r : csv_reader) (c : Ascii.ascii) : result csv_reader :=
  match c_state r with
  | START_RECORD => if is_newline c then Ok (in_state r EAT_CRNL) else start_field r c
  | START_FIELD => start_field r c
  | IN_FIELD =>
      if is_newline c then Ok (save_field r EAT_CRNL)
      else if Ascii.eqb c comma then Ok (save_field r START_FIELD)
      else add_char r IN_FIELD c
  | IN_QUOTED_FIELD => if Ascii.eqb c quote_mark then Ok (in_state r QUOTE_IN_QUOTED_FIELD) else add_char r IN_QUOTED_FIELD c
  | QUOTE_IN_QUOTED_FIELD =>
      if Ascii.eqb c quote_mark then add_char r IN_QUOTED_FIELD c
      else if Ascii.eqb c comma then Ok (save_field r START_FIELD)
      else if is_newline c then Ok (save_field r EAT_CRNL)
      else add_char r IN_FIELD c
  | EAT_CRNL => if is_newline c then Ok r else Raise CsvError "new-line character seen in unquoted field"
  end.

(** The end of a line. *)
Definition csv_eol (r : csv_reader) : csv_reader :=
  match c_state r with
  | START_RECORD | IN_QUOTED_FIELD => r
  | START_FIELD | IN_FIELD | QUOTE_IN_QUOTED_FIELD => save_field r START_RECORD
  | EAT_CRNL => in_state r START_RECORD
  end.

Fixpoint csv_chars (r : csv_reader) (l : list Ascii.ascii) : result csv_reader :=
  match l with [] => Ok r | c :: l' => r' ← csv_char r c; csv_chars r' l' end.

(** [next(reader)]: the fields of the next record and the lines after it;
    [None] at the end of the lines. *)
Fixpoint read_record (r : csv_reader) (lines : list (list Ascii.ascii)) : result (option (list string * list (list Ascii.ascii))) :=
  match lines with
  | [] => if negb (len (c_field r) =? 0) || bool_decide (c_state r = IN_QUOTED_FIELD)
          then Ok (Some (c_fields (save_field r START_RECORD), [])) else Ok None
  | line :: lines' =>
      r ← csv_chars r line;
      let r := csv_eol r in
      if bool_decide (c_state r = START_RECORD) then Ok (Some (c_fields r, lines')) else read_record r lines'
  end.

(** ** Rows as dictionaries *)

(** The next record that is not empty; a record takes at least one line. *)
Fixpoint nonempty_record (fuel : nat) (lines : list (list Ascii.ascii)) : result (option (list string * list (list Ascii.ascii))) :=
  match fuel with
  | O => Ok None
  | S fuel =>
      r ← read_record new_record lines;
      match r with
      | Some ([], lines') => nonempty_record fuel lines'
      | _ => Ok r
      end
  end.

(** A row by its keys: [None] stands for the value of a field that is missing;
    the fields beyond the names are under a key that is not a string and are
    left out. *)
Definition csv_row : Type := list (string * option string).

Definition missing_values (names values : list string) : csv_row :=
  map (fun name => (name, None)) (drop (length values) names).

Definition dict_row (names values : list string) : csv_row :=
  dict_of_list (zip names (map Some values) ++ missing_values names values).

(** [next(csv.DictReader(handle), None)]. *)
Definition first_row (text : list Ascii.ascii) : result (option csv_row) :=
  let lines := text_lines [] text in
  header ← read_record new_record lines;
  match header with
  | None => Ok None
  | Some (names, lines) =>
      row ← nonempty_record (S (length lines)) lines;
      Ok (match row with Some (values, _) => Some (dict_row names values) | None => None end)
  end.

(** ** Lemmas *)

Definition plain_char (c : Ascii.ascii) : bool := negb (is_newline c || Ascii.eqb c quote_mark || Ascii.eqb c comma).

(** The text of a record of plain fields. *)
Definition plain_record (fields : list string) : list Ascii.ascii := join_char comma (map chars fields) ++ [LF].

Lemma plain_char_facts c : plain_char c = true -> is_newline c = false /\ Ascii.eqb c quote_mark = false /\ Ascii.eqb c comma = false.
Proof. unfold plain_char. intros [[H1 H2]%orb_false_iff H3]%negb_true_iff%orb_false_iff. done. Qed.

Lemma csv_chars_app r l1 l2 r' : csv_chars r l1 = Ok r' -> csv_chars r (l1 ++ l2) = csv_chars r' l2.
Proof.
  revert r. induction l1 as [|c l1 IH]; intros r; cbn [csv_chars app]; [by intros [= ->]|].
  destruct (csv_char r c) as [r1|]; cbn [mbind result_bind]; [apply IH|done].
Qed.

(** The field under way and the ones before it after plain characters. *)
Lemma plain_chars l : forallb plain_char l = true -> forall r, c_state r = IN_FIELD -> len (c_field r) + len l <= field_size_limit ->
  csv_chars r l = Ok (MkCsv IN_FIELD (c_field r ++ l) (c_fields r)).
Proof.
  induction l as [|c l IH]; intros Hp r Hs Hl; cbn [csv_chars]; [by rewrite app_nil_r, <- Hs; destruct r|].
  cbn [forallb] in Hp. apply andb_true_iff in Hp as [Hc Hp]. destruct (plain_char_facts c Hc) as (H1 & H2 & H3).
  rewrite len_cons in Hl. pose proof (len_nonneg l). unfold csv_char. rewrite Hs, H1, H3. unfold add_char.
  rewrite (proj2 (Z.leb_gt _ _)) by lia. cbn [mbind result_bind].
  rewrite IH; [|done|done|cbn [c_field]; rewrite len_app; change (len [c]) with 1; lia]. cbn [c_field c_fields]. by rewrite <- app_assoc.
Qed.

Lemma plain_field state field fields : state = START_RECORD /\ field <> [] \/ state = START_FIELD ->
  forallb plain_char field = true -> len field <= field_size_limit -> exists state',
  csv_chars (MkCsv state [] fields) field = Ok (MkCsv state' field fields)
  /\ (state' = IN_FIELD \/ state' = START_FIELD /\ field = []).
Proof.
  intros Hst Hp Hl. destruct field as [|c field].
  { destruct Hst as [[_ H]| ->]; [done|]. exists START_FIELD. cbn. eauto. }
  exists IN_FIELD. split; [|by left]. cbn [forallb] in Hp. apply andb_true_iff in Hp as [Hc Hp].
  destruct (plain_char_facts c Hc) as (H1 & H2 & H3). rewrite len_cons in Hl. pose proof (len_nonneg field). cbn [csv_chars].
  assert (csv_char (MkCsv state [] fields) c = Ok (MkCsv IN_FIELD [c] fields)) as ->.
  { unfold csv_char. cbn [c_state]. assert (start_field (MkCsv state [] fields) c = Ok (MkCsv IN_FIELD [c] fields)) as E.
    { unfold start_field, add_char. rewrite H1, H2, H3. done. }
    destruct Hst as [[-> _]| ->]; [by rewrite H1|done]. }
  cbn [mbind result_bind]. rewrite plain_chars; [done..|cbn [c_field]; change (len [c]) with 1; lia].
Qed.

Lemma save_at_comma state field fields : state = IN_FIELD \/ state = START_FIELD ->
  csv_char (MkCsv state field fields) comma = Ok (MkCsv START_FIELD [] (fields ++ [str field])).
Proof. by intros [-> | ->]. Qed.

Lemma save_at_end state field fields : state = IN_FIELD \/ state = START_FIELD ->
  csv_char (MkCsv state field fields) LF = Ok (MkCsv EAT_CRNL [] (fields ++ [str field])).
Proof. by intros [-> | ->]. Qed.

(** A field that can stand in a plain record. *)
Definition plain_text (f : string) : Prop := forallb plain_char (chars f) = true /\ len (chars f) <= field_size_limit.

Lemma record_chars fields : Forall plain_text fields -> forall f state before, plain_text f ->
  state = START_FIELD \/ state = START_RECORD /\ (f <> ""%string \/ fields <> []) ->
  csv_chars (MkCsv state [] before) (plain_record (f :: fields)) = Ok (MkCsv EAT_CRNL [] (before ++ f :: fields)).
Proof.
  unfold plain_record. induction 1 as [|g fields Hg Hl IH]; intros f state before [Hp Hlen] Hst.
  - cbn [map join_char]. destruct (plain_field state (chars f) before) as (state' & Hc & Hs'); [|done..|].
    { destruct Hst as [-> |[-> [H|H]]]; [by right| |done]. left. split; [done|]. intros E. apply H. by rewrite <- (str_chars f), E. }
    rewrite (csv_chars_app _ _ _ _ Hc). cbn [csv_chars]. rewrite save_at_end by tauto. cbn [mbind result_bind]. by rewrite str_chars.
  - change (join_char comma (map chars (f :: g :: fields))) with (chars f ++ comma :: join_char comma (map chars (g :: fields))).
    rewrite <- app_assoc. cbn [app].
    assert (exists state', csv_chars (MkCsv state [] before) (chars f) = Ok (MkCsv state' (chars f) before)
      /\ csv_char (MkCsv state' (chars f) before) comma = Ok (MkCsv START_FIELD [] (before ++ [f]))) as (state' & Hc & Hcomma).
    { destruct (decide (state = START_RECORD /\ chars f = [])) as [[-> E]|Hn].
      - exists START_RECORD. rewrite E. split; [done|]. assert (f = ""%string) as -> by (by rewrite <- (str_chars f), E). done.
      - destruct (plain_field state (chars f) before) as (state' & Hc & Hs'); [|done..|].
        { destruct Hst as [-> |[-> _]]; [by right|left]. split; [done|]. intros E. by apply Hn. }
        exists state'. split; [done|]. rewrite save_at_comma by tauto. by rewrite str_chars. }
    rewrite (csv_chars_app _ _ _ _ Hc). cbn [csv_chars]. rewrite Hcomma. cbn [mbind result_bind].
    rewrite (IH g START_FIELD (before ++ [f]) Hg (or_introl eq_refl)), <- app_assoc. done.
Qed.

Lemma text_lines_plain l : forallb (fun c => negb (is_newline c)) l = true -> forall cur rest,
  text_lines cur (l ++ LF :: rest) = (cur ++ l ++ [LF]) :: text_lines [] rest.
Proof.
  induction l as [|c l IH]; intros Hp cur rest; [done|]. cbn [forallb] in Hp. apply andb_true_iff in Hp as [Hc Hp].
  apply negb_true_iff, orb_false_iff in Hc as [H1 H2]. cbn [app text_lines]. rewrite H1, H2, IH by done.
  by rewrite <- app_assoc.
Qed.

Lemma join_plain_record fields : Forall plain_text fields -> forallb (fun c => negb (is_newline c)) (join_char comma (map chars fields)) = true.
Proof.
  intros Hf. assert (forall f, plain_text f -> forallb (fun c => negb (is_newline c)) (chars f) = true) as Hone.
  { intros f [Hp _]. revert Hp. apply forallb_weaken. intros c Hc. by destruct (plain_char_facts c Hc) as (-> & _). }
  induction Hf as [|f fields Hp Hl IH]; [done|]. destruct fields as [|g fields]; [by apply Hone|].
  change (join_char comma (map chars (f :: g :: fields))) with (chars f ++ comma :: join_char comma (map chars (g :: fields))).
  rewrite forallb_app. cbn [forallb]. by rewrite Hone, IH.
Qed.

(** A record of plain fields that is not one empty field. *)
Definition plain_fields (fields : list string) : Prop := Forall plain_text fields /\ fields <> [] /\ fields <> [""%string].

Lemma read_plain_record fields rest : plain_fields fields ->
  text_lines [] (plain_record fields ++ rest) = plain_record fields :: text_lines [] rest
  /\ read_record new_record (plain_record fields :: text_lines [] rest) = Ok (Some (fields, text_lines [] rest)).
Proof.
  intros (Hp & Hne & Hsole). split.
  - unfold plain_record. rewrite <- app_assoc. cbn [app]. rewrite text_lines_plain by (by apply join_plain_record). done.
  - destruct fields as [|f fields]; [done|]. apply Forall_cons in Hp as [Hf Hp]. cbn [read_record].
    unfold new_record. rewrite record_chars; [done..|]. right. split; [done|].
    destruct (decide (fields = [])) as [-> |]; [left; congruence|by right].
Qed.

(** The first row of a table whose header and first record are plain. *)
Lemma first_plain_row names values rest : plain_fields names -> plain_fields values ->
  first_row (plain_record names ++ plain_record values ++ rest) = Ok (Some (dict_row names values)).
Proof.
  intros Hn Hv. unfold first_row.
  destruct (read_plain_record names (plain_record values ++ rest) Hn) as [-> ->]. cbn [mbind result_bind].
  destruct (read_plain_record values rest Hv) as [-> Hr]. cbn [nonempty_record length]. rewrite Hr. cbn [mbind result_bind].
  destruct values as [|v values]; [by destruct Hv as (_ & Hv & _)|done].
Qed.

Example quoted_rows :
  first_row (chars ("a,moslqo" +:+ str [LF] +:+ str [quote_mark] +:+ "x, y" +:+ str [quote_mark; quote_mark; LF; quote_mark]
                    +:+ ",4.5" +:+ str [CR; LF]))
  = Ok (Some [("a"%string, Some ("x, y" +:+ str [quote_mark; LF])%string); ("moslqo"%string, Some "4.5"%string)]).
Proof. reflexivity. Qed.
