(* ===== verification/PyFormat.v ===== *)
(** * Texts of Python numbers and values

    The format specifications that the code uses ([:g], [:.3g], [:.3f],
    [:+.2f]), [repr] of a float and [str] of a JSON value.  A format rounds the
    exact value once, half to even; [repr] is the shortest decimal that rounds
    back to the float. *)
From S2P Require Import Prelude PyFloat PyData.
From Stdlib Require Import QArith Qabs.

Open Scope Z_scope.

(** ** Decimal digits *)

Definition digits (z : Z) : list Ascii.ascii := chars (pretty z).
Definition zeros (n : Z) : list Ascii.ascii := replicate (Z.to_nat n) "0"%char.

Definition pow10 (k : Z) : Q := ((10 # 1) ^ k)%Q.

(** The greatest [e] with [10 ^ e <= q], for a positive [q]. *)
Definition ilog10 (q : Q) : Z :=
  let e := len (digits (Qnum q)) - len (digits (Zpos (Qden q))) in
  if Qle_bool (pow10 e) q then e else e - 1.

(** [p] significant digits of a positive [q], and its exponent. *)
Definition round_digits (p : Z) (q : Q) : Z * Z :=
  let e := ilog10 q in
  let d := rne (q * pow10 (p - 1 - e))%Q in
  if d =? 10 ^ p then (10 ^ (p - 1), e + 1) else (d, e).

(** [d] with a point before its last [n] digits. *)
Definition with_point (n d : Z) : list Ascii.ascii :=
  let ds := digits d in
  let ds := zeros (n + 1 - len ds) ++ ds in
  let k := Z.to_nat (len ds - n) in
  if n =? 0 then ds else take k ds ++ "."%char :: drop k ds.

(** Without the zeros at the end of the fraction, and without its point. *)
Definition strip_fraction (l : list Ascii.ascii) : list Ascii.ascii :=
  if existsb (Ascii.eqb ".") l
  then rstrip_by (Ascii.eqb ".") (rstrip_by (Ascii.eqb "0") l) else l.

Definition exponent_text (e : Z) : list Ascii.ascii :=
  "e"%char :: (if e <? 0 then "-"%char else "+"%char)
  :: (if Z.abs e <? 10 then zeros 1 else []) ++ digits (Z.abs e).

Definition signed (plus : bool) (q : Q) (l : list Ascii.ascii) : string :=
  str (if negb (Qle_bool 0 q) then "-"%char :: l else if plus then "+"%char :: l else l).

Definition special (plus : bool) (x : float) : string :=
  match x with
  | NaN => if plus then "+nan" else "nan"
  | NInf => "-inf"
  | _ => if plus then "+inf" else "inf"
  end.

(** ** Formats *)

(** [f"{x:.nf}"], or [f"{x:+.nf}"]. *)
Definition format_fixed (plus : bool) (n : Z) (x : float) : string :=
  match x with
  | Fin q => signed plus q (with_point n (rne (Qabs q * pow10 n)%Q))
  | _ => special plus x
  end.

(** [f"{x:.pg}"]; [:g] has six digits. *)
Definition format_general (p : Z) (x : float) : string :=
  match x with
  | Fin q =>
      if Qeq_bool q 0 then "0"
      else
        let '(d, e) := round_digits p (Qabs q) in
        signed false q
          (if (-4 <=? e) && (e <? p) then strip_fraction (with_point (p - 1 - e) d)
           else strip_fraction (with_point (p - 1) d) ++ exponent_text e)
  | _ => special false x
  end.

(** ** [repr] *)

(** The decimals of [p] digits next to [q], the nearer first. *)
Definition neighbours (p : Z) (q : Q) : list (Z * Z) :=
  let e := ilog10 q in
  let scaled := (q * pow10 (p - 1 - e))%Q in
  let low := Qnum scaled / Zpos (Qden scaled) in
  let '(d, e') := round_digits p q in
  [(d, e'); (low, e); (low + 1, e)].

Definition decimal (p : Z) (x : Z * Z) : Q := (inject_Z x.1 * pow10 (x.2 - (p - 1)))%Q.

(** The shortest decimal, with at most 17 digits, that rounds to [q]. *)
Fixpoint shortest (fuel : nat) (p : Z) (q : Q) : Z * (Z * Z) :=
  match next_match (fun x => bool_decide (fl (decimal p x) = fl q)) (neighbours p q) with
  | Some x => (p, x)
  | None => match fuel with O => (p, round_digits p q) | S fuel => shortest fuel (p + 1) q end
  end.

Definition float_repr (x : float) : string :=
  match x with
  | Fin q =>
      if Qeq_bool q 0 then "0.0"
      else
        let '(p, (d, e)) := shortest 16 1 (Qabs q) in
        signed false q
          (if (-4 <=? e) && (e <? 16)
           then (if p - 1 <=? e then digits d ++ zeros (e - (p - 1)) ++ [".";"0"]%char
                 else with_point (p - 1 - e) d)
           else strip_fraction (with_point (p - 1) d) ++ exponent_text e)
  | _ => special false x
  end.

(** ** [str] and [repr] of JSON values *)

Definition repr_char (quote_char c : Ascii.ascii) : list Ascii.ascii :=
  if Ascii.eqb c quote_char || Ascii.eqb c "\" then ["\"; c]%char
  else if code c =? 10 then ["\"; "n"]%char
  else if code c =? 13 then ["\"; "r"]%char
  else if code c =? 9 then ["\"; "t"]%char
  else if (code c <? 32) || ((127 <=? code c) && (code c <=? 160)) || (code c =? 173)
  then ["\"; "x"]%char ++ hex_fixed 2 (code c)
  else [c].

(** Single quotes, unless the text has one and no double quote. *)
Definition repr_str (s : string) : list Ascii.ascii :=
  let has c := existsb (Ascii.eqb c) (chars s) in
  let q : Ascii.ascii := if has "'"%char && negb (has "034"%char) then "034"%char else "'"%char in
  q :: concat (map (repr_char q) (chars s)) ++ [q].

Fixpoint comma_separated (l : list (list Ascii.ascii)) : list Ascii.ascii :=
  match l with
  | [] => []
  | [x] => x
  | x :: l => x ++ ","%char :: " "%char :: comma_separated l
  end.

Fixpoint repr_json (v : json) : list Ascii.ascii :=
  match v with
  | JNull => chars "None"
  | JBool b => chars (if b then "True" else "False")
  | JInt z => digits z
  | JFloat x => chars (float_repr x)
  | JStr s => repr_str s
  | JArr l => "["%char :: comma_separated (map repr_json l) ++ ["]"%char]
  | JObj d => "{"%char :: comma_separated (map (fun kv => repr_str kv.1 ++ ":"%char :: " "%char :: repr_json kv.2) d) ++ ["}"%char]
  end.

Definition str_json (v : json) : string :=
  match v with JStr s => s | _ => str (repr_json v) end.

(** ** Concrete texts *)

Example format_general_texts :
  map (format_general 6) [fz 320; flit 1234567 10; flit 1 3; fz 1234567; flit 1 100000; fz (-5); flit 999999999 1000]
  = ["320"; "123457"; "0.333333"; "1.23457e+06"; "1e-05"; "-5"; "1e+06"].
Proof. vm_compute. reflexivity. Qed.

Example format_fixed_texts :
  (map (format_fixed false 3) [fz 20; flit 12345 10000; flit 5 10000; fzero]
    = ["20.000"; "1.234"; "0.001"; "0.000"])
  /\ map (format_fixed true 2) [flit 65 10; flit (-1) 1000; fz 0] = ["+6.50"; "-0.00"; "+0.00"].
Proof. vm_compute. split; reflexivity. Qed.

Example float_repr_texts :
  map float_repr [fz 1; flit 1 10; flit (-25) 10; fz 1000000000000000; fl (10000000000000000 # 1); flit 1 100000; flit 2 3]
  = ["1.0"; "0.1"; "-2.5"; "1000000000000000.0"; "1e+16"; "1e-05"; "0.6666666666666666"].
Proof. vm_compute. reflexivity. Qed.

Example str_json_text :
  str_json (JArr [JStr "it's"; JNull; JBool true; JObj [("k", JFloat (flit 1 2))]])
  = str ("["%char :: "034"%char :: chars "it's" ++ "034"%char :: chars ", None, True, {'k': 0.5}]").
Proof. vm_compute. reflexivity. Qed.
