(* ===== verification/Bytes.v ===== *)
(** * Bytes and signed 16-bit samples

    A [bytes] value is a list of [Byte.byte]; [struct.pack("<h", v)],
    [struct.iter_unpack("<h", data)] and the big-endian integers of the wire
    formats are written on it. *)
From S2P Require Import Prelude.
From Stdlib Require Export Init.Byte Strings.Byte.

Open Scope Z_scope.

Abbreviation bytes := (list Byte.byte).

Definition byte_val (b : Byte.byte) : Z := Z.of_N (Byte.to_N b).
Definition byte_of (z : Z) : Byte.byte :=
  match Byte.of_N (Z.to_N (z mod 256)) with Some b => b | None => x00 end.

#[export] Instance byte_eq_dec : EqDecision Byte.byte := Byte.byte_eq_dec.

Lemma byte_val_range b : 0 <= byte_val b < 256.
Proof. unfold byte_val. pose proof (Byte.to_N_bounded b). lia. Qed.

Lemma byte_of_val b : byte_of (byte_val b) = b.
Proof.
  unfold byte_of. rewrite Z.mod_small by apply byte_val_range. unfold byte_val.
  rewrite N2Z.id, Byte.of_to_N. done.
Qed.

Lemma byte_val_of z : byte_val (byte_of z) = z mod 256.
Proof.
  unfold byte_of, byte_val. pose proof (Z.mod_pos_bound z 256 ltac:(lia)) as Hz.
  destruct (Byte.of_N (Z.to_N (z mod 256))) as [b|] eqn:E.
  - apply Byte.to_of_N in E. rewrite E. lia.
  - apply Byte.of_N_None_iff in E. lia.
Qed.

Lemma byte_val_of_small z : 0 <= z < 256 -> byte_val (byte_of z) = z.
Proof. intros H. rewrite byte_val_of. by apply Z.mod_small. Qed.

(** The signed value of [w] bits. *)
Definition signed (w : Z) (u : Z) : Z := if u <? 2 ^ (w - 1) then u else u - 2 ^ w.

Definition int16_ok (v : Z) : bool := (-32768 <=? v) && (v <=? 32767).

(** One little-endian sample. *)
Definition sample_of (lo hi : Byte.byte) : Z := signed 16 (byte_val lo + 256 * byte_val hi).

(** [struct.iter_unpack("<h", data)] on data of even length. *)
Fixpoint unpack16 (data : bytes) : list Z :=
  match data with
  | lo :: hi :: rest => sample_of lo hi :: unpack16 rest
  | _ => []
  end.

Definition le16 (v : Z) : bytes := [byte_of v; byte_of (v / 256)].

(** [struct.pack("<h", v)]. *)
Definition pack16 (v : Z) : result bytes :=
  if int16_ok v then Ok (le16 v)
  else Raise StructError "'h' format requires -32768 <= number <= 32767".

Definition pack16_all (vs : list Z) : result bytes := mbind (fun l => Ok (concat l)) (mapM_res pack16 vs).

Definition even_length (data : bytes) : bool := len data mod 2 =? 0.

Lemma sample_of_range lo hi : int16_ok (sample_of lo hi) = true.
Proof.
  unfold sample_of, signed, int16_ok. pose proof (byte_val_range lo). pose proof (byte_val_range hi).
  change (2 ^ (16 - 1)) with 32768. change (2 ^ 16) with 65536.
  destruct (Z.ltb_spec (byte_val lo + 256 * byte_val hi) 32768);
    rewrite andb_true_iff, !Z.leb_le; lia.
Qed.

Lemma unpack16_le16 v rest : int16_ok v = true -> unpack16 (le16 v ++ rest) = v :: unpack16 rest.
Proof.
  unfold int16_ok, le16. rewrite andb_true_iff, !Z.leb_le. intros Hv. cbn [app unpack16]. f_equal.
  unfold sample_of, signed. rewrite !byte_val_of.
  change (2 ^ (16 - 1)) with 32768. change (2 ^ 16) with 65536.
  pose proof (Z.mod_pos_bound v 256 ltac:(lia)). pose proof (Z.div_mod v 256 ltac:(lia)) as Hd.
  assert (-128 <= v / 256 < 128) as Hq.
  { split; [apply Z.div_le_lower_bound; lia | apply Z.div_lt_upper_bound; lia]. }
  destruct (Z.leb_spec 0 (v / 256)) as [Hp|Hn].
  - rewrite (Z.mod_small (v / 256)) by lia. destruct (Z.ltb_spec (v mod 256 + 256 * (v / 256)) 32768); lia.
  - replace ((v / 256) mod 256) with (v / 256 + 256)
      by (apply (Z.mod_unique (v / 256) 256 (-1)); lia).
    destruct (Z.ltb_spec (v mod 256 + 256 * (v / 256 + 256)) 32768); lia.
Qed.

Lemma le16_sample lo hi : le16 (sample_of lo hi) = [lo; hi].
Proof.
  unfold le16, sample_of, signed. pose proof (byte_val_range lo). pose proof (byte_val_range hi).
  change (2 ^ (16 - 1)) with 32768. change (2 ^ 16) with 65536.
  set (u := byte_val lo + 256 * byte_val hi).
  assert (forall v, v = u \/ v = u - 65536 -> [byte_of v; byte_of (v / 256)] = [lo; hi]) as Hv.
  { intros v Hv. assert (v mod 256 = byte_val lo) as H1.
    { symmetry. destruct Hv; subst v u; [apply (Z.mod_unique _ _ (byte_val hi)); lia |
        apply (Z.mod_unique _ _ (byte_val hi - 256)); lia]. }
    assert ((v / 256) mod 256 = byte_val hi) as H2.
    { symmetry. pose proof (Z.div_mod v 256 ltac:(lia)). destruct Hv; subst v u;
        [apply (Z.mod_unique _ _ 0); lia | apply (Z.mod_unique _ _ (-1)); lia]. }
    f_equal; [|f_equal]; rewrite <- byte_of_val; unfold byte_of; rewrite ?Z.mod_mod by lia;
      rewrite ?H1, ?H2, Z.mod_small by apply byte_val_range; done. }
  apply Hv. destruct (u <? 32768); auto.
Qed.

Lemma unpack16_range data : Forall (fun v => int16_ok v = true) (unpack16 data).
Proof.
  assert (forall n data, (length data <= n)%nat -> Forall (fun v => int16_ok v = true) (unpack16 data)) as H.
  { induction n as [|n IH]; intros [|lo [|hi rest]] Hn; cbn in *; try constructor; try lia.
    - apply sample_of_range.
    - apply IH. lia. }
  by apply (H (length data)).
Qed.

Lemma unpack16_concat vs : Forall (fun v => int16_ok v = true) vs -> unpack16 (concat (map le16 vs)) = vs.
Proof.
  induction 1 as [|v vs Hv Hvs IH]; [done|]. cbn [map concat]. rewrite unpack16_le16 by done. by rewrite IH.
Qed.

Lemma pack16_all_ok vs : Forall (fun v => int16_ok v = true) vs -> pack16_all vs = Ok (concat (map le16 vs)).
Proof.
  intros H. unfold pack16_all.
  assert (mapM_res pack16 vs = Ok (map le16 vs)) as ->; [|done].
  apply mapM_res_ok. induction H as [|v vs Hv Hvs IH]; cbn; constructor; [|done].
  unfold pack16. by rewrite Hv.
Qed.

Lemma list_pairs {A} (l : list A) :
  l = [] \/ (exists a, l = [a]) \/ exists a b r, l = a :: b :: r.
Proof. destruct l as [|a [|b r]]; eauto 10. Qed.

Lemma even_length_cons2 a b data : even_length (a :: b :: data) = even_length data.
Proof.
  unfold even_length. rewrite !len_cons. replace (1 + (1 + len data)) with (len data + 1 * 2) by lia.
  by rewrite Z.mod_add by lia.
Qed.

(** Induction on data of even length. *)
Lemma even_length_ind (P : bytes -> Prop) :
  P [] -> (forall a b rest, even_length rest = true -> P rest -> P (a :: b :: rest)) ->
  forall data, even_length data = true -> P data.
Proof.
  intros H0 H2 data. remember (length data) as n eqn:Hn.
  revert data Hn. induction (lt_wf n) as [n _ IH]. intros data Hn He.
  destruct (list_pairs data) as [->|[[a ->]|(a & b & r & ->)]]; [done|done|].
  rewrite even_length_cons2 in He. apply H2; [done|]. apply (IH (length r)); [cbn in Hn; lia|done|done].
Qed.

Lemma unpack16_app d1 d2 : even_length d1 = true -> unpack16 (d1 ++ d2) = unpack16 d1 ++ unpack16 d2.
Proof.
  intros H. revert H. apply (even_length_ind (fun d1 => unpack16 (d1 ++ d2) = unpack16 d1 ++ unpack16 d2));
    [done|]. intros a b rest _ IH. cbn [app unpack16]. by rewrite IH.
Qed.

(** Unpacking and packing again is the identity on whole samples. *)
Lemma concat_unpack16 data : even_length data = true -> concat (map le16 (unpack16 data)) = data.
Proof.
  revert data. apply even_length_ind; [done|]. intros a b rest _ IH.
  cbn [unpack16 map concat]. by rewrite le16_sample, IH.
Qed.

Lemma len_unpack16 data : even_length data = true -> 2 * len (unpack16 data) = len data.
Proof.
  revert data. apply even_length_ind; [done|]. intros a b rest _ IH.
  cbn [unpack16]. rewrite !len_cons. lia.
Qed.

Lemma even_length_app d1 d2 :
  even_length d1 = true -> even_length d2 = true -> even_length (d1 ++ d2) = true.
Proof.
  unfold even_length. rewrite !Z.eqb_eq, len_app. intros H1 H2.
  rewrite Z.add_mod, H1, H2 by lia. done.
Qed.
