(* ===== verification/Base64.v ===== *)
(** * Base64 as the observers and the run API use it

    [base64.b64encode] and [base64.b64decode(..., validate=True)] of the Python
    library: the encoder, the strict decoder (the loop of [binascii.a2b_base64]
    with its count of characters, its left-over bits and its padding) and the
    round trip. *)
From S2P Require Import Prelude PyData Bytes.

Open Scope Z_scope.

(** ** Encoding *)

Definition std_char (i : Z) : Ascii.ascii :=
  if i <? 26 then chr (65 + i) else if i <? 52 then chr (71 + i) else if i <? 62 then chr (i - 4)
  else if i =? 62 then "+"%char else "/"%char.

Fixpoint b64encode (data : bytes) : list Ascii.ascii :=
  match data with
  | a :: b :: c :: rest =>
      let n := byte_val a * 65536 + byte_val b * 256 + byte_val c in
      std_char (n / 262144) :: std_char (n / 4096 mod 64) :: std_char (n / 64 mod 64)
      :: std_char (n mod 64) :: b64encode rest
  | [a; b] =>
      let n := byte_val a * 65536 + byte_val b * 256 in
      [std_char (n / 262144); std_char (n / 4096 mod 64); std_char (n / 64 mod 64); "="%char]
  | [a] =>
      let n := byte_val a * 65536 in
      [std_char (n / 262144); std_char (n / 4096 mod 64); "="%char; "="%char]
  | [] => []
  end.

(** ** Strict decoding *)

Definition std_value (c : Ascii.ascii) : option Z :=
  if in_range 65 90 c then Some (code c - 65)
  else if in_range 97 122 c then Some (code c - 71)
  else if is_digit_char c then Some (code c + 4)
  else if Ascii.eqb c "+" then Some 62 else if Ascii.eqb c "/" then Some 63 else None.

(** [binascii.Error] is a [ValueError]. *)
Definition binascii_error {A} (message : string) : result A := Raise ValueError message.

(** The state of the loop: the position in the group of four characters, the
    bits left over, the padding characters of the group, whether padding has
    started, and the bytes so far, the last one first. *)
Record decoder := MkDecoder {
  quad_pos : Z; leftchar : Z; pads : Z; padding_started : bool; decoded : bytes }.

Definition feed (value : Z) (d : decoder) : decoder :=
  let push byte := byte_of byte :: decoded d in
  if quad_pos d =? 0 then MkDecoder 1 value 0 false (decoded d)
  else if quad_pos d =? 1
  then MkDecoder 2 (Z.land value 15) 0 false (push (Z.lor (Z.shiftl (leftchar d) 2) (Z.shiftr value 4)))
  else if quad_pos d =? 2
  then MkDecoder 3 (Z.land value 3) 0 false (push (Z.lor (Z.shiftl (leftchar d) 4) (Z.shiftr value 2)))
  else MkDecoder 0 0 0 false (push (Z.lor (Z.shiftl (leftchar d) 6) value)).

Definition add_pad (counted : bool) (d : decoder) : decoder :=
  MkDecoder (quad_pos d) (leftchar d) (if counted then pads d + 1 else pads d) true (decoded d).

Fixpoint a2b_loop (d : decoder) (l : list Ascii.ascii) : result bytes :=
  match l with
  | [] => if quad_pos d =? 0 then Ok (rev (decoded d)) else binascii_error "Incorrect padding"
  | c :: rest =>
      if Ascii.eqb c "=" then
        if 2 <=? quad_pos d then
          if 4 <=? quad_pos d + (pads d + 1)
          then match rest with [] => Ok (rev (decoded d))
               | _ => binascii_error "Excess data after padding" end
          else a2b_loop (add_pad true d) rest
        else a2b_loop (add_pad false d) rest
      else match std_value c with
           | None => binascii_error "Only base64 data is allowed"
           | Some value =>
               if padding_started d then binascii_error "Discontinuous padding not allowed"
               else a2b_loop (feed value d) rest
           end
  end.

(** [base64.b64decode(s, validate=True)]. *)
Definition b64decode (s : string) : result bytes :=
  if negb (is_ascii s) then Raise ValueError "string argument should contain only ASCII characters"
  else match chars s with
       | "="%char :: _ => binascii_error "Leading padding not allowed"
       | l => a2b_loop (MkDecoder 0 0 0 false []) l
       end.

(** ** Lemmas *)

Lemma lor_shiftl a b k : 0 <= k -> 0 <= b < 2 ^ k -> Z.lor (Z.shiftl a k) b = a * 2 ^ k + b.
Proof.
  intros Hk Hb. rewrite <- Z.lor_0_r at 1. rewrite Z.lor_0_r.
  assert (Z.land (Z.shiftl a k) b = 0) as Hl.
  { apply Z.bits_inj'. intros n Hn. rewrite Z.land_spec, Z.bits_0, Z.shiftl_spec by done.
    destruct (Z.ltb_spec n k) as [Hlt|Hge]; [by rewrite Z.testbit_neg_r by lia|].
    destruct (Z.eq_dec b 0) as [->|Hb0]; [by rewrite Z.bits_0, andb_false_r|].
    rewrite (Z.bits_above_log2 b), andb_false_r; [done|lia|].
    apply Z.log2_lt_pow2; [lia|]. apply Z.lt_le_trans with (2 ^ k); [lia|]. by apply Z.pow_le_mono_r. }
  pose proof (Z.add_lor_land (Z.shiftl a k) b) as H. rewrite Hl, Z.shiftl_mul_pow2 in H by done.
  rewrite Z.shiftl_mul_pow2 by done. lia.
Qed.

Lemma std_char_value i : 0 <= i < 64 ->
  std_value (std_char i) = Some i /\ Ascii.eqb (std_char i) "=" = false /\ is_ascii_char (std_char i) = true.
Proof.
  intros Hi.
  assert (Forall (fun i => std_value (std_char i) = Some i /\ Ascii.eqb (std_char i) "=" = false
                           /\ is_ascii_char (std_char i) = true) (seqZ 0 64)) as H
    by (repeat (apply Forall_cons; split; [vm_compute; auto|]); by apply Forall_nil).
  rewrite Forall_forall in H. apply H, elem_of_seqZ. lia.
Qed.

Lemma std_char_ascii i : 0 <= i < 64 -> is_ascii_char (std_char i) = true.
Proof. apply std_char_value. Qed.

(** The three sextet boundaries of a byte. *)
Lemma sextets a b c n : 0 <= a < 256 -> 0 <= b < 256 -> 0 <= c < 256 ->
  n = a * 65536 + b * 256 + c ->
  n / 262144 = a / 4 /\ n / 4096 mod 64 = a mod 4 * 16 + b / 16
  /\ n / 64 mod 64 = b mod 16 * 4 + c / 64 /\ n mod 64 = c mod 64.
Proof.
  intros Ha Hb Hc ->. pose proof (Z.div_mod a 4). pose proof (Z.mod_pos_bound a 4).
  pose proof (Z.div_mod b 16). pose proof (Z.mod_pos_bound b 16).
  pose proof (Z.div_mod c 64). pose proof (Z.mod_pos_bound c 64).
  assert (0 <= b / 16 < 16) by (split; [apply Z.div_pos|apply Z.div_lt_upper_bound]; lia).
  assert (0 <= c / 64 < 4) by (split; [apply Z.div_pos|apply Z.div_lt_upper_bound]; lia).
  split_and!.
  - symmetry. apply Z.div_unique with (a mod 4 * 65536 + b * 256 + c); lia.
  - assert ((a * 65536 + b * 256 + c) / 4096 = a * 16 + b / 16) as ->
      by (symmetry; apply Z.div_unique with (b mod 16 * 256 + c); lia).
    symmetry. apply Z.mod_unique with (a / 4); lia.
  - assert ((a * 65536 + b * 256 + c) / 64 = a * 1024 + b * 4 + c / 64) as ->
      by (symmetry; apply Z.div_unique with (c mod 64); lia).
    symmetry. apply Z.mod_unique with (a * 16 + b / 16); lia.
  - symmetry. apply Z.mod_unique with (a * 1024 + b * 4 + c / 64); lia.
Qed.

Lemma a2b_value d i rest : 0 <= i < 64 -> padding_started d = false ->
  a2b_loop d (std_char i :: rest) = a2b_loop (feed i d) rest.
Proof.
  intros Hi Hp. destruct (std_char_value i Hi) as (Hv & He & _). cbn [a2b_loop]. by rewrite He, Hv, Hp.
Qed.

(** The values of the sextets of up to three bytes are in range, and the bytes
    the decoder glues from them are the given ones. *)
Lemma glued a b c : 0 <= a < 256 -> 0 <= b < 256 -> 0 <= c < 256 ->
  let v1 := a / 4 in let v2 := a mod 4 * 16 + b / 16 in
  let v3 := b mod 16 * 4 + c / 64 in let v4 := c mod 64 in
  (0 <= v1 < 64 /\ 0 <= v2 < 64 /\ 0 <= v3 < 64 /\ 0 <= v4 < 64)
  /\ Z.lor (Z.shiftl v1 2) (Z.shiftr v2 4) = a
  /\ Z.lor (Z.shiftl (Z.land v2 15) 4) (Z.shiftr v3 2) = b
  /\ Z.lor (Z.shiftl (Z.land v3 3) 6) v4 = c.
Proof.
  intros Ha Hb Hc v1 v2 v3 v4. pose proof (Z.div_mod a 4). pose proof (Z.mod_pos_bound a 4).
  pose proof (Z.div_mod b 16). pose proof (Z.mod_pos_bound b 16).
  pose proof (Z.div_mod c 64). pose proof (Z.mod_pos_bound c 64).
  assert (0 <= a / 4 < 64) by (split; [apply Z.div_pos|apply Z.div_lt_upper_bound]; lia).
  assert (0 <= b / 16 < 16) by (split; [apply Z.div_pos|apply Z.div_lt_upper_bound]; lia).
  assert (0 <= c / 64 < 4) by (split; [apply Z.div_pos|apply Z.div_lt_upper_bound]; lia).
  assert (Z.shiftr v2 4 = a mod 4) as ->
    by (rewrite Z.shiftr_div_pow2 by done; symmetry; apply Z.div_unique with (b / 16); lia).
  assert (Z.shiftr v3 2 = b mod 16) as ->
    by (rewrite Z.shiftr_div_pow2 by done; symmetry; apply Z.div_unique with (c / 64); lia).
  assert (Z.land v2 15 = b / 16) as ->
    by (change 15 with (Z.ones 4); rewrite Z.land_ones by done; symmetry; apply Z.mod_unique with (a mod 4); lia).
  assert (Z.land v3 3 = c / 64) as ->
    by (change 3 with (Z.ones 2); rewrite Z.land_ones by done; symmetry; apply Z.mod_unique with (b mod 16); lia).
  rewrite !lor_shiftl by lia. lia.
Qed.

(** The groups that the end of the data leaves incomplete. *)
Lemma sextets_one a n : 0 <= a < 256 -> n = a * 65536 ->
  n / 262144 = a / 4 /\ n / 4096 mod 64 = a mod 4 * 16
  /\ (0 <= a / 4 < 64 /\ 0 <= a mod 4 * 16 < 64)
  /\ Z.lor (Z.shiftl (a / 4) 2) (Z.shiftr (a mod 4 * 16) 4) = a.
Proof.
  intros Ha Hn. destruct (sextets a 0 0 n) as (E1 & E2 & _); [lia..|].
  destruct (glued a 0 0) as ((H1 & H2 & _) & G & _); [lia..|].
  change (0 / 16) with 0 in *. rewrite Z.add_0_r in H2, G.
  rewrite Z.add_0_r in E2. split_and!; first [done | lia].
Qed.

Lemma sextets_two a b n : 0 <= a < 256 -> 0 <= b < 256 -> n = a * 65536 + b * 256 ->
  let v2 := a mod 4 * 16 + b / 16 in let v3 := b mod 16 * 4 in
  n / 262144 = a / 4 /\ n / 4096 mod 64 = v2 /\ n / 64 mod 64 = v3
  /\ (0 <= a / 4 < 64 /\ 0 <= v2 < 64 /\ 0 <= v3 < 64)
  /\ Z.lor (Z.shiftl (a / 4) 2) (Z.shiftr v2 4) = a
  /\ Z.lor (Z.shiftl (Z.land v2 15) 4) (Z.shiftr v3 2) = b.
Proof.
  intros Ha Hb Hn v2 v3. subst v2 v3. destruct (sextets a b 0 n) as (E1 & E2 & E3 & _); [lia..|].
  destruct (glued a b 0) as ((H1 & H2 & H3 & _) & G1 & G2 & _); [lia..|].
  change (0 / 64) with 0 in *. rewrite Z.add_0_r in H3, G2, E3.
  split_and!; first [done | lia].
Qed.

#[local] Arguments Z.lor : simpl never.
#[local] Arguments Z.land : simpl never.
#[local] Arguments Z.shiftl : simpl never.
#[local] Arguments Z.shiftr : simpl never.

(** What the decoder holds between two groups of four characters. *)
Definition aligned (out : bytes) : decoder := MkDecoder 0 0 0 false out.

Lemma a2b_encoded data out : a2b_loop (aligned out) (b64encode data) = Ok (rev out ++ data).
Proof.
  revert out. induction data as [data IH] using (induction_ltof1 _ (@length Byte.byte)). intros out.
  destruct data as [|a [|b [|c data]]].
  - cbn. by rewrite app_nil_r.
  - pose proof (byte_val_range a) as Ha. cbn [b64encode].
    destruct (sextets_one _ _ Ha eq_refl) as (E1 & E2 & (H1 & H2) & G1).
    rewrite E1, E2, !a2b_value by done. unfold feed; cbn -[byte_of]. rewrite G1, byte_of_val. done.
  - pose proof (byte_val_range a) as Ha. pose proof (byte_val_range b) as Hb. cbn [b64encode].
    destruct (sextets_two _ _ _ Ha Hb eq_refl) as (E1 & E2 & E3 & (H1 & H2 & H3) & G1 & G2).
    rewrite E1, E2, E3, !a2b_value by done. unfold feed; cbn -[byte_of]. rewrite G1, G2, !byte_of_val. by rewrite <- app_assoc.
  - pose proof (byte_val_range a) as Ha. pose proof (byte_val_range b) as Hb. pose proof (byte_val_range c) as Hc.
    cbn [b64encode]. destruct (sextets _ _ _ _ Ha Hb Hc eq_refl) as (E1 & E2 & E3 & E4).
    destruct (glued _ _ _ Ha Hb Hc) as ((H1 & H2 & H3 & H4) & G1 & G2 & G3).
    rewrite E1, E2, E3, E4, !a2b_value by done. unfold feed; cbn -[byte_of a2b_loop b64encode]. rewrite G1, G2, G3, !byte_of_val.
    change (MkDecoder 0 0 0 false (c :: b :: a :: out)) with (aligned (c :: b :: a :: out)).
    rewrite IH by (unfold ltof; cbn; lia). cbn. by rewrite <- !app_assoc.
Qed.

Lemma b64encode_ascii data : forallb is_ascii_char (b64encode data) = true.
Proof.
  induction data as [data IH] using (induction_ltof1 _ (@length Byte.byte)).
  destruct data as [|a [|b [|c data]]]; [done| | |].
  - pose proof (byte_val_range a) as Ha. cbn [b64encode forallb].
    destruct (sextets_one _ _ Ha eq_refl) as (E1 & E2 & (H1 & H2) & G1).
    rewrite E1, E2. by rewrite !std_char_ascii.
  - pose proof (byte_val_range a) as Ha. pose proof (byte_val_range b) as Hb. cbn [b64encode forallb].
    destruct (sextets_two _ _ _ Ha Hb eq_refl) as (E1 & E2 & E3 & (H1 & H2 & H3) & G1 & G2).
    rewrite E1, E2, E3. by rewrite !std_char_ascii.
  - pose proof (byte_val_range a) as Ha. pose proof (byte_val_range b) as Hb. pose proof (byte_val_range c) as Hc.
    cbn [b64encode forallb]. destruct (sextets _ _ _ _ Ha Hb Hc eq_refl) as (E1 & E2 & E3 & E4).
    destruct (glued _ _ _ Ha Hb Hc) as ((H1 & H2 & H3 & H4) & _).
    rewrite E1, E2, E3, E4, IH by (unfold ltof; cbn; lia).
    by rewrite !std_char_ascii.
Qed.

(** What an observer encodes, the API decodes. *)
Lemma b64_round_trip data : b64decode (str (b64encode data)) = Ok data.
Proof.
  unfold b64decode, is_ascii. rewrite chars_str, b64encode_ascii. cbn [negb].
  pose proof (a2b_encoded data []) as H. unfold aligned in H. cbn [rev app] in H.
  destruct (b64encode data) as [|x l] eqn:E; [done|].
  assert (Ascii.eqb x "=" = false) as Hx.
  { destruct data as [|a [|b [|c data]]]; [done|..]; cbn [b64encode] in E; injection E as <- _.
    all: apply std_char_value; pose proof (byte_val_range a);
      try pose proof (byte_val_range b); try pose proof (byte_val_range c);
      split; [apply Z.div_pos; lia | apply Z.div_lt_upper_bound; lia]. }
  rewrite <- H. destruct x as [[] [] [] [] [] [] [] []]; done.
Qed.

Example b64_vectors :
  map (fun s => b64decode s) ["Zm9v"; "Zm8="; "Zg=="; "Zg="; "Zg==Zg=="; "=Zg"; "Z g="] =
  [Ok (map byte_of [102; 111; 111]); Ok (map byte_of [102; 111]); Ok [byte_of 102];
   binascii_error "Incorrect padding"; binascii_error "Excess data after padding";
   binascii_error "Leading padding not allowed"; binascii_error "Only base64 data is allowed"].
Proof. reflexivity. Qed.
