(* ===== verification/G711.v ===== *)
(** * G.711 mu-law

    [media/g711.py], on unbounded integers with the masks written out. *)
From S2P Require Import Prelude Bytes.

Open Scope Z_scope.

Definition _MULAW_BIAS : Z := 132.
Definition _MULAW_CLIP : Z := 32635.

(** [int.bit_length] of a non-negative integer. *)
Definition bit_length (z : Z) : Z := if z =? 0 then 0 else Z.log2 z + 1.

Definition linear16_to_mulaw (sample : Z) : Z :=
  let sample := Z.max (-32768) (Z.min 32767 sample) in
  let sign := if sample <? 0 then 128 else 0 in
  let magnitude := Z.min (if sample <? 0 then - sample else sample) _MULAW_CLIP in
  let biased := magnitude + _MULAW_BIAS in
  let exponent := Z.min 7 (Z.max 0 (bit_length biased - 8)) in
  let mantissa := Z.land (Z.shiftr biased (exponent + 3)) 15 in
  Z.land (Z.lnot (Z.lor (Z.lor sign (Z.shiftl exponent 4)) mantissa)) 255.

Definition mulaw_to_linear16 (code : Z) : result Z :=
  _ ← guard_else ((0 <=? code) && (code <=? 255)) ValueError
        "mu-law code must be between 0 and 255";
  let inverted := Z.land (Z.lnot code) 255 in
  let magnitude := Z.shiftl (Z.land inverted 15) 3 + _MULAW_BIAS in
  let magnitude := Z.shiftl magnitude (Z.shiftr (Z.land inverted 112) 4) in
  Ok (if negb (Z.land inverted 128 =? 0) then _MULAW_BIAS - magnitude
      else magnitude - _MULAW_BIAS).

Definition pcm16le_to_mulaw (pcm_s16le : bytes) : result bytes :=
  _ ← guard_else (even_length pcm_s16le) ValueError
        "PCM16LE data length must be divisible by two";
  Ok (map (fun sample => byte_of (linear16_to_mulaw sample)) (unpack16 pcm_s16le)).

Definition mulaw_to_pcm16le (mulaw : bytes) : result bytes :=
  samples ← mapM_res (fun code => mulaw_to_linear16 (byte_val code)) mulaw;
  pack16_all samples.

(** ** Lemmas *)

Definition all_codes : list Z := seqZ 0 256.

Lemma forallb_seqZ (p : Z -> bool) a n z :
  forallb p (seqZ a n) = true -> a <= z < a + n -> p z = true.
Proof. rewrite forallb_forall. intros H Hz. apply H, list_elem_of_In, elem_of_seqZ. done. Qed.

(** What the decoder answers on a code, where it is defined. *)
Definition decoded (code : Z) : Z :=
  match mulaw_to_linear16 code with Ok v => v | Raise _ _ => 0 end.

Lemma decode_ok code : 0 <= code < 256 -> mulaw_to_linear16 code = Ok (decoded code).
Proof.
  intros H. unfold decoded. unfold mulaw_to_linear16 at 1, guard_else at 1.
  rewrite (proj2 (Z.leb_le 0 code)), (proj2 (Z.leb_le code 255)) by lia.
  unfold mulaw_to_linear16, guard_else.
  by rewrite (proj2 (Z.leb_le 0 code)), (proj2 (Z.leb_le code 255)) by lia.
Qed.

Lemma encode_clamps s :
  linear16_to_mulaw s = linear16_to_mulaw (Z.max (-32768) (Z.min 32767 s)).
Proof.
  unfold linear16_to_mulaw.
  replace (Z.max (-32768) (Z.min 32767 (Z.max (-32768) (Z.min 32767 s))))
    with (Z.max (-32768) (Z.min 32767 s)) by lia. done.
Qed.

(** The octet with the given fields, as the encoder assembles it. *)
Definition assemble (sign exponent mantissa : Z) : Z :=
  Z.land (Z.lnot (Z.lor (Z.lor sign (Z.shiftl exponent 4)) mantissa)) 255.

(** The facts on octets are finite: they are computed for all of them. *)
Lemma codes_checked :
  forallb (fun c => int16_ok (decoded c)
    && (linear16_to_mulaw (decoded c) =? (if c =? 127 then 255 else c))) all_codes = true.
Proof. vm_compute. reflexivity. Qed.

Lemma fields_checked :
  forallb (fun e => forallb (fun m =>
    let v := (8 * m + _MULAW_BIAS) * 2 ^ e - _MULAW_BIAS in
    let c0 := assemble 0 e m in let c1 := assemble 128 e m in
    (0 <=? c0) && (c0 <? 256) && (decoded c0 =? v)
    && (0 <=? c1) && (c1 <? 256) && (decoded c1 =? - v)) (seqZ 0 16)) (seqZ 0 8) = true.
Proof. vm_compute. reflexivity. Qed.

Lemma fields_spec (neg : bool) e m :
  0 <= e < 8 -> 0 <= m < 16 ->
  let c := assemble (if neg then 128 else 0) e m in
  let v := (8 * m + _MULAW_BIAS) * 2 ^ e - _MULAW_BIAS in
  0 <= c < 256 /\ decoded c = if neg then - v else v.
Proof.
  intros He Hm. pose proof (forallb_seqZ _ _ _ e fields_checked ltac:(lia)) as H.
  cbn beta in H. apply (forallb_seqZ _ _ _ m) in H; [|lia]. cbn zeta in H.
  rewrite !andb_true_iff, !Z.eqb_eq, !Z.leb_le, !Z.ltb_lt in H.
  destruct H as [[[[[? ?] ?] ?] ?] ?]. destruct neg; cbn zeta; split; lia.
Qed.

(** The fields of a biased magnitude: the exponent is the octave of the
    magnitude and the mantissa its four bits after the leading one. *)
Lemma biased_fields b :
  132 <= b <= 32767 ->
  let e := Z.min 7 (Z.max 0 (bit_length b - 8)) in
  let m := Z.land (Z.shiftr b (e + 3)) 15 in
  0 <= e < 8 /\ 0 <= m < 16 /\ 32 * Z.abs ((8 * m + _MULAW_BIAS) * 2 ^ e - b) <= b.
Proof.
  intros Hb. cbn zeta. unfold bit_length, _MULAW_BIAS. rewrite (proj2 (Z.eqb_neq b 0)) by lia.
  pose proof (Z.log2_spec b ltac:(lia)) as [H1 H2].
  assert (7 <= Z.log2 b) by (apply Z.log2_le_pow2; lia).
  assert (Z.log2 b < 15) by (apply Z.log2_lt_pow2; lia).
  set (e := Z.min 7 (Z.max 0 (Z.log2 b + 1 - 8))). assert (e = Z.log2 b - 7) as He by lia.
  split; [lia|]. change 15 with (Z.ones 4). rewrite Z.land_ones, Z.shiftr_div_pow2 by lia.
  pose proof (Z.mod_pos_bound (b / 2 ^ (e + 3)) (2 ^ 4) ltac:(lia)). split; [lia|].
  replace (Z.log2 b) with (e + 7) in * by lia. replace (Z.succ (e + 7)) with (e + 8) in H2 by lia.
  rewrite Z.pow_add_r in H1, H2 by lia. rewrite Z.pow_add_r by lia.
  change (2 ^ 7) with 128 in *. change (2 ^ 8) with 256 in *. change (2 ^ 3) with 8 in *.
  change (2 ^ 4) with 16 in *.
  assert (0 < 2 ^ e) by (apply Z.pow_pos_nonneg; lia). set (p := 2 ^ e) in *.
  set (q := b / (p * 8)).
  pose proof (Z.div_mod b (p * 8) ltac:(lia)) as Hd. fold q in Hd.
  pose proof (Z.mod_pos_bound b (p * 8) ltac:(lia)) as Hr.
  assert (16 <= q < 32) as Hq by nia.
  assert (q mod 16 = q - 16) as -> by (symmetry; apply (Z.mod_unique _ _ 1); lia). nia.
Qed.

Lemma encode_fields s :
  let s' := Z.max (-32768) (Z.min 32767 s) in
  let b := Z.min (Z.abs s') _MULAW_CLIP + _MULAW_BIAS in
  let e := Z.min 7 (Z.max 0 (bit_length b - 8)) in
  let m := Z.land (Z.shiftr b (e + 3)) 15 in
  linear16_to_mulaw s = assemble (if s' <? 0 then 128 else 0) e m
  /\ 132 <= b <= 32767.
Proof.
  cbn zeta. set (s' := Z.max _ _). unfold linear16_to_mulaw. cbn zeta. fold s'.
  replace (if s' <? 0 then - s' else s') with (Z.abs s')
    by (destruct (Z.ltb_spec s' 0); lia).
  split; [done|]. unfold _MULAW_CLIP, _MULAW_BIAS. lia.
Qed.

Lemma encode_range s : 0 <= linear16_to_mulaw s < 256.
Proof.
  destruct (encode_fields s) as [-> Hb]. apply biased_fields in Hb as (He & Hm & _).
  set (s' := Z.max _ _). destruct (s' <? 0);
    [apply (fields_spec true) | apply (fields_spec false)]; done.
Qed.

Lemma decoded_range c : 0 <= c < 256 -> int16_ok (decoded c) = true.
Proof.
  intros Hc. pose proof (forallb_seqZ _ _ _ c codes_checked ltac:(lia)) as H.
  by apply andb_true_iff in H as [H _].
Qed.

Lemma encode_decoded c :
  0 <= c < 256 -> linear16_to_mulaw (decoded c) = if c =? 127 then 255 else c.
Proof.
  intros Hc. pose proof (forallb_seqZ _ _ _ c codes_checked ltac:(lia)) as H.
  by apply andb_true_iff in H as [_ H%Z.eqb_eq].
Qed.

(** ** Properties *)

(** Decoding always yields a 16-bit sample and encoding it again restores
    the octet, except for the negative zero 0x7f, which becomes 0xff; so a
    decoded stream re-encodes to itself up to that octet, without error. *)
Theorem mulaw_decode_encode mulaw :
  exists pcm, mulaw_to_pcm16le mulaw = Ok pcm /\ len pcm = 2 * len mulaw
    /\ pcm16le_to_mulaw pcm = Ok (map (fun b => if Byte.eqb b x7f then xff else b) mulaw).
Proof.
  set (vs := map (fun b => decoded (byte_val b)) mulaw).
  assert (Forall (fun v => int16_ok v = true) vs) as Hvs.
  { apply Forall_forall. intros v (b & -> & _)%list_elem_of_fmap. apply decoded_range, byte_val_range. }
  exists (concat (map le16 vs)). unfold mulaw_to_pcm16le.
  assert (mapM_res (fun code => mulaw_to_linear16 (byte_val code)) mulaw = Ok vs) as ->.
  { apply mapM_res_ok. unfold vs. clear. induction mulaw as [|b l IH]; cbn; constructor; [|done].
    apply decode_ok, byte_val_range. }
  cbn [mbind result_bind]. rewrite pack16_all_ok by done. split; [done|].
  assert (len (concat (map le16 vs)) = 2 * len mulaw) as Hlen.
  { unfold vs. clear. induction mulaw as [|b l IH]; [done|].
    cbn [map concat]. rewrite len_app, IH, len_cons. unfold len at 1; cbn. lia. }
  split; [done|]. unfold pcm16le_to_mulaw, even_length. rewrite Hlen.
  replace (2 * len mulaw) with (len mulaw * 2) by lia. rewrite Z.mod_mul by lia. cbn.
  rewrite unpack16_concat by done. f_equal. unfold vs. rewrite map_map. apply map_ext. intros b.
  rewrite encode_decoded by apply byte_val_range.
  destruct (Byte.eqb b x7f) eqn:E.
  - apply Byte.byte_dec_bl in E as ->. done.
  - replace (byte_val b =? 127) with false; [apply byte_of_val|]. symmetry. apply Z.eqb_neq.
    intros Hb. assert (b = x7f) as ->; [|done].
    rewrite <- (byte_of_val b), Hb. done.
Qed.

(** Encoding is total, yields an octet, clips to 16 bits, and its
    quantisation error is at most 1/32 of the biased magnitude. *)
Theorem mulaw_quantisation_error sample :
  let code := linear16_to_mulaw sample in
  let clipped := Z.max (-32768) (Z.min 32767 sample) in
  0 <= code < 256
  /\ exists v, mulaw_to_linear16 code = Ok v
       /\ 32 * Z.abs (v - clipped) <= Z.abs clipped + _MULAW_BIAS.
Proof.
  cbn zeta. split; [apply encode_range|]. eexists. split; [apply decode_ok, encode_range|].
  destruct (encode_fields sample) as [-> Hb]. pose proof Hb as (He & Hm & Herr)%biased_fields.
  set (s := Z.max (-32768) (Z.min 32767 sample)) in *.
  set (b := Z.min (Z.abs s) _MULAW_CLIP + _MULAW_BIAS) in *.
  set (e := Z.min 7 (Z.max 0 (bit_length b - 8))) in *. set (m := Z.land (Z.shiftr b (e + 3)) 15) in *.
  assert (_MULAW_CLIP < Z.abs s -> (8 * m + _MULAW_BIAS) * 2 ^ e = 32256) as Hclip.
  { intros Hs. unfold m, e. replace b with 32767 by (unfold b, _MULAW_CLIP, _MULAW_BIAS in *; lia).
    reflexivity. }
  pose proof (fields_spec true e m He Hm) as [_ Hneg]. pose proof (fields_spec false e m He Hm) as [_ Hpos].
  cbn zeta in Hneg, Hpos. set (v := (8 * m + _MULAW_BIAS) * 2 ^ e) in *. clearbody v.
  unfold b, _MULAW_CLIP, _MULAW_BIAS in *.
  destruct (Z.ltb_spec s 0); [rewrite Hneg | rewrite Hpos];
    destruct (Z.lt_ge_cases 32635 (Z.abs s)) as [Hs|Hs]; [specialize (Hclip Hs)| |specialize (Hclip Hs)|]; lia.
Qed.
