(* ===== verification/Pcm.v ===== *)
(** * The streaming PCM16 resampler

    [media/pcm.py]: the chunked linear resampler, its one-shot wrapper, and the
    reference definition that the streaming form is compared with.  The
    interpolated value is the float quotient of two integers, rounded half to
    even, as in the code.

    The loop of [_produce] advances the position by the input rate, so
    [produce_fuel] turns are enough; [produce_loop_spec] shows that the loop
    always ends by one of its own exits. *)
From S2P Require Import Prelude Effects PyFloat Bytes.
From Stdlib Require Import QArith.

Open Scope Z_scope.

Record Pcm16MonoStreamResampler := MkResampler {
  input_rate : Z; output_rate : Z; _samples : list Z; _position_numerator : Z }.

Definition make_resampler (input_rate output_rate : Z) : result Pcm16MonoStreamResampler :=
  if (input_rate <=? 0) || (output_rate <=? 0)
  then Raise ValueError "sample rates must be positive"
  else Ok (MkResampler input_rate output_rate [] 0).

Definition index (l : list Z) (i : Z) : Z := nth (Z.to_nat i) l 0.

(** [round((left * (R - f) + right * f) / R)]. *)
Definition interpolate (left right fraction R : Z) : result Z :=
  q ← int_truediv (left * (R - fraction) + right * fraction) R;
  py_round q.

Fixpoint produce_loop (fuel : nat) (I R : Z) (samples : list Z) (require_right_sample : bool)
    (pos : Z) : result (list Z * Z) :=
  match fuel with
  | O => Ok ([], pos)
  | S fuel' =>
      let left_index := pos / R in
      let right_index := left_index + 1 in
      if (len samples =? 0) || (len samples <=? left_index) then Ok ([], pos)
      else if (len samples <=? right_index) && require_right_sample then Ok ([], pos)
      else
        let right_index := if len samples <=? right_index then left_index else right_index in
        value ← interpolate (index samples left_index) (index samples right_index) (pos mod R) R;
        rest ← produce_loop fuel' I R samples require_right_sample (pos + I);
        Ok (value :: rest.1, rest.2)
  end.

Definition produce_fuel (I R : Z) (samples : list Z) : nat := Z.to_nat (len samples * R / I + 2).

Definition _produce (require_right_sample : bool) : st Pcm16MonoStreamResampler bytes := fun self =>
  let I := input_rate self in let R := output_rate self in
  match (out ← produce_loop (produce_fuel I R (_samples self)) I R (_samples self)
           require_right_sample (_position_numerator self);
         data ← pack16_all out.1; Ok (data, out.2)) with
  | Raise c e => (Raise c e, self)
  | Ok (data, pos) =>
      let consumed := Z.max 0 (pos / R - 1) in
      (Ok data,
       if 0 <? consumed
       then MkResampler I R (drop (Z.to_nat consumed) (_samples self)) (pos - consumed * R)
       else MkResampler I R (_samples self) pos)
  end.

Definition process (pcm_s16le : bytes) : st Pcm16MonoStreamResampler bytes :=
  _ ← lift (guard_else (even_length pcm_s16le) ValueError
        "PCM16LE data length must be divisible by two");
  self ← get_state;
  if input_rate self =? output_rate self then mret pcm_s16le
  else
    _ ← put_state (MkResampler (input_rate self) (output_rate self)
          (_samples self ++ unpack16 pcm_s16le) (_position_numerator self));
    _produce true.

Definition flush : st Pcm16MonoStreamResampler bytes :=
  output ← _produce false;
  _ ← modify (fun self => MkResampler (input_rate self) (output_rate self) [] 0);
  mret output.

Definition resample_pcm16_mono (pcm_s16le : bytes) (input_rate output_rate : Z) : result bytes :=
  r ← make_resampler input_rate output_rate;
  fst ((a ← process pcm_s16le; b ← flush; mret (a ++ b)) r).

(** A whole stream in chunks: every [process], then [flush]. *)
Fixpoint process_all (chunks : list bytes) : st Pcm16MonoStreamResampler bytes :=
  match chunks with
  | [] => mret []
  | c :: chunks' => a ← process c; b ← process_all chunks'; mret (a ++ b)
  end.

Definition resample_stream (chunks : list bytes) (input_rate output_rate : Z) : result bytes :=
  r ← make_resampler input_rate output_rate;
  fst ((a ← process_all chunks; b ← flush; mret (a ++ b)) r).

(** ** The reference *)

(** The value at position [n / R] of the samples, the last sample being held. *)
Definition value_at (R : Z) (samples : list Z) (n : Z) : Z :=
  let left := n / R in
  match interpolate (index samples left)
          (index samples (if len samples <=? left + 1 then left else left + 1)) (n mod R) R with
  | Ok v => v | Raise _ _ => 0 end.

(** One output per multiple of the input rate below the end of the samples. *)
Definition reference (I R : Z) (samples : list Z) : list Z :=
  map (fun k => value_at R samples (k * I)) (seqZ 0 ((len samples * R + I - 1) / I)).

(** ** Lemmas *)

Definition samples_ok (l : list Z) : Prop := Forall (fun v => int16_ok v = true) l.

Lemma index_ok l i : samples_ok l -> int16_ok (index l i) = true.
Proof.
  intros Hl. unfold index. destruct (nth_in_or_default (Z.to_nat i) l 0) as [H| ->]; [|done].
  unfold samples_ok in Hl. rewrite Forall_forall in Hl. by apply Hl, list_elem_of_In.
Qed.

(** Interpolation stays between its ends. *)
Lemma interpolate_between l r f R :
  0 < R -> 0 <= f < R -> int16_ok l = true -> int16_ok r = true ->
  exists v, interpolate l r f R = Ok v /\ Z.min l r <= v <= Z.max l r /\ int16_ok v = true.
Proof.
  unfold int16_ok. rewrite !andb_true_iff, !Z.leb_le. intros HR Hf Hl Hr.
  set (num := l * (R - f) + r * f).
  assert (Z.min l r * R <= num <= Z.max l r * R) as Hn by (unfold num; nia).
  assert (inject_Z (Z.min l r) <= inject_Z num / inject_Z R <= inject_Z (Z.max l r))%Q as Hq.
  { assert (0 < inject_Z R)%Q by (change 0%Q with (inject_Z 0); rewrite <- Zlt_Qlt; lia).
    split; [apply Qle_shift_div_l | apply Qle_shift_div_r]; try done;
      rewrite <- inject_Z_mult, <- Zle_Qle; lia. }
  assert (Z.abs (Z.min l r) < 2 ^ fprec) as H1 by (unfold fprec; lia).
  assert (Z.abs (Z.max l r) < 2 ^ fprec) as H2 by (unfold fprec; lia).
  destruct (fl_bounded_int _ _ _ H1 H2 Hq) as (q & Hfl & Hlo & Hhi).
  exists (rne q). unfold interpolate. fold num. unfold int_truediv.
  rewrite (proj2 (Z.eqb_neq R 0)) by lia. rewrite Hfl. cbn.
  apply rne_le_int in Hhi. apply rne_ge_int in Hlo. split; [done|].
  rewrite andb_true_iff, !Z.leb_le. lia.
Qed.

Lemma value_at_ok R samples n :
  0 < R -> samples_ok samples -> int16_ok (value_at R samples n) = true.
Proof.
  intros HR Hs. unfold value_at.
  destruct (interpolate_between (index samples (n / R))
    (index samples (if len samples <=? n / R + 1 then n / R else n / R + 1)) (n mod R) R)
    as (v & -> & _ & Hv); auto using index_ok, Z.mod_pos_bound.
Qed.

(** Whether the loop goes on at [pos]. *)
Definition continues (R : Z) (samples : list Z) (req : bool) (pos : Z) : bool :=
  if req then pos / R + 1 <? len samples else pos / R <? len samples.

(** The loop emits the value at every position from [pos] on while it may go
    on, and stops because it may not: [n] is the number of its turns. *)
Lemma produce_loop_spec fuel I R samples req pos :
  0 < I -> 0 < R -> 0 <= pos -> samples_ok samples ->
  len samples * R - pos < Z.of_nat fuel * I ->
  exists n, 0 <= n
    /\ produce_loop fuel I R samples req pos
       = Ok (map (fun k => value_at R samples (pos + k * I)) (seqZ 0 n), pos + n * I)
    /\ (forall k, 0 <= k < n -> continues R samples req (pos + k * I) = true)
    /\ continues R samples req (pos + n * I) = false.
Proof.
  intros HI HR. revert pos; induction fuel as [|fuel IH]; intros pos Hp Hs Hf.
  - exists 0. cbn. rewrite Z.mul_0_l, Z.add_0_r. split_and!; [lia|done|lia|].
    assert (len samples <= pos / R) by (apply Z.div_le_lower_bound; lia).
    unfold continues. destruct req; apply Z.ltb_ge; lia.
  - cbn [produce_loop]. pose proof (len_nonneg samples) as Hlen.
    pose proof (Z.div_pos pos R Hp HR) as Hdiv.
    destruct ((len samples =? 0) || (len samples <=? pos / R)) eqn:E1.
    { exists 0. cbn. rewrite Z.mul_0_l, Z.add_0_r. split_and!; [lia|done|lia|].
      unfold continues. apply orb_true_iff in E1 as [E1|E1]; bool_to_prop;
        destruct req; apply Z.ltb_ge; lia. }
    bool_to_prop. destruct ((len samples <=? pos / R + 1) && req) eqn:E2.
    { apply andb_true_iff in E2 as [E2 ->]. bool_to_prop.
      exists 0. cbn. rewrite Z.mul_0_l, Z.add_0_r. split_and!; [lia|done|lia|].
      apply Z.ltb_ge; lia. }
    destruct (IH (pos + I)) as (n & Hn & Hloop & Hgo & Hstop); [lia|done|lia|].
    assert (continues R samples req pos = true) as Hc.
    { unfold continues. apply andb_false_iff in E2. destruct req; apply Z.ltb_lt; [|lia].
      destruct E2 as [E2|]; [bool_to_prop; lia | done]. }
    destruct (interpolate_between (index samples (pos / R))
      (index samples (if len samples <=? pos / R + 1 then pos / R else pos / R + 1)) (pos mod R) R)
      as (v & Hv & _); auto using index_ok, Z.mod_pos_bound.
    exists (n + 1). split; [lia|]. rewrite Hv, Hloop. cbn [mbind result_bind fst snd]. split_and!.
    + rewrite (seqZ_cons 0 (n + 1)) by lia. cbn [map]. f_equal. f_equal; [f_equal|lia].
      * unfold value_at. rewrite Z.mul_0_l, Z.add_0_r. by rewrite Hv.
      * replace (seqZ (Z.succ 0) (Z.pred (n + 1))) with (seqZ (1 + 0) n) by (f_equal; lia).
        rewrite <- (fmap_add_seqZ 1 0 n). change (Z.add 1 <$> seqZ 0 n) with (map (Z.add 1) (seqZ 0 n)).
        rewrite map_map. apply map_ext. intros k. f_equal. lia.
    + intros k Hk. destruct (Z.eq_dec k 0) as [->|]; [by rewrite Z.mul_0_l, Z.add_0_r|].
      specialize (Hgo (k - 1) ltac:(lia)). by replace (pos + k * I) with (pos + I + (k - 1) * I) by lia.
    + by replace (pos + (n + 1) * I) with (pos + I + n * I) by lia.
Qed.

Lemma index_drop l b i : 0 <= b -> 0 <= i -> index (drop (Z.to_nat b) l) i = index l (b + i).
Proof.
  intros Hb Hi. unfold index. rewrite Z2Nat.inj_add by done.
  revert l; induction (Z.to_nat b) as [|n IH]; intros l; [done|]. destruct l as [|x l]; cbn; [|apply IH].
  by destruct (Z.to_nat i).
Qed.

Lemma index_app l1 l2 i : 0 <= i < len l1 -> index (l1 ++ l2) i = index l1 i.
Proof. unfold index, len. intros H. apply app_nth1. lia. Qed.

Lemma len_drop {A} b (l : list A) : 0 <= b <= len l -> len (drop (Z.to_nat b) l) = len l - b.
Proof. unfold len. rewrite length_drop. lia. Qed.

Lemma value_at_drop R T b n :
  0 < R -> 0 <= b <= len T -> b * R <= n ->
  value_at R (drop (Z.to_nat b) T) (n - b * R) = value_at R T n.
Proof.
  intros HR Hb Hn. assert (0 <= n / R - b) as Hd.
  { assert (b <= n / R) by (apply Z.div_le_lower_bound; lia). lia. }
  unfold value_at. replace (n - b * R) with (n + (- b) * R) by lia.
  rewrite Z.div_add, Z.mod_add, len_drop by lia.
  replace (n / R + - b) with (n / R - b) by lia.
  replace (len T - b <=? n / R - b + 1) with (len T <=? n / R + 1)
    by (destruct (Z.leb_spec (len T) (n / R + 1)), (Z.leb_spec (len T - b) (n / R - b + 1)); lia).
  destruct (len T <=? n / R + 1); rewrite !index_drop by lia.
  - by replace (b + (n / R - b)) with (n / R) by lia.
  - replace (b + (n / R - b)) with (n / R) by lia.
    by replace (b + (n / R - b + 1)) with (n / R + 1) by lia.
Qed.

Lemma value_at_app R T U n :
  0 < R -> 0 <= n -> n / R + 1 < len T -> value_at R (T ++ U) n = value_at R T n.
Proof.
  intros HR Hn Hlt. unfold value_at. rewrite len_app. pose proof (len_nonneg U).
  pose proof (Z.div_pos n R Hn HR).
  rewrite (proj2 (Z.leb_gt (len T) _)), (proj2 (Z.leb_gt (len T + len U) _)) by lia.
  by rewrite !index_app by lia.
Qed.

Section streaming.
Variables I R : Z.
Hypothesis rates_positive : 0 < I /\ 0 < R.

(** The outputs number [a], ..., [b - 1] of the samples [T]. *)
Definition outputs (T : list Z) (a b : Z) : list Z :=
  map (fun k => value_at R T (k * I)) (seqZ a (b - a)).

Lemma outputs_ok T a b : samples_ok T -> samples_ok (outputs T a b).
Proof using rates_positive.
  intros HT. apply Forall_forall. intros v (k & -> & _)%list_elem_of_fmap.
  apply value_at_ok; [lia | done].
Qed.

Lemma outputs_app T a b c : a <= b <= c -> outputs T a c = outputs T a b ++ outputs T b c.
Proof.
  intros H. unfold outputs. replace (c - a) with ((b - a) + (c - b)) by lia.
  rewrite seqZ_app by lia. replace (a + (b - a)) with b by lia. apply map_app.
Qed.

Lemma outputs_extend T U a b :
  0 <= a -> (forall k, a <= k < b -> k * I / R + 1 < len T) -> outputs (T ++ U) a b = outputs T a b.
Proof using rates_positive.
  intros Ha Hk. unfold outputs. apply map_ext_in. intros k Hin%list_elem_of_In%elem_of_seqZ.
  apply value_at_app; [lia | nia | apply Hk; lia].
Qed.

(** After [k] outputs of the samples [T], the resampler holds the samples from
    some base on and the position relative to it. *)
Definition stream_inv (T : list Z) (k : Z) (self : Pcm16MonoStreamResampler) : Prop :=
  exists base, 0 <= base <= len T /\ 0 <= k
    /\ self = MkResampler I R (drop (Z.to_nat base) T) (k * I - base * R)
    /\ 0 <= k * I - base * R /\ (k * I - base * R) / R <= 1.

Lemma loop_outputs T base k n :
  0 <= base <= len T -> 0 <= n -> base * R <= k * I ->
  map (fun j => value_at R (drop (Z.to_nat base) T) (k * I - base * R + j * I)) (seqZ 0 n)
  = outputs T k (k + n).
Proof using rates_positive.
  intros Hb Hn Hk. unfold outputs. replace (k + n - k) with n by lia.
  replace (seqZ k n) with (seqZ (k + 0) n) by (f_equal; lia).
  rewrite <- (fmap_add_seqZ k 0 n). change (Z.add k <$> seqZ 0 n) with (map (Z.add k) (seqZ 0 n)).
  rewrite map_map. apply map_ext_in. intros j Hj%list_elem_of_In%elem_of_seqZ.
  rewrite <- (value_at_drop R T base ((k + j) * I)) by (lia || nia). f_equal. lia.
Qed.

Lemma continues_drop T base k req j :
  0 <= base <= len T ->
  continues R (drop (Z.to_nat base) T) req (k * I - base * R + j * I) = continues R T req ((k + j) * I).
Proof using rates_positive.
  intros Hb. unfold continues. rewrite len_drop by done.
  replace (k * I - base * R + j * I) with ((k + j) * I + (- base) * R) by lia.
  rewrite Z.div_add by lia. set (d := (k + j) * I / R).
  destruct req.
  - destruct (Z.ltb_spec (d + - base + 1) (len T - base)), (Z.ltb_spec (d + 1) (len T)); lia.
  - destruct (Z.ltb_spec (d + - base) (len T - base)), (Z.ltb_spec d (len T)); lia.
Qed.

(** One [_produce] from the invariant. *)
Lemma produce_spec T k self req :
  stream_inv T k self -> samples_ok T ->
  exists k' self', k <= k'
    /\ _produce req self = (Ok (concat (map le16 (outputs T k k'))), self')
    /\ (forall j, k <= j < k' -> continues R T req (j * I) = true)
    /\ continues R T req (k' * I) = false
    /\ (req = true -> I <= 3 * R -> stream_inv T k' self').
Proof using rates_positive.
  intros (base & Hb & Hk & -> & Hp & Hp1) HT. destruct rates_positive as [HI HR].
  set (S := drop (Z.to_nat base) T).
  assert (samples_ok S) as HS by (by apply Forall_drop).
  destruct (produce_loop_spec (produce_fuel I R S) I R S req (k * I - base * R))
    as (n & Hn & Hloop & Hgo & Hstop); [done..| |].
  { unfold produce_fuel. pose proof (len_nonneg S).
    pose proof (Z.div_mod (len S * R) I ltac:(lia)). pose proof (Z.mod_pos_bound (len S * R) I HI).
    assert (0 <= len S * R / I) by (apply Z.div_pos; nia). rewrite Z2Nat.id by lia. nia. }
  exists (k + n). unfold _produce. cbn [input_rate output_rate _samples _position_numerator]. fold S.
  rewrite Hloop. cbn [mbind result_bind fst snd]. unfold S. rewrite loop_outputs by lia. fold S.
  rewrite pack16_all_ok by (by apply outputs_ok). cbn [mbind result_bind].
  eexists. split; [lia|]. split; [reflexivity|]. split_and!.
  - intros j Hj. replace j with (k + (j - k)) by lia. rewrite <- (continues_drop T base) by done. apply Hgo. lia.
  - rewrite <- (continues_drop T base) by done. exact Hstop.
  - intros -> HIR. set (pos := k * I - base * R + n * I) in *.
    assert (pos / R <= len S + 1) as Hpos.
    { destruct (Z.eq_dec n 0) as [->|Hn0]; [|].
      - unfold pos. rewrite Z.mul_0_l, Z.add_0_r. pose proof (len_nonneg S). lia.
      - specialize (Hgo (n - 1) ltac:(lia)). unfold continues in Hgo. apply Z.ltb_lt in Hgo.
        assert ((pos - I) / R + 1 < len S) as Hl
          by (unfold pos; by replace (k * I - base * R + n * I - I) with (k * I - base * R + (n - 1) * I) by lia).
        assert (pos / R < len S + 2); [|lia]. apply Z.div_lt_upper_bound; [lia|].
        pose proof (Z.div_mod (pos - I) R ltac:(lia)). pose proof (Z.mod_pos_bound (pos - I) R HR). nia. }
    assert (len S = len T - base) as HlS by (unfold S; by apply len_drop).
    assert (0 <= pos) as Hpp by (unfold pos; nia). pose proof (Z.div_pos pos R Hpp HR) as Hdp.
    destruct (0 <? Z.max 0 (pos / R - 1)) eqn:Ec; bool_to_prop.
    + set (c := Z.max 0 (pos / R - 1)) in *. exists (base + c). split_and!; [lia|lia|lia| | |].
      * unfold S. rewrite drop_drop. f_equal; [|unfold pos; lia].
        f_equal. rewrite Z2Nat.inj_add by lia. done.
      * pose proof (Z.mul_div_le pos R HR). assert (c = pos / R - 1) as Hc by lia.
        replace ((k + n) * I - (base + c) * R) with (pos - c * R) by (unfold pos; lia). nia.
      * replace ((k + n) * I - (base + c) * R) with (pos + (- c) * R) by (unfold pos; lia).
        rewrite Z.div_add by lia. lia.
    + exists base. split_and!; [lia|lia|lia| | |].
      * f_equal. unfold pos. lia.
      * unfold pos in Hpp. lia.
      * replace ((k + n) * I - base * R) with pos by (unfold pos; lia). lia.
Qed.

(** The whole input of a list of chunks. *)
Definition stream_samples (chunks : list bytes) : list Z := concat (map unpack16 chunks).

Lemma stream_samples_ok chunks : samples_ok (stream_samples chunks).
Proof.
  unfold stream_samples. induction chunks as [|c l IH]; [constructor|]. cbn [map concat].
  apply Forall_app. split; [apply unpack16_range | done].
Qed.

Lemma process_spec T k self chunk :
  I <> R -> I <= 3 * R -> samples_ok T -> even_length chunk = true -> stream_inv T k self ->
  exists k' self', k <= k'
    /\ process chunk self = (Ok (concat (map le16 (outputs (T ++ unpack16 chunk) k k'))), self')
    /\ (forall j, k <= j < k' -> j * I / R + 1 < len (T ++ unpack16 chunk))
    /\ stream_inv (T ++ unpack16 chunk) k' self'.
Proof using rates_positive.
  intros Hne HIR HT He (base & Hb & Hk & -> & Hp & Hp1).
  set (T' := T ++ unpack16 chunk).
  assert (samples_ok T') as HT' by (apply Forall_app; split; [done | apply unpack16_range]).
  destruct (produce_spec T' k (MkResampler I R (drop (Z.to_nat base) T ++ unpack16 chunk)
    (k * I - base * R)) true) as (k' & self' & Hle & Hpr & Hgo & _ & Hinv); [|done|].
  { exists base. unfold T'. rewrite len_app. pose proof (len_nonneg (unpack16 chunk)).
    split_and!; [lia|lia|lia| |done|done]. f_equal. rewrite drop_app_le; [done|]. unfold len in Hb. lia. }
  exists k', self'. split; [done|]. unfold process, guard_else. rewrite He.
  unfold mbind, st_bind, lift, get_state, put_state. cbn [input_rate output_rate _samples _position_numerator].
  rewrite (proj2 (Z.eqb_neq I R)) by done. split; [exact Hpr|]. split; [|by apply Hinv].
  intros j Hj. specialize (Hgo j Hj). unfold continues in Hgo. by apply Z.ltb_lt in Hgo.
Qed.

Lemma process_all_spec chunks T k self :
  I <> R -> I <= 3 * R -> samples_ok T -> Forall (fun c => even_length c = true) chunks ->
  stream_inv T k self ->
  exists k' self', k <= k'
    /\ process_all chunks self
       = (Ok (concat (map le16 (outputs (T ++ stream_samples chunks) k k'))), self')
    /\ (forall j, k <= j < k' -> j * I / R + 1 < len (T ++ stream_samples chunks))
    /\ stream_inv (T ++ stream_samples chunks) k' self'.
Proof using rates_positive.
  intros Hne HIR. revert T k self; induction chunks as [|c chunks IH]; intros T k self HT Hc Hinv.
  - exists k, self. unfold stream_samples; cbn [map concat]. rewrite app_nil_r.
    split_and!; [lia| |lia|done]. cbn. unfold outputs. by rewrite Z.sub_diag.
  - apply Forall_cons in Hc as [Hc Hcs].
    destruct (process_spec T k self c) as (k1 & self1 & Hk1 & Hp1 & Hgo1 & Hinv1); [done..|].
    assert (0 <= k) as Hk0 by (destruct Hinv as (? & ? & ? & ?); done).
    destruct (IH (T ++ unpack16 c) k1 self1) as (k2 & self2 & Hk2 & Hp2 & Hgo2 & Hinv2);
      [apply Forall_app; split; [done | apply unpack16_range] | done | done |].
    assert ((T ++ unpack16 c) ++ stream_samples chunks = T ++ stream_samples (c :: chunks)) as HT2
      by (unfold stream_samples; cbn [map concat]; by rewrite app_assoc).
    rewrite HT2 in *. exists k2, self2. split_and!; [lia| | |done].
    + cbn [process_all]. unfold mbind, st_bind. rewrite Hp1, Hp2. unfold mret, st_ret. f_equal. f_equal.
      rewrite <- concat_app, <- map_app. do 2 f_equal.
      rewrite (outputs_app _ k k1 k2) by lia. f_equal. rewrite <- HT2. symmetry.
      apply outputs_extend; [lia|]. intros j Hj. by apply Hgo1.
    + intros j Hj. destruct (Z.lt_ge_cases j k1) as [Hlt|Hge]; [|apply Hgo2; lia].
      specialize (Hgo1 j ltac:(lia)). rewrite <- HT2, len_app. pose proof (len_nonneg (stream_samples chunks)). lia.
Qed.

Lemma count_unique L k :
  0 <= L -> 0 <= k -> (forall j, 0 <= j < k -> j * I / R < L) -> L <= k * I / R ->
  k = (L * R + I - 1) / I.
Proof using rates_positive.
  intros HL Hk Hgo Hstop. destruct rates_positive as [HI HR].
  assert (L * R <= k * I) as H1 by (pose proof (Z.mul_div_le (k * I) R HR); nia).
  assert ((k - 1) * I < L * R) as H2.
  { destruct (Z.eq_dec k 0) as [->|Hk0]; [nia|]. specialize (Hgo (k - 1) ltac:(lia)).
    pose proof (Z.div_mod ((k - 1) * I) R ltac:(lia)).
    pose proof (Z.mod_pos_bound ((k - 1) * I) R HR). nia. }
  apply (Z.div_unique _ _ k (L * R - (k - 1) * I - 1)); [lia|]. lia.
Qed.

Lemma flush_spec T k self :
  samples_ok T -> stream_inv T k self -> (forall j, 0 <= j < k -> j * I / R + 1 < len T) ->
  exists self', flush self
    = (Ok (concat (map le16 (outputs T k ((len T * R + I - 1) / I)))), self').
Proof using rates_positive.
  intros HT Hinv Hk. assert (0 <= k) as Hk0 by (destruct Hinv as (? & ? & ? & ?); done).
  destruct (produce_spec T k self false Hinv HT) as (k' & self' & Hle & Hpr & Hgo & Hstop & _).
  unfold continues in Hstop. apply Z.ltb_ge in Hstop.
  assert (k' = (len T * R + I - 1) / I) as <-.
  { apply count_unique; [apply len_nonneg | lia | | done]. intros j Hj.
    destruct (Z.lt_ge_cases j k) as [Hlt|Hge]; [specialize (Hk j ltac:(lia)); lia|].
    specialize (Hgo j ltac:(lia)). unfold continues in Hgo. by apply Z.ltb_lt in Hgo. }
  eexists. unfold flush, mbind, st_bind. rewrite Hpr. reflexivity.
Qed.

Lemma resample_stream_spec chunks :
  I <> R -> I <= 3 * R -> Forall (fun c => even_length c = true) chunks ->
  resample_stream chunks I R = Ok (concat (map le16 (reference I R (stream_samples chunks)))).
Proof using rates_positive.
  intros Hne HIR Hc. destruct rates_positive as [HI HR].
  destruct (process_all_spec chunks [] 0 (MkResampler I R [] 0)) as (k & self & Hk & Hp & Hgo & Hinv);
    [done|done|constructor|done| |].
  { exists 0. split_and!; [done|unfold len; cbn; lia|done|done| |]; rewrite ?Z.mul_0_l, ?Z.sub_0_r;
      [done|]. rewrite Z.div_0_l; lia. }
  cbn [app] in *.
  destruct (flush_spec (stream_samples chunks) k self) as [self' Hf];
    [apply stream_samples_ok | done | done |].
  unfold resample_stream, make_resampler.
  rewrite (proj2 (Z.leb_gt I 0)), (proj2 (Z.leb_gt R 0)) by lia. cbn [orb mbind result_bind].
  unfold mbind, st_bind. rewrite Hp, Hf. cbn. f_equal.
  rewrite <- concat_app, <- map_app. do 2 f_equal. symmetry.
  assert (k <= (len (stream_samples chunks) * R + I - 1) / I) as Hle.
  { pose proof (len_nonneg (stream_samples chunks)). apply Z.div_le_lower_bound; [lia|].
    destruct (Z.eq_dec k 0) as [->|Hk0]; [nia|]. specialize (Hgo (k - 1) ltac:(lia)).
    pose proof (Z.div_mod ((k - 1) * I) R ltac:(lia)).
    pose proof (Z.mod_pos_bound ((k - 1) * I) R HR). nia. }
  rewrite <- (outputs_app _ 0 k) by lia. unfold reference, outputs. by rewrite Z.sub_0_r.
Qed.
End streaming.

(** ** Properties *)

Lemma resample_one_chunk pcm input_rate output_rate :
  resample_pcm16_mono pcm input_rate output_rate = resample_stream [pcm] input_rate output_rate.
Proof.
  unfold resample_pcm16_mono, resample_stream. destruct (make_resampler input_rate output_rate) as [r|]; [|done].
  cbn [mbind result_bind]. unfold mbind, st_bind. cbn [process_all]. unfold mbind, st_bind.
  destruct (process pcm r) as [[a|c s] r1]; [|done]. unfold mret, st_ret.
  destruct (flush r1) as [[b|c s] r2]; [|done]. cbn. by rewrite app_nil_r.
Qed.

(** The one-shot resampler computes the reference. *)
Lemma resample_mono_spec pcm input_rate output_rate : 0 < input_rate -> 0 < output_rate -> input_rate <> output_rate ->
  input_rate <= 3 * output_rate -> even_length pcm = true ->
  resample_pcm16_mono pcm input_rate output_rate = Ok (concat (map le16 (reference input_rate output_rate (unpack16 pcm)))).
Proof.
  intros HI HR Hne HIR He. rewrite resample_one_chunk, resample_stream_spec by (try done; by repeat constructor).
  unfold stream_samples. cbn [map concat]. by rewrite app_nil_r.
Qed.

Lemma stream_samples_concat chunks : Forall (fun c => even_length c = true) chunks ->
  stream_samples chunks = unpack16 (concat chunks) /\ even_length (concat chunks) = true.
Proof.
  intros Hc. induction Hc as [|c l Hc Hl [IH1 IH2]]; [done|]. unfold stream_samples in *. cbn [map concat].
  rewrite unpack16_app, IH1 by done. split; [done | by apply even_length_app].
Qed.

(** C18. Streaming equals the reference: however a stream is cut into chunks of
    whole samples, processing the chunks and flushing yields, without error,
    the value interpolated at every multiple of the input rate, as long as the
    input rate is at most three times the output rate; in particular the
    result does not depend on the chunks, and the one-shot conversion agrees. *)
Theorem resample_stream_reference input_rate output_rate chunks :
  0 < input_rate -> 0 < output_rate -> input_rate <> output_rate ->
  input_rate <= 3 * output_rate -> Forall (fun c => even_length c = true) chunks ->
  let out := concat (map le16 (reference input_rate output_rate (unpack16 (concat chunks)))) in
  resample_stream chunks input_rate output_rate = Ok out
  /\ resample_pcm16_mono (concat chunks) input_rate output_rate = Ok out.
Proof.
  intros HI HR Hne HIR Hc. cbn zeta. destruct (stream_samples_concat chunks Hc) as [<- He].
  split; [by apply resample_stream_spec|]. rewrite resample_mono_spec by done. unfold stream_samples. do 4 f_equal.
  symmetry. apply (stream_samples_concat chunks Hc).
Qed.

(** Above a ratio of three the phase is lost between chunks: from 48 kHz
    to 8 kHz, the same sixteen samples resample differently in one chunk and in
    two, because the samples that the position has passed are more than the
    ones the resampler holds. *)
Theorem downsampling_loses_phase :
  exists c1 c2, even_length c1 = true /\ even_length c2 = true
    /\ resample_stream [c1; c2] 48000 8000 <> resample_stream [c1 ++ c2] 48000 8000.
Proof.
  exists (concat (map le16 (seqZ 0 8))), (concat (map le16 (seqZ 8 8))).
  split_and!; [reflexivity | reflexivity |]. vm_compute. discriminate.
Qed.

Lemma resample_stream_reference_witness :
  let chunks := [concat (map le16 [0; 100; 200]); concat (map le16 [300; -400])] in
  resample_stream chunks 24000 8000
  = Ok (concat (map le16 (reference 24000 8000 (unpack16 (concat chunks))))).
Proof.
  eapply (resample_stream_reference 24000 8000
    [concat (map le16 [0; 100; 200]); concat (map le16 [300; -400])]);
    [lia | lia | lia | lia | repeat constructor].
Defined.
