(* ===== verification/JobQueue.v ===== *)
(** * The lease queue of persistent run jobs

    [control_plane/job_queue.py] over the table [run_jobs] of
    [control_plane/models.py].  The database is a pair of finite maps (the
    rows of [runs], of which only the key set matters here, and the rows of
    [run_jobs]); a statement is a function of the database, a method is one
    transaction.  [env] holds what a call takes from outside: the clock, the
    fresh UUID, the rows other transactions have locked (the ones SKIP LOCKED
    passes over) and whether the database fails during the call.

    The last part gives the abstract life cycle of a job ([job_phase],
    [job_step]) and shows that every method follows it. *)
From S2P Require Import Prelude Effects Collections PyFloat PyData.
From Stdlib Require Import Sorting.Sorted.

Open Scope Z_scope.

Inductive RunJobState : Type := queued | leased | completed | failed.

#[export] Instance RunJobState_eq_dec : EqDecision RunJobState.
Proof. solve_decision. Defined.

Definition _MIN_LEASE_SECONDS : Z := 5.
Definition _MAX_LEASE_SECONDS : Z := 300.
Definition _MAX_RETRY_DELAY_SECONDS : Z := 3600.
Definition _MAX_ATTEMPTS_LIMIT : Z := 100.

(** A row of [run_jobs]; its primary key is the key of the table. *)
Record RunJobRow := MkRunJobRow {
  row_run_id : uuid;
  row_state : RunJobState;
  row_available_at : instant;
  row_created_at : instant;
  row_lease_owner : option string;
  row_lease_token : option uuid;
  row_lease_expires_at : option instant;
  row_attempts : Z;
  row_failure_alias : option string
}.

#[export] Instance RunJobRow_eq_dec : EqDecision RunJobRow.
Proof. solve_decision. Defined.

Record RunJobLease := MkRunJobLease {
  lease_job_id : string;
  lease_run_id : string;
  lease_lease_token : string;
  lease_attempt : Z;
  lease_lease_expires_at : instant;
  lease_final_attempt : bool
}.

Record RunJobStatus := MkRunJobStatus {
  status_job_id : string;
  status_run_id : string;
  status_state : RunJobState;
  status_attempts : Z;
  status_available_at : instant;
  status_lease_owner : option string;
  status_lease_expires_at : option instant;
  status_failure_alias : option string
}.

Record PostgresRunJobQueue := MkPostgresRunJobQueue { max_attempts : Z }.

(** [PostgresRunJobQueue.__post_init__]. *)
Definition make_queue (max : Z) : result PostgresRunJobQueue :=
  guard_else ((1 <=? max) && (max <=? _MAX_ATTEMPTS_LIMIT)) ValueError "run-job-max-attempts-invalid" ≫=
  fun _ => Ok (MkPostgresRunJobQueue max).

(** What a call observes of the outside world. *)
Record env := MkEnv {
  env_now : instant;          (* datetime.now(UTC) *)
  env_uuid : uuid;            (* uuid4() *)
  env_locked : gset uuid;     (* jobs locked by other transactions *)
  env_fault : bool            (* the database raises SQLAlchemyError *)
}.

(** ** Argument checks *)

Definition _validate_alias (value reason_alias : string) : result unit :=
  if negb ((1 <=? strlen value) && (strlen value <=? 128))
     || negb (is_ascii value)
     || existsb (fun character =>
          negb (is_ascii_alnum character || char_in ["-"; "_"; "."]%char character)) (chars value)
  then Raise ValueError reason_alias else Ok tt.

Definition _validate_lease_seconds (value : Z) : result unit :=
  guard_else ((_MIN_LEASE_SECONDS <=? value) && (value <=? _MAX_LEASE_SECONDS))
    ValueError "run-job-lease-seconds-invalid".

Definition _parse_uuid (value reason_alias : string) : result uuid :=
  from_option_err (parse_uuid value) ValueError reason_alias.

Definition _normalize_now (e : env) (value : option datetime) : result instant :=
  as_utc (default (utc_datetime (env_now e)) value).

(** ** Statements *)
Section queue.
Context {R : Type}.

Record database := MkDatabase {
  db_runs : gmap uuid R;
  db_jobs : gmap uuid RunJobRow
}.

Definition with_jobs (jobs : gmap uuid RunJobRow) (db : database) : database :=
  MkDatabase (db_runs db) jobs.

(** [update(RunJobRow).where(p).values(f)], with its [rowcount]. *)
Definition update_rows (p : uuid -> RunJobRow -> bool) (f : RunJobRow -> RunJobRow)
    (jobs : gmap uuid RunJobRow) : gmap uuid RunJobRow :=
  map_imap (fun id row => Some (if p id row then f row else row)) jobs.
Definition rowcount (p : uuid -> RunJobRow -> bool) (jobs : gmap uuid RunJobRow) : Z :=
  Z.of_nat (size (filter (fun '(id, row) => p id row = true) jobs)).

(** Comparisons with a NULL column are not true. *)
Definition expired_at (now : instant) (row : RunJobRow) : bool :=
  match row_lease_expires_at row with Some t => t <=? now | None => false end.

Definition claimable (now : instant) (max_attempts : Z) (row : RunJobRow) : bool :=
  (row_attempts row <? max_attempts)
  && ((bool_decide (row_state row = queued) && (row_available_at row <=? now))
      || (bool_decide (row_state row = leased) && expired_at now row)).

(** [ORDER BY available_at, created_at, id]. *)
Definition claim_key (x : uuid * RunJobRow) : Z * Z * Z :=
  (row_available_at x.2, row_created_at x.2, x.1).
Definition claim_le (x y : uuid * RunJobRow) : bool :=
  let '(a1, c1, i1) := claim_key x in
  let '(a2, c2, i2) := claim_key y in
  if a1 =? a2 then (if c1 =? c2 then i1 <=? i2 else c1 <? c2) else a1 <? a2.

Definition _claim_statement (now : instant) (max_attempts : Z) (locked : gset uuid)
    (jobs : gmap uuid RunJobRow) : option (uuid * RunJobRow) :=
  head (sorted_by claim_le
    (filterb (fun x => claimable now max_attempts x.2 && bool_decide (x.1 ∉ locked))
      (map_to_list jobs))).

Definition exhausted (now : instant) (max_attempts : Z) (row : RunJobRow) : bool :=
  (max_attempts <=? row_attempts row)
  && (bool_decide (row_state row = queued)
      || (bool_decide (row_state row = leased) && expired_at now row)).

Definition expire_row (row : RunJobRow) : RunJobRow :=
  MkRunJobRow (row_run_id row) failed (row_available_at row) (row_created_at row)
    None None None (row_attempts row) (Some "attempt-limit-exhausted").

Definition _expire_exhausted_jobs_statement (now : instant) (max_attempts : Z)
    (jobs : gmap uuid RunJobRow) : gmap uuid RunJobRow :=
  update_rows (fun _ => exhausted now max_attempts) expire_row jobs.

Definition _active_lease_conditions (lease : RunJobLease) (worker_id : string) (now : instant)
    : result (uuid -> RunJobRow -> bool) :=
  job_uuid ← _parse_uuid (lease_job_id lease) "run-job-id-invalid";
  token ← _parse_uuid (lease_lease_token lease) "run-job-lease-token-invalid";
  Ok (fun id row =>
    (id =? job_uuid)
    && bool_decide (row_state row = leased)
    && bool_decide (row_lease_owner row = Some worker_id)
    && bool_decide (row_lease_token row = Some token)
    && match row_lease_expires_at row with Some t => now <? t | None => false end).

(** The first access of a call to the database. *)
Definition db_access (e : env) : st database unit :=
  if env_fault e then throw SQLAlchemyError "" else mret tt.

(** [try: with session_factory.begin(): ... except SQLAlchemyError]. *)
Definition queue_transaction {A} (m : st database A) : st database A :=
  catch (transaction m) (fun c e =>
    match c with
    | SQLAlchemyError | IntegrityError =>
        throw RunJobQueueError "run job queue is unavailable"
    | _ => throw c e
    end).

Definition job_of_run (run : uuid) (jobs : gmap uuid RunJobRow) : option (uuid * RunJobRow) :=
  next_match (fun x => row_run_id x.2 =? run) (map_to_list jobs).

(** The insertion of a row: its constraints are the primary key, the unique
    [run_id] and the foreign key to [runs]. *)
Definition insert_job (id : uuid) (row : RunJobRow) : st database unit := fun db =>
  if bool_decide (id ∈ dom (db_jobs db))
     || match job_of_run (row_run_id row) (db_jobs db) with Some _ => true | None => false end
     || negb (bool_decide (row_run_id row ∈ dom (db_runs db)))
  then (Raise IntegrityError "", db)
  else (Ok tt, with_jobs (<[id := row]> (db_jobs db)) db).

(** ** Methods *)

(** [enqueue], whose first query sees the database [seen] and whose
    insertion meets the current one: another transaction may have committed
    in between. *)
Definition enqueue_at (seen : database) (e : env) (run_id : string) (now : option datetime)
    : st database string :=
  run_uuid ← lift (_parse_uuid run_id "run-job-run-id-invalid");
  available_at ← lift (_normalize_now e now);
  queue_transaction (
    _ ← db_access e;
    match job_of_run run_uuid (db_jobs seen) with
    | Some existing => mret (uuid_str existing.1)
    | None =>
        let job := MkRunJobRow run_uuid queued available_at (env_now e) None None None 0 None in
        catch (_ ← insert_job (env_uuid e) job; mret (uuid_str (env_uuid e)))
          (fun c s =>
            match c with
            | IntegrityError =>
                db ← get_state;
                match job_of_run run_uuid (db_jobs db) with
                | None => throw c s
                | Some existing => mret (uuid_str existing.1)
                end
            | _ => throw c s
            end)
    end).

Definition enqueue (e : env) (run_id : string) (now : option datetime) : st database string :=
  fun db => enqueue_at db e run_id now db.

Definition lease_row (worker_id : string) (token : uuid) (expires : instant) (row : RunJobRow)
    : RunJobRow :=
  MkRunJobRow (row_run_id row) leased (row_available_at row) (row_created_at row)
    (Some worker_id) (Some token) (Some expires) (row_attempts row + 1) None.

Definition claim (self : PostgresRunJobQueue) (e : env) (worker_id : string)
    (lease_seconds : Z) (now : option datetime) : st database (option RunJobLease) :=
  _ ← lift (_validate_alias worker_id "run-job-worker-id-invalid");
  _ ← lift (_validate_lease_seconds lease_seconds);
  claimed_at ← lift (_normalize_now e now);
  lease_expires_at ← lift (dt_add claimed_at (seconds lease_seconds));
  queue_transaction (
    _ ← db_access e;
    db ← get_state;
    let jobs := _expire_exhausted_jobs_statement claimed_at (max_attempts self) (db_jobs db) in
    _ ← put_state (with_jobs jobs db);
    match _claim_statement claimed_at (max_attempts self) (env_locked e) jobs with
    | None => mret None
    | Some (id, row) =>
        let lease_token := env_uuid e in
        let row' := lease_row worker_id lease_token lease_expires_at row in
        _ ← put_state (with_jobs (<[id := row']> jobs) db);
        mret (Some (MkRunJobLease (uuid_str id) (uuid_str (row_run_id row'))
          (uuid_str lease_token) (row_attempts row') lease_expires_at
          (max_attempts self <=? row_attempts row')))
    end).

Definition extend_row (expires : instant) (row : RunJobRow) : RunJobRow :=
  MkRunJobRow (row_run_id row) (row_state row) (row_available_at row) (row_created_at row)
    (row_lease_owner row) (row_lease_token row) (Some expires) (row_attempts row)
    (row_failure_alias row).

Definition heartbeat (e : env) (lease : RunJobLease) (worker_id : string)
    (lease_seconds : Z) (now : option datetime) : st database bool :=
  _ ← lift (_validate_alias worker_id "run-job-worker-id-invalid");
  _ ← lift (_validate_lease_seconds lease_seconds);
  heartbeat_at ← lift (_normalize_now e now);
  queue_transaction (
    where_ ← lift (_active_lease_conditions lease worker_id heartbeat_at);
    expires ← lift (dt_add heartbeat_at (seconds lease_seconds));
    _ ← db_access e;
    db ← get_state;
    _ ← put_state (with_jobs (update_rows where_ (extend_row expires) (db_jobs db)) db);
    mret (rowcount where_ (db_jobs db) =? 1)).

Definition complete_row (row : RunJobRow) : RunJobRow :=
  MkRunJobRow (row_run_id row) completed (row_available_at row) (row_created_at row)
    None None None (row_attempts row) None.

Definition complete (e : env) (lease : RunJobLease) (worker_id : string)
    (now : option datetime) : st database bool :=
  _ ← lift (_validate_alias worker_id "run-job-worker-id-invalid");
  completed_at ← lift (_normalize_now e now);
  queue_transaction (
    where_ ← lift (_active_lease_conditions lease worker_id completed_at);
    _ ← db_access e;
    db ← get_state;
    _ ← put_state (with_jobs (update_rows where_ complete_row (db_jobs db)) db);
    mret (rowcount where_ (db_jobs db) =? 1)).

(** [session.scalar(select(RunJobRow).where(p))]. *)
Definition select_row (p : uuid -> RunJobRow -> bool) (jobs : gmap uuid RunJobRow)
    : option (uuid * RunJobRow) :=
  next_match (fun x => p x.1 x.2) (map_to_list jobs).

Definition fail_row (retry : bool) (available_at : instant) (failure_alias : string)
    (row : RunJobRow) : RunJobRow :=
  MkRunJobRow (row_run_id row) (if retry then queued else failed) available_at
    (row_created_at row) None None None (row_attempts row) (Some failure_alias).

Definition fail (self : PostgresRunJobQueue) (e : env) (lease : RunJobLease)
    (worker_id failure_alias : string) (retryable : bool) (retry_delay_seconds : Z)
    (now : option datetime) : st database bool :=
  _ ← lift (_validate_alias worker_id "run-job-worker-id-invalid");
  _ ← lift (_validate_alias failure_alias "run-job-failure-alias-invalid");
  _ ← lift (guard_else ((0 <=? retry_delay_seconds)
        && (retry_delay_seconds <=? _MAX_RETRY_DELAY_SECONDS))
        ValueError "run-job-retry-delay-invalid");
  failed_at ← lift (_normalize_now e now);
  queue_transaction (
    where_ ← lift (_active_lease_conditions lease worker_id failed_at);
    _ ← db_access e;
    db ← get_state;
    match select_row where_ (db_jobs db) with
    | None => mret false
    | Some (id, row) =>
        let should_retry := retryable && (row_attempts row <? max_attempts self) in
        available_at ← lift (dt_add failed_at (seconds retry_delay_seconds));
        _ ← put_state (with_jobs
              (<[id := fail_row should_retry available_at failure_alias row]> (db_jobs db)) db);
        mret true
    end).

Definition _to_status (id : uuid) (row : RunJobRow) : RunJobStatus :=
  MkRunJobStatus (uuid_str id) (uuid_str (row_run_id row)) (row_state row) (row_attempts row)
    (row_available_at row) (row_lease_owner row) (row_lease_expires_at row)
    (row_failure_alias row).

Definition get (e : env) (job_id : string) : st database (option RunJobStatus) :=
  job_uuid ← lift (_parse_uuid job_id "run-job-id-invalid");
  queue_transaction (
    _ ← db_access e;
    db ← get_state;
    mret (_to_status job_uuid <$> (db_jobs db !! job_uuid))).
End queue.
Arguments database : clear implicits.

(** ** Calls and histories *)

(** A method call with its arguments, and what it returns. *)
Inductive call (R : Type) : Type :=
  | CEnqueue (seen : database R) (run_id : string) (now : option datetime)
  | CClaim (worker_id : string) (lease_seconds : Z) (now : option datetime)
  | CHeartbeat (lease : RunJobLease) (worker_id : string) (lease_seconds : Z)
      (now : option datetime)
  | CComplete (lease : RunJobLease) (worker_id : string) (now : option datetime)
  | CFail (lease : RunJobLease) (worker_id failure_alias : string) (retryable : bool)
      (retry_delay_seconds : Z) (now : option datetime)
  | CGet (job_id : string).
Arguments CEnqueue {R}. Arguments CClaim {R}. Arguments CHeartbeat {R}.
Arguments CComplete {R}. Arguments CFail {R}. Arguments CGet {R}.

Inductive reply : Type :=
  | RJobId (id : string)
  | RLease (lease : option RunJobLease)
  | RBool (b : bool)
  | RStatus (status : option RunJobStatus).

Definition call_now {R} (c : call R) : option datetime :=
  match c with
  | CEnqueue _ _ now | CClaim _ _ now | CHeartbeat _ _ _ now | CComplete _ _ now
  | CFail _ _ _ _ _ now => now
  | CGet _ => None
  end.

Definition exec {R} (self : PostgresRunJobQueue) (e : env) (c : call R)
    : st (database R) reply :=
  match c with
  | CEnqueue seen run_id now => RJobId <$> enqueue_at seen e run_id now
  | CClaim w secs now => RLease <$> claim self e w secs now
  | CHeartbeat l w secs now => RBool <$> heartbeat e l w secs now
  | CComplete l w now => RBool <$> complete e l w now
  | CFail l w alias retry delay now => RBool <$> fail self e l w alias retry delay now
  | CGet id => RStatus <$> get e id
  end.

(** Calls of any clients, one after the other (each is one transaction). *)
Fixpoint exec_all {R} (self : PostgresRunJobQueue) (h : list (env * call R)) (db : database R)
    : list (result reply) * database R :=
  match h with
  | [] => ([], db)
  | (e, c) :: h' =>
      let '(r, db1) := exec self e c db in
      let '(rs, db2) := exec_all self h' db1 in (r :: rs, db2)
  end.

(** The leases of job [id] that the replies grant. *)
Definition grants (id : uuid) (r : result reply) : bool :=
  match r with
  | Ok (RLease (Some lease)) => bool_decide (lease_job_id lease = uuid_str id)
  | _ => false
  end.

(** ** The life cycle of a job *)

Inductive job_phase : Type :=
  | Queued (available_at : instant) (attempts : Z)
  | Leased (owner : string) (token : uuid) (expires_at : instant) (attempts : Z)
  | Completed (attempts : Z)
  | Failed (failure_alias : string) (attempts : Z).

(** The phase a row encodes, when its columns agree with its state. *)
Definition phase_of (row : RunJobRow) : option job_phase :=
  match row_state row, row_lease_owner row, row_lease_token row, row_lease_expires_at row,
        row_failure_alias row with
  | queued, None, None, None, _ => Some (Queued (row_available_at row) (row_attempts row))
  | leased, Some w, Some tok, Some exp, None => Some (Leased w tok exp (row_attempts row))
  | completed, None, None, None, None => Some (Completed (row_attempts row))
  | failed, None, None, None, Some alias => Some (Failed alias (row_attempts row))
  | _, _, _, _, _ => None
  end.

Inductive job_step (max : Z) (now : instant) : job_phase -> job_phase -> Prop :=
  | step_claim avail a w tok exp :
      a < max -> avail <= now -> now < exp ->
      job_step max now (Queued avail a) (Leased w tok exp (a + 1))
  | step_reclaim w tok exp a w' tok' exp' :
      a < max -> exp <= now -> now < exp' ->
      job_step max now (Leased w tok exp a) (Leased w' tok' exp' (a + 1))
  | step_exhaust_queued avail a :
      max <= a -> job_step max now (Queued avail a) (Failed "attempt-limit-exhausted" a)
  | step_exhaust_leased w tok exp a :
      max <= a -> exp <= now ->
      job_step max now (Leased w tok exp a) (Failed "attempt-limit-exhausted" a)
  | step_heartbeat w tok exp exp' a :
      now < exp -> now < exp' -> job_step max now (Leased w tok exp a) (Leased w tok exp' a)
  | step_complete w tok exp a :
      now < exp -> job_step max now (Leased w tok exp a) (Completed a)
  | step_retry w tok exp avail a :
      now < exp -> a < max -> now <= avail ->
      job_step max now (Leased w tok exp a) (Queued avail a)
  | step_fail w tok exp alias a :
      now < exp -> job_step max now (Leased w tok exp a) (Failed alias a).

Definition phase_attempts (p : job_phase) : Z :=
  match p with Queued _ a | Leased _ _ _ a | Completed a | Failed _ a => a end.

Definition terminal (p : job_phase) : bool :=
  match p with Completed _ | Failed _ _ => true | _ => false end.

(** A row moves along its life cycle, or stays as it is. *)
Definition row_moves (max : Z) (now : instant) (r r' : option RunJobRow) : Prop :=
  r' = r
  \/ (exists row row' p p', r = Some row /\ r' = Some row' /\ row_run_id row' = row_run_id row
        /\ phase_of row = Some p /\ phase_of row' = Some p' /\ job_step max now p p').

(** What a call may do to the row of one job: insert it, or move it. *)
Definition row_evolves (max : Z) (now : instant) (r r' : option RunJobRow) : Prop :=
  row_moves max now r r'
  \/ (exists row, r = None /\ r' = Some row
        /\ exists avail, phase_of row = Some (Queued avail 0)).

(** ** Well-formed tables *)

Definition row_wf (max : Z) (row : RunJobRow) : Prop :=
  exists p, phase_of row = Some p /\ 0 <= phase_attempts p <= max
    /\ match p with Leased _ _ _ a => 1 <= a | _ => True end.

Record db_wf {R} (max : Z) (db : database R) : Prop := {
  wf_rows : forall id row, db_jobs db !! id = Some row -> row_wf max row;
  wf_ids : forall id row, db_jobs db !! id = Some row -> uuid_ok id;
  wf_fk : forall id row, db_jobs db !! id = Some row -> row_run_id row ∈ dom (db_runs db);
  wf_unique : forall i j r s, db_jobs db !! i = Some r -> db_jobs db !! j = Some s ->
    row_run_id r = row_run_id s -> i = j
}.

(** ** Lemmas on the statements *)
Section statements.
Implicit Types jobs : gmap uuid RunJobRow.

Lemma lookup_update_rows p f jobs id :
  update_rows p f jobs !! id = (fun row => if p id row then f row else row) <$> (jobs !! id).
Proof. unfold update_rows. rewrite map_lookup_imap. by destruct (jobs !! id). Qed.

Lemma lookup_expire now max jobs id :
  _expire_exhausted_jobs_statement now max jobs !! id =
  (fun row => if exhausted now max row then expire_row row else row) <$> jobs !! id.
Proof. unfold _expire_exhausted_jobs_statement. by rewrite lookup_update_rows. Qed.

Lemma job_of_run_some run jobs x :
  job_of_run run jobs = Some x -> jobs !! x.1 = Some x.2 /\ row_run_id x.2 = run.
Proof.
  intros [H1 H2%Z.eqb_eq]%next_match_some. split; [|done].
  apply elem_of_map_to_list. by destruct x.
Qed.

Lemma job_of_run_none run jobs id row :
  job_of_run run jobs = None -> jobs !! id = Some row -> row_run_id row <> run.
Proof.
  intros H Hr%elem_of_map_to_list. eapply next_match_none in Hr; [|exact H].
  by apply Z.eqb_neq in Hr.
Qed.

Lemma select_row_some p jobs x :
  select_row p jobs = Some x -> jobs !! x.1 = Some x.2 /\ p x.1 x.2 = true.
Proof.
  intros [H1 H2]%next_match_some. split; [|done].
  apply elem_of_map_to_list. by destruct x.
Qed.

Lemma select_row_none p jobs id row :
  select_row p jobs = None -> jobs !! id = Some row -> p id row = false.
Proof. intros H Hr%elem_of_map_to_list. by eapply next_match_none in Hr; [|exact H]. Qed.

(** A condition on the primary key selects at most one row. *)
Lemma rowcount_unique p jobs j :
  (forall id row, p id row = true -> id = j) ->
  rowcount p jobs = match jobs !! j with Some row => if p j row then 1 else 0 | None => 0 end.
Proof.
  intros Hp. unfold rowcount. set (m := filter _ _).
  assert (forall i, m !! i = if decide (i = j) then
    (match jobs !! j with Some row => if p j row then Some row else None | None => None end)
    else None) as Hm.
  { intros i. unfold m. rewrite map_lookup_filter. destruct (decide (i = j)) as [->|Hne].
    - destruct (jobs !! j) as [row|]; cbn; [|done]. case_guard as Hc; cbn; [by rewrite Hc|].
      by destruct (p j row).
    - destruct (jobs !! i) as [row|]; cbn; [|done]. case_guard as Hc; cbn; [|done].
      exfalso. eauto. }
  destruct (match jobs !! j with Some row => if p j row then Some row else None | None => None end)
    as [row|] eqn:E.
  - replace m with ({[ j := row ]} : gmap uuid RunJobRow).
    + rewrite map_size_singleton. destruct (jobs !! j) as [r|]; [|done]. by destruct (p j r).
    + symmetry. apply map_eq. intros i. rewrite Hm, lookup_singleton. repeat case_decide; congruence.
  - replace m with (∅ : gmap uuid RunJobRow).
    + rewrite map_size_empty. destruct (jobs !! j) as [r|]; [|done]. by destruct (p j r).
    + symmetry. apply map_eq. intros i. rewrite Hm, lookup_empty. by case_decide.
Qed.

Lemma update_rows_unique p f jobs j :
  (forall id row, p id row = true -> id = j) ->
  update_rows p f jobs =
  match jobs !! j with
  | Some row => if p j row then <[j := f row]> jobs else jobs
  | None => jobs
  end.
Proof.
  intros Hp. apply map_eq. intros i. rewrite lookup_update_rows.
  destruct (decide (i = j)) as [->|Hne].
  - destruct (jobs !! j) as [row|] eqn:E; [|by rewrite E]. cbn.
    destruct (p j row); [by rewrite lookup_insert_eq | done].
  - transitivity (jobs !! i).
    + destruct (jobs !! i) as [row|]; [|done]. cbn. destruct (p i row) eqn:E; [|done].
      by apply Hp in E.
    + destruct (jobs !! j) as [r|]; [|done].
      destruct (p j r); [by rewrite lookup_insert_ne | done].
Qed.
End statements.

(** ** Lemmas on the methods *)

(** The row holds the lease [tok] of worker [w] at [now]. *)
Definition holds (row : RunJobRow) (w : string) (tok : uuid) (now : instant) : Prop :=
  row_state row = leased /\ row_lease_owner row = Some w /\ row_lease_token row = Some tok
  /\ exists exp, row_lease_expires_at row = Some exp /\ now < exp.

Lemma active_lease_conditions_ok lease w now p :
  _active_lease_conditions lease w now = Ok p ->
  exists j tok, parse_uuid (lease_job_id lease) = Some j
    /\ parse_uuid (lease_lease_token lease) = Some tok
    /\ forall id row, p id row = true <-> id = j /\ holds row w tok now.
Proof.
  unfold _active_lease_conditions, _parse_uuid, from_option_err, holds. intros H.
  destruct (parse_uuid (lease_job_id lease)) as [j|]; [|done].
  destruct (parse_uuid (lease_lease_token lease)) as [tok|]; [|done].
  injection H as <-. exists j, tok. split_and!; [done..|]. intros id row.
  destruct (row_lease_expires_at row) as [exp|];
    rewrite !andb_true_iff, !bool_decide_eq_true, Z.eqb_eq, ?Z.ltb_lt; split.
  - intros ((((? & ?) & ?) & ?) & ?). eauto 10.
  - intros (? & ? & ? & ? & t & [= <-] & ?). done.
  - intros ((((? & ?) & ?) & ?) & ?). done.
  - intros (? & ? & ? & ? & t & ? & ?). done.
Qed.

Section methods.
Context {R : Type}.
Implicit Types (db : database R) (e : env).

Lemma queue_transaction_ok {A} (m : st (database R) A) db a db' :
  queue_transaction m db = (Ok a, db') -> m db = (Ok a, db').
Proof.
  unfold queue_transaction, catch, transaction.
  destruct (m db) as [[?|c s] ?]; [by intros [= -> ->]|]. by destruct c.
Qed.

Lemma clean_queue_transaction {A} (m : st (database R) A) : clean (queue_transaction m).
Proof.
  apply clean_catch; [auto with voxbench|]. intros c s. destruct c; auto with voxbench.
Qed.

Lemma db_access_ok e db u db' : db_access (R := R) e db = (Ok u, db') -> db' = db.
Proof. unfold db_access. destruct (env_fault e); [done|]. by intros [= _ ->]. Qed.

Lemma exec_clean self e (c : call R) : clean (exec self e c).
Proof.
  destruct c; cbn; apply clean_fmap; repeat (apply clean_lift_bind; intros);
    apply clean_queue_transaction.
Qed.

Lemma with_jobs_same db : with_jobs (db_jobs db) db = db.
Proof. by destruct db. Qed.
End methods.

Ltac simpl_queue :=
  repeat (simpl_st; match goal with
  | H : queue_transaction _ _ = (Ok _, _) |- _ => apply queue_transaction_ok in H
  | H : db_access _ _ = (Ok _, _) |- _ => apply db_access_ok in H; subst
  end); simpl_st.

Lemma claim_statement_some now max locked jobs id row :
  _claim_statement now max locked jobs = Some (id, row) ->
  jobs !! id = Some row /\ claimable now max row = true /\ (id ∉ locked).
Proof.
  unfold _claim_statement. set (l := filterb _ _). intros H.
  assert ((id, row) ∈ sorted_by claim_le l) as Hin.
  { destruct (sorted_by claim_le l); [done|]. injection H as ->. apply elem_of_cons; auto. }
  apply elem_of_sorted_by in Hin. unfold l in Hin.
  apply elem_of_filterb in Hin as [Hin Hp]. apply elem_of_map_to_list in Hin.
  apply andb_true_iff in Hp as [? ?%bool_decide_eq_true]. done.
Qed.

Lemma claim_statement_none now max locked jobs id row :
  _claim_statement now max locked jobs = None ->
  jobs !! id = Some row -> (id ∉ locked) -> claimable now max row = false.
Proof.
  unfold _claim_statement. set (l := filterb _ _). intros H Hrow Hid.
  assert (l = []) as Hl.
  { apply length_zero_iff_nil. rewrite <- (sorted_by_length claim_le).
    by destruct (sorted_by claim_le l). }
  destruct (claimable now max row) eqn:E; [|done].
  assert ((id, row) ∈ l) as Hin.
  { apply elem_of_filterb. split; [by apply elem_of_map_to_list|]. cbn.
    by rewrite E, bool_decide_true. }
  rewrite Hl in Hin. by apply not_elem_of_nil in Hin.
Qed.

Lemma claim_le_total x y : claim_le x y = true \/ claim_le y x = true.
Proof.
  unfold claim_le, claim_key. destruct x as [i1 r1], y as [i2 r2]; cbn.
  destruct (Z.eqb_spec (row_available_at r1) (row_available_at r2)),
    (Z.eqb_spec (row_available_at r2) (row_available_at r1)),
    (Z.eqb_spec (row_created_at r1) (row_created_at r2)),
    (Z.eqb_spec (row_created_at r2) (row_created_at r1));
    rewrite ?Z.leb_le, ?Z.ltb_lt; lia.
Qed.

Lemma claim_le_spec x y :
  claim_le x y = true <->
  row_available_at x.2 < row_available_at y.2
  \/ row_available_at x.2 = row_available_at y.2
     /\ (row_created_at x.2 < row_created_at y.2
         \/ row_created_at x.2 = row_created_at y.2 /\ x.1 <= y.1).
Proof.
  unfold claim_le, claim_key. destruct x as [i1 r1], y as [i2 r2]; cbn.
  destruct (Z.eqb_spec (row_available_at r1) (row_available_at r2)),
    (Z.eqb_spec (row_created_at r1) (row_created_at r2)); rewrite ?Z.leb_le, ?Z.ltb_lt; lia.
Qed.

Lemma claim_le_trans x y z : claim_le x y = true -> claim_le y z = true -> claim_le x z = true.
Proof. rewrite !claim_le_spec. lia. Qed.

(** The claimed job is the first of the claimable ones. *)
Lemma claim_statement_first now max locked jobs x id row :
  _claim_statement now max locked jobs = Some x ->
  jobs !! id = Some row -> (id ∉ locked) -> claimable now max row = true ->
  claim_le x (id, row) = true.
Proof.
  unfold _claim_statement. set (l := filterb _ _). intros H Hrow Hid Hc.
  assert ((id, row) ∈ sorted_by claim_le l) as Hin.
  { apply elem_of_sorted_by. apply elem_of_filterb. split; [by apply elem_of_map_to_list|].
    cbn. by rewrite Hc, bool_decide_true. }
  assert (StronglySorted claim_le (sorted_by claim_le l)) as Hs.
  { apply (sorted_by_sorted claim_le (fun _ => True)).
    - intros; apply claim_le_total.
    - intros; by eapply claim_le_trans.
    - by apply Forall_forall. }
  destruct (sorted_by claim_le l) as [|y l']; [done|]. injection H as ->.
  apply elem_of_cons in Hin as [->|Hin].
  - apply claim_le_spec. lia.
  - inversion Hs as [|? ? _ Hall]; subst. rewrite Forall_forall in Hall.
    apply Is_true_true. by apply Hall.
Qed.

(** A fenced update: it changes the row of the lease's job by [f] and answers
    [true] exactly when that row still holds the lease. *)
Definition fenced {R} (lease : RunJobLease) (w : string) (now : instant)
    (f : RunJobRow -> RunJobRow) (db db' : database R) (b : bool) : Prop :=
  exists j tok, parse_uuid (lease_job_id lease) = Some j
    /\ parse_uuid (lease_lease_token lease) = Some tok
    /\ ((b = true /\ exists row, db_jobs db !! j = Some row /\ holds row w tok now
          /\ db' = with_jobs (<[j := f row]> (db_jobs db)) db)
        \/ (b = false /\ db' = db
            /\ forall row, db_jobs db !! j = Some row -> ~ holds row w tok now)).

Section method_specs.
Context {R : Type}.
Implicit Types (db : database R) (e : env).

Lemma fenced_update lease w now p f db :
  _active_lease_conditions lease w now = Ok p ->
  fenced lease w now f db (with_jobs (update_rows p f (db_jobs db)) db)
    (rowcount p (db_jobs db) =? 1).
Proof.
  intros (j & tok & Hj & Htok & Hp)%active_lease_conditions_ok.
  exists j, tok. split_and!; [done..|].
  assert (forall id row, p id row = true -> id = j) as Hu by (intros ? ? [? _]%Hp; done).
  rewrite (rowcount_unique p _ j Hu), (update_rows_unique p f _ j Hu).
  destruct (db_jobs db !! j) as [row|] eqn:E.
  - destruct (p j row) eqn:Ep.
    + left. split; [done|]. exists row. apply Hp in Ep as [_ ?]. done.
    + right. split; [done|]. split; [apply with_jobs_same|].
      intros r [= <-] Hh. assert (p j row = true); [by apply Hp | congruence].
  - right. split; [done|]. split; [apply with_jobs_same | done].
Qed.

Lemma heartbeat_ok e lease w secs now db b db' :
  heartbeat e lease w secs now db = (Ok b, db') ->
  exists t, _normalize_now e now = Ok t
    /\ _MIN_LEASE_SECONDS <= secs <= _MAX_LEASE_SECONDS
    /\ fenced lease w t (extend_row (t + seconds secs)) db db' b.
Proof.
  unfold heartbeat. intros H. simpl_queue. unfold _validate_lease_seconds in *. simpl_res.
  match goal with H : dt_add _ _ = Ok _ |- _ => apply dt_checked_ok in H as [-> ?] end.
  eexists. split; [eassumption|]. split; [bool_to_prop; lia|]. by apply fenced_update.
Qed.

Lemma complete_ok e lease w now db b db' :
  complete e lease w now db = (Ok b, db') ->
  exists t, _normalize_now e now = Ok t /\ fenced lease w t complete_row db db' b.
Proof.
  unfold complete. intros H. simpl_queue.
  eexists. split; [eassumption|]. by apply fenced_update.
Qed.

Lemma fail_ok self e lease w alias retryable delay now db b db' :
  fail self e lease w alias retryable delay now db = (Ok b, db') ->
  exists t, _normalize_now e now = Ok t /\ 0 <= delay <= _MAX_RETRY_DELAY_SECONDS
    /\ fenced lease w t (fun row =>
         fail_row (retryable && (row_attempts row <? max_attempts self))
           (t + seconds delay) alias row) db db' b.
Proof.
  unfold fail. intros H. simpl_queue. simpl_res.
  eexists. split; [eassumption|]. split; [bool_to_prop; lia|].
  match goal with H : _active_lease_conditions _ _ _ = Ok _ |- _ =>
    apply active_lease_conditions_ok in H as (j & tok & Hj & Htok & Hp) end.
  exists j, tok. split_and!; [done..|].
  match type of H with (match ?x with _ => _ end) _ = _ => destruct x as [[id row]|] eqn:E end.
  - simpl_queue.
    match goal with H : dt_add _ _ = Ok _ |- _ => apply dt_checked_ok in H as [-> ?] end.
    apply select_row_some in E as [E1 E2]. cbn in *. apply Hp in E2 as [-> E2].
    left. split; [done|]. by exists row.
  - simpl_queue. right. split; [done|]. split; [done|]. intros row Hr Hh.
    eapply select_row_none in E; [|exact Hr]. assert (_ = true) by (by apply Hp). congruence.
Qed.

Lemma claim_ok self e w secs now db l db' :
  claim self e w secs now db = (Ok l, db') ->
  exists t, _normalize_now e now = Ok t
    /\ _MIN_LEASE_SECONDS <= secs <= _MAX_LEASE_SECONDS
    /\ let jobs := _expire_exhausted_jobs_statement t (max_attempts self) (db_jobs db) in
       match _claim_statement t (max_attempts self) (env_locked e) jobs with
       | None => l = None /\ db' = with_jobs jobs db
       | Some (id, row) =>
           let row' := lease_row w (env_uuid e) (t + seconds secs) row in
           l = Some (MkRunJobLease (uuid_str id) (uuid_str (row_run_id row))
                (uuid_str (env_uuid e)) (row_attempts row + 1) (t + seconds secs)
                (max_attempts self <=? row_attempts row + 1))
           /\ db' = with_jobs (<[id := row']> jobs) db
       end.
Proof.
  unfold claim. intros H. simpl_queue. unfold _validate_lease_seconds in *. simpl_res.
  match goal with H : dt_add _ _ = Ok _ |- _ => apply dt_checked_ok in H as [-> ?] end.
  eexists. split; [eassumption|]. split; [bool_to_prop; lia|]. cbn zeta.
  destruct (_claim_statement _ _ _ _) as [[id row]|]; simpl_queue; done.
Qed.

(** What [enqueue] inserts. *)
Definition new_job (e : env) (run : uuid) (t : instant) : RunJobRow :=
  MkRunJobRow run queued t (env_now e) None None None 0 None.

Lemma enqueue_at_ok seen e run_id now db r db' :
  enqueue_at seen e run_id now db = (Ok r, db') ->
  exists run t, parse_uuid run_id = Some run /\ _normalize_now e now = Ok t
    /\ ((db' = db /\ exists id row, r = uuid_str id /\ row_run_id row = run
          /\ (db_jobs seen !! id = Some row \/ db_jobs db !! id = Some row))
        \/ (r = uuid_str (env_uuid e)
            /\ db' = with_jobs (<[env_uuid e := new_job e run t]> (db_jobs db)) db
            /\ db_jobs db !! env_uuid e = None
            /\ job_of_run run (db_jobs db) = None
            /\ run ∈ dom (db_runs db))).
Proof.
  unfold enqueue_at. intros H. simpl_queue.
  match goal with H : _parse_uuid _ _ = Ok ?u |- _ =>
    unfold _parse_uuid, from_option_err in H;
    destruct (parse_uuid run_id) as [run|] eqn:Erun; [|done]; injection H as -> end.
  eexists _, _. split; [done|]. split; [eassumption|].
  destruct (job_of_run _ (db_jobs seen)) as [[id row]|] eqn:Eseen.
  { simpl_queue. apply job_of_run_some in Eseen as [E1 E2]. left. split; [done|].
    exists id, row. eauto. }
  unfold catch, mbind, st_bind, insert_job in H. cbn in H.
  destruct (bool_decide (env_uuid e ∈ _)) eqn:Eid; cbn in H;
    [| destruct (job_of_run _ (db_jobs db)) as [[id row]|] eqn:Ej; cbn in H;
      [| destruct (bool_decide (_ ∈ dom (db_runs db))) eqn:Efk; cbn in H]].
  - destruct (job_of_run _ (db_jobs db)) as [[id row]|] eqn:Ej; [|done].
    injection H as <- <-. left. split; [done|]. apply job_of_run_some in Ej as [? ?]. eauto 10.
  - rewrite Ej in H. injection H as <- <-. left. split; [done|].
    apply job_of_run_some in Ej as [? ?]. eauto 10.
  - injection H as <- <-. right. split_and!; [done..| |done|].
    + apply bool_decide_eq_false in Eid. by apply not_elem_of_dom.
    + by apply bool_decide_eq_true in Efk.
  - rewrite Ej in H. done.
Qed.

Lemma get_ok e job_id db r db' :
  get e job_id db = (Ok r, db') ->
  db' = db /\ exists j, parse_uuid job_id = Some j /\ r = _to_status j <$> (db_jobs db !! j).
Proof.
  unfold get. intros H. simpl_queue. split; [done|].
  unfold _parse_uuid, from_option_err in *. case_match; [|done]. simpl_res. eauto.
Qed.
End method_specs.

(** ** Every call follows the life cycle *)
Section life_cycle.
Context {R : Type} (self : PostgresRunJobQueue).
Implicit Types (db : database R) (e : env).
Let max := max_attempts self.

Lemma phase_leased row w tok now :
  row_wf max row -> holds row w tok now ->
  exists exp, phase_of row = Some (Leased w tok exp (row_attempts row)) /\ now < exp.
Proof.
  intros (p & Hp & _) (Hs & Hw & Ht & exp & He & Hlt). exists exp. split; [|done].
  revert Hp. unfold phase_of. rewrite Hs, Hw, Ht, He. by destruct (row_failure_alias row).
Qed.

Lemma phase_expired row now :
  row_wf max row -> row_state row = leased -> expired_at now row = true ->
  exists w tok exp, phase_of row = Some (Leased w tok exp (row_attempts row)) /\ exp <= now.
Proof.
  intros (p & Hp & _) Hs. unfold expired_at, phase_of in *. rewrite Hs in Hp.
  destruct (row_lease_owner row), (row_lease_token row), (row_lease_expires_at row),
    (row_failure_alias row); try done.
  intros ?%Z.leb_le. do 3 eexists. rewrite Hs. split; [reflexivity | done].
Qed.

Lemma phase_queued row :
  row_wf max row -> row_state row = queued ->
  phase_of row = Some (Queued (row_available_at row) (row_attempts row)).
Proof.
  intros (p & Hp & _) Hs. unfold phase_of in *. rewrite Hs in *.
  by destruct (row_lease_owner row), (row_lease_token row), (row_lease_expires_at row).
Qed.

Lemma expire_moves now row :
  row_wf max row -> exhausted now max row = true ->
  row_moves max now (Some row) (Some (expire_row row)).
Proof.
  intros Hwf Hx. unfold exhausted in Hx. apply andb_true_iff in Hx as [?%Z.leb_le Hx].
  right. apply orb_true_iff in Hx as [Hs%bool_decide_eq_true|[Hs%bool_decide_eq_true Hx]%andb_true_iff].
  - eexists _, _, _, _. split_and!; [done..|by apply phase_queued|done|]. by constructor.
  - apply phase_expired in Hx as (w & tok & exp & Hph & Hle); [|done..].
    eexists _, _, _, _. split_and!; [done..|exact Hph|done|]. by constructor.
Qed.

Lemma lease_moves now exp row w tok :
  row_wf max row -> claimable now max row = true -> now < exp ->
  row_moves max now (Some row) (Some (lease_row w tok exp row)).
Proof.
  intros Hwf Hx Hlt. unfold claimable in Hx. apply andb_true_iff in Hx as [?%Z.ltb_lt Hx]. right.
  apply orb_true_iff in Hx
    as [[Hs%bool_decide_eq_true Hav%Z.leb_le]%andb_true_iff|[Hs%bool_decide_eq_true Hx]%andb_true_iff].
  - eexists _, _, _, _. split_and!; [done..|by apply phase_queued|done|]. by constructor.
  - apply phase_expired in Hx as (w' & tok' & exp' & Hph & Hle); [|done..].
    eexists _, _, _, _. split_and!; [done..|exact Hph|done|]. by constructor.
Qed.

Lemma fenced_moves lease w now f db db' b id :
  db_wf max db -> fenced lease w now f db db' b ->
  (forall row tok exp, row_run_id (f row) = row_run_id row /\
     (now < exp -> row_wf max row -> phase_of row = Some (Leased w tok exp (row_attempts row)) ->
     exists p, phase_of (f row) = Some p
       /\ job_step max now (Leased w tok exp (row_attempts row)) p)) ->
  row_moves max now (db_jobs db !! id) (db_jobs db' !! id).
Proof.
  intros Hwf (j & tok & _ & _ & [(_ & row & Hrow & Hh & ->)|(_ & -> & _)]) Hf; [|by left].
  cbn. destruct (decide (id = j)) as [->|Hne]; [|rewrite lookup_insert_ne by done; by left].
  rewrite lookup_insert_eq, Hrow.
  pose proof (wf_rows _ _ Hwf _ _ Hrow) as Hr.
  destruct (phase_leased _ _ _ _ Hr Hh) as (exp & Hph & Hlt).
  destruct (Hf row tok exp) as [Hid Hp]. destruct (Hp Hlt Hr Hph) as (p & Hp1 & Hp2).
  right. eauto 12.
Qed.

Lemma phase_leased_inv row w tok exp a :
  phase_of row = Some (Leased w tok exp a) ->
  row_state row = leased /\ row_lease_owner row = Some w /\ row_lease_token row = Some tok
  /\ row_lease_expires_at row = Some exp /\ row_failure_alias row = None /\ row_attempts row = a.
Proof. unfold phase_of. repeat case_match; try done. intros [= <- <- <- <-]. done. Qed.

(** Calls other than [enqueue] insert nothing. *)
Lemma exec_moves e (c : call R) db r db' t id :
  db_wf max db -> exec self e c db = (Ok r, db') -> _normalize_now e (call_now c) = Ok t ->
  match c with CEnqueue _ _ _ => False | _ => True end ->
  row_moves max t (db_jobs db !! id) (db_jobs db' !! id) /\ db_runs db' = db_runs db.
Proof.
  intros Hwf H Ht Hc.
  unfold exec in H. destruct c as [|w secs now|l w secs now|l w now|l w al ry dl now|jid];
    cbn in *; [done|..];
    unfold fmap, st_fmap in H;
    match type of H with (match ?m with _ => _ end) = _ => destruct m as [[x|] db1] eqn:E end;
    [|done| |done| |done| |done| |done]; injection H as <- <-.
  - apply claim_ok in E as (t' & Ht' & Hsecs & E). rewrite Ht in Ht'. injection Ht' as <-.
    cbn zeta in E. fold max in E.
    assert (row_moves max t (db_jobs db !! id)
      (_expire_exhausted_jobs_statement t max (db_jobs db) !! id)) as Hexp.
    { rewrite lookup_expire.
      destruct (db_jobs db !! id) as [row|] eqn:Er; [|by left]. cbn.
      destruct (exhausted t max row) eqn:Ex; [|by left].
      apply expire_moves; [|done]. by eapply wf_rows. }
    destruct (_claim_statement _ _ _ _) as [[j row]|] eqn:Ecl; destruct E as [-> ->]; [|done].
    cbn. split; [|done]. destruct (decide (id = j)) as [->|Hne];
      [|by rewrite lookup_insert_ne by done].
    rewrite lookup_insert_eq. apply claim_statement_some in Ecl as (Hj & Hcl & _).
    rewrite lookup_expire in Hj.
    destruct (db_jobs db !! j) as [row0|] eqn:Er; [|done]. cbn in Hj.
    destruct (exhausted t max row0) eqn:Ex; injection Hj as <-.
    + unfold claimable in Hcl; cbn in Hcl. by rewrite andb_false_r in Hcl.
    + apply lease_moves; [by eapply wf_rows|done|]. unfold seconds, _MIN_LEASE_SECONDS in *. lia.
  - apply heartbeat_ok in E as (t' & Ht' & Hsecs & E). rewrite Ht in Ht'. injection Ht' as <-.
    split; [|by destruct E as (?&?&?&?&[(?&?&?&?&->)|(?&->&?)])].
    eapply fenced_moves; [done|exact E|]. intros row tok exp. split; [done|].
    intros Hlt _ (Hs & Hw & Htk & He & Ha & _)%phase_leased_inv.
    exists (Leased w tok (t + seconds secs) (row_attempts row)). split.
    + unfold phase_of, extend_row; cbn. by rewrite Hs, Hw, Htk, Ha.
    + constructor; [done|]. unfold seconds, _MIN_LEASE_SECONDS in *. lia.
  - apply complete_ok in E as (t' & Ht' & E). rewrite Ht in Ht'. injection Ht' as <-.
    split; [|by destruct E as (?&?&?&?&[(?&?&?&?&->)|(?&->&?)])].
    eapply fenced_moves; [done|exact E|]. intros row tok exp. split; [done|]. intros.
    eexists. split; [done|]. by constructor.
  - apply fail_ok in E as (t' & Ht' & Hd & E). rewrite Ht in Ht'. injection Ht' as <-.
    split; [|by destruct E as (?&?&?&?&[(?&?&?&?&->)|(?&->&?)])].
    eapply fenced_moves; [done|exact E|]. intros row tok exp. split; [done|]. intros.
    destruct (ry && _) eqn:Ery; (eexists; split; [done|]); [|by constructor].
    apply andb_true_iff in Ery as [_ ?%Z.ltb_lt].
    constructor; [done..|]. unfold seconds; cbn. lia.
  - apply get_ok in E as [-> _]. split; [by left | done].
Qed.

Lemma exec_call_now e (c : call R) db r db' :
  exec self e c db = (Ok r, db') -> match c with CGet _ => True | _ =>
    exists t, _normalize_now e (call_now c) = Ok t end.
Proof.
  unfold exec. intros H. destruct c; cbn in *; unfold fmap, st_fmap in H; [..|done];
    match type of H with (match ?m with _ => _ end) = _ => destruct m as [[x|] db1] eqn:E end;
    try done.
  - apply enqueue_at_ok in E as (? & t & ? & ? & ?). eauto.
  - apply claim_ok in E as (t & ? & ?). eauto.
  - apply heartbeat_ok in E as (t & ? & ?). eauto.
  - apply complete_ok in E as (t & ? & ?). eauto.
  - apply fail_ok in E as (t & ? & ?). eauto.
Qed.
End life_cycle.

(** ** Lemmas on whole calls *)
Section calls.
Context {R : Type} (self : PostgresRunJobQueue).
Implicit Types (db : database R) (e : env).
Let max := max_attempts self.

Lemma job_step_bounds now p p' :
  job_step max now p p' -> 0 <= phase_attempts p <= max ->
  match p with Leased _ _ _ a => 1 <= a | _ => True end ->
  0 <= phase_attempts p' <= max /\ match p' with Leased _ _ _ a => 1 <= a | _ => True end.
Proof. destruct 1; cbn; lia. Qed.

Lemma row_moves_wf now row r' :
  row_wf max row -> row_moves max now (Some row) r' -> exists row', r' = Some row' /\
    row_wf max row' /\ row_run_id row' = row_run_id row.
Proof.
  intros Hwf [->|(row1 & row' & p & p' & [= <-] & -> & Hid & Hp & Hp' & Hs)]; [eauto|].
  exists row'. split_and!; [done| |done]. destruct Hwf as (p0 & Hp0 & Hb & Hl).
  rewrite Hp in Hp0. injection Hp0 as <-. exists p'. split; [done|]. by eapply job_step_bounds.
Qed.

Lemma moves_db_wf now db db' :
  db_wf max db -> db_runs db' = db_runs db ->
  (forall id, row_moves max now (db_jobs db !! id) (db_jobs db' !! id)) -> db_wf max db'.
Proof.
  intros Hwf Hruns Hm.
  assert (forall id row', db_jobs db' !! id = Some row' -> exists row,
    db_jobs db !! id = Some row /\ row_wf max row' /\ row_run_id row' = row_run_id row) as Hb.
  { intros id row' Hr'. pose proof (Hm id) as H. destruct (db_jobs db !! id) as [row|] eqn:E.
    - apply row_moves_wf in H as (r & Hr & Hw & Hi); [|by eapply wf_rows].
      rewrite Hr' in Hr. injection Hr as <-. eauto.
    - destruct H as [H|(?&?&?&?&?&_)]; congruence. }
  constructor.
  - intros id row (r & _ & Hw & _)%Hb. done.
  - intros id row (r & Hr & _)%Hb. by eapply wf_ids.
  - intros id row (r & Hr & _ & ->)%Hb. rewrite Hruns. by eapply wf_fk.
  - intros i j r s (r' & Hr & _ & ->)%Hb (s' & Hs & _ & ->)%Hb. by eapply wf_unique.
Qed.

Lemma insert_db_wf e run t db :
  1 <= max -> db_wf max db -> uuid_ok (env_uuid e) ->
  job_of_run run (db_jobs db) = None -> run ∈ dom (db_runs db) ->
  db_wf max (with_jobs (<[env_uuid e := new_job e run t]> (db_jobs db)) db).
Proof.
  intros Hmax Hwf Hu Hn Hrun. constructor; cbn.
  - intros id row [[<- <-]|[_ H]]%lookup_insert_Some; [|by eapply wf_rows].
    eexists. split; [done|]. cbn. lia.
  - intros id row [[<- <-]|[_ H]]%lookup_insert_Some; [done | by eapply wf_ids].
  - intros id row [[<- <-]|[_ H]]%lookup_insert_Some; [done | by eapply wf_fk].
  - intros i j r s [[<- <-]|[Hi Hr]]%lookup_insert_Some [[<- <-]|[Hj Hs]]%lookup_insert_Some Heq;
      cbn in Heq; [done| | |by eapply wf_unique].
    + exfalso. by eapply job_of_run_none.
    + exfalso. by eapply job_of_run_none.
Qed.

Lemma exec_wf e (c : call R) db :
  1 <= max -> db_wf max db -> uuid_ok (env_uuid e) -> db_wf max (snd (exec self e c db)).
Proof.
  intros Hmax Hwf Hu. destruct (exec self e c db) as [[r|cl s] db'] eqn:E; cbn;
    [|apply exec_clean in E as ->; done].
  pose proof (exec_call_now _ _ _ _ _ _ E) as Hn.
  destruct c as [seen run_id now|w secs now|l w secs now|l w now|l w al ry dl now|jid].
  - cbn in E. unfold fmap, st_fmap in E.
    destruct (enqueue_at seen e run_id now db) as [[x|] db1] eqn:E1; [|done].
    injection E as <- <-. apply enqueue_at_ok in E1 as (run & t & _ & _ & [[-> _]|H]); [done|].
    destruct H as (_ & -> & _ & ? & ?). by apply insert_db_wf.
  - destruct Hn as [t Ht]. eapply moves_db_wf; [done|..]; intros; by eapply exec_moves.
  - destruct Hn as [t Ht]. eapply moves_db_wf; [done|..]; intros; by eapply exec_moves.
  - destruct Hn as [t Ht]. eapply moves_db_wf; [done|..]; intros; by eapply exec_moves.
  - destruct Hn as [t Ht]. eapply moves_db_wf; [done|..]; intros; by eapply exec_moves.
  - cbn in E. unfold fmap, st_fmap in E. destruct (get e jid db) as [[x|] db1] eqn:E1; [|done].
    injection E as <- <-. by apply get_ok in E1 as [-> _].
Qed.

Lemma exec_all_wf h db :
  1 <= max -> db_wf max db -> Forall (fun ec => uuid_ok (env_uuid ec.1)) h ->
  db_wf max (snd (exec_all self h db)).
Proof.
  intros Hmax. revert db; induction h as [|[e c] h IH]; intros db Hwf Hh; cbn; [done|].
  apply Forall_cons in Hh as [He Hh]. pose proof (exec_wf e c db Hmax Hwf He) as H1.
  destruct (exec self e c db) as [r db1]. cbn in H1. specialize (IH db1 H1 Hh).
  by destruct (exec_all self h db1).
Qed.

Lemma exec_evolves e (c : call R) db r db' t id :
  db_wf max db -> exec self e c db = (Ok r, db') -> _normalize_now e (call_now c) = Ok t ->
  row_evolves max t (db_jobs db !! id) (db_jobs db' !! id).
Proof.
  intros Hwf H Ht. destruct c as [seen run_id now| | | | |];
    try (left; by eapply exec_moves).
  cbn in H. unfold fmap, st_fmap in H.
  destruct (enqueue_at seen e run_id now db) as [[x|] db1] eqn:E1; [|done].
  injection H as <- <-. apply enqueue_at_ok in E1 as (run & t' & _ & _ & [[-> _]|E1]);
    [by left; left|]. destruct E1 as (_ & -> & Hn & _ & _). cbn.
  destruct (decide (id = env_uuid e)) as [->|Hne];
    [|rewrite lookup_insert_ne by done; by left; left].
  rewrite lookup_insert_eq, Hn. right. eexists. split_and!; [done..|]. by eexists.
Qed.

(** The lease attempts a job has used. *)
Definition attempts_of (id : uuid) db : Z :=
  match db_jobs db !! id with Some row => row_attempts row | None => 0 end.

Lemma attempts_of_insert id j row (db : database R) :
  (db_jobs db !! j = None -> row_attempts row = 0) ->
  (forall row0, db_jobs db !! j = Some row0 -> row_attempts row = row_attempts row0) ->
  attempts_of id (with_jobs (<[j := row]> (db_jobs db)) db) = attempts_of id db.
Proof.
  intros Hn Hs. unfold attempts_of; cbn. destruct (decide (id = j)) as [->|Hne];
    [|by rewrite lookup_insert_ne]. rewrite lookup_insert_eq.
  destruct (db_jobs db !! j); auto.
Qed.

Lemma attempts_of_fenced id lease w now f db db' b :
  (forall row, row_attempts (f row) = row_attempts row) ->
  fenced lease w now f db db' b -> attempts_of id db' = attempts_of id db.
Proof.
  intros Hf (j & tok & _ & _ & [(_ & row & Hrow & _ & ->)|(_ & -> & _)]); [|done].
  apply attempts_of_insert; [congruence|]. intros row0 H0. rewrite Hf. congruence.
Qed.

Lemma claim_attempts id e w secs now db l db' :
  db_wf max db -> uuid_ok id -> claim self e w secs now db = (Ok l, db') ->
  attempts_of id db' = attempts_of id db + (if grants id (Ok (RLease l)) then 1 else 0).
Proof.
  intros Hwf Hid (t & _ & _ & H)%claim_ok. cbn zeta in H. fold max in H.
  assert (forall i, row_attempts <$> _expire_exhausted_jobs_statement t max (db_jobs db) !! i
    = row_attempts <$> db_jobs db !! i) as Hx.
  { intros i. rewrite lookup_expire.
    destruct (db_jobs db !! i) as [row|]; [|done]. cbn. by destruct (exhausted t max row). }
  destruct (_claim_statement _ _ _ _) as [[j row]|] eqn:Ecl; destruct H as [-> ->]; cbn.
  - apply claim_statement_some in Ecl as (Hj & _ & _).
    assert (uuid_ok j) as Hjok.
    { pose proof (Hx j) as H. rewrite Hj in H.
      destruct (db_jobs db !! j) eqn:Ej; [by eapply wf_ids|done]. }
    unfold attempts_of; cbn. destruct (decide (id = j)) as [->|Hne].
    + rewrite bool_decide_true by done. rewrite lookup_insert_eq; cbn.
      pose proof (Hx j) as H. rewrite Hj in H. destruct (db_jobs db !! j); [|done].
      injection H as ->. done.
    + rewrite bool_decide_false; [|intros H; apply Hne].
      2:{ change (uuid_str j = uuid_str id) in H. apply (f_equal parse_uuid) in H. rewrite !parse_uuid_str in H by done. congruence. }
      rewrite lookup_insert_ne by done. pose proof (Hx id) as H.
      destruct (_expire_exhausted_jobs_statement t max (db_jobs db) !! id), (db_jobs db !! id);
        try done. injection H as ->. lia.
  - unfold attempts_of; cbn. pose proof (Hx id) as H.
    destruct (_expire_exhausted_jobs_statement t max (db_jobs db) !! id), (db_jobs db !! id);
      try done. injection H as ->. lia.
Qed.

Lemma exec_attempts id e (c : call R) db :
  db_wf max db -> uuid_ok id ->
  attempts_of id (snd (exec self e c db))
  = attempts_of id db + (if grants id (fst (exec self e c db)) then 1 else 0).
Proof.
  intros Hwf Hid. destruct (exec self e c db) as [[r|cl s] db'] eqn:E; cbn -[grants];
    [|apply exec_clean in E as ->; cbn; lia].
  destruct c; cbn in E; unfold fmap, st_fmap in E;
    match type of E with (match ?m with _ => _ end) = _ => destruct m as [[x|] db1] eqn:E1 end;
    try done; injection E as <- <-.
  - apply enqueue_at_ok in E1 as (run & t & _ & _ & [[-> _]|(_ & -> & Hn & _)]); cbn; [lia|].
    rewrite attempts_of_insert by (try done; congruence). lia.
  - by eapply claim_attempts.
  - apply heartbeat_ok in E1 as (t & _ & _ & E1). erewrite attempts_of_fenced; [| |exact E1]; cbn; [lia|done].
  - apply complete_ok in E1 as (t & _ & E1). erewrite attempts_of_fenced; [| |exact E1]; cbn; [lia|done].
  - apply fail_ok in E1 as (t & _ & _ & E1). erewrite attempts_of_fenced; [| |exact E1]; cbn; [lia|done].
  - apply get_ok in E1 as [-> _]. cbn; lia.
Qed.

Lemma attempts_of_bounds id db : 1 <= max -> db_wf max db -> 0 <= attempts_of id db <= max.
Proof.
  intros Hmax Hwf. unfold attempts_of. destruct (db_jobs db !! id) as [row|] eqn:E; [|lia].
  apply (wf_rows _ _ Hwf) in E as (p & Hp & Hb & _).
  replace (row_attempts row) with (phase_attempts p); [done|].
  revert Hp. unfold phase_of. repeat case_match; try done; by intros [= <-].
Qed.

Lemma exec_all_attempts id h db :
  1 <= max -> db_wf max db -> uuid_ok id -> Forall (fun ec => uuid_ok (env_uuid ec.1)) h ->
  attempts_of id (snd (exec_all self h db))
  = attempts_of id db + countb (grants id) (fst (exec_all self h db)).
Proof.
  intros Hmax Hwf Hid Hh. revert db Hwf; induction h as [|[e c] h IH]; intros db Hwf;
    cbn; [lia|]. apply Forall_cons in Hh as [He Hh].
  pose proof (exec_wf e c db Hmax Hwf He) as H1.
  pose proof (exec_attempts id e c db Hwf Hid) as H2.
  destruct (exec self e c db) as [r db1]. cbn [fst snd] in *. specialize (IH Hh db1 H1).
  destruct (exec_all self h db1) as [rs db2]. cbn [fst snd] in *. cbn [countb]. lia.
Qed.
End calls.

(** ** Stale leases *)

(** The call uses the lease of job [j] with token [tok]. *)
Definition call_lease {R} (c : call R) : option RunJobLease :=
  match c with
  | CHeartbeat l _ _ _ | CComplete l _ _ | CFail l _ _ _ _ _ => Some l
  | _ => None
  end.

Definition uses_lease {R} (c : call R) (j tok : uuid) : Prop :=
  exists l, call_lease c = Some l /\ parse_uuid (lease_job_id l) = Some j
    /\ parse_uuid (lease_lease_token l) = Some tok.

(** Job [j] is not leased under [tok]. *)
Definition token_gone {R} (j tok : uuid) (db : database R) : Prop :=
  forall row, db_jobs db !! j = Some row -> row_lease_token row <> Some tok.

Section stale.
Context {R : Type} (self : PostgresRunJobQueue).
Implicit Types (db : database R) (e : env).

Lemma token_gone_insert j tok i row db :
  token_gone j tok db -> (i = j -> row_lease_token row <> Some tok) ->
  token_gone j tok (with_jobs (<[i := row]> (db_jobs db)) db).
Proof.
  intros Hg Hr row' H. cbn in H. apply lookup_insert_Some in H as [[-> ->]|[_ H]]; auto.
Qed.

Lemma token_gone_fenced j tok lease w now f db db' b :
  token_gone j tok db -> fenced lease w now f db db' b ->
  (forall row, row_lease_token (f row) = row_lease_token row \/ row_lease_token (f row) = None) ->
  token_gone j tok db'.
Proof.
  intros Hg (i & tok' & _ & _ & [(_ & row & Hrow & _ & ->)|(_ & -> & _)]) Hf; [|done].
  apply token_gone_insert; [done|]. intros ->. destruct (Hf row) as [->| ->]; [|done].
  by apply Hg.
Qed.

Lemma exec_token_gone j tok e (c : call R) db :
  token_gone j tok db -> env_uuid e <> tok -> token_gone j tok (snd (exec self e c db)).
Proof.
  intros Hg Hne. destruct (exec self e c db) as [[r|cl s] db'] eqn:E; cbn;
    [|apply exec_clean in E as ->; done].
  destruct c; cbn in E; unfold fmap, st_fmap in E;
    match type of E with (match ?m with _ => _ end) = _ => destruct m as [[x|] db1] eqn:E1 end;
    try done; injection E as <- <-.
  - apply enqueue_at_ok in E1 as (run & t & _ & _ & [[-> _]|(_ & -> & Hn & _)]); [done|].
    by apply token_gone_insert.
  - apply claim_ok in E1 as (t & _ & _ & E1). cbn zeta in E1.
    assert (token_gone j tok (with_jobs (_expire_exhausted_jobs_statement t (max_attempts self)
      (db_jobs db)) db)) as Hx.
    { intros row. cbn. rewrite lookup_expire.
      destruct (db_jobs db !! j) as [r0|] eqn:Er; [|done]. intros [= <-].
      destruct (exhausted _ _ r0); [done | by apply Hg]. }
    destruct (_claim_statement _ _ _ _) as [[i row]|]; destruct E1 as [-> ->]; [|done].
    intros row' H. cbn in H. apply lookup_insert_Some in H as [[_ <-]|[_ H]].
    + cbn. congruence.
    + by apply Hx.
  - apply heartbeat_ok in E1 as (t & _ & _ & E1). eapply token_gone_fenced; [done|exact E1|]. by left.
  - apply complete_ok in E1 as (t & _ & E1). eapply token_gone_fenced; [done|exact E1|]. by right.
  - apply fail_ok in E1 as (t & _ & _ & E1). eapply token_gone_fenced; [done|exact E1|]. by right.
  - by apply get_ok in E1 as [-> _].
Qed.

Lemma exec_all_token_gone j tok h db :
  token_gone j tok db -> Forall (fun ec => env_uuid ec.1 <> tok) h ->
  token_gone j tok (snd (exec_all self h db)).
Proof.
  intros Hg Hh. revert db Hg; induction h as [|[e c] h IH]; intros db Hg; cbn; [done|].
  apply Forall_cons in Hh as [He Hh]. pose proof (exec_token_gone j tok e c db Hg He) as H1.
  destruct (exec self e c db) as [r db1]. specialize (IH Hh db1 H1).
  by destruct (exec_all self h db1).
Qed.

Lemma fenced_token_gone j tok lease w now f db db' b :
  token_gone j tok db -> parse_uuid (lease_job_id lease) = Some j ->
  parse_uuid (lease_lease_token lease) = Some tok ->
  fenced lease w now f db db' b -> b = false /\ db' = db.
Proof.
  intros Hg Hj Ht (i & tok' & Hi & Ht' & [(_ & row & Hrow & Hh & _)|(-> & -> & _)]); [|done].
  rewrite Hj in Hi. injection Hi as <-. rewrite Ht in Ht'. injection Ht' as <-.
  destruct Hh as (_ & _ & Htok & _). by apply Hg in Hrow.
Qed.

Lemma exec_stale j tok e (c : call R) db :
  token_gone j tok db -> uses_lease c j tok ->
  snd (exec self e c db) = db /\
  (fst (exec self e c db) = Ok (RBool false) \/ is_ok (fst (exec self e c db)) = false).
Proof.
  intros Hg (l & Hl & Hj & Ht). destruct (exec self e c db) as [[r|cl s] db'] eqn:E; cbn;
    [|apply exec_clean in E as ->; auto].
  destruct c; cbn in Hl, E; try done; injection Hl as ->; unfold fmap, st_fmap in E;
    match type of E with (match ?m with _ => _ end) = _ => destruct m as [[x|] db1] eqn:E1 end;
    try done; injection E as <- <-.
  - apply heartbeat_ok in E1 as (t & _ & _ & E1). eapply fenced_token_gone in E1 as [-> ->]; eauto.
  - apply complete_ok in E1 as (t & _ & E1). eapply fenced_token_gone in E1 as [-> ->]; eauto.
  - apply fail_ok in E1 as (t & _ & _ & E1). eapply fenced_token_gone in E1 as [-> ->]; eauto.
Qed.
End stale.

(** ** Exceptions *)

(** What a call may raise. *)
Definition queue_error (c : exn_class) : Prop :=
  c = ValueError \/ c = OverflowError \/ c = RunJobQueueError.
(** What the body of a transaction may raise. *)
Definition database_error (c : exn_class) : Prop :=
  queue_error c \/ c = SQLAlchemyError \/ c = IntegrityError.

Lemma queue_error_value : queue_error ValueError.
Proof. by left. Qed.
Lemma queue_error_database c : queue_error c -> database_error c.
Proof. by left. Qed.

Section exceptions.
Context {R : Type}.
Implicit Types (db : database R) (e : env).

Lemma raises_dt_checked (P : exn_class -> Prop) t :
  P OverflowError -> raises_res P (dt_checked t).
Proof. intros HP c s. unfold dt_checked. case_match; [done|]. by intros [= <- _]. Qed.

Lemma raises_normalize e now : raises_res queue_error (_normalize_now e now).
Proof.
  unfold _normalize_now, as_utc. case_match; [|apply raises_ok].
  apply raises_dt_checked. right; by left.
Qed.

Lemma raises_validate_alias v a : raises_res queue_error (_validate_alias v a).
Proof. intros c s. unfold _validate_alias. case_match; [|done]. intros [= <- _]. by left. Qed.

Lemma raises_active_lease (P : exn_class -> Prop) lease w now :
  P ValueError -> raises_res P (_active_lease_conditions lease w now).
Proof. intros HP. unfold _active_lease_conditions, _parse_uuid. auto 10 with voxbench. Qed.

Lemma raises_db_access e : raises (S := database R) database_error (db_access e).
Proof.
  unfold db_access. case_match; [|apply raises_mret]. apply raises_throw. right; by left.
Qed.

Lemma raises_queue_transaction {A} (m : st (database R) A) :
  raises database_error m -> raises queue_error (queue_transaction m).
Proof.
  intros Hm s c e s'. unfold queue_transaction, catch, transaction.
  destruct (m s) as [[a|c1 e1] s1] eqn:E; [done|]. apply Hm in E.
  destruct E as [[->|[->| ->]]|[->| ->]]; cbn; intros [= <- _ _]; unfold queue_error; auto.
Qed.

Lemma raises_insert_job id row :
  raises (S := database R) (fun c => c = IntegrityError) (insert_job id row).
Proof. intros s c e s'. unfold insert_job. case_match; [|done]. by intros [= <- _ _]. Qed.

Lemma exec_raises self e (c : call R) : raises queue_error (exec self e c).
Proof.
  assert (database_error ValueError) as HV by (by left; left).
  assert (database_error OverflowError) as HO by (left; right; by left).
  assert (queue_error OverflowError) as HO' by (right; by left).
  pose proof queue_error_value as HV'. pose proof raises_normalize as Hn.
  pose proof raises_validate_alias as Hal. pose proof (raises_dt_checked database_error) as Hdt.
  pose proof (raises_dt_checked queue_error) as Hdt'. pose proof raises_db_access as Hdb.
  destruct c; cbn; apply raises_fmap;
    unfold enqueue_at, claim, heartbeat, complete, fail, get, _validate_lease_seconds,
      _parse_uuid, dt_add;
    repeat (apply raises_bind; [apply raises_lift; auto with voxbench|intros ?]);
    apply raises_queue_transaction;
    repeat (apply raises_bind;
      [auto using raises_active_lease with voxbench|intros ?]); auto with voxbench.
  - case_match; [auto with voxbench|]. intros s c e' s'. unfold catch.
    destruct ((insert_job _ _ ≫= _) s) as [[?|c1 e1] s1] eqn:E; [done|].
    assert (c1 = IntegrityError) as ->.
    { revert E. apply (raises_bind (fun c => c = IntegrityError)).
      - apply raises_insert_job.
      - intros ?. apply raises_mret. }
    unfold mbind, st_bind, get_state, throw, mret, st_ret.
    case_match; [done|]. intros [= <- _ _]. by right; right.
  - case_match; [|auto with voxbench]. case_match. auto with voxbench.
  - case_match; [|auto with voxbench]. case_match. auto with voxbench.
Qed.

Lemma exec_fault self e (c : call R) : env_fault e = true -> diverts (exec self e c).
Proof.
  intros Hf. assert (diverts (S := database R) (db_access e)) as Hdb.
  { unfold db_access. rewrite Hf. apply diverts_throw. }
  assert (forall A (m : st (database R) A), diverts m -> diverts (queue_transaction m)) as Ht.
  { intros A m Hm. apply diverts_catch; [by apply diverts_transaction|].
    intros cl s. destruct cl; apply diverts_throw. }
  destruct c; cbn; apply diverts_fmap; repeat (apply diverts_bind_r; intros ?);
    apply Ht; repeat (apply diverts_bind_l, Hdb || (apply diverts_bind_r; intros ?)).
Qed.
End exceptions.

(** ** Properties of the queue *)

(** C4. Whatever calls arrive in whatever order, a queue that starts with an
    empty job table keeps a well-formed one: every row is in one phase with
    the columns of that phase, attempts stay between 0 and the limit (at least
    1 while leased), at most one job exists per run, and its run exists. *)
Theorem queue_histories_well_formed {R} m self (runs : gmap uuid R) (h : list (env * call R)) :
  make_queue m = Ok self -> Forall (fun ec => uuid_ok (env_uuid ec.1)) h ->
  db_wf m (snd (exec_all self h (MkDatabase runs ∅))).
Proof.
  unfold make_queue. intros H Hh. simpl_res. bool_to_prop.
  apply (exec_all_wf (MkPostgresRunJobQueue m)); [cbn; lia| |done].
  by constructor; cbn; intros *; rewrite lookup_empty.
Qed.

(** C2. Every successful call moves every job along the life cycle of
    [job_step] (or inserts it in the first phase); in particular a completed
    or failed job never changes again. *)
Theorem calls_follow_life_cycle {R} self e (c : call R) db r db' t :
  db_wf (max_attempts self) db -> exec self e c db = (Ok r, db') ->
  _normalize_now e (call_now c) = Ok t ->
  forall id, row_evolves (max_attempts self) t (db_jobs db !! id) (db_jobs db' !! id)
    /\ forall row p, db_jobs db !! id = Some row -> phase_of row = Some p -> terminal p = true ->
         db_jobs db' !! id = Some row.
Proof.
  intros Hwf H Ht id. pose proof (exec_evolves self e c db r db' t id Hwf H Ht) as Hev.
  split; [done|]. intros row p Hrow Hp Hterm. rewrite Hrow in Hev.
  destruct Hev as [[->|(? & ? & p1 & p2 & [= <-] & _ & _ & Hp1 & _ & Hs)]|(? & ? & _)]; [done| |done].
  rewrite Hp in Hp1. injection Hp1 as <-. by destruct Hs.
Qed.

(** The job behind a new lease. *)
Lemma claimed_row {R} self e w secs now (db : database R) lease db' :
  claim self e w secs now db = (Ok (Some lease), db') ->
  exists id row old u, db_jobs db !! id = Some old /\ lease_job_id lease = uuid_str id
    /\ db_jobs db' !! id = Some (lease_row w (env_uuid e) u row).
Proof.
  intros (t & _ & _ & H)%claim_ok. cbn zeta in H.
  destruct (_claim_statement _ _ _ _) as [[id row]|] eqn:Ecl; destruct H as [Hl ->]; [|done]. injection Hl as ->.
  apply claim_statement_some in Ecl as (Hid & _). rewrite lookup_expire in Hid.
  destruct (db_jobs db !! id) as [old|] eqn:Eo; [|done].
  exists id, row, old, (t + seconds secs). split_and!; [done|done|]. cbn. by rewrite lookup_insert_eq.
Qed.

(** A job that may be leased: attempts are left, and it is queued and available
    or its lease has ended. *)
Definition waiting (t : instant) (max : Z) (row : RunJobRow) : Prop :=
  row_attempts row < max
  /\ (row_state row = queued /\ row_available_at row <= t
      \/ row_state row = leased /\ exists x, row_lease_expires_at row = Some x /\ x <= t).

(** A job that no attempt is left for, and that nobody works on. *)
Definition spent (t : instant) (max : Z) (row : RunJobRow) : Prop :=
  max <= row_attempts row
  /\ (row_state row = queued \/ row_state row = leased /\ exists x, row_lease_expires_at row = Some x /\ x <= t).

Definition queued_before (x y : uuid * RunJobRow) : Prop :=
  row_available_at x.2 < row_available_at y.2
  \/ row_available_at x.2 = row_available_at y.2
     /\ (row_created_at x.2 < row_created_at y.2
         \/ row_created_at x.2 = row_created_at y.2 /\ x.1 <= y.1).

Lemma expired_at_spec t row : expired_at t row = true <-> exists x, row_lease_expires_at row = Some x /\ x <= t.
Proof.
  unfold expired_at. destruct (row_lease_expires_at row) as [x|]; [|naive_solver].
  rewrite Z.leb_le. naive_solver.
Qed.

Lemma claimable_spec t max row : claimable t max row = true <-> waiting t max row.
Proof.
  unfold claimable, waiting.
  by rewrite andb_true_iff, orb_true_iff, !andb_true_iff, !bool_decide_eq_true, expired_at_spec, Z.ltb_lt, Z.leb_le.
Qed.

Lemma exhausted_spec t max row : exhausted t max row = true <-> spent t max row.
Proof.
  unfold exhausted, spent.
  by rewrite andb_true_iff, orb_true_iff, !andb_true_iff, !bool_decide_eq_true, expired_at_spec, Z.leb_le.
Qed.

Lemma waiting_not_spent t max row : waiting t max row -> ~ spent t max row.
Proof. unfold waiting, spent. lia. Qed.

(** The expiry changes the jobs that are spent, and no job that is waiting. *)
Lemma expire_spent t max (jobs : gmap uuid RunJobRow) id row : jobs !! id = Some row -> spent t max row ->
  _expire_exhausted_jobs_statement t max jobs !! id = Some (expire_row row).
Proof. intros Hr Hs%exhausted_spec. by rewrite lookup_expire, Hr; cbn; rewrite Hs. Qed.

Lemma expire_others t max (jobs : gmap uuid RunJobRow) id row : jobs !! id = Some row -> ~ spent t max row ->
  _expire_exhausted_jobs_statement t max jobs !! id = Some row.
Proof.
  intros Hr Hs. rewrite lookup_expire, Hr. cbn. destruct (exhausted t max row) eqn:E; [|done].
  by apply exhausted_spec in E.
Qed.

Lemma expire_waiting t max (jobs : gmap uuid RunJobRow) id row :
  _expire_exhausted_jobs_statement t max jobs !! id = Some row /\ claimable t max row = true
  <-> jobs !! id = Some row /\ waiting t max row.
Proof.
  rewrite claimable_spec. split; intros [Hr Hw]; (split; [|done]); [|by apply expire_others, waiting_not_spent].
  rewrite lookup_expire in Hr. destruct (jobs !! id) as [old|]; [|done]. cbn in Hr.
  destruct (exhausted t max old); [|done]. injection Hr as <-. destruct Hw as [_ [[? _]|[? _]]]; done.
Qed.

(** C5. A successful [claim] leases the first waiting job that no other
    transaction has locked, in the order of availability, creation and id: its
    row gets the worker, a fresh token, the end of the lease and one more
    attempt, which the answer tells; [None] is answered only when no unlocked
    job is waiting.  Every job that is spent becomes failed with the alias of
    an exhausted limit and without a lease; every other row, and the runs, stay
    as they are. *)
Theorem claim_takes_first_claimable {R} self e w secs now (db : database R) l db' t :
  claim self e w secs now db = (Ok l, db') -> _normalize_now e now = Ok t ->
  let max := max_attempts self in
  let expires := t + secs * 1000000 in
  (match l with
   | Some lease => exists id row,
       db_jobs db !! id = Some row /\ waiting t max row /\ (id ∉ env_locked e)
       /\ lease = MkRunJobLease (uuid_str id) (uuid_str (row_run_id row)) (uuid_str (env_uuid e))
                    (row_attempts row + 1) expires (max <=? row_attempts row + 1)
       /\ db_jobs db' !! id = Some (MkRunJobRow (row_run_id row) leased (row_available_at row) (row_created_at row)
                                     (Some w) (Some (env_uuid e)) (Some expires) (row_attempts row + 1) None)
       /\ (forall id2 row2, db_jobs db !! id2 = Some row2 -> (id2 ∉ env_locked e) -> waiting t max row2 ->
            queued_before (id, row) (id2, row2))
       /\ (forall id2 row2, id2 <> id -> db_jobs db !! id2 = Some row2 -> ~ spent t max row2 -> db_jobs db' !! id2 = Some row2)
   | None =>
       (forall id row, db_jobs db !! id = Some row -> (id ∉ env_locked e) -> ~ waiting t max row)
       /\ (forall id row, db_jobs db !! id = Some row -> ~ spent t max row -> db_jobs db' !! id = Some row)
   end)
  /\ (forall id row, db_jobs db !! id = Some row -> spent t max row ->
       db_jobs db' !! id = Some (MkRunJobRow (row_run_id row) failed (row_available_at row) (row_created_at row)
                                  None None None (row_attempts row) (Some "attempt-limit-exhausted")))
  /\ dom (db_jobs db') = dom (db_jobs db) /\ db' = with_jobs (db_jobs db') db.
Proof.
  intros (t' & Ht' & Hs & H)%claim_ok Ht. rewrite Ht in Ht'. injection Ht' as <-. cbv zeta in *.
  set (max := max_attempts self) in *. set (jobs := _expire_exhausted_jobs_statement t max (db_jobs db)) in *.
  assert (dom jobs = dom (db_jobs db)) as Hdom
    by (apply set_eq; intros id; unfold jobs; rewrite !elem_of_dom, lookup_expire, fmap_is_Some; done).
  destruct (_claim_statement t max (env_locked e) jobs) as [[id row]|] eqn:Ecl; destruct H as [-> ->]; cbn [with_jobs db_jobs].
  - pose proof Ecl as (Hid & Hcl & Hlock)%claim_statement_some.
    destruct (proj1 (expire_waiting _ _ _ _ _) (conj Hid Hcl)) as [Hrow Hw]. split_and!.
    + exists id, row. split_and!; try done; [by rewrite lookup_insert_eq| |].
      * intros id2 row2 Hr2 Hl2 Hw2. destruct (proj2 (expire_waiting t max _ _ _) (conj Hr2 Hw2)) as [Hr2' Hc2].
        apply claim_le_spec. by eapply claim_statement_first.
      * intros id2 row2 Hne Hr2 Hn. rewrite lookup_insert_ne by done. by apply expire_others.
    + intros id2 row2 Hr2 Hsp. rewrite lookup_insert_ne; [by apply (expire_spent t max)|].
      intros <-. rewrite Hrow in Hr2. injection Hr2 as <-. by eapply waiting_not_spent.
    + rewrite dom_insert_lookup_L by (by rewrite Hid). done.
    + done.
  - split_and!; [| |by apply expire_spent|done|done].
    + intros id row Hr Hl Hw. destruct (proj2 (expire_waiting t max _ _ _) (conj Hr Hw)) as [Hr' Hc].
      erewrite claim_statement_none in Hc; done.
    + intros id row. apply expire_others.
Qed.

(** Over any history of calls a job is leased at most [max_attempts]
    times in all, counting the attempts its row already records. *)
Theorem job_leases_bounded {R} self id (h : list (env * call R)) db :
  1 <= max_attempts self -> db_wf (max_attempts self) db -> uuid_ok id ->
  Forall (fun ec => uuid_ok (env_uuid ec.1)) h ->
  attempts_of id db + countb (grants id) (fst (exec_all self h db)) <= max_attempts self.
Proof.
  intros Hmax Hwf Hid Hh. rewrite <- exec_all_attempts by done.
  apply attempts_of_bounds; [done|]. by apply exec_all_wf.
Qed.

(** C1. Once [claim] has leased a job anew, an older lease of that job never
    succeeds again: whatever calls come in between, a heartbeat, completion
    or failure under the old token leaves the database as it is and answers
    [false] or raises. *)
Theorem reclaimed_lease_is_fenced {R} self e w secs now (db : database R) lease db1 j tok h e2 c :
  db_wf (max_attempts self) db -> uuid_ok j ->
  claim self e w secs now db = (Ok (Some lease), db1) -> lease_job_id lease = uuid_str j ->
  env_uuid e <> tok -> Forall (fun ec => env_uuid ec.1 <> tok) h ->
  uses_lease c j tok ->
  let db2 := snd (exec_all self h db1) in
  snd (exec self e2 c db2) = db2
  /\ (fst (exec self e2 c db2) = Ok (RBool false) \/ is_ok (fst (exec self e2 c db2)) = false).
Proof.
  intros Hwf Hj Hcl Hid Hne Hh Hc db2. apply (exec_stale self j tok); [|done].
  apply exec_all_token_gone; [|done].
  apply claimed_row in Hcl as (id & row & old & u & Hrow & Hl & Hnew). rewrite Hl in Hid.
  assert (id = j) as ->.
  { apply (f_equal parse_uuid) in Hid. rewrite !parse_uuid_str in Hid by eauto using wf_ids. congruence. }
  intros row' Hr'. rewrite Hnew in Hr'. injection Hr' as <-. cbn. congruence.
Qed.

(** [enqueue] creates at most one job per run, even when another
    transaction enqueues the run between its query and its insertion: it
    returns the identifier of a job of that run, and enqueueing the run again
    returns the same identifier and changes nothing. *)
Theorem enqueue_is_idempotent {R} max seen e run_id now (db : database R) r db' :
  db_wf max db -> uuid_ok (env_uuid e) ->
  (forall id row, db_jobs seen !! id = Some row ->
     exists row', db_jobs db !! id = Some row' /\ row_run_id row' = row_run_id row) ->
  enqueue_at seen e run_id now db = (Ok r, db') ->
  exists run id row, parse_uuid run_id = Some run /\ r = uuid_str id
    /\ db_jobs db' !! id = Some row /\ row_run_id row = run
    /\ forall e2 now2 t2, env_fault e2 = false -> _normalize_now e2 now2 = Ok t2 ->
         enqueue e2 run_id now2 db' = (Ok r, db').
Proof.
  intros Hwf Hu Hseen (run & t & Hrun & _ & H)%enqueue_at_ok. exists run.
  assert (exists id row, r = uuid_str id /\ db_jobs db' !! id = Some row /\ row_run_id row = run
    /\ forall j s, db_jobs db' !! j = Some s -> row_run_id s = run -> j = id) as
    (id & row & -> & Hrow & Hr & Huniq).
  { destruct H as [(-> & id & row & -> & <- & [Hs|Hd])|(-> & -> & Hn & Hno & Hfk)].
    - destruct (Hseen _ _ Hs) as (row' & Hrow' & <-). exists id, row'. split_and!; [done..|].
      intros. by eapply wf_unique.
    - exists id, row. split_and!; [done..|]. intros. by eapply wf_unique.
    - exists (env_uuid e). eexists. cbn. rewrite lookup_insert_eq. split_and!; [done..|].
      intros j s [[<- _]|[_ Hj]]%lookup_insert_Some; [done|]. intros Hs.
      exfalso. by eapply job_of_run_none. }
  exists id, row. split_and!; [done..|]. intros e2 now2 t2 Hf Ht2.
  unfold enqueue, enqueue_at, _parse_uuid, from_option_err. rewrite Hrun.
  unfold mbind, st_bind, lift. cbn -[queue_transaction job_of_run]. rewrite Ht2.
  unfold queue_transaction, catch, transaction, db_access. rewrite Hf. cbn -[job_of_run].
  destruct (job_of_run run (db_jobs db')) as [[j s]|] eqn:E.
  - pose proof E as [Hj Hs]%job_of_run_some. cbn in *. by rewrite (Huniq _ _ Hj Hs).
  - by eapply job_of_run_none in E.
Qed.

(** A call that raises leaves the database as it was, and raises
    [ValueError] or [OverflowError] for its arguments or [RunJobQueueError]
    for a failure of the database; it never returns when the database fails. *)
Theorem failing_calls_roll_back {R} self e (c : call R) db r db' :
  exec self e c db = (r, db') ->
  (forall cl s, r = Raise cl s -> db' = db /\ queue_error cl)
  /\ (env_fault e = true -> is_ok r = false).
Proof.
  intros H. split.
  - intros cl s ->. split; [by eapply exec_clean | by eapply exec_raises].
  - intros Hf. assert (diverts (exec self e c)) as Hd by (by apply exec_fault).
    specialize (Hd db). by rewrite H in Hd.
Qed.

(** [fail] and [complete] as updates of the row of the job. *)
Lemma fail_and_complete_rows {R} self e lease w alias retryable delay now (db : database R)
    j tok t row :
  _validate_alias w "run-job-worker-id-invalid" = Ok tt ->
  _validate_alias alias "run-job-failure-alias-invalid" = Ok tt ->
  0 <= delay <= _MAX_RETRY_DELAY_SECONDS ->
  _normalize_now e now = Ok t -> t + seconds delay <= dt_max -> dt_min <= t ->
  parse_uuid (lease_job_id lease) = Some j -> parse_uuid (lease_lease_token lease) = Some tok ->
  env_fault e = false -> db_jobs db !! j = Some row ->
  (holds row w tok t ->
     fail self e lease w alias retryable delay now db =
       (Ok true, with_jobs (<[j := fail_row (retryable && (row_attempts row <? max_attempts self))
                                     (t + seconds delay) alias row]> (db_jobs db)) db)
     /\ complete e lease w now db =
       (Ok true, with_jobs (<[j := complete_row row]> (db_jobs db)) db))
  /\ (~ holds row w tok t ->
     fail self e lease w alias retryable delay now db = (Ok false, db)
     /\ complete e lease w now db = (Ok false, db)).
Proof.
  intros Hw Hal Hd Ht Hmax Hmin Hj Htok Hf Hrow.
  assert (exists p, _active_lease_conditions lease w t = Ok p) as [p Hp].
  { unfold _active_lease_conditions, _parse_uuid, from_option_err. rewrite Hj, Htok. by eexists. }
  assert (fail self e lease w alias retryable delay now db =
    (match select_row p (db_jobs db) with
     | None => (Ok false, db)
     | Some (id, r) => (Ok true, with_jobs (<[id := fail_row
          (retryable && (row_attempts r <? max_attempts self)) (t + seconds delay) alias r]>
          (db_jobs db)) db) end)) as ->.
  { unfold fail, guard_else, mbind, st_bind, lift. rewrite Hw, Hal.
    rewrite (proj2 (Z.leb_le 0 delay)), (proj2 (Z.leb_le delay _)) by lia. cbn [andb].
    rewrite Ht. unfold queue_transaction, catch, transaction, db_access, throw. rewrite Hp, Hf.
    cbn. destruct (select_row p (db_jobs db)) as [[id r]|]; [|done].
    unfold dt_add, dt_checked, dt_in_range. unfold seconds in *.
    rewrite (proj2 (Z.leb_le dt_min (t + delay * 1000000))), (proj2 (Z.leb_le _ dt_max)) by lia. done. }
  assert (complete e lease w now db =
    (Ok (rowcount p (db_jobs db) =? 1),
     with_jobs (update_rows p complete_row (db_jobs db)) db)) as ->.
  { unfold complete, mbind, st_bind, lift. rewrite Hw, Ht.
    unfold queue_transaction, catch, transaction, db_access, throw. by rewrite Hp, Hf. }
  apply active_lease_conditions_ok in Hp as (j' & tok' & Hj' & Htok' & Hp).
  rewrite Hj in Hj'. rewrite Htok in Htok'. injection Hj' as <-. injection Htok' as <-.
  assert (forall id row, p id row = true -> id = j) as Hu by (intros ? ? [? _]%Hp; done).
  rewrite (rowcount_unique p _ j Hu), (update_rows_unique p _ _ j Hu), Hrow. split; intros Hh.
  - rewrite (proj2 (Hp j row)) by done. split; [|done].
    destruct (select_row p (db_jobs db)) as [[id r]|] eqn:E.
    + apply select_row_some in E as [E1 E2]. cbn in *. apply Hu in E2 as ->. congruence.
    + eapply select_row_none in E; [|exact Hrow]. assert (p j row = true) by (by apply Hp). congruence.
  - destruct (p j row) eqn:Ep; [by apply Hp in Ep as [_ ?]|].
    destruct (select_row p (db_jobs db)) as [[id r]|] eqn:E.
    + apply select_row_some in E as [E1 E2]. cbn in *. pose proof E2 as ->%Hu. congruence.
    + split; [done|]. by rewrite with_jobs_same.
Qed.

(** C10. On valid arguments and a working database, [fail] answers [true]
    exactly when the job's row still holds the lease.  It then releases the
    lease and keeps the alias and the attempts: the job is queued again, and
    not available before the retry delay is over, when the failure is retryable
    and attempts remain, and is failed otherwise.  [complete] answers [true] in
    the same case, and then the job is completed, without lease or alias.  No
    other row changes, and none at all when the lease is not held. *)
Theorem fail_and_complete_decide {R} self e lease w alias retryable delay now (db : database R)
    j tok t row :
  _validate_alias w "run-job-worker-id-invalid" = Ok tt ->
  _validate_alias alias "run-job-failure-alias-invalid" = Ok tt ->
  0 <= delay <= _MAX_RETRY_DELAY_SECONDS ->
  _normalize_now e now = Ok t -> t + seconds delay <= dt_max -> dt_min <= t ->
  parse_uuid (lease_job_id lease) = Some j -> parse_uuid (lease_lease_token lease) = Some tok ->
  env_fault e = false -> db_jobs db !! j = Some row ->
  let released state available failure :=
    with_jobs (<[j := MkRunJobRow (row_run_id row) state available (row_created_at row) None None None
                        (row_attempts row) failure]> (db_jobs db)) db in
  let failing := fail self e lease w alias retryable delay now db in
  (holds row w tok t -> retryable = true -> row_attempts row < max_attempts self ->
     failing = (Ok true, released queued (t + delay * 1000000) (Some alias)))
  /\ (holds row w tok t -> retryable = false \/ max_attempts self <= row_attempts row ->
     failing = (Ok true, released failed (t + delay * 1000000) (Some alias)))
  /\ (holds row w tok t -> complete e lease w now db = (Ok true, released completed (row_available_at row) None))
  /\ (~ holds row w tok t -> failing = (Ok false, db) /\ complete e lease w now db = (Ok false, db)).
Proof.
  intros Hw Hal Hd Ht Hmax Hmin Hj Htok Hf Hrow released failing.
  destruct (fail_and_complete_rows self e lease w alias retryable delay now db j tok t row
    Hw Hal Hd Ht Hmax Hmin Hj Htok Hf Hrow) as [Hh Hn]. split_and!.
  - intros Hold -> Hlt. destruct (Hh Hold) as [E _]. unfold failing. rewrite E, (proj2 (Z.ltb_lt _ _) Hlt). reflexivity.
  - intros Hold Hor. destruct (Hh Hold) as [E _]. unfold failing. rewrite E.
    assert (retryable && (row_attempts row <? max_attempts self) = false) as -> by (destruct Hor; [by subst|]; apply andb_false_iff; lia).
    reflexivity.
  - intros Hold. apply (Hh Hold).
  - intros Hnot. apply (Hn Hnot).
Qed.

(** ** Concrete runs *)

Definition sample_queue : PostgresRunJobQueue := MkPostgresRunJobQueue 2.
Definition sample_env (now : Z) (u : uuid) : env := MkEnv now u ∅ false.
Definition sample_database : database unit := MkDatabase {[ 7 := tt ]} ∅.
Definition sample_history : list (env * call unit) :=
  [ (sample_env 10 100, CEnqueue sample_database (uuid_str 7) None);
    (sample_env 20 200, CClaim "worker-1" 60 None);
    (sample_env (seconds 70) 300, CClaim "worker-2" 60 None) ].
Definition sample_lease : RunJobLease :=
  MkRunJobLease (uuid_str 100) (uuid_str 7) (uuid_str 200) 1 60000020 false.
Definition sample_leased : database unit := snd (exec_all sample_queue (take 2 sample_history) sample_database).

Lemma sample_leased_wf : db_wf 2 sample_leased.
Proof.
  unfold sample_leased. apply (exec_all_wf sample_queue); [done| |].
  - constructor; cbn; intros *; by rewrite lookup_empty.
  - solve_uuids.
Defined.

Lemma queue_histories_well_formed_witness :
  db_wf 2 (snd (exec_all sample_queue sample_history sample_database)).
Proof.
  apply (queue_histories_well_formed 2 sample_queue).
  - reflexivity.
  - solve_uuids.
Defined.

Lemma calls_follow_life_cycle_witness :
  row_evolves 2 (seconds 70) (db_jobs sample_leased !! 100)
    (db_jobs (snd (exec sample_queue (sample_env (seconds 70) 300)
      (CClaim "worker-2" 60 None) sample_leased)) !! 100).
Proof.
  eapply (calls_follow_life_cycle sample_queue (sample_env (seconds 70) 300)
    (CClaim "worker-2" 60 None)); [exact sample_leased_wf | vm_compute; reflexivity | reflexivity].
Defined.

Lemma claim_takes_first_claimable_witness :
  exists id row, db_jobs sample_leased !! id = Some row
    /\ waiting (seconds 70) 2 row /\ row_attempts row + 1 = 2.
Proof.
  destruct (claim_takes_first_claimable sample_queue (sample_env (seconds 70) 300) "worker-2" 60
    None sample_leased (Some (MkRunJobLease (uuid_str 100) (uuid_str 7) (uuid_str 300) 2
    (seconds 130) true)) (snd (claim sample_queue (sample_env (seconds 70) 300) "worker-2" 60 None sample_leased)) (seconds 70)
    ltac:(vm_compute; reflexivity) ltac:(reflexivity)) as [(id & row & Hrow & Hw & _ & Hl & _) _].
  exists id, row. split_and!; [exact Hrow | exact Hw |]. apply (f_equal lease_attempt) in Hl.
  symmetry. exact Hl.
Defined.

Lemma job_leases_bounded_witness :
  attempts_of 100 sample_leased
  + countb (grants 100) (fst (exec_all sample_queue (drop 2 sample_history) sample_leased)) <= 2.
Proof.
  apply (job_leases_bounded sample_queue 100);
    [done | exact sample_leased_wf | solve_uuid | solve_uuids].
Defined.

Lemma reclaimed_lease_is_fenced_witness :
  let db1 := snd (claim sample_queue (sample_env (seconds 70) 300) "worker-2" 60 None sample_leased) in
  snd (exec sample_queue (sample_env (seconds 71) 400) (CComplete sample_lease "worker-1" None) db1) = db1.
Proof.
  eapply (reclaimed_lease_is_fenced sample_queue (sample_env (seconds 70) 300) "worker-2" 60 None
    sample_leased _ _ 100 200 [] (sample_env (seconds 71) 400)).
  - exact sample_leased_wf.
  - solve_uuid.
  - vm_compute; reflexivity.
  - vm_compute; reflexivity.
  - done.
  - constructor.
  - exists sample_lease. split_and!; vm_compute; reflexivity.
Defined.

Lemma enqueue_is_idempotent_witness :
  exists run id row, parse_uuid (uuid_str 7) = Some run /\ uuid_str 100 = uuid_str id
    /\ db_jobs sample_leased !! id = Some row /\ row_run_id row = run
    /\ forall e2 now2 t2, env_fault e2 = false -> _normalize_now e2 now2 = Ok t2 ->
         enqueue e2 (uuid_str 7) now2 sample_leased = (Ok (uuid_str 100), sample_leased).
Proof.
  eapply (enqueue_is_idempotent 2 sample_database (sample_env 30 500) (uuid_str 7) None sample_leased).
  - exact sample_leased_wf.
  - solve_uuid.
  - cbn. intros id row H. by rewrite lookup_empty in H.
  - vm_compute; reflexivity.
Defined.

Lemma failing_calls_roll_back_witness :
  snd (exec sample_queue (MkEnv 0 0 ∅ true) (CGet (uuid_str 100)) sample_leased) = sample_leased.
Proof.
  eapply (failing_calls_roll_back sample_queue (MkEnv 0 0 ∅ true) (CGet (uuid_str 100)) sample_leased);
    [apply surjective_pairing | vm_compute; reflexivity].
Defined.

Lemma sample_lease_held row : db_jobs sample_leased !! 100 = Some row -> holds row "worker-1" 200 (seconds 30).
Proof. vm_compute. intros [= <-]. split_and!; [reflexivity..|]. eexists. split; reflexivity. Qed.

Lemma fail_and_complete_decide_witness :
  exists db', fail sample_queue (sample_env (seconds 30) 400) sample_lease "worker-1" "execution-error"
    true 10 None sample_leased = (Ok true, db') /\ row_state <$> db_jobs db' !! 100 = Some queued.
Proof.
  destruct (db_jobs sample_leased !! 100) as [row|] eqn:Hrow; [|vm_compute in Hrow; discriminate Hrow].
  assert (row_attempts row = 1) as Ha by (vm_compute in Hrow; by injection Hrow as <-).
  destruct (fail_and_complete_decide sample_queue
    (sample_env (seconds 30) 400) sample_lease "worker-1" "execution-error" true 10 None
    sample_leased 100 200 (seconds 30) row eq_refl eq_refl ltac:(vm_compute; split; discriminate) eq_refl
    ltac:(vm_compute; discriminate) ltac:(vm_compute; discriminate) ltac:(vm_compute; reflexivity) ltac:(vm_compute; reflexivity)
    eq_refl Hrow) as [H _].
  eexists. split.
  - apply H; [by apply sample_lease_held|reflexivity|]. rewrite Ha. reflexivity.
  - cbn [with_jobs db_jobs]. by rewrite lookup_insert_eq.
Defined.
