(* ===== verification/JobLiveness.v ===== *)
(** * The job queue serves the jobs that wait

    A measure of the work left in the table [run_jobs] and how the calls of
    [control_plane/job_queue.py] change it: every claim made while some job is
    due uses it up, only [enqueue] adds to it. *)
From S2P Require Import Prelude Effects Collections PyFloat PyData JobQueue.

Open Scope Z_scope.

(** ** Sums over finite maps *)

Definition map_sum {K A} `{Countable K} (f : A -> Z) (m : gmap K A) : Z :=
  map_fold (fun _ x acc => f x + acc) 0 m.

Section sums.
Context {K A : Type} `{Countable K} (f : A -> Z).
Implicit Types m : gmap K A.

Lemma map_sum_empty : map_sum f (∅ : gmap K A) = 0.
Proof. apply map_fold_empty. Qed.

Lemma map_sum_insert m i x : m !! i = None -> map_sum f (<[i := x]> m) = f x + map_sum f m.
Proof.
  intros Hm. unfold map_sum. by rewrite (map_fold_insert_L (fun _ x acc => f x + acc)) by (done || intros; lia).
Qed.

Lemma map_sum_delete m i x : m !! i = Some x -> map_sum f m = f x + map_sum f (delete i m).
Proof.
  intros Hm. rewrite <- (insert_delete_id m i x) at 1 by done. apply map_sum_insert, lookup_delete_eq.
Qed.

(** Entry by entry the sum does not grow. *)
Definition entry_le (a b : option A) : Prop :=
  match a, b with None, None => True | Some x, Some y => f x <= f y | _, _ => False end.

Lemma map_sum_le m1 : forall m2, (forall i, entry_le (m1 !! i) (m2 !! i)) -> map_sum f m1 <= map_sum f m2.
Proof.
  induction m1 as [|i x m1 Hi IH] using map_ind; intros m2 Hm.
  - replace m2 with (∅ : gmap K A); [done|]. symmetry. apply map_eq. intros i. specialize (Hm i).
    rewrite lookup_empty in *. by destruct (m2 !! i).
  - pose proof (Hm i) as Hx. rewrite lookup_insert_eq in Hx. destruct (m2 !! i) as [y|] eqn:Ey; [|done].
    rewrite map_sum_insert, (map_sum_delete m2 i y) by done. cbn in Hx.
    assert (map_sum f m1 <= map_sum f (delete i m2)); [|lia]. apply IH. intros j. specialize (Hm j).
    destruct (decide (j = i)) as [->|Hne]; [by rewrite lookup_delete_eq, Hi|].
    by rewrite lookup_insert_ne in Hm by done; rewrite lookup_delete_ne.
Qed.

Lemma map_sum_lt m1 m2 i x y : (forall j, entry_le (m1 !! j) (m2 !! j)) ->
  m1 !! i = Some x -> m2 !! i = Some y -> f x < f y -> map_sum f m1 < map_sum f m2.
Proof.
  intros Hm Hx Hy Hlt. rewrite (map_sum_delete m1 i x), (map_sum_delete m2 i y) by done.
  assert (map_sum f (delete i m1) <= map_sum f (delete i m2)); [|lia]. apply map_sum_le. intros j.
  destruct (decide (j = i)) as [->|Hne]; [by rewrite !lookup_delete_eq|]. by rewrite !lookup_delete_ne.
Qed.

Lemma map_sum_nonneg m : (forall i x, m !! i = Some x -> 0 <= f x) -> 0 <= map_sum f m.
Proof.
  induction m as [|i x m Hi IH] using map_ind; intros Hm; [by rewrite map_sum_empty|].
  rewrite map_sum_insert by done. pose proof (Hm i x ltac:(by rewrite lookup_insert_eq)).
  assert (0 <= map_sum f m); [|lia]. apply IH. intros j y Hj. apply (Hm j).
  rewrite lookup_insert_ne; [done|]. congruence.
Qed.
End sums.

(** ** The work left *)

(** The moves a job can still make: its attempts and the move that settles it. *)
Definition phase_weight (max : Z) (p : job_phase) : Z :=
  match p with Queued _ a | Leased _ _ _ a => max - a + 1 | Completed _ | Failed _ _ => 0 end.

Definition row_weight (max : Z) (row : RunJobRow) : Z :=
  match phase_of row with Some p => phase_weight max p | None => 0 end.

Definition work_left {R} (max : Z) (db : database R) : Z := map_sum (row_weight max) (db_jobs db).

(** The job waits at [t]: queued and available, or leased and expired. *)
Definition due (t : instant) (row : RunJobRow) : bool :=
  match row_state row with
  | queued => row_available_at row <=? t
  | leased => expired_at t row
  | _ => false
  end.

Definition some_due {R} (t : instant) (locked : gset uuid) (db : database R) : bool :=
  existsb (fun x => due t x.2 && bool_decide (x.1 ∉ locked)) (map_to_list (db_jobs db)).

(** A claim that was answered, and the time it was made at. *)
Definition claim_time {R} (e : env) (c : call R) (r : result reply) : option instant :=
  match c, r with
  | CClaim _ _ now, Ok _ => match _normalize_now e now with Ok t => Some t | Raise _ _ => None end
  | _, _ => None
  end.

Fixpoint claims_made {R} (self : PostgresRunJobQueue) (h : list (env * call R)) (db : database R) : Z :=
  match h with
  | [] => 0
  | (e, c) :: h' =>
      let '(r, db1) := exec self e c db in
      (match claim_time e c r with Some _ => 1 | None => 0 end) + claims_made self h' db1
  end.

(** The claims made while some job waited. *)
Fixpoint due_claims {R} (self : PostgresRunJobQueue) (h : list (env * call R)) (db : database R) : Z :=
  match h with
  | [] => 0
  | (e, c) :: h' =>
      let '(r, db1) := exec self e c db in
      (match claim_time e c r with
       | Some t => if some_due t (env_locked e) db then 1 else 0
       | None => 0
       end) + due_claims self h' db1
  end.

Definition enqueues {R} (h : list (env * call R)) : Z :=
  countb (fun ec => match ec.2 with CEnqueue _ _ _ => true | _ => false end) h.

(** ** How the calls use it up *)

Section work.
Context {R : Type} (self : PostgresRunJobQueue).
Implicit Types (db : database R) (e : env).
Let max := max_attempts self.

Lemma job_step_weight now p p' : job_step max now p p' -> 0 <= phase_attempts p <= max ->
  0 <= phase_weight max p' <= phase_weight max p.
Proof. destruct 1; cbn; lia. Qed.

Lemma row_wf_weight row : row_wf max row -> 0 <= row_weight max row <= max + 1.
Proof. intros (p & Hp & Ha & _). unfold row_weight. rewrite Hp. destruct p; cbn in *; lia. Qed.

Lemma row_moves_entry now r r' : (forall row, r = Some row -> row_wf max row) -> row_moves max now r r' ->
  entry_le (row_weight max) r' r.
Proof.
  intros Hwf [->|(row & row' & p & p' & -> & -> & _ & Hp & Hp' & Hs)]; [by destruct r; cbn|].
  destruct (Hwf _ eq_refl) as (p0 & Hp0 & Ha & _). rewrite Hp in Hp0. injection Hp0 as <-. cbn.
  unfold row_weight. rewrite Hp, Hp'. apply job_step_weight in Hs; [lia|done].
Qed.

Lemma work_left_nonneg db : db_wf max db -> 0 <= work_left max db.
Proof. intros Hwf. apply map_sum_nonneg. intros i x Hx. apply row_wf_weight. by eapply wf_rows. Qed.

Lemma exec_entries e (c : call R) db r db' id :
  db_wf max db -> exec self e c db = (Ok r, db') ->
  match c with CEnqueue _ _ _ => False | _ => True end ->
  entry_le (row_weight max) (db_jobs db' !! id) (db_jobs db !! id).
Proof.
  intros Hwf H Hc. destruct (match c with CGet _ => true | _ => false end) eqn:Eg.
  - destruct c; try done. cbn in H. unfold fmap, st_fmap in H.
    destruct (get e job_id db) as [[x|] db1] eqn:E; [|done]. injection H as <- <-.
    apply get_ok in E as [-> _]. destruct (db_jobs db !! id); cbn; [lia|done].
  - pose proof (exec_call_now _ _ _ _ _ _ H) as Hn.
    assert (exists t, _normalize_now e (call_now c) = Ok t) as [t Ht] by (destruct c; done).
    apply (row_moves_entry t); [intros; by eapply wf_rows|]. by eapply exec_moves.
Qed.

Lemma exec_work e (c : call R) db r db' : 1 <= max ->
  db_wf max db -> exec self e c db = (r, db') ->
  work_left max db' <= work_left max db
    + (match c with CEnqueue _ _ _ => max + 1 | _ => 0 end).
Proof.
  intros Hmax Hwf H. destruct r as [r|x a].
  2:{ apply exec_clean in H as ->. destruct c; lia. }
  destruct c as [seen run_id now| | | | |];
    try (rewrite Z.add_0_r; apply map_sum_le; intros i; by eapply exec_entries).
  cbn in H. unfold fmap, st_fmap in H.
  destruct (enqueue_at seen e run_id now db) as [[x|] db1] eqn:E1; [|done]. injection H as _ <-.
  apply enqueue_at_ok in E1 as (run & t & _ & _ & [[-> _]|(_ & -> & Hn & _)]); [lia|].
  unfold work_left. cbn. rewrite map_sum_insert by done. unfold row_weight at 1. cbn. lia.
Qed.

Definition unsettled (row : RunJobRow) : bool :=
  match row_state row with queued | leased => true | _ => false end.

Lemma unsettled_weight row : row_wf max row -> unsettled row = true ->
  row_weight max row = max - row_attempts row + 1 /\ row_attempts row <= max.
Proof.
  intros (p & Hp & Ha & _) Hu. unfold unsettled in Hu. unfold row_weight. rewrite Hp.
  unfold phase_of in Hp. repeat case_match; simplify_eq; cbn in *; try done; split; (done || lia).
Qed.

Lemma due_unsettled t row : due t row = true -> unsettled row = true.
Proof. unfold due, unsettled. by destruct (row_state row). Qed.

Lemma claimable_due t row : claimable t max row = true -> due t row = true /\ row_attempts row < max.
Proof.
  unfold claimable, due. intros [Ha%Z.ltb_lt Hc]%andb_true_iff. split; [|done].
  by apply orb_true_iff in Hc as [[->%bool_decide_eq_true ?]%andb_true_iff|[->%bool_decide_eq_true ?]%andb_true_iff].
Qed.

Lemma due_claimable t row : due t row = true -> claimable t max row = true \/ exhausted t max row = true.
Proof.
  unfold claimable, exhausted, due. intros Hd. destruct (row_state row) eqn:Es; try done;
    rewrite ?bool_decide_true, Hd by done; destruct (Z.ltb_spec (row_attempts row) max); cbn;
    rewrite ?orb_true_r, ?andb_true_r; auto; right; by apply Z.leb_le.
Qed.

Lemma exhausted_unsettled t row : exhausted t max row = true -> unsettled row = true.
Proof.
  unfold exhausted, unsettled. intros [_ Hx]%andb_true_iff.
  by apply orb_true_iff in Hx as [->%bool_decide_eq_true|[->%bool_decide_eq_true ?]%andb_true_iff].
Qed.

Lemma leased_weight t w tok exp row : row_wf max row -> claimable t max row = true ->
  row_weight max (lease_row w tok exp row) < row_weight max row.
Proof.
  intros Hwf [Hd Ha]%claimable_due. apply due_unsettled, unsettled_weight in Hd as [-> _]; [|done].
  unfold row_weight, lease_row. cbn. lia.
Qed.

Lemma expired_weight t row : row_wf max row -> exhausted t max row = true ->
  row_weight max (expire_row row) < row_weight max row.
Proof.
  intros Hwf Hx. apply exhausted_unsettled, unsettled_weight in Hx as [-> ?]; [|done].
  unfold row_weight, expire_row. cbn. lia.
Qed.

(** A claim made while some job is due uses up work. *)
Lemma claim_productive e w secs now db r db' t : db_wf max db ->
  exec self e (CClaim w secs now) db = (Ok r, db') -> _normalize_now e now = Ok t ->
  some_due t (env_locked e) db = true -> work_left max db' < work_left max db.
Proof.
  intros Hwf Hx Ht Hdue.
  assert (forall id, entry_le (row_weight max) (db_jobs db' !! id) (db_jobs db !! id)) as Hle
    by (intros id; by eapply exec_entries).
  assert (forall id row row', db_jobs db !! id = Some row -> db_jobs db' !! id = Some row' ->
    row_weight max row' < row_weight max row -> work_left max db' < work_left max db) as Hlt
    by (intros id row row' H1 H2 H3; by eapply map_sum_lt).
  cbn in Hx. unfold fmap, st_fmap in Hx. destruct (claim self e w secs now db) as [[l|] db1] eqn:E; [|done].
  injection Hx as _ ->. apply claim_ok in E as (t' & Ht' & _ & E). rewrite Ht in Ht'. injection Ht' as <-.
  cbv zeta in E. fold max in E.
  destruct (_claim_statement _ _ _ _) as [[j rowj]|] eqn:Ecl; destruct E as [_ ->].
  - apply claim_statement_some in Ecl as (Hj & Hcl & _). rewrite lookup_expire in Hj.
    destruct (db_jobs db !! j) as [row0|] eqn:E0; [|done]. cbn in Hj.
    destruct (exhausted t max row0) eqn:Ex; injection Hj as <-.
    + unfold claimable in Hcl. cbn in Hcl. by rewrite andb_false_r in Hcl.
    + eapply Hlt; [exact E0|cbn; apply lookup_insert_eq|]. eapply leased_weight; [by eapply wf_rows|done].
  - unfold some_due in Hdue. apply existsb_exists in Hdue as ([id row] & Hin & Hd).
    apply list_elem_of_In, elem_of_map_to_list in Hin. cbn in Hd.
    apply andb_true_iff in Hd as [Hd Hl%bool_decide_eq_true].
    assert (_expire_exhausted_jobs_statement t max (db_jobs db) !! id
      = Some (if exhausted t max row then expire_row row else row)) as Hid by (by rewrite lookup_expire, Hin).
    destruct (exhausted t max row) eqn:Ex.
    + eapply Hlt; [exact Hin|exact Hid|]. eapply expired_weight; [by eapply wf_rows|done].
    + exfalso. pose proof (claim_statement_none _ _ _ _ _ _ Ecl Hid Hl). apply due_claimable in Hd as [?|?]; congruence.
Qed.

Lemma due_claims_bounded h : forall db, 1 <= max -> db_wf max db ->
  Forall (fun ec => uuid_ok (env_uuid ec.1)) h ->
  due_claims self h db + work_left max (snd (exec_all self h db))
  <= work_left max db + (max + 1) * enqueues h.
Proof.
  induction h as [|[e c] h IH]; intros db Hmax Hwf Hu; [cbn; lia|].
  apply Forall_cons in Hu as [Hu Hus]. cbn in Hu.
  pose proof (exec_wf self e c db Hmax Hwf Hu) as Hwf1. cbn [due_claims exec_all].
  destruct (exec self e c db) as [r db1] eqn:Ex. cbn in Hwf1. specialize (IH db1 Hmax Hwf1 Hus).
  destruct (exec_all self h db1) as [rs db2]. cbn [snd] in *.
  pose proof (exec_work e c db r db1 Hmax Hwf Ex) as Hle. unfold enqueues in *. cbn [countb snd].
  assert ((match claim_time e c r with Some t => if some_due t (env_locked e) db then 1 else 0 | None => 0 end)
    + work_left max db1 <= work_left max db + match c with CEnqueue _ _ _ => max + 1 | _ => 0 end).
  { destruct (claim_time e c r) as [t|] eqn:Et; [|lia]. destruct (some_due t (env_locked e) db) eqn:Ed; [|lia].
    unfold claim_time in Et. destruct c; try done. destruct r as [r|]; [|done].
    destruct (_normalize_now e now) as [t'|] eqn:En; [|done]. injection Et as <-.
    pose proof (claim_productive _ _ _ _ _ _ _ _ Hwf Ex En Ed). lia. }
  destruct c; lia.
Qed.
End work.

(** ** Properties *)

(** Nobody waits at [t]: every job is settled, locked by another transaction,
    available later, or held under a lease that has not expired. *)
Definition caught_up {R} (t : instant) (locked : gset uuid) (db : database R) : Prop :=
  forall id row, db_jobs db !! id = Some row ->
    unsettled row = false \/ id ∈ locked
    \/ (row_state row = queued /\ t < row_available_at row)
    \/ (row_state row = leased /\ expired_at t row = false).

Lemma none_due {R} t locked (db : database R) : some_due t locked db = false -> caught_up t locked db.
Proof.
  intros Hd id row Hrow. destruct (decide (id ∈ locked)) as [|Hl]; [auto|].
  assert (due t row = false) as Hn.
  { apply not_true_is_false. intros Hd'. assert (some_due t locked db = true); [|congruence].
    apply existsb_exists. exists (id, row). split; [by apply list_elem_of_In, elem_of_map_to_list|].
    cbn. by rewrite Hd', bool_decide_true. }
  unfold due in Hn. unfold unsettled. destruct (row_state row); auto 10. right; right; left. split; [done|]. lia.
Qed.

Lemma claim_not_due {R} self (h : list (env * call R)) : forall db, due_claims self h db < claims_made self h db ->
  exists h1 e w secs now h2 t, h = h1 ++ (e, CClaim w secs now) :: h2 /\ _normalize_now e now = Ok t
    /\ some_due t (env_locked e) (snd (exec_all self h1 db)) = false.
Proof.
  induction h as [|[e c] h IH]; intros db; [cbn; lia|]. cbn [due_claims claims_made].
  destruct (exec self e c db) as [r db1] eqn:Ex.
  assert (forall h1, snd (exec_all self ((e, c) :: h1) db) = snd (exec_all self h1 db1)) as Hcons
    by (intros h1; cbn [exec_all]; rewrite Ex; by destruct (exec_all self h1 db1)).
  intros Hlt. destruct (claim_time e c r) as [t|] eqn:Et; [destruct (some_due t (env_locked e) db) eqn:Ed|].
  - destruct (IH db1) as (h1 & e' & w & secs & now & h2 & t' & -> & Ht & Hd); [lia|].
    exists ((e, c) :: h1), e', w, secs, now, h2, t'. by rewrite Hcons.
  - unfold claim_time in Et. destruct c as [|w secs now| | | |]; try done. destruct r; [|done].
    destruct (_normalize_now e now) eqn:En; [|done]. injection Et as ->.
    by exists [], e, w, secs, now, h, t.
  - destruct (IH db1) as (h1 & e' & w & secs & now & h2 & t' & -> & Ht & Hd); [lia|].
    exists ((e, c) :: h1), e', w, secs, now, h2, t'. by rewrite Hcons.
Qed.


(** Three workers, each a minute after the other, on a job that nobody
    completes. *)
Definition crashing_history : list (env * call unit) :=
  [ (sample_env (seconds 70) 300, CClaim "worker-2" 60 None);
    (sample_env (seconds 140) 301, CClaim "worker-3" 60 None);
    (sample_env (seconds 210) 302, CClaim "worker-4" 60 None) ].

