(* ===== verification/RunModel.v ===== *)
(** * Runs and their artifacts

    The records of [engine_harness/models.py] and the [StoredRun] of
    [control_plane/run_api.py] with its summaries: readiness counts, the latest
    host metrics and the connection states derived from them.  Timestamps are
    aware UTC datetimes, hence instants. *)
From S2P Require Import Prelude Collections PyFloat PyData.

Open Scope Z_scope.

(** ** Artifacts *)

Record RecordingArtifact := MkRecording {
  rec_stage : string; rec_uri : string; rec_format : jdict; rec_duration_ms : float }.

Record SpanArtifact := MkSpan {
  span_trace_id : string; span_span_id : string; span_parent_id : option string;
  span_name : string; span_start_ns : Z; span_end_ns : Z; span_attrs : jdict }.

Record MetricArtifact := MkMetric {
  metric_stage : option string; metric_name : string; metric_value : float;
  metric_ts : instant }.

Record TimelineEventArtifact := MkTimelineEvent {
  ev_event_id : string; ev_category : string; ev_name : string; ev_ts : instant;
  ev_clock_domain : string; ev_alignment_uncertainty_ms : option float;
  ev_direction : option string; ev_stage : option string; ev_stream_alias : option string;
  ev_source : string; ev_correlation_alias : option string; ev_attributes : jdict }.

(** [verification.core.VerificationResult]. *)
Record VerificationResult := MkVerification {
  ver_stage : string; ver_invariant : string; ver_passed : bool;
  ver_observed : jdict; ver_expected : jdict; ver_detail : string }.

Record SipEventResponse := MkSipEvent {
  sip_call_id : option string; sip_method : string; sip_direction : string;
  sip_status_code : option Z; sip_summary_alias : option string; sip_ts : instant }.

Record RtpStatResponse := MkRtpStat {
  rtp_ts : instant; rtp_jitter_ms : option float; rtp_loss_pct : option float;
  rtp_mos : option float; rtp_direction : option string; rtp_rtt_ms : option float }.

(** ** Validated metadata *)

Definition SENSITIVE_TEXT_MARKERS : list string := ["http://"; "https://"; "<@"; "slack://"].

Definition _validate_reference_text (value field_name : string) : result string :=
  let stripped := strip value in
  let lowered := lower stripped in
  if existsb (contains lowered) SENSITIVE_TEXT_MARKERS
  then Raise ValueError (field_name +:+ " must use an alias/reference, not a URL or Slack ID")
  else Ok stripped.

Inductive ReadinessStatus := ready_pass | ready_fail | ready_unknown.
#[export] Instance ReadinessStatus_eq_dec : EqDecision ReadinessStatus.
Proof. solve_decision. Defined.

Record ReadinessChecklistItem := MkReadinessItem {
  item_id : string; item_label : string; item_status : ReadinessStatus;
  item_note : option string }.

Definition DEFAULT_READINESS_ITEMS : list (string * string) :=
  [ ("ai_phone_setup_complete", "AI phone setup complete");
    ("intermediate_db_environment_registration_complete",
     "Intermediate DB/environment registration complete");
    ("connection_route_verified", "Connection route verified");
    ("expected_codec_sample_rate_cadence_declared", "Expected codec/sample rate/cadence declared");
    ("recording_taps_enabled", "Recording taps enabled");
    ("host_metrics_enabled", "Host metrics enabled");
    ("secret_references_present", "Secret references present") ].

Definition _default_readiness_checklist : list ReadinessChecklistItem :=
  map (fun '(id, label) => MkReadinessItem id label ready_unknown None) DEFAULT_READINESS_ITEMS.

Inductive EnvironmentProfile := env_local | env_dev | env_demo | env_integration | env_staging.

Record RunEnvironmentMetadata := MkEnvironment {
  environment_profile : EnvironmentProfile;
  server_alias : option string;
  integration_target_alias : option string;
  environment_snapshot_hash : option string;
  started_from : option string;
  operator_note : option string;
  manual_blockers : list string;
  tags : list string;
  related_internal_ref : option string;
  secret_ref_names : list string
}.

Definition validate_optional (value : option string) (field_name : string)
    : result (option string) :=
  match value with
  | None => Ok None
  | Some v => Some <$> _validate_reference_text v field_name
  end.

Definition validate_reference_lists (values : list string) (field_name : string)
    : result (list string) :=
  mapM_res (fun v => _validate_reference_text v field_name) values.

(** The field validators of [RunEnvironmentMetadata], in field order. *)
Definition validate_environment (e : RunEnvironmentMetadata) : result RunEnvironmentMetadata :=
  server ← validate_optional (server_alias e) "server_alias";
  target ← validate_optional (integration_target_alias e) "integration_target_alias";
  snapshot ← validate_optional (environment_snapshot_hash e) "environment_snapshot_hash";
  from ← validate_optional (started_from e) "started_from";
  note ← validate_optional (operator_note e) "operator_note";
  blockers ← validate_reference_lists (manual_blockers e) "manual_blockers";
  tags_ ← validate_reference_lists (tags e) "tags";
  related ← validate_optional (related_internal_ref e) "related_internal_ref";
  secrets ← validate_reference_lists (secret_ref_names e) "secret_ref_names";
  Ok (MkEnvironment (environment_profile e) server target snapshot from note blockers tags_
        related secrets).

(** The field validators of [ReadinessChecklistItem]. *)
Definition validate_item (i : ReadinessChecklistItem) : result ReadinessChecklistItem :=
  id ← _validate_reference_text (item_id i) "item_id";
  label ← _validate_reference_text (item_label i) "label";
  note ← validate_optional (item_note i) "note";
  Ok (MkReadinessItem id label (item_status i) note).

(** [RunCreateRequest.require_unique_checklist_items]. *)
Definition require_unique_checklist_items (items : list ReadinessChecklistItem) : result unit :=
  guard_else (bool_decide (NoDup (map item_id items))) ValueError
    "readiness_checklist item_id values must be unique".

(** ** Stored runs *)

Record StoredRun := MkStoredRun {
  run_id : string;
  config_hash : string;
  call_id : option string;
  conversation_id : string;
  provider : string;
  engine : string;
  status : string;
  started_at : instant;
  ended_at : option instant;
  resolved_config : jdict;
  recordings : list RecordingArtifact;
  spans : list SpanArtifact;
  metrics : list MetricArtifact;
  failure_alias : option string;
  verifications : list VerificationResult;
  sip_events : list SipEventResponse;
  rtp_stats : list RtpStatResponse;
  timeline_events : list TimelineEventArtifact;
  environment : RunEnvironmentMetadata;
  readiness_checklist : list ReadinessChecklistItem
}.

Record ReadinessSummary := MkReadinessSummary {
  passed_count : Z; failed_count : Z; unknown_count : Z; manual_blocker_count : Z;
  incomplete_count : Z }.

Definition readiness_summary (run : StoredRun) : ReadinessSummary :=
  let count s := countb (fun i => bool_decide (item_status i = s)) (readiness_checklist run) in
  let failed := count ready_fail in
  let unknown := count ready_unknown in
  let blockers := len (manual_blockers (environment run)) in
  MkReadinessSummary (count ready_pass) failed unknown blockers (failed + unknown + blockers).

(** [sum(1 for verification in self.verifications if not verification.passed)]. *)
Definition violation_count (run : StoredRun) : Z :=
  countb (fun v => negb (ver_passed v)) (verifications run).

(** The loop of [latest_host_metrics]. *)
Definition host_step (by_name : list (string * MetricArtifact)) (metric : MetricArtifact)
    : list (string * MetricArtifact) :=
  match metric_stage metric with
  | Some _ => by_name
  | None =>
      match dict_get (metric_name metric) by_name with
      | None => dict_set (metric_name metric) metric by_name
      | Some current =>
          if metric_ts current <=? metric_ts metric
          then dict_set (metric_name metric) metric by_name else by_name
      end
  end.

Definition latest_host_metrics (run : StoredRun) : list MetricArtifact :=
  sorted_by (fun a b => str_leb (metric_name a) (metric_name b))
    (dict_values (fold_left host_step (metrics run) [])).

Inductive ProviderConnectionState :=
  conn_not_applicable | conn_pending | conn_connected | conn_exhausted | conn_unobserved.
#[export] Instance ProviderConnectionState_eq_dec : EqDecision ProviderConnectionState.
Proof. solve_decision. Defined.

Record ProviderConnectionStatus := MkProviderConnectionStatus {
  conn_state : ProviderConnectionState; conn_attempts : Z; conn_retries : Z;
  conn_failures : Z; conn_is_exhausted : bool }.

(** [max(0, int(values.get(name, 0)))]. *)
Definition count_metric (values : list (string * float)) (name : string) : result Z :=
  match dict_get name values with
  | None => Ok 0
  | Some x => (fun z => Z.max 0 z) <$> py_int x
  end.

Definition provider_connection_status (run : StoredRun) : result ProviderConnectionStatus :=
  let values := dict_of_list (map (fun m => (metric_name m, metric_value m))
    (filterb (fun m => startswith (metric_name m) "provider_connect_")
      (latest_host_metrics run))) in
  attempts ← count_metric values "provider_connect_attempts";
  retries ← count_metric values "provider_connect_retries";
  failures ← count_metric values "provider_connect_failures";
  let exhausted :=
    match dict_get "provider_connect_exhausted" values with
    | Some x => fltb fzero x | None => false end
    || bool_decide (failure_alias run = Some "provider-connect-error") in
  let state :=
    if exhausted then conn_exhausted
    else if 0 <? attempts then conn_connected
    else if negb (bool_decide ("provider" ∈ tags (environment run))) then conn_not_applicable
    else if bool_decide (status run = "running") then conn_pending
    else conn_unobserved in
  Ok (MkProviderConnectionStatus state attempts retries failures exhausted).

Inductive RtpCollectorState := coll_inactive | coll_connected | coll_collecting | coll_failed.

Record RtpCollectorStatus := MkRtpCollectorStatus {
  coll_state : RtpCollectorState; coll_events_collected : Z; coll_failures : Z }.

(** [sum(max(0, int(m.value)) for m in metrics if m.stage is None and m.name == name)]. *)
Definition sum_metric (name : string) (l : list MetricArtifact) : result Z :=
  foldM_res (fun acc m => (fun z => acc + Z.max 0 z) <$> py_int (metric_value m)) 0
    (filterb (fun m => bool_decide (metric_stage m = None) && bool_decide (metric_name m = name)) l).

Definition rtcp_status_names : list string :=
  ["asterisk_ami_rtcp_connected"; "asterisk_ami_rtcp_events"; "asterisk_ami_rtcp_failures"].

(** The last metric of [l] with the greatest timestamp. *)
Definition latest_step (latest : option MetricArtifact) (m : MetricArtifact)
    : option MetricArtifact :=
  match latest with
  | None => Some m
  | Some l => if metric_ts l <=? metric_ts m then Some m else latest
  end.

Definition rtp_collector_status (run : StoredRun) : result RtpCollectorStatus :=
  events ← sum_metric "asterisk_ami_rtcp_events" (metrics run);
  failures ← sum_metric "asterisk_ami_rtcp_failures" (metrics run);
  let latest := fold_left latest_step
    (filterb (fun m => bool_decide (metric_stage m = None)
                       && bool_decide (metric_name m ∈ rtcp_status_names)) (metrics run)) None in
  let name := metric_name <$> latest in
  let state :=
    if bool_decide (name = Some "asterisk_ami_rtcp_failures") then coll_failed
    else if bool_decide (name = Some "asterisk_ami_rtcp_events") then coll_collecting
    else if bool_decide (name = Some "asterisk_ami_rtcp_connected") then coll_connected
    else coll_inactive in
  Ok (MkRtpCollectorStatus state events failures).

Record RunSummary := MkRunSummary {
  sum_run_id : string; sum_config_hash : string; sum_provider : string; sum_engine : string;
  sum_status : string; sum_started_at : instant; sum_ended_at : option instant;
  sum_recording_count : Z; sum_violation_count : Z;
  sum_environment_profile : EnvironmentProfile; sum_server_alias : option string;
  sum_integration_target_alias : option string; sum_readiness_failed_count : Z;
  sum_readiness_unknown_count : Z; sum_manual_blocker_count : Z; sum_tags : list string }.

Definition to_summary (run : StoredRun) : RunSummary :=
  let r := readiness_summary run in
  let e := environment run in
  MkRunSummary (run_id run) (config_hash run) (provider run) (engine run) (status run)
    (started_at run) (ended_at run) (len (recordings run)) (violation_count run)
    (environment_profile e) (server_alias e) (integration_target_alias e)
    (failed_count r) (unknown_count r) (manual_blocker_count r) (tags e).

Record LiveRunStatus := MkLiveRunStatus {
  live_run_id : string; live_status : string; live_failure_alias : option string;
  live_started_at : instant; live_ended_at : option instant;
  live_environment_profile : EnvironmentProfile; live_server_alias : option string;
  live_integration_target_alias : option string; live_readiness : ReadinessSummary;
  live_manual_blockers : list string; live_host_metrics : list MetricArtifact;
  live_provider_connection : ProviderConnectionStatus; live_rtp_collector : RtpCollectorStatus;
  live_violation_count : Z; live_tags : list string }.

Definition to_live_status (run : StoredRun) : result LiveRunStatus :=
  conn ← provider_connection_status run;
  coll ← rtp_collector_status run;
  let e := environment run in
  Ok (MkLiveRunStatus (run_id run) (status run) (failure_alias run) (started_at run)
    (ended_at run) (environment_profile e) (server_alias e) (integration_target_alias e)
    (readiness_summary run) (manual_blockers e) (latest_host_metrics run) conn coll
    (violation_count run) (tags e)).

(** ** Lemmas *)

Lemma validate_reference_text_ok v f v' :
  _validate_reference_text v f = Ok v' ->
  v' = strip v /\ existsb (contains (lower v')) SENSITIVE_TEXT_MARKERS = false.
Proof. unfold _validate_reference_text. case_match eqn:E; [done|]. by intros [= <-]. Qed.

Lemma validate_reference_text_idem v f v' :
  _validate_reference_text v f = Ok v' -> _validate_reference_text v' f = Ok v'.
Proof.
  intros [-> H]%validate_reference_text_ok. unfold _validate_reference_text.
  by rewrite strip_idem, H.
Qed.

Lemma validate_optional_idem v f v' :
  validate_optional v f = Ok v' -> validate_optional v' f = Ok v'.
Proof.
  destruct v as [v|]; cbn; [|by intros [= <-]].
  destruct (_validate_reference_text v f) eqn:E; cbn; [|done]. intros [= <-]. cbn.
  by rewrite (validate_reference_text_idem _ _ _ E).
Qed.

Lemma mapM_res_idem {A} (f : A -> result A) l l' :
  (forall x y, f x = Ok y -> f y = Ok y) -> mapM_res f l = Ok l' -> mapM_res f l' = Ok l'.
Proof.
  intros Hf H. apply mapM_res_ok in H. apply mapM_res_ok.
  induction H as [|x y l l' Hxy _ IH]; constructor; eauto.
Qed.

Lemma validate_reference_lists_idem v f v' :
  validate_reference_lists v f = Ok v' -> validate_reference_lists v' f = Ok v'.
Proof. apply mapM_res_idem. intros x y. apply validate_reference_text_idem. Qed.

Lemma validate_environment_idem e e' :
  validate_environment e = Ok e' -> validate_environment e' = Ok e'.
Proof.
  unfold validate_environment. intros H. simpl_res.
  cbn -[validate_reference_lists validate_optional _validate_reference_text].
  repeat match goal with
  | H : validate_optional _ _ = Ok _ |- _ => apply validate_optional_idem in H; rewrite H; clear H
  | H : validate_reference_lists _ _ = Ok _ |- _ =>
      apply validate_reference_lists_idem in H; rewrite H; clear H
  end. done.
Qed.

Lemma validate_item_idem i i' : validate_item i = Ok i' -> validate_item i' = Ok i'.
Proof.
  unfold validate_item. intros H. simpl_res.
  cbn -[validate_reference_lists validate_optional _validate_reference_text].
  repeat match goal with
  | H : validate_optional _ _ = Ok _ |- _ => apply validate_optional_idem in H; rewrite H; clear H
  | H : _validate_reference_text _ _ = Ok _ |- _ =>
      apply validate_reference_text_idem in H; rewrite H; clear H
  end. done.
Qed.

Lemma countb_status l :
  countb (fun i => bool_decide (item_status i = ready_pass)) l
  + countb (fun i => bool_decide (item_status i = ready_fail)) l
  + countb (fun i => bool_decide (item_status i = ready_unknown)) l = len l.
Proof.
  induction l as [|i l IH]; [done|]. cbn [countb]. rewrite len_cons.
  destruct (item_status i); repeat case_bool_decide; try done; lia.
Qed.

Section host_metrics.
Let by_name := fold_left host_step.

(** The metrics that the loop keeps: for each name, the last of the host
    metrics with the greatest timestamp. *)
Definition latest_named (name : string) (l : list MetricArtifact) : option MetricArtifact :=
  fold_left latest_step
    (filterb (fun m => bool_decide (metric_stage m = None) && bool_decide (metric_name m = name)) l)
    None.

Lemma latest_named_snoc name l m :
  latest_named name (l ++ [m]) =
  if bool_decide (metric_stage m = None) && bool_decide (metric_name m = name)
  then latest_step (latest_named name l) m else latest_named name l.
Proof.
  unfold latest_named, filterb. rewrite List.filter_app, fold_left_app. cbn.
  by destruct (_ && _).
Qed.

Lemma host_step_get l name : dict_get name (by_name l []) = latest_named name l.
Proof.
  unfold by_name. induction l as [|m l IH] using rev_ind; [done|].
  rewrite fold_left_app, latest_named_snoc, <- IH. cbn. unfold host_step at 1.
  destruct (metric_stage m); [by rewrite bool_decide_false by done|].
  rewrite bool_decide_true by done. cbn [andb].
  destruct (decide (metric_name m = name)) as [Heq|Hne].
  - rewrite bool_decide_true by done. rewrite Heq.
    destruct (dict_get name (fold_left host_step l [])) as [cur|] eqn:E; cbn.
    + case_match; [by rewrite dict_get_set_eq | done].
    + by rewrite dict_get_set_eq.
  - rewrite bool_decide_false by done.
    destruct (dict_get (metric_name m) _) as [cur|]; [case_match|];
      rewrite ?dict_get_set_ne by congruence; done.
Qed.

Lemma host_step_keys l :
  NoDup (dict_keys (by_name l []))
  /\ forall k m, (k, m) ∈ by_name l [] -> metric_name m = k.
Proof.
  unfold by_name. induction l as [|m l [IHn IHk]] using rev_ind; [split; [constructor | set_solver]|].
  rewrite fold_left_app. cbn. unfold host_step at 1 3.
  destruct (metric_stage m); [done|].
  assert (NoDup (dict_keys (dict_set (metric_name m) m (fold_left host_step l []))) /\
    forall k m0, (k, m0) ∈ dict_set (metric_name m) m (fold_left host_step l []) -> metric_name m0 = k).
  { split; [by apply dict_set_NoDup|]. intros k m0 Hin.
    apply dict_elem_get in Hin; [|by apply dict_set_NoDup]. rewrite dict_get_set in Hin.
    case_decide as Hd; [by injection Hin as <-|]. apply dict_get_Some_elem in Hin. eauto. }
  destruct (dict_get _ _); [case_match|]; done.
Qed.
End host_metrics.

Lemma latest_step_fold l a :
  match fold_left latest_step l (Some a) with
  | Some m => (m = a \/ m ∈ l) /\ metric_ts a <= metric_ts m
      /\ forall x, x ∈ l -> metric_ts x <= metric_ts m
  | None => False
  end.
Proof.
  revert a; induction l as [|y l IH]; intros a; cbn.
  - split_and!; [auto | lia | set_solver].
  - destruct (metric_ts a <=? metric_ts y) eqn:E; bool_to_prop;
      [specialize (IH y) | specialize (IH a)];
      destruct (fold_left latest_step l _) as [m|]; try done;
      destruct IH as (Hm & Hle & Hall); split_and!; try lia;
      try (destruct Hm as [->|]; [set_solver | set_solver]);
      intros x [->|Hx]%elem_of_cons; (lia || by apply Hall).
Qed.

Lemma latest_named_some name l m :
  latest_named name l = Some m ->
  m ∈ l /\ metric_stage m = None /\ metric_name m = name
  /\ forall x, x ∈ l -> metric_stage x = None -> metric_name x = name -> metric_ts x <= metric_ts m.
Proof.
  unfold latest_named. set (f := filterb _ l). intros H.
  assert (forall x, x ∈ f <-> x ∈ l /\ metric_stage x = None /\ metric_name x = name) as Hf.
  { intros x. unfold f. rewrite elem_of_filterb, andb_true_iff, !bool_decide_eq_true. done. }
  destruct f as [|a f'] eqn:Ef; [done|]. cbn in H.
  pose proof (latest_step_fold f' a) as Hs. rewrite H in Hs. destruct Hs as (Hm & Hle & Hall).
  assert (m ∈ a :: f') as Hin by (destruct Hm as [->|]; set_solver).
  apply Hf in Hin as (? & ? & ?). split_and!; [done..|]. intros x Hx Hs Hn.
  assert (x ∈ a :: f') as Hxf by (by apply Hf).
  apply elem_of_cons in Hxf as [->|Hxf]; [done | by apply Hall].
Qed.

Lemma latest_named_exists name l x :
  x ∈ l -> metric_stage x = None -> metric_name x = name -> is_Some (latest_named name l).
Proof.
  intros Hx Hs Hn. unfold latest_named. set (f := filterb _ l).
  assert (x ∈ f) as Hf.
  { unfold f. rewrite elem_of_filterb, andb_true_iff, !bool_decide_eq_true. done. }
  destruct f as [|a f']; [set_solver|]. cbn. pose proof (latest_step_fold f' a) as H.
  destruct (fold_left latest_step f' (Some a)); [by eexists | done].
Qed.

(** ** Properties *)

(** [latest_host_metrics] answers exactly one metric per host metric name
    (a metric without a stage), sorted by name: the last recorded one among
    those with the greatest timestamp of that name. *)
Theorem latest_host_metrics_latest run :
  let res := latest_host_metrics run in
  (forall m, m ∈ res <-> latest_named (metric_name m) (metrics run) = Some m)
  /\ (forall m x, m ∈ res -> x ∈ metrics run -> metric_stage x = None ->
       metric_name x = metric_name m -> metric_ts x <= metric_ts m)
  /\ (forall x, x ∈ metrics run -> metric_stage x = None ->
       exists m, m ∈ res /\ metric_name m = metric_name x)
  /\ NoDup (map metric_name res)
  /\ Sorted.StronglySorted (fun a b => str_leb (metric_name a) (metric_name b)) res.
Proof.
  set (d := fold_left host_step (metrics run) []).
  pose proof (host_step_keys (metrics run)) as [Hn Hk]. fold d in Hn, Hk.
  assert (forall m, m ∈ latest_host_metrics run <->
    latest_named (metric_name m) (metrics run) = Some m) as Hin.
  { intros m. unfold latest_host_metrics. rewrite elem_of_sorted_by. fold d.
    rewrite <- (host_step_get (metrics run)). fold d. unfold dict_values. split.
    - intros ([k m'] & -> & Hin)%list_elem_of_fmap. cbn. pose proof (Hk _ _ Hin) as ->.
      by apply dict_elem_get.
    - intros Hg%dict_get_Some_elem. apply list_elem_of_fmap. by exists (metric_name m, m). }
  cbn zeta. split_and!.
  - exact Hin.
  - intros m x Hm Hx Hs Hnm. apply Hin in Hm.
    apply latest_named_some in Hm as (_ & _ & _ & H). by apply H.
  - intros x Hx Hs. destruct (latest_named_exists (metric_name x) (metrics run) x) as [m Hm]; [done..|].
    pose proof Hm as (_ & _ & Hnm & _)%latest_named_some. exists m. split; [|done].
    apply Hin. by rewrite Hnm.
  - unfold latest_host_metrics. fold d.
    assert (map metric_name (dict_values d) = dict_keys d) as Hm.
    { clear Hn Hin. unfold dict_values, dict_keys. induction d as [|[k m] d' IH]; cbn; [done|].
      rewrite (Hk k m) by set_solver. f_equal. apply IH. set_solver. }
    rewrite sorted_by_perm, Hm. done.
  - apply (sorted_by_sorted _ (fun _ => True)); [..|by apply Forall_forall].
    + intros; apply str_leb_total.
    + intros x y z _ _ _. apply str_leb_trans.
Qed.
