(* ===== verification/Repository.v ===== *)
(** * The run repositories

    [InMemoryRunRepository] and [PostgresRunRepository] of
    [control_plane/run_api.py].  The database extends the one of the job queue
    with the rows of [runs] and the seven child tables, each a collection of
    rows with a run, an ordinal and a primary key.  A JSON column returns the
    value [jsonb] makes of the one stored (the driver's encoding); the
    environment and the checklist columns hold the fields of the validated
    models and are validated again when they are read. *)
From S2P Require Import Prelude Effects Collections PyFloat PyData JobQueue RunModel.
From Stdlib Require Import Sorting.Sorted.

Open Scope Z_scope.

(** ** Child tables *)

Record child (A : Type) := MkChild {
  child_id : uuid; child_run_id : uuid; child_ordinal : Z; child_item : A }.
Arguments MkChild {A}. Arguments child_id {A}. Arguments child_run_id {A}.
Arguments child_ordinal {A}. Arguments child_item {A}.

Abbreviation table A := (list (child A)).

Section child_tables.
Context {A : Type}.
Implicit Types (t : table A) (run : uuid).

(** [delete(child_model).where(child_model.run_id == run)]. *)
Definition delete_children run t : table A := filterb (fun c => negb (child_run_id c =? run)) t.

(** [session.add_all([Row(run_id=run, ordinal=ordinal, ...) for ordinal, item
    in enumerate(items)])], the primary keys drawn from [ids]. *)
Definition add_children (ids : Z -> uuid) run (items : list A) t : table A :=
  t ++ map (fun '(ordinal, item) => MkChild (ids ordinal) run ordinal item) (enumerate items).

(** [ORDER BY ordinal, id]. *)
Definition child_le (a b : child A) : bool :=
  if child_ordinal a =? child_ordinal b then child_id a <=? child_id b
  else child_ordinal a <? child_ordinal b.

Definition select_children run t : list A :=
  map child_item (sorted_by child_le (filterb (fun c => child_run_id c =? run) t)).

Lemma select_added ids run items t :
  select_children run (add_children ids run items (delete_children run t)) = items.
Proof.
  unfold select_children, add_children, delete_children, filterb.
  rewrite List.filter_app.
  assert (List.filter (fun c => child_run_id c =? run)
    (List.filter (fun c => negb (child_run_id c =? run)) t) = []) as ->.
  { induction t as [|c t IH]; cbn; [done|].
    destruct (child_run_id c =? run) eqn:E; cbn; rewrite ?E; done. }
  cbn [app]. set (rows := map _ (enumerate items)).
  assert (List.filter (fun c => child_run_id c =? run) rows = rows) as ->.
  { unfold rows. generalize 0. induction items as [|x l IH]; intros i; cbn; [done|].
    rewrite Z.eqb_refl. f_equal. apply IH. }
  rewrite sorted_by_id.
  - unfold rows. generalize 0. induction items as [|x l IH]; intros i; cbn; [done|].
    f_equal. apply IH.
  - unfold rows. generalize 0. induction items as [|x l IH]; intros i; cbn; constructor; [apply IH|].
    apply Forall_forall. intros c ([j y] & -> & Hj)%list_elem_of_fmap.
    apply enumerate_from_fst_lt in Hj. unfold child_le; cbn.
    rewrite (proj2 (Z.eqb_neq i j)), (proj2 (Z.ltb_lt i j)) by lia. done.
Qed.

Lemma select_other ids run run' items t :
  run' <> run ->
  select_children run' (add_children ids run items (delete_children run t)) = select_children run' t.
Proof.
  intros Hne. unfold select_children, add_children, delete_children, filterb.
  rewrite List.filter_app. do 2 f_equal.
  assert (List.filter (fun c => child_run_id c =? run')
    (map (fun '(ordinal, item) => MkChild (ids ordinal) run ordinal item) (enumerate items)) = []) as ->.
  { generalize 0. induction items as [|x l IH]; intros i; cbn; [done|].
    rewrite (proj2 (Z.eqb_neq run run')) by done. apply IH. }
  rewrite app_nil_r. induction t as [|c t IH]; cbn; [done|].
  destruct (Z.eqb_spec (child_run_id c) run) as [He|Hn]; cbn.
  - rewrite IH. by rewrite He, (proj2 (Z.eqb_neq run run')) by done.
  - rewrite IH. done.
Qed.
End child_tables.

(** ** Rows and tables *)

(** A row of [runs], less its key. *)
Record RunRow := MkRunRow {
  rr_config_hash : string; rr_call_id : option string; rr_conversation_id : string;
  rr_provider : string; rr_engine : string; rr_status : string;
  rr_failure_alias : option string; rr_resolved_config : jdict;
  rr_environment_metadata : RunEnvironmentMetadata;
  rr_readiness_checklist : list ReadinessChecklistItem;
  rr_started_at : instant; rr_ended_at : option instant }.

Record tables := MkTables {
  t_recordings : table RecordingArtifact;
  t_spans : table SpanArtifact;
  t_metrics : table MetricArtifact;
  t_verifications : table VerificationResult;
  t_sip_events : table SipEventResponse;
  t_rtp_stats : table RtpStatResponse;
  t_timeline_events : table TimelineEventArtifact }.

Record repo_db := MkRepoDb { repo_core : database RunRow; repo_tables : tables }.

(** What the JSON columns of an artifact read back as. *)
Section json_columns.
Variable jsonb : jdict -> jdict.

Definition stored_recording (r : RecordingArtifact) : RecordingArtifact :=
  MkRecording (rec_stage r) (rec_uri r) (jsonb (rec_format r)) (rec_duration_ms r).
Definition stored_span (s : SpanArtifact) : SpanArtifact :=
  MkSpan (span_trace_id s) (span_span_id s) (span_parent_id s) (span_name s) (span_start_ns s)
    (span_end_ns s) (jsonb (span_attrs s)).
Definition stored_verification (v : VerificationResult) : VerificationResult :=
  MkVerification (ver_stage v) (ver_invariant v) (ver_passed v) (jsonb (ver_observed v))
    (jsonb (ver_expected v)) (ver_detail v).
Definition stored_event (e : TimelineEventArtifact) : TimelineEventArtifact :=
  MkTimelineEvent (ev_event_id e) (ev_category e) (ev_name e) (ev_ts e) (ev_clock_domain e)
    (ev_alignment_uncertainty_ms e) (ev_direction e) (ev_stage e) (ev_stream_alias e)
    (ev_source e) (ev_correlation_alias e) (jsonb (ev_attributes e)).
End json_columns.

Section postgres.
Variable jsonb : jdict -> jdict.
(** Fresh primary keys for the child rows of a save. *)
Variable row_id : Z -> uuid.
Implicit Types (e : env) (db : repo_db) (run : StoredRun).

(** An operation of the queue's tables inside a repository transaction. *)
Definition on_core {A} (m : st (database RunRow) A) : st repo_db A := fun db =>
  let '(r, core) := m (repo_core db) in (r, MkRepoDb core (repo_tables db)).

Definition repo_access e : st repo_db unit :=
  if env_fault e then throw SQLAlchemyError "" else mret tt.

(** [except SQLAlchemyError as exc: raise RunRepositoryError from exc]. *)
Definition repo_transaction {A} (m : st repo_db A) : st repo_db A :=
  catch (transaction m) (fun c s =>
    match c with
    | SQLAlchemyError | IntegrityError =>
        throw RunRepositoryError "run repository is unavailable"
    | _ => throw c s
    end).

Definition run_values run : RunRow :=
  MkRunRow (config_hash run) (call_id run) (conversation_id run) (provider run) (engine run)
    (status run) (failure_alias run) (resolved_config run) (environment run)
    (readiness_checklist run) (started_at run) (ended_at run).

Definition upsert_run (u : uuid) (row : RunRow) (db : repo_db) : repo_db :=
  MkRepoDb (MkDatabase (<[u := row]> (db_runs (repo_core db))) (db_jobs (repo_core db)))
    (repo_tables db).

Definition replace_children (u : uuid) run (t : tables) : tables :=
  let put {A} (items : list A) (tab : table A) :=
    add_children row_id u items (delete_children u tab) in
  MkTables (put (recordings run) (t_recordings t)) (put (spans run) (t_spans t))
    (put (metrics run) (t_metrics t)) (put (verifications run) (t_verifications t))
    (put (sip_events run) (t_sip_events t)) (put (rtp_stats run) (t_rtp_stats t))
    (put (timeline_events run) (t_timeline_events t)).

(** [_save_in_session]; the timeline events of a run have distinct
    identifiers ([uq_timeline_events_run_event]). *)
Definition _save_in_session run (u : uuid) : st repo_db unit :=
  _ ← modify (upsert_run u (run_values run));
  db ← get_state;
  if bool_decide (NoDup (map ev_event_id (timeline_events run)))
  then put_state (MkRepoDb (repo_core db) (replace_children u run (repo_tables db)))
  else throw IntegrityError "".

Definition uuid_or_error (s : string) : result uuid :=
  from_option_err (parse_uuid s) ValueError "badly formed hexadecimal UUID string".

Definition save e run : st repo_db unit :=
  u ← lift (uuid_or_error (run_id run));
  repo_transaction (_ ← repo_access e; _save_in_session run u).

Definition save_queued_run e run (now : option datetime) : st repo_db string :=
  _ ← lift (guard_else (bool_decide (status run = "running") && bool_decide (ended_at run = None))
        ValueError "queued-run-not-running");
  u ← lift (uuid_or_error (run_id run));
  available_at ← lift (_normalize_now e now);
  repo_transaction (
    _ ← repo_access e;
    db ← get_state;
    match job_of_run u (db_jobs (repo_core db)) with
    | Some existing => mret (uuid_str existing.1)
    | None =>
        _ ← _save_in_session run u;
        _ ← on_core (insert_job (env_uuid e)
              (MkRunJobRow u queued available_at (env_now e) None None None 0 None));
        mret (uuid_str (env_uuid e))
    end).

(** The job row at the end of [commit_leased_result]. *)
Definition settle_row run (row : RunJobRow) : RunJobRow :=
  MkRunJobRow (row_run_id row) (if bool_decide (status run = "completed") then completed else failed)
    (row_available_at row) (row_created_at row) None None None (row_attempts row)
    (if bool_decide (status run = "failed") then failure_alias run else None).

Definition commit_leased_result e run (lease : RunJobLease) (worker_id : string)
    (now : option datetime) : st repo_db bool :=
  _ ← lift (guard_else ((bool_decide (status run = "completed") || bool_decide (status run = "failed"))
          && negb (bool_decide (ended_at run = None)))
        ValueError "leased-run-result-not-terminal");
  match parse_uuid (run_id run), parse_uuid (lease_run_id lease), parse_uuid (lease_job_id lease),
        parse_uuid (lease_lease_token lease) with
  | Some run_uuid, Some lease_run, Some job_uuid, Some lease_token =>
      if negb (lease_run =? run_uuid) then mret false
      else
        committed_at ← lift (_normalize_now e now);
        repo_transaction (
          _ ← repo_access e;
          db ← get_state;
          match select_row (fun id row =>
                  (id =? job_uuid) && (row_run_id row =? run_uuid)
                  && bool_decide (row_state row = leased)
                  && bool_decide (row_lease_owner row = Some worker_id)
                  && bool_decide (row_lease_token row = Some lease_token)
                  && match row_lease_expires_at row with
                     | Some t => committed_at <? t | None => false end)
                (db_jobs (repo_core db)) with
          | None => mret false
          | Some (id, row) =>
              _ ← _save_in_session run run_uuid;
              _ ← on_core (modify (fun core =>
                    with_jobs (<[id := settle_row run row]> (db_jobs core)) core));
              mret true
          end)
  | _, _, _, _ => mret false
  end.

Definition _restore (u : uuid) (row : RunRow) (t : tables) : result StoredRun :=
  environment_ ← validate_environment (rr_environment_metadata row);
  checklist ← mapM_res validate_item (rr_readiness_checklist row);
  Ok (MkStoredRun (uuid_str u) (rr_config_hash row) (rr_call_id row) (rr_conversation_id row)
    (rr_provider row) (rr_engine row) (rr_status row) (rr_started_at row) (rr_ended_at row)
    (jsonb (rr_resolved_config row))
    (map (stored_recording jsonb) (select_children u (t_recordings t)))
    (map (stored_span jsonb) (select_children u (t_spans t)))
    (select_children u (t_metrics t))
    (rr_failure_alias row)
    (map (stored_verification jsonb) (select_children u (t_verifications t)))
    (select_children u (t_sip_events t))
    (select_children u (t_rtp_stats t))
    (map (stored_event jsonb) (select_children u (t_timeline_events t)))
    environment_ checklist).

(** [except (SQLAlchemyError, ValidationError, ...)]: a stored row that no
    longer validates makes the repository unavailable. *)
Definition reading {A} e (m : st repo_db A) : st repo_db A :=
  catch (_ ← repo_access e; m) (fun c s =>
    throw RunRepositoryError "run repository is unavailable").

Definition get_run e (id : string) : st repo_db (option StoredRun) :=
  match parse_uuid id with
  | None => mret None
  | Some u =>
      reading e (
        db ← get_state;
        match db_runs (repo_core db) !! u with
        | None => mret None
        | Some row => Some <$> lift (_restore u row (repo_tables db))
        end)
  end.

Definition run_rows db : list (uuid * RunRow) := map_to_list (db_runs (repo_core db)).

(** [ORDER BY started_at DESC] and [ORDER BY started_at]; the order of equal
    keys is the database's. *)
Definition list_ordered e (le : uuid * RunRow -> uuid * RunRow -> bool) : st repo_db (list StoredRun) :=
  reading e (
    db ← get_state;
    lift (mapM_res (fun x => _restore x.1 x.2 (repo_tables db)) (sorted_by le (run_rows db)))).

Definition list_recent e : st repo_db (list StoredRun) :=
  list_ordered e (fun a b => rr_started_at b.2 <=? rr_started_at a.2).
Definition list_all e : st repo_db (list StoredRun) :=
  list_ordered e (fun a b => rr_started_at a.2 <=? rr_started_at b.2).
End postgres.

(** ** The in-memory repository *)
Module InMemory.
Abbreviation store := (list (string * StoredRun)).

Definition save (run : StoredRun) (runs : store) : store := dict_set (run_id run) run runs.
Definition get (id : string) (runs : store) : option StoredRun := dict_get id runs.
Definition list_recent (runs : store) : list StoredRun :=
  sorted_by (fun a b => started_at b <=? started_at a) (dict_values runs).
Definition list_all (runs : store) : list StoredRun :=
  sorted_by (fun a b => started_at a <=? started_at b) (dict_values runs).
End InMemory.

(** ** Lemmas *)

Section repository_lemmas.
Variable jsonb : jdict -> jdict.
Variable row_id : Z -> uuid.
Implicit Types (e : env) (db : repo_db) (run : StoredRun).

Lemma repo_transaction_ok {A} (m : st repo_db A) db a db' :
  repo_transaction m db = (Ok a, db') -> m db = (Ok a, db').
Proof.
  unfold repo_transaction, catch, transaction.
  destruct (m db) as [[?|c s] ?]; [by intros [= -> ->]|]. by destruct c.
Qed.

Lemma repo_transaction_run {A} (m : st repo_db A) db a db' :
  m db = (Ok a, db') -> repo_transaction m db = (Ok a, db').
Proof. unfold repo_transaction, catch, transaction. by intros ->. Qed.

Lemma clean_repo_transaction {A} (m : st repo_db A) : clean (repo_transaction m).
Proof.
  apply clean_catch; [auto with voxbench|]. intros c s. destruct c; auto with voxbench.
Qed.

Lemma repo_access_ok e db u db' : repo_access e db = (Ok u, db') -> db' = db /\ env_fault e = false.
Proof. unfold repo_access. destruct (env_fault e); [done|]. by intros [= _ ->]. Qed.

(** The database after a save. *)
Definition saved (u : uuid) run db : repo_db :=
  MkRepoDb (repo_core (upsert_run u (run_values run) db))
    (replace_children row_id u run (repo_tables db)).

Lemma save_in_session_ok run u db x db' :
  _save_in_session row_id run u db = (Ok x, db') ->
  NoDup (map ev_event_id (timeline_events run)) /\ db' = saved u run db.
Proof.
  unfold _save_in_session, mbind, st_bind, modify, get_state. cbn.
  destruct (bool_decide _) eqn:E; [|done]. apply bool_decide_eq_true in E.
  unfold put_state. by intros [= _ <-].
Qed.

Lemma save_in_session_run run u db :
  NoDup (map ev_event_id (timeline_events run)) ->
  _save_in_session row_id run u db = (Ok tt, saved u run db).
Proof.
  intros H. unfold _save_in_session, mbind, st_bind, modify, get_state. cbn.
  by rewrite bool_decide_true.
Qed.

(** What a run reads back as: the canonical spelling of its identifier, and
    what the driver makes of its JSON columns. *)
Definition stored_form (u : uuid) run : StoredRun :=
  MkStoredRun (uuid_str u) (config_hash run) (call_id run) (conversation_id run) (provider run)
    (engine run) (status run) (started_at run) (ended_at run) (jsonb (resolved_config run))
    (map (stored_recording jsonb) (recordings run)) (map (stored_span jsonb) (spans run))
    (metrics run) (failure_alias run) (map (stored_verification jsonb) (verifications run))
    (sip_events run) (rtp_stats run) (map (stored_event jsonb) (timeline_events run))
    (environment run) (readiness_checklist run).

(** The models of the run went through their validators. *)
Definition validated run : Prop :=
  (exists given, validate_environment given = Ok (environment run))
  /\ exists items, mapM_res validate_item items = Ok (readiness_checklist run).

Lemma restore_saved u run db :
  validated run ->
  _restore jsonb u (run_values run) (repo_tables (saved u run db)) = Ok (stored_form u run).
Proof.
  intros [[e0 He] [items Hi]]. unfold _restore. cbn [rr_environment_metadata run_values].
  rewrite (validate_environment_idem _ _ He). cbn [mbind result_bind].
  cbn [rr_readiness_checklist run_values].
  rewrite (mapM_res_idem _ _ _ validate_item_idem Hi).
  unfold saved, replace_children; cbn -[select_children]. by rewrite !select_added.
Qed.

Lemma restore_other u v row run db :
  v <> u ->
  _restore jsonb v row (repo_tables (saved u run db)) = _restore jsonb v row (repo_tables db).
Proof.
  intros Hne. unfold _restore, saved, replace_children; cbn -[select_children mbind].
  by rewrite !select_other.
Qed.

Lemma saved_runs u run db :
  db_runs (repo_core (saved u run db)) = <[u := run_values run]> (db_runs (repo_core db)).
Proof. done. Qed.

Lemma get_run_saved u run db e :
  validated run -> env_fault e = false -> forall id, parse_uuid id = Some u ->
  get_run jsonb e id (saved u run db) = (Ok (Some (stored_form u run)), saved u run db).
Proof.
  intros Hv Hf id Hid. unfold get_run, reading, catch, repo_access. rewrite Hid, Hf.
  unfold mbind, st_bind, get_state, mret, st_ret. cbn -[_restore saved db_runs].
  rewrite saved_runs, lookup_insert_eq. unfold fmap, st_fmap, lift.
  by rewrite (restore_saved u run db Hv).
Qed.

Lemma get_run_other u v run db e id :
  parse_uuid id = Some v -> v <> u ->
  fst (get_run jsonb e id (saved u run db)) = fst (get_run jsonb e id db).
Proof.
  intros Hid Hne. unfold get_run, reading, catch, repo_access. rewrite Hid.
  unfold mbind, st_bind, get_state, mret, st_ret, throw. destruct (env_fault e); [done|].
  cbn -[_restore saved db_runs]. rewrite saved_runs, lookup_insert_ne by done.
  destruct (db_runs (repo_core db) !! v) as [row|]; [|done].
  unfold fmap, st_fmap, lift. rewrite restore_other by done. by destruct (_restore _ _ _ _).
Qed.

Lemma save_ok e run db x db' :
  save row_id e run db = (Ok x, db') ->
  exists u, parse_uuid (run_id run) = Some u /\ env_fault e = false
    /\ NoDup (map ev_event_id (timeline_events run)) /\ db' = saved u run db.
Proof.
  unfold save, uuid_or_error, from_option_err. intros H. simpl_st.
  destruct (parse_uuid (run_id run)) as [u|]; [|done]. simpl_res.
  apply repo_transaction_ok in H. simpl_st.
  match goal with H : repo_access _ _ = _ |- _ => apply repo_access_ok in H as [-> Hf] end.
  apply save_in_session_ok in H as [? ->]. eauto.
Qed.

Lemma save_run e run db u :
  parse_uuid (run_id run) = Some u -> env_fault e = false ->
  NoDup (map ev_event_id (timeline_events run)) -> save row_id e run db = (Ok tt, saved u run db).
Proof.
  intros Hu Hf Hn. unfold save, uuid_or_error, from_option_err. rewrite Hu.
  unfold mbind at 1, st_bind at 1, lift. apply repo_transaction_run.
  unfold repo_access. rewrite Hf. unfold mbind, st_bind, mret, st_ret.
  by apply save_in_session_run.
Qed.

Lemma clean_save e run : clean (save row_id e run).
Proof. apply clean_lift_bind. intros. apply clean_repo_transaction. Qed.

Lemma saved_jobs u run db : db_jobs (repo_core (saved u run db)) = db_jobs (repo_core db).
Proof. done. Qed.

Lemma saved_wf max u run db : db_wf max (repo_core db) -> db_wf max (repo_core (saved u run db)).
Proof.
  intros [H1 H2 H3 H4]. constructor; cbn; [done..| |done]. intros id row Hr.
  rewrite dom_insert. apply H3 in Hr. set_solver.
Qed.
End repository_lemmas.

(** ** Properties of the Postgres repository *)

(** C11. A saved run reads back: [get] (under any spelling of its identifier)
    returns it with its recordings, spans, metrics, verifications, SIP events,
    RTP statistics and timeline events in their order, whatever an earlier
    save of the run had stored, and every other run reads as before. *)
Theorem save_get_round_trip jsonb row_id e run db u e2 :
  parse_uuid (run_id run) = Some u -> validated run ->
  NoDup (map ev_event_id (timeline_events run)) -> env_fault e = false -> env_fault e2 = false ->
  let '(r, db') := save row_id e run db in
  r = Ok tt
  /\ (forall id, parse_uuid id = Some u ->
       get_run jsonb e2 id db' = (Ok (Some (stored_form jsonb u run)), db'))
  /\ (forall id, parse_uuid id <> Some u ->
       fst (get_run jsonb e2 id db') = fst (get_run jsonb e2 id db))
  /\ db_jobs (repo_core db') = db_jobs (repo_core db).
Proof.
  intros Hu Hv Hn Hf Hf2. rewrite (save_run row_id e run db u) by done. split_and!; [done| | |done].
  - intros id Hid. by apply get_run_saved.
  - intros id Hid. destruct (parse_uuid id) as [v|] eqn:Ev.
    + apply get_run_other with (v := v); [done | congruence].
    + unfold get_run. by rewrite Ev.
Qed.

Section commit_lemmas.
Variable row_id : Z -> uuid.
Implicit Types (e : env) (db : repo_db) (run : StoredRun).

Lemma save_queued_run_ok e run now db r db' :
  save_queued_run row_id e run now db = (Ok r, db') ->
  exists u t, parse_uuid (run_id run) = Some u /\ _normalize_now e now = Ok t
    /\ status run = "running" /\ ended_at run = None
    /\ ((exists id row, r = uuid_str id /\ db_jobs (repo_core db) !! id = Some row
           /\ row_run_id row = u /\ db' = db)
        \/ (r = uuid_str (env_uuid e) /\ job_of_run u (db_jobs (repo_core db)) = None
            /\ db_jobs (repo_core db) !! env_uuid e = None
            /\ NoDup (map ev_event_id (timeline_events run))
            /\ repo_tables db' = repo_tables (saved row_id u run db)
            /\ repo_core db' = with_jobs (<[env_uuid e := new_job e u t]> (db_jobs (repo_core db)))
                 (repo_core (saved row_id u run db)))).
Proof.
  unfold save_queued_run, uuid_or_error, from_option_err. intros H. simpl_st. simpl_res. bool_to_prop.
  destruct (parse_uuid (run_id run)) as [u|]; [|done]. simpl_res.
  apply repo_transaction_ok in H. simpl_st.
  match goal with H : repo_access _ _ = _ |- _ => apply repo_access_ok in H as [-> Hf] end.
  eexists _, _. split_and!; [done|eassumption|done..|].
  match type of H with (match ?x with _ => _ end) _ = _ => destruct x as [[id row]|] eqn:E end.
  { simpl_st. apply job_of_run_some in E as [? ?]. left. eauto 8. }
  right. simpl_st.
  match goal with H : _save_in_session _ _ _ _ = _ |- _ => apply save_in_session_ok in H as [Hn ->] end.
  unfold on_core, insert_job in *.
  match goal with H : (let '(_, _) := (if ?b then _ else _) in _) = _ |- _ =>
    destruct b eqn:Eb; [done|]; injection H as _ <- end.
  bool_to_prop. split_and!; try done. by apply not_elem_of_dom.
Qed.

Lemma clean_save_queued e run now : clean (save_queued_run row_id e run now).
Proof. repeat (apply clean_lift_bind; intros). apply clean_repo_transaction. Qed.

(** The row a leased result may settle. *)
Definition settles (e : env) run (lease : RunJobLease) (w : string) (t : instant) (db : repo_db)
    (u j tok : uuid) (row : RunJobRow) : Prop :=
  parse_uuid (run_id run) = Some u /\ parse_uuid (lease_run_id lease) = Some u
  /\ parse_uuid (lease_job_id lease) = Some j /\ parse_uuid (lease_lease_token lease) = Some tok
  /\ db_jobs (repo_core db) !! j = Some row /\ row_run_id row = u /\ holds row w tok t.

Lemma commit_leased_result_ok e run lease w now db b db' :
  commit_leased_result row_id e run lease w now db = (Ok b, db') ->
  (status run = "completed" \/ status run = "failed") /\ ended_at run <> None
  /\ ((b = false /\ db' = db)
      \/ (b = true /\ exists u j tok t row, _normalize_now e now = Ok t
          /\ settles e run lease w t db u j tok row
          /\ NoDup (map ev_event_id (timeline_events run))
          /\ repo_tables db' = repo_tables (saved row_id u run db)
          /\ repo_core db' = with_jobs (<[j := settle_row run row]> (db_jobs (repo_core db)))
               (repo_core (saved row_id u run db)))).
Proof.
  unfold commit_leased_result. intros H. simpl_st. simpl_res. bool_to_prop.
  assert (status run = "completed" \/ status run = "failed") as Hst.
  { match goal with H : _ || _ = true |- _ => apply orb_true_iff in H as [?|?] end; bool_to_prop; auto. }
  split; [done|]. split; [by bool_to_prop|].
  destruct (parse_uuid (run_id run)) as [u|] eqn:Eu; [|simpl_st; auto].
  destruct (parse_uuid (lease_run_id lease)) as [lu|] eqn:El; [|simpl_st; auto].
  destruct (parse_uuid (lease_job_id lease)) as [j|] eqn:Ej; [|simpl_st; auto].
  destruct (parse_uuid (lease_lease_token lease)) as [tok|] eqn:Et; [|simpl_st; auto].
  destruct (lu =? u) eqn:Elu; cbn [negb] in H; [|simpl_st; auto]. bool_to_prop. subst lu.
  simpl_st. apply repo_transaction_ok in H. simpl_st.
  match goal with H : repo_access _ _ = _ |- _ => apply repo_access_ok in H as [-> Hf] end.
  match type of H with (match ?x with _ => _ end) _ = _ => destruct x as [[id row]|] eqn:E end;
    [|simpl_st; auto].
  simpl_st.
  match goal with H : _save_in_session _ _ _ _ = _ |- _ => apply save_in_session_ok in H as [Hn ->] end.
  match goal with H : on_core _ _ = _ |- _ => injection H as _ <- end.
  apply select_row_some in E as [Erow Ep]. cbn [fst snd] in *. bool_to_prop.
  match goal with H : _ && _ = true |- _ => idtac | _ => idtac end.
  right. split; [done|]. exists u, id, tok. eexists. exists row.
  repeat match goal with H : _ && _ = true |- _ => apply andb_true_iff in H as [? ?] end.
  bool_to_prop. subst. split; [eassumption|]. split_and!; try done.
  split_and!; try done. split_and!; try done.
  destruct (row_lease_expires_at row) as [exp|]; [|done]. exists exp. split; [done|]. by apply Z.ltb_lt.
Qed.

Lemma clean_commit e run lease w now : clean (commit_leased_result row_id e run lease w now).
Proof.
  unfold commit_leased_result. apply clean_lift_bind; intros _ _.
  destruct (parse_uuid (run_id run)), (parse_uuid (lease_run_id lease)),
    (parse_uuid (lease_job_id lease)), (parse_uuid (lease_lease_token lease));
    try (by intros ? ? ? ? [=]).
  case_match; [by intros ? ? ? ? [=]|]. apply clean_lift_bind; intros. apply clean_repo_transaction.
Qed.

Lemma settle_row_token run row : row_lease_token (settle_row run row) = None.
Proof. done. Qed.
End commit_lemmas.

(** C13. The worker's commit is atomic and fenced: it answers [true] only while
    the job's row holds the lease, for that run, and then the run is stored
    and its job settled in one step; in every other case, exceptions included,
    nothing changes.  A second commit under the same lease never succeeds. *)
Theorem commit_leased_result_exactly_once jsonb row_id e run lease w now db r db' :
  commit_leased_result row_id e run lease w now db = (r, db') ->
  (r <> Ok true /\ db' = db)
  \/ (r = Ok true /\ exists u j tok t row, settles e run lease w t db u j tok row
      /\ _normalize_now e now = Ok t
      /\ db_jobs (repo_core db') = <[j := settle_row run row]> (db_jobs (repo_core db))
      /\ (validated run -> forall e2, env_fault e2 = false ->
           fst (get_run jsonb e2 (run_id run) db') = Ok (Some (stored_form jsonb u run)))
      /\ forall e2 run2 w2 now2 r2 db2,
           commit_leased_result row_id e2 run2 lease w2 now2 db' = (r2, db2) ->
           r2 <> Ok true /\ db2 = db').
Proof.
  intros H. destruct r as [[]|c s].
  - right. split; [done|].
    apply commit_leased_result_ok in H as (_ & _ & [[? _]|(_ & u & j & tok & t & row & Ht & Hs & Hn & Htab & Hcore)]);
      [done|].
    pose proof Hs as (Hu & _ & Hj & Htok & Hrow & _).
    assert (db' = MkRepoDb (repo_core db') (repo_tables db')) as Hdb by (by destruct db').
    rewrite Hcore, Htab in Hdb. exists u, j, tok, t, row. split_and!; [done..|by rewrite Hcore| |].
    + intros Hv e2 Hf2. unfold get_run, reading, catch, repo_access. rewrite Hu, Hf2.
      unfold mbind, st_bind, get_state, mret, st_ret.
      assert (db_runs (repo_core db') !! u = Some (run_values run)) as ->
        by (rewrite Hcore; apply lookup_insert_eq).
      unfold fmap, st_fmap, lift. rewrite Htab.
      by rewrite (restore_saved jsonb row_id u run db Hv).
    + intros e2 run2 w2 now2 r2 db2 H2. destruct r2 as [[]|c s].
      * exfalso. apply commit_leased_result_ok in H2 as (_ & _ & [[? _]|(_ & u2 & j2 & tok2 & t2 & row2 & _ & H2 & _)]);
          [done|]. destruct H2 as (_ & _ & Hj2 & Htok2 & Hrow2 & _ & (_ & _ & Ht2 & _)).
        rewrite Hj in Hj2. injection Hj2 as <-. rewrite Hcore in Hrow2. cbn in Hrow2.
        rewrite lookup_insert_eq in Hrow2. injection Hrow2 as <-. done.
      * split; [done|]. by apply commit_leased_result_ok in H2 as (_ & _ & [[_ ->]|[? _]]).
      * split; [done|]. by eapply clean_commit.
  - left. split; [done|]. by apply commit_leased_result_ok in H as (_ & _ & [[_ ->]|[? _]]).
  - left. split; [done|]. by eapply clean_commit.
Qed.

(** [save_queued_run] stores the run together with its queued job, or
    answers the job the run already has and changes nothing, or raises and
    changes nothing; it keeps the job table well formed. *)
Theorem save_queued_run_atomic row_id max e run now db r db' :
  1 <= max -> db_wf max (repo_core db) -> uuid_ok (env_uuid e) ->
  save_queued_run row_id e run now db = (r, db') ->
  db_wf max (repo_core db')
  /\ match r with
     | Raise _ _ => db' = db
     | Ok id => exists u j row, parse_uuid (run_id run) = Some u /\ id = uuid_str j
         /\ db_jobs (repo_core db') !! j = Some row /\ row_run_id row = u
         /\ (db' = db
             \/ (u ∈ dom (db_runs (repo_core db')) /\ row_state row = queued /\ row_attempts row = 0
                 /\ repo_tables db' = repo_tables (saved row_id u run db)))
     end.
Proof.
  intros Hmax Hwf Hu H. destruct r as [id|c s].
  - apply save_queued_run_ok in H as (u & t & Hpu & Ht & _ & _ & [(j & row & -> & Hrow & Hr & ->)|
      (-> & Hno & Hfree & Hn & Htab & Hcore)]).
    + split; [done|]. exists u, j, row. auto 10.
    + split.
      * rewrite Hcore.
        apply (insert_db_wf (MkPostgresRunJobQueue max) e u t (repo_core (saved row_id u run db)));
          [done| |done|done|].
        -- by apply saved_wf.
        -- rewrite saved_runs, dom_insert. set_solver.
      * exists u, (env_uuid e). eexists. rewrite Hcore. cbn -[saved]. rewrite lookup_insert_eq.
        split_and!; [done..|]. right. split_and!; [|done..]. rewrite saved_runs, dom_insert. set_solver.
  - apply clean_save_queued in H as ->. done.
Qed.

(** ** Concrete runs *)

Definition sample_environment : RunEnvironmentMetadata :=
  MkEnvironment env_local (Some "lab-1") None None None None [] ["provider"] None [].

Definition sample_run (status_ : string) (ended : option instant) : StoredRun :=
  MkStoredRun (uuid_str 7) "hash" None "conversation" "fake" "asterisk" status_ 1000 ended []
    [MkRecording "resampler" "file:a" [("rate", JInt 8000)] (fz 20);
     MkRecording "agc" "file:b" [] (fz 20)]
    [] [MkMetric None "cpu" (fz 1) 5; MkMetric None "cpu" (fz 2) 6]
    None [] [] [] [] sample_environment _default_readiness_checklist.

Definition empty_tables : tables := MkTables [] [] [] [] [] [] [].
Definition empty_repo : repo_db := MkRepoDb (MkDatabase ∅ ∅) empty_tables.

Definition sample_repo : repo_db :=
  snd (save_queued_run (fun o => o) (sample_env 10 100) (sample_run "running" None) None empty_repo).
Definition sample_repo_leased : repo_db :=
  snd (on_core (claim sample_queue (sample_env 20 200) "worker-1" 60 None) sample_repo).
Definition sample_repo_lease : RunJobLease :=
  MkRunJobLease (uuid_str 100) (uuid_str 7) (uuid_str 200) 1 60000020 false.

Lemma sample_validated status_ ended : validated (sample_run status_ ended).
Proof.
  split; [exists sample_environment | exists _default_readiness_checklist]; vm_compute; reflexivity.
Defined.

Lemma save_get_round_trip_witness :
  fst (get_run (fun d => d) (sample_env 30 300) (uuid_str 7)
    (snd (save (fun o => o) (sample_env 20 200) (sample_run "running" None) sample_repo)))
  = Ok (Some (sample_run "running" None)).
Proof.
  pose proof (save_get_round_trip (fun d => d) (fun o => o) (sample_env 20 200)
    (sample_run "running" None) sample_repo 7 (sample_env 30 300)) as H.
  destruct (save (fun o => o) (sample_env 20 200) (sample_run "running" None) sample_repo) as [r db'].
  destruct H as (_ & H & _); [vm_compute; reflexivity | apply sample_validated | constructor |
    reflexivity | reflexivity |].
  cbn [snd]. rewrite (H (uuid_str 7)); vm_compute; reflexivity.
Defined.

Lemma commit_leased_result_exactly_once_witness :
  exists u j tok t row, settles (sample_env 30 300) (sample_run "completed" (Some 2000))
       sample_repo_lease "worker-1" t sample_repo_leased u j tok row.
Proof.
  destruct (commit_leased_result_exactly_once (fun d => d) (fun o => o) (sample_env 30 300)
    (sample_run "completed" (Some 2000)) sample_repo_lease "worker-1" None sample_repo_leased
    (fst (commit_leased_result (fun o => o) (sample_env 30 300) (sample_run "completed" (Some 2000))
      sample_repo_lease "worker-1" None sample_repo_leased))
    (snd (commit_leased_result (fun o => o) (sample_env 30 300) (sample_run "completed" (Some 2000))
      sample_repo_lease "worker-1" None sample_repo_leased))) as [[H _]|(_ & u & j & tok & t & row & H & _)].
  - apply surjective_pairing.
  - exfalso. apply H. vm_compute. reflexivity.
  - exists u, j, tok, t, row. exact H.
Defined.

Lemma save_queued_run_atomic_witness : db_wf 2 (repo_core sample_repo).
Proof.
  eapply (save_queued_run_atomic (fun o => o) 2 (sample_env 10 100) (sample_run "running" None) None
    empty_repo); [done | | solve_uuid | apply surjective_pairing].
  constructor; cbn; intros *; by rewrite lookup_empty.
Defined.
