(* ===== verification/RunWorker.v ===== *)
(** * The run worker, its heartbeat and its supervisor

    [control_plane/run_worker.py].  The worker is written against an interface
    ([WorkerOps], the protocols [RunJobQueue] and [FencedRunRepository] and the
    executor) over a world [W] that other workers change too; its theorems use
    the laws of [FencedStore] only, and the last section discharges them for
    the Postgres queue and repository.

    While the executor runs, the heartbeat thread ticks.  A schedule lists what
    the rest of the world does before each tick; [join_timeout] says that the
    thread was still running one second after [stop]. *)
From S2P Require Import Prelude Effects Collections PyFloat PyData JobQueue RunModel Repository.

Open Scope Z_scope.

Inductive RunWorkerOutcome : Type :=
  | idle | completed_run | retry_scheduled | failed_run | run_missing | lease_lost.
#[export] Instance RunWorkerOutcome_eq_dec : EqDecision RunWorkerOutcome.
Proof. solve_decision. Defined.

Record RunWorkerResult := MkRunWorkerResult {
  outcome : RunWorkerOutcome; res_job_id : option string; res_run_id : option string;
  res_attempt : option Z }.

Definition lease_result (o : RunWorkerOutcome) (lease : RunJobLease) : RunWorkerResult :=
  MkRunWorkerResult o (Some (lease_job_id lease)) (Some (lease_run_id lease))
    (Some (lease_attempt lease)).

(** [outcome=o if done else "lease_lost"]. *)
Definition fenced_result (o : RunWorkerOutcome) (lease : RunJobLease) (done : bool) : RunWorkerResult :=
  lease_result (if done then o else lease_lost) lease.

Definition _is_safe_alias (value : option string) : bool :=
  match value with
  | None => false
  | Some v => (1 <=? strlen v) && (strlen v <=? 128) && is_ascii v
      && forallb (fun c => is_ascii_alnum c || char_in ["-"; "_"; "."]%char c) (chars v)
  end.

(** ** The interface of the worker *)

Class WorkerOps (W : Type) := {
  q_claim : string -> Z -> st W (option RunJobLease);
  q_heartbeat : RunJobLease -> string -> Z -> st W bool;
  q_fail : RunJobLease -> string -> string -> bool -> Z -> st W bool;
  repo_get : string -> st W (option StoredRun);
  repo_commit : StoredRun -> RunJobLease -> string -> st W bool;
  (** [execute(run)] mutates the run; [true] when it raised *)
  execute : StoredRun -> W -> StoredRun * bool * W;
  clock : W -> instant
}.

Record RunJobWorker := MkRunJobWorker {
  worker_id : string; lease_seconds : Z; heartbeat_interval_seconds : float;
  retry_delay_seconds : Z }.

(** [RunJobWorker.__post_init__]. *)
Definition make_worker (w : RunJobWorker) : result RunJobWorker :=
  _ ← guard_else (_is_safe_alias (Some (worker_id w))) ValueError "run-worker-id-invalid";
  _ ← guard_else ((5 <=? lease_seconds w) && (lease_seconds w <=? 300)) ValueError
        "run-worker-lease-seconds-invalid";
  half ← int_truediv (lease_seconds w) 2;
  _ ← guard_else (fleb (fz 1) (heartbeat_interval_seconds w)
                  && fleb (heartbeat_interval_seconds w) half) ValueError
        "run-worker-heartbeat-interval-invalid";
  _ ← guard_else ((0 <=? retry_delay_seconds w) && (retry_delay_seconds w <=? 3600)) ValueError
        "run-worker-retry-delay-invalid";
  Ok w.

Section worker.
Context {W : Type} `{WorkerOps W}.
Variable self : RunJobWorker.

(** [_LeaseHeartbeat._run]: a tick that is not active, or that raises
    [RunJobQueueError], marks the lease lost and ends the thread; any other
    exception ends it without a mark. *)
Fixpoint heartbeat_run (lease : RunJobLease) (ticks : list (W -> W)) (s : W) : bool * W :=
  match ticks with
  | [] => (false, s)
  | others :: ticks' =>
      match q_heartbeat (W := W) lease (worker_id self) (lease_seconds self) (others s) with
      | (Ok true, s') => heartbeat_run lease ticks' s'
      | (Ok false, s') | (Raise RunJobQueueError _, s') =>
          (true, fold_left (fun w f => f w) ticks' s')
      | (Raise _ _, s') => (false, fold_left (fun w f => f w) ticks' s')
      end
  end.

(** [_LeaseHeartbeat.stop]: whether the lease is still active. *)
Definition heartbeat_stop (lost join_timeout : bool) : bool := negb (lost || join_timeout).

Definition with_failure (alias : string) (ended : instant) (run : StoredRun) : StoredRun :=
  MkStoredRun (run_id run) (config_hash run) (call_id run) (conversation_id run) (provider run)
    (engine run) "failed" (started_at run) (Some ended) (resolved_config run) (recordings run)
    (spans run) (metrics run) (Some alias) (verifications run) (sip_events run) (rtp_stats run)
    (timeline_events run) (environment run) (readiness_checklist run).

Definition _record_failure (run : StoredRun) (lease : RunJobLease) (alias : string)
    : st W RunWorkerResult :=
  if lease_final_attempt lease then
    s ← get_state;
    committed ← repo_commit (with_failure alias (clock s) run) lease (worker_id self);
    mret (fenced_result failed_run lease committed)
  else
    scheduled ← q_fail lease (worker_id self) alias true (retry_delay_seconds self);
    mret (fenced_result retry_scheduled lease scheduled).

(** The alias recorded when the executor returned without completing. *)
Definition result_alias (run : StoredRun) : string :=
  match failure_alias run with
  | Some a => if bool_decide (status run = "failed") && _is_safe_alias (Some a)
              then a else "run-result-invalid"
  | None => "run-result-invalid"
  end.

Definition run_one (ticks : list (W -> W)) (join_timeout : bool) : st W RunWorkerResult :=
  claimed ← q_claim (worker_id self) (lease_seconds self);
  match claimed with
  | None => mret (MkRunWorkerResult idle None None None)
  | Some lease =>
      found ← repo_get (lease_run_id lease);
      match found with
      | None =>
          failed ← q_fail lease (worker_id self) "run-not-found" false 0;
          mret (fenced_result run_missing lease failed)
      | Some run =>
          s ← get_state;
          let '(run', raised, s1) := execute run s in
          let '(lost, s2) := heartbeat_run lease ticks s1 in
          _ ← put_state s2;
          if negb (heartbeat_stop lost join_timeout) then mret (lease_result lease_lost lease)
          else if negb raised && bool_decide (status run' = "completed")
                  && negb (bool_decide (ended_at run' = None)) then
            committed ← repo_commit run' lease (worker_id self);
            mret (fenced_result completed_run lease committed)
          else
            _record_failure run' lease
              (if raised then "engine-harness-error" else result_alias run')
      end
  end.
End worker.

(** ** The laws the worker relies on *)

(** [phase_at s id] is the phase of the job [id] (by its textual identifier),
    [same_jobs] the equality of what the queue and the repository store. *)
Class FencedStore (W : Type) `{WorkerOps W} := {
  phase_at : W -> string -> option job_phase;
  same_store : W -> W -> Prop;
  fail_law : forall lease w alias retry delay s b s',
    q_fail lease w alias retry delay s = (Ok b, s') ->
    if b then exists a, (phase_at s' (lease_job_id lease) = Some (Failed alias a)
                         \/ retry = true /\ exists t, phase_at s' (lease_job_id lease) = Some (Queued t a))
    else same_store s s';
  commit_law : forall run lease w s b s',
    repo_commit run lease w s = (Ok b, s') ->
    if b then exists a, phase_at s' (lease_job_id lease) =
        if bool_decide (status run = "completed") then Some (Completed a)
        else (fun alias => Failed alias a) <$> failure_alias run
    else same_store s s'
}.

(** ** The supervisor *)

Record RunWorkerTelemetry := MkTelemetry {
  processed_total : Z; error_total : Z; lease_lost_total : Z }.

Record RunWorkerSupervisor := MkSupervisorConfig {
  idle_wait_seconds : float; error_wait_seconds : float; shutdown_timeout_seconds : float }.

Definition in_bounds (lo hi x : float) : bool := fleb lo x && fleb x hi.

(** [RunWorkerSupervisor.__post_init__]. *)
Definition make_supervisor (c : RunWorkerSupervisor) : result RunWorkerSupervisor :=
  _ ← guard_else (in_bounds (flit 5 100) (fz 10) (idle_wait_seconds c)) ValueError
        "run-worker-idle-wait-invalid";
  _ ← guard_else (in_bounds (flit 1 10) (fz 60) (error_wait_seconds c)) ValueError
        "run-worker-error-wait-invalid";
  _ ← guard_else (in_bounds (flit 1 10) (fz 30) (shutdown_timeout_seconds c)) ValueError
        "run-worker-shutdown-timeout-invalid";
  Ok c.

(** One turn of [_run]: what [run_one] did and whether the stop event was set
    during the wait that follows; answers the counters and whether the loop
    goes on. *)
Definition loop_turn (t : RunWorkerTelemetry) (r : result RunWorkerResult) (stop_in_wait : bool)
    : RunWorkerTelemetry * bool :=
  match r with
  | Raise _ _ =>
      (MkTelemetry (processed_total t) (error_total t + 1) (lease_lost_total t), negb stop_in_wait)
  | Ok res =>
      let o := outcome res in
      let t' := if bool_decide (o = idle) then t
                else MkTelemetry (processed_total t + 1) (error_total t)
                       (lease_lost_total t + (if bool_decide (o = lease_lost) then 1 else 0)) in
      let waits := bool_decide (o = idle) || bool_decide (o = lease_lost) in
      (t', negb (waits && stop_in_wait))
  end.

Record turn := MkTurn { stop_before : bool; turn_result : result RunWorkerResult; stop_in_wait : bool }.

(** The loop over the turns the outside world offers; answers the counters and
    the results of the [run_one] calls made. *)
Fixpoint supervise (t : RunWorkerTelemetry) (turns : list turn)
    : RunWorkerTelemetry * list (result RunWorkerResult) :=
  match turns with
  | [] => (t, [])
  | x :: turns' =>
      if stop_before x then (t, [])
      else
        let '(t', continue) := loop_turn t (turn_result x) (stop_in_wait x) in
        if continue then
          let '(t2, rs) := supervise t' turns' in (t2, turn_result x :: rs)
        else (t', [turn_result x])
  end.

(** Starting and stopping: the thread the supervisor holds, the threads alive,
    and the stop event. *)
Record supervisor_state := MkSupervisor {
  sup_stop : bool; sup_thread : option nat; sup_alive : gset nat; sup_next : nat }.

Definition sup_initial : supervisor_state := MkSupervisor false None ∅ 0.

Definition is_running (s : supervisor_state) : bool :=
  match sup_thread s with Some t => bool_decide (t ∈ sup_alive s) | None => false end.

Definition sup_start (s : supervisor_state) : bool * supervisor_state :=
  if is_running s then (false, s)
  else (true, MkSupervisor false (Some (sup_next s)) ({[ sup_next s ]} ∪ sup_alive s) (S (sup_next s))).

(** [stop] up to its [join]: the thread it will wait for. *)
Definition sup_stop_begin (s : supervisor_state) : option nat * supervisor_state :=
  (sup_thread s, MkSupervisor true (sup_thread s) (sup_alive s) (sup_next s)).

(** [stop] after the [join] of [thread]. *)
Definition sup_stop_end (thread : nat) (s : supervisor_state) : bool * supervisor_state :=
  if bool_decide (thread ∈ sup_alive s) then (false, s)
  else (true, MkSupervisor (sup_stop s)
          (if bool_decide (sup_thread s = Some thread) then None else sup_thread s)
          (sup_alive s) (sup_next s)).

Inductive sup_step : supervisor_state -> supervisor_state -> Prop :=
  | step_start s : sup_step s (snd (sup_start s))
  | step_stop_begin s : sup_step s (snd (sup_stop_begin s))
  | step_stop_end s t : sup_step s (snd (sup_stop_end t s))
  | step_exit s t : sup_step s
      (MkSupervisor (sup_stop s) (sup_thread s) (sup_alive s ∖ {[ t ]}) (sup_next s)).

(** ** Lemmas *)

Lemma forallb_negb_existsb {A} (p : A -> bool) l :
  forallb p l = negb (existsb (fun x => negb (p x)) l).
Proof. induction l as [|x l IH]; cbn; [done|]. rewrite IH. by destruct (p x). Qed.

(** The worker's alias check is the queue's. *)
Lemma is_safe_alias_valid v reason :
  _is_safe_alias (Some v) = true <-> _validate_alias v reason = Ok tt.
Proof.
  unfold _is_safe_alias, _validate_alias. rewrite forallb_negb_existsb.
  destruct ((1 <=? strlen v) && (strlen v <=? 128)), (is_ascii v), (existsb _ (chars v));
    cbn; split; done.
Qed.

Lemma result_alias_safe run : _is_safe_alias (Some (result_alias run)) = true.
Proof.
  unfold result_alias. destruct (failure_alias run) as [a|]; [|reflexivity].
  destruct (bool_decide (status run = "failed") && _is_safe_alias (Some a)) eqn:E; [|reflexivity].
  by apply andb_true_iff in E as [_ ?].
Qed.

Section worker_lemmas.
Context {W : Type} `{FencedStore W}.
Variable self : RunJobWorker.

(** What an outcome says of the job it names. *)
Definition outcome_holds (r : RunWorkerResult) (s : W) : Prop :=
  match outcome r with
  | idle => res_job_id r = None
  | completed_run => exists id a, res_job_id r = Some id /\ phase_at s id = Some (Completed a)
  | failed_run => exists id alias a, res_job_id r = Some id
      /\ phase_at s id = Some (Failed alias a) /\ _is_safe_alias (Some alias) = true
  | retry_scheduled => exists id alias a t, res_job_id r = Some id
      /\ _is_safe_alias (Some alias) = true
      /\ (phase_at s id = Some (Queued t a) \/ phase_at s id = Some (Failed alias a))
  | run_missing => exists id a, res_job_id r = Some id
      /\ phase_at s id = Some (Failed "run-not-found" a)
  | lease_lost => exists id, res_job_id r = Some id
  end.

Lemma record_failure_holds run lease alias s r s' :
  _is_safe_alias (Some alias) = true ->
  _record_failure self run lease alias s = (Ok r, s') -> outcome_holds r s'.
Proof.
  intros Ha. unfold _record_failure. destruct (lease_final_attempt lease); intros Hr; simpl_st.
  - match goal with H : repo_commit _ _ _ _ = _ |- _ => apply commit_law in H as Hc end.
    destruct a0; unfold outcome_holds; cbn; [|eauto].
    destruct Hc as [a Hc]. cbn in Hc. rewrite bool_decide_false in Hc by done. eauto 10.
  - match goal with H : q_fail _ _ _ _ _ _ = _ |- _ => apply fail_law in H as Hc end.
    destruct a; unfold outcome_holds; cbn; [|eauto].
    destruct Hc as (a & [Hc|(_ & t & Hc)]); [exists (lease_job_id lease), alias, a, 0 | exists (lease_job_id lease), alias, a, t]; auto.
Qed.
End worker_lemmas.

(** ** Properties of the worker *)

(** C16. The outcome [run_one] reports is true of the store when it returns,
    whatever the executor did, however the heartbeats interleaved with other
    workers: a completed run's job is completed, a failed one's job has failed
    with a safe alias, a retried one's job waits in the queue again (or has
    used its attempts up), and a missing run's job has failed. *)
Theorem run_one_outcome_holds {W} `{FencedStore W} self ticks join_timeout (s : W) r s' :
  run_one self ticks join_timeout s = (Ok r, s') -> outcome_holds r s'.
Proof.
  unfold run_one. intros Hr. simpl_st. destruct a as [lease|]; [|simpl_st; done].
  simpl_st. destruct a as [run|].
  - simpl_st. destruct (execute run _) as [[run' raised] sx] eqn:Ex.
    destruct (heartbeat_run _ _ _ _) as [lost sy] eqn:Eh. simpl_st.
    destruct (heartbeat_stop lost join_timeout); cbn [negb] in Hr; [|simpl_st; by eexists].
    destruct (negb raised && _ && _) eqn:Eok.
    + simpl_st. match goal with H : repo_commit _ _ _ _ = _ |- _ => apply commit_law in H as Hc end.
      destruct a; unfold outcome_holds; cbn; [|eauto]. destruct Hc as [a Hc].
      apply andb_true_iff in Eok as [[_ Hs]%andb_true_iff _]. rewrite Hs in Hc. eauto.
    + eapply record_failure_holds; [|exact Hr]. destruct raised; [reflexivity|].
      apply result_alias_safe.
  - simpl_st. match goal with H : q_fail _ _ _ _ _ _ = _ |- _ => apply fail_law in H as Hc end.
    destruct a; unfold outcome_holds; cbn; [|eauto].
    destruct Hc as (a & [Hc|(Hf & _)]); [eauto | done].
Qed.

(** When a heartbeat finds the lease lost, or its thread does not end in
    time, [run_one] reports a lost lease and does nothing more to the store:
    no result is written and the job is not failed. *)
Theorem lost_heartbeat_writes_nothing {W} `{WorkerOps W} self ticks join_timeout (s : W) lease s1
    run s2 run' raised s3 lost s4 :
  q_claim (worker_id self) (lease_seconds self) s = (Ok (Some lease), s1) ->
  repo_get (lease_run_id lease) s1 = (Ok (Some run), s2) ->
  execute run s2 = (run', raised, s3) -> heartbeat_run self lease ticks s3 = (lost, s4) ->
  lost = true \/ join_timeout = true ->
  run_one self ticks join_timeout s = (Ok (lease_result lease_lost lease), s4).
Proof.
  intros H1 H2 H3 H4 Hl. unfold run_one. unfold mbind, st_bind. rewrite H1, H2.
  unfold get_state. rewrite H3, H4. unfold put_state, heartbeat_stop.
  by destruct Hl as [->| ->]; rewrite ?orb_true_r.
Qed.

(** [run_one] contains every exception of the executor: it returns
    whenever the queue and the repository do. *)
Theorem run_one_contains_executor_errors {W} `{WorkerOps W} self ticks join_timeout (s : W) :
  (forall w n s, is_ok (fst (q_claim w n s)) = true) ->
  (forall l w a b n s, is_ok (fst (q_fail l w a b n s)) = true) ->
  (forall id s, is_ok (fst (repo_get id s)) = true) ->
  (forall run l w s, is_ok (fst (repo_commit run l w s)) = true) ->
  exists r s', run_one self ticks join_timeout s = (Ok r, s').
Proof.
  intros Hc Hf Hg Hm.
  assert (forall run lease alias s0, exists r s',
    _record_failure self run lease alias s0 = (Ok r, s')) as Hrec.
  { intros run lease alias s0. unfold _record_failure, mbind, st_bind, get_state.
    destruct (lease_final_attempt lease).
    - specialize (Hm (with_failure alias (clock s0) run) lease (worker_id self) s0).
      destruct (repo_commit _ _ _ s0) as [[?|] ?]; [by eexists _, _ | done].
    - specialize (Hf lease (worker_id self) alias true (retry_delay_seconds self) s0).
      destruct (q_fail _ _ _ _ _ s0) as [[?|] ?]; [by eexists _, _ | done]. }
  unfold run_one, mbind, st_bind.
  specialize (Hc (worker_id self) (lease_seconds self) s).
  destruct (q_claim _ _ s) as [[[lease|]|] s1]; [|by eexists _, _|done].
  specialize (Hg (lease_run_id lease) s1).
  destruct (repo_get _ s1) as [[[run|]|] s2]; [| |done].
  - unfold get_state. destruct (execute run s2) as [[run' raised] s3].
    destruct (heartbeat_run _ _ _ _) as [lost s4]. unfold put_state.
    destruct (negb _); [by eexists _, _|]. destruct (negb raised && _ && _); [|apply Hrec].
    specialize (Hm run' lease (worker_id self) s4).
    destruct (repo_commit _ _ _ s4) as [[?|] ?]; [by eexists _, _ | done].
  - specialize (Hf lease (worker_id self) "run-not-found" false 0 s2).
    destruct (q_fail _ _ _ _ _ s2) as [[?|] ?]; [by eexists _, _ | done].
Qed.

(** ** Properties of the supervisor *)

Definition outcome_is (o : RunWorkerOutcome) (r : result RunWorkerResult) : bool :=
  match r with Ok res => bool_decide (outcome res = o) | Raise _ _ => false end.

(** The telemetry counts what happened: every [run_one] that was not idle
    is processed, every one that raised is an error and every lost lease is
    counted once; the calls made are a prefix of the turns, none of them after
    the stop event was seen. *)
Theorem supervisor_counts turns t t' rs :
  supervise t turns = (t', rs) ->
  processed_total t' = processed_total t + countb (fun r => is_ok r && negb (outcome_is idle r)) rs
  /\ error_total t' = error_total t + countb (fun r => negb (is_ok r)) rs
  /\ lease_lost_total t' = lease_lost_total t + countb (outcome_is lease_lost) rs
  /\ rs = map turn_result (take (length rs) turns)
  /\ Forall (fun x => stop_before x = false) (take (length rs) turns).
Proof.
  revert t t' rs; induction turns as [|x turns IH]; intros t t' rs Hs; cbn in Hs.
  { injection Hs as <- <-. cbn. split_and!; [lia..|done|constructor]. }
  destruct (stop_before x) eqn:Eb; [injection Hs as <- <-; cbn; split_and!; [lia..|done|constructor]|].
  destruct (loop_turn t (turn_result x) (stop_in_wait x)) as [t1 go] eqn:El.
  assert (processed_total t1 = processed_total t
      + (if is_ok (turn_result x) && negb (outcome_is idle (turn_result x)) then 1 else 0)
    /\ error_total t1 = error_total t + (if negb (is_ok (turn_result x)) then 1 else 0)
    /\ lease_lost_total t1 = lease_lost_total t
      + (if outcome_is lease_lost (turn_result x) then 1 else 0)) as (Hp & He & Hl).
  { unfold loop_turn in El. destruct (turn_result x) as [res|c e]; injection El as <- _;
      cbn; [|lia]. destruct (outcome res); repeat case_bool_decide; cbn; try done; lia. }
  destruct go; [destruct (supervise t1 turns) as [t2 rs'] eqn:E2; injection Hs as <- <-
               | injection Hs as <- <-].
  - destruct (IH _ _ _ E2) as (H1 & H2 & H3 & H4 & H5). cbn [countb length take].
    split_and!; [lia..| |by constructor]. cbn. by f_equal.
  - cbn [countb length take]. split_and!; [lia..|done|by repeat constructor].
Qed.

(** However starts, stops and thread exits interleave, at most one worker
    thread is alive, and it is the one the supervisor holds. *)
Theorem supervisor_single_thread s :
  rtc sup_step sup_initial s ->
  (forall t, t ∈ sup_alive s -> sup_thread s = Some t /\ (t < sup_next s)%nat)
  /\ (is_running s = true <-> sup_alive s <> ∅).
Proof.
  intros Hr.
  assert (forall t, t ∈ sup_alive s -> sup_thread s = Some t /\ (t < sup_next s)%nat) as Hinv.
  { revert Hr. apply (rtc_ind_r (fun s => forall t, t ∈ sup_alive s ->
      sup_thread s = Some t /\ (t < sup_next s)%nat)); [set_solver|].
    intros y z _ Hyz IH. destruct Hyz as [s0|s0|s0 t0|s0 t0].
    - unfold sup_start, is_running. destruct (sup_thread s0) as [t0|] eqn:Et; cbn.
      + case_bool_decide as Hd; cbn; [by rewrite Et|].
        intros t [->%elem_of_singleton|Ht]%elem_of_union; [split; [done | lia]|].
        destruct (IH t Ht) as [[= ->] _]. done.
      + intros t [->%elem_of_singleton|Ht]%elem_of_union; [split; [done | lia]|].
        apply IH in Ht as [? _]. congruence.
    - exact IH.
    - unfold sup_stop_end. case_bool_decide as Hd; cbn; [exact IH|]. intros t Ht.
      destruct (IH t Ht) as [Hth Hlt]. split; [|done]. rewrite bool_decide_false; [done|].
      rewrite Hth. intros [= ->]. done.
    - intros t [Ht _]%elem_of_difference. by apply IH. }
  split; [done|]. unfold is_running. split.
  - destruct (sup_thread s) as [t|]; [|done]. intros ?%bool_decide_eq_true. set_solver.
  - intros [t Ht]%set_choose_L. destruct (Hinv t Ht) as [-> _]. by apply bool_decide_eq_true.
Qed.

(** ** The Postgres implementation of the interface *)

(** The database and the number of calls made; [envs] gives what each call
    observes. *)
Record world := MkWorld { w_repo : repo_db; w_calls : nat }.

Section postgres_worker.
Variable jsonb : jdict -> jdict.
Variable row_id : Z -> uuid.
Variable queue : PostgresRunJobQueue.
Variable envs : nat -> env.
(** The executor: the run it leaves, whether it raised, and what it did. *)
Variable executor : StoredRun -> world -> StoredRun * bool * world.

Definition with_env {A} (m : env -> st repo_db A) : st world A := fun w =>
  let '(r, db) := m (envs (w_calls w)) (w_repo w) in (r, MkWorld db (S (w_calls w))).

#[export] Instance postgres_ops : WorkerOps world := {
  q_claim w secs := with_env (fun e => on_core (claim queue e w secs None));
  q_heartbeat lease w secs := with_env (fun e => on_core (heartbeat e lease w secs None));
  q_fail lease w alias retry delay :=
    with_env (fun e => on_core (fail queue e lease w alias retry delay None));
  repo_get id := with_env (fun e => get_run jsonb e id);
  repo_commit run lease w := with_env (fun e => commit_leased_result row_id e run lease w None);
  execute := executor;
  clock w := env_now (envs (w_calls w))
}.

Definition world_phase (w : world) (id : string) : option job_phase :=
  match parse_uuid id with
  | Some u => db_jobs (repo_core (w_repo w)) !! u ≫= phase_of
  | None => None
  end.

Lemma with_env_ok {A} (m : env -> st repo_db A) w a w' :
  with_env m w = (Ok a, w') -> m (envs (w_calls w)) (w_repo w) = (Ok a, w_repo w').
Proof. unfold with_env. destruct (m _ _) as [r db]. by intros [= -> <-]. Qed.

Lemma postgres_fail_law (lease : RunJobLease) w alias retry delay s b s' :
  q_fail lease w alias retry delay s = (Ok b, s') ->
  if b then exists a, (world_phase s' (lease_job_id lease) = Some (Failed alias a)
                       \/ retry = true /\ exists t, world_phase s' (lease_job_id lease) = Some (Queued t a))
  else w_repo s = w_repo s'.
Proof.
  intros Hq.
  pose proof (with_env_ok (fun e => on_core (fail queue e lease w alias retry delay None)) s b s' Hq)
    as Hf. unfold on_core in Hf.
  destruct (fail _ _ _ _ _ _ _ _ _) as [r core] eqn:E. injection Hf as -> Hdb.
  apply fail_ok in E as (t & _ & _ & j & tok & Hj & _ & [(-> & row & Hrow & _ & ->)|(-> & -> & _)]).
  - exists (row_attempts row). unfold world_phase. rewrite Hj, <- Hdb. cbn.
    rewrite lookup_insert_eq. unfold fail_row. destruct retry; cbn [andb]; [|by left].
    destruct (row_attempts row <? max_attempts queue); [right; split; [done | by eexists] | by left].
  - rewrite <- Hdb. by destruct (w_repo s).
Qed.

Lemma postgres_commit_law run (lease : RunJobLease) w s b s' :
  repo_commit run lease w s = (Ok b, s') ->
  if b then exists a, world_phase s' (lease_job_id lease) =
      if bool_decide (status run = "completed") then Some (Completed a)
      else (fun alias => Failed alias a) <$> failure_alias run
  else w_repo s = w_repo s'.
Proof.
  intros Hc.
  pose proof (with_env_ok (fun e => commit_leased_result row_id e run lease w None) s b s' Hc) as Hm.
  apply commit_leased_result_ok in Hm
    as (Hst & _ & [[-> H]|(-> & u & j & tok & t & row & _ & Hs & _ & _ & H)]); [done|]. destruct Hs as (_ & _ & Hj & _). exists (row_attempts row).
  unfold world_phase. rewrite Hj, H. cbn. rewrite lookup_insert_eq. cbn. unfold settle_row, phase_of.
  destruct Hst as [-> | ->]; cbn; [done|]. by destruct (failure_alias run).
Qed.

#[export] Instance postgres_store : FencedStore world := {
  phase_at := world_phase;
  same_store a b := w_repo a = w_repo b;
  fail_law := postgres_fail_law;
  commit_law := postgres_commit_law
}.
End postgres_worker.

(** ** Concrete runs *)

Definition sample_world : world := MkWorld sample_repo 0.
Definition sample_envs (n : nat) : env :=
  sample_env (seconds (20 + Z.of_nat n)) (1000 + Z.of_nat n).
Definition sample_executor (run : StoredRun) (w : world) : StoredRun * bool * world :=
  (sample_run "completed" (Some 2000), false, w).
Definition sample_worker : RunJobWorker := MkRunJobWorker "worker-1" 60 (fz 20) 5.

Lemma run_one_outcome_holds_witness :
  exists id a, Some (uuid_str 100) = Some id
    /\ world_phase (snd (run_one (H := postgres_ops (fun d => d) (fun o => o) sample_queue sample_envs
         sample_executor) sample_worker [] false sample_world)) id = Some (Completed a).
Proof.
  exact (run_one_outcome_holds (H := postgres_ops (fun d => d) (fun o => o) sample_queue sample_envs
    sample_executor) (H0 := postgres_store (fun d => d) (fun o => o) sample_queue sample_envs
    sample_executor) sample_worker [] false sample_world
    (lease_result completed_run (MkRunJobLease (uuid_str 100) (uuid_str 7) (uuid_str 1000) 1
      (seconds 80) false)) _ ltac:(vm_compute; reflexivity)).
Defined.

Lemma lost_heartbeat_writes_nothing_witness :
  exists s, run_one (H := postgres_ops (fun d => d) (fun o => o) sample_queue sample_envs
      sample_executor) sample_worker [] true sample_world
    = (Ok (lease_result lease_lost (MkRunJobLease (uuid_str 100) (uuid_str 7) (uuid_str 1000) 1
        (seconds 80) false)), s).
Proof.
  eexists. eapply (lost_heartbeat_writes_nothing (H := postgres_ops (fun d => d) (fun o => o)
    sample_queue sample_envs sample_executor) sample_worker [] true sample_world).
  - vm_compute. reflexivity.
  - vm_compute. reflexivity.
  - vm_compute. reflexivity.
  - reflexivity.
  - right. reflexivity.
Defined.

(** A world whose operations never raise. *)
Definition quiet_ops : WorkerOps unit := {|
  q_claim _ _ := mret (Some sample_lease);
  q_heartbeat _ _ _ := mret true;
  q_fail _ _ _ _ _ := mret true;
  repo_get _ := mret (Some (sample_run "running" None));
  repo_commit _ _ _ := mret true;
  execute run w := (run, true, w);
  clock _ := 0
|}.

Lemma run_one_contains_executor_errors_witness :
  exists r s', run_one (H := quiet_ops) sample_worker [] false tt = (Ok r, s').
Proof.
  apply (run_one_contains_executor_errors (H := quiet_ops)); intros; reflexivity.
Defined.

Lemma supervisor_counts_witness :
  let turns := [MkTurn false (Ok (MkRunWorkerResult idle None None None)) false;
                MkTurn false (Raise RunJobQueueError "") true;
                MkTurn false (Ok (lease_result lease_lost sample_lease)) false] in
  error_total (fst (supervise (MkTelemetry 0 0 0) turns)) = 0 + 1.
Proof.
  eapply (supervisor_counts
    [MkTurn false (Ok (MkRunWorkerResult idle None None None)) false;
     MkTurn false (Raise RunJobQueueError "") true;
     MkTurn false (Ok (lease_result lease_lost sample_lease)) false] (MkTelemetry 0 0 0) _
    [Ok (MkRunWorkerResult idle None None None); Raise RunJobQueueError ""]).
  vm_compute. reflexivity.
Defined.

Lemma supervisor_single_thread_witness :
  is_running (snd (sup_start sup_initial)) = true.
Proof.
  apply (supervisor_single_thread (snd (sup_start sup_initial))).
  - apply rtc_once. apply step_start.
  - cbn. set_solver.
Defined.
