(* ===== verification/Observer.v ===== *)
(** * The observation hooks

    [observability/observer.py] without the JSON payloads and the HTTP client:
    RTP header decoding and validation, capture health, the observer with its
    pending observations and [flush], the packet tap adapter, and the PCM
    measurements (RMS, peak and silence, discontinuities).  [math.log10] is a
    parameter of the measurements that use it; the clock is an argument. *)
From S2P Require Import Prelude Effects Collections PyFloat PyData Bytes.

Open Scope Z_scope.

(** ** Observed values *)

Definition _SENSITIVE_REFERENCE_MARKERS : list string := ["http://"; "https://"; "<@"; "slack://"].

(** [str(n)] of an integer. *)
Definition int_str (z : Z) : string := pretty z.

Definition _validate_safe_reference (value field_name : string) (max_length : Z) : result unit :=
  if (strlen value =? 0)
     || negb (String.eqb value (strip value))
     || (max_length <? strlen value)
     || existsb (fun c => code c <? 32) (chars value)
     || existsb (contains (lower value)) _SENSITIVE_REFERENCE_MARKERS
  then Raise ValueError (field_name +:+ " must contain 1 to " +:+ int_str max_length
                         +:+ " safe alias characters")
  else Ok tt.

Record MetricPoint := MkMetricPoint {
  mp_name : string; mp_value : float; mp_stage : option string; mp_ts : datetime }.
Record AudioChunk := MkAudioChunk {
  ac_stage : string; ac_pcm_s16le : bytes; ac_sample_rate_hz : Z; ac_channels : Z; ac_ts : datetime }.
Record SipEvent := MkSipEventObs {
  se_method : string; se_direction : string; se_call_id : option string;
  se_status_code : option Z; se_summary_alias : option string; se_ts : datetime }.
Record RtpStats := MkRtpStats {
  rs_jitter_ms : option float; rs_loss_pct : option float; rs_mos : option float;
  rs_direction : option string; rs_rtt_ms : option float; rs_ts : datetime }.
Record TimelineEvent := MkTimelineEventObs {
  te_event_id : string; te_category : string; te_name : string; te_source : string;
  te_correlation_alias : option string; te_clock_domain : string;
  te_alignment_uncertainty_ms : option float; te_direction : option string;
  te_stage : option string; te_stream_alias : option string; te_attributes : jdict;
  te_ts : datetime }.

Record RtpPacket := MkRtpPacket {
  pk_stream_alias : string; pk_direction : string; pk_sequence_number : Z;
  pk_rtp_timestamp : Z; pk_payload_type : Z; pk_clock_rate_hz : Z; pk_marker : bool;
  pk_clock_domain : string; pk_alignment_uncertainty_ms : option float; pk_ts : datetime }.

Definition valid_direction (d : string) : bool := bool_decide (d = "received" \/ d = "sent").

(** [value is not None and (not isfinite(value) or value < 0)], negated. *)
Definition valid_uncertainty (v : option float) : bool :=
  match v with None => true | Some x => is_finite x && fleb fzero x end.

(** [RtpPacket.__post_init__]. *)
Definition make_rtp_packet (p : RtpPacket) : result RtpPacket :=
  _ ← _validate_safe_reference (pk_stream_alias p) "stream_alias" 128;
  _ ← guard_else (valid_direction (pk_direction p)) ValueError "direction must be received or sent";
  _ ← guard_else ((0 <=? pk_sequence_number p) && (pk_sequence_number p <=? 65535)) ValueError
        "sequence_number must fit in 16 bits";
  _ ← guard_else ((0 <=? pk_rtp_timestamp p) && (pk_rtp_timestamp p <=? 4294967295)) ValueError
        "rtp_timestamp must fit in 32 bits";
  _ ← guard_else ((0 <=? pk_payload_type p) && (pk_payload_type p <=? 127)) ValueError
        "payload_type must fit in 7 bits";
  _ ← guard_else ((0 <? pk_clock_rate_hz p) && (pk_clock_rate_hz p <=? 384000)) ValueError
        "clock_rate_hz must be between 1 and 384000";
  _ ← _validate_safe_reference (pk_clock_domain p) "clock_domain" 64;
  _ ← guard_else (valid_uncertainty (pk_alignment_uncertainty_ms p)) ValueError
        "alignment_uncertainty_ms must be finite and non-negative";
  Ok p.

(** [datagram[i]] of a datagram known to be long enough. *)
Definition byte_at (d : bytes) (i : nat) : Z := byte_val (nth i d x00).

(** [int.from_bytes(data, byteorder="big")]. *)
Definition from_bytes_big (data : bytes) : Z := fold_left (fun acc b => acc * 256 + byte_val b) data 0.

Definition slice {A} (a b : nat) (l : list A) : list A := take (b - a) (drop a l).

Definition rtp_packet_from_datagram (datagram : bytes) (stream_alias direction : string)
    (clock_rate_hz : Z) (clock_domain : string) (uncertainty : option float) (ts : datetime)
    : result RtpPacket :=
  _ ← guard_else (negb (len datagram <? 12)) ValueError
        "RTP datagram must contain the 12-byte fixed header";
  _ ← guard_else (Z.shiftr (byte_at datagram 0) 6 =? 2) ValueError "RTP datagram version must be 2";
  make_rtp_packet (MkRtpPacket stream_alias direction
    (from_bytes_big (slice 2 4 datagram)) (from_bytes_big (slice 4 8 datagram))
    (Z.land (byte_at datagram 1) 127) clock_rate_hz
    (negb (Z.land (byte_at datagram 1) 128 =? 0)) clock_domain uncertainty ts).

Inductive continuity_state := verified | compromised | not_independently_verified.
#[export] Instance continuity_state_eq_dec : EqDecision continuity_state.
Proof. solve_decision. Defined.

Definition continuity_str (c : continuity_state) : string :=
  match c with
  | verified => "verified" | compromised => "compromised"
  | not_independently_verified => "not independently verified"
  end.

Record RtpCaptureHealthSnapshot := MkHealth {
  ch_stream_alias : string; ch_direction : string; ch_observed_packet_count : Z;
  ch_capture_drop_count : Z; ch_decode_error_count : Z; ch_supported : bool;
  ch_continuity : continuity_state; ch_window_duration_ms : float; ch_clock_domain : string;
  ch_alignment_uncertainty_ms : option float; ch_ts : datetime }.

Definition expected_continuity (drops errors : Z) (supported : bool) : continuity_state :=
  if negb (drops =? 0) || negb (errors =? 0) then compromised
  else if supported then verified else not_independently_verified.

(** [RtpCaptureHealthSnapshot.__post_init__]. *)
Definition make_health (h : RtpCaptureHealthSnapshot) : result RtpCaptureHealthSnapshot :=
  _ ← _validate_safe_reference (ch_stream_alias h) "stream_alias" 128;
  _ ← _validate_safe_reference (ch_clock_domain h) "clock_domain" 64;
  _ ← guard_else (valid_direction (ch_direction h)) ValueError "direction must be received or sent";
  _ ← guard_else (0 <=? ch_observed_packet_count h) ValueError
        "observed_packet_count must be a non-negative integer";
  _ ← guard_else (0 <=? ch_capture_drop_count h) ValueError
        "capture_drop_count must be a non-negative integer";
  _ ← guard_else (0 <=? ch_decode_error_count h) ValueError
        "decode_error_count must be a non-negative integer";
  _ ← guard_else (bool_decide (ch_continuity h = expected_continuity (ch_capture_drop_count h)
        (ch_decode_error_count h) (ch_supported h))) ValueError
        "continuity must match capture health counters";
  _ ← guard_else (is_finite (ch_window_duration_ms h) && fleb fzero (ch_window_duration_ms h))
        ValueError "window_duration_ms must be finite and non-negative";
  _ ← guard_else (valid_uncertainty (ch_alignment_uncertainty_ms h)) ValueError
        "alignment_uncertainty_ms must be finite and non-negative";
  Ok h.

(** ** Batches *)

(** Observations of the five kinds: those pending in the observer, or those of
    one batch (whose run is the observer's). *)
Record Observations := MkObservations {
  metrics : list MetricPoint; audio_chunks : list AudioChunk; sip_events : list SipEvent;
  rtp_stats : list RtpStats; timeline_events : list TimelineEvent }.

Definition no_observations : Observations := MkObservations [] [] [] [] [].

Definition item_count (b : Observations) : Z :=
  len (metrics b) + len (audio_chunks b) + len (sip_events b) + len (rtp_stats b)
  + len (timeline_events b).

(** [OBSERVATION_BATCH_LIMITS]. *)
Definition metrics_limit : Z := 500.
Definition audio_chunks_limit : Z := 64.
Definition sip_events_limit : Z := 64.
Definition rtp_stats_limit : Z := 64.
Definition timeline_events_limit : Z := 128.

Definition slices_needed {A} (limit : Z) (l : list A) : Z := (len l + limit - 1) / limit.

Definition batch_count (b : Observations) : Z :=
  Z.max 1 (Z.max (slices_needed metrics_limit (metrics b))
    (Z.max (slices_needed audio_chunks_limit (audio_chunks b))
      (Z.max (slices_needed sip_events_limit (sip_events b))
        (Z.max (slices_needed rtp_stats_limit (rtp_stats b))
          (slices_needed timeline_events_limit (timeline_events b)))))).

(** [l[index * limit : (index + 1) * limit]]. *)
Definition chunk_of {A} (limit index : Z) (l : list A) : list A :=
  slice (Z.to_nat (index * limit)) (Z.to_nat ((index + 1) * limit)) l.

Definition batch_slice (b : Observations) (index : Z) : Observations :=
  MkObservations (chunk_of metrics_limit index (metrics b))
    (chunk_of audio_chunks_limit index (audio_chunks b))
    (chunk_of sip_events_limit index (sip_events b))
    (chunk_of rtp_stats_limit index (rtp_stats b))
    (chunk_of timeline_events_limit index (timeline_events b)).

Definition _bounded_observation_batches (b : Observations) : list Observations :=
  filterb (fun c => negb (item_count c =? 0)) (map (batch_slice b) (seqZ 0 (batch_count b))).

Definition _merge_observation_batches (l : list Observations) : Observations :=
  MkObservations (concat (map metrics l)) (concat (map audio_chunks l)) (concat (map sip_events l))
    (concat (map rtp_stats l)) (concat (map timeline_events l)).

(** Two collections one after the other. *)
Definition obs_app (a b : Observations) : Observations :=
  MkObservations (metrics a ++ metrics b) (audio_chunks a ++ audio_chunks b)
    (sip_events a ++ sip_events b) (rtp_stats a ++ rtp_stats b)
    (timeline_events a ++ timeline_events b).

(** ** PCM measurements *)

Definition PCM16_FULL_SCALE : float := fz 32768.
(** [round(32768.0 * 10 ** (-60.0 / 20.0))]. *)
Definition PCM16_SILENCE_AMPLITUDE : Z := 33.
Definition PCM_DISCONTINUITY_CONTRACT_VERSION : string := "pcm16_adjacent_delta_v1".
Definition PCM_DISCONTINUITY_THRESHOLD : float := flit 25 100.
Definition PCM_DISCONTINUITY_MIN_SIGNAL_LEVEL : float := flit 2 100.
Definition PCM_DISCONTINUITY_DEDUP_MS : float := fz 5.

Definition sum_squares (l : list Z) : Z := fold_left (fun acc v => acc + v * v) l 0.

Definition pcm_s16le_rms (pcm : bytes) : result float :=
  _ ← guard_else (even_length pcm) ValueError "PCM16LE data length must be divisible by two";
  let sample_count := len pcm / 2 in
  if sample_count =? 0 then Ok fzero
  else (q ← int_truediv (sum_squares (unpack16 pcm)) sample_count; fsqrt q).

Definition is_full_scale (v : Z) : bool := (v =? -32768) || (v =? 32767).
Definition is_silent (v : Z) : bool := Z.abs v <=? PCM16_SILENCE_AMPLITUDE.

Definition percentage (count total : Z) : result float :=
  q ← int_truediv count total; Ok (fmul q (fz 100)).

Section measurements.
Variable log10 : float -> float.

Definition pcm_s16le_quality (pcm : bytes) : result (float * float * float) :=
  _ ← guard_else (even_length pcm) ValueError "PCM16LE data length must be divisible by two";
  let samples := unpack16 pcm in
  let peak := fold_left (fun p v => Z.max p (Z.abs v)) samples 0 in
  let sample_count := len samples in
  if sample_count =? 0 then Ok (fz (-120), fzero, fzero)
  else
    peak_dbfs ← (if 0 <? peak
                 then (x ← fdiv (fz peak) PCM16_FULL_SCALE; Ok (fmul (fz 20) (log10 x)))
                 else Ok (fz (-120)));
    full ← percentage (countb is_full_scale samples) sample_count;
    silent ← percentage (countb is_silent samples) sample_count;
    Ok (peak_dbfs, full, silent).

Definition _delta_db (input_rms output_rms : float) : result float :=
  if fleb input_rms fzero || fleb output_rms fzero then Ok fzero
  else (x ← fdiv output_rms input_rms; Ok (fmul (fz 20) (log10 x))).
End measurements.

Record discontinuity := MkDiscontinuity {
  dc_frame : Z; dc_magnitude : float; dc_channel : Z }.

(** [abs(a - b) / PCM16_FULL_SCALE] and [max(abs(a), abs(b)) / ...]; both
    quotients of a 17-bit integer by a power of two. *)
Definition scaled (v : Z) : float := fl (QArith_base.Qmake v 32768).

Definition suspicious (current previous : Z) : bool :=
  fleb PCM_DISCONTINUITY_THRESHOLD (scaled (Z.abs (current - previous)))
  && fleb PCM_DISCONTINUITY_MIN_SIGNAL_LEVEL (scaled (Z.max (Z.abs current) (Z.abs previous))).

Definition sample_at (l : list Z) (i : Z) : Z := nth (Z.to_nat i) l 0.

(** The value before channel [channel] of frame [frame], when there is one. *)
Definition previous_of (samples : list Z) (channels frame channel : Z)
    (previous_samples : option (list Z)) : option Z :=
  if negb (frame =? 0) then Some (sample_at samples ((frame - 1) * channels + channel))
  else (fun p => sample_at p channel) <$> previous_samples.

(** The body of the loops of [detect_pcm_s16le_discontinuity]. *)
Definition detect_step (samples : list Z) (channels : Z) (previous_samples : option (list Z))
    (strongest : option discontinuity) (fc : Z * Z) : option discontinuity :=
  let '(frame, channel) := fc in
  match previous_of samples channels frame channel previous_samples with
  | None => strongest
  | Some previous =>
      let current := sample_at samples (frame * channels + channel) in
      let magnitude := scaled (Z.abs (current - previous)) in
      if suspicious current previous
         && match strongest with None => true | Some s => fltb (dc_magnitude s) magnitude end
      then Some (MkDiscontinuity frame magnitude channel) else strongest
  end.

(** Frames in order, and the channels of each in order. *)
Definition positions (frames channels : Z) : list (Z * Z) :=
  flat_map (fun f => map (fun c => (f, c)) (seqZ 0 channels)) (seqZ 0 frames).

Definition detect_pcm_s16le_discontinuity (pcm : bytes) (channels : Z)
    (previous_samples : option (list Z)) : result (option discontinuity) :=
  _ ← guard_else (0 <? channels) ValueError "channels must be positive";
  _ ← guard_else (len pcm mod (2 * channels) =? 0) ValueError
        "PCM16LE must contain complete channel frames";
  _ ← guard_else (match previous_samples with None => true | Some p => len p =? channels end)
        ValueError "previous_samples must contain one value per channel";
  let samples := unpack16 pcm in
  Ok (fold_left (detect_step samples channels previous_samples)
        (positions (len samples / channels) channels) None).

(** [pcm[-2 * channels :]] unpacked. *)
Definition _pcm_s16le_final_frame (pcm : bytes) (channels : Z) : list Z :=
  unpack16 (drop (Z.to_nat (Z.max 0 (len pcm - 2 * channels))) pcm).

(** ** The observer *)

(** What is kept per stage between calls. *)
Record stage_state := MkStageState {
  sp_rate : Z; sp_channels : Z; sp_final : list Z; sp_frames : Z; sp_last_incident : option float }.

Record VoxBenchObserver := MkObserver {
  ob_run_id : string;
  ob_pending : Observations;
  ob_rtp_packet_ordinal : Z;
  ob_rtp_capture_health_ordinal : Z;
  ob_discontinuity_ordinal : Z;
  ob_stage_pcm_state : list (string * stage_state) }.

Definition new_observer (run_id : string) : VoxBenchObserver :=
  MkObserver run_id no_observations 0 0 0 [].

Definition with_pending (p : Observations) (o : VoxBenchObserver) : VoxBenchObserver :=
  MkObserver (ob_run_id o) p (ob_rtp_packet_ordinal o) (ob_rtp_capture_health_ordinal o)
    (ob_discontinuity_ordinal o) (ob_stage_pcm_state o).

Definition append_pending (p : Observations) (o : VoxBenchObserver) : VoxBenchObserver :=
  with_pending (obs_app (ob_pending o) p) o.

Definition only_metrics l := MkObservations l [] [] [] [].
Definition only_events l := MkObservations [] [] [] [] l.

Section observer.
Variable log10 : float -> float.
Implicit Types (o : VoxBenchObserver).

(** The metrics of one stage boundary. *)
Definition stage_metrics (stage : string) (ts : datetime) (input_rms output_rms delta_db peak full
    silent duration : float) (gain : option float) : list MetricPoint :=
  let point name value := MkMetricPoint name value (Some stage) ts in
  [point "input_rms" input_rms; point "output_rms" output_rms; point "delta_db" delta_db;
   point "sample_peak_dbfs" peak; point "full_scale_sample_pct" full;
   point "silence_sample_pct" silent; point "audio_chunk_duration_ms" duration]
  ++ match gain with Some g => [point "gain_applied" g] | None => [] end.

Definition discontinuity_event (stage : string) (ordinal : Z) (media_time_ms : float)
    (d : discontinuity) (sample_rate_hz channels : Z) (ts : datetime) : TimelineEvent :=
  MkTimelineEventObs ("pcm-discontinuity:" +:+ int_str ordinal) "pipeline"
    "stage.pcm_discontinuity_detected" "pcm_adjacent_delta_detector"
    (Some ("pcm-discontinuity:" +:+ stage +:+ ":" +:+ int_str ordinal))
    "control_plane_wall" None None (Some stage) None
    [("media_time_ms", JFloat media_time_ms); ("magnitude", JFloat (dc_magnitude d));
     ("channel", JInt (dc_channel d));
     ("detector_contract", JStr PCM_DISCONTINUITY_CONTRACT_VERSION);
     ("sample_format", JStr "pcm_s16le"); ("sample_rate_hz", JInt sample_rate_hz);
     ("channels", JInt channels); ("threshold", JFloat PCM_DISCONTINUITY_THRESHOLD);
     ("minimum_signal_level", JFloat PCM_DISCONTINUITY_MIN_SIGNAL_LEVEL);
     ("silence_treatment", JStr "ignore_when_both_samples_below_minimum");
     ("dedup_window_ms", JFloat PCM_DISCONTINUITY_DEDUP_MS);
     ("remote_playout_observed", JBool false)] ts.

(** [(media_frame_offset + frame) / sample_rate_hz * 1000.0]. *)
Definition media_time (frame sample_rate_hz : Z) : result float :=
  q ← int_truediv frame sample_rate_hz; Ok (fmul q (fz 1000)).

(** Whether an incident at [at_ms] is far enough from the last one. *)
Definition past_dedup (last : option float) (at_ms : float) : bool :=
  match last with
  | None => true
  | Some l => fleb PCM_DISCONTINUITY_DEDUP_MS (fsub at_ms l)
  end.

(** The part of [observe_stage_audio] under the lock. *)
Definition record_stage (stage : string) (output : bytes) (sample_rate_hz channels : Z)
    (frame_count : float) (points : list MetricPoint) (record_output : bool) (ts : datetime)
    : st VoxBenchObserver unit := fun o =>
  let o1 := append_pending (only_metrics points) o in
  let prior := dict_get stage (ob_stage_pcm_state o) in
  let same := match prior with
              | Some p => if (sp_rate p =? sample_rate_hz) && (sp_channels p =? channels)
                          then prior else None
              | None => None end in
  let previous := match same with
                  | Some p => match sp_final p with [] => None | _ => Some (sp_final p) end
                  | None => None end in
  match (found ← detect_pcm_s16le_discontinuity output channels previous;
         let offset := match same with Some p => sp_frames p | None => 0 end in
         let last := match same with Some p => sp_last_incident p | None => None end in
         incident ← match found with
                    | None => Ok (None, last)
                    | Some d =>
                        at_ms ← media_time (offset + dc_frame d) sample_rate_hz;
                        Ok (if past_dedup last at_ms
                            then (Some (discontinuity_event stage (ob_discontinuity_ordinal o) at_ms d
                                          sample_rate_hz channels ts), Some at_ms)
                            else (None, last))
                    end;
         frames ← py_int frame_count;
         Ok (incident, offset, frames)) with
  | Raise c e => (Raise c e, o1)
  | Ok (event, last, offset, frames) =>
      let final := match output with
                   | [] => match same with Some p => sp_final p | None => [] end
                   | _ => _pcm_s16le_final_frame output channels end in
      let events := match event with Some ev => [ev] | None => [] end in
      let audio := if record_output && negb (bool_decide (output = []))
                   then [MkAudioChunk stage output sample_rate_hz channels ts] else [] in
      (Ok tt,
       MkObserver (ob_run_id o)
         (obs_app (ob_pending o1) (MkObservations [] audio [] [] events))
         (ob_rtp_packet_ordinal o) (ob_rtp_capture_health_ordinal o)
         (ob_discontinuity_ordinal o + len events)
         (dict_set stage (MkStageState sample_rate_hz channels final (offset + frames) last)
            (ob_stage_pcm_state o)))
  end.

Definition observe_stage_audio (stage : string) (input output : bytes) (sample_rate_hz channels : Z)
    (gain_applied : option float) (record_output : bool) (ts : datetime)
    : st VoxBenchObserver unit :=
  _ ← lift (guard_else (0 <? sample_rate_hz) ValueError "sample_rate_hz must be positive");
  _ ← lift (guard_else (0 <? channels) ValueError "channels must be positive");
  _ ← lift (guard_else (len output mod (2 * channels) =? 0) ValueError
        "output PCM16LE must contain complete channel frames");
  measured ← lift (
    input_rms ← pcm_s16le_rms input;
    output_rms ← pcm_s16le_rms output;
    quality ← pcm_s16le_quality log10 output;
    let '(peak, full, silent) := quality in
    frame_count ← int_truediv (len output / 2) channels;
    rate ← float_of_int sample_rate_hz;
    per_second ← fdiv frame_count rate;
    delta ← _delta_db log10 input_rms output_rms;
    Ok (frame_count, stage_metrics stage ts input_rms output_rms delta peak full silent
          (fmul per_second (fz 1000)) gain_applied));
  record_stage stage output sample_rate_hz channels measured.1 measured.2 record_output ts.

Definition observe_metric (name : string) (value : float) (stage : option string) (ts : datetime) o :=
  append_pending (only_metrics [MkMetricPoint name value stage ts]) o.
Definition observe_sip_event (e : SipEvent) o :=
  append_pending (MkObservations [] [] [e] [] []) o.
Definition observe_rtp_stats (s : RtpStats) o :=
  append_pending (MkObservations [] [] [] [s] []) o.
Definition observe_timeline_event (e : TimelineEvent) o := append_pending (only_events [e]) o.

Definition packet_event (ordinal : Z) (p : RtpPacket) : TimelineEvent :=
  MkTimelineEventObs ("rtp-packet:" +:+ int_str ordinal) "transport" "rtp.packet_arrived"
    "rtp_packet_header_observer" (Some (pk_stream_alias p)) (pk_clock_domain p)
    (pk_alignment_uncertainty_ms p) (Some (pk_direction p)) None (Some (pk_stream_alias p))
    [("sequence_number", JInt (pk_sequence_number p)); ("rtp_timestamp", JInt (pk_rtp_timestamp p));
     ("payload_type", JInt (pk_payload_type p)); ("clock_rate_hz", JInt (pk_clock_rate_hz p));
     ("marker", JBool (pk_marker p))] (pk_ts p).

Definition observe_rtp_packet (p : RtpPacket) o : VoxBenchObserver :=
  MkObserver (ob_run_id o)
    (obs_app (ob_pending o) (only_events [packet_event (ob_rtp_packet_ordinal o) p]))
    (ob_rtp_packet_ordinal o + 1) (ob_rtp_capture_health_ordinal o)
    (ob_discontinuity_ordinal o) (ob_stage_pcm_state o).

Definition health_event (ordinal : Z) (h : RtpCaptureHealthSnapshot) : TimelineEvent :=
  MkTimelineEventObs ("rtp-capture-health:" +:+ int_str ordinal) "transport"
    "rtp.capture_health_reported" "rtp_packet_tap_adapter" (Some (ch_stream_alias h))
    (ch_clock_domain h) (ch_alignment_uncertainty_ms h) (Some (ch_direction h)) None
    (Some (ch_stream_alias h))
    [("observed_packet_count", JInt (ch_observed_packet_count h));
     ("capture_drop_count", JInt (ch_capture_drop_count h));
     ("decode_error_count", JInt (ch_decode_error_count h));
     ("capture_drop_counter_supported", JBool (ch_supported h));
     ("capture_point_continuity", JStr (continuity_str (ch_continuity h)));
     ("window_duration_ms", JFloat (ch_window_duration_ms h))] (ch_ts h).

Definition observe_rtp_capture_health (h : RtpCaptureHealthSnapshot) o : VoxBenchObserver :=
  MkObserver (ob_run_id o)
    (obs_app (ob_pending o) (only_events [health_event (ob_rtp_capture_health_ordinal o) h]))
    (ob_rtp_packet_ordinal o) (ob_rtp_capture_health_ordinal o + 1)
    (ob_discontinuity_ordinal o) (ob_stage_pcm_state o).

(** What happens at one [transport.send]: whether it raises, and what other
    threads observe meanwhile (the lock is not held). *)
Record send_outcome := MkSend { send_ok : bool; meanwhile : Observations }.

(** The sending loop of [flush]; [plan] gives the outcome of each send.
    Answers the batches delivered as well. *)
Fixpoint send_batches (plan : nat -> send_outcome) (index : nat) (batches : list Observations)
    (sent_count : Z) o : list Observations * (result Z * VoxBenchObserver) :=
  match batches with
  | [] => ([], (Ok sent_count, o))
  | b :: rest =>
      let o1 := append_pending (meanwhile (plan index)) o in
      if send_ok (plan index) then
        let '(delivered, r) := send_batches plan (S index) rest (sent_count + item_count b) o1 in
        (b :: delivered, r)
      else
        let unsent := _merge_observation_batches (b :: rest) in
        ([], (Raise OtherError "send", with_pending (obs_app unsent (ob_pending o1)) o1))
  end.

Definition flush (plan : nat -> send_outcome) o : list Observations * (result Z * VoxBenchObserver) :=
  let batch := ob_pending o in
  let o1 := with_pending no_observations o in
  if item_count batch =? 0 then ([], (Ok 0, o1))
  else send_batches plan 0 (_bounded_observation_batches batch) 0 o1.

Definition pending_count o : Z := item_count (ob_pending o).
End observer.

(** ** The packet tap adapter *)

Record RtpPacketTapAdapter := MkTap {
  tap_observer : VoxBenchObserver;
  tap_stream_alias : string; tap_direction : string; tap_clock_rate_hz : Z;
  tap_clock_domain : string; tap_uncertainty : option float;
  tap_supported : bool; tap_window_started_at : datetime;
  tap_observed : Z; tap_drops : Z; tap_errors : Z }.

Definition make_tap (observer : VoxBenchObserver) (stream_alias direction : string) (rate : Z)
    (clock_domain : string) (uncertainty : option float) (supported : bool) (started_at : datetime)
    : result RtpPacketTapAdapter :=
  p ← make_rtp_packet (MkRtpPacket stream_alias direction 0 0 0 rate false clock_domain uncertainty
        started_at);
  Ok (MkTap observer (pk_stream_alias p) (pk_direction p) (pk_clock_rate_hz p) (pk_clock_domain p)
        (pk_alignment_uncertainty_ms p) supported started_at 0 0 0).

Definition tap_counts (observed drops errors : Z) (supported : bool) (started : datetime)
    (observer : VoxBenchObserver) (t : RtpPacketTapAdapter) : RtpPacketTapAdapter :=
  MkTap observer (tap_stream_alias t) (tap_direction t) (tap_clock_rate_hz t) (tap_clock_domain t)
    (tap_uncertainty t) supported started observed drops errors.

Definition observe_datagram (datagram : bytes) (ts : datetime) : st RtpPacketTapAdapter RtpPacket :=
  fun t =>
    match rtp_packet_from_datagram datagram (tap_stream_alias t) (tap_direction t)
            (tap_clock_rate_hz t) (tap_clock_domain t) (tap_uncertainty t) ts with
    | Raise c e =>
        (Raise c e, tap_counts (tap_observed t) (tap_drops t) (tap_errors t + 1) (tap_supported t)
                      (tap_window_started_at t) (tap_observer t) t)
    | Ok packet =>
        (Ok packet, tap_counts (tap_observed t + 1) (tap_drops t) (tap_errors t) (tap_supported t)
                      (tap_window_started_at t) (observe_rtp_packet packet (tap_observer t)) t)
    end.

Definition record_capture_drop (count : Z) : st RtpPacketTapAdapter unit :=
  _ ← lift (guard_else (0 <? count) ValueError "capture drop count must be a positive integer");
  modify (fun t => tap_counts (tap_observed t) (tap_drops t + count) (tap_errors t) true
                     (tap_window_started_at t) (tap_observer t) t).

Definition _snapshot (reported_at : datetime) (t : RtpPacketTapAdapter)
    : result RtpCaptureHealthSnapshot :=
  at_ ← as_utc reported_at;
  started ← as_utc (tap_window_started_at t);
  make_health (MkHealth (tap_stream_alias t) (tap_direction t) (tap_observed t) (tap_drops t)
    (tap_errors t)
    (tap_supported t)
    (if negb (tap_drops t =? 0) || negb (tap_errors t =? 0) then compromised
     else if tap_supported t then verified else not_independently_verified)
    (pymax fzero (fmul (total_seconds (at_ - started)) (fz 1000)))
    (tap_clock_domain t) (tap_uncertainty t) reported_at).

(** [snapshot], at the given time or at the clock's; the counters stay. *)
Definition snapshot (ts : option datetime) (now : datetime) (t : RtpPacketTapAdapter) : result RtpCaptureHealthSnapshot :=
  _snapshot (default now ts) t.

Definition report_health (reported_at : datetime) : st RtpPacketTapAdapter RtpCaptureHealthSnapshot :=
  t ← get_state;
  snapshot ← lift (_snapshot reported_at t);
  _ ← put_state (tap_counts 0 0 0 (tap_supported t) reported_at
        (observe_rtp_capture_health snapshot (tap_observer t)) t);
  mret snapshot.

(** ** Lemmas on batches *)

Lemma chunk_of_take {A} limit index (l : list A) :
  0 < limit -> 0 <= index ->
  chunk_of limit index l = take (Z.to_nat limit) (drop (Z.to_nat (index * limit)) l).
Proof. intros Hl Hi. unfold chunk_of, slice. f_equal. nia. Qed.

Lemma chunk_of_length {A} limit index (l : list A) :
  0 < limit -> 0 <= index -> len (chunk_of limit index l) <= limit.
Proof. intros Hl Hi. rewrite chunk_of_take by done. unfold len. rewrite length_take. lia. Qed.

(** The slices [0, ..., n - 1] put together are the first [n * limit] items. *)
Lemma concat_chunks_take {A} limit n (l : list A) :
  0 < limit -> 0 <= n ->
  concat (map (fun i => chunk_of limit i l) (seqZ 0 n)) = take (Z.to_nat (n * limit)) l.
Proof.
  intros Hl Hn. revert Hn. apply (natlike_ind (fun n =>
    concat (map (fun i => chunk_of limit i l) (seqZ 0 n)) = take (Z.to_nat (n * limit)) l)).
  - done.
  - intros m Hm IH. unfold Z.succ. rewrite seqZ_snoc by done.
    rewrite map_app, concat_app, IH. cbn [map concat]. rewrite app_nil_r, chunk_of_take by done.
    rewrite take_take_drop. f_equal. nia.
Qed.

Lemma concat_chunks {A} limit n (l : list A) :
  0 < limit -> 0 <= n -> slices_needed limit l <= n ->
  concat (map (fun i => chunk_of limit i l) (seqZ 0 n)) = l.
Proof.
  intros Hl Hn Hs. rewrite concat_chunks_take by done. apply take_ge.
  unfold slices_needed in Hs. unfold len in Hs.
  pose proof (Z.div_mod (Z.of_nat (length l) + limit - 1) limit ltac:(lia)).
  pose proof (Z.mod_pos_bound (Z.of_nat (length l) + limit - 1) limit Hl). nia.
Qed.

Lemma item_count_zero b : item_count b = 0 -> b = no_observations.
Proof.
  unfold item_count. destruct b as [m a s r t]; cbn.
  pose proof (len_nonneg m). pose proof (len_nonneg a). pose proof (len_nonneg s).
  pose proof (len_nonneg r). pose proof (len_nonneg t). intros Hc.
  assert (forall A (l : list A), len l = 0 -> l = []) as Hn.
  { intros A l Hl. destruct l; [done|]. rewrite len_cons in Hl. pose proof (len_nonneg l). lia. }
  by rewrite (Hn _ m), (Hn _ a), (Hn _ s), (Hn _ r), (Hn _ t) by lia.
Qed.

Lemma concat_map_filter {A} (f : Observations -> list A) l :
  f no_observations = [] ->
  concat (map f (filterb (fun c => negb (item_count c =? 0)) l)) = concat (map f l).
Proof.
  intros Hf. induction l as [|b l IH]; cbn; [done|].
  destruct (item_count b =? 0) eqn:E; cbn; unfold filterb in *; rewrite IH; [|done].
  apply Z.eqb_eq, item_count_zero in E as ->. by rewrite Hf.
Qed.

(** Cutting into bounded batches loses nothing and keeps the order. *)
Lemma merge_bounded b : _merge_observation_batches (_bounded_observation_batches b) = b.
Proof.
  unfold _merge_observation_batches, _bounded_observation_batches.
  rewrite !concat_map_filter by done. rewrite !map_map. unfold batch_slice; cbn.
  assert (1 <= batch_count b) by (unfold batch_count; lia).
  unfold metrics_limit, audio_chunks_limit, sip_events_limit, rtp_stats_limit, timeline_events_limit.
  rewrite !concat_chunks; try lia; try (unfold batch_count, metrics_limit, audio_chunks_limit,
    sip_events_limit, rtp_stats_limit, timeline_events_limit; lia). by destruct b.
Qed.

(** A batch that [POST /v1/observations] accepts. *)
Definition within_limits (b : Observations) : Prop :=
  len (metrics b) <= metrics_limit /\ len (audio_chunks b) <= audio_chunks_limit
  /\ len (sip_events b) <= sip_events_limit /\ len (rtp_stats b) <= rtp_stats_limit
  /\ len (timeline_events b) <= timeline_events_limit.

Lemma bounded_within b c :
  c ∈ _bounded_observation_batches b -> within_limits c /\ item_count c <> 0.
Proof.
  unfold _bounded_observation_batches. intros [Hc Hn]%elem_of_filterb.
  apply negb_true_iff, Z.eqb_neq in Hn. split; [|done].
  apply list_elem_of_fmap in Hc as (i & -> & Hi). apply elem_of_seqZ in Hi.
  unfold within_limits, batch_slice; cbn.
  unfold metrics_limit, audio_chunks_limit, sip_events_limit, rtp_stats_limit, timeline_events_limit.
  split_and!; apply chunk_of_length; lia.
Qed.

Lemma obs_app_assoc a b c : obs_app (obs_app a b) c = obs_app a (obs_app b c).
Proof. unfold obs_app; cbn. by rewrite !app_assoc. Qed.
Lemma obs_app_nil_l a : obs_app no_observations a = a.
Proof. by destruct a. Qed.
Lemma obs_app_nil_r a : obs_app a no_observations = a.
Proof. unfold obs_app; cbn. rewrite !app_nil_r. by destruct a. Qed.
Lemma merge_cons b l :
  _merge_observation_batches (b :: l) = obs_app b (_merge_observation_batches l).
Proof. done. Qed.
Lemma item_count_app a b : item_count (obs_app a b) = item_count a + item_count b.
Proof. unfold item_count, obs_app; cbn. rewrite !len_app. lia. Qed.

(** What other threads observed during the first [n] sends. *)
Definition arrived (plan : nat -> send_outcome) (from n : nat) : Observations :=
  _merge_observation_batches (map (fun i => meanwhile (plan i)) (seq from n)).

Lemma send_batches_spec plan index batches sent o delivered r o' :
  send_batches plan index batches sent o = (delivered, (r, o')) ->
  exists rest n, batches = delivered ++ rest
    /\ obs_app (_merge_observation_batches rest) (obs_app (ob_pending o) (arrived plan index n))
       = ob_pending o'
    /\ n = (length delivered + match r with Ok _ => 0 | Raise _ _ => 1 end)%nat
    /\ match r with
       | Ok z => rest = [] /\ z = sent + item_count (_merge_observation_batches delivered)
       | Raise _ _ => rest <> [] /\ send_ok (plan (index + length delivered)%nat) = false
       end.
Proof.
  revert index sent o delivered r o'; induction batches as [|b l IH];
    intros index sent o delivered r o' H; cbn [send_batches] in H.
  - injection H as <- <- <-. exists [], 0%nat. unfold arrived; cbn [seq map].
    change (_merge_observation_batches []) with no_observations.
    rewrite obs_app_nil_l, obs_app_nil_r. split_and!; try done. unfold item_count, len; cbn. lia.
  - destruct (send_ok (plan index)) eqn:Eok.
    + destruct (send_batches plan (S index) l _ _) as [d [r1 o1]] eqn:E. injection H as <- <- <-.
      destruct (IH _ _ _ _ _ _ E) as (rest & n & -> & Hp & Hn & Hr). exists rest, (S n).
      split_and!; [done| |cbn; by rewrite Hn|].
      * rewrite <- Hp. unfold arrived; cbn [seq map]. rewrite merge_cons. cbn.
        by rewrite !obs_app_assoc.
      * destruct r1 as [z|]; [|destruct Hr as [? Hr]; split; [done|];
          cbn [length]; by rewrite <- Nat.add_succ_comm].
        destruct Hr as [-> ->]. split; [done|]. rewrite merge_cons, item_count_app. lia.
    + injection H as <- <- <-. exists (b :: l), 1%nat. split_and!; [done| |done|done|].
      * unfold arrived; cbn. unfold obs_app; cbn. by rewrite !app_nil_r.
      * cbn [length]. by rewrite Nat.add_0_r.
Qed.

Lemma sends_succeeded plan index batches sent o delivered r o' :
  send_batches plan index batches sent o = (delivered, (r, o')) ->
  forall i, (i < length delivered)%nat -> send_ok (plan (index + i)%nat) = true.
Proof.
  revert index sent o delivered r o'. induction batches as [|b l IH]; intros index sent o delivered r o' H; cbn [send_batches] in H.
  - injection H as <- _ _. by intros i ?%Nat.nlt_0_r.
  - destruct (send_ok (plan index)) eqn:Eok; [|injection H as <- _ _; by intros i ?%Nat.nlt_0_r].
    destruct (send_batches plan (S index) l _ _) as [d [r1 o1]] eqn:E. injection H as <- _ _.
    intros [|i] Hi; [by rewrite Nat.add_0_r|]. rewrite <- Nat.add_succ_comm. eapply IH; [exact E|]. cbn [length] in Hi. lia.
Qed.

Lemma merge_app l1 l2 :
  _merge_observation_batches (l1 ++ l2)
  = obs_app (_merge_observation_batches l1) (_merge_observation_batches l2).
Proof. unfold _merge_observation_batches, obs_app; cbn. by rewrite !map_app, !concat_app. Qed.

(** ** Lemmas on event identifiers *)

Lemma int_str_inj a b : 0 <= a -> 0 <= b -> int_str a = int_str b -> a = b.
Proof. unfold int_str. intros _ _ H. by apply (inj pretty) in H. Qed.

Lemma string_app_inj_l (p a b : string) : p +:+ a = p +:+ b -> a = b.
Proof. induction p as [|c p IH]; cbn; [done|]. intros [= H]. auto. Qed.

(** The identifiers that the observer itself gives out. *)
Definition own_id (o : VoxBenchObserver) (id : string) : Prop :=
  (exists i, 0 <= i < ob_discontinuity_ordinal o /\ id = "pcm-discontinuity:" +:+ int_str i)
  \/ (exists i, 0 <= i < ob_rtp_packet_ordinal o /\ id = "rtp-packet:" +:+ int_str i)
  \/ (exists i, 0 <= i < ob_rtp_capture_health_ordinal o /\ id = "rtp-capture-health:" +:+ int_str i).

Definition pending_ids (o : VoxBenchObserver) : list string :=
  map te_event_id (timeline_events (ob_pending o)).

Record ids_ok (o : VoxBenchObserver) : Prop := {
  ids_nodup : NoDup (pending_ids o);
  ids_own : forall id, id ∈ pending_ids o -> own_id o id;
  ids_counters : 0 <= ob_discontinuity_ordinal o /\ 0 <= ob_rtp_packet_ordinal o
    /\ 0 <= ob_rtp_capture_health_ordinal o }.

(** Appending events under the next ordinals keeps identifiers distinct. *)
Lemma ids_ok_extend o o' ids :
  ids_ok o -> pending_ids o' = pending_ids o ++ ids ->
  (forall id, own_id o id -> own_id o' id) ->
  (forall id, id ∈ ids -> own_id o' id /\ ~ own_id o id) -> NoDup ids ->
  0 <= ob_discontinuity_ordinal o' /\ 0 <= ob_rtp_packet_ordinal o'
    /\ 0 <= ob_rtp_capture_health_ordinal o' -> ids_ok o'.
Proof.
  intros [H1 H2 H3] Hids Hmono Hnew Hnd Hc. constructor; [| |done]; rewrite Hids.
  - apply NoDup_app. split_and!; [done| |done]. intros id Hid Hin.
    destruct (Hnew id Hin) as [_ Hn]. auto.
  - intros id [Hid|Hid]%elem_of_app; [auto | by apply Hnew].
Qed.

Lemma packet_ids_ok p o : ids_ok o -> ids_ok (observe_rtp_packet p o).
Proof.
  intros Ho. pose proof (ids_counters _ Ho) as Hc.
  apply (ids_ok_extend o _ ["rtp-packet:" +:+ int_str (ob_rtp_packet_ordinal o)]); [done| | | | |].
  - unfold pending_ids; cbn. by rewrite map_app.
  - intros id [H|[(i & Hi & ->)|H]]; [by left| |by right; right].
    right; left. exists i. cbn. split; [lia | done].
  - intros id ->%list_elem_of_singleton. split.
    + right; left. exists (ob_rtp_packet_ordinal o). cbn. split; [lia | done].
    + intros [(i & _ & H)|[(i & Hi & H)|(i & _ & H)]]; [discriminate H| |discriminate H].
      apply string_app_inj_l in H. apply int_str_inj in H; lia.
  - apply NoDup_singleton.
  - cbn. lia.
Qed.

Lemma health_ids_ok h o : ids_ok o -> ids_ok (observe_rtp_capture_health h o).
Proof.
  intros Ho. pose proof (ids_counters _ Ho) as Hc.
  apply (ids_ok_extend o _ ["rtp-capture-health:" +:+ int_str (ob_rtp_capture_health_ordinal o)]);
    [done| | | | |].
  - unfold pending_ids; cbn. by rewrite map_app.
  - intros id [H|[H|(i & Hi & ->)]]; [by left|by right; left|].
    right; right. exists i. cbn. split; [lia | done].
  - intros id ->%list_elem_of_singleton. split.
    + right; right. exists (ob_rtp_capture_health_ordinal o). cbn. split; [lia | done].
    + intros [(i & _ & H)|[(i & _ & H)|(i & Hi & H)]]; [discriminate H|discriminate H|].
      apply string_app_inj_l in H. apply int_str_inj in H; lia.
  - apply NoDup_singleton.
  - cbn. lia.
Qed.

Lemma stage_ids_ok stage out rate ch fc points rec ts o :
  ids_ok o -> ids_ok (snd (record_stage stage out rate ch fc points rec ts o)).
Proof.
  intros Ho. pose proof (ids_counters _ Ho) as Hc. unfold record_stage.
  destruct (detect_pcm_s16le_discontinuity _ _ _ ≫= _) as [[[[event last] offset] frames]|c e] eqn:E;
    cbn [snd].
  - assert (match event with
            | Some ev => te_event_id ev = "pcm-discontinuity:" +:+ int_str (ob_discontinuity_ordinal o)
            | None => True end) as Hev.
    { simpl_res. destruct a as [d|]; cbn in *; simpl_res; [|by simplify_eq].
      destruct (past_dedup _ _); simplify_eq; done. }
    destruct event as [ev|].
    + apply (ids_ok_extend o _ ["pcm-discontinuity:" +:+ int_str (ob_discontinuity_ordinal o)]);
        [done| | | | |].
      * unfold pending_ids; cbn. rewrite !map_app, app_nil_r. cbn. by rewrite Hev.
      * intros id [(i & Hi & ->)|[H|H]]; [|by right; left|by right; right].
        left. exists i. cbn. unfold len; cbn. split; [lia | done].
      * intros id ->%list_elem_of_singleton. split.
        -- left. exists (ob_discontinuity_ordinal o). cbn. unfold len; cbn. split; [lia | done].
        -- intros [(i & Hi & H)|[(i & _ & H)|(i & _ & H)]]; [|discriminate H|discriminate H].
           apply string_app_inj_l in H. apply int_str_inj in H; lia.
      * apply NoDup_singleton.
      * cbn. unfold len; cbn. lia.
    + apply (ids_ok_extend o _ []); [done| | | | |].
      * unfold pending_ids; cbn. by rewrite !map_app, !app_nil_r.
      * intros id H. unfold own_id in *; cbn. by rewrite Z.add_0_r.
      * intros id H. by apply not_elem_of_nil in H.
      * constructor.
      * cbn. unfold len; cbn. lia.
  - destruct Ho as [H1 H2 H3]. constructor; [| |done]; unfold pending_ids in *; cbn;
      rewrite app_nil_r; done.
Qed.

(** ** Properties of the observer *)

(** C20. [flush] loses nothing, duplicates nothing and keeps the order, also
    when the transport raises in the middle and while other threads go on
    observing: the batches delivered, followed by what is pending afterwards,
    are what was pending before followed by everything that was observed
    during the sends, the failing one included.  It raises exactly when a send
    raises, and makes no further one.  Every batch delivered is non-empty and
    within the limits of the control plane, and a successful flush delivers all
    that was pending and answers the number of its items. *)
Theorem flush_loses_nothing plan o delivered r o' :
  flush plan o = (delivered, (r, o')) ->
  let sends := (length delivered + match r with Ok _ => 0 | Raise _ _ => 1 end)%nat in
  obs_app (_merge_observation_batches delivered) (ob_pending o') = obs_app (ob_pending o) (arrived plan 0 sends)
  /\ Forall (fun b => within_limits b /\ item_count b <> 0) delivered
  /\ (forall i, (i < length delivered)%nat -> send_ok (plan i) = true)
  /\ match r with
     | Ok z => z = item_count (ob_pending o) /\ _merge_observation_batches delivered = ob_pending o
     | Raise _ _ => send_ok (plan (length delivered)) = false
     end.
Proof.
  cbv zeta. unfold flush. destruct (item_count (ob_pending o) =? 0) eqn:E0.
  - intros [= <- <- <-]. apply Z.eqb_eq in E0. pose proof E0 as E1%item_count_zero.
    split_and!; [by rewrite E1|constructor|by intros i ?%Nat.nlt_0_r|lia|by rewrite E1].
  - intros H. pose proof (sends_succeeded _ _ _ _ _ _ _ _ H) as Hok.
    apply send_batches_spec in H as (rest & n & Hb & Hp & -> & Hr).
    pose proof (merge_bounded (ob_pending o)) as Hm. rewrite Hb, merge_app in Hm. split; [|split; [|split; [exact Hok|]]].
    + rewrite <- Hp. cbn [ob_pending with_pending]. rewrite obs_app_nil_l, <- obs_app_assoc.
      by rewrite Hm.
    + apply Forall_forall. intros b Hin. apply (bounded_within (ob_pending o)).
      rewrite Hb. apply elem_of_app. by left.
    + destruct r as [z|c m]; [|exact (proj2 Hr)]. destruct Hr as [-> ->].
      change (_merge_observation_batches []) with no_observations in Hm. rewrite obs_app_nil_r in Hm.
      rewrite Hm. split; [lia | done].
Qed.

(** A call of the observer that records something. *)
Inductive observation : Type :=
  | ObserveStage (stage : string) (input output : bytes) (rate channels : Z) (gain : option float)
      (record_output : bool) (ts : datetime)
  | ObserveMetric (name : string) (value : float) (stage : option string) (ts : datetime)
  | ObserveSip (e : SipEvent)
  | ObserveRtpStats (s : RtpStats)
  | ObservePacket (p : RtpPacket)
  | ObserveHealth (h : RtpCaptureHealthSnapshot).

Definition observe (log10 : float -> float) (o : VoxBenchObserver) (x : observation) : VoxBenchObserver :=
  match x with
  | ObserveStage stage input output rate channels gain rec ts =>
      snd (observe_stage_audio log10 stage input output rate channels gain rec ts o)
  | ObserveMetric name value stage ts => observe_metric name value stage ts o
  | ObserveSip e => observe_sip_event e o
  | ObserveRtpStats s => observe_rtp_stats s o
  | ObservePacket p => observe_rtp_packet p o
  | ObserveHealth h => observe_rtp_capture_health h o
  end.

Lemma observe_ids_ok log10 o x : ids_ok o -> ids_ok (observe log10 o x).
Proof.
  intros Ho. destruct x; cbn [observe]; try (by destruct Ho as [H1 H2 H3]; constructor;
    [..|done]; unfold pending_ids in *; cbn; rewrite app_nil_r).
  - unfold observe_stage_audio, mbind, st_bind, lift.
    destruct (guard_else (0 <? rate) _ _) as [[]|]; [|done].
    destruct (guard_else (0 <? channels) _ _) as [[]|]; [|done].
    destruct (guard_else (len output mod _ =? 0) _ _) as [[]|]; [|done].
    match goal with |- context [match ?m with Ok _ => _ | Raise _ _ => _ end] =>
      destruct m as [measured|] end; [|done]. by apply stage_ids_ok.
  - by apply packet_ids_ok.
  - by apply health_ids_ok.
Qed.

(** The events an observer creates (packets, capture health and
    discontinuities, in any mixture of calls) have pairwise distinct
    identifiers, as the unique constraint of the timeline table requires. *)
Theorem observer_event_ids_distinct log10 run_id calls :
  NoDup (pending_ids (fold_left (observe log10) calls (new_observer run_id))).
Proof.
  apply ids_nodup.
  assert (ids_ok (new_observer run_id)) as H0 by (constructor; [constructor | cbn; set_solver | cbn; lia]).
  revert H0. generalize (new_observer run_id). induction calls as [|x l IH]; intros o Ho; [done|].
  cbn. by apply IH, observe_ids_ok.
Qed.

(** ** RTP headers *)

(** The fixed header of RFC 3550 with no extension, padding or contributing
    sources, written for comparison with the decoder. *)
Definition rtp_header (marker : bool) (payload_type sequence timestamp ssrc : Z) : bytes :=
  [byte_of 128; byte_of ((if marker then 128 else 0) + payload_type);
   byte_of (sequence / 256); byte_of sequence;
   byte_of (timestamp / 16777216); byte_of (timestamp / 65536); byte_of (timestamp / 256);
   byte_of timestamp;
   byte_of (ssrc / 16777216); byte_of (ssrc / 65536); byte_of (ssrc / 256); byte_of ssrc].

Lemma big_endian_4 t :
  0 <= t < 4294967296 ->
  (((t / 16777216) mod 256 * 256 + (t / 65536) mod 256) * 256 + (t / 256) mod 256) * 256 + t mod 256 = t.
Proof.
  intros Ht. replace (t / 16777216) with (t / 256 / 256 / 256) by (by rewrite !Z.div_div by lia).
  replace (t / 65536) with (t / 256 / 256) by (by rewrite !Z.div_div by lia).
  pose proof (Z.div_mod t 256 ltac:(lia)). pose proof (Z.div_mod (t / 256) 256 ltac:(lia)).
  pose proof (Z.div_mod (t / 256 / 256) 256 ltac:(lia)).
  assert (0 <= t / 256 / 256 / 256 < 256).
  { rewrite !Z.div_div by lia. split; [apply Z.div_pos; lia | apply Z.div_lt_upper_bound; lia]. }
  rewrite (Z.mod_small (t / 256 / 256 / 256)) by lia. lia.
Qed.

Lemma header_second_byte (marker : bool) pt :
  0 <= pt < 128 ->
  let b := byte_val (byte_of ((if marker then 128 else 0) + pt)) in
  Z.land b 127 = pt /\ negb (Z.land b 128 =? 0) = marker.
Proof.
  intros Hpt. cbn zeta. rewrite byte_val_of_small by (destruct marker; lia).
  assert (forallb (fun pt => (Z.land pt 127 =? pt) && (Z.land pt 128 =? 0)
    && (Z.land (128 + pt) 127 =? pt) && negb (Z.land (128 + pt) 128 =? 0)) (seqZ 0 128) = true) as Hall
    by (vm_compute; reflexivity).
  rewrite forallb_forall in Hall. specialize (Hall pt).
  rewrite !andb_true_iff, !Z.eqb_eq, negb_true_iff in Hall.
  destruct Hall as [[[H1 H2] H3] H4]; [apply list_elem_of_In, elem_of_seqZ; lia|].
  destruct marker; cbn [Z.add]; [by rewrite H3, H4 | rewrite Z.add_0_l, H1, H2; done].
Qed.

(** Decoding a datagram that starts with an RTP header recovers the
    header's marker, payload type, sequence number and timestamp whatever
    follows it, and then only the tap's own settings can be rejected; shorter
    datagrams and other versions always are. *)
Theorem rtp_header_decodes marker pt seq ts ssrc payload alias direction rate domain unc at_ :
  0 <= pt < 128 -> 0 <= seq < 65536 -> 0 <= ts < 4294967296 ->
  rtp_packet_from_datagram (rtp_header marker pt seq ts ssrc ++ payload) alias direction rate domain
    unc at_
  = make_rtp_packet (MkRtpPacket alias direction seq ts pt rate marker domain unc at_)
  /\ forall d, len d < 12 \/ Z.shiftr (byte_at d 0) 6 <> 2 ->
       exists e, rtp_packet_from_datagram d alias direction rate domain unc at_ = Raise ValueError e.
Proof.
  intros Hpt Hseq Hts. split.
  - unfold rtp_packet_from_datagram.
    replace (len (rtp_header marker pt seq ts ssrc ++ payload) <? 12) with false
      by (symmetry; apply Z.ltb_ge; rewrite len_app; pose proof (len_nonneg payload);
          unfold len at 1; cbn; lia).
    cbn [negb guard_else mbind result_bind]. change (byte_at _ 0) with (byte_val (byte_of 128)).
    rewrite byte_val_of_small by lia. change (Z.shiftr 128 6 =? 2) with true. cbn [guard_else].
    f_equal. change (byte_at _ 1) with (byte_val (byte_of ((if marker then 128 else 0) + pt))).
    destruct (header_second_byte marker pt Hpt) as [-> ->].
    change (slice 2 4 _) with [byte_of (seq / 256); byte_of seq].
    change (slice 4 8 _) with [byte_of (ts / 16777216); byte_of (ts / 65536); byte_of (ts / 256); byte_of ts].
    unfold from_bytes_big; cbn [fold_left]. rewrite !byte_val_of. rewrite !Z.mul_0_l, !Z.add_0_l.
    rewrite big_endian_4 by done.
    replace ((seq / 256) mod 256 * 256 + seq mod 256) with seq; [done|].
    assert (0 <= seq / 256 < 256) by (split; [apply Z.div_pos; lia | apply Z.div_lt_upper_bound; lia]).
    rewrite (Z.mod_small (seq / 256)) by lia. pose proof (Z.div_mod seq 256 ltac:(lia)). lia.
  - intros d [Hd|Hd]; unfold rtp_packet_from_datagram, guard_else.
    + rewrite (proj2 (Z.ltb_lt _ _)) by done. by eexists.
    + destruct (negb (len d <? 12)); [|by eexists]. cbn [mbind result_bind].
      rewrite (proj2 (Z.eqb_neq (Z.shiftr (byte_at d 0) 6) 2) Hd). by eexists.
Qed.

(** ** Discontinuities *)

(** The candidates of [detect_pcm_s16le_discontinuity], in the order of the
    loops. *)
Definition candidate (samples : list Z) (channels : Z) (prev : option (list Z)) (fc : Z * Z)
    : option discontinuity :=
  match previous_of samples channels fc.1 fc.2 prev with
  | None => None
  | Some p =>
      let c := sample_at samples (fc.1 * channels + fc.2) in
      if suspicious c p then Some (MkDiscontinuity fc.1 (scaled (Z.abs (c - p))) fc.2) else None
  end.

Lemma scaled_not_nan v : scaled v <> NaN.
Proof. apply fl_not_nan. Qed.

(** The fold of the code on the candidates alone. *)
Definition keep_strongest (strongest : option discontinuity) (d : discontinuity)
    : option discontinuity :=
  match strongest with
  | None => Some d
  | Some s => if fltb (dc_magnitude s) (dc_magnitude d) then Some d else strongest
  end.

Lemma detect_fold samples channels prev l s0 :
  fold_left (detect_step samples channels prev) l s0
  = fold_left keep_strongest (omap (candidate samples channels prev) l) s0.
Proof.
  revert s0; induction l as [|[f c] l IH]; intros s0; [done|]. cbn [fold_left].
  rewrite IH. cbn [omap list_omap]. unfold candidate at 2; cbn [fst snd]. unfold detect_step.
  destruct (previous_of samples channels f c prev) as [p|]; [|done].
  destruct (suspicious _ p); cbn [andb]; [|done]. cbn [fold_left]. f_equal.
  destruct s0; [|done]. cbn. by destruct (fltb _ _).
Qed.

Lemma keep_strongest_spec cands :
  Forall (fun d => dc_magnitude d <> NaN) cands ->
  match fold_left keep_strongest cands None with
  | None => cands = []
  | Some d => dc_magnitude d <> NaN
      /\ (exists before after, cands = before ++ d :: after
            /\ Forall (fun x => fltb (dc_magnitude x) (dc_magnitude d) = true) before)
      /\ Forall (fun x => fleb (dc_magnitude x) (dc_magnitude d) = true) cands
  end.
Proof.
  induction cands as [|x l IH] using rev_ind; intros Hn; [done|].
  apply Forall_app in Hn as [Hl [Hx _]%Forall_cons]. specialize (IH Hl).
  rewrite fold_left_app. cbn [fold_left].
  destruct (fold_left keep_strongest l None) as [d|]; cbn [keep_strongest].
  - destruct IH as (Hd & (b & a & -> & Hb) & Hall).
    destruct (fltb (dc_magnitude d) (dc_magnitude x)) eqn:E.
    + assert (Forall (fun y => fltb (dc_magnitude y) (dc_magnitude x) = true) (b ++ d :: a)) as Hlt.
      { eapply Forall_impl; [exact Hall|]. intros y Hy. cbn in Hy.
        unfold fltb in *. apply andb_true_iff in E as [E1 E2].
        rewrite (fleb_trans _ _ _ Hy E1). cbn. apply negb_true_iff in E2. apply negb_true_iff.
        destruct (fleb (dc_magnitude x) (dc_magnitude y)) eqn:Ex; [|done].
        by rewrite (fleb_trans _ _ _ Ex Hy) in E2. }
      split_and!; [done|by exists (b ++ d :: a), []|].
      apply Forall_app. split; [|by repeat constructor; apply fleb_refl].
      eapply Forall_impl; [exact Hlt|]. intros y. apply fltb_fleb.
    + split_and!; [done| |].
      * exists b, (a ++ [x]). split; [|done]. by rewrite <- app_assoc.
      * apply Forall_app. split; [done|]. constructor; [|constructor].
        destruct (fleb_total (dc_magnitude x) (dc_magnitude d) Hx Hd) as [|H]; [done|].
        unfold fltb in E. rewrite H in E. cbn in E. by apply negb_false_iff in E.
  - subst l. cbn. split_and!; [done| |].
    + exists [], []. split; [done | constructor].
    + repeat constructor. by apply fleb_refl.
Qed.

(** The detector answers the strongest suspicious step between the frames
    of the chunk (and from the frame before it): the candidate of greatest
    magnitude, the first of them in frame and channel order; it answers
    nothing exactly when there is no candidate. *)
Theorem detect_strongest_first pcm channels prev r :
  detect_pcm_s16le_discontinuity pcm channels prev = Ok r ->
  let samples := unpack16 pcm in
  let cands := omap (candidate samples channels prev) (positions (len samples / channels) channels) in
  match r with
  | None => cands = []
  | Some d => (exists before after, cands = before ++ d :: after
        /\ Forall (fun x => fltb (dc_magnitude x) (dc_magnitude d) = true) before)
      /\ Forall (fun x => fleb (dc_magnitude x) (dc_magnitude d) = true) cands
      /\ fleb PCM_DISCONTINUITY_THRESHOLD (dc_magnitude d) = true
  end.
Proof.
  unfold detect_pcm_s16le_discontinuity. intros H. simpl_res. cbn zeta.
  set (samples := unpack16 pcm). rewrite detect_fold.
  set (cands := omap _ _).
  assert (Forall (fun d => dc_magnitude d <> NaN
    /\ fleb PCM_DISCONTINUITY_THRESHOLD (dc_magnitude d) = true) cands) as Hc.
  { apply Forall_forall. intros d ([f c] & _ & Hd)%list_elem_of_omap. unfold candidate in Hd. cbn [fst snd] in Hd.
    destruct (previous_of _ _ _ _ _) as [p|]; [|done].
    destruct (suspicious _ p) eqn:Es; [|done]. injection Hd as <-.
    unfold suspicious in Es. apply andb_true_iff in Es as [Es _]. split; [apply scaled_not_nan | done]. }
  pose proof (keep_strongest_spec cands) as Hk.
  destruct (fold_left keep_strongest cands None) as [d|].
  - destruct Hk as (_ & (before & after & Heq & Hb) & Hall);
      [eapply Forall_impl; [exact Hc | by intros ? [? _]]|].
    split_and!; [by eauto | done|]. rewrite Forall_forall in Hc. apply (Hc d). rewrite Heq. set_solver.
  - apply Hk. eapply Forall_impl; [exact Hc | by intros ? [? _]].
Qed.

(** ** Capture health over a session *)

Inductive tap_call : Type :=
  | TapDatagram (datagram : bytes) (ts : datetime)
  | TapDrop (count : Z)
  | TapReport (ts : datetime).

(** What the adapter has accounted for: observed packets, decode errors and
    capture drops. *)
Record tally := MkTally { n_observed : Z; n_errors : Z; n_drops : Z }.

Definition tally_add (a b : tally) : tally :=
  MkTally (n_observed a + n_observed b) (n_errors a + n_errors b) (n_drops a + n_drops b).

(** One call: the adapter afterwards, what happened in it, and what it
    reported in a health window. *)
Definition tap_step (t : RtpPacketTapAdapter) (c : tap_call) : RtpPacketTapAdapter * tally * tally :=
  match c with
  | TapDatagram d ts =>
      let '(r, t') := observe_datagram d ts t in
      (t', if is_ok r then MkTally 1 0 0 else MkTally 0 1 0, MkTally 0 0 0)
  | TapDrop n =>
      let '(r, t') := record_capture_drop n t in
      (t', if is_ok r then MkTally 0 0 n else MkTally 0 0 0, MkTally 0 0 0)
  | TapReport ts =>
      match report_health ts t with
      | (Ok h, t') => (t', MkTally 0 0 0,
          MkTally (ch_observed_packet_count h) (ch_decode_error_count h) (ch_capture_drop_count h))
      | (Raise _ _, t') => (t', MkTally 0 0 0, MkTally 0 0 0)
      end
  end.

Fixpoint tap_run (t : RtpPacketTapAdapter) (calls : list tap_call) : RtpPacketTapAdapter * tally * tally :=
  match calls with
  | [] => (t, MkTally 0 0 0, MkTally 0 0 0)
  | c :: calls' =>
      let '(t1, happened, reported) := tap_step t c in
      let '(t2, happened', reported') := tap_run t1 calls' in
      (t2, tally_add happened happened', tally_add reported reported')
  end.

Definition current (t : RtpPacketTapAdapter) : tally :=
  MkTally (tap_observed t) (tap_errors t) (tap_drops t).

Definition tap_valid (t : RtpPacketTapAdapter) : Prop :=
  _validate_safe_reference (tap_stream_alias t) "stream_alias" 128 = Ok tt
  /\ _validate_safe_reference (tap_clock_domain t) "clock_domain" 64 = Ok tt
  /\ valid_direction (tap_direction t) = true /\ valid_uncertainty (tap_uncertainty t) = true
  /\ 0 <= tap_observed t /\ 0 <= tap_errors t /\ 0 <= tap_drops t.

Lemma make_health_ok h h' : make_health h = Ok h' -> h' = h.
Proof. unfold make_health. intros H. by simpl_res. Qed.

Lemma report_health_ok ts t h t' :
  report_health ts t = (Ok h, t') ->
  MkTally (ch_observed_packet_count h) (ch_decode_error_count h) (ch_capture_drop_count h) = current t
  /\ current t' = MkTally 0 0 0 /\ (tap_valid t -> tap_valid t').
Proof.
  unfold report_health. intros H. simpl_st. unfold _snapshot in *. simpl_res.
  match goal with H : make_health _ = Ok _ |- _ => apply make_health_ok in H as -> end.
  split_and!; [done|done|]. unfold tap_valid, tap_counts; cbn. intros (? & ? & ? & ? & _). split_and!; done.
Qed.

Lemma report_health_raise ts t c e t' : report_health ts t = (Raise c e, t') -> t' = t.
Proof.
  unfold report_health, mbind, st_bind, get_state, lift, put_state.
  destruct (_snapshot ts t); [done|]. by intros [= _ _ <-].
Qed.

Lemma tap_step_balance t c t' happened reported :
  tap_step t c = (t', happened, reported) ->
  tally_add reported (current t') = tally_add (current t) happened
  /\ (tap_valid t -> tap_valid t').
Proof.
  unfold tap_step, tally_add, current. destruct c as [d ts|n|ts].
  - unfold observe_datagram. destruct (rtp_packet_from_datagram _ _ _ _ _ _ _) as [p|];
      intros [= <- <- <-]; cbn; (split; [f_equal; lia|]);
      intros (? & ? & ? & ? & ? & ? & ?); unfold tap_valid; cbn; split_and!; (done || lia).
  - unfold record_capture_drop, mbind, st_bind, lift, guard_else, modify.
    destruct (0 <? n) eqn:En; bool_to_prop; intros [= <- <- <-]; cbn; (split; [f_equal; lia|]);
      intros (? & ? & ? & ? & ? & ? & ?); unfold tap_valid; cbn; split_and!; (done || lia).
  - destruct (report_health ts t) as [[h|c e] t1] eqn:E; intros [= <- <- <-].
    + apply report_health_ok in E as ([= -> -> ->] & [= -> -> ->] & Hv). split; [f_equal; lia | done].
    + apply report_health_raise in E as ->. split; [f_equal; cbn; lia | done].
Qed.

(** Nothing is lost or counted twice across health windows: whatever
    datagrams, drops and reports come in whatever order, the counts reported
    in all windows together with the counts of the open window are the counts
    of what happened; and the adapter stays valid: its aliases, direction,
    uncertainty and counters keep passing the checks of a snapshot. *)
Theorem capture_health_accounts calls t t' happened reported :
  tap_run t calls = (t', happened, reported) ->
  tally_add reported (current t') = tally_add (current t) happened
  /\ (tap_valid t -> tap_valid t').
Proof.
  revert t t' happened reported; induction calls as [|c l IH]; intros t t' h r H; cbn in H.
  - injection H as <- <- <-. unfold tally_add, current; cbn. split; [f_equal; lia | done].
  - destruct (tap_step t c) as [[t1 h1] r1] eqn:E1. destruct (tap_run t1 l) as [[t2 h2] r2] eqn:E2.
    injection H as <- <- <-. apply tap_step_balance in E1 as [[= A1 A2 A3] V1].
    destruct (IH _ _ _ _ E2) as [[= B1 B2 B3] V2]. split; [|auto].
    unfold tally_add in *; cbn in *. f_equal; lia.
Qed.

(** ** Percentages *)

Lemma percentage_bounds c n : 0 <= c <= n -> 0 < n ->
  exists x, percentage c n = Ok x /\ fleb fzero x = true /\ fleb x (fz 100) = true.
Proof.
  intros Hc Hn. unfold percentage. destruct (int_ratio_bounds c n Hc Hn) as (q & -> & Hq).
  destruct (fmul_unit_bounds q 100 Hq) as (x & Hx & H0 & H1); [unfold fprec; lia|].
  exists (Fin x). cbn [mbind result_bind]. split; [by f_equal|].
  assert (fz 100 = Fin (QArith_base.Qmake 100 1)) as -> by (vm_compute; reflexivity).
  split; by apply fleb_fin.
Qed.

Lemma peak_total (log10 : float -> float) peak :
  exists dbfs, (if 0 <? peak then (x ← fdiv (fz peak) PCM16_FULL_SCALE; Ok (fmul (fz 20) (log10 x)))
                else Ok (fz (-120))) = Ok dbfs.
Proof.
  destruct (0 <? peak); [|by eexists].
  assert (PCM16_FULL_SCALE = Fin (QArith_base.Qmake 32768 1)) as -> by (vm_compute; reflexivity).
  destruct (fdiv_fin (fz peak) (QArith_base.Qmake 32768 1)) as [x ->]; [done|]. by eexists.
Qed.

(** The quality measurement is total on whole samples. *)
Lemma quality_total log10 pcm :
  even_length pcm = true -> exists q, pcm_s16le_quality log10 pcm = Ok q.
Proof.
  intros He. unfold pcm_s16le_quality, guard_else. rewrite He. cbn [mbind result_bind].
  destruct (len (unpack16 pcm) =? 0) eqn:E; bool_to_prop; [by eexists|].
  destruct (peak_total log10 (fold_left (fun p v => Z.max p (Z.abs v)) (unpack16 pcm) 0)) as [peak ->].
  pose proof (len_nonneg (unpack16 pcm)).
  destruct (percentage_bounds (countb is_full_scale (unpack16 pcm)) (len (unpack16 pcm)))
    as (full & Hf & _); [apply countb_bounds|lia|].
  destruct (percentage_bounds (countb is_silent (unpack16 pcm)) (len (unpack16 pcm)))
    as (silent & Hsil & _); [apply countb_bounds|lia|].
  cbn [mbind result_bind]. rewrite Hf. cbn [mbind result_bind]. rewrite Hsil. by eexists.
Qed.

(** The quality measurement never fails on whole samples: both
    percentages lie between 0 and 100, every full-scale or silent sample is
    counted once, and nothing is full-scale and silent at once. *)
Theorem quality_percentages log10 pcm :
  even_length pcm = true ->
  exists peak full silent, pcm_s16le_quality log10 pcm = Ok (peak, full, silent)
    /\ fleb fzero full = true /\ fleb full (fz 100) = true
    /\ fleb fzero silent = true /\ fleb silent (fz 100) = true
    /\ countb is_full_scale (unpack16 pcm) + countb is_silent (unpack16 pcm) <= len (unpack16 pcm).
Proof.
  intros He. unfold pcm_s16le_quality, guard_else. rewrite He. cbn [mbind result_bind].
  set (l := unpack16 pcm).
  assert (countb is_full_scale l + countb is_silent l <= len l) as Hsum.
  { clear. induction l as [|v l IH]; [done|]. cbn [countb]. rewrite len_cons.
    assert ((if is_full_scale v then 1 else 0) + (if is_silent v then 1 else 0) <= 1); [|lia].
    unfold is_full_scale, is_silent, PCM16_SILENCE_AMPLITUDE.
    destruct (Z.eqb_spec v (-32768)), (Z.eqb_spec v 32767), (Z.leb_spec (Z.abs v) 33); cbn; lia. }
  destruct (len l =? 0) eqn:E; bool_to_prop.
  { exists (fz (-120)), fzero, fzero. split_and!; (done || by vm_compute). }
  pose proof (len_nonneg l) as Hl. pose proof (countb_bounds is_full_scale l).
  pose proof (countb_bounds is_silent l).
  destruct (percentage_bounds (countb is_full_scale l) (len l)) as (full & -> & ? & ?); [lia..|].
  destruct (percentage_bounds (countb is_silent l) (len l)) as (silent & -> & ? & ?); [lia..|].
  destruct (peak_total log10 (fold_left (fun p v => Z.max p (Z.abs v)) l 0)) as [peak ->].
  by exists peak, full, silent.
Qed.

(** ** Concrete observations *)

Definition sample_ts : datetime := Datetime 1000000 (Some 0).
Definition sample_observer : VoxBenchObserver :=
  observe_metric "cpu" (fz 1) None sample_ts
    (observe_timeline_event (packet_event 7 (MkRtpPacket "lab" "sent" 1 2 3 8000 false "wall" None sample_ts))
      (new_observer "run")).
Definition failing_plan (n : nat) : send_outcome :=
  MkSend false (only_metrics [MkMetricPoint "late" (fz 2) None sample_ts]).

Lemma flush_loses_nothing_witness :
  ob_pending (snd (snd (flush failing_plan sample_observer)))
  = obs_app (ob_pending sample_observer) (arrived failing_plan 0 1).
Proof.
  destruct (flush_loses_nothing failing_plan sample_observer [] (Raise OtherError "send")
    (snd (snd (flush failing_plan sample_observer))) ltac:(vm_compute; reflexivity)) as [H _].
  exact (eq_trans (eq_sym (obs_app_nil_l _)) H).
Defined.

Lemma detect_strongest_first_witness :
  let pcm := concat (map le16 [0; 20000; 0; -30000]) in
  omap (candidate (unpack16 pcm) 1 None) (positions 4 1) <> [].
Proof.
  pose proof (detect_strongest_first (concat (map le16 [0; 20000; 0; -30000])) 1 None
    (Some (MkDiscontinuity 3 (scaled 30000) 0))) as H.
  destruct H as ((before & after & H & _) & _); [vm_compute; reflexivity|].
  cbn zeta in H |- *. intros Hn. change (len (unpack16 (concat (map le16 [0; 20000; 0; -30000]))) / 1) with 4 in H.
  rewrite Hn in H. destruct before; discriminate H.
Defined.

Lemma rtp_header_decodes_witness :
  rtp_packet_from_datagram (rtp_header true 96 4660 305419896 1 ++ [x00; x01]) "lab" "sent" 8000 "wall"
    None sample_ts
  = make_rtp_packet (MkRtpPacket "lab" "sent" 4660 305419896 96 8000 true "wall" None sample_ts).
Proof.
  apply (rtp_header_decodes true 96 4660 305419896 1 [x00; x01] "lab" "sent" 8000 "wall" None sample_ts);
    lia.
Defined.

Definition sample_tap : RtpPacketTapAdapter :=
  MkTap (new_observer "run") "lab" "sent" 8000 "wall" None false sample_ts 0 0 0.

Lemma capture_health_accounts_witness :
  let calls := [TapDatagram (rtp_header false 0 1 2 3) sample_ts; TapDatagram [] sample_ts; TapDrop 2;
                TapReport (Datetime 2000000 (Some 0)); TapDatagram [] sample_ts] in
  tally_add (MkTally 1 1 2) (current (fst (fst (tap_run sample_tap calls))))
  = tally_add (current sample_tap) (MkTally 1 2 2).
Proof.
  eapply (capture_health_accounts
    [TapDatagram (rtp_header false 0 1 2 3) sample_ts; TapDatagram [] sample_ts; TapDrop 2;
     TapReport (Datetime 2000000 (Some 0)); TapDatagram [] sample_ts] sample_tap _
    (MkTally 1 2 2) (MkTally 1 1 2)).
  vm_compute. reflexivity.
Defined.

Lemma quality_percentages_witness :
  exists peak full silent, pcm_s16le_quality (fun x => x) (le16 32767 ++ le16 3) = Ok (peak, full, silent)
    /\ fleb fzero full = true /\ fleb full (fz 100) = true
    /\ fleb fzero silent = true /\ fleb silent (fz 100) = true
    /\ countb is_full_scale (unpack16 (le16 32767 ++ le16 3))
       + countb is_silent (unpack16 (le16 32767 ++ le16 3)) <= len (unpack16 (le16 32767 ++ le16 3)).
Proof. apply (quality_percentages (fun x => x) (le16 32767 ++ le16 3)). reflexivity. Defined.
