(* ===== verification/AudioSocket.v ===== *)
(** * AudioSocket: framing, level control, the playback buffer and evidence

    The pure and buffer parts of [telephony/audiosocket.py]: reading and
    writing frames, [apply_agc] and [apply_limiter], [PlaybackBuffer], the
    accounting that ties every packet to the provider chunks its bytes come
    from, and [_bounded_evidence].  A stream reader is the bytes that arrive
    before the end of the connection; a writer is the bytes written to it.

    [pcm_s16le_rms] is the definition of [Observer.v].  The loops that consume
    sources and cut packets take fuel: each turn removes a source or ends, and
    each packet shortens the buffer ([consume_loop_spec], [packets_spec]). *)
From S2P Require Import Prelude Effects PyFloat PyData Bytes Observer.
From Stdlib Require Import QArith Lqa.

Open Scope Z_scope.

Definition TYPE_TERMINATE : Z := 0.
Definition TYPE_UUID : Z := 1.
Definition TYPE_DTMF : Z := 3.
Definition TYPE_ERROR : Z := 255.

Definition AUDIO_TYPE_SAMPLE_RATES : list (Z * Z) :=
  [(16, 8000); (17, 12000); (18, 16000); (19, 24000); (20, 32000); (21, 44100); (22, 48000);
   (23, 96000); (24, 192000)].

Definition BARGE_IN_CHUNK_LOOKBACK_MS : float := fz 250.
Definition BARGE_IN_CHUNK_EVIDENCE_LIMIT : Z := 16.
Definition BARGE_IN_FRAME_EVIDENCE_LIMIT : Z := 32.

(** ** Records *)

Record PlaybackPosition := MkPosition { item_id : string; content_index : Z; audio_end_ms : Z }.

#[export] Instance playback_position_eq_dec : EqDecision PlaybackPosition.
Proof. solve_decision. Defined.

Record _ProviderAudioChunkObservation := MkChunkObservation {
  co_ordinal : Z; co_received_at : datetime; co_received_monotonic : float;
  co_duration_ms : float; co_rms : float; co_silence_sample_pct : float; co_signal_bearing : bool }.

Record _BufferedProviderAudioSource := MkSource {
  chunk_ordinal : Z; received_at : datetime; received_monotonic : float; remaining_bytes : Z }.

Record _ProviderAudioSourceWindow := MkWindow {
  chunk_ordinals : list Z; first_received_at : datetime; first_received_monotonic : float;
  last_received_monotonic : float }.

Record _PlaybackFrameObservation := MkFrameObservation {
  fo_frame_ordinal : Z; fo_source_window : _ProviderAudioSourceWindow; fo_enqueued_at : datetime;
  fo_enqueued_monotonic : float; fo_output_rms : float; fo_silence_sample_pct : float;
  fo_signal_bearing : bool; fo_queue_depth_after_enqueue : Z }.

Record AudioSocketFrame := MkFrame {
  frame_type : Z; payload : bytes; playback_position : option PlaybackPosition;
  _playback_observation : option _PlaybackFrameObservation }.

(** [AudioSocketFrame(frame_type=t, payload=p)]. *)
Definition wire_frame (t : Z) (p : bytes) : AudioSocketFrame := MkFrame t p None None.

(** ** Framing *)

(** [reader.readexactly(n)]: [None] stands for [IncompleteReadError], after
    which nothing is left to read. *)
Definition readexactly (n : Z) (reader : bytes) : option bytes * bytes :=
  if n <=? len reader then (Some (take (Z.to_nat n) reader), drop (Z.to_nat n) reader)
  else (None, []).

Definition read_frame : st bytes (option AudioSocketFrame) := fun reader =>
  match readexactly 3 reader with
  | (None, rest) =>
      if bool_decide (reader = []) then (Ok None, rest)
      else (Raise ConnectionError "truncated AudioSocket header", rest)
  | (Some header, rest) =>
      let frame_type := byte_at header 0 in
      let payload_length := from_bytes_big (slice 1 3 header) in
      match readexactly payload_length rest with
      | (None, rest') => (Raise ConnectionError "truncated AudioSocket payload", rest')
      | (Some payload, rest') => (Ok (Some (wire_frame frame_type payload)), rest')
      end
  end.

(** [n.to_bytes(2, "big")] of a number below 65536. *)
Definition to_bytes2_big (n : Z) : bytes := [byte_of (n / 256); byte_of n].

Definition write_frame (frame_type : Z) (payload : bytes) : st bytes unit :=
  _ ← lift (guard_else ((0 <=? frame_type) && (frame_type <=? 255)) ValueError
        "AudioSocket frame type must fit in one byte");
  _ ← lift (guard_else (len payload <=? 65535) ValueError
        "AudioSocket payload exceeds 16-bit frame length");
  modify (fun written => written ++ [byte_of frame_type] ++ to_bytes2_big (len payload) ++ payload).

(** ** Level control *)

Definition clamp (lo hi v : Z) : Z := Z.min hi (Z.max lo v).

Definition apply_agc (pcm_s16le : bytes) (target_rms max_gain noise_floor : float)
    : result (bytes * float) :=
  input_rms ← pcm_s16le_rms pcm_s16le;
  if fleb input_rms noise_floor || fleb input_rms fzero then Ok (pcm_s16le, fz 1)
  else
    ratio ← fdiv target_rms input_rms;
    let gain := pymin max_gain ratio in
    values ← mapM_res (fun sample =>
               x ← float_of_int sample;
               value ← py_round (fmul x gain);
               Ok (clamp (-32768) 32767 value)) (unpack16 pcm_s16le);
    output ← pack16_all values;
    Ok (output, gain).

Definition apply_limiter (pcm_s16le : bytes) (ceiling : float) : result bytes :=
  _ ← guard_else (fltb fzero ceiling && fleb ceiling (fz 1)) ValueError
        "limiter ceiling must be in (0, 1]";
  limit ← py_round (fmul (fz 32767) ceiling);
  _ ← guard_else (even_length pcm_s16le) StructError
        "iterative unpacking requires a buffer of a multiple of 2 bytes";
  pack16_all (map (clamp (- limit) limit) (unpack16 pcm_s16le)).

(** ** PlaybackBuffer *)

Record PlaybackBuffer := MkBuffer {
  max_frames : Z; _frames : list AudioSocketFrame; _closed : bool }.

Definition new_playback_buffer : PlaybackBuffer := MkBuffer 250 [] false.

Definition with_frames (l : list AudioSocketFrame) (b : PlaybackBuffer) : PlaybackBuffer :=
  MkBuffer (max_frames b) l (_closed b).

(** [frame._playback_observation.queue_depth_after_enqueue = depth]. *)
Definition with_queue_depth (depth : Z) (f : AudioSocketFrame) : AudioSocketFrame :=
  MkFrame (frame_type f) (payload f) (playback_position f)
    (match _playback_observation f with
     | None => None
     | Some o => Some (MkFrameObservation (fo_frame_ordinal o) (fo_source_window o) (fo_enqueued_at o)
         (fo_enqueued_monotonic o) (fo_output_rms o) (fo_silence_sample_pct o) (fo_signal_bearing o)
         depth)
     end).

Definition put (frame : AudioSocketFrame) : st PlaybackBuffer Z := fun b =>
  let add dropped kept :=
    (Ok dropped, with_frames (kept ++ [with_queue_depth (len kept + 1) frame]) b) in
  if max_frames b <=? len (_frames b) then
    match _frames b with
    | [] => (Raise IndexError "pop from an empty deque", b)
    | _ :: rest => add 1 rest
    end
  else add 0 (_frames b).

(** The answer of [get]: it waits while the buffer is empty and open. *)
Inductive get_answer : Type :=
  | GetFrame (f : AudioSocketFrame)
  | GetEnd
  | GetWait.

Definition get (b : PlaybackBuffer) : get_answer * PlaybackBuffer :=
  match _frames b with
  | f :: rest => (GetFrame f, with_frames rest b)
  | [] => (if _closed b then GetEnd else GetWait, b)
  end.

Definition clear (b : PlaybackBuffer) : Z * PlaybackBuffer := (len (_frames b), with_frames [] b).

Definition drain (b : PlaybackBuffer) : list AudioSocketFrame * PlaybackBuffer :=
  (_frames b, with_frames [] b).

Definition close (b : PlaybackBuffer) : PlaybackBuffer := MkBuffer (max_frames b) (_frames b) true.

(** ** Source accounting *)

(** [tuple(dict.fromkeys(l))]: the distinct members in order of appearance. *)
Fixpoint fromkeys (seen : list Z) (l : list Z) : list Z :=
  match l with
  | [] => []
  | x :: l' => if bool_decide (x ∈ seen) then fromkeys seen l' else x :: fromkeys (x :: seen) l'
  end.

Definition _source_window (sources : list _BufferedProviderAudioSource)
    : result _ProviderAudioSourceWindow :=
  match sources with
  | [] => Raise IndexError "tuple index out of range"
  | first :: _ =>
      let last := List.last sources first in
      Ok (MkWindow (fromkeys [] (map chunk_ordinal sources)) (received_at first)
            (received_monotonic first) (received_monotonic last))
  end.

Definition _buffered_source_window (sources : list _BufferedProviderAudioSource)
    : result (option _ProviderAudioSourceWindow) :=
  match sources with
  | [] => Ok None
  | _ => w ← _source_window sources; Ok (Some w)
  end.

Definition with_remaining (n : Z) (s : _BufferedProviderAudioSource) : _BufferedProviderAudioSource :=
  MkSource (chunk_ordinal s) (received_at s) (received_monotonic s) n.

(** The [while remaining] loop: the sources consumed, those left being the state. *)
Fixpoint consume_loop (fuel : nat) (remaining : Z) (consumed : list _BufferedProviderAudioSource)
    : st (list _BufferedProviderAudioSource) (list _BufferedProviderAudioSource) := fun sources =>
  if remaining =? 0 then (Ok consumed, sources)
  else
    match fuel with
    | O => (Raise OtherError "fuel", sources)
    | S fuel' =>
        match sources with
        | [] => (Raise RuntimeError "packet source accounting underrun", [])
        | source :: rest =>
            let consumed_bytes := Z.min remaining (remaining_bytes source) in
            let left := with_remaining (remaining_bytes source - consumed_bytes) source in
            consume_loop fuel' (remaining - consumed_bytes) (consumed ++ [source])
              (if remaining_bytes left =? 0 then rest else left :: rest)
        end
    end.

Definition _consume_buffered_sources (byte_count : Z)
    : st (list _BufferedProviderAudioSource) _ProviderAudioSourceWindow :=
  _ ← lift (guard_else (0 <? byte_count) ValueError "byte_count must be positive");
  sources ← get_state;
  consumed ← consume_loop (length sources + 1) byte_count [];
  lift (_source_window consumed).

(** ** Bounded evidence *)

(** [values[-n:]] for a non-negative [n]: the whole list when [n] is zero. *)
Definition last_n {A} (n : Z) (values : list A) : list A :=
  if n =? 0 then values else drop (length values - Z.to_nat n) values.

Definition _bounded_evidence {A} (values : list A) (limit : Z) : list A :=
  if limit <=? 0 then []
  else if len values <=? limit then values
  else
    let head_count := (limit + 1) / 2 in
    let tail_count := limit - head_count in
    take (Z.to_nat head_count) values ++ last_n tail_count values.

(** ** Lemmas: framing *)

(** A message of the caller: a frame type and a payload. *)
Definition encode (m : Z * bytes) : bytes :=
  [byte_of m.1] ++ to_bytes2_big (len m.2) ++ m.2.

Definition accepted (m : Z * bytes) : Prop := 0 <= m.1 <= 255 /\ len m.2 <= 65535.

Fixpoint write_all (l : list (Z * bytes)) : st bytes unit :=
  match l with
  | [] => mret tt
  | m :: l' => _ ← write_frame m.1 m.2; write_all l'
  end.

(** Read frames up to a clean end ([None]) or an error. *)
Fixpoint read_stream (fuel : nat) (reader : bytes) : list AudioSocketFrame * option exn_class :=
  match fuel with
  | O => ([], Some OtherError)
  | S fuel' =>
      match read_frame reader with
      | (Ok None, _) => ([], None)
      | (Ok (Some f), rest) => let r := read_stream fuel' rest in (f :: r.1, r.2)
      | (Raise c _, _) => ([], Some c)
      end
  end.

Definition wire (l : list (Z * bytes)) : bytes := concat (map encode l).
Definition frames_of (l : list (Z * bytes)) : list AudioSocketFrame :=
  map (fun m => wire_frame m.1 m.2) l.

Lemma write_all_wire l w : Forall accepted l -> write_all l w = (Ok tt, w ++ wire l).
Proof.
  intros H. revert w. induction H as [|m l [Ht Hp] _ IH]; intros w.
  - cbn. unfold wire. cbn. by rewrite app_nil_r.
  - cbn -[write_frame]. unfold mbind, st_bind. unfold write_frame, guard_else, mbind, st_bind, lift, modify.
    rewrite (proj2 (Z.leb_le 0 m.1)), !(proj2 (Z.leb_le _ _)) by lia. cbn -[write_all].
    rewrite IH. unfold wire. cbn. by rewrite <- app_assoc.
Qed.

Lemma length_take_Z {A} (n : Z) (l : list A) : 0 <= n <= len l -> len (take (Z.to_nat n) l) = n.
Proof. intros H. unfold len in *. rewrite length_take. lia. Qed.

Lemma readexactly_app n a b : len a = n -> readexactly n (a ++ b) = (Some a, b).
Proof.
  intros <-. unfold readexactly. rewrite len_app. pose proof (len_nonneg b).
  rewrite (proj2 (Z.leb_le _ _)) by lia.
  replace (Z.to_nat (len a)) with (length a) by (unfold len; lia).
  by rewrite take_app_length, drop_app_length.
Qed.

Lemma readexactly_short n a : len a < n -> readexactly n a = (None, []).
Proof. intros H. unfold readexactly. by rewrite (proj2 (Z.leb_gt _ _)) by lia. Qed.

Lemma read_frame_encode m rest :
  accepted m -> read_frame (encode m ++ rest) = (Ok (Some (wire_frame m.1 m.2)), rest).
Proof.
  destruct m as [t p]. intros [Ht Hp]. cbn [fst snd] in *. unfold read_frame, encode. cbn [fst snd].
  change ([byte_of t] ++ to_bytes2_big (len p) ++ p)
    with ([byte_of t; byte_of (len p / 256); byte_of (len p)] ++ p).
  rewrite <- app_assoc, (readexactly_app 3) by done.
  change (byte_at _ 0) with (byte_val (byte_of t)). rewrite byte_val_of_small by lia.
  change (from_bytes_big (slice 1 3 _))
    with ((0 * 256 + byte_val (byte_of (len p / 256))) * 256 + byte_val (byte_of (len p))).
  pose proof (len_nonneg p). rewrite !byte_val_of.
  replace ((0 * 256 + (len p / 256) mod 256) * 256 + len p mod 256) with (len p).
  - by rewrite readexactly_app.
  - rewrite (Z.mod_small (len p / 256)); [pose proof (Z.div_mod (len p) 256 ltac:(lia)); lia|].
    split; [apply Z.div_pos; lia | apply Z.div_lt_upper_bound; lia].
Qed.

Lemma len_encode m : len (encode m) = 3 + len m.2.
Proof. unfold encode, to_bytes2_big. cbn [app]. rewrite !len_cons. lia. Qed.

(** A frame cut before its end is an error, and nothing is a clean end. *)
Lemma read_frame_cut m part :
  accepted m -> (exists rest, encode m = part ++ rest /\ rest <> []) ->
  fst (read_frame part) =
    if bool_decide (part = []) then Ok None else
    if len part <? 3 then Raise ConnectionError "truncated AudioSocket header"
    else Raise ConnectionError "truncated AudioSocket payload".
Proof.
  intros Hm (rest & He & Hr). destruct m as [t p], Hm as [Ht Hp]. cbn [fst snd] in *.
  pose proof (len_nonneg rest). assert (len part < 3 + len p).
  { pose proof (len_encode (t, p)) as Hl. rewrite He, len_app in Hl. cbn [snd] in Hl.
    destruct rest; [done|]. rewrite len_cons in Hl. pose proof (len_nonneg rest). lia. }
  unfold read_frame. destruct (Z.ltb_spec (len part) 3) as [H3|H3].
  - rewrite readexactly_short by done. by destruct (bool_decide (part = [])).
  - destruct part as [|b0 [|b1 [|b2 part]]];
      [unfold len in H3; cbn in H3; lia..|].
    rewrite bool_decide_eq_false_2 by done.
    change (b0 :: b1 :: b2 :: part) with ([b0; b1; b2] ++ part).
    rewrite (readexactly_app 3) by done.
    unfold encode, to_bytes2_big in He. cbn [app fst snd] in He. injection He as <- <- <- Hrest.
    change (from_bytes_big (slice 1 3 _))
      with ((0 * 256 + byte_val (byte_of (len p / 256))) * 256 + byte_val (byte_of (len p))).
    rewrite !len_cons in H0. rewrite readexactly_short; [done|].
    rewrite !byte_val_of. pose proof (len_nonneg p).
    rewrite (Z.mod_small (len p / 256)); [pose proof (Z.div_mod (len p) 256 ltac:(lia)); lia|].
    split; [apply Z.div_pos; lia | apply Z.div_lt_upper_bound; lia].
Qed.

(** What a stream cut after whole frames and a part of the next one gives. *)
Lemma read_stream_cut fuel l m part :
  Forall accepted l -> accepted m -> (exists rest, encode m = part ++ rest /\ rest <> []) ->
  (length l < fuel)%nat ->
  read_stream fuel (wire l ++ part) =
    (frames_of l, if bool_decide (part = []) then None else Some ConnectionError).
Proof.
  intros Hl Hm Hpart. revert fuel. induction Hl as [|x l Hx Hl IH]; intros fuel Hf.
  - destruct fuel as [|fuel]; [lia|]. cbn -[read_frame].
    pose proof (read_frame_cut m part Hm Hpart) as Hr.
    destruct (read_frame part) as [r rest']. cbn [fst] in Hr. rewrite Hr.
    by destruct (bool_decide (part = [])), (len part <? 3).
  - destruct fuel as [|fuel]; [cbn in Hf; lia|]. unfold wire. cbn [map concat].
    rewrite <- app_assoc. cbn [read_stream]. rewrite read_frame_encode by done.
    fold (wire l). rewrite IH by (cbn in Hf; lia). done.
Qed.

Lemma wire_length l : (length l <= length (wire l))%nat.
Proof.
  induction l as [|m l IH]; [done|]. unfold wire. cbn [map concat]. rewrite length_app.
  fold (wire l). pose proof (len_encode m) as H. pose proof (len_nonneg m.2). unfold len in *.
  cbn [length]. lia.
Qed.

(** Every cut of a stream is some whole frames and a part of the next one. *)
Lemma wire_cut l n :
  (n < length (wire l))%nat ->
  exists k m part, (l !! k) = Some m /\ take n (wire l) = wire (take k l) ++ part /\
    exists rest, encode m = part ++ rest /\ rest <> [].
Proof.
  revert n. induction l as [|x l IH]; intros n Hn; [cbn in Hn; lia|].
  unfold wire in *. cbn [map concat] in *. rewrite length_app in Hn.
  destruct (decide (n < length (encode x))%nat) as [Hlt|Hge].
  - exists 0%nat, x, (take n (encode x)). split_and!; [done| |].
    + rewrite take_app_le by lia. done.
    + exists (drop n (encode x)). split; [by rewrite take_drop|].
      intros H. apply (f_equal length) in H. rewrite length_drop in H. change (length (@nil Byte.byte)) with 0%nat in H. lia.
  - destruct (IH (n - length (encode x))%nat) as (k & m & part & Hk & Ht & Hr); [lia|].
    exists (S k), m, part. split_and!; [done| |done].
    rewrite take_app_ge by lia. cbn [take map concat]. rewrite Ht, <- app_assoc. done.
Qed.

(** ** Lemmas: level control *)

Lemma sum_squares_bounds l acc B :
  Forall (fun v => int16_ok v = true) l -> 0 <= acc <= B ->
  0 <= fold_left (fun acc v => acc + v * v) l acc <= B + 1073741824 * len l.
Proof.
  intros H. revert acc B. induction H as [|v l Hv _ IH]; intros acc B Hacc.
  - unfold len. cbn. lia.
  - cbn [fold_left]. rewrite len_cons. unfold int16_ok in Hv. bool_to_prop.
    specialize (IH (acc + v * v) (B + 1073741824)). nia.
Qed.

Lemma pcm_rms_fin pcm :
  even_length pcm = true -> exists r, pcm_s16le_rms pcm = Ok (Fin r).
Proof.
  intros He. unfold pcm_s16le_rms. rewrite He. cbn [guard_else mbind result_bind].
  destruct (Z.eqb_spec (len pcm / 2) 0) as [|Hn]; [by eexists|].
  pose proof (len_unpack16 pcm He) as Hl. set (n := len pcm / 2) in *.
  assert (len (unpack16 pcm) = n) as Hln.
  { subst n. rewrite <- Hl, Z.mul_comm, Z.div_mul by lia. done. }
  pose proof (len_nonneg (unpack16 pcm)).
  pose proof (sum_squares_bounds (unpack16 pcm) 0 0 (unpack16_range pcm) ltac:(lia)) as Hs.
  fold (sum_squares (unpack16 pcm)) in Hs. rewrite Hln in *.
  unfold int_truediv. rewrite (proj2 (Z.eqb_neq n 0)) by lia.
  assert (inject_Z 0 <= inject_Z (sum_squares (unpack16 pcm)) / inject_Z n <= inject_Z 1073741824)%Q as Hq.
  { assert (0 < inject_Z n)%Q by (change 0%Q with (inject_Z 0); rewrite <- Zlt_Qlt; lia).
    split; [apply Qle_shift_div_l | apply Qle_shift_div_r]; try done;
      rewrite <- inject_Z_mult, <- Zle_Qle; lia. }
  apply fl_bounded_int in Hq as (q & -> & Hq & _); [|unfold fprec; lia..].
  cbn [mbind result_bind fsqrt]. change (inject_Z 0) with 0%Q in Hq.
  apply Qle_bool_iff in Hq. rewrite Hq. by eexists.
Qed.

(** [v'] has not the opposite sign of [v]. *)
Definition keeps_sign (v v' : Z) : Prop := (0 <= v -> 0 <= v') /\ (v <= 0 -> v' <= 0).

Lemma clamp_spec lo hi v : lo <= hi -> lo <= clamp lo hi v <= hi.
Proof. unfold clamp. lia. Qed.

Lemma clamp_sign L v : 0 <= L -> keeps_sign v (clamp (- L) L v).
Proof. unfold keeps_sign, clamp. lia. Qed.

(** One sample under a gain between zero and a bound: finite and of the same
    sign, and never larger than the sample times the bound. *)
Lemma gained_sample v g :
  int16_ok v = true -> (0 <= g <= 1000000)%Q ->
  exists r, fmul (fz v) (Fin g) = Fin r /\ keeps_sign v (rne r).
Proof.
  intros Hv Hg. unfold int16_ok in Hv. bool_to_prop.
  destruct (fz_exact v) as (q & -> & Hq); [unfold fprec; lia|]. cbn [fmul].
  assert (inject_Z (-32768) <= inject_Z v <= inject_Z 32767)%Q as Hb by (rewrite <- !Zle_Qle; lia).
  change (inject_Z (-32768)) with (-32768 # 1) in Hb. change (inject_Z 32767) with (32767 # 1) in Hb.
  assert (forall lo hi, (Z.abs lo < 2 ^ fprec)%Z -> (Z.abs hi < 2 ^ fprec)%Z ->
    (inject_Z lo <= q * g <= inject_Z hi)%Q -> exists r, fl (q * g) = Fin r /\ lo <= rne r <= hi) as Hfl.
  { intros lo hi Hlo Hhi Hc. destruct (fl_bounded_int _ lo hi Hlo Hhi Hc) as (r & Hr & H1 & H2).
    exists r. split; [done|]. split; [by apply rne_ge_int | by apply rne_le_int]. }
  destruct (Z.le_gt_cases 0 v) as [H0|H0].
  - destruct (Hfl 0 32767000000) as (r & Hr & Hrange); [unfold fprec; lia..| |].
    { change (inject_Z 0) with 0%Q. change (inject_Z 32767000000) with (32767000000 # 1)%Q. rewrite Hq.
      assert (0 <= inject_Z v)%Q by (change 0%Q with (inject_Z 0); rewrite <- Zle_Qle; lia). split; nra. }
    exists r. split; [done|]. unfold keeps_sign. split; [lia|]. intros ?. assert (v = 0) as -> by lia.
    destruct (Hfl 0 0) as (r' & Hr' & ?); [unfold fprec; lia..| |].
    { change (inject_Z 0) with 0%Q in *. rewrite Hq. lra. }
    assert (r = r') as -> by congruence. lia.
  - destruct (Hfl (-32768000000) 0) as (r & Hr & Hrange); [unfold fprec; lia..| |].
    { change (inject_Z 0) with 0%Q. change (inject_Z (-32768000000)) with (-32768000000 # 1)%Q. rewrite Hq.
      assert (inject_Z v <= 0)%Q by (change 0%Q with (inject_Z 0); rewrite <- Zle_Qle; lia). split; nra. }
    exists r. split; [done|]. unfold keeps_sign. lia.
Qed.

(** The gain of the AGC is between zero and the maximum gain. *)
Lemma agc_gain_bounds (t g r : Q) :
  (0 <= t)%Q -> (0 <= g)%Q -> (0 < r)%Q ->
  exists ratio q, fdiv (Fin t) (Fin r) = Ok ratio /\ pymin (Fin g) ratio = Fin q /\ (0 <= q <= g)%Q.
Proof.
  intros Ht Hg Hr. unfold fdiv. destruct (Qeq_bool r 0) eqn:E; [apply Qeq_bool_iff in E; lra|].
  assert (0 <= t / r)%Q as Hq by (apply Qle_shift_div_l; lra). apply fl_mono in Hq.
  assert (fl 0 = Fin 0) as H0 by reflexivity. rewrite H0 in Hq.
  exists (fl (t / r)). unfold pymin. destruct (fltb (fl (t / r)) (Fin g)) eqn:Elt.
  - destruct (fl (t / r)) as [x| | |] eqn:Ex; try done. exists x. split; [done|]. split; [done|].
    apply fleb_fin in Hq. apply fltb_fin in Elt. lra.
  - exists g. split; [done|]. split; [done|]. lra.
Qed.

Lemma agc_spec pcm (t g : Q) noise :
  even_length pcm = true -> (0 <= t)%Q -> (0 <= g <= 1000000)%Q ->
  exists out gain, apply_agc pcm (Fin t) (Fin g) noise = Ok (out, gain)
    /\ even_length out = true /\ len out = len pcm
    /\ Forall2 keeps_sign (unpack16 pcm) (unpack16 out)
    /\ ((out = pcm /\ gain = fz 1) \/ exists q, gain = Fin q /\ (0 <= q <= g)%Q).
Proof.
  intros He Ht Hg. unfold apply_agc. destruct (pcm_rms_fin pcm He) as (r & ->). cbn [mbind result_bind].
  destruct (fleb (Fin r) noise || fleb (Fin r) fzero) eqn:E.
  { exists pcm, (fz 1). split_and!; auto. apply Forall2_same_length_lookup_2; [done|].
    intros i x y Hx Hy. assert (x = y) as -> by congruence. unfold keeps_sign. lia. }
  bool_to_prop. apply fleb_fin_false in E.
  destruct (agc_gain_bounds t g r) as (ratio & q & -> & Hq & Hb); [lra..|]. cbn [mbind result_bind].
  rewrite Hq. assert (exists values,
    mapM_res (fun sample => x ← float_of_int sample; value ← py_round (fmul x (Fin q));
                Ok (clamp (-32768) 32767 value)) (unpack16 pcm) = Ok values
    /\ Forall2 keeps_sign (unpack16 pcm) values /\ Forall (fun v => int16_ok v = true) values)
    as (values & -> & Hs & Hv).
  { generalize (unpack16_range pcm). generalize (unpack16 pcm). induction 1 as [|v l Hv _ IH].
    - exists []. split_and!; constructor.
    - destruct IH as (vs & Hvs & Hs & Hok). destruct (gained_sample v q Hv) as (x & Hx & Hsign); [lra|].
      exists (clamp (-32768) 32767 (rne x) :: vs). cbn [mapM_res].
      rewrite float_of_int_fz by (unfold int16_ok, fprec in *; bool_to_prop; lia).
      cbn [mbind result_bind]. rewrite Hx. cbn [py_round mbind result_bind]. rewrite Hvs.
      cbn [mbind result_bind]. split_and!; [done| |].
      + constructor; [|done]. unfold keeps_sign, clamp in *. lia.
      + constructor; [|done]. unfold int16_ok. rewrite andb_true_iff, !Z.leb_le.
        apply clamp_spec. lia. }
  cbn [mbind result_bind]. rewrite pack16_all_ok by done. cbn [mbind result_bind].
  assert (unpack16 (concat (map le16 values)) = values) as Hu by (by apply unpack16_concat).
  assert (len (concat (map le16 values)) = 2 * len values) as Hlen.
  { clear. induction values as [|v l IH]; [done|]. cbn [map concat]. rewrite len_app, IH, len_cons.
    change (len (le16 v)) with 2. lia. }
  exists (concat (map le16 values)), (Fin q). split_and!; [done| | |by rewrite Hu|right; eauto].
  - unfold even_length. rewrite Hlen, Z.mul_comm, Z.mod_mul by lia. done.
  - rewrite Hlen, <- len_unpack16 by done. apply Forall2_length in Hs. unfold len. lia.
Qed.

Definition within (L : Z) (v : Z) : Prop := - L <= v <= L.

Lemma limit_bounds (c : Q) :
  (0 < c <= 1)%Q -> exists L, (x ← Ok (fmul (fz 32767) (Fin c)); py_round x) = Ok L /\ 0 <= L <= 32767.
Proof.
  intros Hc. destruct (fmul_unit_bounds c 32767) as (x & Hx & Hb); [lra|unfold fprec; lia|].
  assert (fmul (fz 32767) (Fin c) = fmul (Fin c) (fz 32767)) as ->.
  { destruct (fz_exact 32767) as (r & -> & _); [unfold fprec; lia|]. cbn [fmul]. unfold fl.
    by rewrite (rnd_comp (r * c)%Q (c * r)%Q) by ring. }
  rewrite Hx. cbn [mbind result_bind py_round]. exists (rne x). split; [done|].
  change 0%Q with (inject_Z 0) in Hb. split; [apply rne_ge_int | apply rne_le_int]; apply Hb.
Qed.

Lemma limiter_spec pcm (c : Q) :
  even_length pcm = true -> (0 < c <= 1)%Q ->
  exists L out, py_round (fmul (fz 32767) (Fin c)) = Ok L /\ 0 <= L <= 32767
    /\ apply_limiter pcm (Fin c) = Ok out
    /\ unpack16 out = map (clamp (- L) L) (unpack16 pcm)
    /\ even_length out = true /\ len out = len pcm.
Proof.
  intros He Hc. destruct (limit_bounds c Hc) as (L & HL & Hb). cbn [mbind result_bind] in HL.
  exists L, (concat (map le16 (map (clamp (- L) L) (unpack16 pcm)))).
  unfold apply_limiter. rewrite HL.
  assert (fltb fzero (Fin c) && fleb (Fin c) (fz 1) = true) as ->.
  { apply andb_true_iff. split; [apply fltb_fin; lra|].
    destruct (fz_exact 1) as (r & -> & Hr); [unfold fprec; lia|]. apply fleb_fin. rewrite Hr.
    change (inject_Z 1) with 1%Q. lra. }
  cbn [guard_else mbind result_bind]. rewrite He. cbn [guard_else mbind result_bind].
  assert (Forall (fun v => int16_ok v = true) (map (clamp (- L) L) (unpack16 pcm))) as Hok.
  { apply Forall_forall. intros v (x & -> & Hx)%list_elem_of_fmap.
    pose proof (clamp_spec (- L) L x ltac:(lia)). unfold int16_ok. rewrite andb_true_iff, !Z.leb_le. lia. }
  rewrite pack16_all_ok, unpack16_concat by done.
  assert (forall l, len (concat (map le16 l)) = 2 * len l) as Hlen.
  { induction l as [|v l IH]; [done|]. cbn [map concat]. rewrite len_app, IH, len_cons.
    change (len (le16 v)) with 2. lia. }
  split_and!; [done|lia|lia|done|done| |].
  - unfold even_length. rewrite Hlen, Z.mul_comm, Z.mod_mul by lia. done.
  - rewrite Hlen. unfold len at 1. rewrite length_map. fold (len (unpack16 pcm)). by apply len_unpack16.
Qed.

(** ** Lemmas: the playback buffer *)

(** The calls of the producer and of the pump on one buffer. *)
Inductive buffer_op : Type :=
  | OpPut (f : AudioSocketFrame)
  | OpGet
  | OpClear
  | OpDrain
  | OpClose.

(** A frame that has left the buffer. *)
Inductive departure : Type :=
  | Delivered (f : AudioSocketFrame)
  | Dropped (f : AudioSocketFrame).

Definition departed (d : departure) : AudioSocketFrame :=
  match d with Delivered f | Dropped f => f end.
Definition is_dropped (d : departure) : bool :=
  match d with Dropped _ => true | Delivered _ => false end.

(** The frames that leave and the number of dropped frames the call reports. *)
Definition buffer_step (b : PlaybackBuffer) (op : buffer_op) : PlaybackBuffer * list departure * Z :=
  match op with
  | OpPut f =>
      match put f b with
      | (Ok dropped, b') => (b', map Dropped (take (Z.to_nat dropped) (_frames b)), dropped)
      | (Raise _ _, b') => (b', [], 0)
      end
  | OpGet => match get b with
             | (GetFrame f, b') => (b', [Delivered f], 0)
             | (_, b') => (b', [], 0)
             end
  | OpClear => let r := clear b in (r.2, map Dropped (_frames b), r.1)
  | OpDrain => let r := drain b in (r.2, map Dropped r.1, len r.1)
  | OpClose => (close b, [], 0)
  end.

Fixpoint buffer_run (b : PlaybackBuffer) (ops : list buffer_op) : PlaybackBuffer * list departure * Z :=
  match ops with
  | [] => (b, [], 0)
  | op :: ops' =>
      let '(b1, d1, n1) := buffer_step b op in
      let '(b2, d2, n2) := buffer_run b1 ops' in
      (b2, d1 ++ d2, n1 + n2)
  end.

(** A frame without the depth that the buffer stamps on it. *)
Definition plain (f : AudioSocketFrame) : AudioSocketFrame := with_queue_depth 0 f.

Definition puts (ops : list buffer_op) : list AudioSocketFrame :=
  omap (fun op => match op with OpPut f => Some f | _ => None end) ops.

Lemma plain_depth n f : plain (with_queue_depth n f) = plain f.
Proof. destruct f as [t p pos [o|]]; done. Qed.

Lemma countb_dropped l : countb is_dropped (map Dropped l) = len l.
Proof. induction l as [|f l IH]; [done|]. cbn [map countb is_dropped]. rewrite IH, len_cons. done. Qed.

Lemma buffer_step_accounts b op b' d n :
  1 <= max_frames b -> len (_frames b) <= max_frames b ->
  buffer_step b op = (b', d, n) ->
  map plain (map departed d ++ _frames b') = map plain (_frames b ++ puts [op])
  /\ n = countb is_dropped d /\ max_frames b' = max_frames b /\ len (_frames b') <= max_frames b'.
Proof.
  intros Hm Hl H. pose proof (len_nonneg (_frames b)). destruct op; cbn [buffer_step] in H.
  - unfold put in H. change (puts [OpPut f]) with [f].
    destruct (Z.leb_spec (max_frames b) (len (_frames b))) as [Hf|Hf].
    + destruct (_frames b) as [|g rest] eqn:E; [unfold len in Hf; cbn in Hf; lia|]. rewrite len_cons in *.
      cbn [Z.to_nat Pos.to_nat] in H. change (take (Z.to_nat 1) (g :: rest)) with [g] in H.
      injection H as <- <- <-. cbn [with_frames _frames max_frames]. split_and!; [|done|done|].
      * cbn [map app departed]. rewrite !map_app. cbn [map]. by rewrite plain_depth.
      * rewrite len_app. change (len [_]) with 1. lia.
    + injection H as <- <- <-. cbn [with_frames _frames max_frames]. split_and!; [|done|done|].
      * cbn [map app departed Z.to_nat take]. rewrite !map_app. cbn [map]. by rewrite plain_depth.
      * rewrite len_app. change (len [_]) with 1. lia.
  - unfold get in H. change (puts [OpGet]) with (@nil AudioSocketFrame). rewrite app_nil_r.
    destruct (_frames b) as [|g rest] eqn:E.
    + destruct (_closed b); injection H as <- <- <-; rewrite E; done.
    + injection H as <- <- <-. rewrite len_cons in *. cbn [with_frames _frames max_frames]. split_and!; [done|done|done|lia].
  - unfold clear in H. injection H as <- <- <-. rewrite countb_dropped, !app_nil_r, !map_map. cbn [with_frames _frames max_frames]. change (len (@nil AudioSocketFrame)) with 0.
    split_and!; [done|done|done|lia].
  - unfold drain in H. injection H as <- <- <-. cbn [fst snd]. rewrite countb_dropped, !app_nil_r, !map_map. cbn [with_frames _frames max_frames]. change (len (@nil AudioSocketFrame)) with 0.
    split_and!; [done|done|done|lia].
  - injection H as <- <- <-. change (puts [OpClose]) with (@nil AudioSocketFrame). by rewrite app_nil_r.
Qed.

(** ** Lemmas: source accounting *)

(** The source of every buffered byte, oldest first. *)
Definition stamp (s : _BufferedProviderAudioSource) : _BufferedProviderAudioSource := with_remaining 0 s.
Definition spread (n : nat) (s : _BufferedProviderAudioSource) : list _BufferedProviderAudioSource :=
  replicate n (stamp s).
Lemma length_spread k s : length (spread k s) = k.
Proof. apply length_replicate. Qed.

Definition per_byte (sources : list _BufferedProviderAudioSource) : list _BufferedProviderAudioSource :=
  concat (map (fun s => spread (Z.to_nat (remaining_bytes s)) s) sources).

Definition live (s : _BufferedProviderAudioSource) : Prop := 0 < remaining_bytes s.
Definition total_bytes (sources : list _BufferedProviderAudioSource) : Z :=
  foldr (fun s acc => remaining_bytes s + acc) 0 sources.

Lemma total_bytes_app a b : total_bytes (a ++ b) = total_bytes a + total_bytes b.
Proof. induction a as [|s a IH]; [done|]. cbn [app total_bytes foldr] in *. unfold total_bytes in *. lia. Qed.

Lemma len_per_byte sources : Forall live sources -> len (per_byte sources) = total_bytes sources.
Proof.
  induction 1 as [|s l Hs _ IH]; [done|]. unfold per_byte, live in *. cbn [map concat total_bytes foldr].
  rewrite len_app, IH. unfold spread. unfold len at 1. rewrite length_replicate. unfold total_bytes. lia.
Qed.

Lemma per_byte_cons s l :
  per_byte (s :: l) = spread (Z.to_nat (remaining_bytes s)) s ++ per_byte l.
Proof. done. Qed.

Lemma fromkeys_replicate seen x k l : (0 < k)%nat ->
  fromkeys seen (replicate k x ++ l) = fromkeys seen (x :: l).
Proof.
  destruct k as [|k]; [lia|]. intros _. cbn [replicate app fromkeys].
  assert (forall seen, x ∈ seen -> fromkeys seen (replicate k x ++ l) = fromkeys seen l) as Hs.
  { clear. intros seen Hx. induction k as [|k IH]; [done|]. cbn [replicate app fromkeys].
    by rewrite bool_decide_eq_true_2. }
  case_bool_decide; rewrite Hs by set_solver; done.
Qed.

(** The parts of sources that a packet takes. *)
Definition expand (parts : list (_BufferedProviderAudioSource * nat)) : list _BufferedProviderAudioSource :=
  concat (map (fun p => spread p.2 p.1) parts).

Definition positive (p : _BufferedProviderAudioSource * nat) : Prop := (0 < p.2)%nat.

Lemma fromkeys_expand parts seen : Forall positive parts ->
  fromkeys seen (map chunk_ordinal (expand parts)) = fromkeys seen (map chunk_ordinal parts.*1).
Proof.
  intros H. revert seen. induction H as [|[s k] parts Hk _ IH]; intros seen; [done|].
  unfold expand. cbn [map concat fst snd fmap list_fmap]. rewrite map_app. fold (expand parts). unfold spread.
  replace (map chunk_ordinal (replicate k (stamp s))) with (replicate k (chunk_ordinal s)).
  - rewrite fromkeys_replicate by done. cbn [fromkeys]. by case_bool_decide; rewrite IH.
  - clear. induction k as [|k IH]; [done|]. cbn. by rewrite IH.
Qed.

Lemma last_default {A} (x : A) l d d' : List.last (x :: l) d = List.last (x :: l) d'.
Proof. revert x. induction l as [|y l IH]; intros x; [done|]. exact (IH y). Qed.

Lemma last_cons {A} (x : A) l d : List.last (x :: l) d = List.last l x.
Proof. destruct l as [|y l]; [done|]. exact (last_default y l d x). Qed.

Lemma last_spread k s l d : (0 < k)%nat ->
  List.last (spread k s ++ l) d = List.last l (stamp s).
Proof.
  unfold spread. revert d. induction k as [|k IH]; intros d Hk; [lia|]. cbn [replicate app].
  rewrite last_cons. destruct k as [|k]; [done|]. apply IH. lia.
Qed.

Lemma last_expand parts d : Forall positive parts ->
  received_monotonic (List.last (expand parts) (stamp d)) = received_monotonic (List.last parts.*1 d).
Proof.
  intros H. revert d. induction H as [|[s k] parts Hk _ IH]; intros d; [done|].
  unfold expand. cbn [map concat fst snd]. fold (expand parts). rewrite last_spread by done. rewrite IH.
  change ((s, k) :: parts).*1 with (s :: parts.*1). by rewrite last_cons.
Qed.

(** Grouping the bytes of a source is invisible to the window. *)
Lemma source_window_expand parts : Forall positive parts ->
  _source_window (expand parts) = _source_window parts.*1.
Proof.
  intros H. destruct parts as [|[s k] parts]; [done|]. inversion H as [|? ? Hk Hp]; subst.
  unfold positive in Hk. cbn [snd] in Hk. destruct k as [|k]; [lia|].
  pose proof (fromkeys_expand ((s, S k) :: parts) [] H) as Hkeys.
  pose proof (last_expand ((s, S k) :: parts) s H) as Hlast.
  change ((s, S k) :: parts).*1 with (s :: parts.*1) in *.
  change (expand ((s, S k) :: parts)) with (stamp s :: (replicate k (stamp s) ++ expand parts)) in *.
  unfold _source_window. rewrite Hkeys. do 2 f_equal. exact Hlast.
Qed.

Lemma take_drop_spread a b s : (a <= b)%nat -> spread b s = spread a s ++ spread (b - a) s.
Proof. intros H. unfold spread. rewrite <- replicate_add. f_equal. lia. Qed.

Lemma consume_loop_spec fuel n consumed sources :
  Forall live sources -> 0 <= n -> (length sources < fuel)%nat ->
  (n <= total_bytes sources ->
    exists parts rest, consume_loop fuel n consumed sources = (Ok (consumed ++ parts.*1), rest)
      /\ Forall positive parts /\ Forall live rest
      /\ take (Z.to_nat n) (per_byte sources) = expand parts
      /\ per_byte rest = drop (Z.to_nat n) (per_byte sources)
      /\ total_bytes rest = total_bytes sources - n)
  /\ (total_bytes sources < n ->
      consume_loop fuel n consumed sources = (Raise RuntimeError "packet source accounting underrun", [])).
Proof.
  intros Hs. revert fuel n consumed. induction Hs as [|s l Hs Hl IH]; intros fuel n consumed Hn Hf.
  - destruct fuel as [|fuel]; [cbn in Hf; lia|]. cbn [total_bytes foldr consume_loop].
    destruct (Z.eqb_spec n 0) as [->|Hne]; [|split; [lia|done]]. split; [|lia]. intros _.
    exists [], []. rewrite app_nil_r. split_and!; try done; constructor.
  - destruct fuel as [|fuel]; [cbn in Hf; lia|]. unfold live in Hs. cbn [consume_loop].
    assert (0 <= total_bytes l) as Htl by (rewrite <- len_per_byte by done; apply len_nonneg).
    change (total_bytes (s :: l)) with (remaining_bytes s + total_bytes l).
    rewrite per_byte_cons.
    destruct (Z.eqb_spec n 0) as [->|Hne].
    { split; [intros _|lia]. exists [], (s :: l). rewrite app_nil_r.
      split_and!; [done|constructor|by constructor|done|by rewrite per_byte_cons|].
      change (total_bytes (s :: l)) with (remaining_bytes s + total_bytes l). lia. }
    cbn [with_remaining remaining_bytes].
    destruct (Z.le_gt_cases (remaining_bytes s) n) as [Hle|Hgt].
    + (* the source is used up *)
      rewrite Z.min_r by lia. rewrite Z.sub_diag. cbn [Z.eqb].
      destruct (IH fuel (n - remaining_bytes s) (consumed ++ [s])) as [IHo IHu]; [lia|cbn in Hf; lia|].
      split; [|intros; apply IHu; lia]. intros Htot.
      destruct IHo as (parts & rest & -> & Hp & Hr & Ht & Hd & Hsum); [lia|].
      exists ((s, Z.to_nat (remaining_bytes s)) :: parts), rest. rewrite <- app_assoc.
      rewrite take_app_ge, drop_app_ge by (rewrite length_spread; lia).
      rewrite length_spread. replace (Z.to_nat n - Z.to_nat (remaining_bytes s))%nat
        with (Z.to_nat (n - remaining_bytes s)) by lia. rewrite Ht, <- Hd.
      split_and!; [done|constructor; [unfold positive; cbn; lia|done]|done|done|done|lia].
    + (* the packet ends within the source *)
      rewrite Z.min_l by lia. rewrite Z.sub_diag.
      rewrite (proj2 (Z.eqb_neq _ 0)) by lia. split; [intros _|lia].
      exists [(s, Z.to_nat n)], (with_remaining (remaining_bytes s - n) s :: l).
      split_and!.
      * by destruct fuel.
      * constructor; [unfold positive; cbn; lia|constructor].
      * constructor; [unfold live; cbn; lia|done].
      * rewrite take_app_le by (unfold spread; rewrite length_replicate; lia).
        unfold expand. cbn [map concat fst snd]. rewrite app_nil_r.
        unfold spread. rewrite take_replicate. f_equal. lia.
      * rewrite per_byte_cons. cbn [with_remaining remaining_bytes].
        rewrite drop_app_le by (unfold spread; rewrite length_replicate; lia). f_equal.
        unfold spread. rewrite drop_replicate. f_equal. lia.
      * change (total_bytes (with_remaining (remaining_bytes s - n) s :: l))
          with (remaining_bytes s - n + total_bytes l). lia.
Qed.

Lemma consume_sources_spec n sources :
  Forall live sources -> 0 < n <= total_bytes sources ->
  exists window rest, _consume_buffered_sources n sources = (Ok window, rest)
    /\ _source_window (take (Z.to_nat n) (per_byte sources)) = Ok window
    /\ per_byte rest = drop (Z.to_nat n) (per_byte sources)
    /\ Forall live rest /\ total_bytes rest = total_bytes sources - n.
Proof.
  intros Hs Hn. unfold _consume_buffered_sources, mbind, st_bind, lift, get_state, guard_else.
  rewrite (proj2 (Z.ltb_lt 0 n)) by lia.
  destruct (consume_loop_spec (length sources + 1) n [] sources Hs) as [Ho _]; [lia|lia|].
  destruct Ho as (parts & rest & -> & Hp & Hr & Ht & Hd & Hsum); [lia|]. cbn [app].
  rewrite <- (source_window_expand _ Hp), <- Ht.
  assert (exists w, _source_window (take (Z.to_nat n) (per_byte sources)) = Ok w) as (w & Hw).
  { pose proof (len_per_byte sources Hs) as Hl. unfold len in Hl.
    destruct (take (Z.to_nat n) (per_byte sources)) as [|x xs] eqn:E; [|by eexists].
    apply (f_equal length) in E. rewrite length_take in E. cbn in E. lia. }
  rewrite Hw. exists w, rest. done.
Qed.

(** ** Lemmas: bounded evidence *)

Lemma bounded_evidence_length {A} (values : list A) limit :
  2 <= limit -> len (_bounded_evidence values limit) = Z.min limit (len values).
Proof.
  intros Hl. unfold _bounded_evidence. rewrite (proj2 (Z.leb_gt limit 0)) by lia.
  destruct (Z.leb_spec (len values) limit); [lia|]. unfold last_n.
  assert (1 <= (limit + 1) / 2 < limit) as Hh.
  { split; [apply Z.div_le_lower_bound; lia | apply Z.div_lt_upper_bound; lia]. }
  rewrite (proj2 (Z.eqb_neq _ 0)) by lia. rewrite len_app, length_take_Z by lia.
  unfold len in *. rewrite length_drop. lia.
Qed.

Lemma elem_of_subseteq_take {A} (l : list A) k x : x ∈ take k l -> x ∈ l.
Proof. intros H. rewrite <- (take_drop k l). apply elem_of_app. by left. Qed.

Lemma elem_of_subseteq_drop {A} (l : list A) k x : x ∈ drop k l -> x ∈ l.
Proof. intros H. rewrite <- (take_drop k l). apply elem_of_app. by right. Qed.

Lemma bounded_evidence_elem {A} (values : list A) limit x :
  x ∈ _bounded_evidence values limit -> x ∈ values.
Proof.
  unfold _bounded_evidence, last_n. destruct (limit <=? 0); [set_solver|].
  destruct (len values <=? limit); [done|]. rewrite elem_of_app. intros [H|H].
  - apply (elem_of_subseteq_take _ _ _ H).
  - destruct (_ =? 0); [done|]. apply (elem_of_subseteq_drop _ _ _ H).
Qed.

(** ** Theorems *)

(** Framing is a round trip that also survives the end of the connection
    at any byte.  Messages within the limits of the format are all written;
    reading the written bytes answers the same frames and a clean end; and if
    the connection ends early, the reader answers exactly the frames that
    arrived whole, then a clean end when the cut is between two frames and a
    [ConnectionError] when it is inside one. *)
Theorem frames_round_trip l :
  Forall accepted l ->
  write_all l [] = (Ok tt, wire l)
  /\ read_stream (S (length (wire l))) (wire l) = (frames_of l, None)
  /\ forall n, (n < length (wire l))%nat ->
       exists k m part, (l !! k) = Some m
         /\ take n (wire l) = wire (take k l) ++ part
         /\ (exists rest, encode m = part ++ rest /\ rest <> [])
         /\ read_stream (S (length (wire l))) (take n (wire l)) =
              (frames_of (take k l), if bool_decide (part = []) then None else Some ConnectionError).
Proof.
  intros Hl. split_and!.
  - by rewrite write_all_wire.
  - assert (accepted (0, [])) as H0 by (split; [cbn; lia | done]).
    pose proof (read_stream_cut (S (length (wire l))) l (0, []) [] Hl H0) as Hr.
    rewrite app_nil_r in Hr. apply Hr; [|pose proof (wire_length l); lia]. by eexists.
  - intros n Hn. destruct (wire_cut l n Hn) as (k & m & part & Hk & Ht & Hp).
    exists k, m, part. split_and!; [done..|]. rewrite Ht. apply (read_stream_cut _ _ m); [|by eapply Forall_lookup_1|done|].
    + by apply Forall_take.
    + rewrite length_take. pose proof (wire_length l). lia.
Qed.

(** The level control of the bridge is safe on every whole-sample chunk:
    with a non-negative target, a maximum gain between zero and a million and a
    ceiling in (0, 1], the AGC and the limiter both succeed, keep the number of
    samples, never flip the sign of a sample, apply a gain that is one or at
    most the maximum, and leave every sample within [round(32767 * ceiling)],
    which limiting again does not change. *)
Theorem level_control_bounds pcm (target gain_max ceiling : Q) noise :
  even_length pcm = true -> (0 <= target)%Q -> (0 <= gain_max <= 1000000)%Q ->
  (0 < ceiling <= 1)%Q ->
  exists agc gain limited L,
    apply_agc pcm (Fin target) (Fin gain_max) noise = Ok (agc, gain)
    /\ ((agc = pcm /\ gain = fz 1) \/ exists q, gain = Fin q /\ (0 <= q <= gain_max)%Q)
    /\ apply_limiter agc (Fin ceiling) = Ok limited
    /\ py_round (fmul (fz 32767) (Fin ceiling)) = Ok L /\ 0 <= L <= 32767
    /\ len limited = len pcm
    /\ Forall2 keeps_sign (unpack16 pcm) (unpack16 limited)
    /\ Forall (within L) (unpack16 limited)
    /\ apply_limiter limited (Fin ceiling) = Ok limited.
Proof.
  intros He Ht Hg Hc. destruct (agc_spec pcm target gain_max noise He Ht Hg)
    as (agc & gain & Ha & Hea & Hla & Hsa & Hgain).
  destruct (limiter_spec agc ceiling Hea Hc) as (L & limited & HL & HLb & Hlim & Hu & Hel & Hll).
  destruct (limiter_spec limited ceiling Hel Hc) as (L' & again & HL' & _ & Hlim' & Hu' & Hel' & _).
  assert (L' = L) as -> by congruence.
  exists agc, gain, limited, L. split_and!; [exact Ha|exact Hgain|exact Hlim|exact HL|lia|lia|congruence| | |].
  - rewrite Hu. clear -Hsa HLb. induction Hsa as [|x y l1 l2 Hxy _ IH]; cbn; constructor; [|done].
    unfold keeps_sign, clamp in *. lia.
  - rewrite Hu. apply Forall_forall. intros v (x & -> & _)%list_elem_of_fmap.
    apply clamp_spec. lia.
  - rewrite Hlim'. f_equal. rewrite <- (concat_unpack16 again), <- (concat_unpack16 limited) by done.
    f_equal. f_equal. rewrite Hu', Hu, map_map. apply map_ext. intros v. unfold clamp. lia.
Qed.

(** The playback buffer is a bounded first-in first-out queue that
    accounts for every frame: over any sequence of calls, the frames that left
    (delivered or dropped), followed by those still queued, are the frames put
    in, in order; the drops reported to the callers are the frames dropped; and
    the queue never holds more than [max_frames] frames. *)
Theorem playback_buffer_accounts ops b b' d n :
  1 <= max_frames b -> len (_frames b) <= max_frames b ->
  buffer_run b ops = (b', d, n) ->
  map plain (map departed d ++ _frames b') = map plain (_frames b ++ puts ops)
  /\ n = countb is_dropped d
  /\ len (_frames b') <= max_frames b' /\ max_frames b' = max_frames b.
Proof.
  revert b b' d n. induction ops as [|op ops IH]; intros b b' d n Hm Hl H.
  - injection H as <- <- <-. change (puts []) with (@nil AudioSocketFrame). by rewrite app_nil_r.
  - cbn [buffer_run] in H. destruct (buffer_step b op) as [[b1 d1] n1] eqn:E1.
    destruct (buffer_run b1 ops) as [[b2 d2] n2] eqn:E2. injection H as <- <- <-.
    destruct (buffer_step_accounts b op b1 d1 n1 Hm Hl E1) as (H1 & Hn1 & Hm1 & Hl1).
    destruct (IH b1 b2 d2 n2 ltac:(lia) Hl1 E2) as (H2 & Hn2 & Hl2 & Hm2).
    rewrite countb_app. split_and!; [|lia|done|lia].
    assert (puts (op :: ops) = puts [op] ++ puts ops) as -> by (destruct op; done).
    rewrite !map_app in *. rewrite (app_assoc (map plain (_frames b))), <- H1, <- !app_assoc, H2. done.
Qed.

(** A packet is attributed to exactly the provider chunks its bytes come
    from: consuming [n] buffered bytes succeeds whenever that many are
    buffered, its window lists the distinct chunks of the first [n] bytes in
    order with the arrival of the first and of the last of them, and the
    sources left are those of the other bytes.  With fewer bytes buffered it
    reports the underrun. *)
Theorem packet_provenance n sources :
  Forall live sources -> 0 < n ->
  (n <= len (per_byte sources) ->
    exists window rest, _consume_buffered_sources n sources = (Ok window, rest)
      /\ _source_window (take (Z.to_nat n) (per_byte sources)) = Ok window
      /\ per_byte rest = drop (Z.to_nat n) (per_byte sources) /\ Forall live rest)
  /\ (len (per_byte sources) < n ->
      _consume_buffered_sources n sources =
        (Raise RuntimeError "packet source accounting underrun", [])).
Proof.
  intros Hs Hn. rewrite len_per_byte by done. split.
  - intros Hle. destruct (consume_sources_spec n sources Hs) as (w & rest & H1 & H2 & H3 & H4 & _); [lia|].
    by exists w, rest.
  - intros Hlt. unfold _consume_buffered_sources, mbind, st_bind, lift, get_state, guard_else.
    rewrite (proj2 (Z.ltb_lt 0 n)) by lia.
    destruct (consume_loop_spec (length sources + 1) n [] sources Hs) as [_ Hu]; [lia|lia|].
    by rewrite Hu.
Qed.

(** ** Witnesses *)

Definition sample_frame (n : Z) : AudioSocketFrame := wire_frame 16 [byte_of n; byte_of 0].

Lemma frames_round_trip_witness :
  let l := [(1, [x00; x01]); (16, [x05]); (0, [])] in
  Forall accepted l
  /\ write_all l [] = (Ok tt, wire l)
  /\ exists k m part, (l !! k) = Some m /\ take 8%nat (wire l) = wire (take k l) ++ part
       /\ (exists rest, encode m = part ++ rest /\ rest <> [])
       /\ read_stream (S (length (wire l))) (take 8%nat (wire l)) =
            (frames_of (take k l), if bool_decide (part = []) then None else Some ConnectionError).
Proof.
  cbn zeta. assert (Forall accepted [(1, [x00; x01]); (16, [x05]); (0, [])]) as H.
  { repeat (apply Forall_cons; split; [split; [cbn; lia | done]|]). by apply Forall_nil. }
  destruct (frames_round_trip _ H) as (Hw & _ & Hc). split; [exact H|]. split; [exact Hw|].
  apply Hc. cbn. lia.
Defined.

Lemma level_control_bounds_witness :
  exists agc gain limited L,
    apply_agc [byte_of 100; byte_of 2; byte_of 7; byte_of 250] (Fin 3000) (Fin 8) (fz 200) = Ok (agc, gain)
    /\ apply_limiter agc (Fin (7#10)) = Ok limited
    /\ 0 <= L <= 32767 /\ Forall (within L) (unpack16 limited).
Proof.
  destruct (level_control_bounds [byte_of 100; byte_of 2; byte_of 7; byte_of 250] 3000 8 (7#10) (fz 200))
    as (agc & gain & limited & L & H1 & _ & H2 & _ & H3 & _ & _ & H4 & _).
  - reflexivity.
  - discriminate.
  - split; discriminate.
  - split; [reflexivity|discriminate].
  - exists agc, gain, limited, L. exact (conj H1 (conj H2 (conj H3 H4))).
Defined.

Lemma playback_buffer_accounts_witness :
  let b := MkBuffer 2 [] false in
  let ops := [OpPut (sample_frame 1); OpPut (sample_frame 2); OpPut (sample_frame 3); OpGet; OpDrain] in
  exists b' d n, buffer_run b ops = (b', d, n)
    /\ map plain (map departed d ++ _frames b') = map plain (_frames b ++ puts ops)
    /\ n = countb is_dropped d /\ n = 2.
Proof.
  cbn zeta. eexists _, _, _. split; [reflexivity|].
  destruct (playback_buffer_accounts
    [OpPut (sample_frame 1); OpPut (sample_frame 2); OpPut (sample_frame 3); OpGet; OpDrain]
    (MkBuffer 2 [] false) _ _ _ ltac:(done) ltac:(done) eq_refl) as (H1 & H2 & _).
  split; [exact H1|]. split; [exact H2|reflexivity].
Defined.

Definition sample_source (ordinal bytes_left : Z) : _BufferedProviderAudioSource :=
  MkSource ordinal (Datetime (1000000 * ordinal) (Some 0)) (fz ordinal) bytes_left.

Lemma packet_provenance_witness :
  let sources := [sample_source 1 2; sample_source 2 3; sample_source 3 8] in
  Forall live sources
  /\ exists window rest, _consume_buffered_sources 7 sources = (Ok window, rest)
      /\ chunk_ordinals window = [1; 2; 3] /\ rest = [sample_source 3 6]
      /\ per_byte rest = drop (Z.to_nat 7) (per_byte sources).
Proof.
  cbn zeta. assert (Forall live [sample_source 1 2; sample_source 2 3; sample_source 3 8]) as H.
  { repeat (apply Forall_cons; split; [done|]). by apply Forall_nil. }
  split; [exact H|].
  destruct (packet_provenance 7 _ H ltac:(lia)) as [Ho _].
  destruct Ho as (w & rest & H1 & H2 & H3 & H4); [done|].
  exists w, rest. split; [exact H1|]. vm_compute in H1. injection H1 as <- <-.
  split; [reflexivity|]. split; [reflexivity|exact H3].
Defined.
