(* ===== verification/CallSession.v ===== *)
(** * The realtime call session

    [RealtimeCallSession] and the two realtime server methods of
    [telephony/audiosocket.py], with [classify_provider_error] of
    [realtime_providers/providers.py].

    The session is a state passed through the calls of its three tasks: the
    producer that handles provider messages ([handle_message]), the pump that
    writes frames to the caller ([mark_output_played], [mark_output_started],
    [mark_output_ended]) and the reader that forwards caller audio
    ([send_audio]).  The event loop switches tasks only at an [await]: at each
    one the producer runs the calls that the other tasks make meanwhile, which
    the [meanwhile] argument lists.  The clocks are arguments too: the n-th
    reading of [datetime.now(UTC)] and of [monotonic()].  Answers of the
    provider come with each message.  Flushing runs in a thread and is
    modelled in [Observer.v]; here a flush is only counted when it is started,
    so the pending observations are all those that were recorded. *)
From S2P Require Import Prelude Effects Collections PyFloat PyData Bytes Pcm Observer AudioSocket.
From Stdlib Require Import QArith.

Open Scope Z_scope.

(** ** Provider errors *)

(** What [classify_provider_error] reads of an exception. *)
Record provider_exception := MkProviderException {
  pe_type : string; pe_status : string; pe_message : string; pe_text : string }.

Definition any_token (tokens : list string) (s : string) : bool := existsb (contains s) tokens.

Definition classify_provider_error (exc : provider_exception) : string * string :=
  let error_type := pe_type exc in
  let message := if (strlen (pe_message exc) =? 0) && (strlen (pe_status exc) =? 0)
                 then pe_text exc else pe_message exc in
  let normalized := lower (pe_status exc +:+ " " +:+ message) in
  if any_token ["api key not valid"; "invalid api key"] normalized
  then ("invalid-api-key", error_type)
  else if any_token ["permission_denied"; "permission denied"; "forbidden"] normalized
  then ("permission-denied", error_type)
  else if any_token ["resource_exhausted"; "quota"; "rate limit"; "too many requests"] normalized
  then ("quota-or-rate-limit", error_type)
  else if contains normalized "model"
          && any_token ["not found"; "not supported"; "unavailable"; "unsupported"] normalized
  then ("model-unavailable", error_type)
  else if any_token ["location"; "region"] normalized
          && any_token ["not supported"; "unavailable"; "restricted"] normalized
  then ("location-unavailable", error_type)
  else if any_token ["unavailable"; "timed out"; "timeout"; "connection"; "network"] normalized
  then ("provider-temporarily-unavailable", error_type)
  else ("provider-connect-error", error_type).

(** [type(exc).__name__]. *)
Definition class_name (c : exn_class) : string :=
  match c with
  | ValueError => "ValueError"
  | TypeError => "TypeError"
  | KeyError => "KeyError"
  | AttributeError => "AttributeError"
  | IndexError => "IndexError"
  | RuntimeError => "RuntimeError"
  | ZeroDivisionError => "ZeroDivisionError"
  | OverflowError => "OverflowError"
  | StructError => "error"
  | AssertionError => "AssertionError"
  | ConnectionError => "ConnectionError"
  | ProviderStreamEndedError => "ProviderStreamEndedError"
  | ProviderSessionError => "ProviderSessionError"
  | _ => "Exception"
  end.

(** The alias under which the session reports an exception. *)
Definition session_error (c : exn_class) (arg : string) : string * string :=
  let r := classify_provider_error (MkProviderException (class_name c) "" "" arg) in
  (if String.eqb r.1 "provider-connect-error" then "provider-session-error" else r.1, r.2).

(** [str(ProviderSessionError(reason_alias=a, error_type=t))]. *)
Definition session_error_text (r : string * string) : string := r.1 +:+ " (" +:+ r.2 +:+ ")".

(** ** Provider messages *)

Record ProviderAudioChunk := MkProviderChunk {
  pa_pcm : bytes; pa_sample_rate : Z; pa_channels : Z; pa_encoding : string;
  pa_item_id : option string; pa_content_index : option Z }.

(** The answers of the provider session while a message is handled; [None]
    when the session has no such method. *)
Record provider_answers := MkAnswers {
  auto_interrupts_on_speech : bool;
  interrupt : option (result bool);
  truncate_audio : option (PlaybackPosition -> result bool) }.

Inductive provider_message : Type :=
  | MsgEvent (event_type : string) (answers : provider_answers)
  | MsgAudio (chunk : ProviderAudioChunk).

(** ** The state *)

Record session_config := MkConfig {
  call_id : string; target_rms : float; max_gain : float; noise_floor : float;
  limiter_ceiling : float; telephony_rate : Z; flush_interval_seconds : float;
  provider_input_rate : Z; _barge_in_session_alias : string; _playback_session_alias : string;
  _provider_output_stream_alias : string }.

Record playback_state := MkPlayback {
  _active_playback_alias : option string; _playback_sequence : Z;
  _playback_written_audio_ms : float; _playback_last_played_at : option float;
  _playback_last_played_ts : option datetime; _playback_last_frame_duration_ms : option float }.

Record position_state := MkPositions {
  _last_playback_position : option PlaybackPosition;
  _last_enqueued_playback_position : option PlaybackPosition;
  _inflight_playback_position : option PlaybackPosition;
  _inflight_started_at : option float;
  _current_provider_item : option (string * Z) }.

Record speech_state := MkSpeech {
  _barge_in_sequence : Z; _active_caller_speech_alias : option string }.

Record output_state := MkOutput {
  _output_resampler : option Pcm16MonoStreamResampler;
  _provider_output_chunk_ordinal : Z; _provider_output_frame_ordinal : Z;
  _recent_provider_audio_chunks : list _ProviderAudioChunkObservation }.

(** The locals of [_produce_provider_audio] and its playback buffer. *)
Record producer_state := MkProducer {
  packet_buffer : bytes; packet_sources : list _BufferedProviderAudioSource;
  playback : PlaybackBuffer }.

Record flush_state := MkFlush { _next_flush_at : float; flushes_started : nat }.

Record session := MkSession {
  s_config : session_config; s_observer : VoxBenchObserver; s_playback : playback_state;
  s_positions : position_state; s_speech : speech_state; s_output : output_state;
  s_producer : producer_state; s_input : option Pcm16MonoStreamResampler; s_flush : flush_state;
  s_closed : bool; s_ticks : nat; s_awaits : nat }.

Definition set_observer x s := MkSession (s_config s) x (s_playback s) (s_positions s) (s_speech s)
  (s_output s) (s_producer s) (s_input s) (s_flush s) (s_closed s) (s_ticks s) (s_awaits s).
Definition set_playback x s := MkSession (s_config s) (s_observer s) x (s_positions s) (s_speech s)
  (s_output s) (s_producer s) (s_input s) (s_flush s) (s_closed s) (s_ticks s) (s_awaits s).
Definition set_positions x s := MkSession (s_config s) (s_observer s) (s_playback s) x (s_speech s)
  (s_output s) (s_producer s) (s_input s) (s_flush s) (s_closed s) (s_ticks s) (s_awaits s).
Definition set_speech x s := MkSession (s_config s) (s_observer s) (s_playback s) (s_positions s) x
  (s_output s) (s_producer s) (s_input s) (s_flush s) (s_closed s) (s_ticks s) (s_awaits s).
Definition set_output x s := MkSession (s_config s) (s_observer s) (s_playback s) (s_positions s)
  (s_speech s) x (s_producer s) (s_input s) (s_flush s) (s_closed s) (s_ticks s) (s_awaits s).
Definition set_producer x s := MkSession (s_config s) (s_observer s) (s_playback s) (s_positions s)
  (s_speech s) (s_output s) x (s_input s) (s_flush s) (s_closed s) (s_ticks s) (s_awaits s).
Definition set_input x s := MkSession (s_config s) (s_observer s) (s_playback s) (s_positions s)
  (s_speech s) (s_output s) (s_producer s) x (s_flush s) (s_closed s) (s_ticks s) (s_awaits s).
Definition set_flush x s := MkSession (s_config s) (s_observer s) (s_playback s) (s_positions s)
  (s_speech s) (s_output s) (s_producer s) (s_input s) x (s_closed s) (s_ticks s) (s_awaits s).
Definition set_closed x s := MkSession (s_config s) (s_observer s) (s_playback s) (s_positions s)
  (s_speech s) (s_output s) (s_producer s) (s_input s) (s_flush s) x (s_ticks s) (s_awaits s).
Definition tick s := MkSession (s_config s) (s_observer s) (s_playback s) (s_positions s)
  (s_speech s) (s_output s) (s_producer s) (s_input s) (s_flush s) (s_closed s) (S (s_ticks s)) (s_awaits s).
Definition tick_await s := MkSession (s_config s) (s_observer s) (s_playback s) (s_positions s)
  (s_speech s) (s_output s) (s_producer s) (s_input s) (s_flush s) (s_closed s) (s_ticks s) (S (s_awaits s)).

Definition idle_playback (sequence : Z) : playback_state := MkPlayback None sequence fzero None None None.

Definition new_session (cfg : session_config) (observer : VoxBenchObserver) (started : float) : session :=
  MkSession cfg observer (idle_playback 0) (MkPositions None None None None None) (MkSpeech 0 None)
    (MkOutput None 0 0 []) (MkProducer [] [] new_playback_buffer) None (MkFlush started 0) false 0 0.

(** Run a computation on a part of the session. *)
Definition zoom {T A} (get : session -> T) (set : T -> session -> session) (m : st T A) : st session A :=
  fun s => let r := m (get s) in (r.1, set r.2 s).

(** [len(payload) / (2 * rate) * 1000]. *)
Definition audio_ms (byte_count rate : Z) : result float :=
  q ← int_truediv byte_count (2 * rate); Ok (fmul q (fz 1000)).

(** ** The session's own methods *)

(** A call of another task at an [await] of the producer. *)
Inductive concurrent_call : Type :=
  | PumpGet
  | PumpPlayed (f : AudioSocketFrame)
  | PumpStarted (f : AudioSocketFrame)
  | PumpEnded (stop_reason : string)
  | CallerAudio (frame_type : Z) (pcm : bytes) (answer : result unit)
  | CallerDtmf.

Section session.
Variable log10 : float -> float.
Variable now : nat -> datetime.
Variable monotonic : nat -> float.
(** Whether the last flush task is done, when it is asked at a clock tick. *)
Variable flush_done : nat -> bool.
(** The calls of the other tasks during the n-th [await] of the producer. *)
Variable meanwhile : nat -> list concurrent_call.

Definition read_now : st session datetime := fun s => (Ok (now (s_ticks s)), tick s).
Definition read_monotonic : st session float := fun s => (Ok (monotonic (s_ticks s)), tick s).

Definition asks {A} (f : session -> A) : st session A := fun s => (Ok (f s), s).
Definition config {A} (f : session_config -> A) : st session A := asks (fun s => f (s_config s)).

Definition metric (name : string) (value : float) : st session unit :=
  ts ← read_now;
  modify (fun s => set_observer (observe_metric name value None ts (s_observer s)) s).

Definition timeline (e : TimelineEvent) : st session unit :=
  modify (fun s => set_observer (observe_timeline_event e (s_observer s)) s).

Definition stage_audio (stage : string) (input output : bytes) (rate : Z) (gain : option float)
    : st session unit :=
  ts ← read_now;
  zoom s_observer set_observer (observe_stage_audio log10 stage input output rate 1 gain true ts).

Definition _schedule_flush_if_due : st session unit :=
  at_ ← read_monotonic;
  modify (fun s =>
    if fltb at_ (_next_flush_at (s_flush s)) then s
    else
      let start := (flushes_started (s_flush s) =? 0)%nat || flush_done (s_ticks s) in
      set_flush (MkFlush (fadd at_ (flush_interval_seconds (s_config s)))
                   (if start then S (flushes_started (s_flush s)) else flushes_started (s_flush s))) s).

(** *** Playback *)

Definition playback_event (name suffix alias : string) (attributes : jdict) (ts : datetime)
    : TimelineEvent :=
  MkTimelineEventObs (alias +:+ suffix) "conversation" name "audiosocket_bridge" (Some alias)
    "control_plane_wall" None (Some "assistant_to_caller") None None attributes ts.

Definition _end_assistant_playback (ts : datetime) (stop_reason : string) : st session unit :=
  p ← asks s_playback;
  match _active_playback_alias p with
  | None => mret tt
  | Some correlation_alias =>
      _ ← timeline (playback_event "assistant_playback_stopped" ":stop" correlation_alias
            [("written_audio_ms", JFloat (_playback_written_audio_ms p));
             ("stop_reason", JStr stop_reason)] ts);
      modify (set_playback (idle_playback (_playback_sequence p)))
  end.

Definition mark_output_played (frame : AudioSocketFrame) : st session unit :=
  p ← asks s_playback;
  _ ← (match _active_playback_alias p with
       | None => mret tt
       | Some _ =>
           rate ← config telephony_rate;
           frame_duration_ms ← lift (audio_ms (len (payload frame)) rate);
           at_ ← read_monotonic;
           ts ← read_now;
           modify (fun s =>
             let p := s_playback s in
             set_playback (MkPlayback (_active_playback_alias p) (_playback_sequence p)
               (_playback_written_audio_ms p) (Some at_) (Some ts) (Some frame_duration_ms)) s)
       end);
  q ← asks s_positions;
  match playback_position frame, _current_provider_item q with
  | Some position, Some item =>
      if bool_decide ((item_id position, content_index position) = item) then
        let same := bool_decide (_inflight_playback_position q = Some position) in
        modify (set_positions
          (MkPositions (Some position) (_last_enqueued_playback_position q)
             (if same then None else _inflight_playback_position q)
             (if same then None else _inflight_started_at q) (Some item)))
      else mret tt
  | _, _ => mret tt
  end.

(** Whether the gap since the last played frame is longer than that frame. *)
Definition media_gap (p : playback_state) (now_monotonic : float) : bool :=
  match _active_playback_alias p, _playback_last_played_at p, _playback_last_frame_duration_ms p with
  | Some _, Some played_at, Some duration_ms =>
      fltb duration_ms (fmul (fsub now_monotonic played_at) (fz 1000))
  | _, _, _ => false
  end.

Definition from_default {A} (d : A) (o : option A) : A := match o with Some a => a | None => d end.

(** The start of a playback, when none is active. *)
Definition start_assistant_playback (frame : AudioSocketFrame) (ts : datetime) : st session unit :=
  p ← asks s_playback;
  match _active_playback_alias p with
  | Some _ => mret tt
  | None =>
      session_alias ← config _playback_session_alias;
      let sequence := _playback_sequence p + 1 in
      let alias := "assistant-playback-" +:+ session_alias +:+ "-" +:+ int_str sequence in
      _ ← modify (set_playback (MkPlayback (Some alias) sequence fzero None None None));
      rate ← config telephony_rate;
      frame_duration_ms ← lift (audio_ms (len (payload frame)) rate);
      timeline (playback_event "assistant_playback_started" ":start" alias
        [("frame_duration_ms", JFloat frame_duration_ms)] ts)
  end.

Definition mark_output_started (frame : AudioSocketFrame) : st session unit :=
  now_monotonic ← read_monotonic;
  ts ← read_now;
  p ← asks s_playback;
  _ ← (if media_gap p now_monotonic
       then _end_assistant_playback (from_default ts (_playback_last_played_ts p)) "media_gap"
       else mret tt);
  _ ← start_assistant_playback frame ts;
  rate ← config telephony_rate;
  frame_duration_ms ← lift (audio_ms (len (payload frame)) rate);
  _ ← modify (fun s =>
        let p := s_playback s in
        set_playback (MkPlayback (_active_playback_alias p) (_playback_sequence p)
          (fadd (_playback_written_audio_ms p) frame_duration_ms) (_playback_last_played_at p)
          (_playback_last_played_ts p) (_playback_last_frame_duration_ms p)) s);
  match playback_position frame with
  | None => mret tt
  | Some position =>
      modify (fun s =>
        let q := s_positions s in
        set_positions (MkPositions (_last_playback_position q) (_last_enqueued_playback_position q)
          (Some position) (Some now_monotonic) (_current_provider_item q)) s)
  end.

Definition mark_output_ended (stop_reason : string) : st session unit :=
  p ← asks s_playback;
  ts ← (match _playback_last_played_ts p with Some ts => mret ts | None => read_now end);
  _end_assistant_playback ts stop_reason.

Definition _next_playback_position : st session PlaybackPosition :=
  q ← asks s_positions;
  match _current_provider_item q with
  | None => throw RuntimeError "provider playback item is not active"
  | Some item =>
      let audio_end := match _last_enqueued_playback_position q with
                       | Some position =>
                           if bool_decide ((item_id position, content_index position) = item)
                           then audio_end_ms position else 0
                       | None => 0
                       end in
      let next_position := MkPosition item.1 item.2 (audio_end + 20) in
      _ ← modify (set_positions (MkPositions (_last_playback_position q) (Some next_position)
            (_inflight_playback_position q) (_inflight_started_at q) (Some item)));
      mret next_position
  end.

Definition _effective_playback_position : st session (option PlaybackPosition) :=
  q ← asks s_positions;
  match _inflight_playback_position q, _inflight_started_at q with
  | Some inflight, Some started_at =>
      let frame_start_ms :=
        match _last_playback_position q with
        | Some last =>
            if bool_decide ((item_id last, content_index last)
                            = (item_id inflight, content_index inflight))
            then audio_end_ms last else Z.max 0 (audio_end_ms inflight - 20)
        | None => Z.max 0 (audio_end_ms inflight - 20)
        end in
      at_ ← read_monotonic;
      elapsed ← lift (py_int (fmul (fsub at_ started_at) (fz 1000)));
      mret (Some (MkPosition (item_id inflight) (content_index inflight)
        (Z.min (audio_end_ms inflight) (frame_start_ms + Z.max 0 elapsed))))
  | _, _ => mret (_last_playback_position q)
  end.

(** *** Caller speech *)

Definition bridge_event (event_id category name correlation_alias : string) (direction : option string)
    (attributes : jdict) (ts : datetime) : TimelineEvent :=
  MkTimelineEventObs event_id category name "audiosocket_bridge" (Some correlation_alias)
    "control_plane_wall" None direction None None attributes ts.

Definition _end_caller_speech (completion_observed : bool) (stop_reason : string) : st session unit :=
  sp ← asks s_speech;
  match _active_caller_speech_alias sp with
  | None => mret tt
  | Some correlation_alias =>
      ts ← read_now;
      _ ← timeline (bridge_event (correlation_alias +:+ ":caller-speech-stopped") "conversation"
            "provider_input_speech_stopped" correlation_alias (Some "caller_to_assistant")
            [("completion_observed", JBool completion_observed); ("stop_reason", JStr stop_reason)] ts);
      modify (set_speech (MkSpeech (_barge_in_sequence sp) None))
  end.

Definition _observe_barge_in_event (correlation_alias : string) (step : Z) (name category : string)
    (direction : option string) (attributes : jdict) (ts : option datetime) : st session unit :=
  at_ ← (match ts with Some ts => mret ts | None => read_now end);
  timeline (bridge_event (correlation_alias +:+ ":" +:+ int_str step) category name correlation_alias
    direction attributes at_).

(** *** Caller audio *)

Definition send_audio (frame_type : Z) (pcm : bytes) (answer : result unit) : st session unit :=
  input_rate_ ← lift (from_option_err (dict_get frame_type AUDIO_TYPE_SAMPLE_RATES) KeyError "frame_type");
  input ← asks s_input;
  provider_rate ← config provider_input_rate;
  resampler ← (match input with
               | Some r => if input_rate r =? input_rate_ then mret r
                           else lift (make_resampler input_rate_ provider_rate)
               | None => lift (make_resampler input_rate_ provider_rate)
               end);
  _ ← modify (set_input (Some resampler));
  provider_pcm ← zoom (fun s => from_default resampler (s_input s)) (fun r => set_input (Some r))
                   (process pcm);
  match provider_pcm with
  | [] => mret tt
  | _ =>
      rms ← lift (pcm_s16le_rms provider_pcm);
      _ ← metric "provider_input_rms" rms;
      match answer with
      | Ok _ => mret tt
      | Raise c e => throw ProviderSessionError (session_error_text (session_error c e))
      end
  end.

Definition observe_dtmf : st session unit := metric "dtmf_events" (fz 1).

(** *** Switching tasks *)

Definition run_concurrent (c : concurrent_call) : st session unit :=
  match c with
  | PumpGet => fun s =>
      let p := s_producer s in
      (Ok tt, set_producer (MkProducer (packet_buffer p) (packet_sources p) (get (playback p)).2) s)
  | PumpPlayed f => mark_output_played f
  | PumpStarted f => mark_output_started f
  | PumpEnded reason => mark_output_ended reason
  | CallerAudio t pcm answer => send_audio t pcm answer
  | CallerDtmf => observe_dtmf
  end.

(** An exception of another task does not reach the producer. *)
Definition run_all (l : list concurrent_call) (s : session) : session :=
  fold_left (fun s c => (run_concurrent c s).2) l s.

Definition await {A} (answer : result A) : st session A := fun s =>
  (answer, tick_await (run_all (meanwhile (s_awaits s)) s)).

(** *** Barge-in evidence *)

(** [(control - received) * 1000]. *)
Definition lead_ms (control received : float) : float := fmul (fsub control received) (fz 1000).

Definition is_recent (control : float) (c : _ProviderAudioChunkObservation) : bool :=
  let ms := lead_ms control (co_received_monotonic c) in
  fleb fzero ms && fleb ms BARGE_IN_CHUNK_LOOKBACK_MS.

Definition evidence_event (event_id category name correlation_alias : string) (stage : option string)
    (stream_alias : string) (attributes : jdict) (ts : datetime) : TimelineEvent :=
  MkTimelineEventObs event_id category name "audiosocket_bridge" (Some correlation_alias)
    "control_plane_wall" None (Some "assistant_to_caller") stage (Some stream_alias) attributes ts.

Definition chunk_evidence (cfg : session_config) (alias : string) (control : float)
    (c : _ProviderAudioChunkObservation) : TimelineEvent :=
  evidence_event (alias +:+ ":provider-chunk:" +:+ int_str (co_ordinal c)) "provider"
    "provider_output_audio_chunk_received" alias None (_provider_output_stream_alias cfg)
    [("provider_chunk_ordinal", JInt (co_ordinal c));
     ("chunk_duration_ms", JFloat (py_round3 (co_duration_ms c)));
     ("input_rms", JFloat (py_round3 (co_rms c)));
     ("silence_sample_pct", JFloat (py_round3 (co_silence_sample_pct c)));
     ("signal_bearing", JBool (co_signal_bearing c));
     ("signal_threshold_rms", JFloat (noise_floor cfg));
     ("received_before_control_ms",
        JFloat (py_round3 (pymax fzero (lead_ms control (co_received_monotonic c)))))]
    (co_received_at c).

(** [t[0]] and [t[-1]]. *)
Definition first_of (l : list Z) : result Z := from_option_err (head l) IndexError "tuple index out of range".
Definition last_of (l : list Z) : result Z := from_option_err (last l) IndexError "tuple index out of range".

Definition frame_evidence (cfg : session_config) (alias : string) (control : float)
    (o : _PlaybackFrameObservation) : result TimelineEvent :=
  let w := fo_source_window o in
  first ← first_of (chunk_ordinals w);
  last ← last_of (chunk_ordinals w);
  Ok (evidence_event (alias +:+ ":discarded-frame:" +:+ int_str (fo_frame_ordinal o)) "buffer"
    "playback_frame_enqueued_before_barge_in" alias (Some "serializer") (_provider_output_stream_alias cfg)
    [("frame_ordinal", JInt (fo_frame_ordinal o));
     ("provider_chunk_first_ordinal", JInt first);
     ("provider_chunk_last_ordinal", JInt last);
     ("provider_chunk_count", JInt (len (chunk_ordinals w)));
     ("frame_duration_ms", JFloat (fz 20));
     ("output_rms", JFloat (py_round3 (fo_output_rms o)));
     ("silence_sample_pct", JFloat (py_round3 (fo_silence_sample_pct o)));
     ("signal_bearing", JBool (fo_signal_bearing o));
     ("signal_threshold_rms", JFloat (noise_floor cfg));
     ("queue_depth_after_enqueue", JInt (fo_queue_depth_after_enqueue o));
     ("provider_receive_to_enqueue_ms",
        JFloat (py_round3 (lead_ms (fo_enqueued_monotonic o) (first_received_monotonic w))));
     ("provider_received_before_control_ms",
        JFloat (py_round3 (pymax fzero (lead_ms control (first_received_monotonic w)))));
     ("enqueued_before_control_ms",
        JFloat (py_round3 (pymax fzero (lead_ms control (fo_enqueued_monotonic o)))));
     ("outcome", JStr "discarded_on_barge_in")] (fo_enqueued_at o)).

Definition partial_evidence (cfg : session_config) (alias : string) (w : _ProviderAudioSourceWindow)
    (partial_pcm : bytes) (partial_ms : float) (signal_bearing : bool) : result TimelineEvent :=
  quality ← pcm_s16le_quality log10 partial_pcm;
  first ← first_of (chunk_ordinals w);
  last ← last_of (chunk_ordinals w);
  rms ← pcm_s16le_rms partial_pcm;
  Ok (evidence_event (alias +:+ ":discarded-partial-frame") "buffer"
    "playback_partial_frame_buffered_before_barge_in" alias (Some "serializer")
    (_provider_output_stream_alias cfg)
    [("provider_chunk_first_ordinal", JInt first);
     ("provider_chunk_last_ordinal", JInt last);
     ("provider_chunk_count", JInt (len (chunk_ordinals w)));
     ("partial_audio_ms", JFloat (py_round3 partial_ms));
     ("output_rms", JFloat (py_round3 rms));
     ("silence_sample_pct", JFloat (py_round3 quality.2));
     ("signal_bearing", JBool signal_bearing);
     ("signal_threshold_rms", JFloat (noise_floor cfg));
     ("outcome", JStr "discarded_on_barge_in")] (first_received_at w)).

Definition frame_is_signal (f : AudioSocketFrame) : bool :=
  match _playback_observation f with Some o => fo_signal_bearing o | None => false end.

Definition number (total : option float) : float := from_default fzero total.

(** The attributes that sum up what a barge-in discarded. *)
Definition discard_attributes (cfg : session_config) (frames : list AudioSocketFrame)
    (observations : list _PlaybackFrameObservation) (recorded : Z)
    (recent : list _ProviderAudioChunkObservation) (partial : option _ProviderAudioSourceWindow)
    (partial_ms : float) (partial_signal : bool) (control written : float) : result jdict :=
  all_ms ← mapM_res (fun f => audio_ms (len (payload f)) (telephony_rate cfg)) frames;
  signal_ms ← mapM_res (fun f => audio_ms (len (payload f)) (telephony_rate cfg))
                (filterb frame_is_signal frames);
  let frame_audio := py_sum all_ms in
  let signal_audio := fadd (number (py_sum signal_ms)) (if partial_signal then partial_ms else fzero) in
  let windows := map fo_source_window observations
                 ++ match partial with Some w => [w] | None => [] end in
  let ordinals := fromkeys [] (concat (map chunk_ordinals windows)) in
  let first_lead :=
    match map first_received_monotonic windows with
    | [] => JNull
    | times => JFloat (py_round3 (pymax fzero (lead_ms control (pymin_list fzero times))))
    end in
  let within ms := countb (fun c => fleb (lead_ms control (co_received_monotonic c)) (fz ms)) recent in
  Ok [("dropped_frames", JInt (len frames));
      ("discarded_audio_ms", match frame_audio with None => JInt 0 | Some x => JFloat (py_round3 x) end);
      ("partial_audio_ms", JFloat (py_round3 partial_ms));
      ("discarded_total_audio_ms", JFloat (py_round3 (fadd (number frame_audio) partial_ms)));
      ("discarded_signal_bearing_frames", JInt (countb fo_signal_bearing observations));
      ("discarded_signal_bearing_audio_ms", JFloat (py_round3 signal_audio));
      ("discarded_provider_chunks", JInt (len ordinals));
      ("provider_chunks_last_30ms", JInt (within 30));
      ("provider_chunks_last_100ms", JInt (within 100));
      ("first_discarded_audio_lead_ms", first_lead);
      ("queue_depth_before_clear", JInt (len frames));
      ("evidence_frames_recorded", JInt recorded);
      ("evidence_frames_omitted", JInt (len observations - recorded));
      ("signal_threshold_rms", JFloat (noise_floor cfg));
      ("written_audio_ms_before_control", JFloat (py_round3 written));
      ("remote_playout_observed", JBool false)].

Definition _observe_barge_in_audio_evidence (correlation_alias : string)
    (frames : list AudioSocketFrame) (partial_pcm : bytes)
    (partial_source_window : option _ProviderAudioSourceWindow)
    (control_received_monotonic written_audio_ms_before_control : float) : st session jdict :=
  cfg ← asks s_config;
  out ← asks s_output;
  let recent_chunks := filterb (is_recent control_received_monotonic) (_recent_provider_audio_chunks out) in
  _ ← for_each (fun c => timeline (chunk_evidence cfg correlation_alias control_received_monotonic c))
        (_bounded_evidence recent_chunks BARGE_IN_CHUNK_EVIDENCE_LIMIT);
  let frame_observations := omap _playback_observation frames in
  let selected := _bounded_evidence frame_observations BARGE_IN_FRAME_EVIDENCE_LIMIT in
  _ ← for_each (fun o =>
        event ← lift (frame_evidence cfg correlation_alias control_received_monotonic o);
        timeline event) selected;
  partial_audio_ms ← lift (audio_ms (len partial_pcm) (telephony_rate cfg));
  partial_signal_bearing ← lift (match partial_pcm with
                                 | [] => Ok false
                                 | _ => rms ← pcm_s16le_rms partial_pcm; Ok (fltb (noise_floor cfg) rms)
                                 end);
  _ ← (match partial_pcm, partial_source_window with
       | _ :: _, Some w =>
           event ← lift (partial_evidence cfg correlation_alias w partial_pcm partial_audio_ms
                           partial_signal_bearing);
           timeline event
       | _, _ => mret tt
       end);
  lift (discard_attributes cfg frames frame_observations (len selected) recent_chunks
    partial_source_window partial_audio_ms partial_signal_bearing control_received_monotonic
    written_audio_ms_before_control).

(** *** Provider events *)

(** How the provider's own output was interrupted, and the next step number. *)
Definition interrupt_path (answers : provider_answers) (alias : string) (step : Z)
    : st session (string * Z) :=
  if auto_interrupts_on_speech answers then
    _ ← metric "provider_auto_interrupts" (fz 1);
    _ ← _observe_barge_in_event alias step "provider_auto_interrupt_confirmed" "provider" None [] None;
    mret ("provider-auto", step + 1)
  else
    requested ← (match interrupt answers with
                 | None => mret false
                 | Some answer => await answer
                 end);
    if (requested : bool) then
      _ ← metric "provider_interrupt_requests" (fz 1);
      _ ← _observe_barge_in_event alias step "provider_interrupt_requested" "provider" None [] None;
      mret ("provider-request", step + 1)
    else mret ("unobserved", step).

(** The position to truncate the provider's audio at. *)
Definition truncate_position : st session (option PlaybackPosition) :=
  position ← _effective_playback_position;
  q ← asks s_positions;
  mret (match _current_provider_item q with
        | None => position
        | Some item =>
            let fits := match position with
                        | Some p => bool_decide ((item_id p, content_index p) = item)
                        | None => false end in
            if fits then position else Some (MkPosition item.1 item.2 0)
        end).

Definition truncate_step (answers : provider_answers) (alias : string) (step : Z)
    (position : option PlaybackPosition) : st session Z :=
  match position, truncate_audio answers with
  | Some p, Some answer =>
      truncated ← await (answer p);
      if (truncated : bool) then
        _ ← metric "provider_truncate_requests" (fz 1);
        _ ← _observe_barge_in_event alias step "provider_truncate_requested" "provider" None
              [("played_audio_end_ms", JInt (audio_end_ms p))] None;
        mret (step + 1)
      else mret step
  | _, _ => mret step
  end.

(** Forget the interrupted playback and empty the buffers. *)
Definition discard_output : st session (bytes * option _ProviderAudioSourceWindow * list AudioSocketFrame) :=
  _ ← modify (fun s => set_positions (MkPositions None None None None None) s);
  _ ← modify (fun s =>
        let o := s_output s in
        set_output (MkOutput None (_provider_output_chunk_ordinal o) (_provider_output_frame_ordinal o)
          (_recent_provider_audio_chunks o)) s);
  p ← asks s_producer;
  partial_source_window ← lift (_buffered_source_window (packet_sources p));
  _ ← modify (set_producer (MkProducer [] [] (playback p)));
  _ ← await (Ok tt);
  dropped ← asks (fun s => (drain (playback (s_producer s))).1);
  _ ← modify (fun s => set_producer (MkProducer [] [] (drain (playback (s_producer s))).2) s);
  mret (packet_buffer p, partial_source_window, dropped).

Definition completed_attributes (path : string) (position : option PlaybackPosition)
    (dropped : Z) (discard : jdict) (written : float) : jdict :=
  let copy k := (k, from_default JNull (jget k discard)) in
  [("interrupt_path", JStr path);
   ("played_audio_end_ms", match position with Some p => JInt (audio_end_ms p) | None => JNull end);
   ("dropped_frames", JInt dropped);
   copy "discarded_audio_ms"; copy "discarded_signal_bearing_audio_ms";
   copy "provider_chunks_last_30ms"; copy "provider_chunks_last_100ms";
   copy "first_discarded_audio_lead_ms";
   ("written_audio_ms_before_control", JFloat written);
   ("remote_playout_observed", JBool false)].

(** A new barge-in alias. *)
Definition next_barge_in : st session string :=
  sp ← asks s_speech;
  alias ← config _barge_in_session_alias;
  let sequence := _barge_in_sequence sp + 1 in
  _ ← modify (set_speech (MkSpeech sequence (_active_caller_speech_alias sp)));
  mret ("barge-in-" +:+ alias +:+ "-" +:+ int_str sequence).

(** The beginning of a barge-in: its alias, and the caller speech that starts. *)
Definition begin_barge_in (event_type : string) (control_received_at : datetime) : st session string :=
  let speech := String.eqb event_type "input_speech_started" in
  _ ← (if speech then _end_caller_speech false "superseded_by_new_start" else mret tt);
  correlation_alias ← next_barge_in;
  _ ← _observe_barge_in_event correlation_alias 1 ("provider_" +:+ event_type)
        (if speech then "conversation" else "provider") (Some "caller_to_assistant") []
        (Some control_received_at);
  _ ← (if speech
       then modify (fun s => set_speech (MkSpeech (_barge_in_sequence (s_speech s))
                                           (Some correlation_alias)) s)
       else mret tt);
  mret correlation_alias.

Definition barge_in (event_type : string) (answers : provider_answers)
    (control_received_at : datetime) (control_received_monotonic : float) : st session unit :=
  let speech := String.eqb event_type "input_speech_started" in
  correlation_alias ← begin_barge_in event_type control_received_at;
  path ← (if speech then interrupt_path answers correlation_alias 2
          else mret ("provider-interrupted", 2));
  position ← truncate_position;
  step ← truncate_step answers correlation_alias path.2 position;
  written ← asks (fun s => _playback_written_audio_ms (s_playback s));
  ended_at ← read_now;
  _ ← _end_assistant_playback ended_at "barge_in";
  discarded ← discard_output;
  let '(partial_pcm, partial_source_window, dropped_frames) := discarded in
  discard ← _observe_barge_in_audio_evidence correlation_alias dropped_frames partial_pcm
              partial_source_window control_received_monotonic written;
  _ ← _observe_barge_in_event correlation_alias step "playback_queue_cleared" "buffer"
        (Some "assistant_to_caller") discard None;
  _ ← metric "barge_in_events" (fz 1);
  _ ← (match dropped_frames with
       | [] => mret tt
       | _ => metric "output_frames_dropped" (fz (len dropped_frames))
       end);
  _observe_barge_in_event correlation_alias (step + 1) "barge_in_completed" "conversation"
    (Some "caller_to_assistant")
    (completed_attributes path.1 position (len dropped_frames) discard written) None.

Definition handle_event (event_type : string) (answers : provider_answers) : st session unit :=
  control_received_at ← read_now;
  control_received_monotonic ← read_monotonic;
  _ ← metric ("provider_" +:+ event_type) (fz 1);
  _ ← (if String.eqb event_type "input_speech_stopped"
       then _end_caller_speech true "provider_speech_stopped"
       else if String.eqb event_type "input_speech_started" || String.eqb event_type "interrupted"
       then barge_in event_type answers control_received_at control_received_monotonic
       else mret tt);
  _schedule_flush_if_due.

(** *** Provider audio *)

(** The [append] of a deque with [maxlen=256]. *)
Definition append_recent (c : _ProviderAudioChunkObservation) (l : list _ProviderAudioChunkObservation)
    : list _ProviderAudioChunkObservation :=
  drop (length (l ++ [c]) - 256) (l ++ [c]).

(** Measure the received chunk and remember the observation. *)
Definition observe_chunk (chunk : ProviderAudioChunk) (received : datetime) (received_mono : float)
    : st session Z :=
  out ← asks s_output;
  let ordinal := _provider_output_chunk_ordinal out + 1 in
  _ ← modify (set_output (MkOutput (_output_resampler out) ordinal (_provider_output_frame_ordinal out)
                            (_recent_provider_audio_chunks out)));
  duration_ms ← lift (audio_ms (len (pa_pcm chunk)) (pa_sample_rate chunk));
  rms ← lift (pcm_s16le_rms (pa_pcm chunk));
  quality ← lift (pcm_s16le_quality log10 (pa_pcm chunk));
  floor ← config noise_floor;
  _ ← modify (set_output (MkOutput (_output_resampler out) ordinal (_provider_output_frame_ordinal out)
        (append_recent (MkChunkObservation ordinal received received_mono duration_ms rms quality.2
                          (fltb floor rms)) (_recent_provider_audio_chunks out))));
  mret ordinal.

(** A chunk of another conversation item starts afresh. *)
Definition switch_item (item : option (string * Z)) : st session unit :=
  q ← asks s_positions;
  if bool_decide (item = _current_provider_item q) then mret tt
  else
    modify (fun s =>
      let p := s_producer s in let o := s_output s in
      set_output (MkOutput None (_provider_output_chunk_ordinal o) (_provider_output_frame_ordinal o)
                    (_recent_provider_audio_chunks o))
        (set_positions (MkPositions (_last_playback_position q) None (_inflight_playback_position q)
                          (_inflight_started_at q) item)
           (set_producer (MkProducer [] [] (playback p)) s))).

Definition set_resampler (r : Pcm16MonoStreamResampler) (s : session) : session :=
  let o := s_output s in
  set_output (MkOutput (Some r) (_provider_output_chunk_ordinal o) (_provider_output_frame_ordinal o)
                (_recent_provider_audio_chunks o)) s.

Definition resample (chunk : ProviderAudioChunk) : st session bytes :=
  rate ← config telephony_rate;
  out ← asks s_output;
  resampler ← (match _output_resampler out with
               | Some r => if input_rate r =? pa_sample_rate chunk then mret r
                           else lift (make_resampler (pa_sample_rate chunk) rate)
               | None => lift (make_resampler (pa_sample_rate chunk) rate)
               end);
  _ ← modify (set_resampler resampler);
  zoom (fun s => from_default resampler (_output_resampler (s_output s))) set_resampler
    (process (pa_pcm chunk)).

(** The stages between the resampler and the serializer. *)
Definition process_stages (input resampled : bytes) : st session bytes :=
  cfg ← asks s_config;
  let rate := telephony_rate cfg in
  _ ← stage_audio "resampler" input resampled rate None;
  agc ← lift (apply_agc resampled (target_rms cfg) (max_gain cfg) (noise_floor cfg));
  _ ← stage_audio "agc" resampled agc.1 rate (Some agc.2);
  limited ← lift (apply_limiter agc.1 (limiter_ceiling cfg));
  _ ← stage_audio "limiter" agc.1 limited rate None;
  _ ← stage_audio "serializer" limited limited rate None;
  mret limited.

(** [round(self.telephony_rate * 0.02) * 2]. *)
Definition packet_bytes (rate : Z) : result Z :=
  r ← float_of_int rate;
  n ← py_round (fmul r (flit 2 100));
  Ok (n * 2).

(** The bytes of the next packet and the chunks they come from. *)
Definition take_packet (size : Z) : st session (bytes * _ProviderAudioSourceWindow) :=
  p ← asks s_producer;
  let payload := take (Z.to_nat size) (packet_buffer p) in
  _ ← modify (set_producer (MkProducer (drop (Z.to_nat size) (packet_buffer p)) (packet_sources p)
                              (playback p)));
  source_window ← zoom (fun s => packet_sources (s_producer s))
                    (fun l s => set_producer (MkProducer (packet_buffer (s_producer s)) l
                                                (playback (s_producer s))) s)
                    (_consume_buffered_sources size);
  mret (payload, source_window).

Definition enqueue_packet (payload : bytes) (source_window : _ProviderAudioSourceWindow)
    : st session unit :=
  q ← asks s_positions;
  playback_position ← (match _current_provider_item q with
                       | None => mret None
                       | Some _ => position ← _next_playback_position; mret (Some position)
                       end);
  out ← asks s_output;
  let ordinal := _provider_output_frame_ordinal out + 1 in
  _ ← modify (set_output (MkOutput (_output_resampler out) (_provider_output_chunk_ordinal out) ordinal
                            (_recent_provider_audio_chunks out)));
  output_rms ← lift (pcm_s16le_rms payload);
  quality ← lift (pcm_s16le_quality log10 payload);
  floor ← config noise_floor;
  enqueued_at ← read_now;
  enqueued_monotonic ← read_monotonic;
  _ ← await (Ok tt);
  dropped ← zoom (fun s => playback (s_producer s))
              (fun b s => set_producer (MkProducer (packet_buffer (s_producer s))
                                          (packet_sources (s_producer s)) b) s)
              (put (MkFrame 16 payload playback_position
                 (Some (MkFrameObservation ordinal source_window enqueued_at enqueued_monotonic output_rms
                          quality.2 (fltb floor output_rms) 0))));
  if (dropped : Z) =? 0 then mret tt else metric "output_frames_dropped" (fz 1).

(** One turn of the packet loop. *)
Definition emit_packet (size : Z) : st session unit :=
  packet ← take_packet size;
  enqueue_packet packet.1 packet.2.

Fixpoint packet_loop (fuel : nat) (size : Z) : st session unit :=
  p ← asks s_producer;
  if len (packet_buffer p) <? size then mret tt
  else
    match fuel with
    | O => throw OtherError "fuel"
    | S fuel' => _ ← emit_packet size; packet_loop fuel' size
    end.

(** Buffer the bytes of a chunk and cut all the packets that are complete. *)
Definition packetize (size ordinal : Z) (received : datetime) (received_mono : float) (limited : bytes)
    : st session unit :=
  _ ← modify (fun s =>
        let p := s_producer s in
        set_producer (MkProducer (packet_buffer p ++ limited)
          (packet_sources p ++ [MkSource ordinal received received_mono (len limited)]) (playback p)) s);
  buffered ← asks (fun s => length (packet_buffer (s_producer s)));
  packet_loop (S buffered) size.

Definition handle_audio (size : Z) (chunk : ProviderAudioChunk) : st session unit :=
  received ← read_now;
  received_mono ← read_monotonic;
  _ ← lift (guard_else (String.eqb (pa_encoding chunk) "pcm16" && (pa_channels chunk =? 1)) ValueError
        "provider output must be mono pcm16");
  ordinal ← observe_chunk chunk received received_mono;
  _ ← switch_item (match pa_item_id chunk, pa_content_index chunk with
                   | Some i, Some c => Some (i, c)
                   | _, _ => None end);
  resampled ← resample chunk;
  match resampled with
  | [] => mret tt
  | _ =>
      limited ← process_stages (pa_pcm chunk) resampled;
      _ ← packetize size ordinal received received_mono limited;
      _schedule_flush_if_due
  end.

Definition handle_message (size : Z) (m : provider_message) : st session unit :=
  match m with
  | MsgEvent event_type answers => handle_event event_type answers
  | MsgAudio chunk => handle_audio size chunk
  end.

(** [_produce_provider_audio]: the messages of the stream, then how it ended
    ([None]: the stream is over). *)
Definition close_playback : st session unit :=
  modify (fun s =>
    let p := s_producer s in
    set_producer (MkProducer (packet_buffer p) (packet_sources p) (close (playback p))) s).

Definition stream_error (c : exn_class) (arg : string) : st session unit :=
  if bool_decide (c = ProviderStreamEndedError) then throw c arg
  else
    _ ← metric "provider_stream_errors" (fz 1);
    let r := session_error c arg in
    _ ← metric ("provider_stream_error_" +:+ r.1) (fz 1);
    throw ProviderSessionError (session_error_text r).

Definition finally {A} (m : st session A) (f : st session unit) : st session A := fun s =>
  let r := m s in
  match f r.2 with
  | (Ok _, s') => (r.1, s')
  | (Raise c e, s') => (Raise c e, s')
  end.

Definition _produce_provider_audio (messages : list provider_message) (failure : option (exn_class * string))
    (persistent_receive_stream : bool) : st session unit :=
  rate ← config telephony_rate;
  size ← lift (packet_bytes rate);
  finally
    (catch
      (_ ← for_each (fun m => _ ← await (Ok tt); handle_message size m) messages;
       _ ← await (Ok tt);
       match failure with
       | Some (c, e) => throw c e
       | None =>
           if persistent_receive_stream then
             _ ← metric "provider_stream_ended" (fz 1);
             throw ProviderStreamEndedError "provider receive stream ended"
           else mret tt
       end) stream_error)
    close_playback.

(** *** The pump *)

(** Sleeping until the next frame is due only reads the clock. *)
Definition wait_until_due (next_send_at : float) : st session unit :=
  at_ ← read_monotonic;
  mret tt.

(** What [receive_audio] gives its reader: the frames it takes from the buffer
    until the buffer is closed and empty, and then the end of the producer,
    which it awaits. *)
Record audio_stream := MkStream { yielded : list AudioSocketFrame; stream_end : result unit }.

(** The loop of [_pump_output] over the frames the stream yields, and how the
    stream ends: the bytes written to the caller. *)
Fixpoint pump_loop (ended : result unit) (frames : list AudioSocketFrame) (next_send_at : float)
    (previous_frame : option AudioSocketFrame) : st session bytes :=
  _ ← wait_until_due next_send_at;
  _ ← (match previous_frame with Some f => mark_output_played f | None => mret tt end);
  match frames with
  | [] =>
      (* the stream is over, and the last frame has been marked as played *)
      _ ← lift ended;
      _ ← wait_until_due next_send_at;
      _ ← mark_output_ended "stream_ended";
      mret []
  | frame :: frames' =>
      let w := write_frame (frame_type frame) (payload frame) [] in
      _ ← lift w.1;
      _ ← mark_output_started frame;
      rate ← config telephony_rate;
      duration ← lift (int_truediv (len (payload frame)) (2 * rate));
      at_ ← read_monotonic;
      rest ← pump_loop ended frames' (pymax (fadd next_send_at duration) at_) (Some frame);
      mret (w.2 ++ rest)
  end.

Definition _pump_output (stream : audio_stream) : st session bytes :=
  next_send_at ← read_monotonic;
  pump_loop (stream_end stream) (yielded stream) next_send_at None.

(** *** Closing *)

(** Which callback [close] makes at its end. *)
Inductive run_outcome : Type :=
  | complete_run
  | fail_run (failure_alias : string).

(** The answer of [provider_session.close()], and whether there is a
    [fail_run] callback; [None] when the session was closed before. *)
Definition close_session (failure_alias : option string) (answer : result unit) (has_fail_run : bool)
    (ts : datetime) : st session (option run_outcome) :=
  closed ← asks s_closed;
  if (closed : bool) then mret None
  else
    _ ← modify (set_closed true);
    id ← config call_id;
    _ ← modify (fun s => set_observer (observe_sip_event
          (MkSipEventObs "BYE" "in" (Some id) None (Some "provider-call-ended") ts) (s_observer s)) s);
    let alias := match answer with
                 | Ok _ => failure_alias
                 | Raise _ _ =>
                     match failure_alias with
                     | Some a => if strlen a =? 0 then Some "provider-close-error" else Some a
                     | None => Some "provider-close-error"
                     end
                 end in
    _ ← _end_caller_speech false "call_closed";
    _ ← mark_output_ended "call_closed";
    mret (Some (match alias with
                | Some a => if has_fail_run then fail_run a else complete_run
                | None => complete_run
                end)).
End session.
