(* ===== verification/CallInvariants.v ===== *)
(** * What the call session guarantees

    The invariants of [CallSession.v], which hold whatever the other tasks do
    at the producer's awaits: the playback and caller-speech events are well
    bracketed under unique aliases, and the packet loop accounts for every
    buffered byte. *)
From S2P Require Import Prelude Effects Collections PyFloat PyData Bytes Pcm Observer AudioSocket CallSession.
From Stdlib Require Import QArith.

Open Scope Z_scope.

(** ** Channels of start and stop events *)

(** Read a log of starts ([true]) and stops: the alias left open, or [None]
    when a stop does not match the open start or a start meets an open one. *)
Fixpoint bracket (open : option string) (log : list (bool * string)) : option (option string) :=
  match log with
  | [] => Some open
  | (true, a) :: l => match open with None => bracket (Some a) l | Some _ => None end
  | (false, a) :: l => if bool_decide (open = Some a) then bracket None l else None
  end.

Definition starts (log : list (bool * string)) : list string :=
  omap (fun e : bool * string => if e.1 then Some e.2 else None) log.

Record channel_ok (alias : Z -> string) (sequence : Z) (active : option string)
    (log : list (bool * string)) : Prop := {
  ch_nonneg : 0 <= sequence;
  ch_bracket : bracket None log = Some active;
  ch_aliases : forall a, a ∈ starts log -> exists k, 1 <= k <= sequence /\ a = alias k;
  ch_nodup : NoDup (starts log) }.

Definition injective_alias (alias : Z -> string) : Prop :=
  forall j k, 0 <= j -> 0 <= k -> alias j = alias k -> j = k.

Lemma bracket_app l1 l2 open :
  bracket open (l1 ++ l2) = match bracket open l1 with Some o => bracket o l2 | None => None end.
Proof.
  revert open. induction l1 as [|[[] a] l1 IH]; intros open; [done|..]; cbn.
  - destruct open; [done|apply IH].
  - case_bool_decide; [apply IH|done].
Qed.

Lemma starts_app l1 l2 : starts (l1 ++ l2) = starts l1 ++ starts l2.
Proof. apply omap_app. Qed.

Lemma channel_start alias n log :
  injective_alias alias -> channel_ok alias n None log ->
  channel_ok alias (n + 1) (Some (alias (n + 1))) (log ++ [(true, alias (n + 1))]).
Proof.
  intros Hinj [H0 Hb Ha Hd]. constructor.
  - lia.
  - by rewrite bracket_app, Hb.
  - intros a. rewrite starts_app, elem_of_app. intros [Hin|Hin].
    + destruct (Ha a Hin) as (k & Hk & ->). exists k. split; [lia|done].
    + cbn in Hin. exists (n + 1). split; [lia|]. by apply list_elem_of_singleton in Hin.
  - rewrite starts_app. apply NoDup_app. split_and!; [done| |apply NoDup_singleton].
    intros a Hin Hx. cbn in Hx. apply list_elem_of_singleton in Hx as ->.
    destruct (Ha _ Hin) as (k & Hk & E). apply Hinj in E; lia.
Qed.

Lemma channel_stop alias n log a :
  channel_ok alias n (Some a) log -> channel_ok alias n None (log ++ [(false, a)]).
Proof.
  intros [H0 Hb Ha Hd]. constructor; [done| | |].
  - rewrite bracket_app, Hb. cbn. by rewrite bool_decide_eq_true_2.
  - intros b. rewrite starts_app, app_nil_r. apply Ha.
  - by rewrite starts_app, app_nil_r.
Qed.

(** A sequence number that is used for no start. *)
Lemma channel_skip alias n active log :
  channel_ok alias n active log -> channel_ok alias (n + 1) active log.
Proof.
  intros [H0 Hb Ha Hd]. constructor; [lia|done| |done].
  intros a Hin. destruct (Ha a Hin) as (k & Hk & ->). exists k. split; [lia|done].
Qed.

(** ** The log of a session *)

Definition log_of (start_name stop_name : string) (events : list TimelineEvent) : list (bool * string) :=
  omap (fun e : TimelineEvent =>
    match te_correlation_alias e with
    | None => None
    | Some a => if String.eqb (te_name e) start_name then Some (true, a)
                else if String.eqb (te_name e) stop_name then Some (false, a)
                else None
    end) events.

Definition playback_log : list TimelineEvent -> list (bool * string) :=
  log_of "assistant_playback_started" "assistant_playback_stopped".
Definition speech_log : list TimelineEvent -> list (bool * string) :=
  log_of "provider_input_speech_started" "provider_input_speech_stopped".

Definition events (s : session) : list TimelineEvent := timeline_events (ob_pending (s_observer s)).

Definition playback_alias (cfg : session_config) (k : Z) : string :=
  "assistant-playback-" +:+ _playback_session_alias cfg +:+ "-" +:+ int_str k.
Definition speech_alias (cfg : session_config) (k : Z) : string :=
  "barge-in-" +:+ _barge_in_session_alias cfg +:+ "-" +:+ int_str k.

Section channels.
(** Whether the session is closed. *)
Variable closed : bool.

(** The invariant of both channels. *)
Record bracketed (s : session) : Prop := {
  br_open : 0 < telephony_rate (s_config s) /\ s_closed s = closed;
  br_playback : channel_ok (playback_alias (s_config s)) (_playback_sequence (s_playback s))
                  (_active_playback_alias (s_playback s)) (playback_log (events s));
  br_speech : channel_ok (speech_alias (s_config s)) (_barge_in_sequence (s_speech s))
                (_active_caller_speech_alias (s_speech s)) (speech_log (events s)) }.

Lemma prefixed_alias_inj (p q : string) (j k : Z) :
  0 <= j -> 0 <= k -> p +:+ q +:+ "-" +:+ int_str j = p +:+ q +:+ "-" +:+ int_str k -> j = k.
Proof.
  intros Hj Hk H. do 3 apply string_app_inj_l in H. by apply int_str_inj.
Qed.

Lemma playback_alias_inj cfg : injective_alias (playback_alias cfg).
Proof. intros j k Hj Hk H. by eapply prefixed_alias_inj. Qed.

Lemma speech_alias_inj cfg : injective_alias (speech_alias cfg).
Proof. intros j k Hj Hk H. by eapply prefixed_alias_inj. Qed.

(** What the invariant reads of a session. *)
Definition irrelevant (e : TimelineEvent) : Prop := playback_log [e] = [] /\ speech_log [e] = [].

Definition channels_view (s : session) :=
  (s_config s, s_closed s, playback_log (events s), speech_log (events s),
   (_active_playback_alias (s_playback s), _playback_sequence (s_playback s)), s_speech s).

Lemma bracketed_view s s' : channels_view s' = channels_view s -> bracketed s -> bracketed s'.
Proof.
  intros [= Hc Ho Hp Hs Ha Hn Hsp] [H1 H2 H3].
  constructor; rewrite ?Hc, ?Ho, ?Hp, ?Hs, ?Ha, ?Hn, ?Hsp; done.
Qed.

(** Computations that leave both channels alone. *)
Abbreviation quiet := (stable channels_view).

Lemma quiet_preserves {A} (m : st session A) : quiet m -> preserves bracketed m.
Proof. intros Hm s Hs. exact (bracketed_view s _ (Hm s) Hs). Qed.

Lemma log_of_app a b l1 l2 : log_of a b (l1 ++ l2) = log_of a b l1 ++ log_of a b l2.
Proof. apply omap_app. Qed.

(** ** Computations that leave the logs alone *)

Lemma stable_asks {X A} (view : session -> X) (f : session -> A) : stable view (asks f).
Proof. by intros s. Qed.

Lemma stable_zoom {X T A} (view : session -> X) (get : session -> T) set (m : st T A) :
  (forall s t, view (set t s) = view s) -> stable view (zoom get set m).
Proof. intros H s. apply H. Qed.

#[local] Hint Resolve stable_asks : stable.

Lemma quiet_timeline e : irrelevant e -> quiet (timeline e).
Proof.
  intros [H1 H2] s. assert (events (timeline e s).2 = events s ++ [e]) as He by reflexivity.
  unfold channels_view. rewrite He. unfold playback_log, speech_log in *.
  by rewrite !log_of_app, H1, H2, !app_nil_r.
Qed.

(** The names of the events of the two channels. *)
Definition channel_names : list string :=
  ["assistant_playback_started"; "assistant_playback_stopped"; "provider_input_speech_started";
   "provider_input_speech_stopped"].

Lemma irrelevant_name e : te_name e ∉ channel_names -> irrelevant e.
Proof.
  intros H. unfold irrelevant, playback_log, speech_log, log_of. cbn.
  destruct (te_correlation_alias e); [|done].
  assert (forall n, n ∈ channel_names -> String.eqb (te_name e) n = false) as Hn.
  { intros n Hin. apply String.eqb_neq. set_solver. }
  rewrite !Hn by (unfold channel_names; set_solver). done.
Qed.

Lemma irrelevant_const e n : te_name e = n -> bool_decide (n ∉ channel_names) = true -> irrelevant e.
Proof. intros <- H. apply irrelevant_name. by apply bool_decide_eq_true in H. Qed.

Ltac solve_quiet_event := eapply irrelevant_const; [reflexivity | vm_compute; reflexivity].


Section quiet.
Variable log10 : float -> float.
Variable now : nat -> datetime.
Variable monotonic : nat -> float.
Variable flush_done : nat -> bool.

Lemma quiet_read_now : quiet (read_now now).
Proof. intros s. reflexivity. Qed.
Lemma quiet_read_monotonic : quiet (read_monotonic monotonic).
Proof. intros s. reflexivity. Qed.
Lemma quiet_config {A} (f : session_config -> A) : quiet (config f).
Proof. by intros s. Qed.

Lemma quiet_metric name value : quiet (metric now name value).
Proof.
  apply stable_bind; [apply quiet_read_now|]. intros ts. apply stable_modify. intros s.
  unfold channels_view, events. cbn. by rewrite app_nil_r.
Qed.

Lemma quiet_flush : quiet (_schedule_flush_if_due monotonic flush_done).
Proof.
  apply stable_bind; [apply quiet_read_monotonic|]. intros at_. apply stable_modify. intros s.
  destruct (fltb _ _); reflexivity.
Qed.

(** The events of a stage are discontinuity events. *)
Lemma record_stage_events stage out rate ch fc points rec ts o :
  exists evs, timeline_events (ob_pending (snd (record_stage stage out rate ch fc points rec ts o)))
    = timeline_events (ob_pending o) ++ evs
    /\ Forall (fun e => te_name e = "stage.pcm_discontinuity_detected") evs.
Proof.
  unfold record_stage.
  match goal with |- context [match ?m with Ok _ => _ | Raise _ _ => _ end] =>
    destruct m as [[[[event last] offset] frames]|] eqn:E end; cbn.
  - eexists. rewrite app_nil_r. split; [reflexivity|].
    destruct event as [ev|]; [|constructor]. constructor; [|constructor].
    simpl_res. destruct a as [d|]; simpl_res; [|done]. destruct (past_dedup _ _); simpl_res; [|done].
    injection H0 as <-. done.
  - exists []. rewrite !app_nil_r. done.
Qed.

Lemma quiet_stage_audio stage input output rate gain :
  quiet (stage_audio log10 now stage input output rate gain).
Proof.
  apply stable_bind; [apply quiet_read_now|]. intros ts s. unfold zoom. cbn [snd].
  assert (exists evs, timeline_events (ob_pending
      (observe_stage_audio log10 stage input output rate 1 gain true ts (s_observer s)).2)
      = events s ++ evs /\ Forall (fun e => te_name e = "stage.pcm_discontinuity_detected") evs)
    as (evs & He & Hn).
  { unfold observe_stage_audio, mbind, st_bind, lift.
    repeat match goal with
    | |- context [guard_else ?b ?c ?e] => destruct (guard_else b c e) as [[]|]
    end; try (exists []; rewrite app_nil_r; split; [reflexivity|constructor]).
    match goal with |- context [match ?m with Ok _ => _ | Raise _ _ => _ end] =>
      destruct m as [measured|] end; [apply record_stage_events|].
    exists []. rewrite app_nil_r. split; [reflexivity|constructor]. }
  assert (playback_log evs = [] /\ speech_log evs = []) as [Hp Hs].
  { clear He. induction Hn as [|e l Hname _ [IH1 IH2]]; [done|].
    assert (irrelevant e) as [Hi1 Hi2] by (eapply irrelevant_const; [exact Hname|vm_compute; reflexivity]).
    unfold playback_log, speech_log in *. change (e :: l) with ([e] ++ l). rewrite !log_of_app.
    by rewrite Hi1, Hi2, IH1, IH2. }
  unfold channels_view, events at 1 2. cbn. rewrite He. unfold playback_log, speech_log in *.
  by rewrite !log_of_app, Hp, Hs, !app_nil_r.
Qed.
End quiet.

#[local] Hint Resolve quiet_read_now quiet_read_monotonic quiet_config quiet_metric quiet_flush
  quiet_stage_audio : stable.

(** ** Every call keeps the channels bracketed *)

Lemma preserves_quiet_bind {A B} (m : st session A) (f : A -> st session B) :
  quiet m -> (forall a, preserves bracketed (f a)) -> preserves bracketed (m ≫= f).
Proof. intros Hm Hf. apply preserves_bind; [by apply quiet_preserves | done]. Qed.

(** A frame that [write_frame] accepts. *)
Definition sendable (f : AudioSocketFrame) : Prop := len (payload f) <= 65535.

Definition call_sendable (c : concurrent_call) : Prop :=
  match c with PumpStarted f => sendable f | _ => True end.

Lemma audio_ms_total n rate : 0 <= n <= 65535 -> 0 < rate -> exists x, audio_ms n rate = Ok x.
Proof.
  intros Hn Hr. unfold audio_ms, int_truediv. rewrite (proj2 (Z.eqb_neq (2 * rate) 0)) by lia.
  assert (inject_Z 0 <= inject_Z n / inject_Z (2 * rate) <= inject_Z 65535)%Q as Hq.
  { assert (0 < inject_Z (2 * rate))%Q by (change 0%Q with (inject_Z 0); rewrite <- Zlt_Qlt; lia).
    split; [apply Qle_shift_div_l | apply Qle_shift_div_r]; try done;
      rewrite <- inject_Z_mult, <- Zle_Qle; lia. }
  apply fl_bounded_int in Hq as (q & -> & _); [|unfold fprec; lia..]. by eexists.
Qed.

(** Events of the two channels. *)
Lemma log_single (e : TimelineEvent) a b n alias r :
  te_name e = n -> te_correlation_alias e = Some alias ->
  (if String.eqb n a then Some (true, alias) else if String.eqb n b then Some (false, alias) else None) = r ->
  log_of a b [e] = match r with Some x => [x] | None => [] end.
Proof. intros Hn Ha Hr. unfold log_of. cbn. rewrite Ha, Hn, Hr. by destruct r. Qed.

Section bracketed.
Variable log10 : float -> float.
Variable now : nat -> datetime.
Variable monotonic : nat -> float.
Variable flush_done : nat -> bool.
Variable meanwhile : nat -> list concurrent_call.
Hypothesis meanwhile_sendable : forall n, Forall call_sendable (meanwhile n).

Lemma bracketed_end_playback ts reason : preserves bracketed (_end_assistant_playback ts reason).
Proof.
  intros s Hall. pose proof Hall as [Hr Hp Hs]. unfold _end_assistant_playback, mbind, st_bind, asks.
  destruct (_active_playback_alias (s_playback s)) as [a|] eqn:Ea; [|exact Hall].
  set (e := playback_event "assistant_playback_stopped" _ _ _ _).
  unfold timeline, modify. cbn [snd].
  match goal with |- bracketed ?s' => assert (events s' = events s ++ [e]) as He by reflexivity end.
  constructor; [exact Hr| |].
  - rewrite He. unfold playback_log. rewrite log_of_app, (log_single e _ _ _ a _ eq_refl eq_refl eq_refl).
    apply channel_stop. exact Hp.
  - rewrite He. unfold speech_log. rewrite log_of_app, (log_single e _ _ _ a _ eq_refl eq_refl eq_refl).
    cbn. rewrite app_nil_r. exact Hs.
Qed.

Lemma bracketed_start_playback frame ts :
  sendable frame -> preserves bracketed (start_assistant_playback frame ts).
Proof.
  intros Hf s Hall. pose proof Hall as [Hr Hp Hs]. unfold start_assistant_playback, mbind, st_bind, asks.
  destruct (_active_playback_alias (s_playback s)) as [a|] eqn:Ea; [exact Hall|].
  unfold config, asks, modify, lift. cbn [s_config set_playback].
  destruct (audio_ms_total (len (payload frame)) (telephony_rate (s_config s))) as (x & ->);
    [pose proof (len_nonneg (payload frame)); unfold sendable in Hf; lia|apply Hr|].
  set (alias := "assistant-playback-" +:+ _).
  set (e := playback_event "assistant_playback_started" _ _ _ _).
  unfold timeline, modify. cbn [snd].
  match goal with |- bracketed ?s' => assert (events s' = events s ++ [e]) as He by reflexivity end.
  constructor; [exact Hr| |].
  - rewrite He. unfold playback_log.
    rewrite log_of_app, (log_single e _ _ _ alias _ eq_refl eq_refl eq_refl).
    apply (channel_start (playback_alias (s_config s))); [apply playback_alias_inj|exact Hp].
  - rewrite He. unfold speech_log. rewrite log_of_app, (log_single e _ _ _ alias _ eq_refl eq_refl eq_refl).
    cbn. rewrite app_nil_r. exact Hs.
Qed.

Lemma quiet_positions f : quiet (modify (fun s => set_positions (f s) s)).
Proof. apply stable_modify. intros s'. reflexivity. Qed.

Lemma bracketed_played frame : preserves bracketed (mark_output_played now monotonic frame).
Proof.
  apply quiet_preserves. unfold mark_output_played. apply stable_bind; [auto with stable|]. intros p.
  apply stable_bind.
  - destruct (_active_playback_alias p); [|auto with stable]. repeat (apply stable_bind; [auto with stable|intros ?]).
    apply stable_modify. intros s'. reflexivity.
  - intros _. apply stable_bind; [auto with stable|]. intros q.
    destruct (playback_position frame), (_current_provider_item q); auto with stable.
    case_bool_decide; [apply (quiet_positions (fun _ => _))|auto with stable].
Qed.

Lemma bracketed_started frame :
  sendable frame -> preserves bracketed (mark_output_started now monotonic frame).
Proof.
  intros Hf. unfold mark_output_started. do 3 (apply preserves_quiet_bind; [auto with stable|intros ?]).
  apply preserves_bind; [destruct (media_gap _ _); [apply bracketed_end_playback|apply quiet_preserves; auto with stable]|].
  intros _. apply preserves_bind; [by apply bracketed_start_playback|]. intros _. apply quiet_preserves.
  do 2 (apply stable_bind; [auto with stable|intros ?]).
  apply stable_bind; [apply stable_modify; intros s'; reflexivity|]. intros _.
  destruct (playback_position frame); [|auto with stable]. apply (quiet_positions (fun s => _)).
Qed.

Lemma bracketed_ended reason : preserves bracketed (mark_output_ended now reason).
Proof.
  unfold mark_output_ended. apply preserves_quiet_bind; [auto with stable|]. intros p.
  apply preserves_quiet_bind; [destruct (_playback_last_played_ts p); auto with stable|].
  intros ts. apply bracketed_end_playback.
Qed.

Lemma quiet_send_audio t pcm answer : quiet (send_audio now t pcm answer).
Proof.
  unfold send_audio. do 3 (apply stable_bind; [auto with stable|intros ?]).
  apply stable_bind; [destruct a0 as [r|]; [destruct (_ =? _)|]; auto with stable|]. intros r.
  apply stable_bind; [apply stable_modify; intros s'; reflexivity|]. intros _.
  apply stable_bind; [apply stable_zoom; intros s' x; reflexivity|]. intros [|b out]; [auto with stable|].
  do 2 (apply stable_bind; [auto with stable|intros ?]). destruct answer; auto with stable.
Qed.

Lemma bracketed_concurrent c : call_sendable c -> preserves bracketed (run_concurrent now monotonic c).
Proof.
  destruct c; cbn [run_concurrent call_sendable]; intros H.
  - intros s. apply bracketed_view. reflexivity.
  - apply bracketed_played.
  - by apply bracketed_started.
  - apply bracketed_ended.
  - apply quiet_preserves, quiet_send_audio.
  - apply quiet_preserves. unfold observe_dtmf. auto with stable.
Qed.

Lemma bracketed_run_all l s : Forall call_sendable l -> bracketed s -> bracketed (run_all now monotonic l s).
Proof.
  intros H. revert s. induction H as [|c l Hc _ IH]; intros s Hs; [done|].
  unfold run_all. cbn [fold_left]. apply IH. by apply bracketed_concurrent.
Qed.

Lemma bracketed_await {A} (answer : result A) :
  preserves bracketed (await now monotonic meanwhile answer).
Proof.
  intros s Hs. unfold await. cbn [snd]. eapply bracketed_view; [|eapply bracketed_run_all; [|exact Hs]];
    [reflexivity|apply meanwhile_sendable].
Qed.

Lemma end_caller_speech_spec b reason s :
  bracketed s -> exists s', _end_caller_speech now b reason s = (Ok tt, s') /\ bracketed s'
    /\ _active_caller_speech_alias (s_speech s') = None.
Proof.
  intros Hall. pose proof Hall as [Hr Hp Hs]. unfold _end_caller_speech, mbind, st_bind, asks.
  destruct (_active_caller_speech_alias (s_speech s)) as [a|] eqn:Ea; [|by exists s].
  unfold read_now. set (e := bridge_event _ _ _ _ _ _ _). unfold timeline, modify.
  eexists. split; [reflexivity|]. split; [|reflexivity].
  match goal with |- bracketed ?s' => assert (events s' = events s ++ [e]) as He by reflexivity end.
  constructor; [exact Hr| |].
  - rewrite He. unfold playback_log. rewrite log_of_app, (log_single e _ _ _ a _ eq_refl eq_refl eq_refl).
    cbn. rewrite app_nil_r. exact Hp.
  - rewrite He. unfold speech_log. rewrite log_of_app, (log_single e _ _ _ a _ eq_refl eq_refl eq_refl).
    apply channel_stop. exact Hs.
Qed.

Lemma bracketed_end_caller b reason : preserves bracketed (_end_caller_speech now b reason).
Proof. intros s Hs. by destruct (end_caller_speech_spec b reason s Hs) as (s' & -> & H & _). Qed.

Lemma next_barge_in_spec s :
  bracketed s -> exists s', next_barge_in s =
      (Ok (speech_alias (s_config s) (_barge_in_sequence (s_speech s'))), s')
    /\ bracketed s' /\ events s' = events s /\ s_config s' = s_config s /\ s_closed s' = s_closed s
    /\ s_playback s' = s_playback s
    /\ _barge_in_sequence (s_speech s') = _barge_in_sequence (s_speech s) + 1
    /\ _active_caller_speech_alias (s_speech s') = _active_caller_speech_alias (s_speech s).
Proof.
  intros [Hr Hp Hs].
  exists (set_speech (MkSpeech (_barge_in_sequence (s_speech s) + 1)
                        (_active_caller_speech_alias (s_speech s))) s).
  split; [reflexivity|]. split; [|by split_and!].
  constructor; [exact Hr|exact Hp|]. by apply channel_skip.
Qed.

Lemma provider_name_irrelevant event_type :
  String.eqb event_type "input_speech_started" = false ->
  event_type <> "input_speech_stopped" ->
  forall id cat a dir attrs ts,
    irrelevant (bridge_event id cat ("provider_" +:+ event_type) a dir attrs ts).
Proof.
  intros H1 H2 id cat a dir attrs ts. apply irrelevant_name. cbn [te_name bridge_event].
  unfold channel_names. rewrite !elem_of_cons. intros [H|[H|[H|[H|H]]]]; try discriminate.
  - change "provider_input_speech_started" with ("provider_" +:+ "input_speech_started") in H.
    apply string_app_inj_l in H. by rewrite H, String.eqb_refl in H1.
  - change "provider_input_speech_stopped" with ("provider_" +:+ "input_speech_stopped") in H.
    by apply string_app_inj_l in H.
  - by apply not_elem_of_nil in H.
Qed.

Lemma bracketed_begin_barge_in event_type ts :
  event_type <> "input_speech_stopped" -> preserves bracketed (begin_barge_in now event_type ts).
Proof.
  intros Hne s Hs. unfold begin_barge_in. destruct (String.eqb event_type "input_speech_started") eqn:Es.
  - apply String.eqb_eq in Es as ->. unfold mbind at 1, st_bind at 1.
    destruct (end_caller_speech_spec false "superseded_by_new_start" s Hs) as (s1 & -> & H1 & Ha1).
    unfold mbind at 1, st_bind at 1.
    destruct (next_barge_in_spec s1 H1) as (s2 & -> & H2 & Ev2 & C2 & O2 & P2 & N2 & A2).
    set (alias := speech_alias _ _). unfold _observe_barge_in_event.
    unfold mbind, st_bind, mret, st_ret, timeline, modify. cbn [snd].
    set (e := bridge_event _ _ _ _ _ _ _).
    match goal with |- bracketed ?s' => assert (events s' = events s2 ++ [e]) as He by reflexivity end.
    destruct H1 as [Hr Hp1 Hs1]. constructor; [cbn; by rewrite C2, O2| |].
    + rewrite He, Ev2. unfold playback_log.
      rewrite log_of_app, (log_single e _ _ _ alias _ eq_refl eq_refl eq_refl).
      cbn [s_config s_playback set_speech set_observer]. rewrite C2, P2. cbn. rewrite app_nil_r. exact Hp1.
    + rewrite He, Ev2. unfold speech_log.
      rewrite log_of_app, (log_single e _ _ _ alias _ eq_refl eq_refl eq_refl).
      cbn [s_config s_speech set_speech set_observer _barge_in_sequence _active_caller_speech_alias String.eqb].
      subst alias. rewrite C2, N2. apply channel_start; [apply speech_alias_inj|].
      rewrite Ha1 in Hs1. exact Hs1.
  - revert s Hs. apply preserves_bind; [apply quiet_preserves; auto with stable|]. intros _.
    apply preserves_bind.
    { intros s Hs. by destruct (next_barge_in_spec s Hs) as (s2 & -> & H2 & _). }
    intros alias. apply quiet_preserves. apply stable_bind; [|auto with stable].
    unfold _observe_barge_in_event. apply stable_bind; [auto with stable|]. intros at_.
    by apply quiet_timeline, provider_name_irrelevant.
Qed.

Lemma quiet_step alias step name cat dir attrs ts :
  bool_decide (name ∉ channel_names) = true ->
  quiet (_observe_barge_in_event now alias step name cat dir attrs ts).
Proof.
  intros H. unfold _observe_barge_in_event. apply stable_bind; [destruct ts; auto with stable|].
  intros at_. apply quiet_timeline. by eapply irrelevant_const.
Qed.

Lemma quiet_evidence alias frames partial w control written :
  quiet (_observe_barge_in_audio_evidence log10 alias frames partial w control written).
Proof.
  unfold _observe_barge_in_audio_evidence. do 2 (apply stable_bind; [auto with stable|intros ?]).
  apply stable_bind; [apply stable_for_each; intros c; apply quiet_timeline; solve_quiet_event|]. intros _.
  apply stable_bind.
  { apply stable_for_each. intros o s'. unfold mbind, st_bind, lift.
    destruct (frame_evidence _ _ _ o) as [e|] eqn:E; [|reflexivity].
    apply quiet_timeline. unfold frame_evidence in E. simpl_res. solve_quiet_event. }
  intros _. do 2 (apply stable_bind; [auto with stable|intros ?]). apply stable_bind; [|auto with stable].
  destruct partial as [|b partial], w as [w|]; try (auto with stable; fail). intros s'.
  unfold mbind, st_bind, lift. destruct (partial_evidence _ _ _ _ _ _ _) as [e|] eqn:E; [|reflexivity].
  apply quiet_timeline. unfold partial_evidence in E. simpl_res. solve_quiet_event.
Qed.

Lemma bracketed_interrupt_path answers alias step :
  preserves bracketed (interrupt_path now monotonic meanwhile answers alias step).
Proof.
  unfold interrupt_path. destruct (auto_interrupts_on_speech answers).
  - apply quiet_preserves. apply stable_bind; [auto with stable|]. intros _.
    apply stable_bind; [by apply quiet_step|auto with stable].
  - apply preserves_bind.
    { destruct (interrupt answers); [apply bracketed_await|apply quiet_preserves; auto with stable]. }
    intros []; apply quiet_preserves; [|auto with stable].
    apply stable_bind; [auto with stable|]. intros _. apply stable_bind; [by apply quiet_step|auto with stable].
Qed.

Lemma quiet_effective_position : quiet (_effective_playback_position monotonic).
Proof.
  unfold _effective_playback_position. apply stable_bind; [auto with stable|]. intros q.
  destruct (_inflight_playback_position q), (_inflight_started_at q); auto with stable.
Qed.

Lemma bracketed_truncate_step answers alias step position :
  preserves bracketed (truncate_step now monotonic meanwhile answers alias step position).
Proof.
  unfold truncate_step. destruct position as [p|], (truncate_audio answers) as [answer|];
    try (apply quiet_preserves; auto with stable; fail).
  apply preserves_bind; [apply bracketed_await|]. intros []; apply quiet_preserves; [|auto with stable].
  apply stable_bind; [auto with stable|]. intros _. apply stable_bind; [by apply quiet_step|auto with stable].
Qed.

Lemma quiet_producer f : quiet (modify (fun s => set_producer (f s) s)).
Proof. apply stable_modify. intros s. reflexivity. Qed.
Lemma quiet_output f : quiet (modify (fun s => set_output (f s) s)).
Proof. apply stable_modify. intros s. reflexivity. Qed.

Lemma bracketed_discard_output : preserves bracketed (discard_output now monotonic meanwhile).
Proof.
  unfold discard_output. apply preserves_quiet_bind; [apply (quiet_positions (fun _ => _))|]. intros _.
  apply preserves_quiet_bind; [apply (quiet_output (fun s => _))|]. intros _.
  do 2 (apply preserves_quiet_bind; [auto with stable|intros ?]).
  apply preserves_quiet_bind; [apply (quiet_producer (fun _ => _))|]. intros _.
  apply preserves_bind; [apply bracketed_await|]. intros _. apply quiet_preserves.
  apply stable_bind; [auto with stable|]. intros l.
  apply stable_bind; [apply (quiet_producer (fun s => _))|]. intros _. auto with stable.
Qed.

Lemma bracketed_barge_in event_type answers at_ mono :
  event_type <> "input_speech_stopped" ->
  preserves bracketed (barge_in log10 now monotonic meanwhile event_type answers at_ mono).
Proof.
  intros Hne. unfold barge_in. apply preserves_bind; [by apply bracketed_begin_barge_in|]. intros alias.
  apply preserves_bind.
  { destruct (String.eqb _ _); [apply bracketed_interrupt_path|apply quiet_preserves; auto with stable]. }
  intros path. apply preserves_quiet_bind.
  { unfold truncate_position. apply stable_bind; [apply quiet_effective_position|]. auto with stable. }
  intros position. apply preserves_bind; [apply bracketed_truncate_step|]. intros step.
  do 2 (apply preserves_quiet_bind; [auto with stable|intros ?]).
  apply preserves_bind; [apply bracketed_end_playback|]. intros _.
  apply preserves_bind; [apply bracketed_discard_output|]. intros [[partial w] dropped].
  apply quiet_preserves. apply stable_bind; [apply quiet_evidence|]. intros discard.
  apply stable_bind; [by apply quiet_step|]. intros _. apply stable_bind; [auto with stable|]. intros _.
  apply stable_bind; [destruct dropped; auto with stable|]. intros _. by apply quiet_step.
Qed.

Lemma bracketed_handle_event event_type answers :
  preserves bracketed (handle_event log10 now monotonic flush_done meanwhile event_type answers).
Proof.
  unfold handle_event. do 3 (apply preserves_quiet_bind; [auto with stable|intros ?]).
  apply preserves_bind; [|intros _; apply quiet_preserves; auto with stable].
  destruct (String.eqb event_type "input_speech_stopped") eqn:E; [apply bracketed_end_caller|].
  destruct (_ || _); [|apply quiet_preserves; auto with stable].
  apply bracketed_barge_in. by apply String.eqb_neq.
Qed.

Lemma quiet_handle_audio_front chunk received mono :
  quiet (observe_chunk log10 chunk received mono).
Proof.
  unfold observe_chunk. apply stable_bind; [auto with stable|]. intros out.
  apply stable_bind; [apply (quiet_output (fun _ => _))|]. intros _.
  do 4 (apply stable_bind; [auto with stable|intros ?]).
  apply stable_bind; [apply (quiet_output (fun _ => _))|auto with stable].
Qed.

Lemma quiet_switch_item item : quiet (switch_item item).
Proof.
  unfold switch_item. apply stable_bind; [auto with stable|]. intros q.
  case_bool_decide; [auto with stable|]. apply stable_modify. intros s. reflexivity.
Qed.

Lemma quiet_resample chunk : quiet (resample chunk).
Proof.
  unfold resample. apply stable_bind; [auto with stable|]. intros rate.
  apply stable_bind; [auto with stable|]. intros out. apply stable_bind.
  { destruct (_output_resampler out) as [r|]; [destruct (_ =? _)|]; auto with stable. }
  intros r. apply stable_bind; [apply stable_modify; intros s; reflexivity|]. intros _.
  apply stable_zoom. intros s t. reflexivity.
Qed.

Lemma quiet_process_stages input resampled : quiet (process_stages log10 now input resampled).
Proof.
  unfold process_stages. apply stable_bind; [auto with stable|]. intros cfg.
  repeat (apply stable_bind; [auto with stable|intros ?]). auto with stable.
Qed.

Lemma bracketed_emit_packet size : preserves bracketed (emit_packet log10 now monotonic meanwhile size).
Proof.
  unfold emit_packet, take_packet, enqueue_packet. apply preserves_quiet_bind.
  { apply stable_bind; [auto with stable|]. intros p.
    apply stable_bind; [apply (quiet_producer (fun _ => _))|]. intros _.
    apply stable_bind; [by apply stable_zoom|auto with stable]. }
  intros packet. apply preserves_quiet_bind; [auto with stable|]. intros q. apply preserves_quiet_bind.
  { destruct (_current_provider_item q); [|auto with stable]. apply stable_bind; [|auto with stable].
    unfold _next_playback_position. apply stable_bind; [auto with stable|]. intros q'.
    destruct (_current_provider_item q'); [|auto with stable].
    apply stable_bind; [apply (quiet_positions (fun _ => _))|auto with stable]. }
  intros position. apply preserves_quiet_bind; [auto with stable|]. intros out.
  apply preserves_quiet_bind; [apply (quiet_output (fun _ => _))|]. intros _.
  do 5 (apply preserves_quiet_bind; [auto with stable|intros ?]).
  apply preserves_bind; [apply bracketed_await|]. intros _. apply quiet_preserves.
  apply stable_bind; [by apply stable_zoom|]. intros dropped.
  destruct (dropped =? 0); auto with stable.
Qed.

Lemma bracketed_packet_loop fuel size :
  preserves bracketed (packet_loop log10 now monotonic meanwhile fuel size).
Proof.
  induction fuel as [|fuel IH]; cbn [packet_loop]; (apply preserves_quiet_bind; [auto with stable|]); intros p;
    (destruct (_ <? _); [apply quiet_preserves; auto with stable|]).
  - apply quiet_preserves. auto with stable.
  - apply preserves_bind; [apply bracketed_emit_packet|]. by intros _.
Qed.

Lemma bracketed_handle_audio size chunk :
  preserves bracketed (handle_audio log10 now monotonic flush_done meanwhile size chunk).
Proof.
  unfold handle_audio. do 3 (apply preserves_quiet_bind; [auto with stable|intros ?]).
  apply preserves_quiet_bind; [apply quiet_handle_audio_front|]. intros ordinal.
  apply preserves_quiet_bind; [apply quiet_switch_item|]. intros _.
  apply preserves_quiet_bind; [apply quiet_resample|]. intros [|b l]; [apply quiet_preserves; auto with stable|].
  apply preserves_quiet_bind; [apply quiet_process_stages|]. intros limited.
  apply preserves_bind; [|intros _; apply quiet_preserves; auto with stable]. unfold packetize.
  apply preserves_quiet_bind; [apply (quiet_producer (fun s => _))|]. intros _.
  apply preserves_quiet_bind; [auto with stable|]. intros buffered. apply bracketed_packet_loop.
Qed.

Lemma preserves_finally {A} (m : st session A) f :
  preserves bracketed m -> preserves bracketed f -> preserves bracketed (finally m f).
Proof.
  intros Hm Hf s Hs. unfold finally. specialize (Hf _ (Hm s Hs)).
  destruct (f (m s).2) as [[[]|c e] s']; exact Hf.
Qed.

Lemma bracketed_produce messages failure persistent :
  preserves bracketed (_produce_provider_audio log10 now monotonic flush_done meanwhile
                         messages failure persistent).
Proof.
  unfold _produce_provider_audio. do 2 (apply preserves_quiet_bind; [auto with stable|intros ?]).
  apply preserves_finally; [apply preserves_catch|].
  - apply preserves_bind.
    { apply preserves_for_each. intros m. apply preserves_bind; [apply bracketed_await|]. intros _.
      destruct m; [apply bracketed_handle_event|apply bracketed_handle_audio]. }
    intros _. apply preserves_bind; [apply bracketed_await|]. intros _. apply quiet_preserves.
    destruct failure as [[c e]|]; [auto with stable|]. destruct persistent; auto with stable.
  - intros c e. apply quiet_preserves. unfold stream_error. case_bool_decide; auto with stable.
  - apply quiet_preserves. apply (quiet_producer (fun s => _)).
Qed.

Lemma quiet_wait next_send_at : quiet (wait_until_due monotonic next_send_at).
Proof. apply stable_bind; auto with stable. Qed.

(** The pump writes a frame before it marks it as started. *)
Lemma bracketed_pump ended frames next_send_at previous :
  preserves bracketed (pump_loop now monotonic ended frames next_send_at previous).
Proof.
  revert next_send_at previous. induction frames as [|f frames IH]; intros next_send_at previous;
    cbn [pump_loop]; (apply preserves_quiet_bind; [apply quiet_wait|]); intros _;
    (apply preserves_bind; [destruct previous; [apply bracketed_played|apply quiet_preserves; auto with stable]|]);
    intros _.
  - apply preserves_lift_bind. intros u _. apply preserves_quiet_bind; [apply quiet_wait|]. intros _.
    apply preserves_bind; [apply bracketed_ended|]. intros _. apply quiet_preserves. auto with stable.
  - apply preserves_lift_bind. intros u Ew. apply preserves_bind.
    { apply bracketed_started. unfold sendable. destruct (Z.leb_spec (len (payload f)) 65535); [lia|].
      exfalso. unfold write_frame, mbind, st_bind, lift, guard_else in Ew.
      rewrite (proj2 (Z.leb_gt (len (payload f)) 65535)) in Ew by lia.
      by destruct ((0 <=? frame_type f) && (frame_type f <=? 255)). }
    intros _. do 3 (apply preserves_quiet_bind; [auto with stable|intros ?]).
    apply preserves_bind; [apply IH|]. intros rest. apply quiet_preserves. auto with stable.
Qed.
End bracketed.
End channels.

(** ** Closing *)

Lemma mark_ended_spec now reason s :
  exists s', mark_output_ended now reason s = (Ok tt, s')
    /\ _active_playback_alias (s_playback s') = None /\ s_speech s' = s_speech s.
Proof.
  unfold mark_output_ended, _end_assistant_playback, mbind, st_bind, asks.
  destruct (_playback_last_played_ts (s_playback s)), (_active_playback_alias (s_playback s)) eqn:Ea;
    cbn -[playback_event]; rewrite ?Ea; eexists; (split; [reflexivity|]; split; [|reflexivity]);
    first [exact Ea | reflexivity].
Qed.

(** Closing an open session ends both channels. *)
Lemma close_session_spec now alias answer has_fail ts s :
  bracketed false s ->
  exists outcome s', close_session now alias answer has_fail ts s = (Ok (Some outcome), s')
    /\ bracketed true s'
    /\ _active_playback_alias (s_playback s') = None
    /\ _active_caller_speech_alias (s_speech s') = None.
Proof.
  intros Hs. unfold close_session. unfold mbind at 1, st_bind at 1, asks at 1.
  rewrite (proj2 (br_open _ _ Hs)).
  set (s1 := set_observer (observe_sip_event
    (MkSipEventObs "BYE" "in" (Some (call_id (s_config s))) None (Some "provider-call-ended") ts)
    (s_observer s)) (set_closed true s)).
  assert (bracketed true s1) as H1.
  { destruct Hs as [[Hr Ho] Hp Hsp]. constructor; [by split| |];
      unfold s1, events in *; cbn in *; by rewrite app_nil_r. }
  destruct (end_caller_speech_spec true now false "call_closed" s1 H1) as (s2 & E2 & H2 & A2).
  destruct (mark_ended_spec now "call_closed" s2) as (s3 & E3 & P3 & S3).
  pose proof (bracketed_ended true now "call_closed" s2 H2) as H3. rewrite E3 in H3.
  eexists _, s3. split_and!; [|exact H3|exact P3|by rewrite S3].
  unfold mbind, st_bind, modify, config, asks. cbv beta zeta iota.
  change (set_observer _ _) with s1. rewrite E2, E3. reflexivity.
Qed.

(** ** The packet loop *)

(** What the producer owns: the other tasks do not change it, except that the
    pump takes frames from the playback buffer. *)
Definition producer_view (s : session) := (s_producer s, s_output s, s_config s).

Section packets.
Variable log10 : float -> float.
Variable now : nat -> datetime.
Variable monotonic : nat -> float.
Variable meanwhile : nat -> list concurrent_call.

Lemma still_read_now : stable producer_view (read_now now).
Proof. by intros s. Qed.
Lemma still_read_monotonic : stable producer_view (read_monotonic monotonic).
Proof. by intros s. Qed.
Lemma still_config {A} (f : session_config -> A) : stable producer_view (config f).
Proof. by intros s. Qed.
Lemma still_asks {A} (f : session -> A) : stable producer_view (asks f).
Proof. by intros s. Qed.
Lemma still_timeline e : stable producer_view (timeline e).
Proof. by intros s. Qed.
Lemma still_set_positions f : stable producer_view (modify (fun s => set_positions (f s) s)).
Proof. by intros s. Qed.
Lemma still_set_playback f : stable producer_view (modify (fun s => set_playback (f s) s)).
Proof. by intros s. Qed.
#[local] Hint Resolve still_read_now still_read_monotonic still_config still_asks still_timeline : stable.

Lemma still_metric name value : stable producer_view (metric now name value).
Proof. apply stable_bind; [auto with stable|]. by intros ts s. Qed.
#[local] Hint Resolve still_metric : stable.

Lemma still_end_playback ts reason : stable producer_view (_end_assistant_playback ts reason).
Proof.
  apply stable_bind; [auto with stable|]. intros p.
  destruct (_active_playback_alias p); [|auto with stable].
  apply stable_bind; [auto with stable|]. intros _. apply (still_set_playback (fun _ => _)).
Qed.

Lemma still_played frame : stable producer_view (mark_output_played now monotonic frame).
Proof.
  unfold mark_output_played. apply stable_bind; [auto with stable|]. intros p. apply stable_bind.
  - destruct (_active_playback_alias p); [|auto with stable].
    do 4 (apply stable_bind; [auto with stable|intros ?]). apply (still_set_playback (fun s => _)).
  - intros _. apply stable_bind; [auto with stable|]. intros q.
    destruct (playback_position frame), (_current_provider_item q); auto with stable.
    case_bool_decide; [apply (still_set_positions (fun _ => _))|auto with stable].
Qed.

Lemma still_started frame : stable producer_view (mark_output_started now monotonic frame).
Proof.
  unfold mark_output_started. do 3 (apply stable_bind; [auto with stable|intros ?]).
  apply stable_bind; [destruct (media_gap _ _); [apply still_end_playback|auto with stable]|]. intros _.
  apply stable_bind.
  { apply stable_bind; [auto with stable|]. intros p. destruct (_active_playback_alias p); [auto with stable|].
    apply stable_bind; [auto with stable|]. intros alias.
    apply stable_bind; [apply (still_set_playback (fun _ => _))|]. intros _. auto with stable. }
  intros _. do 2 (apply stable_bind; [auto with stable|intros ?]).
  apply stable_bind; [apply (still_set_playback (fun s => _))|]. intros _.
  destruct (playback_position frame); [apply (still_set_positions (fun s => _))|auto with stable].
Qed.

Lemma still_ended reason : stable producer_view (mark_output_ended now reason).
Proof.
  apply stable_bind; [auto with stable|]. intros p.
  apply stable_bind; [destruct (_playback_last_played_ts p); auto with stable|].
  intros ts. apply still_end_playback.
Qed.

Lemma still_send_audio t pcm answer : stable producer_view (send_audio now t pcm answer).
Proof.
  unfold send_audio. do 3 (apply stable_bind; [auto with stable|intros ?]).
  apply stable_bind; [destruct a0 as [r|]; [destruct (_ =? _)|]; auto with stable|]. intros r.
  apply stable_bind; [by intros s'|]. intros _.
  apply stable_bind; [by intros s'|]. intros [|b out]; [auto with stable|].
  do 2 (apply stable_bind; [auto with stable|intros ?]). destruct answer; auto with stable.
Qed.

(** [s'] is [s] after the pump took some frames. *)
Definition fewer_frames (s s' : session) : Prop :=
  s_output s' = s_output s /\ s_config s' = s_config s
  /\ packet_buffer (s_producer s') = packet_buffer (s_producer s)
  /\ packet_sources (s_producer s') = packet_sources (s_producer s)
  /\ max_frames (playback (s_producer s')) = max_frames (playback (s_producer s))
  /\ exists k, _frames (playback (s_producer s')) = drop k (_frames (playback (s_producer s))).

Lemma fewer_trans s1 s2 s3 : fewer_frames s1 s2 -> fewer_frames s2 s3 -> fewer_frames s1 s3.
Proof.
  intros (?&?&?&?&?&k1&E1) (?&?&?&?&?&k2&E2). unfold fewer_frames. split_and!; try congruence.
  exists (k1 + k2)%nat. by rewrite E2, E1, drop_drop.
Qed.

Lemma fewer_view s s' : producer_view s' = producer_view s -> fewer_frames s s'.
Proof. intros [= E1 E2 E3]. unfold fewer_frames. rewrite E1, E2, E3. split_and!; try done. by exists 0%nat. Qed.

Lemma fewer_concurrent c s : fewer_frames s (run_concurrent now monotonic c s).2.
Proof.
  destruct c; cbn [run_concurrent].
  - unfold fewer_frames, get. cbn. destruct (_frames (playback (s_producer s))) as [|f l] eqn:E; cbn;
      split_and!; try done; [exists 0%nat|exists 1%nat]; by rewrite ?E.
  - apply fewer_view, still_played.
  - apply fewer_view, still_started.
  - apply fewer_view, still_ended.
  - apply fewer_view, still_send_audio.
  - apply fewer_view, still_metric.
Qed.

Lemma fewer_run_all l s : fewer_frames s (run_all now monotonic l s).
Proof.
  revert s. induction l as [|c l IH]; intros s; [by apply fewer_view|].
  unfold run_all. cbn [fold_left]. eapply fewer_trans; [apply (fewer_concurrent c)|apply IH].
Qed.

(** The accounts of the producer: the sources describe the buffered bytes, and
    every queued frame has the size of a packet. *)
Record accounted (size : Z) (s : session) : Prop := {
  ac_live : Forall live (packet_sources (s_producer s));
  ac_total : total_bytes (packet_sources (s_producer s)) = len (packet_buffer (s_producer s));
  ac_limit : 1 <= max_frames (playback (s_producer s));
  ac_bounded : len (_frames (playback (s_producer s))) <= max_frames (playback (s_producer s));
  ac_sizes : Forall (fun f => len (payload f) = size) (_frames (playback (s_producer s))) }.

Lemma accounted_fewer size s s' : fewer_frames s s' -> accounted size s -> accounted size s'.
Proof.
  intros (_ & _ & Eb & Es & Em & k & Ef) [H1 H2 H3 H4 H5]. constructor; rewrite ?Es, ?Eb, ?Em, ?Ef; try done.
  - unfold len in *. rewrite length_drop. lia.
  - by apply Forall_drop.
Qed.

(** The queued frames as they go out: type and bytes. *)
Definition outgoing (f : AudioSocketFrame) : Z * bytes := (frame_type f, payload f).
Definition queued (s : session) : list (Z * bytes) := map outgoing (_frames (playback (s_producer s))).

Lemma put_spec size f b :
  1 <= max_frames b -> len (_frames b) <= max_frames b -> len (payload f) = size ->
  Forall (fun f => len (payload f) = size) (_frames b) ->
  exists d b', put f b = (Ok d, b') /\ max_frames b' = max_frames b
    /\ len (_frames b') <= max_frames b'
    /\ Forall (fun f => len (payload f) = size) (_frames b')
    /\ map outgoing (_frames b') =
         drop (Z.to_nat (len (_frames b) + 1 - max_frames b)) (map outgoing (_frames b)) ++ [outgoing f].
Proof.
  intros Hm Hl Hf Hs. unfold put. destruct (Z.leb_spec (max_frames b) (len (_frames b))) as [Hfull|Hroom].
  - destruct (_frames b) as [|g rest] eqn:E; [unfold len in Hfull; cbn in Hfull; lia|].
    apply Forall_cons in Hs as [_ Hs]. replace (Z.to_nat _) with 1%nat by lia. rewrite len_cons in *.
    eexists _, _. split; [reflexivity|]. cbn [with_frames max_frames _frames]. split_and!; [done| | |].
    + rewrite len_app. change (len [_]) with 1. lia.
    + apply Forall_app. split; [done|]. by constructor.
    + by rewrite map_app.
  - replace (Z.to_nat _) with 0%nat by lia. eexists _, _. split; [reflexivity|].
    cbn [with_frames max_frames _frames]. split_and!; [done| | |].
    + rewrite len_app. change (len [_]) with 1. lia.
    + apply Forall_app. split; [done|]. by constructor.
    + by rewrite map_app.
Qed.

(** A position is answered whenever an item is active. *)
Lemma next_position_spec s item :
  _current_provider_item (s_positions s) = Some item ->
  exists position q, _next_playback_position s = (Ok position, set_positions q s).
Proof.
  intros H. unfold _next_playback_position. rewrite (st_bind_eq _ _ _ (s_positions s) s) by done.
  rewrite H. eexists _, _. reflexivity.
Qed.

Lemma frame_position_spec s : exists position q,
  (match _current_provider_item (s_positions s) with
   | None => mret None
   | Some _ => position ← _next_playback_position; mret (Some position)
   end) s = (Ok position, set_positions q s).
Proof.
  destruct (_current_provider_item (s_positions s)) eqn:Ei; [|exists None, (s_positions s); by destruct s].
  destruct (next_position_spec s _ Ei) as (pos & q & Hp). exists (Some pos), q. by rewrite (st_bind_eq _ _ _ _ _ Hp).
Qed.

(** What changes when bytes and sources leave the buffer. *)
Definition with_buffer (buffer : bytes) (sources : list _BufferedProviderAudioSource) (s : session) :=
  set_producer (MkProducer buffer sources (playback (s_producer s))) s.

Lemma take_packet_spec size s :
  0 < size -> accounted size s -> size <= len (packet_buffer (s_producer s)) ->
  exists w rest,
    let s' := with_buffer (drop (Z.to_nat size) (packet_buffer (s_producer s))) rest s in
    take_packet size s = (Ok (take (Z.to_nat size) (packet_buffer (s_producer s)), w), s')
    /\ accounted size s'.
Proof.
  intros Hsize [Hlive Htot Hmax Hbound Hsizes] Hle. set (buffer := packet_buffer (s_producer s)) in *.
  destruct (consume_sources_spec size (packet_sources (s_producer s)) Hlive)
    as (w & rest & Hc & _ & _ & Hlive' & Htot'); [lia|].
  exists w, rest. cbv zeta. split.
  - unfold take_packet. rewrite (st_bind_eq _ _ _ (s_producer s) s) by done. cbv zeta. fold buffer.
    set (s1 := set_producer (MkProducer (drop (Z.to_nat size) buffer) (packet_sources (s_producer s))
      (playback (s_producer s))) s).
    rewrite (st_bind_eq _ _ _ tt s1) by done.
    rewrite (st_bind_eq _ _ _ w (with_buffer (drop (Z.to_nat size) buffer) rest s)); [done|].
    unfold zoom. cbn [s1 s_producer set_producer packet_sources]. by rewrite Hc.
  - constructor; try done.
    change (total_bytes rest = len (drop (Z.to_nat size) buffer)). rewrite Htot', Htot.
    unfold len in *. rewrite length_drop. lia.
Qed.

Lemma await_fewer s : fewer_frames s (await now monotonic meanwhile (Ok tt) s).2.
Proof. unfold await. cbn [snd]. eapply fewer_trans; [apply fewer_run_all|]. by apply fewer_view. Qed.

(** No other task runs while the producer awaits. *)
Definition undisturbed : Prop := forall n, meanwhile n = [].

Lemma await_frames s : exists k, (undisturbed -> k = 0%nat)
  /\ _frames (playback (s_producer (await now monotonic meanwhile (Ok tt) s).2)) = drop k (_frames (playback (s_producer s))).
Proof.
  destruct (meanwhile (s_awaits s)) as [|c l] eqn:E.
  - exists 0%nat. split; [done|]. unfold await. cbn [snd]. by rewrite E.
  - destruct (await_fewer s) as (_ & _ & _ & _ & _ & k & Hk). exists k. split; [|done]. intros H. by rewrite (H _) in E.
Qed.

Lemma drop_queued k (q r : list (Z * bytes)) : exists k', (k' <= length q)%nat /\ (k <= length q -> k' = k)%nat
  /\ drop k q ++ r = drop k' (q ++ r).
Proof.
  destruct (decide (k <= length q)%nat) as [Hk|Hk].
  - exists k. by rewrite drop_app_le.
  - exists (length q). split_and!; [done|lia|]. by rewrite drop_ge, drop_app_length by lia.
Qed.

Lemma enqueue_packet_spec size payload_ w s :
  even_length payload_ = true -> len payload_ = size -> accounted size s ->
  exists s', enqueue_packet log10 now monotonic meanwhile payload_ w s = (Ok tt, s')
    /\ accounted size s' /\ packet_buffer (s_producer s') = packet_buffer (s_producer s)
    /\ _provider_output_frame_ordinal (s_output s') = _provider_output_frame_ordinal (s_output s) + 1
    /\ max_frames (playback (s_producer s')) = max_frames (playback (s_producer s))
    /\ exists k, queued s' = drop k (queued s) ++ [(16, payload_)]
         /\ (undisturbed -> k = Z.to_nat (len (queued s) + 1 - max_frames (playback (s_producer s)))).
Proof.
  intros Hed Hdata Hac. destruct (pcm_rms_fin payload_ Hed) as (rms & Hrms).
  destruct (quality_total log10 payload_ Hed) as (quality & Hq).
  unfold enqueue_packet. rewrite (st_bind_eq _ _ _ (s_positions s) s) by done.
  destruct (frame_position_spec s) as (position & q & Hpos).
  rewrite (st_bind_eq _ _ _ _ _ Hpos). rewrite (st_bind_eq _ _ _ (s_output s) (set_positions q s)) by done.
  set (ordinal := _provider_output_frame_ordinal (s_output s) + 1).
  set (s4 := set_output (MkOutput (_output_resampler (s_output s))
    (_provider_output_chunk_ordinal (s_output s)) ordinal (_recent_provider_audio_chunks (s_output s)))
    (set_positions q s)).
  rewrite (st_bind_eq _ _ _ tt s4) by done.
  rewrite (st_bind_eq _ _ _ (Fin rms) s4) by (unfold lift; by rewrite Hrms).
  rewrite (st_bind_eq _ _ _ quality s4) by (unfold lift; by rewrite Hq).
  rewrite (st_bind_eq _ _ _ (noise_floor (s_config s4)) s4) by done.
  rewrite (st_bind_eq _ _ _ (now (s_ticks s4)) (tick s4)) by done.
  rewrite (st_bind_eq _ _ _ (monotonic (s_ticks (tick s4))) (tick (tick s4))) by done.
  pose proof (await_fewer (tick (tick s4))) as Hfew.
  set (s5 := (await now monotonic meanwhile (Ok tt) (tick (tick s4))).2) in *.
  rewrite (st_bind_eq _ _ _ tt s5) by done.
  assert (accounted size s5) as [Hlive5 Htot5 Hmax5 Hbound5 Hsizes5].
  { eapply accounted_fewer; [exact Hfew|]. destruct Hac. by constructor. }
  destruct (await_frames (tick (tick s4))) as (k & Hk & Ek). fold s5 in Ek.
  destruct Hfew as (Eo & _ & Eb & _ & Em & _).
  match goal with |- context [put ?fr] => set (frame := fr) end.
  destruct (put_spec size frame (playback (s_producer s5)) Hmax5 Hbound5) as
    (d & b' & Hput & Hm' & Hb' & Hs' & Hq'); [exact Hdata|exact Hsizes5|].
  set (s6 := set_producer (MkProducer (packet_buffer (s_producer s5)) (packet_sources (s_producer s5)) b') s5).
  rewrite (st_bind_eq _ _ _ d s6) by (unfold zoom; rewrite Hput; reflexivity).
  assert (exists s', (if d =? 0 then mret tt else metric now "output_frames_dropped" (fz 1)) s6 = (Ok tt, s')
    /\ s_producer s' = s_producer s6 /\ s_output s' = s_output s6) as (s' & Hend & Ep & Eo').
  { destruct (d =? 0); [by exists s6|]. eexists. split; [reflexivity|]. done. }
  exists s'. rewrite Ep, Eo'. cbn [s6 s_producer set_producer s_output packet_buffer playback].
  split_and!; [exact Hend| |by rewrite Eb|by rewrite Eo|by rewrite Hm'|].
  { constructor; rewrite Ep; cbn [s6 s_producer set_producer packet_buffer packet_sources playback]; try done.
    by rewrite Hm'. }
  unfold queued. rewrite Ep. cbn [s6 s_producer set_producer playback]. rewrite Hq', Ek, Em, fmap_drop, drop_drop.
  eexists. split; [reflexivity|]. intros Hu. rewrite (Hk Hu). unfold len. by rewrite length_map.
Qed.

(** One packet: from the buffer to the queue. *)
Lemma emit_packet_spec size s :
  0 < size -> size mod 2 = 0 -> accounted size s -> size <= len (packet_buffer (s_producer s)) ->
  exists s', emit_packet log10 now monotonic meanwhile size s = (Ok tt, s')
    /\ accounted size s'
    /\ packet_buffer (s_producer s') = drop (Z.to_nat size) (packet_buffer (s_producer s))
    /\ _provider_output_frame_ordinal (s_output s') = _provider_output_frame_ordinal (s_output s) + 1
    /\ max_frames (playback (s_producer s')) = max_frames (playback (s_producer s))
    /\ exists k, queued s' = drop k (queued s) ++ [(16, take (Z.to_nat size) (packet_buffer (s_producer s)))]
         /\ (undisturbed -> k = Z.to_nat (len (queued s) + 1 - max_frames (playback (s_producer s)))).
Proof.
  intros Hsize Heven Hac Hle. destruct (take_packet_spec size s Hsize Hac Hle) as (w & rest & Ht & Hac').
  cbv zeta in Ht, Hac'. unfold emit_packet. rewrite (st_bind_eq _ _ _ _ _ Ht). cbn [fst snd].
  set (data := take (Z.to_nat size) (packet_buffer (s_producer s))) in *.
  assert (len data = size) as Hdata by (apply length_take_Z; lia).
  destruct (enqueue_packet_spec size data w _ ltac:(unfold even_length; rewrite Hdata; by apply Z.eqb_eq)
    Hdata Hac') as (s' & H1 & H2 & H3 & H4 & H5 & H6). by exists s'.
Qed.

(** The packets cut from some bytes: the [i]-th holds the bytes from
    [i * size] on. *)
Definition packets (size : Z) (all : bytes) : list (Z * bytes) :=
  map (fun i => (16, take (Z.to_nat size) (drop (i * Z.to_nat size) all))) (seq 0 (Z.to_nat (len all / size))).

Lemma packets_cons size all : 0 < size -> size <= len all ->
  packets size all = (16, take (Z.to_nat size) all) :: packets size (drop (Z.to_nat size) all).
Proof.
  intros Hs Hle. unfold packets. assert (len (drop (Z.to_nat size) all) = len all + (-1) * size) as ->.
  { unfold len in *. rewrite length_drop. lia. }
  rewrite Z.div_add by lia. assert (1 <= len all / size) by (apply Z.div_le_lower_bound; lia).
  replace (Z.to_nat (len all / size)) with (S (Z.to_nat (len all / size + -1))) by lia.
  cbn [seq map]. rewrite Nat.mul_0_l, drop_0. f_equal. rewrite <- seq_shift, map_map. apply map_ext. intros i.
  rewrite drop_drop. done.
Qed.

Lemma len_packets size all : 0 < size -> len (packets size all) = len all / size.
Proof.
  intros H. unfold len at 1, packets. rewrite length_map, length_seq, Z2Nat.id; [done|]. apply Z.div_pos; [apply len_nonneg|lia].
Qed.

(** What the queue holds after packets were put into it: the frames before and
    the packets, less some that were taken or dropped from its front, never the
    last one; without other tasks, exactly those that did not fit. *)
Definition queue_after (s s' : session) (l : list (Z * bytes)) : Prop :=
  exists k, queued s' = drop k (queued s ++ l) /\ (k = 0 \/ k < length (queued s ++ l))%nat
    /\ (undisturbed -> k = Z.to_nat (len (queued s) + len l - max_frames (playback (s_producer s)))).

Lemma queue_after_one s s1 s' x l :
  len (queued s) <= max_frames (playback (s_producer s)) -> 1 <= max_frames (playback (s_producer s)) ->
  max_frames (playback (s_producer s1)) = max_frames (playback (s_producer s)) ->
  (exists k, queued s1 = drop k (queued s) ++ [x]
     /\ (undisturbed -> k = Z.to_nat (len (queued s) + 1 - max_frames (playback (s_producer s))))) ->
  queue_after s1 s' l -> queue_after s s' (x :: l).
Proof.
  intros Hle Hpos Hm (k1 & E1 & U1) (k2 & E2 & E3 & U2).
  destruct (drop_queued k1 (queued s) (x :: l)) as (k' & Hk & Hk' & Ek).
  assert (queued s1 ++ l = drop k' (queued s ++ x :: l)) as E by (by rewrite E1, <- Ek, <- app_assoc).
  exists (k' + k2)%nat. rewrite <- drop_drop, <- E. split; [done|]. split.
  - right. rewrite E, length_drop, length_app in E3. rewrite length_app. cbn [length] in *. lia.
  - intros Hu. specialize (U1 Hu). specialize (U2 Hu). rewrite Hm, E1 in U2. unfold len in *. rewrite length_app, length_drop in U2.
    cbn [length] in *. rewrite (Hk' ltac:(lia)). lia.
Qed.

Lemma packet_loop_spec size fuel s :
  0 < size -> size mod 2 = 0 -> accounted size s -> (length (packet_buffer (s_producer s)) < fuel)%nat ->
  let buffer := packet_buffer (s_producer s) in
  exists s', packet_loop log10 now monotonic meanwhile fuel size s = (Ok tt, s')
    /\ accounted size s'
    /\ packet_buffer (s_producer s') = drop (Z.to_nat (len buffer / size * size)) buffer
    /\ _provider_output_frame_ordinal (s_output s') =
         _provider_output_frame_ordinal (s_output s) + len buffer / size
    /\ queue_after s s' (packets size buffer).
Proof.
  intros Hsize Heven. revert s. induction fuel as [|fuel IH]; intros s Hac Hf; [lia|]. cbn zeta.
  set (buffer := packet_buffer (s_producer s)) in *. cbn [packet_loop].
  rewrite (st_bind_eq _ _ _ (s_producer s) s) by done. fold buffer.
  assert (len (queued s) <= max_frames (playback (s_producer s))) as Hroom.
  { unfold len, queued. rewrite length_map. apply Hac. }
  pose proof (len_nonneg buffer). destruct (Z.ltb_spec (len buffer) size) as [Hlt|Hge].
  { assert (packets size buffer = []) as -> by (unfold packets; by rewrite Z.div_small by lia).
    exists s. rewrite Z.div_small by lia. split_and!; [done|done|done|lia|]. exists 0%nat. rewrite app_nil_r.
    split_and!; [done|by left|]. intros _. change (len (@nil (Z * bytes))) with 0. lia. }
  destruct (emit_packet_spec size s Hsize Heven Hac Hge) as (s1 & He & Hac1 & Hb1 & Ho1 & Hm1 & Hq1).
  rewrite (st_bind_eq _ _ _ _ _ He). fold buffer in Hb1, Hq1.
  assert (len (drop (Z.to_nat size) buffer) = len buffer - size) as Hl1.
  { unfold len in *. rewrite length_drop. lia. }
  destruct (IH s1 Hac1) as (s' & H1 & H2 & H3 & H4 & H5).
  { rewrite Hb1. unfold len in Hl1. lia. }
  assert (len (drop (Z.to_nat size) buffer) / size = len buffer / size + -1) as Hdiv.
  { rewrite Hl1, <- Z.div_add by lia. by replace (len buffer + -1 * size) with (len buffer - size) by lia. }
  assert (1 <= len buffer / size) by (apply Z.div_le_lower_bound; lia).
  exists s'. rewrite (packets_cons size buffer) by done. rewrite Hb1 in H3, H4, H5. rewrite Hdiv in H3, H4.
  split_and!; [done|done| |lia|by eapply queue_after_one; [|apply Hac| | |]].
  rewrite H3, drop_drop. f_equal. nia.
Qed.
End packets.

(** A pump that returns leaves no playback open. *)
Lemma pump_ends_playback now monotonic ended frames next_send_at previous s w s' :
  pump_loop now monotonic ended frames next_send_at previous s = (Ok w, s') ->
  _active_playback_alias (s_playback s') = None.
Proof.
  revert next_send_at previous s w. induction frames as [|f frames IH]; intros next_send_at previous s w H;
    cbn [pump_loop] in H; simpl_st.
  - match goal with H : mark_output_ended _ _ ?before = _ |- _ =>
      destruct (mark_ended_spec now "stream_ended" before) as (after & E & Ha & _); rewrite E in H end.
    congruence.
  - eapply IH. eassumption.
Qed.

(** ** Theorems *)

(** C14. The conversation events of a call are well bracketed.  Whatever the
    provider sends, however its stream ends, whatever frames the pump takes and
    with whatever exception they end, and whatever the pump and the reader do
    at every await of the producer and afterwards: each
    [assistant_playback_stopped] stops the playback that was started last, no
    playback starts while one is active, and the active alias is exactly the
    one left open; the same holds for the caller's speech.  A pump that returns
    leaves no playback open.  Closing the call stops whatever is still open,
    and no alias is ever used for two starts. *)
Theorem conversation_events_bracketed log10 now monotonic flush_done meanwhile cfg run_id started
    messages failure persistent later stream alias answer has_fail ts :
  0 < telephony_rate cfg ->
  (forall n, Forall call_sendable (meanwhile n)) -> Forall call_sendable later ->
  let s1 := (_produce_provider_audio log10 now monotonic flush_done meanwhile messages failure persistent
               (new_session cfg (new_observer run_id) started)).2 in
  let s2 := run_all now monotonic later s1 in
  let pump := _pump_output now monotonic stream s2 in
  exists outcome s3, close_session now alias answer has_fail ts pump.2 = (Ok (Some outcome), s3)
    /\ bracket None (playback_log (events s2)) = Some (_active_playback_alias (s_playback s2))
    /\ bracket None (speech_log (events s2)) = Some (_active_caller_speech_alias (s_speech s2))
    /\ (is_ok pump.1 = true -> bracket None (playback_log (events pump.2)) = Some None)
    /\ bracket None (playback_log (events s3)) = Some None
    /\ bracket None (speech_log (events s3)) = Some None
    /\ NoDup (starts (playback_log (events s3))) /\ NoDup (starts (speech_log (events s3))).
Proof.
  intros Hr Hm Hl s1 s2 pump.
  assert (bracketed false (new_session cfg (new_observer run_id) started)) as H0.
  { constructor; [by split| |]; (constructor; cbn; [lia|done|set_solver|constructor]). }
  assert (bracketed false s2) as H2.
  { apply bracketed_run_all; [done|]. by apply bracketed_produce. }
  assert (bracketed false pump.2) as Hp.
  { assert (preserves (bracketed false) (_pump_output now monotonic stream)) as Hpump; [|by apply Hpump].
    apply preserves_bind; [|intros; apply bracketed_pump]. apply quiet_preserves. by intros ?. }
  destruct (close_session_spec now alias answer has_fail ts pump.2 Hp) as (outcome & s3 & Hc & H3 & P3 & S3).
  exists outcome, s3. pose proof (br_playback _ _ H3) as [_ Bp _ Np].
  pose proof (br_speech _ _ H3) as [_ Bs _ Ns]. rewrite P3 in Bp. rewrite S3 in Bs.
  split_and!; [exact Hc|apply (br_playback _ _ H2)|apply (br_speech _ _ H2)| |done..].
  intros Hok. destruct (br_playback _ _ Hp) as [_ Bq _ _]. rewrite Bq. f_equal.
  destruct pump as [[w|] s'] eqn:E; [|done]. subst pump. unfold _pump_output in E. simpl_st.
  by eapply pump_ends_playback.
Qed.

(** C23. The packet loop cuts the bytes into packets and queues them.  When
    the buffered sources describe the buffered bytes, buffering a chunk and
    cutting packets always succeeds, whatever the other tasks do meanwhile: the
    accounts stay exact (so the accounting never underruns), and what is left
    is the tail that does not fill a packet.  The frames put into the queue are
    the consecutive [size]-byte packets of the buffered bytes, in order, each
    an audio frame of type 16.  The queue ends with them; only frames from its
    front are gone, those the pump took meanwhile or the oldest of a full
    queue, and without other tasks exactly as many as do not fit in it. *)
Theorem packets_account_for_bytes log10 now monotonic meanwhile size ordinal received mono limited s :
  0 < size -> size mod 2 = 0 -> accounted size s -> limited <> [] ->
  let all := packet_buffer (s_producer s) ++ limited in
  let packets_ := map (fun i => (16, take (Z.to_nat size) (drop (i * Z.to_nat size) all))) (seq 0 (Z.to_nat (len all / size))) in
  let queue s := map (fun f => (frame_type f, payload f)) (_frames (playback (s_producer s))) in
  exists s' k, packetize log10 now monotonic meanwhile size ordinal received mono limited s = (Ok tt, s')
    /\ accounted size s'
    /\ packet_buffer (s_producer s') = drop (Z.to_nat (len all / size * size)) all
    /\ len (packet_buffer (s_producer s')) < size
    /\ _provider_output_frame_ordinal (s_output s') =
         _provider_output_frame_ordinal (s_output s) + len all / size
    /\ queue s' = drop k (queue s ++ packets_)
    /\ (0 < len all / size -> (k < length (queue s ++ packets_))%nat)
    /\ ((forall n, meanwhile n = []) ->
        k = Z.to_nat (len (queue s) + len all / size - max_frames (playback (s_producer s)))).
Proof.
  intros Hsize Heven [Hlive Htot Hmax Hbound Hsizes] Hne all. unfold packetize.
  set (s1 := set_producer (MkProducer all (packet_sources (s_producer s) ++
    [MkSource ordinal received mono (len limited)]) (playback (s_producer s))) s).
  rewrite (st_bind_eq _ _ _ tt s1) by done.
  rewrite (st_bind_eq _ _ _ (length all) s1) by done.
  assert (accounted size s1) as H1.
  { constructor; try done.
    - apply Forall_app. split; [done|]. constructor; [|constructor]. unfold live. cbn [remaining_bytes].
      destruct limited; [done|]. rewrite len_cons. pose proof (len_nonneg limited). lia.
    - cbn [s1 s_producer set_producer packet_sources packet_buffer].
      rewrite total_bytes_app, Htot. subst all. rewrite len_app. cbn [total_bytes foldr remaining_bytes]. lia. }
  destruct (packet_loop_spec log10 now monotonic meanwhile size (S (length all)) s1 Hsize Heven H1)
    as (s' & Hl & Hac & Hb & Ho & k & Hq & Hlast & Hk); [cbn; lia|].
  change (packet_buffer (s_producer s1)) with all in *. change (s_output s1) with (s_output s) in *.
  rewrite len_packets in Hk by done. cbv zeta. exists s', k.
  split_and!; [done|done|done| |done|exact Hq| |exact Hk].
  2: { intros Hpos. destruct Hlast as [->|Hlast]; [|exact Hlast]. rewrite length_app, !length_map, length_seq. lia. }
  rewrite Hb. unfold len at 1. rewrite length_drop.
  pose proof (Z.div_mod (len all) size ltac:(lia)). pose proof (Z.mod_pos_bound (len all) size ltac:(lia)).
  assert (0 <= len all / size) by (apply Z.div_pos; [apply len_nonneg|lia]). unfold len in *. nia.
Qed.

(** ** Witnesses: a short call *)

Definition sample_config : session_config :=
  MkConfig "call" (fz 3000) (fz 8) (fz 200) (flit 7 10) 8000 (flit 1 10) 24000 "b1" "p1" "out".

Definition sample_now (n : nat) : datetime := Datetime (20000 * Z.of_nat n) (Some 0).
Definition sample_clock (n : nat) : float := fl (QArith_base.Qmake (Z.of_nat n) 50).

(** 20 ms of a loud square wave at 8 kHz. *)
Definition sample_pcm : bytes := concat (repeat (le16 4000 ++ le16 (-4000)) 80).

Definition sample_chunk : ProviderAudioChunk := MkProviderChunk sample_pcm 8000 1 "pcm16" (Some "item") (Some 0).

Definition sample_packet : AudioSocketFrame :=
  MkFrame 16 sample_pcm (Some (MkPosition "item" 0 20)) None.

Definition sample_answers : provider_answers :=
  MkAnswers false (Some (Ok true)) (Some (fun _ => Ok true)).

(** The pump takes and starts the first packet before the caller interrupts. *)
Definition sample_meanwhile (n : nat) : list concurrent_call :=
  match n with 2%nat => [PumpGet; PumpStarted sample_packet] | _ => [] end.

Definition sample_messages : list provider_message :=
  [MsgAudio sample_chunk; MsgEvent "input_speech_started" sample_answers].

Lemma sample_meanwhile_sendable n : Forall call_sendable (sample_meanwhile n).
Proof.
  destruct n as [|[|[|n]]]; try constructor; [exact I|]. constructor; [|constructor]. unfold call_sendable, sendable.
  vm_compute. discriminate.
Qed.

Definition sample_call : result unit * session :=
  _produce_provider_audio (fun x => x) sample_now sample_clock (fun _ => true) sample_meanwhile
    sample_messages None false (new_session sample_config (new_observer "run") fzero).

Example sample_call_log :
  sample_call.1 = Ok tt
  /\ playback_log (events sample_call.2) = [(true, "assistant-playback-p1-1"); (false, "assistant-playback-p1-1")]
  /\ speech_log (events sample_call.2) = [(true, "barge-in-b1-1")].
Proof. vm_compute. split_and!; reflexivity. Qed.

Lemma conversation_events_bracketed_witness :
  let s2 := run_all sample_now sample_clock [PumpPlayed sample_packet; CallerDtmf] sample_call.2 in
  let pump := _pump_output sample_now sample_clock (MkStream [sample_packet] (Ok tt)) s2 in
  is_ok pump.1 = true
  /\ exists outcome s3, close_session sample_now None (Ok tt) true (sample_now 0) pump.2 = (Ok (Some outcome), s3)
    /\ bracket None (playback_log (events pump.2)) = Some None
    /\ bracket None (speech_log (events s3)) = Some None
    /\ NoDup (starts (playback_log (events s3))).
Proof.
  cbv zeta. split; [vm_compute; reflexivity|].
  destruct (conversation_events_bracketed (fun x => x) sample_now sample_clock (fun _ => true) sample_meanwhile
    sample_config "run" fzero sample_messages None false [PumpPlayed sample_packet; CallerDtmf] (MkStream [sample_packet] (Ok tt))
    None (Ok tt) true (sample_now 0) ltac:(reflexivity) sample_meanwhile_sendable
    ltac:(repeat constructor)) as (outcome & s3 & H1 & _ & _ & H2 & _ & H3 & H4 & _).
  exists outcome, s3. split; [exact H1|]. split; [|exact (conj H3 H4)].
  apply H2. vm_compute. reflexivity.
Defined.

Lemma packets_account_for_bytes_witness :
  let s := new_session sample_config (new_observer "run") fzero in
  accounted 320 s
  /\ exists s', packetize (fun x => x) sample_now sample_clock (fun _ => []) 320 1 (sample_now 0) fzero
                  (sample_pcm ++ sample_pcm ++ le16 5) s = (Ok tt, s')
      /\ accounted 320 s' /\ len (packet_buffer (s_producer s')) < 320
      /\ _provider_output_frame_ordinal (s_output s') = 2
      /\ queued s' = [(16, sample_pcm); (16, sample_pcm)].
Proof.
  cbv zeta. set (s := new_session sample_config (new_observer "run") fzero).
  assert (accounted 320 s) as H.
  { constructor; [constructor|reflexivity|vm_compute; discriminate|vm_compute; discriminate|constructor]. }
  split; [exact H|].
  destruct (packets_account_for_bytes (fun x => x) sample_now sample_clock (fun _ => []) 320 1 (sample_now 0)
    fzero (sample_pcm ++ sample_pcm ++ le16 5) s ltac:(reflexivity) ltac:(reflexivity) H ltac:(discriminate))
    as (s' & k & H1 & H2 & _ & H3 & H4 & H5 & _ & H6).
  specialize (H6 (fun _ => eq_refl)). exists s'. split; [exact H1|]. split; [exact H2|]. split; [exact H3|].
  split; [rewrite H4; vm_compute; reflexivity|]. unfold queued, outgoing. rewrite H5, H6. vm_compute. reflexivity.
Defined.
