(* ===== verification/AudioServer.v ===== *)
(** * The realtime connection handler

    [AudioSocketRealtimeServer._handle_connection] of
    [telephony/audiosocket.py]: the identity frame, the loop that forwards
    caller frames, the mapping of failures to aliases and the closing of the
    session.  The session's answers and the state of the output task at each
    poll are arguments; the bytes of the connection up to its end are the
    reader of [AudioSocket.v].  Every turn of the loop reads a frame of at
    least three bytes, so the length of the connection bounds the turns. *)
From S2P Require Import Prelude Effects Collections PyFloat PyData Bytes Observer AudioSocket CallSession.

Open Scope Z_scope.

(** An exception that reaches the handler. *)
Inductive thrown : Type :=
  | StreamEnded
  | SessionError (reason_alias error_type : string)
  | Failed (error_type : string).

(** How the output task ended. *)
Inductive task_end : Type :=
  | Finished
  | Cancelled
  | Threw (t : thrown).

Record environment := MkEnvironment {
  (** [session_factory(uuid)] *)
  env_factory : Z -> option thrown;
  (** the n-th [send_audio] *)
  env_send : nat -> option thrown;
  (** the output task at the n-th turn of the loop; [None] while it runs *)
  env_output : nat -> option task_end;
  (** how it ends otherwise, once it is cancelled *)
  env_final : task_end }.

Record connection := MkConnection {
  cn_reader : bytes;
  cn_written : bytes;
  cn_session : option Z;
  (** whether the output task was created, and its end when it was seen *)
  cn_output : option (option task_end);
  cn_turns : nat;
  cn_forwarded : list (Z * bytes);
  cn_dtmf : list bytes }.

Definition new_connection (reader : bytes) : connection := MkConnection reader [] None None 0 [] [].

Definition with_reader (r : bytes) (c : connection) : connection :=
  MkConnection r (cn_written c) (cn_session c) (cn_output c) (cn_turns c) (cn_forwarded c) (cn_dtmf c).
Definition next_turn (r : bytes) (c : connection) : connection :=
  MkConnection r (cn_written c) (cn_session c) (cn_output c) (S (cn_turns c)) (cn_forwarded c) (cn_dtmf c).
Definition saw_output (e : task_end) (c : connection) : connection :=
  MkConnection (cn_reader c) (cn_written c) (cn_session c) (Some (Some e)) (cn_turns c) (cn_forwarded c)
    (cn_dtmf c).
Definition forwarded (t : Z) (p : bytes) (c : connection) : connection :=
  MkConnection (cn_reader c) (cn_written c) (cn_session c) (cn_output c) (cn_turns c)
    (cn_forwarded c ++ [(t, p)]) (cn_dtmf c).
Definition saw_dtmf (p : bytes) (c : connection) : connection :=
  MkConnection (cn_reader c) (cn_written c) (cn_session c) (cn_output c) (cn_turns c) (cn_forwarded c)
    (cn_dtmf c ++ [p]).

Definition is_audio_type (t : Z) : bool := dict_mem t AUDIO_TYPE_SAMPLE_RATES.
Definition odd_payload (p : bytes) : bool := negb (len p mod 2 =? 0).

Section handler.
Variable env : environment.

(** [await output_task]. *)
Definition await_output (e : task_end) : option thrown :=
  match e with Threw t => Some t | _ => None end.

(** The [while True] loop. *)
Fixpoint serve (fuel : nat) (c : connection) : option thrown * connection :=
  match fuel with
  | O => (Some (Failed "fuel"), c)
  | S fuel' =>
      match env_output env (cn_turns c) with
      | Some e => (await_output e, saw_output e c)
      | None =>
          match read_frame (cn_reader c) with
          | (Raise cls _, rest) => (Some (Failed (class_name cls)), next_turn rest c)
          | (Ok None, rest) => (None, next_turn rest c)
          | (Ok (Some f), rest) =>
              let c := next_turn rest c in
              let t := frame_type f in let p := payload f in
              if t =? TYPE_TERMINATE then (None, c)
              else if is_audio_type t then
                if odd_payload p then (None, c)
                else
                  match env_send env (length (cn_forwarded c)) with
                  | Some e => (Some e, forwarded t p c)
                  | None => serve fuel' (forwarded t p c)
                  end
              else if (t =? TYPE_DTMF) && (len p =? 1) then serve fuel' (saw_dtmf p c)
              else if t =? TYPE_ERROR then (None, c)
              else serve fuel' c
          end
      end
  end.

(** The body of the [try]: [None] when it returns or falls through. *)
Definition converse (c : connection) : option thrown * connection :=
  match read_frame (cn_reader c) with
  | (Raise cls _, rest) => (Some (Failed (class_name cls)), with_reader rest c)
  | (Ok None, rest) => (None, with_reader rest c)
  | (Ok (Some identity), rest) =>
      let c := with_reader rest c in
      if negb (frame_type identity =? TYPE_UUID) || negb (len (payload identity) =? 16) then
        (None, MkConnection (cn_reader c)
                 (snd (write_frame TYPE_ERROR (map byte_of [105;110;118;97;108;105;100;45;117;117;105;100])
                         (cn_written c)))
                 (cn_session c) (cn_output c) (cn_turns c) (cn_forwarded c) (cn_dtmf c))
      else
        let call_uuid := from_bytes_big (payload identity) in
        match env_factory env call_uuid with
        | Some e => (Some e, c)
        | None =>
            serve (S (length rest))
              (MkConnection (cn_reader c) (cn_written c) (Some call_uuid) (Some None) (cn_turns c)
                 (cn_forwarded c) (cn_dtmf c))
        end
  end.

(** The alias of a failure and what is reported to [on_failure]. *)
Definition failure_of (t : thrown) : string * list (string * string) :=
  match t with
  | StreamEnded => ("provider-stream-ended", [])
  | SessionError a ty => (a, [(a, ty)])
  | Failed ty => ("realtime-bridge-error", [("realtime-bridge-error", ty)])
  end.

Definition record_failure (failure_alias : option string) (t : option thrown)
    : option string * list (string * string) :=
  match t, failure_alias with
  | Some t, None => let r := failure_of t in (Some r.1, r.2)
  | _, _ => (failure_alias, [])
  end.

(** What a connection did: the failures reported, the alias the session was
    closed with ([None] when there was no session), and its last state. *)
Record connection_outcome := MkOutcome {
  oc_reports : list (string * string);
  oc_closed : option (option string);
  oc_final : connection }.

Definition _handle_connection (reader : bytes) : connection_outcome :=
  let r := converse (new_connection reader) in
  let c := r.2 in
  let f1 := record_failure None r.1 in
  let output_end := match cn_output c with
                    | None => None
                    | Some None => await_output (env_final env)
                    | Some (Some e) => await_output e
                    end in
  let f2 := record_failure f1.1 output_end in
  MkOutcome (f1.2 ++ f2.2)
    (match cn_session c with Some _ => Some f2.1 | None => None end) c.
End handler.

(** ** Lemmas *)

(** A message after which the handler stops reading. *)
Definition stops (m : Z * bytes) : bool :=
  (m.1 =? TYPE_TERMINATE) || (m.1 =? TYPE_ERROR) || (is_audio_type m.1 && odd_payload m.2).

(** The messages handled before the first that stops the loop. *)
Fixpoint handled (l : list (Z * bytes)) : list (Z * bytes) :=
  match l with
  | [] => []
  | m :: l' => if stops m then [] else m :: handled l'
  end.

Definition stopped (l : list (Z * bytes)) : bool := existsb stops l.

Definition audio_of (l : list (Z * bytes)) : list (Z * bytes) := filterb (fun m => is_audio_type m.1) l.
Definition dtmf_of (l : list (Z * bytes)) : list bytes :=
  map snd (filterb (fun m => (m.1 =? TYPE_DTMF) && (len m.2 =? 1)) l).

(** An environment in which nothing fails before the caller stops. *)
Definition calm (env : environment) : Prop :=
  (forall u, env_factory env u = None) /\ (forall n, env_send env n = None)
  /\ (forall n, env_output env n = None) /\ await_output (env_final env) = None.

Lemma serve_calm env fuel l part m c :
  calm env -> Forall accepted l -> accepted m -> (exists rest, encode m = part ++ rest /\ rest <> []) ->
  cn_reader c = wire l ++ part -> (length l < fuel)%nat ->
  exists c', serve env fuel c =
      (if stopped l then None
       else if bool_decide (part = []) then None else Some (Failed "ConnectionError"), c')
    /\ cn_session c' = cn_session c /\ cn_output c' = cn_output c
    /\ cn_forwarded c' = cn_forwarded c ++ audio_of (handled l)
    /\ cn_dtmf c' = cn_dtmf c ++ dtmf_of (handled l).
Proof.
  intros (Hfa & Hse & Hou & Hfi) Hl Hm Hpart. revert fuel c.
  induction Hl as [|x l Hx Hl IH]; intros fuel c Hc Hf.
  - destruct fuel as [|fuel]; [lia|]. cbn [serve]. rewrite Hou, Hc.
    pose proof (read_frame_cut m part Hm Hpart) as Hr. unfold wire. cbn [map concat app].
    destruct (read_frame part) as [r rest]. cbn [fst] in Hr. rewrite Hr.
    exists (next_turn rest c). split; [by destruct (bool_decide (part = [])), (len part <? 3)|].
    cbn. by rewrite !app_nil_r.
  - destruct fuel as [|fuel]; [cbn in Hf; lia|]. cbn [serve]. rewrite Hou, Hc.
    unfold wire. cbn [map concat]. rewrite <- app_assoc, read_frame_encode by done. fold (wire l).
    cbn [wire_frame frame_type payload]. unfold stopped. cbn [existsb handled]. fold (stopped l).
    destruct (stops x) eqn:Hst.
    { cbn [orb]. rewrite !app_nil_r. unfold stops in Hst.
      destruct (x.1 =? TYPE_TERMINATE); [by eexists|]. cbn [orb] in Hst.
      destruct (is_audio_type x.1) eqn:Ea.
      - destruct (odd_payload x.2); [by eexists|].
        destruct (Z.eqb_spec x.1 TYPE_ERROR) as [E|]; [by rewrite E in Ea|done].
      - cbn [andb] in Hst. rewrite orb_false_r in Hst. rewrite Hst. apply Z.eqb_eq in Hst as ->.
        by eexists. }
    unfold stops in Hst. apply orb_false_iff in Hst as [Hst Hodd]. apply orb_false_iff in Hst as [Et Ee].
    rewrite Et, Ee. cbn [orb]. unfold audio_of, dtmf_of. cbn [filterb List.filter].
    destruct (is_audio_type x.1) eqn:Ea.
    + cbn [andb] in Hodd. rewrite Hodd, Hse.
      assert ((x.1 =? TYPE_DTMF) = false) as ->.
      { destruct (Z.eqb_spec x.1 TYPE_DTMF) as [E|]; [|done]. by rewrite E in Ea. }
      destruct (IH fuel (forwarded x.1 x.2 (next_turn (wire l ++ part) c)))
        as (c' & H1 & H2 & H3 & H4 & H5); [done|cbn in Hf; lia|].
      exists c'. split; [exact H1|]. rewrite H2, H3, H4, H5. cbn [forwarded next_turn cn_forwarded cn_dtmf].
      rewrite <- app_assoc. by destruct x.
    + destruct ((x.1 =? TYPE_DTMF) && (len x.2 =? 1)) eqn:Ed.
      * destruct (IH fuel (saw_dtmf x.2 (next_turn (wire l ++ part) c)))
          as (c' & H1 & H2 & H3 & H4 & H5); [done|cbn in Hf; lia|].
        exists c'. split; [exact H1|]. rewrite H2, H3, H4, H5. cbn [saw_dtmf next_turn cn_forwarded cn_dtmf map].
        by rewrite <- app_assoc.
      * destruct (IH fuel (next_turn (wire l ++ part) c))
          as (c' & H1 & H2 & H3 & H4 & H5); [done|cbn in Hf; lia|].
        exists c'. split; [exact H1|]. by rewrite H2, H3, H4, H5.
Qed.

(** A frame that is read shortens what is left to read. *)
Lemma read_frame_shorter reader f rest :
  read_frame reader = (Ok (Some f), rest) -> (length rest < length reader)%nat.
Proof.
  unfold read_frame, readexactly. destruct (Z.leb_spec 3 (len reader)) as [H3|]; [|by case_bool_decide].
  destruct (_ <=? _); [|done]. intros [= <- <-]. rewrite !length_drop. unfold len in H3. lia.
Qed.

(** The length of what is left bounds the turns: more fuel changes nothing. *)
Lemma serve_fuel env fuel k c :
  (length (cn_reader c) < fuel)%nat -> serve env (fuel + k) c = serve env fuel c.
Proof.
  revert c. induction fuel as [|fuel IH]; intros c Hf; [lia|]. cbn [Nat.add serve].
  destruct (env_output env (cn_turns c)); [done|].
  destruct (read_frame (cn_reader c)) as [[[f|]|] rest] eqn:E; [|done..].
  apply read_frame_shorter in E. cbn zeta.
  destruct (_ =? TYPE_TERMINATE); [done|]. destruct (is_audio_type _).
  - destruct (odd_payload _); [done|]. destruct (env_send _ _); [done|]. apply IH. cbn. lia.
  - destruct (_ && _); [apply IH; cbn; lia|]. destruct (_ =? TYPE_ERROR); [done|]. apply IH. cbn. lia.
Qed.

(** The identity frame of a call. *)
Definition identity_frame (id : bytes) : Z * bytes := (TYPE_UUID, id).

Lemma converse_identity env id reader :
  calm env -> len id = 16 ->
  converse env (new_connection (encode (identity_frame id) ++ reader)) =
    serve env (S (length reader))
      (MkConnection reader [] (Some (from_bytes_big id)) (Some None) 0 [] []).
Proof.
  intros [Hfa _] Hid. unfold converse. cbn [new_connection cn_reader].
  assert (accepted (identity_frame id)) as Hacc by (split; cbn [identity_frame fst snd]; [done|lia]).
  rewrite read_frame_encode by exact Hacc. cbn [wire_frame frame_type payload identity_frame fst snd].
  rewrite Hid. cbn. by rewrite Hfa.
Qed.

(** Two failures in a row: only the first is reported, under its own alias. *)
Lemma reports_at_most_one t1 t2 :
  let f1 := record_failure None t1 in
  (length (f1.2 ++ (record_failure f1.1 t2).2) <= 1)%nat.
Proof. destruct t1 as [[]|], t2 as [[]|]; cbn; lia. Qed.

Lemma reports_alias t1 t2 a ty :
  let f1 := record_failure None t1 in
  let f2 := record_failure f1.1 t2 in
  (a, ty) ∈ f1.2 ++ f2.2 -> f2.1 = Some a.
Proof. destruct t1 as [[]|], t2 as [[]|]; cbn; set_solver. Qed.

(** ** Theorem *)

(** C27. What a connection does.  Whatever the session and the output task
    answer, at most one failure is reported, it is the alias the session is
    closed with (when there is a session), and the fuel of the loop is enough.
    When nothing else fails, a call is its identity frame followed by the
    caller's messages and the part of a last one that arrived: exactly the
    audio and the digits before the first message that stops the loop are
    forwarded, in order, and the session is closed as failed
    ("realtime-bridge-error", reported once) exactly when the connection ended
    inside a frame without such a message before it. *)
Theorem connection_outcome_spec env reader id l m part :
  let r := _handle_connection env reader in
  let call := _handle_connection env (encode (identity_frame id) ++ wire l ++ part) in
  (length (oc_reports r) <= 1)%nat
  /\ (forall a t, (a, t) ∈ oc_reports r -> oc_closed r = Some (Some a) \/ oc_closed r = None)
  /\ (forall k c, (length (cn_reader c) <= length reader)%nat ->
        serve env (S (length reader) + k) c = serve env (S (length reader)) c)
  /\ (calm env -> len id = 16 -> Forall accepted l -> accepted m ->
      (exists rest, encode m = part ++ rest /\ rest <> []) ->
      let cut := negb (stopped l) && negb (bool_decide (part = [])) in
      oc_closed call = Some (if cut then Some "realtime-bridge-error" else None)
      /\ oc_reports call = (if cut then [("realtime-bridge-error", "ConnectionError")] else [])
      /\ cn_forwarded (oc_final call) = audio_of (handled l)
      /\ cn_dtmf (oc_final call) = dtmf_of (handled l)).
Proof.
  cbv zeta. split_and!.
  - unfold _handle_connection. cbn [oc_reports]. apply reports_at_most_one.
  - intros a t. unfold _handle_connection. cbn [oc_reports oc_closed]. intros Hin.
    destruct (cn_session _); [|by right]. left. f_equal. by eapply reports_alias.
  - intros k c Hc. apply serve_fuel. lia.
  - intros Hcalm Hid Hl Hm Hpart. unfold _handle_connection. rewrite converse_identity by done.
    destruct (serve_calm env (S (length (wire l ++ part))) l part m
      (MkConnection (wire l ++ part) [] (Some (from_bytes_big id)) (Some None) 0 [] []) Hcalm Hl Hm Hpart eq_refl)
      as (c' & -> & H1 & H2 & H3 & H4).
    { rewrite length_app. pose proof (wire_length l). lia. }
    cbn [fst snd oc_closed oc_reports oc_final]. rewrite H1, H2, H3, H4.
    destruct Hcalm as (_ & _ & _ & ->). cbn [cn_session cn_output cn_forwarded cn_dtmf app].
    destruct (stopped l), (bool_decide (part = [])); done.
Qed.

(** ** Witness *)

Definition sample_env : environment :=
  MkEnvironment (fun _ => None) (fun _ => None) (fun _ => None) Cancelled.

Lemma connection_outcome_spec_witness :
  let l := [(16, le16 5); (3, [x31])] in
  let part := [x10; x00] in
  let call := _handle_connection sample_env (encode (identity_frame (repeat x01 16)) ++ wire l ++ part) in
  calm sample_env /\ Forall accepted l
  /\ oc_closed call = Some (Some "realtime-bridge-error")
  /\ cn_forwarded (oc_final call) = [(16, le16 5)] /\ cn_dtmf (oc_final call) = [[x31]].
Proof.
  cbv zeta. assert (calm sample_env) as Hc by done.
  assert (Forall accepted [(16, le16 5); (3, [x31])]) as Hl.
  { repeat (apply Forall_cons; split; [split; [cbn; lia | done]|]). by apply Forall_nil. }
  split; [exact Hc|]. split; [exact Hl|].
  destruct (connection_outcome_spec sample_env [] (repeat x01 16) [(16, le16 5); (3, [x31])] (16, [x07])
    [x10; x00]) as (_ & _ & _ & H).
  destruct (H Hc eq_refl Hl) as (H1 & _ & H2 & H3).
  - split; [cbn; lia|done].
  - exists [x01; x07]. split; [reflexivity|discriminate].
  - split; [exact H1|]. split; [exact H2|exact H3].
Defined.
