(* ===== verification/Timeline.v ===== *)
(** * Evidence derived from a stored run

    The evidence functions of [control_plane/run_api.py]: provider responses,
    correlated activities, playback waits, gaps and underruns, dead air, stage
    level, full-scale and silence, media-time contraction, RTP quality and RTP
    packet discontinuities.  They are pure functions of a [StoredRun]; each
    keeps the code's loops, its dictionaries and its sort keys. *)
From S2P Require Import Prelude Collections PyFloat PyData RunModel.
From Stdlib Require Import QArith Lqa.
From Stdlib Require Import Sorting.Permutation Sorting.Sorted.

Open Scope Z_scope.

Definition _PROVIDER_RESPONSE_METRICS : list string := ["provider_response_done"; "provider_response_started"].

Definition RTP_LOSS_WARNING_PCT : float := fz 1.
Definition RTP_JITTER_WARNING_MS : float := fz 30.
Definition RTP_MOS_WARNING_SCORE : float := flit 35 10.
Definition RTP_DEGRADATION_WINDOW_GAP_MS : float := fz 5000.
Definition RTP_ARRIVAL_STALL_EXCESS_MS : float := fz 100.
Definition STAGE_LEVEL_EVENT_THRESHOLD_DB : float := fz 1.
Definition STAGE_SILENCE_THRESHOLD_DBFS : float := fz (-60).
Definition STAGE_SILENCE_SAMPLE_THRESHOLD_PCT : float := fz 98.
Definition STAGE_SILENCE_MIN_WINDOW_MS : float := fz 200.
Definition STAGE_SILENCE_MAX_OBSERVATION_GAP_MS : float := fz 100.
Definition ASSISTANT_OUTPUT_DEAD_AIR_MIN_OVERLAP_MS : float := fz 200.
Definition ASSISTANT_PLAYBACK_UNDERRUN_MIN_GAP_MS : float := fz 200.

(** ** Comparisons of sort keys, component by component *)

Definition by_float (a b : float) (rest : bool) : bool := if feqb a b then rest else fltb a b.
Definition by_int (a b : Z) (rest : bool) : bool := if a =? b then rest else a <? b.
Definition by_str (a b : string) (rest : bool) : bool := if String.eqb a b then rest else str_leb a b.

(** [max(l, key=...)]: the first element that no other exceeds. *)
Definition max_by {A} (lt : A -> A -> bool) (l : list A) : option A :=
  match l with
  | [] => None
  | x :: l' => Some (fold_left (fun best y => if lt best y then y else best) l' x)
  end.

(** ** Times *)

Definition _relative_seconds (ts t0 : instant) : float := pymax fzero (total_seconds (ts - t0)).

(** [_relative_seconds(ts, run.started_at) * 1000]. *)
Definition rel_ms (run : StoredRun) (ts : instant) : float :=
  fmul (_relative_seconds ts (started_at run)) (fz 1000).

Definition _run_timeline_duration_ms (run : StoredRun) : float :=
  let recording_duration := pymax_list fzero (map rec_duration_ms (recordings run)) in
  let ended_duration :=
    match ended_at run with
    | Some t => pymax fzero (fmul (total_seconds (t - started_at run)) (fz 1000))
    | None => fzero
    end in
  pymax recording_duration ended_duration.

(** ** Attributes *)

(** [isinstance(value, (int, float)) and not isinstance(value, bool)], then
    [float(value)]. *)
Definition _plain_number (value : option json) : result (option float) :=
  match value with
  | Some (JInt z) => x ← float_of_int z; Ok (Some x)
  | Some (JFloat x) => Ok (Some x)
  | _ => Ok None
  end.

Definition _numeric_attribute (attributes : jdict) (name : string) : result (option float) :=
  _plain_number (jget name attributes).

Definition _bounded_int_attribute (attributes : jdict) (name : string) (minimum maximum : Z) : option Z :=
  match jget name attributes with
  | Some (JInt z) => if (minimum <=? z) && (z <=? maximum) then Some z else None
  | _ => None
  end.

(** [d[k]] on a JSON value; the validated configuration has objects, lists
    and strings at these places. *)
Definition json_item (k : string) (v : json) : result json :=
  match v with
  | JObj d => from_option_err (jget k d) KeyError k
  | _ => Raise TypeError "not an object"
  end.

Definition stage_type (stage : json) : result string :=
  v ← json_item "type" stage;
  match v with JStr s => Ok s | _ => Raise TypeError "not a stage name" end.

Definition _pipeline_stage_names (run : StoredRun) : result (list string) :=
  spec ← json_item "spec" (JObj (resolved_config run));
  media ← json_item "media" spec;
  pipeline ← json_item "pipeline" media;
  match pipeline with
  | JArr stages => mapM_res stage_type stages
  | _ => Raise TypeError "not a list"
  end.

(** ** Provider responses *)

Record _ProviderResponseEvidence := MkResponse {
  response_index : Z; start_observation_index : Z; done_observation_index : option Z;
  resp_start_ms : float; resp_end_ms : float; completed : bool }.

Definition response_alias (r : _ProviderResponseEvidence) : string :=
  "provider-response:" +:+ pretty (response_index r).

(** The loop state: the responses, the active one and the next index. *)
Record response_loop := MkLoop {
  lp_responses : list _ProviderResponseEvidence;
  lp_active : option (Z * Z * float);
  lp_next : Z }.

Definition close_response (active : Z * Z * float) (done : option Z) (end_ms : float)
    : _ProviderResponseEvidence :=
  let '(index, start_observation, start_ms) := active in
  MkResponse index start_observation done start_ms (pymax start_ms end_ms)
    (match done with Some _ => true | None => false end).

Definition observation_le (a b : instant * Z * string) : bool :=
  let '(ts1, i1, _) := a in let '(ts2, i2, _) := b in by_int ts1 ts2 (i1 <=? i2).

Definition response_observations (run : StoredRun) : list (instant * Z * string) :=
  sorted_by observation_le
    (omap (fun x : Z * MetricArtifact =>
        let '(i, m) := x in
        if bool_decide (metric_name m ∈ _PROVIDER_RESPONSE_METRICS) && fltb fzero (metric_value m)
        then Some (metric_ts m, i, metric_name m) else None)
      (enumerate (metrics run))).

Definition response_step (run : StoredRun) (s : response_loop) (o : instant * Z * string)
    : response_loop :=
  let '(ts, observation_index, name) := o in
  let t_rel_ms := pymax fzero (rel_ms run ts) in
  if String.eqb name "provider_response_started" then
    let closed := match lp_active s with
                  | Some a => [close_response a None t_rel_ms] | None => [] end in
    MkLoop (lp_responses s ++ closed) (Some (lp_next s, observation_index, t_rel_ms)) (lp_next s + 1)
  else
    match lp_active s with
    | None => s
    | Some a =>
        MkLoop (lp_responses s ++ [close_response a (Some observation_index) t_rel_ms]) None (lp_next s)
    end.

Definition response_le (a b : _ProviderResponseEvidence) : bool :=
  by_float (resp_start_ms a) (resp_start_ms b) (response_index a <=? response_index b).

Definition _provider_response_evidence (run : StoredRun) : list _ProviderResponseEvidence :=
  let s := fold_left (response_step run) (response_observations run) (MkLoop [] None 0) in
  let last := match lp_active s with
              | Some a => [close_response a None (_run_timeline_duration_ms run)] | None => [] end in
  sorted_by response_le (lp_responses s ++ last).

(** ** Correlated activities *)

Record _CorrelatedActivityEvidence := MkActivity {
  act_correlation_alias : string; act_start_event : TimelineEventArtifact;
  act_stop_event : option TimelineEventArtifact; act_start_ms : float; act_end_ms : float }.

Definition act_completion_observed (a : _CorrelatedActivityEvidence) : bool :=
  match act_stop_event a with
  | None => false
  | Some e => match jget "completion_observed" (ev_attributes e) with
              | Some (JBool false) => false | _ => true end
  end.

Definition event_le (a b : TimelineEventArtifact) : bool :=
  by_int (ev_ts a) (ev_ts b) (str_leb (ev_event_id a) (ev_event_id b)).

(** One alias and its events, in order. *)
Definition activity_of (run : StoredRun) (start_name stop_name alias : string)
    (events : list TimelineEventArtifact) : option _CorrelatedActivityEvidence :=
  let ordered := sorted_by event_le events in
  match next_match (fun e => String.eqb (ev_name e) start_name) ordered with
  | None => None
  | Some start_event =>
      let stop_event := next_match (fun e => String.eqb (ev_name e) stop_name
                                             && (ev_ts start_event <=? ev_ts e)) ordered in
      let start_ms := pymax fzero (rel_ms run (ev_ts start_event)) in
      let end_ms := match stop_event with
                    | Some e => pymax start_ms (rel_ms run (ev_ts e))
                    | None => pymax start_ms (_run_timeline_duration_ms run)
                    end in
      Some (MkActivity alias start_event stop_event start_ms end_ms)
  end.

Definition activity_le (a b : _CorrelatedActivityEvidence) : bool :=
  by_float (act_start_ms a) (act_start_ms b)
    (str_leb (act_correlation_alias a) (act_correlation_alias b)).

Definition event_alias (e : TimelineEventArtifact) : string :=
  match ev_correlation_alias e with Some a => a | None => "" end.

Definition _correlated_activity_evidence (run : StoredRun) (start_name stop_name : string)
    : list _CorrelatedActivityEvidence :=
  let relevant := filterb (fun e =>
      (match ev_correlation_alias e with Some _ => true | None => false end)
      && (String.eqb (ev_name e) start_name || String.eqb (ev_name e) stop_name))
    (timeline_events run) in
  sorted_by activity_le
    (omap (fun g => activity_of run start_name stop_name g.1 g.2) (group_by event_alias relevant)).

Definition _caller_speech_evidence (run : StoredRun) : list _CorrelatedActivityEvidence :=
  _correlated_activity_evidence run "provider_input_speech_started" "provider_input_speech_stopped".
Definition _assistant_playback_evidence (run : StoredRun) : list _CorrelatedActivityEvidence :=
  _correlated_activity_evidence run "assistant_playback_started" "assistant_playback_stopped".

(** ** Waits, gaps and underruns *)

Record _AssistantOutputStartWaitEvidence := MkWait {
  wait_response : _ProviderResponseEvidence; wait_playback : option _CorrelatedActivityEvidence;
  wait_start_ms : float; wait_end_ms : float }.

Definition wait_ms (w : _AssistantOutputStartWaitEvidence) : float :=
  fsub (wait_end_ms w) (wait_start_ms w).

(** The loop over the responses, with the aliases already claimed. *)
Fixpoint start_waits (playbacks : list _CorrelatedActivityEvidence) (timeline_end_ms : float)
    (claimed : list string) (responses : list _ProviderResponseEvidence)
    : list _AssistantOutputStartWaitEvidence :=
  match responses with
  | [] => []
  | response :: rest =>
      let association_end_ms := match rest with
                                | next :: _ => resp_start_ms next | [] => timeline_end_ms end in
      let playback := next_match (fun item =>
          bool_decide (act_correlation_alias item ∉ claimed)
          && fleb (resp_start_ms response) (act_start_ms item)
          && fleb (act_start_ms item) association_end_ms) playbacks in
      let claimed' := match playback with
                      | Some p => act_correlation_alias p :: claimed | None => claimed end in
      let end_ms := match playback with
                    | Some p => act_start_ms p
                    | None => pymin (resp_end_ms response) association_end_ms end in
      MkWait response playback (resp_start_ms response) (pymax (resp_start_ms response) end_ms)
      :: start_waits playbacks timeline_end_ms claimed' rest
  end.

Definition _assistant_output_start_wait_evidence (run : StoredRun)
    : list _AssistantOutputStartWaitEvidence :=
  start_waits (_assistant_playback_evidence run) (_run_timeline_duration_ms run) []
    (_provider_response_evidence run).

Record _AssistantPlaybackGapEvidence := MkGap {
  gap_index : Z; gap_previous : _CorrelatedActivityEvidence; gap_next : _CorrelatedActivityEvidence;
  gap_start_ms : float; gap_end_ms : float }.

Definition stop_reason (a : _CorrelatedActivityEvidence) : option json :=
  match act_stop_event a with Some e => jget "stop_reason" (ev_attributes e) | None => None end.

Definition gap_step (gaps : list _AssistantPlaybackGapEvidence)
    (p : _CorrelatedActivityEvidence * _CorrelatedActivityEvidence) : list _AssistantPlaybackGapEvidence :=
  let '(previous, current) := p in
  match stop_reason previous with
  | Some (JStr reason) =>
      if negb (String.eqb reason "media_gap") || fleb (act_start_ms current) (act_end_ms previous)
      then gaps
      else gaps ++ [MkGap (len gaps) previous current (act_end_ms previous) (act_start_ms current)]
  | _ => gaps
  end.

Definition _assistant_playback_gap_evidence (run : StoredRun) : list _AssistantPlaybackGapEvidence :=
  fold_left gap_step (pairwise (_assistant_playback_evidence run)) [].

Record _AssistantPlaybackUnderrunEvidence := MkUnderrun {
  underrun_gap : _AssistantPlaybackGapEvidence; underrun_response : _ProviderResponseEvidence;
  underrun_start_ms : float; underrun_end_ms : float }.

Definition underrun_of (gap : _AssistantPlaybackGapEvidence) (response : _ProviderResponseEvidence)
    : option _AssistantPlaybackUnderrunEvidence :=
  let start_ms := pymax (gap_start_ms gap) (resp_start_ms response) in
  let end_ms := pymin (gap_end_ms gap) (resp_end_ms response) in
  if fltb (fsub end_ms start_ms) ASSISTANT_PLAYBACK_UNDERRUN_MIN_GAP_MS then None
  else Some (MkUnderrun gap response start_ms end_ms).

Definition _assistant_playback_underrun_evidence (run : StoredRun)
    : list _AssistantPlaybackUnderrunEvidence :=
  concat (map (fun gap => omap (underrun_of gap) (_provider_response_evidence run))
    (_assistant_playback_gap_evidence run)).

(** ** Stage metrics *)

(** [bundles.setdefault(key, {})[name] = value] over the metrics of interest. *)
Definition bundle_key (m : MetricArtifact) (stage : string) : string * instant := (stage, metric_ts m).

Definition bundle_step (names : list string) (bundles : list (string * instant * list (string * float)))
    (m : MetricArtifact) : list (string * instant * list (string * float)) :=
  match metric_stage m with
  | Some stage =>
      if bool_decide (metric_name m ∈ names) then
        let key := bundle_key m stage in
        dict_set key (dict_set (metric_name m) (metric_value m) (dict_get_default key [] bundles)) bundles
      else bundles
  | None => bundles
  end.

Definition metric_bundles (names : list string) (run : StoredRun)
    : list (string * instant * list (string * float)) :=
  fold_left (bundle_step names) (metrics run) [].

(** The bundles of one stage, as [(ts, values)], in order. *)
Definition stage_bundles (stage : string) (bundles : list (string * instant * list (string * float)))
    : list (instant * list (string * float)) :=
  omap (fun b : string * instant * list (string * float) =>
    if String.eqb b.1.1 stage then Some (b.1.2, b.2) else None) bundles.

Record _StageSignalEvidence := MkSignal {
  sig_stage : string; sig_t_rel_ms : float; sig_input_rms : option float; sig_output_rms : option float;
  sig_delta_db : float; sig_gain_applied : option float; sig_sample_count : Z }.

Definition value_of (name : string) (values : list (string * float)) : float :=
  dict_get_default name fzero values.

(** [key=lambda item: (key(item[1]), item[0])] compared with [<]. *)
Definition keyed_lt (key : list (string * float) -> float) (a b : instant * list (string * float)) : bool :=
  by_float (key a.2) (key b.2) (a.1 <? b.1).

Definition stage_signal (run : StoredRun) (bundles : list (string * instant * list (string * float)))
    (stage : string) : option _StageSignalEvidence :=
  let candidates := filterb (fun c => dict_mem "delta_db" c.2) (stage_bundles stage bundles) in
  match max_by (keyed_lt (fun values => fabs (value_of "delta_db" values))) candidates with
  | None => None
  | Some (ts, values) =>
      let delta_db := value_of "delta_db" values in
      if fltb (fabs delta_db) STAGE_LEVEL_EVENT_THRESHOLD_DB then None
      else Some (MkSignal stage (rel_ms run ts) (dict_get "input_rms" values)
                   (dict_get "output_rms" values) delta_db (dict_get "gain_applied" values)
                   (len candidates))
  end.

Definition _stage_signal_evidence (run : StoredRun) : result (list _StageSignalEvidence) :=
  let bundles := metric_bundles ["input_rms"; "output_rms"; "delta_db"; "gain_applied"] run in
  stage_order ← _pipeline_stage_names run;
  Ok (omap (stage_signal run bundles) stage_order : list _StageSignalEvidence).

(** [_stage_quality_bundles(run).get(stage, [])]. *)
Definition _stage_quality_bundles (run : StoredRun) (stage : string)
    : list (instant * list (string * float)) :=
  sorted_by (fun a b => a.1 <=? b.1)
    (stage_bundles stage
      (metric_bundles ["audio_chunk_duration_ms"; "full_scale_sample_pct"; "sample_peak_dbfs";
                       "silence_sample_pct"] run)).

Record _StageFullScaleEvidence := MkFullScale {
  fs_stage : string; fs_previous_stage : option string; fs_t_rel_ms : float;
  fs_full_scale_sample_pct : float; fs_sample_peak_dbfs : option float; fs_sample_count : Z }.

(** The loop over the stages with the previous stage and its peak. *)
Fixpoint full_scale_loop (run : StoredRun) (previous_stage : option string)
    (previous_peak_pct : option float) (stages : list string) : list _StageFullScaleEvidence :=
  match stages with
  | [] => []
  | stage :: rest =>
      let bundles := _stage_quality_bundles run stage in
      let full := value_of "full_scale_sample_pct" in
      let candidates := filterb (fun b => fltb fzero (full b.2)) bundles in
      let current_peak_pct := pymax_list fzero (map (fun b => full b.2) bundles) in
      let first_seen := match previous_peak_pct with None => true | Some p => fleb p fzero end in
      let found :=
        if first_seen then
          match max_by (keyed_lt full) candidates with
          | Some (ts, values) =>
              [MkFullScale stage previous_stage (rel_ms run ts) (full values)
                 (dict_get "sample_peak_dbfs" values) (len bundles)]
          | None => []
          end
        else [] in
      found ++ full_scale_loop run (Some stage)
        (match bundles with [] => None | _ => Some current_peak_pct end) rest
  end.

Definition _stage_full_scale_evidence (run : StoredRun) : result (list _StageFullScaleEvidence) :=
  stages ← _pipeline_stage_names run;
  Ok (full_scale_loop run None None stages).

Record _StageSilenceWindow := MkSilence {
  sil_stage : string; sil_window_index : Z; sil_start_ms : float; sil_end_ms : float;
  sil_observation_count : Z; sil_peak_silence_sample_pct : float }.

(** An observation of a window: its start, duration and silence percentage. *)
Definition silent_observation : Type := float * float * float.
Definition obs_start (o : silent_observation) : float := o.1.1.
Definition obs_duration (o : silent_observation) : float := o.1.2.
Definition obs_silence (o : silent_observation) : float := o.2.

(** [finish_window]: the windows after closing the current one. *)
Definition finish_window (stage : string) (windows : list _StageSilenceWindow)
    (current : list silent_observation) : list _StageSilenceWindow :=
  match current, py_sum (map obs_duration current) with
  | first :: _, Some duration_ms =>
      if fleb STAGE_SILENCE_MIN_WINDOW_MS duration_ms then
        windows ++ [MkSilence stage (countb (fun w => String.eqb (sil_stage w) stage) windows)
          (obs_start first) (fadd (obs_start first) duration_ms) (len current)
          (pymax_list fzero (map obs_silence current))]
      else windows
  | _, _ => windows
  end.

(** A bundle that belongs to a silence window. *)
Definition silent_bundle (run : StoredRun) (b : instant * list (string * float)) : option silent_observation :=
  match dict_get "silence_sample_pct" b.2, dict_get "audio_chunk_duration_ms" b.2 with
  | Some silence_pct, Some duration_ms =>
      if fleb duration_ms fzero || fltb silence_pct STAGE_SILENCE_SAMPLE_THRESHOLD_PCT then None
      else Some (rel_ms run b.1, duration_ms, silence_pct)
  | _, _ => None
  end.

(** Whether an observation starts too late to continue the window. *)
Definition breaks_window (current : list silent_observation) (o : silent_observation) : bool :=
  match last current with
  | None => false
  | Some previous =>
      fltb (pymax STAGE_SILENCE_MAX_OBSERVATION_GAP_MS (fmul (obs_duration previous) (fz 2)))
        (fsub (obs_start o) (obs_start previous))
  end.

Definition silence_step (run : StoredRun) (stage : string)
    (s : list _StageSilenceWindow * list silent_observation) (b : instant * list (string * float))
    : list _StageSilenceWindow * list silent_observation :=
  let '(windows, current) := s in
  match silent_bundle run b with
  | None => (finish_window stage windows current, [])
  | Some o =>
      if breaks_window current o then (finish_window stage windows current, [o])
      else (windows, current ++ [o])
  end.

Definition silence_stage (run : StoredRun) (windows : list _StageSilenceWindow) (stage : string)
    : list _StageSilenceWindow :=
  let s := fold_left (silence_step run stage) (_stage_quality_bundles run stage) (windows, []) in
  finish_window stage s.1 s.2.

Definition _stage_silence_windows (run : StoredRun) : result (list _StageSilenceWindow) :=
  stages ← _pipeline_stage_names run;
  Ok (fold_left (silence_stage run) stages []).

Definition silence_alias (w : _StageSilenceWindow) : string :=
  "stage-silence:" +:+ sil_stage w +:+ ":" +:+ pretty (sil_window_index w).

(** ** Dead air *)

Record _AssistantOutputDeadAirEvidence := MkDeadAir {
  da_silence : _StageSilenceWindow; da_response : _ProviderResponseEvidence;
  da_playback : option _CorrelatedActivityEvidence; da_start_ms : float; da_end_ms : float }.

Definition dead_air_of (silence : _StageSilenceWindow) (response : _ProviderResponseEvidence)
    (playback : option _CorrelatedActivityEvidence) : option _AssistantOutputDeadAirEvidence :=
  let start_ms := pymax (pymax (sil_start_ms silence) (resp_start_ms response))
                    (match playback with Some p => act_start_ms p | None => fzero end) in
  let end_ms := pymin (pymin (sil_end_ms silence) (resp_end_ms response))
                  (match playback with Some p => act_end_ms p | None => resp_end_ms response end) in
  if fltb (fsub end_ms start_ms) ASSISTANT_OUTPUT_DEAD_AIR_MIN_OVERLAP_MS then None
  else Some (MkDeadAir silence response playback start_ms end_ms).

Definition _assistant_output_dead_air_evidence (run : StoredRun)
    : result (list _AssistantOutputDeadAirEvidence) :=
  stage_names ← _pipeline_stage_names run;
  match last stage_names with
  | None => Ok []
  | Some final_stage =>
      windows ← _stage_silence_windows run;
      let silences := filterb (fun w => String.eqb (sil_stage w) final_stage) windows in
      let contexts := match _assistant_playback_evidence run with
                      | [] => [None] | l => map Some l end in
      Ok (concat (map (fun silence =>
            concat (map (fun response => omap (dead_air_of silence response) contexts)
              (_provider_response_evidence run))) silences))
  end.

(** ** Media-time contraction *)

Record _DurationContractionEvidence := MkContraction {
  dur_verification_index : Z; dur_previous_stage : option string; dur_stage : string;
  dur_input_duration_ms : float; dur_output_duration_ms : float; dur_duration_ratio : float }.

Definition missing_duration_ms (d : _DurationContractionEvidence) : float :=
  fsub (dur_input_duration_ms d) (dur_output_duration_ms d).

(** [{stage: stage_names[index - 1] if index > 0 else None ...}]. *)
Definition previous_by_stage (stages : list string) : list (string * option string) :=
  dict_of_list (zip stages (None :: map Some stages)).

Definition contraction_of (previous : list (string * option string)) (x : Z * VerificationResult)
    : result (option _DurationContractionEvidence) :=
  let '(index, v) := x in
  if ver_passed v || negb (String.eqb (ver_invariant v) "duration_preserving") then Ok None
  else
    input ← _plain_number (jget "input_duration_ms" (ver_observed v));
    output ← _plain_number (jget "output_duration_ms" (ver_observed v));
    ratio ← _plain_number (jget "duration_ratio" (ver_observed v));
    Ok (match input, output, ratio with
        | Some i, Some o, Some r =>
            if fleb i o then None
            else Some (MkContraction index (dict_get_default (ver_stage v) None previous) (ver_stage v) i o r)
        | _, _, _ => None
        end).

Definition _duration_contraction_evidence (run : StoredRun) : result (list _DurationContractionEvidence) :=
  stages ← _pipeline_stage_names run;
  found ← mapM_res (contraction_of (previous_by_stage stages)) (enumerate (verifications run));
  Ok (omap id found : list _DurationContractionEvidence).

(** ** RTP quality *)

Record _RtpQualityEvidence := MkQuality {
  q_stat_index : Z; q_direction_ordinal : Z; q_direction : option string; q_t_rel_ms : float;
  q_loss_pct : option float; q_jitter_ms : option float; q_mos : option float;
  q_triggers : list string }.

Definition direction_or_empty (d : option string) : string := match d with Some s => s | None => "" end.

Definition reaches (limit : float) (v : option float) : bool :=
  match v with Some x => fleb limit x | None => false end.
Definition falls_to (limit : float) (v : option float) : bool :=
  match v with Some x => fleb x limit | None => false end.

Definition quality_triggers (stat : RtpStatResponse) : list string :=
  (if reaches RTP_LOSS_WARNING_PCT (rtp_loss_pct stat) then ["loss"] else [])
  ++ (if reaches RTP_JITTER_WARNING_MS (rtp_jitter_ms stat) then ["jitter"] else [])
  ++ (if falls_to RTP_MOS_WARNING_SCORE (rtp_mos stat) then ["mos"] else []).

Definition stat_le (a b : Z * RtpStatResponse) : bool :=
  by_int (rtp_ts a.2) (rtp_ts b.2) (a.1 <=? b.1).

(** The evidence of one direction. *)
Definition direction_quality (run : StoredRun) (direction : option string)
    (values : list (Z * RtpStatResponse)) : list _RtpQualityEvidence :=
  omap (fun x : Z * (Z * RtpStatResponse) =>
    let '(ordinal, (stat_index, stat)) := x in
    match quality_triggers stat with
    | [] => None
    | triggers => Some (MkQuality stat_index ordinal direction (rel_ms run (rtp_ts stat))
                          (rtp_loss_pct stat) (rtp_jitter_ms stat) (rtp_mos stat) triggers)
    end) (enumerate (sorted_by stat_le values)).

Definition quality_le (a b : _RtpQualityEvidence) : bool :=
  by_float (q_t_rel_ms a) (q_t_rel_ms b)
    (by_str (direction_or_empty (q_direction a)) (direction_or_empty (q_direction b))
      (q_stat_index a <=? q_stat_index b)).

Definition _rtp_quality_evidence (run : StoredRun) : list _RtpQualityEvidence :=
  sorted_by quality_le
    (concat (map (fun g => direction_quality run g.1 g.2)
      (group_by (fun x : Z * RtpStatResponse => rtp_direction x.2) (enumerate (rtp_stats run))))).

(** Cut a sorted list of evidence into windows. *)
Definition same_window (previous item : _RtpQualityEvidence) : bool :=
  (q_direction_ordinal item =? q_direction_ordinal previous + 1)
  && fleb (fsub (q_t_rel_ms item) (q_t_rel_ms previous)) RTP_DEGRADATION_WINDOW_GAP_MS.

Fixpoint cut_windows (current : list _RtpQualityEvidence) (items : list _RtpQualityEvidence)
    : list (list _RtpQualityEvidence) :=
  match items with
  | [] => match current with [] => [] | _ => [current] end
  | item :: rest =>
      match last current with
      | None => cut_windows [item] rest
      | Some previous =>
          if same_window previous item then cut_windows (current ++ [item]) rest
          else current :: cut_windows [item] rest
      end
  end.

Definition window_le (a b : list _RtpQualityEvidence) : bool :=
  match a, b with
  | x :: _, y :: _ => by_float (q_t_rel_ms x) (q_t_rel_ms y)
      (str_leb (direction_or_empty (q_direction x)) (direction_or_empty (q_direction y)))
  | _, _ => true
  end.

Definition _rtp_quality_windows (run : StoredRun) : list (list _RtpQualityEvidence) :=
  sorted_by window_le
    (concat (map (fun g : option string * list _RtpQualityEvidence => cut_windows []
        (sorted_by (fun a b => fleb (q_t_rel_ms a) (q_t_rel_ms b)) g.2))
      (group_by q_direction (_rtp_quality_evidence run)))).

(** ** Lemmas: times *)

Lemma fmul_pos_mono x y (c : Q) :
  (0 < c)%Q -> fleb x y = true -> fleb (fmul x (Fin c)) (fmul y (Fin c)) = true.
Proof.
  intros Hc H. assert (Qcompare c 0 = Gt) as Hs by (by apply Qgt_alt).
  destruct x as [a| | |], y as [b| | |]; try done; cbn [fmul fsign]; rewrite ?Hs; try done.
  - apply fl_mono. apply fleb_fin in H. apply Qmult_le_compat_r; [done|lra].
  - destruct (fl (a * c)) eqn:E; try done. by apply fl_not_nan in E.
  - destruct (fl (b * c)) eqn:E; try done. by apply fl_not_nan in E.
Qed.

Lemma pymax_mono a x y : a <> NaN -> fleb x y = true -> fleb (pymax a x) (pymax a y) = true.
Proof.
  intros Ha H. assert (x <> NaN /\ y <> NaN) as [Hx Hy] by (split; intros ->; [|rewrite fleb_nan_r in H]; done).
  unfold pymax. destruct (fltb a x) eqn:E1, (fltb a y) eqn:E2; [done| | |by apply fleb_refl].
  - pose proof (fltb_trans_l _ _ _ E1 H). congruence.
  - by apply fltb_fleb.
Qed.

Lemma fz_1000 : fz 1000 = Fin (1000 # 1).
Proof. vm_compute. reflexivity. Qed.

Lemma fzero_not_nan : fzero <> NaN.
Proof. done. Qed.

Lemma rel_ms_mono run t1 t2 : (t1 <= t2)%Z -> fleb (rel_ms run t1) (rel_ms run t2) = true.
Proof.
  intros H. unfold rel_ms, _relative_seconds. rewrite fz_1000. apply fmul_pos_mono; [done|].
  apply pymax_mono; [done|]. unfold total_seconds. apply fl_mono. unfold Qle. cbn. lia.
Qed.

Lemma rel_ms_not_nan run t : rel_ms run t <> NaN.
Proof. pose proof (rel_ms_mono run t t ltac:(lia)) as H. intros E. by rewrite E in H. Qed.

Lemma rel_ms_nonneg run t : fleb fzero (rel_ms run t) = true.
Proof.
  unfold rel_ms, _relative_seconds. rewrite fz_1000.
  assert (fzero = fmul fzero (Fin (1000 # 1))) as -> by (vm_compute; reflexivity).
  apply fmul_pos_mono; [done|]. by apply pymax_le_l.
Qed.

(** A time that is not negative is kept by [max(0.0, t)]. *)
Lemma pymax_id a x : fleb a x = true -> pymax a x = x \/ fleb x a = true /\ pymax a x = a.
Proof.
  intros H. unfold pymax. destruct (fltb a x) eqn:E; [by left|]. right. split; [|done].
  unfold fltb in E. rewrite H in E. by destruct (fleb x a).
Qed.

Lemma rel_time_mono run t1 t2 :
  (t1 <= t2)%Z -> fleb (pymax fzero (rel_ms run t1)) (pymax fzero (rel_ms run t2)) = true.
Proof. intros H. apply pymax_mono; [done|]. by apply rel_ms_mono. Qed.

(** ** Lemmas: sort keys *)

Lemma float_preorder {A} (P : A -> Prop) (k : A -> float) :
  (forall x, P x -> k x <> NaN) -> preorder_on P (fun x y => fleb (k x) (k y)).
Proof. intros Hk. split; intros *; eauto using fleb_total, fleb_trans. Qed.

Lemma int_preorder {A} (P : A -> Prop) (k : A -> Z) : preorder_on P (fun x y => (k x <=? k y)%Z).
Proof. split; intros *; rewrite !Z.leb_le; lia. Qed.

Lemma str_preorder {A} (P : A -> Prop) (k : A -> string) : preorder_on P (fun x y => str_leb (k x) (k y)).
Proof. split; intros *; [intros _ _; apply str_leb_total|intros _ _ _; apply str_leb_trans]. Qed.

Lemma by_float_lex {A} (k : A -> float) (rest : A -> A -> bool) x y :
  by_float (k x) (k y) (rest x y) = lexicographic (fun x y => fleb (k x) (k y)) rest x y.
Proof. reflexivity. Qed.

Lemma by_int_lex {A} (k : A -> Z) (rest : A -> A -> bool) x y :
  by_int (k x) (k y) (rest x y) = lexicographic (fun x y => (k x <=? k y)%Z) rest x y.
Proof.
  unfold by_int, lexicographic. destruct (Z.eqb_spec (k x) (k y)) as [->|Hne].
  - by rewrite Z.leb_refl.
  - destruct (Z.leb_spec (k x) (k y)), (Z.leb_spec (k y) (k x)), (Z.ltb_spec (k x) (k y)); cbn; lia || done.
Qed.

Lemma by_str_lex {A} (k : A -> string) (rest : A -> A -> bool) x y :
  by_str (k x) (k y) (rest x y) = lexicographic (fun x y => str_leb (k x) (k y)) rest x y.
Proof.
  unfold by_str, lexicographic. destruct (String.eqb_spec (k x) (k y)) as [->|Hne].
  - by rewrite str_leb_refl.
  - destruct (str_leb (k x) (k y)) eqn:E1, (str_leb (k y) (k x)) eqn:E2; try done.
    by pose proof (String.leb_antisym _ _ E1 E2).
Qed.

Lemma by_float_preorder {A} (P : A -> Prop) (k : A -> float) (rest : A -> A -> bool) :
  (forall x, P x -> k x <> NaN) -> preorder_on P rest ->
  preorder_on P (fun x y => by_float (k x) (k y) (rest x y)).
Proof. intros Hk Hr. apply (lexicographic_preorder P); [by apply float_preorder|done]. Qed.

Lemma by_int_preorder {A} (P : A -> Prop) (k : A -> Z) (rest : A -> A -> bool) :
  preorder_on P rest -> preorder_on P (fun x y => by_int (k x) (k y) (rest x y)).
Proof.
  intros Hr. eapply lexicographic_ext; [intros x y; symmetry; apply by_int_lex|].
  apply lexicographic_preorder; [apply int_preorder|done].
Qed.

Lemma by_str_preorder {A} (P : A -> Prop) (k : A -> string) (rest : A -> A -> bool) :
  preorder_on P rest -> preorder_on P (fun x y => by_str (k x) (k y) (rest x y)).
Proof.
  intros Hr. eapply lexicographic_ext; [intros x y; symmetry; apply by_str_lex|].
  apply lexicographic_preorder; [apply str_preorder|done].
Qed.

(** Total preorders from the keys of a sort; what is left says that the float
    keys are not NaN. *)
Ltac solve_preorder :=
  repeat first
    [ simple eapply by_float_preorder | simple eapply by_int_preorder | simple eapply by_str_preorder
    | simple eapply int_preorder | simple eapply str_preorder ].

(** ** Concrete runs *)

(** A run that started at 0 and lasted ten seconds, with the given metrics,
    timeline events and pipeline stages. *)
Definition example_run (stages : list string) (metrics_ : list MetricArtifact)
    (events : list TimelineEventArtifact) : StoredRun :=
  MkStoredRun "run" "hash" None "conversation" "fake" "asterisk" "completed" 0 (Some 10000000)
    [("spec", JObj [("media", JObj [("pipeline",
       JArr (map (fun s => JObj [("type", JStr s)]) stages))])])]
    [] [] metrics_ None [] [] [] events
    (MkEnvironment env_local None None None None None [] [] None []) [].
