(* ===== verification/RtpEvidence.v ===== *)
(** * RTP packet discontinuities

    The packet-cadence evidence of [control_plane/run_api.py]: the packet
    observations and capture-health reports read from the timeline events of a
    run, the health report that covers a pair of packets, and the sequence gaps
    and arrival stalls between consecutive packets of a stream. *)
From S2P Require Import Prelude Collections PyFloat PyData RunModel Timeline.
From Stdlib Require Import QArith.
From Stdlib Require Import Sorting.Permutation Sorting.Sorted.

Open Scope Z_scope.

Record _RtpPacketObservationEvidence := MkPacketObservation {
  po_event : TimelineEventArtifact; po_event_ordinal : Z; po_direction : string;
  po_stream_alias : string; po_t_rel_ms : float; po_sequence_number : Z; po_rtp_timestamp : Z;
  po_payload_type : Z; po_clock_rate_hz : Z; po_marker : bool }.

Record _RtpCaptureHealthEvidence := MkCaptureHealth {
  ch_event : TimelineEventArtifact; ch_event_ordinal : Z; ch_direction : string;
  ch_stream_alias : string; ch_start_ms : float; ch_end_ms : float; ch_observed_packet_count : Z;
  ch_capture_drop_count : Z; ch_decode_error_count : Z; ch_capture_drop_counter_supported : bool }.

Inductive capture_continuity : Type := verified | compromised | not_independently_verified.

#[export] Instance capture_continuity_eq_dec : EqDecision capture_continuity.
Proof. solve_decision. Defined.

Definition continuity_name (c : capture_continuity) : string :=
  match c with
  | verified => "verified"
  | compromised => "compromised"
  | not_independently_verified => "not independently verified"
  end.

Definition continuity (h : _RtpCaptureHealthEvidence) : capture_continuity :=
  if negb (ch_capture_drop_count h =? 0) || negb (ch_decode_error_count h =? 0) then compromised
  else if ch_capture_drop_counter_supported h then verified
  else not_independently_verified.

Inductive discontinuity_kind : Type := sequence_gap | arrival_stall.

#[export] Instance discontinuity_kind_eq_dec : EqDecision discontinuity_kind.
Proof. solve_decision. Defined.

Record _RtpPacketDiscontinuityEvidence := MkDiscontinuityEvidence {
  di_evidence_index : Z; di_kind : discontinuity_kind; di_previous : _RtpPacketObservationEvidence;
  di_current : _RtpPacketObservationEvidence; di_sequence_delta : Z; di_missing_packet_count : Z;
  di_arrival_gap_ms : float; di_media_advance_ms : float; di_excess_arrival_delay_ms : float;
  di_capture_health : option _RtpCaptureHealthEvidence }.

Definition discontinuity_alias (d : _RtpPacketDiscontinuityEvidence) : string :=
  "rtp-packet-discontinuity:" +:+ pretty (di_evidence_index d).

(** ** Reading the timeline *)

(** The stream and direction of an event of the given name. *)
Definition stream_event (name : string) (e : TimelineEventArtifact) : option (string * string) :=
  match ev_stream_alias e, ev_direction e with
  | Some alias, Some direction =>
      if String.eqb (ev_name e) name && bool_decide (direction ∈ ["received"; "sent"])
      then Some (alias, direction) else None
  | _, _ => None
  end.

Definition bool_attribute (attributes : jdict) (name : string) : option bool :=
  match jget name attributes with Some (JBool b) => Some b | _ => None end.

Definition packet_of (run : StoredRun) (x : Z * TimelineEventArtifact)
    : option _RtpPacketObservationEvidence :=
  let '(ordinal, e) := x in
  let attributes := ev_attributes e in
  match stream_event "rtp.packet_arrived" e,
        _bounded_int_attribute attributes "sequence_number" 0 65535,
        _bounded_int_attribute attributes "rtp_timestamp" 0 4294967295,
        _bounded_int_attribute attributes "payload_type" 0 127,
        _bounded_int_attribute attributes "clock_rate_hz" 1 384000,
        bool_attribute attributes "marker" with
  | Some (alias, direction), Some sequence, Some timestamp, Some payload_type, Some rate, Some marker =>
      Some (MkPacketObservation e ordinal direction alias (pymax fzero (rel_ms run (ev_ts e)))
              sequence timestamp payload_type rate marker)
  | _, _, _, _, _, _ => None
  end.

Definition packet_le (a b : _RtpPacketObservationEvidence) : bool :=
  by_str (po_stream_alias a) (po_stream_alias b)
    (by_str (po_direction a) (po_direction b)
      (by_float (po_t_rel_ms a) (po_t_rel_ms b) (po_event_ordinal a <=? po_event_ordinal b))).

Definition _rtp_packet_observations (run : StoredRun) : list _RtpPacketObservationEvidence :=
  sorted_by packet_le (omap (packet_of run) (enumerate (timeline_events run))).

Definition count_attribute (attributes : jdict) (name : string) : option Z :=
  _bounded_int_attribute attributes name 0 1000000000.

Definition health_of (run : StoredRun) (x : Z * TimelineEventArtifact)
    : result (option _RtpCaptureHealthEvidence) :=
  let '(ordinal, e) := x in
  let attributes := ev_attributes e in
  match stream_event "rtp.capture_health_reported" e with
  | None => Ok None
  | Some (alias, direction) =>
      window ← _numeric_attribute attributes "window_duration_ms";
      Ok (match count_attribute attributes "observed_packet_count",
                count_attribute attributes "capture_drop_count",
                count_attribute attributes "decode_error_count",
                bool_attribute attributes "capture_drop_counter_supported", window with
          | Some observed, Some drops, Some errors, Some supported, Some window_duration_ms =>
              if fltb window_duration_ms fzero then None
              else
                let end_ms := pymax fzero (rel_ms run (ev_ts e)) in
                Some (MkCaptureHealth e ordinal direction alias
                        (pymax fzero (fsub end_ms window_duration_ms)) end_ms observed drops errors supported)
          | _, _, _, _, _ => None
          end)
  end.

Definition health_le (a b : _RtpCaptureHealthEvidence) : bool :=
  by_str (ch_stream_alias a) (ch_stream_alias b)
    (by_str (ch_direction a) (ch_direction b)
      (by_float (ch_end_ms a) (ch_end_ms b) (ch_event_ordinal a <=? ch_event_ordinal b))).

Definition _rtp_capture_health_reports (run : StoredRun) : result (list _RtpCaptureHealthEvidence) :=
  found ← mapM_res (health_of run) (enumerate (timeline_events run));
  Ok (sorted_by health_le (omap id found)).

Definition covers (previous current : _RtpPacketObservationEvidence) (r : _RtpCaptureHealthEvidence) : bool :=
  String.eqb (ch_stream_alias r) (po_stream_alias current)
  && String.eqb (ch_direction r) (po_direction current)
  && String.eqb (ev_clock_domain (ch_event r)) (ev_clock_domain (po_event current))
  && fleb (ch_start_ms r) (po_t_rel_ms previous)
  && fleb (po_t_rel_ms current) (ch_end_ms r).

Definition _rtp_capture_health_for_packet_pair (reports : list _RtpCaptureHealthEvidence)
    (previous current : _RtpPacketObservationEvidence) : option _RtpCaptureHealthEvidence :=
  next_match (covers previous current) reports.

(** ** Discontinuities *)

Definition sequence_delta (previous current : _RtpPacketObservationEvidence) : Z :=
  (po_sequence_number current - po_sequence_number previous) mod 65536.

Definition arrival_gap_ms (previous current : _RtpPacketObservationEvidence) : float :=
  pymax fzero (fsub (po_t_rel_ms current) (po_t_rel_ms previous)).

Definition media_advance_ms (previous current : _RtpPacketObservationEvidence) : result float :=
  if po_clock_rate_hz current =? po_clock_rate_hz previous then
    q ← int_truediv ((po_rtp_timestamp current - po_rtp_timestamp previous) mod 4294967296)
          (po_clock_rate_hz current);
    Ok (fmul q (fz 1000))
  else Ok fzero.

(** The kind of discontinuity of a pair and its missing packets. *)
Definition classify (previous current : _RtpPacketObservationEvidence) (excess : float)
    : option (discontinuity_kind * Z) :=
  let delta := sequence_delta previous current in
  if (1 <? delta) && (delta <? 32768) then Some (sequence_gap, delta - 1)
  else if (delta =? 1) && (po_clock_rate_hz current =? po_clock_rate_hz previous)
          && fleb RTP_ARRIVAL_STALL_EXCESS_MS excess
  then Some (arrival_stall, 0)
  else None.

Definition discontinuity_step (reports : list _RtpCaptureHealthEvidence)
    (evidence : list _RtpPacketDiscontinuityEvidence)
    (pair : _RtpPacketObservationEvidence * _RtpPacketObservationEvidence)
    : result (list _RtpPacketDiscontinuityEvidence) :=
  let '(previous, current) := pair in
  let gap := arrival_gap_ms previous current in
  advance ← media_advance_ms previous current;
  let excess := pymax fzero (fsub gap advance) in
  Ok (match classify previous current excess with
      | None => evidence
      | Some (kind, missing) =>
          evidence ++ [MkDiscontinuityEvidence (len evidence) kind previous current
            (sequence_delta previous current) missing gap advance excess
            (_rtp_capture_health_for_packet_pair reports previous current)]
      end).

Definition packet_group (p : _RtpPacketObservationEvidence) : string * string * string :=
  (po_stream_alias p, po_direction p, ev_clock_domain (po_event p)).

(** The consecutive packets of every stream. *)
Definition packet_pairs (run : StoredRun) : list (_RtpPacketObservationEvidence * _RtpPacketObservationEvidence) :=
  concat (map pairwise (dict_values (group_by packet_group (_rtp_packet_observations run)))).

Definition discontinuity_le (a b : _RtpPacketDiscontinuityEvidence) : bool :=
  by_float (po_t_rel_ms (di_current a)) (po_t_rel_ms (di_current b))
    (by_str (po_stream_alias (di_current a)) (po_stream_alias (di_current b))
      (di_evidence_index a <=? di_evidence_index b)).

Definition _rtp_packet_discontinuity_evidence (run : StoredRun)
    : result (list _RtpPacketDiscontinuityEvidence) :=
  reports ← _rtp_capture_health_reports run;
  evidence ← foldM_res (discontinuity_step reports) [] (packet_pairs run);
  Ok (sorted_by discontinuity_le evidence).

Definition _rtp_capture_attributes (item : _RtpPacketDiscontinuityEvidence) : jdict :=
  match di_capture_health item with
  | None => [("capture_point_continuity", JStr "not independently verified")]
  | Some h =>
      [("capture_point_continuity", JStr (continuity_name (continuity h)));
       ("capture_drop_counter_supported", JBool (ch_capture_drop_counter_supported h));
       ("capture_drop_count", JInt (ch_capture_drop_count h));
       ("capture_decode_error_count", JInt (ch_decode_error_count h));
       ("capture_observed_packet_count", JInt (ch_observed_packet_count h))]
  end.

Definition _rtp_pair_alignment_uncertainty_ms (item : _RtpPacketDiscontinuityEvidence) : option float :=
  match omap id [ev_alignment_uncertainty_ms (po_event (di_previous item));
                 ev_alignment_uncertainty_ms (po_event (di_current item));
                 match di_capture_health item with
                 | Some h => ev_alignment_uncertainty_ms (ch_event h) | None => None end] with
  | [] => None
  | values => Some (pymax_list fzero values)
  end.

Definition _rtp_network_loss_confirmation (item : _RtpPacketDiscontinuityEvidence) : string :=
  match di_capture_health item with
  | None => "capture loss must be excluded at the observation point"
  | Some h =>
      match continuity h with
      | not_independently_verified => "capture loss must be excluded at the observation point"
      | compromised => "restore capture continuity before attributing the gap to the network"
      | verified => "capture continuity verified for this window; path attribution depends on tap placement"
      end
  end.

(** ** Lemmas: packets *)

(** What [packet_of] guarantees of an observation. *)
Record packet_ok (run : StoredRun) (p : _RtpPacketObservationEvidence) : Prop := {
  pk_event : exists i, (i, po_event p) ∈ enumerate (timeline_events run);
  pk_sequence : 0 <= po_sequence_number p <= 65535;
  pk_rate : 1 <= po_clock_rate_hz p <= 384000;
  pk_time : po_t_rel_ms p <> NaN }.

Lemma bounded_int_attribute_ok attributes name lo hi z :
  _bounded_int_attribute attributes name lo hi = Some z -> lo <= z <= hi.
Proof.
  unfold _bounded_int_attribute. destruct (jget name attributes) as [[]|]; try done.
  destruct (_ && _) eqn:E; [|done]. intros [= <-]. apply andb_true_iff in E as [E1 E2].
  apply Z.leb_le in E1, E2. lia.
Qed.

Lemma packet_of_ok run x p :
  x ∈ enumerate (timeline_events run) -> packet_of run x = Some p -> packet_ok run p.
Proof.
  destruct x as [i e]. intros Hin. unfold packet_of.
  destruct (stream_event _ e) as [[alias direction]|]; [|done].
  destruct (_bounded_int_attribute _ "sequence_number" _ _) eqn:E1; [|done].
  destruct (_bounded_int_attribute _ "rtp_timestamp" _ _) eqn:E2; [|done].
  destruct (_bounded_int_attribute _ "payload_type" _ _) eqn:E3; [|done].
  destruct (_bounded_int_attribute _ "clock_rate_hz" _ _) eqn:E4; [|done].
  destruct (bool_attribute _ _); [|done]. intros [= <-].
  apply bounded_int_attribute_ok in E1, E4. constructor; cbn; try done; [by exists i|].
  by apply pymax_not_nan.
Qed.

Lemma observations_ok run : Forall (packet_ok run) (_rtp_packet_observations run).
Proof.
  apply Forall_forall. intros p. unfold _rtp_packet_observations. rewrite elem_of_sorted_by.
  intros (x & Hx & Hp)%list_elem_of_omap. by eapply packet_of_ok.
Qed.

Lemma packet_le_preorder run : preorder_on (packet_ok run) packet_le.
Proof. unfold packet_le. solve_preorder. intros p Hp. apply Hp. Qed.

Lemma packet_le_time p q :
  po_stream_alias p = po_stream_alias q -> po_direction p = po_direction q ->
  packet_le p q = true -> fleb (po_t_rel_ms p) (po_t_rel_ms q) = true.
Proof.
  unfold packet_le, by_str, by_float. intros -> ->. rewrite !String.eqb_refl.
  destruct (feqb _ _) eqn:E; [intros _; by apply andb_true_iff in E as [E _]|]. apply fltb_fleb.
Qed.

Lemma pairwise_sorted {A} (R : A -> A -> Prop) l x y :
  StronglySorted R l -> (x, y) ∈ pairwise l -> R x y.
Proof.
  induction 1 as [|a l Hs IH Ha]; [set_solver|]. destruct l as [|b l]; [set_solver|].
  change (pairwise (a :: b :: l)) with ((a, b) :: pairwise (b :: l)). rewrite elem_of_cons.
  intros [[= -> ->]|Hin]; [|by apply IH]. by apply Forall_cons in Ha as [? _].
Qed.

(** A pair of consecutive packets: one stream, in order of time. *)
Record consecutive (run : StoredRun) (previous current : _RtpPacketObservationEvidence) : Prop := {
  co_previous : packet_ok run previous;
  co_current : packet_ok run current;
  co_stream : packet_group previous = packet_group current;
  co_order : fleb (po_t_rel_ms previous) (po_t_rel_ms current) = true }.

Lemma packet_pairs_consecutive run p q : (p, q) ∈ packet_pairs run -> consecutive run p q.
Proof.
  unfold packet_pairs. rewrite list_elem_of_In. intros Hin. apply in_concat in Hin as (l & Hl & Hin).
  apply in_map_iff in Hl as (g & <- & Hg). apply list_elem_of_In in Hin, Hg.
  unfold dict_values in Hg. apply list_elem_of_fmap in Hg as ([k g'] & -> & Hg). cbn [snd] in *.
  destruct (elem_of_pairwise _ _ _ Hin) as [Hp Hq].
  destruct (group_by_member _ _ _ _ _ Hg Hp) as [Hp1 Hp2].
  destruct (group_by_member _ _ _ _ _ Hg Hq) as [Hq1 Hq2].
  pose proof (observations_ok run) as Hok. rewrite Forall_forall in Hok.
  constructor; [by apply Hok|by apply Hok|congruence|].
  assert (StronglySorted packet_le g') as Hs.
  { rewrite (group_by_elem _ _ _ _ Hg). apply StronglySorted_filterb. unfold _rtp_packet_observations.
    apply (sorted_by_preorder (packet_ok run)); [apply packet_le_preorder|].
    apply Forall_forall. intros r (x & Hx & Hr)%list_elem_of_omap. by eapply packet_of_ok. }
  pose proof (pairwise_sorted _ _ _ _ Hs Hin) as Hle. apply Is_true_true in Hle.
  rewrite <- Hq2 in Hp2. injection Hp2 as E1 E2 _. by eapply packet_le_time.
Qed.

(** ** Lemmas: discontinuities *)

Lemma int_truediv_ok a b : 0 <= a < 2 ^ fprec -> 0 < b -> exists q, int_truediv a b = Ok (Fin q).
Proof.
  intros Ha Hb. unfold int_truediv. rewrite (proj2 (Z.eqb_neq b 0)) by lia.
  assert (0 < inject_Z b)%Q as Hb' by (change 0%Q with (inject_Z 0); rewrite <- Zlt_Qlt; lia).
  assert (inject_Z 0 <= inject_Z a / inject_Z b <= inject_Z a)%Q as Hq.
  { split; [apply Qle_shift_div_l | apply Qle_shift_div_r]; try done;
      rewrite <- inject_Z_mult, <- Zle_Qle; nia. }
  destruct (fl_bounded_int _ 0 a ltac:(unfold fprec in *; lia) ltac:(lia) Hq) as (q & -> & _). by exists q.
Qed.

Lemma media_advance_ok run p q : packet_ok run q -> exists x, media_advance_ms p q = Ok x.
Proof.
  intros [_ _ Hr _]. unfold media_advance_ms. destruct (_ =? _); [|by exists fzero].
  pose proof (Z.mod_pos_bound (po_rtp_timestamp q - po_rtp_timestamp p) 4294967296 ltac:(lia)) as Hm.
  destruct (int_truediv_ok _ (po_clock_rate_hz q) ltac:(unfold fprec; split; [apply Hm|lia]) ltac:(lia))
    as (x & ->). by eexists.
Qed.

(** The delay of the current packet that the media clock does not explain. *)
Definition excess_delay_ms (previous current : _RtpPacketObservationEvidence) : float :=
  match media_advance_ms previous current with
  | Ok advance => pymax fzero (fsub (arrival_gap_ms previous current) advance)
  | Raise _ _ => NaN
  end.

(** Packets between the two are missing: the sequence number skips at most
    half of the number space. *)
Definition skips_packets (previous current : _RtpPacketObservationEvidence) : bool :=
  (1 <? sequence_delta previous current) && (sequence_delta previous current <? 32768).

(** The next packet of the stream comes too late for its media time. *)
Definition arrives_late (previous current : _RtpPacketObservationEvidence) : bool :=
  (sequence_delta previous current =? 1)
  && (po_clock_rate_hz current =? po_clock_rate_hz previous)
  && fleb RTP_ARRIVAL_STALL_EXCESS_MS (excess_delay_ms previous current).

Definition reported (pair : _RtpPacketObservationEvidence * _RtpPacketObservationEvidence) : bool :=
  skips_packets pair.1 pair.2 || arrives_late pair.1 pair.2.

(** What an item of evidence says of its two packets. *)
Record discontinuity_ok (run : StoredRun) (reports : list _RtpCaptureHealthEvidence)
    (d : _RtpPacketDiscontinuityEvidence) : Prop := {
  dk_pair : (di_previous d, di_current d) ∈ packet_pairs run;
  dk_delta : (po_sequence_number (di_previous d) + di_sequence_delta d) mod 65536
             = po_sequence_number (di_current d);
  dk_kind : match di_kind d with
    | sequence_gap => 1 <= di_missing_packet_count d <= 32766
                      /\ di_sequence_delta d = di_missing_packet_count d + 1
    | arrival_stall => di_missing_packet_count d = 0 /\ di_sequence_delta d = 1
                       /\ fleb RTP_ARRIVAL_STALL_EXCESS_MS (di_excess_arrival_delay_ms d) = true
    end;
  dk_excess : di_excess_arrival_delay_ms d = excess_delay_ms (di_previous d) (di_current d);
  dk_health : match di_capture_health d with
    | Some h => h ∈ reports /\ covers (di_previous d) (di_current d) h = true
    | None => Forall (fun h => covers (di_previous d) (di_current d) h = false) reports
    end }.

Lemma sequence_delta_spec run p q :
  packet_ok run q -> (po_sequence_number p + sequence_delta p q) mod 65536 = po_sequence_number q.
Proof.
  intros [_ Hq _ _]. unfold sequence_delta. rewrite Z.add_mod_idemp_r by lia.
  replace (_ + _) with (po_sequence_number q) by lia. apply Z.mod_small. lia.
Qed.

(** The step appends the evidence of a pair exactly when it is reported. *)
Lemma discontinuity_step_spec run reports evidence p q :
  (p, q) ∈ packet_pairs run ->
  exists new, discontinuity_step reports evidence (p, q) = Ok (evidence ++ new)
  /\ map (fun d => (di_previous d, di_current d)) new = (if reported (p, q) then [(p, q)] else [])
  /\ map di_evidence_index new = (if reported (p, q) then [len evidence] else [])
  /\ Forall (discontinuity_ok run reports) new.
Proof.
  intros Hin. destruct (packet_pairs_consecutive _ _ _ Hin) as [_ Hq _ _].
  pose proof (sequence_delta_spec _ p q Hq) as Hd.
  destruct (media_advance_ok run p q Hq) as (advance & Ha).
  unfold discontinuity_step, reported, classify, skips_packets, arrives_late, excess_delay_ms.
  cbn [fst snd]. rewrite Ha. cbn [mbind result_bind].
  set (excess := pymax fzero (fsub (arrival_gap_ms p q) advance)).
  assert (excess = excess_delay_ms p q) as He by (unfold excess_delay_ms; by rewrite Ha).
  assert (match _rtp_capture_health_for_packet_pair reports p q with
          | Some h => h ∈ reports /\ covers p q h = true
          | None => Forall (fun h => covers p q h = false) reports end) as Hh.
  { unfold _rtp_capture_health_for_packet_pair. destruct (next_match _ _) eqn:E;
      [by apply next_match_some in E |].
    apply Forall_forall. intros h Hh. by eapply next_match_none. }
  destruct ((1 <? _) && _) eqn:E1; cbn [orb].
  { eexists [_]. split; [reflexivity|]. split; [done|]. split; [done|]. constructor; [|done].
    apply andb_true_iff in E1 as [E1 E2]. apply Z.ltb_lt in E1, E2. constructor; cbn; done || lia. }
  destruct ((_ =? 1) && _ && _) eqn:E2.
  { eexists [_]. split; [reflexivity|]. split; [done|]. split; [done|]. constructor; [|done].
    apply andb_true_iff in E2 as [[E2 _]%andb_true_iff E3]. apply Z.eqb_eq in E2.
    by constructor; cbn. }
  exists []. by rewrite app_nil_r.
Qed.

Lemma discontinuity_loop run reports pairs evidence :
  pairs ⊆ packet_pairs run ->
  exists new, foldM_res (discontinuity_step reports) evidence pairs = Ok (evidence ++ new)
  /\ map (fun d => (di_previous d, di_current d)) new = filterb reported pairs
  /\ map di_evidence_index new = seqZ (len evidence) (len new)
  /\ Forall (discontinuity_ok run reports) new.
Proof.
  revert evidence. induction pairs as [|[p q] pairs IH]; intros evidence Hsub.
  - exists []. by rewrite app_nil_r.
  - destruct (discontinuity_step_spec run reports evidence p q) as (new1 & Hs & Hm1 & Hi1 & Hok1);
      [apply Hsub; left|].
    destruct (IH (evidence ++ new1)) as (new2 & Hf & Hm2 & Hi2 & Hok2);
      [intros x Hx; apply Hsub; by right|].
    exists (new1 ++ new2). cbn [foldM_res]. rewrite Hs. cbn [mbind result_bind]. rewrite Hf, <- app_assoc.
    split; [done|]. split; [|split; [|by apply Forall_app]].
    + rewrite map_app, Hm1, Hm2. unfold filterb. cbn [List.filter]. by destruct (reported (p, q)).
    + rewrite map_app, Hi1, Hi2, !len_app.
      assert (len new1 = if reported (p, q) then 1 else 0) as ->
        by (apply (f_equal len) in Hm1; unfold len in *; rewrite length_map in Hm1;
            rewrite Hm1; by destruct (reported _)).
      destruct (reported _); [|by rewrite !Z.add_0_l, Z.add_0_r].
      rewrite (seqZ_app _ 1) by (unfold len; lia). reflexivity.
Qed.

Lemma discontinuity_le_time (P : _RtpPacketDiscontinuityEvidence -> Prop) l :
  (forall d, P d -> po_t_rel_ms (di_current d) <> NaN) -> Forall P l ->
  StronglySorted (fun a b => fleb (po_t_rel_ms (di_current a)) (po_t_rel_ms (di_current b)))
    (sorted_by discontinuity_le l).
Proof.
  intros Hp Hl. assert (StronglySorted discontinuity_le (sorted_by discontinuity_le l)) as Hs.
  { apply (sorted_by_preorder P); [|done]. unfold discontinuity_le. solve_preorder. done. }
  revert Hs. apply StronglySorted_weaken. intros a b. unfold discontinuity_le, by_float.
  rewrite !Is_true_true. destruct (feqb _ _) eqn:E; [intros _; by apply andb_true_iff in E as [E _]|].
  apply fltb_fleb.
Qed.

(** Once the capture-health reports of a run can be read, the packet
    discontinuities are always computed, and they are exact: the pairs of
    consecutive packets of a stream (same stream, direction and clock domain,
    in order of time) that are reported are those that skip packets or arrive
    late, each once; a sequence gap of n missing packets has the later
    sequence number n + 1 after the earlier one modulo 65536, with n from 1 to
    32766; an arrival stall misses none and is at least 100 ms late on its
    media clock; the capture health is a report that covers the pair, or there
    is none; the evidence is numbered without duplicates and ordered by time. *)
Theorem packet_discontinuities_exact run reports :
  _rtp_capture_health_reports run = Ok reports ->
  exists evidence, _rtp_packet_discontinuity_evidence run = Ok evidence
  /\ Permutation (map (fun d => (di_previous d, di_current d)) evidence)
       (filterb reported (packet_pairs run))
  /\ Forall (fun d => discontinuity_ok run reports d
                      /\ consecutive run (di_previous d) (di_current d)) evidence
  /\ Permutation (map di_evidence_index evidence) (seqZ 0 (len evidence))
  /\ StronglySorted (fun a b => fleb (po_t_rel_ms (di_current a)) (po_t_rel_ms (di_current b))) evidence.
Proof.
  intros Hr. destruct (discontinuity_loop run reports (packet_pairs run) []) as (new & Hf & Hm & Hi & Hok);
    [done|].
  exists (sorted_by discontinuity_le new). unfold _rtp_packet_discontinuity_evidence.
  rewrite Hr. cbn [mbind result_bind]. rewrite Hf. split; [done|].
  assert (Forall (fun d => discontinuity_ok run reports d
                           /\ consecutive run (di_previous d) (di_current d)) new) as Hok'.
  { rewrite Forall_forall in *. intros d Hd. specialize (Hok d Hd).
    split; [done|]. apply packet_pairs_consecutive, Hok. }
  split; [by rewrite sorted_by_perm, Hm|]. split; [by rewrite sorted_by_perm|].
  split; [by unfold len; rewrite sorted_by_length, sorted_by_perm, Hi|].
  apply (discontinuity_le_time (fun d => discontinuity_ok run reports d
    /\ consecutive run (di_previous d) (di_current d))); [|done].
  intros d [_ [_ [_ _ _ Ht] _ _]]. done.
Qed.

(** ** Concrete packets *)

Definition example_packet (id : string) (ts : instant) (sequence timestamp : Z) : TimelineEventArtifact :=
  MkTimelineEvent id "network" "rtp.packet_arrived" ts "monotonic" None (Some "received") None
    (Some "stream-1") "observer" None
    [("sequence_number", JInt sequence); ("rtp_timestamp", JInt timestamp); ("payload_type", JInt 0);
     ("clock_rate_hz", JInt 8000); ("marker", JBool false)].

Definition example_health : TimelineEventArtifact :=
  MkTimelineEvent "h" "network" "rtp.capture_health_reported" 1000000 "monotonic" None (Some "received")
    None (Some "stream-1") "observer" None
    [("observed_packet_count", JInt 3); ("capture_drop_count", JInt 0); ("decode_error_count", JInt 0);
     ("capture_drop_counter_supported", JBool true); ("window_duration_ms", JInt 1000)].

(** Packet 65535, then packet 1 (one is missing across the wrap-around), then
    packet 2 half a second late. *)
Definition example_packets : StoredRun :=
  example_run [] [] [example_packet "a" 0 65535 4294967200; example_packet "b" 40000 1 224;
                     example_packet "c" 560000 2 384; example_health].

Definition discontinuity_summary (d : _RtpPacketDiscontinuityEvidence)
    : discontinuity_kind * Z * option string :=
  (di_kind d, di_missing_packet_count d,
   option_map (fun h => continuity_name (continuity h)) (di_capture_health d)).

Lemma packet_discontinuities_exact_witness :
  exists evidence, _rtp_packet_discontinuity_evidence example_packets = Ok evidence
  /\ map discontinuity_summary evidence
     = [(sequence_gap, 1, Some "verified"); (arrival_stall, 0, Some "verified")].
Proof.
  destruct (_rtp_capture_health_reports example_packets) as [reports|] eqn:E;
    [|exfalso; vm_compute in E; discriminate E].
  destruct (packet_discontinuities_exact example_packets reports E) as (evidence & H & _).
  exists evidence. split; [exact H|].
  assert (match _rtp_packet_discontinuity_evidence example_packets with
          | Ok l => map discontinuity_summary l | Raise _ _ => [] end
          = [(sequence_gap, 1, Some "verified"); (arrival_stall, 0, Some "verified")]) as Hv
    by (vm_compute; reflexivity).
  rewrite H in Hv. exact Hv.
Defined.
