(* ===== verification/ResponseEvidence.v ===== *)
(** * Provider responses and the waits for their output

    What [_provider_response_evidence] and
    [_assistant_output_start_wait_evidence] of [control_plane/run_api.py]
    compute: the loop over the observations against a definition by recursion
    on them, and the association of every response with at most one playback. *)
From S2P Require Import Prelude Collections PyFloat PyData RunModel Timeline.
From Stdlib Require Import Sorting.Permutation Sorting.Sorted.

Open Scope Z_scope.

(** ** Provider responses *)

Definition obs_time (run : StoredRun) (o : instant * Z * string) : float :=
  pymax fzero (rel_ms run o.1.1).
Definition obs_started (o : instant * Z * string) : bool := String.eqb o.2 "provider_response_started".

(** What ends a response: the next observation, of either kind, or the run. *)
Definition ended_by (run : StoredRun) (rest : list (instant * Z * string)) : option Z * float :=
  match rest with
  | [] => (None, _run_timeline_duration_ms run)
  | o :: _ => (if obs_started o then None else Some o.1.2, obs_time run o)
  end.

(** The reference: every started observation is a response that the next
    observation ends. *)
Fixpoint responses_of (run : StoredRun) (index : Z) (observations : list (instant * Z * string))
    : list _ProviderResponseEvidence :=
  match observations with
  | [] => []
  | o :: rest =>
      if obs_started o then
        close_response (index, o.1.2, obs_time run o) (ended_by run rest).1 (ended_by run rest).2
        :: responses_of run (index + 1) rest
      else responses_of run index rest
  end.

(** The list of responses after the loop, before it is sorted. *)
Definition finish_loop (run : StoredRun) (s : response_loop) : list _ProviderResponseEvidence :=
  lp_responses s ++ match lp_active s with
                    | Some a => [close_response a None (_run_timeline_duration_ms run)] | None => [] end.

Lemma response_loop_spec run observations s :
  finish_loop run (fold_left (response_step run) observations s)
  = lp_responses s
    ++ match lp_active s with
       | Some a => [close_response a (ended_by run observations).1 (ended_by run observations).2]
       | None => [] end
    ++ responses_of run (lp_next s) observations.
Proof.
  revert s. induction observations as [|[[ts i] name] rest IH]; intros [rs active n]; cbn [fold_left].
  - unfold finish_loop. cbn. by rewrite app_nil_r.
  - rewrite IH. unfold response_step. cbn [responses_of ended_by]. unfold obs_started, obs_time. cbn [fst snd].
    destruct (String.eqb name _); destruct active as [a|]; cbn [lp_responses lp_active lp_next fst snd];
      by rewrite <- ?app_assoc.
Qed.

Definition observation_time_le (a b : instant * Z * string) : Prop := a.1.1 <= b.1.1.

Lemma response_observations_sorted run : StronglySorted observation_time_le (response_observations run).
Proof.
  assert (StronglySorted observation_le (response_observations run)) as Hs.
  { apply (sorted_by_preorder (fun _ => True)); [|by apply Forall_true].
    apply (lexicographic_ext _ (fun a b => by_int a.1.1 b.1.1 (a.1.2 <=? b.1.2)));
      [by intros [[? ?] ?] [[? ?] ?]|]. solve_preorder. }
  revert Hs. apply StronglySorted_weaken. intros [[t1 i1] n1] [[t2 i2] n2].
  unfold observation_le, by_int, observation_time_le. rewrite Is_true_true. cbn.
  destruct (Z.eqb_spec t1 t2); [lia|]. intros ?%Z.ltb_lt. lia.
Qed.

Lemma obs_time_mono run a b : observation_time_le a b -> fleb (obs_time run a) (obs_time run b) = true.
Proof. apply rel_time_mono. Qed.

Lemma obs_time_not_nan run o : obs_time run o <> NaN.
Proof. by apply pymax_not_nan. Qed.

Lemma responses_of_elem run n observations r :
  r ∈ responses_of run n observations ->
  n <= response_index r /\ exists o, o ∈ observations /\ resp_start_ms r = obs_time run o.
Proof.
  revert n. induction observations as [|o rest IH]; intros n; cbn [responses_of]; [set_solver|].
  destruct (obs_started o).
  - intros [->|(Hi & o' & Ho & Hr)%IH]%elem_of_cons; cbn.
    + split; [lia|]. exists o. split; [left|done].
    + split; [lia|]. exists o'. split; [by right|done].
  - intros (Hi & o' & Ho & Hr)%IH. split; [done|]. exists o'. split; [by right|done].
Qed.

Lemma responses_of_sorted run n observations :
  StronglySorted observation_time_le observations ->
  StronglySorted response_le (responses_of run n observations).
Proof.
  intros Hs. revert n. induction Hs as [|o rest Hs IH Ho]; intros n; cbn [responses_of]; [constructor|].
  destruct (obs_started o); [|done]. constructor; [done|]. apply Forall_forall.
  intros r (Hi & o' & Ho' & Hr)%responses_of_elem. rewrite Forall_forall in Ho.
  apply Is_true_true. unfold response_le, by_float. cbn. rewrite Hr.
  pose proof (obs_time_mono run _ _ (Ho _ Ho')) as Hle. unfold feqb, fltb. rewrite Hle. cbn.
  destruct (fleb (obs_time run o') _); [apply Z.leb_le; lia|done].
Qed.

Lemma responses_of_index run n observations :
  map response_index (responses_of run n observations)
  = seqZ n (len (filterb obs_started observations)).
Proof.
  revert n. induction observations as [|o rest IH]; intros n; cbn [responses_of]; [done|].
  unfold filterb in *. cbn [List.filter]. destruct (obs_started o); [|done].
  rewrite len_cons, Z.add_comm, seqZ_cons by (pose proof (len_nonneg (List.filter obs_started rest)); lia).
  cbn [map]. rewrite IH. f_equal. f_equal; lia.
Qed.

Lemma responses_of_spans run n observations :
  StronglySorted observation_time_le observations ->
  Forall (fun r => fleb (resp_start_ms r) (resp_end_ms r) = true) (responses_of run n observations)
  /\ Forall (fun p => fleb (resp_end_ms p.1) (resp_start_ms p.2) = true)
       (pairwise (responses_of run n observations)).
Proof.
  intros Hs. revert n. induction Hs as [|o rest Hs IH Ho]; intros n; cbn [responses_of]; [done|].
  destruct (obs_started o); [|done]. destruct (IH (n + 1)) as [IH1 IH2]. split.
  { constructor; [|done]. apply pymax_le_l, obs_time_not_nan. }
  destruct (responses_of run (n + 1) rest) as [|r rs] eqn:E; [constructor|].
  change (pairwise ?l) with (match l with x :: (y :: _) as l' => (x, y) :: pairwise l' | _ => [] end).
  constructor; [|done]. cbn [fst snd].
  assert (r ∈ responses_of run (n + 1) rest) as Hr by (rewrite E; left).
  destruct rest as [|o' rest]; [by cbn in Hr; apply not_elem_of_nil in Hr|].
  apply responses_of_elem in Hr as (_ & o2 & Ho2 & ->).
  rewrite Forall_forall in Ho. pose proof (Ho o' ltac:(left)) as H1.
  apply StronglySorted_inv in Hs as [_ Hs]. rewrite Forall_forall in Hs.
  assert (fleb (obs_time run o') (obs_time run o2) = true) as H2.
  { apply elem_of_cons in Ho2 as [->|Ho2]; [apply fleb_refl, obs_time_not_nan|].
    by apply obs_time_mono, Hs. }
  cbn. unfold pymax. destruct (fltb _ _) eqn:E1; [done|].
  eapply fleb_trans; [|exact H2]. by apply obs_time_mono.
Qed.

(** The sort at the end of the function changes nothing. *)
Lemma provider_response_evidence_eq run :
  _provider_response_evidence run = responses_of run 0 (response_observations run).
Proof.
  pose proof (response_observations_sorted run) as Hs.
  pose proof (response_loop_spec run (response_observations run) (MkLoop [] None 0)) as H.
  unfold _provider_response_evidence. unfold finish_loop in H. rewrite H.
  apply sorted_by_id, responses_of_sorted, Hs.
Qed.

(** The provider responses of a run are what its observations say: in
    the order of time every started observation is one response, numbered from
    0, and the next observation ends it, completed when that is a done
    observation (whose index it keeps) and interrupted when it is another
    start or the end of the run; a response never ends before it starts, nor
    after the next one starts. *)
Theorem provider_responses_spec run :
  let responses := _provider_response_evidence run in
  responses = responses_of run 0 (response_observations run)
  /\ map response_index responses = seqZ 0 (len (filterb obs_started (response_observations run)))
  /\ Forall (fun r => fleb (resp_start_ms r) (resp_end_ms r) = true) responses
  /\ Forall (fun p => fleb (resp_end_ms p.1) (resp_start_ms p.2) = true) (pairwise responses).
Proof.
  cbv zeta. rewrite provider_response_evidence_eq. split; [done|]. split; [apply responses_of_index|].
  apply responses_of_spans, response_observations_sorted.
Qed.

(** ** Waits for the output *)

Section waits.
Context (playbacks : list _CorrelatedActivityEvidence) (timeline_end_ms : float).

Definition association_end (rest : list _ProviderResponseEvidence) : float :=
  match rest with next :: _ => resp_start_ms next | [] => timeline_end_ms end.

(** The playback starts in the window of the response. *)
Definition in_window (response : _ProviderResponseEvidence) (end_ms : float)
    (p : _CorrelatedActivityEvidence) : bool :=
  fleb (resp_start_ms response) (act_start_ms p) && fleb (act_start_ms p) end_ms.

Definition claimed_aliases (waits : list _AssistantOutputStartWaitEvidence) : list string :=
  omap (fun w => act_correlation_alias <$> wait_playback w) waits.

(** The wait of one response, given the aliases that earlier ones claimed: the
    first free playback in its window, or none when there is no such. *)
Record wait_ok (claimed : list string) (end_ms : float) (w : _AssistantOutputStartWaitEvidence) : Prop := {
  wk_start : wait_start_ms w = resp_start_ms (wait_response w);
  wk_playback : match wait_playback w with
    | Some p => exists before after, playbacks = before ++ p :: after
        /\ in_window (wait_response w) end_ms p = true /\ act_correlation_alias p ∉ claimed
        /\ wait_end_ms w = pymax (wait_start_ms w) (act_start_ms p)
        /\ Forall (fun q => in_window (wait_response w) end_ms q = true ->
                            act_correlation_alias q ∈ claimed) before
    | None => Forall (fun q => in_window (wait_response w) end_ms q = true ->
                               act_correlation_alias q ∈ claimed) playbacks
        /\ wait_end_ms w = pymax (wait_start_ms w) (pymin (resp_end_ms (wait_response w)) end_ms)
    end }.

(** Every wait is right, given the claims before it. *)
Inductive waits_ok : list string -> list _AssistantOutputStartWaitEvidence -> Prop :=
| waits_nil claimed : waits_ok claimed []
| waits_cons claimed w ws :
    wait_ok claimed (association_end (map wait_response ws)) w ->
    waits_ok (claimed_aliases [w] ++ claimed) ws -> waits_ok claimed (w :: ws).

Lemma next_match_first {A} (p : A -> bool) l :
  match next_match p l with
  | Some x => exists before after, l = before ++ x :: after /\ p x = true
                /\ Forall (fun y => p y = false) before
  | None => Forall (fun y => p y = false) l
  end.
Proof.
  induction l as [|x l IH]; [constructor|]. unfold next_match in *. cbn [List.find].
  destruct (p x) eqn:E; [by exists [], l|]. destruct (List.find p l) as [y|].
  - destruct IH as (before & after & -> & Hy & Hb). exists (x :: before), after. by repeat constructor.
  - by constructor.
Qed.

Lemma start_waits_responses claimed responses :
  map wait_response (start_waits playbacks timeline_end_ms claimed responses) = responses.
Proof.
  revert claimed. induction responses as [|r rest IH]; intros claimed; [done|].
  cbn [start_waits map wait_response]. by rewrite IH.
Qed.

Lemma start_waits_ok claimed responses :
  waits_ok claimed (start_waits playbacks timeline_end_ms claimed responses).
Proof.
  revert claimed. induction responses as [|r rest IH]; intros claimed; [constructor|].
  cbn [start_waits].
  match goal with |- context [next_match ?f playbacks] => set (free := f) end.
  pose proof (next_match_first free playbacks) as Hf.
  assert (forall q, free q = false ->
    in_window r (association_end rest) q = true -> act_correlation_alias q ∈ claimed) as Hfree.
  { intros q. unfold free, in_window, association_end. rewrite <- andb_assoc. intros Hq Hw.
    rewrite Hw, andb_true_r in Hq. apply bool_decide_eq_false in Hq.
    destruct (decide (act_correlation_alias q ∈ claimed)); tauto. }
  constructor; rewrite ?start_waits_responses.
  - constructor; [done|]. cbn. destruct (next_match free playbacks) as [p|].
    + destruct Hf as (before & after & Hl & Hp & Hb). exists before, after.
      unfold free in Hp. rewrite !andb_true_iff in Hp. destruct Hp as [[Hp1%bool_decide_eq_true Hp2] Hp3].
      split; [done|]. split; [by apply andb_true_iff|]. split; [done|]. split; [done|].
      eapply Forall_impl; [exact Hb|exact Hfree].
    + split; [|done]. eapply Forall_impl; [exact Hf|exact Hfree].
  - cbn. by destruct (next_match free playbacks).
Qed.

Lemma waits_ok_claims claimed ws :
  waits_ok claimed ws -> NoDup (claimed_aliases ws)
  /\ (forall alias, alias ∈ claimed_aliases ws -> alias ∉ claimed).
Proof.
  induction 1 as [claimed|claimed w ws Hw _ [IH1 IH2]]; [split; [constructor|set_solver]|].
  unfold claimed_aliases in *. cbn [omap list_omap] in *.
  destruct Hw as [_ Hp]. destruct (wait_playback w) as [p|]; cbn [fmap option_fmap option_map app] in *.
  - destruct Hp as (_ & _ & _ & _ & Hn & _). split; [constructor; [|done]|].
    + intros Ha. apply IH2 in Ha. set_solver.
    + intros a [->|Ha]%elem_of_cons; [done|]. apply IH2 in Ha. set_solver.
  - split; [done|]. intros a Ha. by apply IH2.
Qed.

(** A wait that claims a playback ends when the playback starts. *)
Lemma wait_ok_end claimed end_ms w :
  wait_ok claimed end_ms w -> resp_start_ms (wait_response w) <> NaN ->
  fleb (wait_start_ms w) (wait_end_ms w) = true.
Proof.
  intros [Hs Hp] Hn. rewrite Hs in *.
  destruct (wait_playback w); [destruct Hp as (? & ? & _ & _ & _ & -> & _)|destruct Hp as [_ ->]];
    by apply pymax_le_l.
Qed.
End waits.

Lemma responses_start_not_nan run : Forall (fun r => resp_start_ms r <> NaN) (_provider_response_evidence run).
Proof.
  rewrite provider_response_evidence_eq. apply Forall_forall.
  intros r (_ & o & _ & ->)%responses_of_elem. apply obs_time_not_nan.
Qed.

Lemma waits_ok_spans playbacks timeline_end_ms claimed ws :
  waits_ok playbacks timeline_end_ms claimed ws ->
  Forall (fun r => resp_start_ms r <> NaN) (map wait_response ws) ->
  Forall (fun w => fleb (wait_start_ms w) (wait_end_ms w) = true) ws.
Proof.
  induction 1 as [|claimed w ws Hw _ IH]; [constructor|]. cbn [map].
  intros [Hn Hs]%Forall_cons. constructor; [by eapply wait_ok_end|auto].
Qed.

(** The start waits of a run hold one wait per provider response, in
    order; each takes the first playback that starts between the start of its
    response and the start of the next one (the end of the run for the last)
    and that no earlier response took, and has no playback only when every
    playback in that window is taken, in which case it ends with the response
    or with the window, whichever is first; so no playback is ever claimed
    twice, and no wait is negative. *)
Theorem start_waits_claim_once run :
  let waits := _assistant_output_start_wait_evidence run in
  map wait_response waits = _provider_response_evidence run
  /\ waits_ok (_assistant_playback_evidence run) (_run_timeline_duration_ms run) [] waits
  /\ NoDup (claimed_aliases waits)
  /\ Forall (fun w => fleb (wait_start_ms w) (wait_end_ms w) = true) waits.
Proof.
  cbv zeta. unfold _assistant_output_start_wait_evidence.
  pose proof (start_waits_ok (_assistant_playback_evidence run) (_run_timeline_duration_ms run) []
    (_provider_response_evidence run)) as Hok.
  split; [apply start_waits_responses|]. split; [exact Hok|].
  split; [by eapply waits_ok_claims|]. eapply waits_ok_spans; [exact Hok|].
  rewrite start_waits_responses. apply responses_start_not_nan.
Qed.
