(* ===== verification/SilenceEvidence.v ===== *)
(** * Silence windows of the media stages

    What [_stage_silence_windows] of [control_plane/run_api.py] computes: the
    maximal runs of silent observations of every stage, and the windows of the
    runs that last long enough, numbered within their stage. *)
From S2P Require Import Prelude Collections PyFloat PyData RunModel Timeline.
From Stdlib Require Import Sorting.Permutation Sorting.Sorted.

Open Scope Z_scope.

Section stage.
Context (run : StoredRun).

Definition bundle : Type := instant * list (string * float).

(** No observation starts too late after the one before it. *)
Definition continuous (l : list silent_observation) : Prop :=
  Forall (fun p => breaks_window [p.1] p.2 = false) (pairwise l).

(** What follows a run does not continue it: nothing, a bundle that is not
    silent, or a silent one that starts too late. *)
Definition run_ends (current : list silent_observation) (rest : list bundle) : Prop :=
  match rest with
  | [] => True
  | b :: _ => match silent_bundle run b with None => True | Some o => breaks_window current o = true end
  end.

(** The maximal runs of silent observations of a list of bundles. *)
Inductive silent_runs : list bundle -> list (list silent_observation) -> Prop :=
| runs_nil : silent_runs [] []
| runs_loud b rest runs :
    silent_bundle run b = None -> silent_runs rest runs -> silent_runs (b :: rest) runs
| runs_silent block rest current runs :
    map (silent_bundle run) block = map Some current -> current <> [] -> continuous current ->
    run_ends current rest -> silent_runs rest runs -> silent_runs (block ++ rest) (current :: runs).

(** A window without its number. *)
Definition window_extent : Type := string * float * float * Z * float.
Definition extent (w : _StageSilenceWindow) : window_extent :=
  (sil_stage w, sil_start_ms w, sil_end_ms w, sil_observation_count w, sil_peak_silence_sample_pct w).

(** The window of a run, when its observations last at least 200 ms. *)
Definition window_of (stage : string) (current : list silent_observation) : option window_extent :=
  match current, py_sum (map obs_duration current) with
  | first :: _, Some duration_ms =>
      if fleb STAGE_SILENCE_MIN_WINDOW_MS duration_ms then
        Some (stage, obs_start first, fadd (obs_start first) duration_ms, len current,
              pymax_list fzero (map obs_silence current))
      else None
  | _, _ => None
  end.

(** The windows of every stage are numbered 0, 1, 2, ... in order. *)
Definition numbered (windows : list _StageSilenceWindow) : Prop :=
  forall stage, map sil_window_index (filterb (fun w => String.eqb (sil_stage w) stage) windows)
    = seqZ 0 (countb (fun w => String.eqb (sil_stage w) stage) windows).

Lemma finish_window_spec stage windows current :
  exists new, finish_window stage windows current = windows ++ new
  /\ map extent new = omap id [window_of stage current]
  /\ (numbered windows -> numbered (windows ++ new)).
Proof.
  unfold finish_window, window_of.
  destruct current as [|first current]; [by exists []; rewrite app_nil_r|].
  destruct (py_sum _) as [duration_ms|]; [|by exists []; rewrite app_nil_r].
  destruct (fleb _ duration_ms); [|by exists []; rewrite app_nil_r].
  eexists [_]. split; [reflexivity|]. split; [done|]. intros Hn s. unfold filterb.
  rewrite List.filter_app, map_app, countb_app. cbn.
  destruct (String.eqb_spec stage s) as [->|_]; cbn; [|by rewrite app_nil_r, Z.add_0_r, <- Hn].
  rewrite Z.add_0_r, seqZ_snoc by apply countb_bounds. by rewrite <- Hn.
Qed.

Lemma finish_nothing stage windows : finish_window stage windows [] = windows.
Proof. reflexivity. Qed.

Lemma breaks_window_last l x o : breaks_window (l ++ [x]) o = breaks_window [x] o.
Proof. unfold breaks_window. by rewrite last_snoc. Qed.

Lemma pairwise_snoc {A} (l : list A) x y : pairwise (l ++ [x; y]) = pairwise (l ++ [x]) ++ [(x, y)].
Proof.
  induction l as [|a l IH]; [done|]. destruct l as [|b l]; [done|].
  cbn [app] in *. change (pairwise (a :: b :: ?t)) with ((a, b) :: pairwise (b :: t)). by rewrite IH.
Qed.

Lemma continuous_snoc current o :
  continuous current -> breaks_window current o = false -> continuous (current ++ [o]).
Proof.
  unfold continuous. intros Hc Hb. destruct current as [|x l _] using rev_ind; [constructor|].
  rewrite <- app_assoc. cbn [app]. rewrite pairwise_snoc. apply Forall_app. split; [done|].
  rewrite breaks_window_last in Hb. by repeat constructor.
Qed.

Lemma silence_step_eq stage windows current b :
  silence_step run stage (windows, current) b
  = match silent_bundle run b with
    | None => (finish_window stage windows current, [])
    | Some o => if breaks_window current o then (finish_window stage windows current, [o])
                else (windows, current ++ [o])
    end.
Proof. reflexivity. Qed.

Lemma omap_head {A B} (f : A -> option B) x (l : list A) : omap id [f x] ++ omap f l = omap f (x :: l).
Proof. cbn [omap list_omap]. unfold id. by destruct (f x). Qed.

(** The loop over the bundles, from a run that is open. *)
Lemma silence_loop stage bundles windows current :
  let s := fold_left (silence_step run stage) bundles (windows, current) in
  continuous current ->
  exists runs new, finish_window stage s.1 s.2 = windows ++ new
  /\ map extent new = omap (window_of stage) runs
  /\ (numbered windows -> numbered (windows ++ new))
  /\ forall block, map (silent_bundle run) block = map Some current -> silent_runs (block ++ bundles) runs.
Proof.
  cbv zeta. revert windows current. induction bundles as [|b bundles IH]; intros windows current Hc.
  - cbn [fold_left fst snd]. destruct (finish_window_spec stage windows current) as (new & Hf & He & Hn).
    destruct current as [|o current].
    + exists [], new. split; [done|]. split; [done|]. split; [done|].
      intros block Hb. apply map_eq_nil in Hb as ->. constructor.
    + exists [o :: current], new. split; [done|]. split; [done|]. split; [done|].
      intros block Hb. apply runs_silent; [done|done|done|done|constructor].
  - cbn [fold_left]. rewrite silence_step_eq. destruct (silent_bundle run b) as [o|] eqn:Eb.
    + destruct (breaks_window current o) eqn:Ew.
      * destruct (finish_window_spec stage windows current) as (new1 & Hf & He & Hn). rewrite Hf.
        destruct (IH (windows ++ new1) [o]) as (runs & new2 & Hs & He2 & Hn2 & Hr); [constructor|].
        exists (current :: runs), (new1 ++ new2). rewrite Hs, app_assoc. split; [done|].
        split; [by rewrite map_app, He, He2, omap_head|].
        split; [auto|]. intros block Hb. apply runs_silent; [done| |done| |].
        -- intros ->. by cbn in Ew.
        -- cbn. by rewrite Eb.
        -- apply (Hr [b]). cbn. by rewrite Eb.
      * destruct (IH windows (current ++ [o])) as (runs & new & Hs & He & Hn & Hr);
          [by apply continuous_snoc|].
        exists runs, new. split; [done|]. split; [done|]. split; [done|]. intros block Hb.
        rewrite (app_assoc block [b] bundles : block ++ b :: bundles = _). apply Hr.
        rewrite !map_app, Hb. cbn. by rewrite Eb.
    + destruct (finish_window_spec stage windows current) as (new1 & Hf & He & Hn). rewrite Hf.
      destruct (IH (windows ++ new1) []) as (runs & new2 & Hs & He2 & Hn2 & Hr); [constructor|].
      specialize (Hr [] eq_refl). cbn [app] in Hr.
      destruct current as [|o current].
      * exists runs, (new1 ++ new2). rewrite Hs, app_assoc. split; [done|].
        split; [by rewrite map_app, He, He2|]. split; [auto|].
        intros block Hb. apply map_eq_nil in Hb as ->. by apply runs_loud.
      * exists ((o :: current) :: runs), (new1 ++ new2). rewrite Hs, app_assoc. split; [done|].
        split; [by rewrite map_app, He, He2, omap_head|]. split; [auto|].
        intros block Hb. apply runs_silent; [done|done|done| |by apply runs_loud].
        cbn. by rewrite Eb.
Qed.

Lemma silence_stage_spec windows stage :
  exists runs new, silence_stage run windows stage = windows ++ new
  /\ silent_runs (_stage_quality_bundles run stage) runs
  /\ map extent new = omap (window_of stage) runs
  /\ (numbered windows -> numbered (windows ++ new)).
Proof.
  destruct (silence_loop stage (_stage_quality_bundles run stage) windows [])
    as (runs & new & Hs & He & Hn & Hr); [constructor|].
  exists runs, new. split; [exact Hs|]. split; [by apply (Hr [])|]. done.
Qed.

Lemma silence_stages_spec stages windows :
  numbered windows ->
  exists runs new, fold_left (silence_stage run) stages windows = windows ++ new
  /\ Forall2 (fun stage => silent_runs (_stage_quality_bundles run stage)) stages runs
  /\ map extent new = concat (zip_with (fun stage => omap (window_of stage)) stages runs)
  /\ numbered (windows ++ new).
Proof.
  revert windows. induction stages as [|stage stages IH]; intros windows Hn.
  - exists [], []. rewrite app_nil_r. by repeat constructor.
  - cbn [fold_left]. destruct (silence_stage_spec windows stage) as (r & new1 & -> & Hr & He & Hn1).
    destruct (IH (windows ++ new1)) as (rs & new2 & -> & Hrs & He2 & Hn2); [auto|].
    exists (r :: rs), (new1 ++ new2). rewrite app_assoc. split; [done|]. split; [by constructor|].
    split; [|done]. rewrite map_app, He, He2. reflexivity.
Qed.
End stage.

(** The silence windows of a run are exact: the quality bundles of every
    pipeline stage split into maximal runs of silent observations (both
    values present, a duration not at or below 0, a share of silent samples not
    below 98 %, and none starting too late after the one before it), and the
    windows of the stage are, in order, those of
    the runs whose durations sum to at least 200 ms, with the run's start, the
    start plus the sum as end, its number of observations and its peak; they
    are numbered from 0 within their stage.  Only an unreadable pipeline makes
    the function fail. *)
Theorem silence_windows_exact run :
  match _pipeline_stage_names run with
  | Raise k e => _stage_silence_windows run = Raise k e
  | Ok stages => exists windows runs, _stage_silence_windows run = Ok windows
      /\ Forall2 (fun stage => silent_runs run (_stage_quality_bundles run stage)) stages runs
      /\ map extent windows = concat (zip_with (fun stage => omap (window_of stage)) stages runs)
      /\ numbered windows
  end.
Proof.
  unfold _stage_silence_windows. destruct (_pipeline_stage_names run) as [stages|]; [|done].
  destruct (silence_stages_spec run stages []) as (runs & windows & Hw & Hr & He & Hn); [done|].
  exists windows, runs. cbn [mbind result_bind]. by rewrite Hw.
Qed.
