(* ===== verification/TypedTimeline.v ===== *)
(** * The typed timeline of a run

    [StoredRun.to_timeline] of [control_plane/run_api.py] and the functions it
    assembles: the typed events, intervals, series and artifacts made from the
    evidence of Timeline and RtpEvidence.  The incidents are in Incidents. *)
From S2P Require Import Prelude Collections PyFloat PyData PyFormat RunModel Timeline RtpEvidence ResponseEvidence.
From Stdlib Require Import QArith Lqa.
From Stdlib Require Import Sorting.Sorted.

Open Scope Z_scope.

(** ** Records *)

Record TimelineTypedEvent := MkTypedEvent {
  te_event_id : string; te_category : string; te_name : string; te_t_rel_ms : float;
  te_clock_domain : string; te_alignment_uncertainty_ms : option float; te_direction : option string;
  te_stage : option string; te_stream_alias : option string; te_source : string;
  te_correlation_alias : option string; te_attributes : jdict }.

Record TimelineTypedInterval := MkInterval {
  ti_interval_id : string; ti_category : string; ti_name : string; ti_start_ms : float; ti_end_ms : float;
  ti_clock_domain : string; ti_alignment_uncertainty_ms : option float; ti_direction : option string;
  ti_stage : option string; ti_stream_alias : option string; ti_source : string;
  ti_correlation_alias : option string; ti_attributes : jdict }.

Record TimelineSeriesPoint := MkPoint { pt_t_rel_ms : float; pt_value : float }.

Record TimelineTypedSeries := MkSeries {
  ts_series_id : string; ts_category : string; ts_name : string; ts_unit : option string;
  ts_clock_domain : string; ts_direction : option string; ts_stage : option string;
  ts_stream_alias : option string; ts_source : string; ts_points : list TimelineSeriesPoint }.

Record TimelineTypedArtifact := MkArtifact {
  ta_artifact_id : string; ta_category : string; ta_name : string; ta_kind : string; ta_start_ms : float;
  ta_duration_ms : option float; ta_stage : option string; ta_artifact_ref : string; ta_metadata : jdict }.

Definition TIMELINE_CATEGORIES : list string :=
  ["conversation"; "signaling"; "transport"; "buffer"; "pipeline"; "provider"; "runtime"; "session"].

(** A category outside the literal type does not validate. *)
Definition typed_category (category : string) : result string :=
  if bool_decide (category ∈ TIMELINE_CATEGORIES) then Ok category
  else Raise ValueError "Input should be a timeline category".

(** ** Tables *)

Definition _TIMELINE_EVENT_METRICS : list (string * string) :=
  [("barge_in_events", "conversation"); ("dtmf_events", "conversation"); ("output_frames_dropped", "buffer");
   ("provider_auto_interrupts", "provider"); ("provider_input_speech_started", "conversation");
   ("provider_interrupt_requests", "provider"); ("provider_interrupted", "provider");
   ("provider_response_done", "provider"); ("provider_response_started", "provider");
   ("provider_stream_ended", "provider"); ("provider_stream_errors", "provider");
   ("provider_truncate_requests", "provider")].

Definition _TYPED_BARGE_IN_METRICS : list string :=
  ["barge_in_events"; "output_frames_dropped"; "provider_auto_interrupts"; "provider_input_speech_started";
   "provider_interrupt_requests"; "provider_interrupted"; "provider_truncate_requests"].

Definition _TIMELINE_UNITS : list (string * string) :=
  [("active_tasks", "count"); ("audio_chunk_duration_ms", "ms"); ("cpu", "percent"); ("delta_db", "dB");
   ("frame_cadence_jitter_ms", "ms"); ("frames_in", "count"); ("frames_out", "count"); ("gain_applied", "ratio");
   ("full_scale_sample_pct", "percent"); ("input_rms", "pcm-rms"); ("jitter_ms", "ms"); ("loop_lag", "ms");
   ("loss_pct", "percent"); ("mos", "score"); ("output_frames_dropped", "count"); ("output_rms", "pcm-rms");
   ("provider_input_rms", "pcm-rms"); ("rtt_ms", "ms"); ("sample_peak_dbfs", "dBFS");
   ("silence_sample_pct", "percent")].

Definition _timeline_unit (name : string) : option string :=
  match dict_get name _TIMELINE_UNITS with
  | Some u => Some u
  | None =>
      if endswith name "_ms" then Some "ms"
      else if endswith name "_pct" then Some "percent"
      else if endswith name "_events" || endswith name "_failures" then Some "count"
      else None
  end.

Definition _metric_timeline_category (m : MetricArtifact) : string :=
  match metric_stage m with
  | Some _ => "pipeline"
  | None =>
      if bool_decide (metric_name m ∈ ["barge_in_events"; "dtmf_events"]) then "conversation"
      else if String.eqb (metric_name m) "output_frames_dropped" then "buffer"
      else if startswith (metric_name m) "provider_" then "provider"
      else "runtime"
  end.

(** ** Small pieces *)

(** [s or fallback] on an optional text. *)
Definition or_else (s : option string) (fallback : string) : string :=
  match s with Some s => if String.eqb s "" then fallback else s | None => fallback end.

Definition jfloat_opt (x : option float) : json := match x with Some x => JFloat x | None => JNull end.
Definition jstr_opt (s : option string) : json := match s with Some s => JStr s | None => JNull end.
Definition json_or_none (v : option json) : json := match v with Some v => v | None => JNull end.

(** [{**d, k: v, ...}]. *)
Definition dict_update (d items : jdict) : jdict := fold_left (fun d kv => dict_set kv.1 kv.2 d) items d.

Definition rtp_stream (direction : option string) : string := "rtp-" +:+ or_else direction "unknown".

Definition response_start_id (r : _ProviderResponseEvidence) : string := response_alias r +:+ ":start".
Definition response_done_id (r : _ProviderResponseEvidence) : option string :=
  if completed r then Some (response_alias r +:+ ":done") else None.
Definition discontinuity_id (d : _RtpPacketDiscontinuityEvidence) : string := discontinuity_alias d +:+ ":observed".
Definition signal_id (s : _StageSignalEvidence) : string := "stage-signal:" +:+ sig_stage s.
Definition contraction_id (d : _DurationContractionEvidence) : string :=
  "duration-contraction:" +:+ pretty (dur_verification_index d).
Definition contraction_alias (d : _DurationContractionEvidence) : string :=
  "media-time:" +:+ dur_stage d +:+ ":" +:+ pretty (dur_verification_index d).
Definition full_scale_id (f : _StageFullScaleEvidence) : string := "stage-full-scale:" +:+ fs_stage f.
Definition silence_start_id (w : _StageSilenceWindow) : string := silence_alias w +:+ ":start".
Definition gap_alias (g : _AssistantPlaybackGapEvidence) : string :=
  "assistant-playback-gap:" +:+ pretty (gap_index g).
Definition quality_id (q : _RtpQualityEvidence) (trigger : string) : string :=
  "rtp:" +:+ pretty (q_stat_index q) +:+ ":" +:+ trigger.

Definition window_direction (w : list _RtpQualityEvidence) : option string :=
  match w with q :: _ => q_direction q | [] => None end.

Definition _rtp_window_alias (window_index : Z) (w : list _RtpQualityEvidence) : string :=
  "rtp-degradation:" +:+ or_else (window_direction w) "unknown" +:+ ":" +:+ pretty window_index.

(** The attributes of the stop event of an activity. *)
Definition stop_attribute (name : string) (a : _CorrelatedActivityEvidence) : json :=
  match act_stop_event a with Some e => json_or_none (jget name (ev_attributes e)) | None => JNull end.

(** ** Typed events *)

Definition sip_typed_event (run : StoredRun) (x : Z * SipEventResponse) : TimelineTypedEvent :=
  let '(index, e) := x in
  MkTypedEvent ("sip:" +:+ pretty index) "signaling" ("sip." +:+ lower (sip_method e)) (rel_ms run (sip_ts e))
    "control_plane_wall" None (Some (sip_direction e)) None None "sip_event" None
    ([("method", JStr (sip_method e))]
     ++ match sip_status_code e with Some c => [("status_code", JInt c)] | None => [] end
     ++ match sip_summary_alias e with Some a => [("summary_alias", JStr a)] | None => [] end).

Definition persisted_event (run : StoredRun) (e : TimelineEventArtifact) : result TimelineTypedEvent :=
  category ← typed_category (ev_category e);
  Ok (MkTypedEvent (ev_event_id e) category (ev_name e) (rel_ms run (ev_ts e)) (ev_clock_domain e)
        (ev_alignment_uncertainty_ms e) (ev_direction e) (ev_stage e) (ev_stream_alias e) (ev_source e)
        (ev_correlation_alias e) (ev_attributes e)).

Definition shown (e : TimelineEventArtifact) : bool := negb (String.eqb (ev_name e) "rtp.packet_arrived").

(** The observations that belong to a provider response. *)
Definition response_indices (run : StoredRun) : list Z :=
  concat (map (fun r => start_observation_index r :: match done_observation_index r with Some i => [i] | None => [] end)
    (_provider_response_evidence run)).

(** The category of the typed event of an observed metric, if it gets one. *)
Definition metric_event_category (run : StoredRun) (x : Z * MetricArtifact) : option string :=
  let '(observation_index, m) := x in
  match dict_get (metric_name m) _TIMELINE_EVENT_METRICS with
  | None => None
  | Some category =>
      if fleb (metric_value m) fzero
         || bool_decide (observation_index ∈ response_indices run)
         || bool_decide (metric_name m ∈ map ev_name (timeline_events run))
         || (negb (bool_decide (timeline_events run = [])) && bool_decide (metric_name m ∈ _TYPED_BARGE_IN_METRICS))
      then None else Some category
  end.

Definition metric_event_step (run : StoredRun) (s : list TimelineTypedEvent) (x : Z * MetricArtifact)
    : list TimelineTypedEvent :=
  match metric_event_category run x with
  | None => s
  | Some category =>
      let m := x.2 in
      s ++ [MkTypedEvent ("metric-event:" +:+ pretty (len s)) category (metric_name m) (rel_ms run (metric_ts m))
              "control_plane_wall" None None (metric_stage m) None "metric_observation" None
              [("value", JFloat (metric_value m))]]
  end.

Definition metric_events (run : StoredRun) : list TimelineTypedEvent :=
  fold_left (metric_event_step run) (enumerate (metrics run)) [].

Definition response_events (r : _ProviderResponseEvidence) : list TimelineTypedEvent :=
  MkTypedEvent (response_start_id r) "provider" "provider.response_started" (resp_start_ms r) "control_plane_wall"
    None (Some "assistant_to_caller") None None "provider_lifecycle_metrics" (Some (response_alias r))
    [("completion_observed", JBool (completed r))]
  :: match response_done_id r with
     | Some id =>
         [MkTypedEvent id "provider" "provider.response_done" (resp_end_ms r) "control_plane_wall" None
            (Some "assistant_to_caller") None None "provider_lifecycle_metrics" (Some (response_alias r))
            [("completion_observed", JBool true);
             ("duration_ms", JFloat (fsub (resp_end_ms r) (resp_start_ms r)))]]
     | None => []
     end.

Definition is_sequence_gap (d : _RtpPacketDiscontinuityEvidence) : bool := bool_decide (di_kind d = sequence_gap).

Definition discontinuity_event (d : _RtpPacketDiscontinuityEvidence) : TimelineTypedEvent :=
  let current := di_current d in
  MkTypedEvent (discontinuity_id d) "transport"
    (if is_sequence_gap d then "rtp.sequence_gap_observed" else "rtp.arrival_stall_observed")
    (po_t_rel_ms current) (ev_clock_domain (po_event current)) (_rtp_pair_alignment_uncertainty_ms d)
    (Some (po_direction current)) None (Some (po_stream_alias current)) "rtp_packet_cadence_rule_v1"
    (Some (discontinuity_alias d))
    ([("previous_sequence_number", JInt (po_sequence_number (di_previous d)));
      ("current_sequence_number", JInt (po_sequence_number current));
      ("sequence_delta", JInt (di_sequence_delta d)); ("missing_packet_count", JInt (di_missing_packet_count d));
      ("arrival_gap_ms", JFloat (di_arrival_gap_ms d)); ("media_advance_ms", JFloat (di_media_advance_ms d));
      ("excess_arrival_delay_ms", JFloat (di_excess_arrival_delay_ms d));
      ("payload_type", JInt (po_payload_type current)); ("clock_rate_hz", JInt (po_clock_rate_hz current))]
     ++ _rtp_capture_attributes d).

Definition signal_event (s : _StageSignalEvidence) : TimelineTypedEvent :=
  MkTypedEvent (signal_id s) "pipeline"
    (if fltb fzero (sig_delta_db s) then "stage.level_increased" else "stage.level_decreased") (sig_t_rel_ms s)
    "control_plane_wall" None None (Some (sig_stage s)) None "stage_signal_metrics" (Some (signal_id s))
    [("input_rms", jfloat_opt (sig_input_rms s)); ("output_rms", jfloat_opt (sig_output_rms s));
     ("delta_db", JFloat (sig_delta_db s)); ("gain_applied", jfloat_opt (sig_gain_applied s));
     ("sample_count", JInt (sig_sample_count s)); ("event_threshold_db", JFloat STAGE_LEVEL_EVENT_THRESHOLD_DB)].

Definition full_scale_event (f : _StageFullScaleEvidence) : TimelineTypedEvent :=
  MkTypedEvent (full_scale_id f) "pipeline" "stage.full_scale_samples_detected" (fs_t_rel_ms f)
    "control_plane_wall" None None (Some (fs_stage f)) None "pcm_sample_quality" (Some (full_scale_id f))
    [("previous_stage", jstr_opt (fs_previous_stage f));
     ("full_scale_sample_pct", JFloat (fs_full_scale_sample_pct f));
     ("sample_peak_dbfs", jfloat_opt (fs_sample_peak_dbfs f)); ("sample_count", JInt (fs_sample_count f));
     ("clipping_status", JStr "suspected")].

Definition silence_event (w : _StageSilenceWindow) : TimelineTypedEvent :=
  MkTypedEvent (silence_start_id w) "pipeline" "stage.digital_silence_started" (sil_start_ms w)
    "control_plane_wall" None None (Some (sil_stage w)) None "pcm_sample_quality" (Some (silence_alias w))
    [("duration_ms", JFloat (fsub (sil_end_ms w) (sil_start_ms w)));
     ("observation_count", JInt (sil_observation_count w));
     ("peak_silence_sample_pct", JFloat (sil_peak_silence_sample_pct w));
     ("silence_threshold_dbfs", JFloat STAGE_SILENCE_THRESHOLD_DBFS)].

Definition contraction_event (d : _DurationContractionEvidence) : TimelineTypedEvent :=
  MkTypedEvent (contraction_id d) "pipeline" "stage.media_time_contracted" (dur_output_duration_ms d)
    "recording_media_time" None None (Some (dur_stage d)) None "duration_verification" (Some (contraction_alias d))
    [("previous_stage", jstr_opt (dur_previous_stage d)); ("input_duration_ms", JFloat (dur_input_duration_ms d));
     ("output_duration_ms", JFloat (dur_output_duration_ms d));
     ("missing_duration_ms", JFloat (missing_duration_ms d)); ("duration_ratio", JFloat (dur_duration_ratio d))].

Definition quality_event (alias : string) (q : _RtpQualityEvidence) (trigger : string) : TimelineTypedEvent :=
  let '(name, attributes) :=
    if String.eqb trigger "loss" then
      ("rtp.loss_elevated", [("loss_pct", jfloat_opt (q_loss_pct q));
                             ("warning_threshold_pct", JFloat RTP_LOSS_WARNING_PCT)])
    else if String.eqb trigger "jitter" then
      ("rtp.jitter_elevated", [("jitter_ms", jfloat_opt (q_jitter_ms q));
                               ("warning_threshold_ms", JFloat RTP_JITTER_WARNING_MS)])
    else ("rtp.mos_degraded", [("mos", jfloat_opt (q_mos q));
                               ("warning_below_or_equal", JFloat RTP_MOS_WARNING_SCORE)]) in
  MkTypedEvent (quality_id q trigger) "transport" name (q_t_rel_ms q) "control_plane_wall" None (q_direction q)
    None (Some (rtp_stream (q_direction q))) "rtp_quality_rule_v1" (Some alias) attributes.

Definition window_events (x : Z * list _RtpQualityEvidence) : list TimelineTypedEvent :=
  let '(window_index, window) := x in
  concat (map (fun q => map (quality_event (_rtp_window_alias window_index window) q) (q_triggers q)) window).

Definition failure_event (run : StoredRun) : list TimelineTypedEvent :=
  match failure_alias run with
  | Some alias =>
      [MkTypedEvent "run:failure" "session" "run_failed"
         (rel_ms run (match ended_at run with Some t => t | None => started_at run end)) "control_plane_wall" None
         None None None "run_state" None [("failure_alias", JStr alias)]]
  | None => []
  end.

Definition typed_event_le (a b : TimelineTypedEvent) : bool :=
  by_float (te_t_rel_ms a) (te_t_rel_ms b) (str_leb (te_event_id a) (te_event_id b)).

Definition _typed_timeline_events (run : StoredRun) : result (list TimelineTypedEvent) :=
  persisted ← mapM_res (persisted_event run) (filterb shown (timeline_events run));
  discontinuities ← _rtp_packet_discontinuity_evidence run;
  signals ← _stage_signal_evidence run;
  full_scale ← _stage_full_scale_evidence run;
  silences ← _stage_silence_windows run;
  contractions ← _duration_contraction_evidence run;
  Ok (sorted_by typed_event_le
        (map (sip_typed_event run) (enumerate (sip_events run)) ++ persisted ++ metric_events run
         ++ concat (map response_events (_provider_response_evidence run))
         ++ map discontinuity_event discontinuities ++ map signal_event signals ++ map full_scale_event full_scale
         ++ map silence_event silences ++ map contraction_event contractions
         ++ concat (map window_events (enumerate (_rtp_quality_windows run))) ++ failure_event run)).

(** ** Typed intervals *)

(** [int(run.started_at.timestamp() * 1_000_000_000)]. *)
Definition origin_ns (run : StoredRun) : result Z :=
  py_int (fmul (total_seconds (started_at run)) (fz 1000000000)).

Definition span_interval (origin : Z) (x : Z * SpanArtifact) : result TimelineTypedInterval :=
  let '(index, span) := x in
  let stage := jstr (jget "voxbench.stage" (span_attrs span)) in
  start ← int_truediv (span_start_ns span - origin) 1000000;
  stop ← int_truediv (span_end_ns span - origin) 1000000;
  let start_ms := pymax fzero start in
  let end_ms := pymax start_ms stop in
  Ok (MkInterval ("span:" +:+ pretty index) (match stage with Some _ => "pipeline" | None => "session" end)
        (span_name span) start_ms end_ms "otel_epoch_ns" None None stage None "otel_span" None
        [("duration_ms", JFloat (fsub end_ms start_ms))]).

Definition discontinuity_interval (d : _RtpPacketDiscontinuityEvidence) : TimelineTypedInterval :=
  let start_ms := po_t_rel_ms (di_previous d) in
  let end_ms := po_t_rel_ms (di_current d) in
  MkInterval (discontinuity_alias d) "transport"
    (if is_sequence_gap d then "rtp_sequence_gap" else "rtp_arrival_stall") start_ms end_ms
    (ev_clock_domain (po_event (di_current d))) (_rtp_pair_alignment_uncertainty_ms d)
    (Some (po_direction (di_current d))) None (Some (po_stream_alias (di_current d))) "rtp_packet_cadence_rule_v1"
    (Some (discontinuity_alias d))
    ([("duration_ms", JFloat (fsub end_ms start_ms)); ("sequence_delta", JInt (di_sequence_delta d));
      ("missing_packet_count", JInt (di_missing_packet_count d)); ("arrival_gap_ms", JFloat (di_arrival_gap_ms d));
      ("media_advance_ms", JFloat (di_media_advance_ms d));
      ("excess_arrival_delay_ms", JFloat (di_excess_arrival_delay_ms d))] ++ _rtp_capture_attributes d).

Definition response_interval (r : _ProviderResponseEvidence) : TimelineTypedInterval :=
  MkInterval (response_alias r) "provider" "provider_response" (resp_start_ms r) (resp_end_ms r) "control_plane_wall"
    None (Some "assistant_to_caller") None None "provider_lifecycle_metrics" (Some (response_alias r))
    [("duration_ms", JFloat (fsub (resp_end_ms r) (resp_start_ms r))); ("completion_observed", JBool (completed r))].

Definition speech_interval (a : _CorrelatedActivityEvidence) : TimelineTypedInterval :=
  MkInterval ("caller-speech:" +:+ act_correlation_alias a) "conversation" "caller_speech" (act_start_ms a)
    (act_end_ms a) "control_plane_wall" None (Some "caller_to_assistant") None None "audiosocket_bridge"
    (Some (act_correlation_alias a))
    [("duration_ms", JFloat (fsub (act_end_ms a) (act_start_ms a)));
     ("completion_observed", JBool (act_completion_observed a)); ("stop_reason", stop_attribute "stop_reason" a);
     ("observation_boundary", JStr "provider_input_vad")].

Definition playback_interval (a : _CorrelatedActivityEvidence) : TimelineTypedInterval :=
  MkInterval ("assistant-playback:" +:+ act_correlation_alias a) "conversation" "assistant_playback" (act_start_ms a)
    (act_end_ms a) "control_plane_wall" None (Some "assistant_to_caller") None None "audiosocket_bridge"
    (Some (act_correlation_alias a))
    [("duration_ms", JFloat (fsub (act_end_ms a) (act_start_ms a)));
     ("completion_observed", JBool (act_completion_observed a));
     ("written_audio_ms", stop_attribute "written_audio_ms" a); ("stop_reason", stop_attribute "stop_reason" a);
     ("observation_boundary", JStr "audiosocket_frame_write"); ("remote_playout_observed", JBool false)].

Definition wait_interval (w : _AssistantOutputStartWaitEvidence) : TimelineTypedInterval :=
  let r := wait_response w in
  MkInterval ("assistant-output-start-wait:" +:+ pretty (response_index r)) "provider" "assistant_output_start_wait"
    (wait_start_ms w) (wait_end_ms w) "control_plane_wall" None (Some "assistant_to_caller") None None
    "provider_playback_correlation" (Some (response_alias r))
    [("duration_ms", JFloat (wait_ms w));
     ("playback_started", JBool (match wait_playback w with Some _ => true | None => false end));
     ("playback_correlation_alias", jstr_opt (act_correlation_alias <$> wait_playback w));
     ("provider_completion_observed", JBool (completed r));
     ("observation_boundary", JStr "provider_response_start_to_audiosocket_first_frame_write");
     ("latency_threshold_status", JStr "not_configured")].

Definition gap_ms (g : _AssistantPlaybackGapEvidence) : float := fsub (gap_end_ms g) (gap_start_ms g).

Definition gap_interval (underrun_gap_aliases : list string) (g : _AssistantPlaybackGapEvidence)
    : TimelineTypedInterval :=
  MkInterval (gap_alias g) "buffer" "assistant_playback_gap" (gap_start_ms g) (gap_end_ms g) "control_plane_wall" None
    (Some "assistant_to_caller") None None "audiosocket_bridge" (Some (gap_alias g))
    [("duration_ms", JFloat (gap_ms g));
     ("previous_playback_alias", JStr (act_correlation_alias (gap_previous g)));
     ("next_playback_alias", JStr (act_correlation_alias (gap_next g)));
     ("incident_status", JStr (if bool_decide (gap_alias g ∈ underrun_gap_aliases)
                               then "assistant_playback_underrun_suspected"
                               else "evidence_only_without_provider_response_context"));
     ("remote_playout_observed", JBool false)].

Definition silence_interval (dead_air_silence_aliases : list string) (w : _StageSilenceWindow)
    : TimelineTypedInterval :=
  MkInterval (silence_alias w) "pipeline" "digital_silence" (sil_start_ms w) (sil_end_ms w) "control_plane_wall" None
    None (Some (sil_stage w)) None "pcm_sample_quality" (Some (silence_alias w))
    [("duration_ms", JFloat (fsub (sil_end_ms w) (sil_start_ms w)));
     ("observation_count", JInt (sil_observation_count w));
     ("peak_silence_sample_pct", JFloat (sil_peak_silence_sample_pct w));
     ("incident_status", JStr (if bool_decide (silence_alias w ∈ dead_air_silence_aliases)
                               then "assistant_output_dead_air_suspected"
                               else "evidence_only_without_speech_context"))].

Definition BARGE_IN_EVENTS : list string :=
  ["provider_input_speech_started"; "provider_interrupted"; "provider_auto_interrupt_confirmed";
   "provider_interrupt_requested"; "provider_truncate_requested"; "provider_output_audio_chunk_received";
   "playback_frame_enqueued_before_barge_in"; "playback_partial_frame_buffered_before_barge_in";
   "playback_queue_cleared"; "barge_in_completed"].

Definition _correlated_barge_in_events (run : StoredRun) : list (string * list TimelineEventArtifact) :=
  let relevant := filterb (fun e =>
      (match ev_correlation_alias e with Some _ => true | None => false end)
      && bool_decide (ev_name e ∈ BARGE_IN_EVENTS)) (timeline_events run) in
  map (fun g => (g.1, sorted_by event_le g.2)) (group_by event_alias relevant).

(** [min(events, key=lambda event: event.ts)]: the first of the earliest. *)
Definition earliest (events : list TimelineEventArtifact) : option TimelineEventArtifact :=
  match events with
  | [] => None
  | e :: l => Some (fold_left (fun best e => if ev_ts e <? ev_ts best then e else best) l e)
  end.

(** The first and the completing event of a barge-in, with its times. *)
Definition barge_in_span (run : StoredRun) (events : list TimelineEventArtifact)
    : option (TimelineEventArtifact * float * float) :=
  match earliest events, next_match (fun e => String.eqb (ev_name e) "barge_in_completed") (rev events) with
  | Some start, Some completed =>
      let start_ms := rel_ms run (ev_ts start) in
      Some (completed, start_ms, pymax start_ms (rel_ms run (ev_ts completed)))
  | _, _ => None
  end.

Definition barge_in_interval (run : StoredRun) (g : string * list TimelineEventArtifact)
    : option TimelineTypedInterval :=
  match barge_in_span run g.2 with
  | None => None
  | Some (_, start_ms, end_ms) =>
      Some (MkInterval ("barge-in:" +:+ g.1) "conversation" "barge_in" start_ms end_ms "control_plane_wall" None
              (Some "caller_to_assistant") None None "audiosocket_bridge" (Some g.1)
              [("duration_ms", JFloat (fsub end_ms start_ms))])
  end.

(** [sorted({trigger for item in window for trigger in item.triggers})]. *)
Definition window_triggers (window : list _RtpQualityEvidence) : list string :=
  sorted_by str_leb (remove_dups (concat (map q_triggers window))).

Definition window_start (window : list _RtpQualityEvidence) : float :=
  match window with q :: _ => q_t_rel_ms q | [] => fzero end.
Definition window_end (window : list _RtpQualityEvidence) : float :=
  pymax (window_start window) (match last window with Some q => q_t_rel_ms q | None => fzero end).

Definition window_interval (x : Z * list _RtpQualityEvidence) : TimelineTypedInterval :=
  let '(window_index, window) := x in
  let alias := _rtp_window_alias window_index window in
  MkInterval alias "transport" "rtp_quality_degradation" (window_start window) (window_end window)
    "control_plane_wall" None (window_direction window) None (Some (rtp_stream (window_direction window)))
    "rtp_quality_rule_v1" (Some alias)
    [("duration_ms", JFloat (fsub (window_end window) (window_start window)));
     ("sample_count", JInt (len window)); ("triggers", JArr (map JStr (window_triggers window)))].

Definition contraction_interval (d : _DurationContractionEvidence) : TimelineTypedInterval :=
  MkInterval ("media-time-missing:" +:+ pretty (dur_verification_index d)) "pipeline" "media_time_missing"
    (dur_output_duration_ms d) (dur_input_duration_ms d) "recording_media_time" None None (Some (dur_stage d)) None
    "duration_verification" (Some (contraction_alias d))
    [("previous_stage", jstr_opt (dur_previous_stage d)); ("missing_duration_ms", JFloat (missing_duration_ms d));
     ("duration_ratio", JFloat (dur_duration_ratio d))].

Definition interval_le (a b : TimelineTypedInterval) : bool :=
  by_float (ti_start_ms a) (ti_start_ms b) (str_leb (ti_interval_id a) (ti_interval_id b)).

Definition underrun_gap_aliases (run : StoredRun) : list string :=
  map (fun u => gap_alias (underrun_gap u)) (_assistant_playback_underrun_evidence run).

Definition _typed_timeline_intervals (run : StoredRun) : result (list TimelineTypedInterval) :=
  origin ← origin_ns run;
  spans ← mapM_res (span_interval origin) (enumerate (spans run));
  discontinuities ← _rtp_packet_discontinuity_evidence run;
  dead_air ← _assistant_output_dead_air_evidence run;
  silences ← _stage_silence_windows run;
  contractions ← _duration_contraction_evidence run;
  let dead_air_silence_aliases := map (fun d => silence_alias (da_silence d)) dead_air in
  Ok (sorted_by interval_le
        (spans ++ map discontinuity_interval discontinuities
         ++ map response_interval (_provider_response_evidence run)
         ++ map speech_interval (_caller_speech_evidence run)
         ++ map playback_interval (_assistant_playback_evidence run)
         ++ map wait_interval (_assistant_output_start_wait_evidence run)
         ++ map (gap_interval (underrun_gap_aliases run)) (_assistant_playback_gap_evidence run)
         ++ map (silence_interval dead_air_silence_aliases) silences
         ++ omap (barge_in_interval run) (_correlated_barge_in_events run)
         ++ map window_interval (enumerate (_rtp_quality_windows run))
         ++ map contraction_interval contractions)).

(** ** Typed series *)

(** [str(part)] of an optional part of a key. *)
Definition part_text (s : option string) : string := match s with Some s => s | None => "None" end.

Definition metric_key (m : MetricArtifact) : string * option string * string :=
  (_metric_timeline_category m, metric_stage m, metric_name m).

Definition metric_key_le (a b : string * option string * string) : bool :=
  by_str a.1.1 b.1.1 (by_str (part_text a.1.2) (part_text b.1.2) (str_leb a.2 b.2)).

Definition point_le (a b : TimelineSeriesPoint) : bool := fleb (pt_t_rel_ms a) (pt_t_rel_ms b).

Definition metric_point (run : StoredRun) (m : MetricArtifact) : TimelineSeriesPoint :=
  MkPoint (rel_ms run (metric_ts m)) (metric_value m).

Definition metric_series (run : StoredRun)
    (x : Z * (string * option string * string * list MetricArtifact)) : TimelineTypedSeries :=
  let '(index, ((category, stage, name), group)) := x in
  MkSeries ("metric:" +:+ pretty index) category name (_timeline_unit name) "control_plane_wall" None stage None
    "metric_observation" (sorted_by point_le (map (metric_point run) group)).

(** The values of a stat that are present, with the direction and name of
    their series. *)
Definition stat_values (run : StoredRun) (s : RtpStatResponse)
    : list (option string * string * TimelineSeriesPoint) :=
  omap (fun v : string * option float =>
      match v.2 with
      | Some x => Some (rtp_direction s, v.1, MkPoint (rel_ms run (rtp_ts s)) x)
      | None => None
      end)
    [("jitter_ms", rtp_jitter_ms s); ("loss_pct", rtp_loss_pct s); ("mos", rtp_mos s); ("rtt_ms", rtp_rtt_ms s)].

Definition rtp_key_le (a b : option string * string) : bool :=
  by_str (part_text a.1) (part_text b.1) (str_leb a.2 b.2).

Definition rtp_series (x : Z * (option string * string * list (option string * string * TimelineSeriesPoint)))
    : TimelineTypedSeries :=
  let '(index, ((direction, name), group)) := x in
  MkSeries ("rtp:" +:+ pretty index) "transport" name (_timeline_unit name) "control_plane_wall" direction None
    (Some (rtp_stream direction)) "rtp_stats" (sorted_by point_le (map snd group)).

Definition _typed_timeline_series (run : StoredRun) : list TimelineTypedSeries :=
  map (metric_series run)
    (enumerate (sorted_by (fun a b => metric_key_le a.1 b.1) (group_by metric_key (metrics run))))
  ++ map rtp_series
    (enumerate (sorted_by (fun a b => rtp_key_le a.1 b.1)
       (group_by fst (concat (map (stat_values run) (rtp_stats run)))))).

(** ** Artifacts *)

Definition typed_artifact (x : Z * RecordingArtifact) : TimelineTypedArtifact :=
  let '(index, r) := x in
  MkArtifact ("recording:" +:+ pretty index) "pipeline" (rec_stage r +:+ " recording") "audio" fzero
    (Some (rec_duration_ms r)) (Some (rec_stage r)) ("recording:" +:+ rec_stage r) [("format", JObj (rec_format r))].

Definition _typed_timeline_artifacts (run : StoredRun) : list TimelineTypedArtifact :=
  map typed_artifact (enumerate (recordings run)).

(** ** Where evidence comes from *)

Lemma activity_sources run start_name stop_name a :
  a ∈ _correlated_activity_evidence run start_name stop_name ->
  (act_start_event a ∈ timeline_events run /\ ev_name (act_start_event a) = start_name)
  /\ (forall e, act_stop_event a = Some e -> e ∈ timeline_events run /\ ev_name e = stop_name).
Proof.
  intros Ha. unfold _correlated_activity_evidence in Ha. rewrite elem_of_sorted_by in Ha.
  apply list_elem_of_omap in Ha as ([alias events] & Hg & Ha). cbn [fst snd] in Ha.
  unfold activity_of in Ha.
  destruct (next_match _ (sorted_by event_le events)) as [start|] eqn:Es in Ha; [|done]. injection Ha as <-.
  assert (forall e, e ∈ sorted_by event_le events -> e ∈ timeline_events run) as Hin.
  { intros e He. rewrite elem_of_sorted_by in He. destruct (group_by_member _ _ _ _ _ Hg He) as [He' _].
    by apply elem_of_filterb in He' as [? _]. }
  apply next_match_some in Es as [Es1 Es2%String.eqb_eq]. cbn [act_start_event act_stop_event]. split; [by split; auto|].
  intros e [He [Hn%String.eqb_eq _]%andb_true_iff]%next_match_some. auto.
Qed.

Lemma barge_in_sources run alias events e :
  (alias, events) ∈ _correlated_barge_in_events run -> e ∈ events ->
  e ∈ timeline_events run /\ ev_name e ∈ BARGE_IN_EVENTS.
Proof.
  intros Hg He. unfold _correlated_barge_in_events in Hg. apply list_elem_of_fmap in Hg as ([a l] & [= -> ->] & Hg).
  cbn [snd] in He. rewrite elem_of_sorted_by in He. destruct (group_by_member _ _ _ _ _ Hg He) as [He' _].
  apply elem_of_filterb in He' as [? [_ Hn%bool_decide_eq_true]%andb_true_iff]. done.
Qed.

Lemma health_sources run reports h : _rtp_capture_health_reports run = Ok reports -> h ∈ reports ->
  ch_event h ∈ timeline_events run /\ ev_name (ch_event h) = "rtp.capture_health_reported".
Proof.
  unfold _rtp_capture_health_reports. intros (found & Hf%mapM_res_ok & [= <-])%bind_ok_inv Hh.
  rewrite elem_of_sorted_by in Hh. apply list_elem_of_omap in Hh as (o & Ho & Hh). cbn in Hh. subst o.
  destruct (list_elem_of_lookup_1 _ _ Ho) as [i Hi]. destruct (Forall2_lookup_r _ _ _ _ _ Hf Hi) as ([n e] & He & Hx).
  apply list_elem_of_lookup_2, elem_of_enumerate in He.
  unfold health_of in Hx. destruct (stream_event _ e) as [[alias direction]|] eqn:Ee; [|done].
  apply bind_ok_inv in Hx as (window & _ & Hx).
  revert Hx. do 6 (case_match; try done). intros [= <-]. cbn [ch_event].
  unfold stream_event in Ee. destruct (ev_stream_alias e), (ev_direction e); try done.
  destruct (String.eqb_spec (ev_name e) "rtp.capture_health_reported"); [|done]. done.
Qed.

Lemma discontinuity_sources run ds d : _rtp_packet_discontinuity_evidence run = Ok ds -> d ∈ ds ->
  consecutive run (di_previous d) (di_current d)
  /\ (forall h, di_capture_health d = Some h ->
       ch_event h ∈ timeline_events run /\ ev_name (ch_event h) = "rtp.capture_health_reported").
Proof.
  unfold _rtp_packet_discontinuity_evidence. intros (reports & Hr & H)%bind_ok_inv Hd.
  destruct (discontinuity_loop run reports (packet_pairs run) []) as (new & Hf & _ & _ & Hok); [done|].
  rewrite Hf in H. injection H as <-. rewrite elem_of_sorted_by in Hd. rewrite Forall_forall in Hok.
  destruct (Hok d Hd) as [Hp _ _ _ Hh]. split; [by apply packet_pairs_consecutive|].
  intros h Eh. rewrite Eh in Hh. destruct Hh as [Hh _]. by apply (health_sources run reports).
Qed.

(** ** No interval ends before it starts *)

Definition not_reversed (start_ms end_ms : float) : Prop := fltb end_ms start_ms = false.

Lemma pymax_not_reversed a b : not_reversed a (pymax a b).
Proof.
  unfold not_reversed, pymax. destruct (fltb a b) eqn:E; [|apply fltb_irrefl].
  destruct (fltb b a) eqn:E2; [|done]. apply fltb_not_fleb in E. apply fltb_fleb in E2. congruence.
Qed.

Lemma fleb_not_reversed a b : fleb a b = true -> not_reversed a b.
Proof. apply fleb_not_fltb. Qed.

Lemma not_fleb_not_reversed a b : fleb b a = false -> not_reversed a b.
Proof. intros H. unfold not_reversed. destruct (fltb b a) eqn:E; [|done]. apply fltb_fleb in E. congruence. Qed.

(** A rounded value does not decrease when something not negative is added. *)
Lemma fl_fin_exact q r : fl q = Fin r -> exists r', fl r = Fin r' /\ (r' == r)%Q.
Proof.
  intros H. pose proof (fl_fin _ _ H) as Hr. apply fl_exact; [rewrite Hr; apply rnd_representable|].
  unfold fl in H. destruct (Qle_bool fmax_bound (rnd q)) eqn:E1; [done|].
  destruct (Qle_bool (rnd q) (- fmax_bound)) eqn:E2; [done|]. rewrite <- Hr in E1, E2.
  apply Qle_bool_false in E1, E2. by split.
Qed.

Lemma fadd_not_reversed x d : (x = PInf \/ exists q, x = fl q) -> fleb fzero d = true -> not_reversed x (fadd x d).
Proof.
  intros [->|[q ->]] Hd; [by destruct d|]. destruct (fl q) as [r| | |] eqn:E; [|by destruct d|by destruct d|].
  2: by apply fl_not_nan in E.
  destruct d as [b| | |]; try done. apply fleb_not_reversed. cbn [fadd].
  apply fleb_fin in Hd. destruct (fl_fin_exact _ _ E) as (r' & Hr' & Er).
  assert (fleb (Fin r) (fl r) = true) as H1 by (rewrite Hr'; apply fleb_fin; lra).
  eapply fleb_trans; [exact H1|]. apply fl_mono. lra.
Qed.

Lemma rel_ms_rounded run t : rel_ms run t = PInf \/ exists q, rel_ms run t = fl q.
Proof.
  unfold rel_ms, _relative_seconds. rewrite fz_1000. unfold pymax, total_seconds.
  destruct (fl _) as [r| | |] eqn:E; [|by left| |by apply fl_not_nan in E];
    (destruct (fltb _ _) eqn:E1; [|right; eexists; reflexivity]); [right; by eexists|done].
Qed.

Lemma activity_not_reversed run start_name stop_name a :
  a ∈ _correlated_activity_evidence run start_name stop_name -> not_reversed (act_start_ms a) (act_end_ms a).
Proof.
  unfold _correlated_activity_evidence. rewrite elem_of_sorted_by. intros (grp & _ & Ha)%list_elem_of_omap.
  unfold activity_of in Ha. destruct (next_match _ _) as [start|]; [|done]. injection Ha as <-.
  cbn [act_start_ms act_end_ms]. destruct (next_match _ _); apply pymax_not_reversed.
Qed.

Lemma waits_not_reversed playbacks end_ms responses : forall claimed,
  Forall (fun w => not_reversed (wait_start_ms w) (wait_end_ms w)) (start_waits playbacks end_ms claimed responses).
Proof.
  induction responses as [|r rest IH]; intros claimed; cbn [start_waits]; [done|].
  constructor; [apply pymax_not_reversed|apply IH].
Qed.

Lemma gaps_not_reversed l gaps :
  Forall (fun x => not_reversed (gap_start_ms x) (gap_end_ms x)) gaps ->
  Forall (fun x => not_reversed (gap_start_ms x) (gap_end_ms x)) (fold_left gap_step l gaps).
Proof.
  revert gaps. induction l as [|[previous current] l IH]; intros gaps Hg; [done|]. cbn [fold_left]. apply IH.
  unfold gap_step. destruct (stop_reason previous) as [[]|]; try done.
  destruct (negb _); [done|]. destruct (fleb _ _) eqn:E; [done|]. apply Forall_app. split; [done|].
  constructor; [|done]. by apply not_fleb_not_reversed.
Qed.

(** The windows, and the observations of the open window. *)
Definition silence_ok (run : StoredRun) (s : list _StageSilenceWindow * list silent_observation) : Prop :=
  Forall (fun w => not_reversed (sil_start_ms w) (sil_end_ms w)) s.1
  /\ Forall (fun o => exists t, obs_start o = rel_ms run t) s.2.

Lemma finish_window_ok run stage s : silence_ok run s -> silence_ok run (finish_window stage s.1 s.2, []).
Proof.
  intros [Hw Ho]. split; [|done]. cbn [fst]. unfold finish_window.
  destruct s as [windows [|first current]]; [done|]. cbn [fst snd] in *. destruct (py_sum _) as [d|]; [|done].
  destruct (fleb _ d) eqn:E; [|done]. apply Forall_app. split; [done|]. constructor; [|done].
  cbn [sil_start_ms sil_end_ms]. apply Forall_cons in Ho as [[t ->] _].
  apply fadd_not_reversed; [apply rel_ms_rounded|]. eapply fleb_trans; [|exact E]. vm_compute. reflexivity.
Qed.

Lemma silence_step_ok run stage s b : silence_ok run s -> silence_ok run (silence_step run stage s b).
Proof.
  intros Hs. destruct s as [windows current]. unfold silence_step.
  destruct (silent_bundle run b) as [o|] eqn:E; [|by apply (finish_window_ok run stage (windows, current))].
  assert (exists t, obs_start o = rel_ms run t) as Ho.
  { unfold silent_bundle in E. do 2 (case_match; [|done]). case_match; [done|]. injection E as <-. by exists b.1. }
  destruct (breaks_window current o).
  - destruct (finish_window_ok run stage (windows, current) Hs) as [Hw _]. split; [done|]. by constructor.
  - destruct Hs as [Hw Hc]. split; [done|]. apply Forall_app. split; [done|]. by constructor.
Qed.

Lemma silences_not_reversed run windows : _stage_silence_windows run = Ok windows ->
  Forall (fun w => not_reversed (sil_start_ms w) (sil_end_ms w)) windows.
Proof.
  unfold _stage_silence_windows. intros (stages & _ & [= <-])%bind_ok_inv.
  apply fold_left_inv; [done|]. clear. intros windows stage Hw. unfold silence_stage.
  refine (proj1 (finish_window_ok run stage _ _)).
  apply fold_left_inv; [done|]. intros; by apply silence_step_ok.
Qed.

Lemma contractions_not_reversed run ds : _duration_contraction_evidence run = Ok ds ->
  Forall (fun d => not_reversed (dur_output_duration_ms d) (dur_input_duration_ms d)) ds.
Proof.
  unfold _duration_contraction_evidence. intros (stages & _ & H)%bind_ok_inv.
  apply bind_ok_inv in H as (found & Hf%mapM_res_ok & [= <-]). apply Forall_forall.
  intros d (o & Ho & Hd)%list_elem_of_omap. cbn in Hd. subst o.
  destruct (list_elem_of_lookup_1 _ _ Ho) as [i Hi]. destruct (Forall2_lookup_r _ _ _ _ _ Hf Hi) as ([n v] & _ & Hx).
  unfold contraction_of in Hx. case_match; [done|].
  apply bind_ok_inv in Hx as (a & _ & Hx). apply bind_ok_inv in Hx as (b & _ & Hx).
  apply bind_ok_inv in Hx as (c & _ & Hx). destruct a as [a|], b as [b|], c as [c|]; try done.
  destruct (fleb a b) eqn:E; [done|]. injection Hx as <-. by apply not_fleb_not_reversed.
Qed.

Lemma responses_not_reversed run :
  Forall (fun r => not_reversed (resp_start_ms r) (resp_end_ms r)) (_provider_response_evidence run).
Proof.
  rewrite provider_response_evidence_eq.
  destruct (responses_of_spans run 0 _ (response_observations_sorted run)) as [H _].
  eapply Forall_impl; [exact H|]. intros r. apply fleb_not_reversed.
Qed.

Lemma interval_le_preorder : preorder_on (fun i => ti_start_ms i <> NaN) interval_le.
Proof. unfold interval_le. solve_preorder. done. Qed.

(** No interval of a timeline ends before it starts, whatever the run
    holds (spans that end early, stop events before their start, infinite or
    undefined measurements included); and the intervals are in the order of
    their start times and identifiers unless a start is not a number. *)
Theorem intervals_never_reversed run intervals :
  _typed_timeline_intervals run = Ok intervals ->
  Forall (fun i => not_reversed (ti_start_ms i) (ti_end_ms i)) intervals
  /\ (Forall (fun i => ti_start_ms i <> NaN) intervals -> StronglySorted interval_le intervals).
Proof.
  unfold _typed_timeline_intervals. intros (origin & _ & H)%bind_ok_inv.
  apply bind_ok_inv in H as (spans & Hspans%mapM_res_ok & H). apply bind_ok_inv in H as (ds & Hds & H).
  apply bind_ok_inv in H as (dead & _ & H). apply bind_ok_inv in H as (windows & Hw & H).
  apply bind_ok_inv in H as (cs & Hc & H). injection H as <-. split.
  - rewrite sorted_by_perm, !Forall_app, !List.Forall_map. split_and!.
    + clear -Hspans. induction Hspans as [|[n span] i l spans H _ IH]; constructor; [|done]. unfold span_interval in H.
      apply bind_ok_inv in H as (a & _ & H). apply bind_ok_inv in H as (b & _ & H). injection H as <-.
      apply pymax_not_reversed.
    + apply Forall_forall. intros d Hd. destruct (discontinuity_sources _ _ _ Hds Hd) as [[_ _ _ Ho] _].
      by apply fleb_not_reversed.
    + apply responses_not_reversed.
    + apply Forall_forall. intros a. apply activity_not_reversed.
    + apply Forall_forall. intros a. apply activity_not_reversed.
    + apply waits_not_reversed.
    + by apply gaps_not_reversed.
    + by apply (silences_not_reversed run).
    + apply Forall_forall. intros i ([alias events] & _ & Hi)%list_elem_of_omap. unfold barge_in_interval in Hi.
      cbn [fst snd] in Hi. destruct (barge_in_span run events) as [[[c s] e]|] eqn:E; [|done]. injection Hi as <-.
      unfold barge_in_span in E. destruct (earliest events); [|done]. destruct (next_match _ _); [|done].
      injection E as _ <- <-. apply pymax_not_reversed.
    + apply Forall_forall. intros [n w] _. apply pymax_not_reversed.
    + by apply (contractions_not_reversed run).
  - intros Hn. apply (sorted_by_preorder (fun i => ti_start_ms i <> NaN)); [apply interval_le_preorder|].
    eapply Permutation_Forall; [apply sorted_by_perm|exact Hn].
Qed.

(** ** Series account for every observation *)

Definition series_key (s : TimelineTypedSeries) : string * option string * option string * string :=
  (ts_category s, ts_stage s, ts_direction s, ts_name s).

Lemma sorted_groups_perm {K B} (le : K * list B -> K * list B -> bool) (groups : list (K * list B)) :
  concat (map snd (sorted_by le groups)) ≡ₚ concat (dict_values groups).
Proof. unfold dict_values. by rewrite sorted_by_perm. Qed.

Lemma enumerate_snd {A} i (l : list A) : map snd (enumerate_from i l) = l.
Proof. revert i. induction l as [|x l IH]; intros i; [done|]. cbn [enumerate_from map]. by rewrite IH. Qed.

Lemma metric_series_points run i groups :
  concat (map ts_points (map (metric_series run) (enumerate_from i groups)))
  ≡ₚ map (metric_point run) (concat (map snd groups)).
Proof.
  revert i. induction groups as [|[[[c s] n] l] groups IH]; intros i; [done|].
  cbn [enumerate_from map concat]. rewrite IH, map_app. f_equiv. cbn [metric_series ts_points snd].
  by rewrite sorted_by_perm.
Qed.

Lemma rtp_series_points i groups :
  concat (map ts_points (map rtp_series (enumerate_from i groups))) ≡ₚ map snd (concat (map snd groups)).
Proof.
  revert i. induction groups as [|[[d n] l] groups IH]; intros i; [done|].
  cbn [enumerate_from map concat]. rewrite IH, map_app. f_equiv. cbn [rtp_series ts_points snd].
  by rewrite sorted_by_perm.
Qed.

Lemma metric_series_keys run i groups :
  map series_key (map (metric_series run) (enumerate_from i groups))
  = map (fun k : string * option string * string => (k.1.1, k.1.2, None, k.2)) (map fst groups).
Proof.
  revert i. induction groups as [|[[[c s] n] l] groups IH]; intros i; [done|]. cbn [enumerate_from map]. by rewrite IH.
Qed.

Lemma rtp_series_keys i groups :
  map series_key (map rtp_series (enumerate_from i groups))
  = map (fun k : option string * string => ("transport", None, k.1, k.2)) (map fst groups).
Proof.
  revert i. induction groups as [|[[d n] l] groups IH]; intros i; [done|]. cbn [enumerate_from map]. by rewrite IH.
Qed.

Lemma metric_category_not_transport m : _metric_timeline_category m <> "transport".
Proof. unfold _metric_timeline_category. by repeat case_match. Qed.

(** The series of a timeline account for every observation: their points
    are exactly the metrics and the present values of the RTP stats, each once
    at its time; no two series have the same category, stage, direction and
    name; and, the times never being undefined, each is in the order of time. *)
Theorem series_account_for_observations run :
  let series := _typed_timeline_series run in
  concat (map ts_points series)
    ≡ₚ map (metric_point run) (metrics run) ++ map snd (concat (map (stat_values run) (rtp_stats run)))
  /\ NoDup (map series_key series)
  /\ Forall (fun s => StronglySorted point_le (ts_points s)) series.
Proof.
  cbv zeta. unfold _typed_timeline_series. split_and!.
  - rewrite map_app, concat_app, metric_series_points, rtp_series_points, !sorted_groups_perm, !group_by_perm. done.
  - rewrite map_app, metric_series_keys, rtp_series_keys. apply NoDup_app. split_and!.
    + apply NoDup_fmap_2; [by intros [[] ] [[] ] [=]; subst|]. rewrite sorted_by_perm. apply group_by_NoDup.
    + intros k ([[c s] n] & -> & Hk)%list_elem_of_fmap ([d n'] & E & _)%list_elem_of_fmap.
      injection E as -> _ _ _. apply list_elem_of_fmap in Hk as ([k l] & Ek & Hg). cbn [fst] in Ek. subst k.
      rewrite elem_of_sorted_by in Hg.
      pose proof (group_by_nonempty _ _ _ _ Hg) as Hne. destruct l as [|m l]; [done|].
      destruct (group_by_member _ _ _ _ m Hg ltac:(left)) as [_ Em]. injection Em as Em _ _.
      by apply metric_category_not_transport in Em.
    + apply NoDup_fmap_2; [by intros [] [] [=]; subst|]. rewrite sorted_by_perm. apply group_by_NoDup.
  - assert (forall l, Forall (fun p => exists t, pt_t_rel_ms p = rel_ms run t) l ->
      StronglySorted point_le (sorted_by point_le l)) as Hs.
    { intros l Hl. apply (sorted_by_preorder (fun p => exists t, pt_t_rel_ms p = rel_ms run t)); [|done].
      apply float_preorder. intros p [t ->]. apply rel_ms_not_nan. }
    apply Forall_app. split; apply List.Forall_map, Forall_forall.
    + intros [i [[[c s] n] l]] _. cbn. apply Hs, List.Forall_map, Forall_forall. intros m _. by exists (metric_ts m).
    + intros [i [[d n] l]] Hx. cbn. apply Hs, List.Forall_map, Forall_forall. intros [k p] Hp.
      apply elem_of_enumerate in Hx. rewrite elem_of_sorted_by in Hx.
      destruct (group_by_member _ _ _ _ _ Hx Hp) as [Hin _]. apply list_elem_of_In, in_concat in Hin as (l' & Hl' & Hin).
      apply list_elem_of_In, list_elem_of_fmap in Hl' as (stat & -> & _). apply list_elem_of_In in Hin.
      unfold stat_values in Hin. apply list_elem_of_omap in Hin as ([name v] & _ & Hv). cbn in Hv.
      destruct v; [|done]. injection Hv as <- <-. by eexists.
Qed.
