(* ===== verification/Incidents.v ===== *)
(** * Incidents

    [_typed_timeline_incidents] of [control_plane/run_api.py]: the PCM
    discontinuities, failed verifications, clipping, dead air, playback
    underruns, RTP packet discontinuities, the failure of the run, barge-ins
    and RTP quality windows that a timeline reports, each with references to
    its evidence; and [StoredRun.to_timeline]. *)
From S2P Require Import Prelude Collections PyFloat PyData PyFormat RunModel Timeline RtpEvidence TypedTimeline.

Open Scope Z_scope.

Record TimelineIncident := MkIncident {
  in_incident_id : string; in_rule_id : string; in_category : string; in_severity : string; in_title : string;
  in_summary : string; in_start_ms : float; in_end_ms : float; in_confidence : string; in_stage : option string;
  in_direction : option string; in_observed : jdict; in_expected : jdict; in_evidence_refs : list string }.

Definition PCM_DISCONTINUITY_CORRELATION_WINDOW_MS : float := fz 100.

(** [f"{x:g}"]. *)
Definition g (x : float) : string := format_general 6 x.
Definition plural (n : Z) : string := if n =? 1 then "" else "s".

Section incidents.
Context (run : StoredRun) (artifacts : list TimelineTypedArtifact).

(** [artifact_by_stage]: the last artifact of each stage. *)
Definition artifact_by_stage : list (string * string) :=
  dict_of_list (omap (fun a => match ta_stage a with Some s => Some (s, ta_artifact_id a) | None => None end) artifacts).

(** The reference to the artifact of a stage, if there is one. *)
Definition artifact_ref (stage : option string) : list string :=
  match stage with
  | Some s => match dict_get s artifact_by_stage with Some id => [id] | None => [] end
  | None => []
  end.

(** ** PCM discontinuities *)

Definition correlation_names : list string :=
  ["playback_queue_cleared"; "barge_in_completed"; "provider_interrupt_requested"; "provider_interrupted"].

Definition event_distance (a b : TimelineEventArtifact) : float := fabs (total_seconds (ev_ts a - ev_ts b)).

Definition nearby_events (e : TimelineEventArtifact) : list TimelineEventArtifact :=
  sorted_by (fun a b => by_float (event_distance a e) (event_distance b e) (str_leb (ev_event_id a) (ev_event_id b)))
    (filterb (fun c => bool_decide (ev_name c ∈ correlation_names)
       && fleb (fabs (fmul (total_seconds (ev_ts c - ev_ts e)) (fz 1000))) PCM_DISCONTINUITY_CORRELATION_WINDOW_MS)
       (timeline_events run)).

(** [_numeric_attribute(...) or 0.0]. *)
Definition or_zero (x : option float) : float := match x with Some x => x | None => fzero end.

Definition pcm_incident (e : TimelineEventArtifact) : result TimelineIncident :=
  let nearby := nearby_events e in
  magnitude ← _numeric_attribute (ev_attributes e) "magnitude";
  media_time_ms ← _numeric_attribute (ev_attributes e) "media_time_ms";
  let wall_time_ms := pymax fzero (rel_ms run (ev_ts e)) in
  Ok (MkIncident ("pcm-discontinuity:" +:+ ev_event_id e) "pcm16_adjacent_delta_v1" "pipeline" "warning"
        ("PCM discontinuity suspected at " +:+ or_else (ev_stage e) "unknown stage")
        ("Adjacent PCM samples differed by " +:+ format_general 3 (or_zero magnitude)
         +:+ " full scale at media time " +:+ format_fixed false 3 (or_zero media_time_ms) +:+ " ms")
        wall_time_ms wall_time_ms (match nearby with [] => "low" | _ => "medium" end) (ev_stage e) None
        (dict_update (ev_attributes e) [("temporally_correlated_event_count", JInt (len nearby));
                                        ("remote_playout_observed", JBool false)])
        [("magnitude_below", match jget "threshold" (ev_attributes e) with
                             | Some v => v | None => JFloat (flit 25 100) end);
         ("audibility", JStr "not proven by this detector"); ("remote_playout", JStr "not observed")]
        (artifact_ref (ev_stage e) ++ ev_event_id e :: map ev_event_id nearby)).

Definition pcm_incidents : result (list TimelineIncident) :=
  mapM_res pcm_incident
    (filterb (fun e => String.eqb (ev_name e) "stage.pcm_discontinuity_detected") (timeline_events run)).

(** ** Failed verifications *)

Definition verification_incident (previous : list (string * option string))
    (durations : list (Z * _DurationContractionEvidence)) (signals : list (string * _StageSignalEvidence))
    (duration_ms : float) (failure_index : Z) (x : Z * VerificationResult) : result TimelineIncident :=
  let '(verification_index, v) := x in
  let refs := artifact_ref (dict_get_default (ver_stage v) None previous) ++ artifact_ref (Some (ver_stage v)) in
  let incident title summary start_ms end_ms refs :=
    MkIncident ("verification:" +:+ pretty failure_index) (ver_invariant v) "pipeline" "error" title summary
      start_ms end_ms "certain" (Some (ver_stage v)) None (ver_observed v) (ver_expected v) refs in
  match dict_get verification_index durations with
  | Some d =>
      Ok (incident ("Media time contracted at " +:+ ver_stage v)
            (g (missing_duration_ms d) +:+ " ms missing between " +:+ or_else (dur_previous_stage d) "upstream"
             +:+ " and " +:+ ver_stage v)
            (dur_output_duration_ms d) (dur_input_duration_ms d) (refs ++ [contraction_id d]))
  | None =>
      if String.eqb (ver_invariant v) "level_preserving" then
        delta_db ← _plain_number (jget "delta_db" (ver_observed v));
        Ok (incident ("Signal level contract failed at " +:+ ver_stage v)
              (match delta_db with
               | Some x => "Stage changed RMS level by " +:+ format_fixed true 2 x +:+ " dB"
               | None => ver_detail v end)
              fzero duration_ms
              (refs ++ match dict_get (ver_stage v) signals with Some s => [signal_id s] | None => [] end))
      else Ok (incident (ver_stage v +:+ ": " +:+ ver_invariant v) (ver_detail v) fzero duration_ms refs)
  end.

Definition verification_incidents (stage_names : list string) (contractions : list _DurationContractionEvidence)
    (signals : list _StageSignalEvidence) (duration_ms : float) : result (list TimelineIncident) :=
  let failed := filterb (fun x : Z * VerificationResult => negb (ver_passed x.2)) (enumerate (verifications run)) in
  mapM_res (fun x => verification_incident (previous_by_stage stage_names)
      (dict_of_list (map (fun d => (dur_verification_index d, d)) contractions))
      (dict_of_list (map (fun s => (sig_stage s, s)) signals)) duration_ms x.1 x.2)
    (enumerate failed).

(** ** Clipping *)

Definition full_scale_incident (f : _StageFullScaleEvidence) : TimelineIncident :=
  MkIncident ("full-scale:" +:+ fs_stage f) "pcm_full_scale_samples_v1" "pipeline" "warning"
    ("Clipping suspected at " +:+ fs_stage f)
    (format_general 3 (fs_full_scale_sample_pct f) +:+ "% of observed samples reached a PCM16 full-scale endpoint")
    (fs_t_rel_ms f) (fs_t_rel_ms f) "medium" (Some (fs_stage f)) None
    [("full_scale_sample_pct", JFloat (fs_full_scale_sample_pct f));
     ("sample_peak_dbfs", jfloat_opt (fs_sample_peak_dbfs f)); ("sample_count", JInt (fs_sample_count f));
     ("first_observed_after_stage", jstr_opt (fs_previous_stage f))]
    [("full_scale_sample_pct", JFloat fzero);
     ("clipping_confirmation", JStr "waveform plateau or oversampled true-peak evidence required")]
    (artifact_ref (fs_previous_stage f) ++ artifact_ref (Some (fs_stage f)) ++ [full_scale_id f]).

(** ** Dead air and underruns *)

Definition response_refs (r : _ProviderResponseEvidence) : list string :=
  response_start_id r :: match response_done_id r with Some id => [id] | None => [] end.

Definition stop_ref (a : _CorrelatedActivityEvidence) : list string :=
  match act_stop_event a with Some e => [ev_event_id e] | None => [] end.

(** [_CorrelatedActivityEvidence.evidence_refs] and
    [_AssistantPlaybackGapEvidence.evidence_refs]. *)
Definition activity_refs (a : _CorrelatedActivityEvidence) : list string :=
  ev_event_id (act_start_event a) :: stop_ref a.
Definition gap_refs (x : _AssistantPlaybackGapEvidence) : list string :=
  stop_ref (gap_previous x) ++ [ev_event_id (act_start_event (gap_next x))].

Definition dead_air_incident (d : _AssistantOutputDeadAirEvidence) : TimelineIncident :=
  let r := da_response d in
  let w := da_silence d in
  let overlap_ms := fsub (da_end_ms d) (da_start_ms d) in
  MkIncident ("assistant-output-dead-air:" +:+ sil_stage w +:+ ":" +:+ pretty (sil_window_index w) +:+ ":"
              +:+ pretty (response_index r))
    "assistant_output_dead_air_v1" "conversation" "warning" "Assistant output dead air suspected"
    (g overlap_ms +:+ " ms digital silence at " +:+ sil_stage w +:+ " "
     +:+ (match da_playback d with
          | Some _ => "during observed assistant playback" | None => "while provider response was active" end))
    (da_start_ms d) (da_end_ms d) "medium" (Some (sil_stage w)) (Some "assistant_to_caller")
    [("digital_silence_while_provider_active_ms", JFloat overlap_ms);
     ("silence_window_duration_ms", JFloat (fsub (sil_end_ms w) (sil_start_ms w)));
     ("provider_response_duration_ms", JFloat (fsub (resp_end_ms r) (resp_start_ms r)));
     ("provider_completion_observed", JBool (completed r));
     ("assistant_playback_observed", JBool (match da_playback d with Some _ => true | None => false end));
     ("assistant_playback_written_audio_ms",
      match da_playback d with Some p => stop_attribute "written_audio_ms" p | None => JNull end);
     ("remote_playout_observed", JBool false)]
    [("digital_silence_while_provider_active_ms_below", JFloat ASSISTANT_OUTPUT_DEAD_AIR_MIN_OVERLAP_MS);
     ("remote_playout", JStr "not observed")]
    (artifact_ref (Some (sil_stage w)) ++ silence_start_id w :: response_refs r
     ++ match da_playback d with Some p => activity_refs p | None => [] end).

Definition underrun_incident (u : _AssistantPlaybackUnderrunEvidence) : TimelineIncident :=
  let gap := underrun_gap u in
  let r := underrun_response u in
  let overlap_ms := fsub (underrun_end_ms u) (underrun_start_ms u) in
  MkIncident ("assistant-playback-underrun:" +:+ pretty (gap_index gap) +:+ ":" +:+ pretty (response_index r))
    "assistant_playback_underrun_v1" "buffer" "warning" "Assistant playback underrun suspected"
    (g overlap_ms +:+ " ms without AudioSocket frames between playback bursts while provider response was active")
    (underrun_start_ms u) (underrun_end_ms u) "medium" None (Some "assistant_to_caller")
    [("playback_gap_ms", JFloat (gap_ms gap)); ("playback_gap_while_provider_active_ms", JFloat overlap_ms);
     ("previous_written_audio_ms", stop_attribute "written_audio_ms" (gap_previous gap));
     ("previous_stop_reason", stop_attribute "stop_reason" (gap_previous gap));
     ("provider_completion_observed", JBool (completed r)); ("remote_playout_observed", JBool false)]
    [("playback_gap_while_provider_active_ms_below", JFloat ASSISTANT_PLAYBACK_UNDERRUN_MIN_GAP_MS);
     ("continuous_audio_contract", JStr "not observed"); ("remote_playout", JStr "not observed")]
    (gap_refs gap ++ response_refs r).

(** ** RTP packet discontinuities *)

Definition capture_compromised (d : _RtpPacketDiscontinuityEvidence) : bool :=
  match di_capture_health d with Some h => bool_decide (continuity h = compromised) | None => false end.

(** The rule, title and confidence of a discontinuity. *)
Definition discontinuity_verdict (d : _RtpPacketDiscontinuityEvidence) : string * string * string :=
  match is_sequence_gap d, capture_compromised d with
  | true, true => ("rtp_sequence_gap_capture_ambiguous_v1", "RTP sequence gap may be capture loss", "low")
  | false, true => ("rtp_arrival_stall_capture_ambiguous_v1", "RTP arrival stall may be capture delay", "low")
  | true, false => ("rtp_sequence_gap_v1", "RTP sequence gap observed", "high")
  | false, false => ("rtp_arrival_stall_v1", "RTP arrival stall suspected", "medium")
  end.

Definition discontinuity_incident (d : _RtpPacketDiscontinuityEvidence) : TimelineIncident :=
  let '(rule_id, title, confidence) := discontinuity_verdict d in
  let current := di_current d in
  let missing := di_missing_packet_count d in
  MkIncident (discontinuity_alias d) rule_id "transport" "warning" title
    (if is_sequence_gap d
     then pretty missing +:+ " RTP packet" +:+ plural missing +:+ " absent between observed sequence numbers"
     else g (di_excess_arrival_delay_ms d) +:+ " ms excess arrival delay between consecutive RTP packets")
    (po_t_rel_ms (di_previous d)) (po_t_rel_ms current) confidence None (Some (po_direction current))
    ([("stream_alias", JStr (po_stream_alias current));
      ("previous_sequence_number", JInt (po_sequence_number (di_previous d)));
      ("current_sequence_number", JInt (po_sequence_number current));
      ("sequence_delta", JInt (di_sequence_delta d)); ("missing_packet_count", JInt missing);
      ("arrival_gap_ms", JFloat (di_arrival_gap_ms d)); ("media_advance_ms", JFloat (di_media_advance_ms d));
      ("excess_arrival_delay_ms", JFloat (di_excess_arrival_delay_ms d));
      ("payload_type", JInt (po_payload_type current)); ("clock_rate_hz", JInt (po_clock_rate_hz current));
      ("clock_domain", JStr (ev_clock_domain (po_event current)));
      ("alignment_uncertainty_ms", jfloat_opt (_rtp_pair_alignment_uncertainty_ms d))]
     ++ _rtp_capture_attributes d)
    [("sequence_delta", JInt 1); ("arrival_excess_ms_below", JFloat RTP_ARRIVAL_STALL_EXCESS_MS);
     ("capture_point_continuity", json_or_none (jget "capture_point_continuity" (_rtp_capture_attributes d)));
     ("network_loss_confirmation", JStr (_rtp_network_loss_confirmation d))]
    (discontinuity_id d :: match di_capture_health d with Some h => [ev_event_id (ch_event h)] | None => [] end).

(** ** The failure of the run *)

Definition failure_incidents (duration_ms : float) : list TimelineIncident :=
  match failure_alias run with
  | Some alias =>
      [MkIncident "run:failure" "run_failure" "session" "error" "Run failed" alias duration_ms duration_ms "certain"
         None None [] [] ["run:failure"]]
  | None => []
  end.

(** ** Barge-ins *)

(** The numbers of the clearing event, in the order they are observed. *)
Definition cleared_numbers : list string :=
  ["dropped_frames"; "discarded_audio_ms"; "partial_audio_ms"; "discarded_total_audio_ms";
   "discarded_signal_bearing_frames"; "discarded_signal_bearing_audio_ms"; "discarded_provider_chunks";
   "provider_chunks_last_30ms"; "provider_chunks_last_100ms"; "first_discarded_audio_lead_ms";
   "queue_depth_before_clear"; "evidence_frames_recorded"; "evidence_frames_omitted"; "signal_threshold_rms";
   "written_audio_ms_before_control"].

Definition read_numbers (attributes : jdict) : result (list (string * option float)) :=
  mapM_res (fun name => x ← _numeric_attribute attributes name; Ok (name, x)) cleared_numbers.

Definition number (name : string) (l : list (string * option float)) : option float := dict_get_default name None l.

Definition when_some {A} (o : option A) (f : A -> string) : string := match o with Some x => f x | None => "" end.

Definition barge_in_incident (x : string * list TimelineEventArtifact) : result (list TimelineIncident) :=
  let '(correlation_alias, events) := x in
  match barge_in_span run events with
  | None => Ok []
  | Some (completed, start_ms, end_ms) =>
      let cleared := match next_match (fun e => String.eqb (ev_name e) "playback_queue_cleared") events with
                     | Some e => e | None => completed end in
      numbers ← read_numbers (ev_attributes cleared);
      played_audio_end_ms ← _numeric_attribute (ev_attributes completed) "played_audio_end_ms";
      let interrupt_path := match jget "interrupt_path" (ev_attributes completed) with
                            | Some v => str_json v | None => "unobserved" end in
      let discarded_signal_ms := number "discarded_signal_bearing_audio_ms" numbers in
      let signal_before_playout :=
        match discarded_signal_ms with
        | Some x => fltb fzero x && match number "written_audio_ms_before_control" numbers with
                                    | None => true | Some w => fleb w fzero end
        | None => false
        end in
      Ok [MkIncident ("barge-in:" +:+ correlation_alias) "barge_in_sequence" "conversation"
            (if signal_before_playout then "warning" else "info")
            (if signal_before_playout then "Signal-bearing audio discarded before playout"
             else match discarded_signal_ms with
                  | Some _ => "Barge-in packet evidence captured" | None => "Barge-in handled" end)
            ("Playback queue cleared"
             +:+ when_some (number "discarded_audio_ms" numbers) (fun x => "; " +:+ g x +:+ " ms queued audio discarded")
             +:+ when_some discarded_signal_ms (fun x => "; " +:+ g x +:+ " ms was signal-bearing")
             +:+ when_some (number "provider_chunks_last_30ms" numbers)
                   (fun x => "; " +:+ g x +:+ " provider audio chunks arrived in the preceding 30 ms"))
            start_ms end_ms "high" None (Some "caller_to_assistant")
            ([("handling_duration_ms", JFloat (fsub end_ms start_ms)); ("interrupt_path", JStr interrupt_path);
              ("played_audio_end_ms", jfloat_opt played_audio_end_ms)]
             ++ map (fun n => (n.1, jfloat_opt n.2)) numbers ++ [("remote_playout_observed", JBool false)])
            [("interrupt_path", JStr "provider-auto-or-request"); ("playback_queue_cleared", JBool true);
             ("truncate_when_position_available", JBool true);
             ("packet_evidence", JStr (match discarded_signal_ms with Some _ => "captured" | None => "not observed" end));
             ("remote_playout", JStr "not observed");
             ("provider_version_comparison", JStr "requires repeated matched calls")]
            (map ev_event_id events)]
  end.

(** ** RTP quality *)

Definition triggered (trigger : string) (value : _RtpQualityEvidence -> option float)
    (window : list _RtpQualityEvidence) : list float :=
  omap value (filterb (fun q => bool_decide (trigger ∈ q_triggers q)) window).

(** [f(samples) if samples else None]. *)
Definition if_any (f : list float -> float) (samples : list float) : json :=
  match samples with [] => JNull | _ => JFloat (f samples) end.

Definition loss_burst (window : list _RtpQualityEvidence) : bool :=
  existsb (fun p => bool_decide ("loss" ∈ q_triggers p.1) && bool_decide ("loss" ∈ q_triggers p.2)) (pairwise window).

Definition quality_title (burst : bool) (triggers : list string) : string :=
  if burst then "RTP loss burst suspected"
  else if bool_decide (triggers = ["loss"]) then "RTP packet loss elevated"
  else if bool_decide (triggers = ["jitter"]) then "RTP jitter elevated"
  else if bool_decide (triggers = ["mos"]) then "RTP quality degraded"
  else "RTP quality degradation".

Fixpoint comma_joined (l : list string) : string :=
  match l with [] => "" | [s] => s | s :: l => s +:+ ", " +:+ comma_joined l end.

Definition quality_incident (x : Z * list _RtpQualityEvidence) : TimelineIncident :=
  let '(window_index, window) := x in
  let triggers := window_triggers window in
  MkIncident (_rtp_window_alias window_index window) "rtp_quality_degradation_v1" "transport" "warning"
    (quality_title (loss_burst window) triggers)
    (or_else (window_direction window) "unknown-direction" +:+ " RTP: " +:+ comma_joined triggers +:+ " across "
     +:+ pretty (len window) +:+ " observation" +:+ plural (len window))
    (window_start window) (window_end window) "medium" None (window_direction window)
    [("sample_count", JInt (len window)); ("triggers", JArr (map JStr triggers));
     ("peak_loss_pct", if_any (pymax_list fzero) (triggered "loss" q_loss_pct window));
     ("peak_jitter_ms", if_any (pymax_list fzero) (triggered "jitter" q_jitter_ms window));
     ("minimum_mos", if_any (pymin_list fzero) (triggered "mos" q_mos window));
     ("loss_burst_suspected", JBool (loss_burst window))]
    [("loss_pct_below", JFloat RTP_LOSS_WARNING_PCT); ("jitter_ms_below", JFloat RTP_JITTER_WARNING_MS);
     ("mos_above", JFloat RTP_MOS_WARNING_SCORE);
     ("packet_gap_confirmation", JStr "RTP sequence or arrival cadence required")]
    (concat (map (fun q => map (quality_id q) (q_triggers q)) window)).

Definition _typed_timeline_incidents : result (list TimelineIncident) :=
  let duration_ms := _run_timeline_duration_ms run in
  stage_names ← _pipeline_stage_names run;
  contractions ← _duration_contraction_evidence run;
  signals ← _stage_signal_evidence run;
  pcm ← pcm_incidents;
  failed ← verification_incidents stage_names contractions signals duration_ms;
  full_scale ← _stage_full_scale_evidence run;
  dead_air ← _assistant_output_dead_air_evidence run;
  discontinuities ← _rtp_packet_discontinuity_evidence run;
  barge_ins ← mapM_res barge_in_incident (_correlated_barge_in_events run);
  Ok (pcm ++ failed ++ map full_scale_incident full_scale ++ map dead_air_incident dead_air
      ++ map underrun_incident (_assistant_playback_underrun_evidence run)
      ++ map discontinuity_incident discontinuities ++ failure_incidents duration_ms ++ concat barge_ins
      ++ map quality_incident (enumerate (_rtp_quality_windows run))).
End incidents.

(** ** The timeline *)

Record TimelineMetricPoint := MkMetricPoint { mp_ts : float; mp_name : string; mp_value : float }.
Record TimelineViolation := MkViolation {
  vi_invariant : string; vi_passed : bool; vi_detail : string; vi_observed : jdict; vi_expected : jdict }.
Record TimelineStageLane := MkStageLane {
  sl_stage : string; sl_metrics : list TimelineMetricPoint; sl_violations : list TimelineViolation }.
Record TimelineSipEvent := MkTimelineSip {
  tsip_ts : float; tsip_call_id : option string; tsip_method : string; tsip_direction : string;
  tsip_status_code : option Z; tsip_summary_alias : option string }.
Record TimelineRtpStat := MkTimelineRtp {
  trtp_ts : float; trtp_jitter_ms : option float; trtp_loss_pct : option float; trtp_mos : option float;
  trtp_direction : option string; trtp_rtt_ms : option float }.

Record TimelineLanes := MkLanes {
  sip_ladder : list TimelineSipEvent; rtp_quality : list TimelineRtpStat; ln_stages : list TimelineStageLane;
  ln_host : list TimelineMetricPoint; ln_recordings : list RecordingArtifact;
  ln_events : list TimelineTypedEvent; ln_intervals : list TimelineTypedInterval;
  ln_series : list TimelineTypedSeries; ln_artifacts : list TimelineTypedArtifact;
  ln_incidents : list TimelineIncident }.

Record TimelineResponse := MkTimelineResponse {
  tl_run_id : string; tl_t0 : instant; tl_config_hash : string; tl_environment : RunEnvironmentMetadata;
  tl_readiness_checklist : list ReadinessChecklistItem; tl_readiness_summary : ReadinessSummary;
  tl_lanes : TimelineLanes }.

Definition timeline_point (run : StoredRun) (m : MetricArtifact) : TimelineMetricPoint :=
  MkMetricPoint (_relative_seconds (metric_ts m) (started_at run)) (metric_name m) (metric_value m).

Definition stage_lane (run : StoredRun) (stage : string) : TimelineStageLane :=
  MkStageLane stage
    (map (timeline_point run) (filterb (fun m => bool_decide (metric_stage m = Some stage)) (metrics run)))
    (map (fun v => MkViolation (ver_invariant v) (ver_passed v) (ver_detail v) (ver_observed v) (ver_expected v))
      (filterb (fun v => String.eqb (ver_stage v) stage && negb (ver_passed v)) (verifications run))).

Definition to_timeline (run : StoredRun) : result TimelineResponse :=
  stage_names ← _pipeline_stage_names run;
  events ← _typed_timeline_events run;
  intervals ← _typed_timeline_intervals run;
  let artifacts := _typed_timeline_artifacts run in
  incidents ← _typed_timeline_incidents run artifacts;
  let rel t := _relative_seconds t (started_at run) in
  Ok (MkTimelineResponse (run_id run) (started_at run) (config_hash run) (environment run)
        (readiness_checklist run) (readiness_summary run)
        (MkLanes
          (map (fun e => MkTimelineSip (rel (sip_ts e)) (sip_call_id e) (sip_method e) (sip_direction e)
                           (sip_status_code e) (sip_summary_alias e)) (sip_events run))
          (map (fun s => MkTimelineRtp (rel (rtp_ts s)) (rtp_jitter_ms s) (rtp_loss_pct s) (rtp_mos s)
                           (rtp_direction s) (rtp_rtt_ms s)) (rtp_stats run))
          (map (stage_lane run) stage_names)
          (map (timeline_point run) (filterb (fun m => bool_decide (metric_stage m = None)) (metrics run)))
          (recordings run) events intervals (_typed_timeline_series run) artifacts incidents)).

(** ** Every reference resolves *)

(** The identifiers that the evidence of a run puts among the typed events. *)
Record event_ids_ok (run : StoredRun) (ids : list string) : Prop := {
  ei_persisted : forall e, e ∈ timeline_events run -> ev_name e <> "rtp.packet_arrived" -> ev_event_id e ∈ ids;
  ei_responses : forall r, r ∈ _provider_response_evidence run -> Forall (fun x => x ∈ ids) (response_refs r);
  ei_discontinuities : forall ds d, _rtp_packet_discontinuity_evidence run = Ok ds -> d ∈ ds -> discontinuity_id d ∈ ids;
  ei_signals : forall l s, _stage_signal_evidence run = Ok l -> s ∈ l -> signal_id s ∈ ids;
  ei_full_scale : forall l f, _stage_full_scale_evidence run = Ok l -> f ∈ l -> full_scale_id f ∈ ids;
  ei_silences : forall l w, _stage_silence_windows run = Ok l -> w ∈ l -> silence_start_id w ∈ ids;
  ei_contractions : forall l d, _duration_contraction_evidence run = Ok l -> d ∈ l -> contraction_id d ∈ ids;
  ei_quality : forall i window q trigger, (i, window) ∈ enumerate (_rtp_quality_windows run) -> q ∈ window ->
    trigger ∈ q_triggers q -> quality_id q trigger ∈ ids;
  ei_failure : failure_alias run <> None -> "run:failure" ∈ ids }.

Lemma sorted_ids (l : list TimelineTypedEvent) id :
  id ∈ map te_event_id l -> id ∈ map te_event_id (sorted_by typed_event_le l).
Proof.
  intros (e & -> & He)%list_elem_of_fmap. apply list_elem_of_fmap. exists e. by rewrite elem_of_sorted_by.
Qed.

(** An identifier of one of several lists of typed events. *)
Ltac find_part :=
  apply sorted_ids; rewrite !map_app, !elem_of_app; repeat first [by left | right]; try done.

Lemma map_ids {A} (f : A -> TimelineTypedEvent) (l : list A) x id :
  x ∈ l -> te_event_id (f x) = id -> id ∈ map te_event_id (map f l).
Proof. intros Hx <-. apply list_elem_of_fmap. exists (f x). split; [done|]. apply list_elem_of_fmap. eauto. Qed.

Lemma concat_ids {A} (f : A -> list TimelineTypedEvent) (l : list A) x id :
  x ∈ l -> id ∈ map te_event_id (f x) -> id ∈ map te_event_id (concat (map f l)).
Proof.
  intros Hx (e & -> & He)%list_elem_of_fmap. apply list_elem_of_fmap. exists e. split; [done|].
  apply list_elem_of_In, in_concat. exists (f x). split; [|by apply list_elem_of_In].
  apply list_elem_of_In, list_elem_of_fmap. eauto.
Qed.

Lemma event_ids run events : _typed_timeline_events run = Ok events -> event_ids_ok run (map te_event_id events).
Proof.
  unfold _typed_timeline_events. intros (persisted & Hp%mapM_res_ok & H)%bind_ok_inv.
  apply bind_ok_inv in H as (ds & Hds & H). apply bind_ok_inv in H as (sigs & Hsig & H).
  apply bind_ok_inv in H as (fs & Hfs & H). apply bind_ok_inv in H as (ws & Hws & H).
  apply bind_ok_inv in H as (cs & Hcs & H). injection H as <-.
  assert (forall e, e ∈ timeline_events run -> ev_name e <> "rtp.packet_arrived" ->
    ev_event_id e ∈ map te_event_id persisted) as Hpersisted.
  { intros e He Hn. assert (e ∈ filterb shown (timeline_events run)) as He'.
    { apply elem_of_filterb. split; [done|]. unfold shown. by destruct (String.eqb_spec (ev_name e) "rtp.packet_arrived"). }
    destruct (list_elem_of_lookup_1 _ _ He') as [i Hi]. destruct (Forall2_lookup_l _ _ _ _ _ Hp Hi) as (t & Ht & Hx).
    unfold persisted_event in Hx. apply bind_ok_inv in Hx as (c & _ & [= <-]). apply list_elem_of_lookup_2 in Ht.
    apply list_elem_of_fmap. by eexists (MkTypedEvent _ _ _ _ _ _ _ _ _ _ _ _). }
  constructor; try (intros l x E; (rewrite Hds in E || rewrite Hsig in E || rewrite Hfs in E
    || rewrite Hws in E || rewrite Hcs in E); injection E as <-; intros Hx).
  - intros e He Hn. specialize (Hpersisted e He Hn). find_part.
  - intros r Hr. apply Forall_forall. intros x Hx.
    assert (x ∈ map te_event_id (concat (map response_events (_provider_response_evidence run)))); [|find_part].
    apply (concat_ids _ _ r); [done|]. unfold response_refs in Hx. unfold response_events.
    destruct (response_done_id r); cbn [map te_event_id]; done.
  - assert (discontinuity_id x ∈ map te_event_id (map discontinuity_event ds)) by (by apply (map_ids _ _ x)). find_part.
  - assert (signal_id x ∈ map te_event_id (map signal_event sigs)) by (by apply (map_ids _ _ x)). find_part.
  - assert (full_scale_id x ∈ map te_event_id (map full_scale_event fs)) by (by apply (map_ids _ _ x)). find_part.
  - assert (silence_start_id x ∈ map te_event_id (map silence_event ws)) by (by apply (map_ids _ _ x)). find_part.
  - assert (contraction_id x ∈ map te_event_id (map contraction_event cs)) by (by apply (map_ids _ _ x)). find_part.
  - intros i window q trigger Hw Hq Ht.
    assert (quality_id q trigger ∈ map te_event_id (concat (map window_events (enumerate (_rtp_quality_windows run)))));
      [|find_part].
    apply (concat_ids _ _ (i, window)); [done|]. cbn [window_events]. apply (concat_ids _ _ q); [done|].
    apply (map_ids _ _ trigger); [done|]. unfold quality_event. by repeat case_match.
  - intros Hf. assert ("run:failure" ∈ map te_event_id (failure_event run)); [|find_part].
    unfold failure_event. destruct (failure_alias run); [left|done].
Qed.

Section references.
Context (run : StoredRun) (artifacts : list TimelineTypedArtifact) (ids : list string).
Context (ids_ok : event_ids_ok run ids).

Definition resolves (ref : string) : Prop := ref ∈ ids \/ ref ∈ map ta_artifact_id artifacts.

Definition incident_resolves (i : TimelineIncident) : Prop := Forall resolves (in_evidence_refs i).

Lemma known_ids l : Forall (fun x => x ∈ ids) l -> Forall resolves l.
Proof. intros H. eapply Forall_impl; [exact H|]. by left. Qed.

Lemma artifact_ref_resolves stage : Forall resolves (artifact_ref artifacts stage).
Proof.
  unfold artifact_ref. destruct stage as [s|]; [|done].
  destruct (dict_get s (artifact_by_stage artifacts)) as [id|] eqn:E; [|done].
  constructor; [|done]. right. apply dict_of_list_elem in E.
  apply list_elem_of_omap in E as (a & Ha & E). destruct (ta_stage a); [|done]. injection E as _ <-.
  apply list_elem_of_fmap. eauto.
Qed.

Ltac solve_artifact_ref := first [apply artifact_ref_resolves | apply (artifact_ref_resolves (Some _))].

Lemma event_resolves e : e ∈ timeline_events run -> ev_name e <> "rtp.packet_arrived" -> resolves (ev_event_id e).
Proof. intros. left. by apply (ei_persisted _ _ ids_ok). Qed.

Lemma response_refs_resolve r : r ∈ _provider_response_evidence run -> Forall resolves (response_refs r).
Proof. intros Hr. apply known_ids. by apply (ei_responses _ _ ids_ok). Qed.

Lemma activity_resolves start_name stop_name a :
  a ∈ _correlated_activity_evidence run start_name stop_name ->
  start_name <> "rtp.packet_arrived" -> stop_name <> "rtp.packet_arrived" ->
  resolves (ev_event_id (act_start_event a)) /\ Forall resolves (stop_ref a).
Proof.
  intros Ha Hs Ht. destruct (activity_sources _ _ _ _ Ha) as [[H1 H2] H3].
  split; [apply event_resolves; congruence|]. unfold stop_ref. destruct (act_stop_event a) as [e|]; [|done].
  destruct (H3 e eq_refl). constructor; [apply event_resolves; congruence|done].
Qed.

Lemma playback_resolves a : a ∈ _assistant_playback_evidence run ->
  resolves (ev_event_id (act_start_event a)) /\ Forall resolves (stop_ref a).
Proof. intros Ha. by apply (activity_resolves _ _ _ Ha). Qed.

Lemma pcm_resolves l : pcm_incidents run artifacts = Ok l -> Forall incident_resolves l.
Proof.
  unfold pcm_incidents. intros H%mapM_res_ok. apply Forall_forall. intros i Hi.
  destruct (list_elem_of_lookup_1 _ _ Hi) as [n Hn]. destruct (Forall2_lookup_r _ _ _ _ _ H Hn) as (e & He & Hx).
  apply list_elem_of_lookup_2, elem_of_filterb in He as [He Hname%String.eqb_eq].
  unfold pcm_incident in Hx. apply bind_ok_inv in Hx as (a & _ & Hx). apply bind_ok_inv in Hx as (b & _ & [= <-]).
  unfold incident_resolves. cbn [in_evidence_refs]. apply Forall_app. split; [apply artifact_ref_resolves|].
  constructor; [apply event_resolves; [done|by rewrite Hname]|]. apply List.Forall_map, Forall_forall. intros c Hc.
  unfold nearby_events in Hc. rewrite elem_of_sorted_by, elem_of_filterb in Hc.
  destruct Hc as [Hc [Hn'%bool_decide_eq_true _]%andb_true_iff]. apply event_resolves; [done|].
  intros E. rewrite E in Hn'. revert Hn'. unfold correlation_names. set_solver.
Qed.

Lemma verification_resolves stage_names contractions signals duration_ms l :
  _duration_contraction_evidence run = Ok contractions -> _stage_signal_evidence run = Ok signals ->
  verification_incidents run artifacts stage_names contractions signals duration_ms = Ok l ->
  Forall incident_resolves l.
Proof.
  intros Hc Hs. unfold verification_incidents. intros H%mapM_res_ok. apply Forall_forall. intros i Hi.
  destruct (list_elem_of_lookup_1 _ _ Hi) as [n Hn]. destruct (Forall2_lookup_r _ _ _ _ _ H Hn) as ([k [j v]] & _ & Hx).
  cbn [fst snd] in Hx. unfold verification_incident in Hx.
  assert (forall A (key : A -> Z) (xs : list A) d, dict_get j (dict_of_list (map (fun x => (key x, x)) xs)) = Some d -> d ∈ xs) as Hz.
  { intros A key xs d (x & [= _ ->] & Hx')%dict_of_list_elem%list_elem_of_fmap. done. }
  destruct (dict_get j _) as [d|] eqn:E.
  - apply Hz in E. injection Hx as <-. unfold incident_resolves. cbn [in_evidence_refs].
    rewrite !Forall_app. repeat apply conj; try solve_artifact_ref. constructor; [|done]. left.
    by apply (ei_contractions _ _ ids_ok contractions).
  - destruct (String.eqb _ _).
    + apply bind_ok_inv in Hx as (delta & _ & [= <-]). unfold incident_resolves. cbn [in_evidence_refs].
      rewrite !Forall_app. repeat apply conj; try solve_artifact_ref.
      destruct (dict_get (ver_stage v) (dict_of_list (map _ signals))) as [s|] eqn:Es; [|done]. constructor; [|done]. left.
      apply (ei_signals _ _ ids_ok signals); [done|].
      apply dict_of_list_elem, list_elem_of_fmap in Es as (x & E' & Hx'). by injection E' as _ ->.
    + injection Hx as <-. unfold incident_resolves. cbn [in_evidence_refs]. rewrite Forall_app.
      split; solve_artifact_ref.
Qed.

Lemma full_scale_resolves l : _stage_full_scale_evidence run = Ok l ->
  Forall incident_resolves (map (full_scale_incident artifacts) l).
Proof.
  intros Hl. apply List.Forall_map, Forall_forall. intros f Hf. unfold incident_resolves. cbn [full_scale_incident in_evidence_refs].
  rewrite !Forall_app. repeat apply conj; try solve_artifact_ref. constructor; [|done]. left.
  by apply (ei_full_scale _ _ ids_ok l).
Qed.

Lemma dead_air_sources l d : _assistant_output_dead_air_evidence run = Ok l -> d ∈ l ->
  (exists ws, _stage_silence_windows run = Ok ws /\ da_silence d ∈ ws)
  /\ da_response d ∈ _provider_response_evidence run
  /\ (forall p, da_playback d = Some p -> p ∈ _assistant_playback_evidence run).
Proof.
  unfold _assistant_output_dead_air_evidence. intros (stages & _ & H)%bind_ok_inv Hd.
  destruct (last stages) as [final|]; [|injection H as <-; by apply not_elem_of_nil in Hd].
  apply bind_ok_inv in H as (ws & Hws & [= <-]).
  apply list_elem_of_In, in_concat in Hd as (l1 & Hl1 & Hd). apply list_elem_of_In, list_elem_of_fmap in Hl1 as (w & -> & Hw).
  apply in_concat in Hd as (l2 & Hl2 & Hd). apply list_elem_of_In, list_elem_of_fmap in Hl2 as (r & -> & Hr).
  apply list_elem_of_In, list_elem_of_omap in Hd as (p & Hp & Hd). apply elem_of_filterb in Hw as [Hw _].
  unfold dead_air_of in Hd. destruct (fltb _ _); [done|]. injection Hd as <-. cbn [da_silence da_response da_playback].
  split; [by exists ws|]. split; [done|]. intros q ->. destruct (_assistant_playback_evidence run) as [|a l].
  - apply list_elem_of_singleton in Hp. done.
  - change (Some q ∈ map Some (a :: l)) in Hp. apply list_elem_of_fmap in Hp as (b & [= ->] & Hb). done.
Qed.

Lemma dead_air_resolves l : _assistant_output_dead_air_evidence run = Ok l ->
  Forall incident_resolves (map (dead_air_incident artifacts) l).
Proof.
  intros Hl. apply List.Forall_map, Forall_forall. intros d Hd.
  destruct (dead_air_sources l d Hl Hd) as ((ws & Hws & Hw) & Hr & Hp). unfold incident_resolves.
  cbn [dead_air_incident in_evidence_refs]. apply Forall_app. split; [solve_artifact_ref|].
  constructor; [left; by apply (ei_silences _ _ ids_ok ws)|]. apply Forall_app. split; [by apply response_refs_resolve|].
  destruct (da_playback d) as [p|]; [|done]. destruct (playback_resolves p (Hp p eq_refl)). by constructor.
Qed.

Lemma gap_sources gap : gap ∈ _assistant_playback_gap_evidence run ->
  gap_previous gap ∈ _assistant_playback_evidence run /\ gap_next gap ∈ _assistant_playback_evidence run.
Proof.
  unfold _assistant_playback_gap_evidence. set (l := _assistant_playback_evidence run).
  assert (forall ps gaps, Forall (fun p => p.1 ∈ l /\ p.2 ∈ l) ps -> Forall (fun x => gap_previous x ∈ l /\ gap_next x ∈ l) gaps ->
    Forall (fun x => gap_previous x ∈ l /\ gap_next x ∈ l) (fold_left gap_step ps gaps)) as H.
  { intros ps. induction ps as [|[a b] ps IH]; intros gaps Hps Hg; [done|]. apply Forall_cons in Hps as [Hab Hps].
    cbn [fold_left]. apply IH; [done|]. unfold gap_step. destruct (stop_reason a) as [[]|]; try done.
    destruct (_ || _); [done|]. apply Forall_app. split; [done|]. by constructor. }
  specialize (H (pairwise l) []). rewrite !Forall_forall in H. intros Hgap. apply H; [|set_solver|done].
  intros [a b] Hab. by apply elem_of_pairwise.
Qed.

Lemma underruns_resolve : Forall incident_resolves (map underrun_incident (_assistant_playback_underrun_evidence run)).
Proof.
  apply List.Forall_map, Forall_forall. intros u Hu. unfold _assistant_playback_underrun_evidence in Hu.
  apply list_elem_of_In, in_concat in Hu as (l1 & Hl1 & Hu). apply list_elem_of_In, list_elem_of_fmap in Hl1 as (gap & -> & Hg).
  apply list_elem_of_In, list_elem_of_omap in Hu as (r & Hr & Hu). unfold underrun_of in Hu.
  destruct (fltb _ _); [done|]. injection Hu as <-. unfold incident_resolves. cbn [underrun_incident in_evidence_refs underrun_gap underrun_response].
  destruct (gap_sources gap Hg) as [H1 H2]. destruct (playback_resolves _ H1) as [_ H3], (playback_resolves _ H2) as [H4 _].
  unfold gap_refs. rewrite !Forall_app. split_and!; [done|by constructor|by apply response_refs_resolve].
Qed.

Lemma discontinuities_resolve ds : _rtp_packet_discontinuity_evidence run = Ok ds ->
  Forall incident_resolves (map discontinuity_incident ds).
Proof.
  intros Hds. apply List.Forall_map, Forall_forall. intros d Hd. unfold incident_resolves, discontinuity_incident.
  destruct (discontinuity_verdict d) as [[rule title] confidence]. cbn [in_evidence_refs].
  constructor; [left; by apply (ei_discontinuities _ _ ids_ok ds)|].
  destruct (discontinuity_sources _ _ _ Hds Hd) as [_ Hh]. destruct (di_capture_health d) as [h|]; [|done].
  destruct (Hh h eq_refl) as [H1 H2]. constructor; [|done]. apply event_resolves; [done|by rewrite H2].
Qed.

Lemma failure_resolves duration_ms : Forall incident_resolves (failure_incidents run duration_ms).
Proof.
  unfold failure_incidents. destruct (failure_alias run) eqn:E; [|done]. constructor; [|done].
  constructor; [|done]. left. apply (ei_failure _ _ ids_ok). by rewrite E.
Qed.

Lemma barge_ins_resolve found : mapM_res (barge_in_incident run) (_correlated_barge_in_events run) = Ok found ->
  Forall incident_resolves (concat found).
Proof.
  intros H%mapM_res_ok. apply Forall_concat, Forall_forall. intros l Hl.
  destruct (list_elem_of_lookup_1 _ _ Hl) as [n Hn]. destruct (Forall2_lookup_r _ _ _ _ _ H Hn) as ([alias events] & He & Hx).
  apply list_elem_of_lookup_2 in He. unfold barge_in_incident in Hx.
  destruct (barge_in_span run events) as [[[completed s] e]|]; [|injection Hx as <-; constructor].
  apply bind_ok_inv in Hx as (numbers & _ & Hx). apply bind_ok_inv in Hx as (played & _ & Hx).
  assert (exists i, l = [i] /\ in_evidence_refs i = map ev_event_id events) as (i & -> & Ei)
    by (injection Hx as <-; eexists; split; reflexivity).
  constructor; [|constructor]. unfold incident_resolves. rewrite Ei. apply List.Forall_map, Forall_forall. intros x Hx'.
  destruct (barge_in_sources _ _ _ _ He Hx') as [H1 H2]. apply event_resolves; [done|].
  intros E. rewrite E in H2. revert H2. unfold BARGE_IN_EVENTS. set_solver.
Qed.

Lemma quality_resolves : Forall incident_resolves (map quality_incident (enumerate (_rtp_quality_windows run))).
Proof.
  apply List.Forall_map, Forall_forall. intros [i window] Hw. unfold incident_resolves. cbn [quality_incident in_evidence_refs].
  apply Forall_concat, List.Forall_map, Forall_forall. intros q Hq. apply List.Forall_map, Forall_forall. intros t Ht.
  left. by apply (ei_quality _ _ ids_ok i window).
Qed.

Lemma incidents_resolve l : _typed_timeline_incidents run artifacts = Ok l -> Forall incident_resolves l.
Proof.
  unfold _typed_timeline_incidents. intros (stage_names & _ & H)%bind_ok_inv.
  apply bind_ok_inv in H as (contractions & Hc & H). apply bind_ok_inv in H as (signals & Hs & H).
  apply bind_ok_inv in H as (pcm & Hpcm & H). apply bind_ok_inv in H as (failed & Hf & H).
  apply bind_ok_inv in H as (fs & Hfs & H). apply bind_ok_inv in H as (dead & Hd & H).
  apply bind_ok_inv in H as (ds & Hds & H). apply bind_ok_inv in H as (barge & Hb & H). injection H as <-.
  rewrite !Forall_app. split_and!;
    eauto using pcm_resolves, verification_resolves, full_scale_resolves, dead_air_resolves, underruns_resolve,
      discontinuities_resolve, failure_resolves, barge_ins_resolve, quality_resolves.
Qed.
End references.

(** C28. Every reference of every incident of a timeline resolves: it is the
    identifier of a typed event or of an artifact of the same timeline, for
    incidents of every kind (packets, which are not shown as events, are never
    referenced). *)
Theorem incident_references_resolve run t :
  to_timeline run = Ok t ->
  Forall (fun i => Forall (fun ref => ref ∈ map te_event_id (ln_events (tl_lanes t))
                                      \/ ref ∈ map ta_artifact_id (ln_artifacts (tl_lanes t)))
                     (in_evidence_refs i)) (ln_incidents (tl_lanes t)).
Proof.
  unfold to_timeline. intros (stage_names & _ & H)%bind_ok_inv. apply bind_ok_inv in H as (events & He & H).
  apply bind_ok_inv in H as (intervals & _ & H). apply bind_ok_inv in H as (incidents & Hi & H). injection H as <-.
  cbn [tl_lanes ln_events ln_artifacts ln_incidents]. apply (incidents_resolve run); [by apply event_ids|done].
Qed.

(** ** The literal types of the response *)

Definition SEVERITIES : list string := ["info"; "warning"; "error"].
Definition CONFIDENCES : list string := ["certain"; "high"; "medium"; "low"].

Definition typed (category : string) : Prop := category ∈ TIMELINE_CATEGORIES.
Definition incident_typed (i : TimelineIncident) : Prop :=
  typed (in_category i) /\ in_severity i ∈ SEVERITIES /\ in_confidence i ∈ CONFIDENCES.

(** A literal is in a list of literals. *)
Ltac literal := unfold typed, TIMELINE_CATEGORIES, SEVERITIES, CONFIDENCES; set_solver.

Lemma mapM_res_Forall {A B} (f : A -> result B) (P : B -> Prop) l ys :
  (forall x y, f x = Ok y -> P y) -> mapM_res f l = Ok ys -> Forall P ys.
Proof. intros Hf H%mapM_res_ok. induction H; constructor; eauto. Qed.

Lemma metric_event_typed run s x :
  Forall (fun e => typed (te_category e)) s -> Forall (fun e => typed (te_category e)) (metric_event_step run s x).
Proof.
  intros Hs. unfold metric_event_step. destruct (metric_event_category run x) as [category|] eqn:E; [|done].
  apply Forall_app. split; [done|]. constructor; [|done]. cbn [te_category]. unfold metric_event_category in E.
  destruct x as [i m]. destruct (dict_get (metric_name m) _TIMELINE_EVENT_METRICS) as [c|] eqn:Ec; [|done].
  destruct (_ || _); [done|]. injection E as <-. apply dict_get_Some_elem in Ec.
  assert (Forall (fun kv => typed kv.2) _TIMELINE_EVENT_METRICS) as Ht by (repeat constructor; literal).
  rewrite Forall_forall in Ht. by apply (Ht _ Ec).
Qed.

Lemma events_typed run events : _typed_timeline_events run = Ok events -> Forall (fun e => typed (te_category e)) events.
Proof.
  unfold _typed_timeline_events. intros (persisted & Hp & H)%bind_ok_inv.
  apply bind_ok_inv in H as (ds & _ & H). apply bind_ok_inv in H as (sigs & _ & H).
  apply bind_ok_inv in H as (fs & _ & H). apply bind_ok_inv in H as (ws & _ & H).
  apply bind_ok_inv in H as (cs & _ & H). injection H as <-.
  rewrite sorted_by_perm, !Forall_app, !List.Forall_map. split_and!;
    try (apply Forall_forall; intros; cbn; literal).
  - apply Forall_forall. intros [i e] _. cbn. literal.
  - eapply mapM_res_Forall; [|exact Hp]. intros e t H. unfold persisted_event in H.
    apply bind_ok_inv in H as (c & Hc & [= <-]). cbn. unfold typed_category in Hc.
    destruct (bool_decide_reflect (ev_category e ∈ TIMELINE_CATEGORIES)); [by injection Hc as <-|done].
  - unfold metric_events. apply (fold_left_inv (fun s => Forall (fun e => typed (te_category e)) s)); [done|].
    intros. by apply metric_event_typed.
  - apply Forall_concat, List.Forall_map, Forall_forall. intros r _. unfold response_events.
    destruct (response_done_id r); repeat constructor; cbn; literal.
  - apply Forall_concat, List.Forall_map, Forall_forall. intros [i w] _. apply Forall_concat, List.Forall_map, Forall_forall.
    intros q _. apply List.Forall_map, Forall_forall. intros t _. unfold quality_event. repeat case_match; cbn; literal.
  - unfold failure_event. destruct (failure_alias run); [|done]. constructor; [cbn; literal|done].
Qed.

Lemma intervals_typed run l : _typed_timeline_intervals run = Ok l -> Forall (fun i => typed (ti_category i)) l.
Proof.
  unfold _typed_timeline_intervals. intros (origin & _ & H)%bind_ok_inv.
  apply bind_ok_inv in H as (spans & Hspans & H). apply bind_ok_inv in H as (ds & _ & H).
  apply bind_ok_inv in H as (dead & _ & H). apply bind_ok_inv in H as (ws & _ & H).
  apply bind_ok_inv in H as (cs & _ & H). injection H as <-.
  rewrite sorted_by_perm, !Forall_app, !List.Forall_map. split_and!;
    try (apply Forall_forall; intros; cbn; literal).
  - eapply mapM_res_Forall; [|exact Hspans]. intros [i s] t H. unfold span_interval in H.
    apply bind_ok_inv in H as (a & _ & H). apply bind_ok_inv in H as (b & _ & [= <-]). cbn. case_match; literal.
  - apply Forall_forall. intros i ([alias events] & _ & Hi)%list_elem_of_omap. unfold barge_in_interval in Hi.
    destruct (barge_in_span _ _) as [[[c s] e]|]; [|done]. injection Hi as <-. cbn. literal.
  - apply Forall_forall. intros [i w] _. cbn. literal.
Qed.

Lemma series_typed run : Forall (fun s => typed (ts_category s)) (_typed_timeline_series run).
Proof.
  unfold _typed_timeline_series. apply Forall_app. split; apply List.Forall_map, Forall_forall.
  - intros [i [[[c s] n] l]] Hx. apply elem_of_enumerate in Hx. rewrite elem_of_sorted_by in Hx. cbn [metric_series ts_category].
    pose proof (group_by_nonempty _ _ _ _ Hx) as Hne. destruct l as [|m l]; [done|].
    destruct (group_by_member _ _ _ _ m Hx ltac:(left)) as [_ Em]. injection Em as <- _ _.
    unfold _metric_timeline_category. repeat case_match; literal.
  - intros [i [[d n] l]] _. cbn. literal.
Qed.

Lemma incidents_typed run artifacts l : _typed_timeline_incidents run artifacts = Ok l -> Forall incident_typed l.
Proof.
  unfold _typed_timeline_incidents. intros (stage_names & _ & H)%bind_ok_inv.
  apply bind_ok_inv in H as (contractions & _ & H). apply bind_ok_inv in H as (signals & _ & H).
  apply bind_ok_inv in H as (pcm & Hpcm & H). apply bind_ok_inv in H as (failed & Hf & H).
  apply bind_ok_inv in H as (fs & _ & H). apply bind_ok_inv in H as (dead & _ & H).
  apply bind_ok_inv in H as (ds & _ & H). apply bind_ok_inv in H as (barge & Hb & H). injection H as <-.
  rewrite !Forall_app, !List.Forall_map. split_and!;
    try (apply Forall_forall; intros; split_and!; cbn; literal).
  - eapply mapM_res_Forall; [|exact Hpcm]. intros e i H. unfold pcm_incident in H.
    apply bind_ok_inv in H as (a & _ & H). apply bind_ok_inv in H as (b & _ & [= <-]).
    split_and!; cbn; try literal. destruct (nearby_events _ _); literal.
  - eapply mapM_res_Forall; [|exact Hf]. intros [k [j v]] i H. cbn [fst snd] in H. unfold verification_incident in H.
    repeat (case_match || (apply bind_ok_inv in H as (? & _ & H))); injection H as <-; split_and!; cbn; literal.
  - apply Forall_forall. intros d _. unfold discontinuity_incident, discontinuity_verdict.
    destruct (is_sequence_gap d), (capture_compromised d); split_and!; cbn; literal.
  - unfold failure_incidents. destruct (failure_alias run); [|done]. constructor; [|done]. split_and!; cbn; literal.
  - apply Forall_concat. eapply mapM_res_Forall; [|exact Hb]. intros [alias events] i H. unfold barge_in_incident in H.
    destruct (barge_in_span _ _) as [[[c s] e]|]; [|injection H as <-; constructor].
    apply bind_ok_inv in H as (numbers & _ & H). apply bind_ok_inv in H as (played & _ & [= <-]).
    constructor; [|constructor]. split_and!; cbn; try literal. case_match; literal.
  - apply Forall_forall. intros [i w] _. split_and!; cbn; literal.
Qed.

(** C32. Every literal field of a timeline has one of the values of its type:
    the categories of all events (those of stored events are checked), intervals,
    series, artifacts and incidents, and the severities and confidences of the
    incidents, so the response models accept what the assembly builds. *)
Theorem timeline_literals_valid run t :
  to_timeline run = Ok t ->
  let lanes := tl_lanes t in
  Forall (fun e => typed (te_category e)) (ln_events lanes)
  /\ Forall (fun i => typed (ti_category i)) (ln_intervals lanes)
  /\ Forall (fun s => typed (ts_category s)) (ln_series lanes)
  /\ Forall (fun a => typed (ta_category a)) (ln_artifacts lanes)
  /\ Forall incident_typed (ln_incidents lanes).
Proof.
  unfold to_timeline. intros (stage_names & _ & H)%bind_ok_inv. apply bind_ok_inv in H as (events & He & H).
  apply bind_ok_inv in H as (intervals & Hi & H). apply bind_ok_inv in H as (incidents & Hn & H). injection H as <-.
  cbn [tl_lanes ln_events ln_intervals ln_series ln_artifacts ln_incidents]. split_and!.
  - by apply (events_typed run).
  - by apply (intervals_typed run).
  - apply series_typed.
  - unfold _typed_timeline_artifacts. apply List.Forall_map, Forall_forall. intros [i r] _. cbn. literal.
  - by apply (incidents_typed run (_typed_timeline_artifacts run)).
Qed.

(** ** A concrete timeline *)

Definition demo_event (id name : string) (ts : instant) (alias : option string) (attributes : jdict)
    : TimelineEventArtifact :=
  MkTimelineEvent id "conversation" name ts "bridge_monotonic" None None None None "audiosocket_bridge" alias attributes.

(** A failed run with a barge-in, a packet gap and an elevated loss. *)
Definition incident_run : StoredRun :=
  let packet id ts sequence :=
    MkTimelineEvent id "transport" "rtp.packet_arrived" ts "capture" None (Some "received") None (Some "leg-a")
      "rtp_capture" None [("sequence_number", JInt sequence); ("rtp_timestamp", JInt (sequence * 160));
        ("payload_type", JInt 0); ("clock_rate_hz", JInt 8000); ("marker", JBool false)] in
  let base := example_run ["decoder"] []
    [demo_event "e1" "provider_interrupted" 1000000 (Some "b1") [];
     demo_event "e2" "playback_queue_cleared" 1100000 (Some "b1") [("discarded_audio_ms", JInt 120)];
     demo_event "e3" "barge_in_completed" 1200000 (Some "b1") [("interrupt_path", JStr "request")];
     packet "p1" 2000000 7; packet "p2" 2020000 9] in
  MkStoredRun (run_id base) (config_hash base) (call_id base) (conversation_id base) (provider base) (engine base)
    "failed" (started_at base) (ended_at base) (resolved_config base)
    [MkRecording "decoder" "file:///decoder.wav" [] (fz 10000)] [] [] (Some "provider-error")
    [MkVerification "decoder" "level_preserving" false [("delta_db", JFloat (flit 65 10))] [] "RMS delta outside tolerance"]
    [] [MkRtpStat 3000000 None (Some (fz 4)) None (Some "received") None] (timeline_events base) (environment base) [].

Lemma incident_references_resolve_witness :
  exists t, to_timeline incident_run = Ok t
  /\ map (fun i => (in_incident_id i, in_evidence_refs i)) (ln_incidents (tl_lanes t))
     = [("verification:0", ["recording:0"]); ("rtp-packet-discontinuity:0", ["rtp-packet-discontinuity:0:observed"]);
        ("run:failure", ["run:failure"]); ("barge-in:b1", ["e1"; "e2"; "e3"]);
        ("rtp-degradation:received:0", ["rtp:0:loss"])]
  /\ map in_summary (ln_incidents (tl_lanes t))
     = ["Stage changed RMS level by +6.50 dB"; "1 RTP packet absent between observed sequence numbers"; "provider-error";
        "Playback queue cleared; 120 ms queued audio discarded"; "received RTP: loss across 1 observation"]
  /\ Forall (fun i => Forall (fun ref => ref ∈ map te_event_id (ln_events (tl_lanes t))
                                      \/ ref ∈ map ta_artifact_id (ln_artifacts (tl_lanes t)))
                     (in_evidence_refs i)) (ln_incidents (tl_lanes t)).
Proof.
  eexists. split; [vm_compute; reflexivity|]. split; [vm_compute; reflexivity|]. split; [vm_compute; reflexivity|].
  apply (incident_references_resolve incident_run). vm_compute. reflexivity.
Defined.

(** The intervals of the same run: the barge-in, the gap and the loss. *)
Lemma intervals_never_reversed_witness :
  exists l, _typed_timeline_intervals incident_run = Ok l
  /\ map (fun i => (ti_interval_id i, ti_start_ms i, ti_end_ms i)) l
     = [("barge-in:b1", fz 1000, fz 1200); ("rtp-packet-discontinuity:0", fz 2000, fz 2020);
        ("rtp-degradation:received:0", fz 3000, fz 3000)]
  /\ Forall (fun i => not_reversed (ti_start_ms i) (ti_end_ms i)) l.
Proof.
  eexists. split; [vm_compute; reflexivity|]. split; [vm_compute; reflexivity|].
  apply (intervals_never_reversed incident_run). vm_compute. reflexivity.
Defined.

Lemma timeline_literals_valid_witness :
  exists t, to_timeline incident_run = Ok t
  /\ map (fun i => (in_category i, in_severity i, in_confidence i)) (ln_incidents (tl_lanes t))
     = [("pipeline", "error", "certain"); ("transport", "warning", "high"); ("session", "error", "certain");
        ("conversation", "info", "high"); ("transport", "warning", "medium")]
  /\ Forall incident_typed (ln_incidents (tl_lanes t)).
Proof.
  eexists. split; [vm_compute; reflexivity|]. split; [vm_compute; reflexivity|].
  apply (timeline_literals_valid incident_run). vm_compute. reflexivity.
Defined.
