(* ===== verification/Digest.v ===== *)
(** * SHA-256, HMAC and URL-safe base64

    [hashlib.sha256], [hmac.new(..., hashlib.sha256)] and
    [base64.urlsafe_b64encode] of the Python library, on bytes, with the
    32-bit words of SHA-256 as integers below 2^32. *)
From S2P Require Import Prelude PyData Bytes.

Open Scope Z_scope.

(** ** SHA-256 (FIPS 180-4) *)

Definition word (z : Z) : Z := z mod 2 ^ 32.
Definition rotr (n x : Z) : Z := Z.lor (Z.shiftr x n) (word (Z.shiftl x (32 - n))).

Definition big_sigma0 (x : Z) : Z := Z.lxor (rotr 2 x) (Z.lxor (rotr 13 x) (rotr 22 x)).
Definition big_sigma1 (x : Z) : Z := Z.lxor (rotr 6 x) (Z.lxor (rotr 11 x) (rotr 25 x)).
Definition small_sigma0 (x : Z) : Z := Z.lxor (rotr 7 x) (Z.lxor (rotr 18 x) (Z.shiftr x 3)).
Definition small_sigma1 (x : Z) : Z := Z.lxor (rotr 17 x) (Z.lxor (rotr 19 x) (Z.shiftr x 10)).
Definition choose (x y z : Z) : Z := Z.lxor (Z.land x y) (Z.land (Z.lxor x (2 ^ 32 - 1)) z).
Definition majority (x y z : Z) : Z := Z.lxor (Z.land x y) (Z.lxor (Z.land x z) (Z.land y z)).

Definition round_constants : list Z :=
  [1116352408; 1899447441; 3049323471; 3921009573; 961987163; 1508970993; 2453635748; 2870763221;
   3624381080; 310598401; 607225278; 1426881987; 1925078388; 2162078206; 2614888103; 3248222580;
   3835390401; 4022224774; 264347078; 604807628; 770255983; 1249150122; 1555081692; 1996064986;
   2554220882; 2821834349; 2952996808; 3210313671; 3336571891; 3584528711; 113926993; 338241895;
   666307205; 773529912; 1294757372; 1396182291; 1695183700; 1986661051; 2177026350; 2456956037;
   2730485921; 2820302411; 3259730800; 3345764771; 3516065817; 3600352804; 4094571909; 275423344;
   430227734; 506948616; 659060556; 883997877; 958139571; 1322822218; 1537002063; 1747873779;
   1955562222; 2024104815; 2227730452; 2361852424; 2428436474; 2756734187; 3204031479; 3329325298].

(** The eight working variables. *)
Record hash_state := MkHash { ha : Z; hb : Z; hc : Z; hd : Z; he : Z; hf : Z; hg : Z; hh : Z }.

Definition initial_hash : hash_state :=
  MkHash 1779033703 3144134277 1013904242 2773480762 1359893119 2600822924 528734635 1541459225.

Definition sha_round (s : hash_state) (kw : Z * Z) : hash_state :=
  let '(k, w) := kw in
  let t1 := hh s + big_sigma1 (he s) + choose (he s) (hf s) (hg s) + k + w in
  let t2 := big_sigma0 (ha s) + majority (ha s) (hb s) (hc s) in
  MkHash (word (t1 + t2)) (ha s) (hb s) (hc s) (word (hd s + t1)) (he s) (hf s) (hg s).

(** The message schedule, most recent word first. *)
Definition schedule_step (w : list Z) : list Z :=
  word (small_sigma1 (nth 1 w 0) + nth 6 w 0 + small_sigma0 (nth 14 w 0) + nth 15 w 0) :: w.
Definition schedule (block : list Z) : list Z := rev (Nat.iter 48 schedule_step (rev block)).

Definition compress (s : hash_state) (block : list Z) : hash_state :=
  let r := fold_left sha_round (zip round_constants (schedule block)) s in
  MkHash (word (ha s + ha r)) (word (hb s + hb r)) (word (hc s + hc r)) (word (hd s + hd r))
    (word (he s + he r)) (word (hf s + hf r)) (word (hg s + hg r)) (word (hh s + hh r)).

(** Big-endian 32-bit words of a list of bytes. *)
Fixpoint be_words (data : bytes) : list Z :=
  match data with
  | a :: b :: c :: d :: rest =>
      (byte_val a * 2 ^ 24 + byte_val b * 2 ^ 16 + byte_val c * 2 ^ 8 + byte_val d) :: be_words rest
  | _ => []
  end.

Definition be32 (z : Z) : bytes := [byte_of (z / 2 ^ 24); byte_of (z / 2 ^ 16); byte_of (z / 2 ^ 8); byte_of z].

(** The padded message: a one bit, zeros and the bit length in 64 bits. *)
Definition sha_pad (data : bytes) : bytes :=
  data ++ byte_of 128 :: repeat (byte_of 0) (Z.to_nat ((55 - len data) mod 64))
       ++ be32 (8 * len data / 2 ^ 32) ++ be32 (8 * len data).

(** The blocks of sixteen words; there is at most one per sixteen words. *)
Fixpoint blocks (fuel : nat) (words : list Z) : list (list Z) :=
  match fuel, words with
  | S n, _ :: _ => take 16 words :: blocks n (drop 16 words)
  | _, _ => []
  end.

Definition hash_bytes (s : hash_state) : bytes :=
  be32 (ha s) ++ be32 (hb s) ++ be32 (hc s) ++ be32 (hd s)
  ++ be32 (he s) ++ be32 (hf s) ++ be32 (hg s) ++ be32 (hh s).

(** [hashlib.sha256(data).digest()]. *)
Definition sha256 (data : bytes) : bytes :=
  let words := be_words (sha_pad data) in
  hash_bytes (fold_left compress (blocks (length words) words) initial_hash).

(** ** HMAC (RFC 2104) *)

Definition hmac_key (key : bytes) : bytes :=
  let key := if 64 <? len key then sha256 key else key in
  key ++ repeat (byte_of 0) (64 - length key).

Definition xor_bytes (v : Z) (data : bytes) : bytes := map (fun b => byte_of (Z.lxor (byte_val b) v)) data.

(** [hmac.new(key, message, hashlib.sha256).digest()]. *)
Definition hmac_sha256 (key message : bytes) : bytes :=
  let key := hmac_key key in
  sha256 (xor_bytes 92 key ++ sha256 (xor_bytes 54 key ++ message)).

(** ** URL-safe base64 *)

Definition b64_char (i : Z) : Ascii.ascii :=
  if i <? 26 then chr (65 + i) else if i <? 52 then chr (71 + i) else if i <? 62 then chr (i - 4)
  else if i =? 62 then "-"%char else "_"%char.

(** [base64.urlsafe_b64encode]. *)
Fixpoint urlsafe_b64encode (data : bytes) : list Ascii.ascii :=
  match data with
  | a :: b :: c :: rest =>
      let n := byte_val a * 65536 + byte_val b * 256 + byte_val c in
      b64_char (n / 262144) :: b64_char (n / 4096 mod 64) :: b64_char (n / 64 mod 64)
      :: b64_char (n mod 64) :: urlsafe_b64encode rest
  | [a; b] =>
      let n := byte_val a * 65536 + byte_val b * 256 in
      [b64_char (n / 262144); b64_char (n / 4096 mod 64); b64_char (n / 64 mod 64); "="%char]
  | [a] =>
      let n := byte_val a * 65536 in
      [b64_char (n / 262144); b64_char (n / 4096 mod 64); "="%char; "="%char]
  | [] => []
  end.

(** The 64 characters of the encoding. *)
Definition is_b64 (c : Ascii.ascii) : bool := is_ascii_alnum c || Ascii.eqb c "-" || Ascii.eqb c "_".

(** [s.encode("ascii")]; the caller has an ASCII string. *)
Definition encode_ascii (s : string) : bytes := map (fun c => byte_of (code c)) (chars s).

(** ** Lemmas *)

Lemma b64_char_ok i : 0 <= i < 64 -> is_b64 (b64_char i) = true.
Proof.
  intros Hi. assert (Forall (fun i => is_b64 (b64_char i) = true) (seqZ 0 64)) as H
    by (repeat (apply Forall_cons; split; [vm_compute; reflexivity|]); apply Forall_nil; done).
  rewrite Forall_forall in H. apply H, elem_of_seqZ. lia.
Qed.

Lemma sha256_length data : length (sha256 data) = 32%nat.
Proof. reflexivity. Qed.

(** A digest is 43 characters of the alphabet and one of padding. *)
Lemma b64_two_left n data : length data = (3 * n + 2)%nat ->
  exists l, urlsafe_b64encode data = l ++ ["="%char] /\ length l = (4 * n + 3)%nat
            /\ forallb is_b64 l = true.
Proof.
  revert data. induction n as [|n IH]; intros data Hl.
  - destruct data as [|a [|b [|c data]]]; try done. cbn [urlsafe_b64encode].
    pose proof (byte_val_range a). pose proof (byte_val_range b).
    assert (0 <= (byte_val a * 65536 + byte_val b * 256) / 262144 < 64)
      by (split; [apply Z.div_pos|apply Z.div_lt_upper_bound]; lia).
    eexists [_; _; _]. split; [reflexivity|]. split; [done|]. cbn [forallb].
    rewrite !b64_char_ok; first [done | by apply Z.mod_pos_bound].
  - destruct data as [|a [|b [|c data]]]; cbn in Hl; try lia.
    destruct (IH data) as (l & El & Hn & Hb); [lia|]. cbn [urlsafe_b64encode]. rewrite El.
    pose proof (byte_val_range a). pose proof (byte_val_range b). pose proof (byte_val_range c).
    assert (0 <= (byte_val a * 65536 + byte_val b * 256 + byte_val c) / 262144 < 64)
      by (split; [apply Z.div_pos|apply Z.div_lt_upper_bound]; lia).
    eexists (_ :: _ :: _ :: _ :: l). split; [reflexivity|]. split; [cbn; lia|]. cbn [forallb].
    rewrite !b64_char_ok, Hb; first [done | by apply Z.mod_pos_bound].
Qed.

(** ** Test vectors *)

Example sha256_abc : map byte_val (sha256 (encode_ascii "abc"))
  = [186; 120; 22; 191; 143; 1; 207; 234; 65; 65; 64; 222; 93; 174; 34; 35; 176; 3; 97; 163; 150; 23;
     122; 156; 180; 16; 255; 97; 242; 0; 21; 173].
Proof. vm_compute. reflexivity. Qed.

Example hmac_fox :
  str (urlsafe_b64encode (hmac_sha256 (encode_ascii "key")
    (encode_ascii "The quick brown fox jumps over the lazy dog")))
  = "97yD9DBThCSxMpjmqm-xQ-9NWaFJRhdZl0edvC0aPNg=".
Proof. vm_compute. reflexivity. Qed.
