(* ===== verification/AudioSession.v ===== *)
(** * Signed sessions for remote recording playback

    [control_plane/audio_session.py]: the configuration read from the
    environment, the cookie issued at a login and its verification.  The
    clock's reading and the nonce of a call are arguments. *)
From S2P Require Import Prelude Collections PyFloat PyData Bytes Digest.

Open Scope Z_scope.

Definition WEB_AUDIO_SESSION_ENV : string := "VOXBENCH_WEB_AUDIO_SESSION".
Definition WEB_AUDIO_LOGIN_TOKEN_ENV : string := "VOXBENCH_WEB_AUDIO_LOGIN_TOKEN".
Definition WEB_AUDIO_SESSION_SECRET_ENV : string := "VOXBENCH_WEB_AUDIO_SESSION_SECRET".
Definition WEB_AUDIO_SESSION_TTL_SECONDS_ENV : string := "VOXBENCH_WEB_AUDIO_SESSION_TTL_SECONDS".
Definition WEB_AUDIO_COOKIE_SECURE_ENV : string := "VOXBENCH_WEB_AUDIO_COOKIE_SECURE".

Definition _MIN_SECRET_LENGTH : Z := 32.
Definition _MAX_SECRET_LENGTH : Z := 256.
Definition _MIN_TTL_SECONDS : Z := 60.
Definition _MAX_TTL_SECONDS : Z := 3600.
Definition _DEFAULT_TTL_SECONDS : Z := 900.

(** The message of an [AudioSessionConfigurationError]. *)
Definition configuration_message (reason_alias : string) (missing_env_names : list string) : string :=
  "web audio session configuration failed: " +:+ reason_alias
  +:+ match missing_env_names with
      | [] => ""
      | first :: others => " (" +:+ first +:+ fold_right (fun n s => ", " +:+ n +:+ s) ")" others
      end.

Definition configuration_error {A} (reason_alias : string) (missing : list string) : result A :=
  Raise AudioSessionConfigurationError (configuration_message reason_alias missing).

Record RemoteAudioSessionAuth := MkAuth {
  login_token : string; signing_secret : bytes; ttl_seconds : Z; cookie_secure : bool }.

(** [hmac.compare_digest] on two strings. *)
Definition compare_digest (a b : string) : result bool :=
  if is_ascii a && is_ascii b then Ok (String.eqb a b)
  else Raise TypeError "comparing strings with non-ASCII characters is not supported".

Definition signature_chars (secret : bytes) (payload : string) : list Ascii.ascii :=
  rstrip_by (Ascii.eqb "=") (urlsafe_b64encode (hmac_sha256 secret (encode_ascii payload))).

Definition _signature (auth : RemoteAudioSessionAuth) (payload : string) : result string :=
  if is_ascii payload then Ok (str (signature_chars (signing_secret auth) payload))
  else Raise ValueError "'ascii' codec can't encode characters".

(** [clock] and [nonce] are what [self.clock()] and [self.nonce_factory(18)]
    return. *)
Definition issue_cookie (auth : RemoteAudioSessionAuth) (clock : float) (nonce : string)
    (supplied_login_token : string) : result string :=
  matches ← if is_ascii supplied_login_token then compare_digest supplied_login_token (login_token auth)
            else Ok false;
  if negb matches then Raise AudioSessionLoginError "web-audio-login-rejected"
  else
    now ← py_int clock;
    let expires_at := now + ttl_seconds auth in
    let payload := "v1." +:+ pretty expires_at +:+ "." +:+ nonce in
    signature ← _signature auth payload;
    Ok (payload +:+ "." +:+ signature).

Definition remaining_seconds (auth : RemoteAudioSessionAuth) (clock : float) (cookie : option string)
    : result (option Z) :=
  match cookie with
  | None => Ok None
  | Some cookie =>
      if negb (is_ascii cookie) || (512 <? strlen cookie) then Ok None
      else
        match split_char "." (chars cookie) with
        | [version; expiry; nonce; signature] =>
            if negb (String.eqb (str version) "v1") || negb (isdigit (str expiry)) then Ok None
            else
              let payload := str (join_char "." [version; expiry; nonce]) in
              expected ← _signature auth payload;
              matches ← compare_digest (str signature) expected;
              if negb matches then Ok None
              else
                now ← py_int clock;
                expires_at ← int_of_digits (str expiry);
                let remaining := expires_at - now in
                if (remaining <=? 0) || (ttl_seconds auth <? remaining) then Ok None
                else Ok (Some remaining)
        | _ => Ok None
        end
  end.

Definition _validate_secret (value reason_alias : string) : result unit :=
  if negb ((_MIN_SECRET_LENGTH <=? strlen value) && (strlen value <=? _MAX_SECRET_LENGTH))
     || negb (is_ascii value) || existsb is_space (chars value)
  then configuration_error reason_alias [] else Ok tt.

Definition _parse_boolean (value reason_alias : string) : result bool :=
  let normalized := lower (strip value) in
  if String.eqb normalized "true" then Ok true
  else if String.eqb normalized "false" then Ok false
  else configuration_error reason_alias [].

Definition _parse_integer (value : string) (minimum maximum : Z) (reason_alias : string) : result Z :=
  let normalized := strip value in
  if negb (isdigit normalized) then configuration_error reason_alias []
  else
    parsed ← int_of_digits normalized;
    if negb ((minimum <=? parsed) && (parsed <=? maximum)) then configuration_error reason_alias []
    else Ok parsed.

Definition build_remote_audio_session_from_env (values : list (string * string))
    (remote_audio_proxy_enabled : bool) : result (option RemoteAudioSessionAuth) :=
  enabled ← _parse_boolean (dict_get_default WEB_AUDIO_SESSION_ENV "false" values)
              "web-audio-session-flag-invalid";
  if negb enabled then Ok None
  else if negb remote_audio_proxy_enabled
  then configuration_error "web-audio-session-requires-remote-proxy" []
  else
    let missing := filterb (fun name => negb (dict_mem name values))
                     [WEB_AUDIO_LOGIN_TOKEN_ENV; WEB_AUDIO_SESSION_SECRET_ENV] in
    match dict_get WEB_AUDIO_LOGIN_TOKEN_ENV values, dict_get WEB_AUDIO_SESSION_SECRET_ENV values with
    | Some login_token, Some signing_secret =>
        _ ← _validate_secret login_token "web-audio-login-token-invalid";
        _ ← _validate_secret signing_secret "web-audio-session-secret-invalid";
        same ← compare_digest login_token signing_secret;
        if (same : bool) then configuration_error "web-audio-secrets-must-differ" []
        else
          ttl ← _parse_integer
                  (dict_get_default WEB_AUDIO_SESSION_TTL_SECONDS_ENV (pretty _DEFAULT_TTL_SECONDS) values)
                  _MIN_TTL_SECONDS _MAX_TTL_SECONDS "web-audio-session-ttl-invalid";
          secure ← _parse_boolean (dict_get_default WEB_AUDIO_COOKIE_SECURE_ENV "true" values)
                     "web-audio-cookie-secure-invalid";
          Ok (Some (MkAuth login_token (encode_ascii signing_secret) ttl secure))
    | _, _ => configuration_error "web-audio-session-config-missing" missing
    end.

(** ** Lemmas: texts *)

(** Characters that may appear between two dots of a cookie. *)
Definition is_field_char (c : Ascii.ascii) : bool := is_ascii_char c && negb (Ascii.eqb c ".").

Lemma b64_field c : is_b64 c = true -> is_field_char c && negb (Ascii.eqb "=" c) = true.
Proof.
  intros H. pose proof (ascii_cases (fun c => implb (is_b64 c) (is_field_char c && negb (Ascii.eqb "=" c)))) as P.
  specialize (P ltac:(vm_compute; reflexivity) c). cbv beta in P. by rewrite H in P.
Qed.

Lemma digit_field c : is_digit_char c = true -> is_field_char c && is_digit_like c = true.
Proof.
  intros H. pose proof (ascii_cases (fun c => implb (is_digit_char c) (is_field_char c && is_digit_like c))) as P.
  specialize (P ltac:(vm_compute; reflexivity) c). cbv beta in P. by rewrite H in P.
Qed.

Lemma ascii_digit c : is_ascii_char c = true -> is_digit_like c = true -> is_digit_char c = true.
Proof.
  intros H1 H2. pose proof (ascii_cases (fun c => implb (is_ascii_char c && is_digit_like c) (is_digit_char c))) as P.
  specialize (P ltac:(vm_compute; reflexivity) c). cbv beta in P. by rewrite H1, H2 in P.
Qed.

Lemma field_no_dot l : forallb is_field_char l = true -> "."%char ∉ l.
Proof.
  intros H Hin. rewrite forallb_forall in H. apply list_elem_of_In in Hin. by apply H in Hin.
Qed.

Lemma field_ascii l : forallb is_field_char l = true -> forallb is_ascii_char l = true.
Proof. apply forallb_weaken. unfold is_field_char. by intros c [? _]%andb_true_iff. Qed.

Lemma b64_fields l : forallb is_b64 l = true -> forallb is_field_char l = true.
Proof. apply forallb_weaken. by intros c [? _]%b64_field%andb_true_iff. Qed.

(** A signature is 43 characters of the URL-safe alphabet. *)
Lemma signature_chars_ok secret payload :
  length (signature_chars secret payload) = 43%nat /\ forallb is_b64 (signature_chars secret payload) = true.
Proof.
  unfold signature_chars, hmac_sha256.
  destruct (b64_two_left 10 _ (sha256_length (xor_bytes 92 (hmac_key secret)
    ++ sha256 (xor_bytes 54 (hmac_key secret) ++ encode_ascii payload)))) as (l & -> & Hl & Hb).
  assert (rstrip_by (Ascii.eqb "=") (l ++ ["="%char]) = l) as ->; [|done].
  unfold rstrip_by. rewrite rev_app_distr. cbn [rev app lstrip_by]. rewrite Ascii.eqb_refl.
  rewrite lstrip_by_id; [apply rev_involutive|]. rewrite forallb_rev. revert Hb. apply forallb_weaken.
  by intros c [_ ?]%b64_field%andb_true_iff.
Qed.

(** ** Lemmas: cookies *)

(** The text that is signed, and the cookie that carries it. *)
Definition cookie_payload (expiry nonce : list Ascii.ascii) : list Ascii.ascii :=
  ["v"; "1"; "."]%char ++ expiry ++ "."%char :: nonce.
Definition signed_cookie (auth : RemoteAudioSessionAuth) (expiry nonce : list Ascii.ascii) : list Ascii.ascii :=
  let payload := cookie_payload expiry nonce in
  payload ++ "."%char :: signature_chars (signing_secret auth) (str payload).

Lemma split_cookie expiry nonce signature :
  forallb is_field_char expiry = true -> forallb is_field_char nonce = true ->
  forallb is_field_char signature = true ->
  split_char "." (cookie_payload expiry nonce ++ "."%char :: signature)
  = [["v"; "1"]%char; expiry; nonce; signature].
Proof.
  intros He Hn Hs.
  assert (cookie_payload expiry nonce ++ "."%char :: signature
          = ["v"; "1"]%char ++ "."%char :: expiry ++ "."%char :: nonce ++ "."%char :: signature) as ->.
  { unfold cookie_payload. cbn [app]. by rewrite <- app_assoc. }
  rewrite split_char_app by (by apply field_no_dot).
  rewrite !split_char_app by (by apply field_no_dot). by rewrite split_char_notin by (by apply field_no_dot).
Qed.

Lemma join_payload expiry nonce :
  join_char "." [["v"; "1"]%char; expiry; nonce] = cookie_payload expiry nonce.
Proof. reflexivity. Qed.

Lemma is_ascii_str l : is_ascii (str l) = forallb is_ascii_char l.
Proof. unfold is_ascii. by rewrite chars_str. Qed.

Lemma signature_ascii auth payload : is_ascii payload = true ->
  _signature auth payload = Ok (str (signature_chars (signing_secret auth) payload)).
Proof. unfold _signature. by intros ->. Qed.

Lemma compare_ascii a b : is_ascii a = true -> is_ascii b = true -> compare_digest a b = Ok (String.eqb a b).
Proof. unfold compare_digest. by intros -> ->. Qed.

Lemma payload_ascii expiry nonce :
  forallb is_ascii_char expiry = true -> forallb is_ascii_char nonce = true ->
  forallb is_ascii_char (cookie_payload expiry nonce) = true.
Proof. intros He Hn. unfold cookie_payload. rewrite !forallb_app. cbn [forallb]. by rewrite He, Hn. Qed.

(** What is left of a cookie that expires at [v]. *)
Definition left_of (auth : RemoteAudioSessionAuth) (v t : Z) : option Z :=
  if (v - t <=? 0) || (ttl_seconds auth <? v - t) then None else Some (v - t).

(** A signed cookie is accepted for the time that is left of it. *)
Lemma remaining_signed auth clock t expiry nonce :
  py_int clock = Ok t -> forallb is_digit_char expiry = true -> expiry <> [] ->
  forallb is_field_char nonce = true -> len (expiry ++ nonce) <= 400 ->
  remaining_seconds auth clock (Some (str (signed_cookie auth expiry nonce)))
  = Ok (left_of auth (decimal_value expiry) t).
Proof.
  intros Ht Hd Hne Hn Hlen.
  assert (forallb is_field_char expiry = true) as He
    by (revert Hd; apply forallb_weaken; by intros c [? _]%digit_field%andb_true_iff).
  destruct (signature_chars_ok (signing_secret auth) (str (cookie_payload expiry nonce))) as [Hs Hb].
  apply b64_fields in Hb.
  assert (forallb is_ascii_char (cookie_payload expiry nonce) = true) as Hp by (by apply payload_ascii; apply field_ascii).
  unfold remaining_seconds, signed_cookie.
  rewrite is_ascii_str, forallb_app, Hp. cbn [forallb andb]. rewrite (field_ascii _ Hb).
  unfold strlen. rewrite chars_str, split_cookie by done.
  assert (len (cookie_payload expiry nonce ++ "."%char ::
    signature_chars (signing_secret auth) (str (cookie_payload expiry nonce))) <= 512) as Hl.
  { set (sig := signature_chars _ _) in *. unfold cookie_payload, len in *.
    rewrite !length_app in *. cbn [length]. lia. }
  replace (512 <? _) with false by (symmetry; apply Z.ltb_ge; exact Hl). cbn [negb orb].
  assert (isdigit (str expiry) = true) as ->.
  { unfold isdigit. rewrite chars_str. destruct expiry; [done|]. revert Hd. apply forallb_weaken.
    by intros c [_ ?]%digit_field%andb_true_iff. }
  change (String.eqb (str ["v"; "1"]%char) "v1") with true. cbn [negb orb].
  rewrite join_payload, signature_ascii by (by rewrite is_ascii_str). cbn [mbind result_bind].
  rewrite compare_ascii; [|rewrite is_ascii_str; by apply field_ascii..]. cbn [mbind result_bind].
  rewrite String.eqb_refl, Ht. cbn [negb mbind result_bind].
  unfold int_of_digits. rewrite chars_str, Hd.
  replace (4300 <? len expiry) with false
    by (symmetry; apply Z.ltb_ge; rewrite len_app in Hlen; pose proof (len_nonneg nonce); lia).
  cbn [mbind result_bind]. unfold left_of. cbv zeta. by destruct (_ || (ttl_seconds auth <? _)).
Qed.

Lemma cookie_longer expiry nonce signature :
  len expiry <= len (cookie_payload expiry nonce ++ "."%char :: signature).
Proof. unfold cookie_payload, len. rewrite !length_app. lia. Qed.

(** A cookie that is accepted is signed and has not expired; nothing makes the
    verification fail. *)
Lemma remaining_inv auth clock t cookie :
  py_int clock = Ok t ->
  exists answer, remaining_seconds auth clock cookie = Ok answer
  /\ forall r, answer = Some r -> exists expiry nonce,
       cookie = Some (str (signed_cookie auth expiry nonce))
       /\ forallb is_digit_char expiry = true /\ decimal_value expiry = t + r
       /\ 0 < r <= ttl_seconds auth.
Proof.
  intros Ht. destruct cookie as [text|]; [|by exists None]. unfold remaining_seconds.
  destruct (is_ascii text) eqn:Ha; [|by exists None]. destruct (512 <? _) eqn:Hl; [by exists None|].
  cbn [negb orb]. pose proof (join_split_char "." (chars text)) as Hj.
  destruct (split_char "." (chars text)) as [|version [|expiry [|nonce [|signature [|? ?]]]]]; try by exists None.
  destruct (String.eqb (str version) "v1") eqn:Hv; [|by exists None].
  destruct (isdigit (str expiry)) eqn:Hd; [|by exists None]. cbn [negb orb].
  apply String.eqb_eq in Hv. apply (f_equal chars) in Hv. rewrite chars_str in Hv. subst version.
  assert (cookie_payload expiry nonce ++ "."%char :: signature = chars text) as Hjoin
    by (rewrite <- Hj; unfold cookie_payload; cbn; by rewrite <- app_assoc).
  clear Hj. rename Hjoin into Hj.
  assert (len expiry <= 4300) as Hlen
    by (pose proof (cookie_longer expiry nonce signature); apply Z.ltb_ge in Hl;
        unfold strlen in Hl; rewrite <- Hj in Hl; lia).
  unfold is_ascii in Ha. rewrite <- Hj, forallb_app in Ha. apply andb_true_iff in Ha as [Hp Hs].
  cbn [forallb] in Hs. apply andb_true_iff in Hs as [_ Hs].
  change (join_char "." _) with (cookie_payload expiry nonce).
  rewrite signature_ascii by (by rewrite is_ascii_str). cbn [mbind result_bind].
  destruct (signature_chars_ok (signing_secret auth) (str (cookie_payload expiry nonce))) as [_ Hb].
  rewrite compare_ascii; [|by rewrite is_ascii_str|rewrite is_ascii_str; by apply field_ascii, b64_fields].
  cbn [mbind result_bind]. destruct (String.eqb (str signature) _) eqn:Es; [|by exists None].
  apply String.eqb_eq in Es. apply (f_equal chars) in Es. rewrite !chars_str in Es. subst signature.
  cbn [negb]. rewrite Ht. cbn [mbind result_bind].
  assert (forallb is_digit_char expiry = true) as Hdig.
  { unfold isdigit in Hd. rewrite chars_str in Hd. unfold cookie_payload in Hp.
    rewrite forallb_app, forallb_app in Hp. apply andb_true_iff in Hp as [_ [Hp _]%andb_true_iff].
    rewrite forallb_forall in Hp. apply forallb_forall. intros c Hc. apply ascii_digit; [by apply Hp|].
    destruct expiry; [done|]. rewrite forallb_forall in Hd. by apply Hd. }
  unfold int_of_digits. rewrite chars_str, Hdig.
  replace (4300 <? len expiry) with false by (symmetry; by apply Z.ltb_ge). cbn [mbind result_bind].
  destruct (_ || _) eqn:Er; [by exists None|]. apply orb_false_iff in Er as [E1%Z.leb_gt E2%Z.ltb_ge].
  eexists. split; [reflexivity|]. intros r [= <-]. exists expiry, nonce.
  split; [by rewrite <- (str_chars text), <- Hj|]. split; [done|]. lia.
Qed.

(** The cookie of a login at [now]. *)
Definition session_cookie (auth : RemoteAudioSessionAuth) (now : Z) (nonce : string) : string :=
  str (signed_cookie auth (chars (pretty (now + ttl_seconds auth))) (chars nonce)).

Lemma issue_cookie_eq auth clock now nonce supplied :
  is_ascii (login_token auth) = true -> py_int clock = Ok now ->
  forallb is_ascii_char (chars (pretty (now + ttl_seconds auth))) = true ->
  forallb is_ascii_char (chars nonce) = true ->
  issue_cookie auth clock nonce supplied
  = if String.eqb supplied (login_token auth) then Ok (session_cookie auth now nonce)
    else Raise AudioSessionLoginError "web-audio-login-rejected".
Proof.
  intros Ha Ht He Hn. unfold issue_cookie, compare_digest.
  assert ("v1." +:+ pretty (now + ttl_seconds auth) +:+ "." +:+ nonce
          = str (cookie_payload (chars (pretty (now + ttl_seconds auth))) (chars nonce))) as Ep.
  { rewrite <- (str_chars (_ +:+ _)). f_equal. by rewrite !chars_append. }
  destruct (String.eqb_spec supplied (login_token auth)) as [->|Hne].
  - rewrite Ha. cbn [andb mbind result_bind negb]. rewrite Ht. cbn [mbind result_bind].
    rewrite Ep, signature_ascii by (rewrite is_ascii_str; by apply payload_ascii). cbn [mbind result_bind].
    f_equal. unfold session_cookie, signed_cookie. rewrite <- (str_chars (_ +:+ _)). f_equal.
    by rewrite !chars_append, !chars_str.
  - destruct (is_ascii supplied); [|done]. by rewrite Ha.
Qed.

Lemma validate_secret_ok value reason :
  _validate_secret value reason = Ok tt -> 32 <= strlen value <= 256 /\ is_ascii value = true.
Proof.
  unfold _validate_secret, _MIN_SECRET_LENGTH, _MAX_SECRET_LENGTH.
  destruct (_ && _) eqn:E1; [|done]. destruct (is_ascii value); [|done]. intros _.
  apply andb_true_iff in E1 as [?%Z.leb_le ?%Z.leb_le]. done.
Qed.

Lemma parse_integer_ok value lo hi reason z : _parse_integer value lo hi reason = Ok z -> lo <= z <= hi.
Proof.
  unfold _parse_integer. destruct (isdigit _); [|done]. cbn [negb]. intros H.
  apply bind_ok_inv in H as (v & _ & H). destruct (_ && _) eqn:E; [|done]. injection H as <-.
  apply andb_true_iff in E as [?%Z.leb_le ?%Z.leb_le]. done.
Qed.

(** What the environment guarantees of a session configuration. *)
Record auth_ok (auth : RemoteAudioSessionAuth) : Prop := {
  ak_token : 32 <= strlen (login_token auth) <= 256;
  ak_ascii : is_ascii (login_token auth) = true;
  ak_secret : exists secret, signing_secret auth = encode_ascii secret
    /\ 32 <= strlen secret <= 256 /\ secret <> login_token auth;
  ak_ttl : 60 <= ttl_seconds auth <= 3600 }.

Lemma build_ok values proxy auth :
  build_remote_audio_session_from_env values proxy = Ok (Some auth) -> proxy = true /\ auth_ok auth.
Proof.
  unfold build_remote_audio_session_from_env. intros H. apply bind_ok_inv in H as (enabled & _ & H).
  destruct enabled; [|done]. destruct proxy; [|done]. cbn [negb] in H.
  destruct (dict_get WEB_AUDIO_LOGIN_TOKEN_ENV values) as [token|]; [|done].
  destruct (dict_get WEB_AUDIO_SESSION_SECRET_ENV values) as [secret|]; [|done].
  apply bind_ok_inv in H as ([] & [Ht1 Ht2]%validate_secret_ok & H).
  apply bind_ok_inv in H as ([] & [Hs1 Hs2]%validate_secret_ok & H).
  rewrite compare_ascii in H by done. cbn [mbind result_bind] in H.
  destruct (String.eqb_spec token secret) as [|Hne]; [done|].
  apply bind_ok_inv in H as (ttl & Httl%parse_integer_ok & H).
  apply bind_ok_inv in H as (secure & _ & H). injection H as <-.
  split; [done|]. constructor; cbn; try done. exists secret.
  split_and!; done || congruence || apply Hs1.
Qed.

(** A login at [now], and the time its cookie is accepted. *)
Lemma login_cookie auth clock now nonce supplied : auth_ok auth ->
  py_int clock = Ok now -> 0 <= now < 10 ^ 12 -> forallb is_b64 (chars nonce) = true ->
  issue_cookie auth clock nonce supplied
  = (if String.eqb supplied (login_token auth) then Ok (session_cookie auth now nonce)
     else Raise AudioSessionLoginError "web-audio-login-rejected").
Proof.
  intros [_ Ha _ Httl] Ht Hnow Hn.
  destruct (pretty_digits 12 (now + ttl_seconds auth)) as (Hd & _); [change (Z.of_nat 13) with 13; lia|].
  apply issue_cookie_eq; try done; [|by apply field_ascii, b64_fields]. revert Hd. apply forallb_weaken.
  intros c [[? _]%andb_true_iff _]%digit_field%andb_true_iff. done.
Qed.

Lemma session_cookie_left auth now nonce clock t : auth_ok auth -> 0 <= now < 10 ^ 12 ->
  forallb is_b64 (chars nonce) = true -> strlen nonce <= 64 -> py_int clock = Ok t ->
  remaining_seconds auth clock (Some (session_cookie auth now nonce))
  = Ok (if (now <=? t) && (t <? now + ttl_seconds auth) then Some (now + ttl_seconds auth - t) else None).
Proof.
  intros [_ _ _ Httl] Hnow Hn Hlen Ht.
  destruct (pretty_digits 12 (now + ttl_seconds auth)) as (Hd & Hv & Hne & Hl);
    [change (Z.of_nat 13) with 13; lia|].
  unfold session_cookie. rewrite (remaining_signed _ _ t); try done.
  - rewrite Hv. unfold left_of. f_equal.
    destruct (Z.leb_spec now t), (Z.ltb_spec t (now + ttl_seconds auth)),
      (Z.leb_spec (now + ttl_seconds auth - t) 0),
      (Z.ltb_spec (ttl_seconds auth) (now + ttl_seconds auth - t)); cbn; done || lia.
  - by apply b64_fields.
  - unfold strlen, len in *. rewrite length_app. lia.
Qed.

(** C30. With a session configuration from the environment (tokens of 32 to 256
    characters that differ, a life time of 60 to 3600 seconds), a login gives a
    cookie exactly for the login token; that cookie is accepted from the second
    of the login until its life time is over, with the seconds that are left,
    and at no other time; conversely whatever is accepted carries the signature
    of the secret over its version, expiry and nonce, and expires within the
    life time; and no cookie makes the verification fail. *)
Theorem session_cookie_valid_exactly values proxy auth :
  build_remote_audio_session_from_env values proxy = Ok (Some auth) ->
  auth_ok auth
  /\ (forall clock now nonce supplied,
        py_int clock = Ok now -> 0 <= now < 10 ^ 12 -> forallb is_b64 (chars nonce) = true ->
        strlen nonce <= 64 ->
        issue_cookie auth clock nonce supplied
        = (if String.eqb supplied (login_token auth) then Ok (session_cookie auth now nonce)
           else Raise AudioSessionLoginError "web-audio-login-rejected")
        /\ forall clock' t, py_int clock' = Ok t ->
             remaining_seconds auth clock' (Some (session_cookie auth now nonce))
             = Ok (if (now <=? t) && (t <? now + ttl_seconds auth)
                   then Some (now + ttl_seconds auth - t) else None))
  /\ (forall clock t cookie, py_int clock = Ok t ->
        exists answer, remaining_seconds auth clock cookie = Ok answer
        /\ forall r, answer = Some r -> exists expiry nonce,
             cookie = Some (str (signed_cookie auth expiry nonce))
             /\ forallb is_digit_char expiry = true /\ decimal_value expiry = t + r
             /\ 0 < r <= ttl_seconds auth).
Proof.
  intros [_ Hok]%build_ok. split; [done|]. split; [|intros; by apply remaining_inv].
  intros clock now nonce supplied Ht Hnow Hn Hlen.
  split; [by apply login_cookie|]. intros clock' t Ht'. by apply session_cookie_left.
Qed.

(** ** A concrete configuration *)

Definition example_environ : list (string * string) :=
  [(WEB_AUDIO_SESSION_ENV, " True "); (WEB_AUDIO_LOGIN_TOKEN_ENV, "0123456789abcdef0123456789abcdef");
   (WEB_AUDIO_SESSION_SECRET_ENV, "fedcba9876543210fedcba9876543210"); (WEB_AUDIO_SESSION_TTL_SECONDS_ENV, "120")].

Lemma session_cookie_valid_exactly_witness :
  exists auth, build_remote_audio_session_from_env example_environ true = Ok (Some auth)
  /\ remaining_seconds auth (fz 1700000119) (Some (session_cookie auth 1700000000 "bm9uY2U")) = Ok (Some 1)
  /\ remaining_seconds auth (fz 1700000120) (Some (session_cookie auth 1700000000 "bm9uY2U")) = Ok None.
Proof.
  set (auth := MkAuth "0123456789abcdef0123456789abcdef"
    (encode_ascii "fedcba9876543210fedcba9876543210") 120 true).
  assert (build_remote_audio_session_from_env example_environ true = Ok (Some auth)) as H
    by (vm_compute; reflexivity).
  exists auth. split; [exact H|].
  destruct (session_cookie_valid_exactly example_environ true auth H) as (_ & Hc & _).
  destruct (Hc (fz 1700000000) 1700000000 "bm9uY2U" "") as [_ Hr];
    [vm_compute; reflexivity|lia|vm_compute; reflexivity|vm_compute; discriminate|].
  split; [rewrite (Hr _ 1700000119)|rewrite (Hr _ 1700000120)]; vm_compute; reflexivity.
Defined.
