(* ===== verification/Json.v ===== *)
(** * JSON values: equality, canonical text and digests

    [==] on JSON values, the equivalence of values up to the order of the keys
    of their objects, [registry/hashing.py]: [json.dumps] with sorted keys and
    the hash of its UTF-8 text, and [registry/merge.py]: the deep merge of two
    objects.  The shortest text of a float, [float.__repr__], is a parameter of
    the text; a negative zero is not told from a zero. *)
From S2P Require Import Prelude Collections PyFloat PyData Bytes Digest.
From stdpp Require Import sorting.
From Stdlib Require Import QArith.
From Stdlib Require Import Sorting.Permutation Sorting.Sorted.

Open Scope Z_scope.

(** Induction with the hypothesis for the values in lists and objects. *)
Section json_induction.
Context (P : json -> Prop)
  (Hnull : P JNull) (Hbool : forall b, P (JBool b)) (Hint : forall z, P (JInt z))
  (Hfloat : forall x, P (JFloat x)) (Hstr : forall s, P (JStr s))
  (Harr : forall l, Forall P l -> P (JArr l))
  (Hobj : forall d, Forall (fun kv => P kv.2) d -> P (JObj d)).

Fixpoint json_deep_ind (v : json) : P v :=
  match v with
  | JNull => Hnull
  | JBool b => Hbool b
  | JInt z => Hint z
  | JFloat x => Hfloat x
  | JStr s => Hstr s
  | JArr l => Harr l ((fix go (l : list json) : Forall P l :=
      match l with [] => Forall_nil_2 _ | x :: l' => Forall_cons_2 _ _ _ (json_deep_ind x) (go l') end) l)
  | JObj d => Hobj d ((fix go (d : jdict) : Forall (fun kv => P kv.2) d :=
      match d with [] => Forall_nil_2 _ | kv :: d' => Forall_cons_2 _ _ _ (json_deep_ind kv.2) (go d') end) d)
  end.
End json_induction.

(** ** [==] *)

(** Numbers compare by value, booleans being 0 and 1. *)
Definition json_number (v : json) : option float :=
  match v with
  | JBool b => Some (Fin (if b then 1 else 0)%Q)
  | JInt z => Some (Fin (inject_Z z))
  | JFloat x => Some x
  | _ => None
  end.

Fixpoint json_eqb (a b : json) {struct a} : bool :=
  match a, b with
  | JNull, JNull => true
  | JStr s, JStr t => String.eqb s t
  | JArr l, JArr l' =>
      (fix go (l l' : list json) : bool :=
         match l, l' with
         | [], [] => true
         | x :: l, y :: l' => json_eqb x y && go l l'
         | _, _ => false
         end) l l'
  | JObj d, JObj d' =>
      (len d =? len d') &&
      (fix go (d : jdict) : bool :=
         match d with
         | [] => true
         | (k, v) :: d => match jget k d' with Some w => json_eqb v w | None => false end && go d
         end) d
  | _, _ => match json_number a, json_number b with Some x, Some y => feqb x y | _, _ => false end
  end.

(** ** Deep merge *)

(** [merged[key]] after merging [value] over what the base holds. *)
Fixpoint merge_value (base : option json) (value : json) {struct value} : json :=
  match value, base with
  | JObj overlay, Some (JObj b) =>
      JObj ((fix go (overlay merged : jdict) : jdict :=
               match overlay with
               | [] => merged
               | (k, v) :: overlay => go overlay (dict_set k (merge_value (jget k merged) v) merged)
               end) overlay b)
  | _, _ => value
  end.

Fixpoint merge_items (merged overlay : jdict) : jdict :=
  match overlay with
  | [] => merged
  | (k, v) :: overlay => merge_items (dict_set k (merge_value (jget k merged) v) merged) overlay
  end.

Definition deep_merge (base overlay : jdict) : jdict := merge_items base overlay.

(** ** Canonical text *)

Section text.
Context (float_repr : float -> string).

(** The text of a character inside quotes. *)
Definition escape_char (c : Ascii.ascii) : list Ascii.ascii :=
  if Ascii.eqb c "034" then ["\"; "034"]%char
  else if Ascii.eqb c "\" then ["\"; "\"]%char
  else if code c =? 10 then ["\"; "n"]%char
  else if code c =? 13 then ["\"; "r"]%char
  else if code c =? 9 then ["\"; "t"]%char
  else if code c =? 12 then ["\"; "f"]%char
  else if code c =? 8 then ["\"; "b"]%char
  else if code c <? 32 then ["\"; "u"]%char ++ hex_fixed 4 (code c)
  else [c].

Definition quote (s : string) : list Ascii.ascii := ["034" : Ascii.ascii]%char ++ concat (map escape_char (chars s)) ++ ["034"]%char.

Definition key_le (a b : string * list Ascii.ascii) : bool := str_leb a.1 b.1.

(** The items of an object whose values are already texts, sorted by key. *)
Definition object_text (items : list (string * list Ascii.ascii)) : list Ascii.ascii :=
  "{"%char :: join_char "," (map (fun kv => quote kv.1 ++ ":"%char :: kv.2) (sorted_by key_le items)) ++ ["}"%char].

Fixpoint dumps (v : json) : list Ascii.ascii :=
  match v with
  | JNull => chars "null"
  | JBool b => chars (if b then "true" else "false")
  | JInt z => chars (pretty z)
  | JFloat x => chars (match x with NaN => "NaN" | PInf => "Infinity" | NInf => "-Infinity" | Fin _ => float_repr x end)
  | JStr s => quote s
  | JArr l => "["%char :: join_char "," (map dumps l) ++ ["]"%char]
  | JObj d => object_text (map (fun kv => (kv.1, dumps kv.2)) d)
  end.

Definition canonical_json (d : jdict) : string := str (dumps (JObj d)).

Definition utf8_char (c : Ascii.ascii) : bytes :=
  if code c <? 128 then [byte_of (code c)] else [byte_of (192 + code c / 64); byte_of (128 + code c mod 64)].

Definition resolved_hash (d : jdict) : string :=
  str (concat (map (fun b => hex_fixed 2 (byte_val b))
    (sha256 (concat (map utf8_char (chars (canonical_json d))))))).
End text.

(** ** Equivalence up to the order of keys *)

Inductive json_equiv : json -> json -> Prop :=
| equiv_refl v : json_equiv v v
| equiv_arr l l' : Forall2 json_equiv l l' -> json_equiv (JArr l) (JArr l')
| equiv_obj d d1 d' :
    NoDup (dict_keys d) -> Permutation d d1 ->
    Forall2 (fun kv kv' => kv.1 = kv'.1 /\ json_equiv kv.2 kv'.2) d1 d' ->
    json_equiv (JObj d) (JObj d').

(** The sort by key of items with different keys does not depend on their order. *)
Lemma sorted_items_unique (items items' : list (string * list Ascii.ascii)) :
  NoDup (dict_keys items) -> Permutation items items' -> sorted_by key_le items = sorted_by key_le items'.
Proof.
  intros Hn Hp. apply (StronglySorted_unique_strong key_le).
  - intros [k v] [k' v']. unfold key_le. cbn. rewrite !elem_of_sorted_by, !Is_true_true.
    intros H1 H2 Hle Hge. pose proof (str_leb_antisym _ _ Hle Hge) as ->. f_equal.
    rewrite <- Hp in H2. apply dict_elem_get in H1, H2; [congruence|done..].
  - apply (sorted_by_sorted _ (fun _ => True)); [..|by apply Forall_true];
      unfold key_le; intros *; [intros _ _; apply str_leb_total|intros _ _ _; apply str_leb_trans].
  - apply (sorted_by_sorted _ (fun _ => True)); [..|by apply Forall_true];
      unfold key_le; intros *; [intros _ _; apply str_leb_total|intros _ _ _; apply str_leb_trans].
  - by rewrite !sorted_by_perm.
Qed.

Lemma dumps_equiv float_repr v v' : json_equiv v v' -> dumps float_repr v = dumps float_repr v'.
Proof.
  revert v'. induction v as [| | | | |l IH|d IH] using json_deep_ind; intros v' H; inversion H as
    [|? l' Hl|? d1 d' Hn Hp Hd]; subst; try done; cbn [dumps].
  - do 3 f_equal. clear H. revert l' Hl. induction IH as [|x l Hx _ IHl]; intros l' Hl;
      inversion Hl; subst; [done|]. cbn [map]. f_equal; auto.
  - unfold object_text. do 4 f_equal.
    rewrite (sorted_items_unique _ (map (fun kv => (kv.1, dumps float_repr kv.2)) d1)).
    + f_equal. rewrite Hp in IH. clear -IH Hd. revert d' Hd.
      induction IH as [|kv d1 Hkv _ IHd]; intros d' Hd; inversion Hd as [|? kv' ? ? [E Hv]]; subst; [done|].
      cbn [map]. f_equal; [by rewrite E, (Hkv _ Hv)|auto].
    + unfold dict_keys in *. rewrite <- list_fmap_compose. exact Hn.
    + by apply Permutation_map.
Qed.

(** ** Lemmas: deep merge *)

(** The keys of every object are distinct, as those of a dictionary are. *)
Inductive json_ok : json -> Prop :=
| ok_null : json_ok JNull
| ok_bool b : json_ok (JBool b)
| ok_int z : json_ok (JInt z)
| ok_float x : json_ok (JFloat x)
| ok_str s : json_ok (JStr s)
| ok_arr l : Forall json_ok l -> json_ok (JArr l)
| ok_obj d : NoDup (dict_keys d) -> Forall (fun kv => json_ok kv.2) d -> json_ok (JObj d).

Definition is_obj (v : json) : bool := match v with JObj _ => true | _ => false end.

Lemma merge_value_obj b o : merge_value (Some (JObj b)) (JObj o) = JObj (deep_merge b o).
Proof.
  cbn [merge_value]. f_equal. unfold deep_merge. revert b.
  induction o as [|[k v] o IH]; intros b; [done|]. cbn. apply IH.
Qed.

Lemma merge_value_over base value :
  (forall b, base <> Some (JObj b)) \/ is_obj value = false -> merge_value base value = value.
Proof.
  intros H. destruct value; try done. destruct base as [[]|]; try done.
  destruct H as [H|H]; [by destruct (H d0)|done].
Qed.

(** What the merged object holds at a key. *)
Lemma jget_deep_merge k base overlay : NoDup (dict_keys overlay) ->
  jget k (deep_merge base overlay)
  = match jget k overlay with None => jget k base | Some v => Some (merge_value (jget k base) v) end.
Proof.
  unfold deep_merge, jget. revert base. induction overlay as [|[k' v] overlay IH]; intros base Hn; [done|].
  apply NoDup_cons in Hn as [Hk Hn]. cbn [merge_items dict_get].
  rewrite IH, dict_get_set by done. destruct (decide (k = k')) as [->|Hne]; [|done].
  assert (dict_get k' overlay = None) as -> by (by apply dict_get_None). done.
Qed.

Lemma deep_merge_NoDup base overlay : NoDup (dict_keys base) -> NoDup (dict_keys (deep_merge base overlay)).
Proof.
  unfold deep_merge. revert base. induction overlay as [|[k v] overlay IH]; intros base Hn; [done|].
  cbn. apply IH. by apply dict_set_NoDup.
Qed.

Fixpoint get_path (p : list string) (v : json) : option json :=
  match p with
  | [] => Some v
  | k :: p => match v with
              | JObj d => match jget k d with Some w => get_path p w | None => None end
              | _ => None
              end
  end.

(** The overlay says nothing at the path: one of its objects lacks the key. *)
Fixpoint untouched (p : list string) (overlay : jdict) : Prop :=
  match p with
  | [] => False
  | k :: p => match jget k overlay with
              | None => True
              | Some (JObj o) => untouched p o
              | Some _ => False
              end
  end.

Lemma json_ok_jget k d v : json_ok (JObj d) -> jget k d = Some v -> json_ok v.
Proof.
  inversion 1 as [| | | | | |? _ Hd]; subst. intros Hk%dict_get_Some_elem.
  rewrite Forall_forall in Hd. by apply (Hd _ Hk).
Qed.

Lemma json_ok_keys d : json_ok (JObj d) -> NoDup (dict_keys d).
Proof. by inversion 1. Qed.

(** The overlay wins at its leaves. *)
Lemma deep_merge_leaf p base overlay v :
  json_ok (JObj overlay) -> get_path p (JObj overlay) = Some v -> is_obj v = false ->
  get_path p (JObj (deep_merge base overlay)) = Some v.
Proof.
  revert base overlay. induction p as [|k p IH]; intros base overlay Hok Hp Hv; cbn in Hp.
  - by injection Hp as <-.
  - cbn [get_path]. rewrite jget_deep_merge by (by apply json_ok_keys).
    destruct (jget k overlay) as [w|] eqn:Ew; [|done]. pose proof (json_ok_jget _ _ _ Hok Ew) as Hw.
    destruct w as [| | | | | |o]; try (rewrite merge_value_over by (by right); done).
    destruct (jget k base) as [[| | | | | |b]|] eqn:Eb;
      try (rewrite merge_value_over by (by left; intros ?); done).
    rewrite merge_value_obj. by apply IH.
Qed.

(** The base is kept where the overlay says nothing. *)
Lemma deep_merge_untouched p base overlay :
  json_ok (JObj overlay) -> untouched p overlay ->
  get_path p (JObj (deep_merge base overlay)) = get_path p (JObj base).
Proof.
  revert base overlay. induction p as [|k p IH]; intros base overlay Hok Hp; [done|]. cbn in Hp.
  cbn [get_path]. rewrite jget_deep_merge by (by apply json_ok_keys).
  destruct (jget k overlay) as [w|] eqn:Ew; [|done]. pose proof (json_ok_jget _ _ _ Hok Ew) as Hw.
  destruct w as [| | | | | |o]; try done.
  assert (forall p, untouched p o -> get_path p (JObj o) = None) as Hnone.
  { clear. intros p. revert o. induction p as [|k p IH]; intros o Hp; [done|]. cbn in *.
    destruct (jget k o) as [[]|]; try done. by apply IH. }
  destruct (jget k base) as [[| | | | | |b]|];
    try (rewrite merge_value_over by (by left; intros ?); rewrite Hnone by done; by destruct p).
  rewrite merge_value_obj. by apply IH.
Qed.

(** The deep merge of two objects keeps the value of the overlay at every
    path where the overlay has a value that is not an object, and the base's
    value at every path the overlay says nothing about. *)
Theorem deep_merge_spec base overlay :
  json_ok (JObj overlay) ->
  (forall p v, get_path p (JObj overlay) = Some v -> is_obj v = false ->
     get_path p (JObj (deep_merge base overlay)) = Some v)
  /\ (forall p, untouched p overlay ->
       get_path p (JObj (deep_merge base overlay)) = get_path p (JObj base)).
Proof.
  intros Hok. split; intros *; [by apply deep_merge_leaf|by apply deep_merge_untouched].
Qed.

(** The hash of a configuration does not depend on the order in which the
    keys of its objects were written, at any depth. *)
Theorem hash_ignores_key_order float_repr d d' :
  json_equiv (JObj d) (JObj d') -> resolved_hash float_repr d = resolved_hash float_repr d'.
Proof. intros H. unfold resolved_hash, canonical_json. by rewrite (dumps_equiv float_repr _ _ H). Qed.

(** ** Concrete values *)

Definition example_base : jdict :=
  [("meta", JObj [("name", JStr "base"); ("labels", JObj [("env", JStr "lab")])]); ("rate", JInt 8000)].
Definition example_overlay : jdict :=
  [("meta", JObj [("name", JStr "child"); ("parent", JStr "base")])].

(** Distinct concrete keys. *)
Ltac solve_keys := apply (bool_decide_eq_true_1 (NoDup _)); vm_compute; reflexivity.

Lemma deep_merge_spec_witness :
  get_path ["meta"; "name"] (JObj (deep_merge example_base example_overlay)) = Some (JStr "child")
  /\ get_path ["meta"; "labels"; "env"] (JObj (deep_merge example_base example_overlay)) = Some (JStr "lab").
Proof.
  destruct (deep_merge_spec example_base example_overlay) as [Hleaf Hkept].
  - repeat first [apply ok_obj; [solve_keys|] | apply ok_str | apply Forall_cons; split | apply Forall_nil; done].
  - split; [by apply Hleaf|]. by rewrite Hkept.
Defined.

Lemma hash_ignores_key_order_witness :
  resolved_hash (fun _ => "0.5") [("b", JFloat (flit 5 10)); ("a", JArr [JNull; JBool true])]
  = resolved_hash (fun _ => "0.5") [("a", JArr [JNull; JBool true]); ("b", JFloat (flit 5 10))].
Proof.
  apply hash_ignores_key_order. eapply equiv_obj with
    (d1 := [("a", JArr [JNull; JBool true]); ("b", JFloat (flit 5 10))]).
  - solve_keys.
  - apply perm_swap.
  - repeat constructor.
Defined.

Example canonical_example :
  canonical_json (fun _ => "0.5") [("b", JFloat (flit 5 10)); ("a", JArr [JNull; JBool true; JStr "x\y"])]
  = "{" +:+ str ["034"%char] +:+ "a" +:+ str ["034"%char] +:+ ":[null,true," +:+ str ["034"%char] +:+ "x\\y"
    +:+ str ["034"%char] +:+ "]," +:+ str ["034"%char] +:+ "b" +:+ str ["034"%char] +:+ ":0.5}".
Proof. vm_compute. reflexivity. Qed.
