(* ===== verification/Registry.v ===== *)
(** * The configuration registry

    [registry/service.py] on the records of [schemas.py].  Pydantic's
    validation and dump and the checks of jsonschema are parameters.  The
    recursion of [_resolve_raw] along the parents takes fuel: a name that is
    resolved twice is a cycle, so the number of configurations bounds it
    ([resolve_raw_total]). *)
From S2P Require Import Prelude Effects Collections PyFloat PyData Json.

Open Scope Z_scope.

(** ** Schemas *)

Record OverridePermission := MkPermission { perm_target : string; perm_type : string }.
Record OverrideValue := MkOverride { over_target : string; over_value : json }.
Record IoContract := MkIo { io_mode : string; io_accepts : jdict; io_produces : option jdict }.
Record ProviderCaps := MkCaps {
  turn_taking_owners : list string; supported_codecs : list string;
  input_rate : option Z; output_rate : option Z }.

Record CapabilityManifest := MkManifest {
  man_kind : string; man_name : string; man_version : string; param_schema : jdict;
  man_io : option IoContract; man_invariants_enforced : list string; man_invariants_applicable : list string;
  man_lossy_expected : list string; man_requires_host_capability : list string;
  allowed_overrides : list OverridePermission; provider_caps : option ProviderCaps }.

Record ConfigMeta := MkMeta {
  meta_name : string; meta_version : string; meta_parent : option string; meta_labels : jdict }.
Record EngineConfig := MkEngine { engine_kind : string; engine_params : jdict }.
Record TransportConfig := MkTransport {
  codec : string; ptime_ms : Z; jitter_buffer : option (string * Z) }.
Record PipelineStage := MkStage {
  stage_type_ : string; stage_plugin : string; stage_params : jdict; stage_io : option IoContract;
  stage_invariants_enforced : option (list string); stage_invariants_applicable : option (list string);
  stage_lossy_expected : option (list string); stage_requires_host_capability : option (list string);
  host_capabilities : list string; stage_overrides : list OverrideValue }.
Record DetectorConfig := MkDetector { detector_plugin : string; detector_params : jdict }.
Record TurnTakingConfig := MkTurnTaking { owner : string; detector : option DetectorConfig; barge_in : bool }.
Record AiConfig := MkAi {
  ai_provider : string; ai_model : string; ai_params : jdict; system_prompt_ref : option string;
  tools : list jdict }.
Record VoiceSpec := MkSpec {
  spec_engine : EngineConfig; spec_transport : TransportConfig; pipeline : list PipelineStage;
  turn_taking : TurnTakingConfig; ai : AiConfig; observability : jdict }.
Record VoiceConfig := MkConfig { config_meta : ConfigMeta; spec : VoiceSpec }.

Record RegistryService := MkRegistry {
  _manifests : list (string * string * CapabilityManifest);
  _configs : list (string * jdict) }.

Record ResolvedConfig := MkResolved { resolved_name : string; resolved : jdict; hash : string }.

(** [raw.get("meta", {}).get(field)]. *)
Definition meta_field (field : string) (raw : jdict) : result (option json) :=
  match jget "meta" raw with
  | None => Ok None
  | Some (JObj meta) => Ok (jget field meta)
  | Some _ => Raise AttributeError "get"
  end.

Definition _matches_override_type (value : json) (expected : string) : bool :=
  if String.eqb expected "string" then match value with JStr _ => true | _ => false end
  else if String.eqb expected "integer" then match value with JInt _ => true | _ => false end
  else if String.eqb expected "number" || String.eqb expected "float"
  then match value with JInt _ | JFloat _ => true | _ => false end
  else if String.eqb expected "boolean" then match value with JBool _ => true | _ => false end
  else if String.eqb expected "object" then match value with JObj _ => true | _ => false end
  else if String.eqb expected "array" then match value with JArr _ => true | _ => false end
  else false.

Section registry.
Context (validate_manifest : jdict -> option CapabilityManifest) (check_schema : jdict -> bool)
  (schema_accepts : jdict -> jdict -> bool)
  (validate_config : jdict -> option VoiceConfig) (dump_config : VoiceConfig -> jdict)
  (dump_io : IoContract -> jdict) (float_repr : float -> string).

(** ** Registration *)

(** The [SchemaError] of [check_schema] is no [ValidationError], so it is not
    turned into a [ConfigValidationError]. *)
Definition register_manifest (raw : jdict) : st RegistryService CapabilityManifest := fun s =>
  match validate_manifest raw with
  | Some manifest =>
      if check_schema (param_schema manifest) then
        (Ok manifest, MkRegistry (dict_set (man_kind manifest, man_name manifest) manifest (_manifests s))
                        (_configs s))
      else (Raise SchemaError "invalid param_schema", s)
  | None => (Raise ConfigValidationError "invalid manifest", s)
  end.

Definition register_config (raw : jdict) : st RegistryService unit := fun s =>
  match meta_field "name" raw with
  | Raise c e => (Raise c e, s)
  | Ok (Some (JStr name)) =>
      if String.eqb name "" then (Raise ConfigValidationError "config meta.name is required", s)
      else (Ok tt, MkRegistry (_manifests s) (dict_set name raw (_configs s)))
  | Ok _ => (Raise ConfigValidationError "config meta.name is required", s)
  end.

(** ** Resolution of parents; [None] when the fuel runs out *)

Fixpoint _resolve_raw (fuel : nat) (configs : list (string * jdict)) (name : string) (seen : list string)
    : option (result jdict) :=
  match fuel with
  | O => None
  | S fuel =>
      if bool_decide (name ∈ seen)
      then Some (Raise ConfigValidationError ("cyclic parent overlay detected for config '" +:+ name +:+ "'"))
      else match dict_get name configs with
           | None => Some (Raise ConfigNotFoundError ("unknown config '" +:+ name +:+ "'"))
           | Some raw =>
               match meta_field "parent" raw with
               | Raise c e => Some (Raise c e)
               | Ok None | Ok (Some JNull) => Some (Ok raw)
               | Ok (Some (JStr parent)) =>
                   match _resolve_raw fuel configs parent (name :: seen) with
                   | None => None
                   | Some (Raise c e) => Some (Raise c e)
                   | Some (Ok base) => Some (Ok (deep_merge base raw))
                   end
               | Ok (Some _) =>
                   Some (Raise ConfigValidationError ("config '" +:+ name +:+ "' meta.parent must be a string"))
               end
           end
  end.

Definition resolve_fuel (configs : list (string * jdict)) : nat := S (length configs).

(** ** Validation *)

Definition _manifest (s : RegistryService) (kind name : string) : result CapabilityManifest :=
  match dict_get (kind, name) (_manifests s) with
  | Some manifest => Ok manifest
  | None => Raise ManifestNotFoundError ("unknown " +:+ kind +:+ " manifest '" +:+ name +:+ "'")
  end.

Definition guard (b : bool) (message : string) : result unit :=
  if b then Ok tt else Raise ConfigValidationError message.

Definition _validate_params (manifest : CapabilityManifest) (params : jdict) : result unit :=
  guard (schema_accepts (param_schema manifest) params) "params do not match param_schema".

Definition _validate_provider_caps (config : VoiceConfig) (manifest : CapabilityManifest) : result unit :=
  match provider_caps manifest with
  | None => Raise ConfigValidationError "provider manifest must declare provider_caps"
  | Some caps =>
      let tt_ := turn_taking (spec config) in
      _ ← guard (bool_decide (owner tt_ ∈ turn_taking_owners caps)) "turn_taking.owner is not supported";
      _ ← guard (negb (String.eqb (owner tt_) "server_vad"
                       && match detector tt_ with Some _ => true | None => false end))
            "turn_taking.detector with owner=server_vad configures server/client VAD twice";
      guard (match supported_codecs caps with
             | [] => true
             | codecs => bool_decide (codec (spec_transport (spec config)) ∈ codecs) end)
        "transport.codec is not supported"
  end.

(** [required or manifest.required]: an empty list counts as absent. *)
Definition required_capabilities (stage : PipelineStage) (manifest : CapabilityManifest) : list string :=
  match stage_requires_host_capability stage with
  | Some ((_ :: _) as required) => required
  | _ => man_requires_host_capability manifest
  end.

Definition _validate_host_capabilities (stage : PipelineStage) (manifest : CapabilityManifest) : result unit :=
  guard (forallb (fun c => bool_decide (c ∈ host_capabilities stage)) (required_capabilities stage manifest))
    "stage requires host capabilities not present at its position".

Definition allowed_types (manifest : CapabilityManifest) : list (string * string) :=
  dict_of_list (map (fun o => (perm_target o, perm_type o)) (allowed_overrides manifest)).

Definition validate_override (allowed : list (string * string)) (o : OverrideValue) : result unit :=
  match dict_get (over_target o) allowed with
  | None => Raise ConfigValidationError "override target is not allowed"
  | Some t => guard (_matches_override_type (over_value o) t) "override target has invalid type"
  end.

Definition _validate_overrides (stage : PipelineStage) (manifest : CapabilityManifest) : result unit :=
  _ ← mapM_res (validate_override (allowed_types manifest)) (stage_overrides stage); Ok tt.

(** [stage.io or manifest.io]. *)
Definition effective_io (stage : PipelineStage) (manifest : CapabilityManifest) : option IoContract :=
  match stage_io stage with Some io => Some io | None => man_io manifest end.

(** One turn of the loop over the stages. *)
Definition validate_stage (s : RegistryService) (stage : PipelineStage) : result (option IoContract) :=
  manifest ← _manifest s "processor" (stage_plugin stage);
  _ ← _validate_params manifest (stage_params stage);
  _ ← _validate_host_capabilities stage manifest;
  _ ← _validate_overrides stage manifest;
  Ok (effective_io stage manifest).

(** The keys on which what the left stage produces differs from what the right
    one accepts. *)
Definition mismatches (produces accepts : jdict) : list string :=
  map fst (filterb (fun kv => match jget kv.1 accepts with
                              | Some v => negb (json_eqb kv.2 v) | None => false end) produces).

Definition validate_adjacent (pair : option IoContract * option IoContract) : result unit :=
  match pair with
  | (Some upstream, Some downstream) =>
      match io_produces upstream with
      | None => Ok tt
      | Some produces =>
          guard (match mismatches produces (io_accepts downstream) with [] => true | _ => false end)
            "adjacent pipeline io mismatch"
      end
  | _ => Ok tt
  end.

Definition _validate_pipeline (s : RegistryService) (config : VoiceConfig) : result unit :=
  effective_ios ← mapM_res (validate_stage s) (pipeline (spec config));
  _ ← mapM_res validate_adjacent (pairwise effective_ios); Ok tt.

Definition _validate_cross_fields (s : RegistryService) (config : VoiceConfig) : result unit :=
  engine_manifest ← _manifest s "engine" (engine_kind (spec_engine (spec config)));
  _ ← _validate_params engine_manifest (engine_params (spec_engine (spec config)));
  provider_manifest ← _manifest s "provider" (ai_provider (ai (spec config)));
  _ ← _validate_params provider_manifest (ai_params (ai (spec config)));
  _ ← _validate_provider_caps config provider_manifest;
  _validate_pipeline s config.

(** ** Defaults of the manifests *)

Definition as_object (v : json) : result jdict :=
  match v with JObj d => Ok d | _ => Raise TypeError "not an object" end.

Definition item (k : string) (d : jdict) : result json := from_option_err (jget k d) KeyError k.

(** [if name not in stage: value = ...; if value: stage[name] = list(value)]. *)
Definition default_list (stage : jdict) (field : string * list string) : jdict :=
  let '(name, value) := field in
  if dict_mem name stage then stage
  else match value with [] => stage | _ => dict_set name (JArr (map JStr value)) stage end.

Definition materialize_stage (s : RegistryService) (stage : json) : result json :=
  d ← as_object stage;
  plugin ← item "plugin" d;
  manifest ← match plugin with JStr name => _manifest s "processor" name
             | _ => Raise ManifestNotFoundError "unknown processor manifest" end;
  let d := if dict_mem "io" d then d
           else match man_io manifest with Some io => dict_set "io" (JObj (dump_io io)) d | None => d end in
  Ok (JObj (fold_left default_list
    [("invariants_enforced", man_invariants_enforced manifest);
     ("invariants_applicable", man_invariants_applicable manifest);
     ("lossy_expected", man_lossy_expected manifest);
     ("requires_host_capability", man_requires_host_capability manifest)] d)).

(** The stages are changed in place, inside [resolved["spec"]["media"]]. *)
Definition _materialize_manifest_defaults (s : RegistryService) (config : jdict) : result jdict :=
  spec ← item "spec" config; spec ← as_object spec;
  media ← item "media" spec; media ← as_object media;
  stages ← item "pipeline" media;
  stages ← match stages with JArr l => mapM_res (materialize_stage s) l | _ => Raise TypeError "not a list" end;
  Ok (dict_set "spec" (JObj (dict_set "media" (JObj (dict_set "pipeline" (JArr stages) media)) spec)) config).

Definition resolve_config (s : RegistryService) (name : string) : option (result ResolvedConfig) :=
  match _resolve_raw (resolve_fuel (_configs s)) (_configs s) name [] with
  | None => None
  | Some (Raise c e) => Some (Raise c e)
  | Some (Ok raw) =>
      Some (match validate_config raw with
            | None => Raise ConfigValidationError "invalid config"
            | Some config =>
                _ ← _validate_cross_fields s config;
                resolved ← _materialize_manifest_defaults s (dump_config config);
                Ok (MkResolved (meta_name (config_meta config)) resolved (resolved_hash float_repr resolved))
            end)
  end.
End registry.

(** ** The chain of parents *)

Section parents.
Context (configs : list (string * jdict)).

(** [name] is registered as [raw], whose parent is [p]. *)
Definition parent_of (name : string) (raw : jdict) (p : string) : Prop :=
  dict_get name configs = Some raw /\ meta_field "parent" raw = Ok (Some (JStr p)).
Definition is_root (name : string) (raw : jdict) : Prop :=
  dict_get name configs = Some raw
  /\ (meta_field "parent" raw = Ok None \/ meta_field "parent" raw = Ok (Some JNull)).

(** What a name resolves to, in a number of steps along its parents. *)
Inductive resolves : nat -> string -> jdict -> Prop :=
| resolves_root name raw : is_root name raw -> resolves 0 name raw
| resolves_child n name raw p base :
    parent_of name raw p -> resolves n p base -> resolves (S n) name (deep_merge base raw).

(** The proper ancestors of a name. *)
Inductive ancestor : string -> string -> Prop :=
| ancestor_parent name raw p : parent_of name raw p -> ancestor name p
| ancestor_step name raw p q : parent_of name raw p -> ancestor p q -> ancestor name q.

Lemma resolves_fun n name d n' d' : resolves n name d -> resolves n' name d' -> n = n' /\ d = d'.
Proof.
  intros H. revert n' d'. induction H as [name raw [Hg Hr]|n name raw p base [Hg Hp] _ IH]; intros n' d' H';
    inversion H' as [? raw' [Hg' Hr']|m ? raw' p' base' [Hg' Hp'] Hb']; subst; rewrite Hg in Hg'; injection Hg' as <-.
  - done.
  - exfalso. rewrite Hp' in Hr. by destruct Hr.
  - exfalso. rewrite Hp in Hr'. by destruct Hr'.
  - rewrite Hp in Hp'. injection Hp' as <-. destruct (IH _ _ Hb') as [-> ->]. done.
Qed.

(** The names not seen yet bound the recursion. *)
Definition unseen (seen : list string) : nat :=
  length (filterb (fun n => negb (bool_decide (n ∈ seen))) (dict_keys configs)).

Lemma unseen_cons name raw seen :
  dict_get name configs = Some raw -> name ∉ seen -> (unseen (name :: seen) < unseen seen)%nat.
Proof.
  intros Hg Hn. unfold unseen. apply dict_get_Some_elem in Hg.
  assert (name ∈ dict_keys configs) as Hk by (apply list_elem_of_fmap; by exists (name, raw)).
  assert (forall l, (length (filterb (fun n => negb (bool_decide (n ∈ name :: seen))) l)
    <= length (filterb (fun n => negb (bool_decide (n ∈ seen))) l))%nat) as Hle.
  { induction l as [|x l IH]; [done|]. unfold filterb in *. cbn [List.filter].
    destruct (bool_decide_reflect (x ∈ name :: seen)) as [|H1], (bool_decide_reflect (x ∈ seen)) as [|H2];
      cbn; try lia. set_solver. }
  induction (dict_keys configs) as [|x l IH]; [set_solver|]. unfold filterb in *. cbn [List.filter].
  apply elem_of_cons in Hk as [->|Hk].
  - rewrite bool_decide_true by set_solver. rewrite bool_decide_false by done. cbn. specialize (Hle l). lia.
  - specialize (IH Hk). destruct (bool_decide_reflect (x ∈ name :: seen)), (bool_decide_reflect (x ∈ seen));
      cbn; try lia. set_solver.
Qed.

(** Enough fuel always gives an answer. *)
Lemma resolve_raw_total fuel name seen :
  (unseen seen < fuel)%nat -> exists r, _resolve_raw fuel configs name seen = Some r.
Proof.
  revert name seen. induction fuel as [|fuel IH]; intros name seen Hf; [lia|]. cbn [_resolve_raw].
  destruct (bool_decide_reflect (name ∈ seen)) as [|Hn]; [eauto|].
  destruct (dict_get name configs) as [raw|] eqn:Hg; [|eauto].
  destruct (meta_field "parent" raw) as [[[]|]|]; try (by eauto).
  destruct (IH s (name :: seen)) as (r & ->); [pose proof (unseen_cons _ _ _ Hg Hn); lia|].
  destruct r; eauto.
Qed.

(** A success is what the chain of parents resolves to. *)
Lemma resolve_raw_sound fuel name seen d :
  _resolve_raw fuel configs name seen = Some (Ok d) -> exists n, resolves n name d.
Proof.
  revert name seen d. induction fuel as [|fuel IH]; intros name seen d H; [done|]. cbn [_resolve_raw] in H.
  destruct (bool_decide _); [done|]. destruct (dict_get name configs) as [raw|] eqn:Hg; [|done].
  destruct (meta_field "parent" raw) as [[[]|]|] eqn:Hp; try done.
  - injection H as <-. exists 0%nat. constructor. split; [done|by right].
  - destruct (_resolve_raw fuel configs s (name :: seen)) as [[base|]|] eqn:E; try done.
    injection H as <-. destruct (IH _ _ _ E) as (n & Hn). exists (S n). econstructor; [|exact Hn]. done.
  - injection H as <-. exists 0%nat. constructor. split; [done|by left].
Qed.

(** A chain that ends resolves: the names seen are further from the root. *)
Lemma resolve_raw_complete fuel n name seen d :
  resolves n name d -> (n < fuel)%nat ->
  (forall s, s ∈ seen -> exists m d', resolves m s d' /\ (n < m)%nat) ->
  _resolve_raw fuel configs name seen = Some (Ok d).
Proof.
  intros H. revert fuel seen. induction H as [name raw [Hg Hr]|n name raw p base [Hg Hp] Hb IH];
    intros fuel seen Hf Hs; (destruct fuel as [|fuel]; [lia|]); cbn [_resolve_raw];
    rewrite bool_decide_false, Hg.
  - by destruct Hr as [-> | ->].
  - intros (m & d' & Hm & Hlt)%Hs. assert (resolves 0 name raw) as H0 by (constructor; done).
    destruct (resolves_fun _ _ _ _ _ H0 Hm). lia.
  - rewrite Hp, IH; [done|lia|]. intros s [->|(m & d' & Hm & Hlt)%Hs]%elem_of_cons.
    + exists (S n), (deep_merge base raw). split; [by econstructor|lia].
    + exists m, d'. split; [done|lia].
  - intros (m & d' & Hm & Hlt)%Hs.
    assert (resolves (S n) name (deep_merge base raw)) as H0 by (by econstructor).
    destruct (resolves_fun _ _ _ _ _ H0 Hm). lia.
Qed.

Lemma ancestor_snoc a b raw c : ancestor a b -> parent_of b raw c -> ancestor a c.
Proof.
  induction 1 as [? ? ? Hp|? ? ? ? Hp _ IH]; intros Hc; (eapply ancestor_step; [exact Hp|]); [|auto].
  by econstructor.
Qed.

(** Why a resolution fails. *)
Inductive resolve_error (name : string) : exn_class -> Prop :=
| error_unknown m : (m = name \/ ancestor name m) -> dict_get m configs = None ->
    resolve_error name ConfigNotFoundError
| error_cycle m : (m = name \/ ancestor name m) -> ancestor m m -> resolve_error name ConfigValidationError
| error_parent m raw v : (m = name \/ ancestor name m) -> dict_get m configs = Some raw ->
    meta_field "parent" raw = Ok (Some v) -> (forall p, v <> JStr p) -> v <> JNull ->
    resolve_error name ConfigValidationError
| error_meta m raw c e : (m = name \/ ancestor name m) -> dict_get m configs = Some raw ->
    meta_field "parent" raw = Raise c e -> resolve_error name c.

Lemma resolve_error_parent name raw p c : parent_of name raw p -> resolve_error p c -> resolve_error name c.
Proof.
  assert (forall m, parent_of name raw p -> m = p \/ ancestor p m -> m = name \/ ancestor name m) as Ha.
  { intros m Hp [->|Hm]; right; [by econstructor|by eapply ancestor_step]. }
  intros Hp. inversion 1; subst; eauto using resolve_error.
Qed.

Lemma resolve_raw_error fuel name seen c e :
  (forall s, s ∈ seen -> ancestor s name) ->
  _resolve_raw fuel configs name seen = Some (Raise c e) -> resolve_error name c.
Proof.
  revert name seen. induction fuel as [|fuel IH]; intros name seen Hs H; [done|]. cbn [_resolve_raw] in H.
  destruct (bool_decide_reflect (name ∈ seen)) as [Hin|Hn];
    [injection H as <- _; eapply error_cycle; eauto|].
  destruct (dict_get name configs) as [raw|] eqn:Hg;
    [|injection H as <- _; eapply error_unknown; eauto].
  destruct (meta_field "parent" raw) as [[v|]|c' e'] eqn:Hp; [|done|injection H as <- _; eapply error_meta; eauto].
  destruct v as [| | | |p| |]; try (injection H as <- _; by eapply error_parent; eauto); [done|].
  destruct (_resolve_raw fuel configs p (name :: seen)) as [[base|c' e']|] eqn:E; try done.
  injection H as <- <-. eapply resolve_error_parent; [done|]. eapply IH; [|exact E].
  intros s [->|Hin]%elem_of_cons; [by econstructor|]. eapply ancestor_snoc; [by apply Hs|done].
Qed.

(** A chain that ends is at most as long as the configurations are many. *)
Lemma unseen_nil : (unseen [] < resolve_fuel configs)%nat.
Proof.
  unfold unseen, resolve_fuel, filterb. pose proof (List.filter_length_le (fun n => negb (bool_decide (n ∈ [])))
    (dict_keys configs)) as H. unfold dict_keys in *. rewrite length_fmap in H. lia.
Qed.

(** More fuel changes no answer. *)
Lemma resolve_raw_mono fuel fuel' name seen r :
  _resolve_raw fuel configs name seen = Some r -> (fuel <= fuel')%nat ->
  _resolve_raw fuel' configs name seen = Some r.
Proof.
  revert fuel' name seen r. induction fuel as [|fuel IH]; intros fuel' name seen r H Hle; [done|].
  destruct fuel' as [|fuel']; [lia|]. cbn [_resolve_raw] in *.
  destruct (bool_decide _); [done|]. destruct (dict_get _ _) as [raw|]; [|done].
  destruct (meta_field _ _) as [[[]|]|]; try done.
  destruct (_resolve_raw fuel configs s (name :: seen)) as [r'|] eqn:E; [|done].
  rewrite (IH fuel' _ _ _ E) by lia. done.
Qed.

(** With enough fuel a configuration resolves exactly along its chain of
    parents. *)
Lemma resolve_raw_ok name r : _resolve_raw (resolve_fuel configs) configs name [] = Some r ->
  forall d, r = Ok d <-> exists n, resolves n name d.
Proof.
  intros Hr d. split; [intros ->; by eapply resolve_raw_sound|]. intros (n & Hn).
  assert (_resolve_raw (S n + resolve_fuel configs) configs name [] = Some r) as H1
    by (eapply resolve_raw_mono; [exact Hr|lia]).
  rewrite (resolve_raw_complete _ n name [] d) in H1; [by injection H1|done|lia|set_solver].
Qed.

(** C31. Resolving the parents of a configuration always ends, within a fuel of
    one more than the configurations registered, also when they form a cycle;
    the result is the merge along the chain of parents exactly when that chain
    ends in a configuration without a parent (root first, every child merged
    over it); otherwise the error tells an unknown configuration, a cycle among
    the ancestors, or a parent that is not a string. *)
Theorem resolve_raw_terminates name :
  exists r, _resolve_raw (resolve_fuel configs) configs name [] = Some r
  /\ (forall fuel, (resolve_fuel configs <= fuel)%nat -> _resolve_raw fuel configs name [] = Some r)
  /\ (forall d, r = Ok d <-> exists n, resolves n name d)
  /\ (forall c e, r = Raise c e -> resolve_error name c).
Proof.
  destruct (resolve_raw_total _ name [] unseen_nil) as (r & Hr). exists r. split; [done|].
  split; [intros fuel Hle; by eapply resolve_raw_mono|]. split; [by apply resolve_raw_ok|].
  intros c e ->. eapply resolve_raw_error; [|exact Hr]. set_solver.
Qed.
End parents.

(** ** What validation means *)

Section validation.
Context (schema_accepts : jdict -> jdict -> bool) (s : RegistryService).

(** The manifest of a plug-in, whose schema accepts the parameters. *)
Definition plugin_ok (kind name : string) (params : jdict) (manifest : CapabilityManifest) : Prop :=
  dict_get (kind, name) (_manifests s) = Some manifest
  /\ schema_accepts (param_schema manifest) params = true.

Definition caps_ok (config : VoiceSpec) (caps : ProviderCaps) : Prop :=
  owner (turn_taking config) ∈ turn_taking_owners caps
  /\ (owner (turn_taking config) = "server_vad" -> detector (turn_taking config) = None)
  /\ (supported_codecs caps <> [] -> codec (spec_transport config) ∈ supported_codecs caps).

Definition override_ok (manifest : CapabilityManifest) (o : OverrideValue) : Prop :=
  exists t, dict_get (over_target o) (allowed_types manifest) = Some t
            /\ _matches_override_type (over_value o) t = true.

(** A stage is accepted with the contract [io]. *)
Definition stage_ok (stage : PipelineStage) (io : option IoContract) : Prop :=
  exists manifest, plugin_ok "processor" (stage_plugin stage) (stage_params stage) manifest
  /\ (forall c, c ∈ required_capabilities stage manifest -> c ∈ host_capabilities stage)
  /\ Forall (override_ok manifest) (stage_overrides stage)
  /\ io = effective_io stage manifest.

(** What a stage produces agrees with what the next one accepts. *)
Definition agrees (pair : option IoContract * option IoContract) : Prop :=
  forall up down produces k v w,
    pair.1 = Some up -> pair.2 = Some down -> io_produces up = Some produces ->
    (k, v) ∈ produces -> jget k (io_accepts down) = Some w -> json_eqb v w = true.

Definition config_ok (config : VoiceSpec) : Prop :=
  (exists manifest, plugin_ok "engine" (engine_kind (spec_engine config))
     (engine_params (spec_engine config)) manifest)
  /\ (exists manifest caps, plugin_ok "provider" (ai_provider (ai config)) (ai_params (ai config)) manifest
        /\ provider_caps manifest = Some caps /\ caps_ok config caps)
  /\ exists ios, Forall2 stage_ok (pipeline config) ios /\ Forall agrees (pairwise ios).

Lemma guard_ok b message : guard b message = Ok tt <-> b = true.
Proof. by destruct b. Qed.

Lemma bind_unit_ok {A} (m : result A) (f : A -> result unit) :
  (m ≫= f) = Ok tt <-> exists a, m = Ok a /\ f a = Ok tt.
Proof.
  split; [apply bind_ok_inv|]. intros (a & -> & H). exact H.
Qed.

Lemma manifest_ok kind name manifest :
  _manifest s kind name = Ok manifest <-> dict_get (kind, name) (_manifests s) = Some manifest.
Proof. unfold _manifest. destruct (dict_get _ _); split; congruence. Qed.

(** A loop of checks passes when every check does. *)
Lemma each_ok {A} (f : A -> result unit) (P : A -> Prop) l :
  (forall x, f x = Ok tt <-> P x) -> (_ ← mapM_res f l; Ok tt) = Ok tt <-> Forall P l.
Proof.
  intros Hf. rewrite bind_unit_ok. split.
  - intros (us & Hm%mapM_res_ok & _). induction Hm as [|x [] l us H _ IH]; constructor; [by apply Hf|done].
  - intros H. induction H as [|x l H _ (us & IH & _)]; [by exists []|].
    exists (tt :: us). split; [|done]. cbn [mapM_res]. rewrite (proj2 (Hf x) H). cbn. by rewrite IH.
Qed.

Lemma overrides_ok stage manifest :
  _validate_overrides stage manifest = Ok tt <-> Forall (override_ok manifest) (stage_overrides stage).
Proof.
  apply each_ok. intros o. unfold validate_override, override_ok. destruct (dict_get _ _) as [t|].
  - rewrite guard_ok. split; [eauto|]. by intros (t' & [= <-] & H).
  - split; [done|]. by intros (t & ? & _).
Qed.

Lemma validate_stage_ok stage io : validate_stage schema_accepts s stage = Ok io <-> stage_ok stage io.
Proof.
  unfold validate_stage, stage_ok, plugin_ok, _validate_params, _validate_host_capabilities. split.
  - intros (manifest & Hm%manifest_ok & H)%bind_ok_inv. apply bind_ok_inv in H as ([] & Hp%guard_ok & H).
    apply bind_ok_inv in H as ([] & Hh%guard_ok & H). apply bind_ok_inv in H as ([] & Ho%overrides_ok & H).
    injection H as <-. exists manifest. split_and!; try done.
    rewrite forallb_forall in Hh. intros c Hc%list_elem_of_In. by apply Hh, bool_decide_eq_true in Hc.
  - intros (manifest & [Hm Hp] & Hh & Ho & ->). rewrite (proj2 (manifest_ok _ _ _) Hm). cbn [mbind result_bind].
    rewrite Hp. cbn [guard mbind result_bind].
    rewrite (proj2 (forallb_forall _ _)); [|intros c Hc%list_elem_of_In; by apply bool_decide_eq_true, Hh].
    cbn [guard mbind result_bind]. by rewrite (proj2 (overrides_ok _ _) Ho).
Qed.

Lemma adjacent_ok pair : validate_adjacent pair = Ok tt <-> agrees pair.
Proof.
  destruct pair as [[up|] [down|]]; unfold agrees; cbn; try (by split).
  destruct (io_produces up) as [produces|] eqn:Ep;
    [|split; [intros _ ? ? ? ? ? ? [= <-] [= <-]; by rewrite Ep|done]].
  split.
  - intros H. apply guard_ok in H. intros ? ? ? k v w [= <-] [= <-] E Hk Hw. rewrite Ep in E. injection E as <-.
    destruct (json_eqb v w) eqn:Ev; [done|]. exfalso.
    assert ((k, v) ∈ filterb (fun kv => match jget kv.1 (io_accepts down) with
      | Some v => negb (json_eqb kv.2 v) | None => false end) produces) as Hin.
    { apply elem_of_filterb. split; [done|]. cbn. by rewrite Hw, Ev. }
    unfold mismatches in H. destruct (filterb _ _); [by apply not_elem_of_nil in Hin|done].
  - intros H. apply guard_ok. unfold mismatches.
    destruct (filterb _ produces) as [|[k v] l] eqn:Ef; [done|]. exfalso.
    assert ((k, v) ∈ filterb (fun kv => match jget kv.1 (io_accepts down) with
      | Some v => negb (json_eqb kv.2 v) | None => false end) produces) as Hin by (rewrite Ef; left).
    apply elem_of_filterb in Hin as [Hin Hv]. cbn in Hv. destruct (jget k _) as [w|] eqn:Ew; [|done].
    rewrite (H up down produces k v w) in Hv; done.
Qed.

Lemma pipeline_ok config :
  _validate_pipeline schema_accepts s config = Ok tt
  <-> exists ios, Forall2 stage_ok (pipeline (spec config)) ios /\ Forall agrees (pairwise ios).
Proof.
  unfold _validate_pipeline. rewrite bind_unit_ok.
  split; intros (ios & H1 & H2); exists ios; (split; [|by apply (each_ok _ _ _ adjacent_ok)]).
  - apply mapM_res_ok in H1. eapply Forall2_impl; [exact H1|]. intros. by apply validate_stage_ok.
  - apply mapM_res_ok. eapply Forall2_impl; [exact H1|]. intros. by apply validate_stage_ok.
Qed.

Lemma caps_valid config manifest :
  _validate_provider_caps config manifest = Ok tt
  <-> exists caps, provider_caps manifest = Some caps /\ caps_ok (spec config) caps.
Proof.
  unfold _validate_provider_caps, caps_ok. destruct (provider_caps manifest) as [caps|]; [|by split; [|intros (? & ? & _)]].
  rewrite bind_unit_ok. split.
  - intros ([] & H1%guard_ok & H). apply bind_unit_ok in H as ([] & H2%guard_ok & H3%guard_ok).
    apply bool_decide_eq_true in H1. exists caps. split_and!; [done..| |].
    + intros E. rewrite E, String.eqb_refl in H2. by destruct (detector _).
    + destruct (supported_codecs caps); [done|]. by apply bool_decide_eq_true in H3.
  - intros (? & [= <-] & H1 & H2 & H3). exists tt. split; [by apply guard_ok, bool_decide_eq_true|].
    apply bind_unit_ok. exists tt. split; apply guard_ok.
    + destruct (String.eqb_spec (owner (turn_taking (spec config))) "server_vad") as [E|_]; [|done].
      by rewrite H2.
    + destruct (supported_codecs caps); [done|]. by apply bool_decide_eq_true, H3.
Qed.

Lemma cross_fields_ok config : _validate_cross_fields schema_accepts s config = Ok tt <-> config_ok (spec config).
Proof.
  unfold _validate_cross_fields, config_ok, plugin_ok, _validate_params. rewrite bind_unit_ok. split.
  - intros (engine & He%manifest_ok & H). apply bind_unit_ok in H as ([] & Hep%guard_ok & H).
    apply bind_unit_ok in H as (provider & Hp%manifest_ok & H). apply bind_unit_ok in H as ([] & Hpp%guard_ok & H).
    apply bind_unit_ok in H as ([] & (caps & Hc & Hok)%caps_valid & H%pipeline_ok). eauto 10.
  - intros ((engine & He%manifest_ok & Hep) & (provider & caps & [Hp%manifest_ok Hpp] & Hc & Hok) & Hl).
    exists engine. split; [done|]. apply bind_unit_ok. exists tt. split; [by apply guard_ok|].
    apply bind_unit_ok. exists provider. split; [done|]. apply bind_unit_ok. exists tt. split; [by apply guard_ok|].
    apply bind_unit_ok. exists tt. split; [apply caps_valid; eauto|]. by apply pipeline_ok.
Qed.
End validation.

(** ** The defaults of the manifests *)

(** A list field of a stage, present in the dump when the stage has it. *)
Definition texts (l : list string) : json := JArr (map JStr l).

(** [d] is the dump of a stage, as far as the defaults are concerned. *)
Record dumped_stage (stage : PipelineStage) (d : jdict) : Prop := {
  dumped_plugin : jget "plugin" d = Some (JStr (stage_plugin stage));
  dumped_io : is_Some (jget "io" d) <-> is_Some (stage_io stage);
  dumped_enforced : jget "invariants_enforced" d = texts <$> stage_invariants_enforced stage;
  dumped_applicable : jget "invariants_applicable" d = texts <$> stage_invariants_applicable stage;
  dumped_lossy : jget "lossy_expected" d = texts <$> stage_lossy_expected stage;
  dumped_required : jget "requires_host_capability" d = texts <$> stage_requires_host_capability stage }.

(** [model_dump(mode="json", exclude_none=True)]: the fields of the nested
    models under their names, those that are [None] left out. *)
Class DumpLaws (dump_config : VoiceConfig -> jdict) : Prop := dump_shape config : exists spec_ media stages,
  jget "spec" (dump_config config) = Some (JObj spec_) /\ jget "media" spec_ = Some (JObj media)
  /\ jget "pipeline" media = Some (JArr (map JObj stages)) /\ Forall2 dumped_stage (pipeline (spec config)) stages.

Definition default_fields : list string :=
  ["invariants_enforced"; "invariants_applicable"; "lossy_expected"; "requires_host_capability"].

(** What the stage declares, or else what the manifest does when that is not
    empty. *)
Definition declared (own : option (list string)) (default_ : list string) : option json :=
  match own, default_ with
  | Some l, _ => Some (texts l)
  | None, [] => None
  | None, l => Some (texts l)
  end.

(** [d'] is [d] with exactly the absent fields the manifest declares. *)
Record filled_stage (dump_io : IoContract -> jdict) (manifest : CapabilityManifest) (stage : PipelineStage) (d d' : jdict) : Prop := {
  filled_other k : k <> "io" -> k ∉ default_fields -> jget k d' = jget k d;
  filled_io : jget "io" d' = match stage_io stage with
                             | Some _ => jget "io" d
                             | None => (fun io => JObj (dump_io io)) <$> man_io manifest end;
  filled_enforced : jget "invariants_enforced" d' = declared (stage_invariants_enforced stage) (man_invariants_enforced manifest);
  filled_applicable :
    jget "invariants_applicable" d' = declared (stage_invariants_applicable stage) (man_invariants_applicable manifest);
  filled_lossy : jget "lossy_expected" d' = declared (stage_lossy_expected stage) (man_lossy_expected manifest);
  filled_required :
    jget "requires_host_capability" d' = declared (stage_requires_host_capability stage) (man_requires_host_capability manifest) }.

(** [d'] is [d] but for the value of one key. *)
Definition only_at (k : string) (d d' : jdict) (v : json) : Prop := jget k d' = Some v /\ forall k', k' <> k -> jget k' d' = jget k' d.

(** [r] is the dump of the configuration with the stages of its pipeline filled
    in from the manifests of their plug-ins. *)
Definition defaults_filled (dump_config : VoiceConfig -> jdict) (dump_io : IoContract -> jdict) (s : RegistryService)
    (config : VoiceConfig) (r : jdict) : Prop :=
  exists spec_ media stages spec' media' stages',
    jget "spec" (dump_config config) = Some (JObj spec_) /\ jget "media" spec_ = Some (JObj media)
    /\ jget "pipeline" media = Some (JArr (map JObj stages))
    /\ only_at "spec" (dump_config config) r (JObj spec') /\ only_at "media" spec_ spec' (JObj media')
    /\ only_at "pipeline" media media' (JArr (map JObj stages'))
    /\ Forall2 dumped_stage (pipeline (spec config)) stages
    /\ Forall2 (fun sd d' => exists manifest, dict_get ("processor", stage_plugin sd.1) (_manifests s) = Some manifest
                               /\ filled_stage dump_io manifest sd.1 sd.2 d')
         (combine (pipeline (spec config)) stages) stages'.

Section defaults.
Context (dump_io : IoContract -> jdict) (s : RegistryService).

Lemma only_at_set k v d : only_at k d (dict_set k v d) v.
Proof. split; [apply dict_get_set_eq|]. intros k' Hk. by apply dict_get_set_ne. Qed.

Lemma default_list_ne k name value d : k <> name -> jget k (default_list d (name, value)) = jget k d.
Proof. intros Hk. unfold default_list. destruct (dict_mem name d), value; try done; by apply dict_get_set_ne. Qed.

Lemma default_list_eq name own value d : jget name d = texts <$> own ->
  jget name (default_list d (name, value)) = declared own value.
Proof.
  unfold default_list, dict_mem, jget. intros Hd. rewrite Hd. destruct own as [l|]; cbn; [by rewrite Hd|].
  destruct value; [by rewrite Hd|]. apply dict_get_set_eq.
Qed.

Lemma materialize_stage_ok stage d manifest : dumped_stage stage d ->
  dict_get ("processor", stage_plugin stage) (_manifests s) = Some manifest ->
  exists d', materialize_stage dump_io s (JObj d) = Ok (JObj d') /\ filled_stage dump_io manifest stage d d'.
Proof.
  intros [Hp Hio H1 H2 H3 H4] Hm. unfold materialize_stage, item, as_object. cbn [mbind result_bind]. rewrite Hp.
  cbn [from_option_err mbind result_bind]. unfold _manifest. rewrite Hm. cbn [from_option_err mbind result_bind].
  set (d1 := if dict_mem "io" d then d else _). cbn [fold_left]. eexists. split; [reflexivity|].
  assert (forall k, k <> "io" -> jget k d1 = jget k d) as Hd1.
  { intros k Hk. unfold d1. destruct (dict_mem "io" d), (man_io manifest); try done. by apply dict_get_set_ne. }
  constructor.
  - intros k Hk Hn. unfold default_fields in Hn. rewrite !not_elem_of_cons in Hn. destruct Hn as (?&?&?&?&_).
    rewrite !default_list_ne by done. by apply Hd1.
  - rewrite !default_list_ne by done. unfold d1, dict_mem. destruct Hio as [Hio1 Hio2]. unfold jget in *.
    destruct (dict_get "io" d) as [v|] eqn:E; cbn.
    + destruct (Hio1 ltac:(by eexists)) as [io ->]. done.
    + destruct (stage_io stage) as [io|]; [by destruct (Hio2 ltac:(by eexists))|]. destruct (man_io manifest); [apply dict_get_set_eq|done].
  - do 3 rewrite default_list_ne by done. apply default_list_eq. by rewrite Hd1.
  - do 2 rewrite default_list_ne by done. apply default_list_eq. rewrite !default_list_ne by done. by rewrite Hd1.
  - rewrite default_list_ne by done. apply default_list_eq. rewrite !default_list_ne by done. by rewrite Hd1.
  - apply default_list_eq. rewrite !default_list_ne by done. by rewrite Hd1.
Qed.

Lemma materialize_stages_ok l stages : Forall2 dumped_stage l stages ->
  Forall (fun stage => is_Some (dict_get ("processor", stage_plugin stage) (_manifests s))) l ->
  exists stages', mapM_res (materialize_stage dump_io s) (map JObj stages) = Ok (map JObj stages')
    /\ Forall2 (fun sd d' => exists manifest, dict_get ("processor", stage_plugin sd.1) (_manifests s) = Some manifest
                               /\ filled_stage dump_io manifest sd.1 sd.2 d') (combine l stages) stages'.
Proof.
  induction 1 as [|stage d l stages Hd _ IH]; intros Hm; [by exists []|]. apply Forall_cons in Hm as [[manifest Hf] Hm].
  destruct (materialize_stage_ok stage d manifest Hd Hf) as (d' & Hd' & Hfill). destruct (IH Hm) as (stages' & Hs & Hfs).
  exists (d' :: stages'). cbn [map mapM_res combine]. rewrite Hd'. cbn [mbind result_bind]. rewrite Hs. split; [done|].
  constructor; [by exists manifest|done].
Qed.

Lemma materialize_ok dump_config config : DumpLaws dump_config ->
  Forall (fun stage => is_Some (dict_get ("processor", stage_plugin stage) (_manifests s))) (pipeline (spec config)) ->
  exists r, _materialize_manifest_defaults dump_io s (dump_config config) = Ok r
    /\ defaults_filled dump_config dump_io s config r.
Proof.
  intros Hlaws Hm. destruct (Hlaws config) as (spec_ & media & stages & Hs & Hmd & Hpl & Hd).
  destruct (materialize_stages_ok _ _ Hd Hm) as (stages' & Hst & Hf).
  unfold _materialize_manifest_defaults, item. rewrite Hs. cbn [from_option_err mbind result_bind as_object]. rewrite Hmd.
  cbn [from_option_err mbind result_bind as_object]. rewrite Hpl. cbn [from_option_err mbind result_bind]. rewrite Hst.
  cbn [mbind result_bind]. eexists. split; [reflexivity|]. do 3 eexists. exists (dict_set "media" (JObj (dict_set "pipeline" (JArr (map JObj stages')) media)) spec_),
    (dict_set "pipeline" (JArr (map JObj stages')) media), stages'. split_and!; eauto using only_at_set.
Qed.
End defaults.

Lemma config_ok_manifests schema_accepts s config : config_ok schema_accepts s config ->
  Forall (fun stage => is_Some (dict_get ("processor", stage_plugin stage) (_manifests s))) (pipeline config).
Proof.
  intros (_ & _ & ios & Hp & _). induction Hp as [|stage io l ios (manifest & [Hm _] & _) _ IH]; constructor; [by eexists|done].
Qed.

(** ** Resolution and validation together *)

(** C33. Resolving a configuration always answers; it succeeds exactly when the
    chain of parents resolves to an object that Pydantic accepts and whose
    configuration satisfies every cross-field rule: registered engine, provider
    and processor manifests whose schemas accept the parameters; a supported
    owner of turn taking, no second detector beside the server's and a
    supported codec; for every stage the host capabilities it requires and only
    overrides that are allowed, of the allowed type; and equal values on the
    keys two adjacent stages share.  The result is the dump of that
    configuration where only the stages of the pipeline differ, each by the
    contract and the lists the stage leaves out and the manifest of its plug-in
    declares; its hash is that of its canonical text, the same for every
    order of its keys. *)
Theorem resolve_config_exact schema_accepts validate_config dump_config dump_io float_repr s name : DumpLaws dump_config ->
  exists r, resolve_config schema_accepts validate_config dump_config dump_io float_repr s name = Some r
  /\ (is_ok r = true <-> exists n raw config,
       resolves (_configs s) n name raw /\ validate_config raw = Some config /\ config_ok schema_accepts s (spec config))
  /\ forall res, r = Ok res -> exists n raw config,
       resolves (_configs s) n name raw /\ validate_config raw = Some config
       /\ resolved_name res = meta_name (config_meta config)
       /\ defaults_filled dump_config dump_io s config (resolved res)
       /\ forall d, json_equiv (JObj d) (JObj (resolved res)) -> hash res = resolved_hash float_repr d.
Proof.
  intros Hlaws. unfold resolve_config.
  destruct (resolve_raw_total (_configs s) _ name [] (unseen_nil _)) as (r0 & Hr0).
  pose proof (resolve_raw_ok _ _ _ Hr0) as Hd. rewrite Hr0.
  destruct r0 as [raw|c e]; (eexists; split; [reflexivity|]).
  2: { split; [|done]. split; [done|]. intros (n & raw & config & Hn & _). by pose proof (proj2 (Hd raw) (ex_intro _ n Hn)). }
  destruct (proj1 (Hd raw) eq_refl) as (n & Hn).
  assert (forall config, config_ok schema_accepts s (spec config) ->
    exists d, _materialize_manifest_defaults dump_io s (dump_config config) = Ok d /\ defaults_filled dump_config dump_io s config d) as Hmat
    by (intros config Hc; by apply materialize_ok; [|eapply config_ok_manifests]).
  split; [split|].
  - destruct (validate_config raw) as [config|] eqn:Ev; [|done]. intros H. exists n, raw, config. split_and!; [done..|].
    apply cross_fields_ok. by destruct (_validate_cross_fields _ _ _) as [[]|].
  - intros (n' & raw' & config & Hn' & Hv & Hc). destruct (resolves_fun _ _ _ _ _ _ Hn Hn') as [_ <-]. rewrite Hv.
    destruct (Hmat _ Hc) as (d & Hm & _). apply cross_fields_ok in Hc. rewrite Hc. cbn [mbind result_bind]. by rewrite Hm.
  - intros res H. destruct (validate_config raw) as [config|] eqn:Ev; [|done].
    apply bind_ok_inv in H as ([] & Hc%cross_fields_ok & H). destruct (Hmat _ Hc) as (d & Hm & Hf).
    rewrite Hm in H. injection H as <-. exists n, raw, config. split_and!; [done..|].
    intros d' He. cbn [hash resolved]. unfold resolved_hash, canonical_json. by rewrite (dumps_equiv float_repr _ _ He).
Qed.

(** ** A configuration of one stage *)

Definition plain_manifest (kind name : string) (caps : option ProviderCaps) : CapabilityManifest :=
  MkManifest kind name "1" [] (Some (MkIo "passthrough" [] None)) ["isochronous"] [] [] [] [] caps.
Definition plain_registry : RegistryService :=
  MkRegistry [(("engine", "pipecat"), plain_manifest "engine" "pipecat" None);
              (("provider", "fake"), plain_manifest "provider" "fake" (Some (MkCaps ["server_vad"] [] None None)));
              (("processor", "agc"), plain_manifest "processor" "agc" None)]
    [("base", [("meta", JObj [("name", JStr "base")])])].
Definition plain_stage : PipelineStage := MkStage "agc" "agc" [] None None (Some ["duration_preserving"]) None None [] [].
Definition plain_config : VoiceConfig :=
  MkConfig (MkMeta "base" "1" None [])
    (MkSpec (MkEngine "pipecat" []) (MkTransport "ulaw" 20 None) [plain_stage] (MkTurnTaking "server_vad" None false)
       (MkAi "fake" "model" [] None []) []).

(** A dump of the fields the defaults depend on. *)
Definition plain_optional (k : string) (v : option (list string)) : jdict := match v with Some l => [(k, texts l)] | None => [] end.
Definition plain_dump_stage (stage : PipelineStage) : jdict :=
  ("plugin", JStr (stage_plugin stage)) :: match stage_io stage with Some io => [("io", JObj (io_accepts io))] | None => [] end
  ++ plain_optional "invariants_enforced" (stage_invariants_enforced stage)
  ++ plain_optional "invariants_applicable" (stage_invariants_applicable stage)
  ++ plain_optional "lossy_expected" (stage_lossy_expected stage)
  ++ plain_optional "requires_host_capability" (stage_requires_host_capability stage).
Definition plain_dump (config : VoiceConfig) : jdict :=
  [("spec", JObj [("media", JObj [("pipeline", JArr (map JObj (map plain_dump_stage (pipeline (spec config)))))])])].

Lemma plain_dump_laws : DumpLaws plain_dump.
Proof.
  intros config. do 3 eexists. split_and!; [reflexivity..|]. induction (pipeline (spec config)) as [|stage l IH]; cbn [map]; constructor; [|done].
  destruct stage as [? ? ? [io|] [e|] [a|] [lo|] [r|] ? ?]; constructor; try reflexivity;
    cbn; split; intros [? ?]; (done || by eexists).
Qed.

Lemma plain_config_ok : config_ok (fun _ _ => true) plain_registry (spec plain_config).
Proof.
  split; [by eexists|]. split.
  - eexists _, _. split; [by split|]. split; [reflexivity|]. split; [by left|]. by split.
  - eexists [_]. split; [|constructor]. constructor; [|constructor]. eexists. split; [by split|]. split; [|by split].
    cbn. intros c Hc. by apply elem_of_nil in Hc.
Qed.

Lemma resolve_config_exact_witness : exists res,
  resolve_config (fun _ _ => true) (fun _ => Some plain_config) plain_dump (fun _ => []) (fun _ => "0") plain_registry "base" = Some (Ok res)
  /\ resolved_name res = "base" /\ defaults_filled plain_dump (fun _ => []) plain_registry plain_config (resolved res).
Proof.
  destruct (resolve_config_exact (fun _ _ => true) (fun _ => Some plain_config) plain_dump (fun _ => []) (fun _ => "0") plain_registry "base"
    plain_dump_laws) as (r & Hr & Hok & Hres).
  assert (is_ok r = true) as Hr'.
  { apply Hok. eexists 0%nat, _, plain_config. split; [|split; [reflexivity|exact plain_config_ok]].
    apply resolves_root. split; [reflexivity|by left]. }
  destruct r as [res|]; [|discriminate Hr']. destruct (Hres res eq_refl) as (_ & _ & config & _ & [= <-] & Hname & Hf & _).
  exists res. split; [exact Hr|]. split; [exact Hname|exact Hf].
Defined.
