(* ===== verification/SignalChecks.v ===== *)
(** * Signal invariants of the media stages

    [verification/core.py]: the checks of the declared invariants across the
    recordings of adjacent stages.  Reading a WAV file is a parameter: the
    file system answers for a [file://] URI with the header and the frames, or
    raises; so is [math.log10]. *)
From S2P Require Import Prelude Collections PyFloat PyData Bytes RunModel Timeline Observer.
From Stdlib Require Import QArith.

Open Scope Z_scope.

Definition SUPPORTED_INVARIANTS : list string := ["duration_preserving"; "level_preserving"; "isochronous"].
Definition DEFAULT_DURATION_TOLERANCE_RATIO : float := flit 2 100.
Definition DEFAULT_LEVEL_TOLERANCE_DB : float := fz 3.
Definition DEFAULT_FRAME_RATIO_TOLERANCE : float := flit 2 100.
Definition DEFAULT_CADENCE_JITTER_TOLERANCE_RATIO : float := flit 25 100.
Definition LOSSY_EXPECTED_INVARIANT_EXCEPTIONS : list (string * list string) :=
  [("bandwidth_limit", ["level_preserving"])].

Record WavStats := MkWavStats { wav_duration_ms : float; wav_rms : option float; wav_sample_count : Z }.

(** A readable WAV file. *)
Record wav_file := MkWav {
  wav_channels : Z; wav_sample_width : Z; wav_frame_count : Z; wav_rate : Z; wav_frames : bytes }.

(** ** Reading JSON lists *)

(** [for x in v]: the items, keys or characters of a JSON value. *)
Definition json_iter (v : json) : result (list json) :=
  match v with
  | JArr l => Ok l
  | JObj d => Ok (map (fun kv => JStr kv.1) d)
  | JStr s => Ok (map (fun c => JStr (str [c])) (chars s))
  | _ => Raise TypeError "object is not iterable"
  end.

(** A value looked up in a set or a dictionary must be hashable. *)
Definition hashable_str (v : json) : result (option string) :=
  match v with
  | JStr s => Ok (Some s)
  | JArr _ | JObj _ => Raise TypeError "unhashable type"
  | _ => Ok None
  end.

(** The strings among the items of [stage.get(name, [])]. *)
Definition listed_strings (stage : jdict) (name : string) : result (list string) :=
  items ← match jget name stage with Some v => json_iter v | None => Ok [] end;
  found ← mapM_res hashable_str items;
  Ok (omap id found : list string).

(** [", ".join(l)]. *)
Fixpoint comma_list (l : list string) : string :=
  match l with [] => "" | [s] => s | s :: l => s +:+ ", " +:+ comma_list l end.

(** ** The file *)

Definition is_scheme_char (c : Ascii.ascii) : bool := is_ascii_alnum c || char_in ["+"; "-"; "."]%char c.
Definition is_ascii_letter (c : Ascii.ascii) : bool := in_range 65 90 c || in_range 97 122 c.

(** The scheme of [urlparse(uri)]: leading blanks and control characters are
    dropped, tabs and line ends removed. *)
Definition url_scheme (uri : string) : string :=
  let l := lstrip_by (fun c => code c <=? 32) (chars uri) in
  let l := filterb (fun c => negb (char_in [chr 9; chr 10; chr 13] c)) l in
  match split_char ":" l with
  | ((first :: _) as scheme) :: _ :: _ =>
      if is_ascii_letter first && forallb is_scheme_char scheme then lower (str scheme) else ""
  | _ => ""
  end.

(** [_file_uri_to_path]; the path itself stays inside the URI. *)
Definition _file_uri_to_path (uri : string) : result string :=
  if String.eqb (url_scheme uri) "file" then Ok uri
  else Raise ValueError "verification only supports file:// recording URIs for now".

Example url_schemes :
  map url_scheme ["file:///a"; " FILE:x"; "s3://bucket/key"; "relative/path"; "1a:b"] = ["file"; "file"; "s3"; ""; ""].
Proof. reflexivity. Qed.

Definition sum_square_mean (data : bytes) : result float :=
  q ← int_truediv (sum_squares (unpack16 data)) (len data / 2); fsqrt q.

Section checks.
Context (open_wav : string -> result wav_file) (log10 : float -> result float).

Definition _read_wav_stats (r : RecordingArtifact) : result WavStats :=
  path ← _file_uri_to_path (rec_uri r);
  wav ← open_wav path;
  duration_ms ← (if 0 <? wav_rate wav then q ← int_truediv (wav_frame_count wav) (wav_rate wav); Ok (fmul q (fz 1000))
                 else Ok fzero);
  if wav_frame_count wav =? 0 then Ok (MkWavStats duration_ms None 0)
  else if negb (wav_sample_width wav =? 2)
  then Ok (MkWavStats duration_ms None (wav_frame_count wav * wav_channels wav))
  else
    let sample_count := len (wav_frames wav) / 2 in
    if sample_count =? 0 then Ok (MkWavStats duration_ms None 0)
    else if negb (even_length (wav_frames wav)) then Raise StructError "unpack requires a buffer of whole samples"
    else rms ← sum_square_mean (wav_frames wav); Ok (MkWavStats duration_ms (Some rms) sample_count).

(** [except (OSError, ValueError, wave.Error)]; [ConnectionError] is an
    [OSError]. *)
Definition caught_reading (c : exn_class) : bool :=
  bool_decide (c ∈ [OSError; ConnectionError; ValueError; WaveError]).

Definition _try_read_wav_stats (r : RecordingArtifact) : result (option WavStats) :=
  match _read_wav_stats r with
  | Ok stats => Ok (Some stats)
  | Raise c e => if caught_reading c then Ok None else Raise c e
  end.

(** ** The checks *)

Definition _lossy_expected_reasons (stage : jdict) (invariant : string) : result (list string) :=
  reasons ← listed_strings stage "lossy_expected";
  Ok (filterb (fun reason => bool_decide
        (invariant ∈ dict_get_default reason [] LOSSY_EXPECTED_INVARIANT_EXCEPTIONS)) reasons).

Definition _verify_lossy_expected_exception (stage invariant : string) (lossy_reasons : list string)
    : VerificationResult :=
  MkVerification stage invariant true
    [("lossy_expected", JArr (map JStr lossy_reasons))]
    [("comparison", JStr "suppressed_for_expected_loss")]
    (invariant +:+ " comparison suppressed because lossy_expected declares "
     +:+ comma_list lossy_reasons).

Definition within (lower upper x : float) : bool := fleb lower x && fleb x upper.

Definition _verify_duration (stage : string) (previous current : WavStats) (tolerance_ratio : float)
    : result (option VerificationResult) :=
  if fleb (wav_duration_ms previous) fzero || fleb (wav_duration_ms current) fzero then Ok None
  else
    ratio ← fdiv (wav_duration_ms current) (wav_duration_ms previous);
    let lower := fsub (fz 1) tolerance_ratio in
    let upper := fadd (fz 1) tolerance_ratio in
    let passed := within lower upper ratio in
    Ok (Some (MkVerification stage "duration_preserving" passed
      [("input_duration_ms", JFloat (wav_duration_ms previous));
       ("output_duration_ms", JFloat (wav_duration_ms current)); ("duration_ratio", JFloat ratio)]
      [("duration_ratio_min", JFloat lower); ("duration_ratio_max", JFloat upper)]
      (if passed then "duration ratio within tolerance" else "duration ratio outside tolerance"))).

Definition _verify_level (stage : string) (previous current : WavStats) (tolerance_db : float)
    : result (option VerificationResult) :=
  match wav_rms previous, wav_rms current with
  | Some before, Some after =>
      if fleb before fzero || fleb after fzero then Ok None
      else
        quotient ← fdiv after before;
        l ← log10 quotient;
        let delta_db := fmul (fz 20) l in
        let passed := fleb (fabs delta_db) tolerance_db in
        Ok (Some (MkVerification stage "level_preserving" passed
          [("input_rms", JFloat before); ("output_rms", JFloat after); ("delta_db", JFloat delta_db)]
          [("delta_db_min", JFloat (fopp tolerance_db)); ("delta_db_max", JFloat tolerance_db)]
          (if passed then "RMS delta within tolerance" else "RMS delta outside tolerance")))
  | _, _ => Ok None
  end.

(** [float(v)] of an integer, a float or a boolean. *)
Definition ptime_value (v : option json) : result (option float) :=
  match v with
  | Some (JBool b) => Ok (Some (fz (if b then 1 else 0)))
  | Some (JInt z) => x ← float_of_int z; Ok (Some x)
  | Some (JFloat x) => Ok (Some x)
  | _ => Ok None
  end.

Definition _verify_isochronous (stage : string) (metrics : list (string * float)) (config_ptime_ms : option json)
    (frame_ratio_tolerance cadence_jitter_tolerance_ratio : float) : result (option VerificationResult) :=
  expected ← match dict_get "expected_frame_interval_ms" metrics with
             | Some x => Ok (Some x) | None => ptime_value config_ptime_ms end;
  match dict_get "frames_in" metrics, dict_get "frames_out" metrics,
        dict_get "frame_cadence_jitter_ms" metrics, expected with
  | Some frames_in, Some frames_out, Some jitter_ms, Some expected_interval_ms =>
      if fleb frames_in fzero || fleb expected_interval_ms fzero then Ok None
      else
        frame_ratio ← fdiv frames_out frames_in;
        let lower := fsub (fz 1) frame_ratio_tolerance in
        let upper := fadd (fz 1) frame_ratio_tolerance in
        let jitter_limit_ms := fmul expected_interval_ms cadence_jitter_tolerance_ratio in
        let passed := within lower upper frame_ratio && fleb jitter_ms jitter_limit_ms in
        Ok (Some (MkVerification stage "isochronous" passed
          [("frames_in", JFloat frames_in); ("frames_out", JFloat frames_out);
           ("frames_out_in_ratio", JFloat frame_ratio); ("frame_cadence_jitter_ms", JFloat jitter_ms)]
          [("frames_out_in_ratio_min", JFloat lower); ("frames_out_in_ratio_max", JFloat upper);
           ("frame_cadence_jitter_max_ms", JFloat jitter_limit_ms)]
          (if passed then "frame cadence within tolerance" else "frame cadence outside tolerance")))
  | _, _, _, _ => Ok None
  end.

(** [grouped.setdefault(metric.stage, {})[metric.name] = metric.value]. *)
Definition _metrics_by_stage (metrics : list MetricArtifact) : list (string * list (string * float)) :=
  fold_left (fun grouped m =>
    match metric_stage m with
    | None => grouped
    | Some stage => dict_set stage (dict_set (metric_name m) (metric_value m) (dict_get_default stage [] grouped)) grouped
    end) metrics [].

Record tolerances := MkTolerances {
  duration_tolerance_ratio : float; level_tolerance_db : float; frame_ratio_tolerance : float;
  cadence_jitter_tolerance_ratio : float }.

Definition default_tolerances : tolerances :=
  MkTolerances DEFAULT_DURATION_TOLERANCE_RATIO DEFAULT_LEVEL_TOLERANCE_DB DEFAULT_FRAME_RATIO_TOLERANCE
    DEFAULT_CADENCE_JITTER_TOLERANCE_RATIO.

Definition listed {A} (o : option A) : list A := match o with Some x => [x] | None => [] end.

(** One signal invariant of a stage. *)
Definition signal_check (tol : tolerances) (stage : jdict) (name : string) (previous current : WavStats)
    (invariant : string) : result (list VerificationResult) :=
  lossy_reasons ← _lossy_expected_reasons stage invariant;
  match lossy_reasons with
  | _ :: _ => Ok [_verify_lossy_expected_exception name invariant lossy_reasons]
  | [] =>
      found ← (if String.eqb invariant "duration_preserving"
               then _verify_duration name previous current (duration_tolerance_ratio tol)
               else _verify_level name previous current (level_tolerance_db tol));
      Ok (listed found)
  end.

(** The signal checks of a stage against the recording before it. *)
Definition signal_checks (tol : tolerances) (stage : jdict) (invariants : list string)
    (previous current : option RecordingArtifact) : result (list VerificationResult) :=
  let signal_invariants := filterb (fun i => bool_decide (i ∈ ["duration_preserving"; "level_preserving"])) invariants in
  match previous, current, signal_invariants with
  | Some previous, Some current, _ :: _ =>
      previous_stats ← _try_read_wav_stats previous;
      current_stats ← _try_read_wav_stats current;
      match previous_stats, current_stats with
      | Some p, Some c =>
          found ← mapM_res (signal_check tol stage (rec_stage current) p c) signal_invariants;
          Ok (concat found)
      | _, _ => Ok []
      end
  | _, _, _ => Ok []
  end.

Definition isochronous_checks (tol : tolerances) (config_ptime_ms : option json)
    (metrics : list (string * list (string * float))) (name : string) (invariants : list string)
    : result (list VerificationResult) :=
  if bool_decide ("isochronous" ∈ invariants) then
    found ← _verify_isochronous name (dict_get_default name [] metrics) config_ptime_ms
              (frame_ratio_tolerance tol) (cadence_jitter_tolerance_ratio tol);
    Ok (listed found)
  else Ok [].

(** One turn of the loop: the previous recording and the results so far. *)
Definition verify_step (tol : tolerances) (config_ptime_ms : option json)
    (by_stage : list (string * RecordingArtifact)) (metrics : list (string * list (string * float)))
    (s : option RecordingArtifact * list VerificationResult) (stage : json)
    : result (option RecordingArtifact * list VerificationResult) :=
  let '(previous, results) := s in
  name ← stage_type stage;
  d ← (match stage with JObj d => Ok d | _ => Raise TypeError "not an object" end);
  let current := dict_get name by_stage in
  listed_invariants ← listed_strings d "invariants_applicable";
  let invariants := filterb (fun i => bool_decide (i ∈ SUPPORTED_INVARIANTS)) listed_invariants in
  isochronous ← isochronous_checks tol config_ptime_ms metrics name invariants;
  signal ← signal_checks tol d invariants previous current;
  Ok (match current with Some c => Some c | None => previous end, results ++ isochronous ++ signal).

(** [resolved_config["spec"].get("transport", {})] and its [ptime_ms]. *)
Definition config_ptime (config : jdict) : result (option json) :=
  spec ← json_item "spec" (JObj config);
  match spec with
  | JObj d => match jget "transport" d with Some (JObj t) => Ok (jget "ptime_ms" t) | _ => Ok None end
  | _ => Raise AttributeError "get"
  end.

Definition config_pipeline (config : jdict) : result (list json) :=
  spec ← json_item "spec" (JObj config);
  media ← json_item "media" spec;
  pipeline ← json_item "pipeline" media;
  json_iter pipeline.

Definition verify_recordings (tol : tolerances) (config : jdict) (recordings : list RecordingArtifact)
    (metrics : list MetricArtifact) : result (list VerificationResult) :=
  let by_stage := dict_of_list (map (fun r => (rec_stage r, r)) recordings) in
  ptime ← config_ptime config;
  stages ← config_pipeline config;
  s ← foldM_res (verify_step tol ptime by_stage (_metrics_by_stage metrics)) (None, []) stages;
  Ok s.2.
End checks.

(** ** The loop without its state *)

Section verification.
Context (open_wav : string -> result wav_file) (log10 : float -> result float) (tol : tolerances)
  (ptime : option json) (by_stage : list (string * RecordingArtifact))
  (metrics : list (string * list (string * float))).

Definition recording_of (stage : json) : option RecordingArtifact :=
  match stage_type stage with Ok name => dict_get name by_stage | Raise _ _ => None end.

(** The recording of the nearest earlier stage that has one. *)
Definition nearest_recording (earlier : list json) : option RecordingArtifact :=
  last (omap recording_of earlier).

(** The results of one stage, given the stages before it. *)
Definition stage_results (earlier : list json) (stage : json) : result (list VerificationResult) :=
  name ← stage_type stage;
  d ← (match stage with JObj d => Ok d | _ => Raise TypeError "not an object" end);
  listed_invariants ← listed_strings d "invariants_applicable";
  let invariants := filterb (fun i => bool_decide (i ∈ SUPPORTED_INVARIANTS)) listed_invariants in
  isochronous ← isochronous_checks tol ptime metrics name invariants;
  signal ← signal_checks open_wav log10 tol d invariants (nearest_recording earlier) (dict_get name by_stage);
  Ok (isochronous ++ signal).

(** Every stage with the stages before it. *)
Fixpoint with_earlier (earlier stages : list json) : list (list json * json) :=
  match stages with
  | [] => []
  | stage :: rest => (earlier, stage) :: with_earlier (earlier ++ [stage]) rest
  end.

Lemma nearest_snoc earlier stage :
  nearest_recording (earlier ++ [stage])
  = match recording_of stage with Some r => Some r | None => nearest_recording earlier end.
Proof.
  unfold nearest_recording. rewrite omap_app. cbn [omap list_omap].
  destruct (recording_of stage); [apply last_snoc|by rewrite app_nil_r].
Qed.

Lemma verify_step_eq earlier results stage :
  verify_step open_wav log10 tol ptime by_stage metrics (nearest_recording earlier, results) stage
  = (found ← stage_results earlier stage; Ok (nearest_recording (earlier ++ [stage]), results ++ found)).
Proof.
  unfold verify_step, stage_results. rewrite nearest_snoc. unfold recording_of.
  destruct (stage_type stage) as [name|]; [|done]. cbn [mbind result_bind].
  destruct stage; try done. cbn [mbind result_bind].
  destruct (listed_strings d _); [|done]. cbn [mbind result_bind].
  destruct (isochronous_checks _ _ _ _ _); [|done]. cbn [mbind result_bind].
  by destruct (signal_checks _ _ _ _ _ _ _).
Qed.

Lemma verify_loop earlier results stages :
  (s ← foldM_res (verify_step open_wav log10 tol ptime by_stage metrics) (nearest_recording earlier, results) stages;
   Ok s.2)
  = (found ← mapM_res (fun x => stage_results x.1 x.2) (with_earlier earlier stages);
     Ok (results ++ concat found)).
Proof.
  revert earlier results. induction stages as [|stage stages IH]; intros earlier results.
  - cbn. by rewrite app_nil_r.
  - cbn [foldM_res with_earlier mapM_res fst snd]. rewrite verify_step_eq.
    destruct (stage_results earlier stage) as [found|]; [|done]. cbn [mbind result_bind].
    etrans; [apply (IH (earlier ++ [stage]) (results ++ found))|].
    destruct (mapM_res _ _); [|done]. cbn [mbind result_bind concat]. by rewrite app_assoc.
Qed.

(** ** What a result says *)

Definition number_in (d : jdict) (name : string) (x : float) : Prop := jget name d = Some (JFloat x).

(** The verdict follows from the numbers of the result itself. *)
Inductive verdict_ok (v : VerificationResult) : Prop :=
| verdict_lossy reasons : ver_passed v = true -> reasons <> [] ->
    jget "lossy_expected" (ver_observed v) = Some (JArr (map JStr reasons)) -> verdict_ok v
| verdict_duration i o ratio lower upper : ver_invariant v = "duration_preserving" ->
    number_in (ver_observed v) "input_duration_ms" i -> number_in (ver_observed v) "output_duration_ms" o ->
    fleb i fzero = false -> fleb o fzero = false -> fdiv o i = Ok ratio ->
    number_in (ver_observed v) "duration_ratio" ratio ->
    number_in (ver_expected v) "duration_ratio_min" lower -> number_in (ver_expected v) "duration_ratio_max" upper ->
    ver_passed v = within lower upper ratio -> verdict_ok v
| verdict_level i o quotient l limit : ver_invariant v = "level_preserving" ->
    number_in (ver_observed v) "input_rms" i -> number_in (ver_observed v) "output_rms" o ->
    fdiv o i = Ok quotient -> log10 quotient = Ok l ->
    number_in (ver_observed v) "delta_db" (fmul (fz 20) l) ->
    number_in (ver_expected v) "delta_db_max" limit ->
    ver_passed v = fleb (fabs (fmul (fz 20) l)) limit -> verdict_ok v
| verdict_isochronous ratio jitter lower upper limit : ver_invariant v = "isochronous" ->
    number_in (ver_observed v) "frames_out_in_ratio" ratio ->
    number_in (ver_observed v) "frame_cadence_jitter_ms" jitter ->
    number_in (ver_expected v) "frames_out_in_ratio_min" lower ->
    number_in (ver_expected v) "frames_out_in_ratio_max" upper ->
    number_in (ver_expected v) "frame_cadence_jitter_max_ms" limit ->
    ver_passed v = within lower upper ratio && fleb jitter limit -> verdict_ok v.

Lemma no_verdict found : Ok (@None VerificationResult) = Ok found -> Forall verdict_ok (listed found).
Proof. intros [= <-]. constructor. Qed.

Lemma one_verdict v found : verdict_ok v -> Ok (Some v) = Ok found -> Forall verdict_ok (listed found).
Proof. intros Hv [= <-]. by repeat constructor. Qed.

Lemma duration_verdict stage p c found :
  _verify_duration stage p c (duration_tolerance_ratio tol) = Ok found -> Forall verdict_ok (listed found).
Proof.
  unfold _verify_duration. destruct (fleb (wav_duration_ms p) fzero) eqn:E1; [apply no_verdict|].
  destruct (fleb (wav_duration_ms c) fzero) eqn:E2; [apply no_verdict|]. cbn [orb].
  intros (ratio & Hr & H)%bind_ok_inv. revert H. apply one_verdict.
  by eapply verdict_duration; [..|exact Hr| | | |].
Qed.

Lemma level_verdict stage p c found :
  _verify_level log10 stage p c (level_tolerance_db tol) = Ok found -> Forall verdict_ok (listed found).
Proof.
  unfold _verify_level. destruct (wav_rms p) as [before|]; [|apply no_verdict].
  destruct (wav_rms c) as [after|]; [|apply no_verdict].
  destruct (fleb before fzero || fleb after fzero); [apply no_verdict|].
  intros (quotient & Hq & H)%bind_ok_inv. apply bind_ok_inv in H as (l & Hl & H). revert H. apply one_verdict.
  by eapply verdict_level; [..|exact Hq|exact Hl| | |].
Qed.

Lemma isochronous_verdict name invariants found :
  isochronous_checks tol ptime metrics name invariants = Ok found -> Forall verdict_ok found.
Proof.
  unfold isochronous_checks. destruct (bool_decide _); [|intros [= <-]; constructor].
  intros (o & Ho & H)%bind_ok_inv. injection H as <-. unfold _verify_isochronous in Ho.
  apply bind_ok_inv in Ho as (expected & _ & Ho). revert Ho.
  destruct (dict_get "frames_in" _) as [fin|]; [|apply no_verdict].
  destruct (dict_get "frames_out" _) as [fout|]; [|apply no_verdict].
  destruct (dict_get "frame_cadence_jitter_ms" _) as [jitter|]; [|apply no_verdict].
  destruct expected as [interval|]; [|apply no_verdict].
  destruct (_ || _); [apply no_verdict|].
  intros (ratio & Hr & Ho)%bind_ok_inv. revert Ho. apply one_verdict. by eapply verdict_isochronous.
Qed.

Lemma signal_verdict stage invariants previous current found :
  signal_checks open_wav log10 tol stage invariants previous current = Ok found -> Forall verdict_ok found.
Proof.
  unfold signal_checks. destruct previous as [p|]; [|intros [= <-]; constructor].
  destruct current as [c|]; [|intros [= <-]; constructor].
  destruct (filterb _ invariants) as [|i l]; [intros [= <-]; constructor|].
  intros (ps & _ & H)%bind_ok_inv. apply bind_ok_inv in H as (cs & _ & H).
  destruct ps as [ps|]; [|injection H as <-; constructor]. destruct cs as [cs|]; [|injection H as <-; constructor].
  apply bind_ok_inv in H as (founds & Hf%mapM_res_ok & H). injection H as <-.
  apply Forall_concat. clear -Hf. induction Hf as [|invariant vs rest founds Hc _ IH]; constructor; [|done].
  unfold signal_check in Hc. apply bind_ok_inv in Hc as (reasons & _ & Hc). destruct reasons as [|reason reasons].
  - apply bind_ok_inv in Hc as (o & Ho & Hc). injection Hc as <-.
    destruct (String.eqb _ _); [by eapply duration_verdict|by eapply level_verdict].
  - injection Hc as <-. constructor; [|constructor]. by eapply (verdict_lossy _ (reason :: reasons)).
Qed.

Lemma stage_verdicts earlier stage found : stage_results earlier stage = Ok found -> Forall verdict_ok found.
Proof.
  unfold stage_results. intros (name & _ & H)%bind_ok_inv. apply bind_ok_inv in H as (d & _ & H).
  apply bind_ok_inv in H as (l & _ & H). apply bind_ok_inv in H as (iso & Hi%isochronous_verdict & H).
  apply bind_ok_inv in H as (signal & Hs%signal_verdict & H). injection H as <-. by apply Forall_app.
Qed.
End verification.

(** Verifying the recordings of a run is the same as checking every stage
    of the pipeline on its own, in order, against the recording of the nearest
    earlier stage that has one (the loop's mutable [previous] is exactly that),
    with the same exception when a check raises; and every verdict follows from
    the numbers of its own result: the duration ratio, the level difference, or
    the frame ratio and the jitter against their limits, or a declared loss. *)
Theorem verification_stage_by_stage open_wav log10 tol config recordings metrics :
  let by_stage := dict_of_list (map (fun r => (rec_stage r, r)) recordings) in
  verify_recordings open_wav log10 tol config recordings metrics
  = (ptime ← config_ptime config;
     stages ← config_pipeline config;
     found ← mapM_res (fun x => stage_results open_wav log10 tol ptime by_stage (_metrics_by_stage metrics) x.1 x.2)
               (with_earlier [] stages);
     Ok (concat found))
  /\ forall results, verify_recordings open_wav log10 tol config recordings metrics = Ok results ->
       Forall (verdict_ok log10) results.
Proof.
  cbv zeta. unfold verify_recordings. destruct (config_ptime config) as [ptime|]; [|done]. cbn [mbind result_bind].
  destruct (config_pipeline config) as [stages|]; [|done]. cbn [mbind result_bind].
  pose proof (verify_loop open_wav log10 tol ptime (dict_of_list (map (fun r => (rec_stage r, r)) recordings))
    (_metrics_by_stage metrics) [] [] stages) as H.
  change (nearest_recording _ []) with (@None RecordingArtifact) in H. rewrite H. split; [done|].
  intros results (found & Hf%mapM_res_ok & [= <-])%bind_ok_inv. cbn [app]. apply Forall_concat. clear H.
  induction Hf as [|x vs l found Hx _ IH]; constructor; [by eapply stage_verdicts|done].
Qed.
