(* ===== verification/PyUrl.v ===== *)
(** * Percent encoding and file URIs

    [urllib.parse.quote], [unquote] and the path of [urlparse], [PurePath.as_uri]
    and the [_local_recording_path] of [control_plane/run_api.py], which reads
    back the URI of a recording.  Texts have code points up to U+00FF; a decoded
    text with any other character has no name in this model ([None]). *)
From S2P Require Import Prelude PyData Bytes Json SignalChecks.

Open Scope Z_scope.

(** ** Encoding *)

Definition utf8 (l : list Ascii.ascii) : bytes := concat (map utf8_char l).

Definition upper_hex (z : Z) : Ascii.ascii := if z <? 10 then chr (48 + z) else chr (55 + z).

(** [_ALWAYS_SAFE]. *)
Definition always_safe (c : Ascii.ascii) : bool := is_ascii_alnum c || char_in ["_"; "."; "-"; "~"]%char c.

Definition quote_byte (safe : list Ascii.ascii) (b : Byte.byte) : list Ascii.ascii :=
  let c := chr (byte_val b) in
  if is_ascii_char c && (always_safe c || char_in safe c) then [c]
  else ["%"%char; upper_hex (byte_val b / 16); upper_hex (byte_val b mod 16)].

Definition quote (safe : list Ascii.ascii) (s : string) : string :=
  str (concat (map (quote_byte safe) (utf8 (chars s)))).

(** ** Decoding *)

(** [unquote_to_bytes] of an ASCII text. *)
Fixpoint percent_decode (l : list Ascii.ascii) : bytes :=
  match l with
  | [] => []
  | c :: rest =>
      if Ascii.eqb c "%" then
        match rest with
        | h :: l' :: rest' =>
            match hex_value h, hex_value l' with
            | Some hi, Some lo => byte_of (16 * hi + lo) :: percent_decode rest'
            | _, _ => byte_of (code c) :: percent_decode rest
            end
        | _ => byte_of (code c) :: percent_decode rest
        end
      else byte_of (code c) :: percent_decode rest
  end.

(** [bytes.decode("utf-8", "replace")]; [None] when the text has a character
    beyond U+00FF, the replacement character included. *)
Fixpoint utf8_decode (data : bytes) : option (list Ascii.ascii) :=
  match data with
  | [] => Some []
  | b :: rest =>
      if byte_val b <? 128 then cons (chr (byte_val b)) <$> utf8_decode rest
      else match rest with
           | c :: rest' =>
               if ((byte_val b =? 194) || (byte_val b =? 195)) && (128 <=? byte_val c) && (byte_val c <? 192)
               then cons (chr ((byte_val b - 192) * 64 + (byte_val c - 128))) <$> utf8_decode rest'
               else None
           | [] => None
           end
  end.

(** [unquote] decodes each run of ASCII characters; [pending] is the run so
    far, its last character first. *)
Fixpoint unquote_runs (pending l : list Ascii.ascii) : option (list Ascii.ascii) :=
  match l with
  | [] => utf8_decode (percent_decode (rev pending))
  | c :: rest =>
      if is_ascii_char c then unquote_runs (c :: pending) rest
      else a ← utf8_decode (percent_decode (rev pending));
           b ← unquote_runs [] rest;
           Some (a ++ c :: b)
  end.

Definition unquote (s : string) : option string :=
  if existsb (Ascii.eqb "%") (chars s) then str <$> unquote_runs [] (chars s) else Some s.

(** ** Paths and URIs *)

Fixpoint until (stop : Ascii.ascii -> bool) (l : list Ascii.ascii) : list Ascii.ascii :=
  match l with
  | [] => []
  | c :: l' => if stop c then [] else c :: until stop l'
  end.

Fixpoint from (stop : Ascii.ascii -> bool) (l : list Ascii.ascii) : list Ascii.ascii :=
  match l with
  | [] => []
  | c :: l' => if stop c then l else from stop l'
  end.

(** The text [urlsplit] works on. *)
Definition url_text (uri : string) : list Ascii.ascii :=
  filterb (fun c => negb (char_in [chr 9; chr 10; chr 13] c))
    (lstrip_by (fun c => code c <=? 32) (chars uri)).

(** [urlparse(uri).path] of a URI with the scheme [file]: the network location
    (without brackets here), the fragment and the query are cut off. *)
Definition file_url_path (uri : string) : string :=
  let rest := drop 5 (url_text uri) in
  let rest := if prefix_of ["/"; "/"]%char rest
              then from (char_in ["/"; "?"; "#"]%char) (drop 2 rest) else rest in
  str (until (Ascii.eqb "?") (until (Ascii.eqb "#") rest)).

(** [_local_recording_path]: [None] when the recording is not a local file. *)
Definition _local_recording_path (uri : string) : option (option string) :=
  if String.eqb (url_scheme uri) "file" then Some (unquote (file_url_path uri)) else None.

(** [Path.as_uri] of an absolute path. *)
Definition as_uri (path : string) : string := "file://" +:+ quote ["/"%char] path.

(** ** Lemmas *)

Lemma byte_char b : byte_of (code (chr (byte_val b))) = b.
Proof. by destruct b. Qed.

Lemma hex_byte b :
  hex_value (upper_hex (byte_val b / 16)) = Some (byte_val b / 16)
  /\ hex_value (upper_hex (byte_val b mod 16)) = Some (byte_val b mod 16)
  /\ byte_of (16 * (byte_val b / 16) + byte_val b mod 16) = b
  /\ always_safe (upper_hex (byte_val b / 16)) = true /\ always_safe (upper_hex (byte_val b mod 16)) = true.
Proof. by destruct b; vm_compute. Qed.

Lemma decode_quoted_byte safe b rest : "%"%char ∉ safe ->
  percent_decode (quote_byte safe b ++ rest) = b :: percent_decode rest.
Proof.
  intros Hs. unfold quote_byte. destruct (_ && _) eqn:E; cbn [app percent_decode].
  - destruct (Ascii.eqb_spec (chr (byte_val b)) "%") as [Hc|_]; [|by rewrite byte_char].
    rewrite Hc in E. cbn in E. unfold char_in in E. apply existsb_exists in E as (x & Hx & <-%Ascii.eqb_eq).
    by apply list_elem_of_In in Hx.
  - destruct (hex_byte b) as (-> & -> & -> & _). done.
Qed.

Lemma decode_quote safe s : "%"%char ∉ safe -> percent_decode (chars (quote safe s)) = utf8 (chars s).
Proof.
  intros Hs. unfold quote. rewrite chars_str. induction (utf8 (chars s)) as [|b l IH]; [done|].
  cbn [map concat]. by rewrite decode_quoted_byte, IH.
Qed.

Lemma utf8_decode_char c rest : utf8_decode (utf8_char c ++ rest) = cons c <$> utf8_decode rest.
Proof. by destruct c as [[] [] [] [] [] [] [] []]. Qed.

Lemma utf8_round_trip l : utf8_decode (utf8 l) = Some l.
Proof.
  induction l as [|c l IH]; [done|]. change (utf8 (c :: l)) with (utf8_char c ++ utf8 l).
  by rewrite utf8_decode_char, IH.
Qed.

Lemma quote_inj safe s s' : "%"%char ∉ safe -> quote safe s = quote safe s' -> s = s'.
Proof.
  intros Hs E. apply (f_equal (fun q => utf8_decode (percent_decode (chars q)))) in E.
  rewrite !decode_quote, !utf8_round_trip in E by done. injection E as E.
  by rewrite <- (str_chars s), <- (str_chars s'), E.
Qed.

(** The characters of a quoted text. *)
Definition quoted_char (safe : list Ascii.ascii) (c : Ascii.ascii) : bool :=
  is_ascii_char c && (always_safe c || char_in safe c || Ascii.eqb c "%").

Lemma always_safe_ascii c : always_safe c = true -> is_ascii_char c = true.
Proof.
  intros H. pose proof (ascii_cases (fun c => implb (always_safe c) (is_ascii_char c))) as P.
  specialize (P eq_refl c). cbv beta in P. by rewrite H in P.
Qed.

Lemma quote_chars safe s : forallb (quoted_char safe) (chars (quote safe s)) = true.
Proof.
  unfold quote. rewrite chars_str. induction (utf8 (chars s)) as [|b l IH]; [done|].
  cbn [map concat]. rewrite forallb_app, IH, andb_true_r. unfold quote_byte.
  destruct (_ && _) eqn:E; cbn [forallb]; unfold quoted_char.
  - apply andb_true_iff in E as [-> ->]. done.
  - destruct (hex_byte b) as (_ & _ & _ & H1 & H2).
    rewrite H1, H2, (always_safe_ascii _ H1), (always_safe_ascii _ H2). cbn [orb andb].
    change (Ascii.eqb "%" "%") with true. by rewrite orb_true_r.
Qed.

Lemma quote_ascii safe s : forallb is_ascii_char (chars (quote safe s)) = true.
Proof. apply (forallb_weaken (quoted_char safe)); [|apply quote_chars]. by intros c [? _]%andb_true_iff. Qed.

Lemma unquote_runs_ascii pending l : forallb is_ascii_char l = true ->
  unquote_runs pending l = utf8_decode (percent_decode (rev pending ++ l)).
Proof.
  revert pending. induction l as [|c l IH]; intros pending H; cbn in *; [by rewrite app_nil_r|].
  apply andb_true_iff in H as [-> H]. rewrite IH by done. cbn. by rewrite <- app_assoc.
Qed.

Lemma percent_decode_plain l : existsb (Ascii.eqb "%") l = false ->
  percent_decode l = map (fun c => byte_of (code c)) l.
Proof.
  induction l as [|c l IH]; [done|]. cbn [existsb percent_decode map]. rewrite orb_false_iff. intros [Hc Hl].
  rewrite Ascii.eqb_sym, Hc. by rewrite IH.
Qed.

Lemma utf8_decode_ascii l : forallb is_ascii_char l = true -> utf8_decode (map (fun c => byte_of (code c)) l) = Some l.
Proof.
  induction l as [|c l IH]; [done|]. cbn [forallb map]. rewrite andb_true_iff. intros [Hc Hl].
  replace (byte_of (code c) :: map _ l) with (utf8_char c ++ map (fun c => byte_of (code c)) l)
    by (unfold utf8_char; unfold is_ascii_char in Hc; by rewrite Hc).
  by rewrite utf8_decode_char, IH.
Qed.

Lemma unquote_ascii s : is_ascii s = true -> unquote s = str <$> utf8_decode (percent_decode (chars s)).
Proof.
  intros Ha. unfold unquote. destruct (existsb _ _) eqn:E; [by rewrite unquote_runs_ascii|].
  rewrite percent_decode_plain, utf8_decode_ascii by done. cbn. by rewrite str_chars.
Qed.

Lemma unquote_quote safe s : "%"%char ∉ safe -> unquote (quote safe s) = Some s.
Proof.
  intros Hs. rewrite unquote_ascii by apply quote_ascii.
  rewrite decode_quote, utf8_round_trip by done. cbn. by rewrite str_chars.
Qed.

(** ** The URI of a path *)

Lemma until_none stop l : existsb stop l = false -> until stop l = l.
Proof. induction l as [|c l IH]; cbn; [done|]. rewrite orb_false_iff. intros [-> H]. by rewrite IH. Qed.

Lemma filterb_all {A} (p : A -> bool) l : forallb p l = true -> filterb p l = l.
Proof. unfold filterb. induction l as [|c l IH]; cbn; [done|]. rewrite andb_true_iff. intros [-> H]. by rewrite IH. Qed.

Lemma quoted_none safe p s : (forall c, quoted_char safe c = true -> p c = false) ->
  existsb p (chars (quote safe s)) = false.
Proof.
  intros H. apply not_true_is_false. intros (c & Hin & Hc)%existsb_exists.
  pose proof (quote_chars safe s) as Hq. rewrite forallb_forall in Hq. by rewrite H in Hc; [|apply Hq].
Qed.

(** A path character is none of the delimiters of a URI. *)
Lemma path_char_plain c : quoted_char ["/"%char] c = true ->
  char_in [chr 9; chr 10; chr 13] c = false /\ Ascii.eqb "#" c = false /\ Ascii.eqb "?" c = false
  /\ Ascii.eqb ":" c = false /\ Ascii.eqb c ":" = false.
Proof.
  intros H. pose proof (ascii_cases (fun c => implb (quoted_char ["/"%char] c)
    (negb (char_in [chr 9; chr 10; chr 13] c) && negb (Ascii.eqb "#" c) && negb (Ascii.eqb "?" c)
     && negb (Ascii.eqb ":" c) && negb (Ascii.eqb c ":")))) as P.
  specialize (P eq_refl c). cbv beta in P. rewrite H in P. cbn [implb] in P.
  repeat (apply andb_true_iff in P as [P ?%negb_true_iff]). by apply negb_true_iff in P.
Qed.

Lemma url_text_uri path :
  url_text (as_uri path) = chars "file://" ++ chars (quote ["/"%char] path).
Proof.
  unfold url_text, as_uri. rewrite chars_append. cbn [chars String.list_ascii_of_string app lstrip_by].
  change (code "f" <=? 32) with false. cbv iota. apply filterb_all. cbn [forallb].
  rewrite !andb_true_l. apply forallb_forall. intros c Hc.
  pose proof (quote_chars ["/"%char] path) as Hq. rewrite forallb_forall in Hq.
  destruct (path_char_plain c (Hq c Hc)) as [-> _]. done.
Qed.

Lemma as_uri_scheme path : url_scheme (as_uri path) = "file".
Proof.
  unfold url_scheme. pose proof (url_text_uri path) as H. unfold url_text in H. rewrite H.
  change (chars "file://" ++ ?l) with (chars "file" ++ ":"%char :: "/"%char :: "/"%char :: l).
  rewrite split_char_app by (cbn; set_solver). cbn [split_char].
  change (Ascii.eqb "/" ":") with false. cbv iota.
  destruct (split_char_cons ":" (chars (quote ["/"%char] path))) as (x & l & ->). done.
Qed.

(** The URI of an absolute path names that path. *)
Lemma local_path_of_uri p : let path := String "/" p in
  _local_recording_path (as_uri path) = Some (Some path).
Proof.
  intros path. unfold _local_recording_path. rewrite as_uri_scheme. cbn [String.eqb Ascii.eqb].
  cbn. f_equal. unfold file_url_path. rewrite url_text_uri.
  assert (exists l, chars (quote ["/"%char] path) = "/"%char :: l) as [l El]
    by (unfold path, quote; rewrite chars_str; cbn; eauto).
  pose proof (quoted_none ["/"%char] (Ascii.eqb "#") path ltac:(intros c Hc; apply (path_char_plain c Hc))) as H1.
  pose proof (quoted_none ["/"%char] (Ascii.eqb "?") path ltac:(intros c Hc; apply (path_char_plain c Hc))) as H2.
  pose proof (unquote_quote ["/"%char] path ltac:(set_solver)) as Hu.
  rewrite <- (str_chars (quote ["/"%char] path)), El in Hu. rewrite El in *. cbn [chars String.list_ascii_of_string app drop prefix_of Ascii.eqb].
  change (from _ _) with ("/"%char :: l). rewrite (until_none (Ascii.eqb "#")), (until_none (Ascii.eqb "?")) by done.
  apply Hu.
Qed.

Example quote_vector : quote [] (str (map chr [97; 32; 37; 47; 233])) = "a%20%25%2F%C3%A9".
Proof. reflexivity. Qed.
