(* ===== verification/RecordingStorage.v ===== *)
(** * Storage of stage recordings

    [engine_harness/storage.py]: the checks of buckets, prefixes and object
    segments, the sinks that write a silent WAV file per stage, and the bounded
    reader of remote recordings.  The object store is a third-party client: its
    answers are arguments, as are the readings of the clock and the answers of
    the disk.  [netloc_check] is urllib's check of a network location with
    brackets or characters beyond ASCII; other locations are always accepted. *)
From S2P Require Import Prelude Effects Collections PyFloat PyData Bytes Json SignalChecks PyUrl RunModel.

Open Scope Z_scope.

(** ** Names *)

Definition is_lower_alnum (c : Ascii.ascii) : bool :=
  (97 <=? code c) && (code c <=? 122) || (48 <=? code c) && (code c <=? 57).

(** [_BUCKET_NAME.fullmatch]. *)
Definition bucket_name (bucket : string) : bool :=
  match chars bucket with
  | first :: rest =>
      match rev rest with
      | last :: middle =>
          is_lower_alnum first && is_lower_alnum last
          && forallb (fun c => is_lower_alnum c || char_in ["."; "-"]%char c) middle
          && (1 <=? len middle) && (len middle <=? 61)
      | [] => false
      end
  | [] => false
  end.

(** [ipaddress.ip_address] accepts an IPv4 address; an IPv6 address has a colon,
    which no bucket name has. *)
Definition ipv4_octet (l : list Ascii.ascii) : bool :=
  forallb is_digit_char l && (1 <=? len l) && (len l <=? 3)
  && (decimal_value l <=? 255)
  && match l with "0"%char :: _ :: _ => false | _ => true end.

Definition ip_address (bucket : string) : bool :=
  let octets := split_char "." (chars bucket) in
  (len octets =? 4) && forallb ipv4_octet octets.

Definition _validate_bucket (bucket : string) : result unit :=
  _ ← guard_else (bucket_name bucket && negb (contains bucket "..")) ValueError
        "bucket must be a valid DNS-style S3 bucket name";
  guard_else (negb (ip_address bucket)) ValueError "bucket must not be formatted as an IP address".

Definition is_segment_char (c : Ascii.ascii) : bool := is_ascii_alnum c || char_in ["."; "_"; "-"]%char c.

(** [_OBJECT_SEGMENT.fullmatch]. *)
Definition object_segment (value : string) : bool :=
  match chars value with
  | first :: rest => is_ascii_alnum first && forallb is_segment_char rest && (len rest <=? 127)
  | [] => false
  end.

Definition _validate_object_segment (value field : string) : result unit :=
  guard_else (object_segment value) ValueError (field +:+ " must be a safe object-key segment").

Definition _validate_prefix (prefix : string) : result string :=
  let normalized := strip_by (Ascii.eqb "/") (chars prefix) in
  match normalized with
  | [] => Ok ""
  | _ =>
      _ ← foldM_res (fun _ segment => _validate_object_segment (str segment) "prefix") tt
            (split_char "/" normalized);
      Ok (str normalized)
  end.

(** ["/".join(part for part in (prefix, run_id, f"{stage}.wav") if part)]. *)
Definition object_name (prefix run_id stage : string) : string :=
  str (join_char "/" (map chars (filterb (fun part => negb (String.eqb part ""))
    [prefix; run_id; stage +:+ ".wav"]))).

(** ** Silent recordings *)

(** [value or other] of an optional JSON value. *)
Definition falsy (v : json) : bool :=
  match v with
  | JNull | JBool false | JStr EmptyString | JArr [] | JObj [] => true
  | JInt z => z =? 0
  | JFloat x => feqb x fzero
  | _ => false
  end.

Definition jint (v : option json) : option Z :=
  match v with
  | Some (JInt z) => Some z
  | Some (JBool b) => Some (if b then 1 else 0)
  | _ => None
  end.

Definition _sample_width (encoding : option json) : Z :=
  match encoding with Some (JStr e) => if String.eqb e "mulaw" then 1 else 2 | _ => 2 end.

Definition _silence_frame (sample_width channels : Z) : bytes :=
  if sample_width =? 1 then repeat (byte_of 128) (Z.to_nat channels)
  else repeat x00 (Z.to_nat (sample_width * channels)).

Definition le32_ok (v : Z) : bool := (0 <=? v) && (v <? 4294967296).

Definition le32_bytes (v : Z) : bytes :=
  [byte_of v; byte_of (v / 256); byte_of (v / 65536); byte_of (v / 16777216)].

Definition ascii_bytes (s : string) : bytes := map (fun c => byte_of (code c)) (chars s).

(** The file [wave] writes: a PCM header, whose fields must fit, and the frames. *)
Definition wave_file (channels sample_width rate : Z) (frames : bytes) : result bytes :=
  _ ← guard_else (1 <=? channels) WaveError "bad # of channels";
  _ ← guard_else (0 <? rate) WaveError "bad frame rate";
  _ ← guard_else ((channels <? 65536) && (channels * sample_width <? 65536) && le32_ok rate
                  && le32_ok (channels * rate * sample_width) && le32_ok (36 + len frames))
        StructError "argument out of range";
  Ok (ascii_bytes "RIFF" ++ le32_bytes (36 + len frames) ++ ascii_bytes "WAVEfmt " ++ le32_bytes 16
      ++ le16 1 ++ le16 channels ++ le32_bytes rate ++ le32_bytes (channels * rate * sample_width)
      ++ le16 (channels * sample_width) ++ le16 (sample_width * 8)
      ++ ascii_bytes "data" ++ le32_bytes (len frames) ++ frames).

(** [silence_frame * frame_count]. *)
Definition silent_frames (sample_width channels frame_count : Z) : bytes :=
  concat (repeat (_silence_frame sample_width channels) (Z.to_nat frame_count)).

(** What [_write_silent_wav] computes before it opens the file: channels, sample
    width, rate and frames. *)
Definition silent_parameters (audio_format : jdict) (duration_ms : float) : result (Z * Z * Z * bytes) :=
  let rate := match jget "rate" audio_format with
              | Some v => if falsy v then jget "output_rate" audio_format else Some v
              | None => jget "output_rate" audio_format
              end in
  match jint rate, jint (jget "channels" audio_format) with
  | Some rate, Some channels =>
      _ ← guard_else (negb (fltb duration_ms fzero)) ValueError "stage duration must be non-negative";
      let sample_width := _sample_width (jget "encoding" audio_format) in
      seconds ← fdiv duration_ms (fz 1000);
      r ← float_of_int rate;
      frame_count ← py_round (fmul r seconds);
      Ok (channels, sample_width, rate, silent_frames sample_width channels frame_count)
  | _, _ => Raise ValueError "stage audio format must include integer rate and channels"
  end.

(** The content [_write_silent_wav] writes. *)
Definition _write_silent_wav (audio_format : jdict) (duration_ms : float) : result bytes :=
  p ← silent_parameters audio_format duration_ms;
  let '(channels, sample_width, rate, frames) := p in wave_file channels sample_width rate frames.

(** ** Sinks *)

(** The files of the disk and the objects of the store, by their names. *)
Record storage := MkStorage { disk_files : gmap string bytes; objects : gmap string bytes }.

(** What the disk or the store answers to a write: an error or none, and what
    is then left at the name. *)
Record put_outcome := MkPut { put_error : option (exn_class * string); put_left : option bytes }.

Definition leave (left : option bytes) (path : string) (files : gmap string bytes) : gmap string bytes :=
  match left with Some content => <[path := content]> files | None => files end.

(** The file is created before its header is written, which may fail. *)
Definition put_file (answer : put_outcome) (path : string) (content : result bytes) : st storage unit := fun s =>
  match content, put_error answer with
  | Ok content, None => (Ok tt, MkStorage (<[path := content]> (disk_files s)) (objects s))
  | Raise c m, _ | Ok _, Some (c, m) =>
      (Raise c m, MkStorage (leave (put_left answer) path (disk_files s)) (objects s))
  end.

Definition put_object (answer : put_outcome) (name : string) (content : bytes) : st storage unit := fun s =>
  match put_error answer with
  | Some (c, m) => (Raise c m, MkStorage (disk_files s) (leave (put_left answer) name (objects s)))
  | None => (Ok tt, MkStorage (disk_files s) (<[name := content]> (objects s)))
  end.

(** [path / name] of a name that is a single component. *)
Definition child (path name : string) : string := path +:+ "/" +:+ name.

Definition single_component (name : string) : bool :=
  negb (String.eqb name "") && negb (String.eqb name ".") && negb (existsb (Ascii.eqb "/") (chars name)).

(** [LocalRecordingSink.write_stage_wav], for a run and a stage that are single
    path components. *)
Definition local_write_stage_wav (root : string) (answer : put_outcome) (run_id stage : string)
    (audio_format : jdict) (duration_ms : float) : st storage RecordingArtifact :=
  let path := child (child root run_id) (stage +:+ ".wav") in
  p ← lift (silent_parameters audio_format duration_ms);
  let '(channels, sample_width, rate, frames) := p in
  _ ← put_file answer path (wave_file channels sample_width rate frames);
  mret (MkRecording stage (as_uri path) audio_format duration_ms).

Record MinioRecordingSink := MkMinioSink { sink_bucket : string; sink_prefix : string }.

Definition make_minio_sink (bucket prefix : string) : result MinioRecordingSink :=
  _ ← _validate_bucket bucket;
  prefix ← _validate_prefix prefix;
  Ok (MkMinioSink bucket prefix).

Definition s3_uri (bucket name : string) : string := "s3://" +:+ bucket +:+ "/" +:+ name.

(** [MinioRecordingSink.write_stage_wav]; the temporary file is gone at the end. *)
Definition minio_write_stage_wav (self : MinioRecordingSink) (answer : put_outcome) (run_id stage : string)
    (audio_format : jdict) (duration_ms : float) : st storage RecordingArtifact :=
  _ ← lift (_validate_object_segment run_id "run_id");
  _ ← lift (_validate_object_segment stage "stage");
  let name := object_name (sink_prefix self) run_id stage in
  content ← lift (_write_silent_wav audio_format duration_ms);
  _ ← put_object answer name content;
  mret (MkRecording stage (s3_uri (sink_bucket self) name) audio_format duration_ms).

(** ** The reader of remote recordings *)

Record MinioRecordingReader := MkReader {
  rd_bucket : string; rd_prefix : string; rd_max_bytes : Z; rd_timeout_seconds : float;
  rd_max_concurrent_reads : Z }.

Definition make_reader (bucket prefix : string) (max_bytes : Z) (timeout_seconds : float)
    (max_concurrent_reads : Z) : result MinioRecordingReader :=
  _ ← _validate_bucket bucket;
  _ ← guard_else (44 <=? max_bytes) ValueError "max_bytes must allow a WAV header";
  _ ← guard_else (negb (fleb timeout_seconds fzero)) ValueError "timeout_seconds must be positive";
  _ ← guard_else (0 <? max_concurrent_reads) ValueError "max_concurrent_reads must be positive";
  _ ← guard_else (max_bytes * max_concurrent_reads <=? 128 * 1024 * 1024) ValueError
        "remote recording in-flight capacity must not exceed 128 MiB";
  prefix ← _validate_prefix prefix;
  Ok (MkReader bucket prefix max_bytes timeout_seconds max_concurrent_reads).

Section urls.
Context (netloc_check : list Ascii.ascii -> bool).

(** [urlparse(uri)] of a URI with a scheme that has no parameters, such as [s3]
    and [file]: location, path, query and fragment; [colon] is the length of the
    scheme and its colon. *)
Definition url_parts (colon : nat) (uri : string) : result (string * string * string * string) :=
  let rest := drop colon (url_text uri) in
  let located := prefix_of ["/"; "/"]%char rest in
  let body := if located then drop 2 rest else rest in
  let stop := char_in ["/"; "?"; "#"]%char in
  let netloc := if located then until stop body else [] in
  let rest := if located then from stop body else rest in
  let unusual := existsb (fun c => negb (is_ascii_char c) || char_in ["["; "]"]%char c) netloc in
  _ ← guard_else (negb unusual || netloc_check netloc) ValueError "Invalid URL";
  let before := until (Ascii.eqb "#") rest in
  Ok (str netloc, str (until (Ascii.eqb "?") before), str (drop 1 (from (Ascii.eqb "?") before)),
      str (drop 1 (from (Ascii.eqb "#") rest))).

(** The length of the scheme and its colon. *)
Definition scheme_end (uri : string) : nat :=
  match url_scheme uri with EmptyString => 0 | scheme => S (String.length scheme) end.

(** The URI names exactly the object of this run and stage. *)
Definition identified (self : MinioRecordingReader) (uri name : string) : result bool :=
  parts ← url_parts (scheme_end uri) uri;
  let '(netloc, path, query, fragment) := parts in
  Ok (String.eqb (url_scheme uri) "s3" && String.eqb netloc (rd_bucket self) && String.eqb path ("/" +:+ name)
      && String.eqb query "" && String.eqb fragment "").

(** What the client answers for an object: to [get_object], to [response.read]
    (at a position of the stream, for an amount), and the readings of
    [monotonic].  The store gives these for a bucket, an object name and the
    [length] asked for. *)
Inductive read_answer := ReadBytes (chunk : bytes) | ReadOther | ReadRaises.

Record object_answers := MkAnswers {
  object_found : bool; read_answers : Z -> Z -> read_answer; monotonic : nat -> float }.

Definition object_store : Type := string -> string -> Z -> object_answers.

Definition read_failed {A} : result A := Raise RemoteRecordingUnavailableError "remote-recording-read-failed".

(** The loop of [_read_object]; [n] reads were made.  Every read adds a byte, so
    the bound of the payload is fuel enough. *)
Fixpoint read_loop (self : MinioRecordingReader) (a : object_answers) (deadline : float)
    (fuel n : nat) (payload : bytes) : result bytes :=
  match fuel with
  | O => Raise AssertionError "fuel"
  | S fuel =>
      if rd_max_bytes self <? len payload then Ok payload
      else if fleb deadline (monotonic a (S n))
      then Raise RemoteRecordingTimeoutError "remote-recording-read-timeout"
      else
        let amount := Z.min (64 * 1024) (rd_max_bytes self + 1 - len payload) in
        match read_answers a (len payload) amount with
        | ReadBytes [] => Ok payload
        | ReadBytes chunk => read_loop self a deadline fuel (S n) (payload ++ chunk)
        | ReadOther | ReadRaises => read_failed
        end
  end.

Definition is_wav (payload : bytes) : bool :=
  (12 <=? len payload) && bool_decide (take 4 payload = ascii_bytes "RIFF")
  && bool_decide (take 4 (drop 8 payload) = ascii_bytes "WAVE").

Definition _read_object (self : MinioRecordingReader) (store : object_store) (name : string) : result bytes :=
  let a := store (rd_bucket self) name (rd_max_bytes self + 1) in
  if object_found a then
    let deadline := fadd (monotonic a 0) (rd_timeout_seconds self) in
    payload ← read_loop self a deadline (Z.to_nat (rd_max_bytes self + 2)) 0 [];
    _ ← guard_else (len payload <=? rd_max_bytes self) RemoteRecordingTooLargeError "remote-recording-too-large";
    _ ← guard_else (is_wav payload) RemoteRecordingInvalidContentError "remote-recording-invalid-content";
    Ok payload
  else read_failed.

(** [finally: self._read_slots.release()]. *)
Definition releasing {A} (m : st Z A) : st Z A := fun s => let '(r, s') := m s in (r, s' + 1).

(** [read_wav]; the state is the number of free read slots. *)
Definition read_wav (self : MinioRecordingReader) (store : object_store) (uri run_id stage : string)
    : st Z bytes :=
  _ ← lift (_validate_object_segment run_id "run_id");
  _ ← lift (_validate_object_segment stage "stage");
  let name := object_name (rd_prefix self) run_id stage in
  same ← lift (identified self uri name);
  if negb same then throw RemoteRecordingIdentityError "remote-recording-identity-mismatch"
  else
    free ← get_state;
    if free <=? 0 then throw RemoteRecordingBusyError "remote-recording-reader-busy"
    else
      _ ← put_state (free - 1);
      releasing (lift (_read_object self store name)).
End urls.

(** ** Lemmas: names *)

Lemma segment_chars value : object_segment value = true ->
  chars value <> [] /\ forallb is_segment_char (chars value) = true.
Proof.
  unfold object_segment. destruct (chars value) as [|c l]; [done|]. intros [[Hc Hl]%andb_true_iff _]%andb_true_iff.
  split; [done|]. cbn [forallb]. rewrite Hl. unfold is_segment_char. by rewrite Hc.
Qed.

Lemma segment_no_slash l : forallb is_segment_char l = true -> "/"%char ∉ l.
Proof. intros H Hin. rewrite forallb_forall in H. apply list_elem_of_In, H in Hin. done. Qed.

Lemma wav_segment stage : object_segment stage = true -> forallb is_segment_char (chars (stage +:+ ".wav")) = true.
Proof. intros [_ H]%segment_chars. by rewrite chars_append, forallb_app, H. Qed.

Lemma segment_nonempty value : object_segment value = true -> String.eqb value "" = false.
Proof. intros [H _]%segment_chars. by destruct value. Qed.

(** The name of an object, by its characters. *)
Lemma object_name_chars prefix run_id stage : object_segment run_id = true -> object_segment stage = true ->
  chars (object_name prefix run_id stage)
  = (if String.eqb prefix "" then [] else chars prefix ++ ["/"%char])
    ++ chars run_id ++ "/"%char :: chars (stage +:+ ".wav").
Proof.
  intros Hr Hs. unfold object_name, filterb. rewrite chars_str. cbn [List.filter].
  rewrite (segment_nonempty _ Hr).
  assert (String.eqb (stage +:+ ".wav") "" = false) as -> by (destruct (segment_chars _ Hs) as [Hne _]; by destruct stage).
  destruct (String.eqb prefix ""); cbn [negb map join_char]; [done|]. by rewrite <- app_assoc.
Qed.

(** A run and a stage have an object of their own. *)
Lemma object_name_inj prefix r1 s1 r2 s2 :
  object_segment r1 = true -> object_segment s1 = true -> object_segment r2 = true -> object_segment s2 = true ->
  object_name prefix r1 s1 = object_name prefix r2 s2 -> r1 = r2 /\ s1 = s2.
Proof.
  intros Hr1 Hs1 Hr2 Hs2 H%(f_equal chars). rewrite !object_name_chars in H by done.
  apply app_inv_head in H.
  assert (split_char "/" (chars r1 ++ "/"%char :: chars (s1 +:+ ".wav"))
        = split_char "/" (chars r2 ++ "/"%char :: chars (s2 +:+ ".wav"))) as Hsp by by rewrite H.
  rewrite !split_char_app, !split_char_notin in Hsp
    by (apply segment_no_slash; first [by apply wav_segment | by apply segment_chars]).
  injection Hsp as Er Es. split; [by rewrite <- (str_chars r1), <- (str_chars r2), Er|].
  rewrite !chars_append in Es. apply app_inv_tail in Es. by rewrite <- (str_chars s1), <- (str_chars s2), Es.
Qed.

(** Characters of the URIs the sink makes. *)
Definition url_plain (c : Ascii.ascii) : bool := is_segment_char c || Ascii.eqb c "/".

Lemma url_plain_facts c : url_plain c = true ->
  negb (char_in [chr 9; chr 10; chr 13] c) && negb (code c <=? 32) && is_ascii_char c
  && negb (char_in ["["; "]"; "?"; "#"; ":"]%char c) = true.
Proof.
  intros Hc. pose proof (ascii_cases (fun c => implb (url_plain c)
    (negb (char_in [chr 9; chr 10; chr 13] c) && negb (code c <=? 32) && is_ascii_char c
     && negb (char_in ["["; "]"; "?"; "#"; ":"]%char c))) eq_refl c) as P. cbv beta in P. by rewrite Hc in P.
Qed.

Lemma until_from_none stop l : forallb (fun c => negb (stop c)) l = true -> until stop l = l /\ from stop l = [].
Proof.
  induction l as [|c l IH]; [done|]. cbn. intros [Hc%negb_true_iff Hl]%andb_true_iff. rewrite Hc.
  apply IH in Hl as [-> ->]. done.
Qed.

Lemma until_app stop l c rest : forallb (fun c => negb (stop c)) l = true -> stop c = true ->
  until stop (l ++ c :: rest) = l /\ from stop (l ++ c :: rest) = c :: rest.
Proof.
  intros Hl Hc. induction l as [|d l IH]; cbn; [by rewrite Hc|].
  cbn in Hl. apply andb_true_iff in Hl as [Hd%negb_true_iff Hl]. rewrite Hd. destruct (IH Hl) as [-> ->]. done.
Qed.

Lemma bucket_segment bucket : bucket_name bucket = true -> forallb is_segment_char (chars bucket) = true.
Proof.
  unfold bucket_name. destruct (chars bucket) as [|first rest] eqn:E; [done|].
  destruct (rev rest) as [|last middle] eqn:Er; [done|].
  assert (rest = rev middle ++ [last]) as -> by (by rewrite <- (rev_involutive rest), Er).
  intros [[[[Hf Hl]%andb_true_iff Hm]%andb_true_iff _]%andb_true_iff _]%andb_true_iff.
  assert (forall c, is_lower_alnum c || char_in ["."; "-"]%char c = true -> is_segment_char c = true) as Hc.
  { intros c Hc. pose proof (ascii_cases (fun c => implb (is_lower_alnum c || char_in ["."; "-"]%char c)
      (is_segment_char c)) eq_refl c) as P. cbv beta in P. by rewrite Hc in P. }
  cbn [forallb]. rewrite forallb_app, forallb_rev. cbn [forallb].
  rewrite (Hc first) by (by rewrite Hf). rewrite (Hc last) by (by rewrite Hl). rewrite andb_true_r, andb_true_l.
  revert Hm. by apply forallb_weaken.
Qed.

Lemma segment_plain l : forallb is_segment_char l = true -> forallb url_plain l = true.
Proof. apply forallb_weaken. intros c Hc. unfold url_plain. by rewrite Hc. Qed.

Lemma join_plain parts : Forall (fun l => forallb url_plain l = true) parts ->
  forallb url_plain (join_char "/" parts) = true.
Proof.
  induction parts as [|l [|l' parts] IH]; intros H; [done|by apply Forall_cons in H as [? _]|].
  apply Forall_cons in H as [Hl H]. cbn [join_char] in *. rewrite forallb_app, Hl. cbn [forallb andb]. by rewrite IH.
Qed.

Lemma prefix_plain prefix q : _validate_prefix prefix = Ok q -> forallb url_plain (chars q) = true.
Proof.
  unfold _validate_prefix. destruct (strip_by _ _) as [|c l] eqn:El; [by intros [= <-]|]. rewrite <- El in *. clear El.
  intros (u & Hf & [= <-])%bind_ok_inv. rewrite chars_str, <- (join_split_char "/" (strip_by _ _)). apply join_plain.
  revert Hf. generalize (split_char "/" (strip_by (Ascii.eqb "/") (chars prefix))). clear. intros parts.
  generalize tt at 1 as v. induction parts as [|l parts IH]; intros v Hf; [constructor|].
  cbn [foldM_res] in Hf. apply bind_ok_inv in Hf as (v' & Hv & Hf). constructor; [|by eapply IH].
  unfold _validate_object_segment in Hv. apply guard_else_ok, segment_chars in Hv as [_ Hv].
  rewrite chars_str in Hv. by apply segment_plain.
Qed.

Lemma object_name_plain prefix run_id stage : forallb url_plain (chars prefix) = true ->
  object_segment run_id = true -> object_segment stage = true ->
  forallb url_plain (chars (object_name prefix run_id stage)) = true.
Proof.
  intros Hp Hr Hs. rewrite object_name_chars by done. rewrite !forallb_app. cbn [forallb].
  rewrite (segment_plain (chars run_id)) by by apply segment_chars.
  rewrite (segment_plain (chars (stage +:+ ".wav"))) by by apply wav_segment.
  destruct (String.eqb prefix ""); [done|]. by rewrite forallb_app, Hp.
Qed.

(** The URI, as urllib reads it (without leading blanks and without tabs and
    line ends), is [s3://bucket/name], the scheme in any case; an empty query or
    fragment may follow. *)
Definition names_object (uri bucket name : string) : Prop := exists scheme query fragment,
  url_text uri = chars scheme ++ chars "://" ++ chars bucket ++ chars "/" ++ chars name ++ chars query ++ chars fragment
  /\ lower scheme = "s3" /\ query ∈ [""; "?"] /\ fragment ∈ [""; "#"].

Lemma until_from stop l : until stop l ++ from stop l = l.
Proof. induction l as [|c l IH]; [done|]. cbn. destruct (stop c); [done|]. cbn. by rewrite IH. Qed.

Lemma from_empty c l : str (drop 1 (from (Ascii.eqb c) l)) = "" -> from (Ascii.eqb c) l = [] \/ from (Ascii.eqb c) l = [c].
Proof.
  induction l as [|d l IH]; [by left|]. cbn. destruct (Ascii.eqb_spec c d) as [<-|]; [|apply IH]. cbn. rewrite drop_0.
  intros E%(f_equal chars). rewrite chars_str in E. cbn in E. subst. by right.
Qed.

Lemma prefix_two a b l : prefix_of [a; b] l = true -> l = a :: b :: drop 2 l.
Proof.
  destruct l as [|x [|y l]]; cbn; try done; [by rewrite andb_false_r|]. rewrite andb_true_r, drop_0.
  by intros [->%Ascii.eqb_eq ->%Ascii.eqb_eq]%andb_true_iff.
Qed.

Lemma lower_two scheme : lower (str scheme) = "s3" -> exists a b, scheme = [a; b].
Proof.
  unfold lower. intros E%(f_equal chars). rewrite !chars_str in E. destruct scheme as [|a [|b [|c l]]]; try done. by exists a, b.
Qed.

Lemma url_scheme_text uri : url_scheme uri = "s3" -> exists a b, lower (str [a; b]) = "s3" /\ url_text uri = [a; b] ++ ":"%char :: drop 3 (url_text uri).
Proof.
  unfold url_scheme. fold (url_text uri). pose proof (join_split_char ":" (url_text uri)) as Hj.
  destruct (split_char ":" (url_text uri)) as [|[|first scheme] [|part parts]]; try done.
  destruct (_ && _); [|done]. intros Hl. destruct (lower_two _ Hl) as (a & b & E). rewrite E in *. exists a, b. split; [done|].
  rewrite <- Hj. reflexivity.
Qed.

Lemma cut_path rest path : str (until (Ascii.eqb "?") (until (Ascii.eqb "#") rest)) = path ->
  str (drop 1 (from (Ascii.eqb "?") (until (Ascii.eqb "#") rest))) = "" -> str (drop 1 (from (Ascii.eqb "#") rest)) = "" ->
  exists query fragment, query ∈ [""; "?"] /\ fragment ∈ [""; "#"] /\ rest = chars path ++ chars query ++ chars fragment.
Proof.
  intros <- Hq Hf. set (query := from (Ascii.eqb "?") (until (Ascii.eqb "#") rest)) in *. set (fragment := from (Ascii.eqb "#") rest) in *.
  exists (str query), (str fragment). split_and!.
  - destruct (from_empty "?" _ Hq) as [E|E]; unfold query; rewrite E; [left|right; left].
  - destruct (from_empty "#" _ Hf) as [E|E]; unfold fragment; rewrite E; [left|right; left].
  - rewrite !chars_str. rewrite app_assoc. unfold query, fragment. by rewrite !until_from.
Qed.

Lemma url_parts_spec netloc_check colon uri netloc path : url_parts netloc_check colon uri = Ok (netloc, path, "", "") -> netloc <> "" ->
  exists query fragment, query ∈ [""; "?"] /\ fragment ∈ [""; "#"]
    /\ drop colon (url_text uri) = chars "//" ++ chars netloc ++ chars path ++ chars query ++ chars fragment.
Proof.
  unfold url_parts. generalize (drop colon (url_text uri)). intros rest. cbv zeta.
  destruct (prefix_of ["/"; "/"]%char rest) eqn:Hp; intros H Hn; apply bind_ok_inv in H as (_ & _ & [= <- Hpath Hq Hf]); [|done].
  destruct (cut_path _ _ Hpath Hq Hf) as (query & fragment & H1 & H2 & E). exists query, fragment. split_and!; [done|done|].
  rewrite (prefix_two _ _ _ Hp) at 1. rewrite chars_str, <- E, until_from. done.
Qed.

Lemma identified_names netloc_check self uri name : rd_bucket self <> "" ->
  identified netloc_check self uri name = Ok true -> names_object uri (rd_bucket self) name.
Proof.
  intros Hb H. unfold identified in H. apply bind_ok_inv in H as ([[[netloc path] query] fragment] & Hparts & H).
  injection H as H. rewrite !andb_true_iff, !String.eqb_eq in H. destruct H as [[[[Hs ->] ->] ->] ->].
  destruct (url_scheme_text uri Hs) as (a & b & Hl & Ht). unfold scheme_end in Hparts. rewrite Hs in Hparts. cbn [String.length] in Hparts.
  destruct (url_parts_spec _ _ _ _ _ Hparts Hb) as (query & fragment & Hq & Hf & E).
  exists (str [a; b]), query, fragment. split_and!; [|done..]. rewrite Ht, E, chars_str. by rewrite (chars_append "/" name), <- !app_assoc.
Qed.

(** The characters of a bucket and of an object name end no part of a URL. *)
Lemma segment_stops l : forallb is_segment_char l = true ->
  forallb (fun c => negb (char_in ["/"; "?"; "#"]%char c)) l = true
  /\ existsb (fun c => negb (is_ascii_char c) || char_in ["["; "]"]%char c) l = false.
Proof.
  intros Hl. pose proof (ascii_cases (fun c => implb (is_segment_char c) (negb (char_in ["/"; "?"; "#"]%char c)
    && negb (negb (is_ascii_char c) || char_in ["["; "]"]%char c))) eq_refl) as P. cbv beta in P. split.
  - revert Hl. apply forallb_weaken. intros c Hc. specialize (P c). rewrite Hc in P. by apply andb_true_iff in P as [P _].
  - apply not_true_is_false. intros (c & Hin & Hc)%existsb_exists. rewrite forallb_forall in Hl. specialize (P c).
    rewrite (Hl c Hin), Hc in P. by rewrite andb_false_r in P.
Qed.

Lemma plain_stops d l : char_in ["?"; "#"]%char d = true -> forallb url_plain l = true ->
  forallb (fun c => negb (Ascii.eqb d c)) ("/"%char :: l) = true.
Proof.
  intros Hd Hn. cbn [forallb]. apply andb_true_iff. split; [by destruct d as [[] [] [] [] [] [] [] []]|].
  revert Hn. apply forallb_weaken. intros c Hc%url_plain_facts. apply andb_true_iff in Hc as [_ Hc].
  apply negb_true_iff. apply not_true_is_false. intros <-%Ascii.eqb_eq. by destruct d as [[] [] [] [] [] [] [] []].
Qed.

Lemma plain_path name query fragment : forallb url_plain (chars name) = true -> query ∈ [""; "?"] -> fragment ∈ [""; "#"] ->
  let rest := chars "/" ++ chars name ++ chars query ++ chars fragment in
  str (until (Ascii.eqb "?") (until (Ascii.eqb "#") rest)) = "/" +:+ name
  /\ str (drop 1 (from (Ascii.eqb "?") (until (Ascii.eqb "#") rest))) = "" /\ str (drop 1 (from (Ascii.eqb "#") rest)) = "".
Proof.
  intros Hn Hq Hf. cbv zeta. pose proof (plain_stops "?" _ eq_refl Hn) as Hqs. pose proof (plain_stops "#" _ eq_refl Hn) as Hfs.
  assert (until (Ascii.eqb "#") (chars "/" ++ chars name ++ chars query ++ chars fragment) = ("/"%char :: chars name) ++ chars query
    /\ str (drop 1 (from (Ascii.eqb "#") (chars "/" ++ chars name ++ chars query ++ chars fragment))) = "") as [-> ->].
  { assert (forallb (fun c => negb (Ascii.eqb "#" c)) (("/"%char :: chars name) ++ chars query) = true) as Hfq.
    { rewrite forallb_app, Hfs. by apply elem_of_cons in Hq as [->|[->|?%elem_of_nil]%elem_of_cons]. }
    change (chars "/" ++ chars name ++ chars query ++ chars fragment) with ("/"%char :: (chars name ++ chars query ++ chars fragment)).
    rewrite app_comm_cons, app_assoc. apply elem_of_cons in Hf as [->|[->|?%elem_of_nil]%elem_of_cons]; [| |done].
    - change (chars "") with (@nil Ascii.ascii). rewrite app_nil_r. by destruct (until_from_none _ _ Hfq) as [-> ->].
    - change (chars "#") with ["#"%char]. by destruct (until_app (Ascii.eqb "#") _ "#"%char [] Hfq eq_refl) as [-> ->]. }
  assert (str ("/"%char :: chars name) = "/" +:+ name) as E by (by rewrite <- (str_chars (_ +:+ _)), chars_append).
  apply elem_of_cons in Hq as [->|[->|?%elem_of_nil]%elem_of_cons]; [| |done].
  - change (chars "") with (@nil Ascii.ascii). rewrite app_nil_r. by destruct (until_from_none _ _ Hqs) as [-> ->].
  - change (chars "?") with ["?"%char]. by destruct (until_app (Ascii.eqb "?") _ "?"%char [] Hqs eq_refl) as [-> ->].
Qed.

Lemma scheme_s3 uri scheme rest : url_text uri = chars scheme ++ ":"%char :: rest -> lower scheme = "s3" ->
  url_scheme uri = "s3" /\ drop 3 (url_text uri) = rest.
Proof.
  intros Hu Hl. rewrite <- (str_chars scheme) in Hl. destruct (lower_two _ Hl) as (a & b & E). rewrite E in Hu, Hl.
  assert (is_ascii_letter a && forallb is_scheme_char [a; b] = true /\ ":"%char ∉ [a; b]) as [Hab Hn].
  { pose proof (ascii_cases (fun a => implb (String.eqb (lower (str [a])) "s") (is_ascii_letter a && is_scheme_char a && negb (Ascii.eqb ":" a))) eq_refl a) as Pa.
    pose proof (ascii_cases (fun b => implb (String.eqb (lower (str [b])) "3") (is_scheme_char b && negb (Ascii.eqb ":" b))) eq_refl b) as Pb.
    cbv beta in Pa, Pb. unfold lower in Hl. apply (f_equal chars) in Hl. rewrite !chars_str in Hl. cbn in Hl. injection Hl as Ha Hb.
    assert (lower (str [a]) = "s" /\ lower (str [b]) = "3") as [Ea Eb] by (unfold lower; cbn; by rewrite Ha, Hb).
    rewrite Ea in Pa. rewrite Eb in Pb. change (String.eqb "s" "s") with true in Pa.
    change (String.eqb "3" "3") with true in Pb. cbn [implb] in Pa, Pb. rewrite !andb_true_iff, !negb_true_iff, !Ascii.eqb_neq in Pa, Pb.
    destruct Pa as [[P1 P2]%andb_true_iff P3], Pb as [P4 P5]. split; [cbn [forallb]; by rewrite P1, P2, P4|]. rewrite !not_elem_of_cons. by split_and!; [..|apply not_elem_of_nil]. }
  rewrite Hu. split; [|reflexivity]. unfold url_scheme. fold (url_text uri). rewrite Hu, split_char_app by done.
  destruct (split_char_cons ":" rest) as (part & parts & ->). by rewrite Hab.
Qed.

(** Exactly the URIs that name the object are accepted for it. *)
Lemma names_identified netloc_check self uri name : forallb is_segment_char (chars (rd_bucket self)) = true ->
  forallb url_plain (chars name) = true -> names_object uri (rd_bucket self) name ->
  identified netloc_check self uri name = Ok true.
Proof.
  intros Hb Hn (scheme & query & fragment & Hu & Hl & Hq & Hf).
  destruct (scheme_s3 uri scheme (chars "//" ++ chars (rd_bucket self) ++ chars "/" ++ chars name ++ chars query ++ chars fragment) Hu Hl)
    as [Hs Hd].
  unfold identified, scheme_end. rewrite Hs. cbn [String.length]. unfold url_parts. rewrite Hd. cbn [chars String.list_ascii_of_string app drop prefix_of].
  rewrite !Ascii.eqb_refl. cbn [andb]. rewrite !drop_0. destruct (segment_stops _ Hb) as [Hb1 Hb2].
  destruct (until_app (char_in ["/"; "?"; "#"]%char) (chars (rd_bucket self)) "/"%char (chars name ++ chars query ++ chars fragment) Hb1 eq_refl)
    as [-> ->]. rewrite Hb2. cbn [negb orb guard_else mbind result_bind].
  destruct (plain_path name query fragment Hn Hq Hf) as (E1 & E2 & E3). cbn [chars String.list_ascii_of_string app] in E1, E2, E3.
  rewrite E1, E2, E3, str_chars. by rewrite !String.eqb_refl.
Qed.

Lemma s3_uri_names bucket name : forallb is_segment_char (chars bucket) = true -> forallb url_plain (chars name) = true ->
  names_object (s3_uri bucket name) bucket name.
Proof.
  intros Hb Hn. exists "s3", "", "". split_and!; [|reflexivity|left|left]. unfold url_text, s3_uri.
  assert (chars ("s3://" +:+ bucket +:+ "/" +:+ name) = chars "s3" ++ chars "://" ++ chars bucket ++ chars "/" ++ chars name ++ chars "" ++ chars "") as ->
    by (rewrite !chars_append; change (chars "") with (@nil Ascii.ascii); by rewrite !app_nil_r).
  change (lstrip_by _ (chars "s3" ++ ?r)) with (chars "s3" ++ r). apply filterb_all. rewrite !forallb_app. apply segment_plain in Hb.
  rewrite !andb_true_iff. split_and!; try reflexivity; (eapply forallb_weaken; [|eassumption]); intros c Hc%url_plain_facts;
    by apply andb_true_iff in Hc as [[[Hc _]%andb_true_iff _]%andb_true_iff _].
Qed.

(** ** Lemmas: reading *)

(** The client delivers [content] from the position asked, at least one byte
    while there is one and at most the amount asked; no read takes too long. *)
Record serves (content : bytes) (self : MinioRecordingReader) (a : object_answers) : Prop := {
  serves_found : object_found a = true;
  serves_reads : forall pos amount, 0 <= pos -> 0 < amount -> exists k,
    read_answers a pos amount = ReadBytes (take k (drop (Z.to_nat pos) content))
    /\ (0 < k)%nat /\ Z.of_nat k <= amount;
  serves_in_time : forall n,
    fleb (fadd (monotonic a 0) (rd_timeout_seconds self)) (monotonic a (S n)) = false }.

Definition reader_error (c : exn_class) : Prop :=
  c = RemoteRecordingTimeoutError \/ c = RemoteRecordingUnavailableError
  \/ c = RemoteRecordingTooLargeError \/ c = RemoteRecordingInvalidContentError.

Lemma len_take {A} n (l : list A) : len (take n l) = Z.min (Z.of_nat n) (len l).
Proof. unfold len. rewrite length_take. lia. Qed.

Lemma read_loop_serves content self a : serves content self a -> 0 <= rd_max_bytes self ->
  forall fuel n p, (p <= length content)%nat -> Z.of_nat p <= rd_max_bytes self + 1 ->
  rd_max_bytes self + 1 - Z.of_nat p < Z.of_nat fuel ->
  read_loop self a (fadd (monotonic a 0) (rd_timeout_seconds self)) fuel n (take p content)
  = Ok (take (Z.to_nat (rd_max_bytes self + 1)) content).
Proof.
  intros [_ Hreads Htime] Hmax. induction fuel as [|fuel IH]; intros n p Hp Hm Hf; [lia|]. cbn [read_loop].
  assert (len (take p content) = Z.of_nat p) as Hlen by (rewrite len_take; unfold len; lia). rewrite Hlen.
  destruct (Z.ltb_spec (rd_max_bytes self) (Z.of_nat p)) as [Hgt|Hle].
  { f_equal. f_equal. lia. }
  rewrite Htime.
  destruct (Hreads (Z.of_nat p) (Z.min (64 * 1024) (rd_max_bytes self + 1 - Z.of_nat p))) as (k & -> & Hk & Hka); [lia|lia|].
  rewrite Nat2Z.id. destruct (take k (drop p content)) as [|b chunk] eqn:Ec.
  - apply (f_equal length) in Ec. rewrite length_take, length_drop in Ec. cbn in Ec.
    f_equal. rewrite !take_ge; [done|unfold len in *; lia|lia].
  - rewrite <- Ec.
    assert (take p content ++ take k (drop p content) = take (p + k) content) as -> by (by rewrite take_take_drop).
    destruct (decide (p + k <= length content)%nat) as [Hpk|Hpk].
    + apply IH; [done|lia|lia].
    + assert (take (p + k) content = take (length content) content) as -> by (by rewrite !take_ge by lia).
      apply IH; [lia| |]; [apply (f_equal length) in Ec; rewrite length_take, length_drop in Ec; cbn in Ec; lia|].
      apply (f_equal length) in Ec; rewrite length_take, length_drop in Ec; cbn in Ec; lia.
Qed.

(** The bytes the client delivered from the start of the stream, each read
    asking for at most 64 KiB, and all of them when a read brought no more. *)
Inductive delivered (a : object_answers) : bytes -> Prop :=
| delivered_none : delivered a []
| delivered_more payload amount chunk : delivered a payload -> 0 < amount <= 64 * 1024 ->
    read_answers a (len payload) amount = ReadBytes chunk -> delivered a (payload ++ chunk).

Definition whole (a : object_answers) (payload : bytes) : Prop :=
  object_found a = true /\ delivered a payload
  /\ exists amount, 0 < amount <= 64 * 1024 /\ read_answers a (len payload) amount = ReadBytes [].

Lemma read_loop_result self a deadline fuel : forall n payload, (0 < fuel)%nat -> object_found a = true -> delivered a payload ->
  rd_max_bytes self + 1 - len payload < Z.of_nat fuel ->
  match read_loop self a deadline fuel n payload with
  | Ok payload => rd_max_bytes self < len payload \/ whole a payload
  | Raise c _ => c = RemoteRecordingTimeoutError \/ c = RemoteRecordingUnavailableError
  end.
Proof.
  induction fuel as [|fuel IH]; intros n payload H0 Hfound Hd Hf; [lia|]. cbn [read_loop].
  destruct (Z.ltb_spec (rd_max_bytes self) (len payload)); [by left|]. destruct (fleb _ _); [by left|].
  destruct (read_answers _ _ _) as [[|b chunk]| |] eqn:Er; [|  |by right|by right].
  - right. split; [done|]. split; [done|]. eexists. split; [|exact Er]. lia.
  - apply IH; [lia|done| |].
    + eapply delivered_more; [done| |exact Er]. lia.
    + rewrite len_app, len_cons. pose proof (len_nonneg chunk). lia.
Qed.

Lemma read_object_result self store name : 0 <= rd_max_bytes self ->
  match _read_object self store name with
  | Ok payload => len payload <= rd_max_bytes self /\ is_wav payload = true
                  /\ whole (store (rd_bucket self) name (rd_max_bytes self + 1)) payload
  | Raise c _ => reader_error c
  end.
Proof.
  intros Hm. unfold _read_object, reader_error. set (a := store _ _ _). destruct (object_found a) eqn:Hfound; [|cbn; auto].
  pose proof (read_loop_result self a (fadd (monotonic a 0) (rd_timeout_seconds self))
    (Z.to_nat (rd_max_bytes self + 2)) 0 [] ltac:(lia) Hfound (delivered_none a) ltac:(unfold len; cbn; lia)) as Hr.
  destruct (read_loop _ _ _ _ _ _) as [payload|c e]; cbn [mbind result_bind]; [|tauto].
  destruct (Z.leb_spec (len payload) (rd_max_bytes self)); cbn [guard_else mbind result_bind]; [|auto].
  destruct (is_wav payload) eqn:Ew; cbn [guard_else mbind result_bind]; [|tauto]. split_and!; [done|done|]. by destruct Hr; [lia|].
Qed.

Lemma read_object_serves content self store name : 0 <= rd_max_bytes self ->
  serves content self (store (rd_bucket self) name (rd_max_bytes self + 1)) ->
  _read_object self store name
  = if len content <=? rd_max_bytes self
    then if is_wav content then Ok content else Raise RemoteRecordingInvalidContentError "remote-recording-invalid-content"
    else Raise RemoteRecordingTooLargeError "remote-recording-too-large".
Proof.
  intros Hm Hs. unfold _read_object. rewrite (serves_found _ _ _ Hs).
  rewrite (read_loop_serves content self _ Hs Hm _ _ 0) by lia. cbn [mbind result_bind].
  rewrite len_take. destruct (Z.leb_spec (len content) (rd_max_bytes self)) as [Hle|Hgt].
  - rewrite take_ge by (unfold len in *; lia).
    replace (_ <=? _) with true by (symmetry; apply Z.leb_le; lia). cbn. by destruct (is_wav content).
  - replace (_ <=? _) with false by (symmetry; apply Z.leb_gt; lia). done.
Qed.

(** What [wave] writes is a WAV object for the reader. *)
Lemma wave_file_is_wav channels width rate frames content :
  wave_file channels width rate frames = Ok content -> is_wav content = true.
Proof.
  unfold wave_file. intros H. simpl_res. unfold is_wav.
  cbn [ascii_bytes chars String.list_ascii_of_string map app le32_bytes le16 take drop]. 
  rewrite !bool_decide_true by reflexivity. rewrite !len_cons, !andb_true_r. apply Z.leb_le.
  pose proof (len_nonneg frames). lia.
Qed.

Lemma make_reader_ok bucket prefix max_bytes timeout n self :
  make_reader bucket prefix max_bytes timeout n = Ok self ->
  rd_bucket self = bucket /\ _validate_prefix prefix = Ok (rd_prefix self) /\ rd_max_bytes self = max_bytes
  /\ 44 <= max_bytes /\ 0 < n /\ max_bytes * n <= 128 * 1024 * 1024 /\ bucket_name bucket = true.
Proof.
  unfold make_reader, _validate_bucket. intros H. simpl_res. bool_to_prop. cbn. tauto.
Qed.

(** The object a run and a stage name, and what the store gives for it. *)
Definition object_of (self : MinioRecordingReader) (run_id stage : string) : string := object_name (rd_prefix self) run_id stage.
Definition object_at (store : object_store) (self : MinioRecordingReader) (run_id stage : string) : object_answers :=
  store (rd_bucket self) (object_of self run_id stage) (rd_max_bytes self + 1).

(** What [read_wav] answers may come from. *)
Record wav_read (netloc_check : list Ascii.ascii -> bool) (store : object_store) (self : MinioRecordingReader) (free : Z)
    (uri run_id stage : string) (payload : bytes) : Prop := {
  wr_free : 0 < free;
  wr_segments : object_segment run_id = true /\ object_segment stage = true;
  wr_identified : identified netloc_check self uri (object_of self run_id stage) = Ok true;
  wr_names : names_object uri (rd_bucket self) (object_of self run_id stage);
  wr_whole : whole (object_at store self run_id stage) payload;
  wr_wav : is_wav payload = true;
  wr_size : len payload <= rd_max_bytes self }.

(** Why a URI cannot be read for a run and a stage: their names, or its network
    location. *)
Definition unreadable_name (netloc_check : list Ascii.ascii -> bool) (uri run_id stage : string) : Prop :=
  object_segment run_id = false \/ object_segment stage = false
  \/ exists colon, is_ok (url_parts netloc_check colon uri) = false.

Lemma identified_raises netloc_check self uri name c e : identified netloc_check self uri name = Raise c e ->
  c = ValueError /\ exists colon, is_ok (url_parts netloc_check colon uri) = false.
Proof.
  unfold identified. intros H. destruct (url_parts netloc_check (scheme_end uri) uri) as [[[[n p] q] f]|c' e'] eqn:E; [done|].
  injection H as <- <-. split; [|exists (scheme_end uri); by rewrite E]. unfold url_parts in E.
  cbv zeta in E. destruct (_ || netloc_check _); cbn in E; [done|]. by injection E as <- _.
Qed.

(** A reader as [make_reader] gives it. *)
Definition reader_ok (self : MinioRecordingReader) : Prop :=
  0 <= rd_max_bytes self /\ forallb is_segment_char (chars (rd_bucket self)) = true /\ rd_bucket self <> ""
  /\ forallb url_plain (chars (rd_prefix self)) = true.

Lemma make_reader_reader_ok bucket prefix max_bytes timeout n self : make_reader bucket prefix max_bytes timeout n = Ok self -> reader_ok self.
Proof.
  intros (Hb & Hp & Hmax & Hm & _ & _ & Hbn)%make_reader_ok. unfold reader_ok. subst bucket. split_and!; [lia|by apply bucket_segment| |by eapply prefix_plain].
  intros E. by rewrite E in Hbn.
Qed.

Lemma read_wav_result netloc_check store self uri run_id stage free : reader_ok self ->
  match read_wav netloc_check self store uri run_id stage free with
  | (Ok payload, free') => free' = free /\ wav_read netloc_check store self free uri run_id stage payload
  | (Raise c _, free') => free' = free
      /\ (c = ValueError /\ unreadable_name netloc_check uri run_id stage
          \/ c = RemoteRecordingIdentityError /\ ~ names_object uri (rd_bucket self) (object_of self run_id stage)
          \/ (c = RemoteRecordingBusyError /\ free <= 0) \/ reader_error c)
  end.
Proof.
  intros (Hm & Hb & Hne & Hp). unfold read_wav, lift, mbind, st_bind, _validate_object_segment, throw, get_state, put_state, releasing.
  unfold unreadable_name. destruct (object_segment run_id) eqn:Hr; cbn [guard_else]; [|auto 10].
  destruct (object_segment stage) eqn:Hs; cbn [guard_else]; [|auto 10]. cbv zeta. fold (object_of self run_id stage).
  pose proof (names_identified netloc_check self uri (object_of self run_id stage) Hb (object_name_plain _ _ _ Hp Hr Hs)) as Hnames.
  destruct (identified _ _ _ _) as [same|c e] eqn:Hi; [|apply identified_raises in Hi as [-> Hi]; auto 10].
  destruct same; cbn [negb].
  2: { split; [done|]. right; left. split; [done|]. intros Hn. by specialize (Hnames Hn). }
  destruct (Z.leb_spec free 0); [auto 10|].
  pose proof (read_object_result self store (object_of self run_id stage) Hm) as Ho.
  destruct (_read_object self store _) as [payload|c e]; (split; [lia|]); [|auto 10]. destruct Ho as (H1 & H2 & H3).
  constructor; try done. by eapply identified_names.
Qed.

(** A URI that names the object of the run and the stage is read to the end of
    that object. *)
Lemma read_wav_serves netloc_check store self uri run_id stage free content : reader_ok self ->
  object_segment run_id = true -> object_segment stage = true -> names_object uri (rd_bucket self) (object_of self run_id stage) ->
  0 < free -> serves content self (object_at store self run_id stage) ->
  read_wav netloc_check self store uri run_id stage free
  = (if len content <=? rd_max_bytes self
     then if is_wav content then Ok content else Raise RemoteRecordingInvalidContentError "remote-recording-invalid-content"
     else Raise RemoteRecordingTooLargeError "remote-recording-too-large", free).
Proof.
  intros (Hm & Hb & Hne & Hp) Hr Hs Hn Hf Hserves. unfold read_wav, lift, mbind, st_bind, _validate_object_segment, get_state, put_state, releasing.
  rewrite Hr, Hs. cbn [guard_else]. cbv zeta. fold (object_of self run_id stage).
  rewrite (names_identified netloc_check self uri (object_of self run_id stage) Hb (object_name_plain _ _ _ Hp Hr Hs) Hn). cbn [negb].
  replace (free <=? 0) with false by (symmetry; apply Z.leb_gt; lia). rewrite (read_object_serves content) by done. f_equal. lia.
Qed.


(** A recording written by the sink is read back: with the same bucket and
    prefix, the reader accepts the URI of the artifact for its run and stage,
    and for a store that delivers the object in time it answers the very bytes
    the sink stored, or refuses them when they exceed the byte limit. *)
Theorem stored_recording_is_read_back netloc_check bucket prefix sink max_bytes timeout slots self
    answer run_id stage audio_format duration_ms s artifact s' content store free :
  make_minio_sink bucket prefix = Ok sink -> make_reader bucket prefix max_bytes timeout slots = Ok self ->
  minio_write_stage_wav sink answer run_id stage audio_format duration_ms s = (Ok artifact, s') ->
  objects s' !! object_name (sink_prefix sink) run_id stage = Some content ->
  serves content self (object_at store self run_id stage) -> 0 < free ->
  read_wav netloc_check self store (rec_uri artifact) run_id stage free
  = (if len content <=? max_bytes then Ok content
     else Raise RemoteRecordingTooLargeError "remote-recording-too-large", free)
  /\ _write_silent_wav audio_format duration_ms = Ok content.
Proof.
  intros Hsink Hmade Hw Hc Hs Hf. pose proof (make_reader_reader_ok _ _ _ _ _ _ Hmade) as Hok.
  apply make_reader_ok in Hmade as (Hb & Hp & Hmax & Hm & _ & _ & Hbn).
  unfold make_minio_sink in Hsink. simpl_res. unfold minio_write_stage_wav, _validate_object_segment in Hw.
  cbn [sink_prefix sink_bucket] in *. simpl_st.
  match goal with E : _validate_prefix prefix = Ok ?q |- _ => rewrite Hp in E; injection E as <- end.
  match goal with E : guard_else (object_segment run_id) _ _ = _ |- _ => pose proof E as Hr%guard_else_ok end.
  match goal with E : guard_else (object_segment stage) _ _ = _ |- _ => pose proof E as Hst%guard_else_ok end.
  unfold put_object in *. destruct (put_error answer) as [[c e]|]; [done|].
  match goal with E : (Ok _, _) = (Ok _, _) |- _ => injection E as _ <- end.
  cbn [objects] in Hc. rewrite lookup_insert_eq in Hc. injection Hc as ->.
  match goal with E : _write_silent_wav _ _ = Ok content |- _ => rename E into Hwav end.
  split; [|done].
  assert (is_wav content = true) as Hcw.
  { unfold _write_silent_wav in Hwav. apply bind_ok_inv in Hwav as ([[[ch w] rt] fr] & _ & Hwav).
    by eapply wave_file_is_wav. }
  cbn [rec_uri]. rewrite (read_wav_serves _ _ _ _ _ _ _ content Hok Hr Hst); [by rewrite Hcw| |done|done].
  apply s3_uri_names; [by apply Hok|by apply object_name_plain; [eapply prefix_plain|..]].
Qed.

(** ** Example *)

Definition sample_reader : MinioRecordingReader := MkReader "voxbench-recordings" "demo/audio" 1000 (fz 5) 2.
Definition sample_sink : MinioRecordingSink := MkMinioSink "voxbench-recordings" "demo/audio".
Definition sample_format : jdict := [("encoding", JStr "mulaw"); ("rate", JInt 8000); ("channels", JInt 1)].

(** A store that delivers an object as asked, and a clock that stands still. *)
Definition prompt_store (content : bytes) : object_answers :=
  MkAnswers true (fun pos amount => ReadBytes (take (Z.to_nat amount) (drop (Z.to_nat pos) content))) (fun _ => fzero).

(** A store with one object. *)
Definition one_object (bucket name : string) (content : bytes) : object_store := fun b n _ =>
  if String.eqb b bucket && String.eqb n name then prompt_store content
  else MkAnswers false (fun _ _ => ReadRaises) (fun _ => fzero).

Lemma prompt_store_serves content : serves content sample_reader (prompt_store content).
Proof.
  constructor; [done| |by intros n; vm_compute]. intros pos amount Hp Ha. exists (Z.to_nat amount).
  split_and!; [done|lia|lia].
Qed.

Definition sample_content : bytes :=
  match _write_silent_wav sample_format (fz 20) with Ok content => content | _ => [] end.

Definition sample_store : object_store := one_object "voxbench-recordings" "demo/audio/run-1/vad.wav" sample_content.

Definition stored_sample : result RecordingArtifact * storage :=
  minio_write_stage_wav sample_sink (MkPut None None) "run-1" "vad" sample_format (fz 20) (MkStorage ∅ ∅).

Definition sample_artifact : RecordingArtifact :=
  MkRecording "vad" "s3://voxbench-recordings/demo/audio/run-1/vad.wav" sample_format (fz 20).

Lemma sample_names : make_minio_sink "voxbench-recordings" "/demo/audio/" = Ok sample_sink
  /\ make_reader "voxbench-recordings" "/demo/audio/" 1000 (fz 5) 2 = Ok sample_reader.
Proof. split; vm_compute; reflexivity. Qed.

Lemma sample_stored :
  minio_write_stage_wav sample_sink (MkPut None None) "run-1" "vad" sample_format (fz 20) (MkStorage ∅ ∅)
  = (Ok sample_artifact, snd stored_sample)
  /\ objects (snd stored_sample) !! object_name "demo/audio" "run-1" "vad" = Some sample_content
  /\ len sample_content = 204.
Proof. split; [|split]; vm_compute; reflexivity. Qed.

Lemma sample_object : object_at sample_store sample_reader "run-1" "vad" = prompt_store sample_content
  /\ sample_store "voxbench-recordings" "demo/audio/run-1/vad.wav" 1001 = prompt_store sample_content.
Proof. split; reflexivity. Qed.

Lemma stored_recording_is_read_back_witness :
  read_wav (fun _ => true) sample_reader sample_store (rec_uri sample_artifact) "run-1" "vad" 1 = (Ok sample_content, 1).
Proof.
  destruct sample_names as [H1 H2], sample_stored as (H3 & H4 & H5). pose proof (prompt_store_serves sample_content) as H6.
  rewrite <- (proj1 sample_object) in H6.
  destruct (stored_recording_is_read_back (fun _ => true) "voxbench-recordings" "/demo/audio/" sample_sink 1000
    (fz 5) 2 sample_reader (MkPut None None) "run-1" "vad" sample_format (fz 20) (MkStorage ∅ ∅) sample_artifact
    (snd stored_sample) sample_content sample_store 1 H1 H2 H3 H4 H6 eq_refl) as [E _].
  rewrite H5 in E. exact E.
Defined.

Lemma sample_wav_object : is_wav sample_content = true /\ names_object "S3://voxbench-recordings/demo/audio/run-1/vad.wav?"
    "voxbench-recordings" "demo/audio/run-1/vad.wav".
Proof.
  split; [vm_compute; reflexivity|]. exists "S3", "?", "". split_and!; [vm_compute; reflexivity|vm_compute; reflexivity| |left].
  right; left.
Qed.

