(* ===== verification/Wave.v ===== *)
(** * Reading wave files

    The part of [wave.open(path, "rb")] that reads the files this program
    writes: one format chunk of 16 bytes followed by the data.  What the module
    makes of any other layout is an argument. *)
From S2P Require Import Prelude Effects PyData Bytes SignalChecks RecordingStorage.

Open Scope Z_scope.

(** An unsigned little-endian integer. *)
Fixpoint le_value (l : bytes) : Z := match l with [] => 0 | b :: l => byte_val b + 256 * le_value l end.

(** The [n] bytes at an offset. *)
Definition field (n offset : nat) (data : bytes) : bytes := take n (drop offset data).
Definition number (n offset : nat) (data : bytes) : Z := le_value (field n offset data).

(** The header the [wave] module writes: sizes that fit, one PCM format chunk
    and one data chunk that ends the file. *)
Definition canonical (data : bytes) : bool :=
  (44 <=? len data) && bool_decide (field 4 0 data = ascii_bytes "RIFF") && (number 4 4 data =? len data - 8)
  && bool_decide (field 8 8 data = ascii_bytes "WAVEfmt ") && (number 4 16 data =? 16) && (number 2 20 data =? 1)
  && bool_decide (field 4 36 data = ascii_bytes "data") && (number 4 40 data =? len data - 44).

Section reader.
Context (other_layout : bytes -> result wav_file).

Definition read_wave (data : bytes) : result wav_file :=
  if negb (canonical data) then other_layout data
  else
    let channels := number 2 22 data in
    let sample_width := (number 2 34 data + 7) / 8 in
    if sample_width =? 0 then Raise WaveError "bad sample width"
    else if channels =? 0 then Raise WaveError "bad # of channels"
    else
      let frame_size := channels * sample_width in
      let frames := drop 44 data in
      let frame_count := len frames / frame_size in
      Ok (MkWav channels sample_width frame_count (number 4 24 data) (take (Z.to_nat (frame_count * frame_size)) frames)).
End reader.

(** ** Lemmas *)

Lemma le_value_16 v : 0 <= v < 65536 -> le_value (le16 v) = v.
Proof. intros Hv. unfold le16. cbn [le_value]. rewrite !byte_val_of. pose proof (Z.div_mod v 256).
  pose proof (Z.mod_pos_bound v 256). rewrite (Z.mod_small (v / 256)) by lia. lia.
Qed.

Lemma le_value_32 v : le32_ok v = true -> le_value (le32_bytes v) = v.
Proof.
  intros [Hl Hu%Z.ltb_lt]%andb_true_iff. apply Z.leb_le in Hl. unfold le32_bytes. cbn [le_value]. rewrite !byte_val_of.
  change 65536 with (256 * 256). change 16777216 with (256 * 256 * 256). rewrite <- !Z.div_div by lia.
  pose proof (Z.div_mod v 256). pose proof (Z.div_mod (v / 256) 256). pose proof (Z.div_mod (v / 256 / 256) 256).
  pose proof (Z.mod_pos_bound v 256). pose proof (Z.mod_pos_bound (v / 256) 256). pose proof (Z.mod_pos_bound (v / 256 / 256) 256).
  rewrite (Z.mod_small (v / 256 / 256 / 256)) by lia. lia.
Qed.

Lemma wave_file_ok channels width rate frames content : wave_file channels width rate frames = Ok content ->
  1 <= channels /\ channels < 65536 /\ channels * width < 65536 /\ le32_ok rate = true /\ le32_ok (36 + len frames) = true
  /\ content = (ascii_bytes "RIFF" ++ le32_bytes (36 + len frames) ++ ascii_bytes "WAVEfmt " ++ le32_bytes 16
      ++ le16 1 ++ le16 channels ++ le32_bytes rate ++ le32_bytes (channels * rate * width)
      ++ le16 (channels * width) ++ le16 (width * 8)
      ++ ascii_bytes "data" ++ le32_bytes (len frames) ++ frames).
Proof.
  unfold wave_file. destruct (1 <=? channels) eqn:E1; [|done]. destruct (0 <? rate); [|done]. cbn [guard_else mbind result_bind].
  destruct (_ && _) eqn:E; [|done]. intros [= <-]. repeat apply andb_true_iff in E as [E ?].
  split_and!; try done; first [by apply Z.leb_le|by apply Z.ltb_lt].
Qed.

Lemma wave_header channels width rate frames content : wave_file channels width rate frames = Ok content -> 1 <= width <= 4 ->
  canonical content = true /\ number 2 22 content = channels /\ number 2 34 content = width * 8 /\ number 4 24 content = rate
  /\ drop 44 content = frames.
Proof.
  intros (Hc1 & Hc2 & Hcw & Hr & Hl & ->)%wave_file_ok Hw.
  assert (forall v, exists a b c d, le32_bytes v = [a; b; c; d]) as H4 by (intros v; unfold le32_bytes; eauto).
  assert (forall v, exists a b, le16 v = [a; b]) as H2 by (intros v; unfold le16; eauto).
  assert (le32_ok (len frames) = true) as Hl'.
  { unfold le32_ok, len in *. apply andb_true_iff in Hl as [? ?%Z.ltb_lt]. apply andb_true_iff. split; [apply Z.leb_le|apply Z.ltb_lt]; lia. }
  pose proof (le_value_32 _ Hl) as V1. pose proof (le_value_32 _ Hl') as V2. pose proof (le_value_32 _ Hr) as V3.
  pose proof (le_value_16 channels ltac:(lia)) as V4. pose proof (le_value_16 (width * 8) ltac:(lia)) as V5.
  destruct (H4 (36 + len frames)) as (a1 & a2 & a3 & a4 & E1), (H4 (len frames)) as (b1 & b2 & b3 & b4 & E2),
    (H4 rate) as (c1 & c2 & c3 & c4 & E3), (H4 (channels * rate * width)) as (d1 & d2 & d3 & d4 & E4),
    (H2 channels) as (e1 & e2 & E5), (H2 (channels * width)) as (f1 & f2 & E6), (H2 (width * 8)) as (g1 & g2 & E7).
  rewrite E1 in V1. rewrite E2 in V2. rewrite E3 in V3. rewrite E5 in V4. rewrite E7 in V5.
  rewrite E1, E2, E3, E4, E5, E6, E7. clear E1 E2 E3 E4 E5 E6 E7.
  match goal with |- canonical ?l = _ /\ _ => assert (len l = 44 + len frames) as Hlen end.
  { unfold len. transitivity (Z.of_nat (44 + length frames)); [reflexivity|lia]. }
  unfold canonical, number, field. rewrite Hlen.
  split_and!; [|exact V4|exact V5|exact V3|reflexivity].
  rewrite !bool_decide_true by reflexivity. repeat (apply andb_true_intro; split); try reflexivity.
  - apply Z.leb_le. unfold len. lia.
  - apply Z.eqb_eq. etransitivity; [exact V1|]. lia.
  - apply Z.eqb_eq. etransitivity; [exact V2|]. lia.
Qed.

(** Frames of whole samples in all channels are read back with the parameters
    they were written with. *)
Lemma read_wave_file other channels width rate frames content : wave_file channels width rate frames = Ok content ->
  1 <= width <= 4 -> len frames mod (channels * width) = 0 ->
  read_wave other content = Ok (MkWav channels width (len frames / (channels * width)) rate frames).
Proof.
  intros Hf Hw Hm. pose proof (wave_file_ok _ _ _ _ _ Hf) as (Hc & _).
  destruct (wave_header _ _ _ _ _ Hf Hw) as (Hcan & Hch & Hbits & Hrate & Hdrop).
  unfold read_wave. rewrite Hcan, Hch, Hbits, Hrate, Hdrop. cbn [negb].
  replace ((width * 8 + 7) / 8) with width by (apply (Z.div_unique _ _ _ 7); lia).
  rewrite (proj2 (Z.eqb_neq width 0)), (proj2 (Z.eqb_neq channels 0)) by lia. do 2 f_equal.
  rewrite take_ge; [done|]. assert (len frames / (channels * width) * (channels * width) = len frames) as ->
    by (pose proof (Z.div_mod (len frames) (channels * width)); lia).
  unfold len. lia.
Qed.
