(* ===== verification/AmiRtcp.v ===== *)
(** * RTCP events of Asterisk

    [telephony/ami_rtcp.py]: the bounded reader of AMI messages, the conversion
    of an RTCP event to normalized statistics, and the collector that feeds
    them to an observer and flushes after each one.  The connection is the
    bytes it still has to deliver, after which it is closed or lost; the clock
    of an observation is an argument, as are the outcomes of the flushes.  A
    task that is cancelled while it waits is not modelled. *)
From S2P Require Import Prelude Effects Collections PyFloat PyData Bytes Observer Json SignalChecks PyUrl.
From Stdlib Require Import QArith.

Open Scope Z_scope.

Definition AMI_MAX_LINE_BYTES : Z := 8192.
Definition AMI_MAX_HEADERS : Z := 128.
Definition AMI_MAX_MESSAGE_BYTES : Z := 65536.
Definition AMI_MAX_REPORTS : Z := 32.

Abbreviation headers := (list (string * string)).

(** ** Reading *)

Definition newline : Byte.byte := byte_of 10.
Definition is_newline (b : Byte.byte) : bool := byte_val b =? 10.
Definition is_line_end (b : Byte.byte) : bool := (byte_val b =? 10) || (byte_val b =? 13).

(** The bytes up to the first line feed, with it, and the others. *)
Fixpoint split_line (data : bytes) : bytes * bytes :=
  match data with
  | [] => ([], [])
  | b :: rest => if is_newline b then ([b], rest) else let '(l, r) := split_line rest in (b :: l, r)
  end.

(** How the stream ends after the bytes that arrive: closed by the peer, or with
    an error of the connection, which is raised as soon as no whole line is
    left. *)
Inductive stream_end := EndOfFile | ConnectionLost (message : string).

(** [await reader.readline()] with the limit [AMI_MAX_LINE_BYTES]: a line whose
    end lies beyond the limit is a [ValueError]. *)
Definition readline (fin : stream_end) (data : bytes) : result (bytes * bytes) :=
  let '(line, rest) := split_line data in
  if AMI_MAX_LINE_BYTES <? (if existsb is_newline line then len line - 1 else len line)
  then Raise ValueError "Separator is not found, and chunk exceed the limit"
  else match fin with
       | ConnectionLost message => if existsb is_newline line then Ok (line, rest) else Raise ConnectionError message
       | EndOfFile => Ok (line, rest)
       end.

Fixpoint rstrip_bytes (line : bytes) : bytes :=
  match line with
  | [] => []
  | b :: l => match rstrip_bytes l with [] => if is_line_end b then [] else [b] | l' => b :: l' end
  end.

(** [decoded.partition(":")]; [None] without a separator. *)
Fixpoint partition_colon (l : list Ascii.ascii) : option (list Ascii.ascii * list Ascii.ascii) :=
  match l with
  | [] => None
  | c :: l' => if Ascii.eqb c ":" then Some ([], l')
               else (fun nv => (c :: nv.1, nv.2)) <$> partition_colon l'
  end.

(** A header line: its text has code points up to U+00FF. *)
Definition parse_header (line : bytes) : result (string * string) :=
  decoded ← from_option_err (utf8_decode (rstrip_bytes line)) AmiProtocolError "AMI message was not valid UTF-8";
  nv ← from_option_err (partition_colon decoded) AmiProtocolError "AMI message contained a malformed header";
  let name := strip (str nv.1) in
  if String.eqb name "" then Raise AmiProtocolError "AMI message contained a malformed header"
  else Ok (name, strip (str nv.2)).

Definition blank_line (line : bytes) : bool :=
  match line with
  | [b] => is_newline b
  | [a; b] => (byte_val a =? 13) && is_newline b
  | _ => false
  end.

(** The loop of [read_ami_message]; a line is at least one byte, so the length
    of the stream is fuel enough. *)
Fixpoint read_headers (fin : stream_end) (fuel : nat) (found : headers) (total : Z) (data : bytes) : result (option headers * bytes) :=
  match fuel with
  | O => Raise AssertionError "fuel"
  | S fuel =>
      match readline fin data with
      | Raise ConnectionError message => Raise ConnectionError message
      | Raise _ _ => Raise AmiProtocolError "AMI sent an overlong line"
      | Ok ([], rest) =>
          match found with
          | [] => Ok (None, rest)
          | _ => Raise AmiConnectionError "AMI connection ended during a message"
          end
      | Ok (line, rest) =>
          let total := total + len line in
          if (AMI_MAX_LINE_BYTES <? len line) || (AMI_MAX_MESSAGE_BYTES <? total)
          then Raise AmiProtocolError "AMI message exceeded the size limit"
          else if blank_line line then Ok (Some found, rest)
          else if AMI_MAX_HEADERS <=? len found
          then Raise AmiProtocolError "AMI message contained too many headers"
          else h ← parse_header line; read_headers fin fuel (dict_set h.1 h.2 found) total rest
      end
  end.

Definition read_ami_message (fin : stream_end) (data : bytes) : result (option headers * bytes) :=
  read_headers fin (S (length data)) [] 0 data.

(** [_header]: the first header of that name, whatever its case. *)
Definition _header (message : headers) (name : string) : option string :=
  snd <$> find (fun kv => String.eqb (lower kv.1) (lower name)) message.

(** ** Numbers *)

(** Digits with single underscores between them; [prev] says that the previous
    character was a digit. *)
Fixpoint digits_value (prev : bool) (acc : Z) (l : list Ascii.ascii) : option Z :=
  match l with
  | [] => if prev then Some acc else None
  | c :: l' =>
      if Ascii.eqb c "_" then if prev then digits_value false acc l' else None
      else if is_digit_char c then digits_value true (10 * acc + (code c - 48)) l' else None
  end.

Definition signed_text (l : list Ascii.ascii) : Z * list Ascii.ascii :=
  match l with
  | c :: l' => if Ascii.eqb c "-" then (-1, l') else if Ascii.eqb c "+" then (1, l') else (1, l)
  | [] => (1, [])
  end.

(** [int(value)]. *)
Definition _parse_int (value field : string) : result Z :=
  let '(sign, l) := signed_text (strip_by is_space (chars value)) in
  let text := filterb is_digit_char l in
  match (if 4300 <? len text then None else digits_value false 0 l) with
  | Some n => Ok (sign * n)
  | None => Raise AmiProtocolError ("AMI RTCP " +:+ field +:+ " was not an integer")
  end.

Definition is_exponent (c : Ascii.ascii) : bool := char_in ["e"; "E"]%char c.

(** The digits of the mantissa without its point, and how many follow it. *)
Definition mantissa (l : list Ascii.ascii) : option (Z * Z) :=
  let whole := until (Ascii.eqb ".") l in
  match from (Ascii.eqb ".") l with
  | [] => n ← digits_value false 0 whole; Some (n, 0)
  | _ :: fraction =>
      match whole, fraction with
      | [], _ => n ← digits_value false 0 fraction; Some (n, len (filterb is_digit_char fraction))
      | _, [] => n ← digits_value false 0 whole; Some (n, 0)
      | _, _ =>
          a ← digits_value false 0 whole;
          b ← digits_value false 0 fraction;
          let k := len (filterb is_digit_char fraction) in
          Some (a * 10 ^ k + b, k)
      end
  end.

(** The number [n * 10^e]. *)
Definition scaled_by (n e : Z) : float :=
  if 0 <=? e then fl (inject_Z (n * 10 ^ e)) else fl (n # Z.to_pos (10 ^ (- e))).

(** [float(value)] of a finite number: digits with an optional point and
    exponent; the names of the infinities and of NaN are not finite. *)
Definition float_text (value : string) : option float :=
  let '(sign, l) := signed_text (strip_by is_space (chars value)) in
  m ← mantissa (until is_exponent l);
  match from is_exponent l with
  | [] => Some (scaled_by (sign * m.1) (- m.2))
  | _ :: exponent =>
      let '(esign, digits) := signed_text exponent in
      x ← digits_value false 0 digits;
      Some (scaled_by (sign * m.1) (esign * x - m.2))
  end.

Definition is_infinity_or_nan (value : string) : bool :=
  let '(_, l) := signed_text (strip_by is_space (chars value)) in
  bool_decide (lower (str l) ∈ ["inf"; "infinity"; "nan"]).

Definition _parse_float (value field : string) : result float :=
  let not_finite := Raise AmiProtocolError ("AMI RTCP " +:+ field +:+ " was not finite") in
  match float_text value with
  | Some x => if is_finite x then Ok x else not_finite
  | None => if is_infinity_or_nan value then not_finite
            else Raise AmiProtocolError ("AMI RTCP " +:+ field +:+ " was not numeric")
  end.

(** ** The statistics of an event *)

Definition rtcp_name (name : string) : bool := bool_decide (name = "RTCPReceived" \/ name = "RTCPSent").

Definition report_key (index : Z) (field : string) : string := "report" +:+ pretty index +:+ field.

(** [fraction / 256.0 * 100.0]. *)
Definition loss_percentage (fraction : Z) : result float :=
  x ← float_of_int fraction; q ← fdiv x (fz 256); Ok (fmul q (fz 100)).

(** [jitter / clock_rate_hz * 1_000.0]. *)
Definition jitter_in_ms (jitter : float) (clock_rate_hz : Z) : result float :=
  c ← float_of_int clock_rate_hz; q ← fdiv jitter c; Ok (fmul q (fz 1000)).

Definition report_loss (values : headers) (index : Z) : result (list float) :=
  match dict_get (report_key index "fractionlost") values with
  | None => Ok []
  | Some v =>
      fraction ← _parse_int v "FractionLost";
      _ ← guard_else ((0 <=? fraction) && (fraction <=? 255)) AmiProtocolError
            "AMI RTCP loss value was outside the supported range";
      x ← loss_percentage fraction; Ok [x]
  end.

Definition report_jitter (values : headers) (clock_rate_hz index : Z) : result (list float) :=
  match dict_get (report_key index "iajitter") values with
  | None => Ok []
  | Some v =>
      jitter ← _parse_float v "IAJitter";
      _ ← guard_else (fleb fzero jitter) AmiProtocolError "AMI RTCP jitter value was negative";
      x ← jitter_in_ms jitter clock_rate_hz; Ok [x]
  end.

(** The loop over the reports: the loss and the jitter values so far. *)
Definition add_report (values : headers) (clock_rate_hz : Z) (s : list float * list float) (index : Z)
    : result (list float * list float) :=
  loss ← report_loss values index;
  jitter ← report_jitter values clock_rate_hz index;
  Ok (s.1 ++ loss, s.2 ++ jitter).

(** [max(values, default=None)]. *)
Definition max_or_none (l : list float) : option float :=
  match l with [] => None | x :: l' => Some (fold_left pymax l' x) end.

Definition event_rtt (values : headers) (received : bool) : result (option float) :=
  match (if received then dict_get "rtt" values else None) with
  | None => Ok None
  | Some v =>
      rtt_seconds ← _parse_float v "RTT";
      _ ← guard_else (fleb fzero rtt_seconds) AmiProtocolError "AMI RTCP RTT value was negative";
      Ok (Some (fmul rtt_seconds (fz 1000)))
  end.

Definition rtcp_event_to_stats (event : headers) (clock_rate_hz : Z) (ts : datetime) : result (option RtpStats) :=
  _ ← guard_else (0 <? clock_rate_hz) ValueError "clock_rate_hz must be positive";
  let values := dict_of_list (map (fun kv => (lower kv.1, kv.2)) event) in
  match dict_get "event" values with
  | Some name =>
      if rtcp_name name then
        let received := String.eqb name "RTCPReceived" in
        report_count ← _parse_int (dict_get_default "reportcount" "0" values) "ReportCount";
        _ ← guard_else ((0 <=? report_count) && (report_count <=? AMI_MAX_REPORTS)) AmiProtocolError
              "AMI RTCP report count was outside the supported range";
        lj ← foldM_res (add_report values clock_rate_hz) ([], []) (seqZ 0 report_count);
        rtt_ms ← event_rtt values received;
        let loss_pct := max_or_none lj.1 in
        let jitter_ms := max_or_none lj.2 in
        match jitter_ms, loss_pct, rtt_ms with
        | None, None, None => Ok None
        | _, _, _ =>
            Ok (Some (MkRtpStats jitter_ms loss_pct None
                        (Some (if received then "received" else "sent")) rtt_ms ts))
        end
      else Ok None
  | None => Ok None
  end.

(** ** The collector *)

Record AmiRtcpCollector := MkAmi {
  host : string; port : Z; username : string; secret : string; clock_rate_hz : Z;
  connect_timeout_seconds : float }.

Definition _validate_action_value (value field : string) : result unit :=
  guard_else (negb (String.eqb value "") && negb (existsb (fun c => (code c =? 13) || (code c =? 10)) (chars value)))
    ValueError (field +:+ " must be non-empty and contain no line breaks").

Definition make_collector (c : AmiRtcpCollector) : result AmiRtcpCollector :=
  _ ← guard_else ((1 <=? port c) && (port c <=? 65535)) ValueError "port must be between 1 and 65535";
  _ ← guard_else (0 <? clock_rate_hz c) ValueError "clock_rate_hz must be positive";
  _ ← guard_else (negb (fleb (connect_timeout_seconds c) fzero)) ValueError "connect_timeout_seconds must be positive";
  _ ← _validate_action_value (username c) "username";
  _ ← _validate_action_value (secret c) "secret";
  Ok c.

(** The connection and the observer: the bytes still to come, the bytes
    written, whether the writer was closed, the observer, what its flushes
    delivered, and what other threads observed during them. *)
Record connection := MkConnection {
  incoming : bytes; written : bytes; writer_closed : bool; observer : VoxBenchObserver;
  delivered : Observations; others : Observations }.

Definition with_incoming (data : bytes) (s : connection) : connection :=
  MkConnection data (written s) (writer_closed s) (observer s) (delivered s) (others s).

Definition on_observer (f : VoxBenchObserver -> VoxBenchObserver) : st connection unit :=
  modify (fun s => MkConnection (incoming s) (written s) (writer_closed s) (f (observer s)) (delivered s) (others s)).

(** [await asyncio.to_thread(observer.flush)] and its error. *)
Definition deliver (plan : nat -> send_outcome) : st connection unit := fun s =>
  let '(sent, (r, o)) := flush plan (observer s) in
  let attempts := (length sent + match r with Ok _ => 0 | Raise _ _ => 1 end)%nat in
  let s' := MkConnection (incoming s) (written s) (writer_closed s) o
              (obs_app (delivered s) (_merge_observation_batches sent))
              (obs_app (others s) (arrived plan 0 attempts)) in
  match r with
  | Ok _ => (Ok tt, s')
  | Raise _ _ => (Raise AmiConnectionError "VoxBench observation delivery failed", s')
  end.

(** The answers of the environment to [collect]: the connection, the greeting
    in time, how the stream ends, and at each event the time of its observations
    and the flush. *)
Record ami_env := MkAmiEnv {
  connects : bool; greets_in_time : bool; stream_ends : stream_end; event_ts : nat -> datetime; flushes : nat -> nat -> send_outcome }.

Definition next_message (e : ami_env) : st connection (option headers) := fun s =>
  match read_ami_message (stream_ends e) (incoming s) with
  | Ok (m, rest) => (Ok m, with_incoming rest s)
  | Raise c e => (Raise c e, s)
  end.

Definition login_text (c : AmiRtcpCollector) : bytes :=
  let line l := utf8 (chars l) ++ [byte_of 13; byte_of 10] in
  line "Action: Login" ++ line ("Username: " +:+ username c) ++ line ("Secret: " +:+ secret c)
  ++ line "Events: on" ++ line "".

Fixpoint await_login (e : ami_env) (fuel : nat) : st connection unit :=
  match fuel with
  | O => throw AssertionError "fuel"
  | S fuel =>
      message ← next_message e;
      match message with
      | None => throw AmiConnectionError "AMI connection ended during authentication"
      | Some m =>
          match _header m "Response" with
          | None => await_login e fuel
          | Some response =>
              if String.eqb (lower response) "success" then mret tt
              else throw AmiAuthenticationError "AMI authentication was rejected"
          end
      end
  end.

Definition greeting_prefix : bytes := utf8 (chars "Asterisk Call Manager/").

(** [_authenticate]; a connection lost when the login is written shows like one
    lost when the answer is read. *)
Definition _authenticate (c : AmiRtcpCollector) (e : ami_env) : st connection unit :=
  _ ← lift (guard_else (greets_in_time e) AmiConnectionError "AMI did not send a greeting");
  s ← get_state;
  lr ← lift (match readline (stream_ends e) (incoming s) with
             | Ok lr => Ok lr
             | Raise ConnectionError message => Raise ConnectionError message
             | Raise _ _ => Raise AmiProtocolError "AMI sent an overlong greeting"
             end);
  _ ← lift (guard_else ((len lr.1 <=? AMI_MAX_LINE_BYTES) && bool_decide (take (length greeting_prefix) lr.1 = greeting_prefix))
        AmiProtocolError "AMI greeting was not recognized");
  _ ← modify (fun s => MkConnection lr.2 (written s ++ login_text c) (writer_closed s) (observer s)
                         (delivered s) (others s));
  await_login e (S (length lr.2)).

(** What [_events] lets through. *)
Definition relevant (m : headers) : bool :=
  match _header m "Event" with Some name => rtcp_name name | None => false end.

(** The loop of [collect]: [collected] events so far. *)
Fixpoint collect_events (c : AmiRtcpCollector) (e : ami_env) (max_events : option Z) (fuel collected : nat)
    : st connection Z :=
  match fuel with
  | O => throw AssertionError "fuel"
  | S fuel =>
      message ← next_message e;
      match message with
      | None => throw AmiConnectionError "AMI connection ended while collecting events"
      | Some m =>
          if negb (relevant m) then collect_events c e max_events fuel collected
          else
            stats ← lift (rtcp_event_to_stats m (clock_rate_hz c) (event_ts e collected));
            match stats with
            | None => collect_events c e max_events fuel collected
            | Some x =>
                _ ← on_observer (observe_rtp_stats x);
                _ ← on_observer (observe_metric "asterisk_ami_rtcp_events" (fz 1) None (event_ts e collected));
                _ ← deliver (flushes e (S collected));
                if match max_events with Some n => n <=? Z.of_nat (S collected) | None => false end
                then mret (Z.of_nat (S collected))
                else collect_events c e max_events fuel (S collected)
            end
      end
  end.

Definition session (c : AmiRtcpCollector) (e : ami_env) (max_events : option Z) : st connection Z :=
  _ ← _authenticate c e;
  _ ← on_observer (observe_metric "asterisk_ami_rtcp_connected" (fz 1) None (event_ts e 0));
  _ ← deliver (flushes e 0);
  s ← get_state;
  collect_events c e max_events (S (length (incoming s))) 0.

(** [finally: writer.close()]. *)
Definition closing {A} (m : st connection A) : st connection A := fun s =>
  let '(r, s') := m s in
  (r, MkConnection (incoming s') (written s') true (observer s') (delivered s') (others s')).

Definition collect (c : AmiRtcpCollector) (e : ami_env) (max_events : option Z) : st connection Z :=
  _ ← lift (guard_else (match max_events with Some n => 1 <=? n | None => true end) ValueError
              "max_events must be positive when provided");
  _ ← lift (guard_else (connects e) AmiConnectionError "AMI connection could not be established");
  closing (session c e max_events).

(** ** Lemmas on the reader *)

Lemma split_line_app data line rest : split_line data = (line, rest) -> data = line ++ rest.
Proof.
  revert line rest. induction data as [|b data IH]; intros line rest; cbn; [by intros [= <- <-]|].
  destruct (is_newline b); [by intros [= <- <-]|]. destruct (split_line data) as [l r]. intros [= <- <-].
  cbn. by rewrite <- (IH _ _ eq_refl).
Qed.

Lemma split_line_nil data rest : split_line data = ([], rest) -> data = [] /\ rest = [].
Proof.
  destruct data as [|b data]; cbn; [by intros [= <-]|]. destruct (is_newline b); [done|].
  by destruct (split_line data).
Qed.

Lemma readline_ok fin data line rest : readline fin data = Ok (line, rest) ->
  split_line data = (line, rest) /\ data = line ++ rest.
Proof.
  unfold readline. destruct (split_line data) as [l r] eqn:E. case_match; [done|].
  destruct fin; [|case_match; [|done]]; intros [= <- <-];
    (split; [done|]; by apply split_line_app).
Qed.

(** A line without its end has no line feed; a header line read back. *)
Lemma split_line_terminated text rest : existsb is_newline text = false ->
  split_line (text ++ newline :: rest) = (text ++ [newline], rest).
Proof.
  induction text as [|b text IH]; cbn [app existsb split_line].
  - intros _. by change (is_newline newline) with true.
  - rewrite orb_false_iff. intros [-> Ht]. by rewrite IH.
Qed.

Definition ami_error (c : exn_class) : Prop :=
  c = AmiProtocolError \/ c = AmiConnectionError \/ c = AmiAuthenticationError.

(** The errors of a read. *)
Definition read_error (fin : stream_end) (c : exn_class) : Prop := ami_error c \/ (c = ConnectionError /\ fin <> EndOfFile).

Lemma readline_raises fin data c a : readline fin data = Raise c a -> c = ValueError \/ (c = ConnectionError /\ fin <> EndOfFile).
Proof.
  unfold readline. destruct (split_line data). case_match; [intros [= <- _]; by left|].
  destruct fin; [done|]. case_match; [done|]. intros [= <- _]. by right.
Qed.

Lemma parse_header_errors line c e : parse_header line = Raise c e -> ami_error c.
Proof.
  unfold parse_header, from_option_err, ami_error. destruct (utf8_decode _) as [d|]; cbn; [|intros [= <- _]; auto].
  destruct (partition_colon d) as [nv|]; cbn; [|intros [= <- _]; auto].
  destruct (String.eqb _ _); [intros [= <- _]; auto|done].
Qed.

Lemma parse_header_name line h : parse_header line = Ok h -> h.1 <> "".
Proof.
  unfold parse_header, from_option_err. intros Hp. simpl_res. destruct (String.eqb_spec (strip (str a0.1)) ""); [done|].
  by injection Hp as <-.
Qed.

(** What a message that was read looked like. *)
Record message_read (found : headers) (total : Z) (data : bytes) (m : headers) (rest : bytes) : Prop := {
  read_bytes : exists text, data = text ++ rest /\ text <> [] /\ total + len text <= AMI_MAX_MESSAGE_BYTES;
  read_count : len m <= AMI_MAX_HEADERS;
  read_keys : NoDup (dict_keys m) /\ "" ∉ dict_keys m }.

Lemma dict_set_len {K V} `{EqDecision K} (k : K) (v : V) d : len (dict_set k v d) <= len d + 1.
Proof.
  induction d as [|[k' v'] d IH]; [unfold len; cbn; lia|]. cbn [dict_set]. case_decide; rewrite ?len_cons; lia.
Qed.

Lemma read_headers_spec fin fuel : forall found total data r,
  (length data < fuel)%nat -> len found <= AMI_MAX_HEADERS -> NoDup (dict_keys found) -> "" ∉ dict_keys found ->
  read_headers fin fuel found total data = r ->
  match r with
  | Raise c _ => read_error fin c
  | Ok (None, rest) => found = [] /\ data = [] /\ rest = []
  | Ok (Some m, rest) => message_read found total data m rest
  end.
Proof.
  unfold read_error, ami_error. induction fuel as [|fuel IH]; intros found total data r Hf Hn Hd He <-; [lia|]. cbn [read_headers].
  destruct (readline fin data) as [[line rest]|c a] eqn:El; [|by destruct (readline_raises _ _ _ _ El) as [->|[-> ?]]; auto].
  apply readline_ok in El as [El Edata]. destruct line as [|b line].
  { apply split_line_nil in El as [-> ->]. destruct found; auto. }
  destruct (_ || _) eqn:Esize; [auto|]. apply orb_false_iff in Esize as [E1 E2%Z.ltb_ge].
  destruct (blank_line _).
  { constructor; [exists (b :: line); split_and!; [done..|lia]|done|done]. }
  destruct (Z.leb_spec AMI_MAX_HEADERS (len found)) as [|Ec]; [auto|].
  destruct (parse_header _) as [h|c a] eqn:Eh; cbn [mbind result_bind]; [|left; by eapply parse_header_errors].
  assert (length rest < fuel)%nat as Hlen by (subst data; rewrite length_app in Hf; cbn in Hf; lia).
  pose proof (dict_set_len h.1 h.2 found) as Hset.
  assert (len (dict_set h.1 h.2 found) <= AMI_MAX_HEADERS) as Hcount by (etrans; [exact Hset|lia]).
  specialize (IH (dict_set h.1 h.2 found) (total + len (b :: line)) rest _ Hlen Hcount
    ltac:(by apply dict_set_NoDup) ltac:(rewrite dict_set_elem_keys; apply parse_header_name in Eh; set_solver) eq_refl).
  destruct (read_headers _ _ _ _) as [[[m|] r2]|c a]; [| |done].
  - destruct IH as [(text & -> & Ht & Hs) Hc Hk]. constructor; [|done|done].
    exists ((b :: line) ++ text). rewrite <- app_assoc. split_and!; [done..|]. rewrite len_app. lia.
  - destruct IH as [Hempty _]. destruct found as [|[k v] found]; cbn in Hempty; [done|]. by case_decide.
Qed.

(** ** Messages read back *)

Definition header_text (kv : string * string) : list Ascii.ascii := chars kv.1 ++ [":"; " "]%char ++ chars kv.2.

(** A header as Asterisk sends it. *)
Definition header_line (kv : string * string) : bytes := utf8 (header_text kv) ++ [byte_of 13; newline].

Definition no_line_end (s : string) : bool := forallb (fun c => negb ((code c =? 10) || (code c =? 13))) (chars s).

Record clean_header (kv : string * string) : Prop := {
  clean_name : kv.1 <> "" /\ strip kv.1 = kv.1 /\ ":"%char ∉ chars kv.1 /\ no_line_end kv.1 = true;
  clean_value : strip kv.2 = kv.2 /\ no_line_end kv.2 = true;
  clean_size : len (header_line kv) <= AMI_MAX_LINE_BYTES }.

Definition message_text (m : headers) : bytes := concat (map header_line m) ++ [byte_of 13; newline].

Lemma utf8_line_end c : negb ((code c =? 10) || (code c =? 13)) = true ->
  forallb (fun b => negb (is_line_end b)) (utf8_char c) = true.
Proof.
  intros Hc. pose proof (ascii_cases (fun c => implb (negb ((code c =? 10) || (code c =? 13)))
    (forallb (fun b => negb (is_line_end b)) (utf8_char c))) eq_refl c) as P. cbv beta in P. by rewrite Hc in P.
Qed.

Lemma utf8_no_line_end l : forallb (fun c => negb ((code c =? 10) || (code c =? 13))) l = true ->
  forallb (fun b => negb (is_line_end b)) (utf8 l) = true.
Proof.
  induction l as [|c l IH]; [done|]. cbn [forallb]. rewrite andb_true_iff. intros [Hc Hl].
  change (utf8 (c :: l)) with (utf8_char c ++ utf8 l). rewrite forallb_app, IH, utf8_line_end; done.
Qed.

Lemma header_no_line_end kv : clean_header kv -> forallb (fun b => negb (is_line_end b)) (utf8 (header_text kv)) = true.
Proof.
  intros [(_ & _ & _ & H1) [_ H2] _]. apply utf8_no_line_end. unfold header_text. unfold no_line_end in *.
  by rewrite !forallb_app, H1, H2.
Qed.

Lemma rstrip_bytes_line l : forallb (fun b => negb (is_line_end b)) l = true ->
  rstrip_bytes (l ++ [byte_of 13; newline]) = l.
Proof.
  induction l as [|b l IH]; [done|]. cbn [forallb app rstrip_bytes]. rewrite andb_true_iff. intros [Hb Hl].
  rewrite IH by done. destruct l as [|b' l]; [|done]. apply negb_true_iff in Hb. by rewrite Hb.
Qed.

Lemma partition_colon_app name rest : ":"%char ∉ name -> partition_colon (name ++ ":"%char :: rest) = Some (name, rest).
Proof.
  induction name as [|c name IH]; cbn; [done|]. rewrite not_elem_of_cons. intros [Hc Hn].
  destruct (Ascii.eqb_spec c ":"); [congruence|]. by rewrite IH.
Qed.

Lemma parse_clean_header kv : clean_header kv -> parse_header (header_line kv) = Ok kv.
Proof.
  intros Hc. unfold parse_header, header_line. rewrite rstrip_bytes_line by by apply header_no_line_end.
  rewrite utf8_round_trip. cbn [from_option_err mbind result_bind]. unfold header_text.
  destruct Hc as [(H1 & H2 & H3 & _) [H4 _] _]. cbn [app]. rewrite partition_colon_app by done.
  cbn [from_option_err mbind result_bind fst snd]. rewrite str_chars, H2.
  destruct (String.eqb_spec kv.1 ""); [done|]. do 2 f_equal. destruct kv as [k v]. cbn in *. f_equal.
  rewrite <- H4 at 2. unfold strip. by rewrite chars_str.
Qed.

Lemma header_line_read fin kv rest : clean_header kv ->
  readline fin (header_line kv ++ rest) = Ok (header_line kv, rest).
Proof.
  intros Hc. pose proof (header_no_line_end _ Hc) as Hn. unfold readline, header_line.
  change [byte_of 13; newline] with ([byte_of 13] ++ [newline]). rewrite app_assoc, <- app_assoc. cbn [app].
  rewrite split_line_terminated.
  - destruct Hc as [_ _ Hs]. unfold header_line in Hs.
    change [byte_of 13; newline] with ([byte_of 13] ++ [newline]) in Hs. rewrite app_assoc in Hs.
    case_match; [|by rewrite existsb_app, orb_true_r; destruct fin; rewrite <- app_assoc].
    exfalso. assert (AMI_MAX_LINE_BYTES < len ((utf8 (header_text kv) ++ [byte_of 13]) ++ [newline])); [|lia].
    match goal with E : (_ <? _) = true |- _ => apply Z.ltb_lt in E end.
    destruct (existsb _ _); lia.
  - rewrite existsb_app. cbn. rewrite orb_false_r. apply not_true_is_false. intros (b & Hb & Hnl)%existsb_exists.
    rewrite forallb_forall in Hn. specialize (Hn b Hb). unfold is_line_end in Hn. unfold is_newline in Hnl. by rewrite Hnl in Hn.
Qed.

Lemma header_line_long kv : clean_header kv -> exists a b c l, header_line kv = a :: b :: c :: l.
Proof.
  intros [(Hne & _) _ _]. unfold header_line, header_text. destruct kv as [[|c k] v]; [done|]. cbn [fst snd chars String.list_ascii_of_string app].
  change (utf8 (?x :: ?l)) with (utf8_char x ++ utf8 l).
  assert (exists x y, utf8_char c = x :: y) as (x & y & ->) by (unfold utf8_char; case_match; eauto).
  destruct y as [|y1 [|y2 y]]; cbn; eauto; 
  repeat match goal with |- context [utf8 ?l] => destruct (utf8 l) as [|? [|? ?]] end; cbn; eauto.
Qed.

Lemma readline_blank fin rest : readline fin ([byte_of 13; newline] ++ rest) = Ok ([byte_of 13; newline], rest).
Proof. by destruct fin. Qed.

Lemma read_rendered fin m : forall fuel found total rest, Forall clean_header m ->
  (length m < fuel)%nat -> len found + len m <= AMI_MAX_HEADERS ->
  total + len (message_text m) <= AMI_MAX_MESSAGE_BYTES ->
  read_headers fin fuel found total (message_text m ++ rest)
  = Ok (Some (fold_left (fun d kv => dict_set kv.1 kv.2 d) m found), rest).
Proof.
  induction m as [|kv m IH]; intros [|fuel] found total rest Hm Hf Hn Ht; cbn [length] in Hf; try lia.
  - change (message_text [] ++ rest) with ([byte_of 13; newline] ++ rest). cbn [read_headers].
    rewrite readline_blank. change (AMI_MAX_LINE_BYTES <? len [byte_of 13; newline]) with false.
    change (len (message_text [])) with (len [byte_of 13; newline]) in Ht.
    by rewrite (proj2 (Z.ltb_ge _ _) Ht).
  - apply Forall_cons in Hm as [Hk Hm].
    assert (message_text (kv :: m) ++ rest = header_line kv ++ (message_text m ++ rest)) as ->
      by (unfold message_text; cbn [map concat]; by rewrite <- !app_assoc).
    assert (len (message_text (kv :: m)) = len (header_line kv) + len (message_text m)) as Elen
      by (unfold message_text; cbn [map concat]; rewrite !len_app; lia).
    cbn [read_headers]. rewrite header_line_read by done.
    destruct (header_line_long kv Hk) as (a & b & c & l & El).
    pose proof (clean_size _ Hk) as Hs. pose proof (len_nonneg (message_text m)).
    rewrite El in *. rewrite (proj2 (Z.ltb_ge _ _) Hs).
    replace (AMI_MAX_MESSAGE_BYTES <? total + len (a :: b :: c :: l)) with false by (symmetry; apply Z.ltb_ge; lia).
    cbn [orb blank_line]. rewrite len_cons in Hn. pose proof (len_nonneg m).
    replace (AMI_MAX_HEADERS <=? len found) with false by (symmetry; apply Z.leb_gt; lia).
    rewrite <- El, parse_clean_header by done. cbn [mbind result_bind fst snd]. rewrite IH; [done..|lia| |].
    + pose proof (dict_set_len kv.1 kv.2 found). lia.
    + rewrite El. lia.
Qed.

Lemma read_ami_message_spec fin data : match read_ami_message fin data with
  | Raise c _ => read_error fin c
  | Ok (None, rest) => data = [] /\ rest = []
  | Ok (Some m, rest) => message_read [] 0 data m rest
  end.
Proof.
  pose proof (read_headers_spec fin (S (length data)) [] 0 data _ ltac:(lia) ltac:(by vm_compute)
    (NoDup_nil_2) ltac:(cbn; set_solver) eq_refl) as H. unfold read_ami_message.
  destruct (read_headers _ _ _ _) as [[[m|] rest]|]; [done|by destruct H as (_ & -> & ->)|done].
Qed.

Lemma message_text_length m : (length m < length (message_text m))%nat.
Proof.
  unfold message_text. rewrite length_app. cbn [length]. induction m as [|kv m IH]; cbn [map concat length app]; [lia|].
  rewrite length_app. assert (1 <= length (header_line kv))%nat; [|lia].
  unfold header_line. rewrite length_app. cbn. lia.
Qed.

(** ** Normalized statistics *)

Definition within_unit (x : float) : Prop := fleb fzero x = true /\ fleb x (fz 100) = true.

(** What the collector hands to the observer. *)
Record normalized (s : RtpStats) : Prop := {
  normal_direction : rs_direction s = Some "received" \/ (rs_direction s = Some "sent" /\ rs_rtt_ms s = None);
  normal_jitter : forall x, rs_jitter_ms s = Some x -> fleb fzero x = true;
  normal_loss : forall x, rs_loss_pct s = Some x -> within_unit x;
  normal_rtt : forall x, rs_rtt_ms s = Some x -> fleb fzero x = true;
  normal_content : is_Some (rs_jitter_ms s) \/ is_Some (rs_loss_pct s) \/ is_Some (rs_rtt_ms s) }.

Lemma fl_nonneg q : (0 <= q)%Q -> fleb fzero (fl q) = true.
Proof. intros Hq. apply fl_mono in Hq. by replace fzero with (fl 0) by (vm_compute; reflexivity). Qed.

Lemma fmul_nonneg x k : (0 <= k)%Q -> ~ (k == 0)%Q -> fleb fzero x = true -> fleb fzero (fmul x (Fin k)) = true.
Proof.
  intros Hk Hnz. destruct x as [q| | |]; cbn [fleb fzero]; try done.
  - intros Hq%Qle_bool_iff. apply fl_nonneg. by apply Qmult_le_0_compat.
  - intros _. unfold fmul. cbn. assert (Qcompare k 0 = Gt) as ->; [|done].
    apply Qgt_alt. apply Qle_lteq in Hk as [Hk|Hk]; [done|]. by symmetry in Hk.
Qed.

Lemma fz_1000_positive : exists k, fz 1000 = Fin k /\ (0 <= k)%Q /\ ~ (k == 0)%Q.
Proof. eexists. split; [vm_compute; reflexivity|]. split; [discriminate|]. intros E. discriminate E. Qed.

Lemma loss_percentage_bounds fraction : 0 <= fraction <= 255 ->
  exists x, loss_percentage fraction = Ok x /\ within_unit x.
Proof.
  intros Hf.
  assert (forallb (fun f => match loss_percentage f with
                            | Ok x => fleb fzero x && fleb x (fz 100)
                            | _ => false end) (seqZ 0 256) = true) as Hall by (vm_compute; reflexivity).
  rewrite forallb_forall in Hall. specialize (Hall fraction ltac:(apply list_elem_of_In, elem_of_seqZ; lia)).
  destruct (loss_percentage fraction) as [x|]; [|done]. apply andb_true_iff in Hall as [H1 H2]. by exists x.
Qed.

Lemma jitter_nonneg jitter rate : 0 < rate < 2 ^ fprec -> is_finite jitter = true -> fleb fzero jitter = true ->
  exists x, jitter_in_ms jitter rate = Ok x /\ fleb fzero x = true.
Proof.
  intros Hr Hfin Hj. destruct jitter as [q| | |]; try done. unfold jitter_in_ms, float_of_int.
  destruct (fz_exact rate) as (c & Hc & Hq); [lia|]. unfold fz in Hc. rewrite Hc. cbn [mbind result_bind].
  assert (0 < c)%Q as Hpos by (rewrite Hq; change 0%Q with (inject_Z 0); rewrite <- Zlt_Qlt; lia).
  unfold fdiv. assert (Qeq_bool c 0 = false) as ->.
  { apply not_true_is_false. intros E%Qeq_bool_iff. rewrite E in Hpos. by apply Qlt_irrefl in Hpos. }
  cbn [mbind result_bind]. eexists. split; [done|]. destruct fz_1000_positive as (k & -> & Hk & Hnz).
  apply fmul_nonneg; [done..|]. apply fl_nonneg. apply Qle_shift_div_l; [done|]. rewrite Qmult_0_l.
  by apply Qle_bool_iff.
Qed.

Lemma max_or_none_elem l x : max_or_none l = Some x -> x ∈ l.
Proof.
  destruct l as [|a l]; [done|]. cbn. intros [= <-].
  assert (forall l a, fold_left pymax l a = a \/ fold_left pymax l a ∈ l) as Hfold.
  { clear. induction l as [|b l IH]; intros a; cbn; [auto|]. destruct (IH (pymax a b)) as [->|Hin]; [|right; by right].
    unfold pymax. destruct (fltb a b); [right; left|by left]. }
  destruct (Hfold l a) as [->|Hin]; [left|by right].
Qed.

Lemma parse_int_errors v f c e : _parse_int v f = Raise c e -> c = AmiProtocolError.
Proof. unfold _parse_int. repeat case_match; intros; simplify_eq; done. Qed.

Lemma parse_float_result v f : match _parse_float v f with
  | Ok x => is_finite x = true | Raise c _ => c = AmiProtocolError end.
Proof.
  unfold _parse_float. destruct (float_text v) as [x|]; [|by destruct (is_infinity_or_nan v)].
  destruct (is_finite x) eqn:E; done.
Qed.

Definition report_ok (s : list float * list float) : Prop :=
  Forall within_unit s.1 /\ Forall (fun x => fleb fzero x = true) s.2.

Lemma report_loss_result values index : match report_loss values index with
  | Ok l => Forall within_unit l | Raise c _ => c = AmiProtocolError end.
Proof.
  unfold report_loss. destruct (dict_get _ _) as [v|]; [|constructor].
  destruct (_parse_int v _) as [n|] eqn:E; cbn; [|by eapply parse_int_errors].
  destruct (_ && _) eqn:En; cbn; [|done]. apply andb_true_iff in En as [E1%Z.leb_le E2%Z.leb_le].
  destruct (loss_percentage_bounds n (conj E1 E2)) as (x & -> & Hx). cbn. by constructor.
Qed.

Lemma report_jitter_result values rate index : 0 < rate < 2 ^ fprec -> match report_jitter values rate index with
  | Ok l => Forall (fun x => fleb fzero x = true) l | Raise c _ => c = AmiProtocolError end.
Proof.
  intros Hr. unfold report_jitter. destruct (dict_get _ _) as [v|]; [|constructor].
  pose proof (parse_float_result v "IAJitter") as Hp. destruct (_parse_float v _) as [j|]; cbn [mbind result_bind]; [|done].
  destruct (fleb fzero j) eqn:Ej; cbn [guard_else mbind result_bind]; [|done]. destruct (jitter_nonneg j rate) as (x & -> & Hx); [done..|]. cbn. by constructor.
Qed.

Lemma event_rtt_result values received : match event_rtt values received with
  | Ok o => (received = false -> o = None) /\ forall x, o = Some x -> fleb fzero x = true
  | Raise c _ => c = AmiProtocolError end.
Proof.
  unfold event_rtt. destruct received; [|by split]. destruct (dict_get _ _) as [v|]; [|by split].
  pose proof (parse_float_result v "RTT") as Hp. destruct (_parse_float v _) as [j|]; cbn [mbind result_bind]; [|done].
  destruct (fleb fzero j) eqn:Ej; cbn [guard_else mbind result_bind]; [|done]. split; [done|]. intros x [= <-].
  destruct fz_1000_positive as (k & -> & Hk & Hnz). by apply fmul_nonneg.
Qed.

Lemma add_report_result values rate s i : 0 < rate < 2 ^ fprec -> report_ok s ->
  match add_report values rate s i with
  | Ok s' => report_ok s' | Raise c _ => c = AmiProtocolError end.
Proof.
  intros Hr [H1 H2]. unfold add_report.
  pose proof (report_loss_result values i) as Hl. destruct (report_loss values i); cbn [mbind result_bind]; [|done].
  pose proof (report_jitter_result values rate i Hr) as Hj. destruct (report_jitter values rate i); cbn [mbind result_bind]; [|done].
  split; cbn; by apply Forall_app.
Qed.

Lemma reports_result values rate l : forall s, 0 < rate < 2 ^ fprec -> report_ok s ->
  match foldM_res (add_report values rate) s l with
  | Ok s' => report_ok s' | Raise c _ => c = AmiProtocolError end.
Proof.
  induction l as [|i l IH]; intros s Hr Hs; cbn [foldM_res]; [done|].
  pose proof (add_report_result values rate s i Hr Hs) as Ha.
  destruct (add_report values rate s i); cbn [mbind result_bind]; [by apply IH|done].
Qed.

Lemma rtcp_stats_result event rate ts : 0 < rate < 2 ^ fprec -> match rtcp_event_to_stats event rate ts with
  | Ok (Some s) => normalized s | Ok None => True | Raise c _ => c = AmiProtocolError end.
Proof.
  intros Hr. unfold rtcp_event_to_stats. replace (0 <? rate) with true by (symmetry; apply Z.ltb_lt; lia).
  cbn [guard_else mbind result_bind]. destruct (dict_get "event" _) as [name|]; [|done].
  destruct (rtcp_name name); [|done]. destruct (_parse_int _ _) as [n|] eqn:E; cbn [mbind result_bind]; [|by eapply parse_int_errors].
  destruct (_ && _); cbn [guard_else mbind result_bind]; [|done].
  pose proof (reports_result (dict_of_list (map (fun kv => (lower kv.1, kv.2)) event)) rate (seqZ 0 n) ([], []) Hr) as Hf.
  destruct (foldM_res _ _ _) as [lj|]; cbn [mbind result_bind]; [|apply Hf; by split].
  destruct Hf as [H1 H2]; [by split|]. rewrite Forall_forall in H1, H2.
  pose proof (event_rtt_result (dict_of_list (map (fun kv => (lower kv.1, kv.2)) event)) (String.eqb name "RTCPReceived")) as Ht.
  destruct (event_rtt _ _) as [rtt|]; cbn [mbind result_bind]; [|done]. destruct Ht as [Hsent Hrtt].
  assert (forall x, max_or_none lj.2 = Some x -> fleb fzero x = true) as Hj by eauto using max_or_none_elem.
  assert (forall x, max_or_none lj.1 = Some x -> within_unit x) as Hp by eauto using max_or_none_elem.
  assert (is_Some (max_or_none lj.2) \/ is_Some (max_or_none lj.1) \/ is_Some rtt ->
    normalized (MkRtpStats (max_or_none lj.2) (max_or_none lj.1) None
      (Some (if String.eqb name "RTCPReceived" then "received" else "sent")) rtt ts)) as Hn.
  { intros Hc. constructor; cbn; [|done..]. destruct (String.eqb name _); auto. }
  destruct (max_or_none lj.2), (max_or_none lj.1), rtt; try done; apply Hn; eauto.
Qed.

(** ** Properties *)

(** [read_ami_message] always comes to an end and stays within its bounds:
    it never runs out of the fuel of the model, whatever the bytes; when it
    raises, it is with one of the collector's own errors or that of a lost
    connection; [None] is only
    answered at the end of the stream; and a message answered has at most 128
    headers with distinct non-empty names and was read from a non-empty prefix
    of at most 65536 bytes, what follows being left for the next call. *)
Theorem read_ami_message_bounded fin data :
  match read_ami_message fin data with
  | Raise c _ => read_error fin c
  | Ok (None, rest) => data = [] /\ rest = []
  | Ok (Some m, rest) =>
      (exists text, data = text ++ rest /\ text <> [] /\ len text <= AMI_MAX_MESSAGE_BYTES)
      /\ len m <= AMI_MAX_HEADERS /\ NoDup (dict_keys m) /\ "" ∉ dict_keys m
  end.
Proof.
  pose proof (read_ami_message_spec fin data) as H. destruct (read_ami_message fin data) as [[[m|] rest]|c a]; [|done..].
  destruct H as [(text & -> & Ht & Hs) Hc [Hk He]]. split_and!; [|done..]. exists text. split_and!; [done..|lia].
Qed.

(** A message written as Asterisk writes it is read back: when every
    header has a non-empty stripped name without colon and a stripped value,
    neither with a line end, and lines, headers and message are within the
    limits, [read_ami_message] answers the dictionary of the headers (the last
    value of a repeated name, at the place of its first) and leaves the bytes
    that follow the message untouched. *)
Theorem read_ami_message_round_trip fin m rest : Forall clean_header m ->
  len m <= AMI_MAX_HEADERS -> len (message_text m) <= AMI_MAX_MESSAGE_BYTES ->
  read_ami_message fin (message_text m ++ rest) = Ok (Some (dict_of_list m), rest).
Proof.
  intros Hm Hc Hs. apply read_rendered; [done| | |lia].
  - rewrite length_app. pose proof (message_text_length m). lia.
  - by change (len (@nil (string * string))) with 0.
Qed.

Definition sample_event : headers :=
  [("Event", "RTCPReceived"); ("RTT", "0.025"); ("ReportCount", "1");
   ("Report0FractionLost", "128"); ("Report0IAJitter", "80")].

Lemma sample_event_clean : Forall clean_header sample_event.
Proof.
  assert (forall kv, (negb (String.eqb kv.1 "") && String.eqb (strip kv.1) kv.1
    && forallb (fun c => negb (Ascii.eqb c ":")) (chars kv.1) && no_line_end kv.1
    && String.eqb (strip kv.2) kv.2 && no_line_end kv.2
    && (len (header_line kv) <=? AMI_MAX_LINE_BYTES)) = true -> clean_header kv) as Hb.
  { intros kv. rewrite !andb_true_iff. intros [[[[[[H1 H2] H3] H4] H5] H6] H7]. constructor.
    - split_and!; [by intros E; rewrite E in H1|by apply String.eqb_eq| |done].
      intros Hin. rewrite forallb_forall in H3. specialize (H3 ":"%char (proj1 (list_elem_of_In _ _) Hin)). done.
    - split; [by apply String.eqb_eq|done].
    - by apply Z.leb_le. }
  repeat constructor; apply Hb; vm_compute; reflexivity.
Qed.

Lemma read_ami_message_round_trip_witness : Forall clean_header sample_event
  /\ read_ami_message EndOfFile (message_text sample_event ++ message_text [("Event", "Newchannel")])
     = Ok (Some (dict_of_list sample_event), message_text [("Event", "Newchannel")]).
Proof.
  split; [exact sample_event_clean|].
  apply (read_ami_message_round_trip EndOfFile sample_event); [exact sample_event_clean|vm_compute; discriminate..].
Defined.
