(* ===== verification/AmiCollector.v ===== *)
(** * Collecting the RTCP events of a manager connection

    [AmiRtcpCollector.collect] of [telephony/ami_rtcp.py] against the log of
    the observations: what the observer delivered followed by what it still
    holds.  The log grows by the statistics of the events read, in their order,
    and by what other threads observed meanwhile, and by nothing else. *)
From S2P Require Import Prelude Effects Collections PyFloat PyData Bytes Observer SignalChecks PyUrl AmiRtcp.

Open Scope Z_scope.

(** ** The log of observations *)

(** What the observer was given: delivered first, then still pending. *)
Definition log (s : connection) : Observations := obs_app (delivered s) (ob_pending (observer s)).

(** From [s] to [s'] the log only grew, by the statistics [own] of this
    collector in their order and by what others observed meanwhile. *)
Definition carried (own : list RtpStats) (s s' : connection) : Prop := exists ext oth,
  log s' = obs_app (log s) ext /\ others s' = obs_app (others s) oth
  /\ rtp_stats ext ≡ₚ own ++ rtp_stats oth /\ own `sublist_of` rtp_stats ext.

Lemma carried_refl s s' : log s' = log s -> others s' = others s -> carried [] s s'.
Proof.
  intros Hl Ho. exists no_observations, no_observations. rewrite !obs_app_nil_r.
  split_and!; [done..|apply sublist_nil_l].
Qed.

Lemma carried_trans l1 l2 s1 s2 s3 : carried l1 s1 s2 -> carried l2 s2 s3 -> carried (l1 ++ l2) s1 s3.
Proof.
  intros (e1 & o1 & L1 & O1 & P1 & S1) (e2 & o2 & L2 & O2 & P2 & S2).
  exists (obs_app e1 e2), (obs_app o1 o2). rewrite <- !obs_app_assoc, <- L1, <- O1.
  split_and!; [done..| |by apply sublist_app]. cbn [rtp_stats obs_app]. rewrite P1, P2. solve_Permutation.
Qed.

Lemma on_observer_carried (p : Observations) s s' u :
  on_observer (append_pending p) s = (u, s') -> carried (rtp_stats p) s s' /\ incoming s' = incoming s.
Proof.
  intros [= <- <-]. split; [|done]. exists p, no_observations. unfold log. cbn. rewrite app_nil_r.
  split_and!; [|by rewrite obs_app_nil_r|done..]. by rewrite <- obs_app_assoc.
Qed.

Lemma flush_arrived plan o sent r o' : flush plan o = (sent, (r, o')) ->
  obs_app (_merge_observation_batches sent) (ob_pending o')
  = obs_app (ob_pending o) (arrived plan 0 (length sent + match r with Ok _ => 0 | Raise _ _ => 1 end)).
Proof.
  unfold flush. destruct (item_count (ob_pending o) =? 0) eqn:E0.
  - intros [= <- <- <-]. apply Z.eqb_eq, item_count_zero in E0. by rewrite E0.
  - intros H. apply send_batches_spec in H as (rest & n & Hb & Hp & <- & _). rewrite <- Hp.
    cbn [ob_pending with_pending]. rewrite obs_app_nil_l, <- obs_app_assoc, <- merge_app, <- Hb. by rewrite merge_bounded.
Qed.

Lemma flush_ok_delivered plan o sent z o' : flush plan o = (sent, (Ok z, o')) ->
  _merge_observation_batches sent = ob_pending o.
Proof.
  unfold flush. destruct (item_count (ob_pending o) =? 0) eqn:E0.
  - intros [= <- <- <-]. apply Z.eqb_eq, item_count_zero in E0. by rewrite E0.
  - intros H. apply send_batches_spec in H as (rest & n & Hb & _ & _ & [-> _]). rewrite app_nil_r in Hb.
    by rewrite <- Hb, merge_bounded.
Qed.

Lemma deliver_carried plan s r s' : deliver plan s = (r, s') ->
  carried [] s s' /\ incoming s' = incoming s
  /\ match r with Ok _ => delivered s' = log s | Raise c _ => c = AmiConnectionError end.
Proof.
  unfold deliver. destruct (flush plan (observer s)) as [sent [rf o]] eqn:Ef.
  pose proof (flush_arrived _ _ _ _ _ Ef) as Ha. intros Hd. split_and!.
  - exists (arrived plan 0 (length sent + match rf with Ok _ => 0 | Raise _ _ => 1 end)), (arrived plan 0 (length sent + match rf with Ok _ => 0 | Raise _ _ => 1 end)).
    assert (log s' = obs_app (delivered s) (obs_app (_merge_observation_batches sent) (ob_pending o))) as ->
      by (destruct rf; injection Hd as <- <-; unfold log; cbn; by rewrite obs_app_assoc).
    split_and!; [by rewrite Ha, <- obs_app_assoc|by destruct rf; injection Hd as <- <-|done|apply sublist_nil_l].
  - by destruct rf; injection Hd as <- <-.
  - destruct rf; injection Hd as <- <-; [|done]. cbn. unfold log. by rewrite (flush_ok_delivered _ _ _ _ _ Ef).
Qed.

(** ** Reading a stream of messages *)

Inductive reads (fin : stream_end) : bytes -> list headers -> bytes -> Prop :=
  | reads_none data : reads fin data [] data
  | reads_next data m rest ms final : read_ami_message fin data = Ok (Some m, rest) -> reads fin rest ms final ->
      reads fin data (m :: ms) final.

Lemma reads_app fin d1 l1 d2 l2 d3 : reads fin d1 l1 d2 -> reads fin d2 l2 d3 -> reads fin d1 (l1 ++ l2) d3.
Proof. induction 1; intros; [done|]. cbn. by eapply reads_next; [|apply IHreads]. Qed.

Lemma next_message_result e s r s' : next_message e s = (r, s') ->
  log s' = log s /\ others s' = others s /\ delivered s' = delivered s
  /\ match r with
     | Ok (Some m) => read_ami_message (stream_ends e) (incoming s) = Ok (Some m, incoming s')
                      /\ (length (incoming s') < length (incoming s))%nat
     | Ok None => incoming s' = incoming s
     | Raise c _ => read_error (stream_ends e) c /\ incoming s' = incoming s
     end.
Proof.
  unfold next_message. pose proof (read_ami_message_spec (stream_ends e) (incoming s)) as Hr.
  destruct (read_ami_message _ (incoming s)) as [[[m|] rest]|c x]; intros [= <- <-]; split_and!; try done.
  - destruct Hr as [(text & -> & Ht & _) _ _]. rewrite length_app. cbn. destruct text; [done|cbn; lia].
  - by destruct Hr as [-> ->].
Qed.

(** The statistics the events among [ms] report, from the [n]th on. *)
Fixpoint stats_of (c : AmiRtcpCollector) (e : ami_env) (n : nat) (ms : list headers) : list RtpStats :=
  match ms with
  | [] => []
  | m :: ms' =>
      match (if relevant m then rtcp_event_to_stats m (clock_rate_hz c) (event_ts e n) else Ok None) with
      | Ok (Some x) => x :: stats_of c e (S n) ms'
      | _ => stats_of c e n ms'
      end
  end.

(** What one run of the loop did. *)
Definition collected_from (c : AmiRtcpCollector) (e : ami_env) (limit : option Z) (n : nat)
    (s : connection) (r : result Z) (s' : connection) : Prop :=
  exists ms, reads (stream_ends e) (incoming s) ms (incoming s') /\ let own := stats_of c e n ms in
  carried own s s' /\ Forall normalized own
  /\ match r with
     | Ok k => k = Z.of_nat n + len own /\ limit = Some k
               /\ exists ext, delivered s' = obs_app (log s) ext /\ own `sublist_of` rtp_stats ext
     | Raise x _ => read_error (stream_ends e) x
     end.

Section loop.
Variables (c : AmiRtcpCollector) (e : ami_env).
Hypothesis rate_ok : 0 < clock_rate_hz c < 2 ^ fprec.

(** Nothing was read or observed. *)
Lemma collected_none limit n s x a s' : log s' = log s -> others s' = others s ->
  incoming s' = incoming s -> read_error (stream_ends e) x -> collected_from c e limit n s (Raise x a) s'.
Proof.
  intros Hl Ho Hi Hx. exists []. rewrite Hi. split; [constructor|]. cbn.
  split_and!; [by apply carried_refl|constructor|done].
Qed.

(** A message that reports nothing. *)
Lemma collected_skip limit n s s1 m r s' :
  log s1 = log s -> others s1 = others s ->
  read_ami_message (stream_ends e) (incoming s) = Ok (Some m, incoming s1) ->
  (forall ms, stats_of c e n (m :: ms) = stats_of c e n ms) ->
  collected_from c e limit n s1 r s' -> collected_from c e limit n s r s'.
Proof.
  intros Hl Ho Hm Hs (ms & Hr & Hc & Hn & Hres). exists (m :: ms). split; [by eapply reads_next|]. cbv zeta. rewrite Hs.
  split_and!; [|done|by rewrite Hl in Hres].
  change (stats_of c e n ms) with ([] ++ stats_of c e n ms). eapply carried_trans; [|exact Hc]. by apply carried_refl.
Qed.

Lemma stats_of_skip n m ms :
  (relevant m = false \/ rtcp_event_to_stats m (clock_rate_hz c) (event_ts e n) = Ok None) ->
  stats_of c e n (m :: ms) = stats_of c e n ms.
Proof. cbn [stats_of]. destruct (relevant m); [|done]. by intros [?| ->]. Qed.

Lemma rtcp_stats_case m ts : match rtcp_event_to_stats m (clock_rate_hz c) ts with
  | Ok (Some x) => normalized x | Ok None => True | Raise x _ => ami_error x end.
Proof.
  pose proof (rtcp_stats_result m _ ts rate_ok) as H. destruct (rtcp_event_to_stats _ _ _) as [[x|]|x a]; [done..|by left].
Qed.

(** One event: its statistics are in the log, and delivered if the flush is. *)
Lemma event_observed x n plan s r s' :
  (_ ← on_observer (observe_rtp_stats x);
   _ ← on_observer (observe_metric "asterisk_ami_rtcp_events" (fz 1) None (event_ts e n));
   deliver plan) s = (r, s') ->
  carried [x] s s' /\ incoming s' = incoming s
  /\ match r with
     | Ok _ => exists ext, delivered s' = obs_app (log s) ext /\ rtp_stats ext = [x]
     | Raise y _ => y = AmiConnectionError
     end.
Proof.
  unfold mbind, st_bind. destruct (on_observer (observe_rtp_stats x) s) as [u1 s1] eqn:E1.
  pose proof E1 as [C1 I1]%on_observer_carried. injection E1 as <- E1.
  destruct (on_observer (observe_metric _ _ _ _) s1) as [u2 s2] eqn:E2.
  pose proof E2 as [C2 I2]%on_observer_carried. injection E2 as <- E2. intros (C3 & I3 & Hr)%deliver_carried.
  split_and!.
  - apply (carried_trans [x] []) with s2; [|done]. by apply (carried_trans [x] []) with s1.
  - by rewrite I3, I2, I1.
  - destruct r; [|done]. rewrite Hr, <- E2, <- E1. eexists. split; [|by instantiate (1 := MkObservations _ _ _ [x] _)].
    unfold log, obs_app. cbn. rewrite <- !app_assoc. reflexivity.
Qed.

(** The statistics of one event and those of the rest of the loop. *)
Lemma collected_cons limit n s s1 s2 m x r s' :
  log s1 = log s -> others s1 = others s ->
  read_ami_message (stream_ends e) (incoming s) = Ok (Some m, incoming s1) -> relevant m = true ->
  rtcp_event_to_stats m (clock_rate_hz c) (event_ts e n) = Ok (Some x) ->
  carried [x] s1 s2 -> incoming s2 = incoming s1 ->
  collected_from c e limit (S n) s2 r s' -> collected_from c e limit n s r s'.
Proof.
  intros Hl Ho Hm Hrel Hx Hc Hi (ms & Hr & Hc' & Hn & Hres). rewrite Hi in Hr.
  exists (m :: ms). split; [by eapply reads_next|]. cbv zeta. cbn [stats_of]. rewrite Hrel, Hx.
  pose proof (rtcp_stats_case m (event_ts e n)) as Hnorm. rewrite Hx in Hnorm.
  assert (carried [x] s s2) as Hc2 by (apply (carried_trans [] [x]) with s1; [by apply carried_refl|done]).
  split_and!; [by apply (carried_trans [x]) with s2|by constructor|].
  destruct r as [k|]; [|done]. destruct Hres as (-> & -> & ext & Hd & Hsub). rewrite len_cons. split_and!; [lia|f_equal; lia|].
  destruct Hc2 as (e1 & o1 & L1 & _ & _ & S1). exists (obs_app e1 ext). rewrite Hd, L1, obs_app_assoc. split; [done|].
  cbn. change (x :: stats_of c e (S n) ms) with ([x] ++ stats_of c e (S n) ms). by apply sublist_app.
Qed.

(** The last event wanted. *)
Lemma collected_last limit n s s1 s2 m x ext :
  log s1 = log s -> others s1 = others s ->
  read_ami_message (stream_ends e) (incoming s) = Ok (Some m, incoming s1) -> relevant m = true ->
  rtcp_event_to_stats m (clock_rate_hz c) (event_ts e n) = Ok (Some x) ->
  carried [x] s1 s2 -> incoming s2 = incoming s1 ->
  delivered s2 = obs_app (log s1) ext -> rtp_stats ext = [x] ->
  limit = Some (Z.of_nat (S n)) ->
  collected_from c e limit n s (Ok (Z.of_nat (S n))) s2.
Proof.
  intros Hl Ho Hm Hrel Hx Hc Hi Hd Hext ->. exists [m].
  split; [rewrite Hi; eapply reads_next; [done|constructor]|]. cbv zeta. cbn [stats_of]. rewrite Hrel, Hx.
  pose proof (rtcp_stats_case m (event_ts e n)) as Hnorm. rewrite Hx in Hnorm.
  split_and!; [|by apply Forall_singleton|unfold len; cbn [length]; lia|done|].
  - apply (carried_trans [] [x]) with s1; [by apply carried_refl|done].
  - exists ext. rewrite Hd, Hl, Hext. done.
Qed.

Lemma collect_events_spec limit fuel : forall n s r s', (length (incoming s) < fuel)%nat ->
  match limit with Some m => Z.of_nat n < m | None => True end ->
  collect_events c e limit fuel n s = (r, s') -> collected_from c e limit n s r s'.
Proof.
  induction fuel as [|fuel IH]; intros n s r s' Hf Hlim; [lia|]. cbn [collect_events].
  intros [(m & s1 & Hm & Hrest)|(x & a & s1 & Hm & [= -> ->])]%st_bind_cases.
  2:{ apply next_message_result in Hm as (Hl & Ho & _ & Hx & Hi). by apply collected_none. }
  apply next_message_result in Hm as (Hl & Ho & _ & Hm). destruct m as [m|].
  2:{ injection Hrest as <- <-. apply collected_none; [done..|]. unfold read_error, ami_error. auto. }
  destruct Hm as [Hm Hlen]. destruct (relevant m) eqn:Hrel; cbn [negb] in Hrest.
  2:{ eapply collected_skip; [done..| |apply IH; [lia|done|exact Hrest]]. intros. apply stats_of_skip. auto. }
  pose proof (rtcp_stats_case m (event_ts e n)) as Hx.
  destruct (rtcp_event_to_stats m (clock_rate_hz c) (event_ts e n)) as [[x|]|x a] eqn:Ex.
  - change (((_ ← on_observer (observe_rtp_stats x);
              _ ← on_observer (observe_metric "asterisk_ami_rtcp_events" (fz 1) None (event_ts e n));
              deliver (flushes e (S n))) ≫= fun _ =>
             if match limit with Some n' => n' <=? Z.of_nat (S n) | None => false end
             then mret (Z.of_nat (S n)) else collect_events c e limit fuel (S n)) s1 = (r, s')) in Hrest.
    apply st_bind_cases in Hrest as [(u & s2 & Hd & Hrest)|(y & a & s2 & Hd & [= -> ->])];
      apply event_observed in Hd as (Hc & Hi & Hd).
    + destruct Hd as (ext & Hd & Hext). destruct limit as [m'|]; [destruct (Z.leb_spec m' (Z.of_nat (S n)))|].
      * injection Hrest as <- <-. eapply collected_last; [done..|f_equal; lia].
      * eapply collected_cons; [done..|apply IH; [by rewrite Hi; lia|lia|done]].
      * eapply collected_cons; [done..|apply IH; [by rewrite Hi; lia|done|done]].
    + eapply collected_cons; [done..|]. apply collected_none; [done..|]. unfold read_error, ami_error. subst. auto.
  - cbn in Hrest. eapply collected_skip; [done..| |apply IH; [lia|done|exact Hrest]]. intros. apply stats_of_skip. auto.
  - injection Hrest as <- <-. exists [m]. split; [eapply reads_next; [done|constructor]|]. cbn [stats_of].
    rewrite Hrel, Ex. split_and!; [by apply carried_refl|constructor|by left].
Qed.
End loop.

(** ** The session *)

(** Nothing was observed and nothing written. *)
Definition untouched (s s' : connection) : Prop :=
  log s' = log s /\ others s' = others s /\ delivered s' = delivered s /\ written s' = written s.

(** The first message with a response accepts the login. *)
Inductive login_accepted (fin : stream_end) : bytes -> bytes -> Prop :=
  | accepted_now data m rest response : read_ami_message fin data = Ok (Some m, rest) ->
      _header m "Response" = Some response -> lower response = "success" -> login_accepted fin data rest
  | accepted_later data m rest final : read_ami_message fin data = Ok (Some m, rest) ->
      _header m "Response" = None -> login_accepted fin rest final -> login_accepted fin data final.

Definition recognized (fin : stream_end) (data rest : bytes) : Prop := exists line,
  readline fin data = Ok (line, rest) /\ take (length greeting_prefix) line = greeting_prefix.

Lemma next_message_written e s r s' : next_message e s = (r, s') -> written s' = written s.
Proof. unfold next_message. by destruct (read_ami_message _ _) as [[m rest]|x a]; intros [= <- <-]. Qed.

Lemma await_login_spec e fuel : forall s r s', (length (incoming s) < fuel)%nat -> await_login e fuel s = (r, s') ->
  untouched s s' /\ match r with
                    | Ok _ => login_accepted (stream_ends e) (incoming s) (incoming s')
                    | Raise x _ => read_error (stream_ends e) x
                    end.
Proof.
  unfold untouched. induction fuel as [|fuel IH]; intros s r s' Hf; [lia|]. cbn [await_login].
  intros [(m & s1 & Hm & Hrest)|(x & a & s1 & Hm & [= -> ->])]%st_bind_cases;
    pose proof (next_message_written _ _ _ _ Hm) as Hw; apply next_message_result in Hm as (Hl & Ho & Hd & Hm);
    [|by destruct Hm]. destruct m as [m|].
  2:{ injection Hrest as <- <-. split; [done|]. unfold read_error, ami_error. auto. }
  destruct Hm as [Hm Hlen]. destruct (_header m "Response") as [response|] eqn:Er.
  - destruct (String.eqb_spec (lower response) "success") as [Es|Es]; injection Hrest as <- <-; (split; [done|]).
    + by eapply accepted_now.
    + unfold read_error, ami_error. auto.
  - apply IH in Hrest as [(-> & -> & -> & ->) Hr]; [|lia]. split; [done|]. destruct r; [|done]. by eapply accepted_later.
Qed.

Lemma authenticate_spec c e s r s' : _authenticate c e s = (r, s') ->
  log s' = log s /\ others s' = others s /\ delivered s' = delivered s
  /\ (written s' = written s \/
      exists rest, recognized (stream_ends e) (incoming s) rest /\ written s' = written s ++ login_text c)
  /\ match r with
     | Ok _ => exists rest, recognized (stream_ends e) (incoming s) rest /\ login_accepted (stream_ends e) rest (incoming s')
     | Raise x _ => read_error (stream_ends e) x
     end.
Proof.
  unfold _authenticate, read_error, ami_error. intros [([] & s1 & [Hg ->]%lift_ok & Ha)|(x & a & s1 & Hg & [= -> ->])]%st_bind_cases.
  2:{ destruct (greets_in_time e); cbn in Hg; [done|]. injection Hg as <- <- <-. auto 10. }
  apply st_bind_cases in Ha as [(s1 & s2 & [= <- <-] & Ha)|(x & a & s1 & Hx & _)]; [|done].
  apply st_bind_cases in Ha as [([line rest] & s1 & [Hline ->]%lift_ok & Ha)|(x & a & s1 & Hx & [= -> ->])].
  2:{ destruct (readline _ _) eqn:El in Hx; [done|]. destruct (readline_raises _ _ _ _ El) as [->|[-> ?]]; injection Hx as <- <- <-; auto 10. }
  destruct (readline _ (incoming s)) as [lr|y b] eqn:El; [|by destruct y]. injection Hline as ->. cbn [fst snd] in Ha.
  apply st_bind_cases in Ha as [([] & s1 & [Hgreet ->]%lift_ok & Ha)|(x & a & s1 & Hx & [= -> ->])].
  2:{ destruct (_ && _) in Hx; [done|]. injection Hx as <- <- <-. auto 10. }
  apply guard_else_ok, andb_true_iff in Hgreet as [_ Hp%bool_decide_eq_true].
  apply st_bind_cases in Ha as [([] & s1 & Hm & Ha)|(x & a & s1 & Hx & _)]; [|done].
  injection Hm as <-. apply await_login_spec in Ha as [(Hl & Ho & Hd & Hw) Hr]; [|cbn; lia].
  assert (recognized (stream_ends e) (incoming s) rest) as Hrec by by exists line.
  split_and!; [done..|right; by exists rest|]. destruct r; [by exists rest|done].
Qed.

Lemma connected_carried (e : ami_env) s1 r s' :
  (_ ← on_observer (observe_metric "asterisk_ami_rtcp_connected" (fz 1) None (event_ts e 0));
   deliver (flushes e 0)) s1 = (r, s') ->
  carried [] s1 s' /\ incoming s' = incoming s1 /\ written s' = written s1
  /\ match r with Ok _ => exists ext, delivered s' = obs_app (log s1) ext | Raise x _ => read_error (stream_ends e) x end.
Proof.
  unfold mbind, st_bind. destruct (on_observer (observe_metric _ _ _ _) s1) as [u s2] eqn:E1.
  pose proof E1 as [C1 I1]%on_observer_carried. injection E1 as <- E1. intros Hd.
  assert (written s' = written s1) as ->.
  { unfold deliver in Hd. destruct (flush _ _) as [sent [rf o]]. by destruct rf; injection Hd as <- <-; rewrite <- E1. }
  apply deliver_carried in Hd as (C2 & I2 & Hr). split_and!; [|by rewrite I2, I1|done|].
  - by apply (carried_trans [] []) with s2.
  - unfold read_error, ami_error. destruct r; [|by subst; auto]. destruct C1 as (ext & _ & L1 & _). exists ext. by rewrite Hr, L1.
Qed.

Lemma collect_events_written c e limit fuel : forall n s r s', collect_events c e limit fuel n s = (r, s') ->
  written s' = written s.
Proof.
  induction fuel as [|fuel IH]; intros n s r s'; cbn [collect_events]; [by intros [= <- <-]|].
  intros [(m & s1 & Hm%next_message_written & Hrest)|(x & a & s1 & Hm%next_message_written & [= -> ->])]%st_bind_cases; [|done].
  rewrite <- Hm. clear Hm. destruct m as [m|]; [|by injection Hrest as <- <-].
  destruct (negb _); [by eapply IH|]. unfold lift in Hrest. unfold mbind at 1, st_bind at 1 in Hrest.
  destruct (rtcp_event_to_stats _ _ _) as [[x|]|x a]; [|by eapply IH|by injection Hrest as <- <-].
  unfold on_observer, modify, deliver, mbind, st_bind in Hrest. cbn [observer] in Hrest.
  destruct (flush _ _) as [sent [[z|y b] o]]; [|by injection Hrest as <- <-].
  destruct (match limit with Some _ => _ | None => _ end); [by injection Hrest as <- <-|by apply IH in Hrest].
Qed.

(** What a session did, whatever its outcome. *)
Record session_result (c : AmiRtcpCollector) (e : ami_env) (limit : option Z) (s : connection) (r : result Z)
    (s' : connection) (ms : list headers) : Prop := {
  session_carried : carried (stats_of c e 0 ms) s s';
  session_normalized : Forall normalized (stats_of c e 0 ms);
  session_source : ms = [] \/ exists d1 d2,
    recognized (stream_ends e) (incoming s) d1 /\ login_accepted (stream_ends e) d1 d2 /\ reads (stream_ends e) d2 ms (incoming s');
  session_written : written s' = written s \/
    exists d, recognized (stream_ends e) (incoming s) d /\ written s' = written s ++ login_text c;
  session_outcome : match r with
    | Ok k => limit = Some k /\ len (stats_of c e 0 ms) = k
              /\ exists ext, delivered s' = obs_app (log s) ext /\ stats_of c e 0 ms `sublist_of` rtp_stats ext
    | Raise x _ => ami_error x \/ (x = ConnectionError /\ stream_ends e <> EndOfFile)
    end }.

Section whole_session.
Variables (c : AmiRtcpCollector) (e : ami_env) (limit : option Z).
Hypothesis rate_ok : 0 < clock_rate_hz c < 2 ^ fprec.
Hypothesis limit_ok : match limit with Some m => 1 <= m | None => True end.

Lemma session_spec s r s' : session c e limit s = (r, s') -> exists ms, session_result c e limit s r s' ms.
Proof.
  unfold session. intros [([] & s1 & Ha & Hs)|(x & a & s1 & Ha & [= -> ->])]%st_bind_cases;
    apply authenticate_spec in Ha as (Hl & Ho & Hd & Hw & Hr).
  2:{ exists []. split; cbn; [by apply carried_refl|constructor|auto|done|done]. }
  destruct Hr as (d1 & Hrec & Hacc).
  change (((_ ← on_observer (observe_metric "asterisk_ami_rtcp_connected" (fz 1) None (event_ts e 0));
            deliver (flushes e 0)) ≫= fun _ =>
           s ← get_state; collect_events c e limit (S (length (incoming s))) 0) s1 = (r, s')) in Hs.
  apply st_bind_cases in Hs as [(u & s2 & Hc & Hs)|(x & a & s2 & Hc & [= -> ->])];
    apply connected_carried in Hc as (Hcar & Hi & Hw2 & Hout).
  2:{ exists []. split; cbn; [|constructor|auto|by rewrite Hw2|done].
      apply (carried_trans [] []) with s1; [by apply carried_refl|done]. }
  assert (carried [] s s2) as Hss2 by (apply (carried_trans [] []) with s1; [by apply carried_refl|done]).
  apply st_bind_cases in Hs as [(s3 & s4 & [= <- <-] & Hs)|(x & a & s3 & Hx & _)]; [|done].
  pose proof (collect_events_written _ _ _ _ _ _ _ _ Hs) as Hw3.
  apply (collect_events_spec c e rate_ok) in Hs as (ms & Hreads & Hc & Hn & Hres); [|lia|by destruct limit; lia].
  exists ms. split; [|done| | |].
  - by apply (carried_trans []) with s2.
  - right. exists d1, (incoming s1). by rewrite Hi in Hreads.
  - by rewrite Hw3, Hw2.
  - destruct r as [k|]; [|done]. destruct Hres as (-> & -> & ext & Hdel & Hsub). split_and!; [done|lia|].
    destruct Hss2 as (e0 & _ & L0 & _). exists (obs_app e0 ext). rewrite Hdel, L0, obs_app_assoc. split; [done|].
    cbn. by apply sublist_inserts_l.
Qed.
End whole_session.

(** ** Properties *)


(** ** Example *)

Definition sample_collector : AmiRtcpCollector := MkAmi "127.0.0.1" 5038 "voxbench" "secret" 8000 (fz 5).

Definition greeting_line : bytes := greeting_prefix ++ utf8 (chars "9.0.0") ++ [byte_of 13; newline].

Definition sample_connection : connection :=
  MkConnection (greeting_line ++ message_text [("Response", "Success")] ++ message_text [("Event", "Newchannel")]
                ++ message_text sample_event ++ message_text [("Event", "Hangup")])
    [] false (new_observer "run-1") no_observations no_observations.

(** The first flush succeeds and another thread observes meanwhile. *)
Definition sample_env : ami_env := MkAmiEnv true true EndOfFile (fun _ => sample_ts)
  (fun n _ => MkSend true (match n with O => MkObservations [] [] []
     [MkRtpStats None (Some (fz 1)) None None None sample_ts] [] | _ => no_observations end)).

Definition sample_result := collect sample_collector sample_env (Some 1) sample_connection.

Lemma sample_rate : 0 < clock_rate_hz sample_collector < 2 ^ fprec.
Proof. split; vm_compute; reflexivity. Qed.

Lemma sample_collects :
  collect sample_collector sample_env (Some 1) sample_connection = (sample_result.1, sample_result.2).
Proof. unfold sample_result. by destruct (collect _ _ _ _). Qed.

