(* ===== verification/RunStores.v ===== *)
(** * The contract of a run repository

    What the handlers of the run API rely on when they read a run, change it
    and save it again ([RunRepository] of [control_plane/run_api.py]), as an
    interface with two implementations: the in-memory repository, which hands
    out the stored object itself, so that a change is visible before the save,
    and the Postgres repository, which hands out a copy and whose calls fail
    as the database does. *)
From S2P Require Import Prelude Effects Collections PyFloat PyData JobQueue RunModel Repository.

Open Scope Z_scope.

(** [fetch] is [repository.get], [commit] is [repository.save]; [touch] is
    what assigning to a field of a fetched run does to the repository.  [F] is
    what the environment decides about a call. *)
Class RunStore (R F : Type) := {
  fetch : F -> string -> st R (option StoredRun);
  commit : F -> StoredRun -> st R unit;
  touch : StoredRun -> R -> R }.

(** What a store may change in a run it keeps: the spelling of the identifier
    and the driver's form of JSON values. *)
Record same_run (a b : StoredRun) : Prop := {
  same_status : status a = status b;
  same_conversation : conversation_id a = conversation_id b;
  same_started : started_at a = started_at b;
  same_ended : ended_at a = ended_at b;
  same_failure : failure_alias a = failure_alias b;
  same_recordings : map (fun r => (rec_stage r, rec_uri r, rec_duration_ms r)) (recordings a)
                    = map (fun r => (rec_stage r, rec_uri r, rec_duration_ms r)) (recordings b);
  same_metrics : metrics a = metrics b;
  same_verdicts : map (fun v => (ver_stage v, ver_invariant v, ver_passed v, ver_detail v)) (verifications a)
                  = map (fun v => (ver_stage v, ver_invariant v, ver_passed v, ver_detail v)) (verifications b);
  same_sip : sip_events a = sip_events b;
  same_rtp : rtp_stats a = rtp_stats b;
  same_events : map (fun e => (ev_event_id e, ev_category e, ev_name e, ev_ts e)) (timeline_events a)
                = map (fun e => (ev_event_id e, ev_category e, ev_name e, ev_ts e)) (timeline_events b) }.

Lemma same_run_refl run : same_run run run.
Proof. by constructor. Qed.

Definition event_ids (run : StoredRun) : list string := map ev_event_id (timeline_events run).

Lemma same_run_ids a b : same_run a b -> event_ids a = event_ids b.
Proof.
  intros H. apply same_events in H. apply (f_equal (map (fun x => x.1.1.1))) in H.
  by rewrite !map_map in H.
Qed.

(** The laws.  [view s k] is the run stored under the key [k], [id_of k] the
    spelling of its identifier. *)
Class RunStoreLaws (R F : Type) `{RunStore R F} := {
  store_key : Type;
  store_key_dec : EqDecision store_key;
  key_of : string -> option store_key;
  id_of : store_key -> string;
  view : R -> store_key -> option StoredRun;
  store_ok : R -> Prop;
  healthy : F -> Prop;
  fetch_spec f id s r s' : fetch f id s = (r, s') ->
    s' = s /\ forall o, r = Ok o -> o = key_of id ≫= view s;
  fetch_raises f id s c a s' : fetch f id s = (Raise c a, s') -> c <> HTTPException;
  commit_raises f run s c a s' : commit f run s = (Raise c a, s') -> c <> HTTPException;
  view_id s k run : store_ok s -> view s k = Some run -> run_id run = id_of k;
  id_key k id : key_of id = Some k -> key_of (id_of k) = Some k;
  view_validated s k run : store_ok s -> view s k = Some run -> validated run;
  commit_spec f run s r s' : store_ok s -> validated run -> commit f run s = (r, s') ->
    (s' = s /\ is_ok r = false)
    \/ (r = Ok tt /\ store_ok s' /\ exists k, key_of (run_id run) = Some k
        /\ (exists run', view s' k = Some run' /\ same_run run' run)
        /\ forall k', k' <> k -> view s' k' = view s k');
  commit_healthy f run s k : healthy f -> key_of (run_id run) = Some k -> NoDup (event_ids run) ->
    is_ok (fst (commit f run s)) = true;
  touch_spec run s k run0 : store_ok s -> validated run -> key_of (run_id run) = Some k ->
    view s k = Some run0 ->
    store_ok (touch run s)
    /\ (view (touch run s) k = Some run0 \/ view (touch run s) k = Some run)
    /\ forall k', k' <> k -> view (touch run s) k' = view s k' }.

#[export] Existing Instance store_key_dec.

(** ** The in-memory repository *)

#[export] Instance memory_store : RunStore InMemory.store unit := {|
  fetch _ id := fun s => (Ok (InMemory.get id s), s);
  commit _ run := modify (InMemory.save run);
  touch := InMemory.save |}.

Record memory_ok (s : InMemory.store) : Prop := {
  memory_keys : forall id run, dict_get id s = Some run -> run_id run = id;
  memory_validated : forall id run, dict_get id s = Some run -> validated run }.

Lemma memory_saved run s : memory_ok s -> validated run -> memory_ok (InMemory.save run s).
Proof.
  intros [Hk Hv] Hrun. unfold InMemory.save.
  split; intros id run'; rewrite dict_get_set; case_decide; try (intros [= <-]); eauto.
Qed.

#[export] Program Instance memory_laws : RunStoreLaws InMemory.store unit := {|
  store_key := string;
  store_key_dec := _;
  key_of := Some;
  id_of k := k;
  view s k := dict_get k s;
  store_ok := memory_ok;
  healthy _ := True |}.
Next Obligation. by intros f id s r s' [= <- <-]; split; [|intros o [= <-]]. Qed.
Next Obligation. by intros f id s c a s' [=]. Qed.
Next Obligation. by intros f run s c a s' [=]. Qed.
Next Obligation. intros s k run [Hk _] Hr. eauto. Qed.
Next Obligation. done. Qed.
Next Obligation. intros s k run [_ Hv] Hr. eauto. Qed.
Next Obligation.
  intros f run s r s' Hs Hrun [= <- <-]. right. split; [done|]. split; [by apply memory_saved|].
  exists (run_id run). split; [done|]. unfold InMemory.save. split.
  - exists run. split; [apply dict_get_set_eq | apply same_run_refl].
  - intros k' Hne. by apply dict_get_set_ne.
Qed.
Next Obligation. done. Qed.
Next Obligation.
  intros run s k run0 Hs Hrun [= <-] Hv. split; [by apply memory_saved|]. unfold InMemory.save.
  split; [right; apply dict_get_set_eq|]. intros k' Hne. by apply dict_get_set_ne.
Qed.

(** ** The Postgres repository *)

(** The clock and the database of the call, and the primary keys it draws. *)
Record db_call := MkDbCall { db_env : env; db_ids : Z -> uuid }.

Section postgres.
Context (jsonb : jdict -> jdict).

Local Instance postgres_store : RunStore repo_db db_call := {|
  fetch f := get_run jsonb (db_env f);
  commit f := save (db_ids f) (db_env f);
  touch _ db := db |}.

Definition stored_run (db : repo_db) (u : uuid) : option StoredRun :=
  match db_runs (repo_core db) !! u with
  | Some row => match _restore jsonb u row (repo_tables db) with Ok run => Some run | _ => None end
  | None => None
  end.

Lemma restore_id u row t run : _restore jsonb u row t = Ok run -> run_id run = uuid_str u /\ validated run.
Proof.
  unfold _restore. intros H. apply bind_ok_inv in H as (e & He & H).
  apply bind_ok_inv in H as (items & Hi & H). injection H as <-. cbn. unfold validated. cbn. eauto.
Qed.

Lemma stored_run_inv db u run : stored_run db u = Some run -> run_id run = uuid_str u /\ validated run.
Proof.
  unfold stored_run. destruct (_ !! u) as [row|]; [|done].
  destruct (_restore _ _ _ _) eqn:E; [|done]. intros [= <-]. eapply restore_id, E.
Qed.

Lemma get_run_reads e id db r db' : get_run jsonb e id db = (r, db') ->
  db' = db /\ forall o, r = Ok o -> o = parse_uuid id ≫= stored_run db.
Proof.
  unfold get_run, reading, catch, repo_access. destruct (parse_uuid id) as [u|]; [|by intros [= <- <-]; split; [|intros o [= <-]]].
  unfold mbind, st_bind, get_state, mret, st_ret, throw. cbn -[_restore].
  destruct (env_fault e); [intros [= <- <-]; split; [done|intros o [=]]|]. unfold stored_run.
  destruct (db_runs (repo_core db) !! u) as [row|]; cbn -[_restore]; [|by intros [= <- <-]; split; [|intros o [= <-]]].
  unfold fmap, st_fmap, lift. destruct (_restore jsonb u row (repo_tables db)) as [run|c a].
  - by intros [= <- <-]; split; [|intros o [= <-]].
  - intros [= <- <-]. split; [done|]. by intros o [=].
Qed.

Lemma get_run_raises e id db c a db' : get_run jsonb e id db = (Raise c a, db') -> c <> HTTPException.
Proof.
  unfold get_run, reading, catch. destruct (parse_uuid id); [|by intros [=]].
  intros H. case_match. case_match; [done|]. unfold throw in H. by injection H as <- _ _.
Qed.

Lemma save_raises ids e run db c a db' : save ids e run db = (Raise c a, db') -> c <> HTTPException.
Proof.
  unfold save, uuid_or_error, repo_transaction, catch, transaction, mbind, st_bind, lift.
  destruct (parse_uuid (run_id run)) as [u|]; cbn [from_option_err]; [|by intros [= <- _ _]].
  unfold repo_access, _save_in_session, mbind, st_bind, mret, st_ret, throw, modify, get_state, put_state.
  destruct (env_fault e); [by intros [= <- _ _]|].
  destruct (bool_decide _); [by intros [=]|by intros [= <- _ _]].
Qed.

Lemma stored_form_same u run : same_run (stored_form jsonb u run) run.
Proof. constructor; cbn; rewrite ?map_map; done. Qed.

Lemma stored_saved ids u run db : validated run ->
  stored_run (saved ids u run db) u = Some (stored_form jsonb u run).
Proof.
  intros Hv. unfold stored_run. rewrite saved_runs, lookup_insert_eq. by rewrite restore_saved.
Qed.

Lemma stored_saved_other ids u v run db : v <> u -> stored_run (saved ids u run db) v = stored_run db v.
Proof.
  intros Hne. unfold stored_run. rewrite saved_runs, lookup_insert_ne by done.
  destruct (_ !! v) as [row|]; [|done]. by rewrite restore_other.
Qed.

Program Definition postgres_laws : RunStoreLaws repo_db db_call := {|
  store_key := uuid;
  store_key_dec := _;
  key_of := parse_uuid;
  id_of := uuid_str;
  view := stored_run;
  store_ok _ := True;
  healthy f := env_fault (db_env f) = false |}.
Next Obligation. intros f id s r s'. apply get_run_reads. Qed.
Next Obligation. intros f id s c a s'. apply get_run_raises. Qed.
Next Obligation. intros f run s c a s' H. cbn in H. exact (save_raises _ _ _ _ _ _ _ H). Qed.
Next Obligation. intros db u run _ Hr. apply stored_run_inv in Hr as [Hr _]. exact Hr. Qed.
Next Obligation. intros u id Hu. cbn in *. by eapply parse_uuid_str, parse_uuid_ok. Qed.
Next Obligation. intros db u run _ Hr. apply stored_run_inv in Hr as [_ Hr]. exact Hr. Qed.
Next Obligation.
  intros f run db r db' Hdb Hv. cbn. intros H. destruct r as [x|c a].
  - right. destruct x. pose proof H as Hs. apply save_ok in Hs as (u & Hu & _ & _ & ->).
    split; [done|]. split; [done|].
    exists u. split; [done|]. split.
    + eexists. split; [by apply stored_saved | apply stored_form_same].
    + intros v Hne. by apply stored_saved_other.
  - left. split; [|done]. pose proof (clean_save (db_ids f) (db_env f) run) as Hc. eapply Hc, H.
Qed.
Next Obligation.
  intros f run db u Hf Hu Hn. cbn. by rewrite (save_run _ _ _ _ u).
Qed.
Next Obligation. intros run db u run0 Hdb Hv Hu Hr. cbn. auto. Qed.
End postgres.
