(* ===== verification/ObservedRuns.v ===== *)
(** * The observed runs of the run API

    The handlers of [control_plane/run_api.py] that create a run from outside,
    take its observations and end it, against the interface of a run
    repository ([RunStore]): the validated requests, the buffers of the audio
    observed so far, the WAV files written from them, and one definition per
    handler.  A handler has no [await], so it is one step; what a call needs
    from the environment (the clock, a fresh UUID, the answers of the database
    and of the disk) is an argument of it.  Timestamps are aware. *)
From S2P Require Import Prelude Effects Collections PyFloat PyData Bytes Base64 JobQueue RunModel Repository Timeline TypedTimeline Registry SignalChecks PyUrl RunStores.

Open Scope Z_scope.

(** ** Requests *)

Record MetricObservationRequest := MkMetricObservation {
  mo_stage : option string; mo_name : string; mo_value : float; mo_ts : instant }.
Record AudioChunkObservationRequest := MkAudioChunkObservation {
  ao_stage : string; pcm_s16le_base64 : string; ao_sample_rate_hz : Z; ao_channels : Z; ao_ts : instant }.
Record SipEventObservationRequest := MkSipObservation {
  so_call_id : option string; so_method : string; so_direction : string; so_ts : instant;
  so_status_code : option Z; so_summary_alias : option string }.
Record RtpStatObservationRequest := MkRtpObservation {
  ro_ts : instant; ro_jitter_ms : option float; ro_loss_pct : option float; ro_mos : option float;
  ro_direction : option string; ro_rtt_ms : option float }.
Record TimelineEventObservationRequest := MkEventObservation {
  to_event_id : string; to_category : string; to_name : string; to_ts : instant;
  to_clock_domain : string; to_alignment_uncertainty_ms : option float; to_direction : option string;
  to_stage : option string; to_stream_alias : option string; to_source : string;
  to_correlation_alias : option string; to_attributes : jdict }.
Record ObservationBatchRequest := MkBatch {
  ob_run_id : string; ob_metrics : list MetricObservationRequest;
  ob_audio_chunks : list AudioChunkObservationRequest;
  ob_sip_events : list SipEventObservationRequest; ob_rtp_stats : list RtpStatObservationRequest;
  ob_timeline_events : list TimelineEventObservationRequest }.
Record ObservationBatchResponse := MkBatchResponse {
  br_run_id : string; metric_count : Z; audio_chunk_count : Z; sip_event_count : Z;
  rtp_stat_count : Z; timeline_event_count : Z; recording_count : Z }.
Record SipEventRequest := MkSipRequest { sr_run_id : string; sr_event : SipEventObservationRequest }.
Record RtpStatRequest := MkRtpRequest { rr_run_id : string; rr_stat : RtpStatObservationRequest }.
Record RunCreateRequest := MkCreate {
  config_name : string; configs : list jdict; manifests : list jdict; rc_call_id : option string;
  rc_environment : RunEnvironmentMetadata; rc_checklist : list ReadinessChecklistItem }.

(** *** Validation

    A declared constraint of a field ([Field(min_length=...)]) is checked
    before the field's validator; a violation of either is a [ValueError],
    which the framework answers with status 422. *)

Definition bounded (lo hi : Z) (field value : string) : result unit :=
  guard_else ((lo <=? strlen value) && (strlen value <=? hi)) ValueError (field +:+ " has a wrong length").

Definition reference_field (lo hi : Z) (field value : string) : result string :=
  _ ← bounded lo hi field value; _validate_reference_text value field.

Definition optional_field {A B} (f : A -> result B) (v : option A) : result (option B) :=
  match v with None => Ok None | Some x => Some <$> f x end.

(** [Field(ge=lo, le=hi)] of a model without infinities and NaN. *)
Definition float_field (lo : float) (hi : option float) (field : string) (x : float) : result float :=
  _ ← guard_else (is_finite x && fleb lo x && match hi with Some h => fleb x h | None => true end)
        ValueError (field +:+ " is out of range");
  Ok x.

(** A value of a [Literal] type. *)
Definition literal_field (values : list string) (field value : string) : result string :=
  _ ← guard_else (bool_decide (value ∈ values)) ValueError (field +:+ " is not one of its literals");
  Ok value.

Definition validate_metric (m : MetricObservationRequest) : result MetricObservationRequest :=
  stage ← validate_optional (mo_stage m) "stage";
  name ← _validate_reference_text (mo_name m) "name";
  _ ← guard_else (is_finite (mo_value m)) ValueError "value must be finite";
  Ok (MkMetricObservation stage name (mo_value m) (mo_ts m)).

Definition validate_chunk (c : AudioChunkObservationRequest) : result AudioChunkObservationRequest :=
  stage ← _validate_reference_text (ao_stage c) "stage";
  _ ← guard_else (strlen (pcm_s16le_base64 c) <=? 1400000) ValueError "pcm_s16le_base64 is too long";
  _ ← guard_else ((8000 <=? ao_sample_rate_hz c) && (ao_sample_rate_hz c <=? 48000)) ValueError "sample_rate_hz";
  _ ← guard_else ((1 <=? ao_channels c) && (ao_channels c <=? 2)) ValueError "channels";
  Ok (MkAudioChunkObservation stage (pcm_s16le_base64 c) (ao_sample_rate_hz c) (ao_channels c) (ao_ts c)).

Definition validate_sip (e : SipEventObservationRequest) : result SipEventObservationRequest :=
  call ← validate_optional (so_call_id e) "call_id";
  method ← _validate_reference_text (so_method e) "method";
  direction ← literal_field ["in"; "out"] "direction" (so_direction e);
  alias ← validate_optional (so_summary_alias e) "summary_alias";
  Ok (MkSipObservation call method direction (so_ts e) (so_status_code e) alias).

Definition validate_rtp (s : RtpStatObservationRequest) : result RtpStatObservationRequest :=
  jitter ← optional_field (float_field fzero None "jitter_ms") (ro_jitter_ms s);
  loss ← optional_field (float_field fzero (Some (fz 100)) "loss_pct") (ro_loss_pct s);
  mos ← optional_field (float_field fzero (Some (fz 5)) "mos") (ro_mos s);
  direction ← optional_field (literal_field ["received"; "sent"] "direction") (ro_direction s);
  rtt ← optional_field (float_field fzero None "rtt_ms") (ro_rtt_ms s);
  Ok (MkRtpObservation (ro_ts s) jitter loss mos direction rtt).

(** [str | int | float | bool | None]. *)
Definition attribute_type (v : json) : bool :=
  match v with
  | JStr _ | JInt _ | JBool _ | JNull => true
  | JFloat x => is_finite x
  | JArr _ | JObj _ => false
  end.

Definition validate_attribute (result_ : jdict) (kv : string * json) : result jdict :=
  safe_key ← _validate_reference_text kv.1 "attributes key";
  _ ← guard_else (negb (String.eqb safe_key "") && (strlen safe_key <=? 64)) ValueError
        "attribute keys must contain 1 to 64 characters";
  item ← (match kv.2 with
          | JStr s =>
              s ← _validate_reference_text s ("attribute '" +:+ safe_key +:+ "'");
              _ ← guard_else (strlen s <=? 256) ValueError
                    "string attribute values must not exceed 256 characters";
              Ok (JStr s)
          | v => Ok v
          end);
  Ok (dict_set safe_key item result_).

Definition validate_attributes (value : jdict) : result jdict :=
  _ ← guard_else (forallb (fun kv => attribute_type kv.2) value && (len value <=? 16)) ValueError "attributes";
  foldM_res validate_attribute [] value.

Definition validate_event (e : TimelineEventObservationRequest) : result TimelineEventObservationRequest :=
  event_id ← reference_field 1 128 "event_id" (to_event_id e);
  category ← typed_category (to_category e);
  name ← reference_field 1 128 "name" (to_name e);
  clock ← reference_field 1 64 "clock_domain" (to_clock_domain e);
  uncertainty ← optional_field (float_field fzero None "alignment_uncertainty_ms") (to_alignment_uncertainty_ms e);
  direction ← optional_field (reference_field 1 32 "direction") (to_direction e);
  stage ← optional_field (reference_field 1 255 "stage") (to_stage e);
  stream ← optional_field (reference_field 1 128 "stream_alias") (to_stream_alias e);
  source ← reference_field 1 128 "source" (to_source e);
  correlation ← optional_field (reference_field 1 128 "correlation_alias") (to_correlation_alias e);
  attributes ← validate_attributes (to_attributes e);
  Ok (MkEventObservation event_id category name (to_ts e) clock uncertainty direction stage stream
        source correlation attributes).

(** [ObservationBatchRequest.require_observation]. *)
Definition require_observation (b : ObservationBatchRequest) : result unit :=
  _ ← guard_else (negb (bool_decide (ob_metrics b = [] /\ ob_audio_chunks b = [] /\ ob_sip_events b = []
                                     /\ ob_rtp_stats b = [] /\ ob_timeline_events b = [])))
        ValueError "at least one observation is required";
  guard_else (bool_decide (NoDup (map to_event_id (ob_timeline_events b)))) ValueError
    "timeline event_id values must be unique within a batch".

Definition validate_batch (b : ObservationBatchRequest) : result ObservationBatchRequest :=
  _ ← guard_else ((len (ob_metrics b) <=? 500) && (len (ob_audio_chunks b) <=? 64)
                  && (len (ob_sip_events b) <=? 64) && (len (ob_rtp_stats b) <=? 64)
                  && (len (ob_timeline_events b) <=? 128)) ValueError "too many observations";
  metrics ← mapM_res validate_metric (ob_metrics b);
  chunks ← mapM_res validate_chunk (ob_audio_chunks b);
  sip ← mapM_res validate_sip (ob_sip_events b);
  rtp ← mapM_res validate_rtp (ob_rtp_stats b);
  events ← mapM_res validate_event (ob_timeline_events b);
  let batch := MkBatch (ob_run_id b) metrics chunks sip rtp events in
  _ ← require_observation batch;
  Ok batch.

(** *** What a request becomes *)

Definition metric_artifact (m : MetricObservationRequest) : MetricArtifact :=
  MkMetric (mo_stage m) (mo_name m) (mo_value m) (mo_ts m).
Definition sip_response (e : SipEventObservationRequest) : SipEventResponse :=
  MkSipEvent (so_call_id e) (so_method e) (so_direction e) (so_status_code e) (so_summary_alias e) (so_ts e).
Definition rtp_response (s : RtpStatObservationRequest) : RtpStatResponse :=
  MkRtpStat (ro_ts s) (ro_jitter_ms s) (ro_loss_pct s) (ro_mos s) (ro_direction s) (ro_rtt_ms s).
Definition event_artifact (e : TimelineEventObservationRequest) : TimelineEventArtifact :=
  MkTimelineEvent (to_event_id e) (to_category e) (to_name e) (to_ts e) (to_clock_domain e)
    (to_alignment_uncertainty_ms e) (to_direction e) (to_stage e) (to_stream_alias e) (to_source e)
    (to_correlation_alias e) (to_attributes e).

(** ** The answer for a run *)

Record RunResponse := MkRunResponse {
  resp_run_id : string; resp_config_hash : string; resp_call_id : option string;
  resp_conversation_id : string; resp_provider : string; resp_engine : string; resp_status : string;
  resp_failure_alias : option string; resp_recordings : list RecordingArtifact;
  resp_spans : list SpanArtifact; resp_metrics : list MetricArtifact;
  resp_verifications : list VerificationResult; resp_environment : RunEnvironmentMetadata;
  resp_readiness_checklist : list ReadinessChecklistItem; resp_readiness_summary : ReadinessSummary }.

Definition to_response (run : StoredRun) : RunResponse :=
  MkRunResponse (run_id run) (config_hash run) (call_id run) (conversation_id run) (provider run)
    (engine run) (status run) (failure_alias run) (recordings run) (spans run) (metrics run)
    (verifications run) (environment run) (readiness_checklist run) (readiness_summary run).

(** ** WAV files *)

Definition le32 (v : Z) : bytes :=
  [byte_of v; byte_of (v / 256); byte_of (v / 65536); byte_of (v / 16777216)].

(** The file [wave] writes for 16-bit frames. *)
Definition wav_bytes (channels rate : Z) (pcm : bytes) : bytes :=
  map (fun c => byte_of (code c)) (chars "RIFF") ++ le32 (36 + len pcm)
  ++ map (fun c => byte_of (code c)) (chars "WAVEfmt ") ++ le32 16 ++ le16 1 ++ le16 channels
  ++ le32 rate ++ le32 (channels * rate * 2) ++ le16 (channels * 2) ++ le16 16
  ++ map (fun c => byte_of (code c)) (chars "data") ++ le32 (len pcm) ++ pcm.

(** What the disk answers when a file is written: it may fail, and leave the
    old content, no file or a part of the new one. *)
Inductive write_outcome :=
  | Wrote
  | WriteFailed (cls : exn_class) (message : string) (content_left : option bytes).

(** ** The state of the API *)

Record RunAudioBuffer := MkBuffer { buf_sample_rate_hz : Z; buf_channels : Z; buf_pcm_s16le : bytes }.

#[global] Instance pair_eq_dec_strings : EqDecision (string * string) := _.

Record RunApiState (R : Type) := MkApi {
  repository : R;
  audio_buffers : list (string * string * RunAudioBuffer);
  files : gmap string bytes }.
Arguments MkApi {R}. Arguments repository {R}. Arguments audio_buffers {R}. Arguments files {R}.

(** What the environment decides about a call: the answers of the repository
    to the read and to the save, the clock, a fresh UUID and the disk. *)
Record call_env (F : Type) := MkCall {
  on_get : F; on_save : F; call_now : instant; call_uuid : uuid;
  disk : string -> bytes -> write_outcome }.
Arguments MkCall {F}. Arguments on_get {F}. Arguments on_save {F}. Arguments call_now {F}.
Arguments call_uuid {F}. Arguments disk {F}.

(** [raise HTTPException(status_code, detail)]; the text is [str(exc)]. *)
Definition http_error {A} (status_code : Z) (detail : string) : result A :=
  Raise HTTPException (pretty status_code +:+ ": " +:+ detail).

Definition unknown_run (id : string) : string := "unknown run '" +:+ id +:+ "'".

(** ** The handlers *)

(** Changes of a fetched run. *)
Definition with_observations (m : list MetricArtifact) (sip : list SipEventResponse)
    (rtp : list RtpStatResponse) (events : list TimelineEventArtifact) (run : StoredRun) : StoredRun :=
  MkStoredRun (run_id run) (config_hash run) (call_id run) (conversation_id run) (provider run)
    (engine run) (status run) (started_at run) (ended_at run) (resolved_config run) (recordings run)
    (spans run) (metrics run ++ m) (failure_alias run) (verifications run) (sip_events run ++ sip)
    (rtp_stats run ++ rtp) (timeline_events run ++ events) (environment run) (readiness_checklist run).

Definition with_recordings (r : list RecordingArtifact) (run : StoredRun) : StoredRun :=
  MkStoredRun (run_id run) (config_hash run) (call_id run) (conversation_id run) (provider run)
    (engine run) (status run) (started_at run) (ended_at run) (resolved_config run) r
    (spans run) (metrics run) (failure_alias run) (verifications run) (sip_events run)
    (rtp_stats run) (timeline_events run) (environment run) (readiness_checklist run).

Definition with_conversation (c : string) (run : StoredRun) : StoredRun :=
  MkStoredRun (run_id run) (config_hash run) (call_id run) c (provider run)
    (engine run) (status run) (started_at run) (ended_at run) (resolved_config run) (recordings run)
    (spans run) (metrics run) (failure_alias run) (verifications run) (sip_events run)
    (rtp_stats run) (timeline_events run) (environment run) (readiness_checklist run).

Definition completed_run (v : list VerificationResult) (now : instant) (run : StoredRun) : StoredRun :=
  MkStoredRun (run_id run) (config_hash run) (call_id run) (conversation_id run) (provider run)
    (engine run) "completed" (started_at run) (Some now) (resolved_config run) (recordings run)
    (spans run) (metrics run) (failure_alias run) v (sip_events run)
    (rtp_stats run) (timeline_events run) (environment run) (readiness_checklist run).

Definition failed_run (alias : string) (now : instant) (run : StoredRun) : StoredRun :=
  MkStoredRun (run_id run) (config_hash run) (call_id run) (conversation_id run) (provider run)
    (engine run) "failed" (started_at run) (Some now) (resolved_config run) (recordings run)
    (spans run) (metrics run ++ [MkMetric None "run_failed" (fz 1) now]) (Some alias)
    (verifications run) (sip_events run) (rtp_stats run) (timeline_events run) (environment run)
    (readiness_checklist run).

(** [{stage["type"] for stage in ... if isinstance(stage, dict) and
    isinstance(stage.get("type"), str)}]. *)
Definition typed_stage (stage : json) : list string :=
  match stage with JObj d => match jget "type" d with Some (JStr s) => [s] | _ => [] end | _ => [] end.

Definition _configured_stage_names (run : StoredRun) : result (list string) :=
  (fun stages => concat (map typed_stage stages)) <$> config_pipeline (resolved_config run).

Definition _decode_audio_chunk (chunk : AudioChunkObservationRequest) : result bytes :=
  pcm ← (match b64decode (pcm_s16le_base64 chunk) with
         | Ok pcm => Ok pcm
         | Raise _ _ => http_error 400 "pcm_s16le_base64 is not valid base64"
         end);
  _ ← (match pcm with [] => http_error 400 "audio chunks must not be empty" | _ => Ok tt end);
  if len pcm mod (2 * ao_channels chunk) =? 0 then Ok pcm
  else http_error 400 "PCM16LE audio length must contain complete channel frames".

(** The stages a batch names. *)
Definition referenced_stages (b : ObservationBatchRequest) : list string :=
  remove_dups (omap mo_stage (ob_metrics b) ++ map ao_stage (ob_audio_chunks b)
               ++ omap to_stage (ob_timeline_events b)).

Definition unknown_stages (configured : list string) (b : ObservationBatchRequest) : list string :=
  sorted_by str_leb (filterb (fun s => negb (bool_decide (s ∈ configured))) (referenced_stages b)).

(** [formats_by_stage]: the sets of formats of the stages, in order. *)
Definition add_format (formats : list (string * list (Z * Z))) (c : AudioChunkObservationRequest)
    : list (string * list (Z * Z)) :=
  let seen := dict_get_default (ao_stage c) [] formats in
  let format := (ao_sample_rate_hz c, ao_channels c) in
  dict_set (ao_stage c) (if bool_decide (format ∈ seen) then seen else seen ++ [format]) formats.

Definition formats_by_stage (chunks : list AudioChunkObservationRequest) : list (string * list (Z * Z)) :=
  fold_left add_format chunks [].

Definition format_changed {A} (stage : string) : result A :=
  http_error 409 ("audio format changed within stage '" +:+ stage +:+ "'").

Definition same_format (buffers : list (string * string * RunAudioBuffer)) (run : string)
    (entry : string * list (Z * Z)) : result unit :=
  match dict_get (run, entry.1) buffers with
  | Some b => if bool_decide ((buf_sample_rate_hz b, buf_channels b) ∈ entry.2) then Ok tt
              else format_changed entry.1
  | None => Ok tt
  end.

Definition check_formats (buffers : list (string * string * RunAudioBuffer)) (run : string)
    (chunks : list AudioChunkObservationRequest) : result unit :=
  let formats := formats_by_stage chunks in
  match find (fun e => 1 <? len e.2) formats with
  | Some (stage, _) => format_changed stage
  | None => foldM_res (fun _ e => same_format buffers run e) tt formats
  end.

(** The recording of a stage replaces the first one of that stage. *)
Fixpoint put_recording (r : RecordingArtifact) (l : list RecordingArtifact) : list RecordingArtifact :=
  match l with
  | [] => [r]
  | x :: l' => if String.eqb (rec_stage x) (rec_stage r) then r :: l' else x :: put_recording r l'
  end.

(** [len(pcm) / (2 * channels * rate) * 1000.0]. *)
Definition buffer_duration (b : RunAudioBuffer) : result float :=
  q ← int_truediv (len (buf_pcm_s16le b)) (2 * buf_channels b * buf_sample_rate_hz b);
  Ok (fmul q (fz 1000)).

Section handlers.
Context {R F : Type} `{RunStore R F}.
(** The resolved directory of the recordings. *)
Context (artifact_root : string).
(** The verification of a run's recordings, which reads the files. *)
Context (open_wav : gmap string bytes -> string -> result wav_file) (log10 : float -> result float).
(** [_resolve_run_request] without the mapping of its errors. *)
Context (resolve_request : RunCreateRequest -> result ResolvedConfig).
Implicit Types (e : call_env F) (run : StoredRun).

Definition recording_path (run stage : string) : string :=
  artifact_root +:+ "/" +:+ run +:+ "/" +:+ quote [] stage +:+ ".wav".

Definition on_repository {A} (m : st R A) : st (RunApiState R) A := fun s =>
  let '(r, repo) := m (repository s) in (r, MkApi repo (audio_buffers s) (files s)).

(** [stored = api_state.repository.get(id)] and the answer for [None]. *)
Definition find_run e (id : string) : st (RunApiState R) StoredRun :=
  found ← on_repository (fetch (on_get e) id);
  match found with Some run => mret run | None => lift (http_error 404 (unknown_run id)) end.

(** Assign to fields of the fetched run. *)
Definition update (f : StoredRun -> StoredRun) run : st (RunApiState R) StoredRun :=
  _ ← on_repository (modify (touch (f run))); mret (f run).

Definition save_run e run : st (RunApiState R) unit := on_repository (commit (on_save e) run).

Definition set_buffers (f : list (string * string * RunAudioBuffer) -> list (string * string * RunAudioBuffer))
    : st (RunApiState R) unit :=
  modify (fun s => MkApi (repository s) (f (audio_buffers s)) (files s)).

Definition write_file e (path : string) (content : bytes) : st (RunApiState R) unit := fun s =>
  match disk e path content with
  | Wrote => (Ok tt, MkApi (repository s) (audio_buffers s) (<[path := content]> (files s)))
  | WriteFailed c m None => (Raise c m, s)
  | WriteFailed c m (Some rest) =>
      (Raise c m, MkApi (repository s) (audio_buffers s) (<[path := rest]> (files s)))
  end.

(** The buffer of a chunk, created for the first one of its stage. *)
Definition buffer_for (buffers : list (string * string * RunAudioBuffer)) (run : string)
    (c : AudioChunkObservationRequest) : result RunAudioBuffer :=
  match dict_get (run, ao_stage c) buffers with
  | None => Ok (MkBuffer (ao_sample_rate_hz c) (ao_channels c) [])
  | Some b =>
      if bool_decide ((buf_sample_rate_hz b, buf_channels b) = (ao_sample_rate_hz c, ao_channels c))
      then Ok b else format_changed (ao_stage c)
  end.

Definition extend_buffer (pcm : bytes) (b : RunAudioBuffer) : RunAudioBuffer :=
  MkBuffer (buf_sample_rate_hz b) (buf_channels b) (buf_pcm_s16le b ++ pcm).

Definition recording_of (run stage : string) (b : RunAudioBuffer) (duration_ms : float) : RecordingArtifact :=
  MkRecording stage (as_uri (recording_path run stage))
    [("encoding", JStr "linear16"); ("rate", JInt (buf_sample_rate_hz b)); ("channels", JInt (buf_channels b))]
    duration_ms.

Definition _write_observed_audio e run (chunk_pcm : AudioChunkObservationRequest * bytes)
    : st (RunApiState R) StoredRun :=
  let '(chunk, pcm) := chunk_pcm in
  s ← get_state;
  b ← lift (buffer_for (audio_buffers s) (run_id run) chunk);
  let b := extend_buffer pcm b in
  _ ← set_buffers (dict_set (run_id run, ao_stage chunk) b);
  _ ← write_file e (recording_path (run_id run) (ao_stage chunk))
        (wav_bytes (buf_channels b) (buf_sample_rate_hz b) (buf_pcm_s16le b));
  duration_ms ← lift (buffer_duration b);
  update (fun run => with_recordings (put_recording (recording_of (run_id run) (ao_stage chunk) b duration_ms)
                                        (recordings run)) run) run.

Fixpoint write_chunks e run (l : list (AudioChunkObservationRequest * bytes)) : st (RunApiState R) StoredRun :=
  match l with
  | [] => mret run
  | c :: l' => run' ← _write_observed_audio e run c; write_chunks e run' l'
  end.

(** The events of a batch that the run does not have yet. *)
Definition new_events run (b : ObservationBatchRequest) : list TimelineEventArtifact :=
  let existing := map ev_event_id (timeline_events run) in
  map event_artifact (filterb (fun x => negb (bool_decide (to_event_id x ∈ existing))) (ob_timeline_events b)).

Definition ingest_observation_batch e (b : ObservationBatchRequest) : st (RunApiState R) ObservationBatchResponse :=
  run ← find_run e (ob_run_id b);
  if negb (String.eqb (status run) "running")
  then lift (http_error 409 ("run '" +:+ ob_run_id b +:+ "' is not accepting observations"))
  else
    configured ← lift (_configured_stage_names run);
    match unknown_stages configured b with
    | [] =>
        decoded ← lift (mapM_res (fun c => pcm ← _decode_audio_chunk c; Ok (c, pcm)) (ob_audio_chunks b));
        s ← get_state;
        _ ← lift (check_formats (audio_buffers s) (run_id run) (ob_audio_chunks b));
        run ← write_chunks e run decoded;
        run ← update (with_observations (map metric_artifact (ob_metrics b))
                        (map sip_response (ob_sip_events b)) (map rtp_response (ob_rtp_stats b))
                        (new_events run b)) run;
        _ ← save_run e run;
        mret (MkBatchResponse (run_id run) (len (ob_metrics b)) (len (ob_audio_chunks b))
                (len (ob_sip_events b)) (len (ob_rtp_stats b)) (len (ob_timeline_events b))
                (len (recordings run)))
    | unknown => lift (http_error 400 ("unknown pipeline stages: " +:+ comma_list unknown))
    end.

Definition ingest_sip_event e (r : SipEventRequest) : st (RunApiState R) SipEventResponse :=
  run ← find_run e (sr_run_id r);
  run ← update (with_observations [] [sip_response (sr_event r)] [] []) run;
  _ ← save_run e run;
  mret (sip_response (sr_event r)).

Definition ingest_rtp_stat e (r : RtpStatRequest) : st (RunApiState R) RtpStatResponse :=
  run ← find_run e (rr_run_id r);
  run ← update (with_observations [] [] [rtp_response (rr_stat r)] []) run;
  _ ← save_run e run;
  mret (rtp_response (rr_stat r)).

(** [for key in [key for key in api_state.audio_buffers if key[0] == run_id]:
    del api_state.audio_buffers[key]]. *)
Definition drop_buffers (id : string) (l : list (string * string * RunAudioBuffer)) :=
  filterb (fun kb : string * string * RunAudioBuffer => negb (String.eqb kb.1.1 id)) l.

Definition complete_observed_run e (id : string) : st (RunApiState R) RunResponse :=
  run ← find_run e id;
  if String.eqb (status run) "completed" then mret (to_response run)
  else if negb (String.eqb (status run) "running")
  then lift (http_error 409 ("run '" +:+ id +:+ "' cannot be completed"))
  else
    s ← get_state;
    v ← lift (verify_recordings (open_wav (files s)) log10 default_tolerances (resolved_config run)
                (recordings run) (metrics run));
    run ← update (completed_run v (call_now e)) run;
    _ ← set_buffers (drop_buffers id);
    _ ← save_run e run;
    mret (to_response run).

Definition fail_observed_run e (id failure_alias : string) : st (RunApiState R) RunResponse :=
  run ← find_run e id;
  if String.eqb (status run) "failed" then mret (to_response run)
  else if negb (String.eqb (status run) "running")
  then lift (http_error 409 ("run '" +:+ id +:+ "' cannot be failed"))
  else
    run ← update (failed_run failure_alias (call_now e)) run;
    _ ← set_buffers (drop_buffers id);
    _ ← save_run e run;
    mret (to_response run).

(** [except RegistryError as exc: raise HTTPException(400, str(exc))]. *)
Definition _resolve_run_request (r : RunCreateRequest) : result ResolvedConfig :=
  match resolve_request r with
  | Raise (ConfigNotFoundError | ConfigValidationError | ManifestNotFoundError) detail => http_error 400 detail
  | res => res
  end.

Definition text_at (keys : list string) (v : json) : result string :=
  v ← foldM_res (fun v k => json_item k v) v keys;
  match v with JStr s => Ok s | _ => Raise TypeError "not a string" end.

Definition _create_running_run e (r : RunCreateRequest) (resolved_ : ResolvedConfig) : result StoredRun :=
  provider_ ← text_at ["spec"; "ai"; "provider"] (JObj (resolved resolved_));
  engine_ ← text_at ["spec"; "engine"; "kind"] (JObj (resolved resolved_));
  Ok (MkStoredRun (uuid_str (call_uuid e)) (hash resolved_) (rc_call_id r) "" provider_ engine_ "running"
        (call_now e) None (resolved resolved_) [] [] [] None [] [] [] [] (rc_environment r) (rc_checklist r)).

Definition create_observed_run e (r : RunCreateRequest) : st (RunApiState R) RunResponse :=
  resolved_ ← lift (_resolve_run_request r);
  run ← lift (_create_running_run e r resolved_);
  let run := with_conversation ("observed-" +:+ run_id run) run in
  _ ← save_run e run;
  mret (to_response run).
End handlers.

(** ** A concrete session *)

Definition demo_resolved : ResolvedConfig :=
  MkResolved "demo" [("spec", JObj [("ai", JObj [("provider", JStr "fake")]);
    ("engine", JObj [("kind", JStr "asterisk")]);
    ("media", JObj [("pipeline", JArr [JObj [("type", JStr "agc"); ("invariants_applicable", JArr [])]])])])] "hash".
Definition demo_create : RunCreateRequest :=
  MkCreate "demo" [] [] None sample_environment _default_readiness_checklist.
Definition demo_chunk (pcm : bytes) : AudioChunkObservationRequest :=
  MkAudioChunkObservation "agc" (str (b64encode pcm)) 8000 1 2000.
Definition demo_event : TimelineEventObservationRequest :=
  MkEventObservation "e1" "session" "started" 2000 "wall" None None (Some "agc") None "bridge" None [].
Definition demo_batch (pcm : bytes) : ObservationBatchRequest :=
  MkBatch (uuid_str 7) [MkMetricObservation None "cpu" (fz 1) 2000] [demo_chunk pcm; demo_chunk pcm] [] [] [demo_event].
Definition demo_call : call_env unit := MkCall tt tt 1000 7 (fun _ _ => Wrote).
Definition demo_wav (files : gmap string bytes) (uri : string) : result wav_file := Raise OSError "no such file".
Definition demo_empty : RunApiState InMemory.store := MkApi [] [] ∅.
