(* ===== verification/AudioAccess.v ===== *)
(** * Access to the audio of recordings

    The audio endpoint of [control_plane/run_api.py] and the browser sessions
    that open it: [_authorize_remote_audio], the login with its bounded body,
    the session endpoints and [get_run_recording_audio], which serves a local
    file or reads the remote object.  [json_loads] is [json.loads], [None] where
    it raises [UnicodeDecodeError] or [JSONDecodeError]. *)
From S2P Require Import Prelude Effects Collections PyFloat PyData Bytes Digest Json SignalChecks PyUrl AudioSession RunModel Repository RecordingStorage RunStores ObservedRuns.

Open Scope Z_scope.

(** The parts of a request that matter: two headers, the session cookie and
    the chunks of the body. *)
Record http_request := MkRequest {
  authorization : option string; content_type : option string; cookie_value : option string;
  body : list bytes }.

(** [value.partition(c)]: the parts around the first [c], and whether it is there. *)
Definition partition_at (c : Ascii.ascii) (value : string) : string * bool * string :=
  let l := chars value in
  match from (Ascii.eqb c) l with
  | [] => (value, false, "")
  | _ :: rest => (str (until (Ascii.eqb c) l), true, str rest)
  end.

(** ** Authorization *)

(** [authorized] by the header: a bearer token equal to the configured one. *)
Definition bearer_authorized (request : http_request) (expected_token : string) : result bool :=
  let '(scheme, separator, supplied_token) := partition_at " " (default "" (authorization request)) in
  if separator && String.eqb (lower scheme) "bearer" && negb (String.eqb supplied_token "")
     && is_ascii supplied_token && negb (existsb (Ascii.eqb " ") (chars supplied_token))
  then compare_digest supplied_token expected_token else Ok false.

Definition session_authorized (auth : RemoteAudioSessionAuth) (clock : float) (request : http_request)
    : result bool :=
  remaining ← remaining_seconds auth clock (cookie_value request);
  Ok (match remaining with Some _ => true | None => false end).

Definition unauthorized {A} : result A := http_error 401 "remote recording authorization required".

Definition _authorize_remote_audio (request : http_request) (expected_token : string)
    (session_auth : option RemoteAudioSessionAuth) (clock : float) : result unit :=
  bearer ← bearer_authorized request expected_token;
  authorized ← (match session_auth with
                | Some auth => if (bearer : bool) then Ok true else session_authorized auth clock request
                | None => Ok bearer
                end);
  if (authorized : bool) then Ok tt else unauthorized.

(** ** The login *)

(** The chunks of the body, as long as they stay within 1024 bytes. *)
Fixpoint bounded_body (received : bytes) (chunks : list bytes) : result bytes :=
  match chunks with
  | [] => Ok received
  | chunk :: chunks' =>
      let received := received ++ chunk in
      if 1024 <? len received then http_error 413 "web audio login request is too large"
      else bounded_body received chunks'
  end.

Definition invalid_login {A} : result A := http_error 400 "web audio login request is invalid".

Section login.
Context (json_loads : bytes -> option json).

Definition _read_audio_session_login_token (request : http_request) : result string :=
  let declared := lower (strip (partition_at ";" (default "" (content_type request))).1.1) in
  _ ← (if String.eqb declared "application/json" then Ok tt
       else http_error 415 "web audio login requires JSON");
  received ← bounded_body [] (body request);
  match json_loads received with
  | Some (JObj [(key, JStr token)]) =>
      if String.eqb key "login_token"
         && (32 <=? strlen token) && (strlen token <=? 256) && is_ascii token
         && negb (existsb is_space (chars token))
      then Ok token else invalid_login
  | _ => invalid_login
  end.

Record AudioSessionStatusResponse := MkSessionStatus {
  as_enabled : bool; as_authenticated : bool; as_expires_in_seconds : option Z }.

Definition get_remote_audio_session_status (session_auth : option RemoteAudioSessionAuth) (clock : float)
    (request : http_request) : result AudioSessionStatusResponse :=
  match session_auth with
  | None => Ok (MkSessionStatus false false None)
  | Some auth =>
      remaining ← remaining_seconds auth clock (cookie_value request);
      Ok (MkSessionStatus true (match remaining with Some _ => true | None => false end) remaining)
  end.

(** The cookie that a response sets: its value, [max_age] and [secure]; it is
    always for the path [/], [httponly] and [samesite=strict]. *)
Record set_cookie := MkCookie { sc_value : string; sc_max_age : Z; sc_secure : bool }.

Definition create_remote_audio_session (session_auth : option RemoteAudioSessionAuth) (clock : float)
    (nonce : string) (request : http_request) : result (AudioSessionStatusResponse * set_cookie) :=
  match session_auth with
  | None => http_error 404 "web audio session is disabled"
  | Some auth =>
      login_token ← _read_audio_session_login_token request;
      cookie ← (match issue_cookie auth clock nonce login_token with
                | Raise AudioSessionLoginError _ => http_error 401 "web audio session login rejected"
                | res => res
                end);
      Ok (MkSessionStatus true true (Some (ttl_seconds auth)),
          MkCookie cookie (ttl_seconds auth) (cookie_secure auth))
  end.

(** The cookie is deleted in any case. *)
Definition delete_remote_audio_session (session_auth : option RemoteAudioSessionAuth) : AudioSessionStatusResponse :=
  MkSessionStatus (match session_auth with Some _ => true | None => false end) false None.
End login.

(** ** The audio endpoint *)

(** What the state of the API has for remote recordings. *)
Record audio_config := MkAudioConfig {
  remote_recording_reader : option MinioRecordingReader;
  remote_audio_access_token : option string;
  remote_audio_session_auth : option RemoteAudioSessionAuth }.

(** What a request for audio meets: the answer of the repository, the files
    that exist, the clock, the object store, the free read slots and whether
    the read takes longer than its time. *)
Record audio_env (F : Type) := MkAudioEnv {
  on_lookup : F; path_exists : option string -> bool; audio_clock : float;
  store_answers : object_store; slots_free : Z; times_out : bool }.
Arguments MkAudioEnv {F}. Arguments on_lookup {F}. Arguments path_exists {F}. Arguments audio_clock {F}.
Arguments store_answers {F}. Arguments slots_free {F}. Arguments times_out {F}.

(** A file of the disk, or bytes that must not be stored. *)
Inductive audio_response :=
  | LocalAudio (path : option string)
  | RemoteAudio (payload : bytes).

(** The HTTP error of a failed read; other errors pass. *)
Definition read_response (r : result bytes) : result bytes :=
  match r with
  | Raise RemoteRecordingIdentityError _ => http_error 404 "remote recording identity is not available"
  | Raise RemoteRecordingTooLargeError _ => http_error 413 "remote recording exceeds the configured byte limit"
  | Raise RemoteRecordingBusyError _ => http_error 503 "remote recording reader is busy"
  | Raise (RemoteRecordingTimeoutError | TimeoutError) _ => http_error 504 "remote recording read timed out"
  | Raise RemoteRecordingInvalidContentError _ => http_error 502 "remote recording is not a valid WAV object"
  | Raise RemoteRecordingUnavailableError _ => http_error 502 "remote recording read failed"
  | res => res
  end.

Section endpoint.
Context {R F : Type} `{RunStore R F}.
Context (netloc_check : list Ascii.ascii -> bool) (config : audio_config).

(** [asyncio.wait_for(asyncio.to_thread(read_wav, ...), timeout)]: the thread
    goes on after a timeout and frees its slot when it ends. *)
Definition read_remote (e : audio_env F) (reader : MinioRecordingReader) (uri run_id stage : string)
    : result bytes :=
  if times_out e then Raise TimeoutError ""
  else fst (read_wav netloc_check reader (store_answers e) uri run_id stage (slots_free e)).

Definition find_recording (stage : string) (run : StoredRun) : option RecordingArtifact :=
  find (fun r => String.eqb (rec_stage r) stage) (recordings run).

(** The local file of a recording, when it is there. *)
Definition local_audio (e : audio_env F) (recording : RecordingArtifact) : option (option string) :=
  path ← _local_recording_path (rec_uri recording);
  if path_exists e path then Some path else None.

Definition remote_audio (e : audio_env F) (recording : RecordingArtifact) (run_id stage : string)
    (request : http_request) : result audio_response :=
  match remote_recording_reader config, remote_audio_access_token config with
  | Some reader, Some access_token =>
      _ ← _authorize_remote_audio request access_token (remote_audio_session_auth config) (audio_clock e);
      payload ← read_response (read_remote e reader (rec_uri recording) run_id stage);
      Ok (RemoteAudio payload)
  | _, _ => http_error 404 ("recording audio is not available locally for stage '" +:+ stage +:+ "'")
  end.

Definition get_run_recording_audio (e : audio_env F) (run_id stage : string) (request : http_request)
    : st R audio_response :=
  stored ← fetch (on_lookup e) run_id;
  lift (match stored with
        | None => http_error 404 (unknown_run run_id)
        | Some run =>
            match find_recording stage run with
            | None => http_error 404 ("unknown recording stage '" +:+ stage +:+ "' for run '" +:+ run_id +:+ "'")
            | Some recording =>
                match local_audio e recording with
                | Some path => Ok (LocalAudio path)
                | None => remote_audio e recording run_id stage request
                end
            end
        end).
End endpoint.

(** ** Who is authorized *)

(** The request carries the token in its header. *)
Definition bears (request : http_request) (token : string) : Prop := exists scheme,
  authorization request = Some (scheme +:+ " " +:+ token) /\ lower scheme = "bearer" /\ token <> "".

(** The request carries a cookie signed with the secret that has not expired. *)
Definition in_session (auth : RemoteAudioSessionAuth) (t : Z) (request : http_request) : Prop :=
  exists expiry nonce, cookie_value request = Some (str (signed_cookie auth expiry nonce))
  /\ forallb is_digit_char expiry = true /\ t < decimal_value expiry <= t + ttl_seconds auth.

Lemma from_head stop l c rest : from stop l = c :: rest -> stop c = true.
Proof. induction l as [|d l IH]; cbn; [done|]. destruct (stop d) eqn:E; [by intros [= -> ->]|done]. Qed.

Lemma partition_at_spec c value a b : partition_at c value = (a, true, b) -> value = a +:+ str [c] +:+ b.
Proof.
  unfold partition_at. destruct (from _ _) as [|d rest] eqn:E; [done|]. intros [= <- <-].
  pose proof (from_head _ _ _ _ E) as <-%Ascii.eqb_eq.
  pose proof (until_from (Ascii.eqb c) (chars value)) as Hu. rewrite E in Hu.
  apply (f_equal str) in Hu. rewrite str_chars in Hu. rewrite <- Hu at 1.
  rewrite <- (str_chars (_ +:+ _)). by rewrite !chars_append, !chars_str.
Qed.

Lemma bearer_authorized_ok request token : bearer_authorized request token = Ok true -> bears request token.
Proof.
  unfold bearer_authorized. destruct (partition_at _ _) as [[scheme sep] supplied] eqn:E.
  match goal with |- (if ?b then _ else _) = _ -> _ => destruct b eqn:Ec; [|done] end.
  unfold compare_digest. destruct (is_ascii supplied && is_ascii token); [|done].
  intros [= <-%String.eqb_eq]. apply andb_true_iff in Ec as [[[[-> Hl]%andb_true_iff Hn]%andb_true_iff _]%andb_true_iff _].
  exists scheme. apply partition_at_spec in E. split_and!.
  - destruct (authorization request) as [v|]; cbn in E; [by rewrite E|]. 
    by destruct scheme.
  - by apply String.eqb_eq.
  - intros ->. done.
Qed.

Lemma authorize_ok request token auth clock t : py_int clock = Ok t ->
  _authorize_remote_audio request token auth clock = Ok tt ->
  bears request token \/ exists a, auth = Some a /\ in_session a t request.
Proof.
  intros Ht. unfold _authorize_remote_audio. intros (bearer & Hb & H)%bind_ok_inv.
  destruct bearer; [left; by apply bearer_authorized_ok|]. destruct auth as [a|]; [|done].
  apply bind_ok_inv in H as (ok & Hs & H). destruct ok; [|done]. right. exists a. split; [done|].
  unfold session_authorized in Hs. destruct (remaining_inv a clock t (cookie_value request) Ht) as (answer & Ha & Hr).
  rewrite Ha in Hs. cbn in Hs. destruct answer as [r|]; [|done].
  destruct (Hr r eq_refl) as (expiry & nonce & Hc & Hd & He & Hb1). exists expiry, nonce. split_and!; [done..|lia|lia].
Qed.

Lemma bounded_body_ok chunks : forall received all, len received <= 1024 -> bounded_body received chunks = Ok all ->
  all = received ++ concat chunks /\ len all <= 1024.
Proof.
  induction chunks as [|c l IH]; intros received all Hl; cbn [bounded_body concat].
  - intros [= <-]. by rewrite app_nil_r.
  - destruct (Z.ltb_spec 1024 (len (received ++ c))); [done|]. intros Hb. apply IH in Hb as [-> Hc]; [|done].
    by rewrite app_assoc.
Qed.

Lemma login_token_read json_loads request token : _read_audio_session_login_token json_loads request = Ok token ->
  json_loads (concat (body request)) = Some (JObj [("login_token", JStr token)])
  /\ len (concat (body request)) <= 1024.
Proof.
  unfold _read_audio_session_login_token, invalid_login. intros ([] & _ & H)%bind_ok_inv.
  apply bind_ok_inv in H as (all & Hall & Hj). apply bounded_body_ok in Hall as [-> Hl]; [|done]. cbn [app] in *.
  destruct (json_loads _) as [[| | | | | |[|[key v] [|? ?]]]|]; try done; [|by destruct v].
  destruct v; try done. destruct (String.eqb_spec key "login_token") as [->|]; [|done].
  destruct (_ && _) in Hj; [|done]. by injection Hj as ->.
Qed.

(** ** Properties *)


(** A login opens the audio for its life time and no longer: it succeeds
    exactly with a JSON body whose only member is the configured login token,
    and sets a cookie with the configured life time; a request with this cookie
    (and no bearer token) is authorized from the second of the login until the
    life time is over, and the session status says so with the seconds left. *)
Theorem login_opens_audio json_loads auth clock now nonce request response cookie :
  auth_ok auth -> py_int clock = Ok now -> 0 <= now < 10 ^ 12 ->
  forallb is_b64 (chars nonce) = true -> strlen nonce <= 64 ->
  create_remote_audio_session json_loads (Some auth) clock nonce request = Ok (response, cookie) ->
  json_loads (concat (body request)) = Some (JObj [("login_token", JStr (login_token auth))])
  /\ len (concat (body request)) <= 1024
  /\ sc_max_age cookie = ttl_seconds auth /\ sc_secure cookie = cookie_secure auth
  /\ forall request' token clock' t,
       cookie_value request' = Some (sc_value cookie) -> py_int clock' = Ok t ->
       bearer_authorized request' token = Ok false ->
       let open := (now <=? t) && (t <? now + ttl_seconds auth) in
       _authorize_remote_audio request' token (Some auth) clock' = (if open then Ok tt else unauthorized)
       /\ get_remote_audio_session_status (Some auth) clock' request'
          = Ok (MkSessionStatus true open (if open then Some (now + ttl_seconds auth - t) else None)).
Proof.
  intros Hok Ht Hnow Hn Hlen. unfold create_remote_audio_session.
  intros (token & Htok & H)%bind_ok_inv. apply bind_ok_inv in H as (value & Hv & [= <- <-]).
  rewrite (login_cookie auth clock now) in Hv by done.
  destruct (String.eqb_spec token (login_token auth)) as [->|]; [|done]. injection Hv as <-.
  apply login_token_read in Htok as [Hj Hb]. split_and!; [done..|].
  intros request' token clock' t Hc Ht' Hbear. set (open := (now <=? t) && (t <? now + ttl_seconds auth)).
  assert (remaining_seconds auth clock' (cookie_value request')
    = Ok (if open then Some (now + ttl_seconds auth - t) else None)) as Hrem
    by (rewrite Hc; by apply session_cookie_left).
  unfold _authorize_remote_audio, session_authorized, get_remote_audio_session_status. rewrite Hbear. cbn [mbind result_bind].
  rewrite Hrem. cbn [mbind result_bind]. by destruct open.
Qed.

(** ** Examples *)

Definition example_auth : RemoteAudioSessionAuth :=
  MkAuth "0123456789abcdef0123456789abcdef" (encode_ascii "fedcba9876543210fedcba9876543210") 120 true.

Lemma example_auth_ok : auth_ok example_auth.
Proof.
  apply (build_ok example_environ true). vm_compute. reflexivity.
Qed.

Definition login_request : http_request :=
  MkRequest None (Some "application/json; charset=utf-8") None
    [ascii_bytes "{" ; ascii_bytes "...}"].

(** A decoder that knows the login of the example. *)
Definition example_json (data : bytes) : option json :=
  if bool_decide (data = ascii_bytes "{...}")
  then Some (JObj [("login_token", JStr (login_token example_auth))]) else None.

Definition example_login :=
  create_remote_audio_session example_json (Some example_auth) (fz 1700000000) "bm9uY2U" login_request.

Definition login_cookie_set : set_cookie := MkCookie (session_cookie example_auth 1700000000 "bm9uY2U") 120 true.

Lemma example_login_ok : example_login = Ok (MkSessionStatus true true (Some 120), login_cookie_set).
Proof. vm_compute. reflexivity. Qed.

(** The next request has the cookie and no token. *)
Definition cookie_request : http_request :=
  MkRequest None None (Some (session_cookie example_auth 1700000000 "bm9uY2U")) [].

Lemma login_opens_audio_witness :
  _authorize_remote_audio cookie_request "token" (Some example_auth) (fz 1700000119) = Ok tt
  /\ _authorize_remote_audio cookie_request "token" (Some example_auth) (fz 1700000120) = unauthorized.
Proof.
  destruct (login_opens_audio example_json example_auth (fz 1700000000) 1700000000 "bm9uY2U" login_request
    (MkSessionStatus true true (Some 120)) login_cookie_set example_auth_ok) as (_ & _ & _ & _ & Hc);
    [vm_compute; reflexivity|lia|vm_compute; reflexivity|vm_compute; discriminate|exact example_login_ok|].
  split.
  - refine (proj1 (Hc cookie_request "token" (fz 1700000119) 1700000119 eq_refl _ _)); vm_compute; reflexivity.
  - refine (proj1 (Hc cookie_request "token" (fz 1700000120) 1700000120 eq_refl _ _)); vm_compute; reflexivity.
Defined.

Definition remote_id : string := uuid_str 7.

Definition stored_remote : StoredRun :=
  with_recordings [MkRecording "vad" (s3_uri "voxbench-recordings" (object_name "demo/audio" remote_id "vad"))
                     sample_format (fz 20)] (sample_run "completed" (Some 2000)).

Definition remote_config : audio_config :=
  MkAudioConfig (Some sample_reader) (Some "access-token") (Some example_auth).

Definition remote_objects : object_store := one_object "voxbench-recordings" (object_name "demo/audio" remote_id "vad") sample_content.

Definition remote_env : audio_env unit :=
  MkAudioEnv tt (fun _ => true) (fz 1700000119) remote_objects 1 false.

Definition remote_store : InMemory.store := [(remote_id, stored_remote)].

Lemma remote_audio_read :
  get_run_recording_audio (fun _ => true) remote_config remote_env remote_id "vad" cookie_request remote_store
  = (Ok (RemoteAudio sample_content), remote_store).
Proof. vm_compute. reflexivity. Qed.

Lemma remote_reader_made reader : remote_recording_reader remote_config = Some reader ->
  exists b p m time n, make_reader b p m time n = Ok reader.
Proof. intros [= <-]. do 5 eexists. apply sample_names. Qed.

