(* ===== verification/Harness.v ===== *)
(** * Harness runs

    [engine_harness/plan.py], [harness.py] and [telemetry.py], and the part of
    [control_plane/run_api.py] that executes a run with them: the stage plan of
    a resolved configuration, one recording per stage through a sink, the
    cadence and host metrics, and what becomes of the stored run when the
    harness, the verification or the repository fails.

    The sink is an interface with the two sinks of [RecordingStorage] as
    instances.  Readings of the clocks, the tasks of the event loop, the
    identifiers and the times the tracing library gives to spans, and the fresh
    UUIDs are arguments. *)
From S2P Require Import Prelude Effects Collections PyFloat PyData Bytes Json RunModel Timeline SignalChecks PyUrl RecordingStorage Wave RunStores ObservedRuns.

Open Scope Z_scope.

(** ** Reading the configuration *)

(** [v.get(k, default)]. *)
Definition json_get (k : string) (other : json) (v : json) : result json :=
  match v with
  | JObj d => Ok (default other (jget k d))
  | _ => Raise AttributeError "object has no attribute 'get'"
  end.

Definition spec_get (key : string) (config : jdict) : result json :=
  spec ← json_get "spec" (JObj []) (JObj config); json_get key (JObj []) spec.

(** [isinstance(v, int | float) and v > 0], and [float(v)]. *)
Definition positive_number (v : json) : option (result float) :=
  match v with
  | JInt z => if 0 <? z then Some (float_of_int z) else None
  | JBool b => if b then Some (float_of_int 1) else None
  | JFloat x => if fltb fzero x then Some (Ok x) else None
  | _ => None
  end.

Definition _nominal_recording_duration_ms (config : jdict) : result float :=
  transport ← spec_get "transport" config;
  match transport with
  | JObj d => match jget "ptime_ms" d with
              | Some v => default (Ok fzero) (positive_number v)
              | None => Ok fzero
              end
  | _ => Ok fzero
  end.

(** ** The plan *)

Record StagePlan := MkStagePlan { plan_stage : string; plan_plugin : string; plan_format : jdict }.

(** [a or b] of two optional values. *)
Definition first_truthy (a b : option json) : json :=
  match a with
  | Some v => if falsy v then default JNull b else v
  | None => default JNull b
  end.

Definition as_dict (v : json) : result jdict :=
  match v with JObj d => Ok d | _ => if falsy v then Ok [] else Raise TypeError "not an object" end.

Definition present_keys (keys : list string) (d : jdict) : jdict :=
  omap (fun k => (fun v => (k, v)) <$> jget k d) keys.

Definition _stage_format (stage : json) : result jdict :=
  io ← json_get "io" JNull stage;
  match io with
  | JNull =>
      params ← json_get "params" (JObj []) stage;
      match params with
      | JObj d => Ok (present_keys ["encoding"; "rate"; "channels"; "output_rate"] d)
      | _ => Raise TypeError "stage parameters are not an object"
      end
  | JObj d => as_dict (first_truthy (jget "produces" d) (jget "accepts" d))
  | _ => Raise AttributeError "object has no attribute 'get'"
  end.

(** The registry's schema makes ["type"] and ["plugin"] texts. *)
Definition plan_text (k : string) (stage : json) : result string :=
  v ← json_item k stage;
  match v with JStr s => Ok s | _ => Raise TypeError "not a string" end.

Definition plan_of_stage (stage : json) : result StagePlan :=
  name ← plan_text "type" stage;
  plugin ← plan_text "plugin" stage;
  format ← _stage_format stage;
  Ok (MkStagePlan name plugin format).

Definition build_stage_plan (config : jdict) : result (list StagePlan) :=
  stages ← config_pipeline config; mapM_res plan_of_stage stages.

(** ** Metrics *)

Definition _stage_config (config : jdict) (stage_name : string) : result (option jdict) :=
  media ← spec_get "media" config;
  stages ← json_get "pipeline" (JArr []) media;
  Ok (match stages with
      | JArr l => head (omap (fun stage => match stage with
                              | JObj d => if json_eqb (default JNull (jget "type" d)) (JStr stage_name) then Some d else None
                              | _ => None
                              end) l)
      | _ => None
      end).

(** [s in v]. *)
Definition json_contains (s : string) (v : json) : result bool :=
  match v with
  | JArr l => Ok (existsb (fun x => json_eqb x (JStr s)) l)
  | JStr t => Ok (contains t s)
  | JObj d => Ok (dict_mem s d)
  | _ => Raise TypeError "argument is not iterable"
  end.

Definition cadence_points (stage_name : string) (ptime_ms : float) (ts : instant) : list MetricArtifact :=
  let point name value := MkMetric (Some stage_name) name value ts in
  [point "frames_in" (fz 1); point "frames_out" (fz 1); point "frame_cadence_jitter_ms" fzero;
   point "expected_frame_interval_ms" ptime_ms].

Definition _nominal_cadence_metrics (config : jdict) (stage_name : string) (ts : instant)
    : result (list MetricArtifact) :=
  stage_config ← _stage_config config stage_name;
  match stage_config with
  | None => Ok []
  | Some d =>
      isochronous ← json_contains "isochronous" (default (JArr []) (jget "invariants_applicable" d));
      if negb isochronous then Ok []
      else
        transport ← spec_get "transport" config;
        v ← json_get "ptime_ms" JNull transport;
        match positive_number v with
        | Some ptime => ptime_ms ← ptime; Ok (cadence_points stage_name ptime_ms ts)
        | None => Ok []
        end
  end.

(** What one call of [_host_metrics] reads: the two clocks since the start, the
    tasks of the loop, the two readings of [_scheduler_lag_ms] and the time. *)
Record host_reading := MkReading {
  wall_now : float; process_now : float; active_tasks : Z; lag_start : float; lag_end : float; read_at : instant }.

Definition requested_host_metrics (config : jdict) : result (list string) :=
  observability ← spec_get "observability" config;
  requested ← json_get "host_metrics" (JArr []) observability;
  Ok (match requested with
      | JArr l => omap (fun v => match v with JStr s => Some s | _ => None end) l
      | _ => []
      end).

Definition cpu_value (wall_start process_start : float) (r : host_reading) : result float :=
  let wall_elapsed := pymax (fsub (wall_now r) wall_start) (flit 1 1000000000) in
  let process_elapsed := pymax (fsub (process_now r) process_start) fzero in
  q ← fdiv process_elapsed wall_elapsed; Ok (fmul q (fz 100)).

Definition lag_value (r : host_reading) : float :=
  pymax fzero (fmul (fsub (lag_end r) (lag_start r)) (fz 1000)).

Definition _host_metrics (config : jdict) (start : float * float) (r : host_reading)
    : result (list MetricArtifact) :=
  names ← requested_host_metrics config;
  let when name (value : result float) :=
    if bool_decide (name ∈ names) then v ← value; Ok [MkMetric None name v (read_at r)] else Ok [] in
  cpu ← when "cpu" (cpu_value start.1 start.2 r);
  tasks ← when "active_tasks" (float_of_int (active_tasks r));
  lag ← when "loop_lag" (Ok (lag_value r));
  Ok (cpu ++ tasks ++ lag).

(** ** One run *)

(** [RecordingSink]. *)
Class RecordingSink (S : Type) :=
  write_stage_wav : string -> string -> jdict -> float -> st S RecordingArtifact.

Definition local_sink (root : string) (answers : string -> put_outcome) : RecordingSink storage :=
  fun run_id stage => local_write_stage_wav root (answers stage) run_id stage.
Definition minio_sink (self : MinioRecordingSink) (answers : string -> put_outcome) : RecordingSink storage :=
  fun run_id stage => minio_write_stage_wav self (answers stage) run_id stage.

(** What a run takes from outside. *)
Record harness_env := MkHarnessEnv {
  conversation : uuid; clocks_start : float * float; reading : nat -> host_reading; cadence_at : nat -> instant;
  trace_id : string; span_id : nat -> string; span_times : nat -> Z * Z }.

Definition span_attrs (run_id config_hash conversation_id : string) (extra : jdict) : jdict :=
  [("voxbench.run_id", JStr run_id); ("voxbench.config_hash", JStr config_hash);
   ("conversation_id", JStr conversation_id)] ++ extra.

Definition span_of (e : harness_env) (n : nat) (parent : option nat) (name : string) (attrs : jdict) : SpanArtifact :=
  MkSpan (trace_id e) (span_id e n) (span_id e <$> parent) name (span_times e n).1 (span_times e n).2 attrs.

Definition stage_span (e : harness_env) (run_id config_hash : string) (n : nat) (p : StagePlan) : SpanArtifact :=
  span_of e (S n) (Some 0%nat) ("stage.tap." +:+ plan_stage p)
    (span_attrs run_id config_hash (uuid_str (conversation e))
       [("voxbench.stage", JStr (plan_stage p)); ("voxbench.plugin", JStr (plan_plugin p))]).

(** The spans in the order they end: the stages', then the run's. *)
Definition finished_spans (e : harness_env) (run_id config_hash : string) (plan : list StagePlan) : list SpanArtifact :=
  imap (stage_span e run_id config_hash) plan
  ++ [span_of e 0 None "voxbench.run" (span_attrs run_id config_hash (uuid_str (conversation e)) [])].

Record HarnessResult := MkHarnessResult {
  hr_run_id : string; hr_conversation_id : string; hr_recordings : list RecordingArtifact; hr_spans : list SpanArtifact;
  hr_metrics : list MetricArtifact }.

Section run.
Context {S : Type} `{RecordingSink S}.

(** The loop over the stages; [n] of them are done. *)
Fixpoint run_stages (e : harness_env) (run_id : string) (config : jdict) (duration_ms : float) (n : nat)
    (plan : list StagePlan) : st S (list RecordingArtifact * list MetricArtifact) :=
  match plan with
  | [] => mret ([], [])
  | p :: plan' =>
      recording ← write_stage_wav run_id (plan_stage p) (plan_format p) duration_ms;
      cadence ← lift (_nominal_cadence_metrics config (plan_stage p) (cadence_at e n));
      host ← lift (_host_metrics config (clocks_start e) (reading e (Datatypes.S n)));
      rest ← run_stages e run_id config duration_ms (Datatypes.S n) plan';
      mret (recording :: rest.1, cadence ++ host ++ rest.2)
  end.

Definition run_once (e : harness_env) (run_id : string) (config : jdict) (config_hash : string)
    : st S HarnessResult :=
  first ← lift (_host_metrics config (clocks_start e) (reading e 0));
  duration_ms ← lift (_nominal_recording_duration_ms config);
  plan ← lift (build_stage_plan config);
  recorded ← run_stages e run_id config duration_ms 0 plan;
  last ← lift (_host_metrics config (clocks_start e) (reading e (Datatypes.S (length plan))));
  mret (MkHarnessResult run_id (uuid_str (conversation e)) recorded.1 (finished_spans e run_id config_hash plan)
          (first ++ recorded.2 ++ last)).
End run.

(** ** What a sink promises *)

(** [recorded_at s run stage] is the recording the storage keeps for a stage of
    a run, [uri_of] its URI. *)
Class RecordingSinkLaws (S : Type) `{RecordingSink S} := {
  recorded_at : S -> string -> string -> option bytes;
  uri_of : string -> string -> string;
  write_spec run_id stage format d s r s' : write_stage_wav run_id stage format d s = (Ok r, s') ->
    r = MkRecording stage (uri_of run_id stage) format d
    /\ exists content, _write_silent_wav format d = Ok content /\ recorded_at s' run_id stage = Some content;
  write_frame run_id stage format d s r s' other : write_stage_wav run_id stage format d s = (r, s') ->
    other <> stage -> recorded_at s' run_id other = recorded_at s run_id other }.

Definition local_path (root run_id stage : string) : string := child (child root run_id) (stage +:+ ".wav").

Lemma append_cancel_l p a b : p +:+ a = p +:+ b -> a = b.
Proof. induction p as [|c p IH]; [done|]. intros [= E]. auto. Qed.

Lemma append_cancel_r p a b : a +:+ p = b +:+ p -> a = b.
Proof.
  intros E%(f_equal chars). rewrite !chars_append in E. apply app_inv_tail in E.
  by rewrite <- (str_chars a), <- (str_chars b), E.
Qed.

Lemma object_name_stage prefix run_id a b : object_name prefix run_id a = object_name prefix run_id b -> a = b.
Proof.
  assert (forall stage, String.eqb (stage +:+ ".wav") "" = false) as Hne by (intros []; done).
  unfold object_name. cbn [filterb List.filter]. rewrite !Hne. cbn [negb].
  intros E%(f_equal chars). rewrite !chars_str in E. apply (append_cancel_r ".wav").
  rewrite <- (str_chars (a +:+ _)), <- (str_chars (b +:+ _)). f_equal.
  destruct (String.eqb prefix ""), (String.eqb run_id ""); cbn [negb map join_char] in E;
    repeat (apply app_inv_head in E; injection E as E); done.
Qed.

Lemma leave_ne left path path' files : path' <> path -> leave left path files !! path' = files !! path'.
Proof. intros Hne. destruct left; cbn [leave]; [by rewrite lookup_insert_ne by done|done]. Qed.

Lemma put_file_ok answer path content s x s' : put_file answer path content s = (Ok x, s') ->
  exists data, content = Ok data /\ disk_files s' !! path = Some data.
Proof.
  unfold put_file. destruct content as [data|]; [|done]. destruct (put_error answer) as [[??]|]; [done|].
  intros [= <- <-]. exists data. split; [done|]. apply lookup_insert_eq.
Qed.

Lemma put_file_ne answer path content s r s' other : put_file answer path content s = (r, s') ->
  other <> path -> disk_files s' !! other = disk_files s !! other.
Proof.
  unfold put_file. intros Hw Hne. destruct content as [data|]; [destruct (put_error answer) as [[??]|]|];
    injection Hw as <- <-; cbn [disk_files]; by first [rewrite leave_ne | rewrite lookup_insert_ne].
Qed.

Lemma put_object_ok answer name content s x s' : put_object answer name content s = (Ok x, s') ->
  objects s' !! name = Some content.
Proof.
  unfold put_object. destruct (put_error answer) as [[??]|]; [done|]. intros [= <- <-]. apply lookup_insert_eq.
Qed.

Lemma put_object_ne answer name content s r s' other : put_object answer name content s = (r, s') ->
  other <> name -> objects s' !! other = objects s !! other.
Proof.
  unfold put_object. intros Hw Hne. destruct (put_error answer) as [[??]|];
    injection Hw as <- <-; cbn [objects]; by first [rewrite leave_ne | rewrite lookup_insert_ne].
Qed.

#[export] Program Instance local_sink_laws root answers : RecordingSinkLaws storage (H := local_sink root answers) := {|
  recorded_at s run_id stage := disk_files s !! local_path root run_id stage;
  uri_of run_id stage := as_uri (local_path root run_id stage) |}.
Next Obligation.
  intros root answers run_id stage format d s r s'. unfold write_stage_wav, local_sink, local_write_stage_wav.
  intros Hw. simpl_st. destruct a as [[[c w] rate] frames]. simpl_st. split; [done|].
  apply put_file_ok in H0 as (content & Hc & Hl). exists content. split; [|done].
  unfold _write_silent_wav. by rewrite H.
Qed.
Next Obligation.
  intros root answers run_id stage format d s r s' other. unfold write_stage_wav, local_sink, local_write_stage_wav.
  intros Hw Hne. apply st_bind_cases in Hw as [([[[c w] rate] frames] & s1 & [_ ->]%lift_ok & Hw)|(c & m & s1 & [= _ <-] & [= _ <-])]; [|done].
  assert (local_path root run_id other <> local_path root run_id stage) as Hp
    by (intros E; apply Hne; unfold local_path, child in E; by apply append_cancel_l, append_cancel_l, append_cancel_r in E).
  apply st_bind_cases in Hw as [([] & s1 & Hw & [= _ <-])|(c' & m & s1 & Hw & [= _ <-])];
    by eapply put_file_ne in Hw.
Qed.

#[export] Program Instance minio_sink_laws self answers : RecordingSinkLaws storage (H := minio_sink self answers) := {|
  recorded_at s run_id stage := objects s !! object_name (sink_prefix self) run_id stage;
  uri_of run_id stage := s3_uri (sink_bucket self) (object_name (sink_prefix self) run_id stage) |}.
Next Obligation.
  intros self answers run_id stage format d s r s'. unfold write_stage_wav, minio_sink, minio_write_stage_wav.
  intros Hw. simpl_st. split; [done|]. eexists. split; [done|]. by eapply put_object_ok.
Qed.
Next Obligation.
  intros self answers run_id stage format d s r s' other. unfold write_stage_wav, minio_sink, minio_write_stage_wav.
  intros Hw Hne.
  do 3 (apply st_bind_cases in Hw as [(? & s1 & [_ ->]%lift_ok & Hw)|(c & m & s1 & [= _ <-] & [= _ <-])]; [|done]).
  assert (object_name (sink_prefix self) run_id other <> object_name (sink_prefix self) run_id stage) as Hp
    by (intros E; by apply Hne, (object_name_stage _ _ _ _ E)).
  apply st_bind_cases in Hw as [([] & s1 & Hw & [= _ <-])|(c' & m & s1 & Hw & [= _ <-])];
    by eapply put_object_ne in Hw.
Qed.

(** ** Silence *)

(** The rate of a stage's format: ["rate"], or ["output_rate"] where that is
    missing or zero. *)
Definition rate_given (format : jdict) (rate : Z) : Prop :=
  jint (jget "rate" format) = Some rate
  \/ (match jget "rate" format with Some v => falsy v = true | None => True end) /\ jint (jget "output_rate" format) = Some rate.

(** A wave file of [duration_ms] of silence in the format of a stage: one byte
    per sample at its middle value for mu-law, two zero bytes otherwise. *)
Definition silent_file (format : jdict) (duration_ms : float) (content : bytes) : Prop :=
  exists channels width rate seconds r frames,
    jint (jget "channels" format) = Some channels /\ rate_given format rate
    /\ (width = 1 /\ jget "encoding" format = Some (JStr "mulaw") \/ width = 2 /\ jget "encoding" format <> Some (JStr "mulaw"))
    /\ fdiv duration_ms (fz 1000) = Ok seconds /\ float_of_int rate = Ok r /\ py_round (fmul r seconds) = Ok frames
    /\ forall other, read_wave other content
         = Ok (MkWav channels width (Z.max 0 frames) rate
                (repeat (byte_of (if width =? 1 then 128 else 0)) (Z.to_nat (Z.max 0 frames * (channels * width))))).

Lemma repeat_concat {A} (x : A) k n : concat (repeat (repeat x k) n) = repeat x (n * k).
Proof. induction n as [|n IH]; [done|]. cbn [repeat concat]. by rewrite IH, <- repeat_app. Qed.

Lemma silent_frames_repeat width channels n : 0 <= channels -> 1 <= width ->
  silent_frames width channels n
  = repeat (byte_of (if width =? 1 then 128 else 0)) (Z.to_nat (Z.max 0 n * (channels * width))).
Proof.
  intros Hc Hw. unfold silent_frames, _silence_frame. replace (Z.to_nat n) with (Z.to_nat (Z.max 0 n)) by lia.
  destruct (Z.eqb_spec width 1) as [->|Hne]; rewrite repeat_concat, <- Z2Nat.inj_mul by lia; do 2 f_equal; lia.
Qed.

Lemma sample_width_cases encoding : _sample_width encoding = 1 /\ encoding = Some (JStr "mulaw")
  \/ _sample_width encoding = 2 /\ encoding <> Some (JStr "mulaw").
Proof.
  destruct encoding as [[| | | |e| |]|]; try by right. cbn. destruct (String.eqb_spec e "mulaw") as [->|Hne]; [by left|right].
  split; [done|]. congruence.
Qed.

Lemma rate_given_ok format rate :
  jint (match jget "rate" format with
        | Some v => if falsy v then jget "output_rate" format else Some v
        | None => jget "output_rate" format end) = Some rate -> rate_given format rate.
Proof. unfold rate_given. destruct (jget "rate" format) as [v|]; [destruct (falsy v)|]; auto. Qed.

Lemma _write_silent_wav_spec format d content : _write_silent_wav format d = Ok content -> silent_file format d content.
Proof.
  unfold _write_silent_wav, silent_parameters. destruct (jint _) as [rate|] eqn:Hr; [|done].
  destruct (jint (jget "channels" format)) as [channels|] eqn:Hch; [|done]. intros Hw. simpl_res. apply rate_given_ok in Hr.
  match goal with Hs : fdiv _ _ = Ok ?x, Hf : float_of_int _ = Ok ?y, Hn : py_round _ = Ok ?z |- _ => rename Hs into Hsec, Hf into Hflt, Hn into Hround;
    exists channels, (_sample_width (jget "encoding" format)), rate, x, y, z end.
  split_and!; [done|done|apply sample_width_cases|done|done|done|]. intros other. pose proof (wave_file_ok _ _ _ _ _ Hw) as (Hc & _).
  assert (1 <= _sample_width (jget "encoding" format) <= 4) as Hwd by (destruct (sample_width_cases (jget "encoding" format)) as [[-> _]|[-> _]]; lia).
  rewrite silent_frames_repeat in Hw by lia.
  rewrite (read_wave_file _ _ _ _ _ _ Hw) by (try done; unfold len; rewrite repeat_length, Z2Nat.id by nia; apply Z.mod_mul; lia).
  unfold len. rewrite repeat_length, Z2Nat.id by nia. rewrite Z.div_mul by lia. done.
Qed.

(** The nominal duration: the packet time of the transport. *)
Definition nominal_duration (config : jdict) (duration_ms : float) : Prop :=
  forall transport, spec_get "transport" config = Ok (JObj transport) ->
  match jget "ptime_ms" transport with
  | Some (JInt z) => if 0 <? z then float_of_int z = Ok duration_ms else duration_ms = fzero
  | Some (JFloat x) => duration_ms = if fltb fzero x then x else fzero
  | Some (JBool b) => b = false -> duration_ms = fzero
  | _ => duration_ms = fzero
  end.

Lemma nominal_duration_ok config d : _nominal_recording_duration_ms config = Ok d -> nominal_duration config d.
Proof.
  unfold _nominal_recording_duration_ms. intros Hd transport Ht. rewrite Ht in Hd. cbn [mbind result_bind] in Hd.
  destruct (jget "ptime_ms" transport) as [[| | | | | |]|]; cbn in Hd; try congruence.
  - by intros ->; cbn in Hd; injection Hd as <-.
  - destruct (0 <? z); cbn in Hd; congruence.
  - destruct (fltb fzero x); cbn in Hd; congruence.
Qed.

(** ** What a run records *)

Definition staged (metrics : list MetricArtifact) : list MetricArtifact :=
  filterb (fun m => bool_decide (is_Some (metric_stage m))) metrics.

Lemma staged_app a b : staged (a ++ b) = staged a ++ staged b.
Proof. apply List.filter_app. Qed.

Lemma host_metrics_unstaged config start r ms : _host_metrics config start r = Ok ms -> staged ms = [].
Proof.
  unfold _host_metrics. intros Hm. simpl_res.
  repeat match goal with E : (if _ then _ else _) = Ok _ |- _ => case_bool_decide; simpl_res end; reflexivity.
Qed.

Lemma cadence_staged config stage ts ms : _nominal_cadence_metrics config stage ts = Ok ms ->
  ms = [] \/ exists ptime transport v, spec_get "transport" config = Ok transport
    /\ json_get "ptime_ms" JNull transport = Ok v /\ positive_number v = Some (Ok ptime)
    /\ ms = cadence_points stage ptime ts.
Proof.
  unfold _nominal_cadence_metrics. intros Hm. simpl_res.
  destruct a as [d|]; simpl_res; [|by left]. destruct (negb a); simpl_res; [by left|].
  destruct (positive_number a1) as [ptime|] eqn:Hp; simpl_res; [|by left]. right. by eauto 10.
Qed.

Section recorded.
Context {S : Type} `{RecordingSinkLaws S}.

Definition artifact_of (run_id : string) (duration_ms : float) (p : StagePlan) : RecordingArtifact :=
  MkRecording (plan_stage p) (uri_of run_id (plan_stage p)) (plan_format p) duration_ms.

(** The file of a planned stage holds its silence. *)
Definition silence_stored (s : S) (run_id : string) (duration_ms : float) (p : StagePlan) : Prop :=
  exists content, silent_file (plan_format p) duration_ms content
    /\ recorded_at s run_id (plan_stage p) = Some content.

Lemma run_stages_frame e run_id config d plan n s r s' stage :
  run_stages e run_id config d n plan s = (r, s') -> stage ∉ map plan_stage plan ->
  recorded_at s' run_id stage = recorded_at s run_id stage.
Proof.
  revert n s r s'. induction plan as [|p plan IH]; intros n s r s'; cbn [run_stages map]; [by intros [= _ ->]|].
  intros Hr Hn. apply not_elem_of_cons in Hn as [Hne Hn].
  apply st_bind_cases in Hr as [(rec & s1 & Hw & Hr)|(c & m & s1 & Hw & [= _ ->])]; apply write_frame with (other := stage) in Hw as Hf; [|done..].
  rewrite <- Hf.
  do 2 (apply st_bind_cases in Hr as [(? & ? & [_ ->]%lift_ok & Hr)|(? & ? & ? & [= _ <-] & [= _ <-])]; [|done]).
  apply st_bind_cases in Hr as [(? & ? & Hr & [= _ <-])|(? & ? & ? & Hr & [= _ <-])]; by eapply IH in Hr.
Qed.

Lemma run_stages_ok e run_id config d plan n s recs ms s' :
  run_stages e run_id config d n plan s = (Ok (recs, ms), s') ->
  recs = map (artifact_of run_id d) plan
  /\ (NoDup (map plan_stage plan) -> Forall (silence_stored s' run_id d) plan)
  /\ exists cadences, mapM_res (fun np => _nominal_cadence_metrics config (plan_stage np.2) (cadence_at e np.1))
                        (imap (fun i p => ((n + i)%nat, p)) plan) = Ok cadences
       /\ staged ms = concat cadences.
Proof.
  revert n s recs ms s'. induction plan as [|p plan IH]; intros n s recs ms s'; cbn [run_stages map imap].
  - intros [= <- <- <-]. split_and!; [done|by constructor|]. by exists [].
  - intros Hr. apply st_bind_ok in Hr as (rec & s1 & Hw & Hr).
    apply st_bind_ok in Hr as (cadence & ? & [Hc ->]%lift_ok & Hr).
    apply st_bind_ok in Hr as (host & ? & [Hh ->]%lift_ok & Hr).
    apply st_bind_ok in Hr as ([recs' ms'] & s2 & Hr & [= <- <- <-]).
    apply write_spec in Hw as (-> & content & Hs & Hl).
    pose proof (run_stages_frame _ _ _ _ _ _ _ _ _ (plan_stage p) Hr) as Hf.
    apply IH in Hr as (-> & Hstored & cadences & Hcs & Hms). split_and!; [done| |].
    + rewrite NoDup_cons. intros [Hn Hnd]. constructor; [|by apply Hstored].
      exists content. split; [by apply _write_silent_wav_spec|]. by rewrite Hf.
    + exists (cadence :: cadences). cbn [mapM_res fst snd]. rewrite Nat.add_0_r, Hc. cbn [mbind result_bind].
      split.
      * erewrite imap_ext, Hcs; [done|]. intros i x _. cbn. f_equal. lia.
      * rewrite !staged_app, Hms, (host_metrics_unstaged _ _ _ _ Hh). cbn [concat app]. f_equal.
        destruct (cadence_staged _ _ _ _ Hc) as [->|(? & ? & ? & _ & _ & _ & ->)]; reflexivity.
Qed.
End recorded.

(** C15. A harness run that returns has made exactly one recording per stage of
    the pipeline, in its order, at the stage's place in the sink, with the
    stage's format and the nominal duration (the packet time of the transport
    when that is a positive number, and zero when there is none); its stage
    metrics are the cadence points of the stages in order; a tap span per stage
    hangs under the span of the run.  When no stage is listed twice (the second
    recording of a stage replaces the first), every recording made is still
    what the sink holds at the end: a wave file that reads as silence, with the
    channels, rate and sample width of the stage's format and as many frames as
    fit the duration. *)
Theorem run_records_every_stage {S} `{RecordingSinkLaws S} e run_id config config_hash (s s' : S) h :
  run_once e run_id config config_hash s = (Ok h, s') ->
  exists plan duration_ms cadences,
    build_stage_plan config = Ok plan /\ nominal_duration config duration_ms
    /\ hr_run_id h = run_id
    /\ hr_recordings h = map (fun p => MkRecording (plan_stage p) (uri_of run_id (plan_stage p)) (plan_format p) duration_ms) plan
    /\ (NoDup (map plan_stage plan) -> Forall (fun p => exists content,
          recorded_at s' run_id (plan_stage p) = Some content /\ silent_file (plan_format p) duration_ms content) plan)
    /\ mapM_res (fun np => _nominal_cadence_metrics config (plan_stage np.2) (cadence_at e np.1)) (imap pair plan)
       = Ok cadences
    /\ staged (hr_metrics h) = concat cadences
    /\ map (fun sp => (span_name sp, span_parent_id sp)) (hr_spans h)
       = map (fun p => ("stage.tap." +:+ plan_stage p, Some (span_id e 0))) plan ++ [("voxbench.run", None)].
Proof.
  unfold run_once. intros Hr.
  apply st_bind_ok in Hr as (first & ? & [Hf ->]%lift_ok & Hr).
  apply st_bind_ok in Hr as (d & ? & [Hd ->]%lift_ok & Hr).
  apply st_bind_ok in Hr as (plan & ? & [Hp ->]%lift_ok & Hr).
  apply st_bind_ok in Hr as ([recs ms] & s1 & Hr & Hl).
  apply st_bind_ok in Hl as (last & ? & [Hl ->]%lift_ok & [= <- <-]).
  apply run_stages_ok in Hr as (-> & Hs & cadences & Hc & Hms).
  exists plan, d, cadences. cbn [hr_run_id hr_recordings hr_metrics hr_spans fst snd]. split_and!; try done.
  - by apply nominal_duration_ok.
  - intros Hn. eapply Forall_impl; [by apply Hs|]. intros p (content & Hc' & Hl'). by exists content.
  - rewrite !staged_app, Hms, (host_metrics_unstaged _ _ _ _ Hf), (host_metrics_unstaged _ _ _ _ Hl). by rewrite app_nil_r.
  - unfold finished_spans. rewrite map_app. f_equal. etrans; [apply fmap_imap|].
    etrans; [|apply (imap_const (fun p => ("stage.tap." +:+ plan_stage p, Some (span_id e 0))))]. by apply imap_ext.
Qed.

(** ** The cadence a harness run reports *)

(** The metrics of a stage the harness visited. *)
Definition nominal (d : list (string * float)) : Prop :=
  exists ptime, fltb fzero ptime = true /\ dict_get "frames_in" d = Some (fz 1) /\ dict_get "frames_out" d = Some (fz 1)
    /\ dict_get "frame_cadence_jitter_ms" d = Some fzero /\ dict_get "expected_frame_interval_ms" d = Some ptime.

Definition all_nominal (grouped : list (string * list (string * float))) : Prop :=
  forall stage d, dict_get stage grouped = Some d -> nominal d.

Definition group_metric (grouped : list (string * list (string * float))) (m : MetricArtifact) :=
  match metric_stage m with
  | None => grouped
  | Some stage => dict_set stage (dict_set (metric_name m) (metric_value m) (dict_get_default stage [] grouped)) grouped
  end.

Lemma group_staged metrics grouped : fold_left group_metric metrics grouped = fold_left group_metric (staged metrics) grouped.
Proof.
  revert grouped. induction metrics as [|m metrics IH]; intros grouped; [done|].
  unfold staged in *. cbn [filterb List.filter fold_left]. destruct (metric_stage m) as [stage|] eqn:E.
  - rewrite bool_decide_true by eauto. apply IH.
  - rewrite bool_decide_false by (by intros [??]). unfold group_metric at 2. rewrite E. apply IH.
Qed.

Lemma group_cadence stage ptime ts grouped : fltb fzero ptime = true -> all_nominal grouped ->
  all_nominal (fold_left group_metric (cadence_points stage ptime ts) grouped).
Proof.
  intros Hp Hg stage' d. cbn [fold_left cadence_points group_metric metric_stage metric_name metric_value].
  unfold dict_get_default. rewrite !dict_get_set_eq. cbn [default].
  destruct (decide (stage' = stage)) as [->|Hne]; [|rewrite !dict_get_set_ne by done; apply Hg].
  rewrite dict_get_set_eq. intros [= <-]. exists ptime. split; [done|].
  rewrite !dict_get_set. split_and!; reflexivity.
Qed.

Lemma float_of_int_pos z x : 0 < z -> float_of_int z = Ok x -> fltb fzero x = true.
Proof.
  intros Hz E. apply (fltb_trans_l fzero (fz 1)); [reflexivity|].
  assert (x = fl (QArith_base.inject_Z z)) as -> by (unfold float_of_int in E; destruct (fl _); congruence).
  apply fl_mono. rewrite <- QArith_base.Zle_Qle. lia.
Qed.

Lemma positive_number_pos v ptime : positive_number v = Some (Ok ptime) -> fltb fzero ptime = true.
Proof.
  destruct v; cbn [positive_number]; try done.
  - destruct b; [|done]. intros E%(inj Some). apply (float_of_int_pos 1); [done|exact E].
  - destruct (0 <? z) eqn:Hz; [|done]. intros E%(inj Some). apply (float_of_int_pos z); [lia|exact E].
  - destruct (fltb fzero x) eqn:Hx; [|done]. by intros [= <-].
Qed.

Lemma group_cadences config (stages : list (nat * StagePlan)) at_ cadences grouped :
  mapM_res (fun np => _nominal_cadence_metrics config (plan_stage np.2) (at_ np.1)) stages = Ok cadences ->
  all_nominal grouped -> all_nominal (fold_left group_metric (concat cadences) grouped).
Proof.
  intros Hc%mapM_res_ok. revert grouped. induction Hc as [|np ms stages cadences Hm _ IH]; intros grouped Hg; [done|].
  cbn [concat]. rewrite fold_left_app. apply IH.
  destruct (cadence_staged _ _ _ _ Hm) as [->|(ptime & ? & ? & _ & _ & Hp & ->)]; [done|].
  apply group_cadence; [by eapply positive_number_pos|done].
Qed.

Lemma fmul_pos_nonneg x y : fltb fzero x = true -> fltb fzero y = true -> fleb fzero (fmul x y) = true.
Proof.
  destruct x as [a| | |], y as [b| | |]; try done.
  - intros Ha%fltb_fin Hb%fltb_fin. assert (fl (QArith_base.Qmake 0 1) = fzero) as <- by reflexivity.
    cbn [fmul]. apply fl_mono. apply QArith_base.Qmult_le_0_compat; apply QArith_base.Qlt_le_weak; assumption.
  - intros Ha%fltb_fin _. cbn [fmul fsign]. apply QArith_base.Qgt_alt in Ha. by rewrite Ha.
  - intros _ Hb%fltb_fin. cbn [fmul fsign]. apply QArith_base.Qgt_alt in Hb. by rewrite Hb.
Qed.

Lemma one_listed (P : VerificationResult -> Prop) v found : P v -> Ok (Some v) = Ok found -> Forall P (listed found).
Proof. intros Hv [= <-]. by repeat constructor. Qed.

Lemma none_listed (P : VerificationResult -> Prop) found : Ok None = Ok found -> Forall P (listed found).
Proof. intros [= <-]. constructor. Qed.

Lemma nominal_isochronous stage d ptime found :
  d = [] \/ nominal d ->
  _verify_isochronous stage d ptime DEFAULT_FRAME_RATIO_TOLERANCE DEFAULT_CADENCE_JITTER_TOLERANCE_RATIO = Ok found ->
  Forall (fun v => ver_passed v = true) (listed found).
Proof.
  intros [->|(p & Hp & Hin & Hout & Hj & Hx)]; unfold _verify_isochronous.
  - intros (expected & _ & [= <-])%bind_ok_inv. constructor.
  - rewrite Hx, Hin, Hout, Hj. cbn [mbind result_bind].
    assert (fleb (fz 1) fzero = false) as -> by reflexivity. rewrite (fltb_not_fleb _ _ Hp). cbn [orb].
    assert (fdiv (fz 1) (fz 1) = Ok (fz 1)) as -> by reflexivity. cbn [mbind result_bind].
    assert (within (fsub (fz 1) DEFAULT_FRAME_RATIO_TOLERANCE) (fadd (fz 1) DEFAULT_FRAME_RATIO_TOLERANCE) (fz 1) = true)
      as -> by (vm_compute; reflexivity).
    rewrite fmul_pos_nonneg by (try done; vm_compute; reflexivity). by apply one_listed.
Qed.

Lemma isochronous_checks_pass tol ptime metrics name invariants found :
  tol = default_tolerances -> all_nominal metrics ->
  isochronous_checks tol ptime metrics name invariants = Ok found -> Forall (fun v => ver_passed v = true) found.
Proof.
  intros -> Hm. unfold isochronous_checks. destruct (bool_decide _); [|intros [= <-]; constructor].
  intros (o & Ho & [= <-])%bind_ok_inv. eapply nominal_isochronous; [|exact Ho].
  unfold dict_get_default. destruct (dict_get name metrics) as [d|] eqn:Hd; [right; by eapply Hm|by left].
Qed.

Lemma duration_invariant stage p c tol found :
  _verify_duration stage p c tol = Ok found -> Forall (fun v => ver_invariant v <> "isochronous") (listed found).
Proof.
  unfold _verify_duration. destruct (_ || _); [apply none_listed|].
  intros (ratio & _ & Ho)%bind_ok_inv. revert Ho. by apply one_listed.
Qed.

Lemma level_invariant log10 stage p c tol found :
  _verify_level log10 stage p c tol = Ok found -> Forall (fun v => ver_invariant v <> "isochronous") (listed found).
Proof.
  unfold _verify_level. destruct (wav_rms p) as [before|]; [|apply none_listed].
  destruct (wav_rms c) as [after|]; [|apply none_listed]. destruct (_ || _); [apply none_listed|].
  intros (quotient & _ & Ho)%bind_ok_inv. apply bind_ok_inv in Ho as (l & _ & Ho). revert Ho. by apply one_listed.
Qed.

Lemma signal_checks_invariants open_wav log10 tol stage invariants previous current found :
  signal_checks open_wav log10 tol stage invariants previous current = Ok found ->
  Forall (fun v => ver_invariant v <> "isochronous") found.
Proof.
  unfold signal_checks. destruct previous as [p|]; [|intros [= <-]; constructor].
  destruct current as [c|]; [|intros [= <-]; constructor].
  destruct (filterb _ invariants) as [|i l] eqn:Hfil; [intros [= <-]; constructor|].
  intros (ps & _ & H)%bind_ok_inv. apply bind_ok_inv in H as (cs & _ & H).
  destruct ps as [ps|]; [|injection H as <-; constructor]. destruct cs as [cs|]; [|injection H as <-; constructor].
  apply bind_ok_inv in H as (founds & Hf%mapM_res_ok & H). injection H as <-. apply Forall_concat.
  assert (Forall (fun i => i <> "isochronous") (i :: l)) as Hi.
  { rewrite <- Hfil. apply Forall_forall. intros x [_ Hx%bool_decide_eq_true]%elem_of_filterb.
    intros ->. set_solver. }
  clear Hfil. induction Hf as [|invariant vs rest founds' Hc _ IH]; [constructor|].
  apply Forall_cons in Hi as [Hne Hi]. constructor; [|by apply IH]. clear IH.
  unfold signal_check in Hc. apply bind_ok_inv in Hc as (reasons & _ & Hc). destruct reasons as [|reason reasons].
  - apply bind_ok_inv in Hc as (o & Ho & Hc). injection Hc as <-.
    destruct (String.eqb _ _); [by eapply duration_invariant|by eapply level_invariant].
  - injection Hc as <-. by repeat constructor.
Qed.

Lemma run_metrics_nominal {S} `{RecordingSinkLaws S} e run_id config config_hash (s s' : S) h :
  run_once e run_id config config_hash s = (Ok h, s') -> all_nominal (_metrics_by_stage (hr_metrics h)).
Proof.
  unfold run_once. intros Hr.
  apply st_bind_ok in Hr as (first & ? & [Hf ->]%lift_ok & Hr).
  apply st_bind_ok in Hr as (d & ? & [_ ->]%lift_ok & Hr).
  apply st_bind_ok in Hr as (plan & ? & [_ ->]%lift_ok & Hr).
  apply st_bind_ok in Hr as ([recs ms] & s1 & Hr & Hl).
  apply st_bind_ok in Hl as (last & ? & [Hl ->]%lift_ok & [= <- <-]).
  apply run_stages_ok in Hr as (_ & _ & cadences & Hc & Hms). cbn [hr_metrics snd].
  change (all_nominal (fold_left group_metric (first ++ ms ++ last) [])).
  rewrite group_staged, !staged_app, Hms, (host_metrics_unstaged _ _ _ _ Hf), (host_metrics_unstaged _ _ _ _ Hl), app_nil_r.
  eapply group_cadences; [exact Hc|]. intros stage d'. done.
Qed.

(** The harness reports a cadence that its own verification accepts: when
    the verifier returns on the recordings and the metrics of a harness run of
    a configuration, with the default tolerances, no isochronous verdict is a
    violation, whatever the frame interval is and whatever the verifier finds
    in the recordings. *)
Theorem harness_cadence_passes {S} `{RecordingSinkLaws S} e run_id config config_hash (s s' : S) h open_wav log10 verdicts :
  run_once e run_id config config_hash s = (Ok h, s') ->
  verify_recordings open_wav log10 default_tolerances config (hr_recordings h) (hr_metrics h) = Ok verdicts ->
  Forall (fun v => ver_invariant v = "isochronous" -> ver_passed v = true) verdicts.
Proof.
  intros Hr%run_metrics_nominal Hv. unfold verify_recordings in Hv.
  apply bind_ok_inv in Hv as (ptime & _ & Hv). apply bind_ok_inv in Hv as (stages & _ & Hv).
  pose proof (verify_loop open_wav log10 default_tolerances ptime
    (dict_of_list (map (fun r => (rec_stage r, r)) (hr_recordings h))) (_metrics_by_stage (hr_metrics h)) [] [] stages) as Hl.
  change (nearest_recording _ []) with (@None RecordingArtifact) in Hl. rewrite Hl in Hv.
  apply bind_ok_inv in Hv as (found & Hf%mapM_res_ok & [= <-]). cbn [app]. apply Forall_concat. clear Hl.
  induction Hf as [|x vs l found Hx _ IH]; constructor; [|done]. unfold stage_results in Hx.
  apply bind_ok_inv in Hx as (name & _ & Hx). apply bind_ok_inv in Hx as (d & _ & Hx).
  apply bind_ok_inv in Hx as (invariants & _ & Hx). apply bind_ok_inv in Hx as (iso & Hi & Hx).
  apply bind_ok_inv in Hx as (signal & Hs & [= <-]). apply Forall_app. split.
  - eapply Forall_impl; [by eapply isochronous_checks_pass in Hi|done].
  - eapply Forall_impl; [by eapply signal_checks_invariants in Hs|done].
Qed.

(** ** A run of two stages *)

Definition sample_config : jdict :=
  [("spec", JObj
     [("transport", JObj [("kind", JStr "audiosocket"); ("ptime_ms", JInt 20)]);
      ("observability", JObj [("host_metrics", JArr [JStr "active_tasks"])]);
      ("media", JObj [("pipeline", JArr
        [JObj [("type", JStr "ingress"); ("plugin", JStr "g711");
               ("params", JObj [("encoding", JStr "mulaw"); ("rate", JInt 8000); ("channels", JInt 1)]);
               ("invariants_applicable", JArr [JStr "isochronous"])];
         JObj [("type", JStr "agc"); ("plugin", JStr "agc-basic");
               ("io", JObj [("produces", JObj [("encoding", JStr "linear16"); ("rate", JInt 16000); ("channels", JInt 1)])]);
               ("invariants_applicable", JArr [JStr "duration_preserving"; JStr "isochronous"])]])])])].

Definition sample_harness : harness_env :=
  MkHarnessEnv 7 (fzero, fzero) (fun n => MkReading fzero fzero 1 fzero fzero (1000 + Z.of_nat n)) (fun n => 2000 + Z.of_nat n)
    "trace" (fun n => "span-" +:+ pretty n) (fun n => (Z.of_nat n, Z.of_nat n + 1)).

Definition quiet_disk : string -> put_outcome := fun _ => MkPut None None.
#[local] Instance sample_sink : RecordingSink storage := local_sink "/var/voxbench" quiet_disk.

Definition sample_once : result HarnessResult * storage :=
  run_once sample_harness "run-1" sample_config "hash" (MkStorage ∅ ∅).

Definition sample_result : HarnessResult :=
  match sample_once.1 with Ok h => h | Raise _ _ => MkHarnessResult "" "" [] [] [] end.

Lemma sample_once_ok : run_once sample_harness "run-1" sample_config "hash" (MkStorage ∅ ∅) = (Ok sample_result, sample_once.2).
Proof. vm_compute. reflexivity. Qed.

Definition sample_wav (uri : string) : result wav_file := Raise OSError "no such file".
Definition sample_log (x : float) : result float := Ok x.

Lemma sample_verdicts :
  (vs ← verify_recordings sample_wav sample_log default_tolerances sample_config (hr_recordings sample_result) (hr_metrics sample_result);
   Ok (map (fun v => (ver_stage v, ver_invariant v, ver_passed v)) vs))
  = Ok [("ingress", "isochronous", true); ("agc", "isochronous", true)].
Proof. vm_compute. reflexivity. Qed.

Lemma sample_verified : exists verdicts,
  verify_recordings sample_wav sample_log default_tolerances sample_config (hr_recordings sample_result) (hr_metrics sample_result)
  = Ok verdicts /\ len verdicts = 2.
Proof.
  pose proof sample_verdicts as E. apply bind_ok_inv in E as (vs & Hv & [= E]). exists vs. split; [done|].
  apply (f_equal (@length _)) in E. rewrite length_map in E. unfold len. by rewrite E.
Qed.

Lemma sample_plan_ok : exists plan, build_stage_plan sample_config = Ok plan /\ NoDup (map plan_stage plan) /\ len plan = 2.
Proof. eexists. split; [vm_compute; reflexivity|]. split; [repeat constructor; set_solver|reflexivity]. Qed.

Lemma run_records_every_stage_witness : exists plan,
  build_stage_plan sample_config = Ok plan /\ len plan = 2
  /\ hr_recordings sample_result
     = map (fun p => MkRecording (plan_stage p) (uri_of "run-1" (plan_stage p)) (plan_format p) (fz 20)) plan
  /\ Forall (fun p => exists content, recorded_at sample_once.2 "run-1" (plan_stage p) = Some content
                                      /\ silent_file (plan_format p) (fz 20) content) plan.
Proof.
  destruct (run_records_every_stage sample_harness "run-1" sample_config "hash" (MkStorage ∅ ∅) sample_once.2
    sample_result sample_once_ok) as (plan & d & cadences & Hp & Hd & _ & Hr & Hs & _).
  destruct sample_plan_ok as (plan' & Hp' & Hnd & Hl). rewrite Hp in Hp'. injection Hp' as <-.
  assert (d = fz 20) as -> by (specialize (Hd _ eq_refl); assert (float_of_int 20 = Ok d) as E by exact Hd;
    assert (float_of_int 20 = Ok (fz 20)) as E' by (vm_compute; reflexivity); congruence).
  exists plan. exact (conj Hp (conj Hl (conj Hr (Hs Hnd)))).
Defined.

Lemma harness_cadence_passes_witness : exists verdicts, len verdicts = 2
  /\ Forall (fun v => ver_invariant v = "isochronous" -> ver_passed v = true) verdicts.
Proof.
  destruct sample_verified as (verdicts & Hv & Hl). exists verdicts. split; [exact Hl|].
  exact (harness_cadence_passes sample_harness "run-1" sample_config "hash" (MkStorage ∅ ∅) sample_once.2 sample_result
    sample_wav sample_log verdicts sample_once_ok Hv).
Defined.
