(* ===== verification/RunLifeCycle.v ===== *)
(** * The life cycle of an observed run

    Any sequence of the calls of [ObservedRuns], with any failures of the
    repository and the disk, moves a run from running to completed or failed
    and never back, and only adds observations to it; a refused call changes
    nothing.  The proofs use the laws of a repository ([RunStoreLaws]), which
    both implementations satisfy. *)
From S2P Require Import Prelude Effects Collections PyFloat PyData Bytes Base64 JobQueue RunModel Repository Timeline Registry SignalChecks PyUrl RunStores ObservedRuns.

Open Scope Z_scope.

(** ** Progress of a run *)

Definition terminal (run : StoredRun) : Prop := status run = "completed" \/ status run = "failed".

(** The status and the fields that say how a run ended agree. *)
Definition status_sound (run : StoredRun) : Prop :=
  (status run = "running" /\ ended_at run = None /\ failure_alias run = None /\ verifications run = [])
  \/ (status run = "completed" /\ is_Some (ended_at run) /\ failure_alias run = None)
  \/ (status run = "failed" /\ is_Some (ended_at run) /\ is_Some (failure_alias run) /\ verifications run = []).

(** The facts about an ended run that no later call may change. *)
Definition outcome (run : StoredRun) :=
  (status run, ended_at run, failure_alias run, metrics run, event_ids run,
   map (fun r => (rec_stage r, rec_uri r, rec_duration_ms r)) (recordings run),
   map (fun v => (ver_stage v, ver_invariant v, ver_passed v, ver_detail v)) (verifications run)).

Record progress (a b : StoredRun) : Prop := {
  progress_started : started_at b = started_at a;
  progress_status : status b = status a \/ (status a = "running" /\ terminal b);
  progress_outcome : terminal a -> outcome b = outcome a;
  progress_metrics : metrics a `prefix_of` metrics b;
  progress_sip : sip_events a `prefix_of` sip_events b;
  progress_rtp : rtp_stats a `prefix_of` rtp_stats b;
  progress_events : event_ids a `prefix_of` event_ids b;
  progress_stages : map rec_stage (recordings a) `prefix_of` map rec_stage (recordings b) }.

Lemma progress_refl a : progress a a.
Proof. by constructor; auto. Qed.

Lemma running_not_terminal a : status a = "running" -> ~ terminal a.
Proof. unfold terminal. intros -> [|]; done. Qed.

Lemma progress_trans a b c : progress a b -> progress b c -> progress a c.
Proof.
  intros [] []. constructor; try (etrans; eassumption).
  - destruct progress_status0 as [E|[E T]], progress_status1 as [E'|[E' T']].
    + left. congruence.
    + right. split; [congruence|done].
    + right. split; [done|]. unfold terminal in *. by rewrite E'.
    + by apply running_not_terminal in E'.
  - intros Ht. rewrite progress_outcome1; [auto|]. specialize (progress_outcome0 Ht).
    unfold terminal in *. by injection progress_outcome0 as -> _.
Qed.

Lemma same_run_outcome a b : same_run a b -> outcome a = outcome b.
Proof.
  intros H. pose proof (same_run_ids _ _ H) as Hi. destruct H. unfold outcome. congruence.
Qed.

Lemma same_run_stages a b : same_run a b -> map rec_stage (recordings a) = map rec_stage (recordings b).
Proof.
  intros H. apply same_recordings in H. apply (f_equal (map (fun x => x.1.1))) in H. by rewrite !map_map in H.
Qed.

Lemma same_run_progress a b : same_run b a -> progress a b.
Proof.
  intros H. pose proof (same_run_outcome _ _ H). pose proof (same_run_ids _ _ H) as Hi.
  pose proof (same_run_stages _ _ H) as Hs. destruct H. constructor; auto; congruence || (by eexists []; rewrite app_nil_r).
Qed.

Lemma same_run_sound a b : same_run a b -> status_sound b -> status_sound a.
Proof.
  intros []. unfold status_sound. rewrite same_status, same_ended, same_failure.
  assert (verifications b = [] -> verifications a = []) as Hv
    by (intros E; rewrite E in same_verdicts; by destruct (verifications a)).
  naive_solver.
Qed.

Lemma validated_same a b : environment a = environment b -> readiness_checklist a = readiness_checklist b ->
  validated a -> validated b.
Proof. unfold validated. by intros -> ->. Qed.

(** What the handlers do to a run. *)
Record allowed (run run' : StoredRun) : Prop := {
  allowed_id : run_id run' = run_id run;
  allowed_environment : environment run' = environment run;
  allowed_checklist : readiness_checklist run' = readiness_checklist run;
  allowed_progress : progress run run';
  allowed_sound : status_sound run -> status_sound run';
  allowed_ids : NoDup (event_ids run) -> NoDup (event_ids run') }.

(** Appending to what a run has, when it is running or the SIP events and RTP
    statistics alone. *)
Lemma allowed_observations run m sip rtp events :
  status run = "running" \/ (m = [] /\ events = []) ->
  (NoDup (event_ids run) -> NoDup (event_ids run ++ map ev_event_id events)) ->
  allowed run (with_observations m sip rtp events run).
Proof.
  intros Hr Hn. constructor; try done.
  - constructor; cbn; auto; unfold event_ids; cbn; rewrite ?map_app; try by eexists.
    + intros Ht. destruct Hr as [Hr|[-> ->]]; [by apply running_not_terminal in Hr|].
      unfold outcome, event_ids. cbn. by rewrite map_app, !app_nil_r.
  - intros H. unfold event_ids in *. cbn. rewrite map_app. auto.
Qed.

Lemma put_recording_stages r l :
  map rec_stage l `prefix_of` map rec_stage (put_recording r l).
Proof.
  induction l as [|x l IH]; cbn; [apply prefix_nil|].
  destruct (String.eqb_spec (rec_stage x) (rec_stage r)) as [E|E]; cbn.
  - by rewrite E.
  - by apply prefix_cons.
Qed.

Lemma allowed_recording run r : status run = "running" ->
  allowed run (with_recordings (put_recording r (recordings run)) run).
Proof.
  intros Hr. constructor; try done. constructor; cbn; auto.
  - by intros Ht%running_not_terminal.
  - apply put_recording_stages.
Qed.

Lemma allowed_completed run v now : status run = "running" -> allowed run (completed_run v now run).
Proof.
  intros Hr. constructor; try done.
  - constructor; cbn; auto; [right; split; [done|by left]|]. by intros Ht%running_not_terminal.
  - intros Hs. right. left. cbn. split; [done|]. split; [by eexists|].
    unfold status_sound in Hs. rewrite Hr in Hs. naive_solver.
Qed.

Lemma allowed_failed run alias now : status run = "running" -> allowed run (failed_run alias now run).
Proof.
  intros Hr. constructor; try done.
  - constructor; cbn; auto; [right; split; [done|by right]| |by eexists]. by intros Ht%running_not_terminal.
  - intros Hs. right. right. cbn. split; [done|]. split; [by eexists|]. split; [by eexists|].
    unfold status_sound in Hs. rewrite Hr in Hs. naive_solver.
Qed.

(** ** The state of a handler at work *)

Section api.
Context {R F : Type} `{RunStoreLaws R F}.
Context (artifact_root : string) (open_wav : gmap string bytes -> string -> result wav_file)
  (log10 : float -> result float) (resolve_request : RunCreateRequest -> result ResolvedConfig).
Implicit Types (e : call_env F) (run : StoredRun) (s : RunApiState R) (k : store_key).

Definition run_at s k : option StoredRun := view (repository s) k.

(** A handler that fetched [run0] under the key [k] in [s0] holds [run]; the
    repository keeps [run0] or some of the handler's changes. *)
Record working k run0 (s0 : RunApiState R) run s : Prop := {
  working_ok : store_ok (repository s);
  working_id : run_id run = id_of k;
  working_key : key_of (id_of k) = Some k;
  working_validated : validated run;
  working_run : allowed run0 run;
  working_stored : exists v, run_at s k = Some v /\ (v = run0 \/ exists w, allowed run0 w /\ same_run v w);
  working_others : forall k', k' <> k -> run_at s k' = run_at s0 k' }.

Lemma allowed_trans run0 run run' : allowed run0 run -> allowed run run' -> allowed run0 run'.
Proof.
  intros [] []. constructor; auto; try congruence. by eapply progress_trans.
Qed.

Lemma find_run_spec e id s r s' : store_ok (repository s) -> find_run e id s = (r, s') ->
  s' = s /\ (forall run, r = Ok run -> exists k, key_of id = Some k /\ run_at s k = Some run
    /\ working k run s run s).
Proof.
  intros Hok. unfold find_run, on_repository, mbind, st_bind.
  destruct (fetch (on_get e) id (repository s)) as [r0 repo] eqn:Ef.
  pose proof (fetch_spec _ _ _ _ _ Ef) as [-> Hr].
  assert (MkApi (repository s) (audio_buffers s) (files s) = s) as -> by by destruct s.
  destruct r0 as [o|c a]; [|by intros [= <- <-]]. specialize (Hr o eq_refl).
  destruct o as [run|]; unfold mret, st_ret, lift; intros [= <- <-]; [|done].
  split; [done|]. intros ? [= <-]. destruct (key_of id) as [k|] eqn:Ek; [|done]. cbn in Hr. symmetry in Hr.
  exists k. split; [done|]. split; [done|].
  constructor; eauto using view_id, id_key, view_validated.
  constructor; auto using progress_refl.
Qed.

Lemma working_update k run0 s0 f run s r s' :
  working k run0 s0 run s -> allowed run (f run) -> update f run s = (r, s') ->
  r = Ok (f run) /\ working k run0 s0 (f run) s' /\ audio_buffers s' = audio_buffers s /\ files s' = files s.
Proof.
  intros [Hok Hi Hk Hv Ha (v & Hs & Hsv) Ho] Hf.
  unfold update, on_repository, mbind, st_bind, modify, mret, st_ret. intros [= <- <-]. split; [done|].
  assert (validated (f run)) as Hvf by (eapply validated_same; [| |done]; symmetry; apply Hf).
  assert (run_id (f run) = id_of k) as Hif by (rewrite (allowed_id _ _ Hf); done).
  assert (key_of (run_id (f run)) = Some k) as Hkf by (by rewrite Hif).
  destruct (touch_spec (f run) (repository s) k v Hok Hvf Hkf Hs) as (Hok' & Hview & Hother).
  pose proof (allowed_trans _ _ _ Ha Hf) as Ha'.
  split; [|done]. constructor; try done.
  - unfold run_at; cbn. destruct Hview as [->| ->]; eexists; (split; [done|]); [done|].
    right. exists (f run). split; [done|apply same_run_refl].
  - intros k' Hne. unfold run_at; cbn. rewrite Hother by done. by apply Ho.
Qed.

Lemma working_repository k run0 s0 run s s' :
  repository s' = repository s -> working k run0 s0 run s -> working k run0 s0 run s'.
Proof. intros E []. constructor; unfold run_at in *; rewrite ?E; done. Qed.

Lemma working_save k run0 s0 e run s r s' :
  working k run0 s0 run s -> save_run e run s = (r, s') ->
  working k run0 s0 run s' /\ audio_buffers s' = audio_buffers s /\ files s' = files s
  /\ (is_ok r = true -> exists v, run_at s' k = Some v /\ same_run v run).
Proof.
  intros [Hok Hi Hk Hv Ha Hs Ho]. unfold save_run, on_repository.
  destruct (commit (on_save e) run (repository s)) as [r0 repo] eqn:Ec. intros [= <- <-].
  destruct (commit_spec _ _ _ _ _ Hok Hv Ec) as [[-> Hr]|(-> & Hok' & k' & Hk' & (v & Hview & Hsame) & Hother)].
  - split; [|cbn; rewrite Hr; done]. by constructor.
  - rewrite Hi, Hk in Hk'. injection Hk' as <-. split; [|split_and!; [done..|]; intros _; eauto].
    constructor; try done.
    + exists v. split; [done|]. right. eauto.
    + intros k' Hne. unfold run_at; cbn. rewrite Hother by done. by apply Ho.
Qed.

(** A chunk changes the recordings of the held run at most. *)
Lemma write_chunk_working k run0 s0 e run c s r s' :
  working k run0 s0 run s -> status run = "running" -> _write_observed_audio artifact_root e run c s = (r, s') ->
  exists run', working k run0 s0 run' s' /\ status run' = "running" /\ forall x, r = Ok x -> x = run'.
Proof.
  intros Hw Hr. destruct c as [chunk pcm]. unfold _write_observed_audio.
  unfold mbind, st_bind, get_state, lift, set_buffers, modify, write_file.
  destruct (buffer_for _ _ _) as [b|? ?]; [|intros [= <- <-]; by exists run].
  destruct (disk e _ _) as [|? ? [rest|]].
  2,3: intros [= <- <-]; exists run; split; [|done]; by eapply working_repository, Hw.
  destruct (buffer_duration _) as [d|? ?].
  2: intros [= <- <-]; exists run; split; [|done]; by eapply working_repository, Hw.
  intros Hu. eapply working_update in Hu as (-> & Hw' & _).
  - eexists. split; [apply Hw'|]. split; [done|]. by intros x [= <-].
  - by eapply working_repository, Hw.
  - by apply allowed_recording.
Qed.

Lemma write_chunks_working k run0 s0 e l run s r s' :
  working k run0 s0 run s -> status run = "running" -> write_chunks artifact_root e run l s = (r, s') ->
  exists run', working k run0 s0 run' s' /\ status run' = "running" /\ forall x, r = Ok x -> x = run'.
Proof.
  revert run s. induction l as [|c l IH]; intros run s Hw Hr Hc; cbn [write_chunks] in Hc.
  - unfold mret, st_ret in Hc. injection Hc as <- <-. exists run. split_and!; [done..|]. by intros x [= <-].
  - apply st_bind_cases in Hc as [(run1 & s1 & H1 & Hc)|(c1 & a1 & s1 & H1 & [= -> ->])];
      eapply write_chunk_working in H1 as (run' & Hw' & Hr' & Hx); try done.
    + rewrite (Hx run1 eq_refl) in *. by eapply IH.
    + by exists run'.
Qed.

(** ** Steps of the API *)

(** What a step may do to a stored run. *)
Record evolves (a b : StoredRun) : Prop := {
  evolves_progress : progress a b;
  evolves_sound : status_sound a -> status_sound b;
  evolves_ids : NoDup (event_ids a) -> NoDup (event_ids b) }.

Definition advanced s s' : Prop :=
  store_ok (repository s')
  /\ forall k, match run_at s k with
     | Some run => exists run', run_at s' k = Some run' /\ evolves run run'
     | None => forall run', run_at s' k = Some run' -> status_sound run' /\ NoDup (event_ids run')
     end.

Lemma evolves_refl a : evolves a a.
Proof. constructor; auto using progress_refl. Qed.

Lemma evolves_trans a b c : evolves a b -> evolves b c -> evolves a c.
Proof. intros [] []. constructor; auto. by eapply progress_trans. Qed.

Lemma advanced_refl s : store_ok (repository s) -> advanced s s.
Proof.
  intros Hs. split; [done|]. intros k. destruct (run_at s k) as [run|] eqn:E; [|by intros ? [=]].
  eauto using evolves_refl.
Qed.

Lemma advanced_trans s1 s2 s3 : advanced s1 s2 -> advanced s2 s3 -> advanced s1 s3.
Proof.
  intros [H1 A1] [H2 A2]. split; [done|]. intros k. specialize (A1 k). specialize (A2 k).
  destruct (run_at s1 k) as [run|].
  - destruct A1 as (run2 & E & Hev). rewrite E in A2. destruct A2 as (run3 & E3 & Hev3).
    exists run3. split; [done|]. by eapply evolves_trans.
  - intros run3 E3. destruct (run_at s2 k) as [run2|] eqn:E; [|by apply A2].
    destruct A2 as (? & E4 & []). rewrite E3 in E4. injection E4 as <-.
    destruct (A1 _ eq_refl). auto.
Qed.

Lemma working_advanced k run0 s0 run s : run_at s0 k = Some run0 -> working k run0 s0 run s -> advanced s0 s.
Proof.
  intros Hr [Hok Hi Hk Hv Ha (v & Hs & Hsv) Ho]. split; [done|]. intros k'.
  destruct (run_at s0 k') as [run'|] eqn:E.
  - destruct (decide (k' = k)) as [->|Hne]; [|exists run'; rewrite Ho, E; auto using evolves_refl].
    exists v. split; [done|]. rewrite Hr in E. injection E as <-. destruct Hsv as [->|(w & [] & Hsame)]; [apply evolves_refl|].
    constructor.
    + eapply progress_trans; [done|]. by apply same_run_progress.
    + intros Hx. eapply same_run_sound; eauto.
    + rewrite (same_run_ids _ _ Hsame). auto.
  - intros run' E'. rewrite Ho, E in E'; [done|]. intros ->. by rewrite Hr in E.
Qed.

Inductive api_call :=
  | CreateObserved (r : RunCreateRequest)
  | Observations (raw : ObservationBatchRequest)
  | SipEvent (raw : SipEventRequest)
  | RtpStat (raw : RtpStatRequest)
  | Complete (id : string)
  | FailRun (id failure_alias : string).

(** A request is validated before its handler runs. *)
Definition run_call e (c : api_call) : st (RunApiState R) unit :=
  match c with
  | CreateObserved r => _ ← create_observed_run resolve_request e r; mret tt
  | Observations raw =>
      b ← lift (validate_batch raw); _ ← ingest_observation_batch artifact_root e b; mret tt
  | SipEvent raw =>
      v ← lift (validate_sip (sr_event raw));
      _ ← ingest_sip_event e (MkSipRequest (sr_run_id raw) v); mret tt
  | RtpStat raw =>
      v ← lift (validate_rtp (rr_stat raw));
      _ ← ingest_rtp_stat e (MkRtpRequest (rr_run_id raw) v); mret tt
  | Complete id => _ ← complete_observed_run open_wav log10 e id; mret tt
  | FailRun id alias =>
      alias ← lift (reference_field 1 128 "failure_alias" alias);
      _ ← fail_observed_run e id alias; mret tt
  end.

(** A new run has the identifier of no other one, and validated metadata. *)
Definition call_ok e (c : api_call) s : Prop :=
  match c with
  | CreateObserved r =>
      (exists given, validate_environment given = Ok (rc_environment r))
      /\ (exists items, mapM_res validate_item items = Ok (rc_checklist r))
      /\ forall k, key_of (uuid_str (call_uuid e)) = Some k -> run_at s k = None
  | _ => True
  end.

Inductive api_step s : RunApiState R -> Prop :=
  | step_call e c : call_ok e c s -> api_step s (snd (run_call e c s)).

(** ** The handlers advance the runs *)

Lemma validate_batch_ok raw b : validate_batch raw = Ok b -> NoDup (map to_event_id (ob_timeline_events b)).
Proof.
  unfold validate_batch, require_observation. intros Hb. simpl_res.
  match goal with E : bool_decide (NoDup _) = true |- _ => by apply bool_decide_eq_true in E end.
Qed.

Lemma new_events_ids run b :
  map ev_event_id (new_events run b)
  = filterb (fun id => negb (bool_decide (id ∈ event_ids run))) (map to_event_id (ob_timeline_events b)).
Proof.
  unfold new_events, event_ids. generalize (map ev_event_id (timeline_events run)). intros ids.
  unfold filterb. induction (ob_timeline_events b) as [|x l IH]; cbn; [done|].
  case_bool_decide; cbn; by rewrite IH.
Qed.

Lemma new_events_distinct run b : NoDup (map to_event_id (ob_timeline_events b)) -> NoDup (event_ids run) ->
  NoDup (event_ids run ++ map ev_event_id (new_events run b)).
Proof.
  intros Hb Hr. rewrite new_events_ids. apply NoDup_app. split; [done|]. unfold filterb. split.
  - intros x Hx Hf. apply list_elem_of_In, filter_In in Hf as [_ Hf]. by rewrite bool_decide_true in Hf.
  - induction Hb as [|x l Hx Hl IH]; cbn; [constructor|]. case_bool_decide; cbn; [done|]. constructor; [|done].
    intros Hf. apply Hx. apply list_elem_of_In, filter_In in Hf as [Hf _]. by apply list_elem_of_In.
Qed.

(** A call on the run [id] changed nothing, or that run alone, which was one of
    [P] before. *)
Definition touches (P : StoredRun -> Prop) id s s' : Prop :=
  s' = s \/ exists k run0 run, key_of id = Some k /\ run_at s k = Some run0 /\ P run0 /\ working k run0 s run s'.

Definition is_running run : Prop := status run = "running".
Definition any_run run : Prop := True.

Lemma touches_advanced P id s s' : store_ok (repository s) -> touches P id s s' -> advanced s s'.
Proof.
  intros Hok [->|(k & run0 & run & _ & Hr & _ & Hw)]; [by apply advanced_refl|]. by eapply working_advanced.
Qed.

Lemma touches_others P id s s' k : touches P id s s' -> key_of id <> Some k -> run_at s' k = run_at s k.
Proof.
  intros [->|(k' & run0 & run & Hk & _ & _ & Hw)] Hne; [done|]. apply Hw. congruence.
Qed.

(** What touches running runs alone keeps the ended ones. *)
Lemma touches_ended id s s' k run : touches is_running id s s' -> run_at s k = Some run -> terminal run ->
  run_at s' k = Some run.
Proof.
  intros [->|(k' & run0 & run' & _ & Hr & Hrun & Hw)] Hk Ht; [done|].
  destruct (decide (k = k')) as [->|Hne]; [|by rewrite (working_others _ _ _ _ _ Hw)].
  rewrite Hk in Hr. injection Hr as <-. by apply running_not_terminal in Hrun.
Qed.

Lemma find_run_touches {A} P e id (m : StoredRun -> st (RunApiState R) A) s : store_ok (repository s) ->
  (forall k run r s', key_of id = Some k -> run_at s k = Some run -> working k run s run s ->
    m run s = (r, s') -> touches P id s s') ->
  touches P id s (snd ((run ← find_run e id; m run) s)).
Proof.
  intros Hok Hm. unfold mbind, st_bind. destruct (find_run e id s) as [r s'] eqn:E.
  apply find_run_spec in E as [-> Hr]; [|done]. destruct r as [run|]; [|by left].
  destruct (Hr run eq_refl) as (k & Hk & Hrun & Hw). destruct (m run s) as [r s'] eqn:E. cbn. by eapply Hm.
Qed.

(** The end of a handler: one change of the held run, then the save. *)
Lemma update_save_touches {A} (P : StoredRun -> Prop) id k run0 s0 f run s e (x : StoredRun -> A) r s' :
  key_of id = Some k -> run_at s0 k = Some run0 -> P run0 -> working k run0 s0 run s -> allowed run (f run) ->
  (run ← update f run; _ ← save_run e run; mret (x run)) s = (r, s') -> touches P id s0 s'.
Proof.
  intros Hk Hr0 HP Hw Hf Hm. apply st_bind_cases in Hm as [(run1 & s1 & Hu & Hm)|(c1 & a1 & s1 & Hu & [= -> ->])];
    eapply working_update in Hu as (Hx & Hw1 & _); try done.
  injection Hx as ->.
  apply st_bind_cases in Hm as [(? & s2 & Hsv & Hm)|(c1 & a1 & s2 & Hsv & [= -> ->])];
    eapply working_save in Hsv as (Hw2 & _); try done.
  - unfold mret, st_ret in Hm. injection Hm as <- <-. right; eauto 11.
  - right; eauto 11.
Qed.

Lemma batch_touches e b s : store_ok (repository s) -> NoDup (map to_event_id (ob_timeline_events b)) ->
  touches is_running (ob_run_id b) s (snd (ingest_observation_batch artifact_root e b s)).
Proof.
  intros Hok Hn. apply find_run_touches; [done|]. intros k run r s' Hk Hrun Hw Hm.
  destruct (String.eqb_spec (status run) "running") as [Hr|]; cbn [negb] in Hm.
  2: unfold lift in Hm; injection Hm as <- <-; by left.
  unfold mbind at 1, st_bind at 1, lift at 1 in Hm.
  destruct (_configured_stage_names run) as [configured|]; [|injection Hm as <- <-; by left].
  destruct (unknown_stages configured b); [|unfold lift in Hm; injection Hm as <- <-; by left].
  unfold mbind at 1, st_bind at 1, lift at 1 in Hm. destruct (mapM_res _ _) as [decoded|]; [|injection Hm as <- <-; by left].
  unfold mbind at 1, st_bind at 1, get_state at 1 in Hm. unfold mbind at 1, st_bind at 1, lift at 1 in Hm.
  destruct (check_formats _ _ _); [|injection Hm as <- <-; by left].
  apply st_bind_cases in Hm as [(run1 & s1 & H1 & Hm)|(c1 & a1 & s1 & H1 & [= -> ->])];
    eapply write_chunks_working in H1 as (run' & Hw' & Hr' & Hx); try done.
  - rewrite (Hx run1 eq_refl) in *. revert Hm. eapply update_save_touches; [done..|].
    apply allowed_observations; [by left|]. intros. by apply new_events_distinct.
  - right; eauto 11.
Qed.

(** Ending a running run. *)
Lemma end_touches {A} (P : StoredRun -> Prop) id k run0 s0 f run s e (x : StoredRun -> A) r s' :
  key_of id = Some k -> run_at s0 k = Some run0 -> P run0 -> working k run0 s0 run s -> allowed run (f run) ->
  (run ← update f run; _ ← set_buffers (drop_buffers id); _ ← save_run e run; mret (x run)) s = (r, s') ->
  touches P id s0 s'.
Proof.
  intros Hk Hr0 HP Hw Hf Hm. apply st_bind_cases in Hm as [(run1 & s1 & Hu & Hm)|(c1 & a1 & s1 & Hu & [= -> ->])];
    eapply working_update in Hu as (Hx & Hw1 & _); try done.
  injection Hx as ->.
  unfold mbind at 1, st_bind at 1, set_buffers, modify in Hm.
  apply (working_repository _ _ _ _ s1 (MkApi (repository s1) (drop_buffers id (audio_buffers s1)) (files s1)) eq_refl) in Hw1.
  apply st_bind_cases in Hm as [(? & s2 & Hsv & Hm)|(c1 & a1 & s2 & Hsv & [= -> ->])];
    eapply working_save in Hsv as (Hw2 & _); try done.
  - unfold mret, st_ret in Hm. injection Hm as <- <-. right; eauto 11.
  - right; eauto 11.
Qed.

Lemma complete_touches e id s : store_ok (repository s) ->
  touches is_running id s (snd (complete_observed_run open_wav log10 e id s)).
Proof.
  intros Hok. apply find_run_touches; [done|]. intros k run r s' Hk Hrun Hw Hm.
  destruct (String.eqb (status run) "completed").
  { unfold mret, st_ret in Hm. injection Hm as <- <-. by left. }
  destruct (String.eqb_spec (status run) "running") as [Hr|]; cbn [negb] in Hm.
  2: unfold lift in Hm; injection Hm as <- <-; by left.
  unfold mbind at 1, st_bind at 1, get_state at 1 in Hm. unfold mbind at 1, st_bind at 1, lift at 1 in Hm.
  destruct (verify_recordings _ _ _ _ _ _); [|injection Hm as <- <-; by left].
  revert Hm. eapply end_touches; [done..|]. by apply allowed_completed.
Qed.

Lemma fail_touches e id alias s : store_ok (repository s) ->
  touches is_running id s (snd (fail_observed_run e id alias s)).
Proof.
  intros Hok. apply find_run_touches; [done|]. intros k run r s' Hk Hrun Hw Hm.
  destruct (String.eqb (status run) "failed").
  { unfold mret, st_ret in Hm. injection Hm as <- <-. by left. }
  destruct (String.eqb_spec (status run) "running") as [Hr|]; cbn [negb] in Hm.
  2: unfold lift in Hm; injection Hm as <- <-; by left.
  revert Hm. eapply end_touches; [done..|]. by apply allowed_failed.
Qed.

Lemma create_advances e r s : store_ok (repository s) -> call_ok e (CreateObserved r) s ->
  advanced s (snd (create_observed_run resolve_request e r s)).
Proof.
  intros Hok (Henv & Hitems & Hfresh). unfold create_observed_run, mbind, st_bind, lift.
  destruct (_resolve_run_request _ _) as [res|]; [|by apply advanced_refl].
  destruct (_create_running_run e r res) as [run|] eqn:Er; [|by apply advanced_refl].
  unfold _create_running_run in Er. simpl_res. set (run := with_conversation _ _).
  assert (validated run) as Hv by (split; done).
  unfold save_run, on_repository. destruct (commit _ _ _) as [x repo] eqn:Ec.
  destruct (commit_spec _ _ _ _ _ Hok Hv Ec) as [[-> Hx]|(-> & Hok' & k & Hk & (v & Hview & Hsame) & Hother)].
  { assert (MkApi (repository s) (audio_buffers s) (files s) = s) as -> by by destruct s.
    destruct x; [done|]. by apply advanced_refl. }
  split; [done|]. intros k'. unfold run_at. cbn [snd repository mret st_ret].
  destruct (decide (k' = k)) as [->|Hne].
  - specialize (Hfresh k Hk). unfold run_at in Hfresh. rewrite Hfresh. intros run' Hr'. rewrite Hview in Hr'.
    injection Hr' as <-. split; [eapply same_run_sound; [done|]; by left|].
    rewrite (same_run_ids _ _ Hsame). constructor.
  - rewrite Hother by done. destruct (view (repository s) k') as [run'|]; [|by intros ? [=]].
    eauto using evolves_refl.
Qed.

Lemma append_touches {A} e id f (x : A) s : store_ok (repository s) -> (forall run, allowed run (f run)) ->
  touches any_run id s (snd ((run ← find_run e id; run ← update f run; _ ← save_run e run; mret x) s)).
Proof.
  intros Hok Hf. apply find_run_touches; [done|]. intros k run r s' Hk Hrun Hw.
  by apply (update_save_touches any_run id k run s f run s e (fun _ => x)).
Qed.

Lemma call_advances e c s : store_ok (repository s) -> call_ok e c s -> advanced s (snd (run_call e c s)).
Proof.
  assert (forall A (m : st (RunApiState R) A), advanced s (snd (m s)) -> advanced s (snd ((_ ← m; mret tt) s))) as Hd.
  { intros A m. unfold mbind, st_bind. by destruct (m s) as [[?|? ?] ?]. }
  assert (forall A B (v : result A) (f : A -> st (RunApiState R) B), store_ok (repository s) ->
    (forall a, v = Ok a -> advanced s (snd (f a s))) -> advanced s (snd ((a ← lift v; f a) s))) as Hl.
  { intros A B v f Hok Hf. unfold mbind, st_bind, lift. destruct v; [by apply Hf|by apply advanced_refl]. }
  intros Hok Hc. destruct c as [r|raw|raw|raw|id|id alias]; unfold run_call.
  - by apply Hd, create_advances.
  - apply Hl; [done|]. intros b Hb. eapply Hd, touches_advanced, batch_touches; [done..|]. by eapply validate_batch_ok.
  - apply Hl; [done|]. intros v _. eapply Hd, touches_advanced, append_touches; [done..|].
    intros run. apply allowed_observations; [by right|]. by rewrite app_nil_r.
  - apply Hl; [done|]. intros v _. eapply Hd, touches_advanced, append_touches; [done..|].
    intros run. apply allowed_observations; [by right|]. by rewrite app_nil_r.
  - by eapply Hd, touches_advanced, complete_touches.
  - apply Hl; [done|]. intros a _. by eapply Hd, touches_advanced, fail_touches.
Qed.

(** *** Ended runs *)

Lemma create_keeps e r s k : store_ok (repository s) -> call_ok e (CreateObserved r) s -> is_Some (run_at s k) ->
  run_at (snd (create_observed_run resolve_request e r s)) k = run_at s k.
Proof.
  intros Hok (Henv & Hitems & Hfresh) Hk. unfold create_observed_run, mbind, st_bind, lift.
  destruct (_resolve_run_request _ _) as [res|]; [|done].
  destruct (_create_running_run e r res) as [run|] eqn:Er; [|done].
  unfold _create_running_run in Er. simpl_res. set (run := with_conversation _ _).
  assert (validated run) as Hv by (split; done). unfold save_run, on_repository. destruct (commit _ _ _) as [x repo] eqn:Ec.
  destruct (commit_spec _ _ _ _ _ Hok Hv Ec) as [[-> _]|(-> & _ & k' & Hk' & _ & Hother)]; [by destruct x|].
  unfold run_at. cbn. apply Hother. intros ->. unfold is_Some, run_at in Hk. specialize (Hfresh k' Hk'). unfold run_at in Hfresh.
  rewrite Hfresh in Hk. by destruct Hk.
Qed.

(** The calls that look at no status. *)
Definition late (c : api_call) : bool := match c with SipEvent _ | RtpStat _ => true | _ => false end.

Lemma ended_kept e c s k run : store_ok (repository s) -> call_ok e c s -> late c = false ->
  run_at s k = Some run -> terminal run -> run_at (snd (run_call e c s)) k = Some run.
Proof.
  assert (forall A (m : st (RunApiState R) A), snd ((_ ← m; mret tt) s) = snd (m s)) as Hd.
  { intros A m. unfold mbind, st_bind. by destruct (m s) as [[?|? ?] ?]. }
  intros Hok Hc Hl Hk Ht. destruct c as [r|raw|raw|raw|id|id alias]; try done; unfold run_call.
  - rewrite Hd, create_keeps; eauto.
  - unfold mbind at 1, st_bind at 1, lift at 1. destruct (validate_batch raw) as [b|] eqn:Hb; [|done].
    rewrite Hd. eapply touches_ended; [|done..]. apply batch_touches; [done|]. by eapply validate_batch_ok.
  - rewrite Hd. eapply touches_ended; [|done..]. by apply complete_touches.
  - unfold mbind at 1, st_bind at 1, lift at 1. destruct (reference_field _ _ _ alias) as [a|]; [|done].
    rewrite Hd. eapply touches_ended; [|done..]. by apply fail_touches.
Qed.
End api.

(** ** The life cycle *)

(** C3. Whatever the six calls on observed runs do (creating a run, a batch of
    observations, a SIP event, an RTP statistic, completing and failing), in
    any order and with any failures of the repository and of the disk, a stored
    run only advances: it stays stored, its status changes at most from running
    to completed or failed, its metrics, SIP events, RTP statistics, timeline
    events and recorded stages only grow, and once it has ended its status, the
    time and the alias of its end, its metrics, timeline events, recordings and
    verdicts are fixed.  SIP events and RTP statistics are not: the code
    accepts them for ended runs, too; every other call leaves an ended run
    exactly as it is stored.  A run whose status agrees with how it ended, and
    whose timeline events are distinct, stays so; every run created on the way
    is such a run. *)
Theorem observed_run_life_cycle {R F} `{RunStoreLaws R F} root open_wav log10 resolve (s s' : RunApiState R) :
  store_ok (repository s) -> rtc (api_step root open_wav log10 resolve) s s' ->
  store_ok (repository s')
  /\ (forall k, match run_at s k with
     | Some run => exists run', run_at s' k = Some run' /\ progress run run'
         /\ (status_sound run -> status_sound run') /\ (NoDup (event_ids run) -> NoDup (event_ids run'))
     | None => forall run', run_at s' k = Some run' -> status_sound run' /\ NoDup (event_ids run')
     end)
  /\ forall e c k run, call_ok e c s' -> late c = false -> run_at s' k = Some run -> terminal run ->
       run_at (snd (run_call root open_wav log10 resolve e c s')) k = Some run.
Proof.
  intros Hok Hs. assert (advanced s s') as [Hok' Ha].
  { revert Hok. induction Hs as [s|s1 s2 s3 [e c Hc] _ IH]; intros Hok; [by apply advanced_refl|].
    pose proof (call_advances root open_wav log10 resolve e c s1 Hok Hc) as Ha.
    eapply advanced_trans; [done|]. apply IH, Ha. }
  split; [done|]. split; [|intros e c k run Hc Hl Hk Ht; by apply ended_kept].
  intros k. specialize (Ha k). destruct (run_at s k); [|done].
  destruct Ha as (run' & Hr & []). eauto 10.
Qed.

Definition demo_run (s : RunApiState InMemory.store) (c : api_call) : RunApiState InMemory.store :=
  snd (run_call "/rec" demo_wav (fun x => Ok x) (fun _ => Ok demo_resolved) demo_call c s).
Definition demo_created : RunApiState InMemory.store := demo_run demo_empty (CreateObserved demo_create).
Definition demo_observed : RunApiState InMemory.store :=
  demo_run demo_created (Observations (demo_batch [byte_of 1; byte_of 2])).
Definition demo_completed : RunApiState InMemory.store := demo_run demo_observed (Complete (uuid_str 7)).

Lemma demo_call_ok : call_ok demo_call (CreateObserved demo_create) demo_empty.
Proof.
  split; [exists sample_environment | split; [exists _default_readiness_checklist|]]; [vm_compute; reflexivity..|].
  intros k _. reflexivity.
Qed.

Lemma demo_created_ok : memory_ok (repository demo_created).
Proof.
  assert (memory_ok []) as Hempty by (split; intros id run [=]).
  exact (proj1 (call_advances "/rec" demo_wav (fun x => Ok x) (fun _ => Ok demo_resolved) demo_call
    (CreateObserved demo_create) demo_empty Hempty demo_call_ok)).
Qed.

Lemma demo_step s c : call_ok demo_call c s ->
  api_step "/rec" demo_wav (fun x => Ok x) (fun _ => Ok demo_resolved) s (demo_run s c).
Proof. intros Hc. exact (step_call _ _ _ _ s demo_call c Hc). Qed.

Lemma observed_run_life_cycle_witness :
  (status <$> run_at demo_created (uuid_str 7)) = Some "running"
  /\ (status <$> run_at demo_completed (uuid_str 7)) = Some "completed"
  /\ exists run run', run_at demo_created (uuid_str 7) = Some run /\ run_at demo_completed (uuid_str 7) = Some run'
       /\ progress run run'.
Proof.
  split; [vm_compute; reflexivity|]. split; [vm_compute; reflexivity|].
  destruct (observed_run_life_cycle "/rec" demo_wav (fun x => Ok x) (fun _ => Ok demo_resolved)
    demo_created demo_completed) as (_ & Hv & _).
  - apply demo_created_ok.
  - apply rtc_l with demo_observed; [apply demo_step; exact I|].
    apply rtc_l with demo_completed; [apply demo_step; exact I|apply rtc_refl].
  - specialize (Hv (uuid_str 7)). match type of Hv with match ?x with _ => _ end => destruct x as [run|] eqn:E end.
    + destruct Hv as (run' & H1 & H2 & _). exists run, run'. split; [reflexivity|]. split; assumption.
    + vm_compute in E. discriminate E.
Defined.
