(* ===== verification/RunExecution.v ===== *)
(** * Runs the control plane executes itself

    [_populate_stored_run_result], [_execute_stored_run], [create_run],
    [create_run_async] and the thread of [_start_background_run] of
    [control_plane/run_api.py], on top of the harness: a created run is stored,
    the harness records its stages, the recordings are verified, and the run is
    stored again whatever happened.  The repository is any [RunStore], the sink
    any [RecordingSink]; assigning to a field of the stored run reaches the
    repository as its [touch] says. *)
From S2P Require Import Prelude Effects Collections PyFloat PyData Bytes Json JobQueue RunModel Repository Registry SignalChecks RecordingStorage RunStores ObservedRuns Harness.

Open Scope Z_scope.

(** The repository and what the sink writes to. *)
Record exec_state (R S : Type) := MkExec { exec_runs : R; exec_storage : S }.
Arguments MkExec {R S}. Arguments exec_runs {R S}. Arguments exec_storage {R S}.

(** What the environment decides about an execution: the request's clock,
    fresh UUID and first save, the last save, the time of the end, and what
    the harness reads. *)
Record exec_env (F : Type) := MkExecEnv {
  accepting : call_env F; final_save : F; ended_now : instant; harnessing : harness_env }.
Arguments MkExecEnv {F}. Arguments accepting {F}. Arguments final_save {F}. Arguments ended_now {F}.
Arguments harnessing {F}.

(** ** The fields a run is left with *)

(** [except Exception] around the harness. *)
Definition harness_failed (now : instant) (run : StoredRun) : StoredRun :=
  MkStoredRun (run_id run) (config_hash run) (call_id run) (conversation_id run) (provider run)
    (engine run) "failed" (started_at run) (Some now) (resolved_config run) (recordings run)
    (spans run) (metrics run) (Some "engine-harness-error") (verifications run) (sip_events run)
    (rtp_stats run) (timeline_events run) (environment run) (readiness_checklist run).

(** The fields assigned before the verification. *)
Definition harness_done (h : HarnessResult) (now : instant) (run : StoredRun) : StoredRun :=
  MkStoredRun (run_id run) (config_hash run) (call_id run) (hr_conversation_id h) (provider run)
    (engine run) "completed" (started_at run) (Some now) (resolved_config run) (hr_recordings h)
    (hr_spans h) (hr_metrics h) (failure_alias run) (verifications run) (sip_events run)
    (rtp_stats run) (timeline_events run) (environment run) (readiness_checklist run).

Definition with_verdicts (v : list VerificationResult) (run : StoredRun) : StoredRun :=
  MkStoredRun (run_id run) (config_hash run) (call_id run) (conversation_id run) (provider run)
    (engine run) (status run) (started_at run) (ended_at run) (resolved_config run) (recordings run)
    (spans run) (metrics run) (failure_alias run) v (sip_events run)
    (rtp_stats run) (timeline_events run) (environment run) (readiness_checklist run).

Section execution.
Context {R F S : Type} `{RunStore R F} `{RecordingSink S}.
(** The verification of the recordings, which reads what the sink wrote. *)
Context (open_wav : S -> string -> result wav_file) (log10 : float -> result float).
Context (resolve_request : RunCreateRequest -> result ResolvedConfig).
Implicit Types (e : exec_env F) (run : StoredRun).

Definition on_runs {A} (m : st R A) : st (exec_state R S) A := fun s =>
  let '(r, runs) := m (exec_runs s) in (r, MkExec runs (exec_storage s)).

(** [try: m] with the outcome kept as a value. *)
Definition attempt {A} (m : st S A) : st (exec_state R S) (result A) := fun s =>
  let '(r, storage) := m (exec_storage s) in (Ok r, MkExec (exec_runs s) storage).

Definition assign run : st (exec_state R S) StoredRun := _ ← on_runs (modify (touch run)); mret run.

Definition verify_harness (storage : S) run (h : HarnessResult) : result (list VerificationResult) :=
  verify_recordings (open_wav storage) log10 default_tolerances (resolved_config run) (hr_recordings h) (hr_metrics h).

(** The run with its new fields, and the exception the function ends with. *)
Definition _populate_stored_run_result e run : st (exec_state R S) (StoredRun * result unit) :=
  harness_result ← attempt (run_once (harnessing e) (run_id run) (resolved_config run) (config_hash run));
  match harness_result with
  | Raise c m => run ← assign (harness_failed (ended_now e) run); mret (run, Raise c m)
  | Ok h =>
      run ← assign (harness_done h (ended_now e) run);
      s ← get_state;
      match verify_harness (exec_storage s) run h with
      | Raise c m => mret (run, Raise c m)
      | Ok v => run ← assign (with_verdicts v run); mret (run, Ok tt)
      end
  end.

(** [finally] saves the run; an exception of the save replaces the pending one. *)
Definition _execute_stored_run e run : st (exec_state R S) StoredRun :=
  populated ← _populate_stored_run_result e run;
  _ ← on_runs (commit (final_save e) populated.1);
  _ ← lift populated.2;
  mret populated.1.

(** The request: the new run is resolved, built and stored. *)
Definition accept_run e (r : RunCreateRequest) : st (exec_state R S) StoredRun :=
  resolved_ ← lift (_resolve_run_request resolve_request r);
  run ← lift (_create_running_run (accepting e) r resolved_);
  _ ← on_runs (commit (on_save (accepting e)) run);
  mret run.

Definition create_run e (r : RunCreateRequest) : st (exec_state R S) RunResponse :=
  run ← accept_run e r;
  run ← _execute_stored_run e run;
  mret (to_response run).

(** The handler of ["/runs/async"] up to its answer, the live status of the run
    as it then is; a persistent submitter queues the run instead. *)
Definition create_run_async (submitter : option (StoredRun -> st R unit)) e (r : RunCreateRequest)
    : st (exec_state R S) StoredRun :=
  match submitter with
  | Some submit =>
      resolved_ ← lift (_resolve_run_request resolve_request r);
      run ← lift (_create_running_run (accepting e) r resolved_);
      _ ← on_runs (submit run);
      mret run
  | None => accept_run e r
  end.

(** The body of the background thread. *)
Definition background_run e run : st (exec_state R S) unit :=
  catch (_ ← _execute_stored_run e run; mret tt) (fun _ _ => mret tt).

(** ** What an execution comes to *)

(** The run and the outcome of the handler, from the outcomes of the harness
    and of the verification. *)
Definition settled_run (now : instant) (harness : result HarnessResult)
    (verify : HarnessResult -> result (list VerificationResult)) run : StoredRun * result unit :=
  match harness with
  | Raise c m => (harness_failed now run, Raise c m)
  | Ok h => match verify h with
            | Raise c m => (harness_done h now run, Raise c m)
            | Ok v => (with_verdicts v (harness_done h now run), Ok tt)
            end
  end.

Definition execution e run (storage : S) : (StoredRun * result unit) * S :=
  let '(harness, storage') := run_once (harnessing e) (run_id run) (resolved_config run) (config_hash run) storage in
  (settled_run (ended_now e) harness (verify_harness storage' run) run, storage').
End execution.

(** ** The repository during an execution *)

Section laws.
Context {R F S : Type} `{RunStoreLaws R F} `{RecordingSink S}.
Context (open_wav : S -> string -> result wav_file) (log10 : float -> result float)
  (resolve_request : RunCreateRequest -> result ResolvedConfig).
Implicit Types (run : StoredRun) (k : store_key).

(** The run under [k] is one of [among], and the other runs are those of [s0]. *)
Record kept k (among : list StoredRun) (s0 s : R) : Prop := {
  kept_ok : store_ok s;
  kept_run : exists v w, view s k = Some v /\ w ∈ among /\ same_run v w;
  kept_others : forall k', k' <> k -> view s k' = view s0 k' }.

Lemma kept_incl k a b s0 s : kept k a s0 s -> a ⊆ b -> kept k b s0 s.
Proof. intros [Hok (v & w & Hv & Hw & Hs) Ho] Hab. constructor; eauto 10. Qed.

Definition keyed k run : Prop := validated run /\ key_of (run_id run) = Some k.

Lemma keyed_same k a b : run_id b = run_id a -> environment b = environment a ->
  readiness_checklist b = readiness_checklist a -> keyed k a -> keyed k b.
Proof. unfold keyed, validated. by intros -> -> ->. Qed.

Lemma assign_kept k run among s0 (s : exec_state R S) : keyed k run -> kept k among s0 (exec_runs s) ->
  exists runs, assign run s = (Ok run, MkExec runs (exec_storage s)) /\ kept k (run :: among) s0 runs.
Proof.
  intros [Hv Hk] [Hok (v & w & Hs & Hw & Hsame) Ho]. exists (touch run (exec_runs s)). split; [done|].
  destruct (touch_spec run (exec_runs s) k v Hok Hv Hk Hs) as (Hok' & Hview & Hother). constructor; [done| |].
  - destruct Hview as [->| ->]; [exists v, w; split_and!; [done|by right|done]|].
    exists run, run. split_and!; [done|by left|apply same_run_refl].
  - intros k' Hne. rewrite Hother by done. by apply Ho.
Qed.

Lemma commit_kept k f run among s0 (s : R) r s' : keyed k run -> kept k among s0 s -> commit f run s = (r, s') ->
  (is_ok r = false /\ s' = s) \/ (r = Ok tt /\ kept k [run] s0 s').
Proof.
  intros [Hv Hk] [Hok _ Ho] Hc.
  destruct (commit_spec f run s r s' Hok Hv Hc) as [[-> Hr]|(-> & Hok' & k' & Hk' & (v & Hview & Hsame) & Hother)].
  - by left.
  - rewrite Hk in Hk'. injection Hk' as <-. right. split; [done|]. constructor; [done| |].
    + exists v, run. split_and!; [done|by left|done].
    + intros k' Hne. rewrite Hother by done. by apply Ho.
Qed.

(** The first save has no run to keep. *)
Lemma commit_new k f run (s : R) r s' : store_ok s -> keyed k run -> commit f run s = (r, s') ->
  (is_ok r = false /\ s' = s) \/ (r = Ok tt /\ kept k [run] s s').
Proof.
  intros Hok [Hv Hk] Hc.
  destruct (commit_spec f run s r s' Hok Hv Hc) as [[-> Hr]|(-> & Hok' & k' & Hk' & (v & Hview & Hsame) & Hother)].
  - by left.
  - rewrite Hk in Hk'. injection Hk' as <-. right. split; [done|]. constructor; [done| |done].
    exists v, run. split_and!; [done|by left|done].
Qed.

Lemma attempt_eq {A} (m : st S A) (s : exec_state R S) r storage' : m (exec_storage s) = (r, storage') ->
  attempt m s = (Ok r, MkExec (exec_runs s) storage').
Proof. unfold attempt. by intros ->. Qed.

Lemma populate_kept k e run s0 (s : exec_state R S) final answer storage' :
  keyed k run -> kept k [run] s0 (exec_runs s) ->
  execution (F := F) open_wav log10 e run (exec_storage s) = ((final, answer), storage') ->
  exists runs among, _populate_stored_run_result open_wav log10 e run s = (Ok (final, answer), MkExec runs storage')
    /\ kept k among s0 runs /\ keyed k final /\ event_ids final = event_ids run
    /\ Forall (fun w => w = run \/ ended_at w = Some (ended_now e)) among.
Proof.
  intros Hk Hs. unfold execution, _populate_stored_run_result.
  destruct (run_once _ _ _ _ (exec_storage s)) as [harness storage] eqn:Eh. intros [= Hset <-].
  rewrite (st_bind_eq _ _ _ _ _ (attempt_eq _ _ _ _ Eh)).
  destruct harness as [h|c m]; cbn [settled_run] in Hset.
  - destruct (assign_kept k (harness_done h (ended_now e) run) [run] s0 (MkExec (exec_runs s) storage))
      as (runs1 & E1 & K1); [by eapply keyed_same, Hk|done|].
    rewrite (st_bind_eq _ _ _ _ _ E1), (st_bind_eq get_state _ _ _ _ eq_refl). cbn [exec_storage].
    change (verify_harness open_wav log10 storage (harness_done h (ended_now e) run) h)
      with (verify_harness open_wav log10 storage run h).
    destruct (verify_harness open_wav log10 storage run h) as [v|c m].
    + destruct (assign_kept k (with_verdicts v (harness_done h (ended_now e) run)) (harness_done h (ended_now e) run :: [run])
        s0 (MkExec runs1 storage)) as (runs2 & E2 & K2); [by eapply keyed_same, Hk|done|].
      rewrite (st_bind_eq _ _ _ _ _ E2). injection Hset as <- <-. cbn [exec_storage].
      eexists _, _. split_and!; [done|exact K2|by eapply keyed_same, Hk|done|by repeat constructor; auto].
    + injection Hset as <- <-. eexists _, _. split_and!; [done|exact K1|by eapply keyed_same, Hk|done|by repeat constructor; auto].
  - destruct (assign_kept k (harness_failed (ended_now e) run) [run] s0 (MkExec (exec_runs s) storage))
      as (runs1 & E1 & K1); [by eapply keyed_same, Hk|done|].
    rewrite (st_bind_eq _ _ _ _ _ E1). injection Hset as <- <-. cbn [exec_storage].
    eexists _, _. split_and!; [done|exact K1|by eapply keyed_same, Hk|done|by repeat constructor; auto].
Qed.

(** [_execute_stored_run] on a stored run. *)
Lemma execute_kept k e run s0 (s : exec_state R S) final answer storage' r s' :
  keyed k run -> kept k [run] s0 (exec_runs s) ->
  execution open_wav log10 e run (exec_storage s) = ((final, answer), storage') ->
  _execute_stored_run open_wav log10 e run s = (r, s') ->
  exec_storage s' = storage'
  /\ ((r = (_ ← answer; Ok final) /\ kept k [final] s0 (exec_runs s'))
      \/ (is_ok r = false /\ ~ (healthy (final_save e) /\ NoDup (event_ids run))
          /\ exists among, kept k among s0 (exec_runs s')
             /\ Forall (fun w => w = run \/ ended_at w = Some (ended_now e)) among)).
Proof.
  intros Hk Hs He Hr. destruct (populate_kept _ _ _ _ _ _ _ _ Hk Hs He) as (runs & among & Hp & Ha & Hkf & Hids & Hall).
  unfold _execute_stored_run in Hr. rewrite (st_bind_eq _ _ _ _ _ Hp) in Hr. cbn [fst snd] in Hr.
  unfold on_runs in Hr. unfold mbind at 1, st_bind at 1 in Hr. cbn [exec_runs exec_storage] in Hr.
  destruct (commit (final_save e) final runs) as [rc runs'] eqn:Ec.
  destruct (commit_kept _ _ _ _ _ _ _ _ Hkf Ha Ec) as [[Hrc ->]|[-> Hc]].
  - destruct rc as [|c a]; [done|]. injection Hr as <- <-. split; [done|]. right. split; [done|]. split; [|by eauto].
    intros [Hh Hnd]. rewrite <- Hids in Hnd. destruct Hkf as [_ Hkf].
    pose proof (commit_healthy _ _ runs _ Hh Hkf Hnd) as Hok. by rewrite Ec in Hok.
  - unfold lift, mbind, st_bind, mret, st_ret in Hr. destruct answer as [[]|c a]; injection Hr as <- <-; split; try done; by left.
Qed.
(** The state a request and its execution leave does not depend on who runs
    the execution. *)
Lemma background_state e r (s : exec_state R S) :
  snd ((run ← create_run_async resolve_request None e r; background_run open_wav log10 e run) s)
  = snd (create_run open_wav log10 resolve_request e r s).
Proof.
  unfold create_run_async, create_run, background_run, catch, mbind, st_bind.
  destruct (accept_run resolve_request e r s) as [[run|c a] s1]; [|done].
  by destruct (_execute_stored_run open_wav log10 e run s1) as [[x|c a] s2].
Qed.

Lemma accept_run_eq e r resolved_ start (s : exec_state R S) : _resolve_run_request resolve_request r = Ok resolved_ ->
  _create_running_run (accepting e) r resolved_ = Ok start ->
  accept_run resolve_request e r s
  = let '(rc, runs) := commit (on_save (accepting e)) start (exec_runs s) in (_ ← rc; Ok start, MkExec runs (exec_storage s)).
Proof.
  intros Hres Hstart. unfold accept_run. rewrite (st_bind_eq (lift _) _ s resolved_ s) by (unfold lift; by rewrite Hres).
  rewrite (st_bind_eq (lift _) _ s start s) by (unfold lift; by rewrite Hstart).
  unfold on_runs, mbind, st_bind. by destruct (commit _ start (exec_runs s)) as [[[]|c a] runs].
Qed.

Lemma running_run_fields e r resolved_ start : _create_running_run (F := F) e r resolved_ = Ok start ->
  event_ids start = [] /\ environment start = rc_environment r /\ readiness_checklist start = rc_checklist r.
Proof. unfold _create_running_run. intros Hc. by simpl_res. Qed.

Lemma settled_run_ends now harness verify run final answer : settled_run now harness verify run = (final, answer) ->
  ended_at final = Some now
  /\ (status final = "failed" /\ failure_alias final = Some "engine-harness-error" /\ is_ok harness = false
      \/ status final = "completed" /\ failure_alias final = failure_alias run /\ is_ok harness = true)
  /\ (is_ok answer = true -> is_ok harness = true).
Proof. unfold settled_run. destruct harness; [destruct (verify a)|]; intros [= <- <-]; cbn; auto 10. Qed.
End laws.

(** C7. A run the control plane executes ends as its harness and its
    verification end, whatever the repository and the sink are.  Either the
    first save fails and nothing at all has happened; or the harness has run
    and the other runs are untouched, and then either the stored run is the
    one [settled_run] describes -- failed with the alias
    engine-harness-error when the harness raised, and completed otherwise,
    with the verdicts unless the verification raised -- and the caller gets
    the run or exactly the exception that was raised; or the last save failed,
    the caller gets an exception, and the stored run is the running one or one
    with the end already set.  With two healthy saves only the middle case
    occurs.  Executing in the background leaves the same state. *)
Theorem executed_run_settles {R F S} `{RunStoreLaws R F} `{RecordingSink S} open_wav log10 resolve_request
    (e : exec_env F) r resolved_ start k (s s' : exec_state R S) res final answer storage' :
  store_ok (exec_runs s) ->
  (exists given, validate_environment given = Ok (rc_environment r)) ->
  (exists items, mapM_res validate_item items = Ok (rc_checklist r)) ->
  _resolve_run_request resolve_request r = Ok resolved_ ->
  _create_running_run (accepting e) r resolved_ = Ok start ->
  key_of (run_id start) = Some k ->
  execution open_wav log10 e start (exec_storage s) = ((final, answer), storage') ->
  create_run open_wav log10 resolve_request e r s = (res, s') ->
  (is_ok res = false /\ s' = s /\ ~ healthy (on_save (accepting e))
   \/ exec_storage s' = storage' /\ store_ok (exec_runs s')
      /\ (forall k', k' <> k -> view (exec_runs s') k' = view (exec_runs s) k')
      /\ exists stored, view (exec_runs s') k = Some stored
         /\ (res = (_ ← answer; Ok (to_response final)) /\ same_run stored final
             \/ is_ok res = false /\ ~ healthy (final_save e)
                /\ (same_run stored start \/ ended_at stored = Some (ended_now e))))
  /\ ended_at final = Some (ended_now e)
  /\ (status final = "failed" /\ failure_alias final = Some "engine-harness-error" /\ is_ok answer = false
      \/ status final = "completed" /\ failure_alias final = None)
  /\ snd ((run ← create_run_async resolve_request None e r; background_run open_wav log10 e run) s) = s'.
Proof.
  intros Hok Henv Hitems Hres Hstart Hkey Hexec Hr.
  destruct (running_run_fields _ _ _ _ Hstart) as (Hids & He & Hc).
  assert (keyed k start) as Hk by (split; [unfold validated; by rewrite He, Hc|done]).
  assert (failure_alias start = None) as Hnone by (unfold _create_running_run in Hstart; by simpl_res).
  rewrite background_state, Hr. split; [|split; [|split; [|done]]].
  - unfold create_run, mbind, st_bind in Hr. rewrite (accept_run_eq _ _ _ _ _ _ Hres Hstart) in Hr.
    destruct (commit (on_save (accepting e)) start (exec_runs s)) as [rc runs] eqn:Ec.
    destruct (commit_new _ _ _ _ _ _ Hok Hk Ec) as [[Hrc ->]|[-> Hkept]].
    + left. destruct rc as [|c a]; [done|]. injection Hr as <- <-. split; [done|]. split; [by destruct s|].
      intros Hh. destruct Hk as [_ Hk]. pose proof (commit_healthy _ start (exec_runs s) _ Hh Hk) as Hc'.
      rewrite Ec in Hc'. by discriminate Hc'; rewrite Hids; constructor.
    + right. cbn [mbind result_bind] in Hr.
      destruct (_execute_stored_run open_wav log10 e start (MkExec runs (exec_storage s))) as [rx sx] eqn:Ex.
      eapply execute_kept in Ex as [Hst Hend]; [|exact Hk|exact Hkept|exact Hexec].
      assert (s' = sx) as -> by (by destruct rx; injection Hr as _ <-). split; [done|].
      destruct Hend as [[-> [Hok' (v & w & Hv & ->%list_elem_of_singleton & Hsame) Ho]]
                       |(Hrx & Hnh & among & [Hok' (v & w & Hv & Hw & Hsame) Ho] & Hall)]; (split; [done|]); (split; [done|]);
        exists v; (split; [done|]).
      * left. split; [|done]. by destruct answer; injection Hr as <-.
      * right. destruct rx as [|c a]; [done|]. injection Hr as <-. split; [done|]. split.
        -- intros Hh. apply Hnh. split; [done|]. rewrite Hids. constructor.
        -- rewrite Forall_forall in Hall. destruct (Hall w Hw) as [->|Hend]; [by left|right].
           by rewrite (same_ended _ _ Hsame).
  - unfold execution in Hexec. destruct (run_once _ _ _ _ _) as [harness st']. injection Hexec as Hset _.
    by apply settled_run_ends in Hset as [-> _].
  - unfold execution in Hexec. destruct (run_once _ _ _ _ _) as [harness st']. injection Hexec as Hset _.
    apply settled_run_ends in Hset as (_ & [(Hs & Ha & Hh)|(Hs & Ha & _)] & Hans).
    + left. split_and!; [done..|]. destruct (is_ok answer); [|done]. rewrite Hh in Hans. by discriminate Hans.
    + right. by rewrite Ha.
Qed.

(** ** A run through the in-memory repository and the local disk *)

#[local] Existing Instance sample_sink.

Definition sample_resolved : ResolvedConfig := MkResolved "demo"
  [("spec", JObj (match sample_config with (_, JObj d) :: _ => d | _ => [] end
     ++ [("ai", JObj [("provider", JStr "fake")]); ("engine", JObj [("kind", JStr "asterisk")])]))] "hash".
Definition sample_exec : exec_env unit := MkExecEnv demo_call tt 9000 sample_harness.
Definition sample_start : StoredRun :=
  match _create_running_run demo_call demo_create sample_resolved with Ok run => run | Raise _ _ => sample_run "running" None end.
Definition sample_state : exec_state InMemory.store storage := MkExec [] (MkStorage ∅ ∅).
Definition sample_open (s : storage) (uri : string) : result wav_file := sample_wav uri.

Lemma sample_start_ok : _create_running_run (accepting sample_exec) demo_create sample_resolved = Ok sample_start.
Proof. vm_compute. reflexivity. Qed.

Definition sample_execution : (StoredRun * result unit) * storage :=
  execution sample_open sample_log sample_exec sample_start (exec_storage sample_state).
Definition sample_created : result RunResponse * exec_state InMemory.store storage :=
  create_run sample_open sample_log (fun _ => Ok sample_resolved) sample_exec demo_create sample_state.

Lemma sample_created_completes :
  (match sample_created.1 with Ok resp => (resp_status resp, len (resp_recordings resp), len (resp_verifications resp)) | Raise _ m => (m, 0, 0) end)
  = ("completed", 2, 2).
Proof. vm_compute. reflexivity. Qed.

Lemma sample_state_ok : store_ok (R := InMemory.store) (F := unit) (exec_runs sample_state).
Proof. split; intros id run [=]. Qed.

Lemma sample_environment_ok : exists given, validate_environment given = Ok (rc_environment demo_create).
Proof. exists sample_environment. vm_compute. reflexivity. Qed.

Lemma sample_checklist_ok : exists items, mapM_res validate_item items = Ok (rc_checklist demo_create).
Proof. exists _default_readiness_checklist. vm_compute. reflexivity. Qed.

Lemma sample_execution_eq : execution sample_open sample_log sample_exec sample_start (exec_storage sample_state)
  = ((sample_execution.1.1, sample_execution.1.2), sample_execution.2).
Proof. unfold sample_execution. by destruct (execution _ _ _ _ _) as [[? ?] ?]. Qed.

Lemma executed_run_settles_witness : ended_at sample_execution.1.1 = Some 9000.
Proof.
  exact (proj1 (proj2 (executed_run_settles (F := unit) sample_open sample_log (fun _ => Ok sample_resolved) sample_exec demo_create
    sample_resolved sample_start (run_id sample_start) sample_state sample_created.2 sample_created.1
    sample_execution.1.1 sample_execution.1.2 sample_execution.2 sample_state_ok sample_environment_ok sample_checklist_ok
    eq_refl sample_start_ok eq_refl sample_execution_eq (surjective_pairing sample_created)))).
Defined.
