(* ===== verification/Trends.v ===== *)
(** * Trends across runs

    [_cross_session_trends] and [_live_preview] of [control_plane/run_api.py]:
    the latest host metrics of the ended runs, grouped by environment, server
    and metric, with the state each group is reported in. *)
From S2P Require Import Prelude Effects Collections PyFloat PyData RunModel.

Open Scope Z_scope.

Definition CROSS_SESSION_METRIC_NAMES : list string := ["active_tasks"; "memory_rss_bytes"].
Definition CROSS_SESSION_MIN_SAMPLES : Z := 3.

Inductive CrossSessionTrendState := insufficient | stable | increasing.
#[export] Instance CrossSessionTrendState_eq_dec : EqDecision CrossSessionTrendState.
Proof. solve_decision. Defined.

Record CrossSessionTrendPoint := MkPoint {
  point_run_id : string; point_started_at : instant; point_value : float }.

#[export] Instance EnvironmentProfile_eq_dec : EqDecision EnvironmentProfile.
Proof. solve_decision. Defined.

Definition profile_text (p : EnvironmentProfile) : string :=
  match p with
  | env_local => "local" | env_dev => "dev" | env_demo => "demo"
  | env_integration => "integration" | env_staging => "staging"
  end.

(** The profile, the server alias and the metric name. *)
Definition trend_key : Type := EnvironmentProfile * string * string.

Record CrossSessionTrendResponse := MkTrend {
  trend_of : trend_key; trend_state : CrossSessionTrendState; trend_sample_count : Z;
  trend_first_value : float; trend_latest_value : float; trend_total_delta : float;
  trend_points : list CrossSessionTrendPoint }.

(** What one run adds to the groups, in order. *)
Definition run_points (run : StoredRun) : list (trend_key * CrossSessionTrendPoint) :=
  if negb (bool_decide (status run ∈ ["completed"; "failed"])) then []
  else match ended_at run, server_alias (environment run) with
       | Some _, Some server_alias =>
           let latest_metrics := dict_of_list (map (fun m => (metric_name m, m)) (latest_host_metrics run)) in
           omap (fun metric_name =>
             (fun metric => ((environment_profile (environment run), server_alias, metric_name),
                             MkPoint (run_id run) (started_at run) (metric_value metric)))
               <$> dict_get metric_name latest_metrics) CROSS_SESSION_METRIC_NAMES
       | _, _ => []
       end.

(** [all(current >= previous for previous, current in pairwise(values))]. *)
Fixpoint never_falls (values : list float) : bool :=
  match values with
  | previous :: ((current :: _) as rest) => fleb previous current && never_falls rest
  | _ => true
  end.

(** [key=lambda item: item[0]]. *)
Definition trend_key_leb (a b : trend_key) : bool :=
  let by_metric (a b : trend_key) := str_leb a.2 b.2 in
  let by_alias (a b : trend_key) := str_leb a.1.2 b.1.2 in
  let by_profile (a b : trend_key) := str_leb (profile_text a.1.1) (profile_text b.1.1) in
  lexicographic by_profile (lexicographic by_alias by_metric) a b.

Definition trend_of_group (group : trend_key * list CrossSessionTrendPoint) : result CrossSessionTrendResponse :=
  let '(key, points) := group in
  let values := map point_value points in
  match last values, head values with
  | Some latest, Some first =>
      let total_delta := fsub latest first in
      let state := if len points <? CROSS_SESSION_MIN_SAMPLES then insufficient
                   else if fltb fzero total_delta && never_falls values then increasing else stable in
      Ok (MkTrend key state (len points) first latest total_delta points)
  | _, _ => Raise IndexError "list index out of range"
  end.

(** The groups in the order their keys appear, and sorted by key. *)
Definition trend_groups (runs : list StoredRun) : list (trend_key * list CrossSessionTrendPoint) :=
  map (fun g => (g.1, map snd g.2)) (group_by fst (concat (map run_points runs))).

(** [runs] is [repository.list_all()]. *)
Definition _cross_session_trends (runs : list StoredRun) : result (list CrossSessionTrendResponse) :=
  mapM_res trend_of_group (sorted_by (fun a b => trend_key_leb a.1 b.1) (trend_groups runs)).

(** [recent] is [repository.list_recent()]. *)
Definition _live_preview (recent : list StoredRun) : result (list LiveRunStatus) := mapM_res to_live_status recent.
Definition list_runs (recent : list StoredRun) : list RunSummary := map to_summary recent.

(** ** Lemmas *)

Lemma trend_key_preorder : preorder_on (fun _ => True) trend_key_leb.
Proof.
  assert (forall f : trend_key -> string, preorder_on (fun _ => True) (fun a b => str_leb (f a) (f b))) as Hp.
  { intros f. split; intros *; intros; [apply str_leb_total|by eapply str_leb_trans]. }
  unfold trend_key_leb.
  apply (lexicographic_preorder _ _ _ (Hp (fun k => profile_text k.1.1))).
  apply (lexicographic_preorder _ _ _ (Hp (fun k => k.1.2)) (Hp snd)).
Qed.

Lemma trend_key_antisym a b : trend_key_leb a b = true -> trend_key_leb b a = true -> a = b.
Proof.
  destruct a as [[p s] m], b as [[p' s'] m']. unfold trend_key_leb, lexicographic. cbn [fst snd].
  destruct (str_leb (profile_text p) (profile_text p')) eqn:E1, (str_leb (profile_text p') (profile_text p)) eqn:E2; try done.
  destruct (str_leb s s') eqn:E3, (str_leb s' s) eqn:E4; try done. cbn [andb negb]. intros E5 E6.
  pose proof (str_leb_antisym _ _ E1 E2) as Hp. rewrite (str_leb_antisym _ _ E3 E4), (str_leb_antisym _ _ E5 E6).
  by destruct p, p'.
Qed.

Lemma trend_of_group_ok key points : points <> [] -> exists t, trend_of_group (key, points) = Ok t.
Proof.
  intros Hne. unfold trend_of_group. destruct (map point_value points) as [|v values] eqn:E using rev_ind.
  - by destruct points.
  - rewrite last_snoc. destruct values; cbn [app head]; by eexists.
Qed.

(** The points of the ended runs that belong to a key, in the order of the runs. *)
Definition points_of (runs : list StoredRun) (key : trend_key) : list CrossSessionTrendPoint :=
  map snd (filterb (fun kp => bool_decide (kp.1 = key)) (concat (map run_points runs))).

Lemma trend_groups_elem runs key points : (key, points) ∈ trend_groups runs ->
  points = points_of runs key /\ points <> [].
Proof.
  unfold trend_groups. intros ([k g] & [= -> ->] & Hg)%list_elem_of_fmap. cbn [fst snd].
  pose proof (group_by_nonempty _ _ _ _ Hg) as Hne. apply group_by_elem in Hg as ->.
  split; [done|]. unfold points_of. intros E. apply Hne. by apply map_eq_nil in E.
Qed.

Lemma trend_groups_keys runs : map fst (trend_groups runs) = dict_keys (group_by fst (concat (map run_points runs))).
Proof. unfold trend_groups, dict_keys. rewrite map_map. done. Qed.

Lemma trend_state_spec key points t : trend_of_group (key, points) = Ok t ->
  trend_of t = key /\ trend_points t = points /\ trend_sample_count t = len points
  /\ Some (trend_first_value t) = point_value <$> head points
  /\ Some (trend_latest_value t) = point_value <$> last points
  /\ trend_total_delta t = fsub (trend_latest_value t) (trend_first_value t)
  /\ (trend_state t = insufficient <-> len points < 3)
  /\ (trend_state t = increasing <-> 3 <= len points /\ fltb fzero (trend_total_delta t) = true
                                     /\ never_falls (map point_value points) = true).
Proof.
  unfold trend_of_group. pose proof (fmap_last point_value points) as El. change (point_value <$> points) with (map point_value points) in El.
  assert (head (map point_value points) = point_value <$> head points) as -> by (by destruct points). rewrite El.
  destruct (last points) as [latest|], (head points) as [first|]; cbn [fmap option_fmap option_map]; try done.
  intros E. injection E as <-. cbn [trend_of trend_points trend_sample_count trend_first_value trend_latest_value trend_total_delta trend_state].
  unfold CROSS_SESSION_MIN_SAMPLES. split_and!; try done.
  - destruct (len points <? 3) eqn:Hl; [split; intros; [lia|done]|].
    destruct (_ && _); split; intros; first [done|lia].
  - destruct (len points <? 3) eqn:Hl; [split; [done|intros (? & _); lia]|].
    destruct (fltb _ _), (never_falls _); cbn [andb]; split; try done; intros; try (split_and!; [lia|done..]); naive_solver.
Qed.

Lemma never_falls_sorted values : never_falls values = true <-> Sorted.Sorted (fun a b => fleb a b = true) values.
Proof.
  induction values as [|a [|b values] IH]; cbn [never_falls].
  - split; [constructor|done].
  - split; [by repeat constructor|done].
  - rewrite andb_true_iff, IH. split.
    + intros [Hab Hs]. constructor; [done|]. by constructor.
    + intros Hs. inversion Hs as [|? ? Hs' Hd]; subst. by inversion Hd.
Qed.

(** The metric a run has for a name, by its latest host metrics. *)
Lemma latest_by_name run name :
  dict_get name (dict_of_list (map (fun m => (metric_name m, m)) (latest_host_metrics run)))
  = latest_named name (metrics run).
Proof.
  destruct (latest_host_metrics_latest run) as (Hin & _ & _ & Hnd & _). cbv zeta in *.
  destruct (dict_get name _) as [m|] eqn:Hd.
  - apply dict_of_list_elem, list_elem_of_fmap in Hd as (m' & [= -> ->] & Hm). symmetry. by apply Hin.
  - destruct (latest_named name (metrics run)) as [m|] eqn:Hl; [exfalso|done].
    pose proof (latest_named_some _ _ _ Hl) as (_ & _ & Hm & _). rewrite <- Hm in Hl. apply Hin in Hl.
    apply dict_get_None in Hd. apply Hd, dict_of_list_keys. rewrite <- list_fmap_compose.
    apply list_elem_of_fmap. exists m. by rewrite <- Hm.
Qed.

(** A run adds a point to a group exactly when it has ended, its server has an
    alias and its metrics have the group's name. *)
Lemma run_points_elem run key p : (key, p) ∈ run_points run <->
  status run ∈ ["completed"; "failed"] /\ is_Some (ended_at run)
  /\ key.1.1 = environment_profile (environment run) /\ Some key.1.2 = server_alias (environment run)
  /\ key.2 ∈ CROSS_SESSION_METRIC_NAMES
  /\ exists m, latest_named key.2 (metrics run) = Some m
     /\ p = MkPoint (run_id run) (started_at run) (metric_value m).
Proof.
  unfold run_points. destruct (bool_decide_reflect (status run ∈ ["completed"; "failed"])) as [Hs|Hs]; cbn [negb];
    [|split; [set_solver|by intros [? _]]].
  destruct (ended_at run) as [ended|]; [|split; [set_solver|by intros (_ & [? [=]] & _)]].
  destruct (server_alias (environment run)) as [alias|]; [|split; [set_solver|by intros (_ & _ & _ & [=] & _)]].
  rewrite list_elem_of_omap. split.
  - intros (name & Hn & Hd). rewrite latest_by_name in Hd.
    apply fmap_Some in Hd as (m & Hm & [= -> ->]). cbn [fst snd]. split_and!; eauto.
  - destruct key as [[profile alias'] name]. cbn [fst snd]. intros (_ & _ & -> & [= ->] & Hn & m & Hm & ->).
    exists name. split; [done|]. by rewrite latest_by_name, Hm.
Qed.

(** The trends report every group once, in the order of the keys, and
    nothing is lost: the points of a group are exactly the latest values of
    its metric in the ended runs of its environment and server, in the order
    of the runs, and every such value is in a group.  A group is insufficient
    with fewer than three runs, and increasing exactly when, with three or
    more, no value is below the one before it and the last is above the
    first.  Reporting never raises. *)
Theorem trends_partition_the_points runs : exists trends,
  _cross_session_trends runs = Ok trends
  /\ NoDup (map trend_of trends) /\ Sorted.StronglySorted trend_key_leb (map trend_of trends)
  /\ Forall (fun t => trend_points t = points_of runs (trend_of t) /\ trend_points t <> []
       /\ trend_sample_count t = len (trend_points t)
       /\ (trend_state t = insufficient <-> len (trend_points t) < 3)
       /\ (trend_state t = increasing <-> 3 <= len (trend_points t) /\ fltb fzero (trend_total_delta t) = true
             /\ Sorted.Sorted (fun a b => fleb a b = true) (map point_value (trend_points t)))) trends
  /\ (forall run key p, run ∈ runs -> (key, p) ∈ run_points run -> exists t, t ∈ trends /\ trend_of t = key /\ p ∈ trend_points t).
Proof.
  set (le := fun a b : trend_key * list CrossSessionTrendPoint => trend_key_leb a.1 b.1).
  set (groups := sorted_by le (trend_groups runs)).
  assert (exists trends, Forall2 (fun g t => trend_of_group g = Ok t) groups trends) as [trends Ht].
  { assert (Forall (fun g => exists t, trend_of_group g = Ok t) groups) as Hg.
    { apply Forall_forall. intros [key points] Hin. unfold groups in Hin.
      rewrite elem_of_sorted_by in Hin. apply trend_of_group_ok, (trend_groups_elem _ _ _ Hin). }
    induction Hg as [|g gs [t Hg] _ [ts IH]]; [by exists []|]. exists (t :: ts). by constructor. }
  assert (map trend_of trends = map fst groups) as Hkeys.
  { clear -Ht. induction Ht as [|[k ps] t gs ts Hg _ IH]; [done|]. cbn [map]. rewrite IH.
    by apply trend_state_spec in Hg as [-> _]. }
  exists trends. split; [by apply mapM_res_ok|]. rewrite Hkeys. split_and!.
  - unfold groups. rewrite (sorted_by_perm le (trend_groups runs)), trend_groups_keys. apply group_by_NoDup.
  - assert (Sorted.StronglySorted le groups) as Hs.
    { apply (sorted_by_preorder (fun _ => True)); [|by apply Forall_forall].
      destruct trend_key_preorder as [Htot Htr]. split; intros *; unfold le; intros; [by apply Htot|by eapply Htr]. }
    clear -Hs. induction Hs as [|g gs _ IH Hg]; cbn [map]; constructor; [done|].
    apply Forall_forall. intros k (g' & -> & Hin)%list_elem_of_fmap. rewrite Forall_forall in Hg. exact (Hg _ Hin).
  - assert (Forall (fun g => g.2 = points_of runs g.1 /\ g.2 <> []) groups) as Hg
      by (apply Forall_forall; intros [key points] Hin; unfold groups in Hin; rewrite elem_of_sorted_by in Hin;
          by apply trend_groups_elem in Hin).
    clear -Ht Hg. induction Ht as [|[k ps] t gs ts Hgt _ IH]; [constructor|]. apply Forall_cons in Hg as [[Hp Hne] Hg].
    constructor; [|by apply IH]. cbn [fst snd] in *.
    apply trend_state_spec in Hgt as (-> & -> & Hc & _ & _ & _ & Hi & Hinc). rewrite never_falls_sorted in Hinc. done.
  - intros run key p Hrun Hp. assert ((key, p) ∈ concat (map run_points runs)) as Hin.
    { rewrite list_elem_of_In. apply in_concat. exists (run_points run). rewrite <- !list_elem_of_In. split; [|done].
      apply list_elem_of_fmap. by exists run. }
    destruct (group_by_covers fst _ _ Hin) as (g & Hg & Hpg). cbn [fst] in Hg.
    assert ((key, map snd g) ∈ groups) as Hgr.
    { apply elem_of_sorted_by. unfold trend_groups. apply list_elem_of_fmap. by exists (key, g). }
    apply list_elem_of_lookup in Hgr as [i Hi]. destruct (Forall2_lookup_l _ _ _ _ _ Ht Hi) as (t & Hti & Hgt).
    exists t. split; [by eapply list_elem_of_lookup_2|]. apply trend_state_spec in Hgt as (-> & -> & _). split; [done|].
    apply list_elem_of_fmap. by exists (key, p).
Qed.

(** Three ended runs of one server with a growing number of tasks, a running
    one, and a run of another server. *)
Definition trend_run (id status_ alias : string) (started : instant) (tasks : float) : StoredRun :=
  MkStoredRun id "hash" None "" "fake" "asterisk" status_ started
    (if String.eqb status_ "running" then None else Some (started + 1)) [] [] []
    [MkMetric None "active_tasks" fzero started; MkMetric None "active_tasks" tasks (started + 1)]
    None [] [] [] []
    (MkEnvironment env_demo (Some alias) None None None None [] [] None []) [].

Example increasing_trend :
  (trends ← _cross_session_trends
     [trend_run "a" "completed" "host-b" 1 (fz 2); trend_run "b" "failed" "host-b" 2 (fz 2);
      trend_run "x" "running" "host-b" 3 (fz 1); trend_run "c" "completed" "host-a" 4 (fz 9);
      trend_run "d" "completed" "host-b" 5 (fz 3)];
   Ok (map (fun t => (trend_of t, trend_state t, map point_run_id (trend_points t))) trends))
  = Ok [((env_demo, "host-a", "active_tasks"), insufficient, ["c"]);
        ((env_demo, "host-b", "active_tasks"), increasing, ["a"; "b"; "d"])].
Proof. vm_compute. reflexivity. Qed.
