(* ===== verification/Providers.v ===== *)
(** * Realtime providers

    [realtime_providers/providers.py]: the readiness of a provider, the bounded
    retry of the first connection, and the sessions: the in-memory one, the
    OpenAI web socket and the Gemini SDK.  What a provider answers, the
    environment variables, the installed modules and the parser of JSON texts
    are arguments; a web socket is the list of what was sent on it. *)
From S2P Require Import Prelude Effects Collections PyFloat PyData PyFormat Bytes Base64 JobQueue RunModel SignalChecks RecordingStorage AudioSocket CallSession.

Open Scope Z_scope.

(** ** Readiness *)

Record ProviderReadiness := MkReadiness {
  pr_provider : string; pr_model : string; pr_env_var : string; pr_has_api_key : bool;
  pr_missing_optional_dependency : option string; pr_dry_run : bool; pr_alternate_env_vars : list string }.

Definition ready (r : ProviderReadiness) : bool :=
  pr_dry_run r || (pr_has_api_key r && bool_decide (pr_missing_optional_dependency r = None)).

(** [os.environ] and [importlib.util.find_spec], whose answer may be that a
    parent of the module is missing. *)
Record host := MkHost { environ : string -> option string; find_spec : string -> result bool }.

(** [bool(os.environ.get(name))]. *)
Definition env_set (h : host) (name : string) : bool :=
  match environ h name with Some v => negb (String.eqb v "") | None => false end.

Definition _missing_dependency (h : host) (module_name : string) : option string :=
  match find_spec h module_name with Ok true => None | _ => Some module_name end.

Definition _readiness_error (r : ProviderReadiness) : string :=
  let missing :=
    (if pr_has_api_key r then []
     else ["missing API key env var: " +:+ comma_list (pr_env_var r :: pr_alternate_env_vars r)])
    ++ match pr_missing_optional_dependency r with
       | Some module_name => if String.eqb module_name "" then [] else ["missing optional dependency: " +:+ module_name]
       | None => []
       end in
  pr_provider r +:+ " is not ready (" +:+ String.concat "; " missing +:+ ")".

Record OpenAIRealtimeProvider := MkOpenAI {
  oa_model : string; oa_api_key_env_var : string; oa_voice : string; oa_input_rate : Z; oa_output_rate : Z;
  oa_output_encoding : string; oa_instructions : string; oa_provider_name : string }.

Definition default_openai : OpenAIRealtimeProvider :=
  MkOpenAI "gpt-realtime-2.1" "OPENAI_API_KEY" "marin" 24000 24000 "audio/pcm"
    "You are a concise voice assistant. Reply in the language used by the caller." "openai-realtime".

Definition openai_readiness (h : host) (self : OpenAIRealtimeProvider) (dry_run : bool) : ProviderReadiness :=
  MkReadiness (oa_provider_name self) (oa_model self) (oa_api_key_env_var self) (env_set h (oa_api_key_env_var self))
    (_missing_dependency h "websockets") dry_run [].

Definition session_update_event (self : OpenAIRealtimeProvider) : json :=
  JObj [("type", JStr "session.update");
        ("session", JObj
           [("type", JStr "realtime"); ("model", JStr (oa_model self)); ("instructions", JStr (oa_instructions self));
            ("output_modalities", JArr [JStr "audio"]);
            ("audio", JObj
               [("input", JObj [("format", JObj [("type", JStr "audio/pcm"); ("rate", JInt (oa_input_rate self))]);
                                ("turn_detection", JObj [("type", JStr "semantic_vad")])]);
                ("output", JObj [("format", JObj [("type", JStr (oa_output_encoding self))]);
                                 ("voice", JStr (oa_voice self))])])])].

Record GeminiLiveProvider := MkGemini {
  ge_model : string; ge_api_key_env_var : string; ge_alternate_api_key_env_vars : list string;
  ge_input_rate : Z; ge_output_rate : Z; ge_instructions : string; ge_provider_name : string }.

Definition default_gemini : GeminiLiveProvider :=
  MkGemini "gemini-3.1-flash-live-preview" "GOOGLE_API_KEY" ["GEMINI_API_KEY"] 16000 24000
    "You are a concise voice assistant. Reply in the language used by the caller." "gemini-live".

Definition _has_api_key (h : host) (self : GeminiLiveProvider) : bool :=
  existsb (env_set h) (ge_api_key_env_var self :: ge_alternate_api_key_env_vars self).

Definition gemini_readiness (h : host) (self : GeminiLiveProvider) (dry_run : bool) : ProviderReadiness :=
  MkReadiness (ge_provider_name self) (ge_model self) (ge_api_key_env_var self) (_has_api_key h self)
    (_missing_dependency h "google.genai") dry_run (ge_alternate_api_key_env_vars self).

Definition live_connect_config (self : GeminiLiveProvider) : json :=
  JObj [("model", JStr (ge_model self));
        ("config", JObj [("response_modalities", JArr [JStr "AUDIO"]); ("system_instruction", JStr (ge_instructions self))]);
        ("input_mime_type", JStr ("audio/pcm;rate=" +:+ pretty (ge_input_rate self)))].

(** The key the client is created with. *)
Definition gemini_api_key (h : host) (self : GeminiLiveProvider) : option string :=
  head (omap (fun name => if env_set h name then environ h name else None)
    (ge_api_key_env_var self :: ge_alternate_api_key_env_vars self)).

(** ** The first connection *)

(** What one call of [provider.connect(dry_run=False)] comes to. *)
Inductive connect_answer (S : Type) := Connects (session : S) | Refuses (exc : provider_exception).
Arguments Connects {S}. Arguments Refuses {S}.

Inductive connect_outcome (S : Type) :=
  | Connected (session : S) (attempts : Z)
  | ConnectionFailed (attempts : Z) (reason_alias error_type : string)
  | Raised (cls : exn_class) (message : string).
Arguments Connected {S}. Arguments ConnectionFailed {S}. Arguments Raised {S}.

(** [min(max_backoff_seconds, initial_backoff_seconds * (2 ** (attempt - 1)))]. *)
Definition backoff_delay (initial_backoff max_backoff : float) (attempt : Z) : result float :=
  factor ← float_of_int (2 ^ (attempt - 1)); Ok (pymin max_backoff (fmul initial_backoff factor)).

(** The loop from attempt [attempt] on, with [more] attempts after it, and the
    waits it makes: the retry callback and the sleep see the same two values. *)
Fixpoint retry_loop {S} (connect : Z -> connect_answer S) (attempts : Z) (initial_backoff max_backoff : float)
    (more : nat) (attempt : Z) : connect_outcome S * list (Z * float) :=
  match connect attempt with
  | Connects session => (Connected session attempt, [])
  | Refuses exc =>
      match more with
      | O => let '(reason_alias, error_type) := classify_provider_error exc in
             (ConnectionFailed attempts reason_alias error_type, [])
      | Datatypes.S more' =>
          match backoff_delay initial_backoff max_backoff attempt with
          | Raise c m => (Raised c m, [])
          | Ok delay =>
              let '(r, waits) := retry_loop connect attempts initial_backoff max_backoff more' (attempt + 1) in
              (r, (attempt, delay) :: waits)
          end
      end
  end.

Definition connect_with_retry {S} (connect : Z -> connect_answer S) (attempts : Z) (initial_backoff max_backoff : float)
    : connect_outcome S * list (Z * float) :=
  if attempts <? 1 then (Raised ValueError "connection attempts must be at least 1", [])
  else if fltb initial_backoff fzero || fltb max_backoff fzero
  then (Raised ValueError "connection backoff must be non-negative", [])
  else retry_loop connect attempts initial_backoff max_backoff (Z.to_nat (attempts - 1)) 1.

(** ** Sessions *)

Inductive received := ReceivedAudio (chunk : ProviderAudioChunk) | ReceivedEvent (event_type : string).

Definition received_pcm (l : list received) : list ProviderAudioChunk :=
  omap (fun m => match m with ReceivedAudio c => Some c | ReceivedEvent _ => None end) l.

Definition _validate_pcm_chunk (audio : ProviderAudioChunk) (expected_rate : Z) : result unit :=
  _ ← guard_else (String.eqb (pa_encoding audio) "pcm16") ValueError "realtime providers require pcm16 audio";
  _ ← guard_else (pa_channels audio =? 1) ValueError "realtime providers require mono audio";
  _ ← guard_else (pa_sample_rate audio =? expected_rate) ValueError
        ("provider input rate must be " +:+ pretty expected_rate +:+ " Hz, got " +:+ pretty (pa_sample_rate audio) +:+ " Hz");
  guard_else (even_length (pa_pcm audio)) ValueError "pcm16 audio length must be divisible by two".

(** [DryRunRealtimeProviderSession]: the chunks sent so far. *)
Record DryRunSession := MkDryRun { dr_provider : string; dr_input_rate : Z; dr_output_rate : Z; dr_sent : list ProviderAudioChunk }.

Definition dry_run_send_pcm (audio : ProviderAudioChunk) : st DryRunSession unit :=
  modify (fun s => MkDryRun (dr_provider s) (dr_input_rate s) (dr_output_rate s) (dr_sent s ++ [audio])).

Definition dry_run_receive (s : DryRunSession) : list received :=
  match last (dr_sent s) with
  | None => []
  | Some audio => [ReceivedAudio (MkProviderChunk (pa_pcm audio) (dr_output_rate s) (pa_channels audio) (pa_encoding audio) None None)]
  end.

(** [OpenAIRealtimeWebSocketSession]. *)
Record WebSocketSession := MkWebSocket {
  ws_input_rate : Z; ws_output_rate : Z; _response_active : bool; ws_sent : list json }.

Definition set_active (active : bool) (s : WebSocketSession) : WebSocketSession :=
  MkWebSocket (ws_input_rate s) (ws_output_rate s) active (ws_sent s).

(** [websocket.send(json.dumps(message))]; [fault] is what a failing send raises. *)
Definition ws_send (fault : option (exn_class * string)) (message : json) : st WebSocketSession unit :=
  match fault with
  | Some (c, m) => throw c m
  | None => modify (fun s => MkWebSocket (ws_input_rate s) (ws_output_rate s) (_response_active s) (ws_sent s ++ [message]))
  end.

Definition append_audio (audio : ProviderAudioChunk) : json :=
  JObj [("type", JStr "input_audio_buffer.append"); ("audio", JStr (str (b64encode (pa_pcm audio))))].

Definition ws_send_pcm fault (audio : ProviderAudioChunk) : st WebSocketSession unit :=
  s ← get_state;
  _ ← lift (_validate_pcm_chunk audio (ws_input_rate s));
  ws_send fault (append_audio audio).

(** The text of [message or 'unknown error'] for the value of ["error"]. *)
Definition error_text (error : option json) : string :=
  match error with
  | Some (JObj d) =>
      let message := default JNull (jget "message" d) in
      if falsy message then "unknown error" else match message with JStr m => m | v => str_json v end
  | _ => "unknown error"
  end.

Section receiving.
(** The parser of a raw message. *)
Context (json_loads : string -> result json).

(** One turn of the loop of [receive]: at most one message for the consumer. *)
Definition receive_one (raw_message : string) : st WebSocketSession (list received) :=
  event ← lift (json_loads raw_message);
  match event with
  | JObj d =>
      event_type ← lift (hashable_str (default JNull (jget "type" d)));
      let is_type s := bool_decide (event_type = Some s) in
      if is_type "response.output_audio.delta" || is_type "response.audio.delta" then
        match jstr (jget "delta" d) with
        | None => mret []
        | Some delta =>
            pcm ← lift (b64decode delta);
            s ← get_state;
            mret [ReceivedAudio (MkProviderChunk pcm (ws_output_rate s) 1 "pcm16" (jstr (jget "item_id" d)) (jint (jget "content_index" d)))]
        end
      else if is_type "input_audio_buffer.speech_started" then mret [ReceivedEvent "input_speech_started"]
      else if is_type "input_audio_buffer.speech_stopped" then mret [ReceivedEvent "input_speech_stopped"]
      else if is_type "response.created" then _ ← modify (set_active true); mret [ReceivedEvent "response_started"]
      else if is_type "response.done" then _ ← modify (set_active false); mret [ReceivedEvent "response_done"]
      else if is_type "error" then throw RuntimeError ("OpenAI Realtime error: " +:+ error_text (jget "error" d))
      else mret []
  | _ => throw AttributeError "object has no attribute 'get'"
  end.

(** What the consumer got before the stream ended or raised. *)
Fixpoint ws_receive (raw_messages : list string) (s : WebSocketSession) : list received * result unit * WebSocketSession :=
  match raw_messages with
  | [] => ([], Ok tt, s)
  | raw :: rest =>
      match receive_one raw s with
      | (Raise c m, s') => ([], Raise c m, s')
      | (Ok out, s') => let '(later, r, s'') := ws_receive rest s' in (out ++ later, r, s'')
      end
  end.

Definition response_cancel : json := JObj [("type", JStr "response.cancel")].

Definition truncate_message (position : PlaybackPosition) : json :=
  JObj [("type", JStr "conversation.item.truncate"); ("item_id", JStr (item_id position));
        ("content_index", JInt (content_index position)); ("audio_end_ms", JInt (audio_end_ms position))].

Definition ws_truncate_audio fault (position : PlaybackPosition) : st WebSocketSession bool :=
  _ ← ws_send fault (truncate_message position); mret true.

(** What the code does on a session besides interrupting it; the state changes
    of each of these are in one step. *)
Inductive ws_call :=
  | CallSend (fault : option (exn_class * string)) (audio : ProviderAudioChunk)
  | CallReceive (raw_message : string)
  | CallTruncate (fault : option (exn_class * string)) (position : PlaybackPosition).

Definition ws_run (c : ws_call) : st WebSocketSession unit :=
  match c with
  | CallSend fault audio => ws_send_pcm fault audio
  | CallReceive raw => _ ← receive_one raw; mret tt
  | CallTruncate fault position => _ ← ws_truncate_audio fault position; mret tt
  end.

(** Calls of other tasks, whatever they raise. *)
Definition ws_calls (calls : list ws_call) (s : WebSocketSession) : WebSocketSession :=
  fold_left (fun s c => snd (ws_run c s)) calls s.

(** [interrupt]: the other tasks go on at the await of the message, between
    the check of the flag and its reset. *)
Definition ws_interrupt fault (meanwhile : list ws_call) : st WebSocketSession bool :=
  s ← get_state;
  if negb (_response_active s) then mret false
  else
    fun s =>
      let '(sent, s1) := ws_send fault response_cancel s in
      (_ ← modify (ws_calls meanwhile);
       _ ← lift sent;
       _ ← modify (set_active false);
       mret true) s1.

(** A session in use; one task interrupts it, so no interrupt runs during
    another. *)
Inductive ws_step :=
  | OtherCall (c : ws_call)
  | Interrupt (fault : option (exn_class * string)) (meanwhile : list ws_call).

Definition ws_do (x : ws_step) : st WebSocketSession unit :=
  match x with
  | OtherCall c => ws_run c
  | Interrupt fault meanwhile => _ ← ws_interrupt fault meanwhile; mret tt
  end.
End receiving.

(** [GeminiLiveSdkSession.receive]: what the SDK yields in one response, and a
    turn of the loop per call of [session.receive()]; a turn without a
    response ends the stream. *)
Record gemini_response := MkGeminiResponse {
  gr_data : option bytes; gr_server_content : option (bool * bool) }.

Definition gemini_messages (output_rate : Z) (r : gemini_response) : list received :=
  match gr_data r with
  | Some ((_ :: _) as data) => [ReceivedAudio (MkProviderChunk data output_rate 1 "pcm16" None None)]
  | _ => []
  end
  ++ match gr_server_content r with
     | Some (interrupted, turn_complete) =>
         (if interrupted then [ReceivedEvent "interrupted"] else [])
         ++ (if turn_complete then [ReceivedEvent "response_done"] else [])
     | None => []
     end.

Fixpoint gemini_receive (output_rate : Z) (turns : list (list gemini_response)) : list received :=
  match turns with
  | [] | [] :: _ => []
  | turn :: rest => concat (map (gemini_messages output_rate) turn) ++ gemini_receive output_rate rest
  end.

(** The blob [send_pcm] passes on. *)
Definition gemini_send_pcm (input_rate : Z) (audio : ProviderAudioChunk) : result (bytes * string) :=
  _ ← _validate_pcm_chunk audio input_rate; Ok (pa_pcm audio, "audio/pcm;rate=" +:+ pretty input_rate).

(** ** Connecting *)

(** What the libraries answer to a connection attempt. *)
Inductive provider_session := DryRun (s : DryRunSession) | WebSocket (s : WebSocketSession) | Gemini (api_key : option string) (input_rate output_rate : Z).

Definition openai_connect (h : host) (connected : option (exn_class * string)) fault (self : OpenAIRealtimeProvider) (dry_run : bool)
    : result provider_session :=
  let readiness := openai_readiness h self dry_run in
  if dry_run then Ok (DryRun (MkDryRun (oa_provider_name self) (oa_input_rate self) (oa_output_rate self) []))
  else if negb (ready readiness) then Raise RuntimeError (_readiness_error readiness)
  else match connected with
       | Some (c, m) => Raise c m
       | None =>
           match ws_send fault (session_update_event self) (MkWebSocket (oa_input_rate self) (oa_output_rate self) false []) with
           | (Ok _, s) => Ok (WebSocket s)
           | (Raise c m, _) => Raise c m
           end
       end.

Definition gemini_connect (h : host) (connected : option (exn_class * string)) (self : GeminiLiveProvider) (dry_run : bool)
    : result provider_session :=
  let readiness := gemini_readiness h self dry_run in
  if dry_run then Ok (DryRun (MkDryRun (ge_provider_name self) (ge_input_rate self) (ge_output_rate self) []))
  else if negb (ready readiness) then Raise RuntimeError (_readiness_error readiness)
  else match connected with
       | Some (c, m) => Raise c m
       | None => Ok (Gemini (gemini_api_key h self) (ge_input_rate self) (ge_output_rate self))
       end.

(** ** The retry is bounded *)

Lemma float_of_pow2 k : 0 <= k <= 1023 -> exists x, float_of_int (2 ^ k) = Ok x.
Proof.
  intros Hk. unfold float_of_int. destruct (fl_exact (QArith_base.inject_Z (2 ^ k))) as (r & -> & _); [| |by eexists].
  - exists 1, k. split; [unfold emin; lia|]. split; [unfold fprec; lia|].
    rewrite pow2_Z by lia. rewrite <- QArith_base.inject_Z_mult. by rewrite Z.mul_1_l.
  - unfold fmax_bound. rewrite (pow2_Z 1024) by lia. rewrite <- QArith_base.inject_Z_opp, <- !QArith_base.Zlt_Qlt.
    assert (2 ^ k < 2 ^ 1024) by (apply Z.pow_lt_mono_r; lia). pose proof (Z.pow_pos_nonneg 2 k). lia.
Qed.

Lemma backoff_delay_ok initial_backoff max_backoff attempt : 1 <= attempt <= 1024 -> max_backoff <> NaN ->
  exists delay, backoff_delay initial_backoff max_backoff attempt = Ok delay /\ fleb delay max_backoff = true.
Proof.
  intros Ha Hm. unfold backoff_delay. destruct (float_of_pow2 (attempt - 1)) as [x ->]; [lia|].
  eexists. split; [done|]. by apply pymin_le_l.
Qed.

Definition refused {S} (a : connect_answer S) : Prop := exists exc, a = Refuses exc.

(** What the retry promises: the first attempt that connects wins, and with
    none the last refusal is classified; each refusal but the last is followed
    by one wait of at most the maximum. *)
Definition retried {S} (connect : Z -> connect_answer S) (attempts : Z) (max_backoff : float) (first : Z)
    (r : connect_outcome S * list (Z * float)) : Prop :=
  (exists n, match r.1 with
     | Connected session k => k = n /\ connect n = Connects session
     | ConnectionFailed k reason error_type =>
         k = attempts /\ n = attempts /\ exists exc, connect n = Refuses exc /\ classify_provider_error exc = (reason, error_type)
     | Raised _ _ => False
     end
     /\ first <= n <= attempts
     /\ (forall j, first <= j < n -> refused (connect j))
     /\ map fst r.2 = seqZ first (n - first))
  /\ Forall (fun w => fleb w.2 max_backoff = true) r.2.

Lemma retry_loop_spec {S} (connect : Z -> connect_answer S) attempts initial_backoff max_backoff more attempt :
  max_backoff <> NaN -> 1 <= attempt -> attempt + Z.of_nat more = attempts -> attempts <= 1024 ->
  retried connect attempts max_backoff attempt (retry_loop connect attempts initial_backoff max_backoff more attempt).
Proof.
  intros Hm. revert attempt. induction more as [|more IH]; intros attempt H1 Hsum Hle; cbn [retry_loop].
  - destruct (connect attempt) as [session|exc] eqn:E.
    + split; [|constructor]. exists attempt. split_and!; try done; try lia. by rewrite Z.sub_diag.
    + destruct (classify_provider_error exc) as [reason type] eqn:Ec. split; [|constructor]. exists attempt.
      cbn [fst snd map]. split_and!; try lia; eauto. by rewrite Z.sub_diag.
  - destruct (connect attempt) as [session|exc] eqn:E.
    + split; [|constructor]. exists attempt. split_and!; try done; try lia. by rewrite Z.sub_diag.
    + destruct (backoff_delay_ok initial_backoff max_backoff attempt) as (delay & -> & Hd); [lia|done|].
      destruct (IH (attempt + 1)) as [(n & Hout & Hn & Hj & Hw) Hall]; [lia..|].
      destruct (retry_loop _ _ _ _ more _) as [r waits]. cbn [fst snd map] in *. split; [|by constructor].
      exists n. split_and!; try done; try lia.
      * intros j Hjn. destruct (decide (j = attempt)) as [->|]; [by eexists|apply Hj; lia].
      * change (attempt :: map fst waits = seqZ attempt (n - attempt)). rewrite Hw. rewrite (seqZ_cons attempt (n - attempt)) by lia. f_equal. f_equal; lia.
Qed.

(** Opening a provider connection takes at least one and at most
    [attempts] calls of the provider, one after the other and never after a
    call that connected: the outcome is the session of the first call that
    connects, with its number, or else the error that carries the number of
    attempts and the classification of the last refusal.  Between two calls
    there is exactly one wait, numbered by the attempt before it, and no wait
    exceeds the maximum backoff.  With fewer than one attempt or a negative
    backoff nothing is called. *)
Theorem connection_retry_bounded {S} (connect : Z -> connect_answer S) attempts initial_backoff max_backoff :
  attempts <= 1024 -> max_backoff <> NaN ->
  let r := connect_with_retry connect attempts initial_backoff max_backoff in
  if (1 <=? attempts) && negb (fltb initial_backoff fzero) && negb (fltb max_backoff fzero)
  then retried connect attempts max_backoff 1 r
  else r.2 = [] /\ exists message, r.1 = Raised ValueError message.
Proof.
  intros Ha Hm. cbv zeta. unfold connect_with_retry.
  destruct (attempts <? 1) eqn:E1.
  - apply Z.ltb_lt in E1. rewrite (proj2 (Z.leb_gt 1 attempts)) by lia. cbn. eauto.
  - apply Z.ltb_ge in E1. rewrite (proj2 (Z.leb_le 1 attempts)) by lia. cbn [andb].
    destruct (fltb initial_backoff fzero), (fltb max_backoff fzero); cbn [negb andb orb fst snd]; eauto.
    apply retry_loop_spec; [done|lia..].
Qed.

(** ** A session cancels only what it saw start *)

Definition message_type (v : json) : option string := match v with JObj d => jstr (jget "type" d) | _ => None end.
Definition has_type (t : string) (v : json) : bool := match message_type v with Some t' => String.eqb t' t | None => false end.

Definition cancels (s : WebSocketSession) : Z := countb (has_type "response.cancel") (ws_sent s).

(** What matters to the responses of a provider, in order. *)
Inductive ws_event := Started | Ended | Cancelled.

Section cancelling.
Context (json_loads : string -> result json).

(** What the provider says in a call. *)
Definition told (c : ws_call) : list ws_event :=
  match c with
  | CallReceive raw =>
      match json_loads raw with
      | Ok v => if has_type "response.created" v then [Started] else if has_type "response.done" v then [Ended] else []
      | Raise _ _ => []
      end
  | _ => []
  end.

(** The cancel messages a step put on the socket, then what the provider says
    while it waits. *)
Definition step_events (x : ws_step) (s : WebSocketSession) : list ws_event :=
  match x with
  | OtherCall c => told c
  | Interrupt _ meanwhile =>
      replicate (Z.to_nat (cancels (snd (ws_do json_loads x s)) - cancels s)) Cancelled
      ++ (if _response_active s then concat (map told meanwhile) else [])
  end.

Fixpoint ws_trace (steps : list ws_step) (s : WebSocketSession) : list ws_event * WebSocketSession :=
  match steps with
  | [] => ([], s)
  | x :: steps' => let r := ws_trace steps' (snd (ws_do json_loads x s)) in (step_events x s ++ r.1, r.2)
  end.

(** Whether a response is in progress; a cancel without one is not allowed. *)
Fixpoint in_progress (active : bool) (events : list ws_event) : option bool :=
  match events with
  | [] => Some active
  | Started :: events' => in_progress true events'
  | Ended :: events' => in_progress false events'
  | Cancelled :: events' => if active then in_progress false events' else None
  end.

Lemma in_progress_app a l l' : in_progress a (l ++ l') = match in_progress a l with Some b => in_progress b l' | None => None end.
Proof. revert a. induction l as [|[] l IH]; intros a; cbn; [done|apply IH..|]. destruct a; [apply IH|done]. Qed.

(** No response starts while an interrupt waits. *)
Definition quiet_step (x : ws_step) : Prop :=
  match x with OtherCall _ => True | Interrupt _ meanwhile => Started ∉ concat (map told meanwhile) end.

Lemma cancels_sent s v rate out active : cancels (MkWebSocket rate out active (ws_sent s ++ [v]))
  = cancels s + (if has_type "response.cancel" v then 1 else 0).
Proof. unfold cancels. cbn [ws_sent]. rewrite countb_app. cbn. lia. Qed.

Lemma send_keeps fault v s : has_type "response.cancel" v = false ->
  cancels (snd (ws_send fault v s)) = cancels s /\ _response_active (snd (ws_send fault v s)) = _response_active s.
Proof. intros Hv. unfold ws_send. destruct fault as [[c m]|]; [done|]. split; [|done].
  pose proof (cancels_sent s v (ws_input_rate s) (ws_output_rate s) (_response_active s)) as Hc. by rewrite Hv, Z.add_0_r in Hc.
Qed.

Lemma hashed_type v t : hashable_str (default JNull v) = Ok t -> jstr v = t.
Proof. destruct v as [[]|]; cbn; try done; by intros [= <-]. Qed.

Lemma receive_told raw s :
  cancels (snd (receive_one json_loads raw s)) = cancels s
  /\ in_progress (_response_active s) (told (CallReceive raw)) = Some (_response_active (snd (receive_one json_loads raw s))).
Proof.
  unfold told, receive_one, lift, mbind, st_bind. destruct (json_loads raw) as [v|]; [|done].
  destruct v as [| | | | | |d]; try done. unfold has_type, message_type.
  destruct (hashable_str (default JNull (jget "type" d))) as [et|c m] eqn:Ht.
  2: { split; [done|]. destruct (jget "type" d) as [[]|]; cbn in *; done. }
  rewrite (hashed_type _ _ Ht). clear Ht.
  destruct (bool_decide_reflect (et = Some "response.created")) as [->|Hc]; [by cbn|].
  destruct (bool_decide_reflect (et = Some "response.done")) as [->|He]; [by cbn|].
  assert (match et with Some t' => String.eqb t' "response.created" | None => false end = false) as ->
    by (destruct et as [t|]; [|done]; destruct (String.eqb_spec t "response.created"); congruence).
  assert (match et with Some t' => String.eqb t' "response.done" | None => false end = false) as ->
    by (destruct et as [t|]; [|done]; destruct (String.eqb_spec t "response.done"); congruence).
  destruct (_ || _); [destruct (jstr (jget "delta" d)) as [delta|]; [destruct (b64decode delta)|]; done|].
  by repeat case_bool_decide.
Qed.

Lemma call_told c s : cancels (snd (ws_run json_loads c s)) = cancels s
  /\ in_progress (_response_active s) (told c) = Some (_response_active (snd (ws_run json_loads c s))).
Proof.
  destruct c as [fault audio|raw|fault position]; unfold ws_run.
  - unfold ws_send_pcm, get_state, lift, mbind, st_bind. destruct (_validate_pcm_chunk audio (ws_input_rate s)) as [[]|]; [|done].
    destruct (send_keeps fault (append_audio audio) s eq_refl) as [-> ->]. done.
  - pose proof (receive_told raw s) as Hb. unfold mbind, st_bind. by destruct (receive_one json_loads raw s) as [[?|? ?] ?].
  - destruct (send_keeps fault (truncate_message position) s eq_refl) as [Hc Ha].
    unfold ws_truncate_audio, mbind, st_bind. destruct (ws_send fault _ s) as [[?|? ?] s1]; cbn in *; by rewrite Hc, Ha.
Qed.

Lemma calls_told calls s : cancels (ws_calls json_loads calls s) = cancels s
  /\ in_progress (_response_active s) (concat (map told calls)) = Some (_response_active (ws_calls json_loads calls s)).
Proof.
  revert s. induction calls as [|c calls IH]; intros s; [done|]. cbn [map concat]. rewrite in_progress_app.
  destruct (call_told c s) as [Hc ->]. destruct (IH (snd (ws_run json_loads c s))) as [Hc' Ha].
  split; [|exact Ha]. change (ws_calls json_loads (c :: calls) s) with (ws_calls json_loads calls (snd (ws_run json_loads c s))). congruence.
Qed.

Lemma told_cases c : told c = [] \/ told c = [Started] \/ told c = [Ended].
Proof.
  unfold told. destruct c; auto. destruct (json_loads _); [|auto]. destruct (has_type "response.created" _); [auto|].
  destruct (has_type "response.done" _); auto.
Qed.

(** The events of the provider alone never fail the check, and a response that
    is not started is not in progress. *)
Lemma told_in_progress a calls : exists b, in_progress a (concat (map told calls)) = Some b
  /\ ((Started ∉ concat (map told calls)) -> a = false -> b = false).
Proof.
  revert a. induction calls as [|c calls IH]; intros a; [by exists a|]. cbn [map concat]. rewrite in_progress_app.
  assert (exists b, in_progress a (told c) = Some b /\ ((Started ∉ told c) -> a = false -> b = false)) as (b & -> & Hb).
  { destruct (told_cases c) as [->|[->| ->]]; cbn [in_progress]; eexists; (split; [reflexivity|]); [done|set_solver|done]. }
  destruct (IH b) as (b' & -> & Hb'). exists b'. split; [done|]. rewrite not_elem_of_app. intros [? ?] ?. auto.
Qed.

Lemma interrupt_answers fault meanwhile s : _response_active s = false -> ws_interrupt json_loads fault meanwhile s = (Ok false, s).
Proof. intros Ha. unfold ws_interrupt, get_state, mbind, st_bind. by rewrite Ha. Qed.

(** The state after an interrupt of an active session. *)
Lemma interrupt_active fault meanwhile s : _response_active s = true ->
  ws_interrupt json_loads fault meanwhile s
  = match fault with
    | Some (c, m) => (Raise c m, ws_calls json_loads meanwhile s)
    | None => (Ok true, set_active false (ws_calls json_loads meanwhile
                (MkWebSocket (ws_input_rate s) (ws_output_rate s) true (ws_sent s ++ [response_cancel]))))
    end.
Proof.
  intros Ha. unfold ws_interrupt, get_state, mbind, st_bind, modify, lift, ws_send. rewrite Ha. cbn [negb].
  destruct fault as [[c m]|]; [done|]. cbn. by rewrite Ha.
Qed.

(** [m] is whether a response is in progress before a step, [m'] after it. *)
Lemma step_monitored x s m : (_response_active s = true -> m = true) ->
  exists m', in_progress m (step_events x s) = Some m'
    /\ (_response_active (snd (ws_do json_loads x s)) = true -> m' = true)
    /\ (quiet_step x -> _response_active s = m -> _response_active (snd (ws_do json_loads x s)) = m').
Proof.
  intros Hm. destruct x as [c|fault meanwhile]; cbn [step_events ws_do].
  - destruct (call_told c s) as [_ Ha]. set (active := _response_active (snd (ws_run json_loads c s))) in *.
    destruct (told_cases c) as [E|[E|E]]; rewrite E in *; injection Ha as Ha; rewrite <- Ha; cbn [in_progress]; eauto.
  - unfold mbind, st_bind. destruct (_response_active s) eqn:Ea.
    + rewrite (interrupt_active _ _ _ Ea). rewrite (Hm eq_refl) in *. destruct fault as [[c e]|]; cbn [snd mret st_ret].
      * destruct (calls_told meanwhile s) as [-> Ha]. rewrite Z.sub_diag. cbn [Z.to_nat replicate app].
        rewrite Ea in Ha. change (replicate (Z.to_nat 0) Cancelled) with (@nil ws_event). cbn [app]. rewrite Ha. eauto.
      * set (s1 := MkWebSocket _ _ true _). destruct (calls_told meanwhile s1) as [Hc Ha].
        assert (cancels (set_active false (ws_calls json_loads meanwhile s1)) = cancels s + 1) as ->
          by (unfold cancels in *; cbn [set_active ws_sent]; rewrite Hc; unfold s1; cbn [ws_sent]; by rewrite countb_app).
        replace (cancels s + 1 - cancels s) with 1 by lia. change (replicate (Z.to_nat 1) Cancelled) with [Cancelled]. cbn [app in_progress].
        destruct (told_in_progress false meanwhile) as (b & -> & Hb). exists b. split; [done|]. cbn [set_active _response_active].
        split; [done|]. intros Hq _. symmetry. by apply Hb.
    + rewrite (interrupt_answers _ _ _ Ea). cbn [snd mret st_ret]. rewrite Z.sub_diag.
      exists m. rewrite Ea. by split_and!.
Qed.
End cancelling.

Lemma trace_monitored json_loads steps s m : (_response_active s = true -> m = true) ->
  exists m', in_progress m (ws_trace json_loads steps s).1 = Some m'
    /\ (_response_active (ws_trace json_loads steps s).2 = true -> m' = true)
    /\ (Forall (quiet_step json_loads) steps -> _response_active s = m -> _response_active (ws_trace json_loads steps s).2 = m').
Proof.
  revert s m. induction steps as [|x steps IH]; intros s m Hm; [by exists m|]. cbn [ws_trace fst snd].
  destruct (step_monitored json_loads x s m Hm) as (m1 & H1 & Hm1 & Hq1). rewrite in_progress_app, H1.
  destruct (IH _ m1 Hm1) as (m' & H2 & Hm2 & Hq2). exists m'. split; [done|]. split; [done|].
  intros [Hx Hall]%Forall_cons Ha. auto.
Qed.

(** C17. However the tasks interleave on one OpenAI session, also while an
    interrupt awaits its message, and whichever calls fail: every
    [response.cancel] is sent while a response is in progress, that is one that
    the provider said has started after the last cancel and has not said is
    done; none is sent otherwise.  Once no response starts during the await of
    an interrupt, the flag of the session tells exactly whether a response is
    in progress.  An interrupt answers the flag: a session whose flag is set
    sends its cancel, and any other session sends nothing. *)
Theorem cancels_only_started_responses json_loads steps input_rate output_rate :
  let '(events, s) := ws_trace json_loads steps (MkWebSocket input_rate output_rate false []) in
  exists active, in_progress false events = Some active
  /\ (_response_active s = true -> active = true)
  /\ (Forall (quiet_step json_loads) steps -> _response_active s = active)
  /\ forall meanwhile, match ws_interrupt json_loads None meanwhile s with
     | (Ok b, s') => b = _response_active s /\ _response_active s' = false
         /\ cancels s' = cancels s + Z.b2z (_response_active s)
     | (Raise _ _, _) => False
     end.
Proof.
  destruct (trace_monitored json_loads steps (MkWebSocket input_rate output_rate false []) false) as (m & H1 & H2 & H3); [done|].
  destruct (ws_trace _ _ _) as [events s]. cbn [fst snd] in *. exists m. split_and!; auto.
  intros meanwhile. destruct (_response_active s) eqn:Ea.
  - rewrite (interrupt_active _ _ _ _ Ea). split_and!; [done..|]. set (s1 := MkWebSocket _ _ true _).
    destruct (calls_told json_loads meanwhile s1) as [Hc _]. unfold cancels in *. cbn [set_active ws_sent]. rewrite Hc.
    unfold s1. cbn [ws_sent]. by rewrite countb_app.
  - rewrite (interrupt_answers _ _ _ _ Ea), Ea. cbn. split_and!; [done..|lia].
Qed.

(** ** Audio through a session *)

Lemma validate_pcm_spec audio rate : _validate_pcm_chunk audio rate = Ok tt
  <-> pa_encoding audio = "pcm16" /\ pa_channels audio = 1 /\ pa_sample_rate audio = rate /\ even_length (pa_pcm audio) = true.
Proof.
  unfold _validate_pcm_chunk, guard_else. destruct (String.eqb_spec (pa_encoding audio) "pcm16") as [->|Hne]; cbn [mbind result_bind];
    [|split; [done|by intros [? _]]].
  destruct (pa_channels audio =? 1) eqn:Hc; cbn [mbind result_bind]; [|split; [done|intros (_ & ? & _); lia]].
  destruct (pa_sample_rate audio =? rate) eqn:Hr; cbn [mbind result_bind]; [|split; [done|intros (_ & _ & ? & _); lia]].
  destruct (even_length (pa_pcm audio)); (split; [try done|try by intros (_ & _ & _ & ?)]). intros _. split_and!; [done|lia..|done].
Qed.

Lemma validate_pcm_raises audio rate : raises_res (fun c => c = ValueError) (_validate_pcm_chunk audio rate).
Proof. unfold _validate_pcm_chunk. repeat (apply raises_res_bind; [by apply raises_guard|intros _]). by apply raises_guard. Qed.

(** A message as a delta of response audio that carries the same text. *)
Definition echoed (v : json) : json :=
  match v with
  | JObj d => JObj [("type", JStr "response.output_audio.delta"); ("delta", default JNull (jget "audio" d))]
  | v => v
  end.

Lemma receive_delta json_loads raw (s : WebSocketSession) text pcm :
  json_loads raw = Ok (JObj [("type", JStr "response.output_audio.delta"); ("delta", JStr text)]) -> b64decode text = Ok pcm ->
  receive_one json_loads raw s = (Ok [ReceivedAudio (MkProviderChunk pcm (ws_output_rate s) 1 "pcm16" None None)], s).
Proof.
  intros Hraw Hpcm. unfold receive_one, lift, mbind, st_bind. rewrite Hraw.
  set (d := [("type", _); ("delta", _)]).
  assert (jget "type" d = Some (JStr "response.output_audio.delta")) as -> by reflexivity. cbn [default id hashable_str]. cbv beta iota zeta.
  rewrite bool_decide_true by done. cbn [orb].
  assert (jget "delta" d = Some (JStr text)) as -> by reflexivity. cbn [jstr]. by rewrite Hpcm.
Qed.

(** The OpenAI session sends exactly the chunks it may: a chunk is refused,
    with a [ValueError] and nothing sent, unless it is 16-bit mono PCM at the
    session's rate with whole samples; otherwise one message is sent, and a
    peer that sends its audio back as a response delta is heard with exactly
    the same samples. *)
Theorem websocket_audio_round_trip json_loads audio raw (s : WebSocketSession) :
  (forall message, last (ws_sent (snd (ws_send_pcm None audio s))) = Some message -> json_loads raw = Ok (echoed message)) ->
  let good := pa_encoding audio = "pcm16" /\ pa_channels audio = 1 /\ pa_sample_rate audio = ws_input_rate s
              /\ even_length (pa_pcm audio) = true in
  (good ->
     exists message s', ws_send_pcm None audio s = (Ok tt, s') /\ ws_sent s' = ws_sent s ++ [message]
       /\ receive_one json_loads raw s'
          = (Ok [ReceivedAudio (MkProviderChunk (pa_pcm audio) (ws_output_rate s) 1 "pcm16" None None)], s'))
  /\ (~ good -> exists text, ws_send_pcm None audio s = (Raise ValueError text, s)).
Proof.
  intros Hraw good. split.
  - intros Hg. apply validate_pcm_spec in Hg. unfold ws_send_pcm, get_state, lift, mbind, st_bind in *. rewrite Hg in *.
    cbn [ws_send modify snd ws_sent] in Hraw. specialize (Hraw (append_audio audio) ltac:(apply last_snoc)).
    eexists _, _. split; [done|]. split; [done|].
    exact (receive_delta json_loads raw (snd (ws_send None (append_audio audio) s)) (str (b64encode (pa_pcm audio)))
      (pa_pcm audio) Hraw (b64_round_trip _)).
  - intros Hg. unfold ws_send_pcm, get_state, lift, mbind, st_bind.
    assert (exists text, _validate_pcm_chunk audio (ws_input_rate s) = Raise ValueError text) as [text ->].
    { destruct (_validate_pcm_chunk audio (ws_input_rate s)) as [[]|c m] eqn:E; [by apply validate_pcm_spec in E|].
      exists m. f_equal. exact (validate_pcm_raises _ _ _ _ E). }
    by exists text.
Qed.

(** ** Credentials *)

(** A real connection needs a key that is set and the library; the Gemini
    client gets the first key that is set. *)
Lemma openai_connects h connected fault self session :
  openai_connect h connected fault self false = Ok session ->
  env_set h (oa_api_key_env_var self) = true /\ find_spec h "websockets" = Ok true
  /\ session = WebSocket (MkWebSocket (oa_input_rate self) (oa_output_rate self) false [session_update_event self]).
Proof.
  unfold openai_connect, ready, openai_readiness. cbn [pr_dry_run pr_has_api_key pr_missing_optional_dependency orb].
  destruct (env_set h _); cbn [andb negb]; [|done].
  unfold _missing_dependency. destruct (find_spec h "websockets") as [[]|]; cbn; try done.
  destruct connected as [[??]|]; [done|]. destruct fault as [[??]|]; [done|]. cbn. by intros [= <-].
Qed.

Lemma gemini_connects h connected self session :
  gemini_connect h connected self false = Ok session ->
  find_spec h "google.genai" = Ok true
  /\ exists key, session = Gemini (Some key) (ge_input_rate self) (ge_output_rate self) /\ key <> ""
     /\ exists name, name ∈ ge_api_key_env_var self :: ge_alternate_api_key_env_vars self /\ environ h name = Some key.
Proof.
  unfold gemini_connect, ready, gemini_readiness. cbn [pr_dry_run pr_has_api_key pr_missing_optional_dependency orb].
  destruct (_has_api_key h self) eqn:Hk; cbn [andb negb]; [|done].
  unfold _missing_dependency. destruct (find_spec h "google.genai") as [[]|]; cbn [bool_decide negb]; try done.
  rewrite bool_decide_true by done. cbn [negb]. destruct connected as [[??]|]; [done|]. intros [= <-]. split; [done|].
  unfold _has_api_key, gemini_api_key in *. induction (ge_api_key_env_var self :: ge_alternate_api_key_env_vars self) as [|name names IH]; [done|].
  cbn [existsb omap list_omap] in *. unfold env_set in *. destruct (environ h name) as [key|] eqn:E; cbn [orb] in Hk.
  - destruct (String.eqb_spec key ""); cbn [negb orb] in *; [destruct (IH Hk) as (k & Ek & Hne & n & Hn & He)|].
    + exists k. split_and!; [done..|]. exists n. split; [by right|done].
    + exists key. cbn [head]. split_and!; [done..|]. exists name. split; [by left|done].
  - destruct (IH Hk) as (k & Ek & Hne & n & Hn & He). exists k. split_and!; [done..|]. exists n. split; [by right|done].
Qed.

(** Only a dry run connects without credentials: a connection that is not a
    dry run has the provider's library installed and an API key that is set
    and not empty -- for Gemini that key is the one the client is given -- and
    an OpenAI session starts with the session update as the only message sent
    and no active response. *)
Theorem real_connection_has_credentials h connected fault openai gemini session :
  (openai_connect h connected fault openai false = Ok session ->
     find_spec h "websockets" = Ok true /\ (exists key, environ h (oa_api_key_env_var openai) = Some key /\ key <> "")
     /\ session = WebSocket (MkWebSocket (oa_input_rate openai) (oa_output_rate openai) false [session_update_event openai]))
  /\ (gemini_connect h connected gemini false = Ok session ->
     find_spec h "google.genai" = Ok true
     /\ exists key name, session = Gemini (Some key) (ge_input_rate gemini) (ge_output_rate gemini)
          /\ environ h name = Some key /\ key <> "" /\ name ∈ ge_api_key_env_var gemini :: ge_alternate_api_key_env_vars gemini).
Proof.
  split.
  - intros (Hk & Hf & ->)%openai_connects. split_and!; [done| |done]. unfold env_set in Hk.
    destruct (environ h _) as [key|]; [|done]. exists key. split; [done|]. by intros ->.
  - intros (Hf & key & -> & Hne & name & Hn & He)%gemini_connects. split; [done|]. by exists key, name.
Qed.

(** ** Concrete providers *)

Definition flaky (attempt : Z) : connect_answer unit :=
  if attempt <? 3 then Refuses (MkProviderException "TimeoutError" "" "timed out" "") else Connects tt.

Example flaky_connects : connect_with_retry flaky 3 (flit 5 10) (fz 4) = (Connected tt 3, [(1, flit 5 10); (2, fz 1)])
  /\ connect_with_retry flaky 2 (flit 5 10) (fz 4)
     = (ConnectionFailed 2 "provider-temporarily-unavailable" "TimeoutError", [(1, flit 5 10)]).
Proof. vm_compute. split; reflexivity. Qed.

Lemma fz4_number : fz 4 <> NaN.
Proof. vm_compute. discriminate. Qed.

Lemma connection_retry_bounded_witness : retried flaky 3 (fz 4) 1 (connect_with_retry flaky 3 (flit 5 10) (fz 4)).
Proof. exact (connection_retry_bounded flaky 3 (flit 5 10) (fz 4) (Zle_bool_imp_le 3 1024 eq_refl) fz4_number). Defined.

Definition demo_audio : ProviderAudioChunk := MkProviderChunk [byte_of 1; byte_of 2] 24000 1 "pcm16" None None.
Definition demo_socket : WebSocketSession := MkWebSocket 24000 24000 false [].
Definition echo_loads (raw : string) : result json := Ok (echoed (append_audio demo_audio)).

Lemma demo_echo message : last (ws_sent (snd (ws_send_pcm None demo_audio demo_socket))) = Some message ->
  echo_loads "" = Ok (echoed message).
Proof. vm_compute. intros E. by injection E as <-. Qed.

Lemma demo_audio_good : pa_encoding demo_audio = "pcm16" /\ pa_channels demo_audio = 1
  /\ pa_sample_rate demo_audio = ws_input_rate demo_socket /\ even_length (pa_pcm demo_audio) = true.
Proof. by split_and!. Qed.

Lemma websocket_audio_round_trip_witness :
  exists message s', ws_send_pcm None demo_audio demo_socket = (Ok tt, s') /\ ws_sent s' = ws_sent demo_socket ++ [message]
    /\ receive_one echo_loads "" s'
       = (Ok [ReceivedAudio (MkProviderChunk (pa_pcm demo_audio) (ws_output_rate demo_socket) 1 "pcm16" None None)], s').
Proof. exact (proj1 (websocket_audio_round_trip echo_loads demo_audio "" demo_socket demo_echo) demo_audio_good). Defined.
