(* ===== verification/LiveDemo.v ===== *)
(** * The simulated live demo

    [live_demo/simulated_bridge.py] and the parts of [control_plane/run_api.py]
    that run it: the request, the payload made from the example files, the
    overrides of the gain control, and the handler that stores the run.  The
    bridge walks the stage plan, writes one tone per stage and reports metrics,
    SIP events, RTP statistics and RTP packets.  The sine and the logarithm of
    the platform, the example files and the answers of the disk are arguments. *)
From S2P Require Import Prelude Effects Collections PyFloat PyData PyFormat Bytes Json JobQueue Timeline RunModel Repository RtpEvidence Registry SignalChecks PyUrl RecordingStorage RunStores ObservedRuns Harness RunExecution Providers.

Open Scope Z_scope.

(** ** Levels *)

Definition _positive_float (value : option json) (dflt : float) : result float :=
  match value with
  | Some v => match positive_number v with Some x => x | None => Ok dflt end
  | None => Ok dflt
  end.

(** [stage_config.get("params", {})], which must be an object to be read. *)
Definition stage_params (stage_config : jdict) : result jdict :=
  match default (JObj []) (jget "params" stage_config) with
  | JObj d => Ok d
  | _ => Raise AttributeError "object has no attribute 'get'"
  end.

Definition _stage_output_rms (stage : string) (stage_config : jdict) (input_rms : float) : result (float * option float) :=
  if String.eqb stage "agc" then
    params ← stage_params stage_config;
    target_rms ← _positive_float (jget "target_rms" params) input_rms;
    max_gain ← _positive_float (jget "max_gain" params) (fz 1);
    noise_floor ← _positive_float (jget "noise_floor" params) fzero;
    if fleb input_rms fzero || fltb input_rms noise_floor then Ok (input_rms, Some (fz 1))
    else
      ratio ← fdiv target_rms input_rms;
      let gain := pymin ratio max_gain in
      Ok (fmul input_rms gain, Some gain)
  else if String.eqb stage "limiter" then
    params ← stage_params stage_config;
    ceiling ← _positive_float (jget "ceiling" params) (fz 1);
    Ok (pymin input_rms (fmul (fz 32767) ceiling), None)
  else Ok (input_rms, None).

(** [float(v)] of a value that is an [int | float]. *)
Definition json_float (v : json) : option (result float) :=
  match v with
  | JInt z => Some (float_of_int z)
  | JBool b => Some (Ok (fz (Z.b2z b)))
  | JFloat x => Some (Ok x)
  | _ => None
  end.

(** The first stage of that type, or an empty one. *)
Definition demo_stage_config (config : jdict) (stage_name : string) : result jdict :=
  media ← spec_get "media" config;
  pipeline ← json_get "pipeline" (JArr []) media;
  stages ← json_iter pipeline;
  Ok (default [] (head (omap (fun stage => match stage with
       | JObj d => if json_eqb (default JNull (jget "type" d)) (JStr stage_name) then Some d else None
       | _ => None
       end) stages))).

(** ** Tones *)

Section tones.
Context (sin : float -> result float) (log10 : float -> result float).

Definition _delta_db (input_rms output_rms : float) : result float :=
  if fleb input_rms fzero || fleb output_rms fzero then Ok fzero
  else q ← fdiv output_rms input_rms; l ← log10 q; Ok (fmul (fz 20) l).

(** [math.pi]. *)
Definition math_pi : float := flit 3141592653589793 1000000000000000.

(** [math.sin((2.0 * math.pi * frequency * index) / rate)]. *)
Definition tone_at (rate index : Z) : result float :=
  i ← float_of_int index;
  r ← float_of_int rate;
  angle ← fdiv (fmul (fmul (fmul (fz 2) math_pi) (fz 440)) i) r;
  sin angle.

(** One sample in every channel. *)
Definition sample8 (amplitude : float) (rate channels index : Z) : result bytes :=
  s ← tone_at rate index;
  value ← py_round (fadd (fz 128) (fmul amplitude s));
  Ok (repeat (byte_of (Z.min 255 (Z.max 0 value))) (Z.to_nat channels)).

Definition sample16 (amplitude : float) (rate channels index : Z) : result bytes :=
  s ← tone_at rate index;
  value ← py_round (fmul amplitude s);
  packed ← pack16 (Z.min 32767 (Z.max (-32768) value));
  Ok (concat (repeat packed (Z.to_nat channels))).

Definition _tone_frames (frame_count rate channels sample_width : Z) (rms : float) : result bytes :=
  root2 ← fsqrt (fz 2);
  if sample_width =? 1 then
    ratio ← fdiv rms (fz 32767);
    let amplitude := pymin (fz 127) (pymax fzero (fmul (fmul ratio (fz 127)) root2)) in
    samples ← mapM_res (sample8 amplitude rate channels) (seqZ 0 frame_count);
    Ok (concat samples)
  else
    let amplitude := pymin (fz 32767) (pymax fzero (fmul rms root2)) in
    samples ← mapM_res (sample16 amplitude rate channels) (seqZ 0 frame_count);
    Ok (concat samples).

(** The parameters of the file, before it is created. *)
Definition tone_parameters (audio_format : jdict) (rms : float) (duration_ms : Z) : result (Z * Z * Z * bytes) :=
  match jint (Some (first_truthy (jget "rate" audio_format) (jget "output_rate" audio_format))),
        jint (Some (default (JInt 1) (jget "channels" audio_format))) with
  | Some rate, Some channels =>
      seconds_ ← int_truediv duration_ms 1000;
      r ← float_of_int rate;
      frame_count ← py_round (fmul r seconds_);
      let sample_width := _sample_width (jget "encoding" audio_format) in
      frames ← _tone_frames frame_count rate channels sample_width rms;
      Ok (channels, sample_width, rate, frames)
  | _, _ => Raise ValueError ("stage audio format must include integer rate/channels: " +:+ str_json (JObj audio_format))
  end.

Definition _write_stage_tone_wav (root : string) (answer : put_outcome) (run_id stage : string) (audio_format : jdict)
    (rms : float) (duration_ms : Z) : st storage RecordingArtifact :=
  let path := local_path root run_id stage in
  p ← lift (tone_parameters audio_format rms duration_ms);
  let '(channels, sample_width, rate, frames) := p in
  _ ← put_file answer path (wave_file channels sample_width rate frames);
  duration ← lift (float_of_int duration_ms);
  mret (MkRecording stage (as_uri path) audio_format duration).

(** ** Metrics and events *)

Definition _stage_metrics (stage : string) (input_rms output_rms : float) (gain_applied : option float) (ts : instant)
    (ptime_ms : json) (stage_config : jdict) : result (list MetricArtifact) :=
  let point (name : string) (value : float) := MkMetric (Some stage) name value ts in
  delta_db ← _delta_db input_rms output_rms;
  isochronous ← json_contains "isochronous" (default (JArr []) (jget "invariants_applicable" stage_config));
  cadence ← (match (if (isochronous : bool) then json_float ptime_ms else None) with
             | Some ptime =>
                 ptime ← ptime;
                 Ok [point "frames_in" (fz 60); point "frames_out" (fz 60);
                     point "frame_cadence_jitter_ms" (flit 4 10); point "expected_frame_interval_ms" ptime]
             | None => Ok []
             end);
  Ok ([point "input_rms" input_rms; point "output_rms" output_rms; point "delta_db" delta_db]
      ++ match gain_applied with Some gain => [point "gain_applied" gain] | None => [] end
      ++ cadence).
End tones.

(** [started_at + timedelta(milliseconds=ms)]. *)
Definition after_ms (started_at : instant) (ms : Z) : result instant := dt_add started_at (ms * 1000).

Definition _sip_events (call : option string) (started_at : instant) : result (list SipEventResponse) :=
  mapM_res (fun x : string * string * option Z * Z * string =>
    let '(method, direction, status_code, ms, alias) := x in
    ts ← after_ms started_at ms; Ok (MkSipEvent call method direction status_code (Some alias) ts))
    [("INVITE", "in", None, 20, "local-softphone-invite"); ("100", "out", Some 100, 80, "asterisk-trying");
     ("200", "out", Some 200, 180, "local-bridge-answered"); ("ACK", "in", None, 230, "local-softphone-ack");
     ("BYE", "in", None, 1250, "simulated-call-ended")].

Definition _rtp_stats (started_at : instant) : result (list RtpStatResponse) :=
  mapM_res (fun x : Z * float * float * float =>
    let '(ms, jitter, loss, mos) := x in
    ts ← after_ms started_at ms; Ok (MkRtpStat ts (Some jitter) (Some loss) (Some mos) None None))
    [(260, flit 7 10, fzero, flit 44 10); (760, flit 12 10, fzero, flit 43 10);
     (1180, flit 15 10, flit 1 10, flit 42 10)].

(** Sequence number, RTP timestamp and arrival of the packets of a scenario. *)
Definition packet_points (scenario : string) : list (Z * Z * Z) :=
  if String.eqb scenario "clean" then [(1000, 0, 300); (1001, 160, 320); (1002, 320, 340); (1003, 480, 360)]
  else [(1000, 0, 300); (1001, 160, 320); (1003, 320, 340); (1004, 480, 500)].

Definition observer_event (id name : string) (ts : instant) (attributes : jdict) : TimelineEventArtifact :=
  MkTimelineEvent id "transport" name ts "control_plane_wall" (Some (flit 5 10)) (Some "received") None
    (Some "simulated-caller-audio") "simulated_rtp_packet_observer" (Some "simulated-caller-audio") attributes.

Definition packet_event (started_at : instant) (x : Z * (Z * Z * Z)) : result TimelineEventArtifact :=
  let '(ordinal, (sequence_number, rtp_timestamp, arrival_ms)) := x in
  ts ← after_ms started_at arrival_ms;
  Ok (observer_event ("rtp-packet:" +:+ pretty ordinal) "rtp.packet_arrived" ts
        [("sequence_number", JInt sequence_number); ("rtp_timestamp", JInt rtp_timestamp); ("payload_type", JInt 0);
         ("clock_rate_hz", JInt 8000); ("marker", JBool (ordinal =? 0))]).

Definition _rtp_packet_events (started_at : instant) (scenario : string) : result (list TimelineEventArtifact) :=
  packet_events ← mapM_res (packet_event started_at) (enumerate (packet_points scenario));
  ts ← after_ms started_at 520;
  Ok (packet_events ++
      [observer_event "rtp-capture-health:0" "rtp.capture_health_reported" ts
         [("observed_packet_count", JInt (len packet_events)); ("capture_drop_count", JInt 0); ("decode_error_count", JInt 0);
          ("capture_drop_counter_supported", JBool true); ("capture_point_continuity", JStr "verified");
          ("window_duration_ms", JInt 220)]]).

(** ** The bridge *)

Record LiveDemoBridgeResult := MkBridgeResult {
  lb_recordings : list RecordingArtifact; lb_metrics : list MetricArtifact; lb_sip_events : list SipEventResponse;
  lb_rtp_stats : list RtpStatResponse; lb_timeline_events : list TimelineEventArtifact }.

Section bridge.
Context (sin : float -> result float) (log10 : float -> result float) (root : string) (disk_answer : string -> put_outcome).

(** The loop over the plan, with the level and the time so far. *)
Fixpoint bridge_stages (run_id : string) (config : jdict) (duration_ms : Z) (rms : float) (ts : instant) (plan : list StagePlan)
    : st storage (list RecordingArtifact * list MetricArtifact) :=
  match plan with
  | [] => mret ([], [])
  | p :: plan' =>
      stage_config ← lift (demo_stage_config config (plan_stage p));
      out ← lift (_stage_output_rms (plan_stage p) stage_config rms);
      recording ← _write_stage_tone_wav sin root (disk_answer (plan_stage p)) run_id (plan_stage p) (plan_format p) out.1 duration_ms;
      transport ← lift (spec_get "transport" config);
      ptime_ms ← lift (json_get "ptime_ms" JNull transport);
      metrics ← lift (_stage_metrics log10 (plan_stage p) rms out.1 out.2 ts ptime_ms stage_config);
      ts' ← lift (after_ms ts 120);
      rest ← bridge_stages run_id config duration_ms out.1 ts' plan';
      mret (recording :: rest.1, metrics ++ rest.2)
  end.

Definition run_simulated_live_bridge (run_id : string) (call : option string) (config : jdict) (started_at now : instant)
    (input_rms : float) (duration_ms : Z) (scenario : string) : st storage LiveDemoBridgeResult :=
  plan ← lift (build_stage_plan config);
  staged ← bridge_stages run_id config duration_ms (pymax input_rms fzero) now plan;
  sip ← lift (_sip_events call started_at);
  rtp ← lift (_rtp_stats started_at);
  events ← lift (_rtp_packet_events started_at scenario);
  mret (MkBridgeResult staged.1 staged.2 sip rtp events).
End bridge.

(** ** The request *)

Record LiveDemoRunRequest := MkDemoRequest {
  dq_provider : string; dq_scenario : string; dq_call_id : option string; dq_dry_run : bool; dq_duration_ms : Z;
  dq_input_rms : float; dq_target_rms : option Z; dq_max_gain : option float; dq_noise_floor : option Z }.

Definition validate_demo_request (q : LiveDemoRunRequest) : result LiveDemoRunRequest :=
  _ ← literal_field ["gemini-live"; "openai-realtime"] "provider" (dq_provider q);
  _ ← literal_field ["clean"; "rtp-gap"] "scenario" (dq_scenario q);
  call ← validate_optional (dq_call_id q) "call_id";
  _ ← guard_else ((100 <=? dq_duration_ms q) && (dq_duration_ms q <=? 30000)) ValueError "duration_ms";
  _ ← guard_else (fltb fzero (dq_input_rms q) && fleb (dq_input_rms q) (fz 32000)) ValueError "input_rms";
  _ ← guard_else (match dq_target_rms q with Some z => 0 <? z | None => true end) ValueError "target_rms";
  _ ← guard_else (match dq_max_gain q with Some x => fltb fzero x | None => true end) ValueError "max_gain";
  _ ← guard_else (match dq_noise_floor q with Some z => 0 <=? z | None => true end) ValueError "noise_floor";
  Ok (MkDemoRequest (dq_provider q) (dq_scenario q) call (dq_dry_run q) (dq_duration_ms q) (dq_input_rms q)
        (dq_target_rms q) (dq_max_gain q) (dq_noise_floor q)).

Definition set_key (key : string) (value : option json) (d : jdict) : jdict :=
  match value with Some v => dict_set key v d | None => d end.

Definition override_params (q : LiveDemoRunRequest) (params : jdict) : jdict :=
  set_key "noise_floor" (JInt <$> dq_noise_floor q)
    (set_key "max_gain" (JFloat <$> dq_max_gain q) (set_key "target_rms" (JInt <$> dq_target_rms q) params)).

(** [stage.setdefault("params", {})] and the assignments to what it returns. *)
Definition override_stage (q : LiveDemoRunRequest) (stage : jdict) : jdict :=
  match jget "params" stage with
  | None => dict_set "params" (JObj (override_params q [])) stage
  | Some (JObj params) => dict_set "params" (JObj (override_params q params)) stage
  | Some _ => stage
  end.

(** Change the first gain control of a pipeline. *)
Fixpoint override_first (q : LiveDemoRunRequest) (stages : list json) : list json :=
  match stages with
  | [] => []
  | JObj d :: rest =>
      if json_eqb (default JNull (jget "type" d)) (JStr "agc") then JObj (override_stage q d) :: rest
      else JObj d :: override_first q rest
  | stage :: rest => stage :: override_first q rest
  end.

(** Replace the value reached through objects; a missing key stands for an
    object that is thrown away. *)
Fixpoint update_at (keys : list string) (f : json -> result json) (v : json) : result json :=
  match keys with
  | [] => f v
  | k :: keys' =>
      match v with
      | JObj d => match jget k d with
                  | Some w => w' ← update_at keys' f w; Ok (JObj (dict_set k w' d))
                  | None => Ok v
                  end
      | _ => Raise AttributeError "object has no attribute 'get'"
      end
  end.

Definition _apply_agc_overrides (config : jdict) (q : LiveDemoRunRequest) : result jdict :=
  changed ← update_at ["spec"; "media"; "pipeline"] (fun pipeline =>
    match pipeline with
    | JArr stages => Ok (JArr (override_first q stages))
    | JObj _ | JStr _ => Ok pipeline
    | _ => Raise TypeError "object is not iterable"
    end) (JObj config);
  match changed with JObj d => Ok d | _ => Raise TypeError "not an object" end.

Definition _provider_readiness (h : host) (q : LiveDemoRunRequest) : ProviderReadiness :=
  if String.eqb (dq_provider q) "openai-realtime" then openai_readiness h default_openai (dq_dry_run q)
  else gemini_readiness h default_gemini (dq_dry_run q).

(** ** The payload *)

Section payload.
(** [_load_json_file] of a file of the examples, by its name there. *)
Context (example_file : string -> result jdict).

Definition demo_config_path (provider : string) : string := "configs/live-demo-" +:+ provider +:+ ".json".
Definition demo_manifest_path (provider : string) : string := "manifests/provider/" +:+ provider +:+ ".json".
Definition LIVE_DEMO_PROCESSOR_MANIFEST_PATHS : list string :=
  ["manifests/engine/asterisk.json"; "manifests/processor/resampler.json"; "manifests/processor/agc.json";
   "manifests/processor/limiter.json"; "manifests/processor/serializer.json"].

Definition demo_note (r : ProviderReadiness) : string :=
  let note := "Simulated live bridge; provider network connection is not opened in this slice." in
  match pr_missing_optional_dependency r with
  | Some missing => if String.eqb missing "" then note else note +:+ " Optional dependency missing: " +:+ missing +:+ "."
  | None => note
  end.

Definition demo_environment (q : LiveDemoRunRequest) (r : ProviderReadiness) : RunEnvironmentMetadata :=
  MkEnvironment env_demo (Some "local-softphone-demo-host") (Some (dq_provider q +:+ "-live-api")) None
    (Some "live-demo-simulated-bridge") (Some (demo_note r)) [] ["live-demo"; "simulated-audio"; dq_provider q]
    (Some "live-softphone-demo-plan") [pr_env_var r].

Definition demo_checklist (q : LiveDemoRunRequest) (r : ProviderReadiness) : list ReadinessChecklistItem :=
  [MkReadinessItem "ai_phone_setup_complete" "AI phone setup complete" ready_unknown
     (Some "Configure macOS softphone and Asterisk before real RTP bridge.");
   MkReadinessItem "intermediate_db_environment_registration_complete"
     "Intermediate DB/environment registration complete" ready_pass None;
   MkReadinessItem "connection_route_verified" "Connection route verified" ready_unknown
     (Some "Structured SIP/RTP events are simulated in this slice.");
   MkReadinessItem "expected_codec_sample_rate_cadence_declared" "Expected codec/sample rate/cadence declared" ready_pass None;
   MkReadinessItem "recording_taps_enabled" "Recording taps enabled" ready_pass None;
   MkReadinessItem "host_metrics_enabled" "Host metrics enabled" ready_unknown None;
   MkReadinessItem "secret_references_present" "Secret references present"
     (if dq_dry_run q || pr_has_api_key r then ready_pass else ready_fail)
     (Some ("Uses env var alias " +:+ pr_env_var r +:+ "; value is not stored."))].

Definition _live_demo_run_payload (h : host) (q : LiveDemoRunRequest) : result RunCreateRequest :=
  config ← example_file (demo_config_path (dq_provider q));
  config ← _apply_agc_overrides config q;
  let readiness := _provider_readiness h q in
  name ← text_at ["meta"; "name"] (JObj config);
  provider_manifest ← example_file (demo_manifest_path (dq_provider q));
  processors ← mapM_res example_file LIVE_DEMO_PROCESSOR_MANIFEST_PATHS;
  environment ← validate_environment (demo_environment q readiness);
  checklist ← mapM_res validate_item (demo_checklist q readiness);
  _ ← require_unique_checklist_items checklist;
  Ok (MkCreate name [config] (provider_manifest :: processors) (dq_call_id q) environment checklist).
End payload.

(** ** The handler *)

Definition demo_failed (now : instant) (run : StoredRun) : StoredRun :=
  MkStoredRun (run_id run) (config_hash run) (call_id run) (conversation_id run) (provider run)
    (engine run) "failed" (started_at run) (Some now) (resolved_config run) (recordings run)
    (spans run) (metrics run) (Some "simulated-live-bridge-error") (verifications run) (sip_events run)
    (rtp_stats run) (timeline_events run) (environment run) (readiness_checklist run).

(** What the bridge reports, and then the verdicts and the end. *)
Definition demo_bridged (b : LiveDemoBridgeResult) (run : StoredRun) : StoredRun :=
  MkStoredRun (run_id run) (config_hash run) (call_id run) ("simulated-" +:+ run_id run) (provider run)
    (engine run) (status run) (started_at run) (ended_at run) (resolved_config run) (lb_recordings b)
    (spans run) (lb_metrics b) (failure_alias run) (verifications run) (lb_sip_events b)
    (lb_rtp_stats b) (lb_timeline_events b) (environment run) (readiness_checklist run).

Record demo_env (F : Type) := MkDemoEnv { demo_accept : call_env F; demo_save : F; demo_ended : instant; demo_now : instant }.
Arguments MkDemoEnv {F}. Arguments demo_accept {F}. Arguments demo_save {F}. Arguments demo_ended {F}. Arguments demo_now {F}.

Section handler.
Context {R F : Type} `{RunStore R F}.
Context (sin : float -> result float) (log10 : float -> result float) (root : string) (disk_answer : string -> put_outcome)
  (open_wav : storage -> string -> result wav_file) (resolve_request : RunCreateRequest -> result ResolvedConfig)
  (example_file : string -> result jdict) (h : host).

(** The request up to the stored run. *)
Definition accept_demo (e : demo_env F) (q : LiveDemoRunRequest) : st (exec_state R storage) StoredRun :=
  let readiness := _provider_readiness h q in
  if negb (dq_dry_run q) && negb (ready readiness)
  then lift (http_error 400 (dq_provider q +:+ " is not ready for a non-dry-run demo; set the API key env var and install optional provider deps"))
  else
    r ← lift (_live_demo_run_payload example_file h q);
    resolved_ ← lift (_resolve_run_request resolve_request r);
    run ← lift (_create_running_run (demo_accept e) r resolved_);
    _ ← on_runs (commit (on_save (demo_accept e)) run);
    mret run.

Definition run_demo (e : demo_env F) (q : LiveDemoRunRequest) (run : StoredRun) : st storage LiveDemoBridgeResult :=
  run_simulated_live_bridge sin log10 root disk_answer (run_id run) (call_id run) (resolved_config run) (started_at run)
    (demo_now e) (dq_input_rms q) (dq_duration_ms q) (dq_scenario q).

Definition finish_demo (e : demo_env F) (b : LiveDemoBridgeResult) (run : StoredRun) : st (exec_state R storage) RunResponse :=
  run ← assign (demo_bridged b run);
  s ← get_state;
  v ← lift (verify_recordings (open_wav (exec_storage s)) log10 default_tolerances (resolved_config run) (recordings run) (metrics run));
  run ← assign (completed_run v (demo_ended e) run);
  _ ← on_runs (commit (demo_save e) run);
  mret (to_response run).

Definition create_simulated_live_demo_run (e : demo_env F) (q : LiveDemoRunRequest) : st (exec_state R storage) RunResponse :=
  run ← accept_demo e q;
  bridged ← attempt (run_demo e q run);
  match bridged with
  | Raise c m =>
      run ← assign (demo_failed (demo_ended e) run);
      _ ← on_runs (commit (demo_save e) run);
      lift (Raise c m)
  | Ok b => finish_demo e b run
  end.
End handler.

(** ** The packets of a scenario *)

Definition demo_packets_run (started_at : instant) (events : list TimelineEventArtifact) : StoredRun :=
  MkStoredRun "demo" "hash" None "" "" "" "completed" started_at None [] [] [] [] None [] [] [] events
    (MkEnvironment env_demo None None None None None [] [] None []) [].

(** The kind of a discontinuity, its two packets, the missing ones and the
    continuity of the capture. *)
Definition gap_summary (d : _RtpPacketDiscontinuityEvidence) : discontinuity_kind * Z * Z * Z * option capture_continuity :=
  (di_kind d, po_sequence_number (di_previous d), po_sequence_number (di_current d), di_missing_packet_count d,
   continuity <$> di_capture_health d).

Definition gaps_of (run : StoredRun) : result (list (discontinuity_kind * Z * Z * Z * option capture_continuity)) :=
  ds ← _rtp_packet_discontinuity_evidence run; Ok (map gap_summary ds).

Example gaps_now : (events ← _rtp_packet_events 1700000000000000 "rtp-gap"; gaps_of (demo_packets_run 1700000000000000 events))
  = Ok [(sequence_gap, 1001, 1003, 1, Some verified); (arrival_stall, 1003, 1004, 0, Some verified)]
  /\ (events ← _rtp_packet_events 1700000000000000 "clean"; gaps_of (demo_packets_run 1700000000000000 events)) = Ok [].
Proof. vm_compute. split; reflexivity. Qed.

(** Offsets from the start of a run do not depend on the start. *)
Lemma rel_ms_offset run d : rel_ms run (started_at run + d) = fmul (pymax fzero (total_seconds d)) (fz 1000).
Proof. unfold rel_ms, _relative_seconds. by rewrite Z.add_simpl_l. Qed.

Lemma after_ms_ok started ms ts : after_ms started ms = Ok ts -> ts = started + ms * 1000.
Proof. unfold after_ms, dt_add, dt_checked. destruct (dt_in_range _); congruence. Qed.

Definition packet_at (started : instant) (ordinal seq stamp ms : Z) : TimelineEventArtifact :=
  observer_event ("rtp-packet:" +:+ pretty ordinal) "rtp.packet_arrived" (started + ms * 1000)
    [("sequence_number", JInt seq); ("rtp_timestamp", JInt stamp); ("payload_type", JInt 0);
     ("clock_rate_hz", JInt 8000); ("marker", JBool (ordinal =? 0))].

Definition health_at (started : instant) (packets ms : Z) : TimelineEventArtifact :=
  observer_event "rtp-capture-health:0" "rtp.capture_health_reported" (started + ms * 1000)
    [("observed_packet_count", JInt packets); ("capture_drop_count", JInt 0); ("decode_error_count", JInt 0);
     ("capture_drop_counter_supported", JBool true); ("capture_point_continuity", JStr "verified");
     ("window_duration_ms", JInt 220)].

Lemma packet_event_ok started ordinal seq stamp ms e : packet_event started (ordinal, (seq, stamp, ms)) = Ok e ->
  e = packet_at started ordinal seq stamp ms.
Proof. unfold packet_event. intros (ts & ->%after_ms_ok & [= <-])%bind_ok_inv. done. Qed.

Lemma scenario_events started scenario events : _rtp_packet_events started scenario = Ok events ->
  events = map (fun x : Z * (Z * Z * Z) => packet_at started x.1 x.2.1.1 x.2.1.2 x.2.2) (enumerate (packet_points scenario))
           ++ [health_at started 4 520].
Proof.
  unfold _rtp_packet_events. intros (packets & Hp%mapM_res_ok & H)%bind_ok_inv.
  apply bind_ok_inv in H as (ts & ->%after_ms_ok & [= <-]).
  assert (packets = map (fun x : Z * (Z * Z * Z) => packet_at started x.1 x.2.1.1 x.2.1.2 x.2.2) (enumerate (packet_points scenario))) as ->.
  { induction Hp as [|[o [[q p] m]] e l packets He _ IH]; [done|]. cbn [map fst snd]. by rewrite <- IH, (packet_event_ok _ _ _ _ _ _ He). }
  f_equal. unfold health_at, len. rewrite length_map. unfold packet_points. by destruct (String.eqb scenario "clean").
Qed.

(** The packets as the analysis reads them. *)
Definition read_packet (started : instant) (x : Z * (Z * Z * Z)) : _RtpPacketObservationEvidence :=
  let '(ordinal, (seq, stamp, ms)) := x in
  MkPacketObservation (packet_at started ordinal seq stamp ms) ordinal "received" "simulated-caller-audio"
    (pymax fzero (fmul (pymax fzero (total_seconds (ms * 1000))) (fz 1000))) seq stamp 0 8000 (ordinal =? 0).

Lemma int_attribute d name lo hi z : jget name d = Some (JInt z) -> (lo <=? z) && (z <=? hi) = true ->
  _bounded_int_attribute d name lo hi = Some z.
Proof. unfold _bounded_int_attribute. by intros -> ->. Qed.

Lemma packet_of_at run ordinal seq stamp ms : (0 <=? seq) && (seq <=? 65535) = true -> (0 <=? stamp) && (stamp <=? 4294967295) = true ->
  packet_of run (ordinal, packet_at (started_at run) ordinal seq stamp ms) = Some (read_packet (started_at run) (ordinal, (seq, stamp, ms))).
Proof.
  intros Hs Ht. unfold packet_of.
  assert (stream_event "rtp.packet_arrived" (packet_at (started_at run) ordinal seq stamp ms)
          = Some ("simulated-caller-audio", "received")) as -> by reflexivity.
  set (d := ev_attributes _).
  rewrite (int_attribute d "sequence_number" 0 65535 seq eq_refl Hs), (int_attribute d "rtp_timestamp" 0 4294967295 stamp eq_refl Ht),
    (int_attribute d "payload_type" 0 127 0 eq_refl eq_refl), (int_attribute d "clock_rate_hz" 1 384000 8000 eq_refl eq_refl).
  assert (bool_attribute d "marker" = Some (ordinal =? 0)) as -> by reflexivity.
  unfold read_packet. by rewrite <- (rel_ms_offset run).
Qed.

(** The report of the capture as the analysis reads it. *)
Definition read_health (started : instant) : _RtpCaptureHealthEvidence :=
  let end_ms := pymax fzero (fmul (pymax fzero (total_seconds (520 * 1000))) (fz 1000)) in
  MkCaptureHealth (health_at started 4 520) 4 "received" "simulated-caller-audio" (pymax fzero (fsub end_ms (fz 220))) end_ms 4 0 0 true.

Lemma health_of_at run : health_of run (4, health_at (started_at run) 4 520) = Ok (Some (read_health (started_at run))).
Proof.
  unfold health_of.
  assert (stream_event "rtp.capture_health_reported" (health_at (started_at run) 4 520)
          = Some ("simulated-caller-audio", "received")) as -> by reflexivity.
  set (d := ev_attributes _).
  assert (_numeric_attribute d "window_duration_ms" = Ok (Some (fz 220))) as -> by (vm_compute; reflexivity). cbn [mbind result_bind].
  unfold count_attribute.
  rewrite (int_attribute d "observed_packet_count" 0 1000000000 4 eq_refl eq_refl), (int_attribute d "capture_drop_count" 0 1000000000 0 eq_refl eq_refl),
    (int_attribute d "decode_error_count" 0 1000000000 0 eq_refl eq_refl).
  assert (bool_attribute d "capture_drop_counter_supported" = Some true) as -> by reflexivity.
  assert (fltb (fz 220) fzero = false) as -> by reflexivity. unfold read_health. by rewrite <- (rel_ms_offset run).
Qed.

Definition scenario_gaps (scenario : string) : list (discontinuity_kind * Z * Z * Z * option capture_continuity) :=
  if String.eqb scenario "clean" then []
  else [(sequence_gap, 1001, 1003, 1, Some verified); (arrival_stall, 1003, 1004, 0, Some verified)].

Theorem simulated_gap_is_detected run scenario events :
  _rtp_packet_events (started_at run) scenario = Ok events -> timeline_events run = events ->
  gaps_of run = Ok (scenario_gaps scenario).
Proof.
  intros Hev%scenario_events Hrun. rewrite Hev in Hrun. clear Hev.
  unfold gaps_of, _rtp_packet_discontinuity_evidence, _rtp_capture_health_reports, packet_pairs, _rtp_packet_observations. rewrite Hrun.
  assert (mapM_res (health_of run) (enumerate (map (fun x : Z * (Z * Z * Z) => packet_at (started_at run) x.1 x.2.1.1 x.2.1.2 x.2.2)
     (enumerate (packet_points scenario)) ++ [health_at (started_at run) 4 520]))
     = Ok [None; None; None; None; Some (read_health (started_at run))]) as ->.
  { unfold packet_points. destruct (String.eqb scenario "clean"); cbn [enumerate_from map fst snd app mapM_res];
      rewrite health_of_at; reflexivity. }
  assert (omap (packet_of run) (enumerate (map (fun x : Z * (Z * Z * Z) => packet_at (started_at run) x.1 x.2.1.1 x.2.1.2 x.2.2)
     (enumerate (packet_points scenario)) ++ [health_at (started_at run) 4 520]))
     = map (read_packet (started_at run)) (enumerate (packet_points scenario))) as ->.
  { unfold packet_points. destruct (String.eqb scenario "clean"); cbn [enumerate_from map fst snd app omap list_omap];
      rewrite !packet_of_at by reflexivity; reflexivity. }
  unfold scenario_gaps, packet_points. destruct (String.eqb scenario "clean"); vm_compute; reflexivity.
Qed.

(** ** The handler stores what its scenario shows *)

Section stored.
Context {R F : Type} `{RunStoreLaws R F}.
Context (sin : float -> result float) (log10 : float -> result float) (root : string) (disk_answer : string -> put_outcome)
  (open_wav : storage -> string -> result wav_file) (resolve_request : RunCreateRequest -> result ResolvedConfig)
  (example_file : string -> result jdict) (h : host).

Lemma on_runs_ok {A} (m : st R A) (s : exec_state R storage) a s' : on_runs m s = (Ok a, s') ->
  m (exec_runs s) = (Ok a, exec_runs s') /\ exec_storage s' = exec_storage s.
Proof. unfold on_runs. destruct (m (exec_runs s)) as [r runs]. by intros [= -> <-]. Qed.

Lemma commit_first f run (s : R) x s' : store_ok s -> validated run -> commit f run s = (Ok x, s') ->
  exists k, keyed k run /\ kept k [run] s s'.
Proof.
  intros Hok Hv Hc. destruct (commit_spec f run s _ s' Hok Hv Hc) as [[_ [=]]|(_ & Hok' & k & Hk & (v & Hview & Hsame) & Ho)].
  exists k. split; [done|]. constructor; [done| |done]. exists v, run. split_and!; [done|by left|done].
Qed.

Lemma payload_validated q r : _live_demo_run_payload example_file h q = Ok r ->
  (exists given, validate_environment given = Ok (rc_environment r)) /\ (exists items, mapM_res validate_item items = Ok (rc_checklist r))
  /\ rc_call_id r = dq_call_id q.
Proof. unfold _live_demo_run_payload. intros Hp. simpl_res. split_and!; eauto. Qed.

Lemma accept_demo_ok e q (s : exec_state R storage) run s' : store_ok (exec_runs s) ->
  accept_demo resolve_request example_file h e q s = (Ok run, s') ->
  exists k, keyed k run /\ kept k [run] (exec_runs s) (exec_runs s') /\ exec_storage s' = exec_storage s
    /\ failure_alias run = None /\ (dq_dry_run q = true \/ ready (_provider_readiness h q) = true).
Proof.
  intros Hok. unfold accept_demo. destruct (negb (dq_dry_run q) && negb (ready (_provider_readiness h q))) eqn:Hr; [done|].
  intros Ha. apply st_bind_ok in Ha as (r & ? & [Hp ->]%lift_ok & Ha). apply st_bind_ok in Ha as (res & ? & [_ ->]%lift_ok & Ha).
  apply st_bind_ok in Ha as (run' & ? & [Hc ->]%lift_ok & Ha). apply st_bind_ok in Ha as (x & s1 & [Hx Hst]%on_runs_ok & [= -> ->]).
  apply payload_validated in Hp as (Henv & Hitems & _). destruct (running_run_fields _ _ _ _ Hc) as (_ & He & Hl).
  assert (validated run) as Hv by (unfold validated; by rewrite He, Hl).
  destruct (commit_first _ _ _ _ _ Hok Hv Hx) as (k & Hk & Hkept). exists k. split_and!; try done.
  - unfold _create_running_run in Hc. by simpl_res.
  - destruct (dq_dry_run q); [by left|]. right. by destruct (ready _).
Qed.

Lemma bridge_events sin' log10' root' answers run_id config call started now rms duration scenario (s : storage) b s' :
  run_simulated_live_bridge sin' log10' root' answers run_id call config started now rms duration scenario s = (Ok b, s') ->
  _rtp_packet_events started scenario = Ok (lb_timeline_events b) /\ len (lb_sip_events b) = 5 /\ len (lb_rtp_stats b) = 3.
Proof.
  unfold run_simulated_live_bridge. intros Hb. apply st_bind_ok in Hb as (plan & ? & [_ ->]%lift_ok & Hb).
  apply st_bind_ok in Hb as (staged & s1 & _ & Hb). apply st_bind_ok in Hb as (sip & ? & [Hs%mapM_res_ok ->]%lift_ok & Hb).
  apply st_bind_ok in Hb as (rtp & ? & [Hr%mapM_res_ok ->]%lift_ok & Hb). apply st_bind_ok in Hb as (ev & ? & [He ->]%lift_ok & [= <- _]).
  split; [done|]. unfold len. cbn [lb_sip_events lb_rtp_stats].
  by rewrite <- (Forall2_length _ _ _ Hs), <- (Forall2_length _ _ _ Hr).
Qed.

Lemma finish_demo_ok e b run k s0 (s : exec_state R storage) resp s' : keyed k run -> kept k [run] s0 (exec_runs s) ->
  finish_demo log10 open_wav e b run s = (Ok resp, s') ->
  exists v, let final := completed_run v (demo_ended e) (demo_bridged b run) in
    resp = to_response final /\ kept k [final] s0 (exec_runs s') /\ exec_storage s' = exec_storage s.
Proof.
  intros Hk Hkept Hf. unfold finish_demo in Hf.
  destruct (assign_kept k (demo_bridged b run) [run] s0 s) as (runs1 & E1 & K1); [by eapply keyed_same, Hk|done|].
  rewrite (st_bind_eq _ _ _ _ _ E1), (st_bind_eq get_state _ _ _ _ eq_refl) in Hf.
  apply st_bind_ok in Hf as (v & ? & [_ ->]%lift_ok & Hf). exists v. cbv zeta.
  set (final := completed_run v (demo_ended e) (demo_bridged b run)) in *.
  assert (keyed k final) as Hkf by by eapply keyed_same, Hk.
  destruct (assign_kept k final (demo_bridged b run :: [run]) s0 (MkExec runs1 (exec_storage s))) as (runs2 & E2 & K2); [done..|].
  rewrite (st_bind_eq _ _ _ _ _ E2) in Hf. apply st_bind_ok in Hf as ([] & s2 & [Hc Hst]%on_runs_ok & [= <- <-]).
  split; [done|]. split; [|done]. cbn [exec_runs] in Hc.
  destruct (commit_kept _ _ _ _ _ _ _ _ Hkf K2 Hc) as [[[=] _]|[_ K3]]. done.
Qed.
End stored.

(** C38. When the handler of the simulated demo answers, the demo was a dry run
    or its provider was ready; the answer and the stored run are the completed
    run, and its timeline shows exactly the faults of the scenario to the
    packet analysis, whenever it started: none for the clean one, and for the
    other one lost packet between 1001 and 1003 followed by one stalled
    arrival, both with a verified capture.  No other run is touched. *)
Theorem simulated_run_shows_its_scenario {R F} `{RunStoreLaws R F} sin log10 root disk_answer open_wav resolve_request
    example_file h (e : demo_env F) q (s s' : exec_state R storage) resp :
  store_ok (exec_runs s) ->
  create_simulated_live_demo_run sin log10 root disk_answer open_wav resolve_request example_file h e q s = (Ok resp, s') ->
  (dq_dry_run q = true \/ ready (_provider_readiness h q) = true)
  /\ store_ok (exec_runs s')
  /\ exists k final stored,
       resp = to_response final /\ status final = "completed" /\ ended_at final = Some (demo_ended e) /\ failure_alias final = None
       /\ view (exec_runs s') k = Some stored /\ same_run stored final
       /\ (forall k', k' <> k -> view (exec_runs s') k' = view (exec_runs s) k')
       /\ gaps_of final = Ok (scenario_gaps (dq_scenario q))
       /\ len (sip_events final) = 5 /\ len (rtp_stats final) = 3.
Proof.
  intros Hok Hc. unfold create_simulated_live_demo_run in Hc.
  apply st_bind_ok in Hc as (run & s1 & Ha & Hc). apply accept_demo_ok in Ha as (k & Hk & Hkept & _ & Hnone & Hready); [|done].
  apply st_bind_ok in Hc as (bridged & s2 & Hb & Hc). unfold attempt in Hb.
  destruct (run_demo sin log10 root disk_answer e q run (exec_storage s1)) as [rb st2] eqn:Eb. injection Hb as <- <-.
  destruct rb as [b|c m].
  2: { exfalso. apply st_bind_ok in Hc as (run' & s3 & _ & Hc). by apply st_bind_ok in Hc as (? & s4 & _ & [=]). }
  apply bridge_events in Eb as (Hev & Hsip & Hrtp).
  eapply finish_demo_ok in Hc as (v & -> & [Hok' (stored & w & Hv & ->%list_elem_of_singleton & Hsame) Ho] & _); [|exact Hk|exact Hkept].
  split; [done|]. split; [done|]. eexists k, _, stored. split_and!; try done.
  by eapply simulated_gap_is_detected.
Qed.

(** ** A demo through the in-memory repository *)

Definition demo_config : jdict :=
  [("meta", JObj [("name", JStr "live-demo")]);
   ("spec", JObj [("ai", JObj [("provider", JStr "gemini-live")]); ("engine", JObj [("kind", JStr "asterisk")]);
     ("transport", JObj [("ptime_ms", JInt 20)]);
     ("media", JObj [("pipeline", JArr
        [JObj [("type", JStr "agc"); ("plugin", JStr "agc-basic"); ("invariants_applicable", JArr [JStr "isochronous"]);
               ("params", JObj [("rate", JInt 100); ("target_rms", JInt 5000); ("max_gain", JInt 4)])]])])])].

Definition demo_files (name : string) : result jdict := if String.eqb name "configs/live-demo-gemini-live.json" then Ok demo_config else Ok [].
Definition demo_host : host := MkHost (fun _ => None) (fun _ => Ok false).
Definition demo_request : LiveDemoRunRequest := MkDemoRequest "gemini-live" "rtp-gap" (Some "call-1") true 100 (fz 2600) None None None.
Definition demo_environment_ : demo_env unit := MkDemoEnv demo_call tt 9000 2000.
Definition quiet_sine (x : float) : result float := Ok fzero.
Definition demo_resolve (r : RunCreateRequest) : result ResolvedConfig := Ok (MkResolved "demo" (default [] (head (configs r))) "hash").
Definition demo_open (s : storage) (uri : string) : result wav_file := Raise OSError "no such file".

Definition demo_created_run : result RunResponse * exec_state InMemory.store storage :=
  create_simulated_live_demo_run quiet_sine (fun x => Ok x) "/var/voxbench" quiet_disk demo_open demo_resolve demo_files demo_host
    demo_environment_ demo_request sample_state.

Definition demo_response : RunResponse :=
  match demo_created_run.1 with Ok r => r | Raise _ _ => to_response sample_start end.

Lemma demo_created_run_ok : create_simulated_live_demo_run quiet_sine (fun x => Ok x) "/var/voxbench" quiet_disk demo_open demo_resolve
    demo_files demo_host demo_environment_ demo_request sample_state = (Ok demo_response, demo_created_run.2).
Proof. vm_compute. reflexivity. Qed.

Example demo_outcome : (resp_status demo_response, map rec_uri (resp_recordings demo_response),
    map (fun v => (ver_invariant v, ver_passed v)) (resp_verifications demo_response))
  = ("completed", ["file:///var/voxbench/00000000-0000-0000-0000-000000000007/agc.wav"], [("isochronous", true)]).
Proof. vm_compute. reflexivity. Qed.

Lemma simulated_run_shows_its_scenario_witness : exists final : StoredRun,
  demo_response = to_response final /\ gaps_of final = Ok (scenario_gaps "rtp-gap").
Proof.
  destruct (simulated_run_shows_its_scenario quiet_sine (fun x => Ok x) "/var/voxbench" quiet_disk demo_open demo_resolve demo_files
    demo_host demo_environment_ demo_request sample_state demo_created_run.2 demo_response sample_state_ok demo_created_run_ok)
    as (_ & _ & k & final & stored & Hr & _ & _ & _ & _ & _ & _ & Hg & _).
  exists final. exact (conj Hr Hg).
Defined.
