(* ===== verification/ProcessConfig.v ===== *)
(** * Process configuration

    [control_plane/storage_config.py], [control_plane/repository_config.py] and
    the factories of [control_plane/app.py]: the services a process is started
    with, from its environment variables only.  The environment is a dictionary
    of texts; what the client library, the database driver and the probing
    threads answer are arguments. *)
From S2P Require Import Prelude Effects Collections PyFloat PyData Bytes RtpEvidence Json Registry AudioSession SignalChecks RecordingStorage.

Open Scope Z_scope.

Abbreviation environment_variables := (list (string * string)).

(** ** Recording storage *)

Definition RECORDING_SINK_ENV : string := "VOXBENCH_RECORDING_SINK".
Definition MINIO_ENDPOINT_ENV : string := "VOXBENCH_MINIO_ENDPOINT".
Definition MINIO_ACCESS_KEY_ENV : string := "VOXBENCH_MINIO_ACCESS_KEY".
Definition MINIO_SECRET_KEY_ENV : string := "VOXBENCH_MINIO_SECRET_KEY".
Definition MINIO_BUCKET_ENV : string := "VOXBENCH_MINIO_BUCKET".
Definition MINIO_PREFIX_ENV : string := "VOXBENCH_MINIO_PREFIX".
Definition MINIO_SECURE_ENV : string := "VOXBENCH_MINIO_SECURE".
Definition MINIO_PROBE_BUCKET_ENV : string := "VOXBENCH_MINIO_PROBE_BUCKET".
Definition MINIO_PROBE_TIMEOUT_MS_ENV : string := "VOXBENCH_MINIO_PROBE_TIMEOUT_MS".
Definition MINIO_IO_TIMEOUT_MS_ENV : string := "VOXBENCH_MINIO_IO_TIMEOUT_MS".
Definition REMOTE_AUDIO_PROXY_ENV : string := "VOXBENCH_REMOTE_AUDIO_PROXY".
Definition REMOTE_AUDIO_BEARER_TOKEN_ENV : string := "VOXBENCH_REMOTE_AUDIO_BEARER_TOKEN".
Definition REMOTE_AUDIO_MAX_BYTES_ENV : string := "VOXBENCH_REMOTE_AUDIO_MAX_BYTES".
Definition REMOTE_AUDIO_MAX_CONCURRENT_ENV : string := "VOXBENCH_REMOTE_AUDIO_MAX_CONCURRENT".

Definition _MAX_REMOTE_AUDIO_INFLIGHT_BYTES : Z := 128 * 1024 * 1024.

Definition _REQUIRED_MINIO_ENV_NAMES : list string :=
  [MINIO_ENDPOINT_ENV; MINIO_ACCESS_KEY_ENV; MINIO_SECRET_KEY_ENV; MINIO_BUCKET_ENV].

Inductive StorageMode := storage_local | storage_minio | storage_injected.
Inductive ReadinessState := state_ready | state_configured | state_unavailable.

Record StorageReadiness := MkStorageReadiness {
  sr_mode : StorageMode; sr_state : ReadinessState; sr_bucket_alias : option string; sr_prefix_alias : option string;
  sr_secure : option bool; sr_reason_alias : option string; sr_remote_audio_proxy_enabled : bool }.

Definition local_storage_readiness : StorageReadiness := MkStorageReadiness storage_local state_ready None None None None false.
Definition injected_storage_readiness : StorageReadiness :=
  MkStorageReadiness storage_injected state_configured None None None (Some "connectivity-not-checked") false.

Record RecordingStorageRuntime := MkStorageRuntime {
  recording_sink : option MinioRecordingSink; storage_readiness : StorageReadiness;
  remote_recording_reader : option MinioRecordingReader; remote_audio_access_token : option string }.

(** [message (a, b)] when names are missing. *)
Definition with_missing (message : string) (missing : list string) : string :=
  match missing with [] => message | _ => message +:+ " (" +:+ comma_list missing +:+ ")" end.

Definition storage_error {A} (reason_alias : string) (missing : list string) : result A :=
  Raise StorageConfigurationError (with_missing ("recording storage configuration failed: " +:+ reason_alias) missing).

(** The parsers of a component, by the error they raise. *)
Section parsers.
Context (configuration_error : forall A, string -> result A).

Definition parse_boolean (value reason_alias : string) : result bool :=
  let normalized := lower (strip value) in
  if String.eqb normalized "true" then Ok true
  else if String.eqb normalized "false" then Ok false
  else configuration_error bool reason_alias.

Definition parse_bounded_integer (value : string) (minimum maximum : Z) (reason_alias : string) : result Z :=
  let normalized := strip value in
  if negb (isdigit normalized) then configuration_error Z reason_alias
  else
    parsed ← int_of_digits normalized;
    if negb ((minimum <=? parsed) && (parsed <=? maximum)) then configuration_error Z reason_alias else Ok parsed.
End parsers.

Definition storage_boolean : string -> string -> result bool := parse_boolean (fun A reason => storage_error reason []).
Definition storage_integer : string -> Z -> Z -> string -> result Z := parse_bounded_integer (fun A reason => storage_error reason []).

Definition _parse_probe_timeout_ms (value : string) : result Z := storage_integer value 10 10000 "minio-probe-timeout-invalid".

(** The three conditions of a token. *)
Definition safe_token (token : string) : bool :=
  (32 <=? strlen token) && (strlen token <=? 256) && is_ascii token && negb (existsb is_space (chars token)).

Definition _validate_remote_audio_token (token : string) : result unit :=
  if safe_token token then Ok tt else storage_error "remote-audio-token-invalid" [].

(** [_ENDPOINT_HOST.fullmatch]. *)
Definition endpoint_host (host : string) : bool :=
  match chars host with
  | [] => false
  | first :: rest =>
      is_ascii_alnum first
      && match last rest with
         | None => true
         | Some final => is_ascii_alnum final && forallb (fun c => is_ascii_alnum c || char_in ["."; "-"]%char c) rest
         end
  end.

Definition _validate_endpoint (endpoint : string) : result unit :=
  let invalid := storage_error "minio-endpoint-invalid" [] in
  let parts := split_char ":" (chars endpoint) in
  if String.eqb endpoint "" || contains endpoint "://" || contains endpoint "/" || contains endpoint "@"
     || existsb is_space (chars endpoint) || (2 <? len parts)
  then invalid
  else
    let '(host, port) := match parts with
                         | [host; port] => (str host, Some (str port))
                         | _ => (endpoint, None)
                         end in
    if negb (endpoint_host host) || contains host ".." then invalid
    else match port with
         | None => Ok tt
         | Some port_text =>
             if negb (isdigit port_text) then invalid
             else n ← int_of_digits port_text; if (1 <=? n) && (n <=? 65535) then Ok tt else invalid
         end.

(** Constructing the client: made, a configuration error (a missing library),
    or another exception. *)
Inductive client_answer := ClientMade | ClientConfigurationError (reason_alias : string) | ClientFails.

(** The probing thread: still alive at the end of the wait, an exception, or
    an answer; it may also have died without one. *)
Inductive probe_answer (A : Type) := ProbeTimeout | ProbeRaises | ProbeAnswers (a : A) | ProbeEmpty.
Arguments ProbeTimeout {A}. Arguments ProbeRaises {A}. Arguments ProbeAnswers {A}. Arguments ProbeEmpty {A}.

Definition _probe_minio_bucket (answer : probe_answer bool) : ReadinessState * option string :=
  match answer with
  | ProbeTimeout => (state_unavailable, Some "bucket-probe-timeout")
  | ProbeAnswers true => (state_ready, None)
  | ProbeAnswers false => (state_unavailable, Some "bucket-not-found")
  | ProbeRaises | ProbeEmpty => (state_unavailable, Some "bucket-probe-failed")
  end.

(** [except ValueError]. *)
Definition make_configured_sink (bucket prefix : string) : result MinioRecordingSink :=
  match make_minio_sink bucket prefix with
  | Raise ValueError _ => storage_error "minio-object-config-invalid" []
  | r => r
  end.

Definition env_text (values : environment_variables) (name dflt : string) : string := dict_get_default name dflt values.

(** Names without a value that is not blank. *)
Definition missing_minio_names (values : environment_variables) : list string :=
  filterb (fun name => String.eqb (strip (env_text values name "")) "") _REQUIRED_MINIO_ENV_NAMES.

(** The token of an enabled proxy, and the memory its reads may take. *)
Definition proxy_token (values : environment_variables) (remote_audio_proxy : bool) (max_bytes max_concurrent : Z) : result (option string) :=
  if remote_audio_proxy then
    match dict_get REMOTE_AUDIO_BEARER_TOKEN_ENV values with
    | None => storage_error "remote-audio-token-missing" []
    | Some token =>
        _ ← _validate_remote_audio_token token;
        if _MAX_REMOTE_AUDIO_INFLIGHT_BYTES <? max_bytes * max_concurrent
        then storage_error "remote-audio-capacity-invalid" [] else Ok (Some token)
    end
  else Ok None.

Definition make_client (answer : client_answer) : result unit :=
  match answer with
  | ClientMade => Ok tt
  | ClientConfigurationError reason => storage_error reason []
  | ClientFails => storage_error "minio-client-construction-failed" []
  end.

Definition build_minio_storage (values : environment_variables) (remote_audio_proxy : bool) (client : client_answer)
    (probe : probe_answer bool) : result RecordingStorageRuntime :=
  match missing_minio_names values with
  | (_ :: _) as missing => storage_error "minio-config-missing" missing
  | [] =>
      let endpoint := strip (env_text values MINIO_ENDPOINT_ENV "") in
      let bucket := strip (env_text values MINIO_BUCKET_ENV "") in
      let prefix := strip (env_text values MINIO_PREFIX_ENV "recordings") in
      secure ← storage_boolean (env_text values MINIO_SECURE_ENV "true") "minio-secure-invalid";
      probe_bucket ← storage_boolean (env_text values MINIO_PROBE_BUCKET_ENV "false") "minio-probe-flag-invalid";
      _ ← _parse_probe_timeout_ms (env_text values MINIO_PROBE_TIMEOUT_MS_ENV "2000");
      io_timeout_ms ← storage_integer (env_text values MINIO_IO_TIMEOUT_MS_ENV "5000") 100 30000 "minio-io-timeout-invalid";
      max_bytes ← storage_integer (env_text values REMOTE_AUDIO_MAX_BYTES_ENV "10485760") 44 (64 * 1024 * 1024)
                    "remote-audio-max-bytes-invalid";
      max_concurrent ← storage_integer (env_text values REMOTE_AUDIO_MAX_CONCURRENT_ENV "2") 1 8 "remote-audio-max-concurrent-invalid";
      token ← proxy_token values remote_audio_proxy max_bytes max_concurrent;
      _ ← _validate_endpoint endpoint;
      _ ← make_client client;
      sink ← make_configured_sink bucket prefix;
      let '(state, reason_alias) := if (probe_bucket : bool) then _probe_minio_bucket probe
                                    else (state_configured, Some "connectivity-not-checked") in
      reader ← (if remote_audio_proxy then
                  timeout_seconds ← int_truediv io_timeout_ms 1000;
                  Some <$> make_reader bucket (sink_prefix sink) max_bytes timeout_seconds max_concurrent
                else Ok None);
      Ok (MkStorageRuntime (Some sink)
            (MkStorageReadiness storage_minio state (Some bucket) (Some (sink_prefix sink)) (Some secure) reason_alias remote_audio_proxy)
            reader token)
  end.

Definition build_recording_storage_from_env (values : environment_variables) (client : client_answer) (probe : probe_answer bool)
    : result RecordingStorageRuntime :=
  let mode := lower (strip (env_text values RECORDING_SINK_ENV "local")) in
  remote_audio_proxy ← storage_boolean (env_text values REMOTE_AUDIO_PROXY_ENV "false") "remote-audio-proxy-flag-invalid";
  if String.eqb mode "local" then
    if (remote_audio_proxy : bool) then storage_error "remote-audio-proxy-requires-minio" []
    else Ok (MkStorageRuntime None local_storage_readiness None None)
  else if negb (String.eqb mode "minio") then storage_error "unsupported-recording-sink" []
  else build_minio_storage values remote_audio_proxy client probe.

Definition build_recording_sink_from_env (values : environment_variables) (client : client_answer) (probe : probe_answer bool)
    : result (option MinioRecordingSink * StorageReadiness) :=
  runtime ← build_recording_storage_from_env values client probe; Ok (recording_sink runtime, storage_readiness runtime).

(** ** The run repository *)

Definition RUN_REPOSITORY_ENV : string := "VOXBENCH_RUN_REPOSITORY".
Definition DATABASE_URL_ENV : string := "VOXBENCH_DATABASE_URL".
Definition POSTGRES_PROBE_ENV : string := "VOXBENCH_POSTGRES_PROBE".
Definition POSTGRES_PROBE_TIMEOUT_MS_ENV : string := "VOXBENCH_POSTGRES_PROBE_TIMEOUT_MS".
Definition POSTGRES_STATEMENT_TIMEOUT_MS_ENV : string := "VOXBENCH_POSTGRES_STATEMENT_TIMEOUT_MS".
Definition EXPECTED_ALEMBIC_HEAD : string := "0009_timeline_events".

Inductive RepositoryMode := repository_memory | repository_postgres.

Record RepositoryReadiness := MkRepositoryReadiness {
  rr_mode : RepositoryMode; rr_state : ReadinessState; rr_reason_alias : option string; rr_job_queue_enabled : bool;
  rr_statement_timeout_ms : option Z }.

(** The repository and the queue of the runtime are the ones of its mode. *)
Record RunRepositoryRuntime := MkRepositoryRuntime {
  repository_mode : RepositoryMode; repository_readiness : RepositoryReadiness; has_job_queue : bool }.

Definition memory_repository_readiness : RepositoryReadiness := MkRepositoryReadiness repository_memory state_ready None false None.

Definition repository_error {A} (reason_alias : string) (missing : list string) : result A :=
  Raise RepositoryConfigurationError (with_missing ("run repository configuration failed: " +:+ reason_alias) missing).

Definition repository_boolean : string -> string -> result bool := parse_boolean (fun A reason => repository_error reason []).
Definition repository_integer : string -> Z -> Z -> string -> result Z := parse_bounded_integer (fun A reason => repository_error reason []).

(** [create_engine]: made, a driver that is not installed, or another exception. *)
Inductive engine_answer := EngineMade | DriverMissing | EngineFails.

(** The heads of the migrations a probe reads. *)
Definition _probe_postgres (answer : probe_answer (list string)) : RepositoryReadiness :=
  let unavailable reason := MkRepositoryReadiness repository_postgres state_unavailable (Some reason) false None in
  match answer with
  | ProbeTimeout => unavailable "postgres-probe-timeout"
  | ProbeRaises | ProbeEmpty => unavailable "postgres-probe-failed"
  | ProbeAnswers heads =>
      if bool_decide (remove_dups heads = [EXPECTED_ALEMBIC_HEAD])
      then MkRepositoryReadiness repository_postgres state_ready None true None
      else unavailable "migration-head-mismatch"
  end.

(** [make_url(url)]: the driver name and the database of a URL it accepts, its
    [ArgumentError], or the [ValueError] of a port that is no number. *)
Inductive url_answer :=
  | UrlParsed (drivername : string) (database : option string)
  | UrlArgumentError
  | UrlValueError (message : string).
Definition url_parser : Type := string -> url_answer.

Definition build_run_repository_from_env (values : environment_variables) (make_url : url_parser) (engine : engine_answer)
    (probe : probe_answer (list string)) : result RunRepositoryRuntime :=
  let mode := lower (strip (env_text values RUN_REPOSITORY_ENV "memory")) in
  if String.eqb mode "memory" then Ok (MkRepositoryRuntime repository_memory memory_repository_readiness false)
  else if negb (String.eqb mode "postgres") then repository_error "run-repository-mode-invalid" []
  else match dict_get DATABASE_URL_ENV values with
       | None => repository_error "database-url-missing" [DATABASE_URL_ENV]
       | Some database_url =>
           _ ← (match make_url database_url with
                | UrlParsed drivername (Some database) =>
                    if String.eqb drivername "postgresql+psycopg" && negb (String.eqb database "") then Ok tt
                    else repository_error "database-url-invalid" []
                | UrlParsed _ None | UrlArgumentError => repository_error "database-url-invalid" []
                | UrlValueError message => Raise ValueError message
                end);
           probe_enabled ← repository_boolean (env_text values POSTGRES_PROBE_ENV "false") "postgres-probe-flag-invalid";
           _ ← repository_integer (env_text values POSTGRES_PROBE_TIMEOUT_MS_ENV "2000") 10 10000 "postgres-probe-timeout-invalid";
           statement_timeout_ms ← repository_integer (env_text values POSTGRES_STATEMENT_TIMEOUT_MS_ENV "5000") 100 30000
                                    "postgres-statement-timeout-invalid";
           _ ← (match engine with
                | EngineMade => Ok tt
                | DriverMissing => repository_error "postgres-driver-unavailable" []
                | EngineFails => repository_error "database-engine-configuration-failed" []
                end);
           let probed := if (probe_enabled : bool) then _probe_postgres probe
                         else MkRepositoryReadiness repository_postgres state_configured
                                (Some "connectivity-and-migrations-not-checked") true None in
           Ok (MkRepositoryRuntime repository_postgres
                 (MkRepositoryReadiness (rr_mode probed) (rr_state probed) (rr_reason_alias probed) true (Some statement_timeout_ms)) true)
       end.

(** ** The application *)

(** The fields of [RunApiState] its checks read, and the services of an
    application. *)
Record app_services := MkServices {
  app_sink : option MinioRecordingSink; app_storage_readiness : option StorageReadiness;
  app_reader : option MinioRecordingReader; app_token : option string; app_session_auth : option RemoteAudioSessionAuth;
  app_repository : RunRepositoryRuntime; app_has_supervisor : bool; app_submits_to_queue : bool }.

(** [RunApiState.__post_init__]. *)
Definition check_state (s : app_services) : result app_services :=
  _ ← guard_else (Bool.eqb (bool_decide (app_reader s = None)) (bool_decide (app_token s = None))) ValueError
        "remote recording reader and access token must be configured together";
  _ ← guard_else (match app_token s with Some token => safe_token token | None => true end) ValueError
        "remote audio access token must be a safe 32..256 character value";
  _ ← guard_else (negb (bool_decide (app_session_auth s <> None)) || negb (bool_decide (app_reader s = None))) ValueError
        "remote audio session requires a remote recording reader";
  let readiness := match app_storage_readiness s with
                   | Some r => r
                   | None => match app_sink s with Some _ => injected_storage_readiness | None => local_storage_readiness end
                   end in
  Ok (MkServices (app_sink s) (Some readiness) (app_reader s) (app_token s) (app_session_auth s) (app_repository s)
        (app_has_supervisor s) (app_submits_to_queue s)).

(** [create_app] of what the environment gives: the worker runs exactly when
    there is a queue to submit to. *)
Definition create_app (storage : RecordingStorageRuntime) (session_auth : option RemoteAudioSessionAuth)
    (repository : RunRepositoryRuntime) : result app_services :=
  check_state (MkServices (recording_sink storage) (Some (storage_readiness storage)) (remote_recording_reader storage)
    (remote_audio_access_token storage) session_auth repository (has_job_queue repository) (has_job_queue repository)).

Definition create_app_from_env (values : environment_variables) (make_url : url_parser) (engine : engine_answer)
    (postgres_probe : probe_answer (list string)) (client : client_answer) (bucket_probe : probe_answer bool) : result app_services :=
  repository ← build_run_repository_from_env values make_url engine postgres_probe;
  storage ← build_recording_storage_from_env values client bucket_probe;
  session_auth ← build_remote_audio_session_from_env values (sr_remote_audio_proxy_enabled (storage_readiness storage));
  create_app storage session_auth repository.

(** The answers of the two readiness handlers. *)
Record RepositoryReadinessResponse := MkRepositoryResponse {
  rp_readiness : RepositoryReadiness; rp_worker_enabled : bool; rp_worker_running : bool; rp_worker_processed_total : Z;
  rp_worker_error_total : Z; rp_worker_lease_lost_total : Z }.

(** [telemetry] is the snapshot of the worker, when there is one. *)
Definition get_repository_readiness (s : app_services) (telemetry : bool * Z * Z * Z) : RepositoryReadinessResponse :=
  let '(running, processed, errors, lost) := if app_has_supervisor s then telemetry else (false, 0, 0, 0) in
  MkRepositoryResponse (repository_readiness (app_repository s)) (app_has_supervisor s) running processed errors lost.

Record StorageReadinessResponse := MkStorageResponse {
  sp_readiness : StorageReadiness; sp_web_audio_session_enabled : bool; sp_web_audio_cookie_secure : option bool;
  sp_web_audio_session_ttl_seconds : option Z }.

Definition get_storage_readiness (s : app_services) : result StorageReadinessResponse :=
  readiness ← from_option_err (app_storage_readiness s) AssertionError "";
  Ok (MkStorageResponse readiness (bool_decide (app_session_auth s <> None)) (cookie_secure <$> app_session_auth s)
        (ttl_seconds <$> app_session_auth s)).

(** [handle_run_repository_error] and [handle_run_job_queue_error]: what a
    failing repository or queue is answered with. *)
Definition error_response (c : exn_class) : option (Z * string * list (string * string)) :=
  match c with
  | RunRepositoryError => Some (503, "run repository is unavailable", [("Retry-After", "1")])
  | RunJobQueueError => Some (503, "run job queue is unavailable", [("Retry-After", "1")])
  | _ => None
  end.

(** ** Lemmas: texts of digits *)

(** No superscript digit, and not more digits than [int] reads. *)
Definition plain (l : list Ascii.ascii) : Prop :=
  forallb (fun c => implb (is_digit_like c) (is_digit_char c)) l = true /\ len l <= 4300.

Definition plain_environment (values : environment_variables) : Prop := forall name v, dict_get name values = Some v -> plain (chars v).

Lemma sublist_plain l l' : l `sublist_of` l' -> plain l' -> plain l.
Proof.
  intros Hs [Hf Hl]. split.
  - rewrite forallb_forall in *. intros c Hc. apply Hf. rewrite <- list_elem_of_In in *. by eapply elem_of_sublist.
  - apply sublist_length in Hs. unfold len in *. lia.
Qed.

Lemma lstrip_sublist p l : lstrip_by p l `sublist_of` l.
Proof. induction l as [|c l IH]; cbn; [done|]. destruct (p c); [by apply sublist_cons|done]. Qed.

Lemma rev_sublist {A} (l l' : list A) : l `sublist_of` l' -> rev l `sublist_of` rev l'.
Proof.
  induction 1 as [|x l l' _ IH|x l l' _ IH]; [done| |]; cbn [rev].
  - by apply sublist_app.
  - by apply sublist_inserts_r.
Qed.

Lemma strip_sublist p l : strip_by p l `sublist_of` l.
Proof.
  unfold strip_by, rstrip_by. etrans; [|apply (lstrip_sublist p)]. rewrite <- (rev_involutive (lstrip_by p l)) at 2.
  apply rev_sublist, lstrip_sublist.
Qed.

Lemma split_part_sublist c part l : part ∈ split_char c l -> part `sublist_of` l.
Proof.
  revert part. induction l as [|a l IH]; intros part; cbn [split_char].
  - intros ->%list_elem_of_singleton. done.
  - destruct (Ascii.eqb a c).
    + intros [->|Hp]%elem_of_cons; [apply sublist_nil_l|by apply sublist_cons, IH].
    + destruct (split_char_cons c l) as (p & parts & E). rewrite E in *.
      intros [->|Hp]%elem_of_cons; [by apply sublist_skip, IH; left|by apply sublist_cons, IH; right].
Qed.

Lemma digits_of_plain s : isdigit s = true -> plain (chars s) -> exists n, int_of_digits s = Ok n.
Proof.
  unfold isdigit, int_of_digits. intros Hd [Hp Hl].
  assert (forallb is_digit_char (chars s) = true) as ->.
  { destruct (chars s) as [|c l]; [done|]. rewrite forallb_forall in *. intros x Hx. specialize (Hp x Hx). specialize (Hd x Hx).
    by rewrite Hd in Hp. }
  rewrite (proj2 (Z.ltb_ge 4300 (len (chars s)))) by lia. by eexists.
Qed.

Lemma plain_text values name dflt : plain_environment values -> plain (chars dflt) -> plain (chars (env_text values name dflt)).
Proof. intros Hv Hd. unfold env_text, dict_get_default. destruct (dict_get name values) eqn:E; [by eapply Hv|done]. Qed.

Lemma strip_plain s : plain (chars s) -> plain (chars (strip s)).
Proof. intros Hp. unfold strip. rewrite chars_str. eapply sublist_plain, Hp. apply strip_sublist. Qed.

(** ** Lemmas: what a configuration may raise *)

Definition config_error (c : exn_class) : Prop :=
  c = StorageConfigurationError \/ c = RepositoryConfigurationError \/ c = AudioSessionConfigurationError.

Lemma storage_raises {A} reason missing : raises_res config_error (storage_error (A := A) reason missing).
Proof. intros c m [= <- _]. by left. Qed.
Lemma repository_raises {A} reason missing : raises_res config_error (repository_error (A := A) reason missing).
Proof. intros c m [= <- _]. by right; left. Qed.
Lemma session_raises {A} reason missing : raises_res config_error (configuration_error (A := A) reason missing).
Proof. intros c m [= <- _]. by right; right. Qed.

Lemma bind_raises {A B} (m : result A) (f : A -> result B) : raises_res config_error m ->
  (forall a, m = Ok a -> raises_res config_error (f a)) -> raises_res config_error (m ≫= f).
Proof. intros Hm Hf c e. destruct m as [a|c' e']; cbn; [by apply Hf|]. intros [= <- <-]. by eapply Hm. Qed.

Create HintDb config.
#[local] Hint Resolve storage_raises repository_raises session_raises raises_ok : config.

Section parser_errors.
Context (configuration_error : forall A, string -> result A) (raising : forall A reason, raises_res config_error (configuration_error A reason)).

Lemma boolean_raises value reason : raises_res config_error (parse_boolean configuration_error value reason).
Proof using raising. unfold parse_boolean. repeat case_match; auto with config. Qed.

Lemma integer_raises value lo hi reason : plain (chars value) ->
  raises_res config_error (parse_bounded_integer configuration_error value lo hi reason).
Proof using raising.
  intros Hp. unfold parse_bounded_integer. destruct (isdigit (strip value)) eqn:Hd; cbn [negb]; [|apply raising].
  destruct (digits_of_plain _ Hd (strip_plain _ Hp)) as [n ->]. cbn [mbind result_bind].
  destruct (negb _); [apply raising|apply raises_ok].
Qed.
End parser_errors.

Lemma storage_boolean_raises value reason : raises_res config_error (storage_boolean value reason).
Proof. apply boolean_raises. auto with config. Qed.
Lemma repository_boolean_raises value reason : raises_res config_error (repository_boolean value reason).
Proof. apply boolean_raises. auto with config. Qed.
Lemma storage_integer_raises value lo hi reason : plain (chars value) -> raises_res config_error (storage_integer value lo hi reason).
Proof. apply integer_raises. auto with config. Qed.
Lemma repository_integer_raises value lo hi reason : plain (chars value) -> raises_res config_error (repository_integer value lo hi reason).
Proof. apply integer_raises. auto with config. Qed.
Lemma session_boolean_raises value reason : raises_res config_error (_parse_boolean value reason).
Proof. unfold _parse_boolean. repeat case_match; auto with config. Qed.
Lemma session_integer_raises value lo hi reason : plain (chars value) -> raises_res config_error (_parse_integer value lo hi reason).
Proof. apply (integer_raises (fun A reason => configuration_error reason [])). auto with config. Qed.

Lemma endpoint_raises endpoint : plain (chars endpoint) -> raises_res config_error (_validate_endpoint endpoint).
Proof.
  intros Hp. unfold _validate_endpoint. destruct (_ || _ || _ || _ || _ || _); [auto with config|].
  destruct (match split_char ":" (chars endpoint) with
            | [host; port] => (str host, Some (str port)) | _ => (endpoint, None) end) as [host port] eqn:E.
  destruct (_ || _); [auto with config|]. destruct port as [port|]; [|auto with config].
  destruct (isdigit port) eqn:Hd; cbn [negb]; [|auto with config].
  assert (plain (chars port)) as Hpp.
  { destruct (split_char ":" (chars endpoint)) as [|h [|p [|? ?]]] eqn:Es; try done. injection E as _ <-. rewrite chars_str.
    eapply sublist_plain, Hp. apply (split_part_sublist ":"). rewrite Es. by right; left. }
  destruct (digits_of_plain _ Hd Hpp) as [n ->]. cbn [mbind result_bind]. destruct (_ && _); auto with config.
Qed.

(** ** Lemmas: the services that are built *)

Lemma bounded_integer_ok err value lo hi reason z : (forall A r, is_ok (err A r) = false) ->
  parse_bounded_integer err value lo hi reason = Ok z -> lo <= z <= hi.
Proof.
  intros Herr. unfold parse_bounded_integer. destruct (negb (isdigit _)).
  - intros E. specialize (Herr Z reason). by rewrite E in Herr.
  - intros (n & _ & H)%bind_ok_inv. destruct ((lo <=? n) && (n <=? hi)) eqn:E; cbn [negb] in H.
    + injection H as <-. lia.
    + specialize (Herr Z reason). by rewrite H in Herr.
Qed.

Lemma storage_integer_ok value lo hi reason z : storage_integer value lo hi reason = Ok z -> lo <= z <= hi.
Proof. by apply bounded_integer_ok. Qed.

Lemma prefix_idem prefix q : _validate_prefix prefix = Ok q -> _validate_prefix q = Ok q.
Proof.
  unfold _validate_prefix. destruct (strip_by (Ascii.eqb "/") (chars prefix)) as [|c l] eqn:E; [by intros [= <-]|].
  intros (u & Hf & Hq)%bind_ok_inv. assert (q = str (c :: l)) as -> by congruence. rewrite chars_str.
  assert (strip_by (Ascii.eqb "/") (c :: l) = c :: l) as -> by (rewrite <- E; apply strip_by_idem).
  cbn [mbind result_bind] in *. by rewrite Hf.
Qed.

Lemma fold_unit_raises {A} (f : A -> result unit) (P : exn_class -> Prop) l :
  (forall x, raises_res P (f x)) -> raises_res P (foldM_res (fun _ x => f x) tt l).
Proof.
  intros Hf. induction l as [|x l IH]; [apply raises_ok|]. cbn [foldM_res]. apply raises_res_bind; [apply Hf|]. intros []. apply IH.
Qed.

Lemma sink_raises bucket prefix : raises_res (fun c => c = ValueError) (make_minio_sink bucket prefix).
Proof.
  unfold make_minio_sink, _validate_bucket, _validate_prefix.
  apply raises_res_bind; [apply raises_res_bind; [|intros _]; by apply raises_guard|intros _].
  apply raises_res_bind; [|intros; apply raises_ok]. destruct (strip_by _ _); [apply raises_ok|].
  apply raises_res_bind; [|intros; apply raises_ok].
  apply (fold_unit_raises (fun segment => _validate_object_segment (str segment) "prefix")). intros x. by apply raises_guard.
Qed.

Lemma configured_sink_raises bucket prefix : raises_res config_error (make_configured_sink bucket prefix).
Proof.
  unfold make_configured_sink. destruct (make_minio_sink bucket prefix) as [sink|c m] eqn:E; [apply raises_ok|].
  pose proof (sink_raises _ _ _ _ E) as ->. auto with config.
Qed.

Lemma configured_sink_ok bucket prefix sink : make_configured_sink bucket prefix = Ok sink ->
  _validate_bucket bucket = Ok tt /\ sink_bucket sink = bucket /\ _validate_prefix (sink_prefix sink) = Ok (sink_prefix sink).
Proof.
  unfold make_configured_sink, make_minio_sink. destruct (_validate_bucket bucket) as [[]|[]]; cbn [mbind result_bind]; try done.
  destruct (_validate_prefix prefix) as [q|[]] eqn:E; cbn [mbind result_bind]; try done.
  intros [= <-]. split_and!; try done. by eapply prefix_idem.
Qed.

(** A time-out in milliseconds is a positive number of seconds. *)
Lemma timeout_positive ms t : 100 <= ms -> int_truediv ms 1000 = Ok t -> fleb t fzero = false.
Proof.
  intros Hms Ht. apply fltb_not_fleb, (fltb_trans_l fzero (flit 1 10)); [reflexivity|]. unfold int_truediv in Ht.
  cbn [Z.eqb] in Ht.
  assert (t = fl (QArith_base.Qdiv (QArith_base.inject_Z ms) (QArith_base.inject_Z 1000))) as -> by (destruct (fl _); congruence).
  apply fl_mono. apply QArith_base.Qle_shift_div_l; [reflexivity|].
  unfold QArith_base.Qle. cbn. lia.
Qed.

Lemma timeout_ok ms : 100 <= ms <= 30000 -> exists t, int_truediv ms 1000 = Ok t.
Proof.
  intros Hms. destruct (int_truediv_ok ms 1000 ltac:(unfold fprec; lia) ltac:(lia)) as (q & ->). by eexists.
Qed.

Lemma reader_ok bucket prefix max_bytes ms t k : _validate_bucket bucket = Ok tt -> _validate_prefix prefix = Ok prefix ->
  44 <= max_bytes -> 1 <= k -> max_bytes * k <= _MAX_REMOTE_AUDIO_INFLIGHT_BYTES -> 100 <= ms -> int_truediv ms 1000 = Ok t ->
  make_reader bucket prefix max_bytes t k = Ok (MkReader bucket prefix max_bytes t k).
Proof.
  intros Hb Hp Hm Hk Hmk Hms Ht. unfold make_reader. rewrite Hb. cbn [mbind result_bind].
  rewrite (proj2 (Z.leb_le 44 max_bytes)) by lia. rewrite (timeout_positive ms t Hms Ht).
  rewrite (proj2 (Z.ltb_lt 0 k)) by lia. rewrite (proj2 (Z.leb_le (max_bytes * k) (128 * 1024 * 1024))) by done.
  cbn [guard_else negb mbind result_bind]. by rewrite Hp.
Qed.

(** What [create_app_from_env] promises of the services it returns. *)
Record services_consistent (s : app_services) : Prop := MkConsistent {
  sc_token : app_reader s = None <-> app_token s = None;
  sc_safe : forall token, app_token s = Some token -> safe_token token = true;
  sc_proxy : (sr_remote_audio_proxy_enabled <$> app_storage_readiness s) = Some (bool_decide (app_reader s <> None));
  sc_reader : forall reader, app_reader s = Some reader -> exists sink, app_sink s = Some sink
    /\ rd_bucket reader = sink_bucket sink /\ rd_prefix reader = sink_prefix sink
    /\ 44 <= rd_max_bytes reader /\ 1 <= rd_max_concurrent_reads reader <= 8
    /\ rd_max_bytes reader * rd_max_concurrent_reads reader <= 128 * 1024 * 1024;
  sc_session : forall auth, app_session_auth s = Some auth -> app_reader s <> None /\ auth_ok auth;
  sc_queue : app_submits_to_queue s = app_has_supervisor s
    /\ app_has_supervisor s = match repository_mode (app_repository s) with repository_memory => false | repository_postgres => true end
    /\ rr_job_queue_enabled (repository_readiness (app_repository s)) = app_has_supervisor s }.

(** The same of the storage alone. *)
Record storage_consistent (r : RecordingStorageRuntime) : Prop := MkStorageConsistent {
  stc_token : remote_recording_reader r = None <-> remote_audio_access_token r = None;
  stc_safe : forall token, remote_audio_access_token r = Some token -> safe_token token = true;
  stc_proxy : sr_remote_audio_proxy_enabled (storage_readiness r) = bool_decide (remote_recording_reader r <> None);
  stc_reader : forall reader, remote_recording_reader r = Some reader -> exists sink, recording_sink r = Some sink
    /\ rd_bucket reader = sink_bucket sink /\ rd_prefix reader = sink_prefix sink
    /\ 44 <= rd_max_bytes reader /\ 1 <= rd_max_concurrent_reads reader <= 8
    /\ rd_max_bytes reader * rd_max_concurrent_reads reader <= 128 * 1024 * 1024 }.

Lemma proxy_token_ok values proxy max_bytes k token : proxy_token values proxy max_bytes k = Ok token ->
  if proxy then exists t, token = Some t /\ safe_token t = true /\ max_bytes * k <= _MAX_REMOTE_AUDIO_INFLIGHT_BYTES else token = None.
Proof.
  unfold proxy_token. destruct proxy; [|by intros [= <-]]. destruct (dict_get _ values) as [t|]; [|done].
  unfold _validate_remote_audio_token. destruct (safe_token t) eqn:Ht; [|done]. cbn [mbind result_bind].
  destruct (Z.ltb_spec _MAX_REMOTE_AUDIO_INFLIGHT_BYTES (max_bytes * k)); [done|]. intros [= <-]. by exists t.
Qed.

Lemma proxy_token_raises values proxy max_bytes k : raises_res config_error (proxy_token values proxy max_bytes k).
Proof.
  unfold proxy_token, _validate_remote_audio_token. destruct proxy; [|auto with config]. destruct (dict_get _ values); [|auto with config].
  apply bind_raises; [case_match; auto with config|]. intros _ _. case_match; auto with config.
Qed.

Lemma client_raises client : raises_res config_error (make_client client).
Proof. destruct client; cbn; auto with config. Qed.

Lemma built_reader sink bucket ms max_bytes k proxy token : sink_bucket sink = bucket -> _validate_bucket bucket = Ok tt ->
  _validate_prefix (sink_prefix sink) = Ok (sink_prefix sink) -> 100 <= ms <= 30000 -> 44 <= max_bytes -> 1 <= k <= 8 ->
  (if (proxy : bool) then exists t, token = Some t /\ safe_token t = true /\ max_bytes * k <= _MAX_REMOTE_AUDIO_INFLIGHT_BYTES
   else token = None) ->
  exists reader, (if proxy then timeout_seconds ← int_truediv ms 1000;
                    Some <$> make_reader bucket (sink_prefix sink) max_bytes timeout_seconds k
                  else Ok None) = Ok reader
    /\ forall readiness, sr_remote_audio_proxy_enabled readiness = proxy -> storage_consistent (MkStorageRuntime (Some sink) readiness reader token).
Proof.
  intros Hsb Hb Hp Hms Hmb Hk Ht. destruct proxy.
  - destruct Ht as (tk & -> & Hs & Hmk). destruct (timeout_ok ms Hms) as [t Et].
    rewrite Et. cbn [mbind result_bind]. rewrite (reader_ok _ _ _ ms) by (done || lia). eexists. split; [reflexivity|]. intros r Hr.
    constructor; cbn; [done|by intros ? [= <-]|by rewrite Hr|]. intros reader [= <-]. exists sink. cbn. split_and!; try done; lia.
  - subst token. exists None. split; [done|]. intros r Hr. by constructor.
Qed.

Lemma plain_default dflt : forallb is_ascii_char (chars dflt) && (len (chars dflt) <=? 4300) = true -> plain (chars dflt).
Proof.
  intros [Hf Hl]%andb_true_iff. split; [|by apply Z.leb_le]. rewrite forallb_forall in *. intros c Hc. specialize (Hf c Hc).
  destruct (is_digit_like c) eqn:E; [|done]. cbn. revert E Hf. clear. destruct c as [[] [] [] [] [] [] [] []]; done.
Qed.

(** One check of a builder: the cases in which it fails are configuration
    errors, of a plain environment. *)
Ltac next_check L :=
  match goal with
  | |- match (?m ≫= _) with _ => _ end =>
      let E := fresh "E" in
      destruct m as [?v|? ?] eqn:E; cbn [mbind result_bind];
      [|intros Hv; eapply L, E; try apply strip_plain; by apply plain_text, plain_default]
  end.

Section minio.
Context (values : environment_variables) (client : client_answer) (probe : probe_answer bool).

Lemma minio_storage_spec proxy :
  match build_minio_storage values proxy client probe with
  | Ok r => storage_consistent r /\ sr_remote_audio_proxy_enabled (storage_readiness r) = proxy
  | Raise c _ => plain_environment values -> config_error c
  end.
Proof.
  unfold build_minio_storage, _parse_probe_timeout_ms. destruct (missing_minio_names values); [|intros _; by left].
  next_check storage_boolean_raises. next_check storage_boolean_raises. next_check storage_integer_raises.
  next_check storage_integer_raises. next_check storage_integer_raises. next_check storage_integer_raises.
  next_check proxy_token_raises. next_check endpoint_raises. next_check client_raises. next_check configured_sink_raises.
  apply configured_sink_ok in E8 as (Hb & Hsb & Hp). apply proxy_token_ok in E5.
  apply storage_integer_ok in E2, E3, E4.
  destruct (built_reader v8 _ v2 v3 v4 proxy v5 Hsb Hb Hp ltac:(lia) ltac:(lia) ltac:(lia) E5) as (reader & -> & Hr).
  destruct (if v0 then _ else _) as [state reason]. cbn [mbind result_bind]. split; [by apply Hr|done].
Qed.

Lemma storage_spec :
  match build_recording_storage_from_env values client probe with
  | Ok r => storage_consistent r
  | Raise c _ => plain_environment values -> config_error c
  end.
Proof.
  unfold build_recording_storage_from_env. next_check storage_boolean_raises. destruct (String.eqb _ "local").
  - destruct v; cbn; [by left|]. by constructor.
  - destruct (negb _); cbn; [by left|]. pose proof (minio_storage_spec v) as Hm. destruct (build_minio_storage _ _ _ _); [apply Hm|done].
Qed.
End minio.

(** The environment selects PostgreSQL with a URL whose port is no number. *)
Definition port_not_a_number (values : environment_variables) (make_url : url_parser) (message : string) : Prop :=
  lower (strip (env_text values RUN_REPOSITORY_ENV "memory")) = "postgres"
  /\ exists url, dict_get DATABASE_URL_ENV values = Some url /\ make_url url = UrlValueError message.

Lemma raised_left {A} (x : result A) (H : Prop) (P : A -> Prop) (C : exn_class -> Prop) (Q : exn_class -> string -> Prop) :
  match x with Ok r => P r | Raise c _ => H -> C c end -> match x with Ok r => P r | Raise c m => H -> C c \/ Q c m end.
Proof. destruct x; [done|]. intros Hx HH. left. by apply Hx. Qed.

Lemma repository_spec values make_url engine probe :
  match build_run_repository_from_env values make_url engine probe with
  | Ok r => has_job_queue r = (match repository_mode r with repository_memory => false | repository_postgres => true end)
            /\ rr_job_queue_enabled (repository_readiness r) = has_job_queue r
  | Raise c m => plain_environment values -> config_error c \/ c = ValueError /\ port_not_a_number values make_url m
  end.
Proof.
  unfold build_run_repository_from_env. destruct (String.eqb _ "memory"); [done|].
  destruct (String.eqb_spec (lower (strip (env_text values RUN_REPOSITORY_ENV "memory"))) "postgres") as [Hm|];
    cbn [negb]; [|intros _; left; by right; left].
  destruct (dict_get DATABASE_URL_ENV values) as [url|] eqn:Hu; [|intros _; left; by right; left].
  destruct (make_url url) as [driver [database|]| |message] eqn:Hp; try (intros _; left; by right; left).
  2: { cbn [mbind result_bind]. intros _. right. split; [done|]. split; [done|]. by exists url. }
  destruct (_ && _); cbn [mbind result_bind]; [|intros _; left; by right; left].
  match goal with |- match ?x with _ => _ end => apply (raised_left x) end.
  next_check repository_boolean_raises. next_check repository_integer_raises. next_check repository_integer_raises.
  destruct engine; cbn [mbind result_bind]; try (intros _; by right; left). done.
Qed.

(** A port that is no number goes past the factory. *)
Lemma bad_port_escapes values make_url engine probe message : port_not_a_number values make_url message ->
  build_run_repository_from_env values make_url engine probe = Raise ValueError message.
Proof. intros (Hm & url & Hu & Hp). unfold build_run_repository_from_env. by rewrite Hm, Hu, Hp. Qed.

Lemma secret_raises value reason : raises_res config_error (_validate_secret value reason).
Proof. unfold _validate_secret. repeat case_match; auto with config. Qed.

Lemma session_config_spec values proxy :
  match build_remote_audio_session_from_env values proxy with
  | Ok auth => forall a, auth = Some a -> proxy = true /\ auth_ok a
  | Raise c _ => plain_environment values -> config_error c
  end.
Proof.
  destruct (build_remote_audio_session_from_env values proxy) as [auth|c e] eqn:E; [intros a ->; by eapply build_ok|].
  revert E.
  enough (plain_environment values -> raises_res config_error (build_remote_audio_session_from_env values proxy)) as Hr
    by (intros E Hv; by eapply Hr).
  intros Hv. unfold build_remote_audio_session_from_env. apply bind_raises; [apply session_boolean_raises|intros enabled _].
  destruct (negb enabled); [apply raises_ok|]. destruct (negb proxy); [auto with config|].
  destruct (dict_get _ values) as [token|]; [|auto with config]. destruct (dict_get _ values) as [secret|]; [|auto with config].
  apply bind_raises; [apply secret_raises|intros [] [_ Ht]%validate_secret_ok].
  apply bind_raises; [apply secret_raises|intros [] [_ Hs]%validate_secret_ok].
  rewrite compare_ascii by done. cbn [mbind result_bind]. case_match; [auto with config|].
  apply bind_raises; [by apply session_integer_raises, plain_text, plain_default|intros ttl _].
  apply bind_raises; [apply session_boolean_raises|auto with config].
Qed.

Lemma created_app storage auth repository : storage_consistent storage ->
  has_job_queue repository = (match repository_mode repository with repository_memory => false | repository_postgres => true end)
    /\ rr_job_queue_enabled (repository_readiness repository) = has_job_queue repository ->
  (forall a, auth = Some a -> sr_remote_audio_proxy_enabled (storage_readiness storage) = true /\ auth_ok a) ->
  match create_app storage auth repository with Ok s => services_consistent s | Raise c _ => config_error c end.
Proof.
  intros [Ht Hs Hp Hr] [Hq1 Hq2] Ha. unfold create_app, check_state. cbn -[safe_token].
  assert (Bool.eqb (bool_decide (remote_recording_reader storage = None)) (bool_decide (remote_audio_access_token storage = None)) = true)
    as -> by (apply eqb_true_iff, bool_decide_ext, Ht).
  assert (match remote_audio_access_token storage with Some token => safe_token token | None => true end = true) as ->
    by (destruct (remote_audio_access_token storage); [by apply Hs|done]).
  assert (auth <> None -> remote_recording_reader storage <> None) as Har.
  { destruct auth as [a|]; [intros _|done]. destruct (Ha a eq_refl) as [Hx _]. rewrite Hp in Hx. by apply bool_decide_eq_true in Hx. }
  assert (negb (bool_decide (auth <> None)) || negb (bool_decide (remote_recording_reader storage = None)) = true) as ->.
  { apply orb_true_iff. rewrite !negb_true_iff, !bool_decide_eq_false. destruct auth; [right; by apply Har|by left; intros ?]. }
  cbn [guard_else mbind result_bind]. constructor; cbn; try done; [by rewrite Hp|].
  intros a Ea. split; [by apply Har; rewrite Ea|by apply Ha].
Qed.


Definition example_environment : environment_variables :=
  [(RECORDING_SINK_ENV, " MinIO "); (MINIO_ENDPOINT_ENV, "storage.example:9000"); (MINIO_ACCESS_KEY_ENV, "user");
   (MINIO_SECRET_KEY_ENV, "password"); (MINIO_BUCKET_ENV, "voxbench"); (MINIO_PREFIX_ENV, "/lab/run/");
   (REMOTE_AUDIO_PROXY_ENV, "true"); (REMOTE_AUDIO_BEARER_TOKEN_ENV, "0123456789abcdef0123456789abcdef");
   (WEB_AUDIO_SESSION_ENV, "true"); (WEB_AUDIO_LOGIN_TOKEN_ENV, "login-0123456789abcdef0123456789");
   (WEB_AUDIO_SESSION_SECRET_ENV, "secret-0123456789abcdef012345678")].

Definition example_app : result app_services :=
  create_app_from_env example_environment (fun _ => UrlArgumentError) EngineMade ProbeEmpty ClientMade ProbeEmpty.

Lemma example_plain : plain_environment example_environment.
Proof.
  intros name v. unfold example_environment. cbn [dict_get]. repeat case_match; try done; intros [= <-]; by apply plain_default.
Qed.

Lemma example_started : (rd_prefix <$> match example_app with Ok s => app_reader s | Raise _ _ => None end) = Some "lab/run"
  /\ (ttl_seconds <$> match example_app with Ok s => app_session_auth s | Raise _ _ => None end) = Some 900.
Proof. split; vm_compute; reflexivity. Qed.

Definition bad_port_environment : environment_variables :=
  [(RUN_REPOSITORY_ENV, "postgres"); (DATABASE_URL_ENV, "postgresql+psycopg://db:port/voxbench")].
Definition bad_port : url_parser := fun _ => UrlValueError "invalid literal for int() with base 10: 'port'".

Lemma bad_port_plain : plain_environment bad_port_environment.
Proof. intros name v. unfold bad_port_environment. cbn [dict_get]. repeat case_match; try done; intros [= <-]; by apply plain_default. Qed.

