(* ===== verification/ObservedAudio.v ===== *)
(** * The audio of an observed run

    What [ObservedRuns] does with the audio chunks of a batch: a batch is
    refused as a whole before any of it is kept, the WAV file of a stage holds
    exactly the audio observed for it, and the recording of the run names that
    file. *)
From S2P Require Import Prelude Effects Collections PyFloat PyData Bytes Base64 JobQueue RunModel Repository Timeline Registry SignalChecks PyUrl RunStores ObservedRuns RunLifeCycle.

Open Scope Z_scope.

(** ** The formats of a batch *)

Definition chunk_format (c : AudioChunkObservationRequest) : Z * Z := (ao_sample_rate_hz c, ao_channels c).

Definition uniform (chunks : list AudioChunkObservationRequest) : Prop :=
  forall c1 c2, c1 ∈ chunks -> c2 ∈ chunks -> ao_stage c1 = ao_stage c2 -> chunk_format c1 = chunk_format c2.

(** The chunks agree with each other and with the buffers of the run. *)
Definition compatible (buffers : list (string * string * RunAudioBuffer)) (run : string)
    (chunks : list AudioChunkObservationRequest) : Prop :=
  uniform chunks
  /\ forall c b, c ∈ chunks -> dict_get (run, ao_stage c) buffers = Some b ->
       (buf_sample_rate_hz b, buf_channels b) = chunk_format c.

Lemma formats_spec chunks stage :
  let l := dict_get_default stage [] (formats_by_stage chunks) in
  NoDup l /\ forall f, f ∈ l <-> exists c, c ∈ chunks /\ ao_stage c = stage /\ chunk_format c = f.
Proof.
  induction chunks as [|c chunks IH] using rev_ind.
  { split; [constructor|]. intros f. split; [intros Hf; by apply not_elem_of_nil in Hf|].
    intros (c & Hc & _). by apply not_elem_of_nil in Hc. }
  unfold formats_by_stage in *. rewrite fold_left_app. cbn [fold_left].
  set (formats := fold_left add_format chunks []) in *. unfold add_format. cbn zeta in *.
  unfold dict_get_default in *. rewrite dict_get_set. case_decide as E.
  - subst stage. destruct IH as [Hn Hf]. case_bool_decide as Hin.
    + split; [done|]. intros f. rewrite Hf. setoid_rewrite elem_of_app.
      split; [intros (c' & ? & ? & ?); exists c'; auto|].
      intros (c' & [Hc|Hc] & Hst & Hfm); [eauto|]. apply list_elem_of_singleton in Hc as ->.
      rewrite Hf in Hin. destruct Hin as (c2 & ? & ? & ?). exists c2. split_and!; [done..|].
      rewrite <- Hfm. done.
    + split; [apply NoDup_app; split_and!; [done| |apply NoDup_singleton]; intros x Hx ->%list_elem_of_singleton; done|].
      intros f. rewrite elem_of_app, Hf, list_elem_of_singleton. setoid_rewrite elem_of_app.
      setoid_rewrite list_elem_of_singleton. unfold chunk_format. naive_solver.
  - destruct IH as [Hn Hf]. split; [done|]. intros f. rewrite Hf. setoid_rewrite elem_of_app.
    setoid_rewrite list_elem_of_singleton. naive_solver.
Qed.

Lemma formats_keys chunks : NoDup (dict_keys (formats_by_stage chunks))
  /\ forall c, c ∈ chunks -> is_Some (dict_get (ao_stage c) (formats_by_stage chunks)).
Proof.
  unfold formats_by_stage. induction chunks as [|c chunks [Hn Hk]] using rev_ind.
  { split; [constructor|]. intros c Hc. by apply not_elem_of_nil in Hc. }
  rewrite fold_left_app. cbn [fold_left]. unfold add_format at 1 3. cbn zeta. split; [by apply dict_set_NoDup|].
  intros c' Hc. rewrite dict_get_set. case_decide; [done|]. apply elem_of_app in Hc as [Hc|Hc]; [auto|].
  by apply list_elem_of_singleton in Hc as ->.
Qed.

Lemma at_most_one {A} (l : list A) x y : len l <= 1 -> x ∈ l -> y ∈ l -> x = y.
Proof.
  intros Hl Hx Hy. destruct l as [|a [|b l]]; [by apply not_elem_of_nil in Hx| |unfold len in Hl; cbn in Hl; lia].
  apply list_elem_of_singleton in Hx, Hy. congruence.
Qed.

Lemma check_formats_ok buffers run chunks : check_formats buffers run chunks = Ok tt -> compatible buffers run chunks.
Proof.
  unfold check_formats. intros Hc. destruct (find _ _) as [[st ?]|] eqn:Ef; [done|].
  assert (uniform chunks) as Hu.
  { intros c1 c2 H1 H2 Hst. destruct (formats_keys chunks) as [_ Hk]. destruct (Hk c1 H1) as [l Hl].
    destruct (formats_spec chunks (ao_stage c1)) as [_ Hf]. unfold dict_get_default in Hf. rewrite Hl in Hf.
    apply dict_get_Some_elem in Hl. apply list_elem_of_In in Hl. eapply find_none in Ef; [|done]. cbn in Ef.
    apply (at_most_one l); [lia|apply Hf; eauto|apply Hf; eauto]. }
  split; [done|]. intros c b Hin Hb. destruct (formats_keys chunks) as [_ Hk]. destruct (Hk c Hin) as [l Hl].
  destruct (formats_spec chunks (ao_stage c)) as [_ Hf]. unfold dict_get_default in Hf. rewrite Hl in Hf.
  apply dict_get_Some_elem in Hl.
  assert (same_format buffers run (ao_stage c, l) = Ok tt) as Hs.
  { clear -Hc Hl. induction (formats_by_stage chunks) as [|x fs IH]; [by apply not_elem_of_nil in Hl|].
    cbn [foldM_res] in Hc. apply bind_ok_inv in Hc as ([] & H1 & Hc). apply elem_of_cons in Hl as [->|Hl]; auto. }
  unfold same_format in Hs. cbn [fst snd] in Hs. rewrite Hb in Hs. case_bool_decide as Hm; [|done].
  apply Hf in Hm as (c' & Hc' & Hst & <-). by apply Hu.
Qed.

(** ** The paths of the recordings *)

Lemma split_last {A} (x : A) a a' b b' : x ∉ b -> x ∉ b' -> a ++ x :: b = a' ++ x :: b' -> a = a' /\ b = b'.
Proof.
  intros Hb Hb'. revert a'. induction a as [|y a IH]; intros [|y' a'] E; cbn in E.
  - by injection E as ->.
  - injection E as -> ->. exfalso. apply Hb. apply elem_of_app. right. left.
  - injection E as -> <-. exfalso. apply Hb'. apply elem_of_app. right. left.
  - injection E as -> E. destruct (IH a' E) as [-> ->]. done.
Qed.

Lemma quote_no_slash s : "/"%char ∉ chars (quote [] s).
Proof.
  intros Hin. pose proof (quote_chars [] s) as Hq. rewrite forallb_forall in Hq.
  apply list_elem_of_In in Hin. by specialize (Hq _ Hin).
Qed.

Lemma recording_path_chars root id st :
  chars (recording_path root id st)
  = (chars root ++ "/"%char :: chars id) ++ "/"%char :: (chars (quote [] st) ++ chars ".wav").
Proof.
  unfold recording_path. rewrite !chars_append. change (chars "/") with ["/"%char]. by rewrite <- app_assoc.
Qed.

Lemma recording_path_inj root id st id' st' :
  recording_path root id st = recording_path root id' st' -> id = id' /\ st = st'.
Proof.
  intros E. apply (f_equal chars) in E. rewrite !recording_path_chars in E.
  assert (forall st, "/"%char ∉ chars (quote [] st) ++ chars ".wav") as Hn.
  { intros s [Hs|Hs]%elem_of_app; [by apply quote_no_slash in Hs|]. cbn in Hs. set_solver. }
  apply split_last in E as [E1 E2]; [|done..]. apply app_inv_head in E1. injection E1 as E1.
  apply app_inv_tail in E2. apply (f_equal str) in E1, E2. rewrite !str_chars in E1, E2.
  split; [done|]. apply (quote_inj []); [set_solver|done].
Qed.

(** ** Refused batches *)

Definition keeps_http (m : exn_class) : Prop := m <> HTTPException.

(** The disk raises errors of its own. *)
Definition disk_errors {F} (e : call_env F) : Prop :=
  forall path content cls message left_, disk e path content = WriteFailed cls message left_ -> cls <> HTTPException.

Lemma buffer_duration_errors b c a : buffer_duration b = Raise c a -> c <> HTTPException.
Proof.
  unfold buffer_duration, int_truediv, mbind, result_bind. repeat case_match; intros; simplify_eq; congruence.
Qed.

Section refusals.
Context {R F : Type} `{RunStoreLaws R F}.
Context (root : string) (open_wav : gmap string bytes -> string -> result wav_file)
  (log10 : float -> result float) (resolve_request : RunCreateRequest -> result ResolvedConfig).
Implicit Types (e : call_env F) (run : StoredRun) (s : RunApiState R).

(** What a chunk that was written did. *)
Lemma write_chunk_ok e run chunk pcm s run' s' : 
  _write_observed_audio root e run (chunk, pcm) s = (Ok run', s') ->
  exists b d, buffer_for (audio_buffers s) (run_id run) chunk = Ok b
    /\ let b' := extend_buffer pcm b in
       let path := recording_path root (run_id run) (ao_stage chunk) in
       buffer_duration b' = Ok d
       /\ audio_buffers s' = dict_set (run_id run, ao_stage chunk) b' (audio_buffers s)
       /\ files s' = <[path := wav_bytes (buf_channels b') (buf_sample_rate_hz b') (buf_pcm_s16le b')]> (files s)
       /\ run' = with_recordings (put_recording (recording_of root (run_id run) (ao_stage chunk) b' d)
                                    (recordings run)) run.
Proof.
  unfold _write_observed_audio, mbind, st_bind, get_state, lift, set_buffers, modify, write_file.
  destruct (buffer_for _ _ _) as [b|? ?] eqn:Eb; [|done].
  destruct (disk e _ _) as [|? ? [?|]]; try done.
  destruct (buffer_duration _) as [d|? ?] eqn:Ed; [|done].
  unfold update, on_repository, mbind, st_bind, modify, mret, st_ret. intros [= <- <-]. exists b, d. done.
Qed.

Lemma buffer_for_format buffers id chunk b : buffer_for buffers id chunk = Ok b ->
  (buf_sample_rate_hz b, buf_channels b) = chunk_format chunk
  /\ (dict_get (id, ao_stage chunk) buffers = Some b \/ buf_pcm_s16le b = [] /\ dict_get (id, ao_stage chunk) buffers = None).
Proof.
  unfold buffer_for. destruct (dict_get _ _) as [b0|] eqn:Eg.
  - case_bool_decide as Hm; [|done]. intros [= <-]. auto.
  - intros [= <-]. auto.
Qed.

(** A batch whose formats were checked is not refused while it is written. *)
Lemma write_chunks_not_refused e l run s c a s' : disk_errors e ->
  compatible (audio_buffers s) (run_id run) (map fst l) ->
  write_chunks root e run l s = (Raise c a, s') -> c <> HTTPException.
Proof.
  intros He. revert run s. induction l as [|[chunk pcm] l IH]; intros run s [Hu Hb] Hw; [done|].
  cbn [write_chunks map] in *.
  apply st_bind_cases in Hw as [(run1 & s1 & H1 & Hw)|(c1 & a1 & s1 & H1 & [= <- <- <-])].
  - apply write_chunk_ok in H1 as (b & d & Hbf & _ & Ebuf & _ & ->). apply buffer_for_format in Hbf as [Hf _].
    eapply IH, Hw. cbn [run_id with_recordings]. rewrite Ebuf. split.
    + intros c1 c2 H1 H2. apply Hu; by right.
    + intros c1 b1 H1. rewrite dict_get_set. case_decide as E; [|apply Hb; by right].
      intros [= <-]. injection E as E. cbn. rewrite Hf. apply Hu; [left|by right|congruence].
  - revert H1. unfold _write_observed_audio, mbind, st_bind, get_state, lift, set_buffers, modify, write_file.
    assert (is_ok (buffer_for (audio_buffers s) (run_id run) chunk) = true) as Hok.
    { unfold buffer_for. destruct (dict_get _ _) as [b|] eqn:Eg; [|done].
      rewrite bool_decide_true; [done|]. apply (Hb chunk b); [left|done]. }
    destruct (buffer_for _ _ _) as [b|? ?]; [|done].
    destruct (disk e _ _) as [|? ? [?|]] eqn:Ed; [|intros [= <- _ _]; by eapply He..].
    destruct (buffer_duration _) as [d|? ?] eqn:Eb; [done|].
    intros [= <- _ _]. by eapply buffer_duration_errors.
Qed.

Lemma find_run_same e id s r s' : find_run e id s = (r, s') -> s' = s.
Proof.
  unfold find_run, on_repository, mbind, st_bind.
  destruct (fetch (on_get e) id (repository s)) as [r0 repo] eqn:Ef.
  pose proof (fetch_spec _ _ _ _ _ Ef) as [-> _].
  assert (MkApi (repository s) (audio_buffers s) (files s) = s) as -> by by destruct s.
  destruct r0 as [[run|]|]; unfold mret, st_ret, lift; by intros [= <- <-].
Qed.

Lemma save_run_errors e run s c a s' : save_run e run s = (Raise c a, s') -> c <> HTTPException.
Proof.
  unfold save_run, on_repository. destruct (commit _ _ _) as [r repo] eqn:Ec. intros [= -> _].
  by eapply commit_raises.
Qed.

(** A handler whose last steps are not a refusal: its refusals change nothing. *)
Definition refuses_cleanly {A} (m : st (RunApiState R) A) : Prop :=
  forall s d s', m s = (Raise HTTPException d, s') -> s' = s.

Lemma refuses_find {A} e id (m : StoredRun -> st (RunApiState R) A) :
  (forall run, refuses_cleanly (m run)) -> refuses_cleanly (run ← find_run e id; m run).
Proof.
  intros Hm s d s' Hr. apply st_bind_cases in Hr as [(run & s1 & H1 & Hr)|(c & a & s1 & H1 & [= <- <- <-])];
    apply find_run_same in H1 as ->; [|done]. by eapply Hm.
Qed.

Lemma refuses_lift {A B} (v : result A) (m : A -> st (RunApiState R) B) :
  (forall a, v = Ok a -> refuses_cleanly (m a)) -> refuses_cleanly (a ← lift v; m a).
Proof.
  intros Hm s d s'. unfold mbind, st_bind, lift. destruct v as [a|]; [by apply Hm|]. by intros [= _ _ <-].
Qed.

Lemma refuses_raise {A} (v : result A) : refuses_cleanly (lift v).
Proof. intros s d s' [= _ <-]. done. Qed.

Lemma refuses_never {A} (m : st (RunApiState R) A) : raises keeps_http m -> refuses_cleanly m.
Proof. intros Hm s d s' Hr. by apply Hm in Hr. Qed.

Lemma raises_update f run : raises keeps_http (update f run : st (RunApiState R) StoredRun).
Proof. intros s c a s'. unfold update, on_repository, mbind, st_bind, modify, mret, st_ret. by intros [=]. Qed.

Lemma raises_save e run : raises keeps_http (save_run e run).
Proof. intros s c a s'. apply save_run_errors. Qed.

Lemma decoded_chunks chunks decoded :
  mapM_res (fun c => pcm ← _decode_audio_chunk c; Ok (c, pcm)) chunks = Ok decoded ->
  map fst decoded = chunks /\ Forall (fun cp => _decode_audio_chunk cp.1 = Ok cp.2) decoded.
Proof.
  intros Hd. apply mapM_res_ok in Hd. induction Hd as [|c cp chunks decoded Hc _ [IH1 IH2]]; [done|].
  apply bind_ok_inv in Hc as (pcm & Hp & [= <-]). cbn. split; [by rewrite IH1|by constructor].
Qed.

Lemma batch_refuses e b : disk_errors e -> refuses_cleanly (ingest_observation_batch root e b).
Proof.
  intros He. apply refuses_find. intros run. destruct (negb _); [apply refuses_raise|].
  apply refuses_lift. intros configured _. destruct (unknown_stages configured b); [|apply refuses_raise].
  apply refuses_lift. intros decoded [Hd _]%decoded_chunks. intros s d s'.
  unfold mbind at 1, st_bind at 1, get_state at 1. unfold mbind at 1, st_bind at 1, lift at 1.
  destruct (check_formats _ _ _) as [[]|] eqn:Ec; [|by intros [= _ _ <-]].
  apply check_formats_ok in Ec. rewrite <- Hd in Ec. intros Hr. exfalso.
  apply st_bind_cases in Hr as [(run1 & s1 & _ & Hr)|(c1 & a1 & s1 & H1 & [= <- <- <-])].
  - refine (raises_bind keeps_http _ _ _ _ s1 HTTPException d s' Hr eq_refl); [apply raises_update|].
    intros run2. apply raises_bind; [apply raises_save|]. intros _. apply raises_mret.
  - by eapply write_chunks_not_refused in H1.
Qed.

Lemma end_refuses {A} e f run id (x : StoredRun -> A) :
  refuses_cleanly (run ← update f run; _ ← set_buffers (drop_buffers id); _ ← save_run e run; mret (x run)).
Proof.
  apply refuses_never. apply raises_bind; [apply raises_update|]. intros run2.
  apply raises_bind; [by intros s c a s' [=]|]. intros _.
  apply raises_bind; [apply raises_save|]. intros _. apply raises_mret.
Qed.

Lemma append_refuses {A} e id f (x : A) :
  refuses_cleanly (run ← find_run e id; run ← update f run; _ ← save_run e run; mret x).
Proof.
  apply refuses_find. intros run. apply refuses_never. apply raises_bind; [apply raises_update|]. intros run2.
  apply raises_bind; [apply raises_save|]. intros _. apply raises_mret.
Qed.

Lemma refuses_unit {A} (m : st (RunApiState R) A) : refuses_cleanly m -> refuses_cleanly (_ ← m; mret tt).
Proof.
  intros Hm s d s'. unfold mbind, st_bind. destruct (m s) as [[?|c a] s1] eqn:E; [done|].
  intros [= -> -> <-]. by eapply Hm.
Qed.

Lemma call_refuses e c : disk_errors e -> refuses_cleanly (run_call root open_wav log10 resolve_request e c).
Proof.
  intros He. destruct c as [r|raw|raw|raw|id|id alias]; unfold run_call;
    try (apply refuses_lift; intros v _); apply refuses_unit.
  - apply refuses_lift. intros res _. apply refuses_lift. intros run _. apply refuses_never.
    apply raises_bind; [apply raises_save|]. intros _. apply raises_mret.
  - by apply batch_refuses.
  - apply append_refuses.
  - apply append_refuses.
  - apply refuses_find. intros run. destruct (String.eqb _ _); [by intros s d s' [=]|].
    destruct (negb _); [apply refuses_raise|]. intros s d s'. unfold mbind at 1, st_bind at 1, get_state at 1.
    apply (refuses_lift _ _ ltac:(intros; apply end_refuses)).
  - apply refuses_find. intros run. destruct (String.eqb _ _); [by intros s d s' [=]|].
    destruct (negb _); [apply refuses_raise|]. apply end_refuses.
Qed.
End refusals.

(** C19. A call that the API refuses with an HTTP error (an unknown run, an
    ended run, an unknown stage, undecodable audio, a changed audio format, a
    configuration that does not resolve) changes nothing: neither the stored
    runs, nor the audio buffers, nor the files.  In particular a batch is
    checked completely before the first of its chunks is written. *)
Theorem refused_call_changes_nothing {R F} `{RunStoreLaws R F} root open_wav log10 resolve
    (e : call_env F) c (s s' : RunApiState R) detail :
  disk_errors e -> run_call root open_wav log10 resolve e c s = (Raise HTTPException detail, s') -> s' = s.
Proof. intros He. by apply call_refuses. Qed.

Lemma refused_call_changes_nothing_witness :
  let call c s := run_call "/rec" demo_wav (fun x => Ok x) (fun _ => Ok demo_resolved) demo_call c s in
  fst (call (Observations (demo_batch [])) demo_created) = Raise HTTPException "400: audio chunks must not be empty"
  /\ snd (call (Observations (demo_batch [])) demo_created) = demo_created.
Proof.
  split; [vm_compute; reflexivity|].
  apply (refused_call_changes_nothing "/rec" demo_wav (fun x => Ok x) (fun _ => Ok demo_resolved) demo_call
    (Observations (demo_batch [])) demo_created _ "400: audio chunks must not be empty").
  - intros path content cls message left_ E. discriminate E.
  - vm_compute. reflexivity.
Defined.
