(* ===== verification/AudioLedger.v ===== *)
(** * The account of the observed audio

    Over any accepted batches of a run, whatever calls on other runs happen in
    between, the WAV file of a stage holds the concatenation of the chunks
    observed for it, in their order, and the recording of the stored run names
    that file and its duration. *)
From S2P Require Import Prelude Effects Collections PyFloat PyData Bytes Base64 JobQueue RunModel Repository Timeline Registry SignalChecks PyUrl RunStores ObservedRuns RunLifeCycle ObservedAudio.

Open Scope Z_scope.

Abbreviation chunks := (list (AudioChunkObservationRequest * bytes)).

Definition of_stage (st : string) (cp : AudioChunkObservationRequest * bytes) : bool := String.eqb (ao_stage cp.1) st.

(** The audio of a stage in the accepted chunks [l]. *)
Definition stage_pcm (st : string) (l : chunks) : bytes := concat (map snd (filterb (of_stage st) l)).

(** What the run says about the recording of a stage. *)
Definition audio_entry (st : string) (run : StoredRun) : option (string * string * float) :=
  find (fun x => String.eqb x.1.1 st) (map (fun r => (rec_stage r, rec_uri r, rec_duration_ms r)) (recordings run)).

Lemma same_run_entry st a b : same_run a b -> audio_entry st a = audio_entry st b.
Proof. intros Hs. unfold audio_entry. by rewrite (same_recordings _ _ Hs). Qed.

Lemma put_recording_entry r run st :
  audio_entry st (with_recordings (put_recording r (recordings run)) run)
  = if String.eqb (rec_stage r) st then Some (rec_stage r, rec_uri r, rec_duration_ms r) else audio_entry st run.
Proof.
  unfold audio_entry. cbn [recordings with_recordings]. induction (recordings run) as [|x l IH]; cbn; [done|].
  destruct (String.eqb_spec (rec_stage x) (rec_stage r)) as [E|E]; cbn.
  - rewrite E. by destruct (String.eqb (rec_stage r) st).
  - rewrite IH. destruct (String.eqb_spec (rec_stage x) st) as [Ex|]; [|done].
    destruct (String.eqb_spec (rec_stage r) st); [congruence|done].
Qed.

Lemma stage_pcm_snoc st l c pcm :
  stage_pcm st (l ++ [(c, pcm)]) = stage_pcm st l ++ if String.eqb (ao_stage c) st then pcm else [].
Proof.
  unfold stage_pcm, filterb. rewrite List.filter_app, map_app, concat_app. cbn. unfold of_stage. cbn [fst].
  destruct (String.eqb _ _); cbn; by rewrite ?app_nil_r.
Qed.

Lemma stage_pcm_none st l : (forall cp, cp ∈ l -> ao_stage cp.1 <> st) -> stage_pcm st l = [].
Proof.
  unfold stage_pcm, filterb. induction l as [|cp l IH]; intros Hn; cbn; [done|]. unfold of_stage at 1.
  destruct (String.eqb_spec (ao_stage cp.1) st) as [E|_]; [by apply Hn in E; [|left]|].
  apply IH. intros x Hx. apply Hn. by right.
Qed.

Section ledger.
Context {R F : Type} `{RunStoreLaws R F}.
Context (root : string) (open_wav : gmap string bytes -> string -> result wav_file)
  (log10 : float -> result float) (resolve_request : RunCreateRequest -> result ResolvedConfig).
Implicit Types (e : call_env F) (run : StoredRun) (s : RunApiState R) (l : chunks).

Definition buffer_at (id st : string) s : option RunAudioBuffer := dict_get (id, st) (audio_buffers s).
Definition file_at (id st : string) s : option bytes := files s !! recording_path root id st.

(** The accepted chunks [l] of the run [id] are what the buffers, the files
    and the recordings of [run] account for. *)
Record booked (id st : string) run s l (b : RunAudioBuffer) : Prop := {
  booked_buffer : buffer_at id st s = Some b;
  booked_pcm : buf_pcm_s16le b = stage_pcm st l;
  booked_format : forall cp, cp ∈ l -> ao_stage cp.1 = st ->
    chunk_format cp.1 = (buf_sample_rate_hz b, buf_channels b);
  booked_file : file_at id st s = Some (wav_bytes (buf_channels b) (buf_sample_rate_hz b) (stage_pcm st l));
  booked_recording : exists d, buffer_duration b = Ok d
    /\ audio_entry st run = Some (st, as_uri (recording_path root id st), d) }.

Definition tracks (id : string) run s l : Prop := forall st,
  ((forall cp, cp ∈ l -> ao_stage cp.1 <> st) /\ buffer_at id st s = None)
  \/ ((exists cp, cp ∈ l /\ ao_stage cp.1 = st) /\ exists b, booked id st run s l b).

Lemma tracks_ext id run run' s s' l :
  (forall st, buffer_at id st s' = buffer_at id st s) -> (forall st, file_at id st s' = file_at id st s) ->
  (forall st, audio_entry st run' = audio_entry st run) -> tracks id run s l -> tracks id run' s' l.
Proof.
  intros Hb Hf Ha Ht st. destruct (Ht st) as [[? ?]|[? (b & [])]]; [left|right]; rewrite ?Hb; [done|].
  split; [done|]. exists b. constructor; rewrite ?Hb, ?Hf, ?Ha; done.
Qed.

Lemma tracks_chunk e run s l c pcm run' s' : tracks (run_id run) run s l ->
  _write_observed_audio root e run (c, pcm) s = (Ok run', s') ->
  tracks (run_id run) run' s' (l ++ [(c, pcm)]) /\ run_id run' = run_id run.
Proof.
  intros Ht Hw. apply write_chunk_ok in Hw as (b & d & Hb & Hd & Ebuf & Efile & ->). split; [|done].
  apply buffer_for_format in Hb as [Hfmt Hold]. intros st. destruct (decide (ao_stage c = st)) as [<-|Hne].
  - right. split; [exists (c, pcm); split; [apply elem_of_app; right; left|done]|].
    assert (buf_pcm_s16le b = stage_pcm (ao_stage c) l
      /\ forall cp, cp ∈ l -> ao_stage cp.1 = ao_stage c -> chunk_format cp.1 = (buf_sample_rate_hz b, buf_channels b))
      as [Hpcm Hall].
    { destruct (Ht (ao_stage c)) as [[Hno Hnone]|[_ (b0 & [])]]; unfold buffer_at in *.
      - destruct Hold as [Hold|[-> _]]; [congruence|]. split; [by rewrite stage_pcm_none|].
        intros cp Hc E. by destruct (Hno cp Hc).
      - destruct Hold as [Hold|[_ Hold]]; [|congruence]. rewrite booked_buffer0 in Hold. by injection Hold as <-. }
    assert (buf_pcm_s16le (extend_buffer pcm b) = stage_pcm (ao_stage c) (l ++ [(c, pcm)])) as Hpcm'
      by (rewrite stage_pcm_snoc, String.eqb_refl; cbn; by rewrite Hpcm).
    exists (extend_buffer pcm b). constructor.
    + unfold buffer_at. by rewrite Ebuf, dict_get_set_eq.
    + done.
    + intros cp [Hc|Hc%list_elem_of_singleton]%elem_of_app Hst; [by apply Hall|]. subst cp. cbn [fst]. by rewrite <- Hfmt.
    + unfold file_at. by rewrite Efile, lookup_insert_eq, Hpcm'.
    + exists d. split; [done|]. rewrite put_recording_entry. cbn [rec_stage recording_of]. by rewrite String.eqb_refl.
  - assert (buffer_at (run_id run) st s' = buffer_at (run_id run) st s) as Eb
      by (unfold buffer_at; rewrite Ebuf, dict_get_set_ne by congruence; done).
    assert (file_at (run_id run) st s' = file_at (run_id run) st s) as Ef.
    { unfold file_at. rewrite Efile, lookup_insert_ne; [done|]. intros [_ E]%recording_path_inj. done. }
    destruct (Ht st) as [[Hno Hnone]|[(cp & Hc & Hst) (b0 & [])]]; [left|right]; rewrite ?Eb.
    + split; [|done]. intros cp [Hc|Hc%list_elem_of_singleton]%elem_of_app; [auto|]. by subst cp.
    + split; [exists cp; rewrite elem_of_app; auto|]. exists b0.
      assert (stage_pcm st (l ++ [(c, pcm)]) = stage_pcm st l) as Ep.
      { rewrite stage_pcm_snoc. destruct (String.eqb_spec (ao_stage c) st); [done|]. by rewrite app_nil_r. }
      constructor; rewrite ?Eb, ?Ef, ?Ep; try done.
      * intros x [Hx|Hx%list_elem_of_singleton]%elem_of_app E; [auto|]. by subst x.
      * destruct booked_recording0 as (d0 & Hd0 & He). exists d0. split; [done|].
        rewrite put_recording_entry. cbn [rec_stage recording_of].
        by destruct (String.eqb_spec (ao_stage c) st).
Qed.

Lemma tracks_chunks e more : forall run s l run' s', tracks (run_id run) run s l ->
  write_chunks root e run more s = (Ok run', s') ->
  tracks (run_id run) run' s' (l ++ more) /\ run_id run' = run_id run.
Proof.
  induction more as [|[c pcm] more IH]; intros run s l run' s' Ht Hw; cbn [write_chunks] in Hw.
  - unfold mret, st_ret in Hw. injection Hw as -> ->. by rewrite app_nil_r.
  - apply st_bind_ok in Hw as (run1 & s1 & H1 & Hw). eapply tracks_chunk in H1 as [Ht1 Hid]; [|done].
    rewrite <- Hid in Ht1. apply (IH _ _ _ _ _ Ht1) in Hw as [Ht2 Hid2]. rewrite Hid in Ht2, Hid2.
    by rewrite <- app_assoc in Ht2.
Qed.

(** The stored run and its account. *)
Definition accounted (k : store_key) s l : Prop :=
  exists run, run_at s k = Some run /\ run_id run = id_of k /\ tracks (id_of k) run s l.

Lemma batch_accounted e b k s l decoded resp s' : store_ok (repository s) ->
  NoDup (map to_event_id (ob_timeline_events b)) -> key_of (ob_run_id b) = Some k ->
  accounted k s l -> mapM_res (fun c => pcm ← _decode_audio_chunk c; Ok (c, pcm)) (ob_audio_chunks b) = Ok decoded ->
  ingest_observation_batch root e b s = (Ok resp, s') -> accounted k s' (l ++ decoded).
Proof.
  intros Hok Hn Hk (run0 & Hr0 & Hid0 & Ht) Hdec Hi. unfold ingest_observation_batch in Hi.
  apply st_bind_ok in Hi as (run & s0 & Hf & Hi). pose proof Hf as Hfs. apply find_run_spec in Hf as [-> Hf]; [|done].
  destruct (Hf run eq_refl) as (k' & Hk' & Hr & Hw). rewrite Hk in Hk'. injection Hk' as <-.
  rewrite Hr0 in Hr. injection Hr as ->.
  destruct (String.eqb_spec (status run) "running") as [Hrun|]; cbn [negb] in Hi; [|done].
  apply st_bind_ok in Hi as (configured & s1 & Hc & Hi). apply lift_ok in Hc as [_ ->].
  destruct (unknown_stages configured b); [|done].
  apply st_bind_ok in Hi as (decoded' & s1 & Hd & Hi). apply lift_ok in Hd as [Hd ->].
  rewrite Hdec in Hd. injection Hd as <-.
  apply st_bind_ok in Hi as (s1 & s2 & Hg & Hi). unfold get_state in Hg. injection Hg as <- <-.
  apply st_bind_ok in Hi as (u & s1 & Hc & Hi). apply lift_ok in Hc as [_ ->].
  apply st_bind_ok in Hi as (run1 & s1 & H1 & Hi).
  rewrite <- Hid0 in Ht. pose proof H1 as Hwork. eapply write_chunks_working in Hwork as (run1' & Hw1 & Hrun1 & Hx); [|done..].
  rewrite <- (Hx run1 eq_refl) in *. apply (tracks_chunks _ _ _ _ _ _ _ Ht) in H1 as [Ht1 Hid1].
  apply st_bind_ok in Hi as (run2 & s2 & H2' & Hi).
  eapply working_update in H2' as (Hx2 & Hw2 & Eb & Ef); [|done|].
  2: { apply allowed_observations; [by left|]. intros. by apply new_events_distinct. }
  injection Hx2 as ->. apply st_bind_ok in Hi as ([] & s3 & H3 & Hi). unfold mret, st_ret in Hi. injection Hi as _ <-.
  eapply working_save in H3 as (Hw3 & Eb3 & Ef3 & Hv); [|done]. destruct (Hv eq_refl) as (v & Hv1 & Hsame).
  exists v. split; [done|]. pose proof (working_ok _ _ _ _ _ Hw3) as Hok3. split; [by eapply view_id|].
  rewrite <- Hid0. eapply tracks_ext; [| | |exact Ht1].
  - intros st. unfold buffer_at. by rewrite Eb3, Eb.
  - intros st. unfold file_at. by rewrite Ef3, Ef.
  - intros st. by rewrite (same_run_entry _ _ _ Hsame).
Qed.

(** ** Calls on other runs *)

Definition kept (id : string) s s' : Prop :=
  (forall st, buffer_at id st s' = buffer_at id st s) /\ forall st, file_at id st s' = file_at id st s.

Definition keeps {A} (id : string) (m : st (RunApiState R) A) : Prop := forall s, kept id s (snd (m s)).

Lemma kept_refl id s : kept id s s.
Proof. done. Qed.

Lemma kept_trans id s1 s2 s3 : kept id s1 s2 -> kept id s2 s3 -> kept id s1 s3.
Proof. intros [B1 F1] [B2 F2]. split; intros st; congruence. Qed.

Lemma keeps_bind {A B} id (m : st (RunApiState R) A) (f : A -> st (RunApiState R) B) :
  keeps id m -> (forall a s s', m s = (Ok a, s') -> keeps id (f a)) -> keeps id (m ≫= f).
Proof.
  intros Hm Hf s. specialize (Hm s). unfold mbind, st_bind. destruct (m s) as [[a|c e] s1] eqn:E; [|done].
  eapply kept_trans; [exact Hm|]. by eapply Hf.
Qed.

Lemma keeps_repository {A} id (m : st R A) : keeps id (on_repository m).
Proof. intros s. unfold on_repository. by destruct (m (repository s)). Qed.

Lemma keeps_lift {A} id (v : result A) : keeps id (lift v).
Proof. done. Qed.

Lemma keeps_mret {A} id (a : A) : keeps id (mret a).
Proof. done. Qed.

Lemma keeps_get id : keeps id get_state.
Proof. done. Qed.

Lemma keeps_find e id x : keeps id (find_run e x).
Proof.
  apply keeps_bind; [apply keeps_repository|]. intros [run|] s1 s2 _; [apply keeps_mret|apply keeps_lift].
Qed.

Lemma keeps_update id f run : keeps id (update f run).
Proof. apply keeps_bind; [apply keeps_repository|]. intros. apply keeps_mret. Qed.

Lemma dict_get_drop (id x st : string) buffers : id <> x ->
  dict_get (id, st) (drop_buffers x buffers) = dict_get (id, st) buffers.
Proof.
  intros Hne. unfold drop_buffers, filterb. induction buffers as [|[[i s] b] buffers IH]; cbn; [done|].
  destruct (String.eqb_spec i x) as [->|Hi]; cbn; rewrite IH; [|done]. by rewrite decide_False by congruence.
Qed.

Lemma keeps_drop id x : id <> x -> keeps id (set_buffers (drop_buffers x)).
Proof. intros Hne s. split; [|done]. intros st. by apply dict_get_drop. Qed.

Lemma keeps_chunk id e run cp : run_id run <> id -> keeps id (_write_observed_audio root e run cp).
Proof.
  intros Hne. destruct cp as [c pcm]. unfold _write_observed_audio.
  apply keeps_bind; [apply keeps_get|]. intros s0 _ _ _. apply keeps_bind; [apply keeps_lift|]. intros b _ _ _.
  apply keeps_bind. { intros s. split; [|done]. intros st. apply dict_get_set_ne. congruence. }
  intros _ _ _ _. apply keeps_bind.
  { intros s. unfold write_file. destruct (disk e _ _) as [|? ? [?|]]; [|..|done]; (split; [done|]); intros st; cbn;
      (apply lookup_insert_ne; intros [E _]%recording_path_inj; done). }
  intros _ _ _ _. apply keeps_bind; [apply keeps_lift|]. intros d _ _ _. apply keeps_update.
Qed.

Lemma keeps_chunks id e l : forall run, run_id run <> id -> keeps id (write_chunks root e run l).
Proof.
  induction l as [|[c pcm] l IH]; intros run Hne; cbn [write_chunks]; [apply keeps_mret|].
  apply keeps_bind; [by apply keeps_chunk|]. intros run' s s' Hw. apply IH.
  apply write_chunk_ok in Hw as (b & d & _ & _ & _ & _ & ->). done.
Qed.

(** The run a call is about. *)
Definition call_target e (c : api_call) : string :=
  match c with
  | CreateObserved r => uuid_str (call_uuid e)
  | Observations raw => ob_run_id raw
  | SipEvent raw => sr_run_id raw
  | RtpStat raw => rr_run_id raw
  | Complete id | FailRun id _ => id
  end.

Lemma found_other e id k s run s' : store_ok (repository s) -> key_of (id_of k) = Some k -> key_of id <> Some k ->
  find_run e id s = (Ok run, s') -> run_id run <> id_of k.
Proof.
  intros Hok Hk Hne Hf E. apply find_run_spec in Hf as [-> Hf]; [|done].
  destruct (Hf run eq_refl) as (k' & Hk' & _ & Hw). destruct Hw. congruence.
Qed.

Lemma validate_batch_run raw b : validate_batch raw = Ok b -> ob_run_id b = ob_run_id raw.
Proof. unfold validate_batch. intros Hb. simpl_res. done. Qed.

Lemma kept_find {A} e id k (m : StoredRun -> st (RunApiState R) A) s : store_ok (repository s) ->
  key_of (id_of k) = Some k -> key_of id <> Some k ->
  (forall run, run_id run <> id_of k -> keeps (id_of k) (m run)) ->
  kept (id_of k) s (snd ((run ← find_run e id; m run) s)).
Proof.
  intros Hok Hk Hne Hm. unfold mbind, st_bind. destruct (find_run e id s) as [[run|c a] s'] eqn:E.
  - pose proof (found_other _ _ _ _ _ _ Hok Hk Hne E) as Hr. apply find_run_same in E as ->. by apply Hm.
  - by apply find_run_same in E as ->.
Qed.

Lemma keeps_end {A} e f run id x (g : StoredRun -> A) : id <> x ->
  keeps id (run ← update f run; _ ← set_buffers (drop_buffers x); _ ← save_run e run; mret (g run)).
Proof.
  intros Hne. apply keeps_bind; [apply keeps_update|]. intros run' _ _ _.
  apply keeps_bind; [by apply keeps_drop|]. intros _ _ _ _. apply keeps_bind; [apply keeps_repository|]. intros.
  apply keeps_mret.
Qed.

Lemma keeps_append {A} e f run id (x : StoredRun -> A) :
  keeps id (run ← update f run; _ ← save_run e run; mret (x run)).
Proof.
  apply keeps_bind; [apply keeps_update|]. intros run' _ _ _. apply keeps_bind; [apply keeps_repository|]. intros.
  apply keeps_mret.
Qed.

Lemma keeps_unit {A} id (m : st (RunApiState R) A) s : kept id s (snd (m s)) -> kept id s (snd ((_ ← m; mret tt) s)).
Proof. unfold mbind, st_bind. by destruct (m s) as [[?|? ?] ?]. Qed.

Lemma keeps_validated {A B} id (v : result A) (m : A -> st (RunApiState R) B) s :
  (forall a, v = Ok a -> kept id s (snd (m a s))) -> kept id s (snd ((a ← lift v; m a) s)).
Proof. unfold mbind, st_bind, lift. intros Hm. destruct v; [by apply Hm|done]. Qed.

Lemma call_kept e c k s : store_ok (repository s) -> key_of (id_of k) = Some k -> key_of (call_target e c) <> Some k ->
  kept (id_of k) s (snd (run_call root open_wav log10 resolve_request e c s)).
Proof.
  intros Hok Hk Hne. assert (forall x, key_of x <> Some k -> id_of k <> x) as Hx by congruence.
  destruct c as [r|raw|raw|raw|id|id alias]; unfold run_call; cbn [call_target] in Hne;
    try (apply keeps_validated; intros v Hv); apply keeps_unit.
  - apply keeps_bind; [apply keeps_lift|]. intros res _ _ _. apply keeps_bind; [apply keeps_lift|]. intros run _ _ _.
    apply keeps_bind; [apply keeps_repository|]. intros. apply keeps_mret.
  - apply kept_find; [done..|by rewrite (validate_batch_run _ _ Hv)|]. intros run Hr. destruct (negb _); [apply keeps_lift|].
    apply keeps_bind; [apply keeps_lift|]. intros cfg _ _ _. destruct (unknown_stages cfg v); [|apply keeps_lift].
    apply keeps_bind; [apply keeps_lift|]. intros decoded _ _ _. apply keeps_bind; [apply keeps_get|]. intros s0 _ _ _.
    apply keeps_bind; [apply keeps_lift|]. intros _ _ _ _. apply keeps_bind; [by apply keeps_chunks|].
    intros run' _ _ _. apply (keeps_append e _ run' _ (fun run => MkBatchResponse (run_id run) (len (ob_metrics v)) (len (ob_audio_chunks v))
                (len (ob_sip_events v)) (len (ob_rtp_stats v)) (len (ob_timeline_events v)) (len (recordings run)))).
  - apply kept_find; [done..|]. intros run _. apply (keeps_append e _ run _ (fun _ => sip_response v)).
  - apply kept_find; [done..|]. intros run _. apply (keeps_append e _ run _ (fun _ => rtp_response v)).
  - apply kept_find; [done..|]. intros run _. destruct (String.eqb _ _); [apply keeps_mret|].
    destruct (negb _); [apply keeps_lift|]. apply keeps_bind; [apply keeps_get|]. intros s0 _ _ _.
    apply keeps_bind; [apply keeps_lift|]. intros v _ _ _. apply keeps_end. auto.
  - apply kept_find; [done..|]. intros run _. destruct (String.eqb _ _); [apply keeps_mret|].
    destruct (negb _); [apply keeps_lift|]. apply keeps_end. auto.
Qed.

Lemma create_others e r s k : store_ok (repository s) -> call_ok e (CreateObserved r) s ->
  key_of (uuid_str (call_uuid e)) <> Some k ->
  run_at (snd (create_observed_run resolve_request e r s)) k = run_at s k.
Proof.
  intros Hok (Henv & Hitems & _) Hne. unfold create_observed_run, mbind, st_bind, lift.
  destruct (_resolve_run_request _ _) as [res|]; [|done].
  destruct (_create_running_run e r res) as [run|] eqn:Er; [|done].
  unfold _create_running_run in Er. simpl_res. set (run := with_conversation _ _).
  assert (validated run) as Hv by (split; done).
  unfold save_run, on_repository. destruct (commit _ _ _) as [x repo] eqn:Ec.
  destruct (commit_spec _ _ _ _ _ Hok Hv Ec) as [[-> Hx]|(-> & Hok' & k' & Hk' & _ & Hother)].
  - by destruct x.
  - apply Hother. intros ->. apply Hne. apply Hk'.
Qed.

Lemma call_others e c k s : store_ok (repository s) -> call_ok e c s -> key_of (call_target e c) <> Some k ->
  run_at (snd (run_call root open_wav log10 resolve_request e c s)) k = run_at s k.
Proof.
  assert (forall A (m : st (RunApiState R) A), run_at (snd (m s)) k = run_at s k -> run_at (snd ((_ ← m; mret tt) s)) k = run_at s k) as Hd.
  { intros A m. unfold mbind, st_bind. by destruct (m s) as [[?|? ?] ?]. }
  intros Hok Hc Hne. destruct c as [r|raw|raw|raw|id|id alias]; unfold run_call; cbn [call_target] in Hne;
    try (unfold mbind at 1, st_bind at 1, lift at 1; destruct (_ : result _) as [v|] eqn:Hv; [|done]); apply Hd.
  - by apply create_others.
  - eapply touches_others; [apply batch_touches; [done|by eapply validate_batch_ok]|]. by rewrite (validate_batch_run _ _ Hv).
  - eapply touches_others; [apply append_touches; [done|]|done].
    intros run. apply allowed_observations; [by right|]. by rewrite app_nil_r.
  - eapply touches_others; [apply append_touches; [done|]|done].
    intros run. apply allowed_observations; [by right|]. by rewrite app_nil_r.
  - eapply touches_others; [by apply complete_touches|done].
  - eapply touches_others; [by apply fail_touches|done].
Qed.

(** ** Sessions *)

(** The chunks of a batch with their audio. *)
Definition decoded_batch (b : ObservationBatchRequest) : result chunks :=
  mapM_res (fun c => pcm ← _decode_audio_chunk c; Ok (c, pcm)) (ob_audio_chunks b).

(** Accepted batches of the run [k], with the chunks they brought, and any
    calls on other runs in between. *)
Inductive session (k : store_key) s0 : chunks -> RunApiState R -> Prop :=
  | session_start : session k s0 [] s0
  | session_batch l s e raw b decoded s' : session k s0 l s -> validate_batch raw = Ok b ->
      key_of (ob_run_id b) = Some k -> decoded_batch b = Ok decoded ->
      run_call root open_wav log10 resolve_request e (Observations raw) s = (Ok tt, s') ->
      session k s0 (l ++ decoded) s'
  | session_other l s e c : session k s0 l s -> call_ok e c s -> key_of (call_target e c) <> Some k ->
      session k s0 l (snd (run_call root open_wav log10 resolve_request e c s)).

Lemma session_accounted k s0 l s : store_ok (repository s0) -> key_of (id_of k) = Some k -> accounted k s0 [] ->
  session k s0 l s -> store_ok (repository s) /\ accounted k s l.
Proof.
  intros Hok Hk Ha Hs. induction Hs as [|l s e raw b decoded s' _ [IHok IH] Hv Hb Hd Hc|l s e c _ [IHok IH] Hcall Hne].
  - done.
  - split.
    + pose proof (call_advances root open_wav log10 resolve_request e (Observations raw) s IHok I) as [Hok' _].
      by rewrite Hc in Hok'.
    + unfold run_call, mbind at 1, st_bind at 1, lift at 1 in Hc. rewrite Hv in Hc.
      apply st_bind_ok in Hc as (resp & s1 & Hc & Hm). unfold mret, st_ret in Hm. injection Hm as <-.
      eapply batch_accounted; try done. by eapply validate_batch_ok.
  - split; [by apply call_advances|]. destruct IH as (run & Hr & Hid & Ht). exists run.
    rewrite call_others by done. split_and!; [done..|].
    destruct (call_kept e c k s IHok Hk Hne) as [Hb Hf]. by eapply tracks_ext.
Qed.

(** The audio of a stage some chunk of which was accepted. *)
Lemma session_recorded k s0 l s cp : store_ok (repository s0) -> key_of (id_of k) = Some k -> is_Some (run_at s0 k) ->
  (forall stage, dict_get (id_of k, stage) (audio_buffers s0) = None) -> session k s0 l s -> cp ∈ l ->
  exists run b, run_at s k = Some run /\ booked (id_of k) (ao_stage cp.1) run s l b.
Proof.
  intros Hok Hk [run0 Hr0] Hnone Hs Hcp.
  assert (accounted k s0 []) as Ha.
  { exists run0. split; [done|]. split; [by eapply view_id|]. intros stage. left. split; [|apply Hnone].
    intros x Hx. by apply not_elem_of_nil in Hx. }
  destruct (session_accounted _ _ _ _ Hok Hk Ha Hs) as [_ (run & Hr & _ & Ht)].
  destruct (Ht (ao_stage cp.1)) as [[Hno _]|[_ (b & Hb)]]; [by destruct (Hno cp Hcp)|]. by exists run, b.
Qed.
End ledger.

(** ** What an accepted batch does to the run *)

Lemma filterb_none {A} (p : A -> bool) l : (forall x, x ∈ l -> p x = false) -> filterb p l = [].
Proof.
  unfold filterb. induction l as [|x l IH]; intros Hp; cbn; [done|]. rewrite Hp by left. apply IH. intros. apply Hp. by right.
Qed.

Section batches.
Context {R F : Type} `{RunStoreLaws R F} (root : string).
Implicit Types (e : call_env F) (run : StoredRun) (s : RunApiState R).

Lemma write_chunks_fields e l : forall run s run' s', write_chunks root e run l s = (Ok run', s') ->
  exists recs, run' = with_recordings recs run.
Proof.
  induction l as [|[c pcm] l IH]; intros run s run' s' Hw; cbn [write_chunks] in Hw.
  - unfold mret, st_ret in Hw. injection Hw as -> ->. exists (recordings run'). by destruct run'.
  - apply st_bind_ok in Hw as (run1 & s1 & H1 & Hw). apply write_chunk_ok in H1 as (b & d & _ & _ & _ & _ & ->).
    apply IH in Hw as [recs ->]. by exists recs.
Qed.

Lemma unknown_stages_none configured b st : unknown_stages configured b = [] -> st ∈ referenced_stages b -> st ∈ configured.
Proof.
  unfold unknown_stages. intros Hu Hst. destruct (decide (st ∈ configured)) as [|Hno]; [done|]. exfalso.
  assert (st ∈ sorted_by str_leb (filterb (fun x => negb (bool_decide (x ∈ configured))) (referenced_stages b))) as Hin.
  { apply elem_of_sorted_by, list_elem_of_In, filter_In. split; [by apply list_elem_of_In|]. by rewrite bool_decide_false. }
  rewrite Hu in Hin. by apply not_elem_of_nil in Hin.
Qed.

(** The run [v] after the batch [b] was accepted for [run]. *)
Record batch_applied (b : ObservationBatchRequest) run (v : StoredRun) : Prop := {
  applied_status : status run = "running" /\ status v = "running";
  applied_stages : exists configured, _configured_stage_names run = Ok configured
    /\ forall st, st ∈ referenced_stages b -> st ∈ configured;
  applied_metrics : metrics v = metrics run ++ map metric_artifact (ob_metrics b);
  applied_sip : sip_events v = sip_events run ++ map sip_response (ob_sip_events b);
  applied_rtp : rtp_stats v = rtp_stats run ++ map rtp_response (ob_rtp_stats b);
  applied_events : event_ids v
    = event_ids run ++ filterb (fun id => negb (bool_decide (id ∈ event_ids run))) (map to_event_id (ob_timeline_events b)) }.

Lemma batch_applied_ok e b s resp s' : store_ok (repository s) -> NoDup (map to_event_id (ob_timeline_events b)) ->
  ingest_observation_batch root e b s = (Ok resp, s') ->
  exists k run v, key_of (ob_run_id b) = Some k /\ run_at s k = Some run /\ run_at s' k = Some v
    /\ batch_applied b run v
    /\ resp = MkBatchResponse (id_of k) (len (ob_metrics b)) (len (ob_audio_chunks b)) (len (ob_sip_events b))
                (len (ob_rtp_stats b)) (len (ob_timeline_events b)) (len (recordings v)).
Proof.
  intros Hok Hn Hi. unfold ingest_observation_batch in Hi.
  apply st_bind_ok in Hi as (run & s0 & Hf & Hi). apply find_run_spec in Hf as [-> Hf]; [|done].
  destruct (Hf run eq_refl) as (k & Hk & Hr & Hw).
  destruct (String.eqb_spec (status run) "running") as [Hrun|]; cbn [negb] in Hi; [|done].
  apply st_bind_ok in Hi as (configured & s1 & Hc & Hi). apply lift_ok in Hc as [Hcfg ->].
  destruct (unknown_stages configured b) eqn:Hu; [|done].
  apply st_bind_ok in Hi as (decoded & s1 & Hd & Hi). apply lift_ok in Hd as [_ ->].
  apply st_bind_ok in Hi as (s1 & s2 & Hg & Hi). unfold get_state in Hg. injection Hg as <- <-.
  apply st_bind_ok in Hi as (u & s1 & Hc & Hi). apply lift_ok in Hc as [_ ->].
  apply st_bind_ok in Hi as (run1 & s1 & H1 & Hi).
  pose proof H1 as Hwork. eapply write_chunks_working in Hwork as (run1' & Hw1 & Hrun1 & Hx); [|done..].
  rewrite <- (Hx run1 eq_refl) in *. apply write_chunks_fields in H1 as [recs ->].
  apply st_bind_ok in Hi as (run2 & s2 & H2' & Hi).
  eapply working_update in H2' as (Hx2 & Hw2 & _); [|done|].
  2: { apply allowed_observations; [by left|]. intros. by apply new_events_distinct. }
  injection Hx2 as ->. apply st_bind_ok in Hi as ([] & s3 & H3 & Hi). unfold mret, st_ret in Hi. injection Hi as Hresp <-.
  eapply working_save in H3 as (Hw3 & _ & _ & Hv); [|done]. destruct (Hv eq_refl) as (v & Hv1 & Hsame).
  exists k, run, v. split_and!; [done..| |].
  - pose proof (same_run_ids _ _ Hsame) as Hids. destruct Hsame. constructor.
    + split; [done|]. by rewrite same_status.
    + exists configured. split; [done|]. intros st. by apply unknown_stages_none.
    + by rewrite same_metrics.
    + by rewrite same_sip.
    + by rewrite same_rtp.
    + rewrite Hids. unfold event_ids at 1. cbn. rewrite map_app. f_equal. by rewrite <- new_events_ids.
  - rewrite <- Hresp. apply same_recordings in Hsame. apply (f_equal length) in Hsame. rewrite !length_map in Hsame.
    f_equal; [apply Hw2|]. unfold len. cbn in *. congruence.
Qed.
End batches.

(** An accepted batch has exactly its effect, in whatever repository: the
    run was running and stays so, every stage the batch names is configured,
    its metrics, SIP events and RTP statistics are appended in their order, and
    of its timeline events exactly those whose identifier the run does not have
    yet.  So a batch that is sent again adds none of its events a second time,
    and the events of the run stay distinct. *)
Theorem accepted_batch_exact {R F} `{RunStoreLaws R F} root (e : call_env F) raw b (s s' : RunApiState R) resp :
  store_ok (repository s) -> validate_batch raw = Ok b ->
  ingest_observation_batch root e b s = (Ok resp, s') ->
  exists k run v, key_of (ob_run_id b) = Some k /\ run_at s k = Some run /\ run_at s' k = Some v
    /\ batch_applied b run v
    /\ (NoDup (event_ids run) -> NoDup (event_ids v))
    /\ (forall id, id ∈ event_ids v <-> id ∈ event_ids run \/ id ∈ map to_event_id (ob_timeline_events b))
    /\ new_events v b = [] /\ br_run_id resp = id_of k /\ recording_count resp = len (recordings v).
Proof.
  intros Hok Hv Hi. pose proof (validate_batch_ok _ _ Hv) as Hn.
  destruct (batch_applied_ok root e b s resp s' Hok Hn Hi) as (k & run & v & Hk & Hr & Hr' & Hb & ->).
  exists k, run, v. pose proof (applied_events _ _ _ Hb) as He.
  assert (forall id, id ∈ event_ids v <-> id ∈ event_ids run \/ id ∈ map to_event_id (ob_timeline_events b)) as Hids.
  { intros id. rewrite He, elem_of_app, !list_elem_of_In, filter_In, <- !list_elem_of_In.
    rewrite negb_true_iff, bool_decide_eq_false. destruct (decide (id ∈ event_ids run)); naive_solver. }
  split_and!; try done.
  - intros Hd. rewrite He. rewrite <- new_events_ids. by apply new_events_distinct.
  - apply (map_eq_nil ev_event_id). rewrite new_events_ids. apply filterb_none.
    intros id Hid. apply negb_false_iff, bool_decide_eq_true, Hids. auto.
Qed.

(** C6. While a run is observed, through any accepted batches of it and any
    calls on other runs in between: for every stage the run has audio of, the
    WAV file of that stage holds exactly the concatenation, in their order, of
    the decoded chunks of the stage, all of which have the sample rate and the
    channels the file declares; and the stored run has a recording of the
    stage with the duration of that audio, whose URI leads the audio endpoint
    to that file. *)
Theorem observed_audio_is_recorded {R F} `{RunStoreLaws R F} directory open_wav log10 resolve
    k (s0 s : RunApiState R) l st :
  let root := String "/" directory in
  store_ok (repository s0) -> key_of (id_of k) = Some k -> is_Some (run_at s0 k) ->
  (forall stage, dict_get (id_of k, stage) (audio_buffers s0) = None) ->
  session root open_wav log10 resolve k s0 l s -> (exists cp, cp ∈ l /\ ao_stage cp.1 = st) ->
  exists run rate channels d path,
    run_at s k = Some run
    /\ (forall cp, cp ∈ l -> ao_stage cp.1 = st -> chunk_format cp.1 = (rate, channels))
    /\ path = recording_path root (id_of k) st
    /\ files s !! path = Some (wav_bytes channels rate (stage_pcm st l))
    /\ buffer_duration (MkBuffer rate channels (stage_pcm st l)) = Ok d
    /\ audio_entry st run = Some (st, as_uri path, d)
    /\ _local_recording_path (as_uri path) = Some (Some path).
Proof.
  intros root Hok Hk Hrun Hnone Hs (cp & Hcp & Hst).
  destruct (session_recorded _ _ _ _ _ _ _ _ cp Hok Hk Hrun Hnone Hs Hcp) as (run & b & Hr & []). rewrite Hst in *.
  destruct booked_recording0 as (d & Hd & He).
  exists run, (buf_sample_rate_hz b), (buf_channels b), d, (recording_path root (id_of k) st).
  split_and!; try done.
  - rewrite <- Hd. f_equal. rewrite <- booked_pcm0. by destruct b.
  - apply local_path_of_uri.
Qed.

Lemma observed_audio_is_recorded_witness :
  exists run rate channels d path,
    run_at demo_observed (uuid_str 7) = Some run
    /\ files demo_observed !! path = Some (wav_bytes rate channels (map byte_of [1; 2; 1; 2]))
    /\ audio_entry "agc" run = Some ("agc", as_uri path, d).
Proof.
  destruct (@observed_audio_is_recorded InMemory.store unit _ memory_laws "rec" demo_wav (fun x => Ok x) (fun _ => Ok demo_resolved)
    (uuid_str 7) demo_created demo_observed
    [(demo_chunk (map byte_of [1; 2]), map byte_of [1; 2]); (demo_chunk (map byte_of [1; 2]), map byte_of [1; 2])] "agc")
    as (run & rate & channels & d & path & H1 & _ & _ & H4 & _ & H6 & _).
  - apply demo_created_ok.
  - reflexivity.
  - vm_compute. eexists. reflexivity.
  - intros stage. reflexivity.
  - eapply (session_batch _ _ _ _ _ _ [] demo_created demo_call (demo_batch (map byte_of [1; 2]))).
    + apply session_start.
    + vm_compute. reflexivity.
    + reflexivity.
    + vm_compute. reflexivity.
    + vm_compute. reflexivity.
  - exists (demo_chunk (map byte_of [1; 2]), map byte_of [1; 2]). split; [left|reflexivity].
  - exists run, channels, rate, d, path. split; [exact H1|]. split; [exact H4|exact H6].
Defined.

Lemma accepted_batch_exact_witness :
  exists v, run_at demo_observed (uuid_str 7) = Some v /\ new_events v (demo_batch (map byte_of [1; 2])) = []
    /\ exists run, run_at demo_created (uuid_str 7) = Some run /\ batch_applied (demo_batch (map byte_of [1; 2])) run v.
Proof.
  destruct (accepted_batch_exact "/rec" demo_call (demo_batch (map byte_of [1; 2])) (demo_batch (map byte_of [1; 2]))
    demo_created demo_observed (MkBatchResponse (uuid_str 7) 1 2 0 0 1 1))
    as (k & run & v & Hk & H1 & H2 & H3 & _ & _ & H4 & _).
  - apply demo_created_ok.
  - vm_compute. reflexivity.
  - vm_compute. reflexivity.
  - injection Hk as <-. exists v. split; [exact H2|]. split; [exact H4|]. exists run. split; [exact H1|exact H3].
Defined.
