(* ===== verification/PyStats.v ===== *)
(** * Sums and statistics of floats

    [math.fsum] and the functions of the [statistics] module that the code
    uses, on lists of floats: the exact sum correctly rounded, the mean, the
    median and the population standard deviation, whose exact variance is
    rounded once under the square root. *)
From S2P Require Import Prelude Collections PyFloat.
From Stdlib Require Import QArith Qabs.
From Stdlib Require Import Sorting.Permutation Sorting.Sorted.

Open Scope Z_scope.

(** ** [math.fsum] *)

(** One summand through the partial sums: [x], or the error that overflow
    raises. *)
Fixpoint fsum_insert (x : float) (partials : list float) : result (list float) :=
  match partials with
  | [] => Ok [x]
  | y :: rest =>
      let '(x, y) := if fltb (fabs x) (fabs y) then (y, x) else (x, y) in
      let hi := fadd x y in
      let lo := fsub y (fsub hi x) in
      if negb (is_finite hi) then Raise OverflowError "intermediate overflow in fsum"
      else
        rest' ← fsum_insert hi rest;
        Ok (if feqb lo fzero then rest' else lo :: rest')
  end.

Definition float_value (x : float) : Q := match x with Fin q => q | _ => 0%Q end.

Definition exact_sum (l : list float) : Q := fold_right (fun x s => (float_value x + s)%Q) 0%Q l.

(** The sum of the values that are not finite, which decides the result when
    there are any. *)
Definition special_sum (l : list float) : result float :=
  let has_pinf := existsb (fun x => match x with PInf => true | _ => false end) l in
  let has_ninf := existsb (fun x => match x with NInf => true | _ => false end) l in
  if has_pinf && has_ninf then Raise ValueError "-inf + inf in fsum"
  else if existsb is_nan l then Ok NaN
  else if has_pinf then Ok PInf else Ok NInf.

(** A value that is not finite empties the partial sums. *)
Definition fsum_step (partials : list float) (x : float) : result (list float) :=
  if is_finite x then fsum_insert x partials else Ok [].

Definition fsum (l : list float) : result float :=
  _ ← foldM_res fsum_step [] l;
  if forallb is_finite l then Ok (fl (exact_sum l)) else special_sum l.

(** ** [statistics] *)

Definition fmean (data : list float) : result float :=
  total ← fsum data; fdiv total (fz (len data)).

Definition sorted_floats (data : list float) : list float := sorted_by fleb data.

(** [statistics.median] of a list that is not empty. *)
Definition median (data : list float) : result float :=
  let data := sorted_floats data in
  let i := Z.to_nat (len data / 2) in
  match data !! i, data !! (i - 1)%nat with
  | Some upper, Some lower => if Z.odd (len data) then Ok upper else fdiv (fadd lower upper) (fz 2)
  | Some upper, None => Ok upper
  | None, _ => Raise StatisticsError "no median for empty data"
  end.

(** The exact population variance of finite values. *)
Definition exact_variance (data : list float) : Q :=
  let n := inject_Z (len data) in
  let sx := exact_sum data in
  let sxx := fold_right (fun x s => (float_value x * float_value x + s)%Q) 0%Q data in
  ((n * sxx - sx * sx) / (n * n))%Q.

(** [statistics.pstdev] of a list that is not empty. *)
Definition pstdev (data : list float) : result float :=
  if forallb is_finite data then Ok (fl (rnd_sqrt (exact_variance data)))
  else Raise AttributeError "numerator".
