(* ===== verification/Scoring.v ===== *)
(** * Full-reference scoring

    [verification/full_reference.py]: the pairing of stage references with
    recordings, and [verification/scoring.py]: the boundary that turns every
    outcome of an optional scorer into a safe explicit state.  A scorer is a
    record of what its methods return or raise. *)
From S2P Require Import Prelude Collections PyFloat PyData RunModel Json.
From Stdlib Require Import QArith.

Open Scope Z_scope.

(** ** Selection *)

Record StageReference := MkReference {
  ref_stage : string; ref_uri : string; ref_comparison_format : jdict; ref_transformations : list (option string);
  comparison_ready : bool; blocked_reason : option string }.

(** A transformation that is not a string is [None]. *)
Record FullReferenceCandidate := MkCandidate {
  cand_stage : string; reference_uri : string; degraded_uri : string; comparison_format : jdict;
  degraded_format : jdict; cand_transformations : list (option string) }.
Record FullReferenceBlock := MkBlock { block_stage : string; block_reason : string }.
Record FullReferenceSelection := MkSelection {
  candidates : list FullReferenceCandidate; blocked : list FullReferenceBlock }.

(** [d.get(k)], [None] for an absent key. *)
Definition jget_none (k : string) (d : jdict) : json := match jget k d with Some v => v | None => JNull end.

Definition _comparison_formats_match (reference_format recording_format : jdict) : bool :=
  forallb (fun k => json_eqb (jget_none k reference_format) (jget_none k recording_format))
    ["encoding"; "rate"; "channels"].

Lemma json_eqb_int z : json_eqb (JInt z) (JInt z) = true.
Proof. change (feqb (Fin (inject_Z z)) (Fin (inject_Z z)) = true). unfold feqb. by rewrite fleb_refl. Qed.

Lemma int_formats_match encoding rate channels :
  let format := [("encoding", JStr encoding); ("rate", JInt rate); ("channels", JInt channels)] in
  _comparison_formats_match format format = true.
Proof.
  change (json_eqb (JStr encoding) (JStr encoding)
          && (json_eqb (JInt rate) (JInt rate) && (json_eqb (JInt channels) (JInt channels) && true)) = true).
  rewrite !json_eqb_int. cbn [json_eqb]. by rewrite String.eqb_refl.
Qed.

(** [reason or fallback]. *)
Definition or_text (reason : option string) (fallback : string) : string :=
  match reason with Some r => if String.eqb r "" then fallback else r | None => fallback end.

(** What becomes of one reference that is the first of its stage. *)
Definition pair_reference (recordings_by_stage : list (string * RecordingArtifact)) (r : StageReference)
    : FullReferenceCandidate + FullReferenceBlock :=
  if negb (comparison_ready r) then inr (MkBlock (ref_stage r) (or_text (blocked_reason r) "reference-not-ready"))
  else match dict_get (ref_stage r) recordings_by_stage with
       | None => inr (MkBlock (ref_stage r) "stage-recording-missing")
       | Some recording =>
           if negb (_comparison_formats_match (ref_comparison_format r) (rec_format recording))
           then inr (MkBlock (ref_stage r) "comparison-format-mismatch")
           else inl (MkCandidate (ref_stage r) (ref_uri r) (rec_uri recording) (ref_comparison_format r)
                       (rec_format recording) (ref_transformations r))
       end.

Definition select_step (recordings_by_stage : list (string * RecordingArtifact))
    (s : FullReferenceSelection * list string) (r : StageReference) : FullReferenceSelection * list string :=
  let '(selection, seen_stages) := s in
  if bool_decide (ref_stage r ∈ seen_stages)
  then (MkSelection (candidates selection) (blocked selection ++ [MkBlock (ref_stage r) "duplicate-stage-reference"]),
        seen_stages)
  else match pair_reference recordings_by_stage r with
       | inl c => (MkSelection (candidates selection ++ [c]) (blocked selection), ref_stage r :: seen_stages)
       | inr b => (MkSelection (candidates selection) (blocked selection ++ [b]), ref_stage r :: seen_stages)
       end.

Definition select_full_reference_candidates (stage_references : list StageReference)
    (recordings : list RecordingArtifact) : FullReferenceSelection :=
  let recordings_by_stage := dict_of_list (map (fun r => (rec_stage r, r)) recordings) in
  fst (fold_left (select_step recordings_by_stage) stage_references (MkSelection [] [], [])).

(** ** Safe names *)

(** [^first[rest]{0,n}$] matched in full. *)
Definition full_match (first rest : Ascii.ascii -> bool) (n : Z) (s : string) : bool :=
  match chars s with
  | c :: l => first c && forallb rest l && (len l <=? n)
  | [] => false
  end.

Definition is_lower (c : Ascii.ascii) : bool := in_range 97 122 c.
Definition is_lower_or_digit (c : Ascii.ascii) : bool := is_lower c || is_digit_char c.

Definition _SAFE_NAME : string -> bool :=
  full_match is_lower (fun c => is_lower_or_digit c || char_in ["_"; "."; "-"]%char c) 63.
Definition _SAFE_REASON : string -> bool :=
  full_match is_lower_or_digit (fun c => is_lower_or_digit c || char_in ["_"; "."; ":"; "-"]%char c) 127.
Definition _SAFE_TRANSFORMATION : string -> bool :=
  full_match is_lower_or_digit (fun c => is_lower_or_digit c || char_in ["_"; "."; ":"; ">"; "-"]%char c) 127.

Record FullReferenceScorerContract := MkContract {
  scorer : string; contract_metric_name : string; minimum_score : float; maximum_score : float }.

#[export] Instance contract_eq_dec : EqDecision FullReferenceScorerContract.
Proof. solve_decision. Defined.

(** The constructor with [__post_init__]. *)
Definition make_contract (scorer metric_name : string) (lo hi : float) : result FullReferenceScorerContract :=
  _ ← guard_else (_SAFE_NAME scorer) ValueError "scorer must be a safe lowercase alias";
  _ ← guard_else (_SAFE_NAME metric_name) ValueError "metric_name must be a safe lowercase alias";
  _ ← guard_else (is_finite lo && is_finite hi) ValueError "score bounds must be finite";
  _ ← guard_else (negb (fleb hi lo)) ValueError "minimum_score must be less than maximum_score";
  Ok (MkContract scorer metric_name lo hi).

Record FullReferenceScorerReadiness := MkReadiness { available : bool; readiness_reason : option string }.

(** What [scorer.score] returns: a plain number or a measurement. *)
Inductive measurement : Type :=
  | PlainScore (score : float)
  | FullReferenceMeasurement (score : float) (transformations : list (option string)).

Record FullReferenceScorer := MkScorer {
  contract : FullReferenceScorerContract;
  readiness : result FullReferenceScorerReadiness;
  score_of : FullReferenceCandidate -> result measurement }.

Inductive score_state : Type := scored | unavailable | blocked_ | failed_.

#[export] Instance score_state_eq_dec : EqDecision score_state.
Proof. solve_decision. Defined.

Record FullReferenceScoreResult := MkScoreResult {
  res_stage : string; res_scorer : string; res_metric_name : string; res_state : score_state;
  res_score : option float; res_reason_alias : option string; res_transformations : list string }.

Record FullReferenceScoringReport := MkScoringReport {
  report_contract : FullReferenceScorerContract; results : list FullReferenceScoreResult }.

Definition _result (stage : string) (c : FullReferenceScorerContract) (state : score_state)
    (score : option float) (reason_alias : option string) (transformations : list string)
    : FullReferenceScoreResult :=
  MkScoreResult stage (scorer c) (contract_metric_name c) state score reason_alias transformations.

Definition _safe_reason (reason : option string) (fallback : string) : string :=
  match reason with Some r => if _SAFE_REASON r then r else fallback | None => fallback end.

Definition _safe_transformations (transformations : list (option string)) (fallback : string) : list string :=
  map (fun t => match t with Some t => if _SAFE_TRANSFORMATION t then t else fallback | None => fallback end)
    transformations.

Definition _score_candidate (s : FullReferenceScorer) (candidate : FullReferenceCandidate)
    : FullReferenceScoreResult :=
  let c := contract s in
  let transformations := _safe_transformations (cand_transformations candidate) "reference-transform" in
  match score_of s candidate with
  | Raise _ _ => _result (cand_stage candidate) c failed_ None (Some "scorer-error") transformations
  | Ok m =>
      let '(score, transformations) := match m with
        | PlainScore x => (x, transformations)
        | FullReferenceMeasurement x more =>
            (x, transformations ++ _safe_transformations more "scorer-input-transform")
        end in
      if negb (is_finite score)
      then _result (cand_stage candidate) c failed_ None (Some "score-not-finite") transformations
      else if negb (fleb (minimum_score c) score && fleb score (maximum_score c))
      then _result (cand_stage candidate) c failed_ None (Some "score-out-of-range") transformations
      else _result (cand_stage candidate) c scored (Some score) None transformations
  end.

Definition score_full_reference_selection (selection : FullReferenceSelection) (s : FullReferenceScorer)
    : FullReferenceScoringReport :=
  let ready := match readiness s with
               | Ok r => r
               | Raise _ _ => MkReadiness false (Some "scorer-readiness-error") end in
  let scores :=
    if negb (available ready) then
      let reason_alias := _safe_reason (readiness_reason ready) "scorer-unavailable" in
      map (fun c => _result (cand_stage c) (contract s) unavailable None (Some reason_alias)
                      (_safe_transformations (cand_transformations c) "reference-transform")) (candidates selection)
    else map (_score_candidate s) (candidates selection) in
  MkScoringReport (contract s)
    (scores ++ map (fun b => _result (block_stage b) (contract s) blocked_ None
                       (Some (_safe_reason (Some (block_reason b)) "input-blocked")) []) (blocked selection)).

Definition full_reference_scores_to_metrics (report : FullReferenceScoringReport) (observed_at : instant)
    : list MetricArtifact :=
  omap (fun r => match res_state r, res_score r with
                 | scored, Some x => Some (MkMetric (Some (res_stage r)) (res_metric_name r) x observed_at)
                 | _, _ => None
                 end) (results report).

(** ** Selection is a partition *)

Section selection.
Context (by_stage : list (string * RecordingArtifact)).

(** A candidate comes from a ready reference and a recording of its stage with
    the same format. *)
Definition candidate_ok (refs : list StageReference) (c : FullReferenceCandidate) : Prop :=
  exists r recording, r ∈ refs /\ comparison_ready r = true
  /\ dict_get (ref_stage r) by_stage = Some recording
  /\ _comparison_formats_match (ref_comparison_format r) (rec_format recording) = true
  /\ c = MkCandidate (ref_stage r) (ref_uri r) (rec_uri recording) (ref_comparison_format r)
           (rec_format recording) (ref_transformations r).

Lemma pair_reference_ok r :
  match pair_reference by_stage r with
  | inl c => cand_stage c = ref_stage r /\ candidate_ok [r] c
  | inr b => block_stage b = ref_stage r
  end.
Proof.
  unfold pair_reference. destruct (comparison_ready r) eqn:Er; [|done]. cbn [negb].
  destruct (dict_get (ref_stage r) by_stage) as [recording|] eqn:Eg; [|done].
  destruct (_comparison_formats_match _ _) eqn:Ef; [|done]. cbn [negb]. split; [done|].
  exists r, recording. split_and!; try done. left.
Qed.

Record selection_ok (refs : list StageReference) (s : FullReferenceSelection * list string) : Prop := {
  sk_partition : Permutation (map cand_stage (candidates s.1) ++ map block_stage (blocked s.1)) (map ref_stage refs);
  sk_once : NoDup (map cand_stage (candidates s.1));
  sk_seen : forall c, c ∈ candidates s.1 -> cand_stage c ∈ s.2;
  sk_sound : Forall (candidate_ok refs) (candidates s.1) }.

Lemma candidate_ok_weaken refs r c : candidate_ok refs c -> candidate_ok (refs ++ [r]) c.
Proof. intros (r0 & recording & Hr & H). exists r0, recording. split; [set_solver|done]. Qed.

Lemma select_step_ok refs s r : selection_ok refs s -> selection_ok (refs ++ [r]) (select_step by_stage s r).
Proof.
  destruct s as [[cs bs] seen]. intros [Hp Ho Hs Hc]. cbn in *. unfold select_step. cbn [candidates blocked].
  assert (Forall (candidate_ok (refs ++ [r])) cs) as Hc'
    by (eapply Forall_impl; [exact Hc|]; intros; by apply candidate_ok_weaken).
  assert (forall b, block_stage b = ref_stage r ->
    Permutation (map cand_stage cs ++ map block_stage (bs ++ [b])) (map ref_stage (refs ++ [r]))) as Hblock.
  { intros b Hb. rewrite !map_app, app_assoc, Hp. cbn. by rewrite Hb. }
  destruct (bool_decide_reflect (ref_stage r ∈ seen)) as [Hin|Hn].
  { constructor; cbn; auto. }
  pose proof (pair_reference_ok r) as Hpair. destruct (pair_reference by_stage r) as [c|b].
  - destruct Hpair as [Hst (r0 & recording & Hr0 & Hok)]. apply list_elem_of_singleton in Hr0 as ->. constructor; cbn.
    + rewrite !map_app. cbn [map]. rewrite Hst, <- Hp. rewrite <- !app_assoc. apply Permutation_app_head.
      apply Permutation_app_comm.
    + rewrite map_app. cbn [map]. apply NoDup_app. split_and!; [done| |apply NoDup_singleton].
      intros st Hst' E. apply list_elem_of_singleton in E as ->. apply Hn. rewrite <- Hst.
      apply list_elem_of_fmap in Hst' as (c' & Hst' & Hc''). rewrite Hst'. by apply Hs.
    + intros c' [Hc''|Hc'']%elem_of_app; [right; by apply Hs|].
      apply list_elem_of_singleton in Hc'' as ->. rewrite Hst. left.
    + apply Forall_app. split; [done|]. constructor; [|done]. exists r, recording. split; [set_solver|done].
  - constructor; cbn; auto. intros c Hc''. right. by apply Hs.
Qed.

Lemma select_loop_ok refs : selection_ok refs (fold_left (select_step by_stage) refs (MkSelection [] [], [])).
Proof.
  induction refs as [|r refs IH] using rev_ind; [constructor; cbn; try constructor; set_solver|].
  rewrite fold_left_app. by apply select_step_ok.
Qed.
End selection.

(** ** Results are safe *)

Definition safe_text (s : string) : Prop := _SAFE_REASON s = true.

(** Nothing a scorer returned or raised shows beyond a score in range. *)
Record result_safe (c : FullReferenceScorerContract) (r : FullReferenceScoreResult) : Prop := {
  rs_contract : res_scorer r = scorer c /\ res_metric_name r = contract_metric_name c;
  rs_outcome : match res_state r with
    | scored => exists x, res_score r = Some x /\ is_finite x = true /\ res_reason_alias r = None
        /\ fleb (minimum_score c) x = true /\ fleb x (maximum_score c) = true
    | _ => res_score r = None /\ exists reason, res_reason_alias r = Some reason /\ _SAFE_REASON reason = true
    end;
  rs_transformations : Forall (fun t => _SAFE_TRANSFORMATION t = true) (res_transformations r) }.

Lemma safe_reason_safe reason fallback :
  _SAFE_REASON fallback = true -> _SAFE_REASON (_safe_reason reason fallback) = true.
Proof. intros H. unfold _safe_reason. destruct reason as [r|]; [|done]. by destruct (_SAFE_REASON r) eqn:E. Qed.

Lemma safe_transformations_safe l fallback : _SAFE_TRANSFORMATION fallback = true ->
  Forall (fun t => _SAFE_TRANSFORMATION t = true) (_safe_transformations l fallback).
Proof.
  intros H. unfold _safe_transformations. apply Forall_map, Forall_true. intros [t|]; [|done].
  by destruct (_SAFE_TRANSFORMATION t) eqn:E.
Qed.

Lemma other_result_safe c stage state reason l :
  state <> scored -> _SAFE_REASON reason = true -> Forall (fun t => _SAFE_TRANSFORMATION t = true) l ->
  result_safe c (_result stage c state None (Some reason) l).
Proof. intros Hs Hr Hl. constructor; [done| |done]. cbn. destruct state; try done; eauto. Qed.

Lemma score_candidate_safe s c : result_safe (contract s) (_score_candidate s c).
Proof.
  unfold _score_candidate.
  pose proof (safe_transformations_safe (cand_transformations c) "reference-transform" eq_refl) as Ht.
  destruct (score_of s c) as [m|]; [|by apply other_result_safe].
  assert (exists x l, Forall (fun t => _SAFE_TRANSFORMATION t = true) l /\
    match m with
    | PlainScore x => (x, _safe_transformations (cand_transformations c) "reference-transform")
    | FullReferenceMeasurement x more => (x, _safe_transformations (cand_transformations c) "reference-transform"
        ++ _safe_transformations more "scorer-input-transform")
    end = (x, l)) as (x & l & Hl & ->).
  { destruct m as [x|x more]; eexists _, _; (split; [|reflexivity]); [done|].
    apply Forall_app. split; [done|by apply safe_transformations_safe]. }
  destruct (is_finite x) eqn:Ef; [|by apply other_result_safe].
  destruct (fleb (minimum_score (contract s)) x) eqn:E1; [|by apply other_result_safe].
  destruct (fleb x (maximum_score (contract s))) eqn:E2; [|by apply other_result_safe].
  constructor; [done| |done]. cbn. by exists x.
Qed.

Lemma scoring_safe selection s :
  Forall (result_safe (contract s)) (results (score_full_reference_selection selection s)).
Proof.
  unfold score_full_reference_selection. cbn [results]. apply Forall_app. split.
  - destruct (negb _); apply Forall_map, Forall_true; intros c; [|apply score_candidate_safe].
    apply other_result_safe; [done|by apply safe_reason_safe|by apply safe_transformations_safe].
  - apply Forall_map, Forall_true. intros b. apply other_result_safe; [done|by apply safe_reason_safe|constructor].
Qed.

Lemma scoring_stages selection s :
  map res_stage (results (score_full_reference_selection selection s))
  = map cand_stage (candidates selection) ++ map block_stage (blocked selection).
Proof.
  unfold score_full_reference_selection. cbn [results]. rewrite map_app, !map_map. f_equal.
  destruct (negb _); rewrite map_map; [done|]. apply map_ext. intros c. unfold _score_candidate.
  destruct (score_of s c) as [m|]; [|done]. destruct m; cbn;
    by repeat match goal with |- context [if ?b then _ else _] => destruct b end.
Qed.

Lemma scored_candidates selection s r :
  r ∈ results (score_full_reference_selection selection s) -> res_state r = scored ->
  exists c, c ∈ candidates selection /\ res_stage r = cand_stage c.
Proof.
  unfold score_full_reference_selection. cbn [results]. rewrite elem_of_app.
  intros [H|H] Hs.
  - destruct (negb _); apply list_elem_of_fmap in H as (c & -> & Hc); exists c; (split; [done|]); [done|].
    unfold _score_candidate. destruct (score_of s c) as [m|]; [|done]. destruct m; cbn;
      by repeat match goal with |- context [if ?b then _ else _] => destruct b end.
  - apply list_elem_of_fmap in H as (b & -> & _). done.
Qed.

(** C34. Selecting and scoring never fail, whatever the scorer raises, and
    every stage reference ends in exactly one result: a score that is finite
    and within the bounds of the contract, for a ready reference whose
    recording has the same format, or no score and a safe reason; all
    transformations named in the results are safe; and the metrics made of a
    report are its scores, none of them invented. *)
Theorem every_reference_scored_safely refs recordings s ts :
  let by_stage := dict_of_list (map (fun r => (rec_stage r, r)) recordings) in
  let selection := select_full_reference_candidates refs recordings in
  let report := score_full_reference_selection selection s in
  Permutation (map res_stage (results report)) (map ref_stage refs)
  /\ Forall (result_safe (contract s)) (results report)
  /\ NoDup (map cand_stage (candidates selection))
  /\ (forall r, r ∈ results report -> res_state r = scored ->
        exists c, candidate_ok by_stage refs c /\ res_stage r = cand_stage c)
  /\ (forall m, m ∈ full_reference_scores_to_metrics report ts ->
        exists r x, r ∈ results report /\ res_state r = scored /\ res_score r = Some x
        /\ m = MkMetric (Some (res_stage r)) (res_metric_name r) x ts).
Proof.
  cbv zeta. unfold select_full_reference_candidates.
  set (by_stage := dict_of_list _). destruct (select_loop_ok by_stage refs) as [Hp Ho _ Hc].
  set (selection := fst _) in *. split; [by rewrite scoring_stages|]. split; [apply scoring_safe|].
  split; [done|]. split.
  - intros r Hr Hs. destruct (scored_candidates _ _ _ Hr Hs) as (c & Hin & E). exists c. split; [|done].
    rewrite Forall_forall in Hc. by apply Hc.
  - intros m (r & Hr & Hm)%list_elem_of_omap. destruct (res_state r) eqn:Es; try done.
    destruct (res_score r) as [x|] eqn:Ex; [|done]. injection Hm as <-. by exists r, x.
Qed.
