(* ===== verification/Treatments.v ===== *)
(** * Treatments: aggregation, repeatability and regression

    [verification/aggregation.py], [verification/calibration.py] and
    [verification/regression.py].  A report file is the JSON value it holds:
    writing is [safe_payload], loading is [load_payload] on what [json.load]
    returns (the size of the file is an argument). *)
From S2P Require Import Prelude Collections PyFloat PyData PyStats Json Scoring.
From Stdlib Require Import QArith Lqa.

Open Scope Z_scope.

Inductive aggregate_state : Type := aggregated | insufficient | partial | incomparable.

#[export] Instance aggregate_state_eq_dec : EqDecision aggregate_state.
Proof. solve_decision. Defined.

Record FullReferenceStageAggregate := MkAggregate {
  agg_treatment : string; agg_stage : string; agg_scorer : string; agg_metric_name : string;
  agg_state : aggregate_state; samples_total : Z; scored_count : Z; unavailable_count : Z;
  blocked_count : Z; failed_count : Z; missing_count : Z; mean : option float; median_ : option float;
  minimum : option float; maximum : option float; population_stddev : option float;
  agg_transformations : list string }.

Record FullReferenceTreatmentReport := MkTreatment {
  treatment : string; minimum_samples : Z; treatment_contract : FullReferenceScorerContract;
  stages : list FullReferenceStageAggregate }.

Definition _SAFE_TREATMENT : string -> bool := _SAFE_NAME.

(** ** Aggregation *)

Definition results_by_stage := list (string * FullReferenceScoreResult).

(** The loop over the results of one report. *)
Definition index_step (s : results_by_stage * list string) (r : FullReferenceScoreResult)
    : result (results_by_stage * list string) :=
  let '(indexed, stage_order) := s in
  if dict_mem (res_stage r) indexed
  then Raise ValueError "a report must contain at most one result per stage"
  else Ok (dict_set (res_stage r) r indexed,
           if bool_decide (res_stage r ∈ stage_order) then stage_order else stage_order ++ [res_stage r]).

Definition report_step (contract : FullReferenceScorerContract) (s : list results_by_stage * list string)
    (report : FullReferenceScoringReport) : result (list results_by_stage * list string) :=
  let '(indexed_reports, stage_order) := s in
  if negb (bool_decide (report_contract report = contract))
  then Raise ValueError "all reports must use the same scorer contract"
  else
    indexed ← foldM_res index_step ([], stage_order) (results report);
    Ok (indexed_reports ++ [indexed.1], indexed.2).

Definition count_state (state : score_state) (l : list FullReferenceScoreResult) : Z :=
  countb (fun r => bool_decide (res_state r = state)) l.

(** [float(score)] of the scored results, [None] among them being an error. *)
Definition numeric_scores (l : list FullReferenceScoreResult) : result (list float) :=
  mapM_res (fun r => from_option_err (res_score r) ValueError "scored results must contain a numeric score")
    (filterb (fun r => bool_decide (res_state r = scored)) l).

(** The set of the transformations of the scored results. *)
Definition transformation_sets (l : list FullReferenceScoreResult) : list (list string) :=
  remove_dups (map res_transformations (filterb (fun r => bool_decide (res_state r = scored)) l)).

Definition when {A} (b : bool) (m : result A) : result (option A) :=
  if b then x ← m; Ok (Some x) else Ok None.

Definition decide_state (sets : list (list string)) (has_partial : bool) (count minimum_samples : Z) : aggregate_state :=
  if 1 <? len sets then incomparable
  else if has_partial then partial
  else if count <? minimum_samples then insufficient
  else aggregated.

Definition _aggregate_stage (treatment : string) (contract : FullReferenceScorerContract)
    (indexed_reports : list results_by_stage) (minimum_samples : Z) (stage : string)
    : result FullReferenceStageAggregate :=
  let found := omap (dict_get stage) indexed_reports in
  scores ← numeric_scores found;
  let sets := transformation_sets found in
  let missing := len indexed_reports - len found in
  let unavailable_ := count_state unavailable found in
  let blocked := count_state blocked_ found in
  let failed := count_state failed_ found in
  let has_partial := negb (unavailable_ =? 0) || negb (blocked =? 0) || negb (failed =? 0) || negb (missing =? 0) in
  let state := decide_state sets has_partial (len scores) minimum_samples in
  let enough := minimum_samples <=? len scores in
  mean ← when enough (fmean scores);
  middle ← when enough (median scores);
  deviation ← when enough (pstdev scores);
  Ok (MkAggregate treatment stage (scorer contract) (contract_metric_name contract) state (len indexed_reports)
        (len scores) unavailable_ blocked failed missing mean middle
        (if enough then Some (pymin_list fzero scores) else None)
        (if enough then Some (pymax_list fzero scores) else None) deviation
        (match sets with [l] => l | _ => [] end)).

Definition aggregate_full_reference_reports (treatment : string) (reports : list FullReferenceScoringReport)
    (minimum_samples : Z) : result FullReferenceTreatmentReport :=
  _ ← guard_else (_SAFE_TREATMENT treatment) ValueError "treatment must be a safe lowercase alias";
  _ ← guard_else (negb (minimum_samples <? 2)) ValueError "minimum_samples must be at least 2";
  match reports with
  | [] => Raise ValueError "at least one scoring report is required"
  | first :: _ =>
      let contract := report_contract first in
      s ← foldM_res (report_step contract) ([], []) reports;
      stages ← mapM_res (_aggregate_stage treatment contract s.1 minimum_samples) s.2;
      Ok (MkTreatment treatment minimum_samples contract stages)
  end.

(** ** The payload of a report *)

Definition state_name (s : aggregate_state) : string :=
  match s with
  | aggregated => "aggregated" | insufficient => "insufficient" | partial => "partial"
  | incomparable => "incomparable"
  end.

Definition jnumber (x : option float) : json := match x with Some x => JFloat x | None => JNull end.

Definition stage_payload (s : FullReferenceStageAggregate) : json :=
  JObj [("blocked_count", JInt (blocked_count s)); ("failed_count", JInt (failed_count s));
        ("maximum", jnumber (maximum s)); ("mean", jnumber (mean s)); ("median", jnumber (median_ s));
        ("minimum", jnumber (minimum s)); ("missing_count", JInt (missing_count s));
        ("population_stddev", jnumber (population_stddev s)); ("samples_total", JInt (samples_total s));
        ("scored_count", JInt (scored_count s)); ("stage", JStr (agg_stage s));
        ("state", JStr (state_name (agg_state s)));
        ("transformations", JArr (map JStr (agg_transformations s)));
        ("unavailable_count", JInt (unavailable_count s))].

Definition safe_payload (r : FullReferenceTreatmentReport) : jdict :=
  let c := treatment_contract r in
  [("metric_name", JStr (contract_metric_name c)); ("minimum_samples", JInt (minimum_samples r));
   ("score_range", JObj [("maximum", JFloat (maximum_score c)); ("minimum", JFloat (minimum_score c))]);
   ("scorer", JStr (scorer c)); ("stages", JArr (map stage_payload (stages r))); ("treatment", JStr (treatment r))].

Definition _non_negative_int (v : option json) : option Z :=
  match v with Some (JInt z) => if 0 <=? z then Some z else None | _ => None end.

(** [isinstance(value, int | float)], not a bool, and [math.isfinite]. *)
Definition _finite_number (v : option json) (field : string) : result float :=
  match v with
  | Some (JInt z) => float_of_int z
  | Some (JFloat x) => if is_finite x then Ok x else Raise ValueError ("treatment report has invalid " +:+ field)
  | _ => Raise ValueError ("treatment report has invalid " +:+ field)
  end.

Definition _optional_finite_number (v : option json) (field : string) : result (option float) :=
  match v with
  | None | Some JNull => Ok None
  | _ => x ← _finite_number v field; Ok (Some x)
  end.

Definition invalid {A} (message : string) : result A := Raise ValueError message.
Definition get_str (v : option json) (message : string) : result string :=
  match v with Some (JStr s) => Ok s | _ => invalid message end.
Definition get_safe (safe : string -> bool) (v : option json) (message : string) : result string :=
  s ← get_str v message; if safe s then Ok s else invalid message.

Definition read_state (v : option json) : result aggregate_state :=
  match v with
  | Some (JStr s) =>
      if String.eqb s "aggregated" then Ok aggregated else if String.eqb s "insufficient" then Ok insufficient
      else if String.eqb s "partial" then Ok partial else if String.eqb s "incomparable" then Ok incomparable
      else invalid "treatment report has an invalid aggregate state"
  | Some (JArr _) | Some (JObj _) => Raise TypeError "unhashable type"
  | _ => invalid "treatment report has an invalid aggregate state"
  end.

Definition read_count (d : jdict) (name : string) : result Z :=
  from_option_err (_non_negative_int (jget name d)) ValueError "treatment report has an invalid sample count".

Definition read_transformation (v : json) : result string :=
  get_safe _SAFE_TRANSFORMATION (Some v) "treatment report has invalid transformations".

(** [payload.get(name, expected) != expected]. *)
Definition differs (d : jdict) (name expected : string) : bool :=
  match jget name d with Some v => negb (json_eqb v (JStr expected)) | None => false end.

Definition _load_stage (treatment : string) (contract : FullReferenceScorerContract) (payload : json)
    : result FullReferenceStageAggregate :=
  match payload with
  | JObj d =>
      stage ← get_safe _SAFE_TREATMENT (jget "stage" d) "treatment report has an invalid stage alias";
      state ← read_state (jget "state" d);
      total ← read_count d "samples_total";
      scored ← read_count d "scored_count";
      unavailable ← read_count d "unavailable_count";
      blocked ← read_count d "blocked_count";
      failed ← read_count d "failed_count";
      missing ← read_count d "missing_count";
      _ ← guard_else (scored + unavailable + blocked + failed + missing =? total) ValueError
            "treatment report sample counts are inconsistent";
      transformations ← match jget "transformations" d with
        | Some (JArr l) => mapM_res read_transformation l
        | _ => invalid "treatment report has invalid transformations" end;
      mean ← _optional_finite_number (jget "mean" d) "mean";
      middle ← _optional_finite_number (jget "median" d) "median";
      low ← _optional_finite_number (jget "minimum" d) "minimum";
      high ← _optional_finite_number (jget "maximum" d) "maximum";
      deviation ← _optional_finite_number (jget "population_stddev" d) "population_stddev";
      _ ← guard_else (negb (bool_decide (state = aggregated) && existsb (fun x => match x with None => true | _ => false end)
                        [mean; middle; low; high; deviation])) ValueError
            "aggregated stage must contain complete statistics";
      _ ← guard_else (negb (differs d "scorer" (scorer contract) || differs d "metric_name" (contract_metric_name contract)))
            ValueError "stage scorer metadata does not match report contract";
      Ok (MkAggregate treatment stage (scorer contract) (contract_metric_name contract) state total scored unavailable
            blocked failed missing mean middle low high deviation transformations)
  | _ => invalid "treatment stage must be an object"
  end.

(** The arguments of [_SAFE_NAME.fullmatch] must be strings. *)
Definition name_argument (v : option json) : result string :=
  match v with Some (JStr s) => Ok s | _ => Raise TypeError "expected string or bytes-like object" end.

Definition load_report (d : jdict) : result FullReferenceTreatmentReport :=
  treatment ← get_safe _SAFE_TREATMENT (jget "treatment" d) "treatment report has an invalid treatment alias";
  minimum_samples ← from_option_err (_non_negative_int (jget "minimum_samples" d)) ValueError
                      "treatment report has invalid minimum_samples";
  _ ← guard_else (negb (minimum_samples <? 2)) ValueError "treatment report has invalid minimum_samples";
  match jget "score_range" d with
  | Some (JObj score_range) =>
      lo ← _finite_number (jget "minimum" score_range) "score minimum";
      hi ← _finite_number (jget "maximum" score_range) "score maximum";
      scorer ← name_argument (jget "scorer" d);
      _ ← guard_else (_SAFE_NAME scorer) ValueError "scorer must be a safe lowercase alias";
      metric_name ← name_argument (jget "metric_name" d);
      contract ← make_contract scorer metric_name lo hi;
      match jget "stages" d with
      | Some (JArr raw_stages) =>
          stages ← mapM_res (_load_stage treatment contract) raw_stages;
          if bool_decide (NoDup (map agg_stage stages))
          then Ok (MkTreatment treatment minimum_samples contract stages)
          else invalid "treatment report contains duplicate stages"
      | _ => invalid "treatment report stages must be an array"
      end
  | _ => invalid "treatment report has invalid score_range"
  end.

Definition _MAX_REPORT_BYTES : Z := 1000000.

Definition load_full_reference_treatment_report (size : Z) (payload : json) : result FullReferenceTreatmentReport :=
  if _MAX_REPORT_BYTES <? size then invalid "treatment report exceeds size limit"
  else match payload with
       | JObj d =>
           match jget "aggregate" d with
           | None => load_report d
           | Some (JObj inner) => load_report inner
           | Some _ => invalid "treatment report aggregate must be an object"
           end
       | _ => invalid "treatment report root must be an object"
       end.

(** ** Repeatability *)

Inductive repeatability_state : Type := calibrated | repeat_indeterminate.

Record FullReferenceStageRepeatability := MkRepeatability {
  rep_stage : string; rep_state : repeatability_state; rep_count : Z; mean_of_means : option float;
  minimum_mean : option float; maximum_mean : option float; observed_max_delta : option float;
  rep_stddev : option float; rep_transformations : list string; rep_reason : option string }.

Record FullReferenceRepeatabilityReport := MkRepeatReport {
  repeat_contract : FullReferenceScorerContract; minimum_repeats : Z; repeat_count : Z;
  repeat_stages : list FullReferenceStageRepeatability }.

Definition present {A} (l : list (option A)) : list A := omap id l.

Definition repeat_reason (values : list (option FullReferenceStageAggregate)) (minimum_repeats : Z)
    (contracts_match : bool) : option string :=
  let aggregates := present values in
  if negb contracts_match then Some "scorer-contract-mismatch"
  else if len values <? minimum_repeats then Some "insufficient-repeats"
  else if existsb (fun v => match v with None => true | _ => false end) values then Some "stage-missing"
  else if existsb (fun v => negb (bool_decide (agg_state v = aggregated))) aggregates then Some "stage-not-aggregated"
  else if negb (len (remove_dups (map agg_transformations aggregates)) =? 1) then Some "transformation-mismatch"
  else if existsb (fun v => match mean v with None => true | _ => false end) aggregates
  then Some "aggregate-mean-missing"
  else None.

Definition _analyze_stage (indexed_reports : list (list (string * FullReferenceStageAggregate)))
    (minimum_repeats : Z) (contracts_match : bool) (stage : string) : result FullReferenceStageRepeatability :=
  let values := map (dict_get stage) indexed_reports in
  let aggregates := present values in
  match repeat_reason values minimum_repeats contracts_match with
  | Some reason =>
      Ok (MkRepeatability stage repeat_indeterminate (len aggregates) None None None None None [] (Some reason))
  | None =>
      let means := omap mean aggregates in
      let low := pymin_list fzero means in
      let high := pymax_list fzero means in
      average ← fmean means;
      deviation ← pstdev means;
      Ok (MkRepeatability stage calibrated (len aggregates) (Some average) (Some low) (Some high)
            (Some (fsub high low)) (Some deviation)
            (match aggregates with first :: _ => agg_transformations first | [] => [] end) None)
  end.

Definition stage_index (r : FullReferenceTreatmentReport) : list (string * FullReferenceStageAggregate) :=
  dict_of_list (map (fun s => (agg_stage s, s)) (stages r)).

(** The keys of [l] that are not in [order] yet, appended; a dictionary's keys
    are distinct. *)
Definition extend_order (order keys : list string) : list string :=
  order ++ filterb (fun k => negb (bool_decide (k ∈ order))) keys.

Definition repeat_step (s : list (list (string * FullReferenceStageAggregate)) * list string)
    (r : FullReferenceTreatmentReport) : result (list (list (string * FullReferenceStageAggregate)) * list string) :=
  let '(indexed_reports, stage_order) := s in
  let indexed := stage_index r in
  if negb (len indexed =? len (stages r)) then invalid "treatment report contains duplicate stages"
  else Ok (indexed_reports ++ [indexed], extend_order stage_order (dict_keys indexed)).

Definition analyze_full_reference_repeatability (reports : list FullReferenceTreatmentReport)
    (minimum_repeats : Z) : result FullReferenceRepeatabilityReport :=
  _ ← guard_else (negb (minimum_repeats <? 3)) ValueError "minimum_repeats must be at least 3";
  match reports with
  | [] => invalid "at least one treatment report is required"
  | first :: _ =>
      let contract := treatment_contract first in
      let contracts_match := forallb (fun r => bool_decide (treatment_contract r = contract)) reports in
      s ← foldM_res repeat_step ([], []) reports;
      found ← mapM_res (_analyze_stage s.1 minimum_repeats contracts_match) s.2;
      Ok (MkRepeatReport contract minimum_repeats (len reports) found)
  end.

(** ** Regression *)

Inductive regression_state : Type := improved | stable_ | regressed | indeterminate.

#[export] Instance regression_state_eq_dec : EqDecision regression_state.
Proof. solve_decision. Defined.

Record FullReferenceRegressionPolicy := MkPolicy { stable_tolerance : float; higher_is_better : bool }.

Definition make_policy (tolerance : float) (higher : bool) : result FullReferenceRegressionPolicy :=
  if negb (is_finite tolerance) || fltb tolerance fzero
  then invalid "stable_tolerance must be finite and non-negative" else Ok (MkPolicy tolerance higher).

Record FullReferenceStageRegression := MkRegression {
  reg_stage : string; reg_state : regression_state; baseline_mean : option float; current_mean : option float;
  delta : option float; tolerance : float; reg_reason : option string }.

Record FullReferenceRegressionReport := MkRegressionReport {
  baseline_treatment : string; current_treatment : string; reg_scorer : string; reg_metric_name : string;
  policy : FullReferenceRegressionPolicy; reg_stages : list FullReferenceStageRegression }.

Definition _indeterminate_reason (baseline current : option FullReferenceStageAggregate) (contracts_match : bool)
    : option string :=
  if negb contracts_match then Some "scorer-contract-mismatch"
  else match baseline, current with
       | None, _ => Some "baseline-stage-missing"
       | _, None => Some "current-stage-missing"
       | Some b, Some c =>
           if negb (bool_decide (agg_state b = aggregated)) then Some "baseline-not-aggregated"
           else if negb (bool_decide (agg_state c = aggregated)) then Some "current-not-aggregated"
           else if negb (bool_decide (agg_transformations b = agg_transformations c)) then Some "transformation-mismatch"
           else match mean b, mean c with Some _, Some _ => None | _, _ => Some "aggregate-mean-missing" end
       end.

(** The state of a difference under a policy. *)
Definition classify_delta (p : FullReferenceRegressionPolicy) (delta : float) : regression_state :=
  let directed_delta := if higher_is_better p then delta else fopp delta in
  if fltb (stable_tolerance p) directed_delta then improved
  else if fltb directed_delta (fopp (stable_tolerance p)) then regressed
  else stable_.

Definition mean_of (s : option FullReferenceStageAggregate) : option float :=
  match s with Some a => mean a | None => None end.

Definition _compare_stage (p : FullReferenceRegressionPolicy) (contracts_match : bool) (stage : string)
    (baseline current : option FullReferenceStageAggregate) : FullReferenceStageRegression :=
  match _indeterminate_reason baseline current contracts_match, mean_of baseline, mean_of current with
  | None, Some b, Some c =>
      let delta := fsub c b in
      MkRegression stage (classify_delta p delta) (Some b) (Some c) (Some delta) (stable_tolerance p) None
  | reason, b, c => MkRegression stage indeterminate b c None (stable_tolerance p) reason
  end.

Definition compare_full_reference_treatments (baseline current : FullReferenceTreatmentReport)
    (p : FullReferenceRegressionPolicy) : FullReferenceRegressionReport :=
  let baseline_by_stage := stage_index baseline in
  let current_by_stage := stage_index current in
  let stage_order := extend_order (dict_keys baseline_by_stage) (dict_keys current_by_stage) in
  let contracts_match := bool_decide (treatment_contract baseline = treatment_contract current) in
  MkRegressionReport (treatment baseline) (treatment current) (scorer (treatment_contract current))
    (contract_metric_name (treatment_contract current)) p
    (map (fun stage => _compare_stage p contracts_match stage (dict_get stage baseline_by_stage)
                         (dict_get stage current_by_stage)) stage_order).

(** The counts of [safe_payload]'s summary. *)
Definition summary (r : FullReferenceRegressionReport) : list (regression_state * Z) :=
  map (fun state => (state, countb (fun s => bool_decide (reg_state s = state)) (reg_stages r)))
    [improved; stable_; regressed; indeterminate].

(** ** Lemmas: loading *)

Definition stat_ok (x : option float) : Prop := match x with Some x => is_finite x = true | None => True end.

(** The stages that [safe_payload] writes and [_load_stage] accepts. *)
Record stage_loadable (t : string) (c : FullReferenceScorerContract) (s : FullReferenceStageAggregate) : Prop := {
  sl_names : agg_treatment s = t /\ agg_scorer s = scorer c /\ agg_metric_name s = contract_metric_name c;
  sl_stage : _SAFE_TREATMENT (agg_stage s) = true;
  sl_counts : 0 <= scored_count s /\ 0 <= unavailable_count s /\ 0 <= blocked_count s /\ 0 <= failed_count s
              /\ 0 <= missing_count s
              /\ scored_count s + unavailable_count s + blocked_count s + failed_count s + missing_count s = samples_total s;
  sl_transformations : Forall (fun t => _SAFE_TRANSFORMATION t = true) (agg_transformations s);
  sl_stats : stat_ok (mean s) /\ stat_ok (median_ s) /\ stat_ok (minimum s) /\ stat_ok (maximum s)
             /\ stat_ok (population_stddev s);
  sl_complete : agg_state s = aggregated -> is_Some (mean s) /\ is_Some (median_ s) /\ is_Some (minimum s)
                /\ is_Some (maximum s) /\ is_Some (population_stddev s) }.

Record report_loadable (r : FullReferenceTreatmentReport) : Prop := {
  rl_treatment : _SAFE_TREATMENT (treatment r) = true;
  rl_samples : 2 <= minimum_samples r;
  rl_contract : make_contract (scorer (treatment_contract r)) (contract_metric_name (treatment_contract r))
                  (minimum_score (treatment_contract r)) (maximum_score (treatment_contract r))
                = Ok (treatment_contract r);
  rl_stages : Forall (stage_loadable (treatment r) (treatment_contract r)) (stages r);
  rl_distinct : NoDup (map agg_stage (stages r)) }.

Lemma read_back_count d name z : 0 <= z -> jget name d = Some (JInt z) -> read_count d name = Ok z.
Proof. intros Hz Hd. unfold read_count. rewrite Hd. cbn. by rewrite (proj2 (Z.leb_le 0 z) Hz). Qed.

Lemma read_back_number x field : stat_ok x -> _optional_finite_number (Some (jnumber x)) field = Ok x.
Proof. destruct x as [x|]; [|done]. cbn. by intros ->. Qed.

Lemma read_back_transformations l :
  Forall (fun t => _SAFE_TRANSFORMATION t = true) l -> mapM_res read_transformation (map JStr l) = Ok l.
Proof.
  induction 1 as [|t l Ht _ IH]; [done|]. cbn [map mapM_res].
  assert (read_transformation (JStr t) = Ok t) as ->
    by (unfold read_transformation, get_safe; cbn [get_str mbind result_bind]; by rewrite Ht).
  cbn [mbind result_bind]. by rewrite IH.
Qed.

Lemma read_back_state s : read_state (Some (JStr (state_name s))) = Ok s.
Proof. by destruct s. Qed.

Lemma load_stage_payload t c s : stage_loadable t c s -> _load_stage t c (stage_payload s) = Ok s.
Proof.
  intros [(E1 & E2 & E3) Hs (C1 & C2 & C3 & C4 & C5 & C6) Ht (S1 & S2 & S3 & S4 & S5) Hc].
  unfold _load_stage, stage_payload. set (d := [_; _; _; _; _; _; _; _; _; _; _; _; _; _]).
  change (jget "stage" d) with (Some (JStr (agg_stage s))). unfold get_safe. cbn [get_str mbind result_bind].
  rewrite Hs. cbn [mbind result_bind].
  change (jget "state" d) with (Some (JStr (state_name (agg_state s)))). rewrite read_back_state. cbn [mbind result_bind].
  rewrite (read_back_count d "samples_total" (samples_total s)) by (done || lia). cbn [mbind result_bind].
  rewrite (read_back_count d "scored_count" (scored_count s)) by done. cbn [mbind result_bind].
  rewrite (read_back_count d "unavailable_count" (unavailable_count s)) by done. cbn [mbind result_bind].
  rewrite (read_back_count d "blocked_count" (blocked_count s)) by done. cbn [mbind result_bind].
  rewrite (read_back_count d "failed_count" (failed_count s)) by done. cbn [mbind result_bind].
  rewrite (read_back_count d "missing_count" (missing_count s)) by done. cbn [mbind result_bind].
  rewrite (proj2 (Z.eqb_eq _ _) C6). cbn [guard_else mbind result_bind].
  change (jget "transformations" d) with (Some (JArr (map JStr (agg_transformations s)))). cbn match.
  rewrite read_back_transformations by done. cbn [mbind result_bind].
  change (jget "mean" d) with (Some (jnumber (mean s))). rewrite read_back_number by done. cbn [mbind result_bind].
  change (jget "median" d) with (Some (jnumber (median_ s))). rewrite read_back_number by done. cbn [mbind result_bind].
  change (jget "minimum" d) with (Some (jnumber (minimum s))). rewrite read_back_number by done. cbn [mbind result_bind].
  change (jget "maximum" d) with (Some (jnumber (maximum s))). rewrite read_back_number by done. cbn [mbind result_bind].
  change (jget "population_stddev" d) with (Some (jnumber (population_stddev s))).
  rewrite read_back_number by done. cbn [mbind result_bind].
  assert (bool_decide (agg_state s = aggregated) && existsb (fun x => match x with None => true | _ => false end)
            [mean s; median_ s; minimum s; maximum s; population_stddev s] = false) as ->.
  { destruct (bool_decide_reflect (agg_state s = aggregated)) as [Ha|]; [|done].
    destruct (Hc Ha) as ([? ->] & [? ->] & [? ->] & [? ->] & [? ->]). done. }
  cbn [guard_else negb mbind result_bind]. rewrite <- E1, <- E2, <- E3. by destruct s.
Qed.

Lemma load_stages_payload t c l :
  Forall (stage_loadable t c) l -> mapM_res (_load_stage t c) (map stage_payload l) = Ok l.
Proof.
  induction 1 as [|s l Hs _ IH]; [done|]. cbn [map mapM_res]. rewrite load_stage_payload by done.
  cbn [mbind result_bind]. by rewrite IH.
Qed.

Lemma load_report_payload r : report_loadable r -> load_report (safe_payload r) = Ok r.
Proof.
  intros [Ht Hm Hc Hs Hd]. unfold load_report. set (d := safe_payload r).
  change (jget "treatment" d) with (Some (JStr (treatment r))). unfold get_safe. cbn [get_str mbind result_bind].
  rewrite Ht. cbn [mbind result_bind].
  change (jget "minimum_samples" d) with (Some (JInt (minimum_samples r))).
  assert (_non_negative_int (Some (JInt (minimum_samples r))) = Some (minimum_samples r)) as ->
    by (cbn; rewrite (proj2 (Z.leb_le 0 _)); [done|lia]).
  cbn [from_option_err mbind result_bind]. rewrite (proj2 (Z.ltb_ge _ _) Hm). cbn [negb guard_else mbind result_bind].
  change (jget "score_range" d) with (Some (JObj [("maximum", JFloat (maximum_score (treatment_contract r)));
    ("minimum", JFloat (minimum_score (treatment_contract r)))])). cbn match.
  pose proof Hc as Hc0. unfold make_contract in Hc0. apply bind_ok_inv in Hc0 as ([] & Hsc%guard_else_ok & Hc0).
  apply bind_ok_inv in Hc0 as ([] & _ & Hc0). apply bind_ok_inv in Hc0 as ([] & Hf%guard_else_ok & _).
  apply andb_true_iff in Hf as [Hlo Hhi].
  change (jget "minimum" _) with (Some (JFloat (minimum_score (treatment_contract r)))).
  change (jget "maximum" _) with (Some (JFloat (maximum_score (treatment_contract r)))).
  cbn [_finite_number]. rewrite Hlo, Hhi. cbn [mbind result_bind].
  change (jget "scorer" d) with (Some (JStr (scorer (treatment_contract r)))). cbn [name_argument mbind result_bind].
  rewrite Hsc. cbn [guard_else mbind result_bind].
  change (jget "metric_name" d) with (Some (JStr (contract_metric_name (treatment_contract r)))).
  cbn [name_argument mbind result_bind]. rewrite Hc. cbn [mbind result_bind].
  change (jget "stages" d) with (Some (JArr (map stage_payload (stages r)))). cbn match.
  rewrite load_stages_payload by done. cbn [mbind result_bind]. rewrite bool_decide_true by done. by destruct r.
Qed.

(** ** Lemmas: aggregation *)

Lemma omap_len {A B} (f : A -> option B) (l : list A) : len (omap f l) <= len l.
Proof.
  induction l as [|x l IH]; [done|]. cbn [omap list_omap]. destruct (f x); rewrite ?len_cons; lia.
Qed.

Lemma mapM_res_len {A B} (f : A -> result B) l ys : mapM_res f l = Ok ys -> len ys = len l.
Proof. intros H%mapM_res_ok%Forall2_length. unfold len. by rewrite H. Qed.

(** The four states partition the results. *)
Lemma count_states l :
  count_state scored l + count_state unavailable l + count_state blocked_ l + count_state failed_ l = len l.
Proof.
  unfold count_state. induction l as [|r l IH]; [done|]. cbn [countb]. rewrite len_cons, <- IH.
  destruct (res_state r); repeat case_bool_decide; try done; lia.
Qed.

(** What aggregation says of one stage. *)
Record aggregate_ok (indexed_reports : list results_by_stage) (minimum_samples : Z)
    (a : FullReferenceStageAggregate) : Prop := {
  ag_total : samples_total a = len indexed_reports;
  ag_sum : scored_count a + unavailable_count a + blocked_count a + failed_count a + missing_count a = samples_total a;
  ag_nonneg : 0 <= scored_count a /\ 0 <= unavailable_count a /\ 0 <= blocked_count a /\ 0 <= failed_count a
              /\ 0 <= missing_count a;
  ag_missing : missing_count a = countb (fun i => negb (dict_mem (agg_stage a) i)) indexed_reports;
  ag_aggregated : agg_state a = aggregated ->
    scored_count a = samples_total a /\ minimum_samples <= scored_count a
    /\ exists scores, numeric_scores (omap (dict_get (agg_stage a)) indexed_reports) = Ok scores
       /\ len scores = scored_count a
       /\ Ok (mean a) = (Some <$> fmean scores) /\ Ok (median_ a) = (Some <$> median scores)
       /\ minimum a = Some (pymin_list fzero scores) /\ maximum a = Some (pymax_list fzero scores)
       /\ Ok (population_stddev a) = (Some <$> pstdev scores);
  ag_few : scored_count a < minimum_samples -> mean a = None /\ median_ a = None /\ minimum a = None
           /\ maximum a = None /\ population_stddev a = None }.

Lemma when_true {A} (m : result A) x : when true m = Ok x -> Ok x = (Some <$> m).
Proof. unfold when. intros (y & -> & [= <-])%bind_ok_inv. done. Qed.

Lemma when_false {A} (m : result A) x : when false m = Ok x -> x = None.
Proof. by intros [= <-]. Qed.

Lemma found_missing stage (indexed_reports : list results_by_stage) :
  len indexed_reports - len (omap (dict_get stage) indexed_reports)
  = countb (fun i => negb (dict_mem stage i)) indexed_reports.
Proof.
  induction indexed_reports as [|i l IH]; [done|]. cbn [omap list_omap countb]. unfold dict_mem at 1.
  destruct (dict_get stage i); cbn [negb]; rewrite !len_cons; lia.
Qed.

Lemma aggregate_stage_ok t c indexed_reports m stage a :
  _aggregate_stage t c indexed_reports m stage = Ok a ->
  agg_stage a = stage /\ agg_treatment a = t /\ agg_scorer a = scorer c /\ agg_metric_name a = contract_metric_name c
  /\ aggregate_ok indexed_reports m a
  /\ (forall l, l = agg_transformations a -> l = [] \/ exists i r, i ∈ indexed_reports
        /\ dict_get stage i = Some r /\ res_transformations r = l).
Proof.
  unfold _aggregate_stage. set (found := omap (dict_get stage) indexed_reports).
  intros (scores & Hsc & H)%bind_ok_inv. apply bind_ok_inv in H as (average & Hmean & H).
  apply bind_ok_inv in H as (middle & Hmid & H). apply bind_ok_inv in H as (deviation & Hdev & H).
  injection H as <-. cbn [agg_stage agg_treatment agg_scorer agg_metric_name agg_transformations].
  assert (len scores = count_state scored found) as Hlen
    by (unfold count_state; rewrite countb_filter; by apply mapM_res_len in Hsc).
  pose proof (count_states found) as Hcount. pose proof (found_missing stage indexed_reports) as Hmiss.
  fold found in Hmiss. assert (len found <= len indexed_reports) as Hle by apply omap_len.
  assert (forall state, 0 <= count_state state found) as Hpos by (intros; apply countb_bounds).
  split_and!; try done.
  - constructor; cbn [samples_total scored_count unavailable_count blocked_count failed_count missing_count
      agg_state agg_stage mean median_ minimum maximum population_stddev].
    + done.
    + lia.
    + pose proof (len_nonneg scores). pose proof (Hpos unavailable). pose proof (Hpos blocked_).
      pose proof (Hpos failed_). lia.
    + done.
    + unfold decide_state. destruct (1 <? _); [done|].
      destruct (Z.eqb_spec (count_state unavailable found) 0) as [H1|]; [|done].
      destruct (Z.eqb_spec (count_state blocked_ found) 0) as [H2|]; [|done].
      destruct (Z.eqb_spec (count_state failed_ found) 0) as [H3|]; [|done].
      destruct (Z.eqb_spec (len indexed_reports - len found) 0) as [H4|]; [|done]. cbn [negb orb].
      destruct (Z.ltb_spec (len scores) m) as [|Hm]; [done|]. intros _. split; [lia|]. split; [lia|].
      rewrite (proj2 (Z.leb_le _ _) Hm) in *. exists scores. split_and!; try done; by apply when_true.
    + intros Hm. rewrite (proj2 (Z.leb_gt _ _) Hm) in *.
      by rewrite (when_false _ _ Hmean), (when_false _ _ Hmid), (when_false _ _ Hdev).
  - intros l ->. destruct (transformation_sets found) as [|l [|]] eqn:E; [by left| |by left]. right.
    assert (l ∈ transformation_sets found) as Hl by (rewrite E; left).
    unfold transformation_sets in Hl. rewrite elem_of_remove_dups in Hl.
    apply list_elem_of_fmap in Hl as (r & -> & [Hr _]%elem_of_filterb).
    apply list_elem_of_omap in Hr as (i & Hi & Hr). by exists i, r.
Qed.

(** The stages of the reports, each once, and the results they index. *)
Lemma index_step_ok l : forall indexed order s,
  foldM_res index_step (indexed, order) l = Ok s -> NoDup order ->
  NoDup s.2 /\ (forall st, st ∈ s.2 -> st ∈ order \/ exists r, r ∈ l /\ res_stage r = st)
  /\ (forall st r, dict_get st s.1 = Some r -> dict_get st indexed = Some r \/ r ∈ l).
Proof.
  induction l as [|r l IH]; intros indexed order s H Hn.
  - injection H as <-. split_and!; auto.
  - cbn [foldM_res] in H. apply bind_ok_inv in H as ([indexed1 order1] & H1 & H). unfold index_step in H1.
    destruct (dict_mem (res_stage r) indexed); [done|]. injection H1 as <- <-.
    apply IH in H as (H1 & H2 & H3).
    + split; [done|]. split.
      * intros st [Hst|(r' & Hr' & E)]%H2; [|right; exists r'; split; [by right|done]].
        destruct (bool_decide _) in Hst; [by left|]. apply elem_of_app in Hst as [Hst|Hst]; [by left|].
        apply list_elem_of_singleton in Hst as ->. right. exists r. split; [left|done].
      * intros st r' [Hr'|Hr']%H3; [|right; by right]. rewrite dict_get_set in Hr'.
        destruct (decide _); [injection Hr' as <-; right; left|by left].
    + destruct (bool_decide_reflect (res_stage r ∈ order)); [done|].
      apply NoDup_app. split_and!; [done|set_solver|apply NoDup_singleton].
Qed.

Lemma report_step_ok c reports : forall indexed_reports order s,
  foldM_res (report_step c) (indexed_reports, order) reports = Ok s -> NoDup order ->
  NoDup s.2 /\ len s.1 = len indexed_reports + len reports
  /\ Forall (fun report => report_contract report = c) reports
  /\ (forall st, st ∈ s.2 -> st ∈ order \/ exists report r, report ∈ reports /\ r ∈ results report /\ res_stage r = st)
  /\ (forall i st r, i ∈ s.1 -> dict_get st i = Some r ->
        i ∈ indexed_reports \/ exists report, report ∈ reports /\ r ∈ results report).
Proof.
  induction reports as [|report reports IH]; intros indexed_reports order s H Hn.
  - injection H as <-. cbn [fst snd]. change (len (@nil FullReferenceScoringReport)) with 0.
    split_and!; auto; lia.
  - cbn [foldM_res] in H. apply bind_ok_inv in H as ([idx1 order1] & H1 & H). unfold report_step in H1.
    destruct (bool_decide_reflect (report_contract report = c)) as [Hc|]; [|done]. cbn [negb] in H1.
    apply bind_ok_inv in H1 as ([indexed order2] & Hi & H1). injection H1 as <- <-. cbn [fst snd] in *.
    apply index_step_ok in Hi as (Hn1 & Hst1 & Hg1); [|done]. cbn [fst snd] in *.
    apply IH in H as (H1 & H2 & H3 & H4 & H5); [|done]. split; [done|].
    split; [rewrite H2, len_app, !len_cons; change (len []) with 0; lia|]. split; [by constructor|]. split.
    + intros st [[Hst|(r & Hr & E)]%Hst1|(rep & r & Hrep & Hr & E)]%H4; [by left| |].
      * right. exists report, r. split; [left|done].
      * right. exists rep, r. split; [by right|done].
    + intros i st r Hi Hg.
      destruct (H5 _ _ _ Hi Hg) as [Hi'|(rep & Hrep & Hr)]; [|right; exists rep; split; [by right|done]].
      clear Hi. rename Hi' into Hi. apply elem_of_app in Hi as [Hi|Hi]; [by left|]. apply list_elem_of_singleton in Hi as ->.
      destruct (Hg1 _ _ Hg) as [?|Hr]; [done|]. right. exists report. split; [left|done].
Qed.

(** ** Aggregation and the round trip *)

Lemma aggregate_reports_ok t reports m r :
  aggregate_full_reference_reports t reports m = Ok r ->
  exists s, foldM_res (report_step (treatment_contract r)) ([], []) reports = Ok s
    /\ _SAFE_TREATMENT t = true /\ treatment r = t /\ 2 <= m /\ minimum_samples r = m
    /\ Forall2 (fun stage a => _aggregate_stage t (treatment_contract r) s.1 m stage = Ok a) s.2 (stages r).
Proof.
  unfold aggregate_full_reference_reports. intros ([] & Ht%guard_else_ok & H)%bind_ok_inv.
  apply bind_ok_inv in H as ([] & Hm%guard_else_ok & H). apply negb_true_iff, Z.ltb_ge in Hm.
  destruct reports as [|first reports]; [done|]. apply bind_ok_inv in H as (s & Hs & H).
  apply bind_ok_inv in H as (l & Hl & H). injection H as <-. exists s.
  cbn [treatment_contract treatment minimum_samples stages]. split_and!; try done. by apply mapM_res_ok.
Qed.

Lemma aggregate_stage_names t c indexed m order l :
  Forall2 (fun stage a => _aggregate_stage t c indexed m stage = Ok a) order l -> map agg_stage l = order.
Proof. induction 1 as [|st a order l H _ IH]; [done|]. cbn. apply aggregate_stage_ok in H as [-> _]. by rewrite IH. Qed.

(** C36. Aggregating the reports of one treatment: all of them use the contract
    of the result, each stage that some report scored appears once, and every
    stage accounts for all samples: the five counts are not negative and sum to
    the number of reports, [missing] counts the reports without the stage, the
    state is "aggregated" only when every sample is scored, there are at least
    [minimum_samples] of them and the statistics are those of exactly these
    scores, and with too few scores there are no statistics. *)
Theorem aggregation_accounts_for_every_sample t reports m r :
  aggregate_full_reference_reports t reports m = Ok r ->
  Forall (fun report => report_contract report = treatment_contract r) reports
  /\ NoDup (map agg_stage (stages r))
  /\ exists s, foldM_res (report_step (treatment_contract r)) ([], []) reports = Ok s
     /\ map agg_stage (stages r) = s.2 /\ len s.1 = len reports
     /\ Forall (aggregate_ok s.1 m) (stages r).
Proof.
  intros (s & Hs & _ & _ & _ & _ & Hl)%aggregate_reports_ok.
  pose proof (aggregate_stage_names _ _ _ _ _ _ Hl) as Hnames.
  destruct (report_step_ok _ _ _ _ _ Hs (NoDup_nil_2)) as (Hn & Hlen & Hc & _).
  rewrite Hnames. split; [done|]. split; [done|]. exists s. split; [done|]. split; [done|]. split; [exact Hlen|].
  apply Forall_forall. intros a Ha. destruct (list_elem_of_lookup_1 _ _ Ha) as [i Hi].
  destruct (Forall2_lookup_r _ _ _ _ _ Hl Hi) as (st & _ & Hst). by apply aggregate_stage_ok in Hst as (_ & _ & _ & _ & ? & _).
Qed.

(** The names of the results are safe aliases. *)
Definition result_names_safe (r : FullReferenceScoreResult) : Prop :=
  _SAFE_TREATMENT (res_stage r) = true /\ Forall (fun t => _SAFE_TRANSFORMATION t = true) (res_transformations r).

Definition stage_stats_finite (s : FullReferenceStageAggregate) : Prop :=
  stat_ok (mean s) /\ stat_ok (median_ s) /\ stat_ok (minimum s) /\ stat_ok (maximum s) /\ stat_ok (population_stddev s).

Lemma aggregate_complete indexed m a : aggregate_ok indexed m a -> agg_state a = aggregated ->
  is_Some (mean a) /\ is_Some (median_ a) /\ is_Some (minimum a) /\ is_Some (maximum a) /\ is_Some (population_stddev a).
Proof.
  intros H (_ & _ & scores & _ & _ & H1 & H2 & -> & -> & H3)%(ag_aggregated _ _ _ H).
  destruct (fmean scores), (median scores), (pstdev scores); try done. cbn in *.
  injection H1 as ->. injection H2 as ->. injection H3 as ->. split_and!; eauto.
Qed.

(** What aggregation writes, loading reads back: with results whose stage
    and transformations are safe aliases, a valid contract and finite
    statistics, the payload of an aggregated treatment loads, within the size
    limit, as the same report. *)
Theorem treatment_report_round_trip t reports m r size :
  aggregate_full_reference_reports t reports m = Ok r ->
  (let c := treatment_contract r in
   make_contract (scorer c) (contract_metric_name c) (minimum_score c) (maximum_score c) = Ok c) ->
  Forall (fun report => Forall result_names_safe (results report)) reports ->
  Forall stage_stats_finite (stages r) -> size <= _MAX_REPORT_BYTES ->
  load_full_reference_treatment_report size (JObj (safe_payload r)) = Ok r.
Proof.
  intros (s & Hs & Ht & <- & Hm & <- & Hl)%aggregate_reports_ok Hc Hsafe Hstats Hsize.
  destruct (report_step_ok _ _ _ _ _ Hs (NoDup_nil_2)) as (Hn & _ & _ & Hst & Hres).
  unfold load_full_reference_treatment_report. rewrite (proj2 (Z.ltb_ge _ _) Hsize).
  change (jget "aggregate" (safe_payload r)) with (@None json). cbn match. apply load_report_payload.
  constructor; try done; [|by rewrite (aggregate_stage_names _ _ _ _ _ _ Hl)].
  apply Forall_forall. intros a Ha. destruct (list_elem_of_lookup_1 _ _ Ha) as [i Hi].
  destruct (Forall2_lookup_r _ _ _ _ _ Hl Hi) as (st & Hst' & H).
  apply aggregate_stage_ok in H as (<- & H1 & H2 & H3 & H4 & H5). rewrite Forall_forall in Hsafe.
  constructor; try done.
  - apply list_elem_of_lookup_2 in Hst'. apply Hst in Hst' as [?|(rep & res & Hrep & Hr & <-)]; [by apply not_elem_of_nil in H|].
    apply Hsafe in Hrep. rewrite Forall_forall in Hrep. by apply Hrep in Hr as [? _].
  - destruct H4. lia.
  - destruct (H5 _ eq_refl) as [->|(idx & res & Hidx & Hg & <-)]; [by constructor|].
    destruct (Hres _ _ _ Hidx Hg) as [?|(rep & Hrep & Hr)]; [by apply not_elem_of_nil in H|].
    apply Hsafe in Hrep. rewrite Forall_forall in Hrep. by apply Hrep in Hr as [_ ?].
  - rewrite Forall_forall in Hstats. by apply Hstats.
  - by apply (aggregate_complete _ _ _ H4).
Qed.

(** ** Regression in both directions *)

Definition mirror (s : regression_state) : regression_state :=
  match s with improved => regressed | regressed => improved | s => s end.

Definition policy_valid (p : FullReferenceRegressionPolicy) : Prop :=
  exists q, stable_tolerance p = Fin q /\ (0 <= q)%Q.

Lemma make_policy_valid x h p : make_policy x h = Ok p -> policy_valid p.
Proof.
  unfold make_policy. destruct x as [q| | |]; cbn [is_finite negb orb]; try done.
  destruct (fltb (Fin q) fzero) eqn:E; [done|]. intros [= <-]. exists q. split; [done|]. by apply fltb_fin_false in E.
Qed.

(** No difference is above the tolerance and below its opposite. *)
Lemma tolerance_exclusive p x : policy_valid p ->
  fltb (stable_tolerance p) x = true -> fltb x (fopp (stable_tolerance p)) = true -> False.
Proof.
  intros (q & -> & Hq). destruct x as [a| | |]; cbn [fopp]; try done. rewrite !fltb_fin. intros. lra.
Qed.

Lemma classify_proper p x y : feqv x y -> classify_delta p x = classify_delta p y.
Proof. intros H. unfold classify_delta. destruct (higher_is_better p); rewrite !H; reflexivity. Qed.

Lemma classify_opp p x : policy_valid p -> classify_delta p (fopp x) = mirror (classify_delta p x).
Proof.
  intros Hp. unfold classify_delta. cbn zeta. set (t := stable_tolerance p).
  set (y := if higher_is_better p then x else fopp x).
  assert (feqv (if higher_is_better p then fopp x else fopp (fopp x)) (fopp y)) as Hy
    by (unfold y; destruct (higher_is_better p); reflexivity).
  rewrite !Hy, (fltb_opp y t). assert (fltb t (fopp y) = fltb y (fopp t)) as ->
    by (rewrite <- (fltb_opp (fopp t) y); by rewrite fopp_opp).
  destruct (fltb t y) eqn:E1, (fltb y (fopp t)) eqn:E2; try done.
  destruct (tolerance_exclusive _ _ Hp E1 E2).
Qed.

Lemma classify_mirror p b c : policy_valid p ->
  classify_delta p (fsub b c) = mirror (classify_delta p (fsub c b)).
Proof. intros Hp. rewrite (classify_proper p _ _ (fsub_swap b c)). by apply classify_opp. Qed.

Lemma reason_mirror b c m : _indeterminate_reason b c m = None <-> _indeterminate_reason c b m = None.
Proof.
  unfold _indeterminate_reason. destruct m, b as [b|], c as [c|]; cbn [negb]; try by split.
  repeat (case_bool_decide; cbn [negb]; try by split); try congruence; destruct (mean b), (mean c); by split.
Qed.

Lemma no_reason_means b c m : _indeterminate_reason b c m = None ->
  exists x y, mean_of b = Some x /\ mean_of c = Some y.
Proof.
  unfold _indeterminate_reason. destruct m, b as [b|], c as [c|]; cbn [negb mean_of]; try done.
  repeat (case_bool_decide; cbn [negb]; try done). destruct (mean b), (mean c); try done. eauto.
Qed.

Lemma compare_mirror p m stage b c : policy_valid p ->
  let r := _compare_stage p m stage b c in
  let r' := _compare_stage p m stage c b in
  reg_stage r' = reg_stage r /\ reg_state r' = mirror (reg_state r)
  /\ baseline_mean r' = current_mean r /\ current_mean r' = baseline_mean r
  /\ (reg_reason r' = None <-> reg_reason r = None).
Proof.
  intros Hp. cbn zeta. unfold _compare_stage. pose proof (reason_mirror b c m) as Hr.
  destruct (_indeterminate_reason b c m) eqn:E.
  - destruct (_indeterminate_reason c b m); [by split_and!|by pose proof (proj2 Hr eq_refl)].
  - rewrite (proj1 Hr eq_refl). destruct (no_reason_means _ _ _ E) as (x & y & -> & ->).
    cbn [reg_stage reg_state baseline_mean current_mean reg_reason]. split_and!; try done. by apply classify_mirror.
Qed.

Lemma extend_order_NoDup order keys : NoDup order -> NoDup keys -> NoDup (extend_order order keys).
Proof.
  intros Ho Hk. unfold extend_order. apply NoDup_app. split_and!; [done| |].
  - intros k Hk1 [_ Hk2]%elem_of_filterb. by rewrite bool_decide_true in Hk2 by done.
  - by apply NoDup_ListNoDup, List.NoDup_filter, NoDup_ListNoDup.
Qed.

Lemma elem_of_extend_order k order keys : k ∈ extend_order order keys <-> k ∈ order \/ k ∈ keys.
Proof.
  unfold extend_order. rewrite elem_of_app, elem_of_filterb.
  destruct (bool_decide_reflect (k ∈ order)) as [|]; cbn; naive_solver.
Qed.

Lemma stage_index_keys k r : k ∈ dict_keys (stage_index r) <-> k ∈ map agg_stage (stages r).
Proof. unfold stage_index. rewrite dict_of_list_keys, <- list_fmap_compose. done. Qed.

Lemma countb_perm {A} (p : A -> bool) l l' : l ≡ₚ l' -> countb p l = countb p l'.
Proof. induction 1; cbn [countb]; lia. Qed.

Lemma countb_map {A B} (p : B -> bool) (f : A -> B) l : countb p (map f l) = countb (fun x => p (f x)) l.
Proof. induction l as [|x l IH]; [done|]. cbn [map countb]. by rewrite IH. Qed.

Lemma countb_ext {A} (p q : A -> bool) l : (forall x, p x = q x) -> countb p l = countb q l.
Proof. intros H. induction l as [|x l IH]; [done|]. cbn [countb]. by rewrite H, IH. Qed.

Lemma count_regression_states l :
  countb (fun s => bool_decide (reg_state s = improved)) l + countb (fun s => bool_decide (reg_state s = stable_)) l
  + countb (fun s => bool_decide (reg_state s = regressed)) l
  + countb (fun s => bool_decide (reg_state s = indeterminate)) l = len l.
Proof.
  induction l as [|s l IH]; [done|]. cbn [countb]. rewrite len_cons, <- IH.
  destruct (reg_state s); repeat case_bool_decide; try done; lia.
Qed.

(** The stages of a comparison, in order. *)
Definition compared_stages (b c : FullReferenceTreatmentReport) : list string :=
  extend_order (dict_keys (stage_index b)) (dict_keys (stage_index c)).

Lemma compared_stages_ok b c :
  NoDup (compared_stages b c)
  /\ (forall k, k ∈ compared_stages b c <-> k ∈ map agg_stage (stages b) \/ k ∈ map agg_stage (stages c)).
Proof.
  split; [apply extend_order_NoDup; apply dict_of_list_NoDup|].
  intros k. unfold compared_stages. by rewrite elem_of_extend_order, !stage_index_keys.
Qed.

Lemma compared_stages_swap b c : compared_stages b c ≡ₚ compared_stages c b.
Proof.
  destruct (compared_stages_ok b c) as [H1 H2], (compared_stages_ok c b) as [H3 H4].
  apply NoDup_Permutation; [done|done|]. intros k. rewrite H2, H4. tauto.
Qed.

Lemma classify_delta_determinate p x : classify_delta p x <> indeterminate.
Proof. unfold classify_delta. by repeat case_match. Qed.

Lemma compare_state_reason p m stage b c :
  reg_reason (_compare_stage p m stage b c) = None <-> reg_state (_compare_stage p m stage b c) <> indeterminate.
Proof.
  unfold _compare_stage. destruct (_indeterminate_reason b c m) eqn:E; [by cbn; split|].
  destruct (no_reason_means _ _ _ E) as (x & y & -> & ->).
  split; [intros _; apply classify_delta_determinate|done].
Qed.

(** Comparing two treatments: every stage of either report is compared
    exactly once, a reason is given exactly for the indeterminate stages, and
    the comparison has no preferred side: swapping the two reports reports for
    every stage the opposite change between the same means, improvements and
    regressions trading places in the summary, whose counts sum to the number
    of stages. *)
Theorem regression_mirrors b c p x higher :
  make_policy x higher = Ok p ->
  let r := compare_full_reference_treatments b c p in
  let r' := compare_full_reference_treatments c b p in
  NoDup (map reg_stage (reg_stages r))
  /\ (forall k, k ∈ map reg_stage (reg_stages r) <-> k ∈ map agg_stage (stages b) \/ k ∈ map agg_stage (stages c))
  /\ (forall s, s ∈ reg_stages r ->
       (reg_reason s = None <-> reg_state s <> indeterminate)
       /\ exists s', s' ∈ reg_stages r' /\ reg_stage s' = reg_stage s /\ reg_state s' = mirror (reg_state s)
                     /\ baseline_mean s' = current_mean s /\ current_mean s' = baseline_mean s)
  /\ exists i s g n, summary r = [(improved, i); (stable_, s); (regressed, g); (indeterminate, n)]
       /\ summary r' = [(improved, g); (stable_, s); (regressed, i); (indeterminate, n)]
       /\ i + s + g + n = len (reg_stages r).
Proof.
  intros Hp%make_policy_valid. unfold compare_full_reference_treatments.
  assert (bool_decide (treatment_contract c = treatment_contract b)
          = bool_decide (treatment_contract b = treatment_contract c)) as -> by (by apply bool_decide_ext).
  set (m := bool_decide _). fold (compared_stages b c) (compared_stages c b).
  destruct (compared_stages_ok b c) as [Hn Hk]. set (bi := stage_index b). set (ci := stage_index c). cbn [reg_stages].
  assert (map reg_stage (map (fun stage => _compare_stage p m stage (dict_get stage bi) (dict_get stage ci))
            (compared_stages b c)) = compared_stages b c) as ->.
  { rewrite map_map. etransitivity; [|apply map_id]. apply map_ext. intros stage.
    unfold _compare_stage. by repeat case_match. }
  split; [done|]. split; [done|]. split.
  - intros s (stage & -> & Hs)%list_elem_of_fmap. split; [apply compare_state_reason|].
    exists (_compare_stage p m stage (dict_get stage ci) (dict_get stage bi)).
    split; [apply list_elem_of_fmap; exists stage; split; [done|]; by rewrite <- compared_stages_swap|].
    by destruct (compare_mirror p m stage (dict_get stage bi) (dict_get stage ci) Hp) as (? & ? & ? & ? & _).
  - unfold summary. cbn [map reg_stages].
    assert (forall state, countb (fun s => bool_decide (reg_state s = state))
        (map (fun stage => _compare_stage p m stage (dict_get stage ci) (dict_get stage bi)) (compared_stages c b))
      = countb (fun s => bool_decide (reg_state s = mirror state))
        (map (fun stage => _compare_stage p m stage (dict_get stage bi) (dict_get stage ci)) (compared_stages b c)))
      as Hswap.
    { intros state. rewrite !countb_map, (countb_perm _ _ _ (compared_stages_swap c b)). apply countb_ext. intros stage.
      destruct (compare_mirror p m stage (dict_get stage bi) (dict_get stage ci) Hp) as (_ & -> & _).
      apply bool_decide_ext. destruct (reg_state _), state; done. }
    rewrite !Hswap. cbn [mirror]. do 4 eexists. split; [done|]. split; [done|]. apply count_regression_states.
Qed.

(** ** Concrete reports *)

Definition sample_contract : FullReferenceScorerContract := MkContract "visqol" "mos-lqo" (fz 1) (fz 5).
Definition sample_result (stage : string) (score : Z) : FullReferenceScoreResult :=
  MkScoreResult stage "visqol" "mos-lqo" scored (Some (fz score)) None ["resample:16k"].
Definition failed_result (stage : string) : FullReferenceScoreResult :=
  MkScoreResult stage "visqol" "mos-lqo" failed_ None (Some "scorer-error") [].

Definition sample_reports : list FullReferenceScoringReport :=
  [ MkScoringReport sample_contract [sample_result "agent-rx" 2; sample_result "caller-rx" 3];
    MkScoringReport sample_contract [sample_result "agent-rx" 4; failed_result "caller-rx"] ].

Definition treatment_stages (score : Z) : FullReferenceTreatmentReport :=
  MkTreatment "baseline" 2 sample_contract
    [MkAggregate "baseline" "agent-rx" "visqol" "mos-lqo" aggregated 2 2 0 0 0 0 (Some (fz score)) (Some (fz score))
       (Some (fz score)) (Some (fz score)) (Some fzero) ["resample:16k"]].

Definition sample_treatment : FullReferenceTreatmentReport :=
  match aggregate_full_reference_reports "narrowband" sample_reports 2 with
  | Ok r => r
  | Raise _ _ => treatment_stages 0
  end.

Lemma aggregation_accounts_for_every_sample_witness :
  map (fun a => (agg_stage a, agg_state a, scored_count a, failed_count a)) (stages sample_treatment)
    = [("agent-rx", aggregated, 2, 0); ("caller-rx", partial, 1, 1)]
  /\ NoDup (map agg_stage (stages sample_treatment)).
Proof.
  split; [vm_compute; reflexivity|].
  apply (aggregation_accounts_for_every_sample "narrowband" sample_reports 2). vm_compute. reflexivity.
Defined.

Lemma treatment_report_round_trip_witness :
  load_full_reference_treatment_report 900 (JObj (safe_payload sample_treatment)) = Ok sample_treatment.
Proof.
  apply (treatment_report_round_trip "narrowband" sample_reports 2).
  - vm_compute. reflexivity.
  - vm_compute. reflexivity.
  - repeat constructor.
  - vm_compute. repeat constructor.
  - unfold _MAX_REPORT_BYTES. lia.
Defined.

Lemma regression_mirrors_witness :
  let p := MkPolicy (flit 1 10) true in
  summary (compare_full_reference_treatments (treatment_stages 3) (treatment_stages 4) p)
    = [(improved, 1); (stable_, 0); (regressed, 0); (indeterminate, 0)]
  /\ summary (compare_full_reference_treatments (treatment_stages 4) (treatment_stages 3) p)
    = [(improved, 0); (stable_, 0); (regressed, 1); (indeterminate, 0)]
  /\ NoDup (map reg_stage (reg_stages (compare_full_reference_treatments (treatment_stages 3) (treatment_stages 4) p))).
Proof.
  intros p. split; [vm_compute; reflexivity|]. split; [vm_compute; reflexivity|].
  apply (regression_mirrors (treatment_stages 3) (treatment_stages 4) p (flit 1 10) true). vm_compute. reflexivity.
Defined.
