(* ===== verification/SyntheticCaller.v ===== *)
(** * The offline synthetic caller

    [synthetic_caller/offline.py] and [synthetic_caller/verification.py]: sine
    files made for the stages of a configuration, their verification, selection
    and scoring, and treatments of several such runs.  The sine and the
    logarithm of the platform, the text of a JSON report, foreign wave files
    and the answers of the disk are arguments. *)
From S2P Require Import Prelude Effects Collections PyFloat PyData PyFormat Bytes G711 Json Timeline RunModel RtpEvidence Registry SignalChecks PyUrl RecordingStorage Wave Harness LiveDemo Scoring Treatments.

Open Scope Z_scope.

(** ** The data *)

Record SyntheticAudioSpec := MkAudioSpec {
  sample_rate_hz : Z; spec_channels : Z; duration_seconds : float; amplitude : Z; frequency_hz : float }.

Record SyntheticStageDegradation := MkDegradation {
  duration_scale : float; level_scale : float; deg_frames_in : option float; deg_frames_out : option float;
  deg_frame_cadence_jitter_ms : option float }.

Definition no_degradation : SyntheticStageDegradation := MkDegradation (fz 1) (fz 1) None None None.

Record StageReferenceArtifact := MkStageReference {
  sra_stage : string; sra_uri : string; sra_stage_format : jdict; sra_comparison_format : jdict; sra_duration_ms : float;
  sra_transformations : list string; sra_comparison_ready : bool; sra_blocked_reason : option string }.

Record SyntheticArtifacts := MkSyntheticArtifacts {
  sa_reference_uri : string; stage_references : list StageReferenceArtifact; sa_recordings : list RecordingArtifact;
  sa_metrics : list MetricArtifact }.

(** What the disk and the clock answer. *)
Record caller_env := MkCallerEnv {
  mkdir_answer : string -> result unit; write_answer : string -> put_outcome; cadence_clock : nat -> instant; score_clock : instant }.

(** [path.as_uri()]. *)
Definition path_uri (path : string) : result string :=
  match chars path with
  | "/"%char :: _ => Ok (as_uri path)
  | _ => Raise ValueError "relative path can't be expressed as a file URI"
  end.

(** ** The files *)

Definition _validate_audio_spec (s : SyntheticAudioSpec) : result unit :=
  _ ← guard_else (0 <? sample_rate_hz s) ValueError "sample_rate_hz must be positive";
  _ ← guard_else (0 <? spec_channels s) ValueError "channels must be positive";
  _ ← guard_else (negb (fleb (duration_seconds s) fzero)) ValueError "duration_seconds must be positive";
  _ ← guard_else ((0 <=? amplitude s) && (amplitude s <=? 32767)) ValueError "amplitude must fit signed 16-bit PCM";
  _ ← guard_else (negb (fleb (frequency_hz s) fzero)) ValueError "frequency_hz must be positive";
  half ← int_truediv (sample_rate_hz s) 2;
  guard_else (negb (fleb half (frequency_hz s))) ValueError "frequency_hz must be below the Nyquist frequency".

Section caller.
Context (sin : float -> result float).

(** [round(amplitude * math.sin(2.0 * math.pi * frequency_hz * index / sample_rate_hz))]. *)
Definition sine_sample (s : SyntheticAudioSpec) (index : Z) : result Z :=
  i ← float_of_int index;
  rate ← float_of_int (sample_rate_hz s);
  angle ← fdiv (fmul (fmul (fmul (fz 2) math_pi) (frequency_hz s)) i) rate;
  y ← sin angle;
  a ← float_of_int (amplitude s);
  py_round (fmul a y).

Definition sine_frame (s : SyntheticAudioSpec) (index : Z) : result bytes :=
  sample ← sine_sample s index;
  packed ← pack16 sample;
  Ok (concat (repeat packed (Z.to_nat (spec_channels s)))).

Definition sine_count (s : SyntheticAudioSpec) : result Z :=
  rate ← float_of_int (sample_rate_hz s); py_round (fmul rate (duration_seconds s)).

Definition sine_frames (s : SyntheticAudioSpec) : result bytes :=
  frame_count ← sine_count s;
  frames ← mapM_res (sine_frame s) (seqZ 0 frame_count);
  Ok (concat frames).

Definition codec_frames (codec_round_trip : option string) (frames : bytes) : result bytes :=
  match codec_round_trip with
  | None => Ok frames
  | Some codec =>
      if String.eqb codec "mulaw" then encoded ← pcm16le_to_mulaw frames; mulaw_to_pcm16le encoded
      else Raise ValueError ("unsupported reference codec round-trip: " +:+ codec)
  end.

(** The frames and the file of a sine. *)
Definition encoded_sine (s : SyntheticAudioSpec) (codec_round_trip : option string) : result bytes :=
  frames ← sine_frames s; codec_frames codec_round_trip frames.

Definition sine_wave (s : SyntheticAudioSpec) (codec_round_trip : option string) : result bytes :=
  frames ← encoded_sine s codec_round_trip; wave_file (spec_channels s) 2 (sample_rate_hz s) frames.

Definition _write_sine_wav (e : caller_env) (path : string) (s : SyntheticAudioSpec) (codec_round_trip : option string)
    : st storage unit :=
  frames ← lift (encoded_sine s codec_round_trip);
  put_file (write_answer e path) path (wave_file (spec_channels s) 2 (sample_rate_hz s) frames).

(** ** References *)

(** [rate] and [channels] of a format when both are integers; a boolean is the
    integer it equals. *)
Definition format_rate (format : jdict) : option Z := jint (Some (first_truthy (jget "rate" format) (jget "output_rate" format))).
Definition format_channels (format : jdict) : option Z := jint (jget "channels" format).

Definition encoding_of (format : jdict) : json := default JNull (jget "encoding" format).

Definition codec_of (encoding : json) (rate : Z) : option string :=
  if json_eqb encoding (JStr "mulaw") && (rate =? 8000) then Some "mulaw" else None.

Definition pcm_format (rate channels : Z) : jdict :=
  [("encoding", JStr "pcm16"); ("rate", JInt rate); ("channels", JInt channels)].

(** [encoding in {...}] of values that must be hashable. *)
Definition is_linear (encoding : json) : result bool :=
  name ← hashable_str encoding; Ok (bool_decide (name = Some "pcm16" \/ name = Some "linear16")).

(** [f"{v}"]. *)
Definition json_text (v : json) : string := match v with JStr s => s | _ => str_json v end.

Definition _reference_transformations (source target : SyntheticAudioSpec) (stage_encoding : json) : result (list string) :=
  linear ← is_linear stage_encoding;
  Ok ((if sample_rate_hz source =? sample_rate_hz target then []
       else ["resample:" +:+ pretty (sample_rate_hz source) +:+ "->" +:+ pretty (sample_rate_hz target)])
      ++ (if spec_channels source =? spec_channels target then []
          else ["channel-map:" +:+ pretty (spec_channels source) +:+ "->" +:+ pretty (spec_channels target)])
      ++ (if linear || json_eqb stage_encoding JNull then [] else ["codec-round-trip:" +:+ json_text stage_encoding])).

Definition wav_in (root stage : string) : string := child root (stage +:+ ".wav").

Definition stage_reference (e : caller_env) (references_root : string) (audio : SyntheticAudioSpec) (p : StagePlan)
    : st storage StageReferenceArtifact :=
  rate ← lift (match format_rate (plan_format p) with
               | Some rate => if 0 <? rate then Ok rate else Raise ValueError ("stage '" +:+ plan_stage p +:+ "' reference format requires a rate")
               | None => Raise ValueError ("stage '" +:+ plan_stage p +:+ "' reference format requires a rate")
               end);
  channels ← lift (match format_channels (plan_format p) with
                   | Some channels => if 0 <? channels then Ok channels
                                      else Raise ValueError ("stage '" +:+ plan_stage p +:+ "' reference format requires channels")
                   | None => Raise ValueError ("stage '" +:+ plan_stage p +:+ "' reference format requires channels")
                   end);
  let reference_spec := MkAudioSpec rate channels (duration_seconds audio) (amplitude audio) (frequency_hz audio) in
  _ ← lift (_validate_audio_spec reference_spec);
  let encoding := encoding_of (plan_format p) in
  let codec_round_trip := codec_of encoding rate in
  let path := wav_in references_root (plan_stage p) in
  _ ← _write_sine_wav e path reference_spec codec_round_trip;
  linear ← lift (is_linear encoding);
  let ready := linear || bool_decide (codec_round_trip <> None) in
  transformations ← lift (_reference_transformations audio reference_spec encoding);
  uri ← lift (path_uri path);
  mret (MkStageReference (plan_stage p) uri (plan_format p) (pcm_format rate channels) (fmul (duration_seconds audio) (fz 1000))
          transformations ready (if ready then None else Some ("codec-round-trip-required:" +:+ json_text encoding))).

Fixpoint references_loop (e : caller_env) (references_root : string) (audio : SyntheticAudioSpec) (plan : list StagePlan)
    : st storage (list StageReferenceArtifact) :=
  match plan with
  | [] => mret []
  | p :: plan' =>
      r ← stage_reference e references_root audio p;
      rest ← references_loop e references_root audio plan';
      mret (r :: rest)
  end.

Definition _stage_references (e : caller_env) (config : jdict) (root : string) (audio : SyntheticAudioSpec)
    : st storage (list StageReferenceArtifact) :=
  let references_root := child root "references" in
  _ ← lift (mkdir_answer e references_root);
  plan ← lift (build_stage_plan config);
  references_loop e references_root audio plan.

(** ** The recordings of the stages *)

Definition _cadence_metrics (config : jdict) (stage : json) (duration : float) (d : SyntheticStageDegradation) (ts : instant)
    : result (list MetricArtifact) :=
  invariants ← json_get "invariants_applicable" (JArr []) stage;
  isochronous ← json_contains "isochronous" invariants;
  if negb isochronous then Ok []
  else
    spec ← json_item "spec" (JObj config);
    transport ← json_get "transport" (JObj []) spec;
    v ← json_get "ptime_ms" JNull transport;
    match positive_number v with
    | None => Ok []
    | Some ptime =>
        ptime_ms ← ptime;
        nominal_frames ← fdiv (fmul duration (fz 1000)) ptime_ms;
        name ← plan_text "type" stage;
        let point metric value := MkMetric (Some name) metric value ts in
        Ok [point "frames_in" (default nominal_frames (deg_frames_in d));
            point "frames_out" (default nominal_frames (deg_frames_out d));
            point "frame_cadence_jitter_ms" (default fzero (deg_frame_cadence_jitter_ms d));
            point "expected_frame_interval_ms" ptime_ms]
    end.

(** The tone of a stage: the given one in the format of the stage, degraded. *)
Definition degraded_spec (audio : SyntheticAudioSpec) (d : SyntheticStageDegradation) (rate channels : Z) : result SyntheticAudioSpec :=
  a ← float_of_int (amplitude audio);
  level ← py_round (fmul a (level_scale d));
  Ok (MkAudioSpec rate channels (fmul (duration_seconds audio) (duration_scale d)) level (frequency_hz audio)).

Definition stage_recording (e : caller_env) (root : string) (config : jdict) (audio : SyntheticAudioSpec)
    (degradations : list (string * SyntheticStageDegradation)) (formats : list (string * jdict)) (n : nat) (stage : json)
    : st storage (RecordingArtifact * list MetricArtifact) :=
  name ← lift (plan_text "type" stage);
  format ← lift (from_option_err (dict_get name formats) KeyError name);
  match format_rate format, format_channels format with
  | Some rate, Some channels =>
      let degradation := dict_get_default name no_degradation degradations in
      stage_spec ← lift (degraded_spec audio degradation rate channels);
      _ ← lift (_validate_audio_spec stage_spec);
      let path := wav_in root name in
      _ ← _write_sine_wav e path stage_spec (codec_of (encoding_of format) rate);
      uri ← lift (path_uri path);
      metrics ← lift (_cadence_metrics config stage (duration_seconds audio) degradation (cadence_clock e n));
      mret (MkRecording name uri (pcm_format rate channels) (fmul (duration_seconds stage_spec) (fz 1000)), metrics)
  | _, _ => throw ValueError ("stage '" +:+ name +:+ "' output recording requires rate and channels")
  end.

Fixpoint recordings_loop (e : caller_env) (root : string) (config : jdict) (audio : SyntheticAudioSpec)
    (degradations : list (string * SyntheticStageDegradation)) (formats : list (string * jdict)) (n : nat) (stages : list json)
    : st storage (list RecordingArtifact * list MetricArtifact) :=
  match stages with
  | [] => mret ([], [])
  | stage :: stages' =>
      recorded ← stage_recording e root config audio degradations formats n stage;
      rest ← recordings_loop e root config audio degradations formats (S n) stages';
      mret (recorded.1 :: rest.1, recorded.2 ++ rest.2)
  end.

Definition generate_synthetic_artifacts (e : caller_env) (config : jdict) (root : string) (audio : SyntheticAudioSpec)
    (degradations : list (string * SyntheticStageDegradation)) : st storage SyntheticArtifacts :=
  _ ← lift (_validate_audio_spec audio);
  _ ← lift (mkdir_answer e root);
  let reference_path := child root "reference.wav" in
  _ ← _write_sine_wav e reference_path audio None;
  references ← _stage_references e config root audio;
  plan ← lift (build_stage_plan config);
  stages ← lift (config_pipeline config);
  let formats := dict_of_list (map (fun p => (plan_stage p, plan_format p)) plan) in
  recorded ← recordings_loop e root config audio degradations formats 0 stages;
  uri ← lift (path_uri reference_path);
  mret (MkSyntheticArtifacts uri references recorded.1 recorded.2).

(** ** Verification *)

Inductive SyntheticState := complete | partial_ | failed_run.

Record SyntheticVerificationRun := MkVerificationRun {
  sv_state : SyntheticState; sv_artifacts : SyntheticArtifacts; sv_invariant_results : list VerificationResult;
  sv_full_reference : FullReferenceScoringReport; sv_metrics : list MetricArtifact }.

(** What the selection reads of a reference. *)
Definition reference_of (r : StageReferenceArtifact) : StageReference :=
  MkReference (sra_stage r) (sra_uri r) (sra_comparison_format r) (map Some (sra_transformations r)) (sra_comparison_ready r)
    (sra_blocked_reason r).

Definition has_state (states : list score_state) (report : FullReferenceScoringReport) : bool :=
  existsb (fun r => bool_decide (res_state r ∈ states)) (results report).

Definition _verification_state (invariant_results : list VerificationResult) (full_reference : FullReferenceScoringReport)
    : SyntheticState :=
  if existsb (fun v => negb (ver_passed v)) invariant_results || has_state [failed_] full_reference then failed_run
  else if bool_decide (results full_reference = []) || has_state [unavailable; blocked_] full_reference then partial_
  else complete.

(** The wave files of the disk, by their URIs. *)
Context (other_layout : bytes -> result wav_file) (log10 : float -> result float).

Definition disk_wav (s : storage) (uri : string) : result wav_file :=
  match _local_recording_path uri with
  | Some (Some path) => match disk_files s !! path with
                        | Some content => read_wave other_layout content
                        | None => Raise OSError "No such file or directory"
                        end
  | _ => Raise OSError "No such file or directory"
  end.

(** [scorer] reads the files of the disk. *)
Definition run_synthetic_verification (e : caller_env) (config : jdict) (root : string) (audio : SyntheticAudioSpec)
    (scorer : storage -> FullReferenceScorer) (degradations : list (string * SyntheticStageDegradation))
    : st storage SyntheticVerificationRun :=
  artifacts ← generate_synthetic_artifacts e config root audio degradations;
  s ← get_state;
  invariant_results ← lift (verify_recordings (disk_wav s) log10 default_tolerances config (sa_recordings artifacts) (sa_metrics artifacts));
  let selection := select_full_reference_candidates (map reference_of (stage_references artifacts)) (sa_recordings artifacts) in
  let full_reference := score_full_reference_selection selection (scorer s) in
  let score_metrics := full_reference_scores_to_metrics full_reference (score_clock e) in
  mret (MkVerificationRun (_verification_state invariant_results full_reference) artifacts invariant_results full_reference
          (sa_metrics artifacts ++ score_metrics)).

(** ** Reports *)

Definition state_text (s : SyntheticState) : string :=
  match s with complete => "complete" | partial_ => "partial" | failed_run => "failed" end.

Definition score_state_text (s : score_state) : string :=
  match s with scored => "scored" | unavailable => "unavailable" | blocked_ => "blocked" | failed_ => "failed" end.

Definition text_or_null (t : option string) : json := match t with Some t => JStr t | None => JNull end.

Definition score_payload (r : FullReferenceScoreResult) : json :=
  JObj [("metric_name", JStr (res_metric_name r)); ("reason_alias", text_or_null (res_reason_alias r));
        ("score", jnumber (res_score r)); ("scorer", JStr (res_scorer r)); ("stage", JStr (res_stage r));
        ("state", JStr (score_state_text (res_state r))); ("transformations", JArr (map JStr (res_transformations r)))].

Definition verdict_payload (v : VerificationResult) : json :=
  JObj [("detail", JStr (ver_detail v)); ("expected", JObj (ver_expected v)); ("invariant", JStr (ver_invariant v));
        ("observed", JObj (ver_observed v)); ("passed", JBool (ver_passed v)); ("stage", JStr (ver_stage v))].

Definition count_scores (state : score_state) (run : SyntheticVerificationRun) : json :=
  JInt (countb (fun r => bool_decide (res_state r = state)) (results (sv_full_reference run))).

Definition verification_payload (run : SyntheticVerificationRun) : json :=
  JObj [("artifacts",
          JObj [("recording_stages", JArr (map (fun r => JStr (rec_stage r)) (sa_recordings (sv_artifacts run))));
                ("reference_stages", JArr (map (fun r => JStr (sra_stage r)) (stage_references (sv_artifacts run))))]);
        ("full_reference", JArr (map score_payload (results (sv_full_reference run))));
        ("invariants", JArr (map verdict_payload (sv_invariant_results run)));
        ("state", JStr (state_text (sv_state run)));
        ("summary",
          JObj [("invariants_failed", JInt (countb (fun v => negb (ver_passed v)) (sv_invariant_results run)));
                ("invariants_passed", JInt (countb ver_passed (sv_invariant_results run)));
                ("scores_blocked", count_scores blocked_ run); ("scores_failed", count_scores failed_ run);
                ("scores_scored", count_scores scored run); ("scores_unavailable", count_scores unavailable run)])].

(** [json.dump(payload, handle, indent=2, sort_keys=True)] and a line end. *)
Context (dump_text : json -> bytes).

Definition write_report (e : caller_env) (parent name : string) (payload : json) : st storage unit :=
  _ ← lift (mkdir_answer e parent);
  let path := child parent name in
  put_file (write_answer e path) path (Ok (dump_text payload ++ ascii_bytes (str [chr 10]))).

(** ** Treatments *)

Record SyntheticTreatmentRun := MkTreatmentRun {
  st_treatment : string; st_state : SyntheticState; st_samples : list SyntheticVerificationRun;
  st_aggregate : FullReferenceTreatmentReport }.

(** [f"sample-{index + 1:03d}"]. *)
Definition sample_name (index : Z) : string :=
  let number := pretty (index + 1) in
  "sample-" +:+ str (replicate (3 - String.length number) "0"%char) +:+ number.

Definition sample_spec (audio : SyntheticAudioSpec) (frequency_step_hz : float) (index : Z) : result SyntheticAudioSpec :=
  i ← float_of_int index;
  Ok (MkAudioSpec (sample_rate_hz audio) (spec_channels audio) (duration_seconds audio) (amplitude audio)
        (fadd (frequency_hz audio) (fmul i frequency_step_hz))).

(** One sample; the environment of a sample is its own. *)
Definition treatment_sample (e : Z -> caller_env) (config : jdict) (root : string) (audio : SyntheticAudioSpec)
    (scorer : storage -> FullReferenceScorer) (frequency_step_hz : float) (index : Z) : st storage SyntheticVerificationRun :=
  let sample_root := child root (sample_name index) in
  spec ← lift (sample_spec audio frequency_step_hz index);
  sample ← run_synthetic_verification (e index) config sample_root spec scorer [];
  _ ← write_report (e index) sample_root "verification-report.json" (verification_payload sample);
  mret sample.

Fixpoint samples_loop (e : Z -> caller_env) (config : jdict) (root : string) (audio : SyntheticAudioSpec)
    (scorer : storage -> FullReferenceScorer) (frequency_step_hz : float) (indices : list Z)
    : st storage (list SyntheticVerificationRun) :=
  match indices with
  | [] => mret []
  | index :: indices' =>
      sample ← treatment_sample e config root audio scorer frequency_step_hz index;
      rest ← samples_loop e config root audio scorer frequency_step_hz indices';
      mret (sample :: rest)
  end.

#[export] Instance SyntheticState_eq_dec : EqDecision SyntheticState.
Proof. solve_decision. Defined.

Definition treatment_state (samples : list SyntheticVerificationRun) (aggregate : FullReferenceTreatmentReport) : SyntheticState :=
  if existsb (fun s => bool_decide (sv_state s = failed_run)) samples then failed_run
  else if existsb (fun s => bool_decide (sv_state s = partial_)) samples
          || existsb (fun s => negb (bool_decide (agg_state s = aggregated))) (stages aggregate)
  then partial_ else complete.

Definition run_synthetic_treatment (e : Z -> caller_env) (treatment : string) (sample_count minimum_samples : Z) (config : jdict)
    (root : string) (audio : SyntheticAudioSpec) (scorer : storage -> FullReferenceScorer) (frequency_step_hz : float)
    : st storage SyntheticTreatmentRun :=
  _ ← lift (guard_else (negb (sample_count <? 2)) ValueError "sample_count must be at least 2");
  _ ← lift (guard_else (negb (fltb frequency_step_hz fzero)) ValueError "frequency_step_hz must be non-negative");
  samples ← samples_loop e config root audio scorer frequency_step_hz (seqZ 0 sample_count);
  aggregate ← lift (aggregate_full_reference_reports treatment (map sv_full_reference samples) minimum_samples);
  mret (MkTreatmentRun treatment (treatment_state samples aggregate) samples aggregate).

Definition treatment_payload (run : SyntheticTreatmentRun) : json :=
  JObj [("aggregate", JObj (safe_payload (st_aggregate run))); ("sample_count", JInt (len (st_samples run)));
        ("sample_states", JArr (map (fun s => JStr (state_text (sv_state s))) (st_samples run)));
        ("state", JStr (state_text (st_state run))); ("treatment", JStr (st_treatment run))].
End caller.

(** ** Lemmas: files *)

Lemma path_uri_ok path uri : path_uri path = Ok uri -> uri = as_uri path /\ _local_recording_path uri = Some (Some path).
Proof.
  unfold path_uri. destruct path as [|c p]; [done|]. cbn [chars String.list_ascii_of_string].
  assert (c = "/"%char \/ c <> "/"%char) as [->|Hc] by (destruct (Ascii.eqb_spec c "/"); auto).
  - intros [= <-]. split; [done|]. apply local_path_of_uri.
  - destruct c as [[] [] [] [] [] [] [] []]; done.
Qed.

Lemma wav_in_inj root a b : wav_in root a = wav_in root b -> a = b.
Proof. unfold wav_in, child. intros E. by apply append_cancel_l, append_cancel_l, append_cancel_r in E. Qed.

(** A single component is in no directory below. *)
Lemma wav_in_below root dir a b : single_component a = true -> wav_in root a <> wav_in (child root dir) b.
Proof.
  unfold wav_in, child. intros [_ Hs]%andb_true_iff E. apply negb_true_iff in Hs.
  apply (f_equal chars) in E. rewrite !chars_append, <- !app_assoc in E. apply app_inv_head in E.
  apply (app_inv_head (chars "/")) in E.
  assert (existsb (Ascii.eqb "/") (chars (a +:+ ".wav")) = true) as Hw.
  { rewrite chars_append, E, !existsb_app. apply orb_true_iff. by right. }
  rewrite chars_append, existsb_app, Hs in Hw. done.
Qed.

Section clean.
Context (sin : float -> result float).

Lemma write_sine_ok e path spec codec s u s' : _write_sine_wav sin e path spec codec s = (Ok u, s') ->
  (exists content, sine_wave sin spec codec = Ok content /\ disk_files s' !! path = Some content)
  /\ forall other, other <> path -> disk_files s' !! other = disk_files s !! other.
Proof.
  unfold _write_sine_wav, sine_wave. intros Hw. simpl_st. rewrite H. cbn [mbind result_bind].
  split; [by eapply put_file_ok|]. intros other Hne. by eapply put_file_ne.
Qed.

(** The tone of a stage without degradation. *)
Definition clean_tone (audio : SyntheticAudioSpec) (rate channels : Z) : SyntheticAudioSpec :=
  MkAudioSpec rate channels (duration_seconds audio) (amplitude audio) (frequency_hz audio).

(** The file holds the tone of the stage, in its format. *)
Definition holds_tone (audio : SyntheticAudioSpec) (p : StagePlan) (rate channels : Z) (s : storage) (path : string) : Prop :=
  exists content, sine_wave sin (clean_tone audio rate channels) (codec_of (encoding_of (plan_format p)) rate) = Ok content
    /\ disk_files s !! path = Some content.

Record reference_made (audio : SyntheticAudioSpec) (R : string) (p : StagePlan) (rate channels : Z) (r : StageReferenceArtifact) : Prop := {
  rm_stage : sra_stage r = plan_stage p;
  rm_uri : _local_recording_path (sra_uri r) = Some (Some (wav_in R (plan_stage p)));
  rm_format : sra_comparison_format r = pcm_format rate channels;
  rm_duration : sra_duration_ms r = fmul (duration_seconds audio) (fz 1000);
  rm_ready : exists linear, is_linear (encoding_of (plan_format p)) = Ok linear
    /\ sra_comparison_ready r = linear || bool_decide (codec_of (encoding_of (plan_format p)) rate <> None);
  rm_reason : sra_blocked_reason r = (if sra_comparison_ready r then None
    else Some ("codec-round-trip-required:" +:+ json_text (encoding_of (plan_format p)))) }.

Definition in_format (p : StagePlan) (rate channels : Z) : Prop :=
  format_rate (plan_format p) = Some rate /\ format_channels (plan_format p) = Some channels.

Lemma stage_reference_ok e R audio p s r s' : stage_reference sin e R audio p s = (Ok r, s') ->
  exists rate channels, in_format p rate channels /\ reference_made audio R p rate channels r
    /\ holds_tone audio p rate channels s' (wav_in R (plan_stage p))
    /\ forall other, other <> wav_in R (plan_stage p) -> disk_files s' !! other = disk_files s !! other.
Proof.
  unfold stage_reference. intros Hr. simpl_st.
  destruct (format_rate (plan_format p)) as [rate|] eqn:Er; [|done].
  destruct (format_channels (plan_format p)) as [channels|] eqn:Ec; [|done].
  destruct (0 <? rate); [|done]. destruct (0 <? channels); [|done]. injection H as <-. injection H0 as <-.
  destruct (write_sine_ok _ _ _ _ _ _ _ H2) as [Hfile Hframe]. apply path_uri_ok in H5 as [-> Hl].
  exists rate, channels. split; [done|]. split_and!; [|exact Hfile|exact Hframe]. constructor; try done. by exists a3.
Qed.

(** Every reference of the plan is made, and its file is the one it was given. *)
Lemma references_loop_ok e R audio plan s refs s' : references_loop sin e R audio plan s = (Ok refs, s') ->
  NoDup (map plan_stage plan) ->
  Forall2 (fun p r => exists rate channels, in_format p rate channels /\ reference_made audio R p rate channels r
             /\ holds_tone audio p rate channels s' (wav_in R (plan_stage p))) plan refs
  /\ forall other, (forall p, p ∈ plan -> other <> wav_in R (plan_stage p)) -> disk_files s' !! other = disk_files s !! other.
Proof.
  revert s refs. induction plan as [|p plan IH]; intros s refs; cbn [references_loop].
  { intros Hl _. simpl_st. split; [constructor|done]. }
  intros Hl [Hp Hnd]%NoDup_cons. simpl_st.
  destruct (stage_reference_ok _ _ _ _ _ _ _ H) as (rate & channels & Hf & Hm & (content & Hc & Hd) & Hframe).
  destruct (IH _ _ H0 Hnd) as [Hrest Hout]. split.
  - constructor; [|done]. exists rate, channels. split_and!; [done..|]. exists content. split; [done|]. rewrite Hout; [done|].
    intros q Hq E%wav_in_inj. apply Hp. apply list_elem_of_fmap. by exists q.
  - intros other Ho. rewrite Hout, Hframe; [done| |]; [apply Ho; left|]. intros q Hq. apply Ho. by right.
Qed.

(** A finite float, which rounding leaves alone. *)
Definition float_value (x : float) : Prop := exists q, x = Fin q /\ fl q = Fin q.

Lemma fmul_one x : float_value x -> fmul x (fz 1) = x.
Proof.
  intros (q & -> & Hq). destruct (fz_exact 1) as (o & -> & Ho); [unfold fprec; lia|]. cbn [fmul]. rewrite <- Hq. apply fl_comp.
  eapply QArith_base.Qeq_trans; [apply QArith_base.Qmult_comp; [apply QArith_base.Qeq_refl|exact Ho]|apply QArith_base.Qmult_1_r].
Qed.

Lemma clean_spec audio rate channels : float_value (duration_seconds audio) -> 0 <= amplitude audio <= 32767 ->
  degraded_spec audio no_degradation rate channels = Ok (clean_tone audio rate channels).
Proof.
  intros Hd Ha. unfold degraded_spec. rewrite float_of_int_fz by (unfold fprec; lia). cbn [mbind result_bind no_degradation level_scale duration_scale].
  destruct (fz_exact (amplitude audio)) as (q & Eq & Hq); [unfold fprec; lia|].
  assert (float_value (fz (amplitude audio))) as Hv by (exists q; split; [done|]; rewrite <- Eq; unfold fz; by apply fl_comp).
  rewrite (fmul_one _ Hv), Eq, (fmul_one _ Hd). cbn [py_round mbind result_bind].
  rewrite (rne_proper _ _ Hq), rne_inject. done.
Qed.

Record recording_made (audio : SyntheticAudioSpec) (root : string) (p : StagePlan) (rate channels : Z) (r : RecordingArtifact) : Prop := {
  rcm_stage : rec_stage r = plan_stage p;
  rcm_uri : _local_recording_path (rec_uri r) = Some (Some (wav_in root (plan_stage p)));
  rcm_format : rec_format r = pcm_format rate channels;
  rcm_duration : rec_duration_ms r = fmul (duration_seconds audio) (fz 1000) }.

Section recordings.
Context (e : caller_env) (root : string) (config : jdict) (audio : SyntheticAudioSpec) (formats : list (string * jdict)).
Context (Hduration : float_value (duration_seconds audio)) (Hamplitude : 0 <= amplitude audio <= 32767).

Lemma stage_recording_ok n stage p s r metrics s' : plan_of_stage stage = Ok p ->
  dict_get (plan_stage p) formats = Some (plan_format p) ->
  stage_recording sin e root config audio [] formats n stage s = (Ok (r, metrics), s') ->
  exists rate channels, in_format p rate channels /\ recording_made audio root p rate channels r
    /\ holds_tone audio p rate channels s' (wav_in root (plan_stage p))
    /\ forall other, other <> wav_in root (plan_stage p) -> disk_files s' !! other = disk_files s !! other.
Proof using Hduration Hamplitude.
  unfold stage_recording, plan_of_stage. intros Hp Hf Hr. simpl_st.
  rewrite H in Hp. cbn [mbind result_bind] in Hp. apply bind_ok_inv in Hp as (plugin & _ & Hp).
  apply bind_ok_inv in Hp as (format & _ & Hp). injection Hp as <-. cbn [plan_stage plan_format] in *.
  rewrite Hf in H0. injection H0 as <-.
  destruct (format_rate format) as [rate|] eqn:Er; [|done]. destruct (format_channels format) as [channels|] eqn:Ec; [|done].
  simpl_st. rewrite clean_spec in H0 by done. injection H0 as <-.
  destruct (write_sine_ok _ _ _ _ _ _ _ H2) as [Hfile Hframe]. apply path_uri_ok in H3 as [-> Hl].
  exists rate, channels. split; [done|]. split_and!; [|exact Hfile|exact Hframe]. by constructor.
Qed.

Lemma recordings_loop_ok n stages plan s rs ms s' : Forall2 (fun stage p => plan_of_stage stage = Ok p) stages plan ->
  Forall (fun p => dict_get (plan_stage p) formats = Some (plan_format p)) plan -> NoDup (map plan_stage plan) ->
  recordings_loop sin e root config audio [] formats n stages s = (Ok (rs, ms), s') ->
  Forall2 (fun p r => exists rate channels, in_format p rate channels /\ recording_made audio root p rate channels r
             /\ holds_tone audio p rate channels s' (wav_in root (plan_stage p))) plan rs
  /\ forall other, (forall p, p ∈ plan -> other <> wav_in root (plan_stage p)) -> disk_files s' !! other = disk_files s !! other.
Proof using Hduration Hamplitude.
  intros Hplan. revert n s rs ms. induction Hplan as [|stage p stages plan Hp Hplan IH]; intros n s rs ms; cbn [recordings_loop].
  { intros _ _ Hl. simpl_st. split; [constructor|done]. }
  intros [Hf Hfs]%Forall_cons [Hn Hnd]%NoDup_cons Hl. simpl_st.
  destruct a as [r metrics], a0 as [rs' ms'].
  destruct (stage_recording_ok _ _ _ _ _ _ _ Hp Hf H) as (rate & channels & Hfo & Hm & (content & Hc & Hd) & Hframe).
  destruct (IH _ _ _ _ Hfs Hnd H0) as [Hrest Hout]. split.
  - constructor; [|done]. exists rate, channels. split_and!; [done..|]. exists content. split; [done|]. rewrite Hout; [done|].
    intros q Hq E%wav_in_inj. apply Hn. apply list_elem_of_fmap. by exists q.
  - intros other Ho. rewrite Hout, Hframe; [done| |]; [apply Ho; left|]. intros q Hq. apply Ho. by right.
Qed.
End recordings.

(** The files of both lists hold the tone of the stage, reference first. *)
Definition stage_pair (audio : SyntheticAudioSpec) (root : string) (s : storage) (p : StagePlan) (r : StageReferenceArtifact)
    (recording : RecordingArtifact) : Prop :=
  exists rate channels, in_format p rate channels /\ reference_made audio (child root "references") p rate channels r
    /\ recording_made audio root p rate channels recording
    /\ holds_tone audio p rate channels s (wav_in (child root "references") (plan_stage p))
    /\ holds_tone audio p rate channels s (wav_in root (plan_stage p)).

Lemma plan_formats plan : NoDup (map plan_stage plan) ->
  Forall (fun p => dict_get (plan_stage p) (dict_of_list (map (fun p => (plan_stage p, plan_format p)) plan)) = Some (plan_format p)) plan.
Proof.
  intros Hnd. apply Forall_forall. intros p Hp. apply dict_of_list_unique; [by rewrite map_map|].
  apply list_elem_of_fmap. by exists p.
Qed.

Lemma generate_ok e config root audio plan s a s' :
  generate_synthetic_artifacts sin e config root audio [] s = (Ok a, s') ->
  float_value (duration_seconds audio) -> build_stage_plan config = Ok plan -> NoDup (map plan_stage plan) ->
  Forall (fun p => single_component (plan_stage p) = true) plan ->
  Forall3 (stage_pair audio root s') plan (stage_references a) (sa_recordings a).
Proof.
  unfold generate_synthetic_artifacts, _stage_references. intros Hg Hd Hplan Hnd Hsingle. simpl_st.
  rewrite Hplan in H8, H3. injection H8 as <-. injection H3 as <-.
  destruct (references_loop_ok _ _ _ _ _ _ _ H2 Hnd) as [Hrefs _].
  assert (0 <= amplitude audio <= 32767) as Ha.
  { unfold _validate_audio_spec in H. do 3 (apply bind_ok_inv in H as (? & _ & H)). apply bind_ok_inv in H as (? & Hb & _).
    apply guard_else_ok in Hb. lia. }
  assert (Forall2 (fun stage p => plan_of_stage stage = Ok p) a5 plan) as Hstages.
  { unfold build_stage_plan in Hplan. rewrite H4 in Hplan. by apply mapM_res_ok. }
  destruct a6 as [rs ms]. cbn [stage_references sa_recordings fst snd].
  destruct (recordings_loop_ok _ _ _ _ _ Hd Ha _ _ _ _ _ _ _ Hstages (plan_formats plan Hnd) Hnd H5) as [Hrecs Hout].
  clear -Hrefs Hrecs Hout Hsingle. revert rs a3 Hrefs Hrecs.
  assert (forall p, p ∈ plan -> disk_files s' !! wav_in (child root "references") (plan_stage p) = disk_files s3 !! wav_in (child root "references") (plan_stage p)) as Hkeep.
  { intros p Hp. apply Hout. intros q Hq E. symmetry in E. revert E. apply wav_in_below. rewrite Forall_forall in Hsingle. by apply Hsingle. }
  clear Hout Hsingle. induction plan as [|p plan IH]; intros rs refs Hrefs Hrecs; inversion Hrefs; inversion Hrecs; subst; constructor.
  - destruct H1 as (rate & channels & [Hr Hc] & Hm & (content & Hw & Hf)), H6 as (rate' & channels' & [Hr' Hc'] & Hm' & Hh).
    assert (rate' = rate) as -> by congruence. assert (channels' = channels) as -> by congruence.
    exists rate, channels. split_and!; try done. exists content. split; [done|]. rewrite Hkeep; [done|left].
  - apply IH; [|done..]. intros q Hq. apply Hkeep. by right.
Qed.

(** *** What the selection makes of the pairs *)

(** References of distinct stages are paired one by one. *)
Definition left_of {A B} (x : A + B) : option A := match x with inl a => Some a | inr _ => None end.
Definition right_of {A B} (x : A + B) : option B := match x with inl _ => None | inr b => Some b end.

Lemma select_distinct by_stage refs cs bs seen : NoDup (map ref_stage refs) -> (forall r, r ∈ refs -> ref_stage r ∉ seen) ->
  fst (fold_left (select_step by_stage) refs (MkSelection cs bs, seen))
  = MkSelection (cs ++ omap (left_of ∘ pair_reference by_stage) refs) (bs ++ omap (right_of ∘ pair_reference by_stage) refs).
Proof.
  revert cs bs seen. induction refs as [|r refs IH]; intros cs bs seen; cbn [fold_left]; [by rewrite !app_nil_r|].
  intros [Hr Hnd]%NoDup_cons Hseen. unfold select_step at 2. cbn [candidates blocked].
  rewrite bool_decide_false by (apply Hseen; left).
  assert (forall r', r' ∈ refs -> ref_stage r' ∉ ref_stage r :: seen) as Hs.
  { intros r' Hr' [E|Hin]%elem_of_cons; [|by apply (Hseen r'); [right|]]. apply Hr. rewrite <- E. apply list_elem_of_fmap. by exists r'. }
  destruct (pair_reference by_stage r) as [c|b] eqn:E; rewrite IH by done; cbn [omap list_omap compose]; unfold compose;
    rewrite E; cbn [left_of right_of]; by rewrite <- !app_assoc.
Qed.

(** A file that holds a tone is read with the format of the stage. *)
Lemma frame_length spec index frame : sine_frame sin spec index = Ok frame -> len frame = 2 * Z.max 0 (spec_channels spec).
Proof.
  unfold sine_frame, pack16. intros (v & _ & H)%bind_ok_inv. apply bind_ok_inv in H as (packed & Hp & H). injection H as <-.
  destruct (int16_ok v); [|done]. injection Hp as <-.
  assert (forall n, length (concat (repeat (le16 v) n)) = (2 * n)%nat) as Hn by (induction n; cbn [repeat concat]; rewrite ?length_app, ?IHn; cbn; lia).
  unfold len. rewrite Hn. lia.
Qed.

Lemma concat_multiple {A} (m : Z) (l : list (list A)) : Forall (fun x => len x = m) l -> len (concat l) = m * len l.
Proof.
  induction 1 as [|x l Hx Hl IH]; [cbn; unfold len; cbn; lia|]. unfold len in *. cbn [concat length]. rewrite length_app. lia.
Qed.

Lemma mulaw_keeps_length frames out : codec_frames (Some "mulaw") frames = Ok out -> len out = len frames.
Proof.
  cbn [codec_frames String.eqb Ascii.eqb Bool.eqb]. unfold pcm16le_to_mulaw. intros (m & Hm & Ho)%bind_ok_inv.
  apply bind_ok_inv in Hm as ([] & He & Hm). apply guard_else_ok in He. injection Hm as <-.
  unfold mulaw_to_pcm16le in Ho. apply bind_ok_inv in Ho as (samples & Hs & Ho).
  unfold pack16_all in Ho. apply bind_ok_inv in Ho as (packed & Hp & Ho). injection Ho as <-.
  apply mapM_res_ok in Hs, Hp. rewrite (concat_multiple 2).
  - pose proof (len_unpack16 _ He). apply Forall2_length in Hs, Hp. rewrite length_map in Hs. unfold len in *. lia.
  - clear -Hp. induction Hp as [|v b vs bs Hv Hvs IH]; [constructor|]. constructor; [|done].
    unfold pack16 in Hv. destruct (int16_ok v); [|done]. by injection Hv as <-.
Qed.

Lemma encoded_whole spec codec frames : encoded_sine sin spec codec = Ok frames -> 1 <= spec_channels spec ->
  codec = None \/ codec = Some "mulaw" -> len frames mod (spec_channels spec * 2) = 0.
Proof.
  unfold encoded_sine, sine_frames. intros (raw & Hraw & Hcodec)%bind_ok_inv Hc Hk.
  apply bind_ok_inv in Hraw as (count & _ & Hraw). apply bind_ok_inv in Hraw as (l & Hl & Hraw). injection Hraw as <-.
  apply mapM_res_ok in Hl. assert (len (concat l) = 2 * spec_channels spec * len l) as Hlen.
  { apply concat_multiple. clear -Hl Hc. induction Hl as [|i x is_ l Hx Hl IH]; constructor; [|done].
    apply frame_length in Hx. lia. }
  assert (len frames = len (concat l)) as ->.
  { destruct Hk as [->| ->]; [by injection Hcodec as <-|]. by apply mulaw_keeps_length. }
  rewrite Hlen. apply Z.mod_divide; [lia|]. exists (len l). lia.
Qed.

Lemma codec_of_cases encoding rate : codec_of encoding rate = None \/ codec_of encoding rate = Some "mulaw".
Proof. unfold codec_of. destruct (_ && _); auto. Qed.

Lemma tone_readable other_layout audio p rate channels s path uri : holds_tone audio p rate channels s path ->
  _local_recording_path uri = Some (Some path) -> exists frames,
  disk_wav other_layout s uri = Ok (MkWav channels 2 (len frames / (channels * 2)) rate frames)
  /\ encoded_sine sin (clean_tone audio rate channels) (codec_of (encoding_of (plan_format p)) rate) = Ok frames.
Proof.
  intros (content & Hc & Hd) Hu. unfold disk_wav. rewrite Hu, Hd. unfold sine_wave in Hc.
  apply bind_ok_inv in Hc as (frames & Hf & Hc). exists frames. split; [|done]. cbn [clean_tone spec_channels sample_rate_hz] in Hc.
  pose proof (wave_file_ok _ _ _ _ _ Hc) as (H1 & _). eapply read_wave_file; [done|lia|].
  apply (encoded_whole _ _ _ Hf); [done|apply codec_of_cases].
Qed.

(** *** The selection of a run without degradation *)

Section selection.
Context (other_layout : bytes -> result wav_file) (audio : SyntheticAudioSpec) (root : string) (s : storage)
  (plan : list StagePlan) (refs : list StageReferenceArtifact) (recs : list RecordingArtifact)
  (Hpairs : Forall3 (stage_pair audio root s) plan refs recs) (Hnd : NoDup (map plan_stage plan)).

Definition same_wav (c : FullReferenceCandidate) : Prop :=
  comparison_format c = degraded_format c
  /\ exists wav, disk_wav other_layout s (reference_uri c) = Ok wav /\ disk_wav other_layout s (degraded_uri c) = Ok wav
       /\ comparison_format c = pcm_format (wav_rate wav) (wav_channels wav).

Lemma pair_stages : map sra_stage refs = map plan_stage plan /\ map rec_stage recs = map plan_stage plan.
Proof using Hpairs.
  clear Hnd. induction Hpairs as [|p r rec plan' refs' recs' Hp H IH]; [done|].
  destruct Hp as (rate & channels & _ & [E1 _ _ _ _ _] & [E2 _ _ _] & _), (IH H) as [IH1 IH2]. cbn [map]. by rewrite E1, E2, IH1, IH2.
Qed.

Definition pairing := pair_reference (dict_of_list (map (fun r => (rec_stage r, r)) recs)).

Lemma pairing_spec r : r ∈ refs ->
  (sra_comparison_ready r = true /\ exists c, pairing (reference_of r) = inl c /\ cand_stage c = sra_stage r /\ same_wav c)
  \/ (sra_comparison_ready r = false /\ exists p, p ∈ plan /\ plan_stage p = sra_stage r
      /\ pairing (reference_of r)
         = inr (MkBlock (sra_stage r) ("codec-round-trip-required:" +:+ json_text (encoding_of (plan_format p))))).
Proof using Hpairs Hnd.
  intros Hr. assert (exists p rec, p ∈ plan /\ rec ∈ recs /\ stage_pair audio root s p r rec) as (p & rec & Hp & Hrec & Hpair).
  { clear Hnd. induction Hpairs as [|p0 r0 rec0 plan' refs' recs' H0 H IH]; [by apply not_elem_of_nil in Hr|].
    apply elem_of_cons in Hr as [->|Hr]; [exists p0, rec0; split_and!; [left|left|done]|].
    destruct (IH H Hr) as (p & rec & Hp & Hrec & Hpair). exists p, rec. split_and!; [by right|by right|done]. }
  destruct Hpair as (rate & channels & Hf & [E1 Eu Ef Ed Er Eb] & [E2 Eu' Ef' Ed'] & Ht & Ht').
  assert (dict_get (sra_stage r) (dict_of_list (map (fun r => (rec_stage r, r)) recs)) = Some rec) as Hget.
  { apply dict_of_list_unique.
    { assert ((map (fun r => (rec_stage r, r)) recs).*1 = map rec_stage recs) as -> by apply map_map. by rewrite (proj2 pair_stages). } apply list_elem_of_fmap. exists rec. by rewrite E1, E2. }
  unfold pairing, pair_reference. cbn [reference_of comparison_ready ref_stage blocked_reason ref_comparison_format].
  destruct (sra_comparison_ready r) eqn:Eready; cbn [negb].
  - left. split; [done|]. rewrite Hget, Ef, Ef', (int_formats_match "pcm16" _ _ : _comparison_formats_match (pcm_format _ _) (pcm_format _ _) = true). cbn [negb]. eexists. split; [reflexivity|]. split; [done|].
    split; [done|]. destruct (tone_readable other_layout _ _ _ _ _ _ _ Ht Eu) as (frames & Hw & Hf1).
    destruct (tone_readable other_layout _ _ _ _ _ _ _ Ht' Eu') as (frames' & Hw' & Hf2).
    assert (frames' = frames) as -> by congruence. eexists. split; [exact Hw|]. split; [exact Hw'|done].
  - right. split; [done|]. exists p. split_and!; [done..|]. by rewrite Eb.
Qed.

(** What the selection of some of the references is. *)
Record clean_part (l : list StageReferenceArtifact) (selection : FullReferenceSelection) : Prop := {
  cs_ready : map cand_stage (candidates selection) = map sra_stage (filterb sra_comparison_ready l);
  cs_same : Forall same_wav (candidates selection);
  cs_blocked : map block_stage (blocked selection) = map sra_stage (filterb (fun r => negb (sra_comparison_ready r)) l);
  cs_reason : Forall (fun b => exists p, p ∈ plan /\ block_stage b = plan_stage p
    /\ block_reason b = "codec-round-trip-required:" +:+ json_text (encoding_of (plan_format p))) (blocked selection) }.

Lemma selection_parts l : (forall r, r ∈ l -> r ∈ refs) -> clean_part l
    (MkSelection (omap (left_of ∘ pairing) (map reference_of l)) (omap (right_of ∘ pairing) (map reference_of l))).
Proof using Hpairs Hnd.
  induction l as [|r l IH]; intros Hl; [constructor; constructor|]. destruct IH as [I1 I2 I3 I4]; [intros r' Hr'; apply Hl; by right|].
  cbn [candidates blocked] in *. cbn [map omap list_omap filterb List.filter]. unfold compose in *.
  destruct (pairing_spec r (Hl r ltac:(left))) as [(Er & c & Ep & Ec & Hc)|(Er & p & Hp & Est & Ep)];
    rewrite Ep; cbn [left_of right_of]; (constructor; cbn [candidates blocked map filterb List.filter]; rewrite ?Er; cbn [negb map]).
  - rewrite Ec. by f_equal.
  - by constructor.
  - done.
  - done.
  - done.
  - done.
  - by f_equal.
  - constructor; [by exists p|done].
Qed.

Lemma selection_clean : clean_part refs (select_full_reference_candidates (map reference_of refs) recs).
Proof using Hpairs Hnd.
  unfold select_full_reference_candidates. rewrite select_distinct.
  2: { assert (map ref_stage (map reference_of refs) = map sra_stage refs) as -> by apply map_map. by rewrite (proj1 pair_stages). }
  2: { intros r _. apply not_elem_of_nil. }
  cbn [app]. fold pairing. by apply selection_parts.
Qed.
End selection.

(** A scorer that can be used and rates a file against itself. *)
Definition rates_itself (other_layout : bytes -> result wav_file) (s : storage) (sc : FullReferenceScorer) : Prop :=
  (exists r, readiness sc = Ok r /\ available r = true)
  /\ forall c, same_wav other_layout s c -> exists m x,
       score_of sc c = Ok m /\ (m = PlainScore x \/ exists ts, m = FullReferenceMeasurement x ts)
       /\ is_finite x = true /\ fleb (minimum_score (contract sc)) x = true /\ fleb x (maximum_score (contract sc)) = true.

Lemma rated_states other_layout s sc selection : rates_itself other_layout s sc -> Forall (same_wav other_layout s) (candidates selection) ->
  map res_state (results (score_full_reference_selection selection sc))
  = map (fun _ => scored) (candidates selection) ++ map (fun _ => blocked_) (blocked selection).
Proof.
  intros [(ready & Hready & Hav) Hrates] Hsame. unfold score_full_reference_selection. rewrite Hready, Hav. cbn [negb results].
  rewrite map_app, !map_map. f_equal. induction Hsame as [|c cs Hc Hcs IH]; [done|]. cbn [map]. rewrite IH. f_equal.
  destruct (Hrates c Hc) as (m & x & Hm & Hx & Hf & Hlo & Hhi). unfold _score_candidate. rewrite Hm.
  destruct Hx as [->|(ts & ->)]; rewrite Hf, Hlo, Hhi; done.
Qed.

Lemma has_state_map states report : has_state states report = existsb (fun st => bool_decide (st ∈ states)) (map res_state (results report)).
Proof. unfold has_state. induction (results report) as [|r rs IH]; [done|]. cbn [existsb map]. by rewrite IH. Qed.

Lemma existsb_const {A B} (p : B -> bool) (b : B) (l : list A) : existsb p (map (fun _ => b) l) = p b && negb (bool_decide (l = [])).
Proof.
  induction l as [|x l IH]; [by rewrite andb_false_r|]. cbn [map existsb]. rewrite IH, (bool_decide_false (x :: l = [])) by done.
  destruct (p b); [done|]. by destruct (bool_decide _).
Qed.

Lemma existsb_filterb {A} (p : A -> bool) l : existsb p l = negb (bool_decide (filterb p l = [])).
Proof.
  induction l as [|x l IH]; [done|]. cbn [existsb filterb List.filter]. destruct (p x); [done|apply IH].
Qed.

Lemma map_nil_iff {A B C} (f : A -> C) (g : B -> C) l l' : map f l = map g l' -> (l = [] <-> l' = []).
Proof. intros E. destruct l, l'; split; intros; congruence || discriminate E. Qed.

(** A scorer that cannot be used, or that cannot say whether it can. *)
Definition cannot_score (sc : FullReferenceScorer) : Prop :=
  match readiness sc with Ok r => available r = false | Raise _ _ => True end.

Lemma unscored_state sc selection verdicts : cannot_score sc ->
  _verification_state verdicts (score_full_reference_selection selection sc)
  = if existsb (fun v => negb (ver_passed v)) verdicts then failed_run else partial_.
Proof.
  intros Hsc. assert (map res_state (results (score_full_reference_selection selection sc))
    = map (fun _ => unavailable) (candidates selection) ++ map (fun _ => blocked_) (blocked selection)) as E.
  { unfold cannot_score in Hsc. unfold score_full_reference_selection. cbn [results].
    destruct (readiness sc) as [r|]; [rewrite Hsc|]; cbn [negb available]; by rewrite map_app, !map_map. }
  unfold _verification_state. rewrite !has_state_map, E, !existsb_app, !existsb_const.
  change (bool_decide (unavailable ∈ [failed_])) with false. change (bool_decide (blocked_ ∈ [failed_])) with false.
  change (bool_decide (unavailable ∈ [unavailable; blocked_])) with true.
  change (bool_decide (blocked_ ∈ [unavailable; blocked_])) with true. cbn [andb orb]. rewrite orb_false_r.
  destruct (existsb _ verdicts); [done|].
  destruct (results (score_full_reference_selection selection sc)) as [|r rs]; [done|]. rewrite (bool_decide_false (_ = [])) by done.
  destruct (candidates selection), (blocked selection); done.
Qed.

Lemma clean_state other_layout s plan refs selection sc verdicts : map sra_stage refs = map plan_stage plan ->
  clean_part other_layout s plan refs selection -> rates_itself other_layout s sc ->
  _verification_state verdicts (score_full_reference_selection selection sc)
  = if existsb (fun v => negb (ver_passed v)) verdicts then failed_run
    else if bool_decide (plan = []) || existsb (fun r => negb (sra_comparison_ready r)) refs then partial_ else complete.
Proof.
  intros Hs [Hready Hsame Hblocked _] Hrates. unfold _verification_state. rewrite !has_state_map, (rated_states _ _ _ _ Hrates Hsame).
  rewrite !existsb_app, !existsb_const.
  change (bool_decide (scored ∈ [failed_])) with false. change (bool_decide (blocked_ ∈ [failed_])) with false.
  change (bool_decide (scored ∈ [unavailable; blocked_])) with false. change (bool_decide (blocked_ ∈ [unavailable; blocked_])) with true.
  cbn [andb orb]. rewrite orb_false_r. destruct (existsb _ verdicts); [done|]. cbn [orb].
  rewrite existsb_filterb, (bool_decide_ext _ _ (map_nil_iff _ _ _ _ Hblocked)).
  destruct (decide (plan = [])) as [Hp|Hp].
  - rewrite !(bool_decide_true (plan = [])) by done.
    assert (refs = []) as -> by (by apply (map_nil_iff _ _ _ _ Hs)). cbn in Hready, Hblocked.
    rewrite bool_decide_true; [done|]. unfold score_full_reference_selection. cbn [results].
    apply map_eq_nil in Hblocked as ->, Hready as ->. destruct Hrates as [(r & -> & ->) _]. done.
  - rewrite (bool_decide_false (plan = [])) by done. cbn [orb].
    destruct (bool_decide_reflect (filterb (fun r => negb (sra_comparison_ready r)) refs = [])) as [Hf|Hf]; [|by rewrite orb_true_r].
    cbn [negb]. rewrite orb_false_r, bool_decide_false; [done|]. intros E. apply Hp.
    pose proof (rated_states _ _ _ _ Hrates Hsame) as Hst. rewrite E in Hst. symmetry in Hst. apply app_eq_nil in Hst as [Hc _].
    apply map_eq_nil in Hc. rewrite Hc in Hready. symmetry in Hready. apply map_eq_nil in Hready.
    apply (map_nil_iff _ _ _ _ Hs). clear -Hf Hready. destruct refs as [|r refs]; [done|]. cbn in Hf, Hready.
    by destruct (sra_comparison_ready r).
Qed.
End clean.

(** C24. A run without degradation scores every tone against itself.  When the
    stages of the configuration have distinct names that are single path
    components and the duration is a finite float, every stage has one
    reference and one recording, in the order of the pipeline; the scorer gets
    exactly the stages whose encoding can be compared, each as two files that
    read as the same wave in the format of the stage; the other stages are
    blocked with their encoding as the reason, and none for a missing or
    mismatching recording.  The run fails exactly when an invariant does if the
    scorer rates a file against itself or cannot be used.  Otherwise it is
    complete with the first kind of scorer, unless a stage was blocked or there
    is none, and partial with the second. *)
Theorem clean_run_scores_tones_against_themselves sin other_layout log10 e config root audio scorer plan s run s' :
  run_synthetic_verification sin other_layout log10 e config root audio scorer [] s = (Ok run, s') ->
  float_value (duration_seconds audio) -> build_stage_plan config = Ok plan -> NoDup (map plan_stage plan) ->
  Forall (fun p => single_component (plan_stage p) = true) plan ->
  let refs := stage_references (sv_artifacts run) in
  let selection := select_full_reference_candidates (map reference_of refs) (sa_recordings (sv_artifacts run)) in
  map sra_stage refs = map plan_stage plan /\ map rec_stage (sa_recordings (sv_artifacts run)) = map plan_stage plan
  /\ clean_part other_layout s' plan refs selection
  /\ sv_full_reference run = score_full_reference_selection selection (scorer s')
  /\ (rates_itself other_layout s' (scorer s') ->
      sv_state run = if existsb (fun v => negb (ver_passed v)) (sv_invariant_results run) then failed_run
                     else if bool_decide (plan = []) || existsb (fun r => negb (sra_comparison_ready r)) refs then partial_
                     else complete)
  /\ (cannot_score (scorer s') ->
      sv_state run = if existsb (fun v => negb (ver_passed v)) (sv_invariant_results run) then failed_run else partial_).
Proof.
  intros Hrun Hd Hplan Hnd Hsingle refs selection. unfold run_synthetic_verification in Hrun. simpl_st.
  cbn [sv_artifacts sv_full_reference sv_state sv_invariant_results] in *.
  pose proof (generate_ok _ _ _ _ _ _ _ _ _ H Hd Hplan Hnd Hsingle) as Hpairs.
  destruct (pair_stages _ _ _ _ _ _ _ Hpairs) as [Hs1 Hs2].
  pose proof (selection_clean _ other_layout _ _ _ _ _ _ Hpairs Hnd) as Hsel. split_and!; [done|done|done|done| |apply unscored_state].
  intros Hrates. apply (clean_state other_layout s' plan _ _ _ _ Hs1 Hsel Hrates).
Qed.

(** ** Bounds of the tones *)

(** What the platform's sine promises: values between -1 and 1, and no error of
    [struct]. *)
Record unit_sine (sin : float -> result float) : Prop := {
  us_bounded : forall x y, sin x = Ok y -> fleb (fz (-1)) y = true /\ fleb y (fz 1) = true;
  us_raises : forall x, raises_res (fun c => c <> StructError) (sin x) }.

Lemma unit_value y : fleb (fz (-1)) y = true -> fleb y (fz 1) = true ->
  exists q, y = Fin q /\ QArith_base.Qle (QArith_base.inject_Z (-1)) q /\ QArith_base.Qle q (QArith_base.inject_Z 1).
Proof.
  destruct (fz_exact (-1)) as (a & -> & Ha); [unfold fprec; lia|]. destruct (fz_exact 1) as (b & -> & Hb); [unfold fprec; lia|].
  destruct y as [q| | |]; try done. rewrite !fleb_fin. intros H1 H2. exists q. split; [done|].
  split; [by eapply QArith_base.Qle_trans; [apply QArith_base.Qle_lteq; right; symmetry|]|].
  eapply QArith_base.Qle_trans; [exact H2|]. apply QArith_base.Qle_lteq. by right.
Qed.

Section tones.
Context (sin : float -> result float) (Hsin : unit_sine sin).

Lemma scaled_bound a q : 0 <= a <= 32767 -> QArith_base.Qle (QArith_base.inject_Z (-1)) q -> QArith_base.Qle q (QArith_base.inject_Z 1) ->
  exists v, py_round (fmul (fz a) (Fin q)) = Ok v /\ - a <= v <= a.
Proof.
  intros Ha H1 H2. destruct (fmul_signed_bounds q a (conj H1 H2)) as (x & -> & Hl & Hu); [unfold fprec; lia|].
  exists (rne x). split; [done|]. split; [by apply rne_ge_int|by apply rne_le_int].
Qed.

Lemma sample_bounded spec index : _validate_audio_spec spec = Ok tt ->
  match sine_sample sin spec index with Ok v => - amplitude spec <= v <= amplitude spec | Raise c _ => c <> StructError end.
Proof.
  intros Hv. assert (0 <= amplitude spec <= 32767) as Ha.
  { unfold _validate_audio_spec in Hv. do 3 (apply bind_ok_inv in Hv as (? & _ & Hv)). apply bind_ok_inv in Hv as (? & Hb & _).
    apply guard_else_ok in Hb. lia. }
  unfold sine_sample.
  assert (forall z, raises_res (fun c => c <> StructError) (float_of_int z)) as Hf
    by (intros z c m; unfold float_of_int; destruct (fl _); intros [=]; by subst).
  destruct (float_of_int index) as [i|c m] eqn:Ei; cbn [mbind result_bind]; [|by eapply Hf].
  destruct (float_of_int (sample_rate_hz spec)) as [rate|c m] eqn:Er; cbn [mbind result_bind]; [|by eapply Hf].
  destruct (fdiv _ rate) as [angle|c m] eqn:Ed; cbn [mbind result_bind].
  2: { revert Ed. unfold fdiv. repeat case_match; intros [=]; by subst. }
  destruct (sin angle) as [y|c m] eqn:Ey; cbn [mbind result_bind]; [|by eapply us_raises].
  rewrite float_of_int_fz by (unfold fprec; lia). cbn [mbind result_bind].
  destruct (us_bounded _ Hsin _ _ Ey) as [H1 H2]. destruct (unit_value y H1 H2) as (q & -> & Hq1 & Hq2).
  by destruct (scaled_bound (amplitude spec) q Ha Hq1 Hq2) as (v & -> & Hb).
Qed.

Lemma frame_bounded spec index : _validate_audio_spec spec = Ok tt ->
  match sine_frame sin spec index with
  | Ok frame => Forall (fun v => - amplitude spec <= v <= amplitude spec) (unpack16 frame) /\ even_length frame = true
  | Raise c _ => c <> StructError
  end.
Proof.
  intros Hv. pose proof (sample_bounded spec index Hv) as Hs. unfold sine_frame.
  destruct (sine_sample sin spec index) as [v|c m]; cbn [mbind result_bind]; [|done].
  assert (amplitude spec <= 32767) as Ha.
  { unfold _validate_audio_spec in Hv. do 3 (apply bind_ok_inv in Hv as (? & _ & Hv)). apply bind_ok_inv in Hv as (? & Hb & _).
    apply guard_else_ok in Hb. lia. }
  assert (int16_ok v = true) as Hok by (unfold int16_ok; lia). unfold pack16. rewrite Hok. cbn [mbind result_bind].
  induction (Z.to_nat (spec_channels spec)) as [|n [IH1 IH2]]; [split; [constructor|done]|]. cbn [repeat concat].
  split; [rewrite unpack16_le16 by done; by constructor|]. cbn [le16 app]. by rewrite even_length_cons2.
Qed.

Lemma frames_bounded spec l : _validate_audio_spec spec = Ok tt ->
  match mapM_res (sine_frame sin spec) l with
  | Ok frames => Forall (fun v => - amplitude spec <= v <= amplitude spec) (unpack16 (concat frames)) /\ even_length (concat frames) = true
  | Raise c _ => c <> StructError
  end.
Proof.
  intros Hv. induction l as [|i l IH]; cbn [mapM_res]; [split; [constructor|done]|].
  pose proof (frame_bounded spec i Hv) as Hi. destruct (sine_frame sin spec i) as [frame|c m]; cbn [mbind result_bind]; [|done].
  destruct (mapM_res (sine_frame sin spec) l) as [frames|c m]; cbn [mbind result_bind concat]; [|done].
  destruct Hi as [Hi1 Hi2], IH as [Hl1 Hl2]. rewrite unpack16_app by done. split; [by apply Forall_app|by rewrite even_length_app].
Qed.
End tones.

Lemma mulaw_total frames : even_length frames = true -> exists coded, codec_frames (Some "mulaw") frames = Ok coded.
Proof.
  intros He. cbn [codec_frames String.eqb Ascii.eqb Bool.eqb]. unfold pcm16le_to_mulaw. rewrite He. cbn [guard_else mbind result_bind].
  unfold mulaw_to_pcm16le. set (l := unpack16 frames). clearbody l.
  assert (exists samples, mapM_res (fun code => mulaw_to_linear16 (byte_val code)) (map (fun sample => byte_of (linear16_to_mulaw sample)) l) = Ok samples
    /\ Forall (fun v => int16_ok v = true) samples) as (samples & -> & Hs).
  { induction l as [|v l (samples & IH & Hs)]; [by exists []|]. cbn [map mapM_res].
    pose proof (encode_range v) as Hr. rewrite byte_val_of_small, decode_ok by done. cbn [mbind result_bind]. rewrite IH.
    eexists. split; [reflexivity|]. constructor; [by apply decoded_range|done]. }
  cbn [mbind result_bind]. rewrite pack16_all_ok by done. by eexists.
Qed.

(** The tones fit their files.  For a valid specification, and a sine that
    stays between -1 and 1, generating the frames never fails to pack a sample:
    every sample is at most the amplitude in absolute value, there are two
    bytes per channel for each of the rounded rate times duration samples, and
    the mu-law round trip of the frames exists and has the same length. *)
Theorem tones_are_bounded sin spec count : unit_sine sin -> _validate_audio_spec spec = Ok tt -> sine_count spec = Ok count ->
  match sine_frames sin spec with
  | Ok frames =>
      Forall (fun v => - amplitude spec <= v <= amplitude spec) (unpack16 frames)
      /\ len frames = 2 * spec_channels spec * Z.max 0 count
      /\ exists coded, codec_frames (Some "mulaw") frames = Ok coded /\ len coded = len frames
  | Raise c _ => c <> StructError
  end.
Proof.
  intros Hsin Hv Hcount. unfold sine_frames. rewrite Hcount. cbn [mbind result_bind].
  pose proof (frames_bounded sin Hsin spec (seqZ 0 count) Hv) as Hb.
  destruct (mapM_res _ (seqZ 0 count)) as [frames|c m] eqn:Ef; cbn [mbind result_bind]; [|done].
  destruct Hb as [Hb He]. split; [done|]. split.
  - apply mapM_res_ok in Ef. rewrite (concat_multiple (2 * spec_channels spec)).
    + apply Forall2_length in Ef. rewrite length_seqZ in Ef. unfold len. lia.
    + assert (0 < spec_channels spec) as Hc.
      { unfold _validate_audio_spec in Hv. apply bind_ok_inv in Hv as (? & _ & Hv). apply bind_ok_inv in Hv as (? & Hc & _).
        apply guard_else_ok in Hc. lia. }
      clear -Ef Hc. induction Ef as [|i x is_ l Hx Hl IH]; constructor; [|done]. apply frame_length in Hx. lia.
  - destruct (mulaw_total _ He) as (coded & Hm). exists coded. split; [done|]. by apply mulaw_keeps_length.
Qed.

(** ** Treatments *)

Lemma existsb_state st samples :
  existsb (fun s => bool_decide (sv_state s = st)) samples = true <-> Exists (fun s => sv_state s = st) samples.
Proof.
  rewrite existsb_exists, Exists_exists. setoid_rewrite list_elem_of_In. setoid_rewrite bool_decide_eq_true. done.
Qed.

Lemma existsb_none {A} (p : A -> bool) l : existsb p l = false <-> Forall (fun x => p x = false) l.
Proof.
  induction l as [|x l IH]; [by split|]. cbn [existsb]. rewrite orb_false_iff, Forall_cons, IH. done.
Qed.

Lemma treatment_state_spec samples aggregate :
  (treatment_state samples aggregate = failed_run <-> Exists (fun s => sv_state s = failed_run) samples)
  /\ (treatment_state samples aggregate = complete <-> Forall (fun s => sv_state s = complete) samples
                                                      /\ Forall (fun st => agg_state st = aggregated) (stages aggregate)).
Proof.
  assert (Forall (fun s => sv_state s = complete) samples
          <-> existsb (fun s => bool_decide (sv_state s = failed_run)) samples = false
              /\ existsb (fun s => bool_decide (sv_state s = partial_)) samples = false) as ->.
  { rewrite !existsb_none, <- Forall_and. apply Forall_proper; [|done]. intros x. rewrite !bool_decide_eq_false. destruct (sv_state x); intuition congruence. }
  assert (Forall (fun st => agg_state st = aggregated) (stages aggregate)
          <-> existsb (fun s => negb (bool_decide (agg_state s = aggregated))) (stages aggregate) = false) as ->.
  { rewrite existsb_none. apply Forall_proper; [|done]. intros x. by rewrite negb_false_iff, bool_decide_eq_true. }
  rewrite <- existsb_state. unfold treatment_state.
  destruct (existsb (fun s => bool_decide (sv_state s = failed_run)) samples); [intuition congruence|].
  destruct (existsb (fun s => bool_decide (sv_state s = partial_)) samples), (existsb _ (stages aggregate)); cbn [orb];
    intuition congruence.
Qed.

Section treatments.
Context (sin : float -> result float) (other_layout : bytes -> result wav_file) (log10 : float -> result float) (dump_text : json -> bytes).

Lemma samples_loop_length e config root audio scorer step indices s samples s' :
  samples_loop sin other_layout log10 dump_text e config root audio scorer step indices s = (Ok samples, s') ->
  length samples = length indices.
Proof.
  revert s samples. induction indices as [|i indices IH]; intros s samples; cbn [samples_loop]; intros Hl; simpl_st; [done|].
  cbn [length]. f_equal. by eapply IH.
Qed.

(** A treatment is complete exactly when all its samples and stages are. *)
Lemma treatment_needs_every_sample e treatment count minimum config root audio scorer step s run s' :
  run_synthetic_treatment sin other_layout log10 dump_text e treatment count minimum config root audio scorer step s = (Ok run, s') ->
  2 <= count /\ len (st_samples run) = count
  /\ (st_state run = failed_run <-> Exists (fun s => sv_state s = failed_run) (st_samples run))
  /\ (st_state run = complete <-> Forall (fun s => sv_state s = complete) (st_samples run)
                                  /\ Forall (fun st => agg_state st = aggregated) (stages (st_aggregate run))).
Proof.
  unfold run_synthetic_treatment. intros Hr. simpl_st. apply guard_else_ok, negb_true_iff, Z.ltb_ge in H. cbn [st_samples st_state st_aggregate].
  split; [done|]. apply samples_loop_length in H1. split; [unfold len; rewrite H1, length_seqZ; lia|].
  apply treatment_state_spec.
Qed.
End treatments.

(** The reports name files by URIs, so nothing is returned for a root that is
    not absolute. *)
Lemma relative_root_refused sin e config c root audio degradations s : c <> "/"%char ->
  is_ok (fst (generate_synthetic_artifacts sin e config (String c root) audio degradations s)) = false.
Proof.
  intros Hc. destruct (generate_synthetic_artifacts _ _ _ _ _ _ _) as [[a|? ?] s'] eqn:E; [|done].
  unfold generate_synthetic_artifacts in E. simpl_st. exfalso. revert H6. unfold path_uri, child. cbn [String.append chars String.list_ascii_of_string].
  destruct c as [[] [] [] [] [] [] [] []]; done.
Qed.

(** ** Two stages *)

Definition square_sine (x : float) : result float := Ok (if fleb x (fz 3) then fz 1 else fz (-1)).
Definition short_tone : SyntheticAudioSpec := MkAudioSpec 24000 1 (flit 1 100) 8000 (fz 440).
Definition no_layout (data : bytes) : result wav_file := Raise WaveError "not a WAVE file".
Definition top_scorer (s : storage) : FullReferenceScorer :=
  MkScorer sample_contract (Ok (MkReadiness true None)) (fun _ => Ok (PlainScore (fz 5))).
Definition sample_caller : caller_env := MkCallerEnv (fun _ => Ok tt) (fun _ => MkPut None None) (fun n => Z.of_nat n) 0.

Definition sample_run : result SyntheticVerificationRun * storage :=
  run_synthetic_verification square_sine no_layout sample_log sample_caller sample_config "/var/synthetic" short_tone top_scorer []
    (MkStorage ∅ ∅).
Definition run_or_empty (r : result SyntheticVerificationRun) : SyntheticVerificationRun :=
  match r with
  | Ok run => run
  | Raise _ _ => MkVerificationRun failed_run (MkSyntheticArtifacts "" [] [] []) [] (MkScoringReport sample_contract []) []
  end.
Definition sample_verification : SyntheticVerificationRun := run_or_empty sample_run.1.

Lemma sample_run_ok : run_synthetic_verification square_sine no_layout sample_log sample_caller sample_config "/var/synthetic" short_tone
    top_scorer [] (MkStorage ∅ ∅) = (Ok sample_verification, sample_run.2).
Proof. vm_compute. reflexivity. Qed.

Lemma sample_invariants_pass : existsb (fun v => negb (ver_passed v)) (sv_invariant_results sample_verification) = false
  /\ existsb (fun r => negb (sra_comparison_ready r)) (stage_references (sv_artifacts sample_verification)) = false.
Proof. split; vm_compute; reflexivity. Qed.

Lemma short_tone_value : float_value (duration_seconds short_tone).
Proof. eexists. split; [reflexivity|]. vm_compute. reflexivity. Qed.

Lemma sample_stages : exists plan, build_stage_plan sample_config = Ok plan /\ NoDup (map plan_stage plan)
  /\ Forall (fun p => single_component (plan_stage p) = true) plan /\ bool_decide (plan = []) = false.
Proof. eexists. split; [vm_compute; reflexivity|].
  split; [by apply (bool_decide_unpack _); vm_compute|]. split; [repeat constructor|reflexivity].
Qed.

Lemma top_scorer_rates s : rates_itself no_layout s (top_scorer s).
Proof.
  split; [by eexists|]. intros c _. exists (PlainScore (fz 5)), (fz 5). split_and!; try reflexivity; by left.
Qed.

(** The clean run of two stages is complete. *)
Lemma clean_run_scores_tones_against_themselves_witness :
  sv_state sample_verification = complete /\ exists plan, map sra_stage (stage_references (sv_artifacts sample_verification)) = map plan_stage plan.
Proof.
  destruct sample_stages as (plan & Hplan & Hnd & Hsingle & Hne).
  destruct (clean_run_scores_tones_against_themselves square_sine no_layout sample_log sample_caller sample_config "/var/synthetic" short_tone
    top_scorer plan (MkStorage ∅ ∅) sample_verification sample_run.2 sample_run_ok short_tone_value Hplan Hnd Hsingle)
    as (Hs & _ & _ & _ & Hstate & _).
  split; [|by exists plan]. specialize (Hstate (top_scorer_rates _)).
  rewrite (proj1 sample_invariants_pass), (proj2 sample_invariants_pass), Hne in Hstate. exact Hstate.
Defined.

Lemma square_sine_unit : unit_sine square_sine.
Proof.
  constructor; [|by intros x c m]. intros x y. unfold square_sine. intros E. injection E as <-.
  destruct (fleb x (fz 3)); split; vm_compute; reflexivity.
Qed.

Lemma short_tone_valid : _validate_audio_spec short_tone = Ok tt /\ sine_count short_tone = Ok 240.
Proof. split; vm_compute; reflexivity. Qed.

Lemma tones_are_bounded_witness : sine_count short_tone = Ok 240
  /\ match sine_frames square_sine short_tone with
     | Ok frames =>
         Forall (fun v => - amplitude short_tone <= v <= amplitude short_tone) (unpack16 frames)
         /\ len frames = 2 * spec_channels short_tone * Z.max 0 240
         /\ exists coded, codec_frames (Some "mulaw") frames = Ok coded /\ len coded = len frames
     | Raise c _ => c <> StructError
     end.
Proof.
  pose proof (tones_are_bounded square_sine short_tone 240 square_sine_unit (proj1 short_tone_valid) (proj2 short_tone_valid)) as H.
  split; [exact (proj2 short_tone_valid)|].
  exact H.
Defined.
