(* ===== verification/Visqol.v ===== *)
(** * The ViSQOL command-line scorer

    [verification/visqol.py]: candidates made of two wave files, and the scorer
    that gives both files to the external program at the rate of its mode and
    reads the score from a table.  The program, the answers of the disk, the
    decoding of the table and wave files of a foreign layout are arguments. *)
From S2P Require Import Prelude Effects Collections PyFloat PyData Bytes Csv Pcm RunModel Json SignalChecks PyUrl RecordingStorage Wave AmiRtcp Scoring.

Open Scope Z_scope.

Definition VISQOL_CONTRACT : FullReferenceScorerContract := MkContract "visqol" "visqol_moslqo" (fz 1) (fz 5).

Definition _MODE_SAMPLE_RATES : list (string * Z) := [("speech", 16000); ("audio", 48000)].

Record VisqolCliScorer := MkVisqol { vs_binary : string; vs_mode : string; vs_timeout_seconds : float }.

(** The constructor with [__post_init__]. *)
Definition make_visqol_scorer (binary mode : string) (timeout_seconds : float) : result VisqolCliScorer :=
  _ ← guard_else (bool_decide (dict_get mode _MODE_SAMPLE_RATES <> None)) ValueError "mode must be speech or audio";
  _ ← guard_else (fltb fzero timeout_seconds && fleb timeout_seconds (fz 600)) ValueError "timeout_seconds must be between 0 and 600";
  Ok (MkVisqol binary mode timeout_seconds).

(** What surrounds the scorer: [Path.resolve], the file check of the binary,
    [mkdtemp], the writing of a wave file, the process with the disk it leaves,
    the opening of a table as UTF-8 text, and the removal of the temporary
    directory with the files that an error leaves behind. *)
Record visqol_env := MkVisqolEnv {
  resolved : string -> string; binary_executable : bool; temporary_dir : result string; wav_answer : string -> put_outcome;
  process_runner : list string -> float -> storage -> result Z * storage; table_text : bytes -> result (list Ascii.ascii);
  removal_error : option (exn_class * string); removal_leaves : list string }.

Section visqol.
Context (netloc_check : list Ascii.ascii -> bool) (other_layout : bytes -> result wav_file).

(** [wave.open(path, "rb")]; the module knows no compression but ["NONE"]. *)
Definition open_wave (s : storage) (path : string) : result wav_file :=
  match disk_files s !! path with
  | Some content => read_wave other_layout content
  | None => Raise OSError "No such file or directory"
  end.

Definition mono_format (rate : Z) : jdict := [("encoding", JStr "pcm16"); ("rate", JInt rate); ("channels", JInt 1)].

Definition _inspect_pcm16_mono_wav (s : storage) (path : string) : result jdict :=
  match open_wave s path with
  | Raise WaveError _ => Raise ValueError "input is not a readable WAV file"
  | Raise c m => Raise c m
  | Ok wav =>
      _ ← guard_else ((wav_channels wav =? 1) && (wav_sample_width wav =? 2)) ValueError "WAV input must be uncompressed mono PCM16";
      _ ← guard_else (0 <? wav_rate wav) ValueError "WAV sample rate must be positive";
      Ok (mono_format (wav_rate wav))
  end.

Definition build_visqol_candidate (e : visqol_env) (s : storage) (stage reference_path degraded_path : string)
    : result FullReferenceCandidate :=
  reference_format ← _inspect_pcm16_mono_wav s reference_path;
  degraded_format ← _inspect_pcm16_mono_wav s degraded_path;
  _ ← guard_else (json_eqb (JObj reference_format) (JObj degraded_format)) ValueError "reference and degraded WAV formats must match";
  Ok (MkCandidate stage (as_uri (resolved e reference_path)) (as_uri (resolved e degraded_path)) reference_format degraded_format []).

Definition _candidate_sample_rate (c : FullReferenceCandidate) : result Z :=
  let comparison := comparison_format c in
  _ ← guard_else (_comparison_formats_match comparison (degraded_format c)) ValueError "reference and degraded formats must match";
  _ ← guard_else (json_eqb (jget_none "encoding" comparison) (JStr "pcm16")) ValueError "ViSQOL input must be decoded PCM16";
  _ ← guard_else (json_eqb (jget_none "channels" comparison) (JInt 1)) ValueError "ViSQOL input must be mono";
  match jget_none "rate" comparison with
  | JInt rate => if 0 <? rate then Ok rate else Raise ValueError "ViSQOL input sample rate must be a positive integer"
  | _ => Raise ValueError "ViSQOL input sample rate must be a positive integer"
  end.

(** A path that is not UTF-8 names no file here. *)
Definition _local_file_uri_path (uri : string) : result string :=
  if negb (String.eqb (url_scheme uri) "file") then Raise ValueError "scorer input must be a local file URI"
  else
    parts ← url_parts netloc_check 5 uri;
    let '(netloc, path, query, fragment) := parts in
    _ ← guard_else (String.eqb netloc "" || String.eqb netloc "localhost") ValueError "scorer input must be a local file URI";
    _ ← guard_else (String.eqb query "" && String.eqb fragment "") ValueError "scorer input URI must not contain query or fragment";
    from_option_err (unquote path) OSError "No such file or directory".

Definition _read_pcm16_mono_wav (s : storage) (uri : string) (expected_rate : Z) : result bytes :=
  path ← _local_file_uri_path uri;
  wav ← open_wave s path;
  _ ← guard_else ((wav_channels wav =? 1) && (wav_sample_width wav =? 2)) ValueError "WAV input must be mono PCM16";
  _ ← guard_else (wav_rate wav =? expected_rate) ValueError "WAV sample rate does not match candidate metadata";
  Ok (wav_frames wav).

(** [float(text)]. *)
Definition py_float_text (text : string) : result float :=
  match float_text text with
  | Some x => Ok x
  | None =>
      if is_infinity_or_nan text then
        let '(sign, l) := signed_text (strip_by is_space (chars text)) in
        Ok (if String.eqb (lower (str l)) "nan" then NaN else if sign =? 1 then PInf else NInf)
      else Raise ValueError "could not convert string to float"
  end.

Definition _read_moslqo (e : visqol_env) (s : storage) (results_path : string) : result float :=
  content ← from_option_err (disk_files s !! results_path) OSError "No such file or directory";
  text ← table_text e content;
  row ← first_row text;
  match row with
  | None => Raise ValueError "ViSQOL results did not contain MOS-LQO"
  | Some row =>
      match dict_get "moslqo" row with
      | None => Raise ValueError "ViSQOL results did not contain MOS-LQO"
      | Some None => Raise TypeError "float() argument must be a string or a real number, not 'NoneType'"
      | Some (Some value) => py_float_text value
      end
  end.

Definition readiness_of (e : visqol_env) : FullReferenceScorerReadiness :=
  MkReadiness (binary_executable e) (if binary_executable e then None else Some "visqol-binary-unavailable").

(** ** The temporary directory *)

Definition below (root path : string) : bool := prefix_of (chars root ++ ["/"%char]) (chars path).

Definition removed (e : visqol_env) (root : string) (s : storage) : storage :=
  MkStorage (filter (fun kv => below root kv.1 = false \/ kv.1 ∈ removal_leaves e) (disk_files s)) (objects s).

(** [with tempfile.TemporaryDirectory() as root]. *)
Definition in_temporary {A} (e : visqol_env) (body : string -> st storage A) : st storage A := fun s =>
  match temporary_dir e with
  | Raise c m => (Raise c m, s)
  | Ok root =>
      let '(r, s') := body root s in
      (match removal_error e with Some (c, m) => Raise c m | None => r end, removed e root s')
  end.

Definition visqol_command (self : VisqolCliScorer) (e : visqol_env) (root : string) : list string :=
  [resolved e (vs_binary self); "--reference_file"; child root "reference.wav"; "--degraded_file"; child root "degraded.wav";
   "--results_csv"; child root "results.csv"]
  ++ (if String.eqb (vs_mode self) "speech" then ["--use_speech_mode"] else []).

(** [process_runner(command, timeout=...)]. *)
Definition run_process (e : visqol_env) (command : list string) (timeout : float) : st storage Z := process_runner e command timeout.

Definition scored_by_process (self : VisqolCliScorer) (e : visqol_env) (target_rate : Z) (reference_pcm degraded_pcm : bytes)
    (root : string) : st storage float :=
  let reference_path := child root "reference.wav" in
  let degraded_path := child root "degraded.wav" in
  _ ← put_file (wav_answer e reference_path) reference_path (wave_file 1 2 target_rate reference_pcm);
  _ ← put_file (wav_answer e degraded_path) degraded_path (wave_file 1 2 target_rate degraded_pcm);
  returncode ← run_process e (visqol_command self e root) (vs_timeout_seconds self);
  _ ← lift (guard_else (returncode =? 0) RuntimeError "visqol process failed");
  s ← get_state;
  lift (_read_moslqo e s (child root "results.csv")).

(** A file at the rate of the mode. *)
Definition at_rate (input_rate target_rate : Z) (pcm : bytes) : result bytes :=
  if input_rate =? target_rate then Ok pcm else resample_pcm16_mono pcm input_rate target_rate.

Definition visqol_transformations (self : VisqolCliScorer) (input_rate target_rate : Z) : list string :=
  ("visqol-mode:" +:+ vs_mode self)
  :: (if input_rate =? target_rate then [] else ["resample:" +:+ pretty input_rate +:+ "->" +:+ pretty target_rate]).

Definition visqol_score (self : VisqolCliScorer) (e : visqol_env) (c : FullReferenceCandidate) : st storage measurement :=
  input_rate ← lift (_candidate_sample_rate c);
  target_rate ← lift (from_option_err (dict_get (vs_mode self) _MODE_SAMPLE_RATES) KeyError (vs_mode self));
  s ← get_state;
  reference_pcm ← lift (_read_pcm16_mono_wav s (reference_uri c) input_rate);
  degraded_pcm ← lift (_read_pcm16_mono_wav s (degraded_uri c) input_rate);
  reference_pcm ← lift (at_rate input_rate target_rate reference_pcm);
  degraded_pcm ← lift (at_rate input_rate target_rate degraded_pcm);
  score ← in_temporary e (scored_by_process self e target_rate reference_pcm degraded_pcm);
  mret (FullReferenceMeasurement score (map Some (visqol_transformations self input_rate target_rate))).

(** The scorer as the boundary of [verification/scoring.py] uses it: every
    candidate is scored on the same disk, which a scorer that cleans up leaves
    as it found it. *)
Definition visqol_scorer (self : VisqolCliScorer) (e : visqol_env) (s : storage) : FullReferenceScorer :=
  MkScorer VISQOL_CONTRACT (Ok (readiness_of e)) (fun c => fst (visqol_score self e c s)).

End visqol.

(** ** The file of a URI *)

Section lemmas.
Context (netloc_check : list Ascii.ascii -> bool) (other_layout : bytes -> result wav_file).

(** A candidate made of absolute paths names those files. *)
Lemma local_file_of_uri p : let path := String "/" p in
  _local_file_uri_path netloc_check (as_uri path) = Ok path.
Proof.
  intros path. unfold _local_file_uri_path. rewrite as_uri_scheme. cbn [String.eqb Ascii.eqb Bool.eqb negb].
  unfold url_parts. rewrite url_text_uri.
  assert (exists l, chars (quote ["/"%char] path) = "/"%char :: l) as [l El]
    by (unfold path, quote; rewrite chars_str; cbn; eauto).
  pose proof (quoted_none ["/"%char] (Ascii.eqb "#") path ltac:(intros c Hc; apply (path_char_plain c Hc))) as H1.
  pose proof (quoted_none ["/"%char] (Ascii.eqb "?") path ltac:(intros c Hc; apply (path_char_plain c Hc))) as H2.
  pose proof (unquote_quote ["/"%char] path ltac:(set_solver)) as Hu.
  rewrite <- (str_chars (quote ["/"%char] path)), El in Hu. rewrite El in *.
  destruct (until_from_none (Ascii.eqb "#") ("/"%char :: l)) as [E1 E2].
  { apply forallb_forall. intros c Hc. apply negb_true_iff. apply not_true_is_false. intros Hx.
    rewrite (proj2 (existsb_exists _ _)) in H1 by eauto. done. }
  destruct (until_from_none (Ascii.eqb "?") ("/"%char :: l)) as [E3 E4].
  { apply forallb_forall. intros c Hc. apply negb_true_iff. apply not_true_is_false. intros Hx.
    rewrite (proj2 (existsb_exists _ _)) in H2 by eauto. done. }
  cbn [chars String.list_ascii_of_string app drop prefix_of].
  rewrite !Ascii.eqb_refl. cbn [andb app drop]. rewrite ?drop_0.
  change (until (char_in ["/"; "?"; "#"]%char) ("/"%char :: l)) with (@nil Ascii.ascii).
  change (from (char_in ["/"; "?"; "#"]%char) ("/"%char :: l)) with ("/"%char :: l).
  cbn [existsb negb orb guard_else mbind result_bind].
  rewrite E1, E2, E3, E4. cbn [drop]. change (str []) with "". rewrite !String.eqb_refl. cbn [orb andb guard_else mbind result_bind].
  by rewrite Hu.
Qed.

(** ** Rates *)

Lemma at_rate_ok I R pcm : 0 < I -> 0 < R -> I <= 3 * R -> even_length pcm = true ->
  at_rate I R pcm = Ok (if I =? R then pcm else concat (map le16 (reference I R (unpack16 pcm)))).
Proof.
  intros HI HR Hratio He. unfold at_rate. destruct (Z.eqb_spec I R) as [|Hne]; [done|].
  by apply resample_mono_spec.
Qed.
End lemmas.

(** ** The temporary directory *)

Lemma prefix_of_app (a b : list Ascii.ascii) : prefix_of a (a ++ b) = true.
Proof. induction a as [|c a IH]; [done|]. cbn [app prefix_of]. by rewrite Ascii.eqb_refl, IH. Qed.

Lemma below_child root name : below root (child root name) = true.
Proof.
  unfold below, child. rewrite !chars_append. change (chars "/") with ["/"%char]. rewrite app_assoc. apply prefix_of_app.
Qed.

(** Two disks that differ only below a directory. *)
Definition same_outside (root : string) (s s' : storage) : Prop :=
  objects s' = objects s /\ forall path, below root path = false -> disk_files s' !! path = disk_files s !! path.

Lemma same_outside_refl root s : same_outside root s s.
Proof. done. Qed.

Lemma same_outside_trans root s1 s2 s3 : same_outside root s1 s2 -> same_outside root s2 s3 -> same_outside root s1 s3.
Proof. intros [H1 H2] [H3 H4]. split; [congruence|]. intros path Hp. by rewrite H4, H2. Qed.

Lemma put_file_outside root answer name content s : same_outside root s (put_file answer (child root name) content s).2.
Proof.
  assert (forall path, below root path = false -> path <> child root name) as Hne by (intros path H ->; by rewrite below_child in H).
  unfold put_file. destruct content as [content|c m], (put_error answer) as [[? ?]|]; cbn [snd]; (split; [done|]); intros path Hp;
    cbn [disk_files]; unfold leave; repeat case_match; rewrite ?lookup_insert_ne by (symmetry; by apply Hne);
    rewrite ?lookup_delete_ne by (symmetry; by apply Hne); done.
Qed.

(** What the scorer relies on about its directory: [mkdtemp] made a new one,
    the process writes nowhere else, and everything in it can be removed. *)
Record contained (e : visqol_env) (s : storage) : Prop := {
  ct_fresh : forall root path, temporary_dir e = Ok root -> below root path = true -> disk_files s !! path = None;
  ct_process : forall root command timeout s1, temporary_dir e = Ok root ->
    same_outside root s1 (process_runner e command timeout s1).2;
  ct_removed : removal_leaves e = [] }.

Lemma process_outside self e rate p1 p2 root s : contained e s -> temporary_dir e = Ok root -> forall s1,
  same_outside root s1 (scored_by_process self e rate p1 p2 root s1).2.
Proof.
  intros Hc Hroot s1. unfold scored_by_process, mbind, st_bind.
  pose proof (put_file_outside root (wav_answer e (child root "reference.wav")) "reference.wav" (wave_file 1 2 rate p1) s1) as H1.
  destruct (put_file _ (child root "reference.wav") _ s1) as [[u|c m] s2]; cbn [snd] in H1 |- *; [|done].
  pose proof (put_file_outside root (wav_answer e (child root "degraded.wav")) "degraded.wav" (wave_file 1 2 rate p2) s2) as H2.
  destruct (put_file _ (child root "degraded.wav") _ s2) as [[u'|c m] s3]; cbn [snd] in H2 |- *;
    [|by eapply same_outside_trans].
  pose proof (ct_process _ _ Hc root (visqol_command self e root) (vs_timeout_seconds self) s3 Hroot) as H3.
  unfold run_process. destruct (process_runner e _ _ s3) as [[code|c m] s4]; cbn [snd] in H3 |- *;
    (eapply same_outside_trans; [exact H1|]; eapply same_outside_trans; [exact H2|]); [|done].
  unfold lift. destruct (guard_else _ _ _) as [v|c m]; cbn [snd]; [|done]. unfold get_state. done.
Qed.

Lemma removed_outside e root s s' : removal_leaves e = [] -> same_outside root s s' ->
  (forall path, below root path = true -> disk_files s !! path = None) -> removed e root s' = s.
Proof.
  intros Hl [Ho Hd] Hf. unfold removed. rewrite Ho, Hl. destruct s as [files objs]. cbn [disk_files objects] in *. f_equal.
  apply map_eq. intros path. destruct (below root path) eqn:Eb.
  - rewrite Hf by done. apply map_lookup_filter_None. right. intros x _ [H|H]; [by cbn in H; rewrite Eb in H|set_solver].
  - destruct (files !! path) as [content|] eqn:El.
    + apply map_lookup_filter_Some. rewrite Hd by done. split; [done|]. by left.
    + apply map_lookup_filter_None. left. by rewrite Hd.
Qed.

Section scoring.
Context (netloc_check : list Ascii.ascii -> bool) (other_layout : bytes -> result wav_file).

Lemma in_temporary_leaves {A} e s (body : string -> st storage A) : contained e s ->
  (forall root, temporary_dir e = Ok root -> same_outside root s (body root s).2) -> (in_temporary e body s).2 = s.
Proof.
  intros Hc Hb. unfold in_temporary. destruct (temporary_dir e) as [root|c m] eqn:Et; [|done].
  specialize (Hb root eq_refl). destruct (body root s) as [r s']. cbn [snd] in *.
  apply removed_outside; [apply (ct_removed _ _ Hc)|done|]. intros path. by apply (ct_fresh _ _ Hc).
Qed.

(** C39. Scoring leaves nothing behind: whatever the candidate, the answers of
    the disk and the outcome of the process, errors and time-outs included,
    the files after a score are the files before it, when the temporary
    directory is new, the process writes only there and the directory can be
    removed. *)
Theorem scoring_leaves_the_disk self e c s : contained e s -> (visqol_score netloc_check other_layout self e c s).2 = s.
Proof.
  intros Hc. unfold visqol_score, mbind, st_bind, lift, get_state, mret, st_ret.
  repeat match goal with |- context [match ?m with Ok _ => _ | Raise _ _ => _ end] => destruct m eqn:?; cbn [fst snd]; [|done] end.
  match goal with |- context [in_temporary e ?body s] => pose proof (in_temporary_leaves e s body Hc) as Hs end.
  destruct (in_temporary e _ s) as [r s']. cbn [snd] in Hs.
  assert (s' = s) as -> by (apply Hs; intros root Hroot; by apply (process_outside _ _ _ _ _ _ s)). by destruct r.
Qed.

(** ** What the process is given *)

(** The samples of a file at the rate of the mode. *)
Definition at_mode_rate (I R : Z) (pcm : bytes) : bytes :=
  if I =? R then pcm else concat (map le16 (reference I R (unpack16 pcm))).

(** A mono file as the scorer needs it: readable, of whole samples, found under
    its resolved path, at a rate that is resampled without loss of phase, and
    short enough for a wave header. *)
Record scorable (e : visqol_env) (s : storage) (rate target : Z) (path : string) (pcm : bytes) : Prop := {
  sc_path : exists p, resolved e path = String "/" p;
  sc_same : disk_files s !! resolved e path = disk_files s !! path;
  sc_wave : exists count, open_wave other_layout s path = Ok (MkWav 1 2 count rate pcm);
  sc_samples : even_length pcm = true;
  sc_rate : 0 < rate <= 3 * target;
  sc_size : len (at_mode_rate rate target pcm) < 4294967296 - 36 }.

Lemma inspect_scorable e s rate target path pcm : scorable e s rate target path pcm ->
  _inspect_pcm16_mono_wav other_layout s path = Ok (mono_format rate).
Proof.
  intros H. destruct (sc_wave _ _ _ _ _ _ H) as (count & Hw). unfold _inspect_pcm16_mono_wav. rewrite Hw.
  cbn [wav_channels wav_sample_width wav_rate Z.eqb Pos.eqb andb guard_else mbind result_bind].
  pose proof (sc_rate _ _ _ _ _ _ H). rewrite (proj2 (Z.ltb_lt _ _)) by lia. done.
Qed.

Lemma read_scorable e s rate target path pcm : scorable e s rate target path pcm ->
  _read_pcm16_mono_wav netloc_check other_layout s (as_uri (resolved e path)) rate = Ok pcm.
Proof.
  intros H. destruct (sc_path _ _ _ _ _ _ H) as (p & Hp). destruct (sc_wave _ _ _ _ _ _ H) as (count & Hw).
  unfold _read_pcm16_mono_wav. pose proof (local_file_of_uri netloc_check p) as Hu. cbn zeta in Hu. rewrite Hp, Hu, <- Hp.
  cbn [mbind result_bind]. unfold open_wave in *. rewrite (sc_same _ _ _ _ _ _ H), Hw.
  cbn [mbind result_bind wav_channels wav_sample_width wav_rate Z.eqb Pos.eqb andb guard_else wav_frames]. by rewrite Z.eqb_refl.
Qed.

Lemma mode_rate_even I R pcm : even_length pcm = true -> even_length (at_mode_rate I R pcm) = true.
Proof.
  intros He. unfold at_mode_rate. destruct (I =? R); [done|]. induction (reference I R (unpack16 pcm)) as [|v l IH]; [done|].
  cbn [map concat]. by rewrite even_length_app.
Qed.

(** A file of the temporary directory: written, and read back at the rate. *)
Lemma written_wave rate pcm : 0 < rate < 1000000000 -> even_length pcm = true -> len pcm < 4294967296 - 36 ->
  exists content, wave_file 1 2 rate pcm = Ok content
  /\ read_wave other_layout content = Ok (MkWav 1 2 (len pcm / 2) rate pcm).
Proof.
  intros Hr He Hl. pose proof (len_nonneg pcm). eassert (exists content, wave_file 1 2 rate pcm = Ok content) as (content & Hc).
  { unfold wave_file. cbn [Z.leb Z.compare Pos.compare Pos.compare_cont guard_else mbind result_bind].
    rewrite (proj2 (Z.ltb_lt 0 rate)) by lia. cbn [guard_else mbind result_bind].
    assert (le32_ok rate && le32_ok (1 * rate * 2) && le32_ok (36 + len pcm) = true) as E by (unfold le32_ok; lia).
    apply andb_true_iff in E as [[E1 E2]%andb_true_iff E3]. rewrite E1, E2, E3. by eexists. }
  exists content. split; [done|]. apply (read_wave_file other_layout 1 2 rate pcm content Hc); [lia|].
  unfold even_length in He. apply Z.eqb_eq in He. exact He.
Qed.

(** The candidate [build_visqol_candidate] makes of two such files. *)
Lemma build_scorable e s stage r d rate target p1 p2 : scorable e s rate target r p1 -> scorable e s rate target d p2 ->
  build_visqol_candidate other_layout e s stage r d
  = Ok (MkCandidate stage (as_uri (resolved e r)) (as_uri (resolved e d)) (mono_format rate) (mono_format rate) []).
Proof.
  intros Hr Hd. unfold build_visqol_candidate. rewrite (inspect_scorable _ _ _ _ _ _ Hr). cbn [mbind result_bind].
  rewrite (inspect_scorable _ _ _ _ _ _ Hd). cbn [mbind result_bind].
  assert (json_eqb (JObj (mono_format rate)) (JObj (mono_format rate)) = true) as ->.
  { change (json_eqb (JInt rate) (JInt rate) && (json_eqb (JInt 1) (JInt 1) && true) = true). by rewrite !json_eqb_int. }
  done.
Qed.

Lemma mono_sample_rate c rate : comparison_format c = mono_format rate -> degraded_format c = mono_format rate -> 0 < rate ->
  _candidate_sample_rate c = Ok rate.
Proof.
  intros H1 H2 Hr. unfold _candidate_sample_rate. rewrite H1, H2, (int_formats_match "pcm16" rate 1 : _comparison_formats_match (mono_format rate) (mono_format rate) = true).
  change (jget_none "encoding" (mono_format rate)) with (JStr "pcm16"). change (jget_none "channels" (mono_format rate)) with (JInt 1).
  change (jget_none "rate" (mono_format rate)) with (JInt rate). rewrite json_eqb_int. cbn [json_eqb guard_else mbind result_bind].
  rewrite String.eqb_refl. cbn [guard_else mbind result_bind]. by rewrite (proj2 (Z.ltb_lt _ _)) by lia.
Qed.

Lemma mode_target mode target : dict_get mode _MODE_SAMPLE_RATES = Some target -> 0 < target < 1000000000.
Proof.
  unfold _MODE_SAMPLE_RATES. cbn [dict_get]. intros H. repeat case_match; simplify_eq; lia.
Qed.

Lemma put_answered_file path answer content s : answer path = MkPut None None ->
  put_file (answer path) path (Ok content) s = (Ok tt, MkStorage (<[path := content]> (disk_files s)) (objects s)).
Proof. intros H. unfold put_file. by rewrite H. Qed.

(** C26. The program is given the files at the rate of its mode.  For two
    readable mono files of the same rate, at most three times the rate of the
    mode, the candidate is built, and scoring it starts the program once, with
    the command line of the mode, on a disk with two new files that read back
    as mono waves at the rate of the mode holding the reference resampling of
    the two inputs (or the inputs, at that rate).  The score is the MOS-LQO of
    the table the program leaves when it exits with 0; any other exit is a
    [RuntimeError] and an error of the program is passed on. *)
Theorem program_is_given_both_files self e s stage reference_path degraded_path rate target p1 p2 root :
  dict_get (vs_mode self) _MODE_SAMPLE_RATES = Some target ->
  scorable e s rate target reference_path p1 -> scorable e s rate target degraded_path p2 ->
  temporary_dir e = Ok root -> (forall path, wav_answer e path = MkPut None None) -> removal_error e = None ->
  exists c w1 w2, build_visqol_candidate other_layout e s stage reference_path degraded_path = Ok c
  /\ read_wave other_layout w1 = Ok (MkWav 1 2 (len (at_mode_rate rate target p1) / 2) target (at_mode_rate rate target p1))
  /\ read_wave other_layout w2 = Ok (MkWav 1 2 (len (at_mode_rate rate target p2) / 2) target (at_mode_rate rate target p2))
  /\ visqol_score netloc_check other_layout self e c s =
     let '(answer, s') := process_runner e (visqol_command self e root) (vs_timeout_seconds self)
       (MkStorage (<[child root "degraded.wav" := w2]> (<[child root "reference.wav" := w1]> (disk_files s))) (objects s)) in
     (returncode ← answer;
      _ ← guard_else (returncode =? 0) RuntimeError "visqol process failed";
      x ← _read_moslqo e s' (child root "results.csv");
      Ok (FullReferenceMeasurement x (map Some (visqol_transformations self rate target))), removed e root s').
Proof.
  intros Hm H1 H2 Hroot Hput Hrm. pose proof (mode_target _ _ Hm) as Ht.
  destruct (written_wave target (at_mode_rate rate target p1)) as (w1 & Hf1 & Hw1);
    [done|by apply mode_rate_even, (sc_samples _ _ _ _ _ _ H1)|apply (sc_size _ _ _ _ _ _ H1)|].
  destruct (written_wave target (at_mode_rate rate target p2)) as (w2 & Hf2 & Hw2);
    [done|by apply mode_rate_even, (sc_samples _ _ _ _ _ _ H2)|apply (sc_size _ _ _ _ _ _ H2)|].
  eexists _, w1, w2. split; [by eapply build_scorable|]. split; [done|]. split; [done|].
  pose proof (sc_rate _ _ _ _ _ _ H1) as Hr. unfold visqol_score, mbind, st_bind, lift, get_state, mret, st_ret.
  rewrite (mono_sample_rate _ rate) by (done || lia). rewrite Hm. cbn [from_option_err reference_uri degraded_uri].
  rewrite (read_scorable _ _ _ _ _ _ H1), (read_scorable _ _ _ _ _ _ H2).
  rewrite (at_rate_ok rate target p1), (at_rate_ok rate target p2) by (try lia; by eapply sc_samples).
  fold (at_mode_rate rate target p1) (at_mode_rate rate target p2).
  unfold in_temporary. rewrite Hroot. unfold scored_by_process. unfold mbind, st_bind.
  rewrite Hf1, Hf2, !put_answered_file by done. cbn [disk_files objects]. unfold run_process.
  destruct (process_runner e _ _ _) as [[code|x m] s']; rewrite Hrm; [|done]. unfold lift, get_state. cbn [result_bind].
  destruct (code =? 0); cbn [guard_else result_bind]; [|done].
  by destruct (_read_moslqo e s' (child root "results.csv")).
Qed.

(** A table of plain fields whose header names the score. *)
Lemma read_plain_moslqo e s path names values rest value x content :
  disk_files s !! path = Some content -> table_text e content = Ok (plain_record names ++ plain_record values ++ rest) ->
  plain_fields names -> plain_fields values -> dict_get "moslqo" (dict_row names values) = Some (Some value) ->
  py_float_text value = Ok x -> _read_moslqo e s path = Ok x.
Proof.
  intros Hc Ht Hn Hv Hd Hx. unfold _read_moslqo. rewrite Hc. cbn [from_option_err mbind result_bind]. rewrite Ht. cbn [mbind result_bind].
  rewrite (first_plain_row names values rest Hn Hv). cbn [mbind result_bind]. by rewrite Hd.
Qed.
End scoring.

(** ** A run on two short files *)

Definition sample_pcm : bytes := concat (map le16 [0; 1000; -1000; 500]).
Definition written (r : result bytes) : bytes := match r with Ok content => content | Raise _ _ => [] end.
Definition sample_file : bytes := written (wave_file 1 2 8000 sample_pcm).
Definition sample_disk : storage := MkStorage (<["/in/a.wav" := sample_file]> (<["/in/b.wav" := sample_file]> ∅)) ∅.
Definition sample_table : bytes :=
  ascii_bytes "reference,degraded,moslqo" ++ [byte_of 10] ++ ascii_bytes "reference.wav,degraded.wav,4.25" ++ [byte_of 10].
Definition unknown_layout (data : bytes) : result wav_file := Raise EOFError "".

Definition sample_visqol_env : visqol_env :=
  MkVisqolEnv (fun path => path) true (Ok "/tmp/voxbench-visqol-1") (fun _ => MkPut None None)
    (fun command timeout s => (Ok 0, MkStorage (<["/tmp/voxbench-visqol-1/results.csv" := sample_table]> (disk_files s)) (objects s)))
    (fun data => Ok (map (fun b => chr (byte_val b)) data)) None [].
Definition sample_visqol : VisqolCliScorer := MkVisqol "/opt/visqol" "speech" (fz 120).

Lemma sample_contained : contained sample_visqol_env sample_disk.
Proof.
  constructor; [|intros root command timeout s1 [= <-]|done].
  - intros root path [= <-] Hb. unfold sample_disk. cbn [disk_files].
    rewrite !lookup_insert_ne; [done| |]; intros <-; by vm_compute in Hb.
  - split; [done|]. intros path Hb. cbn. rewrite lookup_insert_ne; [done|]. intros <-. by vm_compute in Hb.
Qed.

Lemma sample_scorable path : path ∈ ["/in/a.wav"; "/in/b.wav"] -> scorable unknown_layout sample_visqol_env sample_disk 8000 16000 path sample_pcm.
Proof.
  intros Hp. constructor; [| |exists 4|done|lia|by vm_compute]; [|done|];
    apply list_elem_of_In in Hp; destruct Hp as [<- |[<- |[]]]; try (by eexists); vm_compute; reflexivity.
Qed.

Lemma sample_made : dict_get (vs_mode sample_visqol) _MODE_SAMPLE_RATES = Some 16000.
Proof. done. Qed.

Lemma sample_table_read s : _read_moslqo sample_visqol_env (MkStorage (<["/tmp/voxbench-visqol-1/results.csv" := sample_table]> (disk_files s)) (objects s))
  "/tmp/voxbench-visqol-1/results.csv" = Ok (flit 425 100).
Proof.
  eapply (read_plain_moslqo _ _ _ ["reference"; "degraded"; "moslqo"] ["reference.wav"; "degraded.wav"; "4.25"] [] "4.25").
  - cbn [disk_files]. apply lookup_insert_eq.
  - cbn [sample_visqol_env table_text]. reflexivity.
  - split; [repeat (constructor; [by split; [|vm_compute]|]); constructor|done].
  - split; [repeat (constructor; [by split; [|vm_compute]|]); constructor|done].
  - reflexivity.
  - vm_compute. reflexivity.
Qed.

(** Two files of eight kilohertz are scored with the value of the table. *)
Lemma program_is_given_both_files_witness : exists c,
  build_visqol_candidate unknown_layout sample_visqol_env sample_disk "serializer" "/in/a.wav" "/in/b.wav" = Ok c
  /\ (visqol_score (fun _ => true) unknown_layout sample_visqol sample_visqol_env c sample_disk).1
     = Ok (FullReferenceMeasurement (flit 425 100) (map Some (visqol_transformations sample_visqol 8000 16000))).
Proof.
  destruct (program_is_given_both_files (fun _ => true) unknown_layout sample_visqol sample_visqol_env sample_disk "serializer"
    "/in/a.wav" "/in/b.wav" 8000 16000 sample_pcm sample_pcm "/tmp/voxbench-visqol-1" sample_made
    (sample_scorable "/in/a.wav" ltac:(left)) (sample_scorable "/in/b.wav" ltac:(right; left)) eq_refl (fun _ => eq_refl) eq_refl)
    as (c & w1 & w2 & Hc & _ & _ & Hs).
  exists c. split; [exact Hc|]. rewrite Hs. cbn [process_runner sample_visqol_env fst mbind result_bind].
  change (child "/tmp/voxbench-visqol-1" "results.csv") with "/tmp/voxbench-visqol-1/results.csv".
  cbn [Z.eqb guard_else mbind result_bind]. rewrite sample_table_read. reflexivity.
Defined.

Definition sample_candidate : FullReferenceCandidate :=
  MkCandidate "serializer" "file:///in/a.wav" "file:///in/b.wav" (mono_format 8000) (mono_format 8000) [].

Lemma scoring_leaves_the_disk_witness :
  (visqol_score (fun _ => true) unknown_layout sample_visqol sample_visqol_env sample_candidate sample_disk).2 = sample_disk.
Proof.
  exact (scoring_leaves_the_disk (fun _ => true) unknown_layout sample_visqol sample_visqol_env sample_candidate sample_disk sample_contained).
Defined.
