(* ===== verification/IsoTime.v ===== *)
(** * Timestamps as text

    [datetime.isoformat], and the instant that a timestamp of RFC 3339 denotes,
    with the Gregorian calendar in its textbook form. *)
From S2P Require Import Prelude Effects Collections PyData.

Open Scope Z_scope.

(** ** [datetime.isoformat] *)

Fixpoint dec_fixed (w : nat) (n : Z) : list Ascii.ascii :=
  match w with O => [] | S w' => dec_fixed w' (n / 10) ++ [chr (48 + n mod 10)] end.
Definition fixed (w : nat) (n : Z) : string := str (dec_fixed w n).

(** Year, month and day of a day counted from 1970-01-01, in years that begin
    in March. *)
Definition civil_of_day (day : Z) : Z * Z * Z :=
  let z := day + 719468 in
  let doe := z mod 146097 in
  let yoe := (doe - doe / 1460 + doe / 36524 - doe / 146096) / 365 in
  let doy := doe - (365 * yoe + yoe / 4 - yoe / 100) in
  let mp := (5 * doy + 2) / 153 in
  let m := if mp <? 10 then mp + 3 else mp - 9 in
  (yoe + z / 146097 * 400 + (if m <=? 2 then 1 else 0), m, doy - (153 * mp + 2) / 5 + 1).

Definition MICROS_PER_DAY : Z := 86400000000.

(** Hours, minutes and seconds, with the microseconds when there are any. *)
Definition iso_micros (us : Z) : string := if us =? 0 then "" else "." +:+ fixed 6 us.
Definition iso_time (t : Z) : string :=
  fixed 2 (t / 3600000000) +:+ ":" +:+ fixed 2 (t / 60000000 mod 60) +:+ ":" +:+ fixed 2 (t / 1000000 mod 60)
  +:+ iso_micros (t mod 1000000).
Definition iso_offset (offset : Z) : string :=
  let t := Z.abs offset in
  (if offset <? 0 then "-" else "+") +:+ fixed 2 (t / 3600000000) +:+ ":" +:+ fixed 2 (t / 60000000 mod 60)
  +:+ (if t mod 60000000 =? 0 then "" else ":" +:+ fixed 2 (t / 1000000 mod 60) +:+ iso_micros (t mod 1000000)).

Definition isoformat (d : datetime) : string :=
  let '(y, m, day) := civil_of_day (dt_wall d / MICROS_PER_DAY) in
  fixed 4 y +:+ "-" +:+ fixed 2 m +:+ "-" +:+ fixed 2 day +:+ "T" +:+ iso_time (dt_wall d mod MICROS_PER_DAY)
  +:+ match dt_offset d with None => "" | Some offset => iso_offset offset end.

(** ** The calendar *)

Definition leap (y : Z) : bool :=
  if y mod 400 =? 0 then true else if y mod 100 =? 0 then false else y mod 4 =? 0.
Definition month_length (y m : Z) : Z :=
  if m =? 2 then (if leap y then 29 else 28)
  else if (m =? 4) || (m =? 6) || (m =? 9) || (m =? 11) then 30 else 31.

(** The days from 1970-01-01 to the first day of a year, and to a date. *)
Definition year_start (y : Z) : Z := 365 * (y - 1) + (y - 1) / 4 - (y - 1) / 100 + (y - 1) / 400 - 719162.
Definition days_before_month (y m : Z) : Z :=
  nth (Z.to_nat (m - 1)) [0; 31; 59; 90; 120; 151; 181; 212; 243; 273; 304; 334] 0
  + (if 2 <? m then (if leap y then 1 else 0) else 0).
Definition day_number (y m d : Z) : Z := year_start y + days_before_month y m + (d - 1).

Definition valid_date (y m d : Z) : bool :=
  (1 <=? y) && (y <=? 9999) && (1 <=? m) && (m <=? 12) && (1 <=? d) && (d <=? month_length y m).

(** ** Reading a timestamp *)

Fixpoint read_digits (w : nat) (acc : Z) (l : list Ascii.ascii) : option (Z * list Ascii.ascii) :=
  match w, l with
  | O, _ => Some (acc, l)
  | S w', c :: l' =>
      let n := code c - 48 in
      if (0 <=? n) && (n <=? 9) then read_digits w' (10 * acc + n) l' else None
  | S _, [] => None
  end.
Definition read_char (c : Ascii.ascii) (l : list Ascii.ascii) : option (list Ascii.ascii) :=
  match l with x :: l' => if Ascii.eqb x c then Some l' else None | [] => None end.
Definition read_micros (l : list Ascii.ascii) : option (Z * list Ascii.ascii) :=
  match read_char "." l with Some l' => read_digits 6 0 l' | None => Some (0, l) end.

(** [Z], or the sign, hours and minutes of an offset, at the end. *)
Definition read_offset (l : list Ascii.ascii) : option Z :=
  match l with
  | [] => None
  | sign :: l =>
      if Ascii.eqb sign "Z" && bool_decide (l = []) then Some 0 else
      hl ← read_digits 2 0 l; l ← read_char ":" hl.2; ml ← read_digits 2 0 l;
      let minutes := hl.1 * 60 + ml.1 in
      if (hl.1 <? 24) && (ml.1 <? 60) && bool_decide (ml.2 = []) then
        if Ascii.eqb sign "+" then Some (minutes * 60000000)
        else if Ascii.eqb sign "-" then Some (- (minutes * 60000000)) else None
      else None
  end.

(** The instant of a timestamp of RFC 3339 with whole seconds or microseconds. *)
Definition iso_instant (text : string) : option instant :=
  y ← read_digits 4 0 (chars text); l ← read_char "-" y.2;
  m ← read_digits 2 0 l; l ← read_char "-" m.2;
  d ← read_digits 2 0 l; l ← read_char "T" d.2;
  h ← read_digits 2 0 l; l ← read_char ":" h.2;
  mi ← read_digits 2 0 l; l ← read_char ":" mi.2;
  s ← read_digits 2 0 l;
  us ← read_micros s.2;
  offset ← read_offset us.2;
  if valid_date y.1 m.1 d.1 && (h.1 <? 24) && (mi.1 <? 60) && (s.1 <? 60)
  then Some (day_number y.1 m.1 d.1 * MICROS_PER_DAY + ((h.1 * 60 + mi.1) * 60 + s.1) * 1000000 + us.1 - offset)
  else None.

Example some_instants :
  iso_instant "1970-01-01T00:00:01+00:00" = Some 1000000 /\ iso_instant "2024-02-29T12:30:00.000250-05:30" = Some 1709229600000250
  /\ iso_instant "2023-02-29T12:30:00Z" = None /\ iso_instant "2024-02-29T12:30:00" = None.
Proof. by vm_compute. Qed.

(** ** Digits *)

Lemma code_digit k : 0 <= k <= 9 -> code (chr (48 + k)) = 48 + k.
Proof.
  intros H. assert (k ∈ seqZ 0 10) as Hk by (apply elem_of_seqZ; lia). revert k H Hk.
  assert (Forall (fun k => code (chr (48 + k)) = 48 + k) (seqZ 0 10)) as Hf by (by apply (bool_decide_unpack _); vm_compute).
  intros k _ Hk. rewrite Forall_forall in Hf. auto.
Qed.

Lemma read_digits_app w1 w2 acc l : read_digits (w1 + w2) acc l = (x ← read_digits w1 acc l; read_digits w2 x.1 x.2).
Proof.
  revert acc l. induction w1 as [|w1 IH]; intros acc l; [by destruct w2, l|]. destruct l as [|c l]; [done|].
  cbn [Nat.add read_digits]. destruct (_ && _); [apply IH|done].
Qed.

Lemma read_fixed w n acc l : 0 <= n < 10 ^ Z.of_nat w -> read_digits w acc (dec_fixed w n ++ l) = Some (acc * 10 ^ Z.of_nat w + n, l).
Proof.
  revert n acc l. induction w as [|w IH]; intros n acc l H.
  - cbn. do 2 f_equal. cbn in H. lia.
  - rewrite Nat2Z.inj_succ, Z.pow_succ_r in * by lia. cbn [dec_fixed]. rewrite <- app_assoc.
    replace (S w) with (w + 1)%nat by lia. rewrite read_digits_app, IH by (split; [apply Z.div_pos|apply Z.div_lt_upper_bound]; lia).
    cbn [mbind option_bind fst snd app read_digits]. pose proof (Z.mod_pos_bound n 10 ltac:(lia)). pose proof (Z.div_mod n 10 ltac:(lia)).
    rewrite code_digit by lia. rewrite (proj2 (Z.leb_le 0 _)), (proj2 (Z.leb_le _ 9)) by lia. cbn [andb]. do 2 f_equal. lia.
Qed.

Lemma chars_fixed w n : chars (fixed w n) = dec_fixed w n.
Proof. apply chars_str. Qed.

(** ** The calendar of [isoformat] is the Gregorian one *)

(** The year and the day in it, of a day in a period of 400 years that begins
    in March. *)
Lemma year_of_era doe : 0 <= doe < 146097 ->
  let yoe := (doe - doe / 1460 + doe / 36524 - doe / 146096) / 365 in
  0 <= yoe <= 399 /\ 365 * yoe + yoe / 4 - yoe / 100 <= doe
  /\ doe <= 365 * (yoe + 1) + (yoe + 1) / 4 - (yoe + 1) / 100 + (yoe + 1) / 400 - 1.
Proof.
  intros H yoe. subst yoe.
  split; [|split]; Z.to_euclidean_division_equations; lia.
Qed.

Definition leap_day (y : Z) : Z := if leap y then 1 else 0.

(** Counting leap days from March or from January. *)
Definition year_ok (yoe : Z) : bool :=
  ((yoe - 1) / 4 - (yoe - 1) / 100 + (yoe - 1) / 400 + leap_day yoe =? yoe / 4 - yoe / 100)
  && ((yoe + 1) / 4 - (yoe + 1) / 100 + (yoe + 1) / 400 =? yoe / 4 - yoe / 100 + leap_day (yoe + 1)).

Lemma years_ok yoe : 0 <= yoe <= 399 -> year_ok yoe = true.
Proof.
  intros H. assert (forallb year_ok (seqZ 0 400) = true) as Hf by (vm_compute; reflexivity).
  rewrite forallb_forall in Hf. apply Hf, list_elem_of_In, elem_of_seqZ. lia.
Qed.

Definition day_table : list Z := [0; 31; 59; 90; 120; 151; 181; 212; 243; 273; 304; 334].

(** The month and the day in it, of a day in a year that begins in March. *)
Definition month_ok (doy : Z) : bool :=
  let mp := (5 * doy + 2) / 153 in
  let m := if mp <? 10 then mp + 3 else mp - 9 in
  let d := doy - (153 * mp + 2) / 5 + 1 in
  (1 <=? m) && (m <=? 12) && (1 <=? d)
  && (nth (Z.to_nat (m - 1)) day_table 0 + d - 1 =? doy + (if m <=? 2 then -306 else 59))
  && (d <=? (if m =? 2 then (if doy =? 365 then 29 else 28)
             else if (m =? 4) || (m =? 6) || (m =? 9) || (m =? 11) then 30 else 31)).

Lemma months_ok doy : 0 <= doy <= 365 -> month_ok doy = true.
Proof.
  intros H. assert (forallb month_ok (seqZ 0 366) = true) as Hf by (vm_compute; reflexivity).
  rewrite forallb_forall in Hf. apply Hf, list_elem_of_In, elem_of_seqZ. lia.
Qed.

Lemma civil_period doe : 0 <= doe < 146097 -> exists y m d, civil_of_day (doe - 719468) = (y, m, d)
  /\ day_number y m d = doe - 719468 /\ 1 <= m <= 12 /\ 1 <= d <= month_length y m
  /\ 0 <= y <= 400 /\ (306 <= doe -> 1 <= y) /\ (doe <= 146036 -> y <= 399).
Proof.
  intros H. unfold civil_of_day. replace (doe - 719468 + 719468) with doe by lia. rewrite (Z.mod_small doe 146097), (Z.div_small doe 146097) by lia.
  cbv zeta. destruct (year_of_era doe H) as (Hy & Hlo & Hhi). set (yoe := (doe - _ + _ - _) / 365) in *.
  pose proof (years_ok yoe Hy) as Hyear. unfold year_ok in Hyear. apply andb_true_iff in Hyear as [Hl1%Z.eqb_eq Hl2%Z.eqb_eq].
  assert (0 <= leap_day (yoe + 1) <= 1) by (unfold leap_day; destruct (leap _); lia).
  set (doy := doe - (365 * yoe + yoe / 4 - yoe / 100)). assert (0 <= doy <= 364 + leap_day (yoe + 1)) as Hdoy by lia.
  pose proof (months_ok doy ltac:(lia)) as Hm. unfold month_ok in Hm. cbv zeta in Hm.
  set (mp := (5 * doy + 2) / 153) in *. set (m := if mp <? 10 then mp + 3 else mp - 9) in *.
  set (d := doy - (153 * mp + 2) / 5 + 1) in *. rewrite !andb_true_iff, !Z.leb_le, Z.eqb_eq in Hm. destruct Hm as [[[[Hm1 Hm2] Hd1] Hn] Hd2].
  assert (yoe / 400 = 0) as H400 by (apply Z.div_small; lia).
  assert (m <= 2 <-> 306 <= doy) as Hmarch
    by (unfold m, mp in *; destruct (Z.ltb_spec ((5 * doy + 2) / 153) 10); Z.to_euclidean_division_equations; lia).
  eexists _, m, d. split; [reflexivity|]. rewrite Z.mul_0_l, Z.add_0_r. unfold day_number, days_before_month, year_start. fold day_table.
  destruct (Z.leb_spec m 2) as [Hs|Hs].
  - replace (yoe + 1 - 1) with yoe by lia. rewrite (proj2 (Z.ltb_ge 2 m)) by lia. rewrite H400.
    split; [lia|]. split; [lia|]. split; [|clear - Hmarch Hs Hy Hdoy; subst doy; split_and!; try lia; intros ?;
      Z.to_euclidean_division_equations; lia]. split; [lia|]. unfold month_length.
    destruct (m =? 2); [|exact Hd2]. destruct (Z.eqb_spec doy 365); [|destruct (leap (yoe + 1)); lia].
    unfold leap_day in Hdoy. destruct (leap (yoe + 1)); lia.
  - rewrite Z.add_0_r, (proj2 (Z.ltb_lt 2 m)) by lia. unfold leap_day in Hl1. split; [lia|]. split; [lia|].
    split; [|clear - Hmarch Hs Hy Hdoy; subst doy; split_and!; try lia; intros ?; Z.to_euclidean_division_equations; lia].
    split; [lia|]. unfold month_length. by rewrite (proj2 (Z.eqb_neq m 2)) in Hd2 |- * by lia.
Qed.

Lemma leap_period y e : leap (y + 400 * e) = leap y.
Proof.
  unfold leap. assert ((y + 400 * e) mod 4 = y mod 4) as -> by (rewrite <- (Z.mod_add y (100 * e)) by lia; f_equal; lia).
  assert ((y + 400 * e) mod 100 = y mod 100) as -> by (rewrite <- (Z.mod_add y (4 * e)) by lia; f_equal; lia).
  assert ((y + 400 * e) mod 400 = y mod 400) as -> by (rewrite <- (Z.mod_add y e) by lia; f_equal; lia). done.
Qed.

Lemma month_length_period y e m : month_length (y + 400 * e) m = month_length y m.
Proof. unfold month_length. by rewrite leap_period. Qed.

Lemma year_start_period y e : year_start (y + 400 * e) = year_start y + 146097 * e.
Proof.
  unfold year_start. replace (y + 400 * e - 1) with (y - 1 + 400 * e) by lia.
  assert ((y - 1 + 400 * e) / 4 = (y - 1) / 4 + 100 * e) as -> by (rewrite <- Z.div_add by lia; f_equal; lia).
  assert ((y - 1 + 400 * e) / 100 = (y - 1) / 100 + 4 * e) as -> by (rewrite <- Z.div_add by lia; f_equal; lia).
  assert ((y - 1 + 400 * e) / 400 = (y - 1) / 400 + e) as -> by (rewrite <- Z.div_add by lia; f_equal; lia). lia.
Qed.

Lemma day_number_period y e m d : day_number (y + 400 * e) m d = day_number y m d + 146097 * e.
Proof.
  unfold day_number. rewrite year_start_period.
  assert (days_before_month (y + 400 * e) m = days_before_month y m) as ->; [|lia].
  unfold days_before_month. by rewrite leap_period.
Qed.

Lemma civil_of_day_period day e : civil_of_day (day + 146097 * e)
  = (let '(y, m, d) := civil_of_day day in (y + 400 * e, m, d)).
Proof.
  unfold civil_of_day. replace (day + 146097 * e + 719468) with (day + 719468 + e * 146097) by lia.
  rewrite Z.mod_add, Z.div_add by lia. cbv zeta. do 2 f_equal. lia.
Qed.

(** The date of a day in the range of [datetime]. *)
Lemma civil_of_day_spec day : dt_min / MICROS_PER_DAY <= day <= dt_max / MICROS_PER_DAY ->
  exists y m d, civil_of_day day = (y, m, d) /\ day_number y m d = day /\ valid_date y m d = true.
Proof.
  intros H. change (dt_min / MICROS_PER_DAY) with (-719162) in H. change (dt_max / MICROS_PER_DAY) with 2932896 in H.
  set (z := day + 719468). set (e := z / 146097). set (doe := z mod 146097).
  pose proof (Z.div_mod z 146097 ltac:(lia)) as Hz. pose proof (Z.mod_pos_bound z 146097 ltac:(lia)) as Hdoe. fold e doe in Hz, Hdoe.
  assert (0 <= e <= 24) as He by lia.
  replace day with (doe - 719468 + 146097 * e) by lia. rewrite civil_of_day_period.
  destruct (civil_period doe Hdoe) as (y & m & d & -> & Hn & Hm & Hd & Hy & Hy1 & Hy2).
  exists (y + 400 * e), m, d. split; [done|]. split; [rewrite day_number_period; lia|].
  unfold valid_date. rewrite month_length_period. rewrite !andb_true_iff, !Z.leb_le.
  assert (e = 0 \/ 1 <= e) as [He0|He1] by lia; [|]; split_and!; try lia.
Qed.

(** ** What [isoformat] writes denotes its instant *)

Lemma read_number w n l : 0 <= n < 10 ^ Z.of_nat w -> read_digits w 0 (chars (fixed w n) ++ l) = Some (n, l).
Proof. intros H. rewrite chars_fixed, read_fixed by done. by rewrite Z.mul_0_l. Qed.

Lemma read_sign c l : read_char c (c :: l) = Some l.
Proof. cbn. by rewrite Ascii.eqb_refl. Qed.

(** A number and the sign after it. *)
Lemma read_field {A} w n c l (f : Z -> list Ascii.ascii -> option A) : 0 <= n < 10 ^ Z.of_nat w ->
  (x ← read_digits w 0 (chars (fixed w n) ++ c :: l); l' ← read_char c x.2; f x.1 l') = f n l.
Proof. intros H. rewrite read_number by done. cbn [mbind option_bind fst snd]. by rewrite read_sign. Qed.

Lemma read_micros_back us l : 0 <= us < 1000000 -> (forall c l', l = c :: l' -> c <> "."%char) ->
  read_micros (chars (iso_micros us) ++ l) = Some (us, l).
Proof.
  intros H Hl. unfold iso_micros, read_micros. destruct (Z.eqb_spec us 0) as [->|Hne].
  - change (chars "" ++ l) with l. assert (read_char "." l = None) as ->; [|done].
    destruct l as [|c l]; [done|]. cbn. destruct (Ascii.eqb_spec c "."); [by destruct (Hl c l)|done].
  - rewrite chars_append, <- app_assoc. cbn [chars String.list_ascii_of_string app]. rewrite read_sign. by apply read_number.
Qed.

(** An offset in whole minutes, of less than a day. *)
Definition offset_ok (offset : Z) : Prop := Z.abs offset < MICROS_PER_DAY /\ offset mod 60000000 = 0.

Lemma read_offset_back offset : offset_ok offset -> read_offset (chars (iso_offset offset)) = Some offset.
Proof.
  unfold offset_ok, MICROS_PER_DAY. intros [Hlt Hmod]. unfold iso_offset.
  assert (Z.abs offset mod 60000000 = 0) as Habs by (Z.to_euclidean_division_equations; lia).
  rewrite Habs. set (h := Z.abs offset / 3600000000). set (m := Z.abs offset / 60000000 mod 60).
  assert (0 <= h < 24 /\ 0 <= m < 60 /\ (h * 60 + m) * 60000000 = Z.abs offset) as (Hh & Hm & E)
    by (unfold h, m; Z.to_euclidean_division_equations; lia).
  rewrite !chars_append, app_nil_r. change (chars (if 0 =? 0 then "" else _)) with (@nil Ascii.ascii). rewrite ?app_nil_r.
  assert (forall sign, (sign = "+" \/ sign = "-")%char -> read_offset (sign :: chars (fixed 2 h) ++ ":"%char :: chars (fixed 2 m))
    = Some (if Ascii.eqb sign "+" then (h * 60 + m) * 60000000 else - ((h * 60 + m) * 60000000))) as Hr.
  { intros sign Hsign. pose proof (read_number 2 m [] ltac:(cbn; lia)) as Hmm. rewrite app_nil_r in Hmm.
    assert (read_offset (sign :: chars (fixed 2 h) ++ ":"%char :: chars (fixed 2 m))
      = (hl ← read_digits 2 0 (chars (fixed 2 h) ++ ":"%char :: chars (fixed 2 m)); l ← read_char ":" hl.2; ml ← read_digits 2 0 l;
         if (hl.1 <? 24) && (ml.1 <? 60) && bool_decide (ml.2 = []) then
           if Ascii.eqb sign "+" then Some ((hl.1 * 60 + ml.1) * 60000000)
           else if Ascii.eqb sign "-" then Some (- ((hl.1 * 60 + ml.1) * 60000000)) else None
         else None)) as -> by (destruct Hsign as [-> | ->]; reflexivity).
    rewrite (read_field 2 h ":" (chars (fixed 2 m)) (fun hh l => ml ← read_digits 2 0 l;
         if (hh <? 24) && (ml.1 <? 60) && bool_decide (ml.2 = []) then
           if Ascii.eqb sign "+" then Some ((hh * 60 + ml.1) * 60000000)
           else if Ascii.eqb sign "-" then Some (- ((hh * 60 + ml.1) * 60000000)) else None
         else None)) by (cbn; lia).
    rewrite Hmm. cbn [mbind option_bind fst snd]. rewrite (proj2 (Z.ltb_lt h 24)), (proj2 (Z.ltb_lt m 60)) by lia.
    by destruct Hsign as [-> | ->]. }
  destruct (Z.ltb_spec offset 0).
  - etransitivity; [apply (Hr "-"%char); by right|]. f_equal. change (Ascii.eqb "-" "+") with false. cbv iota. lia.
  - etransitivity; [apply (Hr "+"%char); by left|]. f_equal. change (Ascii.eqb "+" "+") with true. cbv iota. lia.
Qed.

Lemma offset_begins offset : exists c l, chars (iso_offset offset) = c :: l /\ c <> "."%char.
Proof. unfold iso_offset. destruct (offset <? 0); rewrite chars_append; cbn; by eexists _, _. Qed.

(** The text of an aware datetime in the range of Python, whose offset is in
    whole minutes, denotes its instant. *)
Lemma isoformat_denotes wall offset : dt_min <= wall <= dt_max -> offset_ok offset ->
  iso_instant (isoformat (Datetime wall (Some offset))) = Some (wall - offset).
Proof.
  intros Hw Ho. unfold isoformat. cbn [dt_wall dt_offset].
  destruct (civil_of_day_spec (wall / MICROS_PER_DAY)) as (y & m & d & -> & Hday & Hv);
    [split; apply Z.div_le_mono; first [done|lia]|].
  set (t := wall mod MICROS_PER_DAY). assert (0 <= t < MICROS_PER_DAY) as Ht by (apply Z.mod_pos_bound; done).
  assert (wall = wall / MICROS_PER_DAY * MICROS_PER_DAY + t) as Ewall by (rewrite Z.mul_comm; by apply Z.div_mod).
  unfold iso_instant, iso_time. set (h := t / 3600000000). set (mi := t / 60000000 mod 60). set (s := t / 1000000 mod 60). set (us := t mod 1000000).
  assert (0 <= h < 24 /\ 0 <= mi < 60 /\ 0 <= s < 60 /\ 0 <= us < 1000000 /\ ((h * 60 + mi) * 60 + s) * 1000000 + us = t)
    as (Hh & Hmi & Hs & Hus & Etime).
  { unfold MICROS_PER_DAY in Ht. unfold h, mi, s, us. clearbody t. clear -Ht. Z.to_euclidean_division_equations; lia. }
  pose proof Hv as Hv'. unfold valid_date in Hv'. rewrite !andb_true_iff, !Z.leb_le in Hv'. destruct Hv' as [[[[[? ?] ?] ?] ?] Hml].
  assert (month_length y m <= 31) by (unfold month_length; destruct (m =? 2), (leap y), ((m =? 4) || (m =? 6) || (m =? 9) || (m =? 11)); lia).
  rewrite !chars_append, <- !app_assoc. cbn [chars String.list_ascii_of_string app].
  do 5 (rewrite read_number by (cbn; lia); cbn [mbind option_bind fst snd]; rewrite read_sign; cbn [mbind option_bind]).
  rewrite read_number by (cbn; lia). cbn [mbind option_bind fst snd].
  destruct (offset_begins offset) as (c & l & El & Hc). rewrite read_micros_back; [|done|intros ? ? E; congruence].
  cbn [mbind option_bind fst snd]. rewrite read_offset_back by done. cbn [mbind option_bind].
  rewrite Hv, (proj2 (Z.ltb_lt h 24)), (proj2 (Z.ltb_lt mi 60)), (proj2 (Z.ltb_lt s 60)) by lia. cbn [andb]. f_equal. lia.
Qed.
