(* ===== verification/ObservationWire.v ===== *)
(** * Observations on the wire

    What [observability/observer.py] sends and what the request models of
    [control_plane/run_api.py] read: the [to_payload] methods, the client
    [HttpObservationTransport], and the reading of a JSON body into the raw
    requests that [ObservedRuns.v] validates.  The HTTP exchange and the
    conversions of Pydantic are arguments; the laws say what Pydantic documents
    for values that already have the type of their field. *)
From S2P Require Import Prelude Effects Collections PyFloat PyData Bytes Base64 RunModel Timeline TypedTimeline ObservedRuns Observer IsoTime.

Open Scope Z_scope.

(** ** The payloads *)

Definition _timestamp (value : datetime) : string :=
  isoformat match dt_offset value with None => utc_datetime (dt_wall value) | Some _ => value end.

Definition json_of {A} (f : A -> json) (v : option A) : json := match v with None => JNull | Some x => f x end.

Definition metric_to_payload (m : MetricPoint) : json :=
  JObj [("stage", json_of JStr (mp_stage m)); ("name", JStr (mp_name m)); ("value", JFloat (mp_value m));
        ("ts", JStr (_timestamp (mp_ts m)))].
Definition chunk_to_payload (c : AudioChunk) : json :=
  JObj [("stage", JStr (ac_stage c)); ("pcm_s16le_base64", JStr (str (b64encode (ac_pcm_s16le c))));
        ("sample_rate_hz", JInt (ac_sample_rate_hz c)); ("channels", JInt (ac_channels c));
        ("ts", JStr (_timestamp (ac_ts c)))].
Definition sip_to_payload (e : SipEvent) : json :=
  JObj [("call_id", json_of JStr (se_call_id e)); ("method", JStr (se_method e)); ("direction", JStr (se_direction e));
        ("ts", JStr (_timestamp (se_ts e))); ("status_code", json_of JInt (se_status_code e));
        ("summary_alias", json_of JStr (se_summary_alias e))].
Definition rtp_to_payload (s : RtpStats) : json :=
  JObj [("ts", JStr (_timestamp (rs_ts s))); ("jitter_ms", json_of JFloat (rs_jitter_ms s));
        ("loss_pct", json_of JFloat (rs_loss_pct s)); ("mos", json_of JFloat (rs_mos s));
        ("direction", json_of JStr (rs_direction s)); ("rtt_ms", json_of JFloat (rs_rtt_ms s))].
Definition event_to_payload (e : TimelineEvent) : json :=
  JObj [("event_id", JStr (te_event_id e)); ("category", JStr (te_category e)); ("name", JStr (te_name e));
        ("ts", JStr (_timestamp (te_ts e))); ("clock_domain", JStr (te_clock_domain e));
        ("alignment_uncertainty_ms", json_of JFloat (te_alignment_uncertainty_ms e));
        ("direction", json_of JStr (te_direction e)); ("stage", json_of JStr (te_stage e));
        ("stream_alias", json_of JStr (te_stream_alias e)); ("source", JStr (te_source e));
        ("correlation_alias", json_of JStr (te_correlation_alias e)); ("attributes", JObj (te_attributes e))].
Definition batch_to_payload (run_id : string) (b : Observations) : jdict :=
  [("run_id", JStr run_id); ("metrics", JArr (map metric_to_payload (Observer.metrics b)));
   ("audio_chunks", JArr (map chunk_to_payload (audio_chunks b)));
   ("sip_events", JArr (map sip_to_payload (Observer.sip_events b)));
   ("rtp_stats", JArr (map rtp_to_payload (Observer.rtp_stats b)));
   ("timeline_events", JArr (map event_to_payload (Observer.timeline_events b)))].

(** ** The client *)

(** What an HTTP request ends with: the body of the answer as [json.loads]
    reads it ([None] when it is no JSON), [HTTPError], [URLError], or an
    exception the client does not expect, such as a time-out while reading. *)
Inductive http_answer :=
  | Answered (body : option json)
  | HttpFailed (status : Z) (detail : string)
  | UrlFailed (reason : string)
  | HttpRaised (cls : exn_class) (message : string).

Record HttpObservationTransport := MkTransport { base_url : string; timeout_seconds : float }.

Definition slash : Ascii.ascii := "/".
Definition new_transport (url : string) (timeout : float) : HttpObservationTransport :=
  MkTransport (str (rstrip_by (Ascii.eqb slash) (chars url))) timeout.

Section client.
(** [urlopen] with the method, the URL, the JSON body and the timeout. *)
Context (urlopen : string -> string -> jdict -> float -> http_answer) (t : HttpObservationTransport).

Definition _request (method path : string) (payload : jdict) : result jdict :=
  match urlopen method (base_url t +:+ path) payload (timeout_seconds t) with
  | Answered (Some (JObj result_)) => Ok result_
  | Answered (Some _) => Raise RuntimeError "VoxBench Control Plane returned a non-object response"
  | Answered None => Raise ValueError "Expecting value"
  | HttpFailed status detail =>
      Raise RuntimeError ("VoxBench request failed with HTTP " +:+ int_str status +:+ ": " +:+ detail)
  | UrlFailed reason => Raise RuntimeError ("VoxBench Control Plane is unavailable: " +:+ reason)
  | HttpRaised cls message => Raise cls message
  end.

Definition start_run (run_payload : jdict) : result jdict := _request "POST" "/runs/observed" run_payload.
Definition send (run_id : string) (b : Observations) : result unit :=
  _ ← _request "POST" "/v1/observations" (batch_to_payload run_id b); Ok tt.
Definition complete_run (run_id : string) : result jdict :=
  _request "POST" ("/runs/" +:+ run_id +:+ "/complete") [].
Definition fail_run (run_id failure_alias : string) : result jdict :=
  _request "POST" ("/runs/" +:+ run_id +:+ "/fail") [("failure_alias", JStr failure_alias)].
End client.

(** ** Reading a request *)

(** The conversions of a Pydantic model in its default mode. *)
Class Pydantic := MkPydantic {
  as_text : json -> result string; as_number : json -> result float; as_integer : json -> result Z;
  as_datetime : json -> result instant }.

Definition model_fields (names : list string) (v : json) : result jdict :=
  match v with
  | JObj d =>
      _ ← guard_else (forallb (fun k => bool_decide (k ∈ names)) (dict_keys d)) ValueError "Extra inputs are not permitted";
      Ok d
  | _ => Raise ValueError "Input should be a valid dictionary or object"
  end.

Definition required {A} (read : json -> result A) (name : string) (d : jdict) : result A :=
  v ← from_option_err (jget name d) ValueError "Field required"; read v.
Definition defaulted {A} (read : json -> result A) (dflt : A) (name : string) (d : jdict) : result A :=
  match jget name d with None => Ok dflt | Some v => read v end.
Definition nullable {A} (read : json -> result A) (v : json) : result (option A) :=
  match v with JNull => Ok None | v => Some <$> read v end.
Definition as_list {A} (read : json -> result A) (v : json) : result (list A) :=
  match v with JArr l => mapM_res read l | _ => Raise ValueError "Input should be a valid list" end.
(** [dict[str, str | int | float | bool | None]]: the members keep their type. *)
Definition as_dict (v : json) : result jdict :=
  match v with JObj d => Ok d | _ => Raise ValueError "Input should be a valid dictionary" end.

Section reading.
Context `{Pydantic} (now : instant).

Definition metric_request (v : json) : result MetricObservationRequest :=
  d ← model_fields ["stage"; "name"; "value"; "ts"] v;
  stage ← defaulted (nullable as_text) None "stage" d;
  name ← required as_text "name" d;
  value ← required as_number "value" d;
  ts ← defaulted as_datetime now "ts" d;
  Ok (MkMetricObservation stage name value ts).

Definition chunk_request (v : json) : result AudioChunkObservationRequest :=
  d ← model_fields ["stage"; "pcm_s16le_base64"; "sample_rate_hz"; "channels"; "ts"] v;
  stage ← required as_text "stage" d;
  audio ← required as_text "pcm_s16le_base64" d;
  rate ← required as_integer "sample_rate_hz" d;
  channels ← defaulted as_integer 1 "channels" d;
  ts ← defaulted as_datetime now "ts" d;
  Ok (MkAudioChunkObservation stage audio rate channels ts).

Definition sip_request (v : json) : result SipEventObservationRequest :=
  d ← model_fields ["call_id"; "method"; "direction"; "ts"; "status_code"; "summary_alias"] v;
  call ← defaulted (nullable as_text) None "call_id" d;
  method ← required as_text "method" d;
  direction ← required as_text "direction" d;
  ts ← defaulted as_datetime now "ts" d;
  status ← defaulted (nullable as_integer) None "status_code" d;
  alias ← defaulted (nullable as_text) None "summary_alias" d;
  Ok (MkSipObservation call method direction ts status alias).

Definition rtp_request (v : json) : result RtpStatObservationRequest :=
  d ← model_fields ["ts"; "jitter_ms"; "loss_pct"; "mos"; "direction"; "rtt_ms"] v;
  ts ← defaulted as_datetime now "ts" d;
  jitter ← defaulted (nullable as_number) None "jitter_ms" d;
  loss ← defaulted (nullable as_number) None "loss_pct" d;
  mos ← defaulted (nullable as_number) None "mos" d;
  direction ← defaulted (nullable as_text) None "direction" d;
  rtt ← defaulted (nullable as_number) None "rtt_ms" d;
  Ok (MkRtpObservation ts jitter loss mos direction rtt).

Definition event_request (v : json) : result TimelineEventObservationRequest :=
  d ← model_fields ["event_id"; "category"; "name"; "ts"; "clock_domain"; "alignment_uncertainty_ms"; "direction";
                    "stage"; "stream_alias"; "source"; "correlation_alias"; "attributes"] v;
  event_id ← required as_text "event_id" d;
  category ← required as_text "category" d;
  name ← required as_text "name" d;
  ts ← defaulted as_datetime now "ts" d;
  clock ← defaulted as_text "control_plane_wall" "clock_domain" d;
  uncertainty ← defaulted (nullable as_number) None "alignment_uncertainty_ms" d;
  direction ← defaulted (nullable as_text) None "direction" d;
  stage ← defaulted (nullable as_text) None "stage" d;
  stream ← defaulted (nullable as_text) None "stream_alias" d;
  source ← required as_text "source" d;
  correlation ← defaulted (nullable as_text) None "correlation_alias" d;
  attributes ← defaulted as_dict [] "attributes" d;
  Ok (MkEventObservation event_id category name ts clock uncertainty direction stage stream source correlation attributes).

Definition batch_request (v : json) : result ObservationBatchRequest :=
  d ← model_fields ["run_id"; "metrics"; "audio_chunks"; "sip_events"; "rtp_stats"; "timeline_events"] v;
  run ← required as_text "run_id" d;
  metrics ← defaulted (as_list metric_request) [] "metrics" d;
  chunks ← defaulted (as_list chunk_request) [] "audio_chunks" d;
  sip ← defaulted (as_list sip_request) [] "sip_events" d;
  rtp ← defaulted (as_list rtp_request) [] "rtp_stats" d;
  events ← defaulted (as_list event_request) [] "timeline_events" d;
  Ok (MkBatch run metrics chunks sip rtp events).

(** The request a body is ingested as. *)
Definition read_batch (body : json) : result ObservationBatchRequest := raw ← batch_request body; validate_batch raw.

(** The body of [POST /runs/{run_id}/fail]. *)
Definition failure_request (body : json) : result string :=
  d ← model_fields ["failure_alias"] body;
  alias ← required as_text "failure_alias" d;
  reference_field 1 128 "failure_alias" alias.
End reading.

(** ** Observations the API takes

    Every text is one the API keeps as it is, every number is in its range. *)

Definition reference_ok (s : string) : bool :=
  String.eqb (strip s) s && negb (existsb (contains (lower s)) SENSITIVE_TEXT_MARKERS).
Definition sized (hi : Z) (s : string) : bool := reference_ok s && (1 <=? strlen s) && (strlen s <=? hi).
Definition opt_ok {A} (p : A -> bool) (v : option A) : bool := match v with None => true | Some x => p x end.
Definition measured (hi : option float) (x : float) : bool :=
  is_finite x && fleb fzero x && match hi with Some h => fleb x h | None => true end.

Definition metric_ok (m : MetricPoint) : bool :=
  opt_ok reference_ok (mp_stage m) && reference_ok (mp_name m) && is_finite (mp_value m).
Definition rate_ok (rate : Z) : bool := (8000 <=? rate) && (rate <=? 48000).
Definition chunk_ok (c : AudioChunk) : bool :=
  reference_ok (ac_stage c) && (len (ac_pcm_s16le c) <=? 1050000) && rate_ok (ac_sample_rate_hz c)
  && ((1 <=? ac_channels c) && (ac_channels c <=? 2))
  && negb (bool_decide (ac_pcm_s16le c = [])) && (len (ac_pcm_s16le c) mod (2 * ac_channels c) =? 0).
Definition sip_ok (e : SipEvent) : bool :=
  opt_ok reference_ok (se_call_id e) && reference_ok (se_method e) && bool_decide (se_direction e ∈ ["in"; "out"])
  && opt_ok reference_ok (se_summary_alias e).
Definition rtp_ok (s : RtpStats) : bool :=
  opt_ok (measured None) (rs_jitter_ms s) && opt_ok (measured (Some (fz 100))) (rs_loss_pct s)
  && opt_ok (measured (Some (fz 5))) (rs_mos s) && opt_ok (fun d => bool_decide (d ∈ ["received"; "sent"])) (rs_direction s)
  && opt_ok (measured None) (rs_rtt_ms s).
Definition attribute_ok (kv : string * json) : bool :=
  sized 64 kv.1 && attribute_type kv.2
  && match kv.2 with JStr s => reference_ok s && (strlen s <=? 256) | _ => true end.
Definition attributes_ok (d : jdict) : bool :=
  forallb attribute_ok d && (len d <=? 16) && bool_decide (NoDup (dict_keys d)).
Definition event_ok (e : TimelineEvent) : bool :=
  sized 128 (te_event_id e) && bool_decide (te_category e ∈ TIMELINE_CATEGORIES) && sized 128 (te_name e)
  && sized 64 (te_clock_domain e) && opt_ok (measured None) (te_alignment_uncertainty_ms e)
  && opt_ok (sized 32) (te_direction e) && opt_ok (sized 255) (te_stage e) && opt_ok (sized 128) (te_stream_alias e)
  && sized 128 (te_source e) && opt_ok (sized 128) (te_correlation_alias e) && attributes_ok (te_attributes e).

Record sendable (b : Observations) : Prop := {
  sendable_metrics : Forall (fun m => metric_ok m = true) (Observer.metrics b);
  sendable_chunks : Forall (fun c => chunk_ok c = true) (audio_chunks b);
  sendable_sip : Forall (fun e => sip_ok e = true) (Observer.sip_events b);
  sendable_rtp : Forall (fun s => rtp_ok s = true) (Observer.rtp_stats b);
  sendable_events : Forall (fun e => event_ok e = true) (Observer.timeline_events b) }.

(** The request an observation is read as, its time being [at_]. *)
Section requests.
Context (at_ : datetime -> instant).
Definition metric_sent (m : MetricPoint) := MkMetricObservation (mp_stage m) (mp_name m) (mp_value m) (at_ (mp_ts m)).
Definition chunk_sent (c : AudioChunk) :=
  MkAudioChunkObservation (ac_stage c) (str (b64encode (ac_pcm_s16le c))) (ac_sample_rate_hz c) (ac_channels c) (at_ (ac_ts c)).
Definition sip_sent (e : SipEvent) :=
  MkSipObservation (se_call_id e) (se_method e) (se_direction e) (at_ (se_ts e)) (se_status_code e) (se_summary_alias e).
Definition rtp_sent (s : RtpStats) :=
  MkRtpObservation (at_ (rs_ts s)) (rs_jitter_ms s) (rs_loss_pct s) (rs_mos s) (rs_direction s) (rs_rtt_ms s).
Definition event_sent (e : TimelineEvent) :=
  MkEventObservation (te_event_id e) (te_category e) (te_name e) (at_ (te_ts e)) (te_clock_domain e)
    (te_alignment_uncertainty_ms e) (te_direction e) (te_stage e) (te_stream_alias e) (te_source e)
    (te_correlation_alias e) (te_attributes e).
Definition batch_sent (run_id : string) (b : Observations) : ObservationBatchRequest :=
  MkBatch run_id (map metric_sent (Observer.metrics b)) (map chunk_sent (audio_chunks b))
    (map sip_sent (Observer.sip_events b)) (map rtp_sent (Observer.rtp_stats b)) (map event_sent (Observer.timeline_events b)).
End requests.

(** The times of observations. *)
Definition times (b : Observations) : list datetime :=
  map mp_ts (Observer.metrics b) ++ map ac_ts (audio_chunks b) ++ map se_ts (Observer.sip_events b)
  ++ map rs_ts (Observer.rtp_stats b) ++ map te_ts (Observer.timeline_events b).

(** ** Reading what was sent *)

(** Pydantic keeps a value that has the type of its field. *)
Class PydanticLaws (P : Pydantic) := {
  text_kept s : as_text (JStr s) = Ok s;
  number_kept x : as_number (JFloat x) = Ok x;
  integer_kept z : as_integer (JInt z) = Ok z }.

(** It reads the timestamp of RFC 3339 of an instant that Python can represent
    as that instant. *)
Class PydanticTimes (P : Pydantic) := {
  datetime_read text t : iso_instant text = Some t -> dt_min <= t <= dt_max -> as_datetime (JStr text) = Ok t }.

(** The instant of an observation's time, a time without an offset being one
    of UTC, and the times a timestamp keeps: those in the range of Python with
    an offset in whole minutes. *)
Definition instant_of (d : datetime) : instant := dt_wall d - default 0 (dt_offset d).
Definition time_ok (d : datetime) : Prop :=
  dt_min <= dt_wall d <= dt_max /\ dt_min <= instant_of d <= dt_max /\ offset_ok (default 0 (dt_offset d)).

Lemma _timestamp_denotes d : time_ok d -> iso_instant (_timestamp d) = Some (instant_of d).
Proof.
  destruct d as [wall [offset|]]; unfold time_ok, instant_of, _timestamp, utc_datetime; cbn [dt_wall dt_offset default from_option];
    intros (Hw & _ & Ho); by apply isoformat_denotes.
Qed.

Section contract.
Context `{P : Pydantic, !PydanticLaws P} (now : instant) (at_ : datetime -> instant).

Definition time_read (d : datetime) : Prop := as_datetime (JStr (_timestamp d)) = Ok (at_ d).

Ltac read_payload Ht :=
  lazy -[as_text as_number as_integer as_datetime b64encode str];
  repeat (progress (rewrite ?text_kept, ?number_kept, ?integer_kept, ?Ht); lazy beta iota); reflexivity.

Lemma metric_read m : time_read (mp_ts m) -> metric_request now (metric_to_payload m) = Ok (metric_sent at_ m).
Proof.
  destruct m as [name value stage ts]. unfold time_read, metric_sent, metric_to_payload. cbn [mp_name mp_value mp_stage mp_ts].
  generalize (_timestamp ts). intros t Ht. destruct stage; read_payload Ht.
Qed.

Lemma chunk_read c : time_read (ac_ts c) -> chunk_request now (chunk_to_payload c) = Ok (chunk_sent at_ c).
Proof.
  destruct c as [stage pcm rate channels ts]. unfold time_read, chunk_sent, chunk_to_payload.
  cbn [ac_stage ac_pcm_s16le ac_sample_rate_hz ac_channels ac_ts]. generalize (_timestamp ts) (str (b64encode pcm)).
  intros t audio Ht. read_payload Ht.
Qed.

Lemma sip_read e : time_read (se_ts e) -> sip_request now (sip_to_payload e) = Ok (sip_sent at_ e).
Proof.
  destruct e as [method direction call status alias ts]. unfold time_read, sip_sent, sip_to_payload.
  cbn [se_method se_direction se_call_id se_status_code se_summary_alias se_ts]. generalize (_timestamp ts). intros t Ht.
  destruct call, status, alias; read_payload Ht.
Qed.

Lemma rtp_read s : time_read (rs_ts s) -> rtp_request now (rtp_to_payload s) = Ok (rtp_sent at_ s).
Proof.
  destruct s as [jitter loss mos direction rtt ts]. unfold time_read, rtp_sent, rtp_to_payload.
  cbn [rs_jitter_ms rs_loss_pct rs_mos rs_direction rs_rtt_ms rs_ts]. generalize (_timestamp ts). intros t Ht.
  destruct jitter, loss, mos, direction, rtt; read_payload Ht.
Qed.

Lemma event_read e : time_read (te_ts e) -> event_request now (event_to_payload e) = Ok (event_sent at_ e).
Proof.
  destruct e as [id category name source correlation clock uncertainty direction stage stream attributes ts].
  unfold time_read, event_sent, event_to_payload.
  cbn [te_event_id te_category te_name te_source te_correlation_alias te_clock_domain te_alignment_uncertainty_ms te_direction
       te_stage te_stream_alias te_attributes te_ts]. generalize (_timestamp ts). intros t Ht.
  destruct correlation, uncertainty, direction, stage, stream; read_payload Ht.
Qed.

Lemma list_read {A B C} (f : A -> json) (g : A -> C) (ts : A -> datetime) (read : json -> result C) l (unit_ : B) :
  (forall x, time_read (ts x) -> read (f x) = Ok (g x)) -> Forall time_read (map ts l) ->
  as_list read (JArr (map f l)) = Ok (map g l).
Proof.
  intros Hf Ht. cbn [as_list]. apply mapM_res_ok. induction l as [|x l IH]; cbn; [constructor|].
  apply Forall_cons in Ht as [Hx Ht]. constructor; auto.
Qed.

(** What the API reads is what was sent. *)
Lemma batch_read run_id b : Forall time_read (times b) ->
  batch_request now (JObj (batch_to_payload run_id b)) = Ok (batch_sent at_ run_id b).
Proof.
  unfold times. rewrite !Forall_app. intros (Hm & Hc & Hs & Hr & He). unfold batch_to_payload, batch_sent.
  pose proof (list_read metric_to_payload (metric_sent at_) mp_ts (metric_request now) _ tt metric_read Hm) as Em.
  pose proof (list_read chunk_to_payload (chunk_sent at_) ac_ts (chunk_request now) _ tt chunk_read Hc) as Ec.
  pose proof (list_read sip_to_payload (sip_sent at_) se_ts (sip_request now) _ tt sip_read Hs) as Es.
  pose proof (list_read rtp_to_payload (rtp_sent at_) rs_ts (rtp_request now) _ tt rtp_read Hr) as Er.
  pose proof (list_read event_to_payload (event_sent at_) te_ts (event_request now) _ tt event_read He) as Ee.
  revert Em Ec Es Er Ee.
  generalize (JArr (map metric_to_payload (Observer.metrics b))) (JArr (map chunk_to_payload (audio_chunks b)))
    (JArr (map sip_to_payload (Observer.sip_events b))) (JArr (map rtp_to_payload (Observer.rtp_stats b)))
    (JArr (map event_to_payload (Observer.timeline_events b))).
  intros jm jc js jr je Em Ec Es Er Ee. unfold batch_request.
  change (model_fields _ _) with (Ok [("run_id", JStr run_id); ("metrics", jm); ("audio_chunks", jc); ("sip_events", js);
    ("rtp_stats", jr); ("timeline_events", je)]).
  cbn [mbind result_bind]. change (required as_text "run_id" _) with (as_text (JStr run_id)). rewrite text_kept. cbn [mbind result_bind].
  change (defaulted (as_list (metric_request now)) [] "metrics" _) with (as_list (metric_request now) jm).
  change (defaulted (as_list (chunk_request now)) [] "audio_chunks" _) with (as_list (chunk_request now) jc).
  change (defaulted (as_list (sip_request now)) [] "sip_events" _) with (as_list (sip_request now) js).
  change (defaulted (as_list (rtp_request now)) [] "rtp_stats" _) with (as_list (rtp_request now) jr).
  change (defaulted (as_list (event_request now)) [] "timeline_events" _) with (as_list (event_request now) je).
  by rewrite Em, Ec, Es, Er, Ee.
Qed.
End contract.

(** ** Validation keeps sendable observations *)

Lemma reference_kept s field : reference_ok s = true -> _validate_reference_text s field = Ok s.
Proof.
  unfold reference_ok, _validate_reference_text. intros [E%String.eqb_eq Hm]%andb_true_iff. rewrite E.
  apply negb_true_iff in Hm. by rewrite Hm.
Qed.

Lemma optional_kept v field : opt_ok reference_ok v = true -> validate_optional v field = Ok v.
Proof. destruct v as [s|]; cbn; [|done]. intros Hs. by rewrite (reference_kept s field Hs). Qed.

Lemma sized_kept hi s field : sized hi s = true -> reference_field 1 hi field s = Ok s.
Proof.
  unfold sized, reference_field, bounded. intros [[Hr Hl]%andb_true_iff Hh]%andb_true_iff. rewrite Hl, Hh. by apply reference_kept.
Qed.

Lemma opt_kept {A} (p : A -> bool) (read : A -> result A) v : (forall x, p x = true -> read x = Ok x) ->
  opt_ok p v = true -> optional_field read v = Ok v.
Proof. intros Hp. destruct v as [x|]; cbn; [|done]. intros Hx. by rewrite (Hp x Hx). Qed.

Lemma measured_kept hi field x : measured hi x = true -> float_field fzero hi field x = Ok x.
Proof. unfold measured, float_field. by intros ->. Qed.

Lemma literal_kept l field x : bool_decide (x ∈ l) = true -> literal_field l field x = Ok x.
Proof. unfold literal_field. by intros ->. Qed.

Lemma measured_opt hi field v : opt_ok (measured hi) v = true -> optional_field (float_field fzero hi field) v = Ok v.
Proof. apply opt_kept. intros x. apply measured_kept. Qed.

Lemma literal_opt l field v : opt_ok (fun d => bool_decide (d ∈ l)) v = true -> optional_field (literal_field l field) v = Ok v.
Proof. apply opt_kept. intros x. apply literal_kept. Qed.

Lemma sized_opt hi field v : opt_ok (sized hi) v = true -> optional_field (reference_field 1 hi field) v = Ok v.
Proof. apply opt_kept. intros x. apply sized_kept. Qed.

Ltac split_ok H := repeat match type of H with _ && _ = true => apply andb_true_iff in H as [H ?] end.
Ltac use_ok := repeat match goal with H : ?b = true |- context [?b] => rewrite H end.

Section validation.
Context (at_ : datetime -> instant).

Lemma metric_kept m : metric_ok m = true -> validate_metric (metric_sent at_ m) = Ok (metric_sent at_ m).
Proof.
  unfold metric_ok, validate_metric, metric_sent. intros Hm. split_ok Hm. cbn [mo_stage mo_name mo_value mo_ts].
  rewrite optional_kept, reference_kept by done. cbn [mbind result_bind]. by use_ok.
Qed.

Lemma b64_length n : forall data, (length data <= n)%nat -> length (b64encode data) = (4 * ((length data + 2) / 3))%nat.
Proof.
  induction n as [|n IH]; intros data Hn; [by destruct data; [|cbn in Hn; lia]|].
  destruct data as [|a [|b [|c data]]]; try done. cbn [b64encode length]. rewrite IH by (cbn in Hn; lia).
  replace (S (S (S (length data))) + 2)%nat with (1 * 3 + (length data + 2))%nat by lia.
  rewrite Nat.div_add_l by lia. lia.
Qed.

Lemma b64_strlen data : strlen (str (b64encode data)) = 4 * ((len data + 2) / 3).
Proof.
  unfold strlen, len. rewrite chars_str, (b64_length (length data)) by done.
  rewrite Nat2Z.inj_mul, Nat2Z.inj_div, Nat2Z.inj_add. done.
Qed.

Lemma chunk_kept c : chunk_ok c = true -> validate_chunk (chunk_sent at_ c) = Ok (chunk_sent at_ c)
  /\ _decode_audio_chunk (chunk_sent at_ c) = Ok (ac_pcm_s16le c).
Proof.
  unfold chunk_ok, rate_ok, validate_chunk, chunk_sent, _decode_audio_chunk. intros Hc. split_ok Hc.
  cbn [ao_stage pcm_s16le_base64 ao_sample_rate_hz ao_channels ao_ts]. rewrite b64_strlen. split.
  - rewrite reference_kept by done. cbn [mbind result_bind].
    rewrite (proj2 (Z.leb_le (4 * ((len (ac_pcm_s16le c) + 2) / 3)) 1400000)); [cbn [guard_else mbind result_bind]; by use_ok|].
    bool_to_prop. pose proof (Z.div_mod (len (ac_pcm_s16le c) + 2) 3). pose proof (Z.mod_pos_bound (len (ac_pcm_s16le c) + 2) 3). lia.
  - rewrite b64_round_trip. destruct (ac_pcm_s16le c) eqn:Ep; [done|]. cbn [mbind result_bind]. by use_ok.
Qed.

Lemma sip_kept e : sip_ok e = true -> validate_sip (sip_sent at_ e) = Ok (sip_sent at_ e).
Proof.
  unfold sip_ok, validate_sip, sip_sent. intros He. split_ok He.
  cbn [so_call_id so_method so_direction so_ts so_status_code so_summary_alias].
  rewrite !optional_kept, reference_kept, literal_kept by done. done.
Qed.

Lemma rtp_kept s : rtp_ok s = true -> validate_rtp (rtp_sent at_ s) = Ok (rtp_sent at_ s).
Proof.
  unfold rtp_ok, validate_rtp, rtp_sent. intros Hs. split_ok Hs.
  cbn [ro_ts ro_jitter_ms ro_loss_pct ro_mos ro_direction ro_rtt_ms].
  by rewrite !measured_opt, literal_opt by done.
Qed.

Lemma dict_set_fresh {V} k (v : V) (d : list (string * V)) : k ∉ dict_keys d -> dict_set k v d = d ++ [(k, v)].
Proof.
  induction d as [|[k' v'] d IH]; cbn; [done|]. intros [Hne Hn]%not_elem_of_cons. rewrite decide_False by done. by rewrite IH.
Qed.

Lemma attributes_kept d : attributes_ok d = true -> validate_attributes d = Ok d.
Proof.
  unfold attributes_ok, validate_attributes. intros Hd. split_ok Hd. bool_to_prop.
  rewrite (forallb_weaken attribute_ok (fun kv => attribute_type kv.2) d), (proj2 (Z.leb_le _ _)); [|lia| |done].
  2: { intros kv Hk. unfold attribute_ok in Hk. by split_ok Hk. }
  cbn [andb guard_else mbind result_bind]. change d with ([] ++ d) at 2. assert (NoDup (dict_keys ([] ++ d))) as Hn by done.
  clear -Hd Hn. revert Hn. generalize (@nil (string * json)) as acc. induction d as [|[k v] d IH]; intros acc Hn; [by rewrite app_nil_r|].
  cbn [forallb] in Hd. apply andb_true_iff in Hd as [Hk Hd]. cbn [foldM_res].
  assert (validate_attribute acc (k, v) = Ok (acc ++ [(k, v)])) as ->.
  { assert (k ∉ dict_keys acc) as Hfresh.
    { unfold dict_keys in *. rewrite fmap_app in Hn. apply NoDup_app in Hn as (_ & Hn & _). intros Hin. eapply Hn; [done|]. left. }
    unfold attribute_ok, sized in Hk. cbn [fst snd] in Hk. split_ok Hk. unfold validate_attribute. cbn [fst snd].
    rewrite reference_kept by done. cbn [mbind result_bind].
    assert (negb (String.eqb k "") = true) as -> by (by destruct k). use_ok. cbn [andb guard_else mbind result_bind].
    destruct v; cbn [mbind result_bind]; try by rewrite dict_set_fresh.
    match goal with H : reference_ok s && _ = true |- _ => split_ok H end. rewrite reference_kept by done.
    cbn [mbind result_bind]. use_ok. cbn [guard_else mbind result_bind]. by rewrite dict_set_fresh. }
  cbn [mbind result_bind]. change ((k, v) :: d) with ([(k, v)] ++ d) in Hn |- *. rewrite app_assoc in Hn |- *. by apply IH.
Qed.

Lemma event_kept e : event_ok e = true -> validate_event (event_sent at_ e) = Ok (event_sent at_ e).
Proof.
  unfold event_ok, validate_event, event_sent. intros He. split_ok He.
  cbn [to_event_id to_category to_name to_ts to_clock_domain to_alignment_uncertainty_ms to_direction to_stage to_stream_alias
       to_source to_correlation_alias to_attributes].
  rewrite !sized_kept by done. unfold typed_category. use_ok. cbn [mbind result_bind].
  rewrite measured_opt, !sized_opt by done. cbn [mbind result_bind]. by rewrite attributes_kept.
Qed.

Lemma kept_list {A B} (f : A -> B) (ok : A -> bool) (validate : B -> result B) l :
  (forall x, ok x = true -> validate (f x) = Ok (f x)) -> Forall (fun x => ok x = true) l ->
  mapM_res validate (map f l) = Ok (map f l).
Proof. intros Hf Hl. apply mapM_res_ok. induction Hl; cbn; constructor; auto. Qed.

Lemma sent_ids run_id b : map to_event_id (ob_timeline_events (batch_sent at_ run_id b)) = map te_event_id (Observer.timeline_events b).
Proof. cbn. rewrite map_map. done. Qed.

Lemma batch_kept run_id b : sendable b -> within_limits b -> item_count b <> 0 ->
  NoDup (map te_event_id (Observer.timeline_events b)) ->
  validate_batch (batch_sent at_ run_id b) = Ok (batch_sent at_ run_id b).
Proof.
  intros [Hm Hc Hs Hr He] Hl Hi Hn. unfold validate_batch. destruct Hl as (L1 & L2 & L3 & L4 & L5).
  unfold metrics_limit, audio_chunks_limit, sip_events_limit, rtp_stats_limit, timeline_events_limit in *.
  cbn [batch_sent ob_metrics ob_audio_chunks ob_sip_events ob_rtp_stats ob_timeline_events ObservedRuns.ob_run_id].
  unfold len at 1 2 3 4 5. rewrite !length_map. fold (len (Observer.metrics b)) (len (audio_chunks b)) (len (Observer.sip_events b))
    (len (Observer.rtp_stats b)) (len (Observer.timeline_events b)).
  rewrite !(proj2 (Z.leb_le _ _)) by done. cbn [andb guard_else mbind result_bind].
  rewrite (kept_list _ _ _ _ metric_kept Hm), (kept_list _ chunk_ok), (kept_list _ _ _ _ sip_kept Hs), (kept_list _ _ _ _ rtp_kept Hr),
    (kept_list _ _ _ _ event_kept He) by (done || intros; by apply chunk_kept).
  cbn [mbind result_bind]. unfold require_observation. fold (batch_sent at_ run_id b). rewrite sent_ids, (bool_decide_true _ Hn).
  rewrite bool_decide_false; [done|]. cbn. intros (E1 & E2 & E3 & E4 & E5). apply Hi.
  apply map_eq_nil in E1, E2, E3, E4, E5. unfold item_count. by rewrite E1, E2, E3, E4, E5.
Qed.
End validation.

(** ** The batches of a flush *)

Lemma chunk_of_sublist {A} limit index (l : list A) : chunk_of limit index l `sublist_of` l.
Proof. unfold chunk_of, slice. etrans; [apply sublist_take|apply sublist_drop]. Qed.

Lemma Forall_sublist {A} (Q : A -> Prop) l k : l `sublist_of` k -> Forall Q k -> Forall Q l.
Proof. intros Hs. rewrite !Forall_forall. intros HQ x Hx. apply HQ. by eapply elem_of_sublist. Qed.

Lemma Forall_slice {A B} (f : A -> B) Q limit index l : Forall Q (map f l) -> Forall Q (map f (chunk_of limit index l)).
Proof. apply Forall_sublist. apply (fmap_sublist _ _ _ (chunk_of_sublist _ _ _)). Qed.

Lemma slices_of_pending p b : b ∈ _bounded_observation_batches p ->
  (sendable p -> sendable b) /\ (forall Q, Forall Q (times p) -> Forall Q (times b))
  /\ (NoDup (map te_event_id (Observer.timeline_events p)) -> NoDup (map te_event_id (Observer.timeline_events b))).
Proof.
  intros [Hb _]%elem_of_filterb. apply list_elem_of_fmap in Hb as (i & -> & _). unfold batch_slice. split_and!.
  - intros []. constructor; cbn [Observer.metrics audio_chunks Observer.sip_events Observer.rtp_stats Observer.timeline_events];
      (eapply Forall_sublist; [apply chunk_of_sublist|done]).
  - intros Q. unfold times. rewrite !Forall_app. intros (H1 & H2 & H3 & H4 & H5). split_and!; by apply Forall_slice.
  - cbn. intros Hn. eapply sublist_NoDup; [exact Hn|]. apply (fmap_sublist _ _ _ (chunk_of_sublist _ i _)).
Qed.

Lemma mapM_res_fails {A B} (f : A -> result B) l x : x ∈ l -> is_ok (f x) = false -> is_ok (mapM_res f l) = false.
Proof.
  intros Hx Hf. destruct (mapM_res f l) as [ys|] eqn:E; [|done]. apply mapM_res_ok in E.
  apply list_elem_of_lookup in Hx as (i & Hi). destruct (Forall2_lookup_l _ _ _ _ _ E Hi) as (y & _ & Hy). by rewrite Hy in Hf.
Qed.

(** An observation no batch may hold: a chunk whose rate is out of range, or a
    metric that is not a number. *)
Definition refused_item (b : Observations) : Prop :=
  (exists c, c ∈ audio_chunks b /\ rate_ok (ac_sample_rate_hz c) = false)
  \/ (exists m, m ∈ Observer.metrics b /\ is_finite (mp_value m) = false).

Lemma refused_batch at_ run_id b : refused_item b -> is_ok (validate_batch (batch_sent at_ run_id b)) = false.
Proof.
  intros Hr. destruct (validate_batch (batch_sent at_ run_id b)) eqn:E; [|done]. unfold validate_batch in E. simpl_res.
  cbn [batch_sent ob_metrics ob_audio_chunks] in *.
  match goal with Hm : mapM_res validate_metric _ = Ok _, Hc : mapM_res validate_chunk _ = Ok _ |- _ => rename Hm into Hmet, Hc into Hchu end.
  destruct Hr as [(c & Hin & Hc)|(m & Hin & Hm)].
  - assert (is_ok (mapM_res validate_chunk (map (chunk_sent at_) (audio_chunks b))) = false) as Hf; [|by rewrite Hchu in Hf].
    eapply mapM_res_fails; [by apply (list_elem_of_fmap_2 (chunk_sent at_))|]. unfold validate_chunk. cbn [chunk_sent ao_sample_rate_hz].
    unfold rate_ok in Hc. rewrite Hc. destruct (_validate_reference_text _ _); [|done]. cbn [mbind result_bind].
    by destruct (strlen _ <=? 1400000).
  - assert (is_ok (mapM_res validate_metric (map (metric_sent at_) (Observer.metrics b))) = false) as Hf; [|by rewrite Hmet in Hf].
    eapply mapM_res_fails; [by apply (list_elem_of_fmap_2 (metric_sent at_))|]. unfold validate_metric. cbn [metric_sent mo_value].
    rewrite Hm. destruct (validate_optional _ _); [|done]. cbn [mbind result_bind]. by destruct (_validate_reference_text _ _).
Qed.

Lemma times_read {P : Pydantic} {T : PydanticTimes P} l : Forall time_ok l -> Forall (time_read instant_of) l.
Proof. intros Hl. eapply Forall_impl; [exact Hl|]. intros d Hd. apply datetime_read; [by apply _timestamp_denotes|apply Hd]. Qed.

(** C21. What the observer flushes is what the API ingests.  When the pending
    observations have times in the range of Python, offsets in whole minutes,
    are within the rules of the API and have distinct event identifiers, every
    batch of a flush, written as JSON, is read and validated as exactly the
    requests that carry the same observations, each at the instant it was
    observed at (a time without an offset being one of UTC), and every chunk
    decodes to the audio that was observed.  A chunk outside 8 to 48 kHz or a
    metric that is not finite makes the API refuse the whole batch it is in. *)
Theorem observations_reach_the_api {P : Pydantic} {L : PydanticLaws P} {T : PydanticTimes P} now run_id pending :
  Forall time_ok (times pending) ->
  (sendable pending -> NoDup (map te_event_id (Observer.timeline_events pending)) ->
   forall b, b ∈ _bounded_observation_batches pending ->
   read_batch now (JObj (batch_to_payload run_id b)) = Ok (batch_sent instant_of run_id b)
   /\ Forall2 (fun c r => _decode_audio_chunk r = Ok (ac_pcm_s16le c)) (audio_chunks b) (ob_audio_chunks (batch_sent instant_of run_id b)))
  /\ forall b, b ∈ _bounded_observation_batches pending -> refused_item b ->
      is_ok (read_batch now (JObj (batch_to_payload run_id b))) = false.
Proof.
  intros Ht%times_read. split.
  - intros Hs Hn b Hb. destruct (slices_of_pending pending b Hb) as (Hsb & Htb & Hnb). destruct (bounded_within pending b Hb) as [Hl Hi].
    unfold read_batch. rewrite (batch_read now instant_of) by auto. cbn [mbind result_bind]. split; [by apply batch_kept; auto|].
    cbn [batch_sent ob_audio_chunks]. apply Hsb in Hs. pose proof (sendable_chunks _ Hs) as Hc.
    induction Hc; cbn; constructor; [by apply chunk_kept|done].
  - intros b Hb Hr. destruct (slices_of_pending pending b Hb) as (_ & Htb & _). unfold read_batch.
    rewrite (batch_read now instant_of) by auto. cbn [mbind result_bind]. by apply refused_batch.
Qed.

(** ** A batch of every kind, and one with audio at 96 kHz *)

Definition plain_pydantic : Pydantic := {|
  as_text v := match v with JStr s => Ok s | _ => Raise ValueError "Input should be a valid string" end;
  as_number v := match v with JFloat x => Ok x | _ => Raise ValueError "Input should be a valid number" end;
  as_integer v := match v with JInt z => Ok z | _ => Raise ValueError "Input should be a valid integer" end;
  as_datetime v := match v with
                   | JStr s => from_option_err (iso_instant s) ValueError "Input should be a valid datetime"
                   | _ => Raise ValueError "Input should be a valid datetime" end |}.

Lemma plain_laws : PydanticLaws plain_pydantic.
Proof. by constructor. Qed.
Lemma plain_times : PydanticTimes plain_pydantic.
Proof. constructor. cbn. by intros text t -> _. Qed.

Definition every_kind : Observations :=
  MkObservations [MkMetricPoint "input_rms" (fz 3) (Some "agc") sample_ts] [MkAudioChunk "agc" (map byte_of [1; 2]) 8000 1 sample_ts]
    [MkSipEventObs "BYE" "in" (Some "call") None (Some "call-ended") sample_ts]
    [MkRtpStats (Some (fz 2)) None (Some (fz 4)) (Some "received") None sample_ts]
    [discontinuity_event "agc" 0 (fz 10) (MkDiscontinuity 3 (flit 1 2) 0) 8000 1 sample_ts].
Definition wide_band : Observations := MkObservations [] [MkAudioChunk "agc" (map byte_of [1; 2]) 96000 1 sample_ts] [] [] [].

Lemma every_kind_sendable : sendable every_kind /\ NoDup (map te_event_id (Observer.timeline_events every_kind)).
Proof. split; [constructor; (constructor; [vm_compute; reflexivity|constructor])|apply NoDup_singleton]. Qed.

Lemma sample_times : Forall time_ok (times every_kind) /\ Forall time_ok (times wide_band).
Proof. split; repeat (constructor; [split_and!; by vm_compute|]); constructor. Qed.

Lemma sample_batches : every_kind ∈ _bounded_observation_batches every_kind /\ wide_band ∈ _bounded_observation_batches wide_band
  /\ refused_item wide_band.
Proof.
  split; [vm_compute; left|]. split; [vm_compute; left|]. left. eexists. split; [left|]. reflexivity.
Qed.

Lemma observations_reach_the_api_witness :
  @read_batch plain_pydantic 0 (JObj (batch_to_payload "run" every_kind)) = Ok (batch_sent (fun _ => 1000000) "run" every_kind)
  /\ is_ok (@read_batch plain_pydantic 0 (JObj (batch_to_payload "run" wide_band))) = false.
Proof.
  pose proof plain_laws as L. pose proof plain_times as T. destruct every_kind_sendable as [Hs Hn].
  destruct sample_times as [Ht Hw]. destruct sample_batches as (Hb & Hb' & Hr).
  destruct (@observations_reach_the_api plain_pydantic L T 0 "run" every_kind Ht) as [H1 _].
  destruct (@observations_reach_the_api plain_pydantic L T 0 "run" wide_band Hw) as [_ H2].
  split; [exact (proj1 (H1 Hs Hn every_kind Hb))|exact (H2 wide_band Hb' Hr)].
Defined.
