(* ===== verification/StageEvidence.v ===== *)
(** * What observing a mono stage leaves

    [observe_stage_audio] on whole 16-bit samples never fails, and what it adds
    to the pending observations is known: the measurements of the stage, all
    finite, its audio as one chunk and at most one discontinuity, under the
    next identifier.  With a rate the API takes these observations are
    [sendable]. *)
From S2P Require Import Prelude Effects Collections PyFloat PyData Bytes Base64 RunModel Timeline TypedTimeline ObservedRuns Observer AudioSocket ObservationWire.
From Stdlib Require Import QArith Qround Lqa.

Open Scope Z_scope.

(** ** Square roots and logarithms *)

Lemma sqrt_rne_bounds (n : Z) (x : Q) : 0 <= n -> (inject_Z (n * n) <= x)%Q -> n <= sqrt_rne x.
Proof.
  intros Hn Hx. assert (n * n <= Qfloor x) as Hf by (rewrite <- (Qfloor_Z (n * n)); by apply Qfloor_resp_le).
  assert (n <= Z.sqrt (Qfloor x)) as Hs by (rewrite <- (Z.sqrt_square n) by done; by apply Z.sqrt_le_mono).
  unfold sqrt_rne. repeat case_match; lia.
Qed.

Lemma sqrt_rne_upper (n : Z) (x : Q) : 0 < n -> (0 <= x)%Q -> (x < inject_Z (n * n))%Q -> sqrt_rne x <= n.
Proof.
  intros Hn H0 Hx. assert (Qfloor x < n * n) as Hf.
  { rewrite Zlt_Qlt. eapply Qle_lt_trans; [apply Qfloor_le|done]. }
  assert (Z.sqrt (Qfloor x) < n) as Hs by (apply Z.sqrt_lt_square; [rewrite <- (Qfloor_Z 0); by apply Qfloor_resp_le|lia|done]).
  unfold sqrt_rne. repeat case_match; lia.
Qed.

(** The root of a float between 2^-15 and 2^30. *)
Lemma rnd_sqrt_range q : (2 ^ (-15) <= q)%Q -> (q <= 2 ^ 30)%Q -> (2 ^ (-8) <= rnd_sqrt q)%Q /\ (rnd_sqrt q <= 2 ^ 16)%Q.
Proof.
  intros Hlo Hhi. pose proof (pow2_pos (-15)) as Hp. assert (0 < q)%Q as Hq by lra.
  unfold rnd_sqrt. destruct (Qeq_bool q 0) eqn:E; [apply Qeq_bool_iff in E; lra|].
  destruct (ilog2_spec q Hq) as [L1 L2]. set (e := ilog2 q) in *.
  assert (-15 <= e <= 30) as He.
  { split; [apply (ilog2_mono (2 ^ (-15)) q); [done|done]|apply (ilog2_mono q (2 ^ 30)); [done|done]]. }
  assert (Z.max (e / 2 - (fprec - 1)) emin = e / 2 - 52) as ->.
  { unfold fprec, emin. pose proof (Z.div_mod e 2). pose proof (Z.mod_pos_bound e 2). lia. }
  set (h := e / 2). assert (2 * h <= e < 2 * h + 2) as Hh by (unfold h; pose proof (Z.div_mod e 2); pose proof (Z.mod_pos_bound e 2); lia).
  set (x := (q * 2 ^ (- (2 * (h - 52))))%Q).
  assert (inject_Z (2 ^ 52 * 2 ^ 52) <= x)%Q as X1.
  { unfold x. rewrite <- Z.pow_add_r, <- pow2_Z by lia. change (52 + 52) with 104. pose proof (pow2_le (2 * h) e ltac:(lia)).
    pose proof (pow2_pos (- (2 * (h - 52)))). assert (2 ^ 104 == 2 ^ (2 * h) * 2 ^ (- (2 * (h - 52))))%Q as ->.
    { rewrite <- pow2_add. apply Qpower_comp; [reflexivity|lia]. }
    apply Qmult_le_compat_r; lra. }
  assert (x < inject_Z (2 ^ 53 * 2 ^ 53))%Q as X2.
  { unfold x. rewrite <- Z.pow_add_r, <- pow2_Z by lia. change (53 + 53) with 106. pose proof (pow2_le (e + 1) (2 * h + 2) ltac:(lia)).
    pose proof (pow2_pos (- (2 * (h - 52)))). assert (2 ^ 106 == 2 ^ (2 * h + 2) * 2 ^ (- (2 * (h - 52))))%Q as ->.
    { rewrite <- pow2_add. apply Qpower_comp; [reflexivity|lia]. }
    apply Qmult_lt_compat_r; lra. }
  pose proof (sqrt_rne_bounds (2 ^ 52) x ltac:(lia) X1) as S1.
  assert (0 <= x)%Q as X0 by (eapply Qle_trans; [|exact X1]; change 0%Q with (inject_Z 0); rewrite <- Zle_Qle; lia).
  pose proof (sqrt_rne_upper (2 ^ 53) x ltac:(lia) X0 X2) as S2. rewrite Qred_correct.
  pose proof (pow2_pos (h - 52)) as Hk. split.
  - apply Qle_trans with (2 ^ 52 * 2 ^ (h - 52))%Q; [rewrite <- pow2_add; apply pow2_le; lia|].
    apply Qmult_le_compat_r; [|lra]. rewrite (pow2_Z 52), <- Zle_Qle by lia. done.
  - apply Qle_trans with (2 ^ 53 * 2 ^ (h - 52))%Q; [|rewrite <- pow2_add; apply pow2_le; lia].
    apply Qmult_le_compat_r; [|lra]. rewrite (pow2_Z 53), <- Zle_Qle by lia. done.
Qed.

(** [math.log10] of a positive float is a finite float; doubles range from
    10^-324 to 10^309. *)
Definition log10_bounded (log10 : float -> float) : Prop :=
  forall q, (0 < q)%Q -> exists y, log10 (Fin q) = Fin y /\ (inject_Z (-400) <= y <= inject_Z 400)%Q.

Lemma decibels log10 q : log10_bounded log10 -> (0 < q)%Q -> is_finite (fmul (fz 20) (log10 (Fin q))) = true.
Proof.
  intros Hl Hq. destruct (Hl q Hq) as (y & -> & Hy). destruct (fz_exact 20) as (r & -> & Hr); [unfold fprec; lia|]. cbn [fmul].
  destruct (fl_bounded_int (r * y) (-8000) 8000) as (z & -> & _); [unfold fprec; lia..| |done].
  change (inject_Z (-8000)) with (-8000 # 1). change (inject_Z 8000) with (8000 # 1). change (inject_Z (-400)) with (-400 # 1) in Hy.
  change (inject_Z 400) with (400 # 1) in Hy. rewrite Hr. change (inject_Z 20) with (20 # 1). lra.
Qed.

Lemma whole_positive z : 0 < z -> (0 < inject_Z z)%Q.
Proof. intros. change 0%Q with (inject_Z 0). by rewrite <- Zlt_Qlt. Qed.

(** The RMS of whole samples is zero or between 2^-8 and 2^16. *)
Lemma rms_range pcm : even_length pcm = true -> len pcm <= 65535 ->
  exists r, pcm_s16le_rms pcm = Ok (Fin r) /\ (r == 0 \/ 2 ^ (-8) <= r /\ r <= 2 ^ 16)%Q.
Proof.
  intros He Hlen. unfold pcm_s16le_rms. rewrite He. cbn [guard_else mbind result_bind].
  destruct (Z.eqb_spec (len pcm / 2) 0) as [|Hn]; [eexists; split; [reflexivity|by left]|].
  pose proof (len_unpack16 pcm He) as Hl. pose proof (len_nonneg pcm). pose proof (Z.div_mod (len pcm) 2). pose proof (Z.mod_pos_bound (len pcm) 2).
  set (n := len pcm / 2) in *. assert (len (unpack16 pcm) = n) as Hln.
  { subst n. rewrite <- Hl, Z.mul_comm, Z.div_mul by lia. done. }
  pose proof (sum_squares_bounds (unpack16 pcm) 0 0 (unpack16_range pcm) ltac:(lia)) as Hs.
  fold (sum_squares (unpack16 pcm)) in Hs. rewrite Hln in *. set (total := sum_squares (unpack16 pcm)) in *.
  unfold int_truediv. rewrite (proj2 (Z.eqb_neq n 0)) by lia. assert (0 < inject_Z n)%Q as Hp by (apply whole_positive; lia).
  destruct (Z.eq_dec total 0) as [E0|Hne].
  - assert (fl (inject_Z total / inject_Z n) = Fin 0) as ->.
    { rewrite E0. transitivity (fl 0); [|reflexivity]. apply fl_comp. unfold Qdiv. apply Qmult_0_l. }
    cbn [mbind result_bind fsqrt]. change (Qle_bool 0 0) with true. eexists. split; [reflexivity|by left].
  - assert (inject_Z 0 <= inject_Z total / inject_Z n <= inject_Z 1073741824)%Q as Hq.
    { split; [apply Qle_shift_div_l | apply Qle_shift_div_r]; try done; rewrite <- inject_Z_mult, <- Zle_Qle; lia. }
    assert (2 ^ (-15) <= inject_Z total / inject_Z n)%Q as Hlow.
    { apply Qle_shift_div_l; [done|]. apply Qle_trans with 1%Q; [|change 1%Q with (inject_Z 1); rewrite <- Zle_Qle; lia].
      change (2 ^ (-15))%Q with (1 # 32768). assert (inject_Z n <= inject_Z 32768)%Q as Hn' by (rewrite <- Zle_Qle; lia).
      change (inject_Z 32768) with (32768 # 1) in Hn'. lra. }
    destruct (fl_bounded_int _ 0 1073741824 ltac:(unfold fprec; lia) ltac:(unfold fprec; lia) Hq) as (q & Ef & _ & Hb). rewrite Ef.
    apply rnd_mono in Hlow. rewrite <- (fl_fin _ _ Ef) in Hlow. rewrite rnd_exact in Hlow.
    2: { exists 1, (-15). split; [done|]. split; [done|]. reflexivity. }
    cbn [mbind result_bind fsqrt]. pose proof (pow2_pos (-15)). rewrite (proj2 (Qle_bool_iff 0 q)) by lra.
    eexists. split; [reflexivity|]. right. apply rnd_sqrt_range; [done|]. change (2 ^ 30)%Q with (inject_Z 1073741824). done.
Qed.

Lemma percentage_finite c n : 0 <= c <= n -> 0 < n -> exists x, percentage c n = Ok (Fin x).
Proof.
  intros Hc Hn. unfold percentage. destruct (int_ratio_bounds c n Hc Hn) as (q & -> & Hq).
  destruct (fmul_unit_bounds q 100 Hq) as (x & Hx & _); [unfold fprec; lia|]. exists x. cbn [mbind result_bind]. by rewrite Hx.
Qed.

Lemma peak_bounds l : Forall (fun v => int16_ok v = true) l -> forall p, 0 <= p <= 32768 ->
  0 <= fold_left (fun p v => Z.max p (Z.abs v)) l p <= 32768.
Proof.
  induction 1 as [|v l Hv _ IH]; intros p Hp; cbn [fold_left]; [done|]. apply IH. unfold int16_ok in Hv. bool_to_prop. lia.
Qed.

Section finite.
Context (log10 : float -> float) (Hlog : log10_bounded log10).

Lemma quality_finite pcm : even_length pcm = true ->
  exists peak full silent, pcm_s16le_quality log10 pcm = Ok (peak, full, silent)
  /\ is_finite peak = true /\ is_finite full = true /\ is_finite silent = true.
Proof.
  intros He. unfold pcm_s16le_quality. rewrite He. cbn [guard_else mbind result_bind].
  pose proof (len_nonneg (unpack16 pcm)). destruct (len (unpack16 pcm) =? 0) eqn:E; bool_to_prop.
  { exists (fz (-120)), fzero, fzero. split; [done|]. split; [by vm_compute|done]. }
  pose proof (peak_bounds _ (unpack16_range pcm) 0 ltac:(lia)) as Hp. set (peak := fold_left _ _ 0) in *.
  assert (exists dbfs, (if 0 <? peak then x ← fdiv (fz peak) PCM16_FULL_SCALE; Ok (fmul (fz 20) (log10 x)) else Ok (fz (-120))) = Ok dbfs
    /\ is_finite dbfs = true) as (dbfs & -> & Hd).
  { destruct (Z.ltb_spec 0 peak) as [H0|]; [|eexists; split; [reflexivity|by vm_compute]].
    destruct (fz_exact peak) as (p & -> & Hpe); [unfold fprec; lia|].
    assert (PCM16_FULL_SCALE = Fin (32768 # 1)) as -> by (vm_compute; reflexivity). cbn [fdiv]. change (Qeq_bool (32768 # 1) 0) with false.
    cbn iota. assert (0 < inject_Z peak)%Q as Hpos by by apply whole_positive.
    assert (2 ^ (-15) <= p / (32768 # 1))%Q as Hlow.
    { apply Qle_shift_div_l; [done|]. apply Qle_trans with (inject_Z 1); [by vm_compute|].
      rewrite Hpe, <- Zle_Qle. lia. }
    assert (inject_Z 0 <= p / (32768 # 1) <= inject_Z 1)%Q as Hq.
    { split; [eapply Qle_trans; [|exact Hlow]; by vm_compute|]. apply Qle_shift_div_r; [done|]. rewrite Hpe.
      change (inject_Z 1 * (32768 # 1))%Q with (inject_Z 32768). rewrite <- Zle_Qle. lia. }
    destruct (fl_bounded_int _ 0 1 ltac:(unfold fprec; lia) ltac:(unfold fprec; lia) Hq) as (x & Ex & _). rewrite Ex.
    cbn [mbind result_bind]. eexists. split; [reflexivity|]. apply decibels; [done|].
    apply rnd_mono in Hlow. rewrite <- (fl_fin _ _ Ex) in Hlow. rewrite rnd_exact in Hlow.
    2: { exists 1, (-15). split; [done|]. split; [done|]. reflexivity. }
    pose proof (pow2_pos (-15)). lra. }
  destruct (percentage_finite (countb is_full_scale (unpack16 pcm)) (len (unpack16 pcm))) as (full & Hf); [apply countb_bounds|lia|].
  destruct (percentage_finite (countb is_silent (unpack16 pcm)) (len (unpack16 pcm))) as (silent & Hs); [apply countb_bounds|lia|].
  cbn [mbind result_bind]. rewrite Hf. cbn [mbind result_bind]. rewrite Hs. by eexists _, _, _.
Qed.

Lemma delta_finite (r1 r2 : Q) :
  (r1 == 0 \/ 2 ^ (-8) <= r1 /\ r1 <= 2 ^ 16)%Q -> (r2 == 0 \/ 2 ^ (-8) <= r2 /\ r2 <= 2 ^ 16)%Q ->
  exists d, _delta_db log10 (Fin r1) (Fin r2) = Ok d /\ is_finite d = true.
Proof.
  intros H1 H2. unfold _delta_db. pose proof (pow2_pos (-8)) as Hp.
  destruct (fleb (Fin r1) fzero || fleb (Fin r2) fzero) eqn:E; [by eexists|]. apply orb_false_iff in E as [E1 E2].
  apply fleb_fin_false in E1, E2. destruct H1 as [H1|[L1 U1]]; [lra|]. destruct H2 as [H2|[L2 U2]]; [lra|].
  cbn [fdiv]. destruct (Qeq_bool r1 0) eqn:E0; [apply Qeq_bool_iff in E0; lra|].
  change (2 ^ (-8))%Q with (1 # 256) in *. change (2 ^ 16)%Q with (65536 # 1) in *.
  assert (2 ^ (-24) <= r2 / r1)%Q as Hlow by (apply Qle_shift_div_l; [done|]; change (2 ^ (-24))%Q with (1 # 16777216); lra).
  assert (inject_Z 0 <= r2 / r1 <= inject_Z 16777216)%Q as Hq.
  { split; [eapply Qle_trans; [|exact Hlow]; by vm_compute|]. apply Qle_shift_div_r; [done|]. change (inject_Z 16777216) with (16777216 # 1). lra. }
  destruct (fl_bounded_int _ 0 16777216 ltac:(unfold fprec; lia) ltac:(unfold fprec; lia) Hq) as (x & Ex & _). rewrite Ex.
  cbn [mbind result_bind]. eexists. split; [reflexivity|]. apply decibels; [done|].
  apply rnd_mono in Hlow. rewrite <- (fl_fin _ _ Ex) in Hlow. rewrite rnd_exact in Hlow.
  2: { exists 1, (-24). split; [done|]. split; [done|]. reflexivity. }
  pose proof (pow2_pos (-24)). lra.
Qed.
End finite.

(** [c / rate * 1000.0] of at most 2^53 frames at 8 kHz or more. *)
Lemma milliseconds c rate : 0 <= c < 2 ^ fprec -> 8000 <= rate -> exists x y, int_truediv c rate = Ok (Fin x) /\ fmul (Fin x) (fz 1000) = Fin y.
Proof.
  intros Hc Hr. unfold int_truediv. rewrite (proj2 (Z.eqb_neq rate 0)) by lia. unfold fprec in Hc.
  assert (0 < inject_Z rate)%Q as Hp by (apply whole_positive; lia).
  assert (inject_Z 0 <= inject_Z c / inject_Z rate <= inject_Z 1125899906843)%Q as Hq.
  { split; [apply Qle_shift_div_l | apply Qle_shift_div_r]; try done; rewrite <- inject_Z_mult, <- Zle_Qle; lia. }
  destruct (fl_bounded_int _ 0 1125899906843 ltac:(unfold fprec; lia) ltac:(unfold fprec; lia) Hq) as (x & -> & Hx). exists x.
  destruct (fz_exact 1000) as (k & -> & Hk); [unfold fprec; lia|]. cbn [fmul].
  destruct (fl_bounded_int (x * k) 0 1125899906843000 ltac:(unfold fprec; lia) ltac:(unfold fprec; lia)) as (y & -> & _); [|by exists y].
  rewrite Hk. change (inject_Z 1000) with (1000 # 1). change (inject_Z 0) with 0%Q in *. change (inject_Z 1125899906843) with (1125899906843 # 1) in Hx.
  change (inject_Z 1125899906843000) with (1125899906843000 # 1). lra.
Qed.

Lemma scaled_finite v : Z.abs v < 2 ^ fprec -> is_finite (scaled v) = true.
Proof.
  intros Hv. unfold scaled. destruct (fl_bounded_int (v # 32768) (- Z.abs v) (Z.abs v)) as (x & -> & _); [lia..| |done].
  unfold Qle; cbn. lia.
Qed.

(** ** The detector *)

Lemma positions_frames frames f : f ∈ map fst (positions frames 1) -> 0 <= f < frames.
Proof.
  unfold positions. intros ([f' c] & -> & Hin)%list_elem_of_fmap. apply list_elem_of_In, in_flat_map in Hin as (g & Hg & Hin).
  apply list_elem_of_In, elem_of_seqZ in Hg. apply in_map_iff in Hin as (c1 & [= <- _] & _). cbn. lia.
Qed.

Lemma sample_at_range l i : Forall (fun v => int16_ok v = true) l -> Z.abs (sample_at l i) <= 32768.
Proof.
  intros Hl. unfold sample_at. destruct (nth_in_or_default (Z.to_nat i) l 0) as [Hin| ->]; [|done].
  rewrite Forall_forall in Hl. apply list_elem_of_In in Hin. specialize (Hl _ Hin). unfold int16_ok in Hl. bool_to_prop. lia.
Qed.

Lemma detect_frame_range samples prev l s0 d :
  Forall (fun v => int16_ok v = true) samples -> match prev with Some p => Forall (fun v => int16_ok v = true) p | None => True end ->
  fold_left (detect_step samples 1 prev) l s0 = Some d ->
  s0 = Some d \/ (dc_frame d ∈ map fst l /\ is_finite (dc_magnitude d) = true).
Proof.
  intros Hs Hp. revert s0. induction l as [|[f c] l IH]; intros s0; cbn [fold_left map fst]; [by left|]. intros H.
  destruct (IH _ H) as [Hd|[Hd Hf]]; [|right; split; [by right|done]]. unfold detect_step in Hd.
  destruct (previous_of samples 1 f c prev) as [p|] eqn:Ep; [|by left].
  destruct (_ && _); [|by left]. injection Hd as <-. right. split; [left|]. cbn [dc_magnitude].
  apply scaled_finite. pose proof (sample_at_range samples (f * 1 + c) Hs).
  assert (Z.abs p <= 32768) as Hb.
  { unfold previous_of in Ep. destruct (negb _); [injection Ep as <-; by apply sample_at_range|].
    destruct prev as [q|]; [injection Ep as <-; by apply sample_at_range|done]. }
  unfold fprec. lia.
Qed.

(** On whole mono samples the detector answers, and a discontinuity is in one of
    the frames. *)
Lemma detect_total pcm prev : even_length pcm = true ->
  match prev with Some p => len p = 1 /\ Forall (fun v => int16_ok v = true) p | None => True end ->
  exists r, detect_pcm_s16le_discontinuity pcm 1 prev = Ok r
  /\ forall d, r = Some d -> 0 <= dc_frame d <= len pcm /\ is_finite (dc_magnitude d) = true.
Proof.
  intros He Hp. unfold detect_pcm_s16le_discontinuity. unfold even_length in He. change (2 * 1) with 2. rewrite He.
  assert ((match prev with Some p => len p =? 1 | None => true end) = true) as -> by (destruct prev; [by apply Z.eqb_eq, Hp|done]).
  eexists. split; [reflexivity|]. intros d Hd.
  assert (match prev with Some p => Forall (fun v => int16_ok v = true) p | None => True end) as Hp' by (destruct prev; [apply Hp|done]).
  destruct (detect_frame_range _ prev _ _ _ (unpack16_range pcm) Hp' Hd) as [|[Hd' Hf]]; [done|]. clear Hd. rename Hd' into Hd.
  apply positions_frames in Hd. split; [|done].
  rewrite Z.div_1_r in Hd. pose proof (len_unpack16 pcm He). pose proof (len_nonneg (unpack16 pcm)). lia.
Qed.

Lemma whole_frames k : 0 <= k < 2 ^ fprec -> exists x, int_truediv k 1 = Ok (Fin x) /\ py_int (Fin x) = Ok k /\ fz k = Fin x.
Proof.
  intros Hk. destruct (fz_exact k) as (q & Hq & He); [lia|]. exists q. unfold int_truediv. cbn [Z.eqb].
  assert (fl (Qdiv (inject_Z k) (inject_Z 1)) = Fin q) as ->.
  { rewrite <- Hq. unfold fz. apply fl_comp. unfold Qdiv. rewrite <- (Qmult_1_r (inject_Z k)) at 2.
    reflexivity. }
  split; [done|]. split; [|done]. cbn [py_int]. f_equal. unfold Qeq in He. cbn in He. rewrite Z.mul_1_r in He. rewrite He.
  apply Z.quot_mul. lia.
Qed.

(** ** Texts the API keeps *)

Definition plain_char (c : Ascii.ascii) : bool := negb (is_space c) && negb (Ascii.eqb c "/") && negb (Ascii.eqb c "<").
Definition plain (s : string) : bool := forallb plain_char (chars s).

Lemma infix_of_in p l c : infix_of p l = true -> c ∈ p -> c ∈ l.
Proof.
  intros H Hc. induction l as [|a l IH]; cbn [infix_of] in H; apply orb_true_iff in H as [H|H];
    [by eapply prefix_of_in|done|by eapply prefix_of_in|]. apply elem_of_cons. auto.
Qed.

Lemma plain_reference s : plain s = true -> reference_ok s = true.
Proof.
  unfold plain, reference_ok. intros Hp. apply andb_true_iff. split.
  - apply String.eqb_eq. unfold strip. rewrite strip_by_id; [by rewrite str_chars|]. revert Hp. apply forallb_weaken.
    intros c. unfold plain_char. by intros [[H _]%andb_true_iff _]%andb_true_iff.
  - apply negb_true_iff. apply not_true_is_false. intros (m & Hm & Hc)%existsb_exists.
    assert (exists c, c ∈ chars m /\ (c = "/" \/ c = "<")%char) as (c & Hin & Hsp).
    { cbn in Hm. destruct Hm as [<-|[<-|[<-|[<-|[]]]]]; [exists "/"%char|exists "/"%char|exists "<"%char|exists "/"%char];
        (split; [|by auto]); apply list_elem_of_In; cbn; tauto. }
    unfold contains in Hc. eapply infix_of_in in Hc; [|exact Hin]. unfold lower in Hc. rewrite chars_str in Hc.
    apply list_elem_of_fmap in Hc as (x & Hx & Hxin). rewrite forallb_forall in Hp. apply list_elem_of_In in Hxin. apply Hp in Hxin.
    pose proof (ascii_cases (fun x => negb (plain_char x) || negb (Ascii.eqb (lower_char x) "/" || Ascii.eqb (lower_char x) "<"))
      ltac:(vm_compute; reflexivity) x) as Hcase. cbn beta in Hcase. rewrite Hxin, <- Hx in Hcase. by destruct Hsp as [-> | ->].
Qed.

Lemma plain_append a b : plain (a +:+ b) = plain a && plain b.
Proof. unfold plain. by rewrite chars_append, forallb_app. Qed.

Lemma strlen_append a b : strlen (a +:+ b) = strlen a + strlen b.
Proof. unfold strlen, len. rewrite chars_append, length_app. lia. Qed.

Lemma digits_plain z : 0 <= z < 2 ^ fprec -> plain (int_str z) = true /\ 1 <= strlen (int_str z) <= 16.
Proof.
  unfold fprec. intros Hz. destruct (pretty_digits 15 z) as (Hd & _ & Hne & Hl); [change (10 ^ Z.of_nat 16) with 10000000000000000; lia|].
  unfold int_str. split.
  - revert Hd. apply forallb_weaken. intros c.
    pose proof (ascii_cases (fun c => negb (is_digit_char c) || plain_char c) ltac:(vm_compute; reflexivity) c) as Hc. cbn beta in Hc.
    intros Hd. by rewrite Hd in Hc.
  - unfold strlen, len. destruct (chars (pretty z)); [done|]. cbn [length] in *. lia.
Qed.

Lemma plain_sized hi s : plain s = true -> 1 <= strlen s <= hi -> sized hi s = true.
Proof. intros Hp Hl. unfold sized. rewrite plain_reference by done. by rewrite !(proj2 (Z.leb_le _ _)) by lia. Qed.

(** ** What a stage adds *)

Lemma sendable_app a b : sendable a -> sendable b -> sendable (obs_app a b).
Proof. intros [] []. constructor; cbn; by apply Forall_app. Qed.

(** What the observer keeps of the mono stages: one final sample at most, and a
    number of frames and of discontinuities below a bound. *)
Record tame (B : Z) (o : VoxBenchObserver) : Prop := {
  tame_stages : forall stage p, dict_get stage (ob_stage_pcm_state o) = Some p -> sp_channels p = 1 ->
    (len (sp_final p) <= 1 /\ Forall (fun v => int16_ok v = true) (sp_final p)) /\ 0 <= sp_frames p <= B;
  tame_ordinal : 0 <= ob_discontinuity_ordinal o <= B }.

Lemma tame_mono B B' o : B <= B' -> tame B o -> tame B' o.
Proof. intros HB [Hs Ho]. constructor; [|lia]. intros stage p Hp Hc. destruct (Hs stage p Hp Hc). split; [done|lia]. Qed.

Lemma final_frame_mono output : even_length output = true -> output <> [] -> len (_pcm_s16le_final_frame output 1) <= 1.
Proof.
  intros He Hne. unfold _pcm_s16le_final_frame. set (d := drop _ output).
  assert (len d = 2) as Hl.
  { unfold even_length in He. apply Z.eqb_eq in He. pose proof (Z.div_mod (len output) 2). pose proof (len_nonneg output).
    assert (2 <= len output). { destruct output; [done|]. rewrite len_cons in *. pose proof (len_nonneg output). lia. }
    unfold d, len at 1. rewrite length_drop. unfold len in *. lia. }
  assert (even_length d = true) as Hd by (unfold even_length; by rewrite Hl).
  pose proof (len_unpack16 d Hd). lia.
Qed.


Definition discontinuity_id (i : Z) : string := "pcm-discontinuity:" +:+ int_str i.

(** The stage [stage] recorded [output] in the step from [o] to [o']. *)
Record stage_recorded (stage : string) (output : bytes) (rate : Z) (points : list MetricPoint) (ts : datetime)
    (o o' : VoxBenchObserver) (events : list TimelineEvent) : Prop := {
  sr_pending : ob_pending o' = obs_app (ob_pending o)
    (MkObservations points (if bool_decide (output = []) then [] else [MkAudioChunk stage output rate 1 ts]) [] [] events);
  sr_ids : map te_event_id events = map discontinuity_id (seqZ (ob_discontinuity_ordinal o) (ob_discontinuity_ordinal o' - ob_discontinuity_ordinal o));
  sr_ordinal : ob_discontinuity_ordinal o <= ob_discontinuity_ordinal o';
  sr_times : Forall (fun e => te_ts e = ts) events;
  sr_events : Forall (fun e => event_ok e = true) events }.

Lemma discontinuity_ok stage i at_ms d rate ts : plain stage = true -> 1 <= strlen stage <= 64 -> 0 <= i < 2 ^ fprec ->
  is_finite at_ms = true -> is_finite (dc_magnitude d) = true -> event_ok (discontinuity_event stage i at_ms d rate 1 ts) = true.
Proof.
  intros Hp Hl Hi Ha Hm. destruct (digits_plain i Hi) as [Hd Hdl]. unfold event_ok, discontinuity_event.
  cbn [te_event_id te_category te_name te_clock_domain te_alignment_uncertainty_ms te_direction te_stage te_stream_alias te_source
       te_correlation_alias te_attributes opt_ok].
  rewrite (plain_sized 128 ("pcm-discontinuity:" +:+ int_str i)); [|by rewrite plain_append, Hd|
    rewrite strlen_append; change (strlen "pcm-discontinuity:") with 18; lia].
  rewrite (plain_sized 128 ("pcm-discontinuity:" +:+ stage +:+ ":" +:+ int_str i)); [|by rewrite !plain_append, Hd, Hp|
    rewrite !strlen_append; change (strlen "pcm-discontinuity:") with 18; change (strlen ":") with 1; lia].
  rewrite (plain_sized 255 stage) by (done || lia).
  change (bool_decide ("pipeline" ∈ TIMELINE_CATEGORIES)) with true. change (sized 128 "stage.pcm_discontinuity_detected") with true.
  change (sized 64 "control_plane_wall") with true. change (sized 128 "pcm_adjacent_delta_detector") with true. cbn [andb].
  unfold attributes_ok. cbn [forallb andb]. unfold attribute_ok at 1. cbn [fst snd attribute_type]. rewrite Ha.
  unfold attribute_ok at 1. cbn [fst snd attribute_type]. rewrite Hm. vm_compute. reflexivity.
Qed.

Lemma record_stage_spec stage output rate frame_count points ts o B k :
  even_length output = true -> 8000 <= rate -> 0 <= B -> B + 65536 < 2 ^ fprec -> len output <= 65535 -> tame B o ->
  plain stage = true -> 1 <= strlen stage <= 64 -> py_int frame_count = Ok k -> 0 <= k <= 32768 ->
  exists o' events, record_stage stage output rate 1 frame_count points true ts o = (Ok tt, o') /\ tame (B + 32768) o'
  /\ stage_recorded stage output rate points ts o o' events.
Proof.
  intros He Hr HB HBmax Hlen Ht Hplain Hsl Hk Hkr. unfold record_stage. cbv zeta.
  set (same := match dict_get stage (ob_stage_pcm_state o) with Some p => _ | None => None end).
  assert (match same with Some p => (len (sp_final p) <= 1 /\ Forall (fun v => int16_ok v = true) (sp_final p)) /\ 0 <= sp_frames p <= B | None => True end) as Hsame.
  { unfold same. destruct (dict_get stage (ob_stage_pcm_state o)) as [p|] eqn:Ep; [|done].
    destruct (_ && _) eqn:Eb; [|done]. apply andb_true_iff in Eb as [_ Hc%Z.eqb_eq]. by apply (tame_stages B o Ht stage). }
  set (previous := match same with Some p => match sp_final p with [] => None | _ => Some (sp_final p) end | None => None end).
  assert (match previous with Some p => len p = 1 /\ Forall (fun v => int16_ok v = true) p | None => True end) as Hprev.
  { unfold previous. destruct same as [p|]; [|done]. destruct (sp_final p) as [|v l] eqn:Ef; [done|]. destruct Hsame as [[Hl Hf] _].
    split; [|done]. rewrite len_cons in *. pose proof (len_nonneg l). lia. }
  destruct (detect_total output previous He Hprev) as (found & -> & Hfound). cbn [mbind result_bind].
  set (offset := match same with Some p => sp_frames p | None => 0 end).
  assert (0 <= offset <= B) as Hoff by (unfold offset; destruct same as [p|]; [tauto|lia]).
  pose proof (tame_ordinal B o Ht) as Hord. set (i := ob_discontinuity_ordinal o) in *.
  set (incident := match found with Some d => _ | None => _ end).
  assert (exists ev last, incident = Ok (ev, last) /\ match ev with
    | None => True | Some e => exists at_ms d, e = discontinuity_event stage i at_ms d rate 1 ts /\ event_ok e = true end) as (ev & last & -> & Hev).
  { unfold incident. destruct found as [d|]; [|by eexists _, _]. destruct (Hfound d eq_refl) as [Hd Hm]. unfold media_time.
    destruct (milliseconds (offset + dc_frame d) rate) as (x & y & -> & Ey); [lia|done|]. cbn [mbind result_bind]. rewrite Ey.
    destruct (past_dedup _ _); (eexists _, _; split; [reflexivity|]); [|done]. exists (Fin y), d. split; [done|].
    apply discontinuity_ok; [exact Hplain|exact Hsl|unfold fprec in *; lia|reflexivity|exact Hm]. }
  cbn [mbind result_bind]. rewrite Hk. cbn [mbind result_bind].
  exists (MkObserver (ob_run_id o)
    (obs_app (ob_pending (append_pending (only_metrics points) o))
       (MkObservations [] (if true && negb (bool_decide (output = [])) then [MkAudioChunk stage output rate 1 ts] else []) [] []
          (match ev with Some e => [e] | None => [] end)))
    (ob_rtp_packet_ordinal o) (ob_rtp_capture_health_ordinal o) (i + len (match ev with Some e => [e] | None => [] end))
    (dict_set stage (MkStageState rate 1 (match output with [] => match same with Some p => sp_final p | None => [] end
       | _ => _pcm_s16le_final_frame output 1 end) (offset + k) last) (ob_stage_pcm_state o))), (match ev with Some e => [e] | None => [] end).
  split; [done|]. split.
  - constructor; [|cbn [ob_discontinuity_ordinal]; fold i; destruct ev; unfold len; cbn [length]; lia]. intros stage' p. cbn [ob_stage_pcm_state]. rewrite dict_get_set.
    case_decide as Es; [intros [= <-] _|intros Hp Hc; destruct (tame_stages B o Ht stage' p Hp Hc); split; [done|lia]].
    cbn [sp_final sp_frames]. split; [|lia]. destruct output as [|b output]; [destruct same as [p|]; [tauto|by split]|].
    split; [by apply final_frame_mono|]. unfold _pcm_s16le_final_frame. apply unpack16_range.
  - constructor.
    + cbn [ob_pending append_pending with_pending only_metrics]. unfold obs_app; cbn. rewrite !app_nil_r. by destruct (bool_decide (output = [])).
    + cbn [ob_discontinuity_ordinal]. fold i. replace (i + _ - i) with (len (match ev with Some e => [e] | None => [] end)) by lia.
      destruct ev as [e|]; [|done]. destruct Hev as (at_ms & d & -> & _). done.
    + cbn [ob_discontinuity_ordinal]. fold i. unfold len. lia.
    + destruct ev as [e|]; [|done]. destruct Hev as (at_ms & d & -> & _). by constructor.
    + destruct ev as [e|]; [|done]. destruct Hev as (at_ms & d & _ & Hok). by constructor.
Qed.

(** The metrics of a stage, measured at [ts]. *)
Definition measured_at (ts : datetime) (points : list MetricPoint) : Prop :=
  Forall (fun m => metric_ok m = true /\ mp_ts m = ts) points.

Lemma stage_metrics_ok stage ts v1 v2 v3 v4 v5 v6 v7 gain : plain stage = true ->
  forallb is_finite [v1; v2; v3; v4; v5; v6; v7] = true -> match gain with Some g => is_finite g = true | None => True end ->
  measured_at ts (stage_metrics stage ts v1 v2 v3 v4 v5 v6 v7 gain).
Proof.
  intros Hp%plain_reference Hv Hg. cbn [forallb] in Hv. repeat apply andb_true_iff in Hv as [? Hv].
  unfold measured_at, stage_metrics. cbn [app].
  assert (forall name v, reference_ok name = true -> is_finite v = true ->
    metric_ok (MkMetricPoint name v (Some stage) ts) = true /\ mp_ts (MkMetricPoint name v (Some stage) ts) = ts) as Hm.
  { intros name v Hn Hf. split; [|done]. unfold metric_ok. cbn [mp_stage mp_name mp_value opt_ok]. by rewrite Hp, Hn, Hf. }
  repeat (constructor; [apply Hm; [reflexivity|assumption]|]). destruct gain as [g|]; [|constructor].
  constructor; [apply Hm; [reflexivity|assumption]|constructor].
Qed.

Lemma duration_finite k rate : 0 <= k <= 32768 -> 8000 <= rate < 2 ^ fprec ->
  exists r x y, float_of_int rate = Ok r /\ fdiv (fz k) r = Ok (Fin x) /\ fmul (Fin x) (fz 1000) = Fin y.
Proof.
  intros Hk Hr. rewrite float_of_int_fz by lia. destruct (fz_exact rate) as (q & Hq & Hqe); [lia|].
  destruct (fz_exact k) as (p & Hp & Hpe); [unfold fprec in *; lia|]. rewrite Hq, Hp. exists (Fin q). cbn [fdiv].
  assert (0 < inject_Z rate)%Q as Hpos by (apply whole_positive; lia).
  destruct (Qeq_bool q 0) eqn:E; [apply Qeq_bool_iff in E; lra|].
  assert (inject_Z 0 <= p / q <= inject_Z 32768)%Q as Hb.
  { assert (inject_Z 1 <= inject_Z rate)%Q as H1 by (rewrite <- Zle_Qle; lia). change (inject_Z 1) with 1%Q in H1.
    assert (0 <= inject_Z k)%Q as H0 by (change 0%Q with (inject_Z 0); rewrite <- Zle_Qle; lia).
    assert (inject_Z k <= inject_Z 32768)%Q as H2 by (rewrite <- Zle_Qle; lia). change (inject_Z 32768) with (32768 # 1) in *.
    change (inject_Z 0) with 0%Q. split; [apply Qle_shift_div_l | apply Qle_shift_div_r]; lra. }
  destruct (fl_bounded_int _ 0 32768 ltac:(unfold fprec; lia) ltac:(unfold fprec; lia) Hb) as (x & -> & Hx). exists x.
  destruct (fz_exact 1000) as (t & -> & Ht); [unfold fprec; lia|]. cbn [fmul].
  change (inject_Z 0) with 0%Q in Hx. change (inject_Z 32768) with (32768 # 1) in Hx. change (inject_Z 1000) with (1000 # 1) in Ht.
  destruct (fl_bounded_int (x * t) 0 32768000 ltac:(unfold fprec; lia) ltac:(unfold fprec; lia)) as (y & -> & _); [|by exists y].
  change (inject_Z 0) with 0%Q. change (inject_Z 32768000) with (32768000 # 1). rewrite Ht. lra.
Qed.

Lemma observe_stage_spec log10 stage input output rate gain ts o B : log10_bounded log10 ->
  even_length input = true -> even_length output = true -> len input <= 65535 -> len output <= 65535 -> 8000 <= rate < 2 ^ fprec ->
  0 <= B -> B + 65536 < 2 ^ fprec -> tame B o -> plain stage = true -> 1 <= strlen stage <= 64 ->
  match gain with Some g => is_finite g = true | None => True end ->
  exists o' points events, observe_stage_audio log10 stage input output rate 1 gain true ts o = (Ok tt, o')
  /\ tame (B + 32768) o' /\ stage_recorded stage output rate points ts o o' events /\ measured_at ts points.
Proof.
  intros Hlog Hi Ho Hil Hol Hr HB HBmax Ht Hp Hsl Hg. unfold observe_stage_audio, mbind, st_bind, lift.
  rewrite (proj2 (Z.ltb_lt 0 rate)) by lia. change (0 <? 1) with true. change (2 * 1) with 2. pose proof Ho as Ho'.
  unfold even_length in Ho. rewrite Ho. cbn [guard_else].
  destruct (rms_range input Hi Hil) as (r1 & -> & Hr1), (rms_range output Ho' Hol) as (r2 & -> & Hr2). cbn [result_bind].
  destruct (quality_finite log10 Hlog output Ho') as (peak & full & silent & -> & Hpk & Hfu & Hsi). cbn [result_bind].
  pose proof (len_nonneg output). pose proof (Z.div_mod (len output) 2). pose proof (Z.mod_pos_bound (len output) 2).
  assert (0 <= len output / 2 <= 32768) as Hk by lia.
  destruct (whole_frames (len output / 2)) as (x & Hx & Hxi & Hxf); [unfold fprec; lia|]. rewrite Hx. cbn [result_bind].
  destruct (duration_finite (len output / 2) rate Hk Hr) as (r & q & y & -> & Hd & Hy). cbn [result_bind].
  rewrite <- Hxf, Hd. cbn [result_bind].
  destruct (delta_finite log10 Hlog r1 r2 Hr1 Hr2) as (d & -> & Hdf). cbn [result_bind fst snd]. rewrite Hy, Hxf.
  set (points := stage_metrics stage ts _ _ _ _ _ _ _ gain).
  destruct (record_stage_spec stage output rate (Fin x) points ts o B (len output / 2)) as (o' & events & -> & Ht' & Hs);
    [exact Ho'|lia|lia|exact HBmax|exact Hol|exact Ht|exact Hp|exact Hsl|exact Hxi|exact Hk|].
  exists o', points, events. do 3 (split; [done|]). apply stage_metrics_ok; [done| |done]. cbn [forallb]. by rewrite Hdf, Hpk, Hfu, Hsi.
Qed.

(** What was recorded can be sent, when the rate is one of the API. *)
Lemma recorded_sendable stage output rate points ts o o' events : stage_recorded stage output rate points ts o o' events ->
  measured_at ts points -> plain stage = true -> even_length output = true -> len output <= 65535 -> rate_ok rate = true ->
  sendable (MkObservations points (if bool_decide (output = []) then [] else [MkAudioChunk stage output rate 1 ts]) [] [] events).
Proof.
  intros [_ _ _ He] Hm Hp Hev Hl Hr. constructor; cbn [Observer.metrics audio_chunks Observer.sip_events Observer.rtp_stats Observer.timeline_events].
  - eapply Forall_impl; [exact Hm|]. by intros m [? _].
  - destruct (bool_decide (output = [])) eqn:E; constructor; [|constructor]. unfold chunk_ok.
    cbn [ac_stage ac_pcm_s16le ac_sample_rate_hz ac_channels]. rewrite (plain_reference stage Hp), Hr, E. rewrite (proj2 (Z.leb_le _ _)) by lia.
    unfold even_length in Hev. change (2 * 1) with 2. by rewrite Hev.
  - constructor.
  - constructor.
  - done.
Qed.
