(* ===== verification/Loopback.v ===== *)
(** * The loopback bridge

    [LoopbackCallSession] and [AudioSocketLoopbackServer] of
    [telephony/audiosocket.py]: caller audio goes through the observed stages
    of the call and back to the caller.  The readings of the clocks, the
    progress of the flush tasks and the answers of the control plane are
    arguments.  A flush in the background is one step, at the start of its
    task: it takes what is pending then, and what the session observes while
    the task runs stays behind what the task took, sent or not. *)
From S2P Require Import Prelude Effects Collections PyFloat PyData Bytes Observer AudioSocket CallSession AudioServer ObservationWire StageEvidence.

Open Scope Z_scope.

(** ** The session *)

Record loopback_config := MkLoopbackConfig {
  lb_call_id : string; lb_target_rms : float; lb_max_gain : float; lb_noise_floor : float; lb_ceiling : float; lb_interval : float }.

(** [lb_task] is how the last flush task ended; [lb_delivered] and
    [lb_completed] are what the control plane got: the batches it accepted and
    the calls of [complete_run]. *)
Record loopback := MkLoopback {
  lb_config : loopback_config; lb_observer : VoxBenchObserver; lb_flush : flush_state; lb_task : result unit;
  lb_ticks : nat; lb_delivered : list Observations; lb_completed : Z }.

(** A new session; its first flush is due a quarter of a second after [started]. *)
Definition new_loopback (cfg : loopback_config) (observer : VoxBenchObserver) (started : float) : loopback :=
  MkLoopback cfg observer (MkFlush (fadd started (flit 25 100)) 0) (Ok tt) 0 [] 0.

Definition lb_tick (s : loopback) : loopback :=
  MkLoopback (lb_config s) (lb_observer s) (lb_flush s) (lb_task s) (S (lb_ticks s)) (lb_delivered s) (lb_completed s).
Definition lb_set_observer (o : VoxBenchObserver) (s : loopback) : loopback :=
  MkLoopback (lb_config s) o (lb_flush s) (lb_task s) (lb_ticks s) (lb_delivered s) (lb_completed s).
Definition lb_set_flush (f : flush_state) (task : result unit) (s : loopback) : loopback :=
  MkLoopback (lb_config s) (lb_observer s) f task (lb_ticks s) (lb_delivered s) (lb_completed s).

Section session.
(** [accepts n k]: the control plane accepts the [k]-th batch of the [n]-th
    flush; [complete_answer] is its answer to [complete_run]. *)
Context (log10 : float -> float) (now : nat -> datetime) (monotonic : nat -> float) (flush_done : nat -> bool)
  (accepts : nat -> nat -> bool) (complete_answer : result unit).

Definition lb_now : st loopback datetime := fun s => (Ok (now (lb_ticks s)), lb_tick s).

(** A call of the observer. *)
Definition lb_observing (m : st VoxBenchObserver unit) : st loopback unit := fun s =>
  let r := m (lb_observer s) in (r.1, lb_set_observer r.2 s).

Definition lb_stage (stage : string) (input output : bytes) (rate : Z) (gain : option float) : st loopback unit :=
  ts ← lb_now;
  lb_observing (observe_stage_audio log10 stage input output rate 1 gain true ts).

Definition lb_sip (method summary_alias : string) (call : string) : st loopback unit :=
  ts ← lb_now;
  lb_observing (modify (observe_sip_event (MkSipEventObs method "in" (Some call) None (Some summary_alias) ts))).

Definition observe_dtmf : st loopback unit :=
  ts ← lb_now; lb_observing (modify (observe_metric "dtmf_events" (fz 1) None ts)).

(** [self.observer.flush], the [n]-th of the session. *)
Definition lb_run_flush (n : nat) : st loopback unit := fun s =>
  let '(delivered, (r, o)) := flush (fun k => MkSend (accepts n k) no_observations) (lb_observer s) in
  ((_ ← r; Ok tt),
   MkLoopback (lb_config s) o (lb_flush s) (lb_task s) (lb_ticks s) (lb_delivered s ++ delivered) (lb_completed s)).

Definition lb_schedule_flush_if_due : st loopback unit := fun s =>
  let at_ := monotonic (lb_ticks s) in
  let s := lb_tick s in
  let f := lb_flush s in
  (Ok tt,
   if fltb at_ (_next_flush_at f) then s
   else
     let next := fadd at_ (lb_interval (lb_config s)) in
     if (flushes_started f =? 0)%nat || flush_done (lb_ticks s)
     then let r := lb_run_flush (flushes_started f) s in lb_set_flush (MkFlush next (S (flushes_started f))) r.1 r.2
     else lb_set_flush (MkFlush next (flushes_started f)) (lb_task s) s).

Definition process_audio (frame_type : Z) (pcm : bytes) : st loopback bytes :=
  rate ← lift (from_option_err (dict_get frame_type AUDIO_TYPE_SAMPLE_RATES) KeyError (int_str frame_type));
  _ ← lb_stage "resampler" pcm pcm rate None;
  s ← get_state;
  let cfg := lb_config s in
  agc ← lift (apply_agc pcm (lb_target_rms cfg) (lb_max_gain cfg) (lb_noise_floor cfg));
  _ ← lb_stage "agc" pcm agc.1 rate (Some agc.2);
  limited ← lift (apply_limiter agc.1 (lb_ceiling cfg));
  _ ← lb_stage "limiter" agc.1 limited rate None;
  _ ← lb_stage "serializer" limited limited rate None;
  _ ← lb_schedule_flush_if_due;
  mret limited.

Definition lb_complete : st loopback unit := fun s =>
  (complete_answer,
   MkLoopback (lb_config s) (lb_observer s) (lb_flush s) (lb_task s) (lb_ticks s) (lb_delivered s) (lb_completed s + 1)).

Definition loopback_close : st loopback unit :=
  s ← get_state;
  _ ← lb_sip "BYE" "audiosocket-call-ended" (lb_call_id (lb_config s));
  _ ← (if (flushes_started (lb_flush s) =? 0)%nat then mret tt else lift (lb_task s));
  _ ← lb_run_flush (flushes_started (lb_flush s));
  lb_complete.

(** ** The connection *)

Definition text_bytes (t : string) : bytes := map (fun c => byte_of (code c)) (chars t).

(** The [while True] loop: how it ended, what was written and the session. *)
Fixpoint serve_loopback (fuel : nat) (reader written : bytes) (s : loopback) : result unit * bytes * loopback :=
  match fuel with
  | O => (Raise OtherError "fuel", written, s)
  | S fuel' =>
      match read_frame reader with
      | (Raise c m, _) => (Raise c m, written, s)
      | (Ok None, _) => (Ok tt, written, s)
      | (Ok (Some f), rest) =>
          let t := frame_type f in let p := payload f in
          if t =? TYPE_TERMINATE then (Ok tt, written, s)
          else if is_audio_type t then
            if odd_payload p then (write_frame TYPE_ERROR (text_bytes "invalid-pcm") written, s)
            else
              match process_audio t p s with
              | (Raise c m, s) => (Raise c m, written, s)
              | (Ok output, s) =>
                  match write_frame t output written with
                  | (Raise c m, written) => (Raise c m, written, s)
                  | (Ok _, written) => serve_loopback fuel' rest written s
                  end
              end
          else if (t =? TYPE_DTMF) && (len p =? 1) then serve_loopback fuel' rest written (observe_dtmf s).2
          else if t =? TYPE_ERROR then (Ok tt, written, s)
          else serve_loopback fuel' rest written s
      end
  end.

(** What a connection did: the exception it ended with, if any, the bytes
    written to the caller and the session, if there was one. *)
Record loopback_outcome := MkLoopOutcome { lo_result : result unit; lo_written : bytes; lo_session : option loopback }.

Definition handle_loopback (session_factory : Z -> result loopback) (reader : bytes) : loopback_outcome :=
  match read_frame reader with
  | (Raise e m, _) => MkLoopOutcome (Raise e m) [] None
  | (Ok None, _) => MkLoopOutcome (Ok tt) [] None
  | (Ok (Some identity), rest) =>
      if negb (frame_type identity =? TYPE_UUID) || negb (len (payload identity) =? 16)
      then let r := write_frame TYPE_ERROR (text_bytes "invalid-uuid") [] in MkLoopOutcome r.1 r.2 None
      else
        let call_uuid := from_bytes_big (payload identity) in
        match session_factory call_uuid with
        | Raise e m => MkLoopOutcome (Raise e m) [] None
        | Ok s =>
            let s := (lb_sip "INVITE" "asterisk-audiosocket-connected" (uuid_str call_uuid) s).2 in
            let '(r, written, s) := serve_loopback (S (length rest)) rest [] s in
            let '(ended, s) := loopback_close s in
            MkLoopOutcome (match ended with Raise e m => Raise e m | Ok _ => r end) written (Some s)
        end
  end.
End session.

(** ** One chunk of audio *)

(** What the AGC and the limiter make of a chunk. *)
Definition levels (cfg : loopback_config) (pcm : bytes) : bytes :=
  match apply_agc pcm (lb_target_rms cfg) (lb_max_gain cfg) (lb_noise_floor cfg) with
  | Ok (agc, _) => match apply_limiter agc (lb_ceiling cfg) with Ok limited => limited | Raise _ _ => [] end
  | Raise _ _ => []
  end.

(** The settings the level control is made for. *)
Record leveled (cfg : loopback_config) (t g c : QArith_base.Q) : Prop := {
  lv_target : lb_target_rms cfg = Fin t /\ QArith_base.Qle (QArith_base.inject_Z 0) t;
  lv_gain : lb_max_gain cfg = Fin g /\ QArith_base.Qle (QArith_base.inject_Z 0) g /\ QArith_base.Qle g (QArith_base.inject_Z 1000000);
  lv_ceiling : lb_ceiling cfg = Fin c /\ QArith_base.Qlt (QArith_base.inject_Z 0) c /\ QArith_base.Qle c (QArith_base.inject_Z 1) }.

(** What a chunk is turned into: as many samples, within the ceiling, none of
    the opposite sign. *)
Definition levelled (c : QArith_base.Q) (pcm out : bytes) : Prop :=
  len out = len pcm /\ Forall2 keeps_sign (unpack16 pcm) (unpack16 out)
  /\ exists L, py_round (fmul (fz 32767) (Fin c)) = Ok L /\ 0 <= L <= 32767 /\ Forall (within L) (unpack16 out).

(** What the AGC makes of a chunk. *)
Definition gained (cfg : loopback_config) (pcm : bytes) : bytes :=
  match apply_agc pcm (lb_target_rms cfg) (lb_max_gain cfg) (lb_noise_floor cfg) with Ok (agc, _) => agc | Raise _ _ => [] end.

Lemma levels_spec cfg t g c pcm : leveled cfg t g c -> even_length pcm = true ->
  exists gain, apply_agc pcm (lb_target_rms cfg) (lb_max_gain cfg) (lb_noise_floor cfg) = Ok (gained cfg pcm, gain)
  /\ is_finite gain = true /\ even_length (gained cfg pcm) = true /\ len (gained cfg pcm) = len pcm
  /\ apply_limiter (gained cfg pcm) (lb_ceiling cfg) = Ok (levels cfg pcm)
  /\ even_length (levels cfg pcm) = true /\ levelled c pcm (levels cfg pcm).
Proof.
  intros [[Et Ht] [Eg Hg] [Ec Hc]] He. unfold levels, gained. rewrite Et, Eg, Ec.
  destruct (level_control_bounds pcm t g c (lb_noise_floor cfg) He Ht Hg Hc)
    as (agc & gain & limited & L & Ha & Hgain & Hl & HL & HLb & Hlen & Hsign & Hwithin & _).
  destruct (agc_spec pcm t g (lb_noise_floor cfg) He Ht Hg) as (agc' & gain' & Ha' & Hea & Hla & _).
  assert (agc' = agc) as -> by congruence. destruct (limiter_spec agc c Hea Hc) as (L' & limited' & _ & _ & Hl' & _ & Hel & _).
  assert (limited' = limited) as -> by congruence.
  exists gain. rewrite Ha, Hl. split; [reflexivity|]. split; [destruct Hgain as [[_ ->]|(q & -> & _)]; [vm_compute; reflexivity|reflexivity]|].
  split; [exact Hea|]. split; [exact Hla|].
  split; [reflexivity|]. split; [exact Hel|]. split; [exact Hlen|]. split; [exact Hsign|].
  exists L. split; [exact HL|]. split; [exact HLb|exact Hwithin].
Qed.

(** ** What the control plane and the observer hold *)

(** Everything a session observed: what was delivered, then what is pending. *)
Definition history (s : loopback) : Observations :=
  obs_app (_merge_observation_batches (lb_delivered s)) (ob_pending (lb_observer s)).

Definition event_ids_of (b : Observations) : list string := map te_event_id (timeline_events b).

(** The audio recorded for a stage. *)
Definition stage_audio (stage : string) (b : Observations) : bytes :=
  concat (map ac_pcm_s16le (filterb (fun c => String.eqb (ac_stage c) stage) (audio_chunks b))).

(** The methods of the SIP events. *)
Definition methods (b : Observations) : list string := map se_method (sip_events b).

Lemma stage_audio_app stage a b : stage_audio stage (obs_app a b) = stage_audio stage a ++ stage_audio stage b.
Proof. unfold stage_audio, filterb. cbn. by rewrite List.filter_app, map_app, concat_app. Qed.

Lemma event_ids_app a b : event_ids_of (obs_app a b) = event_ids_of a ++ event_ids_of b.
Proof. unfold event_ids_of. cbn. by rewrite map_app. Qed.

Lemma times_app a b (Q : datetime -> Prop) : Forall Q (times (obs_app a b)) <-> Forall Q (times a) /\ Forall Q (times b).
Proof. unfold times. cbn. rewrite !map_app, !Forall_app. tauto. Qed.

Lemma nothing_arrived plan from n : (forall i, meanwhile (plan i) = no_observations) -> arrived plan from n = no_observations.
Proof.
  intros Hm. unfold arrived. revert from. induction n as [|n IH]; intros from; [done|]. cbn [seq map]. by rewrite merge_cons, Hm, IH.
Qed.

(** A flush changes nothing but what is pending. *)
Lemma send_batches_kept plan l : forall index sent o delivered r o', send_batches plan index l sent o = (delivered, (r, o')) ->
  ob_stage_pcm_state o' = ob_stage_pcm_state o /\ ob_discontinuity_ordinal o' = ob_discontinuity_ordinal o.
Proof.
  induction l as [|b l IH]; intros index sent o delivered r o'; cbn [send_batches]; [by intros [= <- <- <-]|].
  destruct (send_ok (plan index)); [|by intros [= <- <- <-]].
  destruct (send_batches _ _ _ _ _) as [d [r1 o1]] eqn:E. intros [= <- <- <-]. by apply IH in E.
Qed.

(** A flush whose sends meet no new observations. *)
Lemma flush_alone plan o delivered r o' : (forall n, meanwhile (plan n) = no_observations) -> flush plan o = (delivered, (r, o')) ->
  obs_app (_merge_observation_batches delivered) (ob_pending o') = ob_pending o
  /\ Forall (fun b => within_limits b /\ item_count b <> 0) delivered
  /\ (ob_stage_pcm_state o' = ob_stage_pcm_state o /\ ob_discontinuity_ordinal o' = ob_discontinuity_ordinal o)
  /\ (is_ok r = true -> ob_pending o' = no_observations)
  /\ ((forall n, send_ok (plan n) = true) -> is_ok r = true)
  /\ (send_ok (plan 0%nat) = false -> item_count (ob_pending o) <> 0 -> is_ok r = false).
Proof.
  intros Hm. unfold flush. destruct (item_count (ob_pending o) =? 0) eqn:E.
  - intros [= <- <- <-]. apply Z.eqb_eq in E. pose proof (item_count_zero _ E) as Ep. rewrite Ep. split_and!; try done.
  - intros H. pose proof (send_batches_kept _ _ _ _ _ _ _ _ H) as Hk.
    destruct (send_batches_spec _ _ _ _ _ _ _ _ H) as (rest & n & Hb & Hp & _ & Hr). rewrite nothing_arrived in Hp by done.
    cbn [ob_pending with_pending] in Hp. rewrite obs_app_nil_l, obs_app_nil_r in Hp.
    pose proof (merge_bounded (ob_pending o)) as Hmerge. rewrite Hb, merge_app, Hp in Hmerge. split_and!.
    + done.
    + apply Forall_forall. intros b Hin. apply (bounded_within (ob_pending o)). rewrite Hb. apply elem_of_app. by left.
    + apply Hk.
    + apply Hk.
    + destruct r; [|done]. intros _. destruct Hr as [-> _]. by rewrite <- Hp.
    + intros Hok. destruct r; [done|]. destruct Hr as [_ Hr]. by rewrite Hok in Hr.
    + intros Hf Hi. destruct (_bounded_observation_batches (ob_pending o)) as [|b l] eqn:Eb.
      * exfalso. apply Hi. rewrite <- (merge_bounded (ob_pending o)), Eb. done.
      * cbn [send_batches] in H. rewrite Hf in H. by injection H as _ <- _.
Qed.

Section observed.
Context (log10 : float -> float) (now : nat -> datetime) (monotonic : nat -> float) (flush_done : nat -> bool)
  (accepts : nat -> nat -> bool).

(** The session at any time of the call. *)
Record running (B : Z) (s : loopback) : Prop := {
  rn_tame : tame B (lb_observer s);
  rn_ids : event_ids_of (history s) = map discontinuity_id (seqZ 0 (ob_discontinuity_ordinal (lb_observer s)));
  rn_batches : Forall (fun b => within_limits b /\ item_count b <> 0) (lb_delivered s);
  rn_task : (forall n k, accepts n k = true) -> lb_task s = Ok tt }.

(** A step from [s] to [s'] that observed [added]. *)
Record observes (s s' : loopback) (added : Observations) : Prop := {
  ob_config : lb_config s' = lb_config s; ob_completed : lb_completed s' = lb_completed s;
  ob_history : history s' = obs_app (history s) added }.

Lemma observes_none s : observes s s no_observations.
Proof. constructor; [done..|]. by rewrite obs_app_nil_r. Qed.

Lemma observes_app s1 s2 s3 a b : observes s1 s2 a -> observes s2 s3 b -> observes s1 s3 (obs_app a b).
Proof. intros [H1 H2 H3] [H4 H5 H6]. constructor; [congruence..|]. by rewrite H6, H3, obs_app_assoc. Qed.

Lemma run_flush_spec n s B : running B s -> exists r s', lb_run_flush accepts n s = (r, s') /\ running B s' /\ observes s s' no_observations
  /\ lb_task s' = lb_task s /\ lb_ticks s' = lb_ticks s
  /\ (is_ok r = true -> ob_pending (lb_observer s') = no_observations)
  /\ ((forall k, accepts n k = true) -> r = Ok tt)
  /\ (accepts n 0%nat = false -> item_count (ob_pending (lb_observer s)) <> 0 -> is_ok r = false).
Proof.
  intros [Ht Hi Hb Hk]. unfold lb_run_flush. set (plan := fun k => MkSend (accepts n k) no_observations).
  destruct (flush plan (lb_observer s)) as [delivered [r o]] eqn:E.
  destruct (flush_alone plan _ _ _ _ (fun _ => eq_refl) E) as (Hh & Hd & [Hs Ho] & Hok & Hgood & Hbad).
  eexists _, _. split; [reflexivity|].
  assert (forall f t c x, history (MkLoopback (lb_config s) o f t x (lb_delivered s ++ delivered) c) = history s) as Hhist.
  { intros. unfold history. cbn. rewrite merge_app, obs_app_assoc, Hh. done. }
  split; [constructor; cbn [lb_observer lb_delivered lb_task]|split; [constructor; [done..|]|]].
  - destruct Ht as [T1 T2]. constructor; [by rewrite Hs|by rewrite Ho].
  - by rewrite Hhist, Ho.
  - by apply Forall_app.
  - done.
  - by rewrite Hhist, obs_app_nil_r.
  - split; [done|]. split; [done|]. cbn [lb_observer]. split; [|split].
    + intros Hr. apply Hok. by destruct r.
    + intros Ha. specialize (Hgood Ha). by destruct r.
    + intros Ha Hc. specialize (Hbad Ha Hc). by destruct r.
Qed.

(** Recording something outside the stages. *)
Lemma record_running B s p : event_ids_of p = [] -> running B s ->
  let s' := lb_set_observer (append_pending p (lb_observer s)) (lb_tick s) in running B s' /\ observes s s' p.
Proof.
  intros Hp [Ht Hi Hb Hk] s'. assert (history s' = obs_app (history s) p) as Hh by (unfold history; cbn; by rewrite obs_app_assoc).
  split; [|by constructor]. constructor; [by destruct Ht| |done|done]. rewrite Hh, event_ids_app, Hp, app_nil_r. done.
Qed.

(** The SIP event a session reports. *)
Definition sip_seen (method alias call : string) (n : nat) : Observations :=
  MkObservations [] [] [MkSipEventObs method "in" (Some call) None (Some alias) (now n)] [] [].
Definition dtmf_seen (n : nat) : Observations := only_metrics [MkMetricPoint "dtmf_events" (fz 1) None (now n)].

Lemma lb_sip_spec B s method alias call : running B s -> exists s', lb_sip now method alias call s = (Ok tt, s') /\ running B s'
  /\ observes s s' (sip_seen method alias call (lb_ticks s)) /\ lb_task s' = lb_task s /\ lb_flush s' = lb_flush s.
Proof. intros Hr. eexists. split; [reflexivity|]. destruct (record_running B s (sip_seen method alias call (lb_ticks s)) eq_refl Hr). done. Qed.

Lemma observe_dtmf_spec B s : running B s -> exists s', observe_dtmf now s = (Ok tt, s') /\ running B s' /\ observes s s' (dtmf_seen (lb_ticks s)).
Proof. intros Hr. eexists. split; [reflexivity|]. by destruct (record_running B s (dtmf_seen (lb_ticks s)) eq_refl Hr). Qed.

Lemma running_mono B B' s : B <= B' -> running B s -> running B' s.
Proof. intros HB []. constructor; try done. by eapply tame_mono. Qed.

(** What one stage of a chunk adds. *)
Record stage_seen (stage : string) (output : bytes) (rate : Z) (added : Observations) : Prop := {
  ss_audio : audio_chunks added = [] /\ output = [] \/ exists n, audio_chunks added = [MkAudioChunk stage output rate 1 (now n)];
  ss_others : sip_events added = [] /\ rtp_stats added = [];
  ss_times : forall Q : datetime -> Prop, (forall n, Q (now n)) -> Forall Q (times added);
  ss_sendable : rate_ok rate = true -> sendable added }.

Lemma lb_stage_spec stage input output rate gain s B : log10_bounded log10 ->
  even_length input = true -> even_length output = true -> len input <= 65535 -> len output <= 65535 -> 8000 <= rate < 2 ^ fprec ->
  0 <= B -> B + 65536 < 2 ^ fprec -> running B s -> plain stage = true -> 1 <= strlen stage <= 64 ->
  match gain with Some g => is_finite g = true | None => True end ->
  exists s' added, lb_stage log10 now stage input output rate gain s = (Ok tt, s') /\ running (B + 32768) s'
  /\ observes s s' added /\ stage_seen stage output rate added.
Proof.
  intros Hlog Hi Ho Hil Hol Hr HB HBmax [Ht Hid Hb Hk] Hp Hsl Hg. unfold lb_stage, lb_now, lb_observing, mbind, st_bind. cbn [lb_tick lb_observer].
  destruct (observe_stage_spec log10 stage input output rate gain (now (lb_ticks s)) (lb_observer s) B Hlog Hi Ho Hil Hol Hr HB HBmax Ht Hp Hsl Hg)
    as (o' & points & events & -> & Ht' & Hs & Hm).
  set (added := MkObservations points (if bool_decide (output = []) then [] else [MkAudioChunk stage output rate 1 (now (lb_ticks s))]) [] [] events).
  pose proof Hs as [Hpend Hids Hord Htimes _]. eexists _, added. split; [reflexivity|].
  match goal with |- running _ ?s' /\ _ => assert (history s' = obs_app (history s) added) as Hh by (unfold history; cbn; by rewrite Hpend, obs_app_assoc) end.
  split; [|split; [by constructor|]].
  - constructor; [done| |done|done]. rewrite Hh, event_ids_app, Hid. cbn [fst snd lb_observer lb_set_observer].
    change (event_ids_of added) with (map te_event_id events). rewrite Hids, <- map_app, <- seqZ_app.
    + do 2 f_equal. lia.
    + apply Ht.
    + cbn [fst snd lb_observer] in *. lia.
  - constructor.
    + cbn [audio_chunks added]. destruct (bool_decide_reflect (output = [])); [by left|right; by eexists].
    + done.
    + intros Q HQ. unfold times. cbn [added Observer.metrics audio_chunks sip_events rtp_stats timeline_events]. rewrite !Forall_app.
      split; [|split; [|split; [constructor|split; [constructor|]]]].
      * apply Forall_map. eapply Forall_impl; [exact Hm|]. intros m [_ ->]. apply HQ.
      * apply Forall_map. destruct (bool_decide (output = [])); [constructor|]. constructor; [apply HQ|constructor].
      * apply Forall_map. eapply Forall_impl; [exact Htimes|]. intros e ->. apply HQ.
    + intros Hrate. eapply recorded_sendable; done.
Qed.

Lemma schedule_flush_spec s B : running B s -> exists s', lb_schedule_flush_if_due monotonic flush_done accepts s = (Ok tt, s')
  /\ running B s' /\ observes s s' no_observations.
Proof.
  intros Hr. unfold lb_schedule_flush_if_due. set (s1 := lb_tick s).
  assert (running B s1) as H1 by (by destruct Hr). assert (observes s s1 no_observations) as O1 by (constructor; [done..|]; by rewrite obs_app_nil_r).
  eexists. split; [reflexivity|]. destruct (fltb _ _); [done|]. destruct (_ || _).
  - destruct (run_flush_spec (flushes_started (lb_flush s1)) s1 B H1) as (r & s2 & -> & H2 & O2 & _ & _ & _ & Hgood & _). cbn [fst snd].
    split; [|by destruct (observes_app s s1 s2 no_observations no_observations O1 O2)]. destruct H2 as [Ht Hi Hb _]. constructor; try done. auto.
  - split; [by destruct H1|by destruct O1].
Qed.

(** The audio the stage [stage] records for a chunk. *)
Definition tapped (cfg : loopback_config) (stage : string) (pcm : bytes) : bytes :=
  if String.eqb stage "resampler" then pcm else if String.eqb stage "agc" then gained cfg pcm
  else if String.eqb stage "limiter" || String.eqb stage "serializer" then levels cfg pcm else [].

Definition narrow (t : Z) : bool := match dict_get t AUDIO_TYPE_SAMPLE_RATES with Some rate => rate_ok rate | None => false end.

(** What the audio messages [l] of a call add. *)
Record call_seen (cfg : loopback_config) (l : list (Z * bytes)) (added : Observations) : Prop := {
  cs_audio : forall stage, stage_audio stage added = concat (map (fun m => tapped cfg stage m.2) l);
  cs_others : sip_events added = [] /\ rtp_stats added = [];
  cs_chunks : Forall (fun ch => exists t, t ∈ map fst l /\ dict_get t AUDIO_TYPE_SAMPLE_RATES = Some (ac_sample_rate_hz ch) /\ ac_channels ch = 1)
    (audio_chunks added);
  cs_times : forall Q : datetime -> Prop, (forall n, Q (now n)) -> Forall Q (times added);
  cs_sendable : forallb (fun m => narrow m.1) l = true -> sendable added }.

Lemma call_seen_app cfg l1 l2 a b : call_seen cfg l1 a -> call_seen cfg l2 b -> call_seen cfg (l1 ++ l2) (obs_app a b).
Proof.
  intros [A1 [O1 R1] C1 T1 S1] [A2 [O2 R2] C2 T2 S2]. constructor.
  - intros stage. by rewrite stage_audio_app, A1, A2, map_app, concat_app.
  - cbn. by rewrite O1, O2, R1, R2.
  - cbn. apply Forall_app. split; [eapply Forall_impl; [exact C1|]|eapply Forall_impl; [exact C2|]]; cbn; intros ch (t & Ht & H);
      exists t; rewrite map_app, elem_of_app; auto.
  - intros Q HQ. apply times_app. auto.
  - rewrite forallb_app. intros [H1 H2]%andb_true_iff. apply sendable_app; auto.
Qed.

Lemma call_seen_none cfg added : audio_chunks added = [] -> sip_events added = [] /\ rtp_stats added = [] ->
  (forall Q : datetime -> Prop, (forall n, Q (now n)) -> Forall Q (times added)) -> sendable added -> call_seen cfg [] added.
Proof. intros Ha Ho Ht Hs. constructor; try done; unfold stage_audio; by rewrite Ha. Qed.

Lemma nothing_seen cfg : call_seen cfg [] no_observations.
Proof. by apply call_seen_none. Qed.

Lemma dtmf_call_seen cfg n : call_seen cfg [] (dtmf_seen n).
Proof.
  apply call_seen_none; [done|done| |].
  - intros Q HQ. unfold times. cbn. constructor; [apply HQ|constructor].
  - constructor; try constructor; [vm_compute; reflexivity|constructor].
Qed.

Lemma audio_type_rate t : is_audio_type t = true -> exists rate, dict_get t AUDIO_TYPE_SAMPLE_RATES = Some rate /\ 8000 <= rate < 2 ^ fprec.
Proof.
  unfold is_audio_type, dict_mem, AUDIO_TYPE_SAMPLE_RATES. cbn [dict_get]. intros H. unfold fprec.
  repeat (case_decide; [eexists; split; [reflexivity|lia]|]). done.
Qed.

Lemma stage_seen_audio st stage output rate added : stage_seen stage output rate added ->
  stage_audio st added = if String.eqb stage st then output else [].
Proof.
  intros [[[Ha ->]|(n & Ha)] _ _ _]; unfold stage_audio; rewrite Ha; cbn; [by destruct (String.eqb stage st)|].
  destruct (String.eqb stage st); cbn; by rewrite ?app_nil_r.
Qed.

(** The four stages of a chunk. *)
Lemma chunk_seen cfg t rate pcm a1 a2 a3 a4 : dict_get t AUDIO_TYPE_SAMPLE_RATES = Some rate ->
  stage_seen "resampler" pcm rate a1 -> stage_seen "agc" (gained cfg pcm) rate a2 -> stage_seen "limiter" (levels cfg pcm) rate a3 ->
  stage_seen "serializer" (levels cfg pcm) rate a4 -> call_seen cfg [(t, pcm)] (obs_app (obs_app (obs_app a1 a2) a3) a4).
Proof.
  intros Hrate H1 H2 H3 H4. constructor.
  - intros st. rewrite !stage_audio_app, (stage_seen_audio st _ _ _ _ H1), (stage_seen_audio st _ _ _ _ H2), (stage_seen_audio st _ _ _ _ H3),
      (stage_seen_audio st _ _ _ _ H4). cbn [map concat snd]. rewrite app_nil_r. unfold tapped.
    rewrite !(String.eqb_sym _ st). destruct (String.eqb_spec st "resampler") as [->|]; [by rewrite !app_nil_r|].
    destruct (String.eqb_spec st "agc") as [->|]; [by rewrite !app_nil_r|].
    destruct (String.eqb_spec st "limiter") as [->|]; [by rewrite !app_nil_r|]. reflexivity.
  - destruct H1 as [_ [E1 F1] _ _], H2 as [_ [E2 F2] _ _], H3 as [_ [E3 F3] _ _], H4 as [_ [E4 F4] _ _].
    cbn. by rewrite E1, E2, E3, E4, F1, F2, F3, F4.
  - assert (forall stage output a, stage_seen stage output rate a ->
      Forall (fun ch => exists t', t' ∈ map fst [(t, pcm)] /\ dict_get t' AUDIO_TYPE_SAMPLE_RATES = Some (ac_sample_rate_hz ch) /\ ac_channels ch = 1)
        (audio_chunks a)) as Hc.
    { intros stage output a [[[-> _]|(n & ->)] _ _ _]; [constructor|]. constructor; [|constructor]. exists t. split; [left|done]. }
    cbn [obs_app audio_chunks]. rewrite !Forall_app. split_and!; by eapply Hc.
  - intros Q HQ. rewrite !times_app. destruct H1, H2, H3, H4. split_and!; auto.
  - cbn [forallb]. rewrite andb_true_r. unfold narrow. cbn [fst]. rewrite Hrate. intros Hok.
    destruct H1, H2, H3, H4. repeat apply sendable_app; auto.
Qed.

Lemma process_audio_spec t pcm s B q g c : log10_bounded log10 -> leveled (lb_config s) q g c -> is_audio_type t = true -> even_length pcm = true ->
  len pcm <= 65535 -> 0 <= B -> B + 196608 < 2 ^ fprec -> running B s ->
  exists s' added, process_audio log10 now monotonic flush_done accepts t pcm s = (Ok (levels (lb_config s) pcm), s')
  /\ running (B + 131072) s' /\ observes s s' added /\ call_seen (lb_config s) [(t, pcm)] added.
Proof.
  intros Hlog Hlv Ha He Hl HB Hmax Hr. destruct (audio_type_rate t Ha) as (rate & Erate & Hrate).
  destruct (levels_spec (lb_config s) q g c pcm Hlv He) as (gain & Hagc & Hfin & Hea & Hla & Hlim & Hel & Hlen & _).
  unfold process_audio. unfold mbind at 1, st_bind at 1, lift at 1. rewrite Erate. cbn [from_option_err].
  destruct (lb_stage_spec "resampler" pcm pcm rate None s B) as (s1 & a1 & E1 & R1 & O1 & S1); [done || lia..|].
  rewrite (st_bind_eq _ _ _ _ _ E1). unfold mbind at 1, st_bind at 1, get_state at 1.
  unfold mbind at 1, st_bind at 1, lift at 1. rewrite (ob_config _ _ _ O1), Hagc. cbn [fst snd].
  destruct (lb_stage_spec "agc" pcm (gained (lb_config s) pcm) rate (Some gain) s1 (B + 32768)) as (s2 & a2 & E2 & R2 & O2 & S2); [done || lia..|].
  rewrite (st_bind_eq _ _ _ _ _ E2). unfold mbind at 1, st_bind at 1, lift at 1. rewrite Hlim.
  destruct (lb_stage_spec "limiter" (gained (lb_config s) pcm) (levels (lb_config s) pcm) rate None s2 (B + 32768 + 32768))
    as (s3 & a3 & E3 & R3 & O3 & S3); [done || lia..|].
  rewrite (st_bind_eq _ _ _ _ _ E3).
  destruct (lb_stage_spec "serializer" (levels (lb_config s) pcm) (levels (lb_config s) pcm) rate None s3 (B + 32768 + 32768 + 32768))
    as (s4 & a4 & E4 & R4 & O4 & S4); [done || lia..|].
  rewrite (st_bind_eq _ _ _ _ _ E4). destruct (schedule_flush_spec s4 _ R4) as (s5 & E5 & R5 & O5).
  rewrite (st_bind_eq _ _ _ _ _ E5). exists s5, (obs_app (obs_app (obs_app a1 a2) a3) a4). split; [done|]. split; [|split].
  - eapply running_mono; [|exact R5]. lia.
  - rewrite <- (obs_app_nil_r (obs_app _ a4)). eauto using observes_app.
  - by eapply chunk_seen.
Qed.
End observed.

(** ** The loop *)

(** What the caller gets back: every chunk before the message that stops the
    loop, levelled, and a refusal of a chunk that is not whole samples. *)
Definition echoed (cfg : loopback_config) (l : list (Z * bytes)) : list (Z * bytes) :=
  map (fun m => (m.1, levels cfg m.2)) (audio_of (handled l)).

Fixpoint refused (l : list (Z * bytes)) : list (Z * bytes) :=
  match l with
  | [] => []
  | m :: l' => if stops m then if is_audio_type m.1 then [(TYPE_ERROR, text_bytes "invalid-pcm")] else [] else refused l'
  end.

Lemma write_accepted m w : accepted m -> write_frame m.1 m.2 w = (Ok tt, w ++ encode m).
Proof.
  intros [Ht Hp]. unfold write_frame, guard_else, mbind, st_bind, lift, modify.
  rewrite (proj2 (Z.leb_le 0 m.1)), !(proj2 (Z.leb_le _ _)) by lia. done.
Qed.

Lemma echoed_cons cfg m l : stops m = false ->
  echoed cfg (m :: l) = (if is_audio_type m.1 then [(m.1, levels cfg m.2)] else []) ++ echoed cfg l /\ refused (m :: l) = refused l.
Proof.
  intros Hs. unfold echoed. cbn [handled refused]. rewrite Hs. unfold audio_of. cbn [filterb List.filter].
  split; [|done]. by destruct (is_audio_type m.1).
Qed.

Lemma heard_levelled cfg t g c l : leveled cfg t g c ->
  Forall (fun x => len x.2 mod 2 = 0 /\ levelled c x.2 (levels cfg x.2)) (audio_of (handled l)).
Proof.
  intros Hlv. apply Forall_forall. intros x Hx. apply list_elem_of_In, filter_In in Hx as [Hin Ha]. apply list_elem_of_In in Hin.
  assert (odd_payload x.2 = false) as Hodd.
  { clear -Hin Ha. induction l as [|y l IH]; cbn [handled] in Hin; [by apply elem_of_nil in Hin|].
    destruct (stops y) eqn:Es; [by apply elem_of_nil in Hin|]. apply elem_of_cons in Hin as [->|Hin]; [|by apply IH].
    unfold stops in Es. rewrite Ha in Es. by apply orb_false_iff in Es as [_ ?]. }
  apply negb_false_iff in Hodd. split; [by apply Z.eqb_eq|]. by destruct (levels_spec cfg t g c x.2 Hlv Hodd) as (_ & _ & _ & _ & _ & _ & _ & H).
Qed.

Section serving.
Context (log10 : float -> float) (now : nat -> datetime) (monotonic : nat -> float) (flush_done : nat -> bool)
  (accepts : nat -> nat -> bool) (Hlog : log10_bounded log10).

Lemma heard_cons m l : stops m = false ->
  audio_of (handled (m :: l)) = (if is_audio_type m.1 then [m] else []) ++ audio_of (handled l).
Proof. intros Hs. cbn [handled]. rewrite Hs. unfold audio_of. cbn [filterb List.filter]. by destruct (is_audio_type m.1). Qed.

Lemma wire_app l1 l2 : wire (l1 ++ l2) = wire l1 ++ wire l2.
Proof. unfold wire. by rewrite map_app, concat_app. Qed.

Abbreviation serve := (serve_loopback log10 now monotonic flush_done accepts).

(** A turn of the loop on the message that stops it. *)
Lemma turn_stops x rest fuel written s : accepted x -> stops x = true ->
  serve (S fuel) (encode x ++ rest) written s = (Ok tt, written ++ wire (refused [x]), s).
Proof.
  intros Hx Hst. cbn [serve_loopback]. rewrite read_frame_encode by done. cbn [wire_frame frame_type payload refused]. rewrite Hst.
  unfold stops in Hst. destruct (x.1 =? TYPE_TERMINATE) eqn:E1; [apply Z.eqb_eq in E1; rewrite E1; by rewrite app_nil_r|].
  cbn [orb] in Hst. destruct (is_audio_type x.1) eqn:Ea.
  - assert ((x.1 =? TYPE_ERROR) = false) as E2 by (destruct (Z.eqb_spec x.1 TYPE_ERROR) as [E|]; [by rewrite E in Ea|done]).
    rewrite E2 in Hst. cbn [orb andb] in Hst. rewrite Hst.
    rewrite (write_accepted (TYPE_ERROR, text_bytes "invalid-pcm")) by (split; vm_compute; intuition discriminate).
    unfold wire. cbn [map concat]. by rewrite app_nil_r.
  - cbn [andb] in Hst. rewrite orb_false_r in Hst. apply Z.eqb_eq in Hst as E2. rewrite E2. cbn. by rewrite app_nil_r.
Qed.

Definition replies (cfg : loopback_config) (x : Z * bytes) : list (Z * bytes) :=
  if is_audio_type x.1 then [(x.1, levels cfg x.2)] else [].

(** A turn on any other message. *)
Lemma turn_goes x rest fuel written s B t g c : accepted x -> stops x = false -> leveled (lb_config s) t g c ->
  running accepts B s -> 0 <= B -> B + 196608 < 2 ^ fprec ->
  exists s1 added, serve (S fuel) (encode x ++ rest) written s = serve fuel rest (written ++ wire (replies (lb_config s) x)) s1
  /\ running accepts (B + 131072) s1 /\ observes s s1 added
  /\ call_seen now (lb_config s) (if is_audio_type x.1 then [x] else []) added.
Proof.
  intros Hx Hst Hlv Ht HB Hmax. cbn [serve_loopback]. rewrite read_frame_encode by done. cbn [wire_frame frame_type payload].
  unfold stops in Hst. apply orb_false_iff in Hst as [Hst Hodd]. apply orb_false_iff in Hst as [Et Ee]. rewrite Et, Ee. unfold replies.
  destruct (is_audio_type x.1) eqn:Ea.
  - cbn [andb] in Hodd. rewrite Hodd. unfold odd_payload in Hodd. apply negb_false_iff in Hodd.
    destruct (process_audio_spec log10 now monotonic flush_done accepts x.1 x.2 s B t g c Hlog Hlv Ea Hodd (proj2 Hx) HB Hmax Ht)
      as (s1 & a1 & -> & R1 & O1 & S1).
    destruct (levels_spec (lb_config s) t g c x.2 Hlv Hodd) as (_ & _ & _ & _ & _ & _ & _ & Hlen & _).
    assert (accepted (x.1, levels (lb_config s) x.2)) as Hacc by (destruct Hx; split; cbn [fst snd]; [done|lia]).
    pose proof (write_accepted (x.1, levels (lb_config s) x.2) written Hacc) as Hw. cbn [fst snd] in Hw. rewrite Hw.
    exists s1, a1. unfold wire. cbn [map concat]. rewrite app_nil_r. by destruct x.
  - change (wire []) with (@nil Byte.byte). rewrite app_nil_r. apply (running_mono accepts B (B + 131072)) in Ht; [|lia].
    destruct ((x.1 =? TYPE_DTMF) && (len x.2 =? 1)).
    + destruct (observe_dtmf_spec now accepts _ s Ht) as (s1 & -> & R1 & O1). cbn [snd].
      exists s1, (dtmf_seen now (lb_ticks s)). do 3 (split; [done|]). apply dtmf_call_seen.
    + exists s, no_observations. do 2 (split; [done|]). split; [apply observes_none|apply nothing_seen].
Qed.

Lemma serve_echoes l part m t g c : Forall accepted l -> accepted m -> (exists rest, encode m = part ++ rest /\ rest <> []) ->
  forall fuel written s B, leveled (lb_config s) t g c -> running accepts B s -> 0 <= B ->
  B + 131072 * len l + 196608 < 2 ^ fprec -> (length l < fuel)%nat ->
  exists r s' added, serve fuel (wire l ++ part) written s
    = (r, written ++ wire (echoed (lb_config s) l) ++ wire (refused l), s')
  /\ running accepts (B + 131072 * len l) s' /\ observes s s' added /\ call_seen now (lb_config s) (audio_of (handled l)) added
  /\ match r with
     | Ok _ => stopped l || bool_decide (part = []) = true
     | Raise e _ => e = ConnectionError /\ stopped l || bool_decide (part = []) = false
     end.
Proof.
  intros Hl Hm Hpart. induction Hl as [|x l Hx Hl IH]; intros fuel written s B Hlv Ht HB Hmax Hf;
    (destruct fuel as [|fuel]; [cbn in Hf; lia|]).
  - cbn [serve_loopback]. unfold wire. cbn [map concat app echoed handled audio_of filterb List.filter refused]. rewrite app_nil_r.
    pose proof (read_frame_cut m part Hm Hpart) as Hr. destruct (read_frame part) as [r rest]. cbn [fst] in Hr. rewrite Hr.
    change (len []) with 0. rewrite Z.add_0_r.
    destruct (bool_decide (part = [])); [|destruct (len part <? 3)];
      (eexists _, s, no_observations; split; [reflexivity|]; split; [done|]; split; [apply observes_none|]; split; [apply nothing_seen|done]).
  - rewrite len_cons in Hmax |- *. pose proof (len_nonneg l). cbn [length] in Hf.
    unfold wire at 1. cbn [map concat]. fold (wire l). rewrite <- app_assoc. unfold stopped. cbn [existsb]. fold (stopped l).
    destruct (stops x) eqn:Hst.
    + rewrite turn_stops by done. eexists _, s, no_observations. unfold echoed. cbn [handled refused]. rewrite Hst.
      split; [done|]. split; [eapply running_mono; [|done]; lia|]. split; [apply observes_none|]. split; [apply nothing_seen|done].
    + destruct (turn_goes x (wire l ++ part) fuel written s B t g c) as (s1 & a1 & -> & R1 & O1 & S1); [done || lia..|].
      destruct (IH fuel (written ++ wire (replies (lb_config s) x)) s1 (B + 131072)) as (r & s' & a2 & -> & R2 & O2 & S2 & Hr);
        [by rewrite (ob_config _ _ _ O1)|done|lia|lia|lia|].
      rewrite (ob_config _ _ _ O1) in S2 |- *. destruct (echoed_cons (lb_config s) x l Hst) as [-> ->]. rewrite (heard_cons x l Hst).
      exists r, s', (obs_app a1 a2). split; [|split; [|split; [by eapply observes_app|split; [by apply call_seen_app|done]]]].
      * do 2 f_equal. fold (replies (lb_config s) x). rewrite wire_app. by rewrite <- !app_assoc.
      * eapply running_mono; [|done]. lia.
Qed.

(** ** The end of a session *)

Lemma close_spec complete_answer B s : running accepts B s -> lb_completed s = 0 ->
  exists r s' n, loopback_close now accepts complete_answer s = (r, s') /\ running accepts B s'
  /\ history s' = obs_app (history s) (sip_seen now "BYE" "audiosocket-call-ended" (lb_call_id (lb_config s)) n)
  /\ (lb_completed s' = 0 /\ is_ok r = false
      \/ lb_completed s' = 1 /\ r = complete_answer /\ ob_pending (lb_observer s') = no_observations)
  /\ ((forall n k, accepts n k = true) -> lb_completed s' = 1) /\ ((forall n, accepts n 0%nat = false) -> lb_completed s' = 0).
Proof.
  intros Hr Hc. unfold loopback_close. unfold mbind at 1, st_bind at 1, get_state at 1.
  destruct (lb_sip_spec now accepts B s "BYE" "audiosocket-call-ended" (lb_call_id (lb_config s)) Hr) as (s1 & E1 & R1 & [Ec1 Em1 Eh1] & Et1 & Ef1).
  rewrite (st_bind_eq _ _ _ _ _ E1). rewrite <- Ef1.
  set (waited := if (flushes_started (lb_flush s1) =? 0)%nat then mret tt else lift (lb_task s)).
  destruct (run_flush_spec accepts (flushes_started (lb_flush s1)) s1 B R1) as (r & s2 & E2 & R2 & [Ec2 Em2 Eh2] & _ & _ & Hok & Hgood & Hbad).
  assert (item_count (ob_pending (lb_observer s1)) <> 0) as Hi.
  { assert (lb_observer s1 = lb_observer (lb_sip now "BYE" "audiosocket-call-ended" (lb_call_id (lb_config s)) s).2) as -> by by rewrite E1.
    intros E%item_count_zero. apply (f_equal sip_events) in E. cbn in E. by apply app_nil in E as [_ ?]. }
  assert (waited s1 = (Ok tt, s1) \/ exists e m, waited s1 = (Raise e m, s1) /\ lb_task s = Raise e m) as [Hw|(e & m & Hw & Hm)].
  { unfold waited. destruct (_ =? _)%nat; [by left|]. unfold lift. destruct (lb_task s) as [[]|e m]; [by left|right; by exists e, m]. }
  - rewrite (st_bind_eq _ _ _ _ _ Hw). unfold mbind at 1, st_bind at 1. rewrite E2. destruct r as [[]|e m].
    + unfold lb_complete. eexists _, _, (lb_ticks s). split; [reflexivity|]. split; [by destruct R2|].
      split; [transitivity (history s2); [done|by rewrite Eh2, obs_app_nil_r, Eh1]|]. cbn [lb_completed lb_observer]. rewrite Em2, Em1, Hc.
      split; [right; auto|]. split; [done|]. intros Ha. specialize (Hbad (Ha _) Hi). done.
    + exists (Raise e m), s2, (lb_ticks s). split; [done|]. split; [done|]. split; [by rewrite Eh2, obs_app_nil_r, Eh1|]. rewrite Em2, Em1, Hc.
      split; [by left|]. split; [|done]. intros Ha. by specialize (Hgood (Ha _)).
  - unfold mbind at 1, st_bind at 1. rewrite Hw. exists (Raise e m), s1, (lb_ticks s). split; [done|]. split; [done|]. split; [done|].
    rewrite Em1, Hc. split; [by left|]. split; [|done]. intros Ha. pose proof (rn_task _ _ _ Hr Ha). congruence.
Qed.

(** ** A whole call *)

(** What a call with the messages [l] leaves. *)
Record call_left (cfg : loopback_config) (call : string) (l : list (Z * bytes)) (s : loopback) : Prop := {
  cl_history : exists n1 n2 added, call_seen now cfg (audio_of (handled l)) added
    /\ history s = obs_app (obs_app (sip_seen now "INVITE" "asterisk-audiosocket-connected" call n1) added)
         (sip_seen now "BYE" "audiosocket-call-ended" (lb_call_id cfg) n2);
  cl_ids : NoDup (event_ids_of (history s));
  cl_batches : Forall (fun b => within_limits b /\ item_count b <> 0) (lb_delivered s);
  cl_complete : lb_completed s = 0 \/ lb_completed s = 1 /\ ob_pending (lb_observer s) = no_observations }.

Lemma discontinuity_ids_distinct n : NoDup (map discontinuity_id (seqZ 0 n)).
Proof.
  apply NoDup_fmap_2_strong; [|apply NoDup_seqZ]. intros a b Ha%elem_of_seqZ Hb%elem_of_seqZ E. apply string_app_inj_l in E.
  apply int_str_inj in E; lia.
Qed.

Lemma loopback_call factory complete_answer cfg t g ceiling run_id started id l m part :
  leveled cfg t g ceiling -> factory (from_bytes_big id) = Ok (new_loopback cfg (new_observer run_id) started) ->
  len id = 16 -> Forall accepted l -> accepted m -> (exists rest, encode m = part ++ rest /\ rest <> []) ->
  131072 * len l + 196608 < 2 ^ fprec ->
  exists r s, handle_loopback log10 now monotonic flush_done accepts complete_answer factory (encode (identity_frame id) ++ wire l ++ part)
    = MkLoopOutcome r (wire (echoed cfg l) ++ wire (refused l)) (Some s)
  /\ call_left cfg (uuid_str (from_bytes_big id)) l s
  /\ ((forall n k, accepts n k = true) ->
      lb_completed s = 1 /\ (complete_answer = Ok tt -> is_ok r = stopped l || bool_decide (part = [])))
  /\ ((forall n, accepts n 0%nat = false) -> lb_completed s = 0 /\ is_ok r = false).
Proof.
  intros Hlv Hfac Hid Hl Hm Hpart Hmax.
  assert (accepted (identity_frame id)) as Hacc by (split; cbn [identity_frame fst snd]; [done|lia]).
  unfold handle_loopback. rewrite read_frame_encode by exact Hacc.
  cbn [wire_frame frame_type payload identity_frame fst snd]. rewrite Hid. cbn [Z.eqb Pos.eqb TYPE_UUID negb orb]. rewrite Hfac.
  assert (running accepts 0 (new_loopback cfg (new_observer run_id) started)) as R0 by (constructor; try constructor; done).
  destruct (lb_sip_spec now accepts 0 _ "INVITE" "asterisk-audiosocket-connected" (uuid_str (from_bytes_big id)) R0)
    as (s0 & -> & Rs & [Ec0 Em0 Eh0] & _). cbn [snd].
  destruct (serve_echoes l part m t g ceiling Hl Hm Hpart (S (length (wire l ++ part))) [] s0 0)
    as (r & s1 & added & -> & R1 & [Ec1 Em1 Eh1] & S1 & Hr); [by rewrite Ec0|done|done|lia|rewrite length_app; pose proof (wire_length l); lia|].
  cbn [app]. rewrite Ec0 in *. cbn [lb_config lb_completed new_loopback] in *.
  destruct (close_spec complete_answer _ s1 R1) as (ended & s2 & n & -> & [T2 I2 B2 _] & Eh2 & Hend & Hgood & Hbad); [by rewrite Em1, Em0|].
  rewrite Ec1 in Eh2. eexists _, s2. split; [reflexivity|]. split; [|split].
  - constructor; [| |done|].
    + exists (lb_ticks (new_loopback cfg (new_observer run_id) started)), n, added. split; [done|]. rewrite Eh2, Eh1, Eh0. done.
    + rewrite I2. apply discontinuity_ids_distinct.
    + destruct Hend as [[? _]|(? & _ & ?)]; auto.
  - intros Ha. specialize (Hgood Ha). split; [done|]. intros ->. destruct Hend as [[? _]|(_ & -> & _)]; [lia|].
    destruct r as [[]|]; [by rewrite Hr|by destruct Hr as [_ ->]].
  - intros Ha. specialize (Hbad Ha). split; [done|]. destruct Hend as [[_ He]|(? & _)]; [|lia]. by destruct ended.
Qed.
End serving.

(** C22. The loopback bridge gives every call its own audio back, and records
    it.  A call is its identity frame, the caller's messages and the part of a
    last one that arrived.  Exactly the chunks before the first message that
    stops the loop are answered, in order and under their own type, each with
    its samples after the AGC and the limiter: as many, never of the opposite
    sign and within the ceiling; a chunk that is not whole samples is refused
    with one error frame, and nothing else is written.  Whatever the control
    plane answers to the flushes of the call, its run is completed once or
    never, and only when everything observed was delivered: the INVITE and the
    BYE, and for every stage the audio that passed it, so that the recorded
    output of the serializer is what the caller heard.  When all batches are
    accepted the run is completed, and the handler raises only for a frame
    that was cut; when the control plane refuses them the run is never
    completed. *)
Theorem loopback_gives_audio_back log10 now monotonic flush_done accepts complete_answer factory cfg t g ceiling run_id started id l m part :
  log10_bounded log10 -> leveled cfg t g ceiling ->
  factory (from_bytes_big id) = Ok (new_loopback cfg (new_observer run_id) started) ->
  len id = 16 -> Forall accepted l -> accepted m -> (exists rest, encode m = part ++ rest /\ rest <> []) ->
  131072 * len l + 196608 < 2 ^ fprec ->
  let r := handle_loopback log10 now monotonic flush_done accepts complete_answer factory (encode (identity_frame id) ++ wire l ++ part) in
  lo_written r = wire (echoed cfg l) ++ wire (refused l)
  /\ Forall (fun x => len x.2 mod 2 = 0 /\ levelled ceiling x.2 (levels cfg x.2)) (audio_of (handled l))
  /\ exists s, lo_session r = Some s
  /\ (lb_completed s = 0
      \/ lb_completed s = 1 /\ let D := _merge_observation_batches (lb_delivered s) in
         methods D = ["INVITE"; "BYE"] /\ NoDup (event_ids_of D)
         /\ (forall stage, stage_audio stage D = concat (map (fun x => tapped cfg stage x.2) (audio_of (handled l))))
         /\ stage_audio "serializer" D = concat (map snd (echoed cfg l)))
  /\ ((forall n k, accepts n k = true) ->
      lb_completed s = 1 /\ (complete_answer = Ok tt -> is_ok (lo_result r) = stopped l || bool_decide (part = [])))
  /\ ((forall n, accepts n 0%nat = false) -> lb_completed s = 0 /\ is_ok (lo_result r) = false).
Proof.
  intros Hlog Hlv Hfac Hid Hl Hm Hpart Hmax r.
  destruct (loopback_call log10 now monotonic flush_done accepts Hlog factory complete_answer cfg t g ceiling run_id started id l m part
    Hlv Hfac Hid Hl Hm Hpart Hmax) as (res & s & E & [(n1 & n2 & added & [Ha [Hs _] _ _ _] & Hh) Hn _ Hc] & Hgood & Hbad).
  subst r. rewrite E. split; [done|]. split; [by apply heard_levelled with (t := t) (g := g)|]. exists s. split; [done|].
  split; [|by split]. destruct Hc as [?|[Hc Hp]]; [by left|right]. split; [done|].
  assert (_merge_observation_batches (lb_delivered s) = history s) as -> by (unfold history; by rewrite Hp, obs_app_nil_r).
  assert (forall stage, stage_audio stage (history s) = concat (map (fun x => tapped cfg stage x.2) (audio_of (handled l)))) as Hst.
  { intros stage. rewrite Hh, !stage_audio_app, Ha. unfold stage_audio. cbn. by rewrite app_nil_r. }
  cbv zeta. split; [|split; [done|split; [done|]]].
  - rewrite Hh. unfold methods. cbn. rewrite Hs. done.
  - rewrite Hst. unfold echoed. rewrite map_map. done.
Qed.

(** ** A short call *)

Definition echo_config : loopback_config := MkLoopbackConfig "call" (fz 3000) (fz 8) (fz 200) (flit 7 10) (flit 25 100).
Definition echo_factory (u : Z) : result loopback := Ok (new_loopback echo_config (new_observer "run") fzero).
Definition echo_messages : list (Z * bytes) := [(16, le16 1000 ++ le16 (-1000)); (3, [byte_of 49]); (16, [byte_of 7]); (16, le16 5)].
(** A stand-in for the logarithm. *)
Definition rough_log10 (x : float) : float := fzero.

Lemma rough_bounded : log10_bounded rough_log10.
Proof. intros q _. exists (QArith_base.Qmake 0 1). split; [reflexivity|]. split; vm_compute; discriminate. Qed.

Lemma echo_leveled : exists t g c, leveled echo_config t g c.
Proof.
  destruct (fz_exact 3000) as (t & Et & Ht); [unfold fprec; lia|]. destruct (fz_exact 8) as (g & Eg & Hg); [unfold fprec; lia|].
  assert (exists c, flit 7 10 = Fin c /\ QArith_base.Qle_bool c (QArith_base.inject_Z 0) = false /\ QArith_base.Qle_bool c (QArith_base.inject_Z 1) = true)
    as (c & Ec & Hc0 & Hc1) by (eexists; split; [vm_compute; reflexivity|split; vm_compute; reflexivity]).
  exists t, g, c. constructor; (split; [done|]).
  - rewrite Ht. vm_compute. discriminate.
  - rewrite Hg. split; vm_compute; discriminate.
  - split; [|by apply QArith_base.Qle_bool_iff]. apply QArith_base.Qnot_le_lt. intros E%QArith_base.Qle_bool_iff. congruence.
Qed.

Lemma echo_accepted : Forall accepted echo_messages /\ accepted (16, [byte_of 7]).
Proof. split; [repeat (constructor; [split; [cbn; lia|by vm_compute]|]); constructor|split; [cbn; lia|by vm_compute]]. Qed.

Lemma echo_facts : (forall u, echo_factory u = Ok (new_loopback echo_config (new_observer "run") fzero)) /\ len (repeat x01 16) = 16
  /\ (exists rest, encode (16, [byte_of 7]) = [] ++ rest /\ rest <> []) /\ 131072 * len echo_messages + 196608 < 2 ^ fprec.
Proof. split; [done|]. split; [done|]. split; [by eexists|]. reflexivity. Qed.

Lemma echo_expected : echoed echo_config echo_messages = [(16, levels echo_config (le16 1000 ++ le16 (-1000)))]
  /\ refused echo_messages = [(TYPE_ERROR, text_bytes "invalid-pcm")].
Proof. split; reflexivity. Qed.

Definition echo_holds (r : loopback_outcome) : Prop :=
  lo_written r = wire [(16, levels echo_config (le16 1000 ++ le16 (-1000)))] ++ wire [(TYPE_ERROR, text_bytes "invalid-pcm")]
  /\ exists s, lo_session r = Some s /\ lb_completed s = 1.

(** One chunk comes back, then an odd chunk is refused, and the run is completed. *)
Lemma loopback_gives_audio_back_witness :
  echo_holds (handle_loopback rough_log10 (fun _ => sample_ts) (fun _ => fzero) (fun _ => false) (fun _ _ => true) (Ok tt) echo_factory
    (encode (identity_frame (repeat x01 16)) ++ wire echo_messages ++ [])).
Proof.
  destruct echo_leveled as (t & g & c & Hlv). destruct echo_accepted as [Hl Hm]. destruct echo_facts as (Hf & Hid & Hp & Hmax).
  pose proof (loopback_gives_audio_back rough_log10 (fun _ => sample_ts) (fun _ => fzero) (fun _ => false) (fun _ _ => true) (Ok tt) echo_factory echo_config
    t g c "run" fzero (repeat x01 16) echo_messages (16, [byte_of 7]) [] rough_bounded Hlv (Hf _) Hid Hl Hm Hp Hmax) as H.
  cbv zeta in H. unfold echo_holds. revert H. generalize (handle_loopback rough_log10 (fun _ => sample_ts) (fun _ => fzero) (fun _ => false)
    (fun _ _ => true) (Ok tt) echo_factory (encode (identity_frame (repeat x01 16)) ++ wire echo_messages ++ [])). intros r (Hw & _ & s & Hs & _ & Hgood & _).
  rewrite (proj1 echo_expected), (proj2 echo_expected) in Hw. split; [exact Hw|]. exists s. split; [exact Hs|].
  exact (proj1 (Hgood (fun _ _ => eq_refl))).
Defined.
