(* ===== verification/CallRecording.v ===== *)
(** * From a call to its recordings

    The bridge, its observer, the wire and the API put together: every batch
    that a loopback call of [Loopback.v] delivers is read by the request models
    as it was sent ([ObservationWire.v]), and once the API has accepted them
    ([AudioLedger.v]) the WAV file of each stage of the call holds the audio
    that passed that stage. *)
From S2P Require Import Prelude Effects Collections PyFloat PyData Bytes Base64 JobQueue RunModel Repository Timeline Registry SignalChecks PyUrl RunStores ObservedRuns RunLifeCycle ObservedAudio AudioLedger Observer AudioSocket CallSession AudioServer ObservationWire StageEvidence Loopback.

Open Scope Z_scope.

(** ** The parts of a merged batch *)

Lemma merge_around b l : b ∈ l -> exists x y, _merge_observation_batches l = obs_app x (obs_app b y).
Proof.
  intros (l1 & l2 & ->)%list_elem_of_split. exists (_merge_observation_batches l1), (_merge_observation_batches l2).
  by rewrite merge_app, merge_cons.
Qed.

Lemma sendable_inv a b : sendable (obs_app a b) -> sendable a /\ sendable b.
Proof.
  intros [H1 H2 H3 H4 H5]. cbn in *. apply Forall_app in H1 as [], H2 as [], H3 as [], H4 as [], H5 as []. by split; constructor.
Qed.

Lemma distinct_ids_inv a b : NoDup (event_ids_of (obs_app a b)) -> NoDup (event_ids_of a) /\ NoDup (event_ids_of b).
Proof. rewrite event_ids_app. intros (H1 & _ & H2)%NoDup_app. done. Qed.

(** ** Identifiers of calls *)

Lemma hex_plain l : Forall is_hex l -> forallb plain_char l = true.
Proof.
  intros Hl. apply forallb_forall. intros c Hc. rewrite Forall_forall in Hl. apply list_elem_of_In in Hc. apply Hl in Hc as [x Hx].
  assert (forall c, match hex_value c with None => true | Some _ => plain_char c end = true) as H.
  { apply (ascii_cases (fun c => match hex_value c with None => true | Some _ => plain_char c end)). vm_compute. reflexivity. }
  specialize (H c). by rewrite Hx in H.
Qed.

Lemma uuid_plain u : plain (uuid_str u) = true.
Proof.
  unfold plain, uuid_str. rewrite chars_str. generalize (hex_fixed_hex 32 u). generalize (hex_fixed 32 u). intros h Hh.
  assert (forallb plain_char ["-"%char] = true) as Hdash by (vm_compute; reflexivity).
  rewrite !forallb_app, Hdash, !hex_plain by auto using Forall_take, Forall_drop. reflexivity.
Qed.

(** ** The audio of the batches *)

Section recorded.
Context (at_ : datetime -> instant).

(** The chunks of a batch as the API decodes them. *)
Definition sent_chunks (b : Observations) : chunks := map (fun c => (chunk_sent at_ c, ac_pcm_s16le c)) (audio_chunks b).

Lemma sent_chunks_decoded run_id b : sendable b -> decoded_batch (batch_sent at_ run_id b) = Ok (sent_chunks b).
Proof.
  intros [_ Hc _ _ _]. unfold decoded_batch, sent_chunks. cbn [batch_sent ob_audio_chunks]. apply mapM_res_ok.
  induction Hc as [|c l Hok _ IH]; cbn; constructor; [|done]. destruct (chunk_kept at_ c Hok) as [_ ->]. done.
Qed.

Lemma sent_stage_pcm stage l : stage_pcm stage (concat (map sent_chunks l)) = stage_audio stage (_merge_observation_batches l).
Proof.
  unfold stage_pcm, stage_audio. cbn [_merge_observation_batches audio_chunks]. f_equal.
  induction l as [|b l IH]; [done|]. cbn [map concat]. unfold filterb in *. rewrite !List.filter_app, !map_app, IH. f_equal.
  unfold sent_chunks. induction (audio_chunks b) as [|c cs IHc]; [done|].
  cbn [map List.filter]. change (of_stage stage (chunk_sent at_ c, ac_pcm_s16le c)) with (String.eqb (ac_stage c) stage).
  destruct (String.eqb _ _); [cbn [map snd]; f_equal|]; apply IHc.
Qed.

Lemma sent_chunk_in cp l : cp ∈ concat (map sent_chunks l) ->
  exists c, c ∈ audio_chunks (_merge_observation_batches l) /\ cp = (chunk_sent at_ c, ac_pcm_s16le c).
Proof.
  cbn [_merge_observation_batches audio_chunks]. induction l as [|b l IH]; cbn [map concat]; [by intros ?%not_elem_of_nil|].
  intros [H|H]%elem_of_app.
  - apply list_elem_of_fmap in H as (c & -> & Hc). exists c. split; [|done]. apply elem_of_app. by left.
  - destruct (IH H) as (c & Hc & ->). exists c. split; [|done]. apply elem_of_app. by right.
Qed.
End recorded.

Section calls.
Context (log10 : float -> float) (now : nat -> datetime) (monotonic : nat -> float) (flush_done : nat -> bool)
  (accepts : nat -> nat -> bool).
Context `{P : Pydantic, !PydanticLaws P} (at_ : datetime -> instant).

Lemma call_sendable cfg call l s : call_left now cfg call l s -> reference_ok (lb_call_id cfg) = true -> reference_ok call = true ->
  forallb (fun m => narrow m.1) (audio_of (handled l)) = true -> sendable (history s).
Proof.
  intros [(n1 & n2 & added & [_ _ _ _ Hs] & ->) _ _ _] Hcfg Hcall Hn. apply sendable_app; [apply sendable_app; [|by auto]|];
    constructor; cbn; repeat constructor; unfold sip_ok; cbn [se_call_id se_method se_direction se_summary_alias opt_ok].
  - rewrite Hcall. vm_compute. reflexivity.
  - rewrite Hcfg. vm_compute. reflexivity.
Qed.

Lemma call_times cfg call l s : call_left now cfg call l s -> (forall n, time_read at_ (now n)) -> Forall (time_read at_) (times (history s)).
Proof.
  intros [(n1 & n2 & added & [_ _ _ Ht _] & ->) _ _ _] Hnow. rewrite !times_app. split; [split|]; [|by apply Ht|];
    (unfold times; cbn; constructor; [apply Hnow|constructor]).
Qed.

(** The batches of a call are read as they were sent. *)
Lemma call_batches_read now_ run_id cfg call l s b : call_left now cfg call l s -> reference_ok (lb_call_id cfg) = true -> reference_ok call = true ->
  forallb (fun m => narrow m.1) (audio_of (handled l)) = true -> (forall n, time_read at_ (now n)) -> b ∈ lb_delivered s ->
  read_batch now_ (JObj (batch_to_payload run_id b)) = Ok (batch_sent at_ run_id b)
  /\ decoded_batch (batch_sent at_ run_id b) = Ok (sent_chunks at_ b).
Proof.
  intros Hleft Hcfg Hcall Hn Hnow Hb. pose proof (call_sendable _ _ _ _ Hleft Hcfg Hcall Hn) as Hs. pose proof (call_times _ _ _ _ Hleft Hnow) as Ht.
  destruct Hleft as [_ Hids Hbatches _]. unfold history in *. destruct (merge_around b _ Hb) as (x & y & E). rewrite E in *.
  apply sendable_inv in Hs as [Hs _]. apply sendable_inv in Hs as [_ Hs]. apply sendable_inv in Hs as [Hs _].
  apply distinct_ids_inv in Hids as [Hids _]. apply distinct_ids_inv in Hids as [_ Hids]. apply distinct_ids_inv in Hids as [Hids _].
  rewrite !times_app in Ht. destruct Ht as [[_ [Ht _]] _]. rewrite Forall_forall in Hbatches. destruct (Hbatches b Hb) as [Hl Hi].
  split; [|by apply sent_chunks_decoded]. unfold read_batch. rewrite (batch_read now_ at_) by done. cbn [mbind result_bind]. by apply batch_kept.
Qed.

(** Once the API accepted the batches of a completed call, the file of a stage
    holds what passed the stage. *)
Lemma call_recorded {R F} `{RunStoreLaws R F} root open_wav log10' resolve k (s0 sN : RunApiState R) cfg call l s stage :
  call_left now cfg call l s -> lb_completed s = 1 ->
  store_ok (repository s0) -> key_of (id_of k) = Some k -> is_Some (run_at s0 k) ->
  (forall stage, dict_get (id_of k, stage) (audio_buffers s0) = None) ->
  AudioLedger.session root open_wav log10' resolve k s0 (concat (map (sent_chunks at_) (lb_delivered s))) sN ->
  concat (map (fun m => tapped cfg stage m.2) (audio_of (handled l))) <> [] ->
  exists t rate, t ∈ map fst (audio_of (handled l)) /\ dict_get t AUDIO_TYPE_SAMPLE_RATES = Some rate
  /\ files sN !! recording_path root (id_of k) stage
     = Some (wav_bytes 1 rate (concat (map (fun m => tapped cfg stage m.2) (audio_of (handled l))))).
Proof.
  intros [(n1 & n2 & added & [Ha _ Hch _ _] & Hh) _ _ Hc] Hdone Hok Hk Hrun Hnone Hs Hne. destruct Hc as [Hc|[_ Hp]]; [lia|].
  assert (_merge_observation_batches (lb_delivered s) = history s) as Em by (unfold history; by rewrite Hp, obs_app_nil_r).
  assert (stage_audio stage (history s) = concat (map (fun m => tapped cfg stage m.2) (audio_of (handled l)))) as Est.
  { rewrite Hh, !stage_audio_app, Ha. unfold stage_audio. cbn. by rewrite app_nil_r. }
  assert (exists cp, cp ∈ concat (map (sent_chunks at_) (lb_delivered s)) /\ ao_stage cp.1 = stage) as (cp & Hcp & Hstage).
  { pose proof (sent_stage_pcm at_ stage (lb_delivered s)) as E. rewrite Em, Est in E.
    destruct (decide (Exists (fun cp => ao_stage cp.1 = stage) (concat (map (sent_chunks at_) (lb_delivered s))))) as [Hex|Hno].
    - apply Exists_exists in Hex as (cp & ? & ?). by exists cp.
    - exfalso. apply Hne. rewrite <- E. apply stage_pcm_none. intros cp Hcp Hst. apply Hno, Exists_exists. by exists cp. }
  destruct (session_recorded _ _ _ _ _ _ _ _ cp Hok Hk Hrun Hnone Hs Hcp) as (run & b & _ & [_ _ Hformat Hfile _]).
  unfold file_at in Hfile. rewrite Hstage, sent_stage_pcm, Em, Est in Hfile. specialize (Hformat cp Hcp eq_refl).
  destruct (sent_chunk_in at_ cp _ Hcp) as (c & Hin & Ecp). rewrite Em, Hh in Hin. cbn in Hin. rewrite app_nil_r in Hin.
  rewrite Forall_forall in Hch. destruct (Hch c Hin) as (t & Ht & Hrate & Hone). exists t, (ac_sample_rate_hz c). split; [done|]. split; [done|].
  rewrite Ecp in Hformat. unfold chunk_format in Hformat. cbn [fst chunk_sent ao_sample_rate_hz ao_channels] in Hformat. rewrite Hone in Hformat.
  injection Hformat as Er Ec. by rewrite Er, Ec.
Qed.
End calls.

(** C8. A loopback call is recorded as it was heard.  When the caller's audio
    is of at most 48 kHz, every batch that the call delivers is read and
    validated by the API as it was sent, and its chunks decode to the audio
    observed.  When the call completed its run and the API accepted those
    batches, with any calls on other runs in between, then for every stage that
    had audio the WAV file of the stage in the run holds exactly the audio that
    passed it: that of the resampler is what the caller said, that of the
    serializer what was written back to the caller. *)
Theorem loopback_call_is_recorded {P : Pydantic} {L : PydanticLaws P} at_ now_ log10 now monotonic flush_done accepts complete_answer factory
    cfg t g ceiling run_id started id l m part :
  log10_bounded log10 -> leveled cfg t g ceiling -> reference_ok (lb_call_id cfg) = true ->
  factory (from_bytes_big id) = Ok (new_loopback cfg (new_observer run_id) started) ->
  len id = 16 -> Forall accepted l -> accepted m -> (exists rest, encode m = part ++ rest /\ rest <> []) ->
  131072 * len l + 196608 < 2 ^ fprec ->
  forallb (fun x => narrow x.1) (audio_of (handled l)) = true -> (forall n, time_read at_ (now n)) ->
  let r := handle_loopback log10 now monotonic flush_done accepts complete_answer factory (encode (identity_frame id) ++ wire l ++ part) in
  exists s, lo_session r = Some s
  /\ (forall b, b ∈ lb_delivered s ->
      read_batch now_ (JObj (batch_to_payload run_id b)) = Ok (batch_sent at_ run_id b)
      /\ decoded_batch (batch_sent at_ run_id b) = Ok (sent_chunks at_ b))
  /\ forall R F (Q : RunStore R F) (QL : RunStoreLaws R F) root open_wav log10' resolve k (s0 sN : RunApiState R) stage,
      let heard := concat (map (fun x => tapped cfg stage x.2) (audio_of (handled l))) in
      lb_completed s = 1 -> store_ok (repository s0) -> key_of (id_of k) = Some k -> is_Some (run_at s0 k) ->
      (forall stage, dict_get (id_of k, stage) (audio_buffers s0) = None) ->
      AudioLedger.session root open_wav log10' resolve k s0 (concat (map (sent_chunks at_) (lb_delivered s))) sN -> heard <> [] ->
      exists t rate, t ∈ map fst (audio_of (handled l)) /\ dict_get t AUDIO_TYPE_SAMPLE_RATES = Some rate
      /\ files sN !! recording_path root (id_of k) stage = Some (wav_bytes 1 rate heard).
Proof.
  intros Hlog Hlv Hcfg Hfac Hid Hl Hm Hpart Hmax Hn Hnow r.
  destruct (loopback_call log10 now monotonic flush_done accepts Hlog factory complete_answer cfg t g ceiling run_id started id l m part
    Hlv Hfac Hid Hl Hm Hpart Hmax) as (res & s & E & Hleft & _). subst r. rewrite E. exists s. split; [done|]. split.
  - intros b Hb. eapply (call_batches_read now at_); try done. apply plain_reference, uuid_plain.
  - intros R F Q QL root open_wav log10' resolve k s0 sN stage heard. by apply (call_recorded now at_ root open_wav log10' resolve k s0 sN cfg _ l s stage Hleft).
Qed.

(** ** The recorded call of [Loopback.v] *)

Definition call_resolved : ResolvedConfig :=
  MkResolved "call" [("spec", JObj [("ai", JObj [("provider", JStr "fake")]); ("engine", JObj [("kind", JStr "asterisk")]);
    ("media", JObj [("pipeline", JArr (map (fun stage => JObj [("type", JStr stage); ("invariants_applicable", JArr [])])
       ["resampler"; "agc"; "limiter"; "serializer"]))])])] "hash".
Definition call_api (s : RunApiState InMemory.store) (c : api_call) : result unit * RunApiState InMemory.store :=
  run_call "/rec" demo_wav (fun x => Ok x) (fun _ => Ok call_resolved) demo_call c s.
Definition call_created : RunApiState InMemory.store := (call_api demo_empty (CreateObserved demo_create)).2.
Abbreviation call_outcome :=
  (handle_loopback rough_log10 (fun _ => sample_ts) (fun _ => fzero) (fun _ => false) (fun _ _ => true) (Ok tt) echo_factory
    (encode (identity_frame (repeat x01 16)) ++ wire echo_messages ++ [])).
Definition call_batches (r : loopback_outcome) : list Observations := match lo_session r with Some s => lb_delivered s | None => [] end.
Definition sent (b : Observations) : ObservationBatchRequest := batch_sent (fun _ => 1000000) (uuid_str 7) b.
Definition after_batches (l : list Observations) : RunApiState InMemory.store :=
  fold_left (fun s b => (call_api s (RunLifeCycle.Observations (sent b))).2) l call_created.
Definition call_recorded_state : RunApiState InMemory.store := after_batches (call_batches call_outcome).
Definition call_heard : bytes := levels echo_config (le16 1000 ++ le16 (-1000)).

Definition call_batch : Observations := hd no_observations (call_batches call_outcome).

Lemma concat_one {A B} (f : A -> list B) x : concat (map f [x]) = [] ++ f x.
Proof. cbn. by rewrite app_nil_r. Qed.

Lemma call_one_batch : call_batches call_outcome = [call_batch].
Proof. vm_compute. reflexivity. Qed.

Lemma call_completed : lb_completed <$> lo_session call_outcome = Some 1.
Proof. vm_compute. reflexivity. Qed.

Lemma call_batch_accepted : validate_batch (sent call_batch) = Ok (sent call_batch)
  /\ decoded_batch (sent call_batch) = Ok (sent_chunks (fun _ => 1000000) call_batch)
  /\ run_call "/rec" demo_wav (fun x => Ok x) (fun _ => Ok call_resolved) demo_call (RunLifeCycle.Observations (sent call_batch)) call_created
     = (Ok tt, call_recorded_state).
Proof. split; [vm_compute; reflexivity|]. split; vm_compute; reflexivity. Qed.

Lemma call_batch_run : key_of (ObservedRuns.ob_run_id (sent call_batch)) = Some (uuid_str 7).
Proof. vm_compute. reflexivity. Qed.

Lemma call_created_ok : memory_ok (repository call_created).
Proof.
  assert (memory_ok []) as Hempty by (split; intros id run [=]).
  exact (proj1 (call_advances "/rec" demo_wav (fun x => Ok x) (fun _ => Ok call_resolved) demo_call
    (CreateObserved demo_create) demo_empty Hempty demo_call_ok)).
Qed.

Lemma call_created_run : is_Some (run_at call_created (uuid_str 7)).
Proof. vm_compute. eexists. reflexivity. Qed.

Lemma call_accepted_session : AudioLedger.session "/rec" demo_wav (fun x => Ok x) (fun _ => Ok call_resolved) (uuid_str 7) call_created
  ([] ++ sent_chunks (fun _ => 1000000) call_batch) call_recorded_state.
Proof.
  destruct call_batch_accepted as (Hv & Hd & Hc).
  exact (session_batch "/rec" demo_wav (fun x => Ok x) (fun _ => Ok call_resolved) (uuid_str 7) call_created [] call_created demo_call
    (sent call_batch) (sent call_batch) (sent_chunks (fun _ => 1000000) call_batch) call_recorded_state
    (session_start _ _ _ _ _ _) Hv call_batch_run Hd Hc).
Qed.

Lemma call_heard_some : concat (map (fun x => tapped echo_config "serializer" x.2) (audio_of (handled echo_messages))) = call_heard
  /\ call_heard <> [] /\ forallb (fun x => narrow x.1) (audio_of (handled echo_messages)) = true
  /\ map fst (audio_of (handled echo_messages)) = [16].
Proof. split; [reflexivity|]. split; [vm_compute; discriminate|]. split; reflexivity. Qed.

Lemma call_reads : forall n : nat, @time_read plain_pydantic (fun _ => 1000000) ((fun _ => sample_ts) n).
Proof. intros n. vm_compute. reflexivity. Qed.

(** The recorded output of the serializer is what the caller heard. *)
Lemma loopback_call_is_recorded_witness :
  files call_recorded_state !! recording_path "/rec" (id_of (uuid_str 7)) "serializer" = Some (wav_bytes 1 8000 call_heard).
Proof.
  destruct echo_leveled as (t & g & c & Hlv). destruct echo_accepted as [Hl Hm]. destruct echo_facts as (Hf & Hid & Hp & Hmax).
  destruct call_heard_some as (Hh & Hne & Hnarrow & Htypes).
  pose proof (@loopback_call_is_recorded plain_pydantic plain_laws (fun _ => 1000000) 0 rough_log10 (fun _ => sample_ts) (fun _ => fzero) (fun _ => false)
    (fun _ _ => true) (Ok tt) echo_factory echo_config t g c "run" fzero (repeat x01 16) echo_messages (16, [byte_of 7]) [] rough_bounded Hlv eq_refl (Hf _)
    Hid Hl Hm Hp Hmax Hnarrow call_reads) as H.
  cbv zeta in H. pose proof call_one_batch as Hb. pose proof call_completed as Hc. pose proof call_accepted_session as Hsession.
  revert H Hb Hc Hsession. generalize call_outcome. generalize call_batch. generalize call_recorded_state.
  intros after batch r (s & Hs & _ & H) Hb Hc Hsession. unfold call_batches in Hb. rewrite Hs in Hb, Hc. injection Hc as Hc.
  specialize (H InMemory.store unit _ memory_laws "/rec" demo_wav (fun x => Ok x) (fun _ => Ok call_resolved) (uuid_str 7) call_created after "serializer" Hc
    call_created_ok eq_refl call_created_run (fun _ => eq_refl)).
  rewrite Hb, concat_one, Hh, Htypes in H. destruct (H Hsession Hne) as (ty & rate & Hty & Hrate & Hfile).
  apply list_elem_of_singleton in Hty. subst ty. injection Hrate as <-. exact Hfile.
Defined.
