(* ===== verification/CallBridge.v ===== *)
(** * Setting up a call

    [live_demo/observed_run.py] and the session factories of [cli/main.py]: the
    request that starts an observed run, and what the AudioSocket commands do
    when a call comes in, up to the session that serves it.  The example files,
    the answers of the control plane and of the provider are arguments; the
    requests that were sent are the state.  What the commands print is left
    out. *)
From S2P Require Import Prelude Effects Collections PyFloat PyData PyFormat Bytes Base64 JobQueue RunModel Timeline TypedTimeline SignalChecks Scoring ObservedRuns Observer AudioSocket CallSession Providers ObservationWire StageEvidence Loopback.

Open Scope Z_scope.

(** ** The request of an observed run *)

Definition PROCESSOR_MANIFESTS : list string :=
  ["manifests/engine/asterisk.json"; "manifests/processor/resampler.json"; "manifests/processor/agc.json";
   "manifests/processor/limiter.json"; "manifests/processor/serializer.json"].

(** [EXPERIMENT_CONDITION_PATTERN.fullmatch]. *)
Definition EXPERIMENT_CONDITION_PATTERN : string -> bool :=
  full_match is_lower_or_digit (fun c => is_lower_or_digit c || char_in ["."; "_"; "-"]%char c) 63.

Definition normalize_experiment_condition (value : string) : result string :=
  let normalized := lower (strip value) in
  _ ← guard_else (EXPERIMENT_CONDITION_PATTERN normalized) ValueError
        "experiment_condition must be a 1-64 character lowercase alias using letters, digits, dot, underscore, or dash";
  Ok normalized.

(** [v[k] = x] and [v.update(new)]. *)
Definition set_item (k : string) (x v : json) : result json :=
  match v with JObj d => Ok (JObj (dict_set k x d)) | _ => Raise TypeError "object does not support item assignment" end.
Definition json_update (new : jdict) (v : json) : result json :=
  match v with
  | JObj d => Ok (JObj (fold_left (fun d kv => dict_set kv.1 kv.2 d) new d))
  | _ => Raise AttributeError "update"
  end.
(** Changing [v[k]] in place. *)
Definition update_item (k : string) (f : json -> result json) (v : json) : result json :=
  x ← json_item k v; x ← f x; set_item k x v.

Definition has_text (s : string) (v : json) : bool := match v with JStr t => String.eqb t s | _ => false end.

Section payload.
(** [_load_json]. *)
Context (_load_json : string -> result json) (target_rms max_gain noise_floor : float).

Definition adapt_stage (stage : json) : result json :=
  t ← json_item "type" stage;
  if has_text "agc" t
  then update_item "params" (json_update [("target_rms", JFloat target_rms); ("max_gain", JFloat max_gain); ("noise_floor", JFloat noise_floor)]) stage
  else if has_text "serializer" t then update_item "params" (set_item "encoding" (JStr "pcm16")) stage
  else Ok stage.

(** The loop over the stages. *)
Definition adapt_pipeline (pipeline : json) : result json :=
  match pipeline with
  | JArr l => JArr <$> mapM_res adapt_stage l
  | v => l ← json_iter v; _ ← mapM_res adapt_stage l; Ok v
  end.

Definition adapt_config (selected_model : string) (config : json) : result json :=
  config ← update_item "spec" (update_item "ai" (set_item "model" (JStr selected_model))) config;
  config ← update_item "spec" (update_item "engine" (update_item "params"
             (json_update [("websocket_url", JStr "alias:local-asterisk-audiosocket"); ("media_profile", JStr "8khz-pcm16-audiosocket")]))) config;
  update_item "spec" (update_item "media" (update_item "pipeline" adapt_pipeline)) config.

Definition provider_note (mode selected_model : string) : string :=
  (if String.eqb mode "loopback" then "Local PCM loopback; provider network session is not opened."
   else "Bidirectional AudioSocket media connected to the selected provider.")
  +:+ " Provider model: " +:+ selected_model +:+ ".".

(** The note and the tags for an experiment condition. *)
Definition condition_notes (mode provider selected_model : string) (experiment_condition : option string) : result (string * list string) :=
  let tags := ["live-demo"; "audiosocket"; mode; provider] in
  match experiment_condition with
  | None => Ok (provider_note mode selected_model, tags)
  | Some condition =>
      condition ← normalize_experiment_condition condition;
      Ok (provider_note mode selected_model +:+ " Experiment condition: " +:+ condition +:+ ".", tags ++ ["experiment-" +:+ condition])
  end.

Definition secret_names (mode provider : string) : list string :=
  if String.eqb mode "provider" then (if String.eqb provider "openai-realtime" then ["OPENAI_API_KEY"] else ["GOOGLE_API_KEY"]) else [].

Definition environment_payload (mode provider selected_model note : string) (tags : list string) : json :=
  JObj [("environment_profile", JStr "demo"); ("server_alias", JStr "local-audiosocket-bridge");
        ("integration_target_alias", JStr (provider +:+ ":" +:+ selected_model +:+ ":" +:+ mode));
        ("started_from", JStr ("voxbench-audiosocket-" +:+ mode)); ("operator_note", JStr note);
        ("tags", JArr (map JStr tags)); ("secret_ref_names", JArr (map JStr (secret_names mode provider)))].

Definition default_model (config : json) : result string :=
  spec ← json_item "spec" config; ai ← json_item "ai" spec; str_json <$> json_item "model" ai.

Definition build_audiosocket_observed_run_payload (provider call_id mode : string) (model experiment_condition : option string) : result jdict :=
  config ← _load_json ("configs/live-demo-" +:+ provider +:+ ".json");
  selected_model ← (match model with
                    | Some m => if String.eqb m "" then default_model config else Ok m
                    | None => default_model config
                    end);
  config ← adapt_config selected_model config;
  notes ← condition_notes mode provider selected_model experiment_condition;
  name ← (meta ← json_item "meta" config; json_item "name" meta);
  provider_manifest ← _load_json ("manifests/provider/" +:+ provider +:+ ".json");
  manifests ← mapM_res _load_json PROCESSOR_MANIFESTS;
  Ok [("config_name", name); ("configs", JArr [config]); ("manifests", JArr (provider_manifest :: manifests)); ("call_id", JStr call_id);
      ("environment", environment_payload mode provider selected_model notes.1 notes.2)].
End payload.

(** ** What the control plane is asked *)

Record bridge := MkBridge { requests : list (string * string * jdict) }.

Section bridging.
(** The answer to the [n]-th request. *)
Context (transport : HttpObservationTransport) (answers : nat -> http_answer).

Definition answering (n : nat) : string -> string -> jdict -> float -> http_answer := fun _ _ _ _ => answers n.

Definition ask (method path : string) (payload : jdict) : st bridge jdict := fun s =>
  (_request (answering (length (requests s))) transport method path payload, MkBridge (requests s ++ [(method, path, payload)])).

Definition post_batch (run_id : string) (b : Observations) : string * string * jdict := ("POST", "/v1/observations", batch_to_payload run_id b).

(** The batch a flush failed at. *)
Definition failed_batch (r : result Z) (sent_ : nat) (b : Observations) : list Observations :=
  match r with Ok _ => [] | Raise _ _ => take 1 (drop sent_ (_bounded_observation_batches b)) end.

(** [observer.flush] while nothing else is observed. *)
Definition flush_run (run_id : string) (o : VoxBenchObserver) : st bridge unit := fun s =>
  let n := length (requests s) in
  let plan k := MkSend (is_ok (send (answering (n + k)) transport run_id no_observations)) no_observations in
  let '(delivered, (r, _)) := flush plan o in
  (match r with Ok _ => Ok tt | Raise _ _ => send (answering (n + length delivered)) transport run_id no_observations end,
   MkBridge (requests s ++ map (post_batch run_id) (delivered ++ failed_batch r (length delivered) (ob_pending o)))).

(** [try: a; finally: b]. *)
Definition finally {A B} (a : st bridge A) (b : st bridge B) : st bridge A := fun s =>
  let '(r, s1) := a s in
  let '(r', s2) := b s1 in
  (match r' with Raise c m => Raise c m | Ok _ => r end, s2).

(** [run["run_id"]], which the control plane answers as a text. *)
Definition run_id_of (run : jdict) : result string := str_json <$> from_option_err (jget "run_id" run) KeyError "run_id".

(** *** The loopback command *)

Definition create_loopback_session (payload : string -> result jdict) (cfg : string -> loopback_config) (started : float) (call_uuid : uuid)
    : st bridge loopback :=
  let call_id := uuid_str call_uuid in
  body ← lift (payload call_id);
  run ← ask "POST" "/runs/observed" body;
  id ← lift (run_id_of run);
  mret (new_loopback (cfg call_id) (new_observer id) started).

(** *** The realtime command *)

(** The metrics of the first connection, each at a time of its own. *)
Definition exhausted_metrics (attempts : Z) (ts : nat -> datetime) : result (list MetricPoint) :=
  n ← float_of_int attempts;
  retries ← float_of_int (attempts - 1);
  Ok (imap (fun i nv => MkMetricPoint nv.1 nv.2 None (ts i))
        [("provider_connect_attempts", n); ("provider_connect_retries", retries); ("provider_connect_failures", n);
         ("provider_connect_exhausted", fz 1)]).
Definition connected_metrics (attempts : Z) (ts : nat -> datetime) : result (list MetricPoint) :=
  n ← float_of_int attempts;
  retries ← float_of_int (attempts - 1);
  Ok (imap (fun i nv => MkMetricPoint nv.1 nv.2 None (ts i))
        ([("provider_connect_attempts", n); ("provider_connect_retries", retries)]
         ++ if 1 <? attempts then [("provider_connect_failures", retries)] else [])).

Definition observed_metrics (run_id : string) (l : list MetricPoint) : VoxBenchObserver :=
  append_pending (only_metrics l) (new_observer run_id).

Record opened (S : Type) := MkOpened { op_run_id : string; op_call_id : string; op_session : S; op_rtcp : bool }.
Arguments MkOpened {S}. Arguments op_run_id {S}. Arguments op_call_id {S}. Arguments op_session {S}. Arguments op_rtcp {S}.

Definition create_realtime_session {S} (payload : string -> result jdict) (connect : Z -> connect_answer S) (connect_attempts : Z)
    (connect_backoff_seconds : float) (collect_rtcp : bool) (ts : nat -> datetime) (call_uuid : uuid) : st bridge (opened S) :=
  let call_id := uuid_str call_uuid in
  body ← lift (payload call_id);
  run ← ask "POST" "/runs/observed" body;
  id ← lift (run_id_of run);
  match (connect_with_retry connect connect_attempts connect_backoff_seconds (fz 4)).1 with
  | Raised c m => lift (Raise c m)
  | ConnectionFailed attempts reason_alias error_type =>
      points ← lift (exhausted_metrics attempts ts);
      _ ← finally (flush_run id (observed_metrics id points))
            (ask "POST" ("/runs/" +:+ id +:+ "/fail") [("failure_alias", JStr "provider-connect-error")]);
      lift (Raise ProviderConnectionError reason_alias)
  | Connected session attempts =>
      points ← lift (connected_metrics attempts ts);
      _ ← flush_run id (observed_metrics id points);
      mret (MkOpened id call_id session collect_rtcp)
  end.
End bridging.

(** ** What the commands check before they listen *)

Definition comma_space (l : list string) : string := String.concat ", " l.

(** The exit of a command: its code, or an exception that leaves it. *)
Definition not_ready_detail (r : ProviderReadiness) : string :=
  "set " +:+ comma_space (pr_env_var r :: pr_alternate_env_vars r) +:+ " and install the live extra: pip install -e '.[live]'".

Definition require_ready (r : ProviderReadiness) : result unit := guard_else (ready r) BadParameter (not_ready_detail r).

(** The two credentials of the AMI account. *)
Definition ami_credentials (h : host) (username_env secret_env : string) : result (string * string) :=
  let missing := filterb (fun name => negb (env_set h name)) [username_env; secret_env] in
  match missing with
  | [] => Ok (default "" (environ h username_env), default "" (environ h secret_env))
  | _ => Raise BadParameter ("set required environment variable(s): " +:+ comma_space missing)
  end.

(** [if not None: try: normalize ... except ValueError]. *)
Definition condition_option (experiment_condition : option string) : result (option string) :=
  match experiment_condition with
  | None => Ok None
  | Some c => match normalize_experiment_condition c with Raise ValueError m => Raise BadParameter m | r => Some <$> r end
  end.

Record realtime_start := MkStart { st_model : string; st_condition : option string; st_ami : option (string * string) }.

Definition selected_model (provider : string) (model : option string) : string :=
  match model with
  | Some m => m
  | None => if String.eqb provider "openai-realtime" then oa_model default_openai else ge_model default_gemini
  end.

Definition provider_readiness (h : host) (provider : string) (model : option string) : ProviderReadiness :=
  let m := selected_model provider model in
  if String.eqb provider "openai-realtime"
  then openai_readiness h (MkOpenAI m (oa_api_key_env_var default_openai) (oa_voice default_openai) (oa_input_rate default_openai)
         (oa_output_rate default_openai) (oa_output_encoding default_openai) (oa_instructions default_openai) (oa_provider_name default_openai)) false
  else gemini_readiness h (MkGemini m (ge_api_key_env_var default_gemini) (ge_alternate_api_key_env_vars default_gemini)
         (ge_input_rate default_gemini) (ge_output_rate default_gemini) (ge_instructions default_gemini) (ge_provider_name default_gemini)) false.

Definition audiosocket_realtime (h : host) (provider : string) (model experiment_condition : option string) (collect_rtcp : bool)
    (username_env secret_env : string) : result realtime_start :=
  _ ← require_ready (provider_readiness h provider model);
  condition ← condition_option experiment_condition;
  ami ← (if collect_rtcp then Some <$> ami_credentials h username_env secret_env else Ok None);
  Ok (MkStart (selected_model provider model) condition ami).

(** The exit code of the preflight; the session it opened is closed. *)
Definition gemini_live_preflight {S} (h : host) (model : option string) (connect : Z -> connect_answer S) (close : S -> result unit) : result Z :=
  _ ← require_ready (provider_readiness h "gemini-live" model);
  match (connect_with_retry connect 1 (flit 5 10) (fz 4)).1 with
  | Connected session _ => _ ← close session; Ok 0
  | ConnectionFailed _ _ _ => Ok 2
  | Raised c m => Raise c m
  end.

Definition is_ami_error (c : exn_class) : bool :=
  match c with AmiConnectionError | AmiAuthenticationError | AmiProtocolError => true | _ => false end.

(** The observer after a collection failed: the failure is counted, and a
    flush that fails is ignored. *)
Definition report_ami_failure (flush_plan : nat -> send_outcome) (ts : datetime) (o : VoxBenchObserver) : VoxBenchObserver :=
  (flush flush_plan (observe_metric "asterisk_ami_rtcp_failures" (fz 1) None ts o)).2.2.

(** [collect_call_rtcp], when the collector ended with [collected]. *)
Definition collect_call_rtcp (collected : result Z) (flush_plan : nat -> send_outcome) (ts : datetime) (o : VoxBenchObserver)
    : result unit * VoxBenchObserver :=
  match collected with
  | Ok _ => (Ok tt, o)
  | Raise c m => if is_ami_error c then (Ok tt, report_ami_failure flush_plan ts o) else (Raise c m, o)
  end.

(** The exit of [asterisk-ami-rtcp], whose collector ended with [collected]
    ([None]: interrupted) and left the observer [o], and the observer after. *)
Definition asterisk_ami_rtcp (h : host) (username_env secret_env : string) (collected : option (result Z)) (flush_plan : nat -> send_outcome)
    (ts : datetime) (o : VoxBenchObserver) : result Z * VoxBenchObserver :=
  match ami_credentials h username_env secret_env with
  | Raise c m => (Raise c m, o)
  | Ok _ =>
      match collected with
      | None | Some (Ok _) => (Ok 0, o)
      | Some (Raise c m) => if is_ami_error c then (Ok 1, report_ami_failure flush_plan ts o) else (Raise c m, o)
      end
  end.

(** ** What a call leaves with the control plane *)

Lemma retry_outcome {S} (connect : Z -> connect_answer S) attempts backoff : 1 <= attempts <= 10 -> fltb backoff fzero = false ->
  match (connect_with_retry connect attempts backoff (fz 4)).1 with
  | Connected session n => 1 <= n <= attempts /\ connect n = Connects session /\ forall j, 1 <= j < n -> Providers.refused (connect j)
  | ConnectionFailed n _ _ => n = attempts /\ forall j, 1 <= j <= n -> Providers.refused (connect j)
  | Raised _ _ => False
  end.
Proof.
  intros Ha Hb. unfold connect_with_retry. rewrite (proj2 (Z.ltb_ge attempts 1)), Hb by lia. change (fltb (fz 4) fzero) with false. cbn [orb].
  destruct (retry_loop_spec connect attempts backoff (fz 4) (Z.to_nat (attempts - 1)) 1) as [(n & Hout & Hn & Hj & _) _];
    [by vm_compute|lia|lia|lia|].
  destruct (retry_loop _ _ _ _ _ _) as [r waits]. cbn [fst] in *. destruct r as [session k|k reason error_type|c m]; [|..|done].
  - destruct Hout as [-> Hc]. done.
  - destruct Hout as (-> & -> & exc & Hc & _). split; [done|]. intros j Hjn. destruct (decide (j = attempts)) as [->|]; [by eexists|]. apply Hj. lia.
Qed.

Lemma flush_once t answers id l s : _bounded_observation_batches (only_metrics l) = [only_metrics l] -> item_count (only_metrics l) <> 0 ->
  flush_run t answers id (observed_metrics id l) s
  = (send (answering answers (length (requests s))) t id no_observations, MkBridge (requests s ++ [post_batch id (only_metrics l)])).
Proof.
  intros Hb Hi. assert (ob_pending (observed_metrics id l) = only_metrics l) as Hp by done.
  unfold flush_run, flush. rewrite Hp, (proj2 (Z.eqb_neq _ _) Hi), Hb. cbn [send_batches send_ok meanwhile]. rewrite Nat.add_0_r.
  destruct (send (answering answers (length (requests s))) t id no_observations) as [[]|c m] eqn:E; cbn [is_ok].
  - cbn [failed_batch app]. done.
  - cbn [length failed_batch app]. by rewrite Nat.add_0_r, E, Hb.
Qed.

Lemma whole_float k : 0 <= k <= 10 -> float_of_int k = Ok (fz k).
Proof. intros. apply float_of_int_fz. unfold fprec. lia. Qed.

Definition one_batch (points : list MetricPoint) : Prop :=
  _bounded_observation_batches (only_metrics points) = [only_metrics points] /\ item_count (only_metrics points) <> 0.

Lemma connected_batch n ts : 1 <= n <= 10 -> exists points, connected_metrics n ts = Ok points /\ one_batch points.
Proof.
  intros Hn. unfold connected_metrics. rewrite !whole_float by lia. cbn [mbind result_bind]. eexists. split; [reflexivity|].
  destruct (1 <? n); (split; [reflexivity|discriminate]).
Qed.

Lemma exhausted_batch n ts : 1 <= n <= 10 -> exists points, exhausted_metrics n ts = Ok points /\ one_batch points.
Proof.
  intros Hn. unfold exhausted_metrics. rewrite !whole_float by lia. cbn [mbind result_bind]. eexists. split; [reflexivity|].
  split; [reflexivity|discriminate].
Qed.

Lemma st_bind_raise {T A B} (m : st T A) (f : A -> st T B) s c e s1 : m s = (Raise c e, s1) -> (m ≫= f) s = (Raise c e, s1).
Proof. unfold mbind, st_bind. by intros ->. Qed.

(** The request that fails the run [id]. *)
Definition fail_request (id : string) : string * string * jdict :=
  ("POST", "/runs/" +:+ id +:+ "/fail", [("failure_alias", JStr "provider-connect-error")]).

(** What a call did after its run was started. *)
Definition call_accounted {S} (t : HttpObservationTransport) (answers : nat -> http_answer) (id call : string) (rtcp : bool) (ts : nat -> datetime)
    (attempts : Z) (connect : Z -> connect_answer S) (r : result (opened S)) (rest : list (string * string * jdict)) : Prop :=
  (exists n session, 1 <= n <= attempts /\ connect n = Connects session /\ (forall j, 1 <= j < n -> Providers.refused (connect j))
    /\ (exists points, connected_metrics n ts = Ok points /\ rest = [post_batch id (only_metrics points)])
    /\ r = (_ ← send (answering answers 1) t id no_observations; Ok (MkOpened S id call session rtcp)))
  \/ ((forall j, 1 <= j <= attempts -> Providers.refused (connect j)) /\ is_ok r = false
      /\ exists points, exhausted_metrics attempts ts = Ok points /\ rest = [post_batch id (only_metrics points); fail_request id]).

(** C25. A started call is accounted for.  When the command can build the
    request of a run, it is the first thing the control plane is asked, and
    the provider is not called before the run is started: a refusal of it ends
    the call.  After that, either some attempt connects: the numbers of
    attempts and retries are sent in one batch, and when that is accepted the
    call has the session of the first attempt that connected; or all attempts
    are refused: their numbers are sent and then, whether or not that was
    accepted, the run is failed, once and as the last request, with the alias
    of a connection error, and the call ends with an exception.  No other
    request is made. *)
Theorem started_calls_are_accounted {S} t answers payload (connect : Z -> connect_answer S) attempts backoff rtcp ts u body :
  payload (uuid_str u) = Ok body -> 1 <= attempts <= 10 -> fltb backoff fzero = false ->
  let r := create_realtime_session t answers payload connect attempts backoff rtcp ts u (MkBridge []) in
  exists rest, requests r.2 = ("POST", "/runs/observed", body) :: rest
  /\ match (run ← _request (answering answers 0) t "POST" "/runs/observed" body; run_id_of run) with
     | Raise c m => r.1 = Raise c m /\ rest = []
     | Ok id => call_accounted t answers id (uuid_str u) rtcp ts attempts connect r.1 rest
     end.
Proof.
  intros Hp Ha Hb r. subst r. unfold create_realtime_session.
  rewrite (st_bind_eq (lift _) _ (MkBridge []) body (MkBridge [])) by (unfold lift; by rewrite Hp).
  set (s1 := MkBridge [("POST", "/runs/observed", body)]).
  assert (ask t answers "POST" "/runs/observed" body (MkBridge []) = (_request (answering answers 0) t "POST" "/runs/observed" body, s1)) as Eask by done.
  destruct (_request (answering answers 0) t "POST" "/runs/observed" body) as [run|c m].
  2: { rewrite (st_bind_raise _ _ _ _ _ _ Eask). exists []. split; [reflexivity|by split]. }
  rewrite (st_bind_eq _ _ _ _ _ Eask). cbn [mbind result_bind].
  destruct (run_id_of run) as [id|c m] eqn:Eid.
  2: { rewrite (st_bind_raise _ _ s1 c m s1) by reflexivity. exists []. split; [reflexivity|by split]. }
  rewrite (st_bind_eq _ _ s1 id s1) by reflexivity. clear Eask Eid.
  pose proof (retry_outcome connect attempts backoff Ha Hb) as Hout.
  destruct (connect_with_retry connect attempts backoff (fz 4)).1 as [session n|n reason error_type|c m]; [| |done].
  - destruct Hout as (Hn & Hc & Hj). destruct (connected_batch n ts) as (points & Hpoints & Hbatch & Hi); [lia|].
    rewrite (st_bind_eq _ _ s1 points s1) by (unfold lift; by rewrite Hpoints). pose proof (flush_once t answers id points s1 Hbatch Hi) as Ef.
    exists [post_batch id (only_metrics points)]. change (length (requests s1)) with 1%nat in Ef.
    split; [|left; exists n, session; split; [done|]; split; [done|]; split; [done|]; split; [by exists points|]];
      (destruct (send (answering answers 1) t id no_observations) as [[]|c m];
        [rewrite (st_bind_eq _ _ _ _ _ Ef)|rewrite (st_bind_raise _ _ _ _ _ _ Ef)]; reflexivity).
  - destruct Hout as [-> Hj]. destruct (exhausted_batch attempts ts) as (points & Hpoints & Hbatch & Hi); [lia|].
    rewrite (st_bind_eq _ _ s1 points s1) by (unfold lift; by rewrite Hpoints). pose proof (flush_once t answers id points s1 Hbatch Hi) as Ef.
    exists [post_batch id (only_metrics points); fail_request id]. unfold finally, mbind, st_bind. rewrite Ef. unfold ask, lift. cbn [requests length].
    destruct (_request _ t "POST" ("/runs/" +:+ id +:+ "/fail") _); destruct (send _ _ _ _);
      (split; [reflexivity|]; right; split; [done|]; split; [reflexivity|]; by exists points).
Qed.

(** ** A call whose provider answers on the third attempt *)

Definition sample_bridge_transport : HttpObservationTransport := new_transport "http://127.0.0.1:8000" (fz 2).
Definition sample_answers (n : nat) : http_answer :=
  match n with O => Answered (Some (JObj [("run_id", JStr "run-1")])) | _ => Answered (Some (JObj [])) end.
Definition sample_body : jdict := [("call_id", JStr "00000000-0000-0000-0000-000000000007")].
Definition sample_payload (call_id : string) : result jdict := Ok [("call_id", JStr call_id)].

Lemma sample_body_built : sample_payload (uuid_str 7) = Ok sample_body.
Proof. by vm_compute. Qed.
Lemma half_second : fltb (flit 5 10) fzero = false.
Proof. by vm_compute. Qed.

Example sample_call attempts :
  attempts = 3 \/ attempts = 2 ->
  length (requests (create_realtime_session sample_bridge_transport sample_answers sample_payload flaky attempts (flit 5 10) false (fun _ => Datetime 0 (Some 0)) 7 (MkBridge [])).2)
  = (if Z.eqb attempts 3 then 2%nat else 3%nat).
Proof. intros [-> | ->]; vm_compute; reflexivity. Qed.

Definition sample_realtime (attempts : Z) : result (opened unit) * bridge :=
  create_realtime_session sample_bridge_transport sample_answers sample_payload flaky attempts (flit 5 10) false (fun _ => Datetime 0 (Some 0)) 7 (MkBridge []).

Lemma sample_run_id :
  (run ← _request (answering sample_answers 0) sample_bridge_transport "POST" "/runs/observed" sample_body; run_id_of run) = Ok "run-1".
Proof. by vm_compute. Qed.

Lemma started_calls_are_accounted_witness : exists rest,
  requests (sample_realtime 3).2 = ("POST", "/runs/observed", sample_body) :: rest
  /\ call_accounted sample_bridge_transport sample_answers "run-1" (uuid_str 7) false (fun _ => Datetime 0 (Some 0)) 3 flaky (sample_realtime 3).1 rest.
Proof.
  pose proof (started_calls_are_accounted sample_bridge_transport sample_answers sample_payload flaky 3 (flit 5 10) false (fun _ => Datetime 0 (Some 0)) 7
    sample_body sample_body_built (conj (Zle_bool_imp_le 1 3 eq_refl) (Zle_bool_imp_le 3 10 eq_refl)) half_second) as H.
  cbv zeta in H. rewrite sample_run_id in H. exact H.
Defined.
