(* ===== verification/Commands.v ===== *)
(** * The commands

    The commands of [cli/main.py] on configurations, synthetic calls and
    treatment reports: which components a command runs, what it prints as JSON
    and the code it exits with.  Option parsing is not part of it: the
    arguments are values that passed it.  The files a command reads as JSON are
    a function of their paths, with their sizes. *)
From S2P Require Import Prelude Effects Collections PyFloat PyData PyFormat Bytes Json Wave Registry RunModel Timeline TypedTimeline SignalChecks Scoring Treatments Harness RecordingStorage SyntheticCaller Visqol.

Open Scope Z_scope.

(** ** Exceptions that a command turns into a usage error *)

(** The subclasses of [ValueError] and of [OSError]. *)
Definition is_value_error (c : exn_class) : bool :=
  match c with
  | ValueError | ConfigNotFoundError | ConfigValidationError | ManifestNotFoundError | StatisticsError => true
  | _ => false
  end.
Definition is_os_error (c : exn_class) : bool := match c with OSError | ConnectionError | TimeoutError => true | _ => false end.

(** [try: m; except caught: raise typer.BadParameter]. *)
Definition usage_error {A} (caught : exn_class -> bool) (message : string -> string) (m : result A) : result A :=
  match m with Raise c text => if caught c then Raise BadParameter (message text) else Raise c text | Ok a => Ok a end.

Definition unreadable (c : exn_class) : bool := is_os_error c || is_value_error c.

(** ** Report payloads *)

Definition regression_state_text (s : regression_state) : string :=
  match s with improved => "improved" | stable_ => "stable" | regressed => "regressed" | indeterminate => "indeterminate" end.

Definition regression_stage_payload (s : FullReferenceStageRegression) : json :=
  JObj [("baseline_mean", jnumber (baseline_mean s)); ("current_mean", jnumber (current_mean s)); ("delta", jnumber (delta s));
        ("reason_alias", text_or_null (reg_reason s)); ("stage", JStr (reg_stage s)); ("state", JStr (regression_state_text (reg_state s)));
        ("tolerance", JFloat (tolerance s))].

Definition regression_payload (r : FullReferenceRegressionReport) : json :=
  JObj [("baseline_treatment", JStr (baseline_treatment r)); ("current_treatment", JStr (current_treatment r));
        ("higher_is_better", JBool (higher_is_better (policy r))); ("metric_name", JStr (reg_metric_name r)); ("scorer", JStr (reg_scorer r));
        ("stable_tolerance", JFloat (stable_tolerance (policy r))); ("stages", JArr (map regression_stage_payload (reg_stages r)));
        ("summary", JObj (map (fun sn => (regression_state_text sn.1, JInt sn.2)) (summary r)))].

Definition repeatability_state_text (s : repeatability_state) : string :=
  match s with calibrated => "calibrated" | repeat_indeterminate => "indeterminate" end.

Definition repeatability_stage_payload (s : FullReferenceStageRepeatability) : json :=
  JObj [("maximum_mean", jnumber (maximum_mean s)); ("mean_of_means", jnumber (mean_of_means s)); ("minimum_mean", jnumber (minimum_mean s));
        ("observed_max_delta", jnumber (observed_max_delta s)); ("population_stddev", jnumber (rep_stddev s));
        ("reason_alias", text_or_null (rep_reason s)); ("repeat_count", JInt (rep_count s)); ("stage", JStr (rep_stage s));
        ("state", JStr (repeatability_state_text (rep_state s))); ("transformations", JArr (map JStr (rep_transformations s)))].

Definition repeatability_payload (r : FullReferenceRepeatabilityReport) : json :=
  JObj [("metric_name", JStr (contract_metric_name (repeat_contract r))); ("minimum_repeats", JInt (minimum_repeats r));
        ("repeat_count", JInt (repeat_count r)); ("scorer", JStr (scorer (repeat_contract r)));
        ("stages", JArr (map repeatability_stage_payload (repeat_stages r)))].

(** ** The commands on reports *)

Section reports.
(** The size of a file, and its contents as JSON. *)
Context (file_size : string -> result Z) (load_json : string -> result json).

Definition load_report_file (path : string) : result FullReferenceTreatmentReport :=
  size ← file_size path;
  _ ← guard_else (negb (_MAX_REPORT_BYTES <? size)) ValueError "treatment report exceeds size limit";
  payload ← load_json path;
  load_full_reference_treatment_report size payload.

Definition invalid_report (_ : string) : string := "treatment report is invalid or unsafe".

Definition has_regression (state : regression_state) (r : FullReferenceRegressionReport) : bool :=
  existsb (fun stage => bool_decide (reg_state stage = state)) (reg_stages r).

Definition comparison (baseline current : string) (stable_tolerance : float) (lower_is_better : bool) : result FullReferenceRegressionReport :=
  baseline_report ← load_report_file baseline;
  current_report ← load_report_file current;
  p ← make_policy stable_tolerance (negb lower_is_better);
  Ok (compare_full_reference_treatments baseline_report current_report p).

(** What is printed, and the exit code. *)
Definition visqol_compare_treatments (baseline current : string) (stable_tolerance : float) (lower_is_better : bool) : result (json * Z) :=
  report ← usage_error unreadable invalid_report (comparison baseline current stable_tolerance lower_is_better);
  Ok (regression_payload report,
      if has_regression regressed report then 1 else if has_regression indeterminate report then 2 else 0).

Definition calibration (reports : list string) (minimum_repeats : Z) : result FullReferenceRepeatabilityReport :=
  loaded ← mapM_res load_report_file reports;
  analyze_full_reference_repeatability loaded minimum_repeats.

Definition is_calibrated (s : FullReferenceStageRepeatability) : bool := match rep_state s with calibrated => true | _ => false end.

Definition visqol_calibrate_repeatability (reports : list string) (minimum_repeats : Z) : result (json * Z) :=
  report ← usage_error unreadable invalid_report (calibration reports minimum_repeats);
  Ok (repeatability_payload report, if existsb (fun s => negb (is_calibrated s)) (repeat_stages report) then 2 else 0).
End reports.

(** ** Scoring a pair of files *)

Section scores.
Context (netloc_check : list Ascii.ascii -> bool) (other_layout : bytes -> result wav_file).

Definition score_exit (state : score_state) : Z := match state with unavailable => 2 | scored => 0 | _ => 1 end.

Definition visqol_score (e : visqol_env) (s : storage) (reference degraded binary mode stage : string) (timeout_seconds : float)
    : result (json * Z) :=
  candidate ← usage_error unreadable (fun _ => "reference and degraded must be matching uncompressed mono PCM16 WAV files")
                (build_visqol_candidate other_layout e s stage reference degraded);
  self ← make_visqol_scorer binary mode timeout_seconds;
  let report := score_full_reference_selection (MkSelection [candidate] []) (visqol_scorer netloc_check other_layout self e s) in
  result ← from_option_err (head (results report)) IndexError "tuple index out of range";
  Ok (score_payload result, score_exit (res_state result)).
End scores.

(** ** The commands on configurations *)

Section configurations.
Context (validate_manifest : jdict -> option CapabilityManifest) (check_schema : jdict -> bool) (schema_accepts : jdict -> jdict -> bool)
  (validate_config : jdict -> option VoiceConfig) (dump_config : VoiceConfig -> jdict) (dump_io : IoContract -> jdict)
  (float_repr : float -> string) (load_json : string -> result json).

(** The files are registered one after the other; a manifest that is not an
    object is refused by Pydantic, a configuration has no [get] then. *)
Definition register_manifest_file (path : string) : st RegistryService unit :=
  raw ← lift (load_json path);
  match raw with
  | JObj d => _ ← register_manifest validate_manifest check_schema d; mret tt
  | _ => lift (Raise ConfigValidationError "invalid manifest")
  end.
Definition register_config_file (path : string) : st RegistryService unit :=
  raw ← lift (load_json path);
  match raw with JObj d => register_config d | _ => lift (Raise AttributeError "get") end.

Fixpoint for_each {T A} (f : A -> st T unit) (l : list A) : st T unit :=
  match l with [] => mret tt | a :: l' => _ ← f a; for_each f l' end.

Definition from_files (config_paths manifest_paths : list string) : result RegistryService :=
  match (_ ← for_each register_manifest_file manifest_paths; for_each register_config_file config_paths) (MkRegistry [] []) with
  | (Ok _, service) => Ok service
  | (Raise c m, _) => Raise c m
  end.

Definition _single_config_name (config_paths : list string) : result string :=
  match config_paths with
  | [path] => raw ← load_json path; meta ← json_item "meta" raw; str_json <$> json_item "name" meta
  | _ => Raise BadParameter "--name is required when multiple --config files are provided"
  end.

(** [name or _single_config_name(config)]. *)
Definition target_name (name : option string) (config_paths : list string) : result string :=
  match name with
  | Some n => if String.eqb n "" then _single_config_name config_paths else Ok n
  | None => _single_config_name config_paths
  end.

(** [None] when the fuel of the resolution runs out. *)
Definition resolve_target (config manifest : list string) (name : option string) : option (result ResolvedConfig) :=
  match (service ← from_files config manifest; target ← target_name name config; Ok (service, target)) with
  | Raise c m => Some (Raise c m)
  | Ok (service, target) =>
      Registry.resolve_config schema_accepts validate_config dump_config dump_io float_repr service target
  end.

(** The hash and the resolved configuration that are printed. *)
Definition resolve_config (config manifest : list string) (name : option string) : option (result (string * json)) :=
  match resolve_target config manifest name with
  | None => None
  | Some r => Some (resolved_config ← r; Ok (hash resolved_config, JObj (Registry.resolved resolved_config)))
  end.

(** ** The synthetic commands *)

Context (netloc_check : list Ascii.ascii -> bool) (other_layout : bytes -> result wav_file) (sin : float -> result float)
  (log10 : float -> result float) (dump_text : json -> bytes).

Definition run_exit (s : SyntheticState) : Z := match s with partial_ => 2 | failed_run => 1 | complete => 0 end.

Definition synthetic_visqol (ve : visqol_env) (e : caller_env) (config manifest : list string) (name : option string)
    (output_root binary mode : string) (audio : SyntheticAudioSpec) (timeout_seconds : float) : option (st storage (json * Z)) :=
  match resolve_target config manifest name with
  | None => None
  | Some r => Some (
      resolved_config ← lift r;
      self ← lift (make_visqol_scorer binary mode timeout_seconds);
      run ← run_synthetic_verification sin other_layout log10 e (Registry.resolved resolved_config) output_root audio
              (visqol_scorer netloc_check other_layout self ve) [];
      _ ← write_report dump_text e output_root "verification-report.json" (verification_payload run);
      mret (verification_payload run, run_exit (sv_state run)))
  end.

Definition treatment_spec (duration_seconds frequency_hz : float) : SyntheticAudioSpec :=
  MkAudioSpec 24000 1 duration_seconds 10000 frequency_hz.

(** The usage error of [m]; the files written before stay. *)
Definition usage_errors {T A} (caught : exn_class -> bool) (message : string -> string) (m : st T A) : st T A := fun s =>
  let '(r, s') := m s in (usage_error caught message r, s').

Definition synthetic_visqol_treatment (ve : visqol_env) (e : Z -> caller_env) (config manifest : list string) (name : option string)
    (output_root binary treatment mode : string) (sample_count minimum_samples : Z) (duration_seconds frequency_hz frequency_step_hz : float)
    (timeout_seconds : float) : option (st storage (json * Z)) :=
  match resolve_target config manifest name with
  | None => None
  | Some r => Some (
      resolved_config ← lift r;
      run ← usage_errors is_value_error id (
              self ← lift (make_visqol_scorer binary mode timeout_seconds);
              run_synthetic_treatment sin other_layout log10 dump_text e treatment sample_count minimum_samples (Registry.resolved resolved_config)
                output_root (treatment_spec duration_seconds frequency_hz) (visqol_scorer netloc_check other_layout self ve) frequency_step_hz);
      _ ← write_report dump_text (e sample_count) output_root "treatment-report.json" (treatment_payload run);
      mret (treatment_payload run, run_exit (st_state run)))
  end.
End configurations.

(** ** The gate on treatments *)

Definition stage_of (r : FullReferenceTreatmentReport) (k : string) : option FullReferenceStageAggregate := dict_get k (stage_index r).

(** The means [x] and [y] of the stage [k] are comparable. *)
Definition comparable (b c : FullReferenceTreatmentReport) (k : string) (x y : float) : Prop :=
  treatment_contract b = treatment_contract c
  /\ exists sb sc, stage_of b k = Some sb /\ stage_of c k = Some sc /\ agg_state sb = aggregated /\ agg_state sc = aggregated
     /\ agg_transformations sb = agg_transformations sc /\ mean sb = Some x /\ mean sc = Some y.

(** The change from [x] to [y], positive when it is for the better. *)
Definition change (p : FullReferenceRegressionPolicy) (x y : float) : float := if higher_is_better p then fsub y x else fopp (fsub y x).

(** The stage got worse by more than the tolerance. *)
Definition worse (p : FullReferenceRegressionPolicy) (b c : FullReferenceTreatmentReport) (k : string) : Prop :=
  exists x y, comparable b c k x y /\ fltb (change p x y) (fopp (stable_tolerance p)) = true.
Definition not_worse (p : FullReferenceRegressionPolicy) (b c : FullReferenceTreatmentReport) (k : string) : Prop :=
  exists x y, comparable b c k x y /\ fltb (change p x y) (fopp (stable_tolerance p)) = false.

Lemma reason_none ob oc m x y : _indeterminate_reason ob oc m = None /\ mean_of ob = Some x /\ mean_of oc = Some y
  <-> m = true /\ exists sb sc, ob = Some sb /\ oc = Some sc /\ agg_state sb = aggregated /\ agg_state sc = aggregated
      /\ agg_transformations sb = agg_transformations sc /\ mean sb = Some x /\ mean sc = Some y.
Proof.
  split.
  - unfold _indeterminate_reason. intros (H & Hx & Hy). destruct m, ob as [sb|], oc as [sc|]; cbn [negb mean_of] in *; try done.
    revert H. repeat (case_bool_decide; cbn [negb]; [|done]). intros _. split; [done|]. by exists sb, sc.
  - intros (-> & sb & sc & -> & -> & Hb & Hc & Ht & Hx & Hy). cbn [mean_of]. split; [|by split].
    unfold _indeterminate_reason. by rewrite Hb, Hc, Ht, !bool_decide_true, Hx, Hy by done.
Qed.

Definition compared (p : FullReferenceRegressionPolicy) (b c : FullReferenceTreatmentReport) (k : string) : FullReferenceStageRegression :=
  _compare_stage p (bool_decide (treatment_contract b = treatment_contract c)) k (stage_of b k) (stage_of c k).

Lemma compared_state p b c k : policy_valid p ->
  match reg_state (compared p b c k) with
  | regressed => worse p b c k
  | improved | stable_ => not_worse p b c k
  | indeterminate => forall x y, ~ comparable b c k x y
  end.
Proof.
  intros Hp. unfold compared, _compare_stage. set (m := bool_decide _).
  assert (forall x y, comparable b c k x y <->
            _indeterminate_reason (stage_of b k) (stage_of c k) m = None /\ mean_of (stage_of b k) = Some x /\ mean_of (stage_of c k) = Some y) as Hc.
  { intros x y. rewrite reason_none. unfold comparable, m. by rewrite bool_decide_eq_true. }
  destruct (_indeterminate_reason _ _ m) as [r|] eqn:E; [cbn [reg_state]; intros x y (? & _)%Hc; done|].
  destruct (no_reason_means _ _ _ E) as (x & y & Ex & Ey). rewrite Ex, Ey. cbn [reg_state]. unfold classify_delta. fold (change p x y). cbv zeta.
  assert (comparable b c k x y) as H by by apply Hc.
  destruct (fltb (stable_tolerance p) (change p x y)) eqn:E1.
  - exists x, y. split; [done|]. destruct (fltb (change p x y) _) eqn:E2; [|done]. destruct (tolerance_exclusive _ _ Hp E1 E2).
  - destruct (fltb (change p x y) _) eqn:E2; by exists x, y.
Qed.

Lemma comparable_unique b c k x y x' y' : comparable b c k x y -> comparable b c k x' y' -> x = x' /\ y = y'.
Proof. intros (_ & sb & sc & ? & ? & _ & _ & _ & ? & ?) (_ & sb' & sc' & ? & ? & _ & _ & _ & ? & ?). simplify_eq. done. Qed.

Lemma has_regression_spec state b c p : has_regression state (compare_full_reference_treatments b c p) = true
  <-> exists k, k ∈ compared_stages b c /\ reg_state (compared p b c k) = state.
Proof.
  unfold has_regression, compare_full_reference_treatments. cbn [reg_stages]. rewrite existsb_exists. split.
  - intros (r & (k & <- & Hk)%in_map_iff & Hr%bool_decide_eq_true). exists k. split; [by apply list_elem_of_In|done].
  - intros (k & Hk & Hr). exists (compared p b c k). split; [|by apply bool_decide_eq_true].
    apply in_map_iff. exists k. split; [done|by apply list_elem_of_In].
Qed.

Lemma worse_exclusive p b c k : worse p b c k -> not_worse p b c k -> False.
Proof. intros (x & y & Hk & E) (x' & y' & Hk' & E'). destruct (comparable_unique _ _ _ _ _ _ _ Hk Hk') as [<- <-]. congruence. Qed.

Lemma regressed_worse p b c k : policy_valid p -> reg_state (compared p b c k) = regressed <-> worse p b c k.
Proof.
  intros Hp. pose proof (compared_state p b c k Hp) as H. destruct (reg_state _); (split; [done || intros _; exact H|]); try done;
    intros Hw; try destruct (worse_exclusive _ _ _ _ Hw H).
  destruct Hw as (x & y & Hk & _). by destruct (H x y).
Qed.

Lemma kept_not_worse p b c k : policy_valid p ->
  reg_state (compared p b c k) <> regressed /\ reg_state (compared p b c k) <> indeterminate <-> not_worse p b c k.
Proof.
  intros Hp. pose proof (compared_state p b c k Hp) as H. destruct (reg_state _); (split; [intros [??]; done || exact H|]); try done;
    intros Hw; try destruct (worse_exclusive _ _ _ _ H Hw).
  destruct Hw as (x & y & Hk & _). by destruct (H x y).
Qed.

Lemma has_regression_false state b c p : has_regression state (compare_full_reference_treatments b c p) = false
  <-> forall k, k ∈ compared_stages b c -> reg_state (compared p b c k) <> state.
Proof.
  rewrite <- not_true_iff_false, has_regression_spec. split; [intros H k Hk E; apply H; by exists k|].
  intros H (k & Hk & E). by apply (H k).
Qed.

(** C40. The comparison of two treatments is a gate.  When the command prints a
    report, both files were loaded and the tolerance is valid; it exits with 1
    exactly when a stage of either report got worse by more than the
    tolerance, with 0 exactly when every stage of either report has, under the
    same contract and the same transformations, an aggregated mean in both
    reports that did not, and with 2 otherwise.  A file that is missing, too
    large or not a report, or an invalid tolerance, ends it as a usage error. *)
Theorem comparison_gate file_size load_json baseline current x lower :
  match visqol_compare_treatments file_size load_json baseline current x lower with
  | Ok (out, code) =>
      exists b c p, load_report_file file_size load_json baseline = Ok b /\ load_report_file file_size load_json current = Ok c
      /\ make_policy x (negb lower) = Ok p /\ out = regression_payload (compare_full_reference_treatments b c p)
      /\ (code = 0 \/ code = 1 \/ code = 2)
      /\ (code = 1 <-> exists k, k ∈ compared_stages b c /\ worse p b c k)
      /\ (code = 0 <-> forall k, k ∈ compared_stages b c -> not_worse p b c k)
      /\ (forall k, k ∈ compared_stages b c <-> k ∈ map agg_stage (stages b) \/ k ∈ map agg_stage (stages c))
  | Raise cls _ => cls = BadParameter \/ unreadable cls = false
  end.
Proof.
  unfold visqol_compare_treatments. destruct (comparison _ _ _ _ _ _) as [r|cls m] eqn:E; cbn [usage_error].
  2: { destruct (unreadable cls) eqn:Eu; [by left|by right]. }
  cbn [mbind result_bind]. unfold comparison in E.
  apply bind_ok_inv in E as (b & Hb & E). apply bind_ok_inv in E as (c & Hc & E). apply bind_ok_inv in E as (p & Hp & E). injection E as <-.
  exists b, c, p. split; [done|]. split; [done|]. split; [done|]. split; [done|].
  assert (policy_valid p) as Hv by by eapply make_policy_valid.
  split; [by repeat destruct (has_regression _ (compare_full_reference_treatments b c p)); auto|].
  split; [|split; [|apply compared_stages_ok]].
  - transitivity (has_regression regressed (compare_full_reference_treatments b c p) = true).
    { repeat destruct (has_regression _ (compare_full_reference_treatments b c p)); split; naive_solver lia. }
    rewrite has_regression_spec. by setoid_rewrite (regressed_worse p b c _ Hv).
  - transitivity (has_regression regressed (compare_full_reference_treatments b c p) = false
                  /\ has_regression indeterminate (compare_full_reference_treatments b c p) = false).
    { repeat destruct (has_regression _ (compare_full_reference_treatments b c p)); split; naive_solver lia. }
    rewrite !has_regression_false. split.
    + intros [Hr Hi] k Hk. apply (kept_not_worse _ _ _ _ Hv). split; [by apply Hr|by apply Hi].
    + intros H. split; intros k Hk; by apply (kept_not_worse _ _ _ _ Hv), H.
Qed.

(** ** The exit of a score *)

Lemma score_exit_scored state : score_exit state = 0 <-> state = scored.
Proof. by destruct state. Qed.

Lemma candidate_tried s c : res_state (_score_candidate s c) <> unavailable.
Proof. unfold _score_candidate. by repeat case_match. Qed.

(** When [visqol-score] prints a result, it is the one of the stage that was
    asked for, it exits with 0 exactly for a finite score from 1 to 5 and with
    2 exactly when the result is unavailable, which it is exactly when the
    binary cannot be executed. *)
Theorem score_exit_code netloc_check other_layout e s reference degraded binary mode stage timeout out code :
  visqol_score netloc_check other_layout e s reference degraded binary mode stage timeout = Ok (out, code) ->
  exists r, out = score_payload r /\ res_stage r = stage
    /\ (code = 0 <-> exists x, res_score r = Some x /\ is_finite x = true /\ fleb (fz 1) x = true /\ fleb x (fz 5) = true)
    /\ (code = 2 <-> binary_executable e = false).
Proof.
  unfold visqol_score. intros H. apply bind_ok_inv in H as (c & Hc & H). apply bind_ok_inv in H as (self & _ & H).
  apply bind_ok_inv in H as (r & Hr & H). injection H as <- <-. exists r. split; [done|].
  set (sc := visqol_scorer netloc_check other_layout self e s) in *.
  assert (Hstage : cand_stage c = stage).
  { destruct (build_visqol_candidate _ _ _ _ _ _) as [c'|cls m] eqn:E; cbn [usage_error] in Hc; [|by destruct (unreadable cls)].
    injection Hc as ->. unfold build_visqol_candidate in E. simpl_res. done. }
  assert (r ∈ results (score_full_reference_selection (MkSelection [c] []) sc)) as Hin.
  { destruct (results _) as [|r' l]; [done|]. injection Hr as ->. apply elem_of_cons. by left. }
  pose proof (scoring_stages (MkSelection [c] []) sc) as Hs. pose proof (scoring_safe (MkSelection [c] []) sc) as Hf.
  rewrite Forall_forall in Hf. specialize (Hf r Hin). destruct Hf as [_ Ho _].
  assert (res_stage r ∈ map res_stage (results (score_full_reference_selection (MkSelection [c] []) sc))) as Hk
    by (apply list_elem_of_fmap; by exists r).
  rewrite Hs in Hk. cbn in Hk. apply list_elem_of_singleton in Hk. rewrite Hk. split; [done|]. split.
  - rewrite score_exit_scored. split; [intros E; rewrite E in Ho; naive_solver|].
    intros (x & Hx & _). destruct (res_state r); [done|..]; destruct Ho as [E _]; congruence.
  - unfold score_full_reference_selection in Hr. cbn in Hr. unfold readiness_of in Hr. cbn [available] in Hr.
    destruct (binary_executable e) eqn:Eb; cbn in Hr; injection Hr as <-; [|done].
    pose proof (candidate_tried sc c). split; [|done]. by destruct (res_state _).
Qed.

(** ** Concrete reports *)

Definition sample_file_size (path : string) : result Z := if String.eqb path "missing.json" then Raise OSError "" else Ok 900.
Definition sample_load_json (path : string) : result json :=
  Ok (JObj (safe_payload (treatment_stages (if String.eqb path "three.json" then 3 else 4)))).

Example gate_codes :
  (fun r => match r with Ok (_, code) => Some code | Raise _ _ => None end)
    <$> [visqol_compare_treatments sample_file_size sample_load_json "three.json" "four.json" (flit 1 10) false;
         visqol_compare_treatments sample_file_size sample_load_json "four.json" "three.json" (flit 1 10) false;
         visqol_compare_treatments sample_file_size sample_load_json "four.json" "three.json" (flit 1 10) true;
         visqol_compare_treatments sample_file_size sample_load_json "missing.json" "three.json" (flit 1 10) true]
  = [Some 0; Some 1; Some 0; None].
Proof. vm_compute. reflexivity. Qed.
