(* ===== verification/RunQueries.v ===== *)
(** * What the run API answers to reads

    The reading handlers of [create_run_router] ([control_plane/run_api.py]):
    one run, its verdicts, its metrics and its timeline; the lists of runs and
    the live preview, also over the web socket; and the example of a request.
    The response models copy the fields of the stored artifacts, so an answer
    is given as the artifacts. *)
From S2P Require Import Prelude Effects Collections PyFloat PyData Bytes RunModel Timeline TypedTimeline Incidents RunStores SignalChecks ObservedRuns Trends RunLifeCycle.

Open Scope Z_scope.

Section queries.
Context {R F : Type} `{RunStore R F}.
Implicit Types (e : call_env F).

Definition get_run e (id : string) : st (RunApiState R) RunResponse := run ← find_run e id; mret (to_response run).

Definition get_run_verifications e (id : string) : st (RunApiState R) (list VerificationResult) :=
  run ← find_run e id; mret (verifications run).

Definition get_run_metrics e (id : string) : st (RunApiState R) (list MetricArtifact) := run ← find_run e id; mret (metrics run).

Definition get_run_timeline e (id : string) : st (RunApiState R) TimelineResponse := run ← find_run e id; lift (to_timeline run).

(** The lists; [list_recent] and [list_all] are the repository's. *)
Context (list_recent list_all : F -> st R (list StoredRun)).

Definition list_runs e : st (RunApiState R) (list RunSummary) :=
  runs ← on_repository (list_recent (on_get e)); mret (Trends.list_runs runs).

Definition list_live_preview e : st (RunApiState R) (list LiveRunStatus) :=
  runs ← on_repository (list_recent (on_get e)); lift (_live_preview runs).

Definition list_cross_session_trends e : st (RunApiState R) (list CrossSessionTrendResponse) :=
  runs ← on_repository (list_all (on_get e)); lift (_cross_session_trends runs).

(** [/live]: one message per round, until the client is gone, which the
    [n]-th send notices, or a listing fails.  Between two rounds other calls
    change the state: round [k] reads the state [states k]. *)
Fixpoint live_rounds (calls : nat -> call_env F) (states : nat -> RunApiState R) (k n : nat) : list (list LiveRunStatus) * result unit :=
  match fst (list_live_preview (calls k) (states k)) with
  | Raise c m => ([], Raise c m)
  | Ok message =>
      match n with
      | O => ([], Ok tt)
      | S n' => let '(sent, r) := live_rounds calls states (S k) n' in (message :: sent, r)
      end
  end.
Definition live_websocket (calls : nat -> call_env F) (states : nat -> RunApiState R) (n : nat) := live_rounds calls states 0 n.
End queries.

(** ** The example of a request *)

Section example.
(** [_load_json_file] without its handler of [OSError]. *)
Context (read_json : string -> result jdict).

Definition _load_json_file (name path : string) : result jdict :=
  match read_json path with
  | Raise OSError _ => http_error 500 ("example payload source is unavailable: " +:+ name)
  | r => r
  end.

Definition EXAMPLE_MANIFEST_PATHS : list (string * string) :=
  [("asterisk.json", "manifests/engine/asterisk.json"); ("gemini.json", "manifests/provider/gemini.json");
   ("resampler.json", "manifests/processor/resampler.json"); ("agc.json", "manifests/processor/agc.json");
   ("limiter.json", "manifests/processor/limiter.json"); ("serializer.json", "manifests/processor/serializer.json")].

Definition example_environment (p : EnvironmentProfile) : RunEnvironmentMetadata :=
  MkEnvironment p (Some (profile_text p +:+ "-host-a")) (Some "integration-target-a") (Some "example-snapshot-ref")
    (Some "web-async-run-example") (Some "Example aliases only; replace before demo or integration use.") [] ["phase4"; "example"]
    (Some "example-run-ref") ["example-provider-api-key-ref"].

Definition _example_run_payload (p : EnvironmentProfile) : result RunCreateRequest :=
  config ← _load_json_file "valid-baseline.json" "configs/valid-baseline.json";
  manifests ← mapM_res (fun np => _load_json_file np.1 np.2) EXAMPLE_MANIFEST_PATHS;
  environment ← validate_environment (example_environment p);
  checklist ← mapM_res validate_item (map (fun il => MkReadinessItem il.1 il.2 ready_unknown None) DEFAULT_READINESS_ITEMS);
  _ ← require_unique_checklist_items checklist;
  Ok (MkCreate "baseline" [config] manifests None environment checklist).
End example.

(** Nothing in the example is refused by the validation of a request: it is
    answered whenever its files are read, as it was written. *)
Lemma example_is_valid read_json p r : _example_run_payload read_json p = Ok r ->
  rc_environment r = example_environment p /\ rc_checklist r = _default_readiness_checklist.
Proof.
  unfold _example_run_payload. intros H. simpl_res. cbn [rc_environment rc_checklist].
  destruct p; by vm_compute in *; simplify_eq.
Qed.

(** ** What was answered is read back *)

Section reads.
Context {R F : Type} `{RunStoreLaws R F}.
Context (open_wav : gmap string bytes -> string -> result wav_file) (log10 : float -> result float).
Implicit Types (e : call_env F) (s : RunApiState R).

(** A read finds the run that is stored, changes nothing, and answers 404
    exactly when there is none. *)
Lemma read_spec e id s r s' : store_ok (repository s) -> find_run e id s = (r, s') ->
  s' = s /\ match r with
            | Ok run => exists k, key_of id = Some k /\ run_at s k = Some run
            | Raise HTTPException _ => key_of id ≫= run_at s = None
            | Raise _ _ => True
            end.
Proof.
  intros Hok. unfold find_run, on_repository, mbind, st_bind.
  destruct (fetch (on_get e) id (repository s)) as [r0 repo] eqn:Ef. pose proof (fetch_spec _ _ _ _ _ Ef) as [-> Hr].
  assert (MkApi (repository s) (audio_buffers s) (files s) = s) as -> by by destruct s.
  destruct r0 as [o|c a].
  - specialize (Hr o eq_refl). destruct o as [run|]; unfold mret, st_ret, lift; intros [= <- <-]; (split; [done|]).
    + destruct (key_of id) as [k|]; [|done]. by exists k.
    + by destruct (key_of id) as [k|].
  - intros [= <- <-]. split; [done|]. pose proof (fetch_raises _ _ _ _ _ _ Ef). by destruct c.
Qed.

(** Two answers for a run agree but for the driver's form of JSON values. *)
Definition same_answer (a b : RunResponse) : Prop :=
  resp_status a = resp_status b /\ resp_failure_alias a = resp_failure_alias b /\ resp_metrics a = resp_metrics b
  /\ map (fun v => (ver_stage v, ver_invariant v, ver_passed v, ver_detail v)) (resp_verifications a)
     = map (fun v => (ver_stage v, ver_invariant v, ver_passed v, ver_detail v)) (resp_verifications b)
  /\ map (fun r => (rec_stage r, rec_uri r, rec_duration_ms r)) (resp_recordings a)
     = map (fun r => (rec_stage r, rec_uri r, rec_duration_ms r)) (resp_recordings b).

(** The answer [resp] for the run [id] is what a later read gives. *)
Definition read_back (id : string) (resp : RunResponse) s : Prop := forall e,
  match get_run e id s with
  | (Ok resp', s') => s' = s /\ same_answer resp' resp
  | (Raise c _, s') => s' = s /\ c <> HTTPException
  end.

Lemma same_run_answer a b : same_run a b -> same_answer (to_response a) (to_response b).
Proof. intros []. by split_and!. Qed.

Lemma stored_read_back id k run v s : store_ok (repository s) -> key_of id = Some k -> run_at s k = Some v -> same_run v run ->
  read_back id (to_response run) s.
Proof.
  intros Hok Hk Hv Hs e. unfold get_run, mbind, st_bind. destruct (find_run e id s) as [r s'] eqn:E.
  apply read_spec in E as [-> Hr]; [|done]. destruct r as [run'|c m].
  - destruct Hr as (k' & Hk' & Hv'). rewrite Hk in Hk'. injection Hk' as <-. rewrite Hv in Hv'. injection Hv' as <-.
    split; [done|]. by apply same_run_answer.
  - split; [done|]. intros ->. by rewrite Hk in Hr; cbn in Hr; rewrite Hv in Hr.
Qed.

Lemma saved_read_back k run0 s0 e run s u s' id : working k run0 s0 run s -> key_of id = Some k ->
  save_run e run s = (Ok u, s') -> read_back id (to_response run) s'.
Proof.
  intros Hw Hk Hs. eapply working_save in Hs as (Hw' & _ & _ & Hv); [|done]. destruct (Hv eq_refl) as (v & Hv1 & Hv2).
  eapply stored_read_back; [by eapply working_ok|done..].
Qed.

(** A run that was ended as observed reads back as it was answered, whatever
    kept it; ending it again answers it and changes nothing. *)
Theorem ended_run_is_read_back e id alias resp s s' : store_ok (repository s) ->
  complete_observed_run open_wav log10 e id s = (Ok resp, s') \/ fail_observed_run e id alias s = (Ok resp, s') ->
  read_back id resp s'.
Proof.
  intros Hok [Hc|Hc].
  - unfold complete_observed_run in Hc. apply st_bind_ok in Hc as (run & s1 & Hf & Hc).
    destruct (find_run_spec _ _ _ _ _ Hok Hf) as [-> Hr]. destruct (Hr run eq_refl) as (k & Hk & Hv & Hw).
    destruct (String.eqb_spec (status run) "completed").
    { injection Hc as <- <-. eapply stored_read_back; eauto using same_run_refl. }
    destruct (String.eqb_spec (status run) "running"); [|done]. cbn [negb] in Hc.
    apply st_bind_ok in Hc as (s2 & s3 & [= <- <-] & Hc). apply st_bind_ok in Hc as (v & s2 & [Hv2 ->]%lift_ok & Hc).
    apply st_bind_ok in Hc as (run1 & s2 & Hu & Hc). eapply working_update in Hu as ([= ->] & Hw1 & _); [|done|by apply allowed_completed].
    apply st_bind_ok in Hc as (u & s3 & [= _ <-] & Hc). apply st_bind_ok in Hc as (u' & s4 & Hs & [= <- <-]).
    eapply saved_read_back; [|exact Hk|exact Hs]. by eapply working_repository, Hw1.
  - unfold fail_observed_run in Hc. apply st_bind_ok in Hc as (run & s1 & Hf & Hc).
    destruct (find_run_spec _ _ _ _ _ Hok Hf) as [-> Hr]. destruct (Hr run eq_refl) as (k & Hk & Hv & Hw).
    destruct (String.eqb_spec (status run) "failed").
    { injection Hc as <- <-. eapply stored_read_back; eauto using same_run_refl. }
    destruct (String.eqb_spec (status run) "running"); [|done]. cbn [negb] in Hc.
    apply st_bind_ok in Hc as (run1 & s2 & Hu & Hc). eapply working_update in Hu as ([= ->] & Hw1 & _); [|done|by apply allowed_failed].
    apply st_bind_ok in Hc as (u & s3 & [= _ <-] & Hc). apply st_bind_ok in Hc as (u' & s4 & Hs & [= <- <-]).
    eapply saved_read_back; [|exact Hk|exact Hs]. by eapply working_repository, Hw1.
Qed.
End reads.
